(* ===== verification/_CoqProject ===== *)
-Q . S2P
Prelude.v
JsString.v
Display.v
Encoding.v
Json.v
Regexp.v
RegExec.v
Calendar.v
Floats.v
Pricing.v
Wasm.v
MessageCrypto.v
Totp.v
Client.v
Progress.v
Page.v
Api.v
AppState.v
MailView.v
Filing.v
Reading.v
MailboxData.v
Settling.v
Shield.v
Outbound.v
ComposeMail.v
Contacts.v
Organize.v
Session.v
ListPane.v
Editor.v
SignIn.v
MailSettings.v
ImportEmails.v
Recover.v
SetupAccount.v
Security.v
AutoReply.v
FiltersTab.v
Custody.v
Accounts.v
AddMailbox.v
ControlApi.v
ControlKeys.v
ControlPages.v
Checkout.v
PasskeysPage.v
PublicSite.v
RecoveryPage.v
Onboarding.v
OrgContext.v
MailboxesPage.v
MembersPage.v
DomainsPage.v
StoragePage.v
SupportCrm.v
