(* ===== verification/Prelude.v ===== *)
(** * Verification of the BYOS Email browser clients

    BYOS Email is an end-to-end encrypted mail service.  Its servers (Go and Rust, under
    services/) store and forward ciphertext; the clients hold the keys.  This development
    models the web mail client (apps/webmail), the control plane in which organizations
    manage mailboxes, members, domains and storage (apps/control-plane), the support
    console (apps/support-crm), the sign-up and sign-in of the public site
    (apps/public-site), and the boundary of the crypto core (packages/crypto-core) they call.

    ** How the program is modelled

    The mail client is one reactive component, webmail/src/App.tsx.  Its signals and the two
    browser stores are the record [AppState.App], grouped by concern ([Mail], [Custody],
    [Reading], [Compose], [ContactsPane], [Login], [Recovery], [Prefs]).  Strings are
    sequences of UTF-16 code units ([jstr]), byte arrays are sequences of bytes, numbers
    that stay integers are [Z] with their range where it matters, and money is binary64
    ([Floats]).  A function that can throw returns an [outcome].  An asynchronous handler is
    a [Client.prog]: a tree of its effects - reads and writes of the state, requests, other
    awaits, dialogs, promises nobody awaits - which runs atomically between suspension
    points.  [Client.run] runs one alone; [Client.step] is the interleaving semantics, in
    which user events start handlers and pending ones resume with any reply.  A page or a
    dialog with signals of its own is a record beside the state it shares, and its handlers
    are programs over the pair ([Page]); the shared part is [AppState.App] in the mail
    client, [ControlApi.Panel] in the control plane.

    ** The files

    Foundations:
    - Prelude, JsString, Json, Floats: exceptions, lists and the parts of ECMAScript and the
      web platform the code uses, with the JSON round trip;
    - Regexp, RegExec: regular expressions, as languages for the tests and as a backtracking
      matcher with captures and replacement; Calendar: dates in a time zone;
    - Client, Progress, Page: programs, their interleaving, rely-guarantee rules,
      instrumentation by auxiliary state, termination and debts; pages with a state of
      their own over a shared one.

    The mail client:
    - Encoding, Display, Totp: attachment_crypto.ts and encoding.ts (codecs), dateTime.ts,
      fileType.ts and signature.ts, totp.ts;
    - Wasm, MessageCrypto: the exports of packages/crypto-core/src/lib.rs over abstract
      primitives (class [Crypto], laws [CryptoLaws]), and message_crypto.ts;
    - Api: api.ts, over any state with a session store (class [SessionStorage]);
    - AppState, MailView, Filing: the state, the message list, and the abstract filing
      cabinet it implements;
    - Reading, MailboxData, Settling: [openMessage], search and locking,
      [loadMailboxData], and that opening a message comes to an end;
    - Shield: ReadingPane.tsx, its tracker shield and what it shows of a message;
    - Outbound, ComposeMail: MIME text and outbound envelopes, [handleSend], drafts,
      attachments, replies and forwards;
    - ListPane, Editor: the components around them: InboxToolbar.tsx, MessageList.tsx,
      MessageRow.tsx, Sidebar.tsx and AccountSwitcher.tsx; RichTextEditor.tsx and
      ComposeDrawer.tsx;
    - Contacts, Organize: contacts; folders and labels (one code, two instances of [Kind]);
    - Session, SignIn, Recover: [bootstrapSession], accounts, page load and signing out;
      every way of signing in and unlocking; the recovery dialog;
    - SetupAccount, Security, MailSettings, AutoReply, FiltersTab: the page
      setup-account.tsx, which claims an invitation, and the settings: SecurityTab.tsx;
      AppearanceTab.tsx, SignaturesTab.tsx and BridgeTab.tsx; AutoReplyTab.tsx;
      FiltersTab.tsx;
    - ImportEmails, AddMailbox: the dialogs ImportEmailsModal.tsx and AddMailboxModal.tsx;
    - Custody, Accounts: what holds of keys, accounts and stores under App.tsx's handlers.

    The control plane:
    - ControlApi, ControlKeys: src/lib/api over the state [Panel]; client_crypto.ts, the
      functions of mailboxes.ts that make, invite and recover mailboxes, and
      validation/storage.ts;
    - ControlPages, OrgContext: the routes register.tsx and login.tsx ([Signup], [Signin]);
      the session the dashboard shares (OrgContext.tsx) and AuthGuard.tsx;
    - Pricing, Checkout: pricing_math.ts; the calculator, the capacity page and the checkout
      of routes/onboarding;
    - MailboxesPage, MembersPage, DomainsPage, StoragePage, RecoveryPage, PasskeysPage: the
      routes of the dashboard of these names (members.tsx with billing.tsx, domains.tsx with
      DomainWizard.tsx, storage.tsx with ConnectStorageDialog.tsx, and security.tsx);
    - Onboarding: how an invitation of the control plane, the set-up page and the security
      settings fit together.

    The other clients:
    - PublicSite: RegisterForm.tsx, LoginForm.tsx and HeaderUserNav.tsx of the public site;
    - SupportCrm: App.tsx and lib/api.ts of the support console.

    Names are those of the sources, with the page's name in front where two pages use one;
    a definition without counterpart of its name is a piece of the function its comment or
    neighbours name.

    ** What the theorems show

    Cryptographic use: a stored message opens only where it was sealed for, envelopes of
    drafts, contacts and messages are separate, wrapped keys open with their secret only,
    what is sealed for sending opens at the worker ([MessageCrypto], [Outbound]).
    Confidentiality and integrity of the page under every interleaving: the pane shows the
    selected message only, a locked mailbox reveals and sends nothing, keys are bytes
    that belong to an unlocked mailbox, the durable store holds no keys; what signing out
    clears and what it leaves; a message that the server did not accept stays in its form
    ([Reading], [MailboxData], [ComposeMail], [Custody], [Accounts]).  The message list keeps
    its invariant, refines the cabinet of [Filing], and its counters agree with the pages of
    its views.  Progress: when no work is pending the pane has settled ([Settling]).  What the shield lets through has no tracker it
    knows ([Shield]).  What a drag drops is what is filed, the editor hands over sanitized HTML,
    and a reply to one message can carry the text meant for another ([ListPane], [Editor]).
    Round trips through the server: drafts, contacts, keys over a reload,
    connected and managed mailboxes, filters, the reply window, the key of an invitation and
    the phrase the set-up page seals ([Onboarding]).  Round trips of files: imported
    archives, exported tables ([ImportEmails], [SupportCrm]); every chosen file of an import
    is accounted for.  What the pages around the mailbox do to its key: claiming, passkeys,
    reactivation, changing the password, recovery ([SetupAccount], [Security], [Recover]).
    The control plane: what registration, sign-in and invitations send and what of it opens
    what ([ControlKeys], [ControlPages]), which requests carry the session ([ControlApi]),
    what the guard shows to whom and where it sends the others ([OrgContext]), that invitations of the page are private
    ([MailboxesPage]), which names are domains ([DomainsPage]), where storage credentials
    go ([StoragePage]), what recovery and rotation of keys achieve ([RecoveryPage]), and
    that the checkout reads from its address what was shown, and always activates
    ([Checkout]).  The console's optimistic updates
    show before the reply and are rolled back ([SupportCrm]).  Exactness: pricing to the cent, one-time passwords,
    codecs, requests.  Where the code does not do what it means to, a theorem or an
    [Example] shows the behaviour as it is (a lost conflict text, a replaced key, decryption
    after a lock, keys in the durable store after leaving an account, a password and decrypted previews kept over signing out,
    recovery words that
    recover nothing, rotations that lock out, a password sent in clear).

    ** Assumptions, bounds and fuel

    The primitives of the crypto core (Ed25519 and PBKDF2 included), the browser's calendar,
    locale and time zone ([Display.Dates], [Calendar]), date texts outside the standard's
    format, Unicode case mapping ([JsString.Unicode]), the authenticator, DOMPurify, the
    commands of an editable document ([Editor.Browser]) and the scaling of pictures are
    parameters; the laws assumed of the primitives are in
    [Wasm.CryptoLaws] and hold of a toy instance, with which the witnesses run.  Resources
    and effects of SolidJS do what its documentation says.  No theorem is about the strength
    of a cipher.  The only fuel is the length of the text a scanner consumes ([chunks],
    [split_blank_lines], the JSON parser, the pieces between matches of [RegExec]), which
    its steps strictly shorten.  Modules imported on demand load, and what the envelope of
    HPKE is made of belongs to the primitives: its errors have one text.  Requests started together ([Client.promise_all]) report the
    leftmost failure, JavaScript the first; the property proofs allow any replies.

    ** What is not modelled

    Rendering, routing, signals that only open and close dialogs and menus, timers other
    than the undo timer and the console's polling, and files dropped from other programs.
    Avatars, badges and the dialogs that name folders and labels are JSX over the modelled
    functions; qr.ts draws an image.  The overview and the settings route of the dashboard
    show lengths of lists and links; the static pages of the public site, and the site's and
    the console's copies of pricing_math.ts, are left out.  Servers, tools and infrastructure
    are seen as replies to requests. *)

From stdpp Require Export base tactics list gmap strings sorting.
From Stdlib Require Export ZArith Lia.

Declare Scope js_scope.
Delimit Scope js_scope with js.
#[global] Open Scope Z_scope.

(** ** Values every component shares *)

(** A JavaScript string is its sequence of UTF-16 code units. *)
Abbreviation jstr := (list Z).

(** A [Uint8Array] is its sequence of byte values. *)
Abbreviation bytes := (list Z).

Definition is_byte (b : Z) : Prop := 0 <= b < 256.
Definition is_unit (u : Z) : Prop := 0 <= u < 65536.

#[global] Instance is_byte_dec b : Decision (is_byte b).
Proof. unfold is_byte. apply _. Defined.
#[global] Instance is_unit_dec b : Decision (is_unit b).
Proof. unfold is_unit. apply _. Defined.

(** [js "..."] is the JavaScript string with these (ASCII) characters. *)
Definition js (s : string) : jstr :=
  map (fun c => Z.of_N (Ascii.N_of_ascii c)) (String.list_ascii_of_string s).

(** ** Exceptions *)

(** What can be thrown: an [Error] with its message and the [status] the API
    clients attach to it, or a bare string (the crypto core rejects with
    [JsValue::from_str], which is not an [Error]). *)
Inductive js_error :=
| JsError (msg : jstr) (st : option Z)
| JsThrown (value : jstr).

(** [err?.message]; a string has no such property, and the [undefined] it gives
    is falsy like the empty message. *)
Definition message (e : js_error) : jstr :=
  match e with JsError m _ => m | JsThrown _ => [] end.

(** [err?.status] *)
Definition status (e : js_error) : option Z :=
  match e with JsError _ s => s | JsThrown _ => None end.

Inductive outcome (A : Type) : Type :=
| Ok (a : A)
| Throw (e : js_error).
Arguments Ok {A} a.
Arguments Throw {A} e.

Definition throw {A} (s : string) : outcome A := Throw (JsError (js s) None).

#[global] Instance outcome_ret : MRet outcome := fun A a => Ok a.
#[global] Instance outcome_bind : MBind outcome := fun A B f m =>
  match m with Ok a => f a | Throw e => Throw e end.
#[global] Instance outcome_fmap : FMap outcome := fun A B f m =>
  match m with Ok a => Ok (f a) | Throw e => Throw e end.

(** [try { m } catch { h }]. *)
Definition try_catch {A} (m : outcome A) (h : js_error -> outcome A) : outcome A :=
  match m with Ok a => Ok a | Throw e => h e end.

Definition is_ok {A} (m : outcome A) : bool :=
  match m with Ok _ => true | Throw _ => false end.

Definition of_option {A} (e : js_error) (o : option A) : outcome A :=
  match o with Some a => Ok a | None => Throw e end.

(** ** Shared automation *)

Create HintDb byos.

(** Case analysis on every [if] and [match] of the goal, closing the
    arithmetically impossible branches. *)
Ltac split_ifs :=
  repeat match goal with
  | |- context [if ?b then _ else _] =>
      let E := fresh "E" in destruct b eqn:E; try lia
  end.

(** Reduce boolean comparisons on [Z] to propositions. *)
Ltac zbool :=
  repeat match goal with
  | H : (_ && _)%bool = true |- _ => apply andb_true_iff in H as [? ?]
  | H : (_ || _)%bool = false |- _ => apply orb_false_iff in H as [? ?]
  | H : (_ =? _) = true |- _ => apply Z.eqb_eq in H
  | H : (_ =? _) = false |- _ => apply Z.eqb_neq in H
  | H : (_ <=? _) = true |- _ => apply Z.leb_le in H
  | H : (_ <=? _) = false |- _ => apply Z.leb_gt in H
  | H : (_ <? _) = true |- _ => apply Z.ltb_lt in H
  | H : (_ <? _) = false |- _ => apply Z.ltb_ge in H
  end.

(** Division and remainder by constants, for [lia]. *)
Ltac zdm := Z.div_mod_to_equations; lia.

(** Run the outcome monad one step, leaving the operations folded. *)
Ltac ok_bind := cbn [mbind outcome_bind fmap outcome_fmap].

(** Case analysis on the outcome of the step to run next. *)
Ltac bind_cases :=
  repeat match goal with
  | |- context [@mbind outcome _ _ _ ?f ?m] =>
      lazymatch m with
      | context [@mbind] => fail
      | _ => destruct m; ok_bind; try reflexivity
      end
  end.

(** A closed decidable goal, by evaluation. *)
Ltac by_decide := apply (bool_decide_unpack _); vm_compute; exact I.

(** Split [Forall] goals over explicit lists. *)
Ltac forall_split :=
  repeat first [apply Forall_nil; exact I | apply Forall_cons; split].

(** ** Finite checks over the bytes *)

Definition all_bytes : list Z := map Z.of_nat (seq 0 256).

Lemma all_bytes_complete b : is_byte b -> In b all_bytes.
Proof.
  unfold is_byte, all_bytes. intros H.
  apply in_map_iff. exists (Z.to_nat b). split; [lia|].
  apply in_seq. lia.
Qed.

(** A decidable fact about one byte, from its evaluation on all 256. *)
Lemma byte_check (p : Z -> bool) :
  forallb p all_bytes = true -> forall b, is_byte b -> p b = true.
Proof.
  intros H b Hb. rewrite forallb_forall in H. by apply H, all_bytes_complete.
Qed.

(** Closes [is_byte b -> f b = g b] by evaluating both sides on every byte;
    [f] and [g] must compute. *)
Ltac byte_cases b Hb :=
  revert b Hb;
  match goal with
  | |- forall b, is_byte b -> @?f b = @?g b =>
      let H := fresh in
      assert (H : forall b, is_byte b -> bool_decide (f b = g b) = true)
        by (apply byte_check; vm_compute; reflexivity);
      intros b Hb; exact (proj1 (bool_decide_eq_true (f b = g b)) (H b Hb))
  end.

(** ** Lists *)

Lemma Forall_map_impl {A B} (f : A -> B) (P : A -> Prop) (Q : B -> Prop) l :
  (forall x, P x -> Q (f x)) -> Forall P l -> Forall Q (map f l).
Proof. intros Hf. induction 1; simpl; constructor; auto. Qed.

(** Induction three elements at a time, the shape of base64 groups. *)
Lemma list_ind3 {A} (P : list A -> Prop) :
  P [] -> (forall a, P [a]) -> (forall a b, P [a; b]) ->
  (forall a b c l, P l -> P (a :: b :: c :: l)) -> forall l, P l.
Proof.
  intros H0 H1 H2 H3.
  fix IH 1. intros [|a [|b [|c l]]]; [exact H0|apply H1|apply H2|apply H3, IH].
Qed.

(** Induction two elements at a time, the shape of hex digit pairs. *)
Lemma list_ind2 {A} (P : list A -> Prop) :
  P [] -> (forall a, P [a]) -> (forall a b l, P l -> P (a :: b :: l)) -> forall l, P l.
Proof. intros H0 H1 H2. fix IH 1. intros [|a [|b l]]; [exact H0|apply H1|apply H2, IH]. Qed.

(** Induction with the hypothesis for the tail and for the tail of the tail:
    the shape of scanners that consume one element or two. *)
Lemma list_ind_tails {A} (P : list A -> Prop) :
  P [] -> (forall a l, P l -> P (tail l) -> P (a :: l)) -> forall l, P l.
Proof.
  intros H0 H1 l. enough (P l /\ P (tail l)) by tauto.
  induction l as [|a l [IH IH']]; simpl; auto.
Qed.

(** Consecutive pieces of length [n] (the last may be shorter): the sequence
    of [slice(i, i + n)] for [i = 0, n, 2n, ...]. *)
Fixpoint chunks_fuel {A} (fuel n : nat) (l : list A) : list (list A) :=
  match fuel with
  | O => []
  | S fuel =>
      match l with
      | [] => []
      | _ => take n l :: chunks_fuel fuel n (drop n l)
      end
  end.

Definition chunks {A} (n : nat) (l : list A) : list (list A) :=
  chunks_fuel (length l) n l.

Lemma concat_chunks_fuel {A} fuel n (l : list A) :
  (0 < n)%nat -> (length l <= fuel)%nat -> concat (chunks_fuel fuel n l) = l.
Proof.
  intros Hn. revert l. induction fuel as [|fuel IH]; intros l Hl.
  - by destruct l; simpl in Hl; [|lia].
  - destruct l as [|a l]; [done|]. cbn [chunks_fuel concat].
    rewrite IH; [apply take_drop|]. rewrite length_drop. simpl in *. lia.
Qed.

Lemma concat_chunks {A} n (l : list A) : (0 < n)%nat -> concat (chunks n l) = l.
Proof. intros. by apply concat_chunks_fuel. Qed.

(** [Array.from(new Set(xs))]: first occurrences, in order. *)
Fixpoint uniq_from {A} `{EqDecision A} (seen : list A) (l : list A) : list A :=
  match l with
  | [] => []
  | x :: l' =>
      if decide (x ∈ seen) then uniq_from seen l' else x :: uniq_from (x :: seen) l'
  end.

Definition uniq {A} `{EqDecision A} (l : list A) : list A := uniq_from [] l.

Lemma elem_of_uniq_from {A} `{EqDecision A} (seen l : list A) x :
  x ∈ uniq_from seen l <-> x ∈ l /\ x ∉ seen.
Proof.
  revert seen. induction l as [|y l IH]; intros seen; simpl; [set_solver|].
  destruct (decide (y ∈ seen)) as [Hy|Hy]; rewrite ?elem_of_cons, IH.
  - split; [tauto|]. intros [[->|?] ?]; done.
  - rewrite elem_of_cons. destruct (decide (x = y)) as [->|]; tauto.
Qed.

Lemma elem_of_uniq {A} `{EqDecision A} (l : list A) x : x ∈ uniq l <-> x ∈ l.
Proof. unfold uniq. rewrite elem_of_uniq_from. set_solver. Qed.

Lemma NoDup_uniq_from {A} `{EqDecision A} (seen l : list A) : NoDup (uniq_from seen l).
Proof.
  revert seen. induction l as [|y l IH]; intros seen; simpl; [constructor|].
  case_decide; [done|]. constructor; [|done].
  rewrite elem_of_uniq_from, elem_of_cons. tauto.
Qed.

Lemma NoDup_uniq {A} `{EqDecision A} (l : list A) : NoDup (uniq l).
Proof. apply NoDup_uniq_from. Qed.
