(* ===== verification/JsString.v ===== *)
(** * JavaScript strings

    The string operations of ECMAScript and of the web platform that the
    sources call: [trim], [split], [includes], [padStart], [parseInt],
    number formatting, and [TextEncoder]/[TextDecoder].  Strings are sequences
    of UTF-16 code units, so lone surrogates and byte-order marks behave as they
    do in a browser. *)

From S2P Require Import Prelude.

(** ** White space and trimming *)

(** The code units [String.prototype.trim] and [/\s/] treat as white space:
    ECMAScript WhiteSpace and LineTerminator. *)
Definition is_white (u : Z) : bool :=
  ((9 <=? u) && (u <=? 13)) || (u =? 32) || (u =? 160) || (u =? 0x1680)
  || ((0x2000 <=? u) && (u <=? 0x200A)) || (u =? 0x2028) || (u =? 0x2029)
  || (u =? 0x202F) || (u =? 0x205F) || (u =? 0x3000) || (u =? 0xFEFF).

(** The code units [.] of a regular expression does not match. *)
Definition is_line_terminator (u : Z) : bool :=
  (u =? 10) || (u =? 13) || (u =? 0x2028) || (u =? 0x2029).

Fixpoint trim_start (s : jstr) : jstr :=
  match s with
  | u :: s' => if is_white u then trim_start s' else s
  | [] => []
  end.

Definition trim_end (s : jstr) : jstr := reverse (trim_start (reverse s)).

Definition trim (s : jstr) : jstr := trim_end (trim_start s).

(** A string is falsy exactly when it is empty. *)
Definition truthy (s : jstr) : bool := match s with [] => false | _ => true end.

(** [a || b] on strings. *)
Definition or_default (a b : jstr) : jstr := if truthy a then a else b.

Definition jeqb (a b : jstr) : bool := bool_decide (a = b).

(** ** Searching and splitting *)

Fixpoint starts_with (p s : jstr) : bool :=
  match p, s with
  | [], _ => true
  | a :: p', b :: s' => (a =? b) && starts_with p' s'
  | _ :: _, [] => false
  end.

Fixpoint includes (s p : jstr) : bool :=
  starts_with p s || match s with [] => false | _ :: s' => includes s' p end.

(** [s.split(c)] for a separator of one code unit. *)
Fixpoint split_on (c : Z) (s : jstr) : list jstr :=
  match s with
  | [] => [[]]
  | u :: s' =>
      match split_on c s' with
      | w :: ws => if u =? c then [] :: w :: ws else (u :: w) :: ws
      | [] => [[]]
      end
  end.

(** [xs.join(sep)]. *)
Fixpoint join (sep : jstr) (xs : list jstr) : jstr :=
  match xs with
  | [] => []
  | [x] => x
  | x :: rest => x ++ sep ++ join sep rest
  end.

(** The maximal runs of code units satisfying [p], in order. *)
Fixpoint runs (p : Z -> bool) (s : jstr) : list jstr :=
  match s with
  | [] => []
  | u :: s' =>
      let rest := runs p s' in
      if p u then
        match s', rest with
        | v :: _, w :: ws => if p v then (u :: w) :: ws else [u] :: w :: ws
        | _, _ => [u] :: rest
        end
      else rest
  end.

(** [s.split(/\s+/).filter(Boolean)]: the non-empty pieces between runs of
    white space. *)
Definition words (s : jstr) : list jstr := runs (fun u => negb (is_white u)) s.

(** [s.split(/\s+/)]: with an empty piece where [s] starts or ends with white
    space, or is empty. *)
Definition split_white (s : jstr) : list jstr :=
  match s with
  | [] => [[]]
  | u :: _ =>
      (if is_white u then [[]] else []) ++ words s
      ++ (if is_white (default 0 (last s)) then [[]] else [])
  end.

(** [s.replace(/[c]/g, "")] *)
Definition remove_units (p : Z -> bool) (s : jstr) : jstr := List.filter (fun u => negb (p u)) s.

(** [s.replace(/c/g, d)] for single code units. *)
Definition replace_unit (c d : Z) (s : jstr) : jstr :=
  map (fun u => if u =? c then d else u) s.

(** [s.padStart(n, c)]. *)
Definition pad_start (n : nat) (c : Z) (s : jstr) : jstr :=
  replicate (n - length s) c ++ s.

(** ** Numbers as strings *)

(** The digit character of a value below 36. *)
Definition digit_char (d : Z) : Z := if d <? 10 then 48 + d else 87 + d.

Fixpoint radix_digits (fuel : nat) (radix n : Z) (acc : jstr) : jstr :=
  match fuel with
  | O => acc
  | S fuel =>
      let acc := digit_char (n mod radix) :: acc in
      if n / radix =? 0 then acc else radix_digits fuel radix (n / radix) acc
  end.

(** [n.toString(radix)] on an integer-valued number. *)
Definition to_string_radix (radix n : Z) : jstr :=
  if n <? 0 then 45 :: radix_digits (S (Z.to_nat (Z.log2 (- n)))) radix (- n) []
  else radix_digits (S (Z.to_nat (Z.log2 n))) radix n [].

Definition num (n : Z) : jstr := to_string_radix 10 n.

(** The value of a hexadecimal digit. *)
Definition hex_val (u : Z) : option Z :=
  if (48 <=? u) && (u <=? 57) then Some (u - 48)
  else if (97 <=? u) && (u <=? 102) then Some (u - 87)
  else if (65 <=? u) && (u <=? 70) then Some (u - 55)
  else None.

Definition is_hex (u : Z) : bool := match hex_val u with Some _ => true | None => false end.

(** Longest prefix of hexadecimal digits, as a number; [None] if there is none. *)
Fixpoint hex_prefix (s : jstr) (acc : option Z) : option Z :=
  match s with
  | u :: s' =>
      match hex_val u with
      | Some d => hex_prefix s' (Some (default 0 acc * 16 + d))
      | None => acc
      end
  | [] => acc
  end.

(** [parseInt(s, 16)]; [None] is [NaN].  Leading white space, a sign and a
    [0x] prefix are skipped, and parsing stops at the first other character. *)
Definition parseInt16 (s : jstr) : option Z :=
  let s := trim_start s in
  let '(neg, s) :=
    match s with
    | 45 :: s' => (true, s')
    | 43 :: s' => (false, s')
    | _ => (false, s)
    end in
  let s :=
    match s with
    | 48 :: 120 :: s' | 48 :: 88 :: s' => s'
    | _ => s
    end in
  match hex_prefix s None with
  | Some v => Some (if (neg : bool) then - v else v)
  | None => None
  end.

(** The conversion an element store into a [Uint8Array] performs. *)
Definition to_uint8 (n : option Z) : Z :=
  match n with Some z => z mod 256 | None => 0 end.

(** ** UTF-16, UTF-8, [TextEncoder] and [TextDecoder] *)

Definition is_high (u : Z) : bool := (0xD800 <=? u) && (u <=? 0xDBFF).
Definition is_low (u : Z) : bool := (0xDC00 <=? u) && (u <=? 0xDFFF).

(** The code points of a string; a lone surrogate reads as U+FFFD
    (the USVString conversion [TextEncoder] applies). *)
Fixpoint code_points (s : jstr) : list Z :=
  match s with
  | [] => []
  | u :: s' =>
      if is_high u then
        match s' with
        | v :: s'' =>
            if is_low v then (0x10000 + (u - 0xD800) * 0x400 + (v - 0xDC00)) :: code_points s''
            else 0xFFFD :: code_points s'
        | [] => [0xFFFD]
        end
      else if is_low u then 0xFFFD :: code_points s'
      else u :: code_points s'
  end.

(** The code points of a string as a regular expression with the [u] flag sees
    them: a lone surrogate is a code point of its own. *)
Fixpoint raw_code_points (s : jstr) : list Z :=
  match s with
  | [] => []
  | u :: s' =>
      if is_high u then
        match s' with
        | v :: s'' =>
            if is_low v then (0x10000 + (u - 0xD800) * 0x400 + (v - 0xDC00)) :: raw_code_points s''
            else u :: raw_code_points s'
        | [] => [u]
        end
      else u :: raw_code_points s'
  end.

(** The code units of a code point. *)
Definition units_of (c : Z) : jstr :=
  if c <? 0x10000 then [c]
  else [0xD800 + (c - 0x10000) / 0x400; 0xDC00 + (c - 0x10000) mod 0x400].

(** The UTF-8 bytes of a scalar value. *)
Definition utf8_of (c : Z) : bytes :=
  if c <? 0x80 then [c]
  else if c <? 0x800 then [0xC0 + c / 64; 0x80 + c mod 64]
  else if c <? 0x10000 then [0xE0 + c / 4096; 0x80 + (c / 64) mod 64; 0x80 + c mod 64]
  else [0xF0 + c / 262144; 0x80 + (c / 4096) mod 64; 0x80 + (c / 64) mod 64; 0x80 + c mod 64].

(** [new TextEncoder().encode(s)] *)
Definition TextEncoder_encode (s : jstr) : bytes := concat (map utf8_of (code_points s)).

(** State of the WHATWG UTF-8 decoder: bytes still needed, the code point so
    far, and the bounds of the next continuation byte. *)
Record u8state := U8 { needed : nat; cp : Z; lower : Z; upper : Z }.

Definition u8init : u8state := U8 0 0 0x80 0xBF.

(** A byte that starts a sequence. *)
Definition u8start (b : Z) : u8state * list Z :=
  if b <? 0x80 then (u8init, [b])
  else if (0xC2 <=? b) && (b <=? 0xDF) then (U8 1 (b - 0xC0) 0x80 0xBF, [])
  else if (0xE0 <=? b) && (b <=? 0xEF) then
    (U8 2 (b - 0xE0) (if b =? 0xE0 then 0xA0 else 0x80) (if b =? 0xED then 0x9F else 0xBF), [])
  else if (0xF0 <=? b) && (b <=? 0xF4) then
    (U8 3 (b - 0xF0) (if b =? 0xF0 then 0x90 else 0x80) (if b =? 0xF4 then 0x8F else 0xBF), [])
  else (u8init, [0xFFFD]).

(** One byte: a continuation byte in range extends the code point; any other
    byte replaces the broken sequence by U+FFFD and is read again as a start. *)
Definition u8step (st : u8state) (b : Z) : u8state * list Z :=
  match needed st with
  | O => u8start b
  | S n =>
      if (lower st <=? b) && (b <=? upper st) then
        let c := cp st * 64 + (b - 0x80) in
        match n with
        | O => (u8init, [c])
        | S _ => (U8 n c 0x80 0xBF, [])
        end
      else let '(st', out) := u8start b in (st', 0xFFFD :: out)
  end.

Fixpoint u8decode (st : u8state) (bs : bytes) : list Z :=
  match bs with
  | [] => match needed st with O => [] | S _ => [0xFFFD] end
  | b :: bs' => let '(st', out) := u8step st b in out ++ u8decode st' bs'
  end.

Definition strip_bom (cs : list Z) : list Z :=
  match cs with c :: cs' => if c =? 0xFEFF then cs' else cs | [] => [] end.

(** [new TextDecoder().decode(bs)]: UTF-8, replacement of malformed sequences,
    and removal of one leading byte-order mark. *)
Definition TextDecoder_decode (bs : bytes) : jstr :=
  concat (map units_of (strip_bom (u8decode u8init bs))).

(** No lone surrogate ([String.prototype.isWellFormed]). *)
Fixpoint well_formed (s : jstr) : bool :=
  match s with
  | [] => true
  | u :: s' =>
      if is_high u then
        match s' with v :: s'' => is_low v && well_formed s'' | [] => false end
      else negb (is_low u) && well_formed s'
  end.

Definition no_bom (s : jstr) : bool := match s with u :: _ => negb (u =? 0xFEFF) | [] => true end.

(** ** Case conversion and character classes

    [toLowerCase], [toUpperCase] and the regular-expression classes [\p{L}] and
    [\p{N}] read the Unicode Character Database, which is data of the platform.
    The components that use them are stated against this interface: any tables
    that agree with ASCII. *)
Definition ascii_lower (u : Z) : Z := if (65 <=? u) && (u <=? 90) then u + 32 else u.
Definition ascii_upper (u : Z) : Z := if (97 <=? u) && (u <=? 122) then u - 32 else u.
Definition is_ascii (u : Z) : bool := (0 <=? u) && (u <? 128).
Definition ascii_alnum (u : Z) : bool :=
  ((48 <=? u) && (u <=? 57)) || ((65 <=? u) && (u <=? 90)) || ((97 <=? u) && (u <=? 122)).

Class Unicode := {
  toLowerCase : jstr -> jstr;
  toUpperCase : jstr -> jstr;
  is_letter_or_number : Z -> bool;  (** by code point *)
  lower_ascii : forall s, forallb is_ascii s = true -> toLowerCase s = map ascii_lower s;
  upper_ascii : forall s, forallb is_ascii s = true -> toUpperCase s = map ascii_upper s;
  lower_units : forall s, Forall is_unit s -> Forall is_unit (toLowerCase s);
  letter_ascii : forall u, is_ascii u = true -> is_letter_or_number u = ascii_alnum u;
}.

(** Tables exact on ASCII and the identity elsewhere, to run the definitions. *)
Definition ascii_unicode : Unicode.
Proof.
  refine {| toLowerCase := map ascii_lower; toUpperCase := map ascii_upper;
            is_letter_or_number := ascii_alnum |}; [done|done| |done].
  intros s. apply Forall_map_impl. intros u. unfold is_unit, ascii_lower. split_ifs; zbool; lia.
Defined.

(** ** The UTF-8 codec is a round trip *)

Definition scalar (c : Z) : Prop := 0 <= c < 0xD800 \/ 0xE000 <= c < 0x110000.

Lemma code_points_cons u s :
  code_points (u :: s) =
  if is_high u then
    match s with
    | v :: s'' =>
        if is_low v then (0x10000 + (u - 0xD800) * 0x400 + (v - 0xDC00)) :: code_points s''
        else 0xFFFD :: code_points s
    | [] => [0xFFFD]
    end
  else if is_low u then 0xFFFD :: code_points s
  else u :: code_points s.
Proof. done. Qed.

Lemma code_points_scalar s : Forall is_unit s -> Forall scalar (code_points s).
Proof.
  unfold scalar, is_unit.
  induction s as [|u s IH IH'] using list_ind_tails; [done|].
  intros [Hu Hs]%Forall_cons. rewrite code_points_cons.
  specialize (IH Hs). unfold is_high, is_low in *.
  destruct s as [|v s]; [split_ifs; forall_split; auto; lia|].
  pose proof Hs as [Hv Hs']%Forall_cons. specialize (IH' Hs').
  split_ifs; forall_split; auto; lia.
Qed.

(** Each lead byte announces its continuation bytes; each continuation byte in
    range shifts six bits in. *)
Lemma u8step_start st b : needed st = O -> u8step st b = u8start b.
Proof. intros H. unfold u8step. by rewrite H. Qed.

Lemma u8step_cont n c lo hi b :
  lo <= b <= hi ->
  u8step (U8 (S n) c lo hi) b =
  match n with
  | O => (u8init, [c * 64 + (b - 0x80)])
  | S _ => (U8 n (c * 64 + (b - 0x80)) 0x80 0xBF, [])
  end.
Proof.
  intros H. unfold u8step. cbn [needed lower upper cp].
  by rewrite (proj2 (Z.leb_le lo b)), (proj2 (Z.leb_le b hi)) by lia.
Qed.

Lemma u8decode_utf8_of c bs :
  scalar c -> u8decode u8init (utf8_of c ++ bs) = c :: u8decode u8init bs.
Proof.
  unfold scalar. intros Hc. unfold utf8_of.
  split_ifs; zbool; cbn [app u8decode];
    rewrite u8step_start by done; unfold u8start; split_ifs; zbool;
    rewrite ?u8step_cont by zdm; cbn [app u8decode];
    rewrite ?u8step_cont by zdm; cbn [app u8decode];
    rewrite ?u8step_cont by zdm; cbn [app u8decode];
    try (exfalso; zdm); try (f_equal; zdm).
Qed.

Lemma u8decode_utf8 cs :
  Forall scalar cs -> u8decode u8init (concat (map utf8_of cs)) = cs.
Proof.
  induction 1 as [|c cs Hc _ IH]; [done|].
  simpl. by rewrite u8decode_utf8_of, IH.
Qed.

Lemma utf8_of_bytes c : scalar c -> Forall is_byte (utf8_of c).
Proof.
  unfold scalar, utf8_of, is_byte. intros H. split_ifs; forall_split; zdm.
Qed.

Lemma TextEncoder_bytes s : Forall is_unit s -> Forall is_byte (TextEncoder_encode s).
Proof.
  intros H%code_points_scalar. unfold TextEncoder_encode.
  induction H; simpl; [done|]. apply Forall_app; auto using utf8_of_bytes.
Qed.

(** The code units [toWellFormed] would produce: lone surrogates become U+FFFD. *)
Definition to_well_formed (s : jstr) : jstr := concat (map units_of (code_points s)).

Lemma to_well_formed_id s : Forall is_unit s -> well_formed s = true -> to_well_formed s = s.
Proof.
  unfold to_well_formed, is_unit.
  induction s as [|u s IH IH'] using list_ind_tails; [done|].
  intros [Hu Hs]%Forall_cons Hw. rewrite code_points_cons.
  change (well_formed (u :: s)) with
    (if is_high u then match s with v :: s'' => is_low v && well_formed s'' | [] => false end
     else negb (is_low u) && well_formed s) in Hw.
  destruct (is_high u) eqn:Eh.
  - destruct s as [|v s]; [done|]. apply andb_true_iff in Hw as [Hv Hw].
    pose proof Hs as [Hv' Hs']%Forall_cons. rewrite Hv. cbn [map concat].
    simpl in IH'. rewrite IH' by done. unfold is_high, is_low, units_of in *.
    split_ifs. cbn [app]. repeat f_equal; zdm.
  - apply andb_true_iff in Hw as [Hl Hw]. apply negb_true_iff in Hl. rewrite Hl.
    cbn [map concat]. rewrite IH by done. unfold units_of. split_ifs. done.
Qed.

(** What a string becomes when it is encoded and decoded again. *)
Lemma TextDecoder_TextEncoder s :
  Forall is_unit s ->
  TextDecoder_decode (TextEncoder_encode s) =
  concat (map units_of (strip_bom (code_points s))).
Proof.
  intros H. unfold TextDecoder_decode, TextEncoder_encode.
  by rewrite u8decode_utf8 by auto using code_points_scalar.
Qed.

Lemma strip_bom_no_bom s : no_bom s = true -> strip_bom (code_points s) = code_points s.
Proof.
  destruct s as [|u s]; [done|]. simpl (no_bom _). intros Hb%negb_true_iff.
  rewrite code_points_cons. unfold strip_bom, is_high, is_low in *.
  destruct s as [|v s]; split_ifs; done.
Qed.

Lemma text_round_trip s :
  Forall is_unit s -> well_formed s = true -> no_bom s = true ->
  TextDecoder_decode (TextEncoder_encode s) = s.
Proof.
  intros Hu Hw Hb. rewrite TextDecoder_TextEncoder, strip_bom_no_bom by done.
  by apply to_well_formed_id.
Qed.

(** ASCII text is its own UTF-8 encoding. *)
Lemma TextEncoder_ascii s : forallb is_ascii s = true -> TextEncoder_encode s = s.
Proof.
  unfold TextEncoder_encode. induction s as [|u s IH]; [done|].
  simpl forallb. intros [Hu Hs]%andb_true_iff. unfold is_ascii in Hu.
  assert (Eh : is_high u = false) by (unfold is_high; lia).
  assert (El : is_low u = false) by (unfold is_low; lia).
  rewrite code_points_cons, Eh, El. cbn [map concat]. rewrite IH by done. unfold utf8_of.
  by rewrite (proj2 (Z.ltb_lt u 0x80)) by lia.
Qed.

(** ** Trimming *)

Lemma trim_start_nonwhite u s : is_white u = false -> trim_start (u :: s) = u :: s.
Proof. intros H. simpl. by rewrite H. Qed.

Lemma trim_start_id s : forallb (fun u => negb (is_white u)) s = true -> trim_start s = s.
Proof. destruct s; simpl; [done|]. intros [H _]%andb_true_iff. by destruct (is_white z). Qed.

Lemma forallb_reverse {A} (p : A -> bool) l : forallb p (reverse l) = forallb p l.
Proof.
  unfold reverse. rewrite rev_append_rev, app_nil_r.
  induction l; simpl; [done|].
  rewrite forallb_app, IHl. simpl. by destruct (p a), (forallb p l).
Qed.

Lemma trim_id s : forallb (fun u => negb (is_white u)) s = true -> trim s = s.
Proof.
  intros H. unfold trim, trim_end. rewrite (trim_start_id s) by done.
  rewrite trim_start_id by by rewrite forallb_reverse. apply reverse_involutive.
Qed.

(** Only the ends matter. *)
Lemma trim_start_twice s : trim_start (trim_start s) = trim_start s.
Proof. induction s as [|u s IH]; [done|]. cbn [trim_start]. destruct (is_white u) eqn:E; [done|]. by apply trim_start_nonwhite. Qed.

Lemma trim_start_last s u : is_white u = false -> exists t, trim_start (s ++ [u]) = t ++ [u].
Proof.
  intros Hu. induction s as [|v s [t IH]]; [exists []; by apply trim_start_nonwhite|].
  cbn [app trim_start]. destruct (is_white v); [by exists t|by exists (v :: s)].
Qed.

Lemma trim_trim s : trim (trim s) = trim s.
Proof.
  unfold trim. assert (E : trim_start (trim_end (trim_start s)) = trim_end (trim_start s)).
  { pose proof (trim_start_twice s) as H. destruct (trim_start s) as [|u r]; [done|]. cbn [trim_start] in H.
    destruct (is_white u) eqn:Eu.
    - exfalso. apply (f_equal length) in H. assert (L : forall x, (length (trim_start x) <= length x)%nat).
      { intros x. induction x as [|v x IH]; [done|]. cbn [trim_start]. destruct (is_white v); simpl; lia. }
      specialize (L r). simpl in H. lia.
    - unfold trim_end. rewrite reverse_cons. destruct (trim_start_last (reverse r) u Eu) as [t ->].
      rewrite reverse_app. by apply trim_start_nonwhite. }
  rewrite E. unfold trim_end. rewrite reverse_involutive. by rewrite trim_start_twice.
Qed.

Lemma trim_ends u l v : is_white u = false -> is_white v = false -> trim (u :: l ++ [v]) = u :: l ++ [v].
Proof.
  intros Hu Hv. unfold trim, trim_end. rewrite trim_start_nonwhite by done.
  rewrite app_comm_cons, reverse_app. change (reverse [v]) with [v]. cbn [app].
  rewrite trim_start_nonwhite by done. change (v :: reverse (u :: l)) with ([v] ++ reverse (u :: l)).
  rewrite reverse_app, reverse_involutive. done.
Qed.

(** Runs are non-empty and made of units that satisfy the predicate. *)
Lemma runs_spec p s w : w ∈ runs p s -> w <> [] /\ forallb p w = true.
Proof.
  revert w. induction s as [|u s IH]; simpl; intros w; [set_solver|].
  destruct (p u) eqn:Eu; [|auto].
  assert (Hone : [u] <> [] /\ forallb p [u] = true) by (simpl; by rewrite Eu).
  destruct s as [|v s]; [|destruct (runs p (v :: s)) as [|r rs] eqn:E; [|destruct (p v) eqn:Ev]];
    rewrite ?elem_of_cons, ?elem_of_nil; intros Hw.
  - destruct Hw as [->|Hw]; [done|set_solver].
  - by destruct Hw as [->|[]].
  - destruct Hw as [->|Hw]; [|apply IH; set_solver].
    split; [done|]. simpl. rewrite Eu. apply IH. set_solver.
  - destruct Hw as [->|[->|Hw]]; [done|apply IH; set_solver..].
Qed.

Lemma runs_cons_no p u s : p u = false -> runs p (u :: s) = runs p s.
Proof. intros H. cbn [runs]. by rewrite H. Qed.

Lemma runs_cons_yes p u s :
  p u = true ->
  runs p (u :: s) =
  match s, runs p s with
  | v :: _, w :: ws => if p v then (u :: w) :: ws else [u] :: w :: ws
  | _, rest => [u] :: rest
  end.
Proof.
  intros H. destruct s as [|v s]; [cbn; by rewrite H|].
  change (runs p (u :: v :: s)) with (let rest := runs p (v :: s) in if p u then match rest with
    | w :: ws => if p v then (u :: w) :: ws else [u] :: w :: ws | [] => [u] :: rest end else rest).
  cbv zeta. rewrite H. by destruct (runs p (v :: s)).
Qed.

Lemma runs_head p v s : p v = true -> exists w ws, runs p (v :: s) = w :: ws.
Proof. intros H. cbn [runs]. rewrite H. repeat case_match; eauto. Qed.

(** A block of units that all satisfy [p] begins a run, or extends the next. *)
Lemma runs_block p u s :
  u <> [] -> forallb p u = true ->
  runs p (u ++ s) = u :: runs p s \/
  exists w ws, runs p s = w :: ws /\ runs p (u ++ s) = (u ++ w) :: ws.
Proof.
  intros Hn Hu. induction u as [|a u IH]; [done|]. simpl in Hu.
  apply andb_true_iff in Hu as [Ha Hu]. destruct u as [|b u].
  - cbn [app]. destruct s as [|v s]; [left; cbn [runs]; by rewrite Ha|].
    destruct (p v) eqn:Ev.
    + right. destruct (runs_head p v s Ev) as (w & ws & E). exists w, ws. split; [done|].
      cbn [runs] in *. by rewrite Ha, Ev, E in *.
    + left. rewrite (runs_cons_no p v s Ev). cbn [runs] in *. rewrite Ha, Ev. by destruct (runs p s).
  - specialize (IH ltac:(done) Hu). cbn [app] in *.
    assert (Hb : p b = true) by (simpl in Hu; by apply andb_true_iff in Hu as [? _]).
    assert (Hs : forall w ws, runs p (b :: u ++ s) = w :: ws ->
      runs p (a :: b :: u ++ s) = (a :: w) :: ws).
    { intros w ws E. by rewrite runs_cons_yes, E, Hb. }
    destruct IH as [E|(w & ws & E & E')]; [left; by apply Hs|].
    right. exists w, ws. split; [done|]. by apply Hs.
Qed.

Lemma runs_skip p u s : forallb (fun c => negb (p c)) u = true -> runs p (u ++ s) = runs p s.
Proof.
  induction u as [|a u IH]; [done|]. simpl. intros [Ha%negb_true_iff Hu]%andb_true_iff.
  rewrite <- (IH Hu). by apply runs_cons_no.
Qed.

(** In a text made of blocks, each inside or outside [p], every run is made of
    blocks inside [p]. *)
Lemma runs_concat p (f : Z -> jstr) cs w :
  Forall (fun c => f c <> [] /\
    (forallb p (f c) = true \/ forallb (fun u => negb (p u)) (f c) = true)) cs ->
  w ∈ runs p (concat (map f cs)) ->
  exists cs', w = concat (map f cs') /\ Forall (fun c => c ∈ cs /\ forallb p (f c) = true) cs'.
Proof.
  revert w. induction cs as [|c cs IH]; intros w; [set_solver|].
  intros [[Hn Hc] Hcs]%Forall_cons. cbn [map concat].
  assert (Hweak : (exists cs', w = concat (map f cs') /\
      Forall (fun c => c ∈ cs /\ forallb p (f c) = true) cs') ->
    exists cs', w = concat (map f cs') /\
      Forall (fun c' => c' ∈ c :: cs /\ forallb p (f c') = true) cs').
  { intros (cs' & -> & H). exists cs'. split; [done|]. eapply Forall_impl; [exact H|]. set_solver. }
  destruct Hc as [Hc|Hc]; [|rewrite runs_skip by done; auto].
  destruct (runs_block p (f c) (concat (map f cs)) Hn Hc) as [->|(v & vs & Ev & ->)];
    rewrite elem_of_cons; intros [->|Hw].
  - exists [c]. simpl. rewrite app_nil_r. split; [done|]. constructor; [set_solver|done].
  - auto.
  - destruct (IH v Hcs) as (cs' & -> & H); [rewrite Ev; set_solver|].
    exists (c :: cs'). split; [done|]. constructor; [set_solver|].
    eapply Forall_impl; [exact H|]. set_solver.
  - apply Hweak, IH; [done|]. rewrite Ev. set_solver.
Qed.

Lemma words_spec s w : w ∈ words s -> w <> [] /\ forallb (fun u => negb (is_white u)) w = true.
Proof. apply runs_spec. Qed.

Lemma elem_of_split_white s w : w ∈ split_white s -> w = [] \/ w ∈ words s.
Proof.
  unfold split_white. destruct s; [set_solver|].
  rewrite !elem_of_app. intros [H|[H|H]]; [|by right|]; left;
    destruct (is_white _); set_solver.
Qed.

Lemma jeqb_eq a b : jeqb a b = true <-> a = b.
Proof. apply bool_decide_eq_true. Qed.

Lemma starts_with_app p s : starts_with p (p ++ s) = true.
Proof. induction p; simpl; [done|]. by rewrite Z.eqb_refl. Qed.

Lemma starts_with_spec p s : starts_with p s = true <-> exists t, s = p ++ t.
Proof.
  revert s. induction p as [|a p IH]; intros s; simpl.
  - split; eauto.
  - destruct s as [|b s]; [split; [done|intros [? [=]]]|].
    rewrite andb_true_iff, Z.eqb_eq, IH. split.
    + intros [-> [t ->]]. by exists t.
    + intros [t [= -> ->]]. eauto.
Qed.

(** ** Decimal numerals *)

Definition is_digit (u : Z) : bool := (48 <=? u) && (u <=? 57).

(** The number a sequence of decimal digits denotes. *)
Definition dec_value (s : jstr) : Z := fold_left (fun acc u => acc * 10 + (u - 48)) s 0.

Lemma fold_dec_app s acc :
  fold_left (fun acc u => acc * 10 + (u - 48)) s acc = acc * 10 ^ Z.of_nat (length s) + dec_value s.
Proof.
  unfold dec_value. revert acc. induction s as [|u s IH]; intros acc; cbn [fold_left length]; [lia|].
  rewrite IH, (IH (0 * 10 + (u - 48))), Nat2Z.inj_succ, Z.pow_succ_r by lia. lia.
Qed.

Lemma dec_value_app s t : dec_value (s ++ t) = dec_value s * 10 ^ Z.of_nat (length t) + dec_value t.
Proof. unfold dec_value at 1. rewrite fold_left_app. by rewrite fold_dec_app. Qed.

Lemma radix_digits_spec fuel n acc :
  0 <= n < 2 ^ Z.of_nat fuel -> (0 < fuel)%nat ->
  exists l, radix_digits fuel 10 n acc = l ++ acc /\ l <> [] /\ forallb is_digit l = true /\
    dec_value l = n /\ (forall k, 0 < k -> n < 10 ^ k -> Z.of_nat (length l) <= k).
Proof.
  revert n acc. induction fuel as [|fuel IH]; intros n acc Hn Hf; [lia|].
  assert (Hd : digit_char (n mod 10) = 48 + n mod 10) by (unfold digit_char; split_ifs; zdm).
  cbn [radix_digits]. destruct (n / 10 =? 0) eqn:E; zbool.
  - exists [digit_char (n mod 10)]. rewrite Hd. split_and!; try done.
    + simpl. unfold is_digit. zdm.
    + unfold dec_value. cbn [fold_left]. zdm.
    + intros k Hk _. simpl. lia.
  - rewrite Nat2Z.inj_succ, Z.pow_succ_r in Hn by lia.
    destruct fuel as [|fuel]; [change (2 ^ Z.of_nat 0) with 1 in Hn; zdm|].
    destruct (IH (n / 10) (digit_char (n mod 10) :: acc)) as (l & El & Hl & Hdig & Hv & Hk); [zdm|lia|].
    exists (l ++ [digit_char (n mod 10)]). rewrite <- app_assoc. split_and!.
    + exact El.
    + by destruct l.
    + rewrite forallb_app, Hdig, Hd. simpl. unfold is_digit. zdm.
    + rewrite dec_value_app, Hv, Hd. unfold dec_value. cbn [fold_left length].
      change (10 ^ Z.of_nat 1) with 10. zdm.
    + intros k Hk0 Hnk. rewrite length_app. cbn [length].
      destruct (Z.eq_dec k 1) as [->|]; [change (10 ^ 1) with 10 in Hnk; zdm|].
      specialize (Hk (k - 1) ltac:(lia)).
      replace k with (Z.succ (k - 1)) in Hnk by lia. rewrite Z.pow_succ_r in Hnk by lia.
      assert (n / 10 < 10 ^ (k - 1)) by zdm. lia.
Qed.

(** [n.toString()] of a natural number: its decimal digits. *)
Lemma num_spec n :
  0 <= n ->
  num n <> [] /\ forallb is_digit (num n) = true /\ dec_value (num n) = n /\
  (forall k, 0 < k -> n < 10 ^ k -> Z.of_nat (length (num n)) <= k).
Proof.
  intros Hn. unfold num, to_string_radix. rewrite (proj2 (Z.ltb_ge n 0)) by lia.
  destruct (radix_digits_spec (S (Z.to_nat (Z.log2 n))) n []) as (l & -> & H); [|lia|].
  - pose proof (Z.log2_nonneg n). rewrite Nat2Z.inj_succ, Z2Nat.id by done.
    destruct (Z.eq_dec n 0) as [->|]; [done|]. pose proof (Z.log2_spec n). lia.
  - by rewrite app_nil_r.
Qed.

(** Zero-padded decimals. *)
Lemma pad_num n k :
  0 <= n < 10 ^ Z.of_nat k -> (0 < k)%nat ->
  let s := pad_start k 48 (num n) in
  length s = k /\ forallb is_digit s = true /\ dec_value s = n.
Proof.
  intros Hn Hk s. destruct (num_spec n) as (_ & Hd & Hv & Hl); [lia|].
  specialize (Hl (Z.of_nat k) ltac:(lia) ltac:(lia)). unfold s, pad_start. split_and!.
  - rewrite length_app, length_replicate. lia.
  - rewrite forallb_app, Hd. induction (k - length (num n))%nat; simpl; auto.
  - rewrite dec_value_app, Hv. replace (dec_value (replicate _ 48)) with 0; [lia|].
    unfold dec_value. induction (k - length (num n))%nat; [done|]. simpl. exact IHn0.
Qed.

(** No unit encodes to nothing. *)
Lemma length_TextEncoder s : (length s <= length (TextEncoder_encode s))%nat.
Proof.
  unfold TextEncoder_encode.
  induction s as [|u s IH IH'] using list_ind_tails; [done|]. cbn [code_points].
  assert (H1 : forall c, (1 <= length (utf8_of c))%nat) by (intros c; unfold utf8_of; repeat (case_match; simpl; try lia)).
  assert (Hone : forall c l, (length s <= length (concat (map utf8_of l)))%nat ->
    (length (u :: s) <= length (concat (map utf8_of (c :: l))))%nat).
  { intros c l Hl. cbn [map concat length]. rewrite length_app. pose proof (H1 c). lia. }
  destruct (is_high u) eqn:Eh; [|destruct (is_low u); by apply Hone].
  destruct s as [|v s]; [by apply Hone|]. destruct (is_low v) eqn:El; [|by apply Hone].
  cbn [map concat length tail] in *. rewrite length_app. unfold is_high, is_low in *. unfold utf8_of at 1.
  repeat rewrite (proj2 (Z.ltb_ge _ _)) by lia. cbn [length]. lia.
Qed.

#[export] Hint Resolve TextEncoder_bytes code_points_scalar trim_id : byos.

(** ** Words of a text *)

(** Units outside [p] at the end add no run. *)
Lemma runs_skip_end p s u : forallb (fun c => negb (p c)) u = true -> runs p (s ++ u) = runs p s.
Proof.
  intros Hu. assert (H0 : runs p u = []) by (rewrite <- (app_nil_r u); by rewrite runs_skip).
  induction s as [|a s IH]; [done|]. cbn [app]. destruct (p a) eqn:Ea; [|by rewrite !runs_cons_no].
  destruct s as [|b s]; cbn [app] in *.
  - rewrite !runs_cons_yes by done. destruct u; [done|by rewrite H0].
  - by rewrite !(runs_cons_yes p a), IH.
Qed.

Lemma words_trim s : words (trim s) = words s.
Proof.
  assert (Hs : forall t, words (trim_start t) = words t).
  { intros t. induction t as [|u t IH]; [done|]. cbn [trim_start]. destruct (is_white u) eqn:E; [|done].
    rewrite IH. unfold words. rewrite (runs_cons_no _ u); [done|]. by rewrite E. }
  assert (He : forall t, exists u, forallb is_white u = true /\ t = reverse u ++ trim_start t).
  { intros t. induction t as [|u t (v & Hv & E)]; [by exists []|]. cbn [trim_start].
    destruct (is_white u) eqn:Eu; [|by exists []]. exists (v ++ [u]). split.
    - rewrite forallb_app, Hv. simpl. by rewrite Eu.
    - rewrite reverse_app. simpl. by f_equal. }
  rewrite <- (Hs s). unfold trim, trim_end. destruct (He (reverse (trim_start s))) as (u & Hu & E).
  apply (f_equal reverse) in E. rewrite reverse_involutive, reverse_app, reverse_involutive in E.
  rewrite E at 2. unfold words. rewrite runs_skip_end; [done|]. revert Hu. clear. induction u; simpl; [done|].
  intros [Ha Hu]%andb_true_iff. by rewrite Ha, IHu.
Qed.

(** Words joined by single spaces. *)
Lemma words_join ws :
  Forall (fun w => w <> [] /\ forallb (fun u => negb (is_white u)) w = true) ws -> words (join [32] ws) = ws.
Proof.
  unfold words. set (p := fun u => negb (is_white u)).
  induction ws as [|w ws IH]; [done|]. intros [[Hn Hw] Hws]%Forall_cons. specialize (IH Hws).
  destruct ws as [|w' ws].
  - cbn [join]. rewrite <- (app_nil_r w) at 1. destruct (runs_block p w [] Hn Hw) as [->|(? & ? & ? & _)]; done.
  - change (join [32] (w :: w' :: ws)) with (w ++ [32] ++ join [32] (w' :: ws)).
    assert (Hsp : runs p ([32] ++ join [32] (w' :: ws)) = w' :: ws) by (rewrite runs_skip; done).
    destruct w as [|a w]; [done|]. clear Hn.
    revert a Hw. induction w as [|b w IHw]; intros a Ha.
    + cbn [app] in *. simpl in Ha. apply andb_true_iff in Ha as [Ha _]. cbn [runs] in *. rewrite Ha. rewrite Hsp. done.
    + simpl in Ha. apply andb_true_iff in Ha as [Ha Hb]. specialize (IHw b Hb).
      cbn [app] in *. rewrite runs_cons_yes, IHw by done. by apply andb_true_iff in Hb as [-> _].
Qed.

(** ** Numbers in texts *)

Fixpoint digits_prefix (s : jstr) : jstr :=
  match s with u :: s => if is_digit u then u :: digits_prefix s else [] | [] => [] end.

(** [parseInt(s, 10)]; [None] is [NaN].  Exact below [2 ^ 53]. *)
Definition parseInt10 (s : jstr) : option Z :=
  let s := trim_start s in
  let '(neg, s) := match s with
                   | 45 :: r => (true, r)
                   | 43 :: r => (false, r)
                   | _ => (false, s)
                   end in
  match digits_prefix s with
  | [] => None
  | ds => Some (if neg then - dec_value ds else dec_value ds)
  end.

Lemma digits_prefix_all s : forallb is_digit s = true -> digits_prefix s = s.
Proof. induction s as [|u s IH]; [done|]. cbn. intros [-> Hs]%andb_true_iff. by rewrite IH. Qed.

Lemma parse_num n : 0 <= n -> parseInt10 (num n) = Some n.
Proof.
  intros Hn. destruct (num_spec n Hn) as (Hne & Hd & Hv & _). destruct (num n) as [|u s] eqn:E; [done|].
  pose proof Hd as Hd'. cbn [forallb] in Hd'. apply andb_true_iff in Hd' as [Hu _].
  assert (Hu' : 48 <= u <= 57) by (unfold is_digit in Hu; zbool; lia).
  unfold parseInt10. rewrite trim_start_nonwhite by (unfold is_white; repeat (apply orb_false_iff; split); zbool; lia).
  destruct (Z.eq_dec u 45) as [->|]; [lia|]. destruct (Z.eq_dec u 43) as [->|]; [lia|].
  assert (Em : forall r : jstr, match u :: r with 45 :: r' => (true, r') | 43 :: r' => (false, r') | _ => (false, u :: r) end = (false, u :: r)).
  { intros r. destruct u as [|p|p]; try done. do 6 (destruct p as [p|p|]; try done). }
  rewrite Em. rewrite digits_prefix_all by done. by rewrite <- Hv.
Qed.
