(* ===== verification/Display.v ===== *)
(** * Display helpers of the webmail client

    webmail/src/utils/dateTime.ts, fileType.ts and signature.ts: dates as the list
    shows them, attachment badges, and the device-local signatures. *)

From S2P Require Import Prelude JsString.

(** ** Dates

    What the sources use of JavaScript's [Date]: times are milliseconds, [None] is
    [NaN].  Parsing, the local calendar and the locale texts are the engine's. *)
Class Dates := {
  date_time : jstr -> option Z;            (** [new Date(s).getTime()] *)
  date_iso : jstr -> option jstr;          (** [new Date(s).toISOString()]; [None]: it throws *)
  now_time : Z;                            (** [new Date()] *)
  getDate : Z -> Z;
  getMonth : Z -> Z;
  getFullYear : Z -> Z;
  toLocaleTimeString : bool -> Z -> jstr;  (** two-digit hour and minute; [hour12] *)
  toLocaleDateString : jstr -> bool -> bool -> Z -> jstr;  (** locale, with weekday, with year *)
}.

Section DateTime.
Context `{Dates}.

(** The inputs are strings ([formatMessageDate] passes a [Date] on to [formatTime]). *)
Definition formatTime_of (d : Z) (timeFormat : jstr) : jstr :=
  toLocaleTimeString (jeqb timeFormat (js "12h")) d.

Definition formatTime (dateInput timeFormat : jstr) : jstr :=
  if negb (truthy dateInput) then []
  else match date_time dateInput with
       | None => dateInput
       | Some d => formatTime_of d timeFormat
       end.

Definition isToday (d : Z) : bool :=
  (getDate d =? getDate now_time) && (getMonth d =? getMonth now_time)
  && (getFullYear d =? getFullYear now_time).

Definition formatMessageDate (dateInput timeFormat locale : jstr) : jstr :=
  if negb (truthy dateInput) then []
  else match date_time dateInput with
       | None => dateInput
       | Some d =>
           if isToday d then formatTime_of d timeFormat
           else if getFullYear d =? getFullYear now_time then toLocaleDateString locale false false d
           else toLocaleDateString locale false true d
       end.

Definition formatFullDateTime (dateInput timeFormat locale : jstr) : jstr :=
  if negb (truthy dateInput) then []
  else match date_time dateInput with
       | None => dateInput
       | Some d => toLocaleDateString locale true true d ++ [32; 8226; 32] ++ formatTime_of d timeFormat
       end.

End DateTime.

(** ** Attachment categories *)

Inductive AttachmentCategory := PDF | IMG | SHEET | DOC | ZIP | FILE.

#[global] Instance AttachmentCategory_eq_dec : EqDecision AttachmentCategory.
Proof. solve_decision. Defined.

(** The style classes are the same in every branch and are left out. *)
Record FileTypeInfo := { category : AttachmentCategory; label : jstr }.

Definition image_exts : list jstr :=
  map js ["png"; "jpg"; "jpeg"; "gif"; "webp"; "svg"; "bmp"; "ico"; "tiff"; "avif"]%string.
Definition sheet_exts : list jstr := map js ["xlsx"; "xls"; "csv"; "tsv"; "ods"]%string.
Definition doc_exts : list jstr :=
  map js ["doc"; "docx"; "txt"; "rtf"; "odt"; "md"; "json"; "xml"; "log"]%string.
Definition zip_exts : list jstr :=
  map js ["zip"; "tar"; "gz"; "7z"; "rar"; "bz2"; "xz"; "iso"]%string.

(** [name.split(".").pop()] *)
Definition extension (name : jstr) : jstr := default [] (last (split_on 46 name)).

Section FileType.
Context `{Unicode}.

Definition getFileTypeInfo (filename contentType : option jstr) : FileTypeInfo :=
  let name := toLowerCase (trim (default [] filename)) in
  let ext := extension name in
  let ct := toLowerCase (default [] contentType) in
  let is_in exts := bool_decide (ext ∈ exts) in
  let has s := includes ct (js s) in
  if jeqb ext (js "pdf") || has "pdf" then {| category := PDF; label := js "PDF" |}
  else if is_in image_exts || starts_with (js "image/") ct then {| category := IMG; label := js "IMG" |}
  else if is_in sheet_exts || has "spreadsheet" || has "csv" || has "excel" then
    {| category := SHEET; label := js "SHEET" |}
  else if is_in doc_exts || has "word" || has "document" || starts_with (js "text/") ct then
    {| category := DOC; label := js "DOC" |}
  else if is_in zip_exts || has "zip" || has "tar" || has "compressed" || has "archive" then
    {| category := ZIP; label := js "ZIP" |}
  else {| category := FILE;
          label := if truthy ext then take 4 (toUpperCase ext) else js "FILE" |}.

(** [getAttachmentExt] of the message list. *)
Definition getAttachmentExt (filename : jstr) : jstr :=
  let ext := toUpperCase (extension filename) in
  if (4 <? length ext)%nat then take 4 ext else ext.

End FileType.

(** ** Signatures

    One per mailbox, in the browser's local storage. *)

Definition KEY_PREFIX : jstr := js "byos.signature.".
Definition MAX_SIGNATURE_CHARS : nat := 2000.

Definition storageKey (mailboxId : jstr) : jstr := KEY_PREFIX ++ mailboxId.

Definition loadSignature (mailboxId : jstr) (local : gmap jstr jstr) : jstr :=
  if negb (truthy mailboxId) then []
  else take MAX_SIGNATURE_CHARS (default [] (local !! storageKey mailboxId)).

Definition saveSignature (mailboxId text : jstr) (local : gmap jstr jstr) : gmap jstr jstr :=
  if negb (truthy mailboxId) then local
  else
    let clean := take MAX_SIGNATURE_CHARS text in
    if negb (truthy (trim clean)) then delete (storageKey mailboxId) local
    else <[storageKey mailboxId := clean]> local.

Definition applySignature (plaintext signature : jstr) : jstr :=
  let sig := trim signature in
  if negb (truthy sig) then plaintext
  else plaintext ++ [10; 10] ++ js "-- " ++ [10] ++ sig.

(** ** Theorems *)

(** Signatures: a saved signature is read back, cut to 2000 units (a blank one as
    none); mailboxes do not disturb each other's signatures; signing only appends, and
    a blank signature appends nothing. *)
Theorem signature_round_trip box other text body local :
  truthy box = true ->
  loadSignature box (saveSignature box text local) =
    (if truthy (trim (take 2000 text)) then take 2000 text else []) /\
  (other <> box -> loadSignature other (saveSignature box text local) = loadSignature other local) /\
  (exists block, applySignature body (loadSignature box local) = body ++ block /\
     (block = [] <-> trim (loadSignature box local) = [])).
Proof.
  intros Hb. split_and!.
  - unfold loadSignature, saveSignature. rewrite Hb. cbn [negb].
    change MAX_SIGNATURE_CHARS with 2000%nat.
    destruct (truthy (trim (take 2000 text))); cbn [negb].
    + rewrite lookup_insert_eq. cbn. by rewrite take_idemp.
    + by rewrite lookup_delete_eq.
  - intros Hne. unfold loadSignature, saveSignature. rewrite Hb. cbn [negb]. cbv zeta.
    assert (Hk : storageKey box <> storageKey other) by (unfold storageKey; intros E%app_inv_head; congruence).
    destruct (truthy other); [|done]. cbn [negb].
    destruct (truthy (trim _)); cbn [negb]; [by rewrite lookup_insert_ne|by rewrite lookup_delete_ne].
  - unfold applySignature. destruct (trim (loadSignature box local)) as [|u s]; cbn [truthy negb].
    + exists []. by rewrite app_nil_r.
    + eexists. split; [reflexivity|]. done.
Qed.

Lemma split_on_ne c s : exists w ws, split_on c s = w :: ws.
Proof.
  induction s as [|u s (w & ws & E)]; cbn [split_on]; [by eexists _, _|]. rewrite E.
  destruct (u =? c); by eexists _, _.
Qed.

Lemma split_on_app c a b : split_on c (a ++ c :: b) = split_on c a ++ split_on c b.
Proof.
  induction a as [|u a IH]; cbn [app split_on].
  - destruct (split_on_ne c b) as (w & ws & ->). by rewrite Z.eqb_refl.
  - rewrite IH. destruct (split_on_ne c a) as (w & ws & ->). cbn [app]. by destruct (u =? c).
Qed.

Lemma split_on_none c s : c ∉ s -> split_on c s = [s].
Proof.
  induction s as [|u s IH]; intros Hs; [done|]. cbn [split_on]. rewrite IH by set_solver.
  destruct (Z.eqb_spec u c) as [->|]; [set_solver|done].
Qed.

Lemma split_on_app_none c a b : c ∉ a ->
  split_on c (a ++ b) = match split_on c b with w :: ws => (a ++ w) :: ws | [] => [[]] end.
Proof.
  induction a as [|u a IH]; intros Ha; cbn [app split_on].
  - by destruct (split_on_ne c b) as (w & ws & ->).
  - rewrite IH by set_solver. destruct (split_on_ne c b) as (w & ws & ->).
    destruct (Z.eqb_spec u c) as [->|]; [set_solver|done].
Qed.

Lemma split_on_join c ls :
  ls <> [] -> Forall (fun l => c ∉ l) ls -> split_on c (join [c] ls) = ls.
Proof.
  intros Hne Hl. induction Hl as [|l ls Hc _ IH]; [done|]. destruct ls as [|l2 ls].
  - cbn [join]. by apply split_on_none.
  - change (join [c] (l :: l2 :: ls)) with (l ++ c :: join [c] (l2 :: ls)). rewrite split_on_app, split_on_none, IH by done. done.
Qed.

Lemma last_split_on_ext c stem e : c ∉ e -> last (split_on c (stem ++ c :: e)) = Some e.
Proof. intros He. rewrite split_on_app, (split_on_none c e He). apply last_snoc. Qed.

Section Badges.
Context `{Unicode}.

(** The category of a known extension. *)
Definition category_of_ext (e : jstr) : AttachmentCategory :=
  if decide (e = js "pdf") then PDF
  else if decide (e ∈ image_exts) then IMG
  else if decide (e ∈ sheet_exts) then SHEET
  else if decide (e ∈ doc_exts) then DOC
  else if decide (e ∈ zip_exts) then ZIP
  else FILE.

(** Attachment badges: without a content type the extension after the last dot,
    in any case, alone decides the category; the badge's text is at most five units,
    and at most four for unknown types; a PDF content type always wins. *)
Theorem file_badge_spec (stem e : jstr) (filename contentType : option jstr) :
  let fallback := getFileTypeInfo filename contentType in
  (forallb is_ascii (stem ++ e) = true -> 46 ∉ e -> trim (stem ++ 46 :: e) = stem ++ 46 :: e ->
     category (getFileTypeInfo (Some (stem ++ 46 :: e)) None) = category_of_ext (map ascii_lower e)) /\
  (length (label fallback) <= 5)%nat /\
  (category fallback = FILE -> (length (label fallback) <= 4)%nat) /\
  (forall ct, contentType = Some ct -> includes (toLowerCase ct) (js "pdf") = true -> category fallback = PDF).
Proof.
  intros fallback. split_and!.
  - intros Ha He Ht. unfold getFileTypeInfo. cbn [from_option id]. rewrite Ht.
    assert (Hall : forallb is_ascii (stem ++ 46 :: e) = true).
    { rewrite forallb_app in *. cbn [forallb]. by destruct (forallb is_ascii stem), (forallb is_ascii e). }
    rewrite (lower_ascii _ Hall), lower_ascii by done. rewrite map_app. cbn [map].
    change (ascii_lower 46) with 46. unfold extension. rewrite last_split_on_ext.
    + cbn [from_option id map]. unfold category_of_ext.
      assert (Hi : forall p, p <> [] -> includes [] p = false) by (by intros [|u p]).
      assert (Hs : forall p, p <> [] -> starts_with p [] = false) by (by intros [|u p]).
      rewrite !Hi, !Hs, !orb_false_r by done. set (x := map ascii_lower e).
      assert (Hj : jeqb x (js "pdf") = bool_decide (x = js "pdf")).
      { case_bool_decide as E; [by apply jeqb_eq|]. destruct (jeqb x _) eqn:Ej; [|done]. by apply jeqb_eq in Ej. }
      rewrite Hj. unfold bool_decide. repeat case_decide; done.
    + intros (u & Eu & Hu)%list_elem_of_fmap. assert (u = 46) as ->; [|done].
      unfold ascii_lower in Eu. destruct (_ && _) eqn:Ec in Eu; [|done]. zbool. lia.
  - subst fallback. unfold getFileTypeInfo. split_ifs; cbn; rewrite ?length_take; lia.
  - subst fallback. unfold getFileTypeInfo. split_ifs; cbn; rewrite ?length_take; try done; lia.
  - intros ct -> Hp. subst fallback. unfold getFileTypeInfo. cbn [from_option id]. rewrite Hp.
    by rewrite orb_true_r.
Qed.

End Badges.

Lemma signature_round_trip_witness :
  loadSignature (js "b1") (saveSignature (js "b1") (js "Ann") ∅) = js "Ann".
Proof.
  destruct (signature_round_trip (js "b1") (js "b2") (js "Ann") [] ∅ eq_refl) as (E & _ & _).
  rewrite E. reflexivity.
Defined.
