(* ===== verification/Encoding.v ===== *)
(** * Hex and base64 codecs

    [bytesToHex]/[hexToBytes] of webmail/src/attachment_crypto.ts and of
    control-plane/src/lib/encoding.ts, [base64ToBytes]/[bytesToBase64] of
    webmail/src/message_crypto.ts, and the base64url pair of webmail/src/App.tsx,
    with the platform's [atob] and [btoa].  The theorems are the round trips that
    everything above the crypto boundary relies on, the exact error conditions,
    and the agreement of the two clients' hex decoders. *)

From S2P Require Import Prelude JsString.

(** ** Hexadecimal *)

(** [b.toString(16).padStart(2, "0")] *)
Definition hex_byte (b : Z) : jstr := pad_start 2 48 (to_string_radix 16 b).

(** The loop of [bytesToHex]: [hex += ...] for each byte in turn. *)
Fixpoint bytesToHex_loop (bs : bytes) (hex : jstr) : jstr :=
  match bs with
  | [] => hex
  | b :: bs' => bytesToHex_loop bs' (hex ++ hex_byte b)
  end.

Definition bytesToHex (bs : bytes) : jstr := bytesToHex_loop bs [].

(** [bytes[i / 2] = parseInt(cleanHex.substring(i, i + 2), 16)] for
    [i = 0, 2, ...]; [substring] is short at the end of an odd string. *)
Fixpoint hex_pairs (s : jstr) : bytes :=
  match s with
  | a :: b :: s' => to_uint8 (parseInt16 [a; b]) :: hex_pairs s'
  | [a] => [to_uint8 (parseInt16 [a])]
  | [] => []
  end.

Definition hexToBytes (hex : jstr) : outcome bytes :=
  let cleanHex := trim hex in
  if Z.of_nat (length cleanHex) mod 2 =? 0 then Ok (hex_pairs cleanHex)
  else throw "Invalid hex string length".

(** [Array.from(bytes, (b) => ...).join("")] *)
Definition cp_bytesToHex (bs : bytes) : jstr := join [] (map hex_byte bs).

(** [s.match(/.{1,2}/g)]: greedy pairs within runs free of line terminators;
    no match is [null], here the empty list. *)
Fixpoint match_pairs (s : jstr) : list jstr :=
  match s with
  | [] => []
  | a :: s' =>
      if is_line_terminator a then match_pairs s'
      else
        match s' with
        | b :: s'' =>
            if is_line_terminator b then [a] :: match_pairs s'' else [a; b] :: match_pairs s''
        | [] => [[a]]
        end
  end.

Definition cp_hexToBytes (hex : jstr) : outcome bytes :=
  let cleanHex := trim hex in
  if Z.of_nat (length cleanHex) mod 2 =? 0 then
    Ok (map (fun b => to_uint8 (parseInt16 b)) (match_pairs cleanHex))
  else throw "Invalid hex string: length must be even".

(** The inline decoder of App.tsx,
    [new Uint8Array(s.match(/.{1,2}/g)!.map((b) => parseInt(b, 16)))]: on a string
    with no match, [null!.map] throws. *)
Definition inline_hexToBytes (s : jstr) : outcome bytes :=
  match match_pairs s with
  | [] => throw "Cannot read properties of null"
  | ps => Ok (map (fun b => to_uint8 (parseInt16 b)) ps)
  end.

(** ** Base64 *)

Definition b64_char (v : Z) : Z :=
  if v <? 26 then 65 + v
  else if v <? 52 then 71 + v
  else if v <? 62 then v - 4
  else if v =? 62 then 43 else 47.

Definition b64_val (u : Z) : option Z :=
  if (65 <=? u) && (u <=? 90) then Some (u - 65)
  else if (97 <=? u) && (u <=? 122) then Some (u - 71)
  else if (48 <=? u) && (u <=? 57) then Some (u + 4)
  else if u =? 43 then Some 62
  else if u =? 47 then Some 63
  else None.

Fixpoint b64_encode (bs : bytes) : jstr :=
  match bs with
  | a :: b :: c :: r =>
      b64_char (a / 4) :: b64_char (a mod 4 * 16 + b / 16)
      :: b64_char (b mod 16 * 4 + c / 64) :: b64_char (c mod 64) :: b64_encode r
  | [a; b] =>
      [b64_char (a / 4); b64_char (a mod 4 * 16 + b / 16); b64_char (b mod 16 * 4); 61]
  | [a] => [b64_char (a / 4); b64_char (a mod 4 * 16); 61; 61]
  | [] => []
  end.

(** [btoa(s)]: throws on a code unit above 255. *)
Definition btoa (s : jstr) : outcome jstr :=
  if forallb (fun u => u <? 256) s then Ok (b64_encode s)
  else throw "InvalidCharacterError".

Fixpoint b64_vals (s : jstr) : option (list Z) :=
  match s with
  | [] => Some []
  | u :: s' =>
      match b64_val u, b64_vals s' with
      | Some v, Some vs => Some (v :: vs)
      | _, _ => None
      end
  end.

(** Whole groups of four sextets, then the bytes of a final short group. *)
Fixpoint b64_groups (vs : list Z) : bytes :=
  match vs with
  | a :: b :: c :: d :: r =>
      (a * 4 + b / 16) :: (b mod 16 * 16 + c / 4) :: (c mod 4 * 64 + d) :: b64_groups r
  | [a; b; c] => [a * 4 + b / 16; b mod 16 * 16 + c / 4]
  | [a; b] => [a * 4 + b / 16]
  | _ => []
  end.

(** Remove one or two trailing [=]. *)
Definition strip_padding (s : jstr) : jstr :=
  match reverse s with
  | x :: r =>
      if x =? 61 then
        match r with
        | y :: r' => if y =? 61 then reverse r' else reverse r
        | [] => []
        end
      else s
  | [] => s
  end.

Definition is_ascii_white (u : Z) : bool :=
  (u =? 9) || (u =? 10) || (u =? 12) || (u =? 13) || (u =? 32).

(** [atob(s)]: the forgiving-base64 decode of the Infra standard. *)
Definition atob (s : jstr) : outcome jstr :=
  let data := remove_units is_ascii_white s in
  let data := if Z.of_nat (length data) mod 4 =? 0 then strip_padding data else data in
  if Z.of_nat (length data) mod 4 =? 1 then throw "InvalidCharacterError"
  else
    match b64_vals data with
    | Some vs => Ok (b64_groups vs)
    | None => throw "InvalidCharacterError"
    end.

(** [out[i] = binary.charCodeAt(i)] for each character of the binary string. *)
Definition base64ToBytes (b64 : jstr) : outcome bytes :=
  binary ← atob (trim b64);
  Ok (map (fun u => u mod 256) binary).

Definition CHUNK_SIZE : nat := Z.to_nat 0x8000.

Definition bytesToBase64 (bs : bytes) : outcome jstr :=
  btoa (join [] (chunks CHUNK_SIZE bs)).

(** ** base64url, for WebAuthn *)

Definition base64URLToBuffer (base64URL : jstr) : outcome bytes :=
  let base64 := replace_unit 95 47 (replace_unit 45 43 base64URL) in
  let r := Z.of_nat (length base64) mod 4 in
  let pad := if r =? 0 then [] else replicate (Z.to_nat (4 - r)) 61 in
  raw ← atob (base64 ++ pad);
  Ok (map (fun u => u mod 256) raw).

Definition bufferToBase64URL (bs : bytes) : outcome jstr :=
  s ← btoa bs;
  Ok (remove_units (Z.eqb 61) (replace_unit 47 95 (replace_unit 43 45 s))).

(** ** Hex: facts on one byte, by evaluation, then on sequences *)

Lemma hex_byte_digits b :
  is_byte b -> hex_byte b = [digit_char (b / 16); digit_char (b mod 16)].
Proof. intros Hb. byte_cases b Hb. Qed.

Lemma parse_hex_byte b : is_byte b -> to_uint8 (parseInt16 (hex_byte b)) = b.
Proof. intros Hb. byte_cases b Hb. Qed.

(** A lower-case hexadecimal digit, [/[0-9a-f]/]. *)
Definition is_lower_hex (u : Z) : bool :=
  ((48 <=? u) && (u <=? 57)) || ((97 <=? u) && (u <=? 102)).

Lemma hex_byte_lower b : is_byte b -> forallb is_lower_hex (hex_byte b) = true.
Proof. intros Hb. byte_cases b Hb. Qed.

Lemma bytesToHex_loop_concat bs hex :
  bytesToHex_loop bs hex = hex ++ concat (map hex_byte bs).
Proof.
  revert hex. induction bs as [|b bs IH]; intros hex; simpl; [by rewrite app_nil_r|].
  by rewrite IH, <- app_assoc.
Qed.

Lemma bytesToHex_concat bs : bytesToHex bs = concat (map hex_byte bs).
Proof. apply bytesToHex_loop_concat. Qed.

Lemma bytesToHex_cons b bs : bytesToHex (b :: bs) = hex_byte b ++ bytesToHex bs.
Proof. by rewrite !bytesToHex_concat. Qed.

Lemma bytesToHex_app a b : bytesToHex (a ++ b) = bytesToHex a ++ bytesToHex b.
Proof. by rewrite !bytesToHex_concat, map_app, concat_app. Qed.

Lemma join_nil xs : join [] xs = concat xs.
Proof. induction xs as [|x [|y xs] IH]; simpl in *; [done|by rewrite app_nil_r|by rewrite IH]. Qed.

(** The two clients' encoders are the same function. *)
Lemma cp_bytesToHex_eq bs : cp_bytesToHex bs = bytesToHex bs.
Proof. unfold cp_bytesToHex. by rewrite join_nil, bytesToHex_concat. Qed.

Lemma length_bytesToHex bs : Forall is_byte bs -> length (bytesToHex bs) = (2 * length bs)%nat.
Proof.
  induction 1 as [|b bs Hb _ IH]; [done|].
  rewrite bytesToHex_cons, length_app, IH, hex_byte_digits by done. simpl. lia.
Qed.

Lemma bytesToHex_lower bs : Forall is_byte bs -> forallb is_lower_hex (bytesToHex bs) = true.
Proof.
  induction 1 as [|b bs Hb _ IH]; [done|].
  by rewrite bytesToHex_cons, forallb_app, IH, hex_byte_lower.
Qed.

Lemma lower_hex_not_white u : is_lower_hex u = true -> negb (is_white u) = true.
Proof. unfold is_lower_hex, is_white. lia. Qed.

Lemma forallb_impl {A} (p q : A -> bool) l :
  (forall x, p x = true -> q x = true) -> forallb p l = true -> forallb q l = true.
Proof. rewrite !forallb_forall. auto. Qed.

Lemma trim_lower_hex s : forallb is_lower_hex s = true -> trim s = s.
Proof. intros H. by eapply trim_id, forallb_impl, H; apply lower_hex_not_white. Qed.

Lemma hex_pairs_bytesToHex bs : Forall is_byte bs -> hex_pairs (bytesToHex bs) = bs.
Proof.
  induction 1 as [|b bs Hb _ IH]; [done|].
  pose proof (parse_hex_byte b Hb) as Hp.
  rewrite bytesToHex_cons, hex_byte_digits in * by done.
  simpl app. cbn [hex_pairs]. by rewrite Hp, IH.
Qed.

Lemma hex_round_trip bs : Forall is_byte bs -> hexToBytes (bytesToHex bs) = Ok bs.
Proof.
  intros H. unfold hexToBytes.
  rewrite trim_lower_hex, length_bytesToHex, hex_pairs_bytesToHex by auto using bytesToHex_lower.
  split_ifs; [done|]. zbool. zdm.
Qed.

Lemma bytesToHex_inj a b :
  Forall is_byte a -> Forall is_byte b -> bytesToHex a = bytesToHex b -> a = b.
Proof.
  intros Ha Hb E. pose proof (hex_round_trip a Ha) as H.
  rewrite E, hex_round_trip in H by done. by injection H.
Qed.

Lemma to_uint8_byte o : is_byte (to_uint8 o).
Proof. unfold is_byte. destruct o; simpl; [zdm|lia]. Qed.

Lemma hex_pairs_bytes s : Forall is_byte (hex_pairs s).
Proof.
  induction s using list_ind2; simpl; repeat constructor; auto; apply to_uint8_byte.
Qed.

Lemma length_hex_pairs s :
  Z.of_nat (length s) mod 2 = 0 -> Z.of_nat (length (hex_pairs s)) = Z.of_nat (length s) / 2.
Proof.
  induction s as [| |a b s IH] using list_ind2; [done|simpl; zdm|].
  cbn [hex_pairs length]. intros H.
  assert (Z.of_nat (length s) mod 2 = 0) by zdm. specialize (IH H0). zdm.
Qed.

(** Whatever it is given, the decoder returns bytes, half as many as the
    trimmed string has characters, and throws exactly when that is odd. *)
Lemma hexToBytes_total hex :
  match hexToBytes hex with
  | Ok bs => Forall is_byte bs /\ 2 * Z.of_nat (length bs) = Z.of_nat (length (trim hex))
  | Throw e => message e = js "Invalid hex string length" /\ Z.odd (Z.of_nat (length (trim hex))) = true
  end.
Proof.
  unfold hexToBytes. destruct (_ =? 0) eqn:E; zbool.
  - split; [apply hex_pairs_bytes|]. rewrite length_hex_pairs by done. zdm.
  - split; [done|]. rewrite Zodd_mod. apply Z.eqb_eq. zdm.
Qed.

Lemma is_hex_byte u : is_hex u = true -> is_byte u.
Proof.
  unfold is_hex, hex_val, is_byte.
  destruct (_ && _) eqn:E1; [lia|]. destruct (_ && _) eqn:E2 in |- *; [lia|].
  destruct (_ && _) eqn:E3 in |- *; [lia|done].
Qed.

(** Decoding then encoding normalises a hex string to lower case. *)
Lemma hex_pair_digits a b :
  is_hex a = true -> is_hex b = true ->
  hex_byte (to_uint8 (parseInt16 [a; b])) = [ascii_lower a; ascii_lower b].
Proof.
  intros Ha Hb.
  assert (H : forallb (fun a => forallb (fun b =>
      implb (is_hex a && is_hex b)
        (bool_decide (hex_byte (to_uint8 (parseInt16 [a; b])) = [ascii_lower a; ascii_lower b])))
      all_bytes) all_bytes = true) by (vm_compute; reflexivity).
  pose proof (byte_check _ (byte_check _ H a (is_hex_byte a Ha)) b (is_hex_byte b Hb)) as E.
  simpl in E. rewrite Ha, Hb in E. by apply bool_decide_eq_true in E.
Qed.

Lemma hex_pairs_lower s :
  forallb is_hex s = true -> Z.of_nat (length s) mod 2 = 0 ->
  bytesToHex (hex_pairs s) = map ascii_lower s.
Proof.
  induction s as [| |a b s IH] using list_ind2; [done|simpl; intros; zdm|].
  simpl forallb. intros [Ha [Hb Hs]%andb_true_iff]%andb_true_iff Hl.
  cbn [hex_pairs]. rewrite bytesToHex_cons, hex_pair_digits, IH by (done || simpl in Hl; zdm).
  done.
Qed.

(** ** The two hex decoders agree away from line terminators *)

Definition no_line_terminator (s : jstr) : bool :=
  forallb (fun u => negb (is_line_terminator u)) s.

Lemma match_pairs_hex_pairs s :
  no_line_terminator s = true ->
  map (fun b => to_uint8 (parseInt16 b)) (match_pairs s) = hex_pairs s.
Proof.
  unfold no_line_terminator. induction s as [|a|a b s IH] using list_ind2; [done| |].
  - simpl. by destruct (is_line_terminator a).
  - simpl. destruct (is_line_terminator a); [done|].
    destruct (is_line_terminator b); [done|]. simpl. intros H. by rewrite IH.
Qed.

Lemma lower_hex_no_lt s : forallb is_lower_hex s = true -> no_line_terminator s = true.
Proof.
  apply forallb_impl. intros u. unfold is_lower_hex, is_line_terminator. lia.
Qed.

(** ** Base64: encoding without its padding *)

Fixpoint b64_body (bs : bytes) : jstr :=
  match bs with
  | a :: b :: c :: r =>
      b64_char (a / 4) :: b64_char (a mod 4 * 16 + b / 16)
      :: b64_char (b mod 16 * 4 + c / 64) :: b64_char (c mod 64) :: b64_body r
  | [a; b] => [b64_char (a / 4); b64_char (a mod 4 * 16 + b / 16); b64_char (b mod 16 * 4)]
  | [a] => [b64_char (a / 4); b64_char (a mod 4 * 16)]
  | [] => []
  end.

(** The number of [=] that completes a body to whole groups. *)
Definition b64_pad (body : jstr) : nat :=
  let r := Z.of_nat (length body) mod 4 in if r =? 0 then O else Z.to_nat (4 - r).

Lemma b64_pad_group a b c d s : b64_pad (a :: b :: c :: d :: s) = b64_pad s.
Proof.
  unfold b64_pad. cbn [length].
  by replace (Z.of_nat (S (S (S (S (length s))))) mod 4) with (Z.of_nat (length s) mod 4) by zdm.
Qed.

Lemma b64_encode_body bs :
  b64_encode bs = b64_body bs ++ replicate (b64_pad (b64_body bs)) 61.
Proof.
  induction bs as [| | |a b c bs IH] using list_ind3; [done..|].
  cbn [b64_encode b64_body]. by rewrite IH, b64_pad_group.
Qed.

Lemma length_b64_body bs : Z.of_nat (length (b64_body bs)) mod 4 <> 1.
Proof.
  induction bs as [| | |a b c bs IH] using list_ind3; simpl; try (intros [=]; fail).
  intros H. apply IH. zdm.
Qed.

Lemma b64_val_char v : 0 <= v < 64 -> b64_val (b64_char v) = Some v.
Proof.
  unfold b64_val, b64_char. intros H.
  destruct (v <? 26) eqn:?; [split_ifs; f_equal; lia|].
  destruct (v <? 52) eqn:?; [split_ifs; f_equal; lia|].
  destruct (v <? 62) eqn:?; [split_ifs; f_equal; lia|].
  destruct (v =? 62) eqn:?; split_ifs; f_equal; lia.
Qed.

(** Body and sextets determine each other, group by group. *)
Lemma b64_body_decodes bs :
  Forall is_byte bs -> exists vs, b64_vals (b64_body bs) = Some vs /\ b64_groups vs = bs.
Proof.
  unfold is_byte. induction bs as [|a|a b|a b c bs IH] using list_ind3; intros H.
  - by exists [].
  - apply Forall_cons in H as [Ha _]. cbn [b64_body b64_vals].
    rewrite !b64_val_char by zdm. eexists; split; [done|]. cbn [b64_groups]. f_equal. zdm.
  - apply Forall_cons in H as [Ha [Hb _]%Forall_cons]. cbn [b64_body b64_vals].
    rewrite !b64_val_char by zdm. eexists; split; [done|].
    cbn [b64_groups]. repeat f_equal; zdm.
  - apply Forall_cons in H as [Ha [Hb [Hc H]%Forall_cons]%Forall_cons].
    destruct (IH H) as (vs & E & <-). cbn [b64_body b64_vals].
    rewrite !b64_val_char by zdm. rewrite E. eexists; split; [done|].
    cbn [b64_groups]. repeat f_equal; zdm.
Qed.

(** A character of the base64 alphabet. *)
Definition is_b64 (u : Z) : bool := match b64_val u with Some _ => true | None => false end.

Lemma b64_vals_alphabet s vs : b64_vals s = Some vs -> forallb is_b64 s = true.
Proof.
  revert vs. induction s as [|u s IH]; intros vs; [done|]. simpl. unfold is_b64 at 1.
  destruct (b64_val u); [|done]. destruct (b64_vals s); [|done]. intros _. by eapply IH.
Qed.

Lemma b64_body_alphabet bs : Forall is_byte bs -> forallb is_b64 (b64_body bs) = true.
Proof. intros (vs & E & _)%b64_body_decodes. by eapply b64_vals_alphabet. Qed.

Lemma is_b64_range u :
  is_b64 u = true -> (48 <= u <= 57) \/ (65 <= u <= 90) \/ (97 <= u <= 122) \/ u = 43 \/ u = 47.
Proof.
  unfold is_b64, b64_val.
  destruct (_ && _) eqn:E1; [lia|]. destruct (_ && _) eqn:E2 in |- *; [lia|].
  destruct (_ && _) eqn:E3 in |- *; [lia|]. destruct (u =? 43) eqn:?; [lia|].
  destruct (u =? 47) eqn:?; [lia|done].
Qed.

Lemma is_b64_not_pad u : is_b64 u = true -> (u =? 61) = false.
Proof. intros ?%is_b64_range. lia. Qed.

Lemma strip_padding_body u k :
  forallb is_b64 u = true -> (k <= 2)%nat -> strip_padding (u ++ replicate k 61) = u.
Proof.
  intros Hu Hk. unfold strip_padding. rewrite reverse_app.
  assert (Hh : match reverse u with x :: _ => (x =? 61) = false | [] => True end).
  { rewrite <- forallb_reverse in Hu. destruct (reverse u) as [|x r]; [done|].
    simpl in Hu. apply andb_true_iff in Hu as [Hx _]. by apply is_b64_not_pad. }
  destruct k as [|[|[|k]]]; [| | |lia].
  1: change (reverse (replicate 0 61)) with (@nil Z).
  2: change (reverse (replicate 1 61)) with [61].
  3: change (reverse (replicate 2 61)) with [61; 61].
  all: cbn [app Z.eqb Pos.eqb replicate].
  - rewrite app_nil_r. destruct (reverse u); [done|]. by rewrite Hh.
  - destruct (reverse u) as [|x r] eqn:E; [by rewrite <- (reverse_involutive u), E|].
    by rewrite Hh, <- E, reverse_involutive.
  - apply reverse_involutive.
Qed.

Lemma b64_pad_le bs : (b64_pad (b64_body bs) <= 2)%nat.
Proof.
  pose proof (length_b64_body bs). unfold b64_pad. split_ifs. zbool. zdm.
Qed.

Lemma length_b64_encode bs : Z.of_nat (length (b64_encode bs)) mod 4 = 0.
Proof.
  rewrite b64_encode_body, length_app, length_replicate. unfold b64_pad.
  pose proof (length_b64_body bs). split_ifs; zbool; zdm.
Qed.

Lemma remove_units_id p s : forallb (fun u => negb (p u)) s = true -> remove_units p s = s.
Proof.
  unfold remove_units. induction s as [|u s IH]; [done|]. simpl.
  destruct (p u); [done|]. intros H. simpl. by rewrite IH.
Qed.

(** Every property of the alphabet and of [=] holds of an encoding. *)
Lemma b64_encode_forallb (p : Z -> bool) bs :
  Forall is_byte bs -> (forall u, is_b64 u = true -> p u = true) -> p 61 = true ->
  forallb p (b64_encode bs) = true.
Proof.
  intros Hb Hp Heq. rewrite b64_encode_body, forallb_app.
  rewrite (forallb_impl is_b64 p) by auto using b64_body_alphabet.
  induction (b64_pad (b64_body bs)); simpl; [done|]. by rewrite Heq.
Qed.

Lemma atob_b64_encode bs : Forall is_byte bs -> atob (b64_encode bs) = Ok bs.
Proof.
  intros H. unfold atob. rewrite remove_units_id.
  2:{ apply b64_encode_forallb; [done| |done].
      intros u ?%is_b64_range. unfold is_ascii_white. lia. }
  rewrite length_b64_encode, Z.eqb_refl, b64_encode_body.
  rewrite strip_padding_body by auto using b64_body_alphabet, b64_pad_le.
  pose proof (length_b64_body bs). destruct (_ =? 1) eqn:E; zbool; [done|].
  destruct (b64_body_decodes bs H) as (vs & -> & <-). done.
Qed.

Lemma btoa_bytes bs : Forall is_byte bs -> btoa bs = Ok (b64_encode bs).
Proof.
  intros H. unfold btoa. replace (forallb _ bs) with true; [done|].
  symmetry. apply forallb_forall. rewrite List.Forall_forall in H.
  intros u Hu. specialize (H u Hu). unfold is_byte in H. lia.
Qed.

Lemma map_mod256 bs : Forall is_byte bs -> map (fun u => u mod 256) bs = bs.
Proof.
  unfold is_byte. induction 1; simpl; [done|]. f_equal; [zdm|done].
Qed.

(** The 32 KiB chunking of [bytesToBase64] does not change its result. *)
Lemma bytesToBase64_unchunked bs : Forall is_byte bs -> bytesToBase64 bs = Ok (b64_encode bs).
Proof.
  intros H. unfold bytesToBase64. rewrite join_nil, concat_chunks by (unfold CHUNK_SIZE; lia).
  by apply btoa_bytes.
Qed.

Lemma base64_round_trip bs :
  Forall is_byte bs -> (bytesToBase64 bs ≫= base64ToBytes) = Ok bs.
Proof.
  intros H. rewrite bytesToBase64_unchunked by done. cbn. unfold base64ToBytes.
  rewrite trim_id.
  2:{ apply b64_encode_forallb; [done| |done]. intros u ?%is_b64_range. unfold is_white. lia. }
  rewrite atob_b64_encode by done. cbn. by rewrite map_mod256.
Qed.

(** ** base64url *)

Definition to_url (u : Z) : Z := if u =? 43 then 45 else if u =? 47 then 95 else u.

Lemma replace_to_url s : forallb is_b64 s = true ->
  replace_unit 47 95 (replace_unit 43 45 s) = map to_url s.
Proof.
  intros _. unfold replace_unit. rewrite map_map. apply map_ext. intros u. unfold to_url.
  destruct (u =? 43) eqn:?; split_ifs; lia.
Qed.

Lemma replace_of_url s : forallb is_b64 s = true ->
  replace_unit 95 47 (replace_unit 45 43 (map to_url s)) = s.
Proof.
  unfold replace_unit. rewrite !map_map.
  induction s as [|u s IH]; [done|]. simpl. intros [Hu Hs]%andb_true_iff.
  rewrite IH by done. f_equal. apply is_b64_range in Hu. unfold to_url.
  destruct (u =? 43) eqn:?; [cbn; lia|]. destruct (u =? 47) eqn:?; [cbn; lia|].
  destruct (u =? 45) eqn:?; [lia|]. destruct (u =? 95) eqn:?; lia.
Qed.

Lemma remove_pad_encode bs : Forall is_byte bs ->
  remove_units (Z.eqb 61) (replace_unit 47 95 (replace_unit 43 45 (b64_encode bs))) =
  map to_url (b64_body bs).
Proof.
  intros H. rewrite b64_encode_body. unfold replace_unit, remove_units.
  rewrite !map_app, List.filter_app.
  fold (replace_unit 43 45 (b64_body bs)). fold (replace_unit 47 95 (replace_unit 43 45 (b64_body bs))).
  rewrite replace_to_url by auto using b64_body_alphabet.
  replace (List.filter _ (map _ (map _ (replicate _ 61)))) with (@nil Z).
  2:{ induction (b64_pad (b64_body bs)); simpl; auto. }
  rewrite app_nil_r. apply remove_units_id. rewrite forallb_forall. intros v.
  rewrite in_map_iff. intros (u & <- & Hu).
  pose proof (b64_body_alphabet bs H) as Ha. rewrite forallb_forall in Ha.
  specialize (Ha u Hu). apply is_b64_range in Ha. unfold to_url. split_ifs; lia.
Qed.

Lemma base64url_round_trip bs :
  Forall is_byte bs -> (bufferToBase64URL bs ≫= base64URLToBuffer) = Ok bs.
Proof.
  intros H. unfold bufferToBase64URL. rewrite btoa_bytes by done. cbn -[base64URLToBuffer].
  rewrite remove_pad_encode by done. unfold base64URLToBuffer.
  rewrite replace_of_url by auto using b64_body_alphabet.
  replace (if _ =? 0 then [] else _) with (replicate (b64_pad (b64_body bs)) 61).
  2:{ unfold b64_pad. by destruct (_ =? 0). }
  rewrite <- b64_encode_body, atob_b64_encode by done. cbn. by rewrite map_mod256.
Qed.

#[export] Hint Resolve bytesToHex_lower hex_pairs_bytes to_uint8_byte : byos.

Lemma hexToBytes_bytes s bs : hexToBytes s = Ok bs -> Forall is_byte bs.
Proof. unfold hexToBytes. destruct (_ =? 0); [|done]. intros [= <-]. apply hex_pairs_bytes. Qed.

Lemma match_pairs_bytesToHex bs :
  Forall is_byte bs -> map (fun b => to_uint8 (parseInt16 b)) (match_pairs (bytesToHex bs)) = bs.
Proof.
  intros H. pose proof (bytesToHex_lower bs H).
  by rewrite match_pairs_hex_pairs, hex_pairs_bytesToHex by auto using lower_hex_no_lt.
Qed.

Lemma hex_not_empty bs : Forall is_byte bs -> bs <> [] -> bytesToHex bs <> [].
Proof. intros Hb Hn E. pose proof (length_bytesToHex bs Hb) as Hl. rewrite E in Hl. by destruct bs. Qed.

Lemma inline_hex_round_trip bs : Forall is_byte bs -> bs <> [] -> inline_hexToBytes (bytesToHex bs) = Ok bs.
Proof.
  intros H Hn. unfold inline_hexToBytes. pose proof (match_pairs_bytesToHex bs H) as Hm.
  destruct (match_pairs _) eqn:E; [by subst|]. by rewrite Hm.
Qed.

Lemma inline_hex_bytes s bs : inline_hexToBytes s = Ok bs -> Forall is_byte bs.
Proof.
  unfold inline_hexToBytes. destruct (match_pairs s) as [|p ps]; [done|]. intros [= <-].
  constructor; [apply to_uint8_byte|]. apply Forall_fmap, Forall_true. intros. apply to_uint8_byte.
Qed.

(** ** Properties *)

(** Hex round trip: for every byte sequence, each of the three decoders
    (webmail's, the control plane's, and the one written inline in App.tsx)
    recovers exactly the bytes its client encoded; the encoding has two lower-case
    digits per byte.  The inline decoder throws on the empty string instead. *)
Theorem hex_codec_round_trip bs :
  Forall is_byte bs ->
  hexToBytes (bytesToHex bs) = Ok bs /\
  cp_hexToBytes (cp_bytesToHex bs) = Ok bs /\
  inline_hexToBytes (bytesToHex bs) =
    (if decide (bs = []) then throw "Cannot read properties of null" else Ok bs) /\
  length (bytesToHex bs) = (2 * length bs)%nat /\
  forallb is_lower_hex (bytesToHex bs) = true.
Proof.
  intros H. pose proof (bytesToHex_lower bs H) as Hl.
  split_and!; auto using hex_round_trip, length_bytesToHex.
  - unfold cp_hexToBytes. rewrite cp_bytesToHex_eq, trim_lower_hex, match_pairs_bytesToHex, length_bytesToHex by done.
    split_ifs; [done|]. zbool. zdm.
  - case_decide as Hn; [by subst|]. by apply inline_hex_round_trip.
Qed.

Lemma hex_codec_round_trip_witness :
  hexToBytes (bytesToHex [0; 171; 255]) = Ok [0; 171; 255].
Proof.
  refine (proj1 (hex_codec_round_trip [0; 171; 255] _)).
  repeat constructor; vm_compute; congruence.
Defined.

(** [hexToBytes] on arbitrary input: it throws exactly when the trimmed
    string has an odd number of characters, and otherwise returns half as many
    bytes; characters that are not hex digits never make it throw. *)
Theorem hexToBytes_error_exactly_on_odd_length hex :
  match hexToBytes hex with
  | Ok bs => Forall is_byte bs /\ 2 * Z.of_nat (length bs) = Z.of_nat (length (trim hex))
  | Throw e =>
      message e = js "Invalid hex string length" /\ Z.odd (Z.of_nat (length (trim hex))) = true
  end.
Proof. exact (hexToBytes_total hex). Qed.

(** The webmail and control-plane hex decoders agree, results and
    failures alike, on every string whose trimmed form has no line terminator;
    on hex digits of even length both invert the encoder up to letter case. *)
Theorem hex_decoders_agree hex :
  no_line_terminator (trim hex) = true ->
  is_ok (hexToBytes hex) = is_ok (cp_hexToBytes hex) /\
  (forall bs, hexToBytes hex = Ok bs <-> cp_hexToBytes hex = Ok bs) /\
  (forallb is_hex (trim hex) = true -> forall bs, hexToBytes hex = Ok bs ->
     bytesToHex bs = map ascii_lower (trim hex)).
Proof.
  intros Hn. unfold hexToBytes, cp_hexToBytes. rewrite match_pairs_hex_pairs by done.
  destruct (_ =? 0) eqn:E; zbool; (split_and!; [done..|]).
  - intros Hh bs [= <-]. by apply hex_pairs_lower.
  - done.
Qed.

Lemma hex_decoders_agree_witness :
  cp_hexToBytes (js " 0aFF ") = Ok [10; 255] /\ no_line_terminator (trim (js " 0aFF ")) = true.
Proof.
  split; [|reflexivity].
  refine (proj1 (proj1 (proj2 (hex_decoders_agree (js " 0aFF ") _)) [10; 255]) _); reflexivity.
Defined.

(** The hypothesis of [hex_decoders_agree] is needed: an interior newline shifts the pairs of
    the control plane's regular expression. *)
Example hex_decoders_differ_on_newline :
  let s := [49; 50; 10; 51; 52; 53] in hexToBytes s <> cp_hexToBytes s.
Proof. vm_compute. congruence. Qed.

(** Base64 round trip through [btoa]/[atob]: for byte sequences of every
    length, splitting into 32 KiB chunks does not change the encoding, and
    [base64ToBytes] recovers the bytes. *)
Theorem base64_codec_round_trip bs :
  Forall is_byte bs ->
  bytesToBase64 bs = btoa bs /\ (bytesToBase64 bs ≫= base64ToBytes) = Ok bs.
Proof.
  intros H. split; [|by apply base64_round_trip].
  by rewrite bytesToBase64_unchunked, btoa_bytes.
Qed.

Lemma base64_codec_round_trip_witness :
  (bytesToBase64 [72; 105; 33; 255] ≫= base64ToBytes) = Ok [72; 105; 33; 255].
Proof.
  refine (proj2 (base64_codec_round_trip [72; 105; 33; 255] _)).
  repeat constructor; vm_compute; congruence.
Defined.

(** The base64url pair used for WebAuthn credential ids and challenges is
    a round trip: dropping the padding and the [+ /] characters loses nothing. *)
Theorem base64url_codec_round_trip bs :
  Forall is_byte bs -> (bufferToBase64URL bs ≫= base64URLToBuffer) = Ok bs.
Proof. exact (base64url_round_trip bs). Qed.

Lemma base64url_codec_round_trip_witness :
  (bufferToBase64URL [251; 255; 0; 62] ≫= base64URLToBuffer) = Ok [251; 255; 0; 62].
Proof.
  refine (base64url_codec_round_trip [251; 255; 0; 62] _).
  repeat constructor; vm_compute; congruence.
Defined.
