(* ===== verification/Json.v ===== *)
(** * JSON

    [JSON.stringify] and [JSON.parse], as the sources use them: compact output,
    escapes of control characters and lone surrogates, and the grammar of
    RFC 8259 with numbers kept as their lexemes.  The theorem is that parsing what
    was printed returns the value, for every value. *)

From S2P Require Import Prelude JsString.

Unset Elimination Schemes.
Inductive json : Type :=
| JNull
| JBool (b : bool)
| JNum (lexeme : jstr)
| JStr (s : jstr)
| JArr (xs : list json)
| JObj (ms : list (jstr * json)).
Set Elimination Schemes.

(** ** Printing *)

(** The four lower-case hex digits of an escaped code unit. *)
Definition hex4 (u : Z) : jstr := pad_start 4 48 (to_string_radix 16 u).

(** One code unit that is not part of a surrogate pair. *)
Definition quote_unit (u : Z) : jstr :=
  if u =? 34 then [92; 34]
  else if u =? 92 then [92; 92]
  else if u =? 8 then [92; 98]
  else if u =? 9 then [92; 116]
  else if u =? 10 then [92; 110]
  else if u =? 12 then [92; 102]
  else if u =? 13 then [92; 114]
  else if (u <? 32) || is_high u || is_low u then [92; 117] ++ hex4 u
  else [u].

(** The body of a JSON string: surrogate pairs are copied, lone surrogates escaped. *)
Fixpoint quote_body (s : jstr) : jstr :=
  match s with
  | [] => []
  | u :: s' =>
      if is_high u then
        match s' with
        | v :: s'' =>
            if is_low v then u :: v :: quote_body s'' else quote_unit u ++ quote_body s'
        | [] => quote_unit u
        end
      else quote_unit u ++ quote_body s'
  end.

Definition quote (s : jstr) : jstr := [34] ++ quote_body s ++ [34].

Fixpoint stringify (v : json) : jstr :=
  match v with
  | JNull => js "null"
  | JBool true => js "true"
  | JBool false => js "false"
  | JNum l => l
  | JStr s => quote s
  | JArr xs => [91] ++ join [44] (map stringify xs) ++ [93]
  | JObj ms => [123] ++ join [44] (map (fun m => quote (fst m) ++ [58] ++ stringify (snd m)) ms) ++ [125]
  end.

(** ** Parsing *)

Definition is_json_white (u : Z) : bool := (u =? 9) || (u =? 10) || (u =? 13) || (u =? 32).

Fixpoint skip_ws (s : jstr) : jstr :=
  match s with
  | u :: s' => if is_json_white u then skip_ws s' else s
  | [] => []
  end.

(** The value of four hex digits. *)
Definition unhex4 (a b c d : Z) : option Z :=
  match hex_val a, hex_val b, hex_val c, hex_val d with
  | Some a, Some b, Some c, Some d => Some (((a * 16 + b) * 16 + c) * 16 + d)
  | _, _, _, _ => None
  end.

(** A string body up to its closing quote, and the rest of the input. *)
Fixpoint parse_string (s : jstr) : option (jstr * jstr) :=
  match s with
  | [] => None
  | u :: s' =>
      if u =? 34 then Some ([], s')
      else if u <? 32 then None
      else if u =? 92 then
        match s' with
        | e :: s'' =>
            let simple (c : Z) :=
              match parse_string s'' with Some (t, r) => Some (c :: t, r) | None => None end in
            if e =? 34 then simple 34
            else if e =? 92 then simple 92
            else if e =? 47 then simple 47
            else if e =? 98 then simple 8
            else if e =? 102 then simple 12
            else if e =? 110 then simple 10
            else if e =? 114 then simple 13
            else if e =? 116 then simple 9
            else if e =? 117 then
              match s'' with
              | a :: b :: c :: d :: rest =>
                  match unhex4 a b c d, parse_string rest with
                  | Some v, Some (t, r) => Some (v :: t, r)
                  | _, _ => None
                  end
              | _ => None
              end
            else None
        | [] => None
        end
      else match parse_string s' with Some (t, r) => Some (u :: t, r) | None => None end
  end.

(** A character that can occur in a number. *)
Definition is_num_char (u : Z) : bool :=
  is_digit u || (u =? 43) || (u =? 45) || (u =? 46) || (u =? 69) || (u =? 101).

Fixpoint span (p : Z -> bool) (s : jstr) : jstr * jstr :=
  match s with
  | u :: s' => if p u then let '(a, b) := span p s' in (u :: a, b) else ([], s)
  | [] => ([], [])
  end.

(** The number grammar: optional minus, an integer without leading zero, an
    optional fraction, an optional exponent. *)
Definition valid_number (l : jstr) : bool :=
  let l := match l with c :: r => if c =? 45 then r else l | [] => [] end in
  let '(int, l) := span is_digit l in
  let int_ok := match int with [] => false | [_] => true | c :: _ => negb (c =? 48) end in
  let '(frac_ok, l) :=
    match l with
    | c :: r =>
        if c =? 46 then let '(ds, r') := span is_digit r in (truthy ds, r') else (true, l)
    | [] => (true, [])
    end in
  let '(exp_ok, l) :=
    match l with
    | c :: r =>
        if (c =? 69) || (c =? 101) then
          let r := match r with d :: r' => if (d =? 43) || (d =? 45) then r' else r | [] => [] end in
          let '(ds, r') := span is_digit r in (truthy ds, r')
        else (true, l)
    | [] => (true, [])
    end in
  int_ok && frac_ok && exp_ok && negb (truthy l).

Fixpoint parse_value (fuel : nat) (s : jstr) {struct fuel} : option (json * jstr) :=
  match fuel with
  | O => None
  | S fuel =>
      match skip_ws s with
      | [] => None
      | c :: r =>
          if c =? 34 then
            match parse_string r with Some (t, r') => Some (JStr t, r') | None => None end
          else if c =? 123 then
            match skip_ws r with
            | d :: r' =>
                if d =? 125 then Some (JObj [], r')
                else match parse_members fuel r with
                     | Some (ms, r') => Some (JObj ms, r')
                     | None => None
                     end
            | [] => None
            end
          else if c =? 91 then
            match skip_ws r with
            | d :: r' =>
                if d =? 93 then Some (JArr [], r')
                else match parse_elements fuel r with
                     | Some (xs, r') => Some (JArr xs, r')
                     | None => None
                     end
            | [] => None
            end
          else if starts_with (js "null") (c :: r) then Some (JNull, drop 4 (c :: r))
          else if starts_with (js "true") (c :: r) then Some (JBool true, drop 4 (c :: r))
          else if starts_with (js "false") (c :: r) then Some (JBool false, drop 5 (c :: r))
          else
            let '(l, r') := span is_num_char (c :: r) in
            if valid_number l then Some (JNum l, r') else None
      end
  end
with parse_elements (fuel : nat) (s : jstr) {struct fuel} : option (list json * jstr) :=
  match fuel with
  | O => None
  | S fuel =>
      match parse_value fuel s with
      | Some (v, r) =>
          match skip_ws r with
          | d :: r' =>
              if d =? 44 then
                match parse_elements fuel r' with
                | Some (vs, r'') => Some (v :: vs, r'')
                | None => None
                end
              else if d =? 93 then Some ([v], r') else None
          | [] => None
          end
      | None => None
      end
  end
with parse_members (fuel : nat) (s : jstr) {struct fuel} : option (list (jstr * json) * jstr) :=
  match fuel with
  | O => None
  | S fuel =>
      match skip_ws s with
      | q :: r =>
          if q =? 34 then
            match parse_string r with
            | Some (k, r) =>
                match skip_ws r with
                | c :: r =>
                    if c =? 58 then
                      match parse_value fuel r with
                      | Some (v, r) =>
                          match skip_ws r with
                          | d :: r' =>
                              if d =? 44 then
                                match parse_members fuel r' with
                                | Some (ms, r'') => Some ((k, v) :: ms, r'')
                                | None => None
                                end
                              else if d =? 125 then Some ([(k, v)], r') else None
                          | [] => None
                          end
                      | None => None
                      end
                    else None
                | [] => None
                end
            | None => None
            end
          else None
      | [] => None
      end
  end.

(** [JSON.parse(s)]; a [SyntaxError] is thrown on malformed input.  Every
    nesting level and every element of the text consumes at least one character
    per two calls, so [2 * length + 2] calls are enough. *)
Definition JSON_parse (s : jstr) : outcome json :=
  match parse_value (2 * length s + 2) s with
  | Some (v, r) => if truthy (skip_ws r) then throw "SyntaxError" else Ok v
  | None => throw "SyntaxError"
  end.

Definition JSON_stringify (v : json) : jstr := stringify v.

(** Property access: the last of duplicate members, [None] for [undefined]. *)
Definition get (v : json) (k : jstr) : option json :=
  match v with
  | JObj ms => snd <$> List.find (fun m => jeqb (fst m) k) (reverse ms)
  | _ => None
  end.

(** The property as a string where it is one. *)
Definition get_str (v : json) (k : jstr) : option jstr :=
  match get v k with Some (JStr s) => Some s | _ => None end.

(** A member the client declares a string; another value is read as the empty one. *)
Definition str_field (v : json) (k : string) : jstr := default [] (get_str v (js k)).

(** *** Coercions of parsed values *)

(** [ToBoolean]; a number is falsy when all the digits of its mantissa are zero
    (literals that underflow are not distinguished). *)
Definition json_truthy (v : json) : bool :=
  match v with
  | JNull => false
  | JBool b => b
  | JNum l =>
      existsb (fun u => (49 <=? u) && (u <=? 57))
        (fst (span (fun u => negb ((u =? 69) || (u =? 101))) l))
  | JStr s => truthy s
  | JArr _ | JObj _ => true
  end.

(** [v.p || v.q || ""] on a parsed value. *)
Definition first_truthy (v : json) (ps : list jstr) : json :=
  match List.find json_truthy (omap (get v) ps) with Some x => x | None => JStr [] end.

(** [v.length === n]: an object has the property only as a member, compared by
    its decimal lexeme. *)
Definition length_is (v : json) (n : nat) : bool :=
  match v with
  | JStr s => (length s =? n)%nat
  | JArr xs => (length xs =? n)%nat
  | JObj _ => match get v (js "length") with Some (JNum l) => jeqb l (num (Z.of_nat n)) | _ => false end
  | _ => false
  end.

(** ** Parsing inverts printing *)

Lemma json_ind (P : json -> Prop) :
  P JNull -> (forall b, P (JBool b)) -> (forall l, P (JNum l)) -> (forall s, P (JStr s)) ->
  (forall xs, Forall P xs -> P (JArr xs)) ->
  (forall ms, Forall (fun m => P (snd m)) ms -> P (JObj ms)) ->
  forall v, P v.
Proof.
  intros H0 H1 H2 H3 H4 H5. fix IH 1.
  intros [|b|l|s|xs|ms]; [exact H0|apply H1|apply H2|apply H3|apply H4|apply H5].
  - induction xs; constructor; auto.
  - induction ms as [|[k v] ms IHms]; constructor; [exact (IH v)|exact IHms].
Qed.

(** Strings of code units and lexemes of the number grammar. *)
Fixpoint wf (v : json) : bool :=
  match v with
  | JNum l => valid_number l && forallb is_num_char l
  | JStr s => bool_decide (Forall is_unit s)
  | JArr xs => forallb wf xs
  | JObj ms => forallb (fun m => bool_decide (Forall is_unit (fst m)) && wf (snd m)) ms
  | _ => true
  end.

(** An upper bound on the calls needed to parse a printed value. *)
Fixpoint jsize (v : json) : nat :=
  match v with
  | JArr xs => S (list_sum (map (fun x => S (jsize x)) xs))
  | JObj ms => S (list_sum (map (fun m => S (jsize (snd m))) ms))
  | _ => 1
  end.

(** What may follow a value without extending it. *)
Definition stop (r : jstr) : Prop := match r with [] => True | c :: _ => is_num_char c = false end.

Definition escaped_units : list Z := 
  map Z.of_nat (seq 0 32) ++ map (fun i => 0xD800 + Z.of_nat i) (seq 0 2048).

Lemma unhex4_hex4 u :
  is_unit u -> (u <? 32) || is_high u || is_low u = true ->
  exists a b c d, hex4 u = [a; b; c; d] /\ unhex4 a b c d = Some u.
Proof.
  unfold is_unit, is_high, is_low. intros Hu He.
  assert (H : forallb (fun u => match hex4 u with
      | [a; b; c; d] => bool_decide (unhex4 a b c d = Some u) | _ => false end) escaped_units = true)
    by (vm_compute; reflexivity).
  assert (Hin : In u escaped_units).
  { unfold escaped_units. apply in_app_iff. rewrite !in_map_iff.
    destruct (Z.ltb_spec u 32).
    - left. exists (Z.to_nat u). rewrite in_seq. lia.
    - right. exists (Z.to_nat (u - 0xD800)). rewrite in_seq. lia. }
  rewrite forallb_forall in H. specialize (H u Hin).
  destruct (hex4 u) as [|a [|b [|c [|d [|]]]]]; try done.
  exists a, b, c, d. split; [done|]. by apply bool_decide_eq_true in H.
Qed.

Definition cons_fst (u : Z) (p : jstr * jstr) : jstr * jstr := (u :: fst p, snd p).

Lemma parse_string_plain u t :
  32 <= u -> u <> 34 -> u <> 92 -> parse_string (u :: t) = cons_fst u <$> parse_string t.
Proof.
  intros. cbn [parse_string].
  rewrite (proj2 (Z.eqb_neq u 34)), (proj2 (Z.ltb_ge u 32)), (proj2 (Z.eqb_neq u 92)) by lia.
  by destruct (parse_string t) as [[? ?]|].
Qed.

Lemma parse_quote_unit u t :
  is_unit u -> parse_string (quote_unit u ++ t) = cons_fst u <$> parse_string t.
Proof.
  intros Hu. unfold quote_unit.
  repeat match goal with |- context [if u =? ?k then _ else _] =>
    destruct (Z.eqb_spec u k); [subst; cbn; by destruct (parse_string t) as [[? ?]|]|] end.
  destruct ((u <? 32) || is_high u || is_low u) eqn:E.
  - destruct (unhex4_hex4 u Hu E) as (a & b & c & d & -> & Hv).
    cbn -[unhex4]. rewrite Hv. by destruct (parse_string t) as [[? ?]|].
  - unfold is_unit in Hu. apply parse_string_plain; lia.
Qed.

Lemma quote_body_cons u s :
  quote_body (u :: s) =
  if is_high u then
    match s with
    | v :: s'' => if is_low v then u :: v :: quote_body s'' else quote_unit u ++ quote_body s
    | [] => quote_unit u
    end
  else quote_unit u ++ quote_body s.
Proof. done. Qed.

Lemma parse_string_quote s r :
  Forall is_unit s -> parse_string (quote_body s ++ 34 :: r) = Some (s, r).
Proof.
  induction s as [|u s IH IH'] using list_ind_tails; [done|].
  intros [Hu Hs]%Forall_cons. rewrite quote_body_cons.
  assert (Hone : parse_string ((quote_unit u ++ quote_body s) ++ 34 :: r) = Some (u :: s, r)).
  { rewrite <- app_assoc, parse_quote_unit, IH by done. done. }
  destruct (is_high u) eqn:Eh; [|exact Hone].
  destruct s as [|v s]; [by rewrite app_nil_r in Hone|].
  destruct (is_low v) eqn:El; [|exact Hone].
  apply Forall_cons in Hs as [Hv Hs]. simpl in IH'. unfold is_high, is_low in *.
  cbn [app]. rewrite !parse_string_plain, IH' by (done || lia). done.
Qed.

(** The first character of a printed value. *)
Definition value_head (c : Z) : bool :=
  (c =? 110) || (c =? 116) || (c =? 102) || (c =? 34) || (c =? 91) || (c =? 123) || is_num_char c.

Lemma stringify_head v :
  wf v = true -> exists c t, stringify v = c :: t /\ value_head c = true.
Proof.
  destruct v as [|[]|l| | |]; intros H; try (eexists _, _; split; reflexivity).
  simpl in *. apply andb_true_iff in H as [H1 H2].
  destruct l as [|c l]; [done|]. simpl in H2. apply andb_true_iff in H2 as [Hc _].
  exists c, l. split; [done|]. unfold value_head. rewrite Hc. by rewrite !orb_true_r.
Qed.

Lemma skip_ws_head c t : value_head c = true -> skip_ws (c :: t) = c :: t.
Proof.
  intros H. simpl. replace (is_json_white c) with false; [done|].
  unfold value_head, is_num_char, is_digit, is_json_white in *. lia.
Qed.

Lemma span_app p l r :
  forallb p l = true -> match r with [] => True | c :: _ => p c = false end ->
  span p (l ++ r) = (l, r).
Proof.
  intros Hl Hr. induction l as [|u l IH]; simpl in *.
  - destruct r as [|c r]; simpl; [done|]. by rewrite Hr.
  - apply andb_true_iff in Hl as [Hu Hl]. by rewrite Hu, IH.
Qed.

Definition parses (v : json) : Prop := forall fuel r,
  wf v = true -> (jsize v <= fuel)%nat -> stop r ->
  parse_value fuel (stringify v ++ r) = Some (v, r).

Lemma join_cons2 sep x y xs : join sep (x :: y :: xs) = x ++ sep ++ join sep (y :: xs).
Proof. done. Qed.

Lemma parse_elements_ok xs r :
  Forall parses xs -> forallb wf xs = true -> xs <> [] -> forall fuel,
  (list_sum (map (fun x => S (jsize x)) xs) <= fuel)%nat ->
  parse_elements fuel (join [44] (map stringify xs) ++ 93 :: r) = Some (xs, r).
Proof.
  induction xs as [|x xs IH]; intros Hp Hw Hn fuel Hf; [done|].
  apply Forall_cons in Hp as [Hx Hp]. simpl in Hw. apply andb_true_iff in Hw as [Hwx Hw].
  simpl in Hf. destruct fuel as [|fuel]; [lia|].
  cbn [parse_elements]. destruct xs as [|y xs].
  - cbn [map join]. rewrite Hx by (done || lia). done.
  - cbn [map]. rewrite join_cons2, <- !app_assoc, Hx by (done || lia).
    cbn -[parse_elements join]. specialize (IH Hp Hw ltac:(done) fuel ltac:(lia)).
    cbn [map] in IH. by rewrite IH.
Qed.

Lemma parse_members_ok ms r :
  Forall (fun m => parses (snd m)) ms ->
  forallb (fun m => bool_decide (Forall is_unit (fst m)) && wf (snd m)) ms = true ->
  ms <> [] -> forall fuel,
  (list_sum (map (fun m => S (jsize (snd m))) ms) <= fuel)%nat ->
  parse_members fuel
    (join [44] (map (fun m => quote (fst m) ++ [58] ++ stringify (snd m)) ms) ++ 125 :: r)
  = Some (ms, r).
Proof.
  induction ms as [|[k v] ms IH]; intros Hp Hw Hn fuel Hf; [done|].
  apply Forall_cons in Hp as [Hx Hp]. simpl in Hx, Hw.
  apply andb_true_iff in Hw as [[Hk%bool_decide_eq_true Hwv]%andb_true_iff Hw].
  simpl in Hf. destruct fuel as [|fuel]; [lia|].
  assert (Hhead : forall t, parse_members (S fuel) ((quote k ++ [58] ++ stringify v) ++ t) =
    match parse_value fuel (stringify v ++ t) with
    | Some (v, r) =>
        match skip_ws r with
        | d :: r' =>
            if d =? 44 then
              match parse_members fuel r' with
              | Some (ms, r'') => Some ((k, v) :: ms, r'')
              | None => None
              end
            else if d =? 125 then Some ([(k, v)], r') else None
        | [] => None
        end
    | None => None
    end).
  { intros t. unfold quote. rewrite <- !app_assoc. cbn -[parse_string].
    rewrite parse_string_quote by done. done. }
  destruct ms as [|m ms].
  - cbn [map join]. rewrite Hhead, Hx by (done || lia). done.
  - specialize (IH Hp Hw ltac:(done) fuel ltac:(lia)). cbn [map] in IH |- *.
    rewrite join_cons2. set (T := join [44] (_ :: map _ ms)) in *. clearbody T.
    rewrite <- app_assoc, Hhead, Hx by (done || lia). rewrite <- app_assoc.
    cbn -[parse_members]. by rewrite IH.
Qed.

Lemma parse_number_ok l fuel r :
  valid_number l && forallb is_num_char l = true -> (1 <= fuel)%nat -> stop r ->
  parse_value fuel (l ++ r) = Some (JNum l, r).
Proof.
  intros [Hv Hc]%andb_true_iff Hf Hr. destruct fuel as [|fuel]; [lia|].
  destruct l as [|c l]; [done|]. pose proof Hc as Hc'. simpl in Hc'.
  apply andb_true_iff in Hc' as [Hh _].
  cbn [parse_value]. change ((c :: l) ++ r) with (c :: (l ++ r)).
  rewrite skip_ws_head by (unfold value_head; rewrite Hh; apply orb_true_r).
  assert (Hne : forall k, is_num_char k = false -> (c =? k) = false).
  { intros k Hk. apply Z.eqb_neq. intros ->. congruence. }
  assert (Hs : forall k p, is_num_char k = false -> starts_with (k :: p) (c :: (l ++ r)) = false).
  { intros k p Hk. cbn [starts_with]. by rewrite Z.eqb_sym, Hne. }
  rewrite !Hne by done. unfold js. cbn [map String.list_ascii_of_string].
  rewrite !Hs by done.
  change (c :: (l ++ r)) with ((c :: l) ++ r). rewrite span_app by done. by rewrite Hv.
Qed.

Lemma parse_stringify v : parses v.
Proof.
  induction v as [| [] | l | s | xs IH | ms IH] using json_ind; intros fuel r Hw Hf Hr;
    try (destruct fuel; [simpl in Hf; lia|]; reflexivity).
  - by apply parse_number_ok.
  - destruct fuel; [simpl in Hf; lia|]. simpl in Hw. apply bool_decide_eq_true in Hw.
    simpl stringify. unfold quote. rewrite <- !app_assoc. cbn -[parse_string].
    by rewrite parse_string_quote.
  - simpl in Hf, Hw. destruct fuel as [|fuel]; [lia|].
    destruct xs as [|x xs]; [done|].
    assert (Hx : wf x = true) by (simpl in Hw; by apply andb_true_iff in Hw as [? _]).
    destruct (stringify_head x Hx) as (c & t & Hc & Hh).
    pose proof (parse_elements_ok (x :: xs) r IH Hw ltac:(done) fuel ltac:(lia)) as He.
    cbn [stringify]. rewrite <- !app_assoc.
    assert (exists t', join [44] (map stringify (x :: xs)) ++ 93 :: r = c :: t') as [t' Et].
    { destruct xs; cbn [map join]; rewrite Hc; eexists; reflexivity. }
    rewrite Et in He. cbn [app parse_value]. cbn [skip_ws].
    rewrite Et. cbn -[parse_elements skip_ws]. rewrite skip_ws_head, He by done.
    replace (c =? 93) with false; [done|].
    unfold value_head, is_num_char, is_digit in Hh. lia.
  - simpl in Hf, Hw. destruct fuel as [|fuel]; [lia|].
    destruct ms as [|m ms]; [done|].
    pose proof (parse_members_ok (m :: ms) r IH Hw ltac:(done) fuel ltac:(lia)) as He.
    cbn [stringify]. rewrite <- !app_assoc.
    assert (exists t', join [44] (map (fun m => quote (fst m) ++ [58] ++ stringify (snd m)) (m :: ms))
      ++ 125 :: r = 34 :: t') as [t' Et].
    { destruct ms; cbn [map join]; unfold quote; eexists; reflexivity. }
    rewrite Et in He. change ([125] ++ r) with (125 :: r). rewrite Et.
    cbn -[parse_members]. by rewrite He.
Qed.

Lemma length_join_ge (xs : list jstr) :
  (list_sum (map (fun x => S (length x)) xs) <= S (length (join [44%Z] xs)))%nat.
Proof.
  induction xs as [|x [|y xs] IH]; [simpl; lia..|].
  rewrite join_cons2, !length_app. cbn [map list_sum length] in *. simpl in *. lia.
Qed.

Lemma list_sum_le {A} (f g : A -> nat) l :
  Forall (fun x => f x <= g x)%nat l -> (list_sum (map f l) <= list_sum (map g l))%nat.
Proof. induction 1; simpl; lia. Qed.

Lemma list_sum_double {A} (f : A -> nat) l :
  (list_sum (map (fun x => 2 * f x) l) = 2 * list_sum (map f l))%nat.
Proof. unfold list_sum. induction l; cbn [map fold_right]; lia. Qed.

(** The text is long enough to pay for its own parsing. *)
Lemma jsize_stringify v : wf v = true -> (jsize v <= 2 * length (stringify v))%nat.
Proof.
  induction v as [| [] | l | s | xs IH | ms IH] using json_ind; intros Hw; try (simpl; lia).
  - simpl in Hw. destruct l; [done|]. simpl. lia.
  - cbn [stringify jsize]. rewrite !length_app. cbn [length].
    assert (H : (list_sum (map (fun x => S (jsize x)) xs) <=
      list_sum (map (fun x => 2 * S (length (stringify x))) xs))%nat).
    { apply list_sum_le. simpl in Hw. rewrite forallb_forall in Hw.
      apply List.Forall_forall. intros x Hx. rewrite List.Forall_forall in IH.
      specialize (IH x Hx (Hw x Hx)). lia. }
    rewrite list_sum_double in H. pose proof (length_join_ge (map stringify xs)) as Hj.
    rewrite map_map in Hj. lia.
  - cbn [stringify jsize]. rewrite !length_app. cbn [length].
    assert (H : (list_sum (map (fun m => S (jsize (snd m))) ms) <=
      list_sum (map (fun m => 2 * S (length (quote (fst m) ++ [58%Z] ++ stringify (snd m)))) ms))%nat).
    { apply list_sum_le. simpl in Hw. rewrite forallb_forall in Hw.
      apply List.Forall_forall. intros x Hx. rewrite List.Forall_forall in IH.
      specialize (Hw x Hx). apply andb_true_iff in Hw as [_ Hw].
      specialize (IH x Hx Hw). rewrite !length_app. lia. }
    rewrite list_sum_double in H.
    pose proof (length_join_ge (map (fun m => quote (fst m) ++ [58] ++ stringify (snd m)) ms)) as Hj.
    rewrite map_map in Hj. lia.
Qed.

Lemma json_round_trip v : wf v = true -> JSON_parse (JSON_stringify v) = Ok v.
Proof.
  intros Hw. unfold JSON_parse, JSON_stringify.
  pose proof (jsize_stringify v Hw). pose proof (parse_stringify v) as Hp.
  specialize (Hp (2 * length (stringify v) + 2)%nat [] Hw ltac:(lia) I).
  rewrite app_nil_r in Hp. by rewrite Hp.
Qed.

(** ** Printed text survives UTF-8 *)

Lemma well_formed_app a b :
  well_formed a = true -> well_formed b = true -> well_formed (a ++ b) = true.
Proof.
  intros Ha Hb. revert Ha. induction a as [|u a IH IH'] using list_ind_tails; [done|].
  cbn [app well_formed]. destruct (is_high u).
  - destruct a as [|v a]; [done|]. cbn [app tail] in *.
    rewrite !andb_true_iff. tauto.
  - rewrite !andb_true_iff. tauto.
Qed.

Lemma well_formed_cons u s :
  is_high u = false -> is_low u = false -> well_formed s = true -> well_formed (u :: s) = true.
Proof. intros Hh Hl Hs. cbn [well_formed]. by rewrite Hh, Hl, Hs. Qed.

Lemma well_formed_ascii s : forallb is_ascii s = true -> well_formed s = true.
Proof.
  induction s as [|u s IH]; [done|]. simpl forallb. intros [Hu Hs]%andb_true_iff.
  apply well_formed_cons; auto; unfold is_ascii, is_high, is_low in *; lia.
Qed.

Lemma ascii_units s : forallb is_ascii s = true -> Forall is_unit s.
Proof.
  induction s as [|u s IH]; [done|]. simpl. intros [Hu Hs]%andb_true_iff.
  constructor; [unfold is_ascii, is_unit in *; lia|auto].
Qed.

Lemma hex4_ascii u :
  is_unit u -> (u <? 32) || is_high u || is_low u = true -> forallb is_ascii (hex4 u) = true.
Proof.
  intros Hu He.
  assert (H : forallb (fun u => forallb is_ascii (hex4 u)) escaped_units = true)
    by (vm_compute; reflexivity).
  rewrite forallb_forall in H. apply H. unfold escaped_units. rewrite in_app_iff, !in_map_iff.
  unfold is_unit, is_high, is_low in *. destruct (Z.ltb_spec u 32).
  - left. exists (Z.to_nat u). rewrite in_seq. lia.
  - right. exists (Z.to_nat (u - 0xD800)). rewrite in_seq. lia.
Qed.

(** A text that [TextEncoder] transports: code units without lone surrogates. *)
Definition clean (s : jstr) : Prop := Forall is_unit s /\ well_formed s = true.

Lemma clean_app a b : clean a -> clean b -> clean (a ++ b).
Proof. intros [] []. split; [by apply Forall_app|by apply well_formed_app]. Qed.

Lemma clean_ascii s : forallb is_ascii s = true -> clean s.
Proof. intros. split; [by apply ascii_units|by apply well_formed_ascii]. Qed.

Lemma quote_unit_clean u : is_unit u -> clean (quote_unit u).
Proof.
  intros Hu. unfold quote_unit.
  repeat match goal with |- context [if u =? ?k then _ else _] =>
    destruct (Z.eqb_spec u k); [by apply clean_ascii|] end.
  destruct ((u <? 32) || is_high u || is_low u) eqn:E.
  - apply clean_ascii. rewrite forallb_app. by rewrite hex4_ascii.
  - apply orb_false_iff in E as [[_ Hh]%orb_false_iff Hl]. split; [by constructor|].
    by apply well_formed_cons.
Qed.

Lemma quote_body_clean s : Forall is_unit s -> clean (quote_body s).
Proof.
  induction s as [|u s IH IH'] using list_ind_tails; intros Hs; [split; [constructor|done]|].
  apply Forall_cons in Hs as [Hu Hs]. rewrite quote_body_cons.
  destruct (is_high u) eqn:Eh; [|auto using clean_app, quote_unit_clean].
  destruct s as [|v s]; [auto using quote_unit_clean|].
  destruct (is_low v) eqn:El; [|auto using clean_app, quote_unit_clean].
  apply Forall_cons in Hs as [Hv Hs]. destruct (IH' Hs) as [Hc Hw]. cbn [tail] in *.
  split; [by repeat apply Forall_cons_2|]. cbn [well_formed]. by rewrite Eh, El, Hw.
Qed.

Lemma quote_clean s : Forall is_unit s -> clean (quote s).
Proof.
  intros. unfold quote.
  repeat apply clean_app; [by apply clean_ascii|by apply quote_body_clean|by apply clean_ascii].
Qed.

Lemma join_clean sep xs : clean sep -> Forall clean xs -> clean (join sep xs).
Proof.
  intros Hs. induction 1 as [|x xs Hx H IH]; [split; [constructor|done]|].
  destruct xs as [|y xs]; [done|]. rewrite join_cons2. auto using clean_app.
Qed.

Lemma stringify_clean v : wf v = true -> clean (stringify v).
Proof.
  induction v as [| [] | l | s | xs IH | ms IH] using json_ind; intros Hw; try by apply clean_ascii.
  - simpl in *. apply andb_true_iff in Hw as [_ Hw]. apply clean_ascii.
    rewrite forallb_forall in Hw |- *. intros c Hc. specialize (Hw c Hc).
    unfold is_num_char, is_digit, is_ascii in *. lia.
  - simpl in *. apply bool_decide_eq_true in Hw. by apply quote_clean.
  - cbn [stringify wf] in *. apply clean_app; [by apply clean_ascii|].
    apply clean_app; [|by apply clean_ascii]. apply join_clean; [by apply clean_ascii|].
    rewrite forallb_forall in Hw. apply List.Forall_forall. intros t (x & <- & Hx)%in_map_iff.
    rewrite List.Forall_forall in IH. auto.
  - cbn [stringify wf] in *. apply clean_app; [by apply clean_ascii|].
    apply clean_app; [|by apply clean_ascii]. apply join_clean; [by apply clean_ascii|].
    rewrite forallb_forall in Hw. apply List.Forall_forall. intros t (x & <- & Hx)%in_map_iff.
    rewrite List.Forall_forall in IH. specialize (Hw x Hx).
    apply andb_true_iff in Hw as [Hk%bool_decide_eq_true Hv].
    apply clean_app; [by apply quote_clean|]. apply clean_app; [by apply clean_ascii|auto].
Qed.

Lemma value_head_no_bom v : wf v = true -> no_bom (stringify v) = true.
Proof.
  intros (c & t & -> & Hc)%stringify_head. simpl.
  unfold value_head, is_num_char, is_digit in Hc. lia.
Qed.

(** Printing, encoding, decoding and parsing give the value back, whatever
    code units its strings contain. *)
Lemma json_text_round_trip v :
  wf v = true -> JSON_parse (TextDecoder_decode (TextEncoder_encode (JSON_stringify v))) = Ok v.
Proof.
  intros Hw. destruct (stringify_clean v Hw). unfold JSON_stringify.
  rewrite text_round_trip by auto using value_head_no_bom.
  by apply json_round_trip.
Qed.
