(* ===== verification/Regexp.v ===== *)
(** * Regular expressions

    The regular expressions of the sources that are not modelled by hand: their syntax, what
    they match, and a matcher by derivatives, which [RegExp.prototype.test] is for an
    expression anchored at both ends. *)

From S2P Require Import Prelude JsString.

Inductive re :=
| Eps
| Chr (P : Z -> bool)
| Seq (a b : re)
| Alt (a b : re)
| Star (a : re).

Definition Opt (a : re) : re := Alt a Eps.
Definition Plus (a : re) : re := Seq a (Star a).

(** [a{0,n}] *)
Fixpoint Upto (n : nat) (a : re) : re :=
  match n with O => Eps | S n => Opt (Seq a (Upto n a)) end.

(** [a{n}] *)
Fixpoint Times (n : nat) (a : re) : re :=
  match n with O => Eps | S n => Seq a (Times n a) end.

(** [a{n,}] *)
Fixpoint AtLeast (n : nat) (a : re) : re :=
  match n with O => Star a | S n => Seq a (AtLeast n a) end.

Inductive lang : re -> jstr -> Prop :=
| lang_eps : lang Eps []
| lang_chr P c : P c = true -> lang (Chr P) [c]
| lang_seq a b s t : lang a s -> lang b t -> lang (Seq a b) (s ++ t)
| lang_left a b s : lang a s -> lang (Alt a b) s
| lang_right a b s : lang b s -> lang (Alt a b) s
| lang_done a : lang (Star a) []
| lang_more a s t : lang a s -> lang (Star a) t -> lang (Star a) (s ++ t).

(** ** The matcher *)

Fixpoint nullable (r : re) : bool :=
  match r with
  | Eps | Star _ => true
  | Chr _ => false
  | Seq a b => nullable a && nullable b
  | Alt a b => nullable a || nullable b
  end.

Fixpoint deriv (c : Z) (r : re) : re :=
  match r with
  | Eps => Chr (fun _ => false)
  | Chr P => if P c then Eps else Chr (fun _ => false)
  | Seq a b => if nullable a then Alt (Seq (deriv c a) b) (deriv c b) else Seq (deriv c a) b
  | Alt a b => Alt (deriv c a) (deriv c b)
  | Star a => Seq (deriv c a) (Star a)
  end.

Definition matches (r : re) (s : jstr) : bool := nullable (fold_left (fun r c => deriv c r) s r).

(** Inversion of [lang] at each form of expression. *)
Lemma lang_seq_iff a b s : lang (Seq a b) s <-> exists x y, s = x ++ y /\ lang a x /\ lang b y.
Proof. split; [intros H; inversion H; subst; eauto|intros (x & y & -> & Hx & Hy); by constructor]. Qed.

Lemma lang_alt_iff a b s : lang (Alt a b) s <-> lang a s \/ lang b s.
Proof. split; [intros H; inversion H; subst; auto|intros [H|H]; [by apply lang_left|by apply lang_right]]. Qed.

Lemma lang_chr_iff P s : lang (Chr P) s <-> exists c, s = [c] /\ P c = true.
Proof. split; [intros H; inversion H; subst; eauto|intros (c & -> & Hc); by constructor]. Qed.

Lemma lang_eps_iff s : lang Eps s <-> s = [].
Proof. split; [by inversion 1|intros ->; constructor]. Qed.

(** A repetition that is not empty begins with a part that is not. *)
Lemma lang_star_cons a c s :
  lang (Star a) (c :: s) <-> exists x y, s = x ++ y /\ lang a (c :: x) /\ lang (Star a) y.
Proof.
  split; [|intros (x & y & -> & Hx & Hy); by apply (lang_more a (c :: x) y)].
  intros H. remember (Star a) as r eqn:Er. remember (c :: s) as l eqn:El. revert c s El.
  induction H as [| | | | | |a' x y Hx _ Hy IH]; intros d z El; try discriminate. injection Er as ->.
  destruct x as [|u x]; [by apply IH|]. injection El as -> <-. by exists x, y.
Qed.

Lemma nullable_lang r : nullable r = true <-> lang r [].
Proof.
  induction r as [|P|a IHa b IHb|a IHa b IHb|a IH]; cbn.
  - by rewrite lang_eps_iff.
  - rewrite lang_chr_iff. split; [done|by intros (c & [=] & _)].
  - rewrite andb_true_iff, IHa, IHb, lang_seq_iff. split; [intros [Ha Hb]; by exists [], []|].
    intros (x & y & E & Hx & Hy). symmetry in E. by apply app_nil in E as [-> ->].
  - by rewrite orb_true_iff, IHa, IHb, lang_alt_iff.
  - split; [constructor|done].
Qed.

Lemma deriv_lang r c s : lang (deriv c r) s <-> lang r (c :: s).
Proof.
  revert s. induction r as [|P|a IHa b IHb|a IHa b IHb|a IH]; intros s; cbn [deriv].
  - rewrite lang_eps_iff, lang_chr_iff. split; [by intros (u & _ & [=])|done].
  - rewrite (lang_chr_iff P). destruct (P c) eqn:E.
    + rewrite lang_eps_iff. split; [intros ->; by exists c|by intros (u & [= -> ->] & _)].
    + rewrite lang_chr_iff. split; [by intros (u & _ & [=])|]. intros (u & [= -> ->] & Hu). congruence.
  - assert (Es : lang (Seq (deriv c a) b) s <-> exists x y, s = x ++ y /\ lang a (c :: x) /\ lang b y).
    { rewrite lang_seq_iff. split; intros (x & y & -> & Hx & Hy); exists x, y; by apply IHa in Hx || rewrite IHa. }
    assert (Ec : lang (Seq a b) (c :: s) <-> (exists x y, s = x ++ y /\ lang a (c :: x) /\ lang b y) \/ (lang a [] /\ lang b (c :: s))).
    { rewrite lang_seq_iff. split.
      - intros ([|u x] & y & E & Hx & Hy); [right; by rewrite E|]. injection E as -> ->. left. by exists x, y.
      - intros [(x & y & -> & Hx & Hy)|[Ha Hb]]; [by exists (c :: x), y|by exists [], (c :: s)]. }
    rewrite Ec, <- nullable_lang, <- IHb. destruct (nullable a); [rewrite lang_alt_iff, Es|rewrite Es]; naive_solver.
  - by rewrite !lang_alt_iff, IHa, IHb.
  - rewrite lang_star_cons, lang_seq_iff. split; intros (x & y & -> & Hx & Hy); exists x, y; by apply IH in Hx || rewrite IH.
Qed.

(** The matcher decides the language. *)
Theorem matches_lang r s : matches r s = true <-> lang r s.
Proof.
  unfold matches. revert r. induction s as [|c s IH]; intros r; cbn [fold_left]; [apply nullable_lang|].
  by rewrite IH, deriv_lang.
Qed.

(** ** Repetitions of one character class *)

Lemma lang_star_chr P s : lang (Star (Chr P)) s <-> forallb P s = true.
Proof.
  induction s as [|c s IH]; [split; [done|constructor]|]. rewrite lang_star_cons. cbn [forallb]. rewrite andb_true_iff, <- IH. split.
  - intros (x & y & -> & Hx & Hy). apply lang_chr_iff in Hx as (u & [= -> ->] & Hu). done.
  - intros [Hc Hs]. exists [], s. split; [done|]. split; [by constructor|done].
Qed.

Lemma lang_upto_chr n P s : lang (Upto n (Chr P)) s <-> (length s <= n)%nat /\ forallb P s = true.
Proof.
  revert s. induction n as [|n IH]; intros s; cbn [Upto].
  - rewrite lang_eps_iff. destruct s; cbn; [by split; [auto|]|]. split; [done|]. intros [? _]. lia.
  - unfold Opt. rewrite lang_alt_iff, lang_seq_iff, lang_eps_iff. split.
    + intros [(x & y & -> & (c & -> & Hc)%lang_chr_iff & [Hl Hy]%IH)| ->]; [|cbn; split; [lia|done]].
      cbn. rewrite Hc, Hy. split; [lia|done].
    + destruct s as [|c s]; [by right|]. cbn. intros [Hl [Hc Hs]%andb_true_iff]. left. exists [c], s.
      split; [done|]. split; [by constructor|]. apply IH. split; [lia|done].
Qed.

Lemma lang_at_least_chr n P s : lang (AtLeast n (Chr P)) s <-> (n <= length s)%nat /\ forallb P s = true.
Proof.
  revert s. induction n as [|n IH]; intros s; cbn [AtLeast].
  - rewrite lang_star_chr. split; [intros H; split; [lia|done]|by intros [_ H]].
  - rewrite lang_seq_iff. split.
    + intros (x & y & -> & (c & -> & Hc)%lang_chr_iff & [Hl Hy]%IH). cbn. rewrite Hc, Hy. split; [lia|done].
    + destruct s as [|c s]; cbn; [intros [? _]; lia|]. intros [Hl [Hc Hs]%andb_true_iff]. exists [c], s.
      split; [done|]. split; [by constructor|]. apply IH. split; [lia|done].
Qed.

Lemma lang_times_chr n P s : lang (Times n (Chr P)) s <-> length s = n /\ forallb P s = true.
Proof.
  revert s. induction n as [|n IH]; intros s; cbn [Times].
  - rewrite lang_eps_iff. split; [by intros ->|]. intros [E _]. by destruct s.
  - rewrite lang_seq_iff. split.
    + intros (x & y & -> & (c & -> & Hc)%lang_chr_iff & [Hl Hp]%IH). cbn. by rewrite Hc, Hp, Hl.
    + destruct s as [|c s]; [by intros [? _]|]. cbn [length forallb]. intros [Hl [Hc Hp]%andb_true_iff].
      exists [c], s. split; [done|]. split; [apply lang_chr_iff; by exists c|]. apply IH. split; [lia|done].
Qed.
