(* ===== verification/RegExec.v ===== *)
(** * Searching and replacing with regular expressions

    The backtracking matcher of ECMAScript, with one capturing group, for expressions whose
    repetitions are of character classes: what [String.prototype.match], [search], [test] and
    [replace] with a global expression do.  Its result is related to the language of the
    expression ([Regexp.lang]): it fails exactly when no prefix of the text is in it. *)

From S2P Require Import Prelude JsString Regexp.

Inductive rx :=
| REps
| RChr (P : Z -> bool)
| RSeq (a b : rx)
| RAlt (a b : rx)                      (** the left one is tried first *)
| RMany (greedy : bool) (P : Z -> bool)
| RGroup (a : rx).

Definition ROpt (a : rx) : rx := RAlt a REps.
Definition RPlus (P : Z -> bool) : rx := RSeq (RChr P) (RMany true P).

(** The letters of a text, of any case. *)
Fixpoint RWord (s : jstr) : rx :=
  match s with [] => REps | c :: s => RSeq (RChr (fun u => ascii_lower u =? ascii_lower c)) (RWord s) end.

Definition rlit (s : string) : rx := RWord (js s).

Fixpoint ROneOf (ws : list rx) : rx :=
  match ws with [] => RChr (fun _ => false) | [w] => w | w :: ws => RAlt w (ROneOf ws) end.

Section Matcher.
Context {R : Type}.

Definition orelse (a : option R) (b : option R) : option R := match a with Some r => Some r | None => b end.

Fixpoint many_greedy (P : Z -> bool) (k : jstr -> option R) (s : jstr) : option R :=
  match s with
  | u :: s' => if P u then orelse (many_greedy P k s') (k s) else k s
  | [] => k s
  end.

Fixpoint many_lazy (P : Z -> bool) (k : jstr -> option R) (s : jstr) : option R :=
  orelse (k s) (match s with u :: s' => if P u then many_lazy P k s' else None | [] => None end).

(** [c] is the text of the group, if it has matched. *)
Fixpoint step (r : rx) (s : jstr) (c : option jstr) (k : jstr -> option jstr -> option R) : option R :=
  match r with
  | REps => k s c
  | RChr P => match s with u :: s' => if P u then k s' c else None | [] => None end
  | RSeq a b => step a s c (fun s c => step b s c k)
  | RAlt a b => orelse (step a s c k) (step b s c k)
  | RMany true P => many_greedy P (fun s => k s c) s
  | RMany false P => many_lazy P (fun s => k s c) s
  | RGroup a => step a s c (fun s' _ => k s' (Some (take (length s - length s') s)))
  end.

End Matcher.

(** At the start of the text: what follows the match, and the group. *)
Definition exec (r : rx) (s : jstr) : option (jstr * option jstr) := step r s None (fun s c => Some (s, c)).

(** Somewhere in the text. *)
Fixpoint test (r : rx) (s : jstr) : bool :=
  match exec r s with
  | Some _ => true
  | None => match s with [] => false | _ :: s' => test r s' end
  end.

(** The group of the first match. *)
Fixpoint first_group (r : rx) (s : jstr) : option jstr :=
  match exec r s with
  | Some (_, c) => c
  | None => match s with [] => None | _ :: s' => first_group r s' end
  end.

(** The text cut into the matches of a global expression, which must not match the empty
    text, and what stands between them. *)
Inductive piece := Plain (u : Z) | Hit (m : jstr) (c : option jstr).

Fixpoint pieces (fuel : nat) (r : rx) (s : jstr) : list piece :=
  match fuel, s with
  | S fuel, u :: s' =>
      match exec r s with
      | Some (rest, c) =>
          if (length rest <? length s)%nat then Hit (take (length s - length rest) s) c :: pieces fuel r rest
          else Plain u :: pieces fuel r s'
      | None => Plain u :: pieces fuel r s'
      end
  | _, _ => []
  end.

Definition scan (r : rx) (s : jstr) : list piece := pieces (length s) r s.

Definition piece_text (p : piece) : jstr := match p with Plain u => [u] | Hit m _ => m end.

(** [s.replace(r, f)] *)
Definition replace_all (r : rx) (f : jstr -> option jstr -> jstr) (s : jstr) : jstr :=
  concat (map (fun p => match p with Plain u => [u] | Hit m c => f m c end) (scan r s)).

(** ** The matcher and the language *)

Fixpoint re_of (r : rx) : re :=
  match r with
  | REps => Eps
  | RChr P => Chr P
  | RSeq a b => Seq (re_of a) (re_of b)
  | RAlt a b => Alt (re_of a) (re_of b)
  | RMany _ P => Star (Chr P)
  | RGroup a => re_of a
  end.

Section Sound.
Context {R : Type}.

Lemma greedy_some P (k : jstr -> option R) s v :
  many_greedy P k s = Some v -> exists x rest, s = x ++ rest /\ forallb P x = true /\ k rest = Some v.
Proof.
  induction s as [|u s IH]; cbn [many_greedy]; [by intros; exists [], []|]. destruct (P u) eqn:E.
  - unfold orelse. destruct (many_greedy P k s) as [v'|] eqn:Em.
    + intros [= ->]. destruct (IH eq_refl) as (x & rest & -> & Hx & Hk). exists (u :: x), rest. cbn. by rewrite E.
    + intros Hk. by exists [], (u :: s).
  - intros Hk. by exists [], (u :: s).
Qed.

Lemma greedy_none P (k : jstr -> option R) x rest :
  many_greedy P k (x ++ rest) = None -> forallb P x = true -> k rest = None.
Proof.
  induction x as [|u x IH]; cbn [app forallb].
  - intros Hm _. destruct rest as [|u rest]; [exact Hm|]. cbn [many_greedy] in Hm. destruct (P u); [|done].
    unfold orelse in Hm. by destruct (many_greedy P k rest).
  - intros Hm [Hu Hx]%andb_true_iff. cbn [many_greedy] in Hm. rewrite Hu in Hm. apply IH; [|done].
    unfold orelse in Hm. by destruct (many_greedy P k (x ++ rest)).
Qed.

Lemma lazy_some P (k : jstr -> option R) s v :
  many_lazy P k s = Some v -> exists x rest, s = x ++ rest /\ forallb P x = true /\ k rest = Some v.
Proof.
  induction s as [|u s IH]; cbn [many_lazy]; unfold orelse.
  - destruct (k []) eqn:E; [|done]. intros [= ->]. by exists [], [].
  - destruct (k (u :: s)) eqn:E; [intros [= ->]; by exists [], (u :: s)|]. destruct (P u) eqn:Eu; [|done].
    intros Hm. destruct (IH Hm) as (x & rest & -> & Hx & Hk). exists (u :: x), rest. cbn. by rewrite Eu.
Qed.

Lemma lazy_none P (k : jstr -> option R) x rest :
  many_lazy P k (x ++ rest) = None -> forallb P x = true -> k rest = None.
Proof.
  induction x as [|u x IH]; cbn [app forallb].
  - intros Hm _. destruct rest; cbn [many_lazy] in Hm; unfold orelse in Hm; by destruct (k _).
  - intros Hm [Hu Hx]%andb_true_iff. cbn [many_lazy] in Hm. unfold orelse in Hm. rewrite Hu in Hm.
    destruct (k (u :: x ++ rest)); [done|]. by apply IH.
Qed.

(** A greedy repetition takes all it can, when what follows then matches. *)
Lemma greedy_all P (k : jstr -> option R) x t v :
  forallb P x = true -> match t with [] => True | u :: _ => P u = false end -> k t = Some v ->
  many_greedy P k (x ++ t) = Some v.
Proof.
  intros Hx Ht Hk. induction x as [|u x IH]; cbn [app].
  - destruct t as [|u t]; cbn [many_greedy]; [done|]. by rewrite Ht.
  - cbn [forallb] in Hx. apply andb_true_iff in Hx as [Hu Hx]. cbn [many_greedy]. by rewrite Hu, IH.
Qed.

Lemma step_some r : forall s c (k : jstr -> option jstr -> option R) v,
  step r s c k = Some v -> exists x rest c', s = x ++ rest /\ lang (re_of r) x /\ k rest c' = Some v.
Proof.
  induction r as [|P|a IHa b IHb|a IHa b IHb|g P|a IHa]; intros s c k v; cbn [step re_of].
  - intros Hk. exists [], s, c. split_and!; [done|constructor|done].
  - destruct s as [|u s]; [done|]. destruct (P u) eqn:E; [|done]. intros Hk. exists [u], s, c. split_and!; [done|by constructor|done].
  - intros (x & rest & c1 & -> & Hx & (y & rest' & c2 & -> & Hy & Hk)%IHb)%IHa.
    exists (x ++ y), rest', c2. rewrite <- app_assoc. split_and!; [done|by constructor|done].
  - unfold orelse. destruct (step a s c k) as [v'|] eqn:E.
    + intros [= ->]. apply IHa in E as (x & rest & c' & -> & Hx & Hk). exists x, rest, c'. split_and!; [done|by constructor|done].
    + intros (x & rest & c' & -> & Hx & Hk)%IHb. exists x, rest, c'. split_and!; [done|by apply lang_right|done].
  - destruct g; [intros (x & rest & -> & Hx & Hk)%greedy_some|intros (x & rest & -> & Hx & Hk)%lazy_some];
      exists x, rest, c; (split_and!; [done|by apply lang_star_chr|done]).
  - intros (x & rest & c' & -> & Hx & Hk)%IHa. by eexists x, rest, _.
Qed.

Lemma step_none r : forall s c (k : jstr -> option jstr -> option R) x rest,
  step r s c k = None -> s = x ++ rest -> lang (re_of r) x -> exists c', k rest c' = None.
Proof.
  induction r as [|P|a IHa b IHb|a IHa b IHb|g P|a IHa]; intros s c k x rest Hn -> Hx; cbn [step re_of] in *.
  - apply lang_eps_iff in Hx as ->. by exists c.
  - apply lang_chr_iff in Hx as (u & -> & Hu). cbn [app] in Hn. rewrite Hu in Hn. by exists c.
  - apply lang_seq_iff in Hx as (y & z & -> & Hy & Hz). eapply IHa in Hn as [c' Hn]; [|by rewrite <- app_assoc|done].
    by eapply IHb in Hn; [|reflexivity|].
  - unfold orelse in Hn. destruct (step a _ c k) as [v|] eqn:E; [done|].
    apply lang_alt_iff in Hx as [Hx|Hx]; [by eapply IHa in E|by eapply IHb in Hn].
  - apply lang_star_chr in Hx. exists c. destruct g; [by eapply greedy_none in Hn|by eapply lazy_none in Hn].
  - eapply IHa in Hn as [c' Hn]; [|reflexivity|done]. by eexists.
Qed.

(** Without a group inside, the group is as it was. *)
Fixpoint groupless (r : rx) : bool :=
  match r with RSeq a b | RAlt a b => groupless a && groupless b | RGroup _ => false | _ => true end.

Lemma step_groupless r : forall s c (k : jstr -> option jstr -> option R) v,
  groupless r = true -> step r s c k = Some v -> exists x rest, s = x ++ rest /\ lang (re_of r) x /\ k rest c = Some v.
Proof.
  induction r as [|P|a IHa b IHb|a IHa b IHb|g P|a IHa]; intros s c k v Hg; cbn [step re_of groupless] in *.
  - intros Hk. exists [], s. split_and!; [done|constructor|done].
  - destruct s as [|u s]; [done|]. destruct (P u) eqn:E; [|done]. intros Hk. exists [u], s. split_and!; [done|by constructor|done].
  - apply andb_true_iff in Hg as [Ha Hb]. intros Hs. apply IHa in Hs as (x & rest & -> & Hx & Hs); [|done].
    apply IHb in Hs as (y & rest' & -> & Hy & Hk); [|done].
    exists (x ++ y), rest'. rewrite <- app_assoc. split_and!; [done|by constructor|done].
  - apply andb_true_iff in Hg as [Ha Hb]. unfold orelse. destruct (step a s c k) as [v'|] eqn:E.
    + intros [= ->]. apply IHa in E as (x & rest & -> & Hx & Hk); [|done]. exists x, rest. split_and!; [done|by constructor|done].
    + intros Hs. apply IHb in Hs as (x & rest & -> & Hx & Hk); [|done]. exists x, rest. split_and!; [done|by apply lang_right|done].
  - destruct g; [intros (x & rest & -> & Hx & Hk)%greedy_some|intros (x & rest & -> & Hx & Hk)%lazy_some];
      exists x, rest; (split_and!; [done|by apply lang_star_chr|done]).
  - done.
Qed.

End Sound.

(** The matcher fails exactly when no prefix is in the language. *)
Theorem exec_lang r s : (exists v, exec r s = Some v) <-> exists x rest, s = x ++ rest /\ lang (re_of r) x.
Proof.
  split.
  - intros [v Hv]. apply step_some in Hv as (x & rest & _ & -> & Hx & _). by exists x, rest.
  - intros (x & rest & -> & Hx). destruct (exec r (x ++ rest)) as [v|] eqn:E; [by exists v|].
    by eapply step_none in E as [c' E]; [|reflexivity|].
Qed.

Lemma exec_some r s rest c : exec r s = Some (rest, c) -> exists x, s = x ++ rest /\ lang (re_of r) x.
Proof. intros (x & rest' & c' & -> & Hx & [= -> ->])%step_some. by exists x. Qed.

(** The group, where there is one and nothing before or behind it captures. *)
Lemma exec_group a g b s rest c :
  groupless a = true -> groupless g = true -> groupless b = true ->
  exec (RSeq a (RSeq (RGroup g) b)) s = Some (rest, c) ->
  exists x y z, s = x ++ y ++ z ++ rest /\ c = Some y /\ lang (re_of a) x /\ lang (re_of g) y /\ lang (re_of b) z.
Proof.
  intros Ha Hg Hb E. unfold exec in E. cbn [step] in E. apply step_groupless in E as (x & s1 & -> & Hx & E); [|done].
  apply step_groupless in E as (y & s2 & -> & Hy & E); [|done]. apply step_groupless in E as (z & s3 & -> & Hz & E); [|done].
  injection E as -> <-. exists x, y, z. split_and!; try done. f_equal.
  rewrite length_app. replace (length y + _ - _)%nat with (length y) by lia. by rewrite take_app_length.
Qed.

(** ** Scanning *)

Lemma pieces_enough r s : forall n, (length s <= n)%nat -> pieces n r s = scan r s.
Proof.
  unfold scan.
  enough (H : forall n n' s, (length s <= n)%nat -> (length s <= n')%nat -> pieces n r s = pieces n' r s) by eauto.
  clear. induction n as [|n IH]; intros n' s Hn Hn'.
  - destruct s; [|cbn in Hn; lia]. by destruct n'.
  - destruct s as [|u s]; [by destruct n'|]. destruct n' as [|n']; [cbn in Hn'; lia|]. cbn [pieces].
    cbn [length] in Hn, Hn'. destruct (exec r (u :: s)) as [[rest c]|]; [|f_equal; apply IH; lia].
    destruct (length rest <? length (u :: s))%nat eqn:E; [|f_equal; apply IH; lia].
    apply Nat.ltb_lt in E. cbn [length] in E. f_equal. apply IH; lia.
Qed.

Lemma scan_hit r s rest c m :
  exec r s = Some (rest, c) -> s = m ++ rest -> m <> [] -> scan r s = Hit m c :: scan r rest.
Proof.
  intros E -> Hm. destruct m as [|u m]; [done|]. unfold scan at 1. rewrite <- app_comm_cons in *. cbn [length pieces]. rewrite E.
  replace (length rest <? S (length (m ++ rest)))%nat with true by (symmetry; apply Nat.ltb_lt; rewrite length_app; lia).
  f_equal; [|apply pieces_enough; rewrite length_app; lia]. f_equal. rewrite length_app.
  replace (S _ - _)%nat with (S (length m)) by lia. cbn [take]. by rewrite take_app_length.
Qed.

Lemma scan_plain r u s : exec r (u :: s) = None -> scan r (u :: s) = Plain u :: scan r s.
Proof. intros E. unfold scan. cbn [length pieces]. by rewrite E. Qed.

(** A text, along its scan. *)
Lemma scan_ind r (P : jstr -> Prop) :
  P [] ->
  (forall u s, exec r (u :: s) = None -> P s -> P (u :: s)) ->
  (forall m rest c, m <> [] -> exec r (m ++ rest) = Some (rest, c) -> P rest -> P (m ++ rest)) ->
  (forall s rest c, exec r s = Some (rest, c) -> rest <> s) ->
  forall s, P s.
Proof.
  intros H0 Hu Hm Hne s. induction s as [s IH] using (induction_ltof1 _ (@length Z)). unfold ltof in IH.
  destruct s as [|u s]; [done|]. destruct (exec r (u :: s)) as [[rest c]|] eqn:E.
  - destruct (exec_some _ _ _ _ E) as (m & Em & _).
    assert (m <> []) by (intros ->; by apply (Hne _ _ _ E)). rewrite Em in *. eapply Hm; [done|exact E|].
    apply IH. rewrite length_app. destruct m; [done|cbn; lia].
  - apply Hu; [done|]. apply IH. cbn. lia.
Qed.

Lemma scan_plains r v t :
  (forall v1 v2, v = v1 ++ v2 -> v2 <> [] -> exec r (v2 ++ t) = None) -> scan r (v ++ t) = map Plain v ++ scan r t.
Proof.
  induction v as [|u v IH]; intros Hv; [done|]. cbn [app map]. rewrite scan_plain by (by apply (Hv [] (u :: v))).
  f_equal. apply IH. intros v1 v2 -> Hne. by apply (Hv (u :: v1) v2).
Qed.

(** ** Expressions whose classes are within a set of units *)

Fixpoint within (Q : Z -> bool) (r : rx) : Prop :=
  match r with
  | REps => True
  | RChr P | RMany _ P => forall u, P u = true -> Q u = true
  | RSeq a b | RAlt a b => within Q a /\ within Q b
  | RGroup a => within Q a
  end.

Lemma within_lang Q r x : within Q r -> lang (re_of r) x -> forallb Q x = true.
Proof.
  revert x. induction r as [|P|a IHa b IHb|a IHa b IHb|g P|a IHa]; intros x Hw Hx; cbn [within re_of] in *.
  - by apply lang_eps_iff in Hx as ->.
  - apply lang_chr_iff in Hx as (u & -> & Hu). cbn. by rewrite Hw.
  - apply lang_seq_iff in Hx as (y & z & -> & Hy & Hz). rewrite forallb_app.
    by rewrite (IHa _ (proj1 Hw) Hy), (IHb _ (proj2 Hw) Hz).
  - apply lang_alt_iff in Hx as [Hx|Hx]; [exact (IHa _ (proj1 Hw) Hx)|exact (IHb _ (proj2 Hw) Hx)].
  - apply lang_star_chr in Hx. eapply forallb_forall. intros u Hu. apply Hw. eapply forallb_forall in Hx; eauto.
  - by apply IHa.
Qed.

Lemma same_letter Q c u :
  Q (ascii_lower c) = true -> Q (ascii_upper c) = true -> ascii_lower u =? ascii_lower c = true -> Q u = true.
Proof.
  intros Hl Hu E%Z.eqb_eq. assert (u = ascii_lower c \/ u = ascii_upper c) as [->| ->]; [|done|done].
  revert E. clear. unfold ascii_lower, ascii_upper. split_ifs; zbool; lia.
Qed.

Lemma word_within Q s : forallb (fun c => Q (ascii_lower c) && Q (ascii_upper c)) s = true -> within Q (RWord s).
Proof.
  induction s as [|c s IH]; cbn [forallb RWord within]; [done|]. intros [[Hl Hu]%andb_true_iff Hs]%andb_true_iff.
  split; [exact (fun u => same_letter Q c u Hl Hu)|by apply IH].
Qed.

Lemma word_lang s x : lang (re_of (RWord s)) x <-> map ascii_lower x = map ascii_lower s.
Proof.
  revert x. induction s as [|c s IH]; intros x; cbn [RWord re_of map].
  - rewrite lang_eps_iff. destruct x; naive_solver.
  - rewrite lang_seq_iff. split.
    + intros (y & z & -> & (u & -> & Hu)%lang_chr_iff & Hz%IH). cbn. rewrite Hz. apply Z.eqb_eq in Hu. by rewrite Hu.
    + destruct x as [|u x]; [done|]. cbn [map]. intros [= Hu Hx]. exists [u], x. split; [done|].
      split; [apply lang_chr_iff; exists u; split; [done|by apply Z.eqb_eq]|by apply IH].
Qed.

(** ** Locality

    Where no class has the unit [g], what follows the first [g] does not matter. *)

Section Local.
Context {R : Type} (g : Z) (t1 t2 : jstr) (rel : option R -> option R -> Prop).
Hypothesis rel_none : rel None None.
Hypothesis rel_orelse : forall a b a' b', rel a a' -> rel b b' -> rel (orelse a b) (orelse a' b').

Definition avoids (u : Z) : bool := negb (u =? g).

Lemma greedy_local P (k1 k2 : jstr -> option R) a :
  P g = false ->
  (forall p a', a = p ++ a' -> rel (k1 (a' ++ g :: t1)) (k2 (a' ++ g :: t2))) ->
  rel (many_greedy P k1 (a ++ g :: t1)) (many_greedy P k2 (a ++ g :: t2)).
Proof.
  intros Hg. induction a as [|u a IH]; intros Hk; cbn [app many_greedy].
  - rewrite Hg. by apply (Hk [] []).
  - destruct (P u); [|by apply (Hk [] (u :: a))]. apply rel_orelse; [|by apply (Hk [] (u :: a))].
    apply IH. intros p a' ->. by apply (Hk (u :: p) a').
Qed.

Lemma lazy_local P (k1 k2 : jstr -> option R) a :
  P g = false ->
  (forall p a', a = p ++ a' -> rel (k1 (a' ++ g :: t1)) (k2 (a' ++ g :: t2))) ->
  rel (many_lazy P k1 (a ++ g :: t1)) (many_lazy P k2 (a ++ g :: t2)).
Proof.
  intros Hg. induction a as [|u a IH]; intros Hk; cbn [app many_lazy].
  - rewrite Hg. apply rel_orelse; [by apply (Hk [] [])|done].
  - apply rel_orelse; [by apply (Hk [] (u :: a))|]. destruct (P u); [|done].
    apply IH. intros p a' ->. by apply (Hk (u :: p) a').
Qed.

Lemma step_local r : forall a c (k1 k2 : jstr -> option jstr -> option R),
  within avoids r ->
  (forall p a' c', a = p ++ a' -> rel (k1 (a' ++ g :: t1) c') (k2 (a' ++ g :: t2) c')) ->
  rel (step r (a ++ g :: t1) c k1) (step r (a ++ g :: t2) c k2).
Proof.
  assert (Hg : forall P : Z -> bool, (forall u, P u = true -> avoids u = true) -> P g = false).
  { intros P HP. destruct (P g) eqn:E; [|done]. apply HP in E. unfold avoids in E. by rewrite Z.eqb_refl in E. }
  induction r as [|P|ra IHa rb IHb|ra IHa rb IHb|gr P|ra IHa]; intros a c k1 k2 Hw Hk; cbn [step within] in *.
  - by apply (Hk [] a).
  - destruct a as [|u a]; cbn [app]; [by rewrite (Hg _ Hw)|]. destruct (P u); [|done]. by apply (Hk [u] a).
  - apply IHa; [easy|]. intros p a' c' ->. apply IHb; [easy|]. intros p' a'' c'' ->. apply (Hk (p ++ p') a'').
    by rewrite app_assoc.
  - destruct Hw as [Hwa Hwb]. apply rel_orelse; [by apply IHa|by apply IHb].
  - destruct gr; [apply greedy_local|apply lazy_local]; eauto.
  - apply IHa; [done|]. intros p a' c' ->. rewrite <- !app_assoc, !length_app.
    replace (length p + (length a' + length (g :: t1)) - (length a' + length (g :: t1)))%nat with (length p) by lia.
    replace (length p + (length a' + length (g :: t2)) - (length a' + length (g :: t2)))%nat with (length p) by lia.
    rewrite !take_app_length. by apply (Hk p a').
Qed.

End Local.

(** The expression ends at the first [g]. *)
Lemma exec_local r (g : Z) a t1 t2 c :
  within (avoids g) r -> forallb (avoids g) a = true ->
  exec (RSeq r (RChr (Z.eqb g))) (a ++ g :: t1) = Some (t1, c) ->
  exec (RSeq r (RChr (Z.eqb g))) (a ++ g :: t2) = Some (t2, c).
Proof.
  intros Hw Ha.
  set (rel := fun o1 o2 : option (jstr * option jstr) =>
    (o1 = None /\ o2 = None) \/ exists c, o1 = Some (t1, c) /\ o2 = Some (t2, c)).
  enough (Hrel : rel (exec (RSeq r (RChr (Z.eqb g))) (a ++ g :: t1)) (exec (RSeq r (RChr (Z.eqb g))) (a ++ g :: t2))).
  { intros E. destruct Hrel as [[E' _]|(c' & E' & ->)]; congruence. }
  unfold exec. cbn [step]. apply (step_local g t1 t2 rel); [by left| |done|].
  - intros x y x' y' [[-> ->]|(? & -> & ->)]; [done|]. intros _. right. cbn. eauto.
  - intros p a' c' ->. rewrite forallb_app in Ha. apply andb_true_iff in Ha as [_ Ha].
    destruct a' as [|u a']; cbn [app].
    + rewrite Z.eqb_refl. right. eauto.
    + cbn [forallb] in Ha. unfold avoids in Ha. rewrite Z.eqb_sym. destruct (u =? g); [done|]. by left.
Qed.
