(* ===== verification/Calendar.v ===== *)
(** * JavaScript's dates

    The part of ECMAScript's [Date] that the settings forms use: time values in
    milliseconds, the proleptic Gregorian calendar, the interchange format of
    [toISOString] and of [new Date(text)].  The zone of the browser, and what its parser
    makes of texts outside the standard's format, are parameters. *)

From S2P Require Import Prelude JsString Json.

Class Zone := {
  from_local : Z -> Z;                 (** the time value of a local time: UTC(t) *)
  other_date : jstr -> option Z }.     (** a text in no form of the standard *)

(** ** The calendar *)

Definition msPerDay : Z := 86400000.

(** Years begin in March; an era is four centuries, 146097 days. *)
Definition days_of (y m d : Z) : Z :=
  let y := if m <=? 2 then y - 1 else y in
  let era := y / 400 in
  let yoe := y mod 400 in
  let doy := (153 * (if 2 <? m then m - 3 else m + 9) + 2) / 5 + d - 1 in
  era * 146097 + (yoe * 365 + yoe / 4 - yoe / 100 + doy) - 719468.

Definition civil_of (day : Z) : Z * Z * Z :=
  let z := day + 719468 in
  let era := z / 146097 in
  let doe := z mod 146097 in
  let yoe := (doe - doe / 1460 + doe / 36524 - doe / 146096) / 365 in
  let doy := doe - (365 * yoe + yoe / 4 - yoe / 100) in
  let mp := (5 * doy + 2) / 153 in
  let d := doy - (153 * mp + 2) / 5 + 1 in
  let m := if mp <? 10 then mp + 3 else mp - 9 in
  (yoe + era * 400 + (if m <=? 2 then 1 else 0), m, d).

Definition is_date (y m d : Z) : bool :=
  (1 <=? m) && (m <=? 12) && (1 <=? d) && (d <=? 31) && bool_decide (civil_of (days_of y m d) = (y, m, d)).

(** [TimeClip] *)
Definition time_clip (t : Z) : option Z := if Z.abs t <=? 8640000000000000 then Some t else None.

(** ** Printing *)

Definition pad (k : nat) (n : Z) : jstr := pad_start k 48 (num n).

Definition year_text (y : Z) : jstr :=
  if (0 <=? y) && (y <=? 9999) then pad 4 y else (if y <? 0 then [45] else [43]) ++ pad 6 (Z.abs y).

Definition date_text (y m d : Z) : jstr := year_text y ++ js "-" ++ pad 2 m ++ js "-" ++ pad 2 d.

(** [toISOString] of a time value that is one. *)
Definition iso_text (t : Z) : jstr :=
  let '(y, m, d) := civil_of (t / msPerDay) in
  let ms := t mod msPerDay in
  date_text y m d ++ js "T" ++ pad 2 (ms / 3600000) ++ js ":" ++ pad 2 (ms / 60000 mod 60) ++ js ":" ++
  pad 2 (ms / 1000 mod 60) ++ js "." ++ pad 3 (ms mod 1000) ++ js "Z".

(** ** Parsing *)

(** Exactly [k] digits, and the rest. *)
Definition digits (k : nat) (s : jstr) : option (Z * jstr) :=
  let d := take k s in
  if (length d =? k)%nat && forallb is_digit d then Some (dec_value d, drop k s) else None.

Definition eat (c : string) (s : jstr) : option jstr :=
  if starts_with (js c) s then Some (drop (length (js c)) s) else None.

Definition parse_year (s : jstr) : option (Z * jstr) :=
  match s with
  | 43 :: s => digits 6 s
  | 45 :: s => '(y, s) ← digits 6 s; if y =? 0 then None else Some (- y, s)
  | _ => digits 4 s
  end.

(** [YYYY], [YYYY-MM] or [YYYY-MM-DD]: the day's number. *)
Definition parse_day (s : jstr) : option (Z * jstr) :=
  '(y, s) ← parse_year s;
  '(m, s) ← (match eat "-" s with Some s => digits 2 s | None => Some (1, s) end);
  '(d, s) ← (match eat "-" s with Some s => digits 2 s | None => Some (1, s) end);
  if is_date y m d then Some (days_of y m d, s) else None.

(** [HH:mm], [HH:mm:ss] or [HH:mm:ss.sss]: milliseconds since midnight. *)
Definition parse_clock (s : jstr) : option (Z * jstr) :=
  '(h, s) ← digits 2 s;
  s ← eat ":" s;
  '(mi, s) ← digits 2 s;
  '(sec, ms, s) ← (match eat ":" s with
    | None => Some (0, 0, s)
    | Some s => '(sec, s) ← digits 2 s;
        match eat "." s with Some s => '(ms, s) ← digits 3 s; Some (sec, ms, s) | None => Some (sec, 0, s) end
    end);
  let t := h * 3600000 + mi * 60000 + sec * 1000 + ms in
  if (h <=? 24) && (mi <=? 59) && (sec <=? 59) && (t <=? msPerDay) then Some (t, s) else None.

(** [Z] or an offset, in milliseconds; [None] when the text is of another form. *)
Definition parse_offset (s : jstr) : option Z :=
  match s with
  | [90] => Some 0
  | c :: s =>
      if (c =? 43) || (c =? 45) then
        '(h, s) ← digits 2 s; s ← eat ":" s; '(mi, s) ← digits 2 s;
        if (h <=? 23) && (mi <=? 59) && negb (truthy s)
        then Some ((if c =? 45 then -1 else 1) * (h * 3600000 + mi * 60000)) else None
      else None
  | [] => None
  end.

Section Zoned.
Context `{Zone}.

(** A date alone is in UTC; a date with a time and no offset is local. *)
Definition parse_iso (s : jstr) : option Z :=
  '(day, s) ← parse_day s;
  if negb (truthy s) then Some (day * msPerDay)
  else
    s ← eat "T" s;
    '(ms, s) ← parse_clock s;
    let t := day * msPerDay + ms in
    if negb (truthy s) then Some (from_local t) else (fun off => t - off) <$> parse_offset s.

(** [new Date(s).getTime()]; [None] is [NaN]. *)
Definition new_date (s : jstr) : option Z :=
  match parse_iso s with Some t => time_clip t | None => other_date s ≫= time_clip end.

(** [new Date(s).toISOString()] *)
Definition toISOString (s : jstr) : outcome jstr :=
  match new_date s with Some t => Ok (iso_text t) | None => throw "RangeError" end.

End Zoned.

(** ** What is printed is read back *)

Lemma civil_bounds day :
  let '(y, m, d) := civil_of day in 1 <= m <= 12 /\ 1 <= d <= 31 /\ days_of y m d = day.
Proof.
  unfold civil_of. set (z := day + 719468). pose proof (Z.mod_pos_bound z 146097 ltac:(lia)) as Hdoe.
  pose proof (Z.div_mod z 146097 ltac:(lia)) as Hz. set (doe := z mod 146097) in *. set (era := z / 146097) in *.
  set (yoe := (doe - doe / 1460 + doe / 36524 - doe / 146096) / 365).
  assert (Hyoe : 0 <= yoe <= 399) by (unfold yoe; zdm).
  set (doy := doe - (365 * yoe + yoe / 4 - yoe / 100)).
  assert (Hdoy : 0 <= doy <= 365) by (unfold doy, yoe; zdm).
  set (mp := (5 * doy + 2) / 153). assert (Hmp : 0 <= mp <= 11) by (unfold mp; zdm).
  set (d := doy - (153 * mp + 2) / 5 + 1). assert (Hd : 1 <= d <= 31) by (unfold d, mp; zdm).
  assert (Ey : forall c, (yoe + era * 400 + c - c) / 400 = era /\ (yoe + era * 400 + c - c) mod 400 = yoe).
  { intros c. replace (yoe + era * 400 + c - c) with (yoe + era * 400) by lia.
    rewrite Z.div_add, Z.mod_add, Z.div_small, Z.mod_small by lia. lia. }
  clearbody yoe. split; [case_match; lia|]. split; [done|]. unfold days_of.
  destruct (mp <? 10) eqn:Em; zbool.
  - rewrite (proj2 (Z.leb_gt (mp + 3) 2)), (proj2 (Z.ltb_lt 2 (mp + 3))) by lia.
    destruct (Ey 0) as [E1 E2]. replace (yoe + era * 400 + 0) with (yoe + era * 400 + 0 - 0) by lia. rewrite E1, E2.
    replace (mp + 3 - 3) with mp by lia. unfold d, doy. lia.
  - rewrite (proj2 (Z.leb_le (mp - 9) 2)), (proj2 (Z.ltb_ge 2 (mp - 9))) by lia.
    destruct (Ey 1) as [E1 E2]. rewrite E1, E2. replace (mp - 9 + 9) with mp by lia. unfold d, doy. lia.
Qed.

Lemma civil_is_date day y m d : civil_of day = (y, m, d) -> is_date y m d = true /\ days_of y m d = day.
Proof.
  intros E. pose proof (civil_bounds day) as Hb. rewrite E in Hb. destruct Hb as (Hm & Hd & Hday).
  split; [|done]. unfold is_date. rewrite Hday, E, bool_decide_eq_true_2 by done. lia.
Qed.

Lemma digits_pad k n rest :
  0 <= n < 10 ^ Z.of_nat k -> (0 < k)%nat -> digits k (pad k n ++ rest) = Some (n, rest).
Proof.
  intros Hn Hk. destruct (pad_num n k Hn Hk) as (Hl & Hd & Hv). unfold digits, pad. cbv zeta in Hl, Hd, Hv.
  rewrite take_app_length' by done. rewrite Hl, Nat.eqb_refl, Hd, Hv. by rewrite drop_app_length' by done.
Qed.

Lemma digits_pad2 n rest : 0 <= n < 100 -> digits 2 (pad 2 n ++ rest) = Some (n, rest).
Proof. intros Hn. apply digits_pad; [done|lia]. Qed.

Lemma pad_head k n rest c : (0 < k)%nat -> 0 <= n < 10 ^ Z.of_nat k -> is_digit c = false ->
  exists u s, pad k n ++ rest = u :: s /\ u <> c.
Proof.
  intros Hk Hn Hc. destruct (pad_num n k Hn Hk) as (Hl & Hd & _). cbv zeta in Hl, Hd. fold (pad k n) in Hl, Hd.
  destruct (pad k n) as [|u s]; [simpl in Hl; lia|]. exists u, (s ++ rest). split; [done|].
  cbn [forallb] in Hd. apply andb_true_iff in Hd as [Hu _]. congruence.
Qed.

Definition year_ok (y : Z) : Prop := 0 <= y <= 9999.

Lemma parse_year_text y rest : year_ok y -> parse_year (year_text y ++ rest) = Some (y, rest).
Proof.
  intros Hy. unfold year_ok in Hy. unfold year_text. rewrite (proj2 (Z.leb_le 0 y)), (proj2 (Z.leb_le y 9999)) by lia.
  cbn [andb]. assert (Hd : 0 <= y < 10 ^ Z.of_nat 4) by (change (10 ^ Z.of_nat 4) with 10000; lia).
  pose proof (digits_pad 4 y rest Hd ltac:(lia)) as E.
  destruct (pad_head 4 y rest 43) as (u & s & Eu & N1); [lia|done|reflexivity|].
  destruct (pad_head 4 y rest 45) as (u' & s' & Eu' & N2); [lia|done|reflexivity|].
  rewrite Eu in *. injection Eu' as <- <-. unfold parse_year. repeat case_match; try done; congruence.
Qed.

Lemma eat_app (c : string) rest : eat c (js c ++ rest) = Some rest.
Proof. unfold eat. rewrite starts_with_app. by rewrite drop_app_length. Qed.

Lemma eat_nil (c : string) : js c <> [] -> eat c [] = None.
Proof. intros Hc. unfold eat. by destruct (js c). Qed.

Lemma parse_day_text y m d rest :
  year_ok y -> is_date y m d = true -> parse_day (date_text y m d ++ rest) = Some (days_of y m d, rest).
Proof.
  intros Hy Hd. unfold parse_day, date_text. rewrite <- !app_assoc, parse_year_text by done. cbn [mbind option_bind].
  pose proof Hd as Hd'. unfold is_date in Hd'. zbool. rewrite eat_app, digits_pad2 by lia. cbn [mbind option_bind].
  rewrite eat_app, digits_pad2 by lia. cbn [mbind option_bind]. by rewrite Hd.
Qed.

Lemma length_pad k n : (0 < k)%nat -> 0 <= n < 10 ^ Z.of_nat k -> length (pad k n) = k.
Proof. intros Hk Hn. exact (proj1 (pad_num n k Hn Hk)). Qed.

(** The form a [datetime-local] field holds: the time to the minute, without zone. *)
Definition minute_text (t : Z) : jstr :=
  let '(y, m, d) := civil_of (t / msPerDay) in
  date_text y m d ++ js "T" ++ pad 2 (t mod msPerDay / 3600000) ++ js ":" ++ pad 2 (t mod msPerDay / 60000 mod 60).

(** The year of a time value has four digits. *)
Definition four_digit (t : Z) : Prop := let '(y, _, _) := civil_of (t / msPerDay) in year_ok y.

Lemma clock_bounds t :
  let ms := t mod msPerDay in
  0 <= ms / 3600000 < 24 /\ 0 <= ms / 60000 mod 60 < 60 /\ 0 <= ms / 1000 mod 60 < 60 /\ 0 <= ms mod 1000 < 1000 /\
  ms / 3600000 * 3600000 + ms / 60000 mod 60 * 60000 + ms / 1000 mod 60 * 1000 + ms mod 1000 = ms.
Proof. intros ms. pose proof (Z.mod_pos_bound t msPerDay ltac:(done)) as Hms. fold ms in Hms. unfold msPerDay in Hms. clearbody ms. zdm. Qed.

Lemma first_sixteen t : four_digit t -> take 16 (iso_text t) = minute_text t.
Proof.
  unfold four_digit, iso_text, minute_text. pose proof (civil_bounds (t / msPerDay)) as Hb.
  destruct (civil_of (t / msPerDay)) as [[y m] d]. intros Hy. destruct Hb as (Hm & Hd & _).
  pose proof (clock_bounds t) as (Hh & Hmi & _). cbv zeta in Hh, Hmi |- *.
  unfold date_text, year_text. unfold year_ok in Hy. rewrite (proj2 (Z.leb_le 0 y)), (proj2 (Z.leb_le y 9999)) by lia.
  cbn [andb]. set (rest := js ":" ++ pad 2 (t mod msPerDay / 1000 mod 60) ++ _).
  assert (E : forall (a : jstr) b, length a = 16%nat -> take 16 (a ++ b) = a) by (intros a b <-; apply take_app_length).
  match goal with |- take 16 ?l = ?r => replace l with (r ++ rest) by (by rewrite <- !app_assoc) end.
  apply E. rewrite !length_app, !length_pad by (change (10 ^ Z.of_nat 2) with 100; change (10 ^ Z.of_nat 4) with 10000; lia).
  reflexivity.
Qed.

(** What [toISOString] prints is read back. *)
Section RoundTrip.
Context `{Zone}.

Lemma day_split t : t / msPerDay * msPerDay + t mod msPerDay = t.
Proof. pose proof (Z.div_mod t msPerDay ltac:(done)). lia. Qed.

Lemma parse_clock_text ms h mi sec milli rest :
  0 <= h < 24 -> 0 <= mi < 60 -> 0 <= sec < 60 -> 0 <= milli < 1000 ->
  h * 3600000 + mi * 60000 + sec * 1000 + milli = ms ->
  parse_clock (pad 2 h ++ js ":" ++ pad 2 mi ++ js ":" ++ pad 2 sec ++ js "." ++ pad 3 milli ++ rest) = Some (ms, rest).
Proof.
  intros Hh Hmi Hs Hms <-. unfold parse_clock. rewrite digits_pad2 by lia. cbn [mbind option_bind].
  rewrite eat_app. cbn [mbind option_bind]. rewrite digits_pad2 by lia. cbn [mbind option_bind].
  rewrite eat_app, digits_pad2 by lia. cbn [mbind option_bind]. rewrite eat_app.
  rewrite digits_pad by (change (10 ^ Z.of_nat 3) with 1000 || idtac; lia). cbn [mbind option_bind]. unfold msPerDay.
  case_match; [done|lia].
Qed.

Lemma parse_clock_minute h mi :
  0 <= h < 24 -> 0 <= mi < 60 ->
  parse_clock (pad 2 h ++ js ":" ++ pad 2 mi) = Some (h * 3600000 + mi * 60000, []).
Proof.
  intros Hh Hmi. unfold parse_clock. rewrite digits_pad2 by lia. cbn [mbind option_bind].
  rewrite eat_app. cbn [mbind option_bind]. rewrite <- (app_nil_r (pad 2 mi)), digits_pad2 by lia.
  cbn [mbind option_bind]. rewrite (eat_nil ":") by done. cbn [mbind option_bind]. unfold msPerDay.
  case_match; [|lia]. f_equal. f_equal. lia.
Qed.

Lemma parse_iso_text t : four_digit t -> parse_iso (iso_text t) = Some t.
Proof.
  unfold four_digit, iso_text, parse_iso. destruct (civil_of (t / msPerDay)) as [[y m] d] eqn:E. intros Hy.
  destruct (civil_is_date _ _ _ _ E) as [Hd Eday]. pose proof (clock_bounds t) as (H1 & H2 & H3 & H4 & Et).
  cbv zeta in *. rewrite parse_day_text, Eday by done. cbn [mbind option_bind truthy js negb app].
  rewrite (eat_app "T"). cbn [mbind option_bind]. rewrite (parse_clock_text (t mod msPerDay)) by done.
  change (Some (t / msPerDay * msPerDay + t mod msPerDay - 0) = Some t). by rewrite day_split, Z.sub_0_r.
Qed.

(** A field's text is read as a local time. *)
Lemma parse_minute_text t :
  four_digit t -> parse_iso (minute_text t) = Some (from_local (t - t mod 60000)).
Proof.
  unfold four_digit, minute_text, parse_iso. destruct (civil_of (t / msPerDay)) as [[y m] d] eqn:E. intros Hy.
  destruct (civil_is_date _ _ _ _ E) as [Hd Eday]. pose proof (clock_bounds t) as (H1 & H2 & H3 & H4 & Et).
  cbv zeta in *. rewrite parse_day_text, Eday by done. cbn [mbind option_bind truthy js negb app].
  rewrite (eat_app "T"). cbn [mbind option_bind]. rewrite parse_clock_minute by done. cbn [mbind option_bind truthy negb].
  f_equal. f_equal. pose proof (day_split t) as Hs. unfold msPerDay in *. zdm.
Qed.

End RoundTrip.

Example epoch_text : iso_text 0 = js "1970-01-01T00:00:00.000Z".
Proof. vm_compute. reflexivity. Qed.

Example leap_day_text : iso_text 1709164799999 = js "2024-02-28T23:59:59.999Z" /\ iso_text 1709164800000 = js "2024-02-29T00:00:00.000Z".
Proof. split; vm_compute; reflexivity. Qed.
