(* ===== verification/Floats.v ===== *)
(** * JavaScript numbers as correctly rounded rationals

    A number of the sources that is not an integer is a binary64 double.  In the
    range the pricing engine works in (no overflow, no subnormals, no NaN) each
    arithmetic operation is the exact rational result rounded to 53 significant
    bits, ties to even.  [fl] is that rounding; [Math_round] is [Math.round].  The
    signs of zeros are not kept: no source line here can observe them. *)

From S2P Require Import Prelude.
From Stdlib Require Export QArith Qround Qabs Lqa.
#[global] Open Scope Z_scope.

(** ** Rounding *)

(** The integer nearest to [n / d], ties to even. *)
Definition rne (n d : Z) : Z :=
  let q := n / d in
  let r := n mod d in
  if 2 * r <? d then q else if d <? 2 * r then q + 1 else if Z.even q then q else q + 1.

(** [2 ^ j <= n / d] *)
Definition pow_le (j n d : Z) : bool := if 0 <=? j then 2 ^ j * d <=? n else d <=? n * 2 ^ (- j).

(** The exponent [e] of the last place of [n / d]: [2^52 <= n / d / 2^e < 2^53]. *)
Definition exponent (n d : Z) : Z :=
  let j := Z.log2 n - Z.log2 d in
  if pow_le j n d then j - 52 else j - 53.

Definition round_ratio (z : Z) (d : positive) : Q :=
  let n := Z.abs z in
  if n =? 0 then 0%Q
  else
    let e := exponent n (Zpos d) in
    if 0 <=? e then Qred (inject_Z (Z.sgn z * (rne n (Zpos d * 2 ^ e) * 2 ^ e)))
    else Qred ((Z.sgn z * rne (n * 2 ^ (- e)) (Zpos d)) # Z.to_pos (2 ^ (- e))).

Definition fl (x : Q) : Q := let x := Qred x in round_ratio (Qnum x) (Qden x).

(** The arithmetic operators. *)
Definition fadd (x y : Q) : Q := fl (x + y).
Definition fsub (x y : Q) : Q := fl (x - y).
Definition fmul (x y : Q) : Q := fl (x * y).
Definition fdiv (x y : Q) : Q := fl (x / y).

(** [Math.round]: the nearest integer, ties upwards. *)
Definition Math_round (x : Q) : Q := inject_Z (Qfloor (x + (1 # 2))).

(** ** The rounding error *)

Lemma rne_spec n d : 0 < d -> 2 * Z.abs (rne n d * d - n) <= d.
Proof.
  intros Hd. unfold rne. pose proof (Z.div_mod n d). pose proof (Z.mod_pos_bound n d Hd).
  split_ifs; zbool; nia.
Qed.

Lemma pow_le_log n d : 0 < n -> 0 < d -> pow_le (Z.log2 n - Z.log2 d - 1) n d = true.
Proof.
  intros Hn Hd. pose proof (Z.log2_spec n Hn) as [Hn1 _]. pose proof (Z.log2_spec d Hd) as [_ Hd2].
  pose proof (Z.log2_nonneg n) as Ha. pose proof (Z.log2_nonneg d) as Hb.
  set (a := Z.log2 n) in *. set (b := Z.log2 d) in *. clearbody a b. unfold pow_le.
  destruct (Z.leb_spec 0 (a - b - 1)); apply Z.leb_le.
  - assert (E : 2 ^ a = 2 ^ (a - b - 1) * 2 ^ Z.succ b) by (rewrite <- Z.pow_add_r by lia; f_equal; lia).
    pose proof (Z.pow_pos_nonneg 2 (a - b - 1)). nia.
  - assert (E : 2 ^ Z.succ b = 2 ^ a * 2 ^ (- (a - b - 1))) by (rewrite <- Z.pow_add_r by lia; f_equal; lia).
    pose proof (Z.pow_pos_nonneg 2 (- (a - b - 1))). nia.
Qed.

Lemma pow_le_exponent j n d :
  pow_le j n d = true -> 0 < n -> 0 < d ->
  if 0 <=? j - 52 then 2 ^ 52 * (d * 2 ^ (j - 52)) <= n else 2 ^ 52 * d <= n * 2 ^ (- (j - 52)).
Proof.
  unfold pow_le. intros H Hn Hd. destruct (Z.leb_spec 0 j), (Z.leb_spec 0 (j - 52)); zbool; try lia.
  - replace (2 ^ j) with (2 ^ 52 * 2 ^ (j - 52)) in H by (rewrite <- Z.pow_add_r by lia; f_equal; lia).
    nia.
  - assert (E : 2 ^ 52 = 2 ^ j * 2 ^ (- (j - 52))) by (rewrite <- Z.pow_add_r by lia; f_equal; lia).
    rewrite E. pose proof (Z.pow_pos_nonneg 2 (- (j - 52))). nia.
  - replace (2 ^ (- (j - 52))) with (2 ^ 52 * 2 ^ (- j)) by (rewrite <- Z.pow_add_r by lia; f_equal; lia).
    nia.
Qed.

Lemma exponent_spec n d : 0 < n -> 0 < d ->
  let e := exponent n d in
  if 0 <=? e then 2 ^ 52 * (d * 2 ^ e) <= n else 2 ^ 52 * d <= n * 2 ^ (- e).
Proof.
  intros Hn Hd e. unfold e, exponent. pose proof (pow_le_log n d Hn Hd) as Hl.
  destruct (pow_le (Z.log2 n - Z.log2 d) n d) eqn:E.
  - by apply pow_le_exponent.
  - replace (Z.log2 n - Z.log2 d - 53) with (Z.log2 n - Z.log2 d - 1 - 52) by lia.
    by apply pow_le_exponent.
Qed.

(** Equal rationals round to the same double. *)
Lemma fl_ext x y : (x == y)%Q -> fl x = fl y.
Proof. intros E. unfold fl. by rewrite (Qred_complete x y E). Qed.

#[export] Instance fl_Proper : Proper (Qeq ==> eq) fl.
Proof. intros x y. apply fl_ext. Qed.

(** The relative error is at most [2^-53]. *)
Lemma round_ratio_error z d :
  (Qabs (round_ratio z d - (z # d)) * inject_Z (2 ^ 53) <= Qabs (z # d))%Q.
Proof.
  unfold round_ratio. destruct (Z.eqb_spec (Z.abs z) 0) as [Hz|Hz].
  - assert (z = 0) as -> by lia. unfold Qle. simpl. lia.
  - pose proof (exponent_spec (Z.abs z) (Zpos d) ltac:(lia) ltac:(lia)) as He. cbv zeta in He.
    set (e := exponent _ _) in *. destruct (Z.leb_spec 0 e) as [He0|He0].
    + pose proof (rne_spec (Z.abs z) (Zpos d * 2 ^ e) ltac:(pose proof (Z.pow_pos_nonneg 2 e); nia)) as Hr.
      rewrite Qred_correct. set (m := rne _ _) in *.
      pose proof (Z.pow_pos_nonneg 2 e ltac:(lia) He0). set (p := 2 ^ e) in *.
      unfold Qle, Qabs, Qminus, Qplus, Qmult, Qopp, inject_Z. cbn [Qnum Qden].
      change (2 ^ 53) with (2 * 2 ^ 52). rewrite ?Pos.mul_1_r, ?Pos.mul_1_l.
      assert (Z.abs (Z.sgn z * (m * p) * Z.pos d + - z * 1) = Z.abs (m * (Z.pos d * p) - Z.abs z)) as -> by nia.
      nia.
    + pose proof (rne_spec (Z.abs z * 2 ^ (- e)) (Zpos d) ltac:(lia)) as Hr.
      rewrite Qred_correct. set (m := rne _ _) in *.
      pose proof (Z.pow_pos_nonneg 2 (- e) ltac:(lia) ltac:(lia)). set (p := 2 ^ (- e)) in *.
      unfold Qle, Qabs, Qminus, Qplus, Qmult, Qopp, inject_Z. cbn [Qnum Qden].
      change (2 ^ 53) with (2 * 2 ^ 52).
      rewrite ?Pos.mul_1_r, ?Pos.mul_1_l, ?Pos2Z.inj_mul, !Z2Pos.id by done.
      assert (Z.abs (Z.sgn z * m * Z.pos d + - z * p) = Z.abs (m * Z.pos d - Z.abs z * p)) as -> by nia.
      nia.
Qed.

Lemma fl_error x : (Qabs (fl x - x) * inject_Z (2 ^ 53) <= Qabs x)%Q.
Proof.
  pose proof (round_ratio_error (Qnum (Qred x)) (Qden (Qred x))) as H.
  assert (E : (Qnum (Qred x) # Qden (Qred x) == x)%Q).
  { transitivity (Qred x); [|apply Qred_correct]. by destruct (Qred x). }
  unfold fl. rewrite E in H. exact H.
Qed.

(** The absolute error, for linear reasoning. *)
Lemma fl_abs x B :
  (- B <= x <= B)%Q ->
  (x - B * (1 # 9007199254740992) <= fl x <= x + B * (1 # 9007199254740992))%Q.
Proof.
  intros [H1 H2]. pose proof (fl_error x) as H.
  assert (Hx : (Qabs x <= B)%Q) by (apply Qabs_Qle_condition; split; lra).
  change (inject_Z (2 ^ 53)) with (9007199254740992 # 1) in H.
  assert (Ha : (Qabs (fl x - x) <= B * (1 # 9007199254740992))%Q) by lra.
  apply Qabs_Qle_condition in Ha as [? ?]. split; lra.
Qed.

(** A value within a half of an integer rounds to it. *)
Lemma Math_round_near x N :
  (inject_Z N - (1 # 2) <= x)%Q -> (x < inject_Z N + (1 # 2))%Q -> Math_round x = inject_Z N.
Proof.
  intros H1 H2. unfold Math_round. f_equal.
  pose proof (Qfloor_le (x + (1 # 2))) as Hf. pose proof (Qlt_floor (x + (1 # 2))) as Hg.
  set (f := Qfloor _) in *. rewrite inject_Z_plus in Hg.
  assert (A : (inject_Z f < inject_Z N + 1)%Q) by lra.
  assert (B : (inject_Z N < inject_Z f + 1)%Q) by (change (inject_Z 1) with 1%Q in Hg; lra).
  change 1%Q with (inject_Z 1) in A, B. rewrite <- inject_Z_plus in A, B.
  rewrite <- Zlt_Qlt in A, B. lia.
Qed.

(** Any value rounds to an integer at most a half away. *)
Lemma Math_round_half x : exists N, Math_round x = inject_Z N /\
  (x - (1 # 2) <= inject_Z N)%Q /\ (inject_Z N <= x + (1 # 2))%Q.
Proof.
  exists (Qfloor (x + (1 # 2))). split; [done|].
  pose proof (Qfloor_le (x + (1 # 2))). pose proof (Qlt_floor (x + (1 # 2))) as Hg.
  rewrite inject_Z_plus in Hg. change (inject_Z 1) with 1%Q in Hg. split; lra.
Qed.

(** ** Amounts of money *)

(** The double nearest to a number of cents; also the literals such as [2.85]. *)
Definition dollars (cents : Z) : Q := fl (inject_Z cents / 100).

(** [Math.round(x * 100) / 100] *)
Definition to_cents (x : Q) : Q := fdiv (Math_round (fmul x 100)) 100.

Lemma dollars_near c B :
  (- B <= inject_Z c <= B)%Q ->
  (inject_Z c * (1 # 100) - B * (1 # 9007199254740992) <= dollars c <=
   inject_Z c * (1 # 100) + B * (1 # 9007199254740992))%Q.
Proof.
  intros [H1 H2]. unfold dollars, Qdiv. change (/ 100)%Q with (1 # 100)%Q. apply fl_abs. split; lra.
Qed.

(** A value close enough to a whole number of cents becomes that amount. *)
Lemma to_cents_near x c :
  (- (1000000000 # 1) <= x <= 1000000000 # 1)%Q ->
  (inject_Z c - (1 # 4) <= x * 100 <= inject_Z c + (1 # 4))%Q ->
  to_cents x = dollars c.
Proof.
  intros Hx [H1 H2]. unfold to_cents, fmul.
  pose proof (fl_abs (x * 100) (100000000000 # 1) ltac:(lra)) as [? ?].
  rewrite (Math_round_near _ c) by lra. done.
Qed.

(** In general the result is the amount of some cents next to the value. *)
Lemma to_cents_half x B :
  (- B <= x * 100 <= B)%Q ->
  exists c, to_cents x = dollars c /\
    (x * 100 - (1 # 2) - B * (1 # 9007199254740992) <= inject_Z c)%Q /\
    (inject_Z c <= x * 100 + (1 # 2) + B * (1 # 9007199254740992))%Q.
Proof.
  intros Hx. unfold to_cents, fmul. pose proof (fl_abs (x * 100) B Hx) as [? ?].
  destruct (Math_round_half (fl (x * 100))) as (c & -> & ? & ?).
  exists c. split; [done|]. split; lra.
Qed.

(** ** Tracking cents through an expression *)

(** [x] dollars are [N] cents up to [k] thousandths of a cent. *)
Definition near (k : Z) (x : Q) (N : Z) : Prop :=
  (inject_Z N - inject_Z k * (1 # 1000) <= x * 100 <= inject_Z N + inject_Z k * (1 # 1000))%Q.

(** Amounts below a hundred million dollars. *)
Definition moderate (N : Z) : Prop := - 10000000000 <= N <= 10000000000.

Lemma moderate_Q N : moderate N -> (- (10000000000 # 1) <= inject_Z N <= 10000000000 # 1)%Q.
Proof.
  intros [H1 H2]. change (10000000000 # 1)%Q with (inject_Z 10000000000).
  rewrite <- inject_Z_opp, <- !Zle_Qle. lia.
Qed.

Lemma near_dollars N : moderate N -> near 1 (dollars N) N.
Proof.
  intros H%moderate_Q. pose proof (dollars_near N _ H) as [? ?]. unfold near.
  change (inject_Z 1) with 1%Q. split; lra.
Qed.

Lemma near_fl k x N : moderate N -> 0 <= k <= 100 -> near k x N -> near (k + 1) (fl x) N.
Proof.
  intros H%moderate_Q [Hk1 Hk2] [? ?]. rewrite Zle_Qle in Hk1, Hk2.
  change (inject_Z 0) with 0%Q in Hk1. change (inject_Z 100) with 100%Q in Hk2.
  pose proof (fl_abs x (1000000000 # 1) ltac:(split; lra)) as [? ?]. unfold near.
  rewrite inject_Z_plus. change (inject_Z 1) with 1%Q. split; lra.
Qed.

Lemma near_to_cents k x N : moderate N -> 0 <= k <= 250 -> near k x N -> to_cents x = dollars N.
Proof.
  intros H%moderate_Q [Hk1 Hk2] [? ?]. rewrite Zle_Qle in Hk1, Hk2.
  change (inject_Z 0) with 0%Q in Hk1. change (inject_Z 250) with 250%Q in Hk2.
  apply to_cents_near; split; lra.
Qed.

Lemma near_add k k' x y N M : near k x N -> near k' y M -> near (k + k') (x + y)%Q (N + M).
Proof. unfold near. rewrite !inject_Z_plus. intros [? ?] [? ?]. split; lra. Qed.

Lemma near_sub k k' x y N M : near k x N -> near k' y M -> near (k + k') (x - y)%Q (N - M).
Proof.
  unfold near. unfold Z.sub. rewrite !inject_Z_plus, inject_Z_opp. intros [? ?] [? ?]. split; lra.
Qed.

(** Multiplying by a small natural number. *)
Lemma near_mul k m x N : 0 <= m -> near k x N -> near (m * k) (x * inject_Z m)%Q (N * m).
Proof.
  unfold near. rewrite !inject_Z_mult. intros Hm [H1 H2]. rewrite Zle_Qle in Hm.
  change (inject_Z 0) with 0%Q in Hm. set (q := inject_Z m) in *. split.
  - pose proof (Qmult_le_compat_r _ _ q H1 Hm). lra.
  - pose proof (Qmult_le_compat_r _ _ q H2 Hm). lra.
Qed.

(** Adding up amounts with a rounding at each step. *)
Lemma near_fold (ys : list Q) (cs : list Z) k acc N :
  Forall2 (near 1) ys cs -> Forall (fun c => 0 <= c) cs -> 0 <= N ->
  N + foldr Z.add 0 cs <= 10000000000 -> 0 <= k -> k + 2 * Z.of_nat (length cs) <= 100 ->
  near k acc N ->
  near (k + 2 * Z.of_nat (length cs)) (fold_left fadd ys acc) (N + foldr Z.add 0 cs).
Proof.
  intros Hf. revert k acc N. induction Hf as [|y c ys cs Hy _ IH]; intros k acc N Hp HN Hb Hk0 Hk Ha.
  - simpl. by rewrite !Z.add_0_r.
  - apply Forall_cons in Hp as [Hc Hp]. cbn [foldr length fold_left] in *.
    assert (Hs : 0 <= foldr Z.add 0 cs) by (clear -Hp; induction Hp; simpl; lia).
    replace (k + 2 * Z.of_nat (S (length cs))) with (k + 1 + 1 + 2 * Z.of_nat (length cs)) by lia.
    rewrite Z.add_assoc. apply IH; try done; try lia.
    apply near_fl; [unfold moderate; lia|lia|]. by apply near_add.
Qed.
