(* ===== verification/Pricing.v ===== *)
(** * The graduated pricing engine

    control-plane/src/lib/pricing_math.ts, whole (public-site/src/lib carries the
    same file, support-crm/src/lib an older copy without the apportioning of the
    line items).  Money is a JavaScript number; the theorem is that every amount is
    the double nearest to an exact number of cents given by integer arithmetic. *)

From S2P Require Import Prelude JsString Floats.

Inductive BillingCycle := monthly | annual.

Record TierBracket := {
  b_tier : Z;
  b_name : jstr;
  b_rangeLabel : jstr;
  minSeats : Z;
  maxSeats : option Z;  (** [None] is [Infinity] *)
  b_unitRate : Q;
  b_discountBadge : option jstr;
}.

Record WaterfallLine := {
  tier : Z;
  line_name : jstr;
  rangeLabel : jstr;
  seatsInTier : Z;
  unitRate : Q;
  cost : Q;
  annualCost : Q;
  monthlyEquivalentCost : Q;
  discountBadge : option jstr;
}.

Record ResourceLimits := {
  maxDomains : Z;
  maxAliases : Z;
  extraDomainPriceMonthly : Q;
}.

Record PricingBreakdown := {
  seatCount : Z;
  billingCycle : BillingCycle;
  lines : list WaterfallLine;
  baseMonthlyTotal : Q;
  totalMonthlyCost : Q;
  totalAmount : Q;
  annualTotal : Q;
  annualSavings : Q;
  blendedRate : Q;
  resourceLimits : ResourceLimits;
}.

Definition seats_label (range : jstr) : jstr := js "Seats " ++ range.
Definition en_dash : jstr := [0x2013].

Definition TIER_BRACKETS : list TierBracket := [
  {| b_tier := 1; b_name := js "Tier 1"; b_rangeLabel := js "Seats 1" ++ en_dash ++ js "10";
     minSeats := 1; maxSeats := Some 10; b_unitRate := dollars 300; b_discountBadge := None |};
  {| b_tier := 2; b_name := js "Tier 2"; b_rangeLabel := js "Seats 11" ++ en_dash ++ js "25";
     minSeats := 11; maxSeats := Some 25; b_unitRate := dollars 285;
     b_discountBadge := Some (js "-5% Volume Discount") |};
  {| b_tier := 3; b_name := js "Tier 3"; b_rangeLabel := js "Seats 26" ++ en_dash ++ js "50";
     minSeats := 26; maxSeats := Some 50; b_unitRate := dollars 271;
     b_discountBadge := Some (js "-10% Volume Discount") |};
  {| b_tier := 4; b_name := js "Tier 4"; b_rangeLabel := js "Seats 51" ++ en_dash ++ js "100";
     minSeats := 51; maxSeats := Some 100; b_unitRate := dollars 257;
     b_discountBadge := Some (js "-14% Volume Discount") |};
  {| b_tier := 5; b_name := js "Tier 5"; b_rangeLabel := js "Seats 101+";
     minSeats := 101; maxSeats := None; b_unitRate := dollars 244;
     b_discountBadge := Some (js "-19% Volume Discount") |}].

(** [Math.max(1, Math.floor(seats || 1))]; callers pass an integer or the [NaN]
    of a failed [parseInt], here [None]. *)
Definition whole_seats (seats : option Z) : Z :=
  Z.max 1 (match seats with Some n => if n =? 0 then 1 else n | None => 1 end).

Definition calculateResourceLimits (seats : option Z) : ResourceLimits :=
  let seatCount := whole_seats seats in
  {| maxDomains := if 26 <=? seatCount then 10 else if 11 <=? seatCount then 5 else 3;
     maxAliases := seatCount * 10;
     extraDomainPriceMonthly := dollars 150 |}.

(** One pass of the bracket loop that allots seats. *)
Definition tier_line (b : TierBracket) (n : Z) : WaterfallLine :=
  let c := to_cents (fmul (inject_Z n) (b_unitRate b)) in
  {| tier := b_tier b; line_name := b_name b; rangeLabel := b_rangeLabel b;
     seatsInTier := n; unitRate := b_unitRate b;
     cost := c;
     annualCost := to_cents (fmul c 10);
     monthlyEquivalentCost := to_cents (fdiv (fmul c 10) 12);
     discountBadge := b_discountBadge b |}.

Definition capacity (b : TierBracket) (remaining : Z) : Z :=
  match maxSeats b with None => remaining | Some m => m - minSeats b + 1 end.

(** [for (const bracket of TIER_BRACKETS)] *)
Fixpoint waterfall (bs : list TierBracket) (remaining : Z) (baseMonthlyCost : Q)
    (ls : list WaterfallLine) : Q * list WaterfallLine :=
  match bs with
  | [] => (baseMonthlyCost, ls)
  | b :: bs =>
      if remaining <=? 0 then (baseMonthlyCost, ls)
      else
        let n := Z.min remaining (capacity b remaining) in
        if 0 <? n then
          let l := tier_line b n in
          waterfall bs (remaining - n) (fadd baseMonthlyCost (cost l)) (ls ++ [l])
        else waterfall bs remaining baseMonthlyCost ls
  end.

(** [lines[lines.length - 1].p = f(...)] *)
Definition update_last (f : WaterfallLine -> WaterfallLine) (ls : list WaterfallLine) : list WaterfallLine :=
  match reverse ls with [] => [] | l :: r => reverse (f l :: r) end.

Definition set_monthly (v : Q) (l : WaterfallLine) : WaterfallLine :=
  {| tier := tier l; line_name := line_name l; rangeLabel := rangeLabel l;
     seatsInTier := seatsInTier l; unitRate := unitRate l; cost := cost l;
     annualCost := annualCost l; monthlyEquivalentCost := v; discountBadge := discountBadge l |}.

Definition set_annual (v : Q) (l : WaterfallLine) : WaterfallLine :=
  {| tier := tier l; line_name := line_name l; rangeLabel := rangeLabel l;
     seatsInTier := seatsInTier l; unitRate := unitRate l; cost := cost l;
     annualCost := v; monthlyEquivalentCost := monthlyEquivalentCost l; discountBadge := discountBadge l |}.

(** [lines.reduce((acc, l) => acc + l.p, 0)], rounded to cents. *)
Definition sum_lines (p : WaterfallLine -> Q) (ls : list WaterfallLine) : Q :=
  to_cents (fold_left (fun acc l => fadd acc (p l)) ls 0%Q).

(** Move the difference between the rounded total and the sum of the rounded
    lines to the last line. *)
Definition apportion (p : WaterfallLine -> Q) (set : Q -> WaterfallLine -> WaterfallLine)
    (total : Q) (ls : list WaterfallLine) : list WaterfallLine :=
  let diff := to_cents (fsub total (sum_lines p ls)) in
  if negb (Qeq_bool diff 0) && negb (Nat.eqb (length ls) 0) then
    update_last (fun l => set (to_cents (fadd (p l) diff)) l) ls
  else ls.

(** [seats] is the argument as the callers pass it, a whole number or NaN ([None]); a
    fractional one, which the function rounds down, is outside the model. *)
Definition calculateGraduatedPricing (seats : option Z) (cycle : BillingCycle) : PricingBreakdown :=
  let seatCount := whole_seats seats in
  let '(baseMonthlyCost, ls) := waterfall TIER_BRACKETS seatCount 0%Q [] in
  let baseMonthlyTotal := to_cents baseMonthlyCost in
  let resourceLimits := calculateResourceLimits (Some seatCount) in
  match cycle with
  | annual =>
      let annualTotal := to_cents (fmul baseMonthlyTotal 10) in
      let totalAmount := annualTotal in
      let totalMonthlyCost := to_cents (fdiv annualTotal 12) in
      let annualSavings := to_cents (fmul baseMonthlyTotal 2) in
      let blendedRate := to_cents (fdiv (fdiv annualTotal 12) (inject_Z seatCount)) in
      let ls := apportion monthlyEquivalentCost set_monthly totalMonthlyCost ls in
      let ls := apportion annualCost set_annual annualTotal ls in
      {| seatCount := seatCount; billingCycle := annual; lines := ls;
         baseMonthlyTotal := baseMonthlyTotal; totalMonthlyCost := totalMonthlyCost;
         totalAmount := totalAmount; annualTotal := annualTotal; annualSavings := annualSavings;
         blendedRate := blendedRate; resourceLimits := resourceLimits |}
  | monthly =>
      {| seatCount := seatCount; billingCycle := monthly; lines := ls;
         baseMonthlyTotal := baseMonthlyTotal; totalMonthlyCost := baseMonthlyTotal;
         totalAmount := baseMonthlyTotal;
         annualTotal := to_cents (fmul baseMonthlyTotal 12);
         annualSavings := 0%Q;
         blendedRate := to_cents (fdiv baseMonthlyTotal (inject_Z seatCount));
         resourceLimits := resourceLimits |}
  end.

(** ** Amounts are exact cents *)

Ltac q_consts := repeat match goal with
  | H : context [inject_Z (Zpos ?p)] |- _ => change (inject_Z (Zpos p)) with (Zpos p # 1)%Q in H
  | H : context [inject_Z 0] |- _ => change (inject_Z 0) with 0%Q in H
  | |- context [inject_Z (Zpos ?p)] => change (inject_Z (Zpos p)) with (Zpos p # 1)%Q
  end.

(** The price of [n] seats at [r] cents. *)
Lemma line_cost_exact n r :
  0 <= n <= 1000000 -> 0 <= r <= 300 -> to_cents (fmul (inject_Z n) (dollars r)) = dollars (n * r).
Proof.
  intros Hn Hr. assert (Hm : moderate (n * r)) by (unfold moderate; nia).
  apply (near_to_cents 2); [done|lia|]. apply (near_fl 1); [done|lia|].
  assert (Hq : (- (300 # 1) <= inject_Z r <= 300 # 1)%Q).
  { change (300 # 1)%Q with (inject_Z 300). rewrite <- inject_Z_opp, <- !Zle_Qle. lia. }
  pose proof (dollars_near r _ Hq) as [H1 H2].
  destruct Hn as [Hn0 Hn1]. rewrite Zle_Qle in Hn0, Hn1. q_consts. unfold near.
  rewrite inject_Z_mult. set (q := inject_Z n) in *. set (s := inject_Z r) in *. set (d := dollars r) in *.
  pose proof (Qmult_le_compat_r _ _ q H1 Hn0). pose proof (Qmult_le_compat_r _ _ q H2 Hn0).
  q_consts. split; lra.
Qed.

Lemma annual_cost_exact N : 0 <= N <= 300000000 -> to_cents (fmul (dollars N) 10) = dollars (10 * N).
Proof.
  intros HN. assert (moderate N /\ moderate (10 * N)) as [? ?] by (unfold moderate; lia).
  apply (near_to_cents 11); [done|lia|]. apply (near_fl 10); [done|lia|].
  rewrite Z.mul_comm. apply (near_mul 1 10); [lia|]. by apply near_dollars.
Qed.

Lemma times_exact m N : 0 <= m <= 12 -> 0 <= N <= 300000000 ->
  to_cents (fmul (dollars N) (inject_Z m)) = dollars (m * N).
Proof.
  intros Hm HN. assert (moderate N /\ moderate (m * N)) as [? ?] by (unfold moderate; nia).
  apply (near_to_cents (m * 1 + 1)); [done|lia|]. apply near_fl; [done|lia|].
  rewrite (Z.mul_comm m N). apply near_mul; [lia|]. by apply near_dollars.
Qed.

(** A twelfth of an amount, to the nearest cent (ties either way). *)
Lemma twelfth_nearest k v M : 0 <= k <= 20 -> moderate M -> near k v M ->
  exists c, to_cents (fdiv v 12) = dollars c /\ Z.abs (12 * c - M) <= 6.
Proof.
  intros [Hk0 Hk1] HM%moderate_Q [H1 H2]. rewrite Zle_Qle in Hk0, Hk1. q_consts.
  unfold fdiv, Qdiv. change (/ 12)%Q with (1 # 12)%Q.
  pose proof (fl_abs (v * (1 # 12)) (1000000000 # 1) ltac:(split; lra)) as [? ?].
  destruct (to_cents_half (fl (v * (1 # 12))) (100000000000 # 1)) as (c & E & Hl & Hu); [split; lra|].
  exists c. split; [exact E|].
  assert (A : (inject_Z (12 * c - M) < inject_Z 7)%Q).
  { unfold Z.sub. rewrite inject_Z_plus, inject_Z_opp, inject_Z_mult. q_consts. lra. }
  assert (B : (inject_Z (-7) < inject_Z (12 * c - M))%Q).
  { unfold Z.sub. rewrite inject_Z_plus, inject_Z_opp, inject_Z_mult.
    change (inject_Z (-7)) with (-7 # 1)%Q. q_consts. lra. }
  rewrite <- Zlt_Qlt in A, B. lia.
Qed.

(** An amount divided by the number of seats, to the nearest cent. *)
Lemma per_seat_nearest D n x A :
  D = 1 \/ D = 12 -> 1 <= n <= 1000000 -> 0 <= A <= 300 * D * n ->
  (inject_Z A - (1 # 100) <= x * 100 * inject_Z D <= inject_Z A + (1 # 100))%Q ->
  exists c, to_cents (fdiv x (inject_Z n)) = dollars c /\ 2 * Z.abs (D * n * c - A) <= D * n.
Proof.
  intros HD [Hn1 Hn2] [HA0 HA1] [Hx1 Hx2]. rewrite Zle_Qle in Hn1, Hn2, HA0, HA1.
  rewrite !inject_Z_mult in HA1. unfold fdiv.
  set (q := inject_Z n) in *. set (y := (x / q)%Q). q_consts.
  assert (Hy : (y * q == x)%Q) by (unfold y; field; lra).
  assert (HD' : (inject_Z D == 1 \/ inject_Z D == 12)%Q) by (destruct HD as [-> | ->]; [left|right]; reflexivity).
  assert (Hxq : (- (4 # 1) * q <= x <= (4 # 1) * q)%Q) by (destruct HD' as [HD' |HD']; rewrite HD' in *; split; lra).
  assert (Hyb : (- (4 # 1) <= y <= 4 # 1)%Q).
  { split; apply (Qmult_lt_0_le_reg_r _ _ q); rewrite ?Hy; lra. }
  pose proof (fl_abs y (4 # 1) Hyb) as [Hf1 Hf2].
  destruct (to_cents_half (fl y) (500 # 1)) as (c & E & Hl & Hu); [split; lra|].
  exists c. split; [exact E|].
  assert (Hc1 : (y * 100 - (1 # 2) - (1 # 1000000000) <= inject_Z c)%Q) by lra.
  assert (Hc2 : (inject_Z c <= y * 100 + (1 # 2) + (1 # 1000000000))%Q) by lra.
  pose proof (Qmult_le_compat_r _ _ q Hc1 ltac:(lra)) as P1.
  pose proof (Qmult_le_compat_r _ _ q Hc2 ltac:(lra)) as P2.
  assert (P3 : (y * 100 * q == x * 100)%Q) by (rewrite <- Hy; ring).
  assert (U : (inject_Z (2 * (D * n * c - A)) < inject_Z (D * n + 1))%Q /\
              (inject_Z (2 * (A - D * n * c)) < inject_Z (D * n + 1))%Q).
  { unfold Z.sub. rewrite !inject_Z_mult, !inject_Z_plus, !inject_Z_opp, !inject_Z_mult.
    fold q. change (inject_Z 1) with 1%Q. change (inject_Z 2) with 2%Q.
    set (t := (inject_Z c * q)%Q) in *.
    assert (T : (inject_Z D * q * inject_Z c == inject_Z D * t)%Q) by (unfold t; ring).
    rewrite T. destruct HD' as [HD'|HD']; rewrite HD' in *; split; lra. }
  destruct U as [U1 U2]. rewrite <- Zlt_Qlt in U1, U2. lia.
Qed.

(** ** The specification: seat by seat *)

(** The rate of the [i]-th seat, in cents. *)
Definition seat_rate (i : Z) : Z :=
  if i <=? 10 then 300 else if i <=? 25 then 285 else if i <=? 50 then 271
  else if i <=? 100 then 257 else 244.

Definition total (cs : list Z) : Z := foldr Z.add 0 cs.

(** Every seat is charged its own rate. *)
Definition graduated (n : Z) : Z := total (map (fun i => seat_rate (Z.of_nat i)) (seq 1 (Z.to_nat n))).

(** The same, bracket by bracket, leaving out the empty brackets. *)
Definition bracket_cents (n : Z) : list Z :=
  List.filter (Z.ltb 0)
    [300 * Z.min n 10; 285 * (Z.min n 25 - 10); 271 * (Z.min n 50 - 25);
     257 * (Z.min n 100 - 50); 244 * (n - 100)].

Lemma total_app a b : total (a ++ b) = total a + total b.
Proof. unfold total. induction a as [|x a IH]; [done|]. cbn [app foldr]. lia. Qed.

Lemma graduated_closed n :
  0 <= n ->
  graduated n = 300 * Z.min n 10 + 285 * Z.max 0 (Z.min n 25 - 10) + 271 * Z.max 0 (Z.min n 50 - 25) +
    257 * Z.max 0 (Z.min n 100 - 50) + 244 * Z.max 0 (n - 100).
Proof.
  intros Hn. unfold graduated. rewrite <- (Z2Nat.id n) at 2 3 4 5 6 by done.
  generalize (Z.to_nat n). clear n Hn. intros n. induction n as [|n IH]; [done|].
  rewrite seq_S, map_app, total_app, IH. unfold total, seat_rate. cbn [map foldr].
  split_ifs; zbool; lia.
Qed.

Lemma graduated_brackets n : 1 <= n -> total (bracket_cents n) = graduated n.
Proof.
  intros Hn. rewrite graduated_closed by lia. unfold bracket_cents, total. cbn [List.filter].
  split_ifs; zbool; cbn [foldr]; lia.
Qed.

Lemma graduated_range n : 1 <= n -> 0 < graduated n <= 300 * n.
Proof. intros. rewrite graduated_closed by lia. lia. Qed.

(** ** The bracket loop *)

Fixpoint allot (bs : list TierBracket) (remaining : Z) : list (TierBracket * Z) :=
  match bs with
  | [] => []
  | b :: bs =>
      if remaining <=? 0 then []
      else
        let n := Z.min remaining (capacity b remaining) in
        if 0 <? n then (b, n) :: allot bs (remaining - n) else allot bs remaining
  end.

Lemma waterfall_allot bs remaining base ls :
  let new := map (fun x => tier_line (fst x) (snd x)) (allot bs remaining) in
  waterfall bs remaining base ls = (fold_left fadd (map cost new) base, ls ++ new).
Proof.
  revert remaining base ls. induction bs as [|b bs IH]; intros remaining base ls; cbn [waterfall allot].
  - by rewrite app_nil_r.
  - destruct (_ <=? 0); [by rewrite app_nil_r|]. destruct (0 <? _); [|apply IH].
    rewrite IH. cbn [map fst snd fold_left]. by rewrite <- app_assoc.
Qed.

(** A line whose amounts are those of [c] cents. *)
Definition exact_line (l : WaterfallLine) (c : Z) : Prop :=
  cost l = dollars c /\ annualCost l = dollars (10 * c) /\
  exists m, monthlyEquivalentCost l = dollars m /\ Z.abs (12 * m - 10 * c) <= 6.

Lemma tier_line_exact b n r :
  b_unitRate b = dollars r -> 0 <= n <= 1000000 -> 0 <= r <= 300 -> exact_line (tier_line b n) (r * n).
Proof.
  intros Hb Hn Hr. unfold exact_line, tier_line. cbn [cost annualCost monthlyEquivalentCost].
  rewrite Hb, line_cost_exact, (Z.mul_comm n r) by done. set (c := r * n).
  assert (Hc : 0 <= c <= 300000000) by (unfold c; nia).
  split; [done|]. split; [by apply annual_cost_exact|].
  apply (twelfth_nearest 11); [lia|unfold moderate; lia|].
  apply (near_fl 10); [unfold moderate; lia|lia|].
  rewrite (Z.mul_comm 10 c). apply (near_mul 1 10); [lia|]. apply near_dollars. unfold moderate. lia.
Qed.

Lemma capacity_bounded b m remaining :
  maxSeats b = Some m -> capacity b remaining = m - minSeats b + 1.
Proof. unfold capacity. by intros ->. Qed.

Lemma lines_exact n :
  1 <= n <= 1000000 ->
  Forall2 exact_line (map (fun x => tier_line (fst x) (snd x)) (allot TIER_BRACKETS n)) (bracket_cents n).
Proof.
  intros Hn. unfold TIER_BRACKETS, bracket_cents. cbn [allot List.filter capacity maxSeats minSeats].
  split_ifs; zbool; try lia; cbn [map fst snd];
    repeat first [apply Forall2_nil; exact I | apply Forall2_cons; split];
    (eapply eq_ind; [eapply tier_line_exact; [reflexivity|lia|lia]|lia]).
Qed.

(** ** Apportioning *)

Lemma update_last_app f ls l : update_last f (ls ++ [l]) = ls ++ [f l].
Proof.
  unfold update_last. rewrite reverse_app, reverse_singleton. cbn [app].
  by rewrite reverse_cons, reverse_involutive.
Qed.

Lemma near_map_dollars (p : WaterfallLine -> Q) ls cs :
  map p ls = map dollars cs -> Forall moderate cs -> Forall2 (near 1) (map p ls) cs.
Proof.
  intros -> H. induction H; simpl; constructor; auto using near_dollars.
Qed.

Lemma fold_left_map {A B C} (f : A -> B -> A) (g : C -> B) (l : list C) a :
  fold_left (fun acc x => f acc (g x)) l a = fold_left f (map g l) a.
Proof. revert a. induction l; simpl; auto. Qed.

Lemma sum_lines_exact p ls cs :
  map p ls = map dollars cs -> Forall (fun c => 0 <= c <= 10000000000) cs ->
  (length cs <= 40)%nat -> total cs <= 10000000000 ->
  sum_lines p ls = dollars (total cs).
Proof.
  intros E Hc Hlen Ht. unfold sum_lines. rewrite (fold_left_map fadd p).
  assert (H0 : 0 <= total cs) by (clear -Hc; unfold total; induction Hc; simpl; lia).
  apply (near_to_cents (0 + 2 * Z.of_nat (length cs))); [unfold moderate; lia|lia|].
  change (total cs) with (0 + foldr Z.add 0 cs). apply near_fold; try lia.
  - apply near_map_dollars; [done|]. eapply Forall_impl; [exact Hc|]. unfold moderate. lia.
  - eapply Forall_impl; [exact Hc|]. simpl. lia.
  - exact Ht.
  - unfold near. simpl. split; discriminate.
Qed.

Lemma dollars_zero d : moderate d -> Qeq_bool (dollars d) 0 = (d =? 0).
Proof.
  intros Hd. destruct (Z.eqb_spec d 0) as [->|Hn]; [done|].
  apply not_true_iff_false. intros E%Qeq_bool_iff.
  pose proof (near_dollars d Hd) as [H1 H2]. rewrite E in H1, H2. q_consts.
  assert (A : (inject_Z d < inject_Z 1)%Q) by (change (inject_Z 1) with 1%Q in *; lra).
  assert (B : (inject_Z (-1) < inject_Z d)%Q) by (change (inject_Z (-1)) with (-1)%Q; change (inject_Z 1) with 1%Q in *; lra).
  rewrite <- Zlt_Qlt in A, B. lia.
Qed.

(** After apportioning, the lines are whole cents that add up to the total, and
    only the last line's own amount has changed. *)
Lemma apportion_spec p set T ls cs :
  (forall v l, p (set v l) = v) ->
  map p ls = map dollars cs -> Forall (fun c => 0 <= c <= 5000000000) cs ->
  (1 <= length cs <= 5)%nat -> total cs <= 5000000000 -> 0 <= T <= 5000000000 ->
  exists cs', map p (apportion p set (dollars T) ls) = map dollars cs' /\ total cs' = T /\
    length cs' = length cs /\
    forall B (g : WaterfallLine -> B), (forall v l, g (set v l) = g l) ->
      map g (apportion p set (dollars T) ls) = map g ls.
Proof.
  intros Hset E Hc Hlen Htot HT.
  assert (Ht : 0 <= total cs) by (clear -Hc; unfold total; induction Hc; simpl; lia).
  assert (Hls : length ls = length cs) by (by rewrite <- (length_map p), E, length_map).
  unfold apportion. rewrite (sum_lines_exact p ls cs); [|done| |lia|lia].
  2:{ eapply Forall_impl; [exact Hc|]. simpl. lia. }
  assert (Hd : to_cents (fsub (dollars T) (dollars (total cs))) = dollars (T - total cs)).
  { apply (near_to_cents 3); [unfold moderate; lia|lia|]. apply (near_fl 2); [unfold moderate; lia|lia|].
    apply (near_sub 1 1); apply near_dollars; unfold moderate; lia. }
  rewrite Hd, dollars_zero by (unfold moderate; lia).
  replace (length ls =? 0)%nat with false by (symmetry; apply Nat.eqb_neq; lia).
  rewrite andb_true_r. destruct (Z.eqb_spec (T - total cs) 0) as [Hz|Hz]; cbn [negb].
  { exists cs. split_and!; [done|lia|done|done]. }
  destruct ls as [|l ls _] using rev_ind; [simpl in Hls; lia|]. destruct cs as [|c cs _] using rev_ind.
  { simpl in *. lia. }
  rewrite !map_app in E. cbn [map] in E. apply app_inj_2 in E as [E1 E2]; [|done]. injection E2 as E2.
  apply Forall_app in Hc as [Hc1 Hc2]. apply Forall_cons in Hc2 as [Hc2 _].
  rewrite total_app in *. rewrite length_app in *.
  replace (total [c]) with c in * by (unfold total; simpl; lia). cbn [length] in *.
  exists (cs ++ [c + (T - (total cs + c))]). rewrite update_last_app.
  split; [|split; [|split]].
  - rewrite !map_app, E1. cbn [map]. rewrite Hset, E2. do 2 f_equal.
    apply (near_to_cents 3); [unfold moderate; lia|lia|]. apply (near_fl 2); [unfold moderate; lia|lia|].
    apply (near_add 1 1); apply near_dollars; unfold moderate; lia.
  - rewrite total_app. unfold total at 2. simpl. lia.
  - rewrite !length_app. done.
  - intros B g Hg. rewrite !map_app. cbn [map]. by rewrite Hg.
Qed.

Lemma exact_lines_maps ls cs :
  Forall2 exact_line ls cs ->
  map cost ls = map dollars cs /\ map annualCost ls = map dollars (map (Z.mul 10) cs) /\
  exists ms, map monthlyEquivalentCost ls = map dollars ms /\
    Forall2 (fun m c => Z.abs (12 * m - 10 * c) <= 6) ms cs.
Proof.
  induction 1 as [|l c ls cs (H1 & H2 & m & H3 & H4) _ (E1 & E2 & ms & E3 & E4)]; simpl.
  - split_and!; [done|done|]. exists []. by split.
  - rewrite H1, H2, H3, E1, E2, E3. split_and!; [done|done|].
    exists (m :: ms). split; [done|by constructor].
Qed.

Lemma bracket_cents_shape n : 1 <= n <= 1000000 ->
  (1 <= length (bracket_cents n) <= 5)%nat /\ Forall (fun c => 0 < c <= 300000000) (bracket_cents n).
Proof.
  intros Hn. unfold bracket_cents. cbn [List.filter].
  split_ifs; zbool; cbn [length]; (split; [lia|]); repeat constructor; lia.
Qed.

Lemma total_le cs B : 0 <= B -> Forall (fun c => 0 <= c <= B) cs -> 0 <= total cs <= B * Z.of_nat (length cs).
Proof. intros HB. unfold total. induction 1; cbn [foldr length]; lia. Qed.

Lemma total_map_mul k cs : total (map (Z.mul k) cs) = k * total cs.
Proof. unfold total. induction cs as [|c cs IH]; simpl; lia. Qed.

(** What the loop hands to both billing cycles. *)
Lemma base_exact n :
  1 <= n <= 1000000 ->
  exists b ls, waterfall TIER_BRACKETS n 0%Q [] = (b, ls) /\
    to_cents b = dollars (graduated n) /\ Forall2 exact_line ls (bracket_cents n).
Proof.
  intros Hn. rewrite waterfall_allot. eexists _, _. split; [done|].
  pose proof (lines_exact n Hn) as Hl. set (ls := map _ (allot _ _)) in *. cbn [app]. split; [|done].
  destruct (exact_lines_maps _ _ Hl) as (E & _). destruct (bracket_cents_shape n Hn) as [Hlen Hc].
  pose proof (graduated_range n ltac:(lia)).
  rewrite <- (graduated_brackets n) in * by lia.
  rewrite <- (sum_lines_exact cost ls (bracket_cents n)); try lia; try done.
  - unfold sum_lines. by rewrite (fold_left_map fadd cost).
  - eapply Forall_impl; [exact Hc|]. simpl. lia.
Qed.

(** The lines of an annual invoice. *)
Lemma annual_lines n ls M :
  1 <= n <= 1000000 -> Forall2 exact_line ls (bracket_cents n) ->
  Z.abs (12 * M - 10 * graduated n) <= 6 ->
  let ls1 := apportion monthlyEquivalentCost set_monthly (dollars M) ls in
  let ls2 := apportion annualCost set_annual (dollars (10 * graduated n)) ls1 in
  map cost ls2 = map dollars (bracket_cents n) /\
  (exists ms, map monthlyEquivalentCost ls2 = map dollars ms /\ total ms = M) /\
  (exists cs, map annualCost ls2 = map dollars cs /\ total cs = 10 * graduated n).
Proof.
  intros Hn Hl HM ls1 ls2. pose proof (graduated_range n ltac:(lia)) as Hr.
  destruct (exact_lines_maps _ _ Hl) as (E1 & E2 & ms & E3 & Hms).
  destruct (bracket_cents_shape n Hn) as [Hlen Hc].
  assert (Hms' : Forall (fun c => 0 <= c <= 1000000000) ms /\ length ms = length (bracket_cents n)).
  { clear -Hms Hc. induction Hms; [by split|]. apply Forall_cons in Hc as [? Hc].
    destruct (IHHms Hc). simpl. split; [constructor; [lia|done]|lia]. }
  destruct Hms' as [Hms1 Hms2].
  destruct (apportion_spec monthlyEquivalentCost set_monthly M ls ms) as (ms' & F1 & F2 & _ & F4);
    try done; try lia.
  { eapply Forall_impl; [exact Hms1|]. simpl. lia. }
  { pose proof (total_le ms 1000000000 ltac:(lia) Hms1). lia. }
  fold ls1 in F1, F4.
  assert (Ht : total (map (Z.mul 10) (bracket_cents n)) <= 5000000000).
  { rewrite total_map_mul, graduated_brackets; lia. }
  destruct (apportion_spec annualCost set_annual (10 * graduated n) ls1 (map (Z.mul 10) (bracket_cents n)))
    as (cs' & G1 & G2 & _ & G4); [done|by rewrite F4| |rewrite length_map; lia|done|lia|].
  - apply Forall_map. eapply Forall_impl; [exact Hc|]. simpl. lia.
  - fold ls2 in G1, G4. rewrite (G4 _ cost), (F4 _ cost) by done.
    split; [done|]. split; [exists ms'; by rewrite (G4 _ monthlyEquivalentCost) by done|by exists cs'].
Qed.

(** Everything the annual branch computes. *)
Lemma annual_exact n :
  1 <= n <= 1000000 ->
  exists M B,
  let p := calculateGraduatedPricing (Some n) annual in
  let m := graduated n in
  seatCount p = n /\ baseMonthlyTotal p = dollars m /\ totalAmount p = dollars (10 * m) /\
  annualTotal p = dollars (10 * m) /\ annualSavings p = dollars (2 * m) /\
  totalMonthlyCost p = dollars M /\ Z.abs (12 * M - 10 * m) <= 6 /\
  blendedRate p = dollars B /\ 2 * Z.abs (12 * n * B - 10 * m) <= 12 * n /\
  map cost (lines p) = map dollars (bracket_cents n) /\
  (exists ms, map monthlyEquivalentCost (lines p) = map dollars ms /\ total ms = M) /\
  (exists cs, map annualCost (lines p) = map dollars cs /\ total cs = 10 * m).
Proof.
  intros Hn. destruct (base_exact n Hn) as (b & ls & Ew & Eb & Hl).
  pose proof (graduated_range n ltac:(lia)) as Hr. set (m := graduated n) in *.
  assert (Es : whole_seats (Some n) = n) by (unfold whole_seats; split_ifs; lia).
  assert (Ha : to_cents (fmul (dollars m) 10) = dollars (10 * m)) by (apply annual_cost_exact; lia).
  assert (Hnear : near 1 (dollars (10 * m)) (10 * m)) by (apply near_dollars; unfold moderate; lia).
  destruct (twelfth_nearest 1 (dollars (10 * m)) (10 * m)) as (M & EM & HM); [lia|unfold moderate; lia|done|].
  destruct (per_seat_nearest 12 n (fdiv (dollars (10 * m)) 12) (10 * m)) as (B & EB & HB); [by right|lia|lia| |].
  { destruct Hnear as [N1 N2]. assert (Hm : moderate (10 * m)) by (unfold moderate; lia).
    apply moderate_Q in Hm. unfold fdiv, Qdiv. change (/ 12)%Q with (1 # 12)%Q.
    change (inject_Z 1) with 1%Q in *. change (inject_Z 12) with (12 # 1)%Q.
    pose proof (fl_abs (dollars (10 * m) * (1 # 12)) (100000000 # 1) ltac:(split; lra)) as [? ?]. split; lra. }
  exists M, B. intros p. unfold p, calculateGraduatedPricing. rewrite Es, Ew, Eb. cbv zeta.
  cbn [seatCount lines baseMonthlyTotal totalMonthlyCost totalAmount annualTotal annualSavings blendedRate].
  fold m. rewrite Ha, EM, EB.
  destruct (annual_lines n ls M Hn Hl HM) as (L1 & L2 & L3).
  split_and!; try done. by apply (times_exact 2); lia.
Qed.

Lemma monthly_exact n :
  1 <= n <= 1000000 ->
  exists B,
  let p := calculateGraduatedPricing (Some n) monthly in
  let m := graduated n in
  seatCount p = n /\ baseMonthlyTotal p = dollars m /\ totalAmount p = dollars m /\
  totalMonthlyCost p = dollars m /\ annualTotal p = dollars (12 * m) /\ annualSavings p = 0%Q /\
  blendedRate p = dollars B /\ 2 * Z.abs (n * B - m) <= n /\
  map cost (lines p) = map dollars (bracket_cents n).
Proof.
  intros Hn. destruct (base_exact n Hn) as (b & ls & Ew & Eb & Hl).
  pose proof (graduated_range n ltac:(lia)) as Hr. set (m := graduated n) in *.
  assert (Es : whole_seats (Some n) = n) by (unfold whole_seats; split_ifs; lia).
  assert (Hnear : near 1 (dollars m) m) by (apply near_dollars; unfold moderate; lia).
  destruct (per_seat_nearest 1 n (dollars m) m) as (B & EB & HB); [by left|lia|lia| |].
  { destruct Hnear as [N1 N2]. change (inject_Z 1) with 1%Q in *. split; lra. }
  exists B. intros p. unfold p, calculateGraduatedPricing. rewrite Es, Ew, Eb. cbv zeta.
  cbn [seatCount lines baseMonthlyTotal totalMonthlyCost totalAmount annualTotal annualSavings blendedRate].
  fold m. destruct (exact_lines_maps _ _ Hl) as (E1 & _).
  split_and!; try done; [by apply (times_exact 12); lia|by rewrite Z.mul_1_l in HB].
Qed.

(** ** Properties *)

(** C37.  The price is graduated and exact.  For up to a million seats and either
    cycle, every whole-cent total the engine returns is the double nearest to the
    exact amount: the sum over the seats of each seat's own bracket rate per month,
    twelve (monthly) or ten (annual) times that per year, two months saved; no
    rounding error of the intermediate products and sums reaches a cent. *)
Theorem pricing_totals_exact (n : Z) (cycle : BillingCycle) :
  1 <= n <= 1000000 ->
  let p := calculateGraduatedPricing (Some n) cycle in
  let m := graduated n in
  seatCount p = n /\ map cost (lines p) = map dollars (bracket_cents n) /\
  total (bracket_cents n) = m /\ baseMonthlyTotal p = dollars m /\
  match cycle with
  | monthly => totalMonthlyCost p = dollars m /\ totalAmount p = dollars m /\
      annualTotal p = dollars (12 * m) /\ annualSavings p = 0%Q
  | annual => totalAmount p = dollars (10 * m) /\ annualTotal p = dollars (10 * m) /\
      annualSavings p = dollars (2 * m)
  end.
Proof.
  intros Hn p m. pose proof (graduated_brackets n ltac:(lia)). destruct cycle.
  - destruct (monthly_exact n Hn) as (B & Hm). cbv zeta in Hm. fold p m in Hm. tauto.
  - destruct (annual_exact n Hn) as (M & B & Ha). cbv zeta in Ha. fold p m in Ha. tauto.
Qed.

(** An annual invoice adds up.  The monthly equivalents of the lines, after
    the remainder has been moved to the last line, are whole cents whose sum is the
    monthly total shown, which is a twelfth of the annual total to the nearest cent;
    the annual costs of the lines sum to the annual total; the blended rate is the
    monthly equivalent per seat to the nearest cent. *)
Theorem annual_invoice_adds_up (n : Z) :
  1 <= n <= 1000000 ->
  exists M B ms cs,
  let p := calculateGraduatedPricing (Some n) annual in
  totalMonthlyCost p = dollars M /\ map monthlyEquivalentCost (lines p) = map dollars ms /\ total ms = M /\
  Z.abs (12 * M - 10 * graduated n) <= 6 /\
  annualTotal p = dollars (total cs) /\ map annualCost (lines p) = map dollars cs /\
  blendedRate p = dollars B /\ 2 * Z.abs (12 * n * B - 10 * graduated n) <= 12 * n.
Proof.
  intros Hn. destruct (annual_exact n Hn) as (M & B & _ & _ & _ & E4 & _ & E6 & E7 & E8 & E9 & _ & (ms & F1 & F2) & cs & G1 & G2).
  exists M, B, ms, cs. rewrite G2. split_and!; done.
Qed.

Lemma pricing_totals_exact_witness :
  baseMonthlyTotal (calculateGraduatedPricing (Some 63) annual) = dollars (graduated 63) /\
  graduated 63 = 17391.
Proof.
  split; [|vm_compute; reflexivity].
  refine (proj1 (proj2 (proj2 (proj2 (pricing_totals_exact 63 annual _))))). lia.
Defined.

Lemma annual_invoice_adds_up_witness :
  exists M, totalMonthlyCost (calculateGraduatedPricing (Some 63) annual) = dollars M /\
    Z.abs (12 * M - 10 * graduated 63) <= 6.
Proof.
  destruct (annual_invoice_adds_up 63 ltac:(lia)) as (M & B & ms & cs & E & _ & _ & H & _).
  exists M. split; [exact E|exact H].
Defined.

(** A tie rounds down: a twelfth of 173910 cents is 14492.5, and the double is a
    little below it. *)
Example tie_rounds_down :
  totalMonthlyCost (calculateGraduatedPricing (Some 63) annual) = dollars 14492 /\
  10 * graduated 63 = 12 * 14492 + 6.
Proof. split; vm_compute; reflexivity. Qed.
