(* ===== verification/Wasm.v ===== *)
(** * The crypto core behind its WASM boundary

    packages/crypto-core/src/lib.rs exports the functions the TypeScript calls as
    [wasm.wasm_*]: they decode hex, check lengths, and call primitives from
    third-party crates.  The exports and the byte formats (envelope, AAD) are
    translated here; the primitives (AES-256-GCM, Argon2id, HKDF, BIP-39, HPKE, Ed25519) are
    the operations of the class [Crypto], and what the code relies on is the class
    [CryptoLaws].  Randomness is an explicit argument. *)

From S2P Require Import Prelude JsString Encoding Json.

(** ** Primitives of third-party crates *)

Class Crypto := {
  (** [Aes256Gcm::encrypt] and [decrypt]: key, nonce, associated data, text *)
  gcm_seal : bytes -> bytes -> bytes -> bytes -> bytes;
  gcm_open : bytes -> bytes -> bytes -> bytes -> option bytes;
  (** Argon2id with the frozen parameters: UTF-8 passphrase, salt *)
  argon2id : bytes -> bytes -> option bytes;
  (** HKDF-SHA256 with the root-secret and search-key labels *)
  hkdf_root : bytes -> bytes;
  hkdf_search : bytes -> bytes;
  (** BIP-39: the English phrase of some entropy, and the entropy of a valid phrase *)
  bip39_phrase : bytes -> jstr;
  bip39_entropy : jstr -> option bytes;
  (** PBKDF2-SHA256, 256 bits: password, salt, iterations *)
  pbkdf2_sha256 : bytes -> bytes -> Z -> bytes;
  (** WebCrypto [sign] with an imported HMAC key: key, message *)
  hmac_sha256 : bytes -> bytes -> bytes;
  hmac_sha1 : bytes -> bytes -> bytes;
  (** HPKE single-shot seal (public key, randomness, text, AAD) and open *)
  x25519_pk : bytes -> bytes;
  hpke_seal : bytes -> bytes -> bytes -> bytes -> option bytes;
  hpke_open : bytes -> bytes -> bytes -> option bytes;
  (** HKDF-SHA256 with the recovery-auth labels; Ed25519 with the seed as private key:
      verifying key, signature of a message, verification *)
  hkdf_recovery_auth : bytes -> bytes;
  ed25519_pk : bytes -> bytes;
  ed25519_sign : bytes -> bytes -> bytes;
  ed25519_verify : bytes -> bytes -> bytes -> bool;
}.

(** A letter of the English word list. *)
Definition is_letter (u : Z) : bool := (97 <=? u) && (u <=? 122).

(** What is relied on: sealing then opening is the identity, an envelope opens
    under no other key and no other associated data, and outputs are byte strings
    of the documented sizes. *)
Class CryptoLaws `{Crypto} := {
  gcm_seal_bytes k n a p :
    Forall is_byte k -> Forall is_byte n -> Forall is_byte a -> Forall is_byte p ->
    Forall is_byte (gcm_seal k n a p);
  gcm_seal_tag k n a p : (16 <= length (gcm_seal k n a p))%nat;
  gcm_correct k n a p : Forall is_byte p -> gcm_open k n a (gcm_seal k n a p) = Some p;
  gcm_binds k k' n a a' p : k <> k' \/ a <> a' -> gcm_open k' n a' (gcm_seal k n a p) = None;
  gcm_open_bytes k n a c p : gcm_open k n a c = Some p -> Forall is_byte p;
  argon2id_key pass salt k : argon2id pass salt = Some k -> length k = 32%nat /\ Forall is_byte k;
  pbkdf2_size p s n : length (pbkdf2_sha256 p s n) = 32%nat /\ Forall is_byte (pbkdf2_sha256 p s n);
  (** 256 bits make 24 lower-case words with single spaces; a word stands for 11 bits
      of entropy and checksum, so words and bytes are as 3 to 4 *)
  bip39_words e : length e = 32%nat -> Forall is_byte e ->
    exists ws, bip39_phrase e = join [32] ws /\ length ws = 24%nat /\
      Forall (fun w => w <> [] /\ forallb is_letter w = true) ws;
  bip39_correct e : length e = 32%nat -> Forall is_byte e -> bip39_entropy (bip39_phrase e) = Some e;
  bip39_size s e : forallb (fun u => is_letter u || (u =? 32)) s = true -> bip39_entropy s = Some e ->
    (4 * length (words s) = 3 * length e)%nat;
  hkdf_root_key e : length (hkdf_root e) = 32%nat /\ Forall is_byte (hkdf_root e);
  hmac_sha256_size k m : length (hmac_sha256 k m) = 32%nat /\ Forall is_byte (hmac_sha256 k m);
  hmac_sha1_size k m : length (hmac_sha1 k m) = 20%nat /\ Forall is_byte (hmac_sha1 k m);
  hkdf_search_key e : length (hkdf_search e) = 32%nat /\ Forall is_byte (hkdf_search e);
  hpke_correct sk rnd p a w :
    Forall is_byte p -> hpke_seal (x25519_pk sk) rnd p a = Some w -> hpke_open sk w a = Some p;
  hpke_binds_aad sk rnd p a a' w :
    a <> a' -> hpke_seal (x25519_pk sk) rnd p a = Some w -> hpke_open sk w a' = None;
  hpke_seal_bytes pk rnd p a w : hpke_seal pk rnd p a = Some w -> Forall is_byte w;
  hpke_open_bytes sk w a p : hpke_open sk w a = Some p -> Forall is_byte p;
  x25519_pk_bytes sk : Forall is_byte sk -> Forall is_byte (x25519_pk sk);
  x25519_pk_size sk : length sk = 32%nat -> length (x25519_pk sk) = 32%nat;
  hkdf_recovery_auth_key e : length (hkdf_recovery_auth e) = 32%nat /\ Forall is_byte (hkdf_recovery_auth e);
  ed25519_pk_key seed : length (ed25519_pk seed) = 32%nat /\ Forall is_byte (ed25519_pk seed);
  ed25519_sign_size seed m : length (ed25519_sign seed m) = 64%nat /\ Forall is_byte (ed25519_sign seed m);
  ed25519_correct seed m : ed25519_verify (ed25519_pk seed) m (ed25519_sign seed m) = true;
}.

(** Exports reject with a string, not an [Error]. *)
Definition reject {A} (s : string) : outcome A := Throw (JsThrown (js s)).

(** How the generated bindings read a string argument ([passStringToWasm0]): a
    value that is not a string has no [charCodeAt], but that is only called when
    its [length] is positive; without a length nothing is written. *)
Definition wasm_arg (v : json) : outcome jstr :=
  match v with
  | JStr s => Ok s
  | JNull | JArr (_ :: _) => throw "TypeError"
  | JObj _ =>
      match get v (js "length") with
      | Some l => if json_truthy l then throw "TypeError" else Ok []
      | None => Ok []
      end
  | JArr [] | JBool _ | JNum _ => Ok []
  end.

(** ** Hex helpers of lib.rs *)

Definition hex_encode (bs : bytes) : jstr := bytesToHex bs.

(** [u8::from_str_radix(pair, 16)]: two digits, or [+] and one digit. *)
Definition from_str_radix (a b : Z) : option Z :=
  match hex_val a, hex_val b with
  | Some x, Some y => Some (x * 16 + y)
  | None, Some y => if a =? 43 then Some y else None
  | _, _ => None
  end.

Fixpoint hex_decode_pairs (s : bytes) : outcome bytes :=
  match s with
  | a :: b :: s' =>
      match from_str_radix a b with
      | Some v => vs ← hex_decode_pairs s'; Ok (v :: vs)
      | None => reject "invalid digit found in string"
      end
  | _ => Ok []
  end.

(** The argument crosses the boundary as UTF-8. *)
Definition hex_decode (hex : jstr) : outcome bytes :=
  let s := TextEncoder_encode hex in
  if Z.of_nat (length s) mod 2 =? 0 then hex_decode_pairs s
  else reject "invalid hex length".

Definition exactly (n : nat) (err : string) (bs : bytes) : outcome bytes :=
  if decide (length bs = n) then Ok bs else reject err.

Definition hex_decode_32 (hex : jstr) : outcome bytes :=
  hex_decode hex ≫= exactly 32 "expected 32 bytes".

Definition decode_mailbox_id (hex : jstr) : outcome bytes :=
  hex_decode hex ≫= exactly 16 "mailbox_id must be 16 bytes".

(** ** Envelopes and associated data *)

(** The big-endian bytes of an unsigned [n]-byte integer. *)
Fixpoint be_bytes (n : nat) (v : Z) : bytes :=
  match n with
  | O => []
  | S n => (v / 256 ^ Z.of_nat n) mod 256 :: be_bytes n v
  end.

Definition AAD_VERSION : Z := 1.
Definition AES_GCM_ENVELOPE_VERSION : Z := 1.
Definition ENCRYPTION_VERSION : Z := 1.

Definition canonical_aad (mailbox_id : bytes) (message_seq encryption_version : Z) : bytes :=
  mailbox_id ++ be_bytes 8 message_seq ++ be_bytes 4 encryption_version ++ [AAD_VERSION].

Section Exports.
Context `{Crypto}.

Definition aes_gcm_encrypt (key nonce plaintext aad : bytes) : bytes :=
  AES_GCM_ENVELOPE_VERSION :: nonce ++ gcm_seal key nonce aad plaintext.

Definition aes_gcm_decrypt (key envelope aad : bytes) : outcome bytes :=
  if Z.of_nat (length envelope) <? 29 then reject "invalid format"
  else if negb (default 0 (head envelope) =? AES_GCM_ENVELOPE_VERSION) then
    reject "unsupported version"
  else
    match gcm_open key (take 12 (drop 1 envelope)) aad (drop 13 envelope) with
    | Some p => Ok p
    | None => reject "decryption failed"
    end.

Definition mailbox_key_aad (mailbox_id : bytes) : bytes := mailbox_id ++ js "mailbox-sk-v1".

Definition wrap_mailbox_key (root_secret nonce mailbox_sk mailbox_id : bytes) : bytes :=
  aes_gcm_encrypt root_secret nonce mailbox_sk (mailbox_key_aad mailbox_id).

Definition unwrap_mailbox_key (root_secret wrapped mailbox_id : bytes) : outcome bytes :=
  bs ← aes_gcm_decrypt root_secret wrapped (mailbox_key_aad mailbox_id);
  if decide (length bs = 32%nat) then Ok bs else reject "invalid format".

Definition RECOVERY_PRINCIPAL_AAD : bytes := js "byos-recovery-principal-v1".
Definition RECOVERY_PASSPHRASE_MIN_LEN : Z := 8.

Definition derive_recovery_principal_key (passphrase : jstr) (salt : bytes) : outcome bytes :=
  let p := TextEncoder_encode passphrase in
  if Z.of_nat (length p) <? RECOVERY_PASSPHRASE_MIN_LEN then reject "invalid format"
  else match argon2id p salt with Some k => Ok k | None => reject "invalid format" end.

(** ** The exports *)

Definition wasm_canonical_aad (mailbox_id_hex : jstr) (message_seq encryption_version : Z)
    : outcome jstr :=
  mailbox_id ← decode_mailbox_id mailbox_id_hex;
  Ok (hex_encode (canonical_aad mailbox_id (message_seq mod 2 ^ 64) (encryption_version mod 2 ^ 32))).

Definition wasm_derive_search_key (root_secret_hex : jstr) : outcome jstr :=
  key ← hex_decode_32 root_secret_hex; Ok (hex_encode (hkdf_search key)).

Definition wasm_derive_root_secret (entropy_hex : jstr) : outcome jstr :=
  entropy ← hex_decode entropy_hex ≫= exactly 32 "entropy must be 32 bytes";
  Ok (hex_encode (hkdf_root entropy)).

(** [rand::random()] gives the entropy. *)
Definition wasm_generate_mnemonic (entropy : bytes) : outcome jstr := Ok (bip39_phrase entropy).

(** A phrase whose entropy is not 32 bytes makes [copy_from_slice] trap. *)
Definition wasm_recover_root_secret (mnemonic : jstr) : outcome jstr :=
  match bip39_entropy mnemonic with
  | Some e =>
      if decide (length e = 32%nat) then Ok (hex_encode (hkdf_root e))
      else reject "unreachable"
  | None => reject "invalid mnemonic"
  end.

Definition wasm_passphrase_wrap_key (nonce : bytes) (passphrase salt_hex plaintext_hex : jstr)
    : outcome jstr :=
  salt ← hex_decode salt_hex ≫= exactly 16 "salt must be 16 bytes";
  plaintext ← hex_decode plaintext_hex;
  key ← derive_recovery_principal_key passphrase salt;
  Ok (hex_encode (aes_gcm_encrypt key nonce plaintext RECOVERY_PRINCIPAL_AAD)).

Definition wasm_passphrase_unwrap_key (passphrase salt_hex envelope_hex : jstr) : outcome jstr :=
  salt ← hex_decode salt_hex ≫= exactly 16 "salt must be 16 bytes";
  envelope ← hex_decode envelope_hex;
  key ← derive_recovery_principal_key passphrase salt;
  plaintext ← aes_gcm_decrypt key envelope RECOVERY_PRINCIPAL_AAD;
  Ok (hex_encode plaintext).

Definition wasm_aes_gcm_encrypt (nonce : bytes) (key_hex plaintext_hex aad_hex : jstr) : outcome jstr :=
  key ← hex_decode_32 key_hex;
  plaintext ← hex_decode plaintext_hex;
  aad ← hex_decode aad_hex;
  Ok (hex_encode (aes_gcm_encrypt key nonce plaintext aad)).

Definition wasm_aes_gcm_decrypt (key_hex envelope_hex aad_hex : jstr) : outcome jstr :=
  key ← hex_decode_32 key_hex;
  envelope ← hex_decode envelope_hex;
  aad ← hex_decode aad_hex;
  plaintext ← aes_gcm_decrypt key envelope aad;
  Ok (hex_encode plaintext).

Definition wasm_hpke_seal (rnd : bytes) (recipient_pk_hex plaintext_hex aad_hex : jstr) : outcome jstr :=
  recipient_pk ← hex_decode_32 recipient_pk_hex;
  plaintext ← hex_decode plaintext_hex;
  aad ← hex_decode aad_hex;
  match hpke_seal recipient_pk rnd plaintext aad with
  | Some w => Ok (hex_encode w)
  | None => reject "invalid HPKE operation"
  end.

(** The envelope's parsing, its version check and the opening are one operation of the
    [Crypto] interface: the texts by which crypto-core tells a short or unknown envelope
    apart from a failed opening are not. *)
Definition wasm_hpke_open (recipient_sk_hex wrapped_hex aad_hex : jstr) : outcome jstr :=
  recipient_sk ← hex_decode_32 recipient_sk_hex;
  wrapped ← hex_decode wrapped_hex;
  aad ← hex_decode aad_hex;
  match hpke_open recipient_sk wrapped aad with
  | Some p => Ok (hex_encode p)
  | None => reject "invalid HPKE operation"
  end.

Definition wasm_wrap_mailbox_key (nonce : bytes) (root_secret_hex mailbox_sk_hex mailbox_id_hex : jstr)
    : outcome jstr :=
  root_secret ← hex_decode_32 root_secret_hex;
  mailbox_sk ← hex_decode_32 mailbox_sk_hex;
  mailbox_id ← decode_mailbox_id mailbox_id_hex;
  Ok (hex_encode (wrap_mailbox_key root_secret nonce mailbox_sk mailbox_id)).

Definition wasm_unwrap_mailbox_key (root_secret_hex wrapped_hex mailbox_id_hex : jstr) : outcome jstr :=
  root_secret ← hex_decode_32 root_secret_hex;
  wrapped ← hex_decode wrapped_hex;
  mailbox_id ← decode_mailbox_id mailbox_id_hex;
  unwrapped ← unwrap_mailbox_key root_secret wrapped mailbox_id;
  Ok (hex_encode unwrapped).

(** The Ed25519 key of a root secret: its verifier, and the signature of a message. *)
Definition derive_recovery_auth_public_key (root_secret : bytes) : bytes := ed25519_pk (hkdf_recovery_auth root_secret).
Definition sign_recovery_message (root_secret message : bytes) : bytes :=
  ed25519_sign (hkdf_recovery_auth root_secret) message.

Definition wasm_recovery_auth_pk_from_root (root_secret_hex : jstr) : outcome jstr :=
  root ← hex_decode_32 root_secret_hex; Ok (hex_encode (derive_recovery_auth_public_key root)).

Definition wasm_recovery_auth_sign (root_secret_hex message_hex : jstr) : outcome jstr :=
  root ← hex_decode_32 root_secret_hex;
  message ← hex_decode message_hex;
  Ok (hex_encode (sign_recovery_message root message)).

(** [serde_json::json!] prints the members in key order. *)
Definition wasm_generate_keypair (sk : bytes) : jstr :=
  JSON_stringify (JObj [(js "public_key", JStr (hex_encode (x25519_pk sk)));
                        (js "secret_key", JStr (hex_encode sk))]).

End Exports.

(** ** The hex boundary is transparent on encoded bytes *)

Lemma lower_hex_ascii u : is_lower_hex u = true -> is_ascii u = true.
Proof. unfold is_lower_hex, is_ascii. lia. Qed.

Lemma hex_units bs : Forall is_byte bs -> Forall is_unit (bytesToHex bs).
Proof. intros Hb. apply ascii_units. eapply forallb_impl, bytesToHex_lower; [apply lower_hex_ascii|done]. Qed.

Lemma from_str_radix_hex_byte b :
  is_byte b -> from_str_radix (digit_char (b / 16)) (digit_char (b mod 16)) = Some b.
Proof. intros Hb. byte_cases b Hb. Qed.

Lemma hex_decode_encode bs : Forall is_byte bs -> hex_decode (bytesToHex bs) = Ok bs.
Proof.
  intros H. unfold hex_decode.
  rewrite TextEncoder_ascii, length_bytesToHex by
    eauto using forallb_impl, lower_hex_ascii, bytesToHex_lower.
  destruct (_ =? 0) eqn:E; [|zbool; zdm]. clear E.
  induction H as [|b bs Hb _ IH]; [done|].
  rewrite bytesToHex_cons, hex_byte_digits by done. cbn [app hex_decode_pairs].
  rewrite from_str_radix_hex_byte by done. by rewrite IH.
Qed.

Lemma exactly_ok n err bs : length bs = n -> exactly n err bs = Ok bs.
Proof. intros H. unfold exactly. by rewrite decide_True. Qed.

Lemma exactly_wrong n err bs : length bs <> n -> exactly n err bs = reject err.
Proof. intros H. unfold exactly. by rewrite decide_False. Qed.

Lemma hex_decode_32_encode k :
  Forall is_byte k -> length k = 32%nat -> hex_decode_32 (bytesToHex k) = Ok k.
Proof. intros. unfold hex_decode_32. rewrite hex_decode_encode by done. by apply exactly_ok. Qed.

Lemma decode_mailbox_id_encode k :
  Forall is_byte k -> length k = 16%nat -> decode_mailbox_id (bytesToHex k) = Ok k.
Proof. intros. unfold decode_mailbox_id. rewrite hex_decode_encode by done. by apply exactly_ok. Qed.

(** Whatever [hex_decode] accepts decodes to bytes. *)
Lemma hex_decode_pairs_bytes s bs : hex_decode_pairs s = Ok bs -> Forall is_byte bs.
Proof.
  revert bs. induction s as [| |a b s IH] using list_ind2; simpl; intros bs; try (by intros [= <-]).
  destruct (from_str_radix a b) as [v|] eqn:E; [|done].
  destruct (hex_decode_pairs s) as [vs|]; [|done]. intros [= <-]. constructor; [|by apply IH].
  assert (Hr : forall u x, hex_val u = Some x -> 0 <= x < 16).
  { intros u x. unfold hex_val. destruct (_ && _) eqn:?; [intros [= <-]; lia|].
    destruct (_ && _) eqn:? in |- *; [intros [= <-]; lia|].
    destruct (_ && _) eqn:? in |- *; [intros [= <-]; lia|done]. }
  unfold from_str_radix, is_byte in *.
  destruct (hex_val a) eqn:Ea, (hex_val b) eqn:Eb; try done;
    repeat match goal with H : hex_val _ = Some _ |- _ => apply Hr in H end;
    [|destruct (a =? 43); [|done]]; injection E as <-; lia.
Qed.

Lemma hex_decode_bytes s bs : hex_decode s = Ok bs -> Forall is_byte bs.
Proof. unfold hex_decode. destruct (_ =? 0); [apply hex_decode_pairs_bytes|done]. Qed.

(** ** The envelope is a round trip bound to its associated data *)

Section Envelope.
Context `{CryptoLaws}.

Lemma envelope_bytes k n p a :
  Forall is_byte k -> Forall is_byte n -> Forall is_byte p -> Forall is_byte a ->
  Forall is_byte (aes_gcm_encrypt k n p a).
Proof.
  intros. constructor; [by unfold is_byte|]. apply Forall_app. auto using gcm_seal_bytes.
Qed.

Lemma aes_gcm_decrypt_envelope k k' n p a a' :
  length n = 12%nat ->
  aes_gcm_decrypt k' (aes_gcm_encrypt k n p a) a' =
  match gcm_open k' n a' (gcm_seal k n a p) with
  | Some q => Ok q
  | None => reject "decryption failed"
  end.
Proof.
  intros Hn. unfold aes_gcm_decrypt, aes_gcm_encrypt.
  pose proof (gcm_seal_tag k n a p). cbn [length]. rewrite length_app.
  rewrite (proj2 (Z.ltb_ge _ 29)) by lia. cbn [head default negb Z.eqb Pos.eqb].
  change (default 0 (Some AES_GCM_ENVELOPE_VERSION)) with 1. cbn [Z.eqb Pos.eqb negb].
  change (drop 1 (AES_GCM_ENVELOPE_VERSION :: n ++ gcm_seal k n a p)) with (n ++ gcm_seal k n a p).
  change (drop 13 (AES_GCM_ENVELOPE_VERSION :: n ++ gcm_seal k n a p))
    with (drop 12 (n ++ gcm_seal k n a p)).
  by rewrite <- Hn, take_app_length, drop_app_length.
Qed.

Lemma aes_gcm_round_trip k n p a :
  length n = 12%nat -> Forall is_byte p -> aes_gcm_decrypt k (aes_gcm_encrypt k n p a) a = Ok p.
Proof. intros. by rewrite aes_gcm_decrypt_envelope, gcm_correct. Qed.

Lemma aes_gcm_other k k' n p a a' :
  length n = 12%nat -> k <> k' \/ a <> a' ->
  aes_gcm_decrypt k' (aes_gcm_encrypt k n p a) a' = reject "decryption failed".
Proof. intros. by rewrite aes_gcm_decrypt_envelope, gcm_binds. Qed.

Lemma aes_gcm_decrypt_bytes k e a p : aes_gcm_decrypt k e a = Ok p -> Forall is_byte p.
Proof.
  unfold aes_gcm_decrypt. destruct (_ <? _); [done|]. destruct (negb _); [done|].
  destruct (gcm_open _ _ _ _) eqn:E; [|done]. intros [= <-]. by eapply gcm_open_bytes.
Qed.

End Envelope.

(** ** The canonical AAD determines what it binds *)

Lemma length_be_bytes n v : length (be_bytes n v) = n.
Proof. induction n; simpl; auto. Qed.

Lemma be_bytes_bytes n v : Forall is_byte (be_bytes n v).
Proof. unfold is_byte. induction n; simpl; constructor; auto. zdm. Qed.

(** Reading the bytes back, most significant first. *)
Definition be_combine (bs : bytes) : Z := fold_left (fun acc b => acc * 256 + b) bs 0.

Lemma fold_be_bytes n v acc :
  fold_left (fun acc b => acc * 256 + b) (be_bytes n v) acc =
  acc * 256 ^ Z.of_nat n + v mod 256 ^ Z.of_nat n.
Proof.
  revert acc. induction n as [|n IH]; intros acc; [simpl; rewrite Z.mod_1_r; lia|].
  cbn [be_bytes fold_left]. rewrite IH, Nat2Z.inj_succ, Z.pow_succ_r by lia.
  assert (Hp : 0 < 256 ^ Z.of_nat n) by (apply Z.pow_pos_nonneg; lia).
  rewrite (Z.mul_comm 256), Z.rem_mul_r by lia. lia.
Qed.

Lemma be_combine_bytes n v :
  0 <= v < 256 ^ Z.of_nat n -> be_combine (be_bytes n v) = v.
Proof. intros. unfold be_combine. by rewrite fold_be_bytes, Z.mod_small. Qed.

Lemma be_bytes_inj n v w :
  0 <= v < 256 ^ Z.of_nat n -> 0 <= w < 256 ^ Z.of_nat n ->
  be_bytes n v = be_bytes n w -> v = w.
Proof. intros Hv Hw E. by rewrite <- (be_combine_bytes n v), <- (be_combine_bytes n w), E. Qed.

Lemma canonical_aad_inj box seq ver box' seq' ver' :
  length box = 16%nat -> length box' = 16%nat ->
  0 <= seq < 2 ^ 64 -> 0 <= seq' < 2 ^ 64 -> 0 <= ver < 2 ^ 32 -> 0 <= ver' < 2 ^ 32 ->
  canonical_aad box seq ver = canonical_aad box' seq' ver' ->
  box = box' /\ seq = seq' /\ ver = ver'.
Proof.
  intros Hb Hb' Hs Hs' Hv Hv' E. unfold canonical_aad in E.
  apply app_inj_1 in E as [-> E]; [|congruence].
  apply app_inj_1 in E as [Es E]; [|by rewrite !length_be_bytes].
  apply app_inj_1 in E as [Ev _]; [|by rewrite !length_be_bytes].
  split_and!; [done| |]; (eapply be_bytes_inj; [| |eassumption]); simpl; lia.
Qed.

(** ** A concrete instance

    A transparent cipher that satisfies the laws: the "ciphertext" is
    self-delimiting copies of the key and of the associated data, then the text. *)
Definition framed (a : bytes) : bytes := replicate (length a) 1 ++ [0] ++ a ++ replicate 16 0.

Definition strip_prefix (p s : bytes) : option bytes :=
  if starts_with p s then Some (drop (length p) s) else None.

Definition bytes_only (o : option bytes) : option bytes :=
  match o with Some p => if decide (Forall is_byte p) then Some p else None | None => None end.

Definition toy_seal (k n a p : bytes) : bytes := framed k ++ framed a ++ p.
Definition toy_open (k n a c : bytes) : option bytes :=
  bytes_only (strip_prefix (framed k) c ≫= strip_prefix (framed a)).

(** A key-sized digest: the first 32 bytes, padded. *)
Definition toy_key (s : bytes) : bytes :=
  map (fun b => b mod 256) (take 32 (s ++ replicate 32 7)).

Lemma toy_key_id e : length e = 32%nat -> Forall is_byte e -> toy_key e = e.
Proof.
  intros Hl He. unfold toy_key. rewrite take_app_le, take_ge by lia. by apply map_mod256.
Qed.

(** Two letters a byte, two letters a word, and the rest in the 24th. *)
Definition nibble_letters (b : Z) : jstr := [97 + b / 16; 97 + b mod 16].

Fixpoint letter_bytes (s : jstr) : bytes :=
  match s with a :: b :: s' => ((a - 97) * 16 + (b - 97)) :: letter_bytes s' | _ => [] end.

Definition toy_words (e : bytes) : list jstr :=
  map nibble_letters (take 23 e) ++ [concat (map nibble_letters (drop 23 e))].

Definition toy_entropy (s : jstr) : bytes := toy_key (letter_bytes (concat (words s))).

Definition toy_crypto : Crypto := {|
  gcm_seal := toy_seal;
  gcm_open := toy_open;
  argon2id pass salt := Some (toy_key (pass ++ salt));
  hkdf_root := toy_key;
  hkdf_search := toy_key;
  bip39_phrase e := join [32] (toy_words e);
  bip39_entropy s := if (length (words s) =? 24)%nat then Some (toy_entropy s) else None;
  pbkdf2_sha256 p s n := toy_key (p ++ s);
  hmac_sha256 k m := toy_key (k ++ m);
  hmac_sha1 k m := take 20 (toy_key (k ++ m));
  x25519_pk sk := sk;
  hpke_seal pk rnd p a := bytes_only (Some (toy_seal pk rnd a p));
  hpke_open sk w a := toy_open sk [] a w;
  hkdf_recovery_auth := toy_key;
  ed25519_pk := toy_key;
  ed25519_sign seed m := toy_key seed ++ toy_key m;
  ed25519_verify pk m sig := bool_decide (sig = pk ++ toy_key m);
|}.

Lemma framed_inj a a' s s' : framed a ++ s = framed a' ++ s' -> a = a' /\ s = s'.
Proof.
  assert (Hr : forall n m (x y : bytes), replicate n 1 ++ 0 :: x = replicate m 1 ++ 0 :: y -> n = m /\ x = y).
  { induction n as [|n IH]; intros [|m] x y; simpl; intros [= H]; try done; auto.
    apply IH in H as [-> ->]. done. }
  unfold framed. rewrite <- !app_assoc. intros [Hl E]%Hr.
  apply app_inj_1 in E as [-> E]; [|done]. by apply app_inv_head in E.
Qed.

Lemma strip_prefix_app p s : strip_prefix p (p ++ s) = Some s.
Proof. unfold strip_prefix. by rewrite starts_with_app, drop_app_length. Qed.

Lemma strip_prefix_framed a a' s : a <> a' -> strip_prefix (framed a') (framed a ++ s) = None.
Proof.
  intros Hn. unfold strip_prefix. destruct (starts_with _ _) eqn:E; [|done].
  apply starts_with_spec in E as [t E]. by apply framed_inj in E as [? _].
Qed.

Lemma framed_bytes a : Forall is_byte a -> Forall is_byte (framed a).
Proof.
  intros H. unfold framed, is_byte in *. repeat apply Forall_app_2; auto.
  - apply Forall_replicate. lia.
  - by repeat constructor.
  - apply Forall_replicate. lia.
Qed.

Lemma bytes_only_Some o p : bytes_only o = Some p -> o = Some p /\ Forall is_byte p.
Proof. destruct o; simpl; [|done]. case_decide; [|done]. by intros [= ->]. Qed.

Lemma toy_open_seal k n m a p : Forall is_byte p -> toy_open k m a (toy_seal k n a p) = Some p.
Proof.
  intros H. unfold toy_open, toy_seal. rewrite strip_prefix_app. simpl.
  rewrite strip_prefix_app. simpl. by rewrite decide_True.
Qed.

Lemma toy_open_other k k' n m a a' p :
  k <> k' \/ a <> a' -> toy_open k' m a' (toy_seal k n a p) = None.
Proof.
  intros H. unfold toy_open, toy_seal.
  destruct (decide (k = k')) as [->|Hk]; [|by rewrite strip_prefix_framed].
  rewrite strip_prefix_app. simpl. by rewrite strip_prefix_framed by naive_solver.
Qed.

Lemma toy_key_ok s : length (toy_key s) = 32%nat /\ Forall is_byte (toy_key s).
Proof.
  unfold toy_key. split.
  - rewrite length_map, length_take, length_app, length_replicate. lia.
  - apply Forall_forall. intros b (x & -> & _)%list_elem_of_fmap. unfold is_byte. zdm.
Qed.

Lemma is_letter_nonwhite w : forallb is_letter w = true -> forallb (fun u => negb (is_white u)) w = true.
Proof. apply forallb_impl. unfold is_letter, is_white. lia. Qed.

Lemma nibble_letters_ok b : is_byte b -> forallb is_letter (nibble_letters b) = true.
Proof. unfold nibble_letters, is_byte, is_letter. cbn [forallb]. intros. zdm. Qed.

Lemma letter_bytes_nibbles e : Forall is_byte e -> letter_bytes (concat (map nibble_letters e)) = e.
Proof.
  unfold is_byte. induction 1 as [|b e Hb _ IH]; [done|]. cbn [map concat nibble_letters app letter_bytes].
  rewrite IH. f_equal. zdm.
Qed.

Lemma toy_words_ok e :
  length e = 32%nat -> Forall is_byte e ->
  length (toy_words e) = 24%nat /\ Forall (fun w => w <> [] /\ forallb is_letter w = true) (toy_words e).
Proof.
  intros Hl He. unfold toy_words. rewrite length_app, length_map, length_take, Hl. split; [done|].
  assert (Hw : forall bs, Forall is_byte bs -> forallb is_letter (concat (map nibble_letters bs)) = true).
  { induction 1 as [|b bs Hb _ IH]; [done|]. cbn [map concat]. by rewrite forallb_app, nibble_letters_ok. }
  apply Forall_app. split.
  - apply Forall_map. eapply Forall_impl; [by apply Forall_take|]. intros b Hb. split; [done|by apply nibble_letters_ok].
  - constructor; [|done]. split; [|by apply Hw, Forall_drop].
    do 24 (destruct e as [|? e]; [done|]). done.
Qed.

Lemma toy_laws : @CryptoLaws toy_crypto.
Proof.
  split; simpl.
  - intros. unfold toy_seal. rewrite !Forall_app. auto using framed_bytes.
  - intros. unfold toy_seal, framed. rewrite !length_app, !length_replicate. lia.
  - intros. by apply toy_open_seal.
  - intros. by apply toy_open_other.
  - intros k n a c p H. by apply bytes_only_Some in H as [_ ?].
  - intros pass salt k [= <-]. apply toy_key_ok.
  - intros. apply toy_key_ok.
  - intros e Hl He. exists (toy_words e). by destruct (toy_words_ok e Hl He).
  - intros e Hl He. destruct (toy_words_ok e Hl He) as [Hn Hw].
    unfold toy_entropy.
    rewrite words_join by (eapply Forall_impl; [exact Hw|]; intros w []; auto using is_letter_nonwhite).
    rewrite Hn. cbn [Nat.eqb]. f_equal. unfold toy_words. rewrite concat_app. cbn [concat]. rewrite app_nil_r.
    rewrite <- concat_app, <- map_app, take_drop, letter_bytes_nibbles by done. by apply toy_key_id.
  - intros s e _ H. destruct (Nat.eqb_spec (length (words s)) 24) as [->|]; [|done].
    injection H as <-. unfold toy_entropy. by rewrite (proj1 (toy_key_ok _)).
  - apply toy_key_ok.
  - intros. apply toy_key_ok.
  - intros. destruct (toy_key_ok (k ++ m)). rewrite length_take. split; [lia|by apply Forall_take].
  - apply toy_key_ok.
  - intros sk rnd p a w Hp H. change (bytes_only (Some (toy_seal sk rnd a p)) = Some w) in H.
    apply bytes_only_Some in H as [[= <-] _]. by apply toy_open_seal.
  - intros sk rnd p a a' w Hn H. change (bytes_only (Some (toy_seal sk rnd a p)) = Some w) in H.
    apply bytes_only_Some in H as [[= <-] _]. apply toy_open_other. by right.
  - intros pk rnd p a w H. change (bytes_only (Some (toy_seal pk rnd a p)) = Some w) in H.
    by apply bytes_only_Some in H as [_ ?].
  - intros sk w a p H. by apply bytes_only_Some in H as [_ ?].
  - done.
  - done.
  - intros. apply toy_key_ok.
  - intros. apply toy_key_ok.
  - intros. destruct (toy_key_ok seed), (toy_key_ok m). rewrite length_app, Forall_app. split; [lia|done].
  - intros. by apply bool_decide_eq_true_2.
Qed.
