(* ===== verification/MessageCrypto.v ===== *)
(** * Message, draft, contact and attachment envelopes

    webmail/src/message_crypto.ts (all of it) and the two encryption functions of
    webmail/src/attachment_crypto.ts.  Everything goes through the hex boundary of
    the crypto core ([Wasm]).  The theorems are the round trips, the separation of
    drafts, contacts and mailboxes, the binding of a message to its mailbox,
    sequence number and version, and that no unlock path returns anything but a
    32-byte key. *)

From S2P Require Import Prelude JsString Encoding Json Wasm.

(** The 64 hex digits that stand for a key: [/^[0-9a-fA-F]{64}$/]. *)
Definition is_hex64 (s : jstr) : bool := (length s =? 64)%nat && forallb is_hex s.

Definition DRAFT_AAD_PREFIX : jstr := js "byos-draft-v1".
Definition CONTACT_AAD_PREFIX : jstr := js "byos-contact-v1".

Record MessageDecryptInput := {
  message_seq : option Z;  (** [None]: not an integer *)
  encryption_version : Z;
  encrypted_body : jstr;
  content_key_hpke_wrapped : jstr;
}.

Record ContactPlaintext := { name : jstr; email : jstr; notes : jstr }.

Definition contact_json (c : ContactPlaintext) : json :=
  JObj [(js "name", JStr (name c)); (js "email", JStr (email c)); (js "notes", JStr (notes c))].

Section MessageCrypto.
Context `{Crypto} `{Unicode}.

Definition mailboxIdHex (mailboxId : jstr) : outcome jstr :=
  let hex := toLowerCase (remove_units (Z.eqb 45) mailboxId) in
  if (length hex =? 32)%nat && forallb is_lower_hex hex then Ok hex
  else throw "Invalid mailbox ID".

(** ** Unlocking *)

Definition unlockMailboxKey (mnemonic mailboxId mailboxSkWrappedB64 : jstr) : outcome bytes :=
  let words := trim mnemonic in
  if negb (truthy words) then throw "Recovery phrase is required to unlock the mailbox."
  else if is_hex64 words then hexToBytes words
  else
    rootHex ← wasm_recover_root_secret words;
    wrapped ← base64ToBytes mailboxSkWrappedB64;
    idHex ← mailboxIdHex mailboxId;
    skHex ← wasm_unwrap_mailbox_key rootHex (bytesToHex wrapped) idHex;
    sk ← hexToBytes skHex;
    if negb (length sk =? 32)%nat then throw "Mailbox key unwrap failed." else Ok sk.

(** The salt and envelope of a wrapped key: a JSON object, [salt:envelope], or
    the salt followed by the envelope. *)
Definition parse_wrapped_sk (trimmed : jstr) : outcome (json * json) :=
  if starts_with (js "{") trimmed then
    try_catch
      (parsed ← JSON_parse trimmed;
       Ok (first_truthy parsed [js "salt"; js "salt_hex"],
           first_truthy parsed [js "envelope"; js "envelope_hex"]))
      (fun _ => throw "Invalid wrapped_sk_user JSON payload")
  else if includes trimmed (js ":") then
    let parts := split_on 58 trimmed in
    Ok (JStr (default [] (parts !! 0%nat)), JStr (default [] (parts !! 1%nat)))
  else if (32 <=? length trimmed)%nat then
    Ok (JStr (take 32 trimmed), JStr (drop 32 trimmed))
  else throw "Invalid wrapped_sk_user format".

Definition autoUnwrapMailboxKey (password wrappedSkUser : jstr) : outcome bytes :=
  let trimmed := trim wrappedSkUser in
  if negb (truthy trimmed) then throw "Missing wrapped_sk_user"
  else
    '(saltHex, envelopeHex) ← parse_wrapped_sk trimmed;
    if negb (length_is saltHex 32) then
      throw "Invalid salt length: must be 16 bytes (32 hex characters)"
    else
      saltHex ← wasm_arg saltHex;
      envelopeHex ← wasm_arg envelopeHex;
      skHex ← wasm_passphrase_unwrap_key password saltHex envelopeHex;
      sk ← hexToBytes skHex;
      if negb (length sk =? 32)%nat then throw "Unwrapped mailbox key is invalid length" else Ok sk.

Definition unwrapMailboxKeyWithRecoveryPhrase (mnemonicPhrase mailboxId wrappedSkUser : jstr)
    : outcome bytes :=
  let trimmed := trim wrappedSkUser in
  if negb (truthy trimmed) then throw "Missing wrapped mailbox key"
  else
    rootHex ← wasm_recover_root_secret (trim mnemonicPhrase);
    boxIdHex ← mailboxIdHex mailboxId;
    let targetEnvelopeHex :=
      if starts_with (js "{") trimmed then
        match JSON_parse trimmed with
        | Ok parsed =>
            match get parsed (js "root_wrapped") with
            | Some w => if json_truthy w then w else JStr trimmed
            | None => JStr trimmed
            end
        | Throw _ => JStr trimmed
        end
      else JStr trimmed in
    target ← wasm_arg targetEnvelopeHex;
    skHex ← wasm_unwrap_mailbox_key rootHex target boxIdHex;
    sk ← hexToBytes skHex;
    if negb (length sk =? 32)%nat then throw "Unwrapped mailbox key is invalid length" else Ok sk.

(** [salt] is what [crypto.getRandomValues] wrote. *)
Definition wrapMailboxKeyWithPassphrase (salt nonce : bytes) (password : jstr) (mailboxSk : bytes)
    : outcome jstr :=
  let saltHex := bytesToHex salt in
  let skHex := bytesToHex mailboxSk in
  envelopeHex ← wasm_passphrase_wrap_key nonce password saltHex skHex;
  Ok (saltHex ++ js ":" ++ envelopeHex).

(** ** Envelopes *)

Definition decryptMessageEnvelope (mailboxKey : bytes) (mailboxId : jstr) (input : MessageDecryptInput)
    : outcome jstr :=
  match message_seq input with
  | None => throw "Invalid message sequence."
  | Some seq =>
      if seq <? 0 then throw "Invalid message sequence."
      else
        idHex ← mailboxIdHex mailboxId;
        aad ← wasm_canonical_aad idHex seq (encryption_version input);
        wrapped ← base64ToBytes (content_key_hpke_wrapped input);
        contentKeyHex ← wasm_hpke_open (bytesToHex mailboxKey) (bytesToHex wrapped) aad;
        body ← base64ToBytes (encrypted_body input);
        plaintextHex ← wasm_aes_gcm_decrypt contentKeyHex (bytesToHex body) aad;
        plaintext ← hexToBytes plaintextHex;
        Ok (TextDecoder_decode plaintext)
  end.

Definition envelopeAadHex (mailboxId prefix : jstr) : outcome jstr :=
  let pre := TextEncoder_encode prefix in
  idHex ← mailboxIdHex mailboxId;
  mid ← hexToBytes idHex;
  Ok (bytesToHex (pre ++ mid)).

Definition draftAadHex (mailboxId : jstr) : outcome jstr := envelopeAadHex mailboxId DRAFT_AAD_PREFIX.

Definition encryptDraftEnvelope (nonce mailboxKey : bytes) (mailboxId plaintext : jstr) : outcome jstr :=
  aad ← draftAadHex mailboxId;
  envelopeHex ← wasm_aes_gcm_encrypt nonce (bytesToHex mailboxKey)
                  (bytesToHex (TextEncoder_encode plaintext)) aad;
  envelope ← hexToBytes envelopeHex;
  bytesToBase64 envelope.

Definition decryptDraftEnvelope (mailboxKey : bytes) (mailboxId envelopeB64 : jstr) : outcome jstr :=
  envelope ← base64ToBytes envelopeB64;
  aad ← draftAadHex mailboxId;
  plaintextHex ← wasm_aes_gcm_decrypt (bytesToHex mailboxKey) (bytesToHex envelope) aad;
  plaintext ← hexToBytes plaintextHex;
  Ok (TextDecoder_decode plaintext).

Definition encryptContactEnvelope (nonce mailboxKey : bytes) (mailboxId : jstr)
    (contact : ContactPlaintext) : outcome jstr :=
  aad ← envelopeAadHex mailboxId CONTACT_AAD_PREFIX;
  envelopeHex ← wasm_aes_gcm_encrypt nonce (bytesToHex mailboxKey)
                  (bytesToHex (TextEncoder_encode (JSON_stringify (contact_json contact)))) aad;
  envelope ← hexToBytes envelopeHex;
  bytesToBase64 envelope.

(** [typeof parsed.p === "string" ? parsed.p : ""]; reading a property of
    [null] throws. *)
Definition decryptContactEnvelope (mailboxKey : bytes) (mailboxId envelopeB64 : jstr)
    : outcome ContactPlaintext :=
  envelope ← base64ToBytes envelopeB64;
  aad ← envelopeAadHex mailboxId CONTACT_AAD_PREFIX;
  plaintextHex ← wasm_aes_gcm_decrypt (bytesToHex mailboxKey) (bytesToHex envelope) aad;
  plaintext ← hexToBytes plaintextHex;
  parsed ← JSON_parse (TextDecoder_decode plaintext);
  match parsed with
  | JNull => throw "TypeError"
  | _ =>
      Ok {| name := default [] (get_str parsed (js "name"));
            email := default [] (get_str parsed (js "email"));
            notes := default [] (get_str parsed (js "notes")) |}
  end.

(** ** Attachments *)

Definition encryptAttachmentBytes (nonce plaintextBytes keyBytes aadBytes : bytes) : outcome bytes :=
  if negb (length keyBytes =? 32)%nat then throw "Mailbox encryption key must be exactly 32 bytes"
  else
    envelopeHex ← wasm_aes_gcm_encrypt nonce (bytesToHex keyBytes) (bytesToHex plaintextBytes)
                    (bytesToHex aadBytes);
    hexToBytes envelopeHex.

Definition decryptAttachmentBytes (envelopeBytes keyBytes aadBytes : bytes) : outcome bytes :=
  if negb (length keyBytes =? 32)%nat then throw "Mailbox encryption key must be exactly 32 bytes"
  else
    plaintextHex ← wasm_aes_gcm_decrypt (bytesToHex keyBytes) (bytesToHex envelopeBytes)
                     (bytesToHex aadBytes);
    hexToBytes plaintextHex.

(** ** Search *)

Definition deriveSearchKeyFromMnemonic (mnemonic : jstr) : outcome jstr :=
  let words := trim mnemonic in
  if is_hex64 words then wasm_derive_search_key words
  else rootHex ← wasm_recover_root_secret words; wasm_derive_search_key rootHex.

(** [importKey] rejects an empty HMAC key. *)
Definition computeSearchToken (searchKeyHex term : jstr) : outcome jstr :=
  let normalized := toLowerCase (trim term) in
  if negb (truthy normalized) then Ok []
  else
    keyBytes ← hexToBytes searchKeyHex;
    if negb (truthy keyBytes) then throw "DataError"
    else Ok (bytesToHex (hmac_sha256 keyBytes (TextEncoder_encode normalized))).

(** [s.replace(/[^\p{L}\p{N}\s]/gu, " ")] *)
Definition keep_letters (s : jstr) : jstr :=
  concat (map (fun c => if is_letter_or_number c || is_white c then units_of c else [32])
            (raw_code_points s)).

Definition extractKeywords (text : jstr) : list jstr :=
  uniq (List.filter (fun w => (2 <=? length w)%nat && (length w <=? 64)%nat)
          (map trim (split_white (keep_letters (toLowerCase text))))).

End MessageCrypto.

(** ** The hex boundary *)

Definition key_ok (k : bytes) : Prop := length k = 32%nat /\ Forall is_byte k.
Definition nonce_ok (n : bytes) : Prop := length n = 12%nat /\ Forall is_byte n.

Lemma lower_hex_is_hex u : is_lower_hex u = true -> is_hex u = true /\ ascii_lower u = u.
Proof.
  intros H. assert (Hb : is_byte u) by (unfold is_lower_hex, is_byte in *; lia).
  pose proof (byte_check (fun u => implb (is_lower_hex u) (is_hex u && (ascii_lower u =? u)))
    ltac:(vm_compute; reflexivity) u Hb) as Hc.
  simpl in Hc. rewrite H in Hc. simpl in Hc. by zbool.
Qed.

(** A string of lower-case digit pairs is the encoding of its bytes. *)
Lemma lower_hex_encodes s :
  forallb is_lower_hex s = true -> Z.of_nat (length s) mod 2 = 0 -> bytesToHex (hex_pairs s) = s.
Proof.
  intros Hl He. rewrite hex_pairs_lower; [| |done].
  - clear He. induction s as [|u s IH]; [done|]. simpl in *.
    apply andb_true_iff in Hl as [Hu Hs]. f_equal; [by apply lower_hex_is_hex|auto].
  - eapply forallb_impl, Hl. intros u Hu. by apply lower_hex_is_hex.
Qed.

Section Facts.
Context `{HC : Crypto} `{!CryptoLaws} `{HU : Unicode}.

(** [mailboxId] names the 16-byte identifier [id]. *)
Definition box_id (mailboxId : jstr) (id : bytes) : Prop :=
  mailboxIdHex mailboxId = Ok (bytesToHex id) /\ length id = 16%nat /\ Forall is_byte id.

Lemma mailboxIdHex_ok box h : mailboxIdHex box = Ok h -> exists id, box_id box id /\ h = bytesToHex id.
Proof.
  unfold box_id. intros E. pose proof E as E'. unfold mailboxIdHex in E.
  destruct (_ && _) eqn:Hc in E; [|done]. injection E as <-.
  apply andb_true_iff in Hc as [Hlen%Nat.eqb_eq Hl]. set (h := toLowerCase _) in *.
  assert (He : Z.of_nat (length h) mod 2 = 0) by by rewrite Hlen.
  exists (hex_pairs h). rewrite lower_hex_encodes by done.
  split_and!; [done| |apply hex_pairs_bytes|done].
  pose proof (length_hex_pairs h He) as Hp. rewrite Hlen in Hp.
  change (Z.of_nat 32 / 2) with 16 in Hp. lia.
Qed.

Lemma box_id_inj box id id' : box_id box id -> box_id box id' -> id = id'.
Proof.
  intros (E & _ & Hb) (E' & _ & Hb'). rewrite E in E'. injection E' as E'. by apply bytesToHex_inj.
Qed.

Lemma mailbox_hex_bytes box id : box_id box id -> hexToBytes (bytesToHex id) = Ok id.
Proof. intros (_ & _ & ?). by apply hex_round_trip. Qed.

Lemma prefix_bytes : Forall is_byte DRAFT_AAD_PREFIX /\ Forall is_byte CONTACT_AAD_PREFIX.
Proof. split; by_decide. Qed.

Lemma envelopeAadHex_ok box id prefix :
  box_id box id -> envelopeAadHex box prefix = Ok (bytesToHex (TextEncoder_encode prefix ++ id)).
Proof.
  intros Hid. unfold envelopeAadHex. rewrite (proj1 Hid). ok_bind.
  by rewrite (mailbox_hex_bytes box id).
Qed.

(** Encrypting through the boundary produces the envelope; decrypting opens it. *)
Lemma wasm_encrypt_ok nonce k p aad :
  key_ok k -> Forall is_byte p -> Forall is_byte aad ->
  wasm_aes_gcm_encrypt nonce (bytesToHex k) (bytesToHex p) (bytesToHex aad) =
  Ok (bytesToHex (aes_gcm_encrypt k nonce p aad)).
Proof.
  intros [] ? ?. unfold wasm_aes_gcm_encrypt.
  rewrite hex_decode_32_encode by done. ok_bind. rewrite !hex_decode_encode by done. done.
Qed.

Lemma wasm_decrypt_ok k env aad :
  key_ok k -> Forall is_byte env -> Forall is_byte aad ->
  wasm_aes_gcm_decrypt (bytesToHex k) (bytesToHex env) (bytesToHex aad) =
  (p ← aes_gcm_decrypt k env aad; Ok (bytesToHex p)).
Proof.
  intros [] ? ?. unfold wasm_aes_gcm_decrypt.
  rewrite hex_decode_32_encode by done. ok_bind. rewrite !hex_decode_encode by done. done.
Qed.

Lemma base64_encode_ok bs :
  Forall is_byte bs -> exists e, bytesToBase64 bs = Ok e /\ base64ToBytes e = Ok bs.
Proof.
  intros Hb. pose proof (base64_round_trip bs Hb) as E. rewrite bytesToBase64_unchunked in * by done.
  eauto.
Qed.

(** One statement for drafts and contacts: sealing a text under an AAD prefix,
    and what every attempt to open the stored base64 gives. *)
Definition seal (prefix : jstr) (nonce k : bytes) (box : jstr) (p : bytes) : outcome jstr :=
  aad ← envelopeAadHex box prefix;
  envelopeHex ← wasm_aes_gcm_encrypt nonce (bytesToHex k) (bytesToHex p) aad;
  envelope ← hexToBytes envelopeHex;
  bytesToBase64 envelope.

Definition open (prefix : jstr) (k : bytes) (box env : jstr) : outcome bytes :=
  envelope ← base64ToBytes env;
  aad ← envelopeAadHex box prefix;
  plaintextHex ← wasm_aes_gcm_decrypt (bytesToHex k) (bytesToHex envelope) aad;
  hexToBytes plaintextHex.

Lemma seal_ok prefix nonce k box id p :
  key_ok k -> nonce_ok nonce -> box_id box id -> Forall is_unit prefix -> Forall is_byte p ->
  let sealed := aes_gcm_encrypt k nonce p (TextEncoder_encode prefix ++ id) in
  exists env, seal prefix nonce k box p = Ok env /\ base64ToBytes env = Ok sealed /\ Forall is_byte sealed.
Proof.
  intros [Hk Hkb] [Hn Hnb] Hid Hpre Hp sealed.
  assert (Ha : Forall is_byte (TextEncoder_encode prefix ++ id)).
  { apply Forall_app. destruct Hid as (_ & _ & ?). auto using TextEncoder_bytes. }
  assert (Hb : Forall is_byte sealed) by by apply envelope_bytes.
  destruct (base64_encode_ok sealed Hb) as (env & E & D). exists env.
  split; [|done]. unfold seal. rewrite (envelopeAadHex_ok box id) by done. ok_bind.
  rewrite wasm_encrypt_ok by done. ok_bind. fold sealed. by rewrite hex_round_trip.
Qed.

Lemma open_ok prefix k box id env sealed :
  key_ok k -> box_id box id -> Forall is_unit prefix ->
  base64ToBytes env = Ok sealed -> Forall is_byte sealed ->
  open prefix k box env = aes_gcm_decrypt k sealed (TextEncoder_encode prefix ++ id).
Proof.
  intros Hk Hid Hpre E Hs. unfold open. rewrite E. ok_bind.
  rewrite (envelopeAadHex_ok box id) by done. ok_bind. rewrite wasm_decrypt_ok; [|done..|].
  2:{ apply Forall_app. destruct Hid as (_ & _ & ?). auto using TextEncoder_bytes. }
  destruct (aes_gcm_decrypt _ _ _) eqn:Ed; [|done]. ok_bind.
  by rewrite hex_round_trip by eauto using aes_gcm_decrypt_bytes.
Qed.

Lemma decryptDraft_open k box env :
  decryptDraftEnvelope k box env = (p ← open DRAFT_AAD_PREFIX k box env; Ok (TextDecoder_decode p)).
Proof. unfold decryptDraftEnvelope, open, draftAadHex. by bind_cases. Qed.

Lemma decryptContact_open k box env :
  decryptContactEnvelope k box env =
  (p ← open CONTACT_AAD_PREFIX k box env;
   parsed ← JSON_parse (TextDecoder_decode p);
   match parsed with
   | JNull => throw "TypeError"
   | _ =>
       Ok {| name := default [] (get_str parsed (js "name"));
             email := default [] (get_str parsed (js "email"));
             notes := default [] (get_str parsed (js "notes")) |}
   end).
Proof. unfold decryptContactEnvelope, open. by bind_cases. Qed.

Lemma aad_units : Forall is_unit DRAFT_AAD_PREFIX /\ Forall is_unit CONTACT_AAD_PREFIX.
Proof. split; by_decide. Qed.

(** Any difference in key, mailbox or domain makes opening fail. *)
Lemma open_other prefix prefix' k k' n box box' id id' p env :
  key_ok k -> key_ok k' -> nonce_ok n -> box_id box id -> box_id box' id' ->
  Forall is_unit prefix -> Forall is_unit prefix' -> Forall is_byte p ->
  k <> k' \/ TextEncoder_encode prefix ++ id <> TextEncoder_encode prefix' ++ id' ->
  seal prefix n k box p = Ok env ->
  open prefix' k' box' env = reject "decryption failed".
Proof.
  intros Hk Hk' Hn Hid Hid' Hp Hp' Hb Hne E.
  destruct (seal_ok prefix n k box id p) as (env' & E' & D & Hs); try done.
  rewrite E in E'. injection E' as <-.
  rewrite (open_ok prefix' k' box' id' env _ Hk' Hid' Hp' D Hs).
  apply aes_gcm_other; [apply Hn|done].
Qed.

Lemma open_same prefix k n box id p env :
  key_ok k -> nonce_ok n -> box_id box id -> Forall is_unit prefix -> Forall is_byte p ->
  seal prefix n k box p = Ok env -> open prefix k box env = Ok p.
Proof.
  intros Hk Hn Hid Hp Hb E.
  destruct (seal_ok prefix n k box id p) as (env' & E' & D & Hs); try done.
  rewrite E in E'. injection E' as <-.
  rewrite (open_ok prefix k box id env _ Hk Hid Hp D Hs).
  apply aes_gcm_round_trip; [apply Hn|done].
Qed.

Lemma domains_differ id id' :
  length id = 16%nat -> length id' = 16%nat ->
  TextEncoder_encode DRAFT_AAD_PREFIX ++ id <> TextEncoder_encode CONTACT_AAD_PREFIX ++ id'.
Proof.
  intros Hl Hl' E%(f_equal length). rewrite !length_app, Hl, Hl' in E.
  vm_compute in E. discriminate.
Qed.

Lemma wf_contact c :
  Forall is_unit (name c) -> Forall is_unit (email c) -> Forall is_unit (notes c) ->
  wf (contact_json c) = true.
Proof.
  intros. unfold contact_json. cbn [wf forallb fst snd].
  rewrite !bool_decide_eq_true_2 by (done || by_decide). done.
Qed.

Lemma get_str_contact c :
  get_str (contact_json c) (js "name") = Some (name c) /\
  get_str (contact_json c) (js "email") = Some (email c) /\
  get_str (contact_json c) (js "notes") = Some (notes c).
Proof. done. Qed.

Lemma contact_bytes c :
  Forall is_unit (name c) -> Forall is_unit (email c) -> Forall is_unit (notes c) ->
  Forall is_byte (TextEncoder_encode (JSON_stringify (contact_json c))).
Proof. intros. apply TextEncoder_bytes. by apply stringify_clean, wf_contact. Qed.

(** ** Keys wrapped under a passphrase *)

Lemma salt_parts salt env :
  Forall is_byte salt -> forallb is_lower_hex env = true ->
  let w := bytesToHex salt ++ js ":" ++ env in
  trim w = w /\ starts_with (js "{") w = false /\ includes w (js ":") = true /\
  split_on 58 w = [bytesToHex salt; env].
Proof.
  intros Hs%bytesToHex_lower He. set (h := bytesToHex salt) in *. clearbody h. intros w.
  assert (Hsplit : forall t, forallb is_lower_hex t = true -> split_on 58 t = [t]).
  { induction t as [|u t IH]; [done|]. simpl. intros [Hu Ht]%andb_true_iff. rewrite IH by done.
    replace (u =? 58) with false; [done|]. unfold is_lower_hex in Hu. lia. }
  split_and!.
  - apply trim_id. unfold w. rewrite !forallb_app.
    rewrite (forallb_impl is_lower_hex _ h), (forallb_impl is_lower_hex _ env); auto using lower_hex_not_white.
  - unfold w. destruct h as [|u h]; [done|]. change (js "{") with [123]. cbn [app starts_with].
    simpl in Hs. apply andb_true_iff in Hs as [Hu _]. unfold is_lower_hex in Hu.
    by rewrite (proj2 (Z.eqb_neq 123 u)) by lia.
  - unfold w. clear. induction h as [|u h IH]; [by destruct env|].
    change ((u :: h) ++ js ":" ++ env) with (u :: (h ++ js ":" ++ env)).
    cbn [includes]. rewrite IH. apply orb_true_r.
  - unfold w. induction h as [|u h IH]; simpl in *; [by rewrite Hsplit|].
    apply andb_true_iff in Hs as [Hu Hs]. rewrite IH by done.
    replace (u =? 58) with false; [done|]. unfold is_lower_hex in Hu. lia.
Qed.

Lemma derive_key_ok pw salt k :
  8 <= Z.of_nat (length (TextEncoder_encode pw)) -> argon2id (TextEncoder_encode pw) salt = Some k ->
  derive_recovery_principal_key pw salt = Ok k.
Proof.
  intros Hl E. unfold derive_recovery_principal_key, RECOVERY_PASSPHRASE_MIN_LEN.
  rewrite (proj2 (Z.ltb_ge _ _) Hl). by rewrite E.
Qed.

(** What the passphrase wrap stores. *)
Lemma wrap_passphrase_ok salt n pw sk k :
  Forall is_byte salt -> length salt = 16%nat -> key_ok sk ->
  derive_recovery_principal_key pw salt = Ok k ->
  wrapMailboxKeyWithPassphrase salt n pw sk =
  Ok (bytesToHex salt ++ js ":" ++ bytesToHex (aes_gcm_encrypt k n sk RECOVERY_PRINCIPAL_AAD)).
Proof.
  intros Hs Hl [_ Hb] E. unfold wrapMailboxKeyWithPassphrase, wasm_passphrase_wrap_key.
  rewrite !hex_decode_encode by done. ok_bind. rewrite exactly_ok by done. ok_bind.
  by rewrite E.
Qed.

(** Whatever the stored form, once it parses to the salt and the envelope. *)
Lemma auto_unwrap_parsed w salt pw env k :
  trim w = w -> truthy w = true -> parse_wrapped_sk w = Ok (JStr (bytesToHex salt), JStr (bytesToHex env)) ->
  Forall is_byte salt -> length salt = 16%nat -> Forall is_byte env ->
  derive_recovery_principal_key pw salt = Ok k ->
  autoUnwrapMailboxKey pw w =
  (sk ← aes_gcm_decrypt k env RECOVERY_PRINCIPAL_AAD;
   if negb (length sk =? 32)%nat then throw "Unwrapped mailbox key is invalid length" else Ok sk).
Proof.
  intros Ht Hw Hp Hs Hl He E. unfold autoUnwrapMailboxKey. rewrite Ht, Hw, Hp. cbn [negb]. ok_bind.
  unfold length_is. rewrite length_bytesToHex, Hl by done. simpl (negb _). cbn [wasm_arg]. ok_bind.
  unfold wasm_passphrase_unwrap_key. rewrite !hex_decode_encode by done. ok_bind.
  rewrite exactly_ok by done. ok_bind. rewrite E. ok_bind.
  destruct (aes_gcm_decrypt _ _ _) eqn:Ed; [|done]. ok_bind.
  by rewrite hex_round_trip by eauto using aes_gcm_decrypt_bytes.
Qed.

Lemma auto_unwrap_ok salt pw env k :
  Forall is_byte salt -> length salt = 16%nat -> Forall is_byte env ->
  derive_recovery_principal_key pw salt = Ok k ->
  autoUnwrapMailboxKey pw (bytesToHex salt ++ js ":" ++ bytesToHex env) =
  (sk ← aes_gcm_decrypt k env RECOVERY_PRINCIPAL_AAD;
   if negb (length sk =? 32)%nat then throw "Unwrapped mailbox key is invalid length" else Ok sk).
Proof.
  intros Hs Hl He E.
  destruct (salt_parts salt (bytesToHex env)) as (Ht & Hn & Hi & Hp); [done|by apply bytesToHex_lower|].
  apply auto_unwrap_parsed with salt; try done; [by destruct (bytesToHex salt)|].
  unfold parse_wrapped_sk. by rewrite Hn, Hi, Hp.
Qed.

(** The JSON form, whatever else the object holds. *)
Lemma auto_unwrap_object ms salt pw env k :
  wf (JObj ms) = true ->
  first_truthy (JObj ms) [js "salt"; js "salt_hex"] = JStr (bytesToHex salt) ->
  first_truthy (JObj ms) [js "envelope"; js "envelope_hex"] = JStr (bytesToHex env) ->
  Forall is_byte salt -> length salt = 16%nat -> Forall is_byte env ->
  derive_recovery_principal_key pw salt = Ok k ->
  autoUnwrapMailboxKey pw (JSON_stringify (JObj ms)) =
  (sk ← aes_gcm_decrypt k env RECOVERY_PRINCIPAL_AAD;
   if negb (length sk =? 32)%nat then throw "Unwrapped mailbox key is invalid length" else Ok sk).
Proof.
  intros Hwf Hsalt Henv Hs Hl He E.
  assert (Ev : JSON_stringify (JObj ms) =
    123 :: join [44] (map (fun m => Json.quote (fst m) ++ [58] ++ stringify (snd m)) ms) ++ [125]) by done.
  apply auto_unwrap_parsed with salt; try done.
  - rewrite Ev. by apply trim_ends.
  - unfold parse_wrapped_sk.
    replace (starts_with (js "{") (JSON_stringify (JObj ms))) with true by by rewrite Ev.
    rewrite json_round_trip by done. ok_bind. cbn [try_catch]. by rewrite Hsalt, Henv.
Qed.

Lemma hex_cons bs : Forall is_byte bs -> bs <> [] -> exists u l, bytesToHex bs = u :: l.
Proof.
  intros Hb Hn. pose proof (length_bytesToHex bs Hb) as Hlen.
  destruct (bytesToHex bs) as [|u l]; [|by eauto]. destruct bs; [done|]. simpl in Hlen. lia.
Qed.

Definition wrapped_json (salt env : bytes) : json :=
  JObj [(js "salt", JStr (bytesToHex salt)); (js "envelope", JStr (bytesToHex env))].

Lemma auto_unwrap_json salt pw env k :
  Forall is_byte salt -> length salt = 16%nat -> Forall is_byte env -> env <> [] ->
  derive_recovery_principal_key pw salt = Ok k ->
  autoUnwrapMailboxKey pw (JSON_stringify (wrapped_json salt env)) =
  (sk ← aes_gcm_decrypt k env RECOVERY_PRINCIPAL_AAD;
   if negb (length sk =? 32)%nat then throw "Unwrapped mailbox key is invalid length" else Ok sk).
Proof.
  intros Hs Hl He Hne E. destruct (hex_cons salt) as (u1 & l1 & E1); [done|by destruct salt|].
  destruct (hex_cons env) as (u2 & l2 & E2); [done..|]. apply auto_unwrap_object with salt; try done.
  - cbn [wf forallb fst snd]. rewrite !bool_decide_eq_true_2 by (auto using hex_units || by_decide). done.
  - by rewrite E1.
  - by rewrite E2.
Qed.

(** ** Inbound messages *)

(** The envelope the server stores for a message: the content key sealed to the
    mailbox's public key and the body under the content key, both bound to the
    canonical associated data. *)
Definition sealed_message (sk id rnd nonce ck body : bytes) (seq ver : Z) (input : MessageDecryptInput)
    : Prop :=
  exists w, hpke_seal (x25519_pk sk) rnd ck (canonical_aad id seq ver) = Some w /\
  base64ToBytes (content_key_hpke_wrapped input) = Ok w /\
  base64ToBytes (encrypted_body input) = Ok (aes_gcm_encrypt ck nonce body (canonical_aad id seq ver)).

Lemma canonical_aad_bytes id seq ver : Forall is_byte id -> Forall is_byte (canonical_aad id seq ver).
Proof.
  intros. unfold canonical_aad. repeat apply Forall_app_2; auto using be_bytes_bytes.
  repeat constructor; by unfold AAD_VERSION.
Qed.

Lemma wasm_canonical_aad_ok id seq ver :
  length id = 16%nat -> Forall is_byte id -> 0 <= seq < 2 ^ 64 -> 0 <= ver < 2 ^ 32 ->
  wasm_canonical_aad (bytesToHex id) seq ver = Ok (bytesToHex (canonical_aad id seq ver)).
Proof.
  intros. unfold wasm_canonical_aad. rewrite decode_mailbox_id_encode by done. ok_bind.
  by rewrite !Z.mod_small.
Qed.

(** Opening the content key; the rest is the symmetric envelope. *)
Lemma decryptMessage_steps sk box id seq w input :
  key_ok sk -> box_id box id -> 0 <= seq < 2 ^ 64 -> 0 <= encryption_version input < 2 ^ 32 ->
  message_seq input = Some seq ->
  base64ToBytes (content_key_hpke_wrapped input) = Ok w -> Forall is_byte w ->
  decryptMessageEnvelope sk box input =
  let aad := canonical_aad id seq (encryption_version input) in
  contentKeyHex ← (match hpke_open sk w aad with
                   | Some p => Ok (bytesToHex p) | None => reject "invalid HPKE operation" end);
  body ← base64ToBytes (encrypted_body input);
  plaintextHex ← wasm_aes_gcm_decrypt contentKeyHex (bytesToHex body) (bytesToHex aad);
  plaintext ← hexToBytes plaintextHex;
  Ok (TextDecoder_decode plaintext).
Proof.
  intros [Hk Hkb] (Hid & Hl & Hb) Hseq Hver Es Ew Hw. unfold decryptMessageEnvelope.
  rewrite Es, (proj2 (Z.ltb_ge seq 0)) by lia. rewrite Hid. ok_bind.
  rewrite wasm_canonical_aad_ok by done. ok_bind. rewrite Ew. ok_bind.
  unfold wasm_hpke_open. rewrite hex_decode_32_encode by done. ok_bind.
  rewrite !hex_decode_encode by auto using canonical_aad_bytes. done.
Qed.

Lemma open_message sk box id rnd nonce ck body seq input :
  key_ok sk -> key_ok ck -> nonce_ok nonce -> box_id box id -> Forall is_byte body ->
  0 <= seq < 2 ^ 64 -> 0 <= encryption_version input < 2 ^ 32 -> message_seq input = Some seq ->
  sealed_message sk id rnd nonce ck body seq (encryption_version input) input ->
  decryptMessageEnvelope sk box input = Ok (TextDecoder_decode body).
Proof.
  intros Hsk Hck [Hn Hnb] Hid Hb Hseq Hver Es (w & Ew & Dw & Db).
  pose proof Hid as (_ & _ & Hidb). destruct Hck as [Hck Hckb].
  rewrite (decryptMessage_steps sk box id seq w) by eauto using hpke_seal_bytes. ok_bind.
  rewrite (hpke_correct sk rnd ck _ w) by done. ok_bind. rewrite Db. ok_bind.
  rewrite wasm_decrypt_ok; [|done|by apply envelope_bytes; auto using canonical_aad_bytes|
    by apply canonical_aad_bytes].
  rewrite aes_gcm_round_trip by done. ok_bind. by rewrite hex_round_trip.
Qed.

(** A message presented under another mailbox, sequence number or version. *)
Lemma open_message_elsewhere sk box id id' rnd nonce ck body seq seq' ver input :
  key_ok sk -> box_id box id' -> length id = 16%nat ->
  0 <= seq < 2 ^ 64 -> 0 <= seq' < 2 ^ 64 -> 0 <= ver < 2 ^ 32 ->
  0 <= encryption_version input < 2 ^ 32 -> message_seq input = Some seq' ->
  sealed_message sk id rnd nonce ck body seq ver input ->
  (id, seq, ver) <> (id', seq', encryption_version input) ->
  decryptMessageEnvelope sk box input = reject "invalid HPKE operation".
Proof.
  intros Hsk Hid Hl Hs Hs' Hv Hv' Es (w & Ew & Dw & Db) Hne.
  rewrite (decryptMessage_steps sk box id' seq' w) by eauto using hpke_seal_bytes. ok_bind.
  rewrite (hpke_binds_aad sk rnd ck (canonical_aad id seq ver) _ w); [done| |done].
  intros E. apply canonical_aad_inj in E as (-> & -> & ->); [done|done|apply Hid|done..].
Qed.

(** ** Keys wrapped under the recovery phrase *)

Lemma unwrap_mailbox_key_ok root nonce sk id id' :
  key_ok sk -> nonce_ok nonce -> length id = 16%nat -> length id' = 16%nat ->
  unwrap_mailbox_key root (wrap_mailbox_key root nonce sk id) id' =
  if decide (id = id') then Ok sk else reject "decryption failed".
Proof.
  intros [Hk Hkb] [Hn Hnb] Hl Hl'. unfold unwrap_mailbox_key, wrap_mailbox_key.
  case_decide as Hd.
  - subst. rewrite aes_gcm_round_trip by done. ok_bind. by rewrite decide_True.
  - rewrite aes_gcm_other; [done|done|]. right. intros E. apply Hd.
    unfold mailbox_key_aad in E. by apply app_inj_1 in E as [-> _]; [|congruence].
Qed.

Lemma wrap_key_bytes root nonce sk id :
  key_ok root -> nonce_ok nonce -> key_ok sk -> Forall is_byte id ->
  Forall is_byte (wrap_mailbox_key root nonce sk id).
Proof.
  intros [] [] [] ?. apply envelope_bytes; [done..|]. unfold mailbox_key_aad.
  apply Forall_app. split; [done|by_decide].
Qed.

Lemma wasm_unwrap_ok root w box id :
  key_ok root -> Forall is_byte w -> box_id box id ->
  wasm_unwrap_mailbox_key (bytesToHex root) (bytesToHex w) (bytesToHex id) =
  (k ← unwrap_mailbox_key root w id; Ok (bytesToHex k)).
Proof.
  intros [] ? (_ & ? & ?). unfold wasm_unwrap_mailbox_key.
  rewrite hex_decode_32_encode by done. ok_bind. rewrite hex_decode_encode by done. ok_bind.
  by rewrite decode_mailbox_id_encode.
Qed.

(** A fresh pair, as the code reads it. *)
Lemma keypair_fields sk :
  Forall is_byte sk ->
  exists kp, JSON_parse (wasm_generate_keypair sk) = Ok kp /\
    str_field kp "secret_key" = bytesToHex sk /\ str_field kp "public_key" = bytesToHex (x25519_pk sk).
Proof.
  intros Hsk. eexists. split; [apply json_round_trip|done].
  cbn [wf forallb fst snd]. pose proof (x25519_pk_bytes sk Hsk).
  unfold hex_encode. rewrite !bool_decide_eq_true_2 by (auto using hex_units || by_decide). done.
Qed.

Lemma passphrase_wrap_ok pw salt n sk k :
  Forall is_byte salt -> length salt = 16%nat -> Forall is_byte sk ->
  derive_recovery_principal_key pw salt = Ok k ->
  wasm_passphrase_wrap_key n pw (bytesToHex salt) (bytesToHex sk) =
  Ok (bytesToHex (aes_gcm_encrypt k n sk RECOVERY_PRINCIPAL_AAD)).
Proof.
  intros Hs Hl Hsk Hd. unfold wasm_passphrase_wrap_key. rewrite !hex_decode_encode by done. ok_bind.
  rewrite exactly_ok by done. ok_bind. by rewrite Hd.
Qed.

Lemma recover_root_ok mnemonic e :
  bip39_entropy mnemonic = Some e -> length e = 32%nat ->
  wasm_recover_root_secret mnemonic = Ok (bytesToHex (hkdf_root e)) /\ key_ok (hkdf_root e).
Proof.
  intros E Hl. unfold wasm_recover_root_secret. rewrite E, decide_True by done.
  split; [done|]. apply hkdf_root_key.
Qed.

Lemma hex_envelope_target w :
  Forall is_byte w -> w <> [] ->
  let s := bytesToHex w in trim s = s /\ truthy s = true /\ starts_with (js "{") s = false.
Proof.
  intros Hw Hne s. pose proof (bytesToHex_lower w Hw) as Hl. split; [by apply trim_lower_hex|].
  pose proof (length_bytesToHex w Hw) as Hlen. fold s in Hl, Hlen.
  destruct s as [|u s]; [destruct w; [done|simpl in Hlen; lia]|]. split; [done|].
  change (js "{") with [123]. cbn [starts_with]. simpl in Hl. apply andb_true_iff in Hl as [Hu _].
  unfold is_lower_hex in Hu. by rewrite (proj2 (Z.eqb_neq 123 u)) by lia.
Qed.

End Facts.

(** ** Recovery phrases *)

Section Phrases.
Context `{CryptoLaws}.

Lemma mnemonic_words e :
  key_ok e -> exists ws, wasm_generate_mnemonic e = Ok (join [32] ws) /\ length ws = 24%nat /\
    Forall (fun w => w <> [] /\ forallb is_letter w = true) ws.
Proof.
  intros [Hl Hb]. destruct (bip39_words e Hl Hb) as (ws & E & ?). exists ws.
  unfold wasm_generate_mnemonic. by rewrite E.
Qed.

Lemma word_nonwhite ws :
  Forall (fun w => w <> [] /\ forallb is_letter w = true) ws ->
  Forall (fun w => w <> [] /\ forallb (fun u => negb (is_white u)) w = true) ws.
Proof. intros Hw. eapply Forall_impl; [exact Hw|]. intros w []. auto using is_letter_nonwhite. Qed.

Lemma join_letters ws :
  Forall (fun w => w <> [] /\ forallb is_letter w = true) ws ->
  forallb (fun u => is_letter u || (u =? 32)) (join [32] ws) = true.
Proof.
  assert (Hi : forall w, forallb is_letter w = true -> forallb (fun u => is_letter u || (u =? 32)) w = true).
  { intros w. apply forallb_impl. intros u ->. done. }
  induction ws as [|w ws IH]; [done|]. intros [[_ Hw] Hws]%Forall_cons.
  destruct ws as [|w' ws]; [by apply Hi|]. change (join [32] (w :: w' :: ws)) with (w ++ [32] ++ join [32] (w' :: ws)).
  rewrite !forallb_app, (Hi w Hw), IH by done. done.
Qed.

Lemma phrase_ends ws :
  Forall (fun w => w <> [] /\ forallb is_letter w = true) ws -> ws <> [] ->
  (exists u r, join [32] ws = u :: r /\ is_white u = false) /\
  (exists v r, reverse (join [32] ws) = v :: r /\ is_white v = false).
Proof.
  intros Hw Hn. induction Hw as [|w ws [Hne Hl] Hws IH]; [done|].
  assert (Hnw : forallb (fun u => negb (is_white u)) w = true) by by apply is_letter_nonwhite.
  assert (Hall : forall u, u ∈ w -> is_white u = false).
  { intros u Hu. rewrite forallb_forall in Hnw. apply negb_true_iff, Hnw, list_elem_of_In, Hu. }
  assert (Hfirst : exists u r, w = u :: r /\ is_white u = false).
  { destruct w as [|u r]; [done|]. exists u, r. split; [done|]. apply Hall. by left. }
  assert (Hlast : exists v r, reverse w = v :: r /\ is_white v = false).
  { destruct (reverse w) as [|v r] eqn:E; [by apply (f_equal length) in E; rewrite length_reverse in E; destruct w|].
    exists v, r. split; [done|]. apply Hall. rewrite <- (reverse_involutive w), E. apply elem_of_reverse. by left. }
  destruct ws as [|w' ws]; [done|]. destruct IH as [_ (v & r & Ev & Hv)]; [done|].
  change (join [32] (w :: w' :: ws)) with (w ++ [32] ++ join [32] (w' :: ws)). split.
  - destruct Hfirst as (u & r' & -> & Hu). by exists u, (r' ++ [32] ++ join [32] (w' :: ws)).
  - rewrite !reverse_app, Ev. by eexists v, _.
Qed.

(** A generated phrase is ASCII, and trimming leaves it alone. *)
Lemma phrase_text e :
  key_ok e -> trim (bip39_phrase e) = bip39_phrase e /\ forallb is_ascii (bip39_phrase e) = true.
Proof.
  intros He. destruct (mnemonic_words e He) as (ws & [= E] & Hl & Hw). rewrite E. split.
  - destruct (phrase_ends ws Hw) as [(u & r & Eu & Hu) (v & r' & Ev & Hv)]; [by destruct ws|].
    unfold trim, trim_end. rewrite Eu, trim_start_nonwhite, <- Eu, Ev, trim_start_nonwhite, <- Ev by done.
    apply reverse_involutive.
  - eapply forallb_impl, join_letters; [|done]. intros x Hx. unfold is_letter, is_ascii in *. lia.
Qed.

Lemma phrase_truthy e : key_ok e -> truthy (bip39_phrase e) = true.
Proof.
  intros He. destruct (mnemonic_words e He) as (ws & [= ->] & Hl & Hw).
  destruct (phrase_ends ws Hw) as [(u & r & -> & _) _]; [by destruct ws|done].
Qed.

(** A phrase gives its root back. *)
Lemma phrase_gives_root e :
  key_ok e -> wasm_recover_root_secret (bip39_phrase e) = Ok (bytesToHex (hkdf_root e)) /\ key_ok (hkdf_root e).
Proof. intros [Hl Hb]. apply recover_root_ok; [by apply bip39_correct|done]. Qed.

End Phrases.

(** ** Keywords *)

Section Keywords.
Context `{HU : Unicode}.

Definition keep (c : Z) : jstr := if is_letter_or_number c || is_white c then units_of c else [32].

Lemma keep_letters_concat s : keep_letters s = concat (map keep (raw_code_points s)).
Proof. done. Qed.

Lemma raw_code_points_cons u s :
  raw_code_points (u :: s) =
  if is_high u then
    match s with
    | v :: s'' =>
        if is_low v then (0x10000 + (u - 0xD800) * 0x400 + (v - 0xDC00)) :: raw_code_points s''
        else u :: raw_code_points s
    | [] => [u]
    end
  else u :: raw_code_points s.
Proof. done. Qed.

Lemma raw_code_points_range s :
  Forall is_unit s -> Forall (fun c => 0 <= c < 0x110000) (raw_code_points s).
Proof.
  unfold is_unit. induction s as [|u s IH IH'] using list_ind_tails; [done|].
  intros [Hu Hs]%Forall_cons. rewrite raw_code_points_cons. specialize (IH Hs).
  destruct (is_high u) eqn:Eh; [|constructor; [lia|done]].
  destruct s as [|v s]; [constructor; [lia|done]|].
  destruct (is_low v) eqn:El; [|constructor; [lia|done]].
  apply Forall_cons in Hs as [_ Hs]. constructor; [unfold is_high, is_low in *; lia|auto].
Qed.

Lemma is_white_small u : is_white u = true -> 0 <= u < 0xD800 \/ u = 0xFEFF.
Proof. unfold is_white. lia. Qed.

(** A kept code point is a blank or contains no blank. *)
Lemma keep_block c :
  0 <= c < 0x110000 ->
  keep c <> [] /\ (forallb (fun u => negb (is_white u)) (keep c) = true \/
                   forallb (fun u => negb (negb (is_white u))) (keep c) = true).
Proof.
  intros Hc. unfold keep, units_of. destruct (_ || _); [|split; [done|by right]].
  destruct (c <? 0x10000) eqn:E; zbool.
  - split; [done|]. simpl. destruct (is_white c); auto.
  - split; [done|]. left. simpl.
    destruct (is_white (0xD800 + _)) eqn:E1; [apply is_white_small in E1; zdm|].
    destruct (is_white (0xDC00 + _)) eqn:E2; [apply is_white_small in E2; zdm|done].
Qed.

Lemma keep_letter c :
  forallb (fun u => negb (is_white u)) (keep c) = true ->
  is_letter_or_number c = true /\ keep c = units_of c.
Proof.
  unfold keep. destruct (is_letter_or_number c); [done|].
  destruct (is_white c) eqn:Ew; [|discriminate]. cbn [orb]. unfold units_of.
  apply is_white_small in Ew as Hs. rewrite (proj2 (Z.ltb_lt c 0x10000)) by lia.
  simpl. by rewrite Ew.
Qed.

Lemma keyword_letters s w :
  Forall is_unit s -> w ∈ words (keep_letters s) ->
  exists cs, w = concat (map units_of cs) /\ Forall (fun c => is_letter_or_number c = true) cs.
Proof.
  intros Hs Hw. rewrite keep_letters_concat in Hw.
  apply runs_concat in Hw as (cs & -> & Hcs).
  2:{ eapply Forall_impl; [by apply raw_code_points_range|]. intros c. apply keep_block. }
  exists cs. induction Hcs as [|c cs [_ Hc] _ [E IH]]; [done|].
  apply keep_letter in Hc as [Hc Ek]. split; [|by constructor].
  cbn [map concat]. by rewrite E, Ek.
Qed.

Lemma elem_of_extractKeywords text w :
  w ∈ extractKeywords text <->
  w ∈ words (keep_letters (toLowerCase text)) /\ (2 <= length w <= 64)%nat.
Proof.
  unfold extractKeywords. rewrite elem_of_uniq, !list_elem_of_In, filter_In, <- !list_elem_of_In.
  rewrite list_elem_of_fmap. rewrite andb_true_iff, !Nat.leb_le.
  set (t := keep_letters _). split.
  - intros [(w' & -> & Hw') Hl]. apply elem_of_split_white in Hw' as [->|Hw']; [simpl in Hl; lia|].
    pose proof (proj2 (words_spec _ _ Hw')) as Hn. rewrite trim_id in * by done. done.
  - intros [Hw Hl]. split; [|done]. exists w. split.
    + symmetry. apply trim_id. by apply words_spec in Hw as [_ ?].
    + unfold split_white. destruct t as [|u t]; [by apply elem_of_nil in Hw|].
      rewrite !elem_of_app. auto.
Qed.

End Keywords.

(** Destruct the steps of a computation that returned. *)
Ltac invert_ok H :=
  repeat match type of H with
  | context [@mbind outcome _ _ _ _ ?m] =>
      lazymatch m with
      | context [@mbind] => fail
      | _ => let E := fresh "E" in destruct m eqn:E; cbn [mbind outcome_bind] in H; [|discriminate H]
      end
  | (if ?b then _ else _) = Ok _ =>
      let E := fresh "E" in destruct b eqn:E; try discriminate H
  end.

Lemma checked_key h k : hexToBytes h = Ok k -> negb (length k =? 32)%nat = false -> key_ok k.
Proof.
  intros E Hl%negb_false_iff%Nat.eqb_eq. pose proof (hexToBytes_total h) as Ht.
  rewrite E in Ht. split; [done|apply Ht].
Qed.

Lemma hex_not_white u : is_hex u = true -> negb (is_white u) = true.
Proof.
  intros H. pose proof (byte_check (fun u => implb (is_hex u) (negb (is_white u)))
    ltac:(vm_compute; reflexivity) u (is_hex_byte u H)) as Hc.
  simpl in Hc. by rewrite H in Hc.
Qed.

Lemma hex64_key s sk : is_hex64 s = true -> hexToBytes s = Ok sk -> key_ok sk.
Proof.
  unfold is_hex64. intros [Hl%Nat.eqb_eq Hh]%andb_true_iff E.
  pose proof (hexToBytes_total s) as Ht. rewrite E in Ht. destruct Ht as [Hb Hlen].
  rewrite trim_id in Hlen.
  2:{ eapply forallb_impl, Hh. apply hex_not_white. }
  split; [lia|done].
Qed.

(** ** Properties *)

Lemma draft_opens `{CryptoLaws} `{Unicode} (k n id : bytes) (box s : jstr) :
  key_ok k -> nonce_ok n -> box_id box id -> Forall is_unit s ->
  exists env, encryptDraftEnvelope n k box s = Ok env /\
    decryptDraftEnvelope k box env = Ok (TextDecoder_decode (TextEncoder_encode s)) /\
    (well_formed s = true -> no_bom s = true -> decryptDraftEnvelope k box env = Ok s).
Proof.
  intros Hk Hn Hid Hs. pose proof aad_units as [Hd _].
  destruct (seal_ok DRAFT_AAD_PREFIX n k box id (TextEncoder_encode s)) as (env & E & _);
    auto using TextEncoder_bytes.
  exists env. split; [exact E|]. rewrite decryptDraft_open.
  rewrite (open_same DRAFT_AAD_PREFIX k n box id (TextEncoder_encode s)) by auto using TextEncoder_bytes.
  ok_bind. split; [done|]. intros. by rewrite text_round_trip.
Qed.

(** A draft saved by the client opens again: for every 32-byte key, mailbox
    and text, encryption succeeds, and decrypting the stored base64 under the same
    key and mailbox returns the text that UTF-8 transports, which is the text
    itself when it has no lone surrogate and no leading byte-order mark. *)
Theorem draft_round_trip `{CryptoLaws} `{Unicode} (k n id : bytes) (box s : jstr) :
  key_ok k -> nonce_ok n -> box_id box id -> Forall is_unit s ->
  exists env, encryptDraftEnvelope n k box s = Ok env /\
    decryptDraftEnvelope k box env = Ok (TextDecoder_decode (TextEncoder_encode s)) /\
    (well_formed s = true -> no_bom s = true -> decryptDraftEnvelope k box env = Ok s).
Proof. apply draft_opens. Qed.

Lemma contact_opens `{CryptoLaws} `{Unicode} (k n id : bytes) (box : jstr) (c : ContactPlaintext) :
  key_ok k -> nonce_ok n -> box_id box id ->
  Forall is_unit (name c) -> Forall is_unit (email c) -> Forall is_unit (notes c) ->
  exists env, encryptContactEnvelope n k box c = Ok env /\ decryptContactEnvelope k box env = Ok c.
Proof.
  intros Hk Hn Hid Hc1 Hc2 Hc3. pose proof aad_units as [_ Hc].
  pose proof (contact_bytes c Hc1 Hc2 Hc3) as Hb.
  destruct (seal_ok CONTACT_AAD_PREFIX n k box id _ Hk Hn Hid Hc Hb) as (env & E & _).
  exists env. split; [exact E|]. rewrite decryptContact_open.
  rewrite (open_same CONTACT_AAD_PREFIX k n box id _ env Hk Hn Hid Hc Hb E). ok_bind.
  rewrite json_text_round_trip by by apply wf_contact. ok_bind. by destruct c.
Qed.

(** A contact saved by the client opens again, field for field, whatever
    code units its fields hold: JSON escapes what UTF-8 would lose. *)
Theorem contact_round_trip `{CryptoLaws} `{Unicode} (k n id : bytes) (box : jstr) (c : ContactPlaintext) :
  key_ok k -> nonce_ok n -> box_id box id ->
  Forall is_unit (name c) -> Forall is_unit (email c) -> Forall is_unit (notes c) ->
  exists env, encryptContactEnvelope n k box c = Ok env /\ decryptContactEnvelope k box env = Ok c.
Proof. intros. by eapply contact_opens. Qed.

(** A stored envelope opens only where it was made: a draft fails to
    decrypt under any other key, for any other mailbox, and as a contact; a contact
    fails likewise, and as a draft (the AAD prefix separates the two). *)
Theorem envelopes_separated `{CryptoLaws} `{Unicode}
    (k k' n id id' : bytes) (box box' s env : jstr) (c : ContactPlaintext) :
  key_ok k -> key_ok k' -> nonce_ok n -> box_id box id -> box_id box' id' ->
  Forall is_unit s -> Forall is_unit (name c) -> Forall is_unit (email c) -> Forall is_unit (notes c) ->
  (encryptDraftEnvelope n k box s = Ok env ->
     (k <> k' \/ id <> id' -> decryptDraftEnvelope k' box' env = reject "decryption failed") /\
     decryptContactEnvelope k' box' env = reject "decryption failed") /\
  (encryptContactEnvelope n k box c = Ok env ->
     (k <> k' \/ id <> id' -> decryptContactEnvelope k' box' env = reject "decryption failed") /\
     decryptDraftEnvelope k' box' env = reject "decryption failed").
Proof.
  intros Hk Hk' Hn Hid Hid' Hs Hc1 Hc2 Hc3. pose proof aad_units as [Hd Hc].
  pose proof (contact_bytes c Hc1 Hc2 Hc3) as Hb. pose proof (TextEncoder_bytes s Hs) as Hb'.
  assert (Hids : forall p, k <> k' \/ id <> id' ->
    k <> k' \/ TextEncoder_encode p ++ id <> TextEncoder_encode p ++ id').
  { intros p [?|Hi]; [by left|right]. by intros E%app_inv_head. }
  destruct Hid as (E1 & Hl & ?), Hid' as (E2 & Hl' & ?).
  rewrite decryptDraft_open, decryptContact_open.
  split; intros E; (split; [intros Hne|]).
  - by rewrite (open_other DRAFT_AAD_PREFIX DRAFT_AAD_PREFIX k k' n box box' id id' _ env
      Hk Hk' Hn ltac:(done) ltac:(done) Hd Hd Hb' (Hids _ Hne) E).
  - rewrite (open_other DRAFT_AAD_PREFIX CONTACT_AAD_PREFIX k k' n box box' id id' _ env
      Hk Hk' Hn ltac:(done) ltac:(done) Hd Hc Hb' (or_intror (domains_differ id id' Hl Hl')) E).
    done.
  - by rewrite (open_other CONTACT_AAD_PREFIX CONTACT_AAD_PREFIX k k' n box box' id id' _ env
      Hk Hk' Hn ltac:(done) ltac:(done) Hc Hc Hb (Hids _ Hne) E).
  - rewrite (open_other CONTACT_AAD_PREFIX DRAFT_AAD_PREFIX k k' n box box' id id' _ env
      Hk Hk' Hn ltac:(done) ltac:(done) Hc Hd Hb); [done| |exact E].
    right. intros F. by apply (domains_differ id' id Hl' Hl).
Qed.

(** The key wrapped at login under the password is recovered by the same
    password and by no password that derives another key; a password shorter than
    eight UTF-8 bytes is refused.  The stored form is [salt:envelope]. *)
Theorem passphrase_wrap_round_trip `{CryptoLaws} (salt n sk k : bytes) (pw : jstr) :
  Forall is_byte salt -> length salt = 16%nat -> nonce_ok n -> key_ok sk ->
  argon2id (TextEncoder_encode pw) salt = Some k ->
  if Z.of_nat (length (TextEncoder_encode pw)) <? 8 then
    wrapMailboxKeyWithPassphrase salt n pw sk = reject "invalid format"
  else
    exists w, wrapMailboxKeyWithPassphrase salt n pw sk = Ok w /\
      autoUnwrapMailboxKey pw w = Ok sk /\
      forall pw' k', 8 <= Z.of_nat (length (TextEncoder_encode pw')) ->
        argon2id (TextEncoder_encode pw') salt = Some k' -> k' <> k ->
        autoUnwrapMailboxKey pw' w = reject "decryption failed".
Proof.
  intros Hs Hl Hn Hsk Ek. destruct (_ <? 8) eqn:E; zbool.
  - unfold wrapMailboxKeyWithPassphrase, wasm_passphrase_wrap_key. destruct Hsk.
    rewrite !hex_decode_encode by done. ok_bind. rewrite exactly_ok by done. ok_bind.
    unfold derive_recovery_principal_key, RECOVERY_PASSPHRASE_MIN_LEN.
    by rewrite (proj2 (Z.ltb_lt _ 8)) by done.
  - pose proof (derive_key_ok pw salt k E Ek) as Hd.
    destruct (argon2id_key _ _ _ Ek) as [Hk Hkb]. pose proof Hsk as [Hskl Hskb].
    assert (Henv : Forall is_byte (aes_gcm_encrypt k n sk RECOVERY_PRINCIPAL_AAD)).
    { apply envelope_bytes; [done|apply Hn|done|by_decide]. }
    eexists. split; [by apply (wrap_passphrase_ok salt n pw sk k)|].
    split; [|intros pw' k' Hl' Ek' Hne].
    + rewrite (auto_unwrap_ok salt _ _ k) by done.
      rewrite aes_gcm_round_trip by (apply Hn || done). ok_bind. by rewrite Hskl.
    + rewrite (auto_unwrap_ok salt _ _ k') by auto using derive_key_ok.
      by rewrite aes_gcm_other by (apply Hn || auto).
Qed.

(** The key wrapped under the recovery phrase's root secret is recovered
    by the phrase, through both entry points of the client, and only for the
    mailbox it was wrapped for. *)
Theorem recovery_phrase_round_trip `{CryptoLaws} `{Unicode}
    (mnemonic box box' : jstr) (e n sk id id' : bytes) (b64 : jstr) :
  truthy (trim mnemonic) = true -> is_hex64 (trim mnemonic) = false ->
  bip39_entropy (trim mnemonic) = Some e -> length e = 32%nat ->
  nonce_ok n -> key_ok sk -> box_id box id -> box_id box' id' ->
  let wrapped := wrap_mailbox_key (hkdf_root e) n sk id in
  bytesToBase64 wrapped = Ok b64 ->
  wasm_wrap_mailbox_key n (bytesToHex (hkdf_root e)) (bytesToHex sk) (bytesToHex id) =
    Ok (bytesToHex wrapped) /\
  unlockMailboxKey mnemonic box' b64 =
    (if decide (id = id') then Ok sk else reject "decryption failed") /\
  unwrapMailboxKeyWithRecoveryPhrase mnemonic box' (bytesToHex wrapped) =
    (if decide (id = id') then Ok sk else reject "decryption failed").
Proof.
  intros Ht Hh He Hel Hn Hsk Hid Hid' wrapped Eb.
  destruct (recover_root_ok _ e He Hel) as [Hroot Hkey].
  assert (Hw : Forall is_byte wrapped) by (apply wrap_key_bytes; try done; apply Hid).
  assert (Hu : wasm_unwrap_mailbox_key (bytesToHex (hkdf_root e)) (bytesToHex wrapped) (bytesToHex id') =
    if decide (id = id') then Ok (bytesToHex sk) else reject "decryption failed").
  { rewrite (wasm_unwrap_ok _ _ box') by done. unfold wrapped.
    rewrite unwrap_mailbox_key_ok by (done || apply Hid || apply Hid'). by case_decide. }
  pose proof Hsk as [Hskl Hskb]. pose proof Hid' as [Hbox _].
  split; [|split].
  - unfold wasm_wrap_mailbox_key. destruct Hkey, Hid as (_ & ? & ?).
    rewrite !hex_decode_32_encode by done. ok_bind. by rewrite decode_mailbox_id_encode.
  - unfold unlockMailboxKey. rewrite Ht, Hh, Hroot. cbn [negb]. ok_bind.
    destruct (base64_encode_ok wrapped Hw) as (b & Eb' & D). rewrite Eb in Eb'.
    injection Eb' as <-. rewrite D. ok_bind. rewrite Hbox. ok_bind.
    rewrite Hu. case_decide; [|done]. ok_bind. rewrite hex_round_trip by done. ok_bind.
    by rewrite Hskl.
  - destruct (hex_envelope_target wrapped Hw ltac:(done)) as (Et & Ett & En).
    unfold unwrapMailboxKeyWithRecoveryPhrase. rewrite Et, Ett, Hroot. cbn [negb]. ok_bind.
    rewrite Hbox. ok_bind. rewrite En. cbn [wasm_arg]. ok_bind. rewrite Hu.
    case_decide; [|done]. ok_bind. rewrite hex_round_trip by done. ok_bind. by rewrite Hskl.
Qed.

Lemma auto_unwrap_key `{Crypto} `{Unicode} (secret stored : jstr) (sk : bytes) :
  autoUnwrapMailboxKey secret stored = Ok sk -> key_ok sk.
Proof.
  intros E. unfold autoUnwrapMailboxKey in E. destruct (negb _); [done|].
  destruct (parse_wrapped_sk _) as [[]|]; [|done]. cbn [mbind outcome_bind] in E.
  invert_ok E. injection E as <-. by eapply checked_key.
Qed.

Lemma recovery_unwrap_key `{Crypto} `{Unicode} (secret box stored : jstr) (sk : bytes) :
  unwrapMailboxKeyWithRecoveryPhrase secret box stored = Ok sk -> key_ok sk.
Proof.
  intros E. unfold unwrapMailboxKeyWithRecoveryPhrase in E. destruct (negb _); [done|].
  invert_ok E. injection E as <-. by eapply checked_key.
Qed.

(** No unlock path returns anything but 32 bytes: the recovery phrase, the
    64-digit key, the password-wrapped key in each of its three formats, and the
    phrase-wrapped key, on any stored data. *)
Theorem unlock_returns_a_key `{Crypto} `{Unicode} (secret box stored : jstr) (sk : bytes) :
  unlockMailboxKey secret box stored = Ok sk \/
  autoUnwrapMailboxKey secret stored = Ok sk \/
  unwrapMailboxKeyWithRecoveryPhrase secret box stored = Ok sk ->
  key_ok sk.
Proof.
  intros [E|[E|E]].
  - unfold unlockMailboxKey in E. destruct (negb _); [done|].
    destruct (is_hex64 _) eqn:Eh; [by apply (hex64_key (trim secret))|].
    invert_ok E. injection E as <-. by eapply checked_key.
  - by eapply auto_unwrap_key.
  - by eapply recovery_unwrap_key.
Qed.

(** C1.  A stored message opens for its mailbox key under the mailbox, sequence
    number and version it was sealed for, to the text the sender encoded, and is
    refused under any other (mailbox, sequence number, version). *)
Theorem message_opens_only_in_place `{CryptoLaws} `{Unicode}
    (sk ck rnd nonce body id id' : bytes) (seq seq' ver : Z) (box : jstr) (input : MessageDecryptInput) :
  key_ok sk -> key_ok ck -> nonce_ok nonce -> Forall is_byte body ->
  length id = 16%nat -> box_id box id' ->
  0 <= seq < 2 ^ 64 -> 0 <= seq' < 2 ^ 64 -> 0 <= ver < 2 ^ 32 ->
  0 <= encryption_version input < 2 ^ 32 -> message_seq input = Some seq' ->
  sealed_message sk id rnd nonce ck body seq ver input ->
  decryptMessageEnvelope sk box input =
  if decide (id = id' /\ seq = seq' /\ ver = encryption_version input) then Ok (TextDecoder_decode body)
  else reject "invalid HPKE operation".
Proof.
  intros Hsk Hck Hn Hb Hl Hid Hs Hs' Hv Hv' Es Hm. case_decide as Hd.
  - destruct Hd as (-> & -> & ->). by eapply open_message.
  - eapply (open_message_elsewhere sk box id id' rnd nonce ck body seq seq' ver); [done..|naive_solver].
Qed.

(** Attachments: a 32-byte key is required by both directions; the bytes
    come back under the same key and associated data and under no other. *)
Theorem attachment_round_trip `{CryptoLaws} (n p k k' aad aad' : bytes) :
  nonce_ok n -> Forall is_byte p -> Forall is_byte k -> Forall is_byte k' ->
  Forall is_byte aad -> Forall is_byte aad' ->
  (length k <> 32%nat ->
     encryptAttachmentBytes n p k aad = throw "Mailbox encryption key must be exactly 32 bytes" /\
     decryptAttachmentBytes p k aad = throw "Mailbox encryption key must be exactly 32 bytes") /\
  (length k = 32%nat -> length k' = 32%nat ->
     exists env, encryptAttachmentBytes n p k aad = Ok env /\
       decryptAttachmentBytes env k' aad' =
         if decide (k = k' /\ aad = aad') then Ok p else reject "decryption failed").
Proof.
  intros [Hn Hnb] Hp Hk Hk' Ha Ha'. split.
  - intros Hl%Nat.eqb_neq. unfold encryptAttachmentBytes, decryptAttachmentBytes. by rewrite Hl.
  - intros Hl Hl'. unfold encryptAttachmentBytes, decryptAttachmentBytes. rewrite Hl, Hl'.
    cbn [negb Nat.eqb].
    assert (He : Forall is_byte (aes_gcm_encrypt k n p aad)) by by apply envelope_bytes.
    rewrite wasm_encrypt_ok by done. ok_bind. rewrite hex_round_trip by done.
    eexists. split; [done|].
    rewrite wasm_decrypt_ok by done. case_decide as Hd.
    + destruct Hd as [<- <-]. rewrite aes_gcm_round_trip by done. ok_bind. by apply hex_round_trip.
    + rewrite aes_gcm_other; [done|done|].
      destruct (decide (k = k')); [right|by left]. naive_solver.
Qed.

(** Search tokens: a blank term has no token and needs no key; any other
    term gives 64 lower-case hex digits that depend only on its trimmed, lower-cased
    form, so differently typed spellings of a term find the same messages. *)
Theorem search_token_normalised `{CryptoLaws} `{Unicode} (key term term' : jstr) (kb : bytes) :
  hexToBytes key = Ok kb -> kb <> [] ->
  exists tok, computeSearchToken key term = Ok tok /\
    (toLowerCase (trim term) = [] -> tok = []) /\
    (toLowerCase (trim term) <> [] -> length tok = 64%nat /\ forallb is_lower_hex tok = true) /\
    (toLowerCase (trim term') = toLowerCase (trim term) -> computeSearchToken key term' = Ok tok).
Proof.
  intros Ek Hne. unfold computeSearchToken. rewrite Ek. ok_bind.
  destruct kb as [|b kb]; [done|]. cbn [truthy negb].
  destruct (toLowerCase (trim term)) as [|u t]; cbn [truthy negb].
  - exists []. split_and!; [done..|]. by intros ->.
  - destruct (hmac_sha256_size (b :: kb) (TextEncoder_encode (u :: t))) as [Hl Hb].
    eexists. split_and!; [done|done| |by intros ->].
    intros _. rewrite length_bytesToHex, Hl by done. split; [done|by apply bytesToHex_lower].
Qed.

(** Keywords: [extractKeywords] returns, without repetition, exactly the
    white-space separated words of length 2 to 64 of the lower-cased text in which
    everything but letters, digits and blanks became a blank; each is a sequence of
    letters and digits. *)
Theorem extractKeywords_spec `{Unicode} (text : jstr) :
  Forall is_unit text ->
  NoDup (extractKeywords text) /\
  (forall w, w ∈ extractKeywords text <->
     w ∈ words (keep_letters (toLowerCase text)) /\ (2 <= length w <= 64)%nat) /\
  (forall w, w ∈ extractKeywords text ->
     exists cs, w = concat (map units_of cs) /\ Forall (fun c => is_letter_or_number c = true) cs).
Proof.
  intros Ht. split_and!.
  - apply NoDup_uniq.
  - intros w. apply elem_of_extractKeywords.
  - intros w [Hw _]%elem_of_extractKeywords. eapply keyword_letters, Hw. by apply lower_units.
Qed.

(** ** The properties at concrete inputs, over the toy cipher *)

Definition key0 : bytes := replicate 32 7.
Definition key1 : bytes := replicate 32 9.
Definition nonce0 : bytes := replicate 12 5.
Definition salt0 : bytes := replicate 16 3.
Definition id0 : bytes := [0; 17; 34; 51; 68; 85; 102; 119; 136; 153; 170; 187; 204; 221; 238; 255].
Definition id1 : bytes := replicate 16 1.
Definition box0 : jstr := js "00112233-4455-6677-8899-AABBCCDDEEFF".
Definition box1 : jstr := js "01010101-0101-0101-0101-010101010101".
Definition contact0 : ContactPlaintext :=
  {| name := js "Ada"; email := js "ada@example.org"; notes := [0xD83D; 0xDE00; 34] |}.

Lemma key0_ok : key_ok key0. Proof. split; [done|by_decide]. Defined.
Lemma key1_ok : key_ok key1. Proof. split; [done|by_decide]. Defined.
Lemma nonce0_ok : nonce_ok nonce0. Proof. split; [done|by_decide]. Defined.
Lemma box0_ok : @box_id ascii_unicode box0 id0.
Proof. split; [vm_compute; reflexivity|]. split; [done|by_decide]. Defined.
Lemma box1_ok : @box_id ascii_unicode box1 id1.
Proof. split; [vm_compute; reflexivity|]. split; [done|by_decide]. Defined.

#[local] Existing Instance toy_crypto.
#[local] Existing Instance toy_laws.
#[local] Existing Instance ascii_unicode.

Lemma draft_round_trip_witness :
  exists env, encryptDraftEnvelope nonce0 key0 box0 (js "Hello") = Ok env /\
    decryptDraftEnvelope key0 box0 env = Ok (js "Hello").
Proof.
  destruct (draft_round_trip key0 nonce0 id0 box0 (js "Hello")) as (env & E & _ & D).
  - exact key0_ok.
  - exact nonce0_ok.
  - exact box0_ok.
  - by_decide.
  - exists env. split; [exact E|]. apply D; reflexivity.
Defined.

Lemma contact_round_trip_witness :
  exists env, encryptContactEnvelope nonce0 key0 box0 contact0 = Ok env /\
    decryptContactEnvelope key0 box0 env = Ok contact0.
Proof.
  refine (contact_round_trip key0 nonce0 id0 box0 contact0 key0_ok nonce0_ok box0_ok _ _ _); by_decide.
Defined.

Lemma envelopes_separated_witness :
  exists env, encryptDraftEnvelope nonce0 key0 box0 (js "Hi") = Ok env /\
    decryptDraftEnvelope key0 box1 env = reject "decryption failed" /\
    decryptContactEnvelope key1 box0 env = reject "decryption failed".
Proof.
  destruct (encryptDraftEnvelope nonce0 key0 box0 (js "Hi")) as [env|] eqn:E;
    [|vm_compute in E; discriminate].
  exists env. split; [reflexivity|]. split.
  - refine (proj1 (proj1 (envelopes_separated key0 key0 nonce0 id0 id1 box0 box1 (js "Hi") env contact0
      key0_ok key0_ok nonce0_ok box0_ok box1_ok _ _ _ _) E) _); [by_decide..|].
    right. vm_compute. congruence.
  - refine (proj2 (proj1 (envelopes_separated key0 key1 nonce0 id0 id0 box0 box0 (js "Hi") env contact0
      key0_ok key1_ok nonce0_ok box0_ok box0_ok _ _ _ _) E)); by_decide.
Defined.

Lemma passphrase_wrap_round_trip_witness :
  exists w, wrapMailboxKeyWithPassphrase salt0 nonce0 (js "correct horse") key0 = Ok w /\
    autoUnwrapMailboxKey (js "correct horse") w = Ok key0 /\
    autoUnwrapMailboxKey (js "wrong horse!") w = reject "decryption failed".
Proof.
  destruct (passphrase_wrap_round_trip salt0 nonce0 key0 (toy_key (js "correct horse" ++ salt0))
    (js "correct horse")) as (w & E & D & F).
  - by_decide.
  - reflexivity.
  - exact nonce0_ok.
  - exact key0_ok.
  - reflexivity.
  - exists w. split; [exact E|]. split; [exact D|].
    refine (F (js "wrong horse!") (toy_key (js "wrong horse!" ++ salt0)) _ _ _).
    + vm_compute. congruence.
    + reflexivity.
    + vm_compute. congruence.
Defined.

(** Twenty-four words. *)
Definition phrase0 : jstr := join [32] (replicate 24 (js "abandon")).

Lemma recovery_phrase_round_trip_witness :
  exists b64, unlockMailboxKey phrase0 box0 b64 = Ok key0 /\
    unlockMailboxKey phrase0 box1 b64 = reject "decryption failed".
Proof.
  destruct (bytesToBase64 (wrap_mailbox_key (hkdf_root (toy_entropy phrase0)) nonce0 key0 id0))
    as [b64|] eqn:E; [|vm_compute in E; discriminate].
  exists b64. split.
  - refine (proj1 (proj2 (recovery_phrase_round_trip phrase0 box0 box0 (toy_entropy phrase0) nonce0 key0 id0 id0
      b64 _ _ _ _ nonce0_ok key0_ok box0_ok box0_ok E))); vm_compute; reflexivity.
  - refine (proj1 (proj2 (recovery_phrase_round_trip phrase0 box0 box1 (toy_entropy phrase0) nonce0 key0 id0 id1
      b64 _ _ _ _ nonce0_ok key0_ok box0_ok box1_ok E))); vm_compute; reflexivity.
Defined.

Lemma unlock_returns_a_key_witness : key_ok (replicate 32 171).
Proof.
  refine (unlock_returns_a_key (concat (replicate 32 (js "aB"))) box0 [] _ (or_introl _)).
  vm_compute. reflexivity.
Defined.

Definition message0 (seq : Z) : MessageDecryptInput := {|
  message_seq := Some seq;
  encryption_version := 1;
  content_key_hpke_wrapped := b64_encode (toy_seal key0 [] (canonical_aad id0 42 1) key1);
  encrypted_body := b64_encode (@aes_gcm_encrypt toy_crypto key1 nonce0 (js "Dear Ada") (canonical_aad id0 42 1));
|}.

Lemma message_opens_only_in_place_witness :
  decryptMessageEnvelope key0 box0 (message0 42) = Ok (js "Dear Ada") /\
  decryptMessageEnvelope key0 box0 (message0 43) = reject "invalid HPKE operation".
Proof.
  assert (Hm : forall seq, sealed_message key0 id0 [] nonce0 key1 (js "Dear Ada") 42 1 (message0 seq)).
  { intros seq. eexists. split_and!; vm_compute; reflexivity. }
  split.
  - refine (message_opens_only_in_place key0 key1 [] nonce0 (js "Dear Ada") id0 id0 42 42 1 box0 (message0 42)
      key0_ok key1_ok nonce0_ok _ _ box0_ok _ _ _ _ _ (Hm 42)); first [by_decide|reflexivity|lia|done].
  - refine (message_opens_only_in_place key0 key1 [] nonce0 (js "Dear Ada") id0 id0 42 43 1 box0 (message0 43)
      key0_ok key1_ok nonce0_ok _ _ box0_ok _ _ _ _ _ (Hm 43)); first [by_decide|reflexivity|lia|done].
Defined.

Lemma attachment_round_trip_witness :
  exists env, encryptAttachmentBytes nonce0 [1; 2; 3] key0 [] = Ok env /\
    decryptAttachmentBytes env key0 [] = Ok [1; 2; 3].
Proof.
  refine (proj2 (attachment_round_trip nonce0 [1; 2; 3] key0 key0 [] [] nonce0_ok _ _ _ _ _) _ _);
    first [by_decide|reflexivity].
Defined.

Lemma search_token_normalised_witness :
  exists tok, computeSearchToken (js "0a0b") (js " Invoice ") = Ok tok /\ length tok = 64%nat /\
    computeSearchToken (js "0a0b") (js "INVOICE") = Ok tok.
Proof.
  destruct (search_token_normalised (js "0a0b") (js " Invoice ") (js "INVOICE") [10; 11])
    as (tok & E & _ & Hl & Hs); [reflexivity|done|].
  exists tok. split; [exact E|]. split; [apply Hl; vm_compute; congruence|].
  apply Hs. reflexivity.
Defined.

Lemma extractKeywords_spec_witness :
  NoDup (extractKeywords (js "Re: the invoice, the INVOICE #42!")) /\
  extractKeywords (js "Re: the invoice, the INVOICE #42!") = map js ["re"; "the"; "invoice"; "42"]%string.
Proof.
  split; [|reflexivity].
  refine (proj1 (extractKeywords_spec (js "Re: the invoice, the INVOICE #42!") _)). by_decide.
Defined.
