(* ===== verification/Totp.v ===== *)
(** * One-time passwords (RFC 6238)

    webmail/src/utils/totp.ts: secret generation in base32, its display format,
    decoding, the six-digit code and the client-side check with one step of drift.
    The loops keep JavaScript's 32-bit arithmetic; the theorems relate them to the
    bit-string definition of base32, and the code to the RFC's truncation. *)

From S2P Require Import Prelude JsString Encoding Json Wasm.

(** ** 32-bit integers of JavaScript *)

Definition to_uint32 (x : Z) : Z := x mod 2 ^ 32.
Definition to_int32 (x : Z) : Z := (x + 2 ^ 31) mod 2 ^ 32 - 2 ^ 31.

(** [a << n], [a | b], [a >>> n]; shift counts are below 32 here. *)
Definition shl (a n : Z) : Z := to_int32 (Z.shiftl (to_int32 a) n).
Definition bor (a b : Z) : Z := Z.lor (to_int32 a) (to_int32 b).
Definition ushr (a n : Z) : Z := Z.shiftr (to_uint32 a) n.

Definition BASE32_ALPHABET : jstr := js "ABCDEFGHIJKLMNOPQRSTUVWXYZ234567".

Definition alphabet_at (i : Z) : Z := default 0 (BASE32_ALPHABET !! Z.to_nat i).

(** [BASE32_ALPHABET.indexOf(c)], [None] for [-1]. *)
Fixpoint index_of (c : Z) (s : jstr) (i : Z) : option Z :=
  match s with
  | [] => None
  | u :: s' => if u =? c then Some i else index_of c s' (i + 1)
  end.

(** ** The operations *)

(** [while (bits >= 5) { ... }]; [fuel] bounds the iterations. *)
Fixpoint emit (fuel : nat) (value bits : Z) (output : jstr) : Z * jstr :=
  match fuel with
  | O => (bits, output)
  | S fuel =>
      if 5 <=? bits then
        emit fuel value (bits - 5) (output ++ [alphabet_at (Z.land (ushr value (bits - 5)) 31)])
      else (bits, output)
  end.

Fixpoint generate_loop (bs : bytes) (bits value : Z) (output : jstr) : Z * Z * jstr :=
  match bs with
  | [] => (bits, value, output)
  | b :: bs' =>
      let value := bor (shl value 8) b in
      let bits := bits + 8 in
      let '(bits, output) := emit (Z.to_nat bits) value bits output in
      generate_loop bs' bits value output
  end.

(** [bs] is what [crypto.getRandomValues] wrote: 20 bytes. *)
Definition generateTOTPSecret (bs : bytes) : jstr :=
  let '(bits, value, output) := generate_loop bs 0 0 [] in
  if 0 <? bits then output ++ [alphabet_at (Z.land (shl value (5 - bits)) 31)] else output.

Fixpoint base32_loop (s : jstr) (bits value : Z) (out : bytes) : bytes :=
  match s with
  | [] => out
  | c :: s' =>
      match index_of c BASE32_ALPHABET 0 with
      | None => base32_loop s' bits value out
      | Some idx =>
          let value := bor (shl value 5) idx in
          let bits := bits + 5 in
          if 8 <=? bits then
            base32_loop s' (bits - 8) value (out ++ [Z.land (ushr value (bits - 8)) 255])
          else base32_loop s' bits value out
      end
  end.

Section Totp.
Context `{Unicode} `{Crypto}.

Definition formatTOTPSecret (secret : jstr) : jstr :=
  let clean := toUpperCase (remove_units is_white secret) in
  join [32] (chunks 4 clean).

Definition base32ToBytes (base32 : jstr) : bytes :=
  let clean := toUpperCase (remove_units (fun u => is_white u || (u =? 61)) base32) in
  base32_loop clean 0 0 [].

(** [DataView.setUint32(_, x, false)] *)
Definition set_uint32 (x : Z) : bytes := be_bytes 4 (to_uint32 x).

(** Times are whole seconds; [Math.floor(time / 30)] is exact on them below
    2^48, which the platform's clock cannot exceed.  [importKey] rejects an empty
    HMAC key; [new DataView] rejects a range past the end of the hash. *)
Definition computeTOTPCode (secret : jstr) (time : Z) : outcome jstr :=
  let keyBytes := base32ToBytes secret in
  let counter := time / 30 in
  let counterBuffer := set_uint32 (counter / 0x100000000) ++ set_uint32 (Z.land (to_int32 counter) (to_int32 0xffffffff)) in
  if negb (truthy keyBytes) then throw "DataError"
  else
    let hash := hmac_sha1 keyBytes counterBuffer in
    let offset := Z.land (default 0 (last hash)) 0x0f in
    if Z.of_nat (length hash) <? offset + 4 then throw "RangeError"
    else
      let binary := Z.land (to_int32 (be_combine (take 4 (drop (Z.to_nat offset) hash)))) 0x7fffffff in
      let otp := binary mod 1000000 in
      Ok (pad_start 6 48 (num otp)).

Fixpoint verify_loop (secret cleanCode : jstr) (windows : list Z) : bool :=
  match windows with
  | [] => false
  | t :: windows =>
      match computeTOTPCode secret t with
      | Ok expected => if jeqb expected cleanCode then true else verify_loop secret cleanCode windows
      | Throw _ => verify_loop secret cleanCode windows
      end
  end.

Definition verifyTOTPClient (secret code : jstr) (now : Z) : bool :=
  let cleanCode := trim code in
  if negb (length cleanCode =? 6)%nat then false
  else verify_loop secret cleanCode [now; now - 30; now + 30].

End Totp.

(** ** Bit strings *)

(** The low [n] bits of [v], most significant first. *)
Fixpoint bits_of (n : nat) (v : Z) : list bool :=
  match n with
  | O => []
  | S n => Z.testbit v (Z.of_nat n) :: bits_of n v
  end.

Lemma length_bits_of n v : length (bits_of n v) = n.
Proof. induction n; simpl; auto. Qed.

Lemma bits_of_ext n v w :
  (forall i, 0 <= i < Z.of_nat n -> Z.testbit v i = Z.testbit w i) -> bits_of n v = bits_of n w.
Proof.
  induction n as [|n IH]; [done|]. intros Hb. simpl. f_equal; [apply Hb; lia|].
  apply IH. intros. apply Hb. lia.
Qed.

Lemma bits_of_split a b v : bits_of (a + b) v = bits_of a (Z.shiftr v (Z.of_nat b)) ++ bits_of b v.
Proof.
  induction a as [|a IH]; [done|]. simpl. rewrite IH. f_equal.
  rewrite Z.shiftr_spec by lia. f_equal. lia.
Qed.

Lemma testbit_to_int32 x i : 0 <= i < 32 -> Z.testbit (to_int32 x) i = Z.testbit x i.
Proof.
  intros Hi. assert (E : Z.testbit (to_int32 x mod 2 ^ 32) i = Z.testbit (x mod 2 ^ 32) i).
  { f_equal. unfold to_int32. zdm. }
  by rewrite !Z.mod_pow2_bits_low in E by lia.
Qed.

(** Shifting in [k] bits appends them. *)
Lemma bits_of_shift n k v b :
  (n + k <= 32)%nat -> 0 <= b < 2 ^ Z.of_nat k ->
  bits_of (n + k) (bor (shl v (Z.of_nat k)) b) = bits_of n v ++ bits_of k b.
Proof.
  intros Hn Hb. rewrite bits_of_split.
  assert (Hlow : forall i, 0 <= i < 32 -> Z.testbit (bor (shl v (Z.of_nat k)) b) i =
    (if i <? Z.of_nat k then Z.testbit b i else Z.testbit v (i - Z.of_nat k))).
  { intros i Hi. unfold bor, shl. rewrite Z.lor_spec, !testbit_to_int32 by done.
    destruct (Z.ltb_spec i (Z.of_nat k)).
    - by rewrite Z.shiftl_spec_low by done.
    - rewrite Z.shiftl_spec_high, testbit_to_int32 by lia.
      replace (Z.testbit b i) with false; [by rewrite orb_false_r|].
      rewrite <- (Z.mod_small b (2 ^ Z.of_nat k)) by done. by rewrite Z.mod_pow2_bits_high by lia. }
  f_equal; apply bits_of_ext; intros i Hi.
  - rewrite Z.shiftr_spec, Hlow by lia. rewrite (proj2 (Z.ltb_ge _ _)) by lia. f_equal. lia.
  - rewrite Hlow by lia. by rewrite (proj2 (Z.ltb_lt _ _)) by lia.
Qed.

(** Taking the bits above position [n]. *)
Lemma bits_of_ushr k n v mask :
  (k + n <= 32)%nat -> mask = Z.ones (Z.of_nat k) ->
  bits_of (k + n) v = bits_of k (Z.land (ushr v (Z.of_nat n)) mask) ++ bits_of n v.
Proof.
  intros Hk ->. rewrite bits_of_split. f_equal. apply bits_of_ext. intros i Hi.
  rewrite Z.land_spec, Z.ones_spec_low by lia. rewrite andb_true_r. unfold ushr, to_uint32.
  by rewrite !Z.shiftr_spec, Z.mod_pow2_bits_low by lia.
Qed.

Lemma land_ones_range k x : 0 <= Z.land x (Z.ones (Z.of_nat k)) < 2 ^ Z.of_nat k.
Proof. rewrite Z.land_ones by lia. apply Z.mod_pos_bound. lia. Qed.

Lemma bits_of_inj k v w :
  0 <= v < 2 ^ Z.of_nat k -> 0 <= w < 2 ^ Z.of_nat k -> bits_of k v = bits_of k w -> v = w.
Proof.
  intros Hv Hw E. apply Z.bits_inj'. intros i Hi.
  destruct (Z.ltb_spec i (Z.of_nat k)) as [Hk|Hk].
  - revert E. clear Hv Hw. induction k as [|k IH]; [lia|]. simpl. intros [= E0 E].
    destruct (Z.eq_dec i (Z.of_nat k)) as [->|]; [done|]. apply IH; [lia|done].
  - rewrite <- (Z.mod_small v (2 ^ Z.of_nat k)), <- (Z.mod_small w (2 ^ Z.of_nat k)) by done.
    by rewrite !Z.mod_pow2_bits_high by lia.
Qed.

(** The bit string of a list of [k]-bit values. *)
Definition stream (k : nat) (vs : list Z) : list bool := concat (map (bits_of k) vs).

Lemma stream_app k vs ws : stream k (vs ++ ws) = stream k vs ++ stream k ws.
Proof. unfold stream. by rewrite map_app, concat_app. Qed.

Lemma stream_one k v : stream k [v] = bits_of k v.
Proof. unfold stream. simpl. apply app_nil_r. Qed.

Lemma length_stream k vs : length (stream k vs) = (k * length vs)%nat.
Proof.
  unfold stream. induction vs as [|v vs IH]; simpl; [lia|].
  rewrite length_app, length_bits_of, IH. lia.
Qed.

Lemma stream_inj k vs ws r r' :
  Forall (fun v => 0 <= v < 2 ^ Z.of_nat k) vs -> Forall (fun v => 0 <= v < 2 ^ Z.of_nat k) ws ->
  length vs = length ws -> stream k vs ++ r = stream k ws ++ r' -> vs = ws.
Proof.
  intros Hv. revert ws. unfold stream. induction Hv as [|v vs Hv _ IH]; intros [|w ws] Hw Hl; try done.
  apply Forall_cons in Hw as [Hw Hws]. cbn [map concat]. rewrite <- !app_assoc. intros E.
  apply app_inj_1 in E as [E1 E2]; [|by rewrite !length_bits_of].
  apply bits_of_inj in E1 as ->; [|done..]. f_equal. apply IH; [done|by injection Hl|done].
Qed.

(** ** The loops against the bit string *)

Definition digit5 (v : Z) : Prop := 0 <= v < 2 ^ Z.of_nat 5.

Lemma emit_spec fuel value n output :
  (n <= fuel)%nat -> (n <= 32)%nat ->
  exists new r, emit fuel value (Z.of_nat n) output = (Z.of_nat r, output ++ map alphabet_at new) /\
    (r < 5)%nat /\ bits_of n value = stream 5 new ++ bits_of r value /\ Forall digit5 new.
Proof.
  revert n output. induction fuel as [|fuel IH]; intros n output Hf Hn.
  - assert (n = 0)%nat as -> by lia. exists [], 0%nat. simpl. rewrite app_nil_r.
    split_and!; [done|lia|done|done].
  - cbn [emit]. destruct (Z.leb_spec 5 (Z.of_nat n)).
    + replace (Z.of_nat n - 5) with (Z.of_nat (n - 5)) by lia.
      set (d := Z.land _ 31).
      destruct (IH (n - 5)%nat (output ++ [alphabet_at d])) as (new & r & -> & Hr & E & Hd); [lia..|].
      exists (d :: new), r. split_and!; [by rewrite <- app_assoc|done| |].
      * replace n with (5 + (n - 5))%nat at 1 by lia.
        rewrite (bits_of_ushr 5 (n - 5) value 31) by (lia || done). fold d. rewrite E.
        change (d :: new) with ([d] ++ new). by rewrite stream_app, stream_one, <- app_assoc.
      * constructor; [|done]. apply (land_ones_range 5).
    + exists [], n. simpl. rewrite app_nil_r. split_and!; [done|lia|done|done].
Qed.

Lemma generate_loop_spec bs n value output :
  (n < 5)%nat -> Forall is_byte bs ->
  exists new r v, generate_loop bs (Z.of_nat n) value output = (Z.of_nat r, v, output ++ map alphabet_at new) /\
    (r < 5)%nat /\ bits_of n value ++ stream 8 bs = stream 5 new ++ bits_of r v /\ Forall digit5 new.
Proof.
  intros Hn Hb. revert n value output Hn. induction Hb as [|b bs Hb _ IH]; intros n value output Hn.
  - exists [], n, value. simpl. rewrite !app_nil_r. split_and!; done.
  - cbn [generate_loop]. replace (Z.of_nat n + 8) with (Z.of_nat (n + 8)) by lia.
    rewrite Nat2Z.id. set (v1 := bor (shl value 8) b).
    destruct (emit_spec (n + 8) v1 (n + 8) output) as (new1 & r1 & -> & Hr1 & E1 & Hd1); [lia..|].
    destruct (IH r1 v1 (output ++ map alphabet_at new1) Hr1) as (new & r & v & -> & Hr & E & Hd).
    exists (new1 ++ new), r, v. rewrite map_app, <- app_assoc. split_and!; [done|done| |].
    + rewrite stream_app, <- app_assoc, <- E, app_assoc, <- E1. unfold v1.
      rewrite (bits_of_shift n 8) by (lia || done). change (b :: bs) with ([b] ++ bs).
      by rewrite stream_app, stream_one, <- app_assoc.
    + by apply Forall_app.
Qed.

(** The characters of a secret are the five-bit groups of its bytes, the last
    padded with zeros. *)
Lemma secret_bits bs :
  Forall is_byte bs ->
  exists idx z, generateTOTPSecret bs = map alphabet_at idx /\ Forall digit5 idx /\
    stream 5 idx = stream 8 bs ++ replicate z false /\ (z < 5)%nat.
Proof.
  intros Hb. unfold generateTOTPSecret. change 0 with (Z.of_nat 0).
  destruct (generate_loop_spec bs 0 (Z.of_nat 0) [] ltac:(lia) Hb) as (new & r & v & -> & Hr & E & Hd).
  cbn [bits_of app] in E. destruct (Z.ltb_spec (Z.of_nat 0) (Z.of_nat r)).
  - set (d := Z.land (shl v (5 - Z.of_nat r)) 31).
    assert (Hbits : bits_of 5 d = bits_of r v ++ replicate (5 - r) false).
    { assert (Hz : bits_of (5 - r) 0 = replicate (5 - r) false).
      { generalize (5 - r)%nat. intros k. induction k as [|k IH]; [done|]. simpl.
        by rewrite Z.testbit_0_l, IH. }
      rewrite <- Hz, <- (bits_of_shift r (5 - r)) by lia.
      replace (r + (5 - r))%nat with 5%nat by lia. apply bits_of_ext. intros i Hi. unfold d, bor.
      rewrite Z.land_spec, Z.lor_spec. change 31 with (Z.ones 5). rewrite Z.ones_spec_low by lia.
      rewrite !testbit_to_int32, Z.testbit_0_l, orb_false_r, andb_true_r by lia.
      by replace (Z.of_nat (5 - r)) with (5 - Z.of_nat r) by lia. }
    exists (new ++ [d]), (5 - r)%nat. rewrite map_app. split_and!; [done| | |lia].
    + apply Forall_app. split; [done|]. constructor; [|done]. apply (land_ones_range 5).
    + by rewrite stream_app, stream_one, Hbits, E, app_assoc.
  - assert (r = 0)%nat as -> by lia. exists new, 0%nat. split_and!; [done|done| |lia].
    simpl. by rewrite app_nil_r, E, app_nil_r.
Qed.

Lemma alphabet_facts i :
  digit5 i -> index_of (alphabet_at i) BASE32_ALPHABET 0 = Some i /\
    is_white (alphabet_at i) || (alphabet_at i =? 61) = false /\
    is_ascii (alphabet_at i) = true /\ ascii_upper (alphabet_at i) = alphabet_at i.
Proof.
  unfold digit5. intros Hi.
  pose proof (byte_check (fun i => implb (i <? 32) (
    (match index_of (alphabet_at i) BASE32_ALPHABET 0 with Some j => j =? i | None => false end) &&
    negb (is_white (alphabet_at i) || (alphabet_at i =? 61)) &&
    is_ascii (alphabet_at i) && (ascii_upper (alphabet_at i) =? alphabet_at i)))
    ltac:(vm_compute; reflexivity) i ltac:(unfold is_byte; simpl in Hi; lia)) as Hc.
  simpl in Hi. cbv beta in Hc. rewrite (proj2 (Z.ltb_lt i 32)) in Hc by lia.
  cbn [implb] in Hc. destruct (index_of _ _ _) as [j|]; [|done].
  rewrite !andb_true_iff, negb_true_iff, !Z.eqb_eq in Hc. destruct Hc as [[[-> ?] ?] ?]. auto.
Qed.

Lemma base32_loop_spec idx n value out :
  (n < 8)%nat -> Forall digit5 idx ->
  exists new r v, base32_loop (map alphabet_at idx) (Z.of_nat n) value out = out ++ new /\
    (r < 8)%nat /\ bits_of n value ++ stream 5 idx = stream 8 new ++ bits_of r v /\ Forall is_byte new.
Proof.
  intros Hn Hi. revert n value out Hn. induction Hi as [|i idx Hi _ IH]; intros n value out Hn.
  - exists [], n, value. simpl. rewrite !app_nil_r. split_and!; done.
  - cbn [map base32_loop]. rewrite (proj1 (alphabet_facts i Hi)).
    replace (Z.of_nat n + 5) with (Z.of_nat (n + 5)) by lia.
    set (v1 := bor (shl value 5) i).
    assert (Hv1 : bits_of n value ++ stream 5 (i :: idx) = bits_of (n + 5) v1 ++ stream 5 idx).
    { unfold v1. rewrite (bits_of_shift n 5) by (lia || done).
      change (i :: idx) with ([i] ++ idx). by rewrite stream_app, stream_one, <- app_assoc. }
    rewrite Hv1. destruct (Z.leb_spec 8 (Z.of_nat (n + 5))).
    + replace (Z.of_nat (n + 5) - 8) with (Z.of_nat (n + 5 - 8)) by lia.
      set (b := Z.land _ 255).
      destruct (IH (n + 5 - 8)%nat v1 (out ++ [b])) as (new & r & v & -> & Hr & E & Hb); [lia|].
      exists (b :: new), r, v. rewrite <- app_assoc. split_and!; [done|done| |].
      * replace (n + 5)%nat with (8 + (n + 5 - 8))%nat at 1 by lia.
        rewrite (bits_of_ushr 8 (n + 5 - 8) v1 255) by (lia || done). fold b.
        rewrite <- app_assoc, E. change (b :: new) with ([b] ++ new).
        by rewrite stream_app, stream_one, <- app_assoc.
      * constructor; [|done]. apply (land_ones_range 8).
    + destruct (IH (n + 5)%nat v1 out) as (new & r & v & -> & H'); [lia|].
      by exists new, r, v.
Qed.

Section Laws.
Context `{HU : Unicode}.

Lemma clean_secret p idx :
  Forall digit5 idx -> (forall u, p u = true -> is_white u || (u =? 61) = true) ->
  toUpperCase (remove_units p (map alphabet_at idx)) = map alphabet_at idx.
Proof.
  intros Hi Hp. assert (Ha : forallb is_ascii (map alphabet_at idx) = true /\
    map ascii_upper (map alphabet_at idx) = map alphabet_at idx).
  { induction Hi as [|i idx Hi _ [IH IH']]; [done|].
    destruct (alphabet_facts i Hi) as (_ & _ & Ha & Hu). cbn [map forallb].
    rewrite Ha, Hu, IH, IH'. split; reflexivity. }
  rewrite remove_units_id.
  - rewrite upper_ascii; apply Ha.
  - clear Ha. induction Hi as [|i idx Hi _ IH]; [done|].
    destruct (alphabet_facts i Hi) as (_ & Hw & _).
    simpl. rewrite IH, andb_true_r. specialize (Hp (alphabet_at i)).
    destruct (p (alphabet_at i)); [|done]. rewrite Hp in Hw; done.
Qed.

Lemma secret_decodes bs : Forall is_byte bs -> base32ToBytes (generateTOTPSecret bs) = bs.
Proof.
  intros Hb. destruct (secret_bits bs Hb) as (idx & z & -> & Hi & E & Hz).
  unfold base32ToBytes. rewrite clean_secret by auto.
  destruct (base32_loop_spec idx 0 0 [] ltac:(lia) Hi) as (new & r & v & En & Hr & E' & Hn).
  change (Z.of_nat 0) with 0 in En. rewrite En. cbn [app bits_of] in *. rewrite E in E'.
  symmetry. apply (stream_inj 8 bs new (replicate z false) (bits_of r v)); [done..| |done].
  apply (f_equal length) in E'.
  rewrite !length_app, !length_stream, length_replicate, length_bits_of in E'. lia.
Qed.

Lemma remove_units_app p s t : remove_units p (s ++ t) = remove_units p s ++ remove_units p t.
Proof. apply List.filter_app. Qed.

Lemma remove_units_join p sep xs :
  remove_units p sep = [] -> remove_units p (join sep xs) = remove_units p (concat xs).
Proof.
  intros Hs. induction xs as [|x [|y xs] IH]; [done|cbn [join concat]; by rewrite app_nil_r|].
  rewrite join_cons2, !remove_units_app, Hs, IH.
  change (concat (x :: y :: xs)) with (x ++ concat (y :: xs)). by rewrite remove_units_app.
Qed.

Lemma remove_units_map p q s :
  forallb is_ascii s = true -> (forall u, p u = true -> q u = true) ->
  (forall u, is_ascii u = true -> q (ascii_upper u) = q u) ->
  remove_units q (map ascii_upper (remove_units p s)) = map ascii_upper (remove_units q s).
Proof.
  intros Hs Hpq Hq. unfold remove_units. induction s as [|u s IH]; [done|]. simpl in *.
  apply andb_true_iff in Hs as [Hu Hs]. specialize (Hpq u). specialize (Hq u Hu).
  destruct (p u); simpl; rewrite ?Hpq by done; simpl; [by rewrite IH|].
  rewrite Hq. destruct (q u); simpl; by rewrite IH.
Qed.

Lemma ascii_remove p s : forallb is_ascii s = true -> forallb is_ascii (remove_units p s) = true.
Proof.
  unfold remove_units. induction s as [|u s IH]; [done|]. simpl. intros [Hu Hs]%andb_true_iff.
  destruct (p u); simpl; [auto|]. rewrite Hu. auto.
Qed.

Lemma ascii_upper_facts u :
  is_ascii u = true -> is_ascii (ascii_upper u) = true /\ ascii_upper (ascii_upper u) = ascii_upper u /\
    (is_white (ascii_upper u) || (ascii_upper u =? 61)) = (is_white u || (u =? 61)).
Proof.
  intros H. pose proof (byte_check (fun u => implb (is_ascii u) (is_ascii (ascii_upper u) &&
    (ascii_upper (ascii_upper u) =? ascii_upper u) &&
    Bool.eqb (is_white (ascii_upper u) || (ascii_upper u =? 61)) (is_white u || (u =? 61))))
    ltac:(vm_compute; reflexivity) u ltac:(unfold is_byte, is_ascii in *; lia)) as Hc.
  cbv beta in Hc. rewrite H in Hc. cbn [implb] in Hc.
  rewrite !andb_true_iff, Z.eqb_eq, eqb_true_iff in Hc. tauto.
Qed.

Lemma ascii_map_upper s : forallb is_ascii s = true ->
  forallb is_ascii (map ascii_upper s) = true /\ map ascii_upper (map ascii_upper s) = map ascii_upper s.
Proof.
  induction s as [|u s IH]; [done|]. simpl. intros [Hu Hs]%andb_true_iff.
  destruct (ascii_upper_facts u Hu) as (-> & -> & _). destruct (IH Hs) as [-> ->]. done.
Qed.

(** Grouping in fours and changing case do not change what is decoded. *)
Lemma format_transparent s :
  forallb is_ascii s = true -> base32ToBytes (formatTOTPSecret s) = base32ToBytes s.
Proof.
  intros Hs. unfold base32ToBytes, formatTOTPSecret. set (q := fun u => _).
  rewrite remove_units_join, concat_chunks by (done || lia).
  rewrite (upper_ascii (remove_units is_white s)) by by apply ascii_remove.
  rewrite remove_units_map; [|done|unfold q; intros u ->; done|].
  2:{ intros u Hu. unfold q. by apply ascii_upper_facts. }
  pose proof (ascii_remove q s Hs) as Hr. destruct (ascii_map_upper _ Hr) as [Ha Hm].
  by rewrite (upper_ascii (map _ _)), Hm, (upper_ascii (remove_units q s)).
Qed.

End Laws.

(** ** The code *)

Lemma counter_bytes c :
  set_uint32 (c / 0x100000000) ++ set_uint32 (Z.land (to_int32 c) (to_int32 0xffffffff)) = be_bytes 8 c.
Proof.
  change (to_int32 0xffffffff) with (-1). rewrite Z.land_m1_r.
  unfold set_uint32, to_uint32.
  replace (to_int32 c mod 2 ^ 32) with (c mod 2 ^ 32) by (unfold to_int32; zdm).
  cbn [be_bytes app]. simpl (256 ^ _). rewrite !Z.div_1_r.
  repeat (apply (f_equal2 cons); [zdm|]). reflexivity.
Qed.

Section Code.
Context `{HU : Unicode} `{HC : Crypto}.

Lemma code_range b : 0 <= Z.land (to_int32 b) 0x7fffffff mod 1000000 < 10 ^ Z.of_nat 6.
Proof. change (10 ^ Z.of_nat 6) with 1000000. apply Z.mod_pos_bound. lia. Qed.

(** Any code that is returned is six decimal digits. *)
Lemma code_shape secret t c :
  computeTOTPCode secret t = Ok c -> length c = 6%nat /\ forallb is_digit c = true.
Proof.
  unfold computeTOTPCode. destruct (negb _); [done|]. destruct (_ <? _); [done|]. intros [= <-].
  assert (Hp := fun b => pad_num _ 6 (code_range b) ltac:(lia)). split; apply Hp.
Qed.

(** The code depends on the time only through its thirty-second step. *)
Lemma code_step secret t t' : t / 30 = t' / 30 -> computeTOTPCode secret t = computeTOTPCode secret t'.
Proof. intros E. unfold computeTOTPCode. by rewrite E. Qed.

Lemma verify_loop_spec secret code ts :
  verify_loop secret code ts = true <-> exists t, t ∈ ts /\ computeTOTPCode secret t = Ok code.
Proof.
  induction ts as [|t ts IH]; cbn [verify_loop].
  - split; [done|]. intros (t & Ht & _). by apply elem_of_nil in Ht.
  - setoid_rewrite elem_of_cons. destruct (computeTOTPCode secret t) as [c|] eqn:E.
    + destruct (jeqb c code) eqn:Ej.
      * apply jeqb_eq in Ej as ->. split; [eauto|done].
      * rewrite IH. split; [intros (t' & ? & ?); eauto|]. intros (t' & [->|Ht] & E'); [|eauto].
        rewrite E in E'. injection E' as ->. by rewrite (proj2 (jeqb_eq code code)) in Ej.
    + rewrite IH. split; [intros (t' & ? & ?); eauto|]. intros (t' & [->|Ht] & E'); [congruence|eauto].
Qed.

End Code.

(** ** Properties *)

(** Authenticator secrets: the 20 random bytes (any number, in fact) become
    base32 characters that decode to exactly those bytes, also after the secret has
    been grouped in fours for display; each character stands for five consecutive
    bits, although the 32-bit accumulator of the loop is never masked. *)
Theorem totp_secret_round_trip `{Unicode} (bs : bytes) :
  Forall is_byte bs ->
  let secret := generateTOTPSecret bs in
  (exists idx z, secret = map alphabet_at idx /\ Forall digit5 idx /\
     stream 5 idx = stream 8 bs ++ replicate z false /\ (z < 5)%nat) /\
  base32ToBytes secret = bs /\
  base32ToBytes (formatTOTPSecret secret) = bs.
Proof.
  intros Hb secret. pose proof (secret_bits bs Hb) as Hs. fold secret in Hs.
  split; [done|]. split; [by apply secret_decodes|].
  rewrite format_transparent; [by apply secret_decodes|].
  destruct Hs as (idx & _ & -> & Hi & _). induction Hi as [|i idx Hi _ IH]; [done|].
  destruct (alphabet_facts i Hi) as (_ & _ & Ha & _). cbn [map forallb]. by rewrite Ha, IH.
Qed.

(** The six-digit code is RFC 6238's: HMAC-SHA-1 of the big-endian 64-bit
    step number, dynamic truncation at the offset given by the last nibble, modulo
    a million, zero-padded; the truncation never reads past the hash.  A secret that
    decodes to no bytes is an error. *)
Theorem totp_code_spec `{CryptoLaws} `{Unicode} (secret : jstr) (time : Z) :
  let key := base32ToBytes secret in
  let hash := hmac_sha1 key (be_bytes 8 (time / 30)) in
  let offset := default 0 (last hash) mod 16 in
  match computeTOTPCode secret time with
  | Ok code =>
      key <> [] /\ length code = 6%nat /\ forallb is_digit code = true /\
      dec_value code = (be_combine (take 4 (drop (Z.to_nat offset) hash)) mod 2 ^ 31) mod 10 ^ 6
  | Throw _ => key = []
  end.
Proof.
  intros key hash offset. unfold computeTOTPCode. rewrite counter_bytes. fold key. fold hash.
  destruct key as [|k ks] eqn:Ek; [done|]. cbn [truthy negb].
  change (Z.land (default 0 (last hash)) 15) with (Z.land (default 0 (last hash)) (Z.ones 4)).
  rewrite Z.land_ones by lia. change (2 ^ 4) with 16. fold offset.
  assert (Hl : length hash = 20%nat) by apply hmac_sha1_size. rewrite Hl.
  assert (Ho : 0 <= offset < 16) by (unfold offset; zdm).
  rewrite (proj2 (Z.ltb_ge (Z.of_nat 20) (offset + 4))) by lia.
  set (b := be_combine _).
  destruct (pad_num _ 6 (code_range b) ltac:(lia)) as (Hlen & Hd & Hv).
  split_and!; [done|exact Hlen|exact Hd|]. rewrite Hv.
  change 0x7fffffff with (Z.ones 31). rewrite Z.land_ones by lia.
  unfold to_int32. f_equal. zdm.
Qed.

(** The client-side check accepts a typed code exactly when, trimmed, it is
    the code of the current thirty-second step, the previous or the next. *)
Theorem totp_verify_window `{Unicode} `{Crypto} (secret code : jstr) (now : Z) :
  verifyTOTPClient secret code now = true <->
  exists d, -1 <= d <= 1 /\ computeTOTPCode secret (30 * (now / 30 + d)) = Ok (trim code).
Proof.
  assert (Hd : forall t d, t = now + 30 * d -> computeTOTPCode secret t =
    computeTOTPCode secret (30 * (now / 30 + d))) by (intros t d ->; apply code_step; zdm).
  transitivity (exists t, t ∈ [now; now - 30; now + 30] /\ computeTOTPCode secret t = Ok (trim code)).
  - rewrite <- verify_loop_spec. unfold verifyTOTPClient.
    destruct (Nat.eqb_spec (length (trim code)) 6) as [|Hn]; cbn [negb]; [done|].
    split; [done|]. intros (t & _ & E)%verify_loop_spec. by apply code_shape in E as [? _].
  - setoid_rewrite elem_of_cons. setoid_rewrite elem_of_cons. setoid_rewrite list_elem_of_singleton.
    split.
    + intros (t & [->|[->| ->]] & E); [exists 0|exists (-1)|exists 1]; (split; [lia|]).
      * by rewrite <- (Hd now 0) by lia.
      * by rewrite <- (Hd (now - 30) (-1)) by lia.
      * by rewrite <- (Hd (now + 30) 1) by lia.
    + intros (d & Hr & E). exists (now + 30 * d). rewrite (Hd _ d) by done. split; [lia|done].
Qed.

Lemma totp_secret_round_trip_witness :
  @base32ToBytes ascii_unicode (@formatTOTPSecret ascii_unicode (generateTOTPSecret (js "12345678901234567890")))
  = js "12345678901234567890".
Proof.
  refine (proj2 (proj2 (@totp_secret_round_trip ascii_unicode (js "12345678901234567890") _))). by_decide.
Defined.

(** The secret of the RFC's test vectors, as authenticator applications show it. *)
Example rfc_secret :
  generateTOTPSecret (js "12345678901234567890") = js "GEZDGNBVGY3TQOJQGEZDGNBVGY3TQOJQ".
Proof. vm_compute. reflexivity. Qed.

Lemma totp_code_spec_witness :
  match @computeTOTPCode ascii_unicode toy_crypto (js "GEZDGNBV") 59 with
  | Ok code => length code = 6%nat
  | Throw _ => False
  end.
Proof.
  pose proof (@totp_code_spec toy_crypto toy_laws ascii_unicode (js "GEZDGNBV") 59) as Hs.
  cbv zeta in Hs. destruct (@computeTOTPCode ascii_unicode toy_crypto (js "GEZDGNBV") 59).
  - apply Hs.
  - vm_compute in Hs. discriminate Hs.
Defined.
