(* ===== verification/Client.v ===== *)
(** * Browser programs

    The handlers of the clients are asynchronous functions over reactive signals,
    browser storage and the network.  [prog S A] is such a function: a tree of the
    effects it performs on the component state [S].  Between two suspension points
    ([Fetch] and [Wait]) a handler runs atomically, as JavaScript does; handlers
    interleave only at suspension points ([Interleaving]). *)

From S2P Require Import Prelude JsString Json.

(** ** Requests and replies *)

Inductive form_value :=
| FormText (s : jstr)
| FormFile (data : bytes) (content_type filename : jstr).

Inductive payload :=
| NoBody
| TextBody (s : jstr)
| FormBody (parts : list (jstr * form_value)).

Record request := {
  req_method : jstr;
  req_url : jstr;
  req_headers : list (jstr * jstr);
  req_credentials : jstr;
  req_body : payload;
}.

(** [fetch] rejects, or resolves with a status and a body; [None] is a body whose
    stream fails while it is read. *)
Inductive reply :=
| NetworkFailure (e : js_error)
| Response (status : Z) (content_type : jstr) (data : option bytes).

Definition response_ok (st : Z) : bool := (200 <=? st) && (st <=? 299).

(** [response.text()] and [response.json()]. *)
Definition response_text (data : option bytes) : outcome jstr :=
  match data with Some b => Ok (TextDecoder_decode b) | None => throw "TypeError" end.

Definition response_json (data : option bytes) : outcome json :=
  text ← response_text data; JSON_parse text.

(** ** Programs *)

(** A reply with a JSON body. *)
Definition json_reply (v : json) : reply :=
  Response 200 (js "application/json") (Some (TextEncoder_encode (JSON_stringify v))).

Inductive prog (S A : Type) : Type :=
| Done (r : outcome A)
| Read (k : S -> prog S A)
| Write (s : S) (k : prog S A)
| Fetch (q : request) (k : reply -> prog S A)
| FetchAll (qs : list request) (k : list reply -> prog S A)   (** concurrent requests *)
| Wait (k : prog S A)                      (** an [await] the network is not part of *)
| Ask (question : jstr) (k : bool -> prog S A)   (** [confirm] *)
| Spawn (p : prog S unit) (k : prog S A).  (** a promise nobody awaits *)
Arguments Done {S A} r.
Arguments Read {S A} k.
Arguments Write {S A} s k.
Arguments Fetch {S A} q k.
Arguments FetchAll {S A} qs k.
Arguments Wait {S A} k.
Arguments Ask {S A} question k.
Arguments Spawn {S A} p k.

(** Sequencing; an exception skips the rest. *)
Fixpoint pbind {S A B : Type} (p : prog S A) (f : A -> prog S B) : prog S B :=
  match p with
  | Done (Ok a) => f a
  | Done (Throw e) => Done (Throw e)
  | Read k => Read (fun s => pbind (k s) f)
  | Write s k => Write s (pbind k f)
  | Fetch q k => Fetch q (fun r => pbind (k r) f)
  | FetchAll qs k => FetchAll qs (fun rs => pbind (k rs) f)
  | Wait k => Wait (pbind k f)
  | Ask q k => Ask q (fun b => pbind (k b) f)
  | Spawn t k => Spawn t (pbind k f)
  end.

(** [try { p } catch (e) { h(e) }] *)
Fixpoint pcatch {S A : Type} (p : prog S A) (h : js_error -> prog S A) : prog S A :=
  match p with
  | Done (Ok a) => Done (Ok a)
  | Done (Throw e) => h e
  | Read k => Read (fun s => pcatch (k s) h)
  | Write s k => Write s (pcatch k h)
  | Fetch q k => Fetch q (fun r => pcatch (k r) h)
  | FetchAll qs k => FetchAll qs (fun rs => pcatch (k rs) h)
  | Wait k => Wait (pcatch k h)
  | Ask q k => Ask q (fun b => pcatch (k b) h)
  | Spawn t k => Spawn t (pcatch k h)
  end.

#[global] Instance prog_ret S : MRet (prog S) := fun A a => Done (Ok a).
#[global] Instance prog_bind S : MBind (prog S) := fun A B f p => pbind p f.

Definition lift {S A} (r : outcome A) : prog S A := Done r.
Definition pthrow {S A} (s : string) : prog S A := Done (throw s).
Definition gets {S A} (f : S -> A) : prog S A := Read (fun s => Done (Ok (f s))).
Definition modify {S} (f : S -> S) : prog S unit := Read (fun s => Write (f s) (Done (Ok tt))).
Definition fetch {S} (q : request) : prog S reply := Fetch q (fun r => Done (Ok r)).
(** An [await] that is not a request: of a promise the browser's cryptography settles, or of
    a module ([await import(...)]), which is taken to load. *)
Definition wait {S} : prog S unit := Wait (Done (Ok tt)).
Definition confirm {S} (q : jstr) : prog S bool := Ask q (fun b => Done (Ok b)).

(** [alert] blocks until the user dismisses it. *)
Definition alert {S} (q : jstr) : prog S unit := Ask q (fun _ => Done (Ok tt)).
Definition spawn {S} (p : prog S unit) : prog S unit := Spawn p (Done (Ok tt)).
Definition skip {S} : prog S unit := Done (Ok tt).

(** [p.catch(() => {})] on a promise nobody awaits: its result and failure are
    dropped. *)
Definition forget {S A} (p : prog S A) : prog S unit :=
  spawn (pcatch (_ ← p; mret tt) (fun _ => mret tt)).

(** The request a program issues before anything else, and what it makes of the reply. *)
Fixpoint first_request {S A : Type} (s : S) (p : prog S A) : option (request * (reply -> prog S A)) :=
  match p with
  | Read k => first_request s (k s)
  | Fetch q k => Some (q, k)
  | _ => None
  end.

Fixpoint sequence {S A : Type} (ps : list (prog S A)) : prog S (list A) :=
  match ps with
  | [] => mret []
  | p :: ps => a ← p; l ← sequence ps; mret (a :: l)
  end.

(** [await Promise.all(ps)] for functions that issue one request each: all requests are
    sent before any reply is awaited.  Of several failures the leftmost is reported;
    JavaScript reports the first to happen. *)
Definition promise_all {S A : Type} (ps : list (prog S A)) : prog S (list A) :=
  Read (fun s =>
    match mapM (first_request s) ps with
    | Some qks => FetchAll (map fst qks) (fun rs => sequence (zip_with (fun qk r => snd qk r) qks rs))
    | None => sequence ps
    end).

(** ** Running one program alone

    [respond] gives the reply to the next request and [answer] the user's answer to
    the next question, from what has been asked so far.  Every suspension resumes
    at once, spawned tasks included: this is the schedule without interleaving. *)
Record trace := { sent : list request; asked : list jstr }.

Definition no_trace : trace := {| sent := []; asked := [] |}.

Record world := { respond : trace -> request -> reply; answer : trace -> jstr -> bool }.

Definition ask (q : request) (t : trace) : trace := {| sent := sent t ++ [q]; asked := asked t |}.

Fixpoint respond_all (w : world) (t : trace) (qs : list request) : list reply * trace :=
  match qs with
  | [] => ([], t)
  | q :: qs => let '(rs, t') := respond_all w (ask q t) qs in (respond w t q :: rs, t')
  end.

Fixpoint run {S A : Type} (w : world) (t : trace) (s : S) (p : prog S A) : outcome A * S * trace :=
  match p with
  | Done r => (r, s, t)
  | Read k => run w t s (k s)
  | Write s' k => run w t s' k
  | Fetch q k => run w {| sent := sent t ++ [q]; asked := asked t |} s (k (respond w t q))
  | FetchAll qs k => let '(rs, t') := respond_all w t qs in run w t' s (k rs)
  | Wait k => run w t s k
  | Ask q k => run w {| sent := sent t; asked := asked t ++ [q] |} s (k (answer w t q))
  | Spawn p k => let '(_, s, t) := run w t s p in run w t s k
  end.

(** ** Interleaving

    Tasks that have not finished, each suspended; a step resumes one of them with
    some reply, or starts a handler.  Between suspension points a task runs
    alone. *)
Section Interleaving.
Context {S : Type}.

(** Run to the next suspension point: the state, the suspended task if it has not
    finished, and the spawned tasks that have not (a spawned function runs to its
    own first suspension when it is called); [ok] answers [confirm]. *)
Fixpoint advance {A : Type} (ok : bool) (s : S) (p : prog S A) : S * option (prog S A) * list (prog S unit) :=
  match p with
  | Done _ => (s, None, [])
  | Read k => advance ok s (k s)
  | Write s' k => advance ok s' k
  | Fetch _ _ | FetchAll _ _ | Wait _ => (s, Some p, [])
  | Ask _ k => advance ok s (k ok)
  | Spawn t k =>
      let '(s, r1, ts1) := advance ok s t in
      let '(s, r, ts) := advance ok s k in
      (s, r, match r1 with Some t => t :: ts1 | None => ts1 end ++ ts)
  end.

(** [rep n] is the reply to the [n]-th request of the task. *)
Definition resume {A} (rep : nat -> reply) (p : prog S A) : prog S A :=
  match p with
  | Fetch _ k => k (rep 0%nat)
  | FetchAll qs k => k (map rep (seq 0 (length qs)))
  | Wait k => k
  | _ => p
  end.

Record config := { state : S; tasks : list (prog S unit) }.

Definition opt_list {A} (o : option A) : list A := match o with Some a => [a] | None => [] end.

(** One macro-step. [handlers] are the programs user events start. *)
Inductive step (handlers : prog S unit -> Prop) : config -> config -> Prop :=
| step_event c h ok s' r ts :
    handlers h -> advance ok (state c) h = (s', r, ts) ->
    step handlers c {| state := s'; tasks := tasks c ++ opt_list r ++ ts |}
| step_resume c l p l' ok rep s' r ts :
    tasks c = l ++ p :: l' -> advance ok (state c) (resume rep p) = (s', r, ts) ->
    step handlers c {| state := s'; tasks := l ++ opt_list r ++ ts ++ l' |}.

(** The same steps as functions: start [h]; resume the [i]-th task. *)
Definition fire (ok : bool) (h : prog S unit) (c : config) : config :=
  let '(s', r, ts) := advance ok (state c) h in
  {| state := s'; tasks := tasks c ++ opt_list r ++ ts |}.

Definition wake (i : nat) (ok : bool) (rep : nat -> reply) (c : config) : config :=
  match drop i (tasks c) with
  | p :: l' =>
      let '(s', r, ts) := advance ok (state c) (resume rep p) in
      {| state := s'; tasks := take i (tasks c) ++ opt_list r ++ ts ++ l' |}
  | [] => c
  end.

Definition reachable (handlers : prog S unit -> Prop) : config -> config -> Prop :=
  rtc (step handlers).

Lemma fire_reachable (handlers : prog S unit -> Prop) ok h c c' :
  handlers h -> reachable handlers (fire ok h c) c' -> reachable handlers c c'.
Proof.
  intros Hh Hr. eapply rtc_l; [|exact Hr]. unfold fire.
  destruct (advance ok (state c) h) as [[s' r] ts] eqn:E. by eapply step_event.
Qed.

Lemma wake_reachable (handlers : prog S unit -> Prop) i ok rep c c' :
  reachable handlers (wake i ok rep c) c' -> reachable handlers c c'.
Proof.
  intros Hr. unfold wake in Hr. destruct (drop i (tasks c)) as [|p l'] eqn:Ed; [done|].
  eapply rtc_l; [|exact Hr].
  destruct (advance ok (state c) (resume rep p)) as [[s' r] ts] eqn:E.
  eapply step_resume; [|exact E]. rewrite <- Ed. symmetry. apply take_drop.
Qed.

End Interleaving.
Arguments config S : clear implicits.

(** ** Laws *)

Lemma run_bind {S A B} (p : prog S A) (f : A -> prog S B) w t s :
  run w t s (p ≫= f) =
  let '(r, s1, t1) := run w t s p in
  match r with Ok a => run w t1 s1 (f a) | Throw e => (Throw e, s1, t1) end.
Proof.
  unfold mbind, prog_bind. revert t s.
  induction p as [A [a|e]|A k IH|A s' k IH|A q k IH|A qs k IH|A k IH|A q k IH|A u _ k IH];
    intros t s; cbn [pbind run]; auto; [by destruct (respond_all w t qs)|].
  destruct (run w t s u) as [[? ?] ?]. apply IH.
Qed.

Lemma run_catch {S A} (p : prog S A) h w t s :
  run w t s (pcatch p h) =
  let '(r, s1, t1) := run w t s p in
  match r with Ok a => (Ok a, s1, t1) | Throw e => run w t1 s1 (h e) end.
Proof.
  revert t s.
  induction p as [A [a|e]|A k IH|A s' k IH|A q k IH|A qs k IH|A k IH|A q k IH|A u _ k IH];
    intros t s; cbn [pcatch run]; auto; [by destruct (respond_all w t qs)|].
  destruct (run w t s u) as [[? ?] ?]. apply IH.
Qed.

(** The requests of a run are added to those before. *)
Lemma respond_all_extends w t qs : exists l, sent (snd (respond_all w t qs)) = sent t ++ l.
Proof.
  revert t. induction qs as [|q qs IH]; intros t; cbn [respond_all]; [exists []; by rewrite app_nil_r|].
  destruct (IH (ask q t)) as [l Hl]. destruct (respond_all w (ask q t) qs) as [rs t']. cbn [snd ask sent] in *.
  exists ([q] ++ l). by rewrite Hl, <- app_assoc.
Qed.

Lemma run_extends {S A} w t s (p : prog S A) : exists l, sent (snd (run w t s p)) = sent t ++ l.
Proof.
  revert t s. induction p as [A r|A k IH|A s' k IH|A q k IH|A qs k IH|A k IH|A q k IH|A u IHu k IH];
    intros t s; cbn [run]; try apply IH.
  - exists []. by rewrite app_nil_r.
  - edestruct IH as [l ->]. cbn [sent]. exists ([q] ++ l). by rewrite <- app_assoc.
  - destruct (respond_all_extends w t qs) as [l1 H1]. destruct (respond_all w t qs) as [rs t'].
    edestruct IH as [l2 ->]. cbn [snd] in H1. exists (l1 ++ l2). by rewrite H1, <- app_assoc.
  - edestruct IH as [l ->]. by exists l.
  - destruct (run w t s u) as [[r1 s1] t1] eqn:E. edestruct IH as [l2 ->]. specialize (IHu t s). rewrite E in IHu. destruct IHu as [l3 H3]. cbn [snd] in H3.
    exists (l3 ++ l2). by rewrite H3, <- app_assoc.
Qed.

Lemma bind_lift {S A B} (r : outcome A) (f : A -> prog S B) :
  (lift r ≫= f) = match r with Ok a => f a | Throw e => Done (Throw e) end.
Proof. by destruct r. Qed.

(** ** Rely-guarantee reasoning about interleaved handlers

    [R] relates the state at a resumption to the state at the next suspension.
    [wp R Q s0 s p]: the task [p], which resumed at [s0] and has brought the state
    to [s], suspends only in states [R]-related to its last resumption, relies on
    others to change the state along [R] while it is suspended, and ends with
    [Q]. *)
Section RelyGuarantee.
Context {S : Type} (R : S -> S -> Prop).

Fixpoint wp {A : Type} (Q : S -> S -> outcome A -> Prop) (s0 s : S) (p : prog S A) : Prop :=
  match p with
  | Done r => Q s0 s r
  | Read k => wp Q s0 s (k s)
  | Write s' k => wp Q s0 s' k
  | Fetch _ k => R s0 s /\ forall r s', R s s' -> wp Q s' s' (k r)
  | FetchAll qs k =>
      R s0 s /\ forall rs s', length rs = length qs -> R s s' -> wp Q s' s' (k rs)
  | Wait k => R s0 s /\ forall s', R s s' -> wp Q s' s' k
  | Ask _ k => forall b, wp Q s0 s (k b)
  | Spawn t k =>
      R s0 s /\ wp (fun s0 s _ => R s0 s) s s t /\ forall s', R s s' -> wp Q s' s' k
  end.

(** A task that respects [R] whenever it runs. *)
Definition respects {A} (s : S) (p : prog S A) : Prop := wp (fun s0 s _ => R s0 s) s s p.

Lemma wp_mono {A} (Q Q' : S -> S -> outcome A -> Prop) p s0 s :
  (forall s0 s r, Q s0 s r -> Q' s0 s r) -> wp Q s0 s p -> wp Q' s0 s p.
Proof.
  intros HQ. revert s0 s.
  induction p as [A r|A k IH|A s' k IH|A q k IH|A qs k IH|A k IH|A q k IH|A u _ k IH];
    intros s0 s; cbn [wp]; naive_solver.
Qed.

Lemma wp_bind {A B} (Q : S -> S -> outcome B -> Prop) (p : prog S A) (f : A -> prog S B) s0 s :
  wp (fun s0 s r => match r with Ok a => wp Q s0 s (f a) | Throw e => Q s0 s (Throw e) end) s0 s p ->
  wp Q s0 s (p ≫= f).
Proof.
  unfold mbind, prog_bind. revert s0 s.
  induction p as [A [a|e]|A k IH|A s' k IH|A q k IH|A qs k IH|A k IH|A q k IH|A u _ k IH];
    intros s0 s; cbn [wp pbind]; naive_solver.
Qed.

Lemma wp_catch {A} (Q : S -> S -> outcome A -> Prop) (p : prog S A) h s0 s :
  wp (fun s0 s r => match r with Ok a => Q s0 s (Ok a) | Throw e => wp Q s0 s (h e) end) s0 s p ->
  wp Q s0 s (pcatch p h).
Proof.
  revert s0 s.
  induction p as [A [a|e]|A k IH|A s' k IH|A q k IH|A qs k IH|A k IH|A q k IH|A u _ k IH];
    intros s0 s; cbn [wp pcatch]; naive_solver.
Qed.

Context `{!PreOrder R}.

(** A suspended task may resume after others have run. *)
Definition ready (s : S) (p : prog S unit) : Prop :=
  forall r s', R s s' -> respects s' (resume r p).

Lemma ready_later s s' p : R s s' -> ready s p -> ready s' p.
Proof. intros HR Hp r t Ht. apply Hp. by etrans. Qed.

Lemma advance_wp {A} ok (p : prog S A) : forall Q s0 s s' r ts,
  wp Q s0 s p -> (forall s0 s x, Q s0 s x -> R s0 s) -> advance ok s p = (s', r, ts) ->
  R s0 s' /\
  (forall q, r = Some q -> forall rep t, R s' t -> wp Q t t (resume rep q)) /\
  Forall (ready s') ts.
Proof.
  induction p as [A x|A k IH|A s1 k IH|A q k IH|A qs k IH|A k IH|A q k IH|A u IHu k IH];
    intros Q s0 s s' r ts Hp HQ E; cbn [wp advance] in *.
  - injection E as <- <- <-. split_and!; [eauto|done|constructor].
  - by eapply IH.
  - by eapply IH.
  - injection E as <- <- <-. destruct Hp as [H0 Hp]. split_and!; [done| |constructor].
    intros q' [= <-] rep t Ht. apply Hp, Ht.
  - injection E as <- <- <-. destruct Hp as [H0 Hp]. split_and!; [done| |constructor].
    intros q' [= <-] rep t Ht. apply Hp, Ht. by rewrite length_map, length_seq.
  - injection E as <- <- <-. destruct Hp as [H0 Hp]. split_and!; [done| |constructor].
    intros q' [= <-] rep t Ht. apply Hp, Ht.
  - by eapply IH.
  - destruct Hp as (H0 & Hu & Hk).
    destruct (advance ok s u) as [[s1 r1] ts1] eqn:E1.
    destruct (advance ok s1 k) as [[s2 r2] ts2] eqn:E2. injection E as <- <- <-.
    edestruct IHu as (R1 & Hr1 & Hts1); [exact Hu|auto|exact E1|].
    edestruct IH as (R2 & Hr2 & Hts2); [apply Hk; exact R1|exact HQ|exact E2|].
    split_and!; [by do 2 (etrans; [eassumption|])|done|].
    assert (Forall (ready s2) ts1) by (eapply Forall_impl; [done|]; eauto using ready_later).
    apply Forall_app. split; [|done]. destruct r1 as [q|]; [|done].
    constructor; [|done]. intros rep t Ht. apply (Hr1 q eq_refl). by etrans.
Qed.

(** If every handler respects [R], so does every execution. *)
Theorem rely_guarantee handlers c c' :
  (forall h s, handlers h -> respects s h) ->
  Forall (ready (state c)) (tasks c) ->
  reachable handlers c c' ->
  R (state c) (state c') /\ Forall (ready (state c')) (tasks c').
Proof.
  intros Hh H0 Hr. induction Hr as [c|c c1 c2 Hs _ IH]; [done|].
  assert (Hnew : forall ok p s' r ts, respects (state c) p -> advance ok (state c) p = (s', r, ts) ->
    R (state c) s' /\ Forall (ready s') (opt_list r ++ ts)).
  { intros ok p s' r ts Hp E. edestruct (advance_wp ok p) as (HR & Hq & Hts); [exact Hp|auto|exact E|].
    split; [done|]. apply Forall_app. split; [|done].
    destruct r as [q|]; [|constructor]. constructor; [|constructor]. intros rep t Ht. by eapply Hq. }
  assert (Hl : R (state c) (state c1) /\ Forall (ready (state c1)) (tasks c1)).
  { destruct Hs as [c h ok s' r ts Hin E|c l p l' ok rep s' r ts E Ea]; cbn [state tasks].
    - destruct (Hnew ok h s' r ts) as [HR Hts]; [by apply Hh|done|].
      split; [done|]. apply Forall_app. split; [|done].
      eapply Forall_impl; [done|]. eauto using ready_later.
    - rewrite E in H0. apply Forall_app in H0 as [Hl H0]. inversion_clear H0 as [|? ? Hp Hl'].
      destruct (Hnew ok (resume rep p) s' r ts) as [HR Hts]; [by apply Hp|done|].
      split; [done|]. rewrite app_assoc in *. rewrite !Forall_app in *.
      destruct Hts as [Ht1 Ht2]. split_and!; try done;
        (eapply Forall_impl; [eassumption|]; eauto using ready_later). }
  destruct Hl as [HR Hts]. destruct (IH Hts) as [HR' Hts']. split; [by etrans|done].
Qed.

End RelyGuarantee.

(** ** Programs described by their writes

    [moves W s p]: every write of [p], started at [s], goes from the state it finds to
    a [W]-related one, whatever others do while [p] is suspended. *)
Section Moves.
Context {S : Type}.

Fixpoint moves {A : Type} (W : S -> S -> Prop) (s : S) (p : prog S A) : Prop :=
  match p with
  | Done _ => True
  | Read k => moves W s (k s)
  | Write s' k => W s s' /\ moves W s' k
  | Fetch _ k => forall r s', moves W s' (k r)
  | FetchAll _ k => forall rs s', moves W s' (k rs)
  | Wait k => forall s', moves W s' k
  | Ask _ k => forall b, moves W s (k b)
  | Spawn t k => moves W s t /\ forall s', moves W s' k
  end.

(** Programs that never write the state. *)
Definition talks {A} (p : prog S A) : Prop := forall s, moves (fun _ _ => False) s p.

Implicit Types W : S -> S -> Prop.

Lemma moves_mono {A} W W' s (p : prog S A) :
  (forall s s', W s s' -> W' s s') -> moves W s p -> moves W' s p.
Proof.
  intros HW. revert s.
  induction p as [A r|A k IH|A s' k IH|A q k IH|A qs k IH|A k IH|A q k IH|A u IHu k IH];
    intros s; cbn [moves]; naive_solver.
Qed.

Lemma talks_moves {A} W s (p : prog S A) : talks p -> moves W s p.
Proof. intros Hp. eapply moves_mono; [|apply Hp]. done. Qed.

Lemma moves_bind {A B} W s (p : prog S A) (f : A -> prog S B) :
  moves W s p -> (forall a s', moves W s' (f a)) -> moves W s (p ≫= f).
Proof.
  unfold mbind, prog_bind. intros Hp Hf. revert s Hp.
  induction p as [A [a|e]|A k IH|A s' k IH|A q k IH|A qs k IH|A k IH|A q k IH|A u _ k IH];
    intros s; cbn [pbind moves]; naive_solver.
Qed.

Lemma moves_catch {A} W s (p : prog S A) h :
  moves W s p -> (forall e s', moves W s' (h e)) -> moves W s (pcatch p h).
Proof.
  intros Hp Hh. revert s Hp.
  induction p as [A [a|e]|A k IH|A s' k IH|A q k IH|A qs k IH|A k IH|A q k IH|A u _ k IH];
    intros s; cbn [pcatch moves]; naive_solver.
Qed.

Lemma moves_modify W s f : W s (f s) -> moves W s (modify f).
Proof. by cbn. Qed.

Lemma moves_forget {A} W s (p : prog S A) : moves W s p -> moves W s (forget p).
Proof.
  intros Hp. split; [|done]. apply moves_catch; [|done]. by apply moves_bind.
Qed.

Lemma moves_sequence {A} W s (ps : list (prog S A)) :
  (forall s, Forall (moves W s) ps) -> moves W s (sequence ps).
Proof.
  revert s. induction ps as [|p ps IH]; intros s Hps; cbn [sequence]; [done|].
  assert (Hp : forall s, moves W s p /\ Forall (moves W s) ps)
    by (intros s'; by apply Forall_cons).
  apply moves_bind; [apply Hp|]. intros a s'. apply moves_bind; [|done]. apply IH. apply Hp.
Qed.

Lemma moves_first {A} W s s' (p : prog S A) q k r :
  first_request s p = Some (q, k) -> moves W s p -> moves W s' (k r).
Proof.
  intros E. revert q k r E.
  induction p as [A x|A k IH|A s1 k IH|A q k IH|A qs k IH|A k IH|A q k IH|A u IHu k IH];
    intros q' k' r E; cbn [first_request] in E; try done.
  - intros Hp. by eapply IH.
  - injection E as <- <-. by cbn.
Qed.

Lemma moves_promise_all {A} W s (ps : list (prog S A)) :
  (forall s, Forall (moves W s) ps) -> moves W s (promise_all ps).
Proof.
  intros Hps. cbn [promise_all moves]. destruct (mapM (first_request s) ps) as [qks|] eqn:E;
    [|by apply moves_sequence].
  intros rs s'. apply moves_sequence. intros s1. apply mapM_Some in E. specialize (Hps s). revert rs.
  induction E as [|p [q k] ps qks Hq _ IH]; intros rs; [constructor|].
  apply Forall_cons in Hps as [Hp Hps]. destruct rs as [|r rs]; [constructor|].
  cbn [zip_with snd]. constructor; [by eapply moves_first|by apply IH].
Qed.

Lemma wp_moves {A} W (R : S -> S -> Prop) `{!PreOrder R} Q s0 s (p : prog S A) :
  (forall s s', W s s' -> R s s') -> moves W s p -> R s0 s ->
  (forall a b r, R s b -> R a b -> Q a b r) -> wp R Q s0 s p.
Proof.
  intros HW. revert Q s0 s.
  induction p as [A r|A k IH|A s' k IH|A q k IH|A qs k IH|A k IH|A q k IH|A u IHu k IH];
    intros Q s0 s Hp H0 HQ; cbn [wp moves] in *.
  - by apply HQ.
  - by apply IH.
  - destruct Hp as [Hw Hp]. apply IH; [done|etrans; eauto|]. intros a b r Hb. apply HQ. etrans; eauto.
  - split; [done|]. intros r s' Hs. apply IH; [done..|]. intros a b x Hb. apply HQ. by etrans.
  - split; [done|]. intros rs s' _ Hs. apply IH; [done..|]. intros a b x Hb. apply HQ. by etrans.
  - split; [done|]. intros s' Hs. apply IH; [done..|]. intros a b x Hb. apply HQ. by etrans.
  - intros b. by apply IH.
  - destruct Hp as [Hu Hk]. split_and!; [done|by apply IHu|].
    intros s' Hs. apply IH; [done..|]. intros a b x Hb. apply HQ. by etrans.
Qed.

Lemma moves_respects {A} W (R : S -> S -> Prop) `{!PreOrder R} s (p : prog S A) :
  (forall s s', W s s' -> R s s') -> moves W s p -> respects R s p.
Proof. intros HW Hp. by eapply wp_moves. Qed.

(** Running alone, a program changes the state by its writes. *)
Lemma run_moves {A} W w t s (p : prog S A) :
  moves W s p -> rtc W s (snd (fst (run w t s p))).
Proof.
  revert t s.
  induction p as [A r|A k IH|A s' k IH|A q k IH|A qs k IH|A k IH|A q k IH|A u IHu k IH];
    intros t s Hp; cbn [run moves] in *.
  - done.
  - by apply IH.
  - destruct Hp as [Hw Hp]. eapply rtc_l; [exact Hw|by apply IH].
  - by apply IH.
  - destruct (respond_all w t qs). by apply IH.
  - by apply IH.
  - by apply IH.
  - destruct Hp as [Hu Hk]. specialize (IHu t s Hu). destruct (run w t s u) as [[r1 s1] t1].
    etrans; [exact IHu|]. by apply IH.
Qed.

Lemma rtc_preorder (R : S -> S -> Prop) `{!PreOrder R} x y : rtc R x y -> R x y.
Proof. induction 1; [done|by etrans]. Qed.

Lemma run_talks {A} w t s (p : prog S A) : talks p -> snd (fst (run w t s p)) = s.
Proof. intros Hp. by destruct (run_moves _ w t s p (Hp s)). Qed.

Lemma talks_wp {A} (R : S -> S -> Prop) `{!PreOrder R} Q s0 s (p : prog S A) :
  talks p -> R s0 s -> (forall a b r, R s b -> R a b -> Q a b r) -> wp R Q s0 s p.
Proof. intros Hp. by eapply (wp_moves (fun _ _ => False)). Qed.

Lemma talks_done {A} (r : outcome A) : talks (Done r).
Proof. done. Qed.
Lemma talks_lift {A} (r : outcome A) : talks (lift r).
Proof. done. Qed.
Lemma talks_ret {A} (a : A) : talks (mret a).
Proof. done. Qed.
Lemma talks_gets {A} (f : S -> A) : talks (gets f).
Proof. done. Qed.
Lemma talks_fetch q : talks (fetch q).
Proof. done. Qed.
Lemma talks_wait : talks wait.
Proof. done. Qed.
Lemma talks_confirm q : talks (confirm q).
Proof. done. Qed.
Lemma talks_alert q : talks (alert q).
Proof. done. Qed.
Lemma talks_bind {A B} (p : prog S A) (f : A -> prog S B) :
  talks p -> (forall a, talks (f a)) -> talks (p ≫= f).
Proof. intros Hp Hf s. apply moves_bind; [apply Hp|]. intros. apply Hf. Qed.
Lemma talks_catch {A} (p : prog S A) h : talks p -> (forall e, talks (h e)) -> talks (pcatch p h).
Proof. intros Hp Hf s. apply moves_catch; [apply Hp|]. intros. apply Hf. Qed.
Lemma talks_forget {A} (p : prog S A) : talks p -> talks (forget p).
Proof. intros Hp s. apply moves_forget, Hp. Qed.
Lemma talks_promise_all {A} (ps : list (prog S A)) : Forall talks ps -> talks (promise_all ps).
Proof.
  intros Hps s. apply moves_promise_all. intros s'. eapply Forall_impl; [exact Hps|]. intros p Hp. apply Hp.
Qed.

End Moves.

Create HintDb talks.
#[export] Hint Resolve talks_done talks_lift talks_ret talks_gets talks_fetch talks_wait talks_confirm
  talks_alert talks_bind talks_catch talks_forget talks_moves : talks.

Lemma run_forget {S A} (p : prog S A) w t s :
  run w t s (forget p) = let '(_, s', t') := run w t s p in (Ok tt, s', t').
Proof.
  unfold forget, spawn. cbn [run]. rewrite run_catch, run_bind.
  destruct (run w t s p) as [[[a|e] s'] t']; done.
Qed.

(** ** Programs described by their requests

    [issues P s p]: every request of [p], started at [s], satisfies [P] in the state it is
    sent from, whatever is replied and whatever others do meanwhile. *)
Section Issues.
Context {S : Type}.
Implicit Types P : S -> request -> Prop.

Fixpoint issues {A : Type} P (s : S) (p : prog S A) : Prop :=
  match p with
  | Done _ => True
  | Read k => issues P s (k s)
  | Write s' k => issues P s' k
  | Fetch q k => P s q /\ forall r s', issues P s' (k r)
  | FetchAll qs k => Forall (P s) qs /\ forall rs s', issues P s' (k rs)
  | Wait k => forall s', issues P s' k
  | Ask _ k => forall b, issues P s (k b)
  | Spawn t k => issues P s t /\ forall s', issues P s' k
  end.

Lemma issues_bind {A B} P s (p : prog S A) (f : A -> prog S B) :
  issues P s p -> (forall a s', issues P s' (f a)) -> issues P s (p ≫= f).
Proof.
  unfold mbind, prog_bind. intros Hp Hf. revert s Hp.
  induction p as [A [a|e]|A k IH|A s' k IH|A q k IH|A qs k IH|A k IH|A q k IH|A u _ k IH];
    intros s; cbn [pbind issues]; naive_solver.
Qed.

Lemma issues_gets_bind {A B} P s (f : S -> A) (k : A -> prog S B) :
  issues P s (k (f s)) -> issues P s (gets f ≫= k).
Proof. done. Qed.

Lemma issues_modify_bind {B} P s f (k : unit -> prog S B) :
  issues P (f s) (k tt) -> issues P s (modify f ≫= k).
Proof. done. Qed.

Lemma issues_fetch_bind {B} P s q (k : reply -> prog S B) :
  P s q -> (forall r s', issues P s' (k r)) -> issues P s (fetch q ≫= k).
Proof. by split. Qed.

Lemma issues_lift {A} P s (r : outcome A) : issues P s (lift r).
Proof. done. Qed.

Lemma issues_lift_bind {A B} P s (r : outcome A) (f : A -> prog S B) :
  (forall a, issues P s (f a)) -> issues P s (lift r ≫= f).
Proof. intros Hf. rewrite bind_lift. by destruct r. Qed.

Lemma issues_catch {A} P s (p : prog S A) h :
  issues P s p -> (forall e s', issues P s' (h e)) -> issues P s (pcatch p h).
Proof.
  intros Hp Hh. revert s Hp.
  induction p as [A [a|e]|A k IH|A s' k IH|A q k IH|A qs k IH|A k IH|A q k IH|A u _ k IH];
    intros s; cbn [pcatch issues]; naive_solver.
Qed.

Lemma issues_sequence {A} P s (ps : list (prog S A)) :
  (forall s, Forall (issues P s) ps) -> issues P s (sequence ps).
Proof.
  revert s. induction ps as [|p ps IH]; intros s Hps; cbn [sequence]; [done|].
  assert (Hp : forall s, issues P s p /\ Forall (issues P s) ps)
    by (intros s'; by apply Forall_cons).
  apply issues_bind; [apply Hp|]. intros a s'. apply issues_bind; [|done]. apply IH. apply Hp.
Qed.

Lemma issues_first {A} P s (p : prog S A) q k :
  first_request s p = Some (q, k) -> issues P s p -> P s q /\ forall r s', issues P s' (k r).
Proof.
  revert q k. induction p as [A x|A k IH|A s1 k IH|A q k IH|A qs k IH|A k IH|A q k IH|A u IHu k IH];
    intros q' k' E; cbn [first_request] in E; try done.
  - intros Hp. by eapply IH.
  - by injection E as <- <-.
Qed.

Lemma issues_promise_all {A} P s (ps : list (prog S A)) :
  (forall s, Forall (issues P s) ps) -> issues P s (promise_all ps).
Proof.
  intros Hps. cbn [promise_all issues]. destruct (mapM (first_request s) ps) as [qks|] eqn:E;
    [|by apply issues_sequence].
  apply mapM_Some in E. specialize (Hps s).
  assert (Hq : Forall (fun qk => P s (fst qk) /\ forall r s', issues P s' (snd qk r)) qks).
  { induction E as [|p [q k] ps qks Hq _ IH]; [constructor|]. apply Forall_cons in Hps as [Hp Hps].
    constructor; [by eapply issues_first|by apply IH]. }
  clear E Hps. split.
  - induction Hq as [|qk qks [Hq _] _ IH]; by constructor.
  - intros rs s'. apply issues_sequence. intros s1. revert rs.
    induction Hq as [|qk qks [_ Hk] _ IH]; intros rs; [constructor|].
    destruct rs as [|r rs]; [constructor|]. cbn [zip_with]. constructor; [apply Hk|by apply IH].
Qed.

Lemma respond_all_sent w t qs : sent (snd (respond_all w t qs)) = sent t ++ qs.
Proof.
  revert t. induction qs as [|q qs IH]; intros t; cbn [respond_all]; [by rewrite app_nil_r|].
  specialize (IH (ask q t)). destruct (respond_all w (ask q t) qs) as [rs t']. cbn [snd ask sent] in *.
  by rewrite IH, <- app_assoc.
Qed.

(** What is said of every request holds of those a run has sent. *)
Lemma run_issues {A} (P : request -> Prop) w t s (p : prog S A) :
  issues (fun _ => P) s p -> exists l, sent (snd (run w t s p)) = sent t ++ l /\ Forall P l.
Proof.
  revert t s. induction p as [A r|A k IH|A s' k IH|A q k IH|A qs k IH|A k IH|A q k IH|A u IHu k IH];
    intros t s; cbn [run issues]; intros Hp; try (by apply IH).
  - exists []. by rewrite app_nil_r.
  - destruct Hp as [Hq Hp]. edestruct IH as (l & -> & Hl); [apply Hp|]. exists (q :: l). cbn [sent].
    rewrite <- app_assoc. split; [done|by constructor].
  - destruct Hp as [Hq Hp]. pose proof (respond_all_sent w t qs) as E. destruct (respond_all w t qs) as [rs t'].
    edestruct IH as (l & -> & Hl); [apply Hp|]. cbn [snd] in E. exists (qs ++ l). rewrite E, <- app_assoc.
    split; [done|by apply Forall_app].
  - edestruct IH as (l & -> & Hl); [apply Hp|]. by exists l.
  - destruct Hp as [Hu Hk]. specialize (IHu t s Hu). destruct (run w t s u) as [[r1 s1] t1].
    destruct IHu as (l1 & E1 & H1). cbn [snd] in E1. destruct (IH t1 s1 (Hk s1)) as (l2 & -> & H2).
    exists (l1 ++ l2). rewrite E1, <- app_assoc. split; [done|by apply Forall_app].
Qed.

End Issues.

(** ** Auxiliary state

    An execution can be followed by a value the program does not see, updated when a
    handler starts: [instrument p] is [p] carrying it along. *)
Section Auxiliary.
Context {S G : Type}.

Fixpoint instrument {A : Type} (p : prog S A) : prog (S * G) A :=
  match p with
  | Done r => Done r
  | Read k => Read (fun sg => instrument (k (fst sg)))
  | Write s k => Read (fun sg => Write (s, snd sg) (instrument k))
  | Fetch q k => Fetch q (fun r => instrument (k r))
  | FetchAll qs k => FetchAll qs (fun rs => instrument (k rs))
  | Wait k => Wait (instrument k)
  | Ask q k => Ask q (fun b => instrument (k b))
  | Spawn t k => Spawn (instrument t) (instrument k)
  end.

Definition start (f : S -> G -> G) (h : prog S unit) : prog (S * G) unit :=
  Read (fun sg => Write (fst sg, f (fst sg) (snd sg)) (instrument h)).

Lemma run_instrument {A} w t s g (p : prog S A) :
  run w t (s, g) (instrument p) = let '(r, s', t') := run w t s p in (r, (s', g), t').
Proof.
  revert t s. induction p as [A x|A k IH|A s1 k IH|A q k IH|A qs k IH|A k IH|A q k IH|A u IHu k IH];
    intros t s; cbn [instrument run fst snd]; try done; try apply IH.
  - destruct (respond_all w t qs). apply IH.
  - rewrite IHu. destruct (run w t s u) as [[? ?] ?]. apply IH.
Qed.

Lemma advance_instrument {A} ok (p : prog S A) s g :
  advance ok (s, g) (instrument p) =
  let '(s', r, ts) := advance ok s p in ((s', g), instrument <$> r, instrument <$> ts).
Proof.
  revert s. induction p as [A x|A k IH|A s1 k IH|A q k IH|A qs k IH|A k IH|A q k IH|A u IHu k IH];
    intros s; cbn [instrument advance]; try done; try apply IH.
  - rewrite IHu. destruct (advance ok s u) as [[s1 r1] ts1]. rewrite IH.
    destruct (advance ok s1 k) as [[s2 r2] ts2]. do 2 f_equal.
    rewrite fmap_app. f_equal. by destruct r1.
Qed.

Lemma resume_instrument {A} rep (p : prog S A) : resume rep (instrument p) = instrument (resume rep p).
Proof. by destruct p. Qed.

Context (handlers : prog S unit -> Prop) (notes : prog S unit -> (S -> G -> G) -> Prop)
  (noted : forall h, handlers h -> exists f, notes h f).

Definition instrumented : prog (S * G) unit -> Prop :=
  fun h' => exists h f, handlers h /\ notes h f /\ h' = start f h.

Lemma instrumented_step c c' g :
  step handlers c c' ->
  exists g', step instrumented {| state := (state c, g); tasks := instrument <$> tasks c |}
                               {| state := (state c', g'); tasks := instrument <$> tasks c' |}.
Proof.
  intros Hs. destruct Hs as [c h ok s' r ts Hh E|c l p l' ok rep s' r ts E Ea]; cbn [state tasks].
  - destruct (noted h Hh) as [f Hf]. exists (f (state c) g). rewrite !fmap_app.
    replace (instrument <$> opt_list r) with (opt_list (instrument <$> r)) by by destruct r.
    refine (step_event instrumented {| state := (state c, g); tasks := instrument <$> tasks c |}
      (start f h) ok (s', f (state c) g) (instrument <$> r) (instrument <$> ts) _ _); [by exists h, f|].
    cbn [start advance fst snd state]. by rewrite advance_instrument, E.
  - exists g. rewrite !fmap_app.
    replace (instrument <$> opt_list r) with (opt_list (instrument <$> r)) by by destruct r.
    refine (step_resume instrumented {| state := (state c, g); tasks := instrument <$> tasks c |} (instrument <$> l)
      (instrument p) (instrument <$> l') ok rep (s', g) (instrument <$> r) (instrument <$> ts) _ _).
    + cbn [tasks]. by rewrite E, fmap_app, fmap_cons.
    + cbn [state]. by rewrite resume_instrument, advance_instrument, Ea.
Qed.

Lemma instrumented_reachable c c' g :
  reachable handlers c c' ->
  exists g', reachable instrumented {| state := (state c, g); tasks := instrument <$> tasks c |}
                               {| state := (state c', g'); tasks := instrument <$> tasks c' |}.
Proof.
  intros Hr. revert g. induction Hr as [c|c c1 c2 Hs _ IH]; intros g; [by exists g|].
  destruct (instrumented_step c c1 g Hs) as [g1 Hs1]. destruct (IH g1) as [g2 Hs2].
  exists g2. by eapply rtc_l.
Qed.

(** Writes of the program alone. *)
Lemma moves_instrument {A} (W : S * G -> S * G -> Prop) sg (p : prog S A) :
  (forall s s' g, W (s, g) (s', g)) -> moves W sg (instrument p).
Proof.
  intros HW. revert sg.
  induction p as [A r|A k IH|A s' k IH|A q k IH|A qs k IH|A k IH|A q k IH|A u IHu k IH];
    intros [s g]; cbn [moves instrument fst snd]; auto.
Qed.

(** The proof rules for instrumented programs. *)
Context (R : S * G -> S * G -> Prop) `{!PreOrder R}.

Lemma wp_instrument_bind {A B} Q (p : prog S A) (f : A -> prog S B) s0 s :
  wp R (fun s0 s r => match r with Ok a => wp R Q s0 s (instrument (f a)) | Throw e => Q s0 s (Throw e) end)
     s0 s (instrument p) ->
  wp R Q s0 s (instrument (p ≫= f)).
Proof.
  unfold mbind, prog_bind. revert s0 s.
  induction p as [A [a|e]|A k IH|A s' k IH|A q k IH|A qs k IH|A k IH|A q k IH|A u _ k IH];
    intros s0 s; cbn [wp pbind instrument]; naive_solver.
Qed.

Lemma wp_instrument_catch {A} Q (p : prog S A) h s0 s :
  wp R (fun s0 s r => match r with Ok a => Q s0 s (Ok a) | Throw e => wp R Q s0 s (instrument (h e)) end)
     s0 s (instrument p) ->
  wp R Q s0 s (instrument (pcatch p h)).
Proof.
  revert s0 s.
  induction p as [A [a|e]|A k IH|A s' k IH|A q k IH|A qs k IH|A k IH|A q k IH|A u _ k IH];
    intros s0 s; cbn [wp pcatch instrument]; naive_solver.
Qed.

(** Writes that keep the auxiliary value. *)
Lemma wp_instrument_moves {A} (W : S -> S -> Prop) Q s0 s g (p : prog S A) :
  (forall s s' g, W s s' -> R (s, g) (s', g)) -> moves W s p -> R s0 (s, g) ->
  (forall a b r, R (s, g) b -> R a b -> Q a b r) -> wp R Q s0 (s, g) (instrument p).
Proof.
  intros HW. revert Q s0 s g.
  induction p as [A r|A k IH|A s' k IH|A q k IH|A qs k IH|A k IH|A q k IH|A u IHu k IH];
    intros Q s0 s g Hp H0 HQ; cbn [wp moves instrument fst snd] in *.
  - by apply HQ.
  - by apply IH.
  - destruct Hp as [Hw Hp]. apply IH; [done|etrans; eauto|]. intros a b r Hb. apply HQ. etrans; eauto.
  - split; [done|]. intros r [s' g'] Hs. apply IH; [done..|]. intros a b x Hb. apply HQ. by etrans.
  - split; [done|]. intros rs [s' g'] _ Hs. apply IH; [done..|]. intros a b x Hb. apply HQ. by etrans.
  - split; [done|]. intros [s' g'] Hs. apply IH; [done..|]. intros a b x Hb. apply HQ. by etrans.
  - intros b. by apply IH.
  - destruct Hp as [Hu Hk]. split_and!; [done|by apply IHu|].
    intros [s' g'] Hs. apply IH; [done..|]. intros a b x Hb. apply HQ. by etrans.
Qed.

End Auxiliary.
