(* ===== verification/Progress.v ===== *)
(** * Progress of interleaved programs

    Programs are finite trees, so pending tasks come to an end once no handler is
    started any more ([resumption_wf]); and a debt that a handler takes on is paid by
    then, if the handler's own task always pays it ([debts_paid]). *)

From S2P Require Import Prelude JsString Json Client.

Section Termination.
Context {S : Type}.

(** A pending task; spawned tasks and their parents may have different results. *)
Definition task : Type := { A : Type & prog S A }.
Definition task_of {A} (p : prog S A) : task := existT A p.

(** The tasks left over when [p] runs to its next suspension. *)
Definition left_over {A} (ok : bool) (s : S) (p : prog S A) : list task :=
  let '(_, r, ts) := advance ok s p in map task_of (opt_list r) ++ map task_of ts.

(** One task of the list is resumed, in some state, with some replies. *)
Inductive shrinks : list task -> list task -> Prop :=
| shrink l p l' ok rep s :
    shrinks (l ++ left_over ok s (resume rep (projT2 p)) ++ l') (l ++ p :: l').

Lemma shrinks_app l1 l2 l :
  shrinks l (l1 ++ l2) ->
  (exists l1', shrinks l1' l1 /\ l = l1' ++ l2) \/ (exists l2', shrinks l2' l2 /\ l = l1 ++ l2').
Proof.
  intros Hs. remember (l1 ++ l2) as l0 eqn:E. destruct Hs as [la p lb ok rep s].
  apply app_eq_app in E as (k & [[-> ->]|[-> E]]).
  - right. eexists. split; [by apply shrink|]. by rewrite <- !app_assoc.
  - destruct k as [|q k].
    + right. rewrite app_nil_r. cbn in E. subst l2. eexists. split; [by apply (shrink [])|done].
    + injection E as <- ->. left. eexists. split; [by apply shrink|]. by rewrite <- !app_assoc.
Qed.

Lemma acc_app l1 l2 : Acc shrinks l1 -> Acc shrinks l2 -> Acc shrinks (l1 ++ l2).
Proof.
  intros H1. revert l2. induction H1 as [l1 _ IH1]. intros l2 H2. induction H2 as [l2 H2 IH2].
  constructor. intros l [(l1' & Hs & ->)|(l2' & Hs & ->)]%shrinks_app; [|by apply IH2].
  apply IH1; [done|]. by constructor.
Qed.

Lemma shrinks_context a b l l' : shrinks l' l -> shrinks (a ++ l' ++ b) (a ++ l ++ b).
Proof.
  destruct 1 as [la p lb ok rep s]. pose proof (shrink (a ++ la) p (lb ++ b) ok rep s) as Hs.
  by rewrite <- !app_assoc in *.
Qed.

Lemma acc_split l1 l2 : Acc shrinks (l1 ++ l2) -> Acc shrinks l1 /\ Acc shrinks l2.
Proof.
  intros Hl. remember (l1 ++ l2) as l eqn:E. revert l1 l2 E. induction Hl as [l _ IH]. intros l1 l2 ->.
  split; constructor; intros l' Hs.
  - apply (IH (l' ++ l2)) with (l2 := l2); [|done]. apply (shrinks_context [] l2) in Hs. exact Hs.
  - apply (IH (l1 ++ l')) with (l1 := l1); [|done]. apply (shrinks_context l1 []) in Hs. by rewrite !app_nil_r in Hs.
Qed.

Lemma acc_nil : Acc shrinks [].
Proof. constructor. intros l Hs. remember [] as l0 eqn:E. destruct Hs. by destruct l. Qed.

Lemma acc_concat ls : Forall (fun p => Acc shrinks [p]) ls -> Acc shrinks ls.
Proof. induction 1 as [|p ls Hp _ IH]; [apply acc_nil|by apply (acc_app [p])]. Qed.

Lemma acc_single (p : task) :
  (forall ok rep s, Acc shrinks (left_over ok s (resume rep (projT2 p)))) -> Acc shrinks [p].
Proof.
  intros Hp. constructor. intros l Hs. remember [p] as l0 eqn:E. destruct Hs as [la q lb ok rep s].
  destruct la as [|? la]; [|by destruct la]. injection E as -> ->. rewrite app_nil_r. apply Hp.
Qed.

Lemma left_over_acc {A} (p : prog S A) : forall ok s, Acc shrinks (left_over ok s p).
Proof.
  unfold left_over.
  induction p as [A x|A k IH|A s1 k IH|A q k IH|A qs k IH|A k IH|A q k IH|A u IHu k IH]; intros ok s; cbn [advance].
  - apply acc_nil.
  - apply IH.
  - apply IH.
  - apply (acc_single (task_of (Fetch q k))). intros. apply IH.
  - apply (acc_single (task_of (FetchAll qs k))). intros. apply IH.
  - apply (acc_single (task_of (Wait k))). intros. apply IH.
  - apply IH.
  - specialize (IHu ok s). destruct (advance ok s u) as [[s1 r1] ts1].
    specialize (IH ok s1). destruct (advance ok s1 k) as [[s2 r2] ts2].
    rewrite !map_app. apply acc_split in IHu as [A1 A2], IH as [A3 A4].
    apply acc_app; [done|]. apply acc_app; [|done]. destruct r1; [|done]. by apply (acc_app (map task_of [p])).
Qed.

Lemma acc_task (p : task) : Acc shrinks [p].
Proof. apply acc_single. intros. apply left_over_acc. Qed.

(** A pending task is resumed; no handler starts. *)
Definition resumption (c' c : config S) : Prop := step (fun _ => False) c c'.

Theorem resumption_wf : well_founded resumption.
Proof.
  intros c. assert (Hacc : Acc shrinks (map task_of (tasks c))).
  { apply acc_concat, List.Forall_forall. intros. apply acc_task. }
  remember (map task_of (tasks c)) as l eqn:E. revert c E.
  induction Hacc as [l _ IH]. intros c ->. constructor. intros c' Hs.
  destruct Hs as [c h ok s' r ts []|c l p l' ok rep s' r ts E Ea]. eapply IH; [|reflexivity].
  rewrite E, map_app. cbn [map]. cbn [tasks]. rewrite !map_app.
  pose proof (shrink (map task_of l) (task_of p) (map task_of l') ok rep (state c)) as Hs.
  unfold left_over in Hs. cbn [task_of projT1 projT2] in Hs. rewrite Ea in Hs. by rewrite <- app_assoc in Hs.
Qed.

Lemma resumes (c : config S) : tasks c <> [] -> exists c', resumption c' c.
Proof.
  intros Hc. destruct (tasks c) as [|p l] eqn:E; [done|].
  destruct (advance true (state c) (resume (fun _ => Response 200 [] None) p)) as [[s' r] ts] eqn:Ea.
  eexists. by eapply (step_resume _ c [] p l).
Qed.

(** Whatever has been resumed so far, some sequence of resumptions ends all tasks. *)
Lemma comes_to_rest (c : config S) : exists c', rtc (flip resumption) c c' /\ tasks c' = [].
Proof.
  induction c as [c IH] using (well_founded_ind resumption_wf).
  destruct (decide (length (tasks c) = 0%nat)) as [E|E].
  - exists c. split; [done|]. by destruct (tasks c).
  - destruct (resumes c) as [c1 H1]; [by intros E'; rewrite E' in E|]. destruct (IH c1 H1) as (c' & Hr & Hc').
    exists c'. split; [|done]. by eapply rtc_l.
Qed.

Lemma resumption_reachable handlers (c c' : config S) :
  rtc (flip resumption) c c' -> reachable handlers c c'.
Proof.
  induction 1 as [|c c1 c2 Hs _ IH]; [apply rtc_refl|]. eapply rtc_l; [|exact IH].
  unfold flip, resumption in Hs. destruct Hs as [c h ok s' r ts []|]. by eapply step_resume.
Qed.

End Termination.

(** ** Debts

    [debt s] is what the state owes, if anything.  Ordinary writes ([W]) take on no debt;
    a handler may take one on, and its own task then pays it: when that task ends, or at
    some point before, the debt is [paid], and ordinary writes do not undo that. *)
Section Debts.
Context {S K : Type} (debt : S -> option K) (reached paid : K -> S -> Prop).
Context (W : S -> S -> Prop) `{!PreOrder W}.
Hypothesis debt_kept : forall k s s', W s s' -> debt s' = Some k -> debt s = Some k.
Hypothesis reached_kept : forall k s s', W s s' -> reached k s -> reached k s'.
Hypothesis paid_reached : forall k s, paid k s -> reached k s.
Hypothesis paid_debt : forall k s, paid k s -> debt s <> Some k.

Definition retains (k : K) (s s' : S) : Prop := (reached k s -> reached k s') /\ (paid k s -> paid k s').

#[local] Instance retains_preorder k : PreOrder (retains k).
Proof. split; unfold retains; [intros s|intros s1 s2 s3]; tauto. Qed.

Definition paying {A} (k : K) (s : S) (p : prog S A) : Prop := wp (retains k) (fun _ s' _ => paid k s') s s p.

(** A suspended task that pays [k]. *)
Definition pays (k : K) (p : prog S unit) : Prop :=
  forall rep s, reached k s -> paying k s (resume rep p).

Definition ordinary (p : prog S unit) : Prop := forall rep s, moves W s (resume rep p).

(** A handler without debts, or one whose first atomic part takes one on. *)
Inductive solvent (s : S) (h : prog S unit) : Prop :=
| solvent_ordinary : moves W s h -> solvent s h
| solvent_opens s1 k p :
    (forall ok, advance ok s h = advance ok s1 p) -> debt s1 = Some k -> reached k s1 ->
    moves W s1 p -> paying k s1 p -> solvent s h.

Lemma advance_moves {A} ok (p : prog S A) : forall s s' r ts,
  moves W s p -> advance ok s p = (s', r, ts) ->
  W s s' /\ (forall q, r = Some q -> forall rep t, moves W t (resume rep q)) /\ Forall ordinary ts.
Proof.
  induction p as [A x|A k IH|A s1 k IH|A q k IH|A qs k IH|A k IH|A q k IH|A u IHu k IH];
    intros s s' r ts Hp E; cbn [moves advance] in *.
  - injection E as <- <- <-. done.
  - by eapply IH.
  - destruct Hp as [Hw Hp]. edestruct IH as (H1 & H2 & H3); [exact Hp|exact E|]. split_and!; [by etrans|done..].
  - injection E as <- <- <-. split_and!; [done| |done]. intros ? [= <-] rep t. apply Hp.
  - injection E as <- <- <-. split_and!; [done| |done]. intros ? [= <-] rep t. apply Hp.
  - injection E as <- <- <-. split_and!; [done| |done]. intros ? [= <-] rep t. apply Hp.
  - by eapply IH.
  - destruct Hp as [Hu Hk]. destruct (advance ok s u) as [[s1 r1] ts1] eqn:E1.
    destruct (advance ok s1 k) as [[s2 r2] ts2] eqn:E2. injection E as <- <- <-.
    edestruct IHu as (R1 & Q1 & T1); [exact Hu|exact E1|].
    edestruct IH as (R2 & Q2 & T2); [apply Hk|exact E2|].
    split_and!; [by etrans|done|]. apply Forall_app. split; [|done].
    destruct r1 as [q|]; [|done]. constructor; [|done]. intros rep t. by apply Q1.
Qed.

Lemma advance_ends {A} (R : S -> S -> Prop) `{!PreOrder R} ok (p : prog S A) : forall Q s0 s s' ts,
  wp R Q s0 s p -> advance ok s p = (s', None, ts) -> exists s1 x, Q s1 s' x.
Proof.
  induction p as [A x|A k IH|A s1 k IH|A q k IH|A qs k IH|A k IH|A q k IH|A u IHu k IH];
    intros Q s0 s s' ts Hp E; cbn [wp advance] in *; try done; try by eapply IH.
  - injection E as <- <-. by exists s0, x.
  - destruct Hp as (H0 & Hu & Hk). destruct (advance ok s u) as [[s1 r1] ts1] eqn:E1.
    destruct (advance ok s1 k) as [[s2 r2] ts2] eqn:E2. injection E as <- -> <-.
    edestruct (advance_wp R ok u) as (R1 & _); [exact Hu|auto|exact E1|].
    eapply IH; [by apply Hk|exact E2].
Qed.

(** What a paying task leaves over still pays, unless the debt is gone. *)
Lemma advance_pays ok (p : prog S unit) k s s' r ts :
  paying k s p -> advance ok s p = (s', r, ts) -> debt s' = Some k -> exists q, r = Some q /\ pays k q.
Proof.
  intros Hp E Hd. destruct r as [q|].
  - exists q. split; [done|]. intros rep t Ht.
    edestruct (advance_wp (retains k) ok p) as (_ & Hq & _); [exact Hp| |exact E|].
    + intros a b x Hb. split; [intros _; by apply paid_reached|done].
    + apply (Hq q eq_refl). split; [done|]. intros Hb. by apply paid_debt in Hb.
  - edestruct (advance_ends (retains k) ok p) as (s1 & x & Hx); [exact Hp|exact E|]. by apply paid_debt in Hx.
Qed.

Definition ledger (c : config S) : Prop :=
  Forall ordinary (tasks c) /\
  forall k, debt (state c) = Some k -> reached k (state c) /\ exists p, p ∈ tasks c /\ pays k p.

Lemma ledger_step handlers c c' :
  (forall h s, handlers h -> solvent s h) -> ledger c -> step handlers c c' -> ledger c'.
Proof.
  intros Hh [Ho Hd] Hs.
  assert (Hnew : forall ok p s s' r ts, moves W s p -> advance ok s p = (s', r, ts) ->
    Forall ordinary (opt_list r ++ ts) /\ forall k, debt s' = Some k -> debt s = Some k /\ (reached k s -> reached k s')).
  { intros ok p s s' r ts Hp E. edestruct (advance_moves ok p) as (Hw & Hr & Ht); [exact Hp|exact E|].
    split; [|eauto]. apply Forall_app. split; [|done]. destruct r; [|done]. constructor; [|done]. intros rep t. by apply Hr. }
  destruct Hs as [c h ok s' r ts Hin E|c l p l' ok rep s' r ts E Ea].
  - destruct (Hh h (state c) Hin) as [Hm|s1 k p Ea Hk Hrk Hm Hp].
    + destruct (Hnew _ _ _ _ _ _ Hm E) as [Ht Hk]. split; cbn [tasks state]; [by apply Forall_app|].
      intros k Ek. apply Hk in Ek as [Ek Hr]. destruct (Hd k Ek) as (Hrk & q & Hq & Hp). split; [auto|].
      exists q. split; [set_solver|done].
    + rewrite Ea in E. destruct (Hnew _ _ _ _ _ _ Hm E) as [Ht Hk']. split; cbn [tasks state]; [by apply Forall_app|].
      intros k' Ek'. destruct (Hk' k' Ek') as [Ek1 Hr]. rewrite Hk in Ek1. injection Ek1 as <-. split; [auto|].
      destruct (advance_pays ok p k s1 s' r ts) as (q & -> & Hq); [done..|]. exists q. split; [set_solver|done].
  - rewrite E in Ho. apply Forall_app in Ho as [Hl Ho]. apply Forall_cons in Ho as [Hp Hl'].
    destruct (Hnew _ _ _ _ _ _ (Hp rep (state c)) Ea) as [Ht Hk]. apply Forall_app in Ht as [Ht1 Ht2].
    split; cbn [tasks state]; [rewrite !Forall_app; by split_and!|].
    intros k Ek. pose proof (Hk k Ek) as (Ek1 & Hr). destruct (Hd k Ek1) as (Hrk & q & Hq & Hpay). split; [auto|].
    rewrite E in Hq. apply elem_of_app in Hq as [Hq|[->|Hq]%elem_of_cons].
    + exists q. split; [set_solver|done].
    + destruct (advance_pays ok (resume rep p) k (state c) s' r ts) as (q & -> & Hq); [by apply Hpay|done|done|].
      exists q. split; [set_solver|done].
    + exists q. split; [set_solver|done].
Qed.

Theorem debts_paid handlers c c' :
  (forall h s, handlers h -> solvent s h) -> ledger c -> reachable handlers c c' ->
  ledger c' /\ (tasks c' = [] -> debt (state c') = None).
Proof.
  intros Hh Hl Hr. assert (Hl' : ledger c') by (induction Hr; eauto using ledger_step). split; [done|].
  intros Ht. destruct (debt (state c')) as [k|] eqn:E; [|done]. destruct Hl' as [_ Hd].
  destruct (Hd k E) as (_ & p & Hp & _). rewrite Ht in Hp. by apply elem_of_nil in Hp.
Qed.


End Debts.
