(* ===== verification/Page.v ===== *)
(** * Pages over a shared component

    A route of a client has signals of its own beside the state all routes share (the
    browser stores, the signals of the application).  Its handlers are programs over the
    pair of the two: [below p] runs a program of the shared state on the page, [on_page]
    and [page] write and read the page's signals. *)

From S2P Require Import Prelude JsString Json Client.

Section Page.
Context {S G : Type}.

(** A program of the shared state, on a page. *)
Definition below {A} (p : prog S A) : prog (S * G) A := instrument p.

Definition on_page (f : G -> G) : prog (S * G) unit := modify (fun s => (fst s, f (snd s))).

Definition page : prog (S * G) G := gets snd.

End Page.

(** [err instanceof Error ? err.message : d] *)
Definition error_text (e : js_error) (d : string) : jstr :=
  match e with JsError m _ => m | JsThrown _ => js d end.

(** [try { p } finally { f }] *)
Definition finally {S} (p : prog S unit) (f : prog S unit) : prog S unit :=
  _ ← pcatch p (fun e => _ ← f; lift (Throw e)); f.

(** ** Running a page *)

Section Runs.
Context {S G : Type}.

Lemma run_below {A} w t (s : S) (g : G) (p : prog S A) :
  run w t (s, g) (below p) = let '(r, s', t') := run w t s p in (r, (s', g), t').
Proof. apply run_instrument. Qed.

Lemma run_waits {T} w t (s : T) : run w t s wait = (Ok tt, s, t).
Proof. done. Qed.

Lemma run_on_page w t (s : S) (g : G) f : run w t (s, g) (on_page f) = (Ok tt, (s, f g), t).
Proof. done. Qed.

Lemma run_page {B} w t (s : S) (g : G) (k : G -> prog (S * G) B) : run w t (s, g) (page ≫= k) = run w t (s, g) (k g).
Proof. unfold page. by rewrite run_bind. Qed.

(** What a program that never throws leaves behind, with the [finally] clause run. *)
Lemma run_finally {T} w t (s : T) p f :
  run w t s (finally p f) =
  match run w t s p with
  | (Ok _, s', t') => run w t' s' f
  | (Throw e, s', t') => let '(r, s2, t2) := run w t' s' f in (match r with Ok _ => Throw e | Throw e' => Throw e' end, s2, t2)
  end.
Proof.
  unfold finally. rewrite run_bind, run_catch. destruct (run w t s p) as [[[[]|e] s'] t']; [done|].
  rewrite run_bind. destruct (run w t' s' f) as [[[[]|e'] s2] t2]; by rewrite ?bind_lift.
Qed.

(** Programs of the page alone: no request, no change of the shared state. *)
Definition page_only {A} (p : prog (S * G) A) : Prop :=
  forall w t s g, exists r g', run w t (s, g) p = (r, (s, g'), t).

Lemma page_only_bind {A B} (p : prog (S * G) A) (f : A -> prog (S * G) B) :
  page_only p -> (forall a, page_only (f a)) -> page_only (p ≫= f).
Proof.
  intros Hp Hf w t s g. rewrite run_bind. destruct (Hp w t s g) as ([a|e] & g' & ->); [|by do 2 eexists].
  apply Hf.
Qed.

Lemma page_only_catch {A} (p : prog (S * G) A) h :
  page_only p -> (forall e, page_only (h e)) -> page_only (pcatch p h).
Proof.
  intros Hp Hh w t s g. rewrite run_catch. destruct (Hp w t s g) as ([a|e] & g' & ->); [by do 2 eexists|].
  apply Hh.
Qed.

Lemma page_only_lift {A} (r : outcome A) : page_only (lift r).
Proof. intros w t s g. by do 2 eexists. Qed.
Lemma page_only_ret {A} (a : A) : page_only (mret a).
Proof. intros w t s g. by do 2 eexists. Qed.
Lemma page_only_wait : page_only wait.
Proof. intros w t s g. by do 2 eexists. Qed.
Lemma page_only_on_page (f : G -> G) : page_only (on_page f).
Proof. intros w t s g. by do 2 eexists. Qed.
Lemma page_only_page : page_only page.
Proof. intros w t s g. by do 2 eexists. Qed.

(** Writes of a shared program leave the page alone. *)
Lemma moves_below {A} (W : S * G -> S * G -> Prop) sg (p : prog S A) :
  (forall s s' g, W (s, g) (s', g)) -> moves W sg (below p).
Proof. apply moves_instrument. Qed.

(** A program that never writes, on a page. *)
Lemma moves_below_talks {A} (W : S * G -> S * G -> Prop) sg (p : prog S A) : talks p -> moves W sg (below p).
Proof.
  intros Hp. destruct sg as [s g]. specialize (Hp s). revert s g Hp. unfold below.
  induction p as [A r|A k IH|A s' k IH|A q k IH|A qs k IH|A k IH|A q k IH|A u IHu k IH];
    intros s g Hp; cbn [moves instrument fst snd] in *; auto; try done.
  - by destruct Hp.
  - intros r [s' g']. auto.
  - intros rs [s' g']. auto.
  - intros [s' g']. auto.
  - destruct Hp as [Hu Hk]. split; [by apply IHu|]. intros [s' g']. auto.
Qed.

Lemma moves_on_page (W : S * G -> S * G -> Prop) x f : W x (fst x, f (snd x)) -> moves W x (on_page f).
Proof. intros Hf. by apply moves_modify. Qed.

(** The shared state is as it was when no write of the program touches it. *)
Definition shared_kept (x y : S * G) : Prop := fst y = fst x.

Lemma run_kept {A} w t s g (p : prog (S * G) A) :
  (forall x, moves shared_kept x p) -> exists r g' t', run w t (s, g) p = (r, (s, g'), t').
Proof.
  intros Hp. pose proof (run_moves shared_kept w t (s, g) p (Hp _)) as Hr.
  destruct (run w t (s, g) p) as [[r [s' g']] t']. cbn [fst snd] in Hr.
  assert (Hk : shared_kept (s, g) (s', g')).
  { induction Hr as [x|x y z Hxy _ IH]; [done|]. unfold shared_kept in *. congruence. }
  unfold shared_kept in Hk. cbn in Hk. subst s'. by do 3 eexists.
Qed.

(** ... and it only adds requests. *)
Lemma run_kept_sends {A} w t s g (p : prog (S * G) A) :
  (forall x, moves shared_kept x p) ->
  exists r g' t' l, run w t (s, g) p = (r, (s, g'), t') /\ sent t' = sent t ++ l.
Proof.
  intros Hp. destruct (run_kept w t s g p Hp) as (r & g' & t' & R), (run_extends w t (s, g) p) as [l El].
  rewrite R in El. by exists r, g', t', l.
Qed.

End Runs.

(** ** Guarantees

    [guards R s0 s p]: [p], resumed at [s0] and now at [s], keeps to [R] up to its end,
    however it ends.  Composition needs nothing of the parts but the same. *)
Section Guards.
Context {S : Type} (R : S -> S -> Prop) `{!PreOrder R}.

Definition guards {A} (s0 s : S) (p : prog S A) : Prop := wp R (fun s0 s _ => R s0 s) s0 s p.

Lemma guards_respects {A} s (p : prog S A) : guards s s p -> respects R s p.
Proof. done. Qed.

Lemma guards_done {A} s0 s (r : outcome A) : R s0 s -> guards s0 s (Done r).
Proof. done. Qed.

Lemma guards_bind {A B} s0 s (p : prog S A) (f : A -> prog S B) :
  guards s0 s p -> (forall s0 s a, R s0 s -> guards s0 s (f a)) -> guards s0 s (p ≫= f).
Proof. intros Hp Hf. apply wp_bind. eapply wp_mono; [|exact Hp]. intros a b [x|e] Hab; [by apply Hf|done]. Qed.

Lemma guards_catch {A} s0 s (p : prog S A) h :
  guards s0 s p -> (forall s0 s e, R s0 s -> guards s0 s (h e)) -> guards s0 s (pcatch p h).
Proof. intros Hp Hh. apply wp_catch. eapply wp_mono; [|exact Hp]. intros a b [x|e] Hab; [done|by apply Hh]. Qed.

Lemma guards_finally s0 s p f :
  guards s0 s p -> (forall s0 s, R s0 s -> guards s0 s f) -> guards s0 s (finally p f).
Proof.
  intros Hp Hf. apply guards_bind; [|by intros; apply Hf]. apply guards_catch; [done|].
  intros a b e Hab. apply guards_bind; [by apply Hf|]. by intros.
Qed.

Lemma guards_moves {A} (W : S -> S -> Prop) s0 s (p : prog S A) :
  (forall s s', W s s' -> R s s') -> moves W s p -> R s0 s -> guards s0 s p.
Proof. intros HW Hp H0. eapply wp_moves; eauto. Qed.

Lemma moves_finally (W : S -> S -> Prop) s p f :
  moves W s p -> (forall s, moves W s f) -> moves W s (finally p f).
Proof.
  intros Hp Hf. apply moves_bind; [|intros; apply Hf]. apply moves_catch; [done|]. intros e s'.
  by apply moves_bind.
Qed.

End Guards.

Lemma guards_page {S G B} (R : S * G -> S * G -> Prop) s0 s (k : G -> prog (S * G) B) :
  guards R s0 s (k (snd s)) -> guards R s0 s (page ≫= k).
Proof. done. Qed.

Lemma guards_wait {S B} (R : S -> S -> Prop) s0 s (k : unit -> prog S B) :
  R s0 s -> (forall s', R s s' -> guards R s' s' (k tt)) -> guards R s0 s (wait ≫= k).
Proof. by split. Qed.

Lemma guards_lift {S A B} (R : S -> S -> Prop) s0 s (r : outcome A) (f : A -> prog S B) :
  R s0 s -> (forall a, r = Ok a -> guards R s0 s (f a)) -> guards R s0 s (lift r ≫= f).
Proof. intros H0 Hf. rewrite bind_lift. destruct r; [by apply Hf|done]. Qed.

Create HintDb page.
#[export] Hint Resolve page_only_bind page_only_catch page_only_lift page_only_ret page_only_wait page_only_on_page
  page_only_page : page.
