(* ===== verification/Api.v ===== *)
(** * The webmail API client

    webmail/src/api.ts, whole: the request core ([apiRequest]: URL, credentials,
    headers and their precedence, errors, empty replies) and every endpoint
    function.  The network is the [Fetch] effect of [Client]; the session tokens are
    read from the component state through the class [SessionStorage]. *)

From S2P Require Import Prelude JsString Encoding Json Wasm MessageCrypto Client.

(** [sessionStorage.getItem] on the component state. *)
Class SessionStorage (S : Type) := { session_get : S -> jstr -> option jstr }.

(** Build-time configuration: [VITE_API_BASE], and the page's origin. *)
Class Env := { apiBase : jstr; origin : option jstr }.

(** ** [encodeURIComponent] *)

Definition uri_unreserved (u : Z) : bool :=
  ascii_alnum u || bool_decide (u ∈ js "-_.!~*'()").

Definition upper_hex (d : Z) : Z := if d <? 10 then 48 + d else 55 + d.

Definition percent (b : Z) : jstr := [37; upper_hex (b / 16); upper_hex (b mod 16)].

Definition encode_unit (b : Z) : jstr := if uri_unreserved b then [b] else percent b.

(** A lone surrogate is a [URIError]. *)
Definition encodeURIComponent (s : jstr) : outcome jstr :=
  if well_formed s then Ok (concat (map encode_unit (TextEncoder_encode s)))
  else throw "URI malformed".

(** ** The request core *)

(** What the authenticator returns. *)
Record Assertion := { a_raw_id : bytes; a_signature : bytes; a_client_data : bytes }.

(** [navigator.credentials.get] on a challenge and the allowed credentials: an
    assertion, nothing, or a failure. *)
Definition Authenticator : Type := bytes -> option (list bytes) -> outcome (option Assertion).

Record RequestInit := {
  i_method : option jstr;
  i_headers : list (jstr * jstr);
  i_credentials : option jstr;
  i_body : payload;
}.

Definition no_init : RequestInit :=
  {| i_method := None; i_headers := []; i_credentials := None; i_body := NoBody |}.

(** Assigning a key of an object literal: an existing key keeps its place. *)
Fixpoint set_key {V} (k : jstr) (v : V) (o : list (jstr * V)) : list (jstr * V) :=
  match o with
  | [] => [(k, v)]
  | (k', v') :: o' => if jeqb k' k then (k, v) :: o' else (k', v') :: set_key k v o'
  end.

(** [{...a, ...b}] *)
Definition spread {V} (a b : list (jstr * V)) : list (jstr * V) :=
  fold_left (fun o kv => set_key (fst kv) (snd kv) o) b a.

Fixpoint lookup_key {V} (k : jstr) (o : list (jstr * V)) : option V :=
  match o with
  | [] => None
  | (k', v) :: o' => if jeqb k' k then Some v else lookup_key k o'
  end.

Definition truthy_opt (o : option jstr) : bool := match o with Some s => truthy s | None => false end.

Section Api.
Context {S : Type} `{SessionStorage S} `{Env}.

Definition bearer (token : jstr) : jstr := js "Bearer " ++ token.

(** The active session's token, else the impersonation token. *)
Definition authHeaders (s : S) : list (jstr * jstr) :=
  let impersonationToken := session_get s (js "byos_impersonation_token") in
  let activeToken := session_get s (js "byos_active_session_token") in
  if truthy_opt activeToken then [(js "Authorization", bearer (default [] activeToken))]
  else if truthy_opt impersonationToken then
    [(js "Authorization", bearer (default [] impersonationToken))]
  else [].

Definition api_fetch (s : S) (path : jstr) (init : RequestInit) : request := {|
  req_method := default (js "GET") (i_method init);
  req_url := apiBase ++ path;
  req_headers :=
    spread
      (spread [(js "Content-Type", js "application/json"); (js "X-BYOS-Client", js "webmail")]
              (authHeaders s))
      (i_headers init);
  req_credentials := default (js "include") (i_credentials init);
  req_body := i_body init;
|}.

(** What [apiRequest] makes of a reply; [None] is [undefined]. *)
Definition api_reply (r : reply) : outcome (option json) :=
  match r with
  | NetworkFailure e => Throw e
  | Response st _ data =>
      if negb (response_ok st) then
        let errorText := match response_text data with Ok t => t | Throw _ => [] end in
        Throw (JsError (or_default errorText (js "API error " ++ num st)) (Some st))
      else if st =? 204 then Ok None
      else v ← response_json data; Ok (Some v)
  end.

Definition apiRequest (path : jstr) (init : RequestInit) : prog S (option json) :=
  s ← gets (fun s => s);
  r ← fetch (api_fetch s path init);
  lift (api_reply r).

Definition send (m : string) (path : jstr) (body : payload) : prog S (option json) :=
  apiRequest path {| i_method := Some (js m); i_headers := []; i_credentials := None; i_body := body |}.

Definition get_json (path : jstr) : prog S (option json) := apiRequest path no_init.

Definition stringified (v : json) : payload := TextBody (JSON_stringify v).
Definition str_member (k : string) (v : jstr) : jstr * json := (js k, JStr v).

(** A member whose value may be [undefined]: then [JSON.stringify] omits it. *)
Definition opt_member (k : string) (v : option json) : list (jstr * json) :=
  match v with Some x => [(js k, x)] | None => [] end.

Definition or_null (v : option jstr) : json := match v with Some s => JStr s | None => JNull end.

(** [x || undefined] *)
Definition or_undefined (v : option jstr) : option json :=
  match v with Some s => if truthy s then Some (JStr s) else None | None => None end.

(** [res.p]: reading a property of [undefined] or [null] throws. *)
Definition member (res : option json) (p : string) : outcome (option json) :=
  match res with
  | None | Some JNull => throw "TypeError"
  | Some v => Ok (get v (js p))
  end.

(** [res.p || []] *)
Definition list_member (res : option json) (p : string) : outcome json :=
  v ← member res p;
  Ok (match v with Some x => if json_truthy x then x else JArr [] | None => JArr [] end).

(** [try { ...; return res.p || [] } catch { return [] }] *)
Definition fetch_list (path : jstr) (p : string) : prog S json :=
  pcatch (res ← get_json path; lift (list_member res p)) (fun _ => mret (JArr [])).

Definition mailbox_path (mailboxId : jstr) (rest : string) : jstr :=
  js "/v1/mailboxes/" ++ mailboxId ++ js rest.
Definition item_path (mailboxId : jstr) (rest : string) (id : jstr) : jstr :=
  mailbox_path mailboxId rest ++ id.

Definition void (p : prog S (option json)) : prog S unit := _ ← p; mret tt.

(** ** Session endpoints *)

Definition fetchCurrentUser : prog S (option json) :=
  pcatch (get_json (js "/v1/auth/me")) (fun _ => mret (Some JNull)).

Definition login (email password : jstr) : prog S (option json) :=
  send "POST" (js "/v1/auth/login")
    (stringified (JObj [str_member "email" email; str_member "password" password])).

Definition logout : prog S unit := void (send "POST" (js "/v1/auth/logout") NoBody).

Definition fetchMailboxes (orgId : jstr) : prog S json :=
  fetch_list (js "/v1/organizations/" ++ orgId ++ js "/mailboxes") "mailboxes".

(** ** Drafts and contacts *)

Definition fetchDrafts (mailboxId : jstr) : prog S json :=
  fetch_list (mailbox_path mailboxId "/drafts") "drafts".

Definition createDraft (mailboxId : jstr) (payload : json) : prog S (option json) :=
  send "POST" (mailbox_path mailboxId "/drafts") (stringified payload).

Definition deleteDraft (mailboxId draftId : jstr) : prog S unit :=
  void (send "DELETE" (item_path mailboxId "/drafts/" draftId) NoBody).

Definition updateDraft (mailboxId draftId : jstr) (payload : json) : prog S (option json) :=
  send "PUT" (item_path mailboxId "/drafts/" draftId) (stringified payload).

Definition fetchContacts (mailboxId : jstr) : prog S json :=
  fetch_list (mailbox_path mailboxId "/contacts") "contacts".

Definition createContact (mailboxId : jstr) (payload : json) : prog S (option json) :=
  send "POST" (mailbox_path mailboxId "/contacts") (stringified payload).

Definition updateContact (mailboxId contactId : jstr) (payload : json) : prog S (option json) :=
  send "PUT" (item_path mailboxId "/contacts/" contactId) (stringified payload).

Definition deleteContact (mailboxId contactId : jstr) : prog S unit :=
  void (send "DELETE" (item_path mailboxId "/contacts/" contactId) NoBody).

(** ** Folders and labels *)

Definition fetchFolders (mailboxId : jstr) : prog S json :=
  fetch_list (mailbox_path mailboxId "/folders") "folders".

Definition createFolder (mailboxId : jstr) (payload : json) : prog S (option json) :=
  send "POST" (mailbox_path mailboxId "/folders") (stringified payload).

Definition updateFolder (mailboxId folderId : jstr) (payload : json) : prog S (option json) :=
  send "PUT" (item_path mailboxId "/folders/" folderId) (stringified payload).

Definition deleteFolder (mailboxId folderId : jstr) : prog S unit :=
  void (send "DELETE" (item_path mailboxId "/folders/" folderId) NoBody).

Definition fetchLabels (mailboxId : jstr) : prog S json :=
  fetch_list (mailbox_path mailboxId "/labels") "labels".

Definition createLabel (mailboxId : jstr) (payload : json) : prog S (option json) :=
  send "POST" (mailbox_path mailboxId "/labels") (stringified payload).

Definition updateLabel (mailboxId labelId : jstr) (payload : json) : prog S (option json) :=
  send "PUT" (item_path mailboxId "/labels/" labelId) (stringified payload).

Definition deleteLabel (mailboxId labelId : jstr) : prog S unit :=
  void (send "DELETE" (item_path mailboxId "/labels/" labelId) NoBody).

(** ** Messages *)

Definition message_path (mailboxId messageId : jstr) (rest : string) : jstr :=
  item_path mailboxId "/messages/" messageId ++ js rest.

Definition updateMessageFolder (mailboxId messageId folder : jstr) (folderId : option jstr)
    : prog S (option json) :=
  send "PUT" (message_path mailboxId messageId "/folder")
    (stringified (JObj [str_member "folder" folder; (js "folder_id", or_null folderId)])).

Definition attachMessageLabel (mailboxId messageId labelId : jstr) : prog S (option json) :=
  send "POST" (message_path mailboxId messageId "/labels")
    (stringified (JObj [str_member "label_id" labelId])).

Definition detachMessageLabel (mailboxId messageId labelId : jstr) : prog S unit :=
  void (send "DELETE" (message_path mailboxId messageId "/labels/" ++ labelId) NoBody).

Definition setMessageRead (mailboxId messageId : jstr) (read : bool) : prog S unit :=
  void (send "PUT" (message_path mailboxId messageId "/read")
    (stringified (JObj [(js "read", JBool read)]))).

Definition fetchAttachments (mailboxId : jstr) : prog S json :=
  fetch_list (mailbox_path mailboxId "/attachments") "attachments".

Definition fetchMailboxDetail (mailboxId : jstr) : prog S (option json) :=
  get_json (mailbox_path mailboxId "").

Definition fetchMessages (mailboxId : jstr) : prog S json :=
  res ← get_json (mailbox_path mailboxId "/messages"); lift (list_member res "messages").

Definition fetchMessageBody (mailboxId messageId : jstr) : prog S (option json) :=
  get_json (message_path mailboxId messageId "/body").

(** ** Attachments: requests that do not go through [apiRequest] *)

Record File := { file_name : jstr; file_bytes : bytes }.
Record Blob := { blob_data : bytes; blob_type : jstr }.

Definition octet_stream : jstr := js "application/octet-stream".

(** [throw new Error(errorText || fallback)] *)
Definition failed (fallback : string) (st : Z) (data : option bytes) : js_error :=
  let errorText := match response_text data with Ok t => t | Throw _ => [] end in
  JsError (or_default errorText (js fallback ++ num st)) None.

Definition upload_request (mailboxId : jstr) (file : File) (ciphertext : bytes) (messageId : option jstr)
    : request := {|
  req_method := js "POST";
  req_url := apiBase ++ mailbox_path mailboxId "/attachments";
  req_headers := [];
  req_credentials := js "include";
  req_body := FormBody ((js "file", FormFile ciphertext octet_stream (file_name file)) ::
    (if truthy_opt messageId then [(js "message_id", FormText (default [] messageId))] else []));
|}.

Context `{Crypto}.

(** [nonce] is the crypto core's randomness. *)
Definition uploadEncryptedAttachment (nonce : bytes) (mailboxId : jstr) (file : File)
    (mailboxKey : bytes) (messageId : option jstr) : prog S json :=
  _ ← wait;
  ciphertextBytes ← lift (encryptAttachmentBytes nonce (file_bytes file) mailboxKey []);
  r ← fetch (upload_request mailboxId file ciphertextBytes messageId);
  lift (match r with
        | NetworkFailure e => Throw e
        | Response st _ data =>
            if negb (response_ok st) then
              Throw (failed "Failed to upload attachment: status " st data)
            else response_json data
        end).

Definition download_request (mailboxId attachmentId : jstr) : request := {|
  req_method := js "GET";
  req_url := apiBase ++ item_path mailboxId "/attachments/" attachmentId ++ js "?download=true";
  req_headers := [];
  req_credentials := js "include";
  req_body := NoBody;
|}.

Definition downloadAttachment (mailboxId attachmentId : jstr) : prog S Blob :=
  r ← fetch (download_request mailboxId attachmentId);
  lift (match r with
        | NetworkFailure e => Throw e
        | Response st ct data =>
            if negb (response_ok st) then
              Throw (failed "Failed to download attachment: status " st data)
            else match data with
                 | Some b => Ok {| blob_data := b; blob_type := ct |}
                 | None => throw "TypeError"
                 end
        end).

Definition downloadAndDecryptAttachment (mailboxId attachmentId : jstr) (mailboxKey : bytes)
    : prog S Blob :=
  encryptedBlob ← downloadAttachment mailboxId attachmentId;
  _ ← wait;
  decryptedBytes ← lift (decryptAttachmentBytes (blob_data encryptedBlob) mailboxKey []);
  mret {| blob_data := decryptedBytes; blob_type := blob_type encryptedBlob |}.

Definition deleteAttachment (mailboxId attachmentId : jstr) : prog S unit :=
  void (send "DELETE" (item_path mailboxId "/attachments/" attachmentId) NoBody).

Definition importEmail (mailboxId rawEmlB64 : jstr) (folder : option jstr) (isRead : option bool)
    : prog S (option json) :=
  send "POST" (mailbox_path mailboxId "/messages/import")
    (stringified (JObj [str_member "raw_eml" rawEmlB64;
       str_member "folder" (or_default (default [] folder) (js "inbox"));
       (js "is_read", JBool (default false isRead))])).

(** ** Outbound mail *)

Definition prepareOutbound (mailboxId : jstr) : prog S (option json) :=
  send "POST" (js "/v1/outbound/prepare") (stringified (JObj [str_member "mailbox_id" mailboxId])).

Definition fetchOutboundPubkey : prog S json :=
  res ← get_json (js "/v1/outbound/pubkey");
  pk ← lift (member res "outbound_delivery_pk");
  match pk with
  | Some v => if json_truthy v then mret v else pthrow "Outbound delivery key is not configured"
  | None => pthrow "Outbound delivery key is not configured"
  end.

Definition sendOutbound (payload : json) : prog S (option json) :=
  send "POST" (js "/v1/outbound/send") (stringified payload).

Definition scheduleOutbound (payload : json) : prog S (option json) :=
  send "POST" (js "/v1/outbound/schedule") (stringified payload).

(** ** Search *)

Definition searchMailboxTokens (mailboxId tokenHex : jstr) : prog S json :=
  token ← lift (encodeURIComponent tokenHex);
  res ← get_json (mailbox_path mailboxId "/search?token=" ++ token);
  lift (list_member res "message_ids").

Definition indexSearchToken (mailboxId messageId tokenHex : jstr) : prog S unit :=
  void (send "POST" (mailbox_path mailboxId "/search")
    (stringified (JObj [str_member "message_id" messageId; str_member "token" tokenHex]))).

(** ** Invitations, settings, sessions *)

Definition verifyInvitation (token : jstr) : prog S (option json) :=
  t ← lift (encodeURIComponent token);
  get_json (js "/v1/auth/invitations/verify?token=" ++ t).

Definition claimInvitation (req : json) : prog S (option json) :=
  send "POST" (js "/v1/auth/invitations/claim") (stringified req).

Definition fetchMailboxSettings (mailboxId : jstr) : prog S (option json) :=
  get_json (mailbox_path mailboxId "/settings").

Definition updateMailboxSettings (mailboxId : jstr) (settings : json) : prog S (option json) :=
  send "PUT" (mailbox_path mailboxId "/settings") (stringified settings).

Definition fetchActiveSessions : prog S json :=
  res ← get_json (js "/v1/auth/sessions"); lift (list_member res "sessions").

Definition revokeOtherSessions : prog S (option json) :=
  send "POST" (js "/v1/auth/sessions/revoke-others") NoBody.

Definition verifyAccountPassword (password : jstr) : prog S (option json) :=
  send "POST" (js "/v1/auth/verify-password") (stringified (JObj [str_member "password" password])).

Definition fetchAutoReplyRule (mailboxId : jstr) : prog S (option json) :=
  get_json (mailbox_path mailboxId "/auto-reply").

Definition updateAutoReplyRule (mailboxId : jstr) (rule : json) : prog S (option json) :=
  send "PUT" (mailbox_path mailboxId "/auto-reply") (stringified rule).

Definition listBridgeCredentials (mailboxId : jstr) : prog S json :=
  res ← get_json (mailbox_path mailboxId "/bridge/credentials"); lift (list_member res "credentials").

Definition createBridgeCredential (mailboxId label : jstr) : prog S (option json) :=
  send "POST" (mailbox_path mailboxId "/bridge/credentials") (stringified (JObj [str_member "label" label])).

Definition revokeBridgeCredential (mailboxId credentialId : jstr) : prog S unit :=
  void (send "DELETE" (item_path mailboxId "/bridge/credentials/" credentialId) NoBody).

Definition fetchMailboxAliases (mailboxId : jstr) : prog S json :=
  fetch_list (mailbox_path mailboxId "/aliases") "aliases".

(** ** Two-step verification *)

Definition fetch2FAStatus : prog S (option json) := get_json (js "/v1/auth/2fa/status").

Definition setupTOTP : prog S (option json) := send "POST" (js "/v1/auth/2fa/totp/setup") NoBody.

Definition verifyTOTP (secret code : jstr) : prog S (option json) :=
  send "POST" (js "/v1/auth/2fa/totp/verify")
    (stringified (JObj [str_member "secret" secret; str_member "code" code])).

Definition disableTOTP (password : jstr) : prog S (option json) :=
  send "POST" (js "/v1/auth/2fa/totp/disable") (stringified (JObj [str_member "password" password])).

Definition saveRecoveryMethods (recoveryEmail recoveryPhone : jstr) : prog S (option json) :=
  send "POST" (js "/v1/auth/2fa/recovery-methods")
    (stringified (JObj [str_member "recovery_email" recoveryEmail; str_member "recovery_phone" recoveryPhone])).

Definition changeAccountPassword (newPassword : jstr) : prog S unit :=
  void (send "POST" (js "/v1/auth/change-password")
    (stringified (JObj [str_member "new_password" newPassword]))).

(** ** Filters and address rules *)

Definition fetchFilters (mailboxId : jstr) : prog S (option json) :=
  get_json (mailbox_path mailboxId "/filters").

Definition createFilter (mailboxId : jstr) (filter : json) : prog S (option json) :=
  send "POST" (mailbox_path mailboxId "/filters") (stringified filter).

Definition updateFilter (mailboxId filterId : jstr) (filter : json) : prog S (option json) :=
  send "PUT" (item_path mailboxId "/filters/" filterId) (stringified filter).

Definition deleteFilter (mailboxId filterId : jstr) : prog S unit :=
  void (send "DELETE" (item_path mailboxId "/filters/" filterId) NoBody).

Definition fetchAddressRules (mailboxId : jstr) (listType : option jstr) : prog S (option json) :=
  if truthy_opt listType then
    t ← lift (encodeURIComponent (default [] listType));
    get_json (mailbox_path mailboxId "/address-rules?list_type=" ++ t)
  else get_json (mailbox_path mailboxId "/address-rules").

Definition createAddressRule (mailboxId : jstr) (rule : json) : prog S (option json) :=
  send "POST" (mailbox_path mailboxId "/address-rules") (stringified rule).

Definition deleteAddressRule (mailboxId ruleId : jstr) : prog S unit :=
  void (send "DELETE" (item_path mailboxId "/address-rules/" ruleId) NoBody).

(** ** Open tracking *)

Definition is_http (base : jstr) : bool :=
  starts_with (js "http://") base || starts_with (js "https://") base.

Definition getTrackingPixelUrl (token : jstr) : outcome jstr :=
  t ← encodeURIComponent token;
  let path := js "/v1/track/" ++ t ++ js ".gif" in
  Ok (if is_http apiBase then apiBase ++ path
      else if truthy_opt origin then default [] origin ++ apiBase ++ path
      else path).

Definition registerTracking (mailboxId trackingToken subject recipient : jstr) : prog S (option json) :=
  send "POST" (mailbox_path mailboxId "/tracking")
    (stringified (JObj [str_member "tracking_token" trackingToken; str_member "subject" subject;
                        str_member "recipient" recipient])).

Definition fetchTrackingList (mailboxId : jstr) : prog S (option json) :=
  get_json (mailbox_path mailboxId "/tracking").

Definition fetchTrackingItem (mailboxId token : jstr) : prog S (option json) :=
  t ← lift (encodeURIComponent token); get_json (item_path mailboxId "/tracking/" t).

(** ** Passkeys *)

Definition fetchPasskeyRegisterOptions : prog S (option json) :=
  get_json (js "/v1/auth/passkeys/register-options").

Definition registerPasskey (data : json) : prog S (option json) :=
  send "POST" (js "/v1/auth/passkeys/register") (stringified data).

Definition fetchPasskeyLoginOptions (email : option jstr) : prog S (option json) :=
  if truthy_opt email then
    e ← lift (encodeURIComponent (default [] email));
    get_json (js "/v1/auth/passkeys/login-options?email=" ++ e)
  else get_json (js "/v1/auth/passkeys/login-options").

Definition loginWithPasskey (data : json) : prog S (option json) :=
  send "POST" (js "/v1/auth/passkeys/login") (stringified data).

Definition listPasskeys : prog S (option json) := get_json (js "/v1/auth/passkeys").

Definition deletePasskey (id : jstr) : prog S unit :=
  void (send "DELETE" (js "/v1/auth/passkeys/" ++ id) NoBody).

(** ** Account recovery *)

Definition requestRecoveryChallenge (email method : jstr) : prog S (option json) :=
  send "POST" (js "/v1/auth/recovery/request")
    (stringified (JObj [str_member "email" email; str_member "method" method])).

Definition resetPasswordWithRecovery (challengeToken code newPassword : jstr)
    (newMailboxPk newWrappedSkUser : option jstr) : prog S (option json) :=
  send "POST" (js "/v1/auth/recovery/reset-password")
    (stringified (JObj ([str_member "challenge_token" challengeToken; str_member "code" code;
                         str_member "new_password" newPassword]
       ++ opt_member "new_mailbox_pk" (or_undefined newMailboxPk)
       ++ opt_member "new_wrapped_sk_user" (or_undefined newWrappedSkUser)))).

Definition reactivateHistoricalKeys (mailboxId wrappedSkUser : jstr) (mailboxPk : option jstr)
    : prog S (option json) :=
  send "POST" (mailbox_path mailboxId "/reactivate-keys")
    (stringified (JObj (str_member "wrapped_sk_user" wrappedSkUser ::
       opt_member "mailbox_pk" (or_undefined mailboxPk)))).

Definition verifyLogin2FA (challengeToken code : jstr) : prog S (option json) :=
  send "POST" (js "/v1/auth/2fa/verify-login")
    (stringified (JObj [str_member "challenge_token" challengeToken; str_member "code" code])).

Definition sendLogin2FACode (challengeToken method : jstr) : prog S (option json) :=
  send "POST" (js "/v1/auth/2fa/send-code")
    (stringified (JObj [str_member "challenge_token" challengeToken; str_member "method" method])).

Definition fetchRecoveryOptions (email : jstr) : prog S (option json) :=
  e ← lift (encodeURIComponent email);
  get_json (js "/v1/auth/recovery/options?email=" ++ e).

End Api.

(** ** Percent-encoding *)

(** The value of an upper- or lower-case hex digit pair after [%]. *)
Fixpoint percent_decode (s : jstr) : option bytes :=
  match s with
  | [] => Some []
  | u :: s1 =>
      if u =? 37 then
        match s1 with
        | a :: b :: s' =>
            match hex_val a, hex_val b, percent_decode s' with
            | Some x, Some y, Some bs => Some (x * 16 + y :: bs)
            | _, _, _ => None
            end
        | _ => None
        end
      else match percent_decode s1 with Some bs => Some (u :: bs) | None => None end
  end.

(** A character that has no meaning in a path or a query. *)
Definition uri_inert (u : Z) : bool := uri_unreserved u || (u =? 37).

Lemma percent_decode_unit b s bs :
  is_byte b -> percent_decode s = Some bs -> percent_decode (encode_unit b ++ s) = Some (b :: bs).
Proof.
  intros Hb E.
  pose proof (byte_check (fun b => match encode_unit b with
    | [u] => (u =? b) && negb (u =? 37)
    | [p; x; y] => (p =? 37) && match hex_val x, hex_val y with Some x, Some y => x * 16 + y =? b | _, _ => false end
    | _ => false end) ltac:(vm_compute; reflexivity) b Hb) as Hc. cbv beta in Hc.
  destruct (encode_unit b) as [|u [|x [|y [|]]]]; try done.
  - apply andb_true_iff in Hc as [->%Z.eqb_eq Hn%negb_true_iff]. cbn [app percent_decode]. by rewrite Hn, E.
  - apply andb_true_iff in Hc as [->%Z.eqb_eq Hc]. cbn [app percent_decode Z.eqb Pos.eqb].
    destruct (hex_val x), (hex_val y); try done. apply Z.eqb_eq in Hc as ->. by rewrite E.
Qed.

Lemma encode_unit_inert b : is_byte b -> forallb uri_inert (encode_unit b) = true.
Proof. intros Hb. byte_cases b Hb. Qed.

Lemma encode_units_decode bs :
  Forall is_byte bs ->
  percent_decode (concat (map encode_unit bs)) = Some bs /\
  forallb uri_inert (concat (map encode_unit bs)) = true.
Proof.
  induction 1 as [|b bs Hb _ [IH1 IH2]]; [done|]. cbn [map concat].
  rewrite forallb_app, encode_unit_inert, IH2 by done. split; [|done]. by apply percent_decode_unit.
Qed.

(** ** Headers *)

Lemma lookup_set_key {V} k k' (v : V) o :
  lookup_key k (set_key k' v o) = if jeqb k' k then Some v else lookup_key k o.
Proof.
  induction o as [|[k1 v1] o IH]; [done|]. cbn [set_key lookup_key].
  destruct (jeqb k1 k') eqn:E1.
  - apply jeqb_eq in E1 as ->. cbn [lookup_key]. by destruct (jeqb k' k).
  - cbn [lookup_key]. rewrite IH. destruct (jeqb k1 k) eqn:E2; [|done].
    destruct (jeqb k' k) eqn:E3; [|done]. apply jeqb_eq in E2, E3. subst.
    by rewrite (proj2 (jeqb_eq k k)) in E1.
Qed.

(** The last assignment wins. *)
Lemma lookup_spread {V} k (a b : list (jstr * V)) :
  lookup_key k (spread a b) =
  match lookup_key k (reverse b) with Some v => Some v | None => lookup_key k a end.
Proof.
  unfold spread. revert a. induction b as [|[k' v] b IH] using rev_ind; intros a; [done|].
  rewrite fold_left_app, reverse_app, reverse_singleton. cbn [fold_left app lookup_key fst snd].
  rewrite lookup_set_key, IH. by destruct (jeqb k' k).
Qed.

(** ** Endpoints issue at most one request *)

Section Endpoints.
Context {S : Type} `{SessionStorage S} `{HE : Env}.

(** Touches neither the state nor the network. *)
Definition quiet {A} (p : prog S A) : Prop := forall w t s, exists r, run w t s p = (r, s, t).

(** A request to the API with the session cookie. *)
Definition api_url (q : request) : Prop :=
  req_credentials q = js "include" /\ exists rest, req_url q = apiBase ++ js "/v1/" ++ rest.

(** Leaves the state alone and sends at most one request, to the API. *)
Definition single {A} (p : prog S A) : Prop := forall w t s,
  exists r qs, run w t s p = (r, s, {| sent := sent t ++ qs; asked := asked t |}) /\
    (length qs <= 1)%nat /\ Forall api_url qs.

Lemma quiet_lift {A} (r : outcome A) : quiet (lift r : prog S A).
Proof. intros w t s. by exists r. Qed.

Lemma quiet_ret {A} (a : A) : quiet (mret a : prog S A).
Proof. intros w t s. by exists (Ok a). Qed.

Lemma quiet_single {A} (p : prog S A) : quiet p -> single p.
Proof.
  intros Hq w t s. destruct (Hq w t s) as [r ->]. exists r, []. rewrite app_nil_r.
  split_and!; [by destruct t|simpl; lia|done].
Qed.

Lemma single_bind_quiet {A B} (p : prog S A) (f : A -> prog S B) :
  single p -> (forall a, quiet (f a)) -> single (p ≫= f).
Proof.
  intros Hp Hf w t s. destruct (Hp w t s) as (r & qs & E & Hl & Hq). rewrite run_bind, E.
  destruct r as [a|e]; [|by exists (Throw e), qs].
  destruct (Hf a w {| sent := sent t ++ qs; asked := asked t |} s) as [r ->]. by exists r, qs.
Qed.

Lemma single_lift_bind {A B} (r : outcome A) (f : A -> prog S B) :
  (forall a, single (f a)) -> single (lift r ≫= f).
Proof.
  intros Hf. rewrite bind_lift. destruct r; [done|]. apply quiet_single. intros w t s. by eexists.
Qed.

Lemma single_catch {A} (p : prog S A) h :
  single p -> (forall e, quiet (h e)) -> single (pcatch p h).
Proof.
  intros Hp Hh w t s. destruct (Hp w t s) as (r & qs & E & Hl & Hq). rewrite run_catch, E.
  destruct r as [a|e]; [by exists (Ok a), qs|].
  destruct (Hh e w {| sent := sent t ++ qs; asked := asked t |} s) as [r ->]. by exists r, qs.
Qed.

Lemma single_fetch {B} q (f : reply -> prog S B) :
  api_url q -> (forall r, quiet (f r)) -> single (fetch q ≫= f).
Proof.
  intros Hq Hf. apply single_bind_quiet; [|done]. intros w t s.
  eexists _, [q]. split; [done|]. split; [simpl; lia|by constructor].
Qed.

Lemma run_apiRequest path init w t s :
  let q := api_fetch s path init in
  run w t s (apiRequest path init) =
  (api_reply (respond w t q), s, {| sent := sent t ++ [q]; asked := asked t |}).
Proof. done. Qed.

(** Sends exactly one request, made from the state. *)
Definition sends_one {A} (f : S -> request) (p : prog S A) : Prop := forall w t s,
  exists r, run w t s p = (r, s, {| sent := sent t ++ [f s]; asked := asked t |}).

Lemma sends_one_send m path body :
  sends_one (fun s => api_fetch s path
    {| i_method := Some (js m); i_headers := []; i_credentials := None; i_body := body |}) (send m path body).
Proof. intros w t s. unfold send. rewrite run_apiRequest. by eexists. Qed.

Lemma sends_one_then {A B} f (p : prog S A) (k : A -> prog S B) :
  sends_one f p -> (forall a, quiet (k a)) -> sends_one f (p ≫= k).
Proof.
  intros Hp Hk w t s. rewrite run_bind. destruct (Hp w t s) as [r ->].
  destruct r as [a|e]; [|by eexists]. by destruct (Hk a w {| sent := sent t ++ [f s]; asked := asked t |} s) as [r ->]; eexists.
Qed.

Lemma talks_apiRequest path init : talks (apiRequest (S:=S) path init).
Proof. unfold apiRequest. auto with talks. Qed.

Lemma talks_send m path body : talks (send (S:=S) m path body).
Proof. apply talks_apiRequest. Qed.

Lemma talks_get path : talks (get_json (S:=S) path).
Proof. apply talks_apiRequest. Qed.

Lemma talks_void p : talks p -> talks (void (S:=S) p).
Proof. unfold void. auto with talks. Qed.

Lemma talks_fetch_list path p : talks (fetch_list (S:=S) path p).
Proof. unfold fetch_list. auto using talks_get with talks. Qed.

Lemma single_api path init rest :
  path = js "/v1/" ++ rest -> i_credentials init = None -> single (apiRequest path init).
Proof.
  intros -> Hc w t s. rewrite run_apiRequest. eexists _, [_]. split; [done|].
  split; [simpl; lia|]. constructor; [|done]. unfold api_url, api_fetch. cbn [req_credentials req_url].
  rewrite Hc. split; [done|]. by exists rest.
Qed.

Lemma single_send m path body rest : path = js "/v1/" ++ rest -> single (send m path body).
Proof. intros. by eapply single_api. Qed.

Lemma single_get path rest : path = js "/v1/" ++ rest -> single (get_json path).
Proof. intros. by eapply single_api. Qed.

Lemma single_void p : single p -> single (void p).
Proof. intros. apply single_bind_quiet; [done|]. intros. apply quiet_ret. Qed.

Lemma single_fetch_list path p rest : path = js "/v1/" ++ rest -> single (fetch_list path p).
Proof.
  intros. apply single_catch; [|intros; apply quiet_ret].
  apply single_bind_quiet; [by eapply single_get|]. intros. apply quiet_lift.
Qed.

(** Whatever the server does, a list endpoint returns a value. *)
Lemma fetch_list_total path p w t s :
  exists v, fst (fst (run w t s (fetch_list path p))) = Ok v.
Proof.
  unfold fetch_list. rewrite run_catch.
  destruct (run w t s _) as [[[v|e] s1] t1]; cbn [fst]; [by exists v|by eexists].
Qed.

End Endpoints.

#[export] Hint Resolve talks_apiRequest talks_send talks_get talks_void talks_fetch_list : talks.


(** Splits a path literal from its first segment. *)
Ltac v1_path := unfold mailbox_path, item_path, message_path, mailbox_path, item_path;
  rewrite <- ?app_assoc; reflexivity.

Ltac single_endpoint :=
  repeat first
    [ eapply single_send; v1_path
    | eapply single_get; v1_path
    | eapply single_fetch_list; v1_path
    | apply single_void
    | apply single_lift_bind; intros ?
    | apply single_catch; [|intros ?; apply quiet_ret]
    | apply single_bind_quiet; [|intros ?; apply quiet_lift] ].

Section EndpointTable.
Context {S : Type} `{SessionStorage S} `{HE : Env} `{HC : Crypto}.

Definition ignore {A} (p : prog S A) : prog S unit := _ ← p; mret tt.

Lemma single_ignore {A} (p : prog S A) : single p -> single (ignore p).
Proof. intros. apply single_bind_quiet; [done|]. intros. apply quiet_ret. Qed.

Lemma single_wait {B} (f : unit -> prog S B) : single (f tt) -> single (wait ≫= f).
Proof. intros Hf. exact Hf. Qed.

(** Every endpoint function of api.ts, on arbitrary arguments. *)
Definition endpoints (a b c d : jstr) (o o' : option jstr) (flag : bool) (fl : option bool) (v : json)
    (nonce key : bytes) (file : File) : list (prog S unit) :=
  [ ignore fetchCurrentUser; ignore (login a b); logout; ignore (fetchMailboxes a);
    ignore (fetchDrafts a); ignore (createDraft a v); deleteDraft a b; ignore (updateDraft a b v);
    ignore (fetchContacts a); ignore (createContact a v); ignore (updateContact a b v); deleteContact a b;
    ignore (fetchFolders a); ignore (createFolder a v); ignore (updateFolder a b v); deleteFolder a b;
    ignore (fetchLabels a); ignore (createLabel a v); ignore (updateLabel a b v); deleteLabel a b;
    ignore (updateMessageFolder a b c o); ignore (attachMessageLabel a b c); detachMessageLabel a b c;
    setMessageRead a b flag; ignore (fetchAttachments a); ignore (fetchMailboxDetail a);
    ignore (fetchMessages a); ignore (fetchMessageBody a b);
    ignore (uploadEncryptedAttachment nonce a file key o); ignore (downloadAttachment a b);
    ignore (downloadAndDecryptAttachment a b key); deleteAttachment a b; ignore (importEmail a b o fl);
    ignore (prepareOutbound a); ignore fetchOutboundPubkey; ignore (sendOutbound v);
    ignore (scheduleOutbound v); ignore (searchMailboxTokens a b); indexSearchToken a b c;
    ignore (verifyInvitation a); ignore (claimInvitation v); ignore (fetchMailboxSettings a);
    ignore (updateMailboxSettings a v); ignore fetchActiveSessions; ignore revokeOtherSessions;
    ignore (verifyAccountPassword a); ignore (fetchAutoReplyRule a); ignore (updateAutoReplyRule a v);
    ignore (listBridgeCredentials a); ignore (createBridgeCredential a b); revokeBridgeCredential a b;
    ignore (fetchMailboxAliases a); ignore fetch2FAStatus; ignore setupTOTP; ignore (verifyTOTP a b);
    ignore (disableTOTP a); ignore (saveRecoveryMethods a b); changeAccountPassword a;
    ignore (fetchFilters a); ignore (createFilter a v); ignore (updateFilter a b v); deleteFilter a b;
    ignore (fetchAddressRules a o); ignore (createAddressRule a v); deleteAddressRule a b;
    ignore (registerTracking a b c d); ignore (fetchTrackingList a); ignore (fetchTrackingItem a b);
    ignore fetchPasskeyRegisterOptions; ignore (registerPasskey v); ignore (fetchPasskeyLoginOptions o);
    ignore (loginWithPasskey v); ignore listPasskeys; deletePasskey a;
    ignore (requestRecoveryChallenge a b); ignore (resetPasswordWithRecovery a b c o o');
    ignore (reactivateHistoricalKeys a b o); ignore (verifyLogin2FA a b); ignore (sendLogin2FACode a b);
    ignore (fetchRecoveryOptions a) ].

Lemma single_pubkey : single fetchOutboundPubkey.
Proof.
  apply single_bind_quiet; [by single_endpoint|]. intros res. rewrite bind_lift.
  destruct (member _ _) as [[v|]|]; intros w t s; [destruct (json_truthy v)| |]; by eexists.
Qed.

Lemma single_upload nonce a file key o : single (S:=S) (uploadEncryptedAttachment nonce a file key o).
Proof.
  apply single_wait, single_lift_bind. intros ct. apply single_fetch; [|intros; apply quiet_lift].
  unfold api_url, upload_request. cbn [req_credentials req_url]. split; [done|].
  eexists. unfold mailbox_path. rewrite <- ?app_assoc. reflexivity.
Qed.

Lemma single_download a b : single (S:=S) (downloadAttachment a b).
Proof.
  apply single_fetch; [|intros; apply quiet_lift].
  unfold api_url, download_request. cbn [req_credentials req_url]. split; [done|].
  eexists. unfold item_path, mailbox_path. rewrite <- ?app_assoc. reflexivity.
Qed.

Lemma single_download_decrypt a b key : single (S:=S) (downloadAndDecryptAttachment a b key).
Proof.
  apply single_bind_quiet; [apply single_download|]. intros blob w t s.
  rewrite run_bind. cbn [wait run]. rewrite bind_lift. destruct (decryptAttachmentBytes _ _ _); by eexists.
Qed.

(** ** Properties *)

(** The request core.  [apiRequest] leaves the state alone and sends one
    request, to the API base, whose authorization is the caller's, else the active
    session's, else the impersonation token's, else none; a rejected [fetch] is
    rethrown, an error status becomes an [Error] carrying the status and the body
    text (or a stock message), 204 becomes [undefined], and any other success is
    the parsed body or a thrown parse error. *)
Theorem api_request_spec path init w t s :
  let q := api_fetch s path init in
  let r := respond w t q in
  run w t s (apiRequest path init) = (api_reply r, s, {| sent := sent t ++ [q]; asked := asked t |}) /\
  lookup_key (js "Authorization") (req_headers q) =
    match lookup_key (js "Authorization") (reverse (i_headers init)) with
    | Some h => Some h
    | None =>
        match session_get s (js "byos_active_session_token") with
        | Some ((_ :: _) as tok) => Some (js "Bearer " ++ tok)
        | _ =>
            match session_get s (js "byos_impersonation_token") with
            | Some ((_ :: _) as tok) => Some (js "Bearer " ++ tok)
            | _ => None
            end
        end
    end /\
  match r, api_reply r with
  | NetworkFailure e, res => res = Throw e
  | Response st _ data, Ok None => st = 204
  | Response st _ data, Ok (Some v) =>
      200 <= st <= 299 /\ st <> 204 /\ exists b, data = Some b /\ JSON_parse (TextDecoder_decode b) = Ok v
  | Response st _ data, Throw e =>
      (~ 200 <= st <= 299 /\ status e = Some st /\ message e <> []) \/
      (200 <= st <= 299 /\ st <> 204 /\ status e = None)
  end.
Proof.
  intros q r. split; [done|]. split.
  - unfold q, api_fetch. cbn [req_headers]. rewrite lookup_spread.
    destruct (lookup_key _ (reverse (i_headers init))); [done|]. rewrite lookup_spread. unfold authHeaders.
    destruct (session_get s (js "byos_active_session_token")) as [[|? ?]|]; try done;
      destruct (session_get s (js "byos_impersonation_token")) as [[|? ?]|]; done.
  - destruct r as [e|st ct data]; [done|]. unfold api_reply, response_ok.
    destruct (negb _) eqn:Eok.
    { left. split; [lia|]. split; [done|]. unfold or_default. cbn [message].
      destruct (match response_text data with Ok t => t | Throw _ => [] end); done. }
    destruct (Z.eqb_spec st 204); [done|]. unfold response_json.
    destruct data as [b|]; cbn [response_text]; [|right; split_and!; (lia || done)]. ok_bind.
    destruct (JSON_parse _) as [v|e] eqn:E; ok_bind.
    + split_and!; [lia|lia|done|]. eauto.
    + right. split_and!; [lia|lia|done|].
      unfold JSON_parse in E. destruct (parse_value _ _) as [[? ?]|]; [case_match|]; by inversion E.
Qed.

(** Every endpoint of the webmail client sends at most one request, under
    [/v1/] of the API base and with the session cookie, and leaves the client state
    unchanged, whatever its arguments and the replies are. *)
Theorem endpoints_single_request a b c d o o' flag fl v nonce key file :
  Forall single (endpoints a b c d o o' flag fl v nonce key file).
Proof.
  unfold endpoints.
  repeat (apply Forall_cons; split;
    [try apply single_ignore;
     first [ apply single_pubkey | apply single_upload | apply single_download
           | apply single_download_decrypt
           | unfold fetchAddressRules, fetchPasskeyLoginOptions; destruct (truthy_opt o); single_endpoint
           | single_endpoint ]; fail|]).
  apply Forall_nil. exact I.
Qed.

(** The folder, label, draft, contact, attachment, alias and mailbox lists
    never throw: on a network failure, an error status, an unreadable or malformed
    body, or a missing member they are the empty list. *)
Theorem list_endpoints_never_throw (mailboxId orgId : jstr) w t s :
  Forall (fun p : prog S json => exists v, fst (fst (run w t s p)) = Ok v)
    [fetchMailboxes orgId; fetchDrafts mailboxId; fetchContacts mailboxId; fetchFolders mailboxId;
     fetchLabels mailboxId; fetchAttachments mailboxId; fetchMailboxAliases mailboxId] /\
  (forall path p e, respond w t (api_fetch s path no_init) = NetworkFailure e ->
     fst (fst (run w t s (fetch_list path p))) = Ok (JArr [])).
Proof.
  split; [repeat (apply Forall_cons; split; [apply fetch_list_total|]); by apply Forall_nil|].
  intros path p e E. unfold fetch_list, get_json. rewrite run_catch, run_bind, run_apiRequest, E. done.
Qed.

(** Uploads and downloads build their own request: no session token is sent. *)
Example attachments_unauthenticated (s : S) mailboxId attachmentId file ct o :
  lookup_key (js "Authorization") (req_headers (download_request mailboxId attachmentId)) = None /\
  lookup_key (js "Authorization") (req_headers (upload_request mailboxId file ct o)) = None.
Proof. done. Qed.

End EndpointTable.

(** Query and path parameters are encoded safely: for every well-formed
    string [encodeURIComponent] succeeds, its output contains only characters with
    no meaning in a URL, and percent-decoding it gives back the string; a lone
    surrogate is an error. *)
Theorem encodeURIComponent_spec (s : jstr) :
  Forall is_unit s ->
  match encodeURIComponent s with
  | Ok e => well_formed s = true /\ forallb uri_inert e = true /\
      percent_decode e = Some (TextEncoder_encode s) /\
      (no_bom s = true -> TextDecoder_decode <$> percent_decode e = Some s)
  | Throw _ => well_formed s = false
  end.
Proof.
  intros Hs. unfold encodeURIComponent. destruct (well_formed s) eqn:Ew; [|done].
  destruct (encode_units_decode (TextEncoder_encode s)) as [E Hi]; [by apply TextEncoder_bytes|].
  split_and!; [done|done|done|]. intros Hb. rewrite E. simpl. by rewrite text_round_trip.
Qed.

Lemma encodeURIComponent_spec_witness :
  encodeURIComponent (js "a b&c=d/e") = Ok (js "a%20b%26c%3Dd%2Fe") /\
  percent_decode (js "a%20b%26c%3Dd%2Fe") = Some (js "a b&c=d/e").
Proof.
  split; [vm_compute; reflexivity|].
  pose proof (encodeURIComponent_spec (js "a b&c=d/e") ltac:(by_decide)) as Hs.
  destruct (encodeURIComponent (js "a b&c=d/e")) as [e|] eqn:E; vm_compute in E; [|discriminate].
  injection E as <-. exact (proj1 (proj2 (proj2 Hs))).
Defined.
