(* ===== verification/AppState.v ===== *)
(** * The state of the webmail component

    webmail/src/App.tsx keeps its state in some eighty reactive signals and in the
    two browser stores.  They are the fields of [App], grouped by concern; the
    setters are the signals' setters.  Signals that only open and close dialogs are left
    out. *)

From S2P Require Import Prelude JsString Json Wasm MessageCrypto Client Api.

(** A mailbox as the session knows it. *)
Record Mailbox := {
  mb_id : jstr;
  mb_local_part : jstr;
  mb_domain_id : jstr;
  mb_mode : jstr;
  mb_wrapped_sk_user : option jstr;
}.

(** The signed-in user. *)
Record UserMe := {
  u_id : option jstr;
  u_user_id : jstr;
  u_email : jstr;
  u_org_id : jstr;
  u_role : jstr;
  u_display_name : option jstr;
  u_mailbox_id : option jstr;
  u_mailbox_local_part : option jstr;
  u_mailbox_mode : option jstr;
  u_wrapped_sk_user : option jstr;
}.

Definition set_u_wrapped_sk_user (v : option jstr) (x : UserMe) : UserMe :=
  {| u_id := u_id x; u_user_id := u_user_id x; u_email := u_email x; u_org_id := u_org_id x;
     u_role := u_role x; u_display_name := u_display_name x; u_mailbox_id := u_mailbox_id x;
     u_mailbox_local_part := u_mailbox_local_part x; u_mailbox_mode := u_mailbox_mode x;
     u_wrapped_sk_user := v |}.

(** One entry of the account switcher. *)
Record ConnectedAccount := {
  acc_id : jstr;
  acc_email : jstr;
  displayName : jstr;
  acc_role : jstr;
  privacyMode : jstr;
  sessionToken : jstr;
  mailboxSkHex : jstr;
  searchKeyHex : jstr;
}.

(** A row of the message list. *)
Record DisplayMessage := {
  id : jstr;
  messageSeq : option Z;
  version : option Z;
  folder : jstr;
  folderId : option jstr;
  labelIds : option (list jstr);
  sender : jstr;
  recipient : jstr;
  subject : jstr;
  snippet : jstr;
  encryptedBody : jstr;
  date : jstr;
  read : bool;
  starred : bool;
  isRealApi : bool;
  messageId : option jstr;
  hasAttachments : bool;
  attachmentCount : Z;
  attachmentTypes : list jstr;
  trackingToken : option jstr;
  trackingInfo : option (Z * option jstr * option jstr);
}.

Definition set_folder (v : jstr) (x : DisplayMessage) : DisplayMessage :=
  {| id := id x; messageSeq := messageSeq x; version := version x; folder := v; folderId :=
     folderId x; labelIds := labelIds x; sender := sender x; recipient := recipient x; subject
     := subject x; snippet := snippet x; encryptedBody := encryptedBody x; date := date x; read
     := read x; starred := starred x; isRealApi := isRealApi x; messageId := messageId x;
     hasAttachments := hasAttachments x; attachmentCount := attachmentCount x; attachmentTypes
     := attachmentTypes x; trackingToken := trackingToken x; trackingInfo := trackingInfo x |}.
Definition set_folderId (v : option jstr) (x : DisplayMessage) : DisplayMessage :=
  {| id := id x; messageSeq := messageSeq x; version := version x; folder := folder x; folderId
     := v; labelIds := labelIds x; sender := sender x; recipient := recipient x; subject :=
     subject x; snippet := snippet x; encryptedBody := encryptedBody x; date := date x; read :=
     read x; starred := starred x; isRealApi := isRealApi x; messageId := messageId x;
     hasAttachments := hasAttachments x; attachmentCount := attachmentCount x; attachmentTypes
     := attachmentTypes x; trackingToken := trackingToken x; trackingInfo := trackingInfo x |}.
Definition set_labelIds (v : option (list jstr)) (x : DisplayMessage) : DisplayMessage :=
  {| id := id x; messageSeq := messageSeq x; version := version x; folder := folder x; folderId
     := folderId x; labelIds := v; sender := sender x; recipient := recipient x; subject :=
     subject x; snippet := snippet x; encryptedBody := encryptedBody x; date := date x; read :=
     read x; starred := starred x; isRealApi := isRealApi x; messageId := messageId x;
     hasAttachments := hasAttachments x; attachmentCount := attachmentCount x; attachmentTypes
     := attachmentTypes x; trackingToken := trackingToken x; trackingInfo := trackingInfo x |}.
Definition set_recipient (v : jstr) (x : DisplayMessage) : DisplayMessage :=
  {| id := id x; messageSeq := messageSeq x; version := version x; folder := folder x; folderId
     := folderId x; labelIds := labelIds x; sender := sender x; recipient := v; subject :=
     subject x; snippet := snippet x; encryptedBody := encryptedBody x; date := date x; read :=
     read x; starred := starred x; isRealApi := isRealApi x; messageId := messageId x;
     hasAttachments := hasAttachments x; attachmentCount := attachmentCount x; attachmentTypes
     := attachmentTypes x; trackingToken := trackingToken x; trackingInfo := trackingInfo x |}.
Definition set_subject (v : jstr) (x : DisplayMessage) : DisplayMessage :=
  {| id := id x; messageSeq := messageSeq x; version := version x; folder := folder x; folderId
     := folderId x; labelIds := labelIds x; sender := sender x; recipient := recipient x;
     subject := v; snippet := snippet x; encryptedBody := encryptedBody x; date := date x; read
     := read x; starred := starred x; isRealApi := isRealApi x; messageId := messageId x;
     hasAttachments := hasAttachments x; attachmentCount := attachmentCount x; attachmentTypes
     := attachmentTypes x; trackingToken := trackingToken x; trackingInfo := trackingInfo x |}.
Definition set_snippet (v : jstr) (x : DisplayMessage) : DisplayMessage :=
  {| id := id x; messageSeq := messageSeq x; version := version x; folder := folder x; folderId
     := folderId x; labelIds := labelIds x; sender := sender x; recipient := recipient x;
     subject := subject x; snippet := v; encryptedBody := encryptedBody x; date := date x; read
     := read x; starred := starred x; isRealApi := isRealApi x; messageId := messageId x;
     hasAttachments := hasAttachments x; attachmentCount := attachmentCount x; attachmentTypes
     := attachmentTypes x; trackingToken := trackingToken x; trackingInfo := trackingInfo x |}.
Definition set_encryptedBody (v : jstr) (x : DisplayMessage) : DisplayMessage :=
  {| id := id x; messageSeq := messageSeq x; version := version x; folder := folder x; folderId
     := folderId x; labelIds := labelIds x; sender := sender x; recipient := recipient x;
     subject := subject x; snippet := snippet x; encryptedBody := v; date := date x; read :=
     read x; starred := starred x; isRealApi := isRealApi x; messageId := messageId x;
     hasAttachments := hasAttachments x; attachmentCount := attachmentCount x; attachmentTypes
     := attachmentTypes x; trackingToken := trackingToken x; trackingInfo := trackingInfo x |}.
Definition set_date (v : jstr) (x : DisplayMessage) : DisplayMessage :=
  {| id := id x; messageSeq := messageSeq x; version := version x; folder := folder x; folderId
     := folderId x; labelIds := labelIds x; sender := sender x; recipient := recipient x;
     subject := subject x; snippet := snippet x; encryptedBody := encryptedBody x; date := v;
     read := read x; starred := starred x; isRealApi := isRealApi x; messageId := messageId x;
     hasAttachments := hasAttachments x; attachmentCount := attachmentCount x; attachmentTypes
     := attachmentTypes x; trackingToken := trackingToken x; trackingInfo := trackingInfo x |}.
Definition set_version (v : option Z) (x : DisplayMessage) : DisplayMessage :=
  {| id := id x; messageSeq := messageSeq x; version := v; folder := folder x; folderId :=
     folderId x; labelIds := labelIds x; sender := sender x; recipient := recipient x; subject
     := subject x; snippet := snippet x; encryptedBody := encryptedBody x; date := date x; read
     := read x; starred := starred x; isRealApi := isRealApi x; messageId := messageId x;
     hasAttachments := hasAttachments x; attachmentCount := attachmentCount x; attachmentTypes
     := attachmentTypes x; trackingToken := trackingToken x; trackingInfo := trackingInfo x |}.
Definition set_read (v : bool) (x : DisplayMessage) : DisplayMessage :=
  {| id := id x; messageSeq := messageSeq x; version := version x; folder := folder x; folderId
     := folderId x; labelIds := labelIds x; sender := sender x; recipient := recipient x;
     subject := subject x; snippet := snippet x; encryptedBody := encryptedBody x; date := date
     x; read := v; starred := starred x; isRealApi := isRealApi x; messageId := messageId x;
     hasAttachments := hasAttachments x; attachmentCount := attachmentCount x; attachmentTypes
     := attachmentTypes x; trackingToken := trackingToken x; trackingInfo := trackingInfo x |}.
Definition set_starred (v : bool) (x : DisplayMessage) : DisplayMessage :=
  {| id := id x; messageSeq := messageSeq x; version := version x; folder := folder x; folderId
     := folderId x; labelIds := labelIds x; sender := sender x; recipient := recipient x;
     subject := subject x; snippet := snippet x; encryptedBody := encryptedBody x; date := date
     x; read := read x; starred := v; isRealApi := isRealApi x; messageId := messageId x;
     hasAttachments := hasAttachments x; attachmentCount := attachmentCount x; attachmentTypes
     := attachmentTypes x; trackingToken := trackingToken x; trackingInfo := trackingInfo x |}.
Definition set_trackingToken (v : option jstr) (x : DisplayMessage) : DisplayMessage :=
  {| id := id x; messageSeq := messageSeq x; version := version x; folder := folder x; folderId
     := folderId x; labelIds := labelIds x; sender := sender x; recipient := recipient x;
     subject := subject x; snippet := snippet x; encryptedBody := encryptedBody x; date := date
     x; read := read x; starred := starred x; isRealApi := isRealApi x; messageId := messageId
     x; hasAttachments := hasAttachments x; attachmentCount := attachmentCount x;
     attachmentTypes := attachmentTypes x; trackingToken := v; trackingInfo := trackingInfo x |}.
Definition set_trackingInfo (v : option (Z * option jstr * option jstr)) (x : DisplayMessage) : DisplayMessage :=
  {| id := id x; messageSeq := messageSeq x; version := version x; folder := folder x; folderId
     := folderId x; labelIds := labelIds x; sender := sender x; recipient := recipient x;
     subject := subject x; snippet := snippet x; encryptedBody := encryptedBody x; date := date
     x; read := read x; starred := starred x; isRealApi := isRealApi x; messageId := messageId
     x; hasAttachments := hasAttachments x; attachmentCount := attachmentCount x;
     attachmentTypes := attachmentTypes x; trackingToken := trackingToken x; trackingInfo := v |}.

(** A custom folder or a label. *)
Record Named := {
  n_id : jstr;
  n_name : jstr;
}.

(** An attachment as the server lists it. *)
Record AttachmentItem := {
  att_id : jstr;
  att_message_id : option jstr;
  att_filename : jstr;
}.

(** A decrypted contact. *)
Record DisplayContact := {
  c_id : jstr;
  c_version : Z;
  c_fields : ContactPlaintext;
}.

(** The move the undo toast offers to revert. *)
Record UndoAction := {
  undo_messageId : jstr;
  undo_previousFolder : jstr;
  undo_timer : nat;
}.

(** Signals of the message list. *)
Record Mail := {
  messages : list DisplayMessage;
  selectedMsg : option DisplayMessage;
  selectedIds : list jstr;
  searchQuery : jstr;
  serverMatchedMsgIds : list jstr;
  isSearchingTokens : bool;
  currentFolder : jstr;
  customFolders : list Named;
  labels : list Named;
  folderToEdit : option Named;
  labelToEdit : option Named;
  activeCustomFolder : option Named;
  activeLabel : option Named;
  sortOrder : jstr;
  currentPage : Z;
  undoAction : option UndoAction;
  nextTimer : nat;
  undoTimers : list nat;
  toastMessage : option jstr;
}.

Definition set_messages (v : list DisplayMessage) (x : Mail) : Mail :=
  {| messages := v; selectedMsg := selectedMsg x; selectedIds := selectedIds x; searchQuery :=
     searchQuery x; serverMatchedMsgIds := serverMatchedMsgIds x; isSearchingTokens :=
     isSearchingTokens x; currentFolder := currentFolder x; customFolders := customFolders x;
     labels := labels x; folderToEdit := folderToEdit x; labelToEdit := labelToEdit x;
     activeCustomFolder := activeCustomFolder x; activeLabel := activeLabel x; sortOrder :=
     sortOrder x; currentPage := currentPage x; undoAction := undoAction x; nextTimer :=
     nextTimer x; undoTimers := undoTimers x; toastMessage := toastMessage x |}.
Definition set_selectedMsg (v : option DisplayMessage) (x : Mail) : Mail :=
  {| messages := messages x; selectedMsg := v; selectedIds := selectedIds x; searchQuery :=
     searchQuery x; serverMatchedMsgIds := serverMatchedMsgIds x; isSearchingTokens :=
     isSearchingTokens x; currentFolder := currentFolder x; customFolders := customFolders x;
     labels := labels x; folderToEdit := folderToEdit x; labelToEdit := labelToEdit x;
     activeCustomFolder := activeCustomFolder x; activeLabel := activeLabel x; sortOrder :=
     sortOrder x; currentPage := currentPage x; undoAction := undoAction x; nextTimer :=
     nextTimer x; undoTimers := undoTimers x; toastMessage := toastMessage x |}.
Definition set_selectedIds (v : list jstr) (x : Mail) : Mail :=
  {| messages := messages x; selectedMsg := selectedMsg x; selectedIds := v; searchQuery :=
     searchQuery x; serverMatchedMsgIds := serverMatchedMsgIds x; isSearchingTokens :=
     isSearchingTokens x; currentFolder := currentFolder x; customFolders := customFolders x;
     labels := labels x; folderToEdit := folderToEdit x; labelToEdit := labelToEdit x;
     activeCustomFolder := activeCustomFolder x; activeLabel := activeLabel x; sortOrder :=
     sortOrder x; currentPage := currentPage x; undoAction := undoAction x; nextTimer :=
     nextTimer x; undoTimers := undoTimers x; toastMessage := toastMessage x |}.
Definition set_searchQuery (v : jstr) (x : Mail) : Mail :=
  {| messages := messages x; selectedMsg := selectedMsg x; selectedIds := selectedIds x;
     searchQuery := v; serverMatchedMsgIds := serverMatchedMsgIds x; isSearchingTokens :=
     isSearchingTokens x; currentFolder := currentFolder x; customFolders := customFolders x;
     labels := labels x; folderToEdit := folderToEdit x; labelToEdit := labelToEdit x;
     activeCustomFolder := activeCustomFolder x; activeLabel := activeLabel x; sortOrder :=
     sortOrder x; currentPage := currentPage x; undoAction := undoAction x; nextTimer :=
     nextTimer x; undoTimers := undoTimers x; toastMessage := toastMessage x |}.
Definition set_serverMatchedMsgIds (v : list jstr) (x : Mail) : Mail :=
  {| messages := messages x; selectedMsg := selectedMsg x; selectedIds := selectedIds x;
     searchQuery := searchQuery x; serverMatchedMsgIds := v; isSearchingTokens :=
     isSearchingTokens x; currentFolder := currentFolder x; customFolders := customFolders x;
     labels := labels x; folderToEdit := folderToEdit x; labelToEdit := labelToEdit x;
     activeCustomFolder := activeCustomFolder x; activeLabel := activeLabel x; sortOrder :=
     sortOrder x; currentPage := currentPage x; undoAction := undoAction x; nextTimer :=
     nextTimer x; undoTimers := undoTimers x; toastMessage := toastMessage x |}.
Definition set_isSearchingTokens (v : bool) (x : Mail) : Mail :=
  {| messages := messages x; selectedMsg := selectedMsg x; selectedIds := selectedIds x;
     searchQuery := searchQuery x; serverMatchedMsgIds := serverMatchedMsgIds x;
     isSearchingTokens := v; currentFolder := currentFolder x; customFolders := customFolders x;
     labels := labels x; folderToEdit := folderToEdit x; labelToEdit := labelToEdit x;
     activeCustomFolder := activeCustomFolder x; activeLabel := activeLabel x; sortOrder :=
     sortOrder x; currentPage := currentPage x; undoAction := undoAction x; nextTimer :=
     nextTimer x; undoTimers := undoTimers x; toastMessage := toastMessage x |}.
Definition set_currentFolder (v : jstr) (x : Mail) : Mail :=
  {| messages := messages x; selectedMsg := selectedMsg x; selectedIds := selectedIds x;
     searchQuery := searchQuery x; serverMatchedMsgIds := serverMatchedMsgIds x;
     isSearchingTokens := isSearchingTokens x; currentFolder := v; customFolders :=
     customFolders x; labels := labels x; folderToEdit := folderToEdit x; labelToEdit :=
     labelToEdit x; activeCustomFolder := activeCustomFolder x; activeLabel := activeLabel x;
     sortOrder := sortOrder x; currentPage := currentPage x; undoAction := undoAction x;
     nextTimer := nextTimer x; undoTimers := undoTimers x; toastMessage := toastMessage x |}.
Definition set_customFolders (v : list Named) (x : Mail) : Mail :=
  {| messages := messages x; selectedMsg := selectedMsg x; selectedIds := selectedIds x;
     searchQuery := searchQuery x; serverMatchedMsgIds := serverMatchedMsgIds x;
     isSearchingTokens := isSearchingTokens x; currentFolder := currentFolder x; customFolders
     := v; labels := labels x; folderToEdit := folderToEdit x; labelToEdit := labelToEdit x;
     activeCustomFolder := activeCustomFolder x; activeLabel := activeLabel x; sortOrder :=
     sortOrder x; currentPage := currentPage x; undoAction := undoAction x; nextTimer :=
     nextTimer x; undoTimers := undoTimers x; toastMessage := toastMessage x |}.
Definition set_labels (v : list Named) (x : Mail) : Mail :=
  {| messages := messages x; selectedMsg := selectedMsg x; selectedIds := selectedIds x;
     searchQuery := searchQuery x; serverMatchedMsgIds := serverMatchedMsgIds x;
     isSearchingTokens := isSearchingTokens x; currentFolder := currentFolder x; customFolders
     := customFolders x; labels := v; folderToEdit := folderToEdit x; labelToEdit := labelToEdit
     x; activeCustomFolder := activeCustomFolder x; activeLabel := activeLabel x; sortOrder :=
     sortOrder x; currentPage := currentPage x; undoAction := undoAction x; nextTimer :=
     nextTimer x; undoTimers := undoTimers x; toastMessage := toastMessage x |}.
Definition set_folderToEdit (v : option Named) (x : Mail) : Mail :=
  {| messages := messages x; selectedMsg := selectedMsg x; selectedIds := selectedIds x;
     searchQuery := searchQuery x; serverMatchedMsgIds := serverMatchedMsgIds x;
     isSearchingTokens := isSearchingTokens x; currentFolder := currentFolder x; customFolders
     := customFolders x; labels := labels x; folderToEdit := v; labelToEdit := labelToEdit x;
     activeCustomFolder := activeCustomFolder x; activeLabel := activeLabel x; sortOrder :=
     sortOrder x; currentPage := currentPage x; undoAction := undoAction x; nextTimer :=
     nextTimer x; undoTimers := undoTimers x; toastMessage := toastMessage x |}.
Definition set_labelToEdit (v : option Named) (x : Mail) : Mail :=
  {| messages := messages x; selectedMsg := selectedMsg x; selectedIds := selectedIds x;
     searchQuery := searchQuery x; serverMatchedMsgIds := serverMatchedMsgIds x;
     isSearchingTokens := isSearchingTokens x; currentFolder := currentFolder x; customFolders
     := customFolders x; labels := labels x; folderToEdit := folderToEdit x; labelToEdit := v;
     activeCustomFolder := activeCustomFolder x; activeLabel := activeLabel x; sortOrder :=
     sortOrder x; currentPage := currentPage x; undoAction := undoAction x; nextTimer :=
     nextTimer x; undoTimers := undoTimers x; toastMessage := toastMessage x |}.
Definition set_activeCustomFolder (v : option Named) (x : Mail) : Mail :=
  {| messages := messages x; selectedMsg := selectedMsg x; selectedIds := selectedIds x;
     searchQuery := searchQuery x; serverMatchedMsgIds := serverMatchedMsgIds x;
     isSearchingTokens := isSearchingTokens x; currentFolder := currentFolder x; customFolders
     := customFolders x; labels := labels x; folderToEdit := folderToEdit x; labelToEdit :=
     labelToEdit x; activeCustomFolder := v; activeLabel := activeLabel x; sortOrder :=
     sortOrder x; currentPage := currentPage x; undoAction := undoAction x; nextTimer :=
     nextTimer x; undoTimers := undoTimers x; toastMessage := toastMessage x |}.
Definition set_activeLabel (v : option Named) (x : Mail) : Mail :=
  {| messages := messages x; selectedMsg := selectedMsg x; selectedIds := selectedIds x;
     searchQuery := searchQuery x; serverMatchedMsgIds := serverMatchedMsgIds x;
     isSearchingTokens := isSearchingTokens x; currentFolder := currentFolder x; customFolders
     := customFolders x; labels := labels x; folderToEdit := folderToEdit x; labelToEdit :=
     labelToEdit x; activeCustomFolder := activeCustomFolder x; activeLabel := v; sortOrder :=
     sortOrder x; currentPage := currentPage x; undoAction := undoAction x; nextTimer :=
     nextTimer x; undoTimers := undoTimers x; toastMessage := toastMessage x |}.
Definition set_sortOrder (v : jstr) (x : Mail) : Mail :=
  {| messages := messages x; selectedMsg := selectedMsg x; selectedIds := selectedIds x;
     searchQuery := searchQuery x; serverMatchedMsgIds := serverMatchedMsgIds x;
     isSearchingTokens := isSearchingTokens x; currentFolder := currentFolder x; customFolders
     := customFolders x; labels := labels x; folderToEdit := folderToEdit x; labelToEdit :=
     labelToEdit x; activeCustomFolder := activeCustomFolder x; activeLabel := activeLabel x;
     sortOrder := v; currentPage := currentPage x; undoAction := undoAction x; nextTimer :=
     nextTimer x; undoTimers := undoTimers x; toastMessage := toastMessage x |}.
Definition set_currentPage (v : Z) (x : Mail) : Mail :=
  {| messages := messages x; selectedMsg := selectedMsg x; selectedIds := selectedIds x;
     searchQuery := searchQuery x; serverMatchedMsgIds := serverMatchedMsgIds x;
     isSearchingTokens := isSearchingTokens x; currentFolder := currentFolder x; customFolders
     := customFolders x; labels := labels x; folderToEdit := folderToEdit x; labelToEdit :=
     labelToEdit x; activeCustomFolder := activeCustomFolder x; activeLabel := activeLabel x;
     sortOrder := sortOrder x; currentPage := v; undoAction := undoAction x; nextTimer :=
     nextTimer x; undoTimers := undoTimers x; toastMessage := toastMessage x |}.
Definition set_undoAction (v : option UndoAction) (x : Mail) : Mail :=
  {| messages := messages x; selectedMsg := selectedMsg x; selectedIds := selectedIds x;
     searchQuery := searchQuery x; serverMatchedMsgIds := serverMatchedMsgIds x;
     isSearchingTokens := isSearchingTokens x; currentFolder := currentFolder x; customFolders
     := customFolders x; labels := labels x; folderToEdit := folderToEdit x; labelToEdit :=
     labelToEdit x; activeCustomFolder := activeCustomFolder x; activeLabel := activeLabel x;
     sortOrder := sortOrder x; currentPage := currentPage x; undoAction := v; nextTimer :=
     nextTimer x; undoTimers := undoTimers x; toastMessage := toastMessage x |}.
Definition set_nextTimer (v : nat) (x : Mail) : Mail :=
  {| messages := messages x; selectedMsg := selectedMsg x; selectedIds := selectedIds x;
     searchQuery := searchQuery x; serverMatchedMsgIds := serverMatchedMsgIds x;
     isSearchingTokens := isSearchingTokens x; currentFolder := currentFolder x; customFolders
     := customFolders x; labels := labels x; folderToEdit := folderToEdit x; labelToEdit :=
     labelToEdit x; activeCustomFolder := activeCustomFolder x; activeLabel := activeLabel x;
     sortOrder := sortOrder x; currentPage := currentPage x; undoAction := undoAction x;
     nextTimer := v; undoTimers := undoTimers x; toastMessage := toastMessage x |}.
Definition set_undoTimers (v : list nat) (x : Mail) : Mail :=
  {| messages := messages x; selectedMsg := selectedMsg x; selectedIds := selectedIds x;
     searchQuery := searchQuery x; serverMatchedMsgIds := serverMatchedMsgIds x;
     isSearchingTokens := isSearchingTokens x; currentFolder := currentFolder x; customFolders
     := customFolders x; labels := labels x; folderToEdit := folderToEdit x; labelToEdit :=
     labelToEdit x; activeCustomFolder := activeCustomFolder x; activeLabel := activeLabel x;
     sortOrder := sortOrder x; currentPage := currentPage x; undoAction := undoAction x;
     nextTimer := nextTimer x; undoTimers := v; toastMessage := toastMessage x |}.
Definition set_toastMessage (v : option jstr) (x : Mail) : Mail :=
  {| messages := messages x; selectedMsg := selectedMsg x; selectedIds := selectedIds x;
     searchQuery := searchQuery x; serverMatchedMsgIds := serverMatchedMsgIds x;
     isSearchingTokens := isSearchingTokens x; currentFolder := currentFolder x; customFolders
     := customFolders x; labels := labels x; folderToEdit := folderToEdit x; labelToEdit :=
     labelToEdit x; activeCustomFolder := activeCustomFolder x; activeLabel := activeLabel x;
     sortOrder := sortOrder x; currentPage := currentPage x; undoAction := undoAction x;
     nextTimer := nextTimer x; undoTimers := undoTimers x; toastMessage := v |}.

(** Signals of the mailbox and its key. *)
Record Custody := {
  selectedMailbox : option Mailbox;
  mailboxes : list Mailbox;
  mailboxKey : option bytes;
  searchKey : option jstr;
  unlockedBoxId : option jstr;
  currentUser : option UserMe;
  connectedAccounts : list ConnectedAccount;
  isImpersonating : bool;
  impersonateMailboxId : option jstr;
  storageErrorBanner : option jstr;
  isLoading : bool;
}.

Definition set_selectedMailbox (v : option Mailbox) (x : Custody) : Custody :=
  {| selectedMailbox := v; mailboxes := mailboxes x; mailboxKey := mailboxKey x; searchKey :=
     searchKey x; unlockedBoxId := unlockedBoxId x; currentUser := currentUser x;
     connectedAccounts := connectedAccounts x; isImpersonating := isImpersonating x;
     impersonateMailboxId := impersonateMailboxId x; storageErrorBanner := storageErrorBanner x;
     isLoading := isLoading x |}.
Definition set_mailboxes (v : list Mailbox) (x : Custody) : Custody :=
  {| selectedMailbox := selectedMailbox x; mailboxes := v; mailboxKey := mailboxKey x; searchKey
     := searchKey x; unlockedBoxId := unlockedBoxId x; currentUser := currentUser x;
     connectedAccounts := connectedAccounts x; isImpersonating := isImpersonating x;
     impersonateMailboxId := impersonateMailboxId x; storageErrorBanner := storageErrorBanner x;
     isLoading := isLoading x |}.
Definition set_mailboxKey (v : option bytes) (x : Custody) : Custody :=
  {| selectedMailbox := selectedMailbox x; mailboxes := mailboxes x; mailboxKey := v; searchKey
     := searchKey x; unlockedBoxId := unlockedBoxId x; currentUser := currentUser x;
     connectedAccounts := connectedAccounts x; isImpersonating := isImpersonating x;
     impersonateMailboxId := impersonateMailboxId x; storageErrorBanner := storageErrorBanner x;
     isLoading := isLoading x |}.
Definition set_searchKey (v : option jstr) (x : Custody) : Custody :=
  {| selectedMailbox := selectedMailbox x; mailboxes := mailboxes x; mailboxKey := mailboxKey x;
     searchKey := v; unlockedBoxId := unlockedBoxId x; currentUser := currentUser x;
     connectedAccounts := connectedAccounts x; isImpersonating := isImpersonating x;
     impersonateMailboxId := impersonateMailboxId x; storageErrorBanner := storageErrorBanner x;
     isLoading := isLoading x |}.
Definition set_unlockedBoxId (v : option jstr) (x : Custody) : Custody :=
  {| selectedMailbox := selectedMailbox x; mailboxes := mailboxes x; mailboxKey := mailboxKey x;
     searchKey := searchKey x; unlockedBoxId := v; currentUser := currentUser x;
     connectedAccounts := connectedAccounts x; isImpersonating := isImpersonating x;
     impersonateMailboxId := impersonateMailboxId x; storageErrorBanner := storageErrorBanner x;
     isLoading := isLoading x |}.
Definition set_currentUser (v : option UserMe) (x : Custody) : Custody :=
  {| selectedMailbox := selectedMailbox x; mailboxes := mailboxes x; mailboxKey := mailboxKey x;
     searchKey := searchKey x; unlockedBoxId := unlockedBoxId x; currentUser := v;
     connectedAccounts := connectedAccounts x; isImpersonating := isImpersonating x;
     impersonateMailboxId := impersonateMailboxId x; storageErrorBanner := storageErrorBanner x;
     isLoading := isLoading x |}.
Definition set_connectedAccounts (v : list ConnectedAccount) (x : Custody) : Custody :=
  {| selectedMailbox := selectedMailbox x; mailboxes := mailboxes x; mailboxKey := mailboxKey x;
     searchKey := searchKey x; unlockedBoxId := unlockedBoxId x; currentUser := currentUser x;
     connectedAccounts := v; isImpersonating := isImpersonating x; impersonateMailboxId :=
     impersonateMailboxId x; storageErrorBanner := storageErrorBanner x; isLoading := isLoading
     x |}.
Definition set_isImpersonating (v : bool) (x : Custody) : Custody :=
  {| selectedMailbox := selectedMailbox x; mailboxes := mailboxes x; mailboxKey := mailboxKey x;
     searchKey := searchKey x; unlockedBoxId := unlockedBoxId x; currentUser := currentUser x;
     connectedAccounts := connectedAccounts x; isImpersonating := v; impersonateMailboxId :=
     impersonateMailboxId x; storageErrorBanner := storageErrorBanner x; isLoading := isLoading
     x |}.
Definition set_impersonateMailboxId (v : option jstr) (x : Custody) : Custody :=
  {| selectedMailbox := selectedMailbox x; mailboxes := mailboxes x; mailboxKey := mailboxKey x;
     searchKey := searchKey x; unlockedBoxId := unlockedBoxId x; currentUser := currentUser x;
     connectedAccounts := connectedAccounts x; isImpersonating := isImpersonating x;
     impersonateMailboxId := v; storageErrorBanner := storageErrorBanner x; isLoading :=
     isLoading x |}.
Definition set_storageErrorBanner (v : option jstr) (x : Custody) : Custody :=
  {| selectedMailbox := selectedMailbox x; mailboxes := mailboxes x; mailboxKey := mailboxKey x;
     searchKey := searchKey x; unlockedBoxId := unlockedBoxId x; currentUser := currentUser x;
     connectedAccounts := connectedAccounts x; isImpersonating := isImpersonating x;
     impersonateMailboxId := impersonateMailboxId x; storageErrorBanner := v; isLoading :=
     isLoading x |}.
Definition set_isLoading (v : bool) (x : Custody) : Custody :=
  {| selectedMailbox := selectedMailbox x; mailboxes := mailboxes x; mailboxKey := mailboxKey x;
     searchKey := searchKey x; unlockedBoxId := unlockedBoxId x; currentUser := currentUser x;
     connectedAccounts := connectedAccounts x; isImpersonating := isImpersonating x;
     impersonateMailboxId := impersonateMailboxId x; storageErrorBanner := storageErrorBanner x;
     isLoading := v |}.

(** Signals of the reading pane. *)
Record Reading := {
  isDecrypting : bool;
  decryptedContent : option jstr;
  editablePlaintext : option jstr;
  messagePlaintext : option jstr;
  messageAttachments : list AttachmentItem;
  currentDecryptSeq : Z;
}.

Definition set_isDecrypting (v : bool) (x : Reading) : Reading :=
  {| isDecrypting := v; decryptedContent := decryptedContent x; editablePlaintext :=
     editablePlaintext x; messagePlaintext := messagePlaintext x; messageAttachments :=
     messageAttachments x; currentDecryptSeq := currentDecryptSeq x |}.
Definition set_decryptedContent (v : option jstr) (x : Reading) : Reading :=
  {| isDecrypting := isDecrypting x; decryptedContent := v; editablePlaintext :=
     editablePlaintext x; messagePlaintext := messagePlaintext x; messageAttachments :=
     messageAttachments x; currentDecryptSeq := currentDecryptSeq x |}.
Definition set_editablePlaintext (v : option jstr) (x : Reading) : Reading :=
  {| isDecrypting := isDecrypting x; decryptedContent := decryptedContent x; editablePlaintext
     := v; messagePlaintext := messagePlaintext x; messageAttachments := messageAttachments x;
     currentDecryptSeq := currentDecryptSeq x |}.
Definition set_messagePlaintext (v : option jstr) (x : Reading) : Reading :=
  {| isDecrypting := isDecrypting x; decryptedContent := decryptedContent x; editablePlaintext
     := editablePlaintext x; messagePlaintext := v; messageAttachments := messageAttachments x;
     currentDecryptSeq := currentDecryptSeq x |}.
Definition set_messageAttachments (v : list AttachmentItem) (x : Reading) : Reading :=
  {| isDecrypting := isDecrypting x; decryptedContent := decryptedContent x; editablePlaintext
     := editablePlaintext x; messagePlaintext := messagePlaintext x; messageAttachments := v;
     currentDecryptSeq := currentDecryptSeq x |}.
Definition set_currentDecryptSeq (v : Z) (x : Reading) : Reading :=
  {| isDecrypting := isDecrypting x; decryptedContent := decryptedContent x; editablePlaintext
     := editablePlaintext x; messagePlaintext := messagePlaintext x; messageAttachments :=
     messageAttachments x; currentDecryptSeq := v |}.

(** Signals of the compose form. *)
Record Compose := {
  composeOpen : bool;
  composeTo : jstr;
  composeSubject : jstr;
  composeBody : jstr;
  composeBodyHtml : jstr;
  scheduledTime : jstr;
  composeTrackOpens : bool;
  composeStatus : option jstr;
  errorMessage : option jstr;
  composeAttachments : list AttachmentItem;
  editingDraft : option (jstr * Z);
}.

Definition set_composeOpen (v : bool) (x : Compose) : Compose :=
  {| composeOpen := v; composeTo := composeTo x; composeSubject := composeSubject x; composeBody
     := composeBody x; composeBodyHtml := composeBodyHtml x; scheduledTime := scheduledTime x;
     composeTrackOpens := composeTrackOpens x; composeStatus := composeStatus x; errorMessage :=
     errorMessage x; composeAttachments := composeAttachments x; editingDraft := editingDraft x |}.
Definition set_composeTo (v : jstr) (x : Compose) : Compose :=
  {| composeOpen := composeOpen x; composeTo := v; composeSubject := composeSubject x;
     composeBody := composeBody x; composeBodyHtml := composeBodyHtml x; scheduledTime :=
     scheduledTime x; composeTrackOpens := composeTrackOpens x; composeStatus := composeStatus
     x; errorMessage := errorMessage x; composeAttachments := composeAttachments x; editingDraft
     := editingDraft x |}.
Definition set_composeSubject (v : jstr) (x : Compose) : Compose :=
  {| composeOpen := composeOpen x; composeTo := composeTo x; composeSubject := v; composeBody :=
     composeBody x; composeBodyHtml := composeBodyHtml x; scheduledTime := scheduledTime x;
     composeTrackOpens := composeTrackOpens x; composeStatus := composeStatus x; errorMessage :=
     errorMessage x; composeAttachments := composeAttachments x; editingDraft := editingDraft x |}.
Definition set_composeBody (v : jstr) (x : Compose) : Compose :=
  {| composeOpen := composeOpen x; composeTo := composeTo x; composeSubject := composeSubject x;
     composeBody := v; composeBodyHtml := composeBodyHtml x; scheduledTime := scheduledTime x;
     composeTrackOpens := composeTrackOpens x; composeStatus := composeStatus x; errorMessage :=
     errorMessage x; composeAttachments := composeAttachments x; editingDraft := editingDraft x |}.
Definition set_composeBodyHtml (v : jstr) (x : Compose) : Compose :=
  {| composeOpen := composeOpen x; composeTo := composeTo x; composeSubject := composeSubject x;
     composeBody := composeBody x; composeBodyHtml := v; scheduledTime := scheduledTime x;
     composeTrackOpens := composeTrackOpens x; composeStatus := composeStatus x; errorMessage :=
     errorMessage x; composeAttachments := composeAttachments x; editingDraft := editingDraft x |}.
Definition set_scheduledTime (v : jstr) (x : Compose) : Compose :=
  {| composeOpen := composeOpen x; composeTo := composeTo x; composeSubject := composeSubject x;
     composeBody := composeBody x; composeBodyHtml := composeBodyHtml x; scheduledTime := v;
     composeTrackOpens := composeTrackOpens x; composeStatus := composeStatus x; errorMessage :=
     errorMessage x; composeAttachments := composeAttachments x; editingDraft := editingDraft x |}.
Definition set_composeTrackOpens (v : bool) (x : Compose) : Compose :=
  {| composeOpen := composeOpen x; composeTo := composeTo x; composeSubject := composeSubject x;
     composeBody := composeBody x; composeBodyHtml := composeBodyHtml x; scheduledTime :=
     scheduledTime x; composeTrackOpens := v; composeStatus := composeStatus x; errorMessage :=
     errorMessage x; composeAttachments := composeAttachments x; editingDraft := editingDraft x |}.
Definition set_composeStatus (v : option jstr) (x : Compose) : Compose :=
  {| composeOpen := composeOpen x; composeTo := composeTo x; composeSubject := composeSubject x;
     composeBody := composeBody x; composeBodyHtml := composeBodyHtml x; scheduledTime :=
     scheduledTime x; composeTrackOpens := composeTrackOpens x; composeStatus := v; errorMessage
     := errorMessage x; composeAttachments := composeAttachments x; editingDraft := editingDraft
     x |}.
Definition set_errorMessage (v : option jstr) (x : Compose) : Compose :=
  {| composeOpen := composeOpen x; composeTo := composeTo x; composeSubject := composeSubject x;
     composeBody := composeBody x; composeBodyHtml := composeBodyHtml x; scheduledTime :=
     scheduledTime x; composeTrackOpens := composeTrackOpens x; composeStatus := composeStatus
     x; errorMessage := v; composeAttachments := composeAttachments x; editingDraft :=
     editingDraft x |}.
Definition set_composeAttachments (v : list AttachmentItem) (x : Compose) : Compose :=
  {| composeOpen := composeOpen x; composeTo := composeTo x; composeSubject := composeSubject x;
     composeBody := composeBody x; composeBodyHtml := composeBodyHtml x; scheduledTime :=
     scheduledTime x; composeTrackOpens := composeTrackOpens x; composeStatus := composeStatus
     x; errorMessage := errorMessage x; composeAttachments := v; editingDraft := editingDraft x |}.
Definition set_editingDraft (v : option (jstr * Z)) (x : Compose) : Compose :=
  {| composeOpen := composeOpen x; composeTo := composeTo x; composeSubject := composeSubject x;
     composeBody := composeBody x; composeBodyHtml := composeBodyHtml x; scheduledTime :=
     scheduledTime x; composeTrackOpens := composeTrackOpens x; composeStatus := composeStatus
     x; errorMessage := errorMessage x; composeAttachments := composeAttachments x; editingDraft
     := v |}.

(** Signals of the contacts manager. *)
Record ContactsPane := {
  contactsOpen : bool;
  contacts : list DisplayContact;
  contactsLoading : bool;
  contactsError : option jstr;
  editingContact : option DisplayContact;
  contactName : jstr;
  contactEmail : jstr;
  contactNotes : jstr;
}.

Definition set_contactsOpen (v : bool) (x : ContactsPane) : ContactsPane :=
  {| contactsOpen := v; contacts := contacts x; contactsLoading := contactsLoading x;
     contactsError := contactsError x; editingContact := editingContact x; contactName :=
     contactName x; contactEmail := contactEmail x; contactNotes := contactNotes x |}.
Definition set_contacts (v : list DisplayContact) (x : ContactsPane) : ContactsPane :=
  {| contactsOpen := contactsOpen x; contacts := v; contactsLoading := contactsLoading x;
     contactsError := contactsError x; editingContact := editingContact x; contactName :=
     contactName x; contactEmail := contactEmail x; contactNotes := contactNotes x |}.
Definition set_contactsLoading (v : bool) (x : ContactsPane) : ContactsPane :=
  {| contactsOpen := contactsOpen x; contacts := contacts x; contactsLoading := v; contactsError
     := contactsError x; editingContact := editingContact x; contactName := contactName x;
     contactEmail := contactEmail x; contactNotes := contactNotes x |}.
Definition set_contactsError (v : option jstr) (x : ContactsPane) : ContactsPane :=
  {| contactsOpen := contactsOpen x; contacts := contacts x; contactsLoading := contactsLoading
     x; contactsError := v; editingContact := editingContact x; contactName := contactName x;
     contactEmail := contactEmail x; contactNotes := contactNotes x |}.
Definition set_editingContact (v : option DisplayContact) (x : ContactsPane) : ContactsPane :=
  {| contactsOpen := contactsOpen x; contacts := contacts x; contactsLoading := contactsLoading
     x; contactsError := contactsError x; editingContact := v; contactName := contactName x;
     contactEmail := contactEmail x; contactNotes := contactNotes x |}.
Definition set_contactName (v : jstr) (x : ContactsPane) : ContactsPane :=
  {| contactsOpen := contactsOpen x; contacts := contacts x; contactsLoading := contactsLoading
     x; contactsError := contactsError x; editingContact := editingContact x; contactName := v;
     contactEmail := contactEmail x; contactNotes := contactNotes x |}.
Definition set_contactEmail (v : jstr) (x : ContactsPane) : ContactsPane :=
  {| contactsOpen := contactsOpen x; contacts := contacts x; contactsLoading := contactsLoading
     x; contactsError := contactsError x; editingContact := editingContact x; contactName :=
     contactName x; contactEmail := v; contactNotes := contactNotes x |}.
Definition set_contactNotes (v : jstr) (x : ContactsPane) : ContactsPane :=
  {| contactsOpen := contactsOpen x; contacts := contacts x; contactsLoading := contactsLoading
     x; contactsError := contactsError x; editingContact := editingContact x; contactName :=
     contactName x; contactEmail := contactEmail x; contactNotes := v |}.

(** Signals of the sign-in form. *)
Record Login := {
  loginEmail : jstr;
  loginPassword : jstr;
  loginBusy : bool;
  loginError : option jstr;
  recoveryPhraseInput : jstr;
  twoFactorChallenge : option (jstr * list jstr * jstr * jstr);
  twoFactorCodeInput : jstr;
  cachedPassword : jstr;
  twoFactorBusy : bool;
  twoFactorError : option jstr;
  selected2FAMethod : jstr;
}.

Definition set_loginEmail (v : jstr) (x : Login) : Login :=
  {| loginEmail := v; loginPassword := loginPassword x; loginBusy := loginBusy x; loginError :=
     loginError x; recoveryPhraseInput := recoveryPhraseInput x; twoFactorChallenge :=
     twoFactorChallenge x; twoFactorCodeInput := twoFactorCodeInput x; cachedPassword :=
     cachedPassword x; twoFactorBusy := twoFactorBusy x; twoFactorError := twoFactorError x;
     selected2FAMethod := selected2FAMethod x |}.
Definition set_loginPassword (v : jstr) (x : Login) : Login :=
  {| loginEmail := loginEmail x; loginPassword := v; loginBusy := loginBusy x; loginError :=
     loginError x; recoveryPhraseInput := recoveryPhraseInput x; twoFactorChallenge :=
     twoFactorChallenge x; twoFactorCodeInput := twoFactorCodeInput x; cachedPassword :=
     cachedPassword x; twoFactorBusy := twoFactorBusy x; twoFactorError := twoFactorError x;
     selected2FAMethod := selected2FAMethod x |}.
Definition set_loginBusy (v : bool) (x : Login) : Login :=
  {| loginEmail := loginEmail x; loginPassword := loginPassword x; loginBusy := v; loginError :=
     loginError x; recoveryPhraseInput := recoveryPhraseInput x; twoFactorChallenge :=
     twoFactorChallenge x; twoFactorCodeInput := twoFactorCodeInput x; cachedPassword :=
     cachedPassword x; twoFactorBusy := twoFactorBusy x; twoFactorError := twoFactorError x;
     selected2FAMethod := selected2FAMethod x |}.
Definition set_loginError (v : option jstr) (x : Login) : Login :=
  {| loginEmail := loginEmail x; loginPassword := loginPassword x; loginBusy := loginBusy x;
     loginError := v; recoveryPhraseInput := recoveryPhraseInput x; twoFactorChallenge :=
     twoFactorChallenge x; twoFactorCodeInput := twoFactorCodeInput x; cachedPassword :=
     cachedPassword x; twoFactorBusy := twoFactorBusy x; twoFactorError := twoFactorError x;
     selected2FAMethod := selected2FAMethod x |}.
Definition set_recoveryPhraseInput (v : jstr) (x : Login) : Login :=
  {| loginEmail := loginEmail x; loginPassword := loginPassword x; loginBusy := loginBusy x;
     loginError := loginError x; recoveryPhraseInput := v; twoFactorChallenge :=
     twoFactorChallenge x; twoFactorCodeInput := twoFactorCodeInput x; cachedPassword :=
     cachedPassword x; twoFactorBusy := twoFactorBusy x; twoFactorError := twoFactorError x;
     selected2FAMethod := selected2FAMethod x |}.
Definition set_twoFactorChallenge (v : option (jstr * list jstr * jstr * jstr)) (x : Login) : Login :=
  {| loginEmail := loginEmail x; loginPassword := loginPassword x; loginBusy := loginBusy x;
     loginError := loginError x; recoveryPhraseInput := recoveryPhraseInput x;
     twoFactorChallenge := v; twoFactorCodeInput := twoFactorCodeInput x; cachedPassword :=
     cachedPassword x; twoFactorBusy := twoFactorBusy x; twoFactorError := twoFactorError x;
     selected2FAMethod := selected2FAMethod x |}.
Definition set_twoFactorCodeInput (v : jstr) (x : Login) : Login :=
  {| loginEmail := loginEmail x; loginPassword := loginPassword x; loginBusy := loginBusy x;
     loginError := loginError x; recoveryPhraseInput := recoveryPhraseInput x;
     twoFactorChallenge := twoFactorChallenge x; twoFactorCodeInput := v; cachedPassword :=
     cachedPassword x; twoFactorBusy := twoFactorBusy x; twoFactorError := twoFactorError x;
     selected2FAMethod := selected2FAMethod x |}.
Definition set_cachedPassword (v : jstr) (x : Login) : Login :=
  {| loginEmail := loginEmail x; loginPassword := loginPassword x; loginBusy := loginBusy x;
     loginError := loginError x; recoveryPhraseInput := recoveryPhraseInput x;
     twoFactorChallenge := twoFactorChallenge x; twoFactorCodeInput := twoFactorCodeInput x;
     cachedPassword := v; twoFactorBusy := twoFactorBusy x; twoFactorError := twoFactorError x;
     selected2FAMethod := selected2FAMethod x |}.
Definition set_twoFactorBusy (v : bool) (x : Login) : Login :=
  {| loginEmail := loginEmail x; loginPassword := loginPassword x; loginBusy := loginBusy x;
     loginError := loginError x; recoveryPhraseInput := recoveryPhraseInput x;
     twoFactorChallenge := twoFactorChallenge x; twoFactorCodeInput := twoFactorCodeInput x;
     cachedPassword := cachedPassword x; twoFactorBusy := v; twoFactorError := twoFactorError x;
     selected2FAMethod := selected2FAMethod x |}.
Definition set_twoFactorError (v : option jstr) (x : Login) : Login :=
  {| loginEmail := loginEmail x; loginPassword := loginPassword x; loginBusy := loginBusy x;
     loginError := loginError x; recoveryPhraseInput := recoveryPhraseInput x;
     twoFactorChallenge := twoFactorChallenge x; twoFactorCodeInput := twoFactorCodeInput x;
     cachedPassword := cachedPassword x; twoFactorBusy := twoFactorBusy x; twoFactorError := v;
     selected2FAMethod := selected2FAMethod x |}.
Definition set_selected2FAMethod (v : jstr) (x : Login) : Login :=
  {| loginEmail := loginEmail x; loginPassword := loginPassword x; loginBusy := loginBusy x;
     loginError := loginError x; recoveryPhraseInput := recoveryPhraseInput x;
     twoFactorChallenge := twoFactorChallenge x; twoFactorCodeInput := twoFactorCodeInput x;
     cachedPassword := cachedPassword x; twoFactorBusy := twoFactorBusy x; twoFactorError :=
     twoFactorError x; selected2FAMethod := v |}.

(** Appearance and regional settings. *)
Record Prefs := {
  density : jstr;
  layoutMode : jstr;
  theme : jstr;
  language : jstr;
  timeFormat : jstr;
  weekStart : jstr;
  signatureText : jstr;
  signatureSaved : bool;
}.

Definition set_density (v : jstr) (x : Prefs) : Prefs :=
  {| density := v; layoutMode := layoutMode x; theme := theme x; language := language x;
     timeFormat := timeFormat x; weekStart := weekStart x; signatureText := signatureText x;
     signatureSaved := signatureSaved x |}.
Definition set_layoutMode (v : jstr) (x : Prefs) : Prefs :=
  {| density := density x; layoutMode := v; theme := theme x; language := language x; timeFormat
     := timeFormat x; weekStart := weekStart x; signatureText := signatureText x; signatureSaved
     := signatureSaved x |}.
Definition set_theme (v : jstr) (x : Prefs) : Prefs :=
  {| density := density x; layoutMode := layoutMode x; theme := v; language := language x;
     timeFormat := timeFormat x; weekStart := weekStart x; signatureText := signatureText x;
     signatureSaved := signatureSaved x |}.
Definition set_language (v : jstr) (x : Prefs) : Prefs :=
  {| density := density x; layoutMode := layoutMode x; theme := theme x; language := v;
     timeFormat := timeFormat x; weekStart := weekStart x; signatureText := signatureText x;
     signatureSaved := signatureSaved x |}.
Definition set_timeFormat (v : jstr) (x : Prefs) : Prefs :=
  {| density := density x; layoutMode := layoutMode x; theme := theme x; language := language x;
     timeFormat := v; weekStart := weekStart x; signatureText := signatureText x; signatureSaved
     := signatureSaved x |}.
Definition set_weekStart (v : jstr) (x : Prefs) : Prefs :=
  {| density := density x; layoutMode := layoutMode x; theme := theme x; language := language x;
     timeFormat := timeFormat x; weekStart := v; signatureText := signatureText x;
     signatureSaved := signatureSaved x |}.
Definition set_signatureText (v : jstr) (x : Prefs) : Prefs :=
  {| density := density x; layoutMode := layoutMode x; theme := theme x; language := language x;
     timeFormat := timeFormat x; weekStart := weekStart x; signatureText := v; signatureSaved :=
     signatureSaved x |}.
Definition set_signatureSaved (v : bool) (x : Prefs) : Prefs :=
  {| density := density x; layoutMode := layoutMode x; theme := theme x; language := language x;
     timeFormat := timeFormat x; weekStart := weekStart x; signatureText := signatureText x;
     signatureSaved := v |}.

(** Signals of the account recovery dialog. *)
Record Recovery := {
  forgotStep : Z;
  forgotEmail : jstr;
  forgotMethods : list jstr;
  forgotSelectedMethod : jstr;
  forgotChallengeToken : jstr;
  forgotDestinationMasked : jstr;
  forgotCode : jstr;
  forgotNewPassword : jstr;
  forgotConfirmPassword : jstr;
  forgotBusy : bool;
  forgotError : option jstr;
  forgotMailboxId : jstr;
  forgotOldWrappedSk : jstr;
  forgotRecoveryPhrase : jstr;
}.

Definition set_forgotStep (v : Z) (x : Recovery) : Recovery :=
  {| forgotStep := v; forgotEmail := forgotEmail x; forgotMethods := forgotMethods x;
     forgotSelectedMethod := forgotSelectedMethod x; forgotChallengeToken :=
     forgotChallengeToken x; forgotDestinationMasked := forgotDestinationMasked x; forgotCode :=
     forgotCode x; forgotNewPassword := forgotNewPassword x; forgotConfirmPassword :=
     forgotConfirmPassword x; forgotBusy := forgotBusy x; forgotError := forgotError x;
     forgotMailboxId := forgotMailboxId x; forgotOldWrappedSk := forgotOldWrappedSk x;
     forgotRecoveryPhrase := forgotRecoveryPhrase x |}.
Definition set_forgotEmail (v : jstr) (x : Recovery) : Recovery :=
  {| forgotStep := forgotStep x; forgotEmail := v; forgotMethods := forgotMethods x;
     forgotSelectedMethod := forgotSelectedMethod x; forgotChallengeToken :=
     forgotChallengeToken x; forgotDestinationMasked := forgotDestinationMasked x; forgotCode :=
     forgotCode x; forgotNewPassword := forgotNewPassword x; forgotConfirmPassword :=
     forgotConfirmPassword x; forgotBusy := forgotBusy x; forgotError := forgotError x;
     forgotMailboxId := forgotMailboxId x; forgotOldWrappedSk := forgotOldWrappedSk x;
     forgotRecoveryPhrase := forgotRecoveryPhrase x |}.
Definition set_forgotMethods (v : list jstr) (x : Recovery) : Recovery :=
  {| forgotStep := forgotStep x; forgotEmail := forgotEmail x; forgotMethods := v;
     forgotSelectedMethod := forgotSelectedMethod x; forgotChallengeToken :=
     forgotChallengeToken x; forgotDestinationMasked := forgotDestinationMasked x; forgotCode :=
     forgotCode x; forgotNewPassword := forgotNewPassword x; forgotConfirmPassword :=
     forgotConfirmPassword x; forgotBusy := forgotBusy x; forgotError := forgotError x;
     forgotMailboxId := forgotMailboxId x; forgotOldWrappedSk := forgotOldWrappedSk x;
     forgotRecoveryPhrase := forgotRecoveryPhrase x |}.
Definition set_forgotSelectedMethod (v : jstr) (x : Recovery) : Recovery :=
  {| forgotStep := forgotStep x; forgotEmail := forgotEmail x; forgotMethods := forgotMethods x;
     forgotSelectedMethod := v; forgotChallengeToken := forgotChallengeToken x;
     forgotDestinationMasked := forgotDestinationMasked x; forgotCode := forgotCode x;
     forgotNewPassword := forgotNewPassword x; forgotConfirmPassword := forgotConfirmPassword x;
     forgotBusy := forgotBusy x; forgotError := forgotError x; forgotMailboxId :=
     forgotMailboxId x; forgotOldWrappedSk := forgotOldWrappedSk x; forgotRecoveryPhrase :=
     forgotRecoveryPhrase x |}.
Definition set_forgotChallengeToken (v : jstr) (x : Recovery) : Recovery :=
  {| forgotStep := forgotStep x; forgotEmail := forgotEmail x; forgotMethods := forgotMethods x;
     forgotSelectedMethod := forgotSelectedMethod x; forgotChallengeToken := v;
     forgotDestinationMasked := forgotDestinationMasked x; forgotCode := forgotCode x;
     forgotNewPassword := forgotNewPassword x; forgotConfirmPassword := forgotConfirmPassword x;
     forgotBusy := forgotBusy x; forgotError := forgotError x; forgotMailboxId :=
     forgotMailboxId x; forgotOldWrappedSk := forgotOldWrappedSk x; forgotRecoveryPhrase :=
     forgotRecoveryPhrase x |}.
Definition set_forgotDestinationMasked (v : jstr) (x : Recovery) : Recovery :=
  {| forgotStep := forgotStep x; forgotEmail := forgotEmail x; forgotMethods := forgotMethods x;
     forgotSelectedMethod := forgotSelectedMethod x; forgotChallengeToken :=
     forgotChallengeToken x; forgotDestinationMasked := v; forgotCode := forgotCode x;
     forgotNewPassword := forgotNewPassword x; forgotConfirmPassword := forgotConfirmPassword x;
     forgotBusy := forgotBusy x; forgotError := forgotError x; forgotMailboxId :=
     forgotMailboxId x; forgotOldWrappedSk := forgotOldWrappedSk x; forgotRecoveryPhrase :=
     forgotRecoveryPhrase x |}.
Definition set_forgotCode (v : jstr) (x : Recovery) : Recovery :=
  {| forgotStep := forgotStep x; forgotEmail := forgotEmail x; forgotMethods := forgotMethods x;
     forgotSelectedMethod := forgotSelectedMethod x; forgotChallengeToken :=
     forgotChallengeToken x; forgotDestinationMasked := forgotDestinationMasked x; forgotCode :=
     v; forgotNewPassword := forgotNewPassword x; forgotConfirmPassword := forgotConfirmPassword
     x; forgotBusy := forgotBusy x; forgotError := forgotError x; forgotMailboxId :=
     forgotMailboxId x; forgotOldWrappedSk := forgotOldWrappedSk x; forgotRecoveryPhrase :=
     forgotRecoveryPhrase x |}.
Definition set_forgotNewPassword (v : jstr) (x : Recovery) : Recovery :=
  {| forgotStep := forgotStep x; forgotEmail := forgotEmail x; forgotMethods := forgotMethods x;
     forgotSelectedMethod := forgotSelectedMethod x; forgotChallengeToken :=
     forgotChallengeToken x; forgotDestinationMasked := forgotDestinationMasked x; forgotCode :=
     forgotCode x; forgotNewPassword := v; forgotConfirmPassword := forgotConfirmPassword x;
     forgotBusy := forgotBusy x; forgotError := forgotError x; forgotMailboxId :=
     forgotMailboxId x; forgotOldWrappedSk := forgotOldWrappedSk x; forgotRecoveryPhrase :=
     forgotRecoveryPhrase x |}.
Definition set_forgotConfirmPassword (v : jstr) (x : Recovery) : Recovery :=
  {| forgotStep := forgotStep x; forgotEmail := forgotEmail x; forgotMethods := forgotMethods x;
     forgotSelectedMethod := forgotSelectedMethod x; forgotChallengeToken :=
     forgotChallengeToken x; forgotDestinationMasked := forgotDestinationMasked x; forgotCode :=
     forgotCode x; forgotNewPassword := forgotNewPassword x; forgotConfirmPassword := v;
     forgotBusy := forgotBusy x; forgotError := forgotError x; forgotMailboxId :=
     forgotMailboxId x; forgotOldWrappedSk := forgotOldWrappedSk x; forgotRecoveryPhrase :=
     forgotRecoveryPhrase x |}.
Definition set_forgotBusy (v : bool) (x : Recovery) : Recovery :=
  {| forgotStep := forgotStep x; forgotEmail := forgotEmail x; forgotMethods := forgotMethods x;
     forgotSelectedMethod := forgotSelectedMethod x; forgotChallengeToken :=
     forgotChallengeToken x; forgotDestinationMasked := forgotDestinationMasked x; forgotCode :=
     forgotCode x; forgotNewPassword := forgotNewPassword x; forgotConfirmPassword :=
     forgotConfirmPassword x; forgotBusy := v; forgotError := forgotError x; forgotMailboxId :=
     forgotMailboxId x; forgotOldWrappedSk := forgotOldWrappedSk x; forgotRecoveryPhrase :=
     forgotRecoveryPhrase x |}.
Definition set_forgotError (v : option jstr) (x : Recovery) : Recovery :=
  {| forgotStep := forgotStep x; forgotEmail := forgotEmail x; forgotMethods := forgotMethods x;
     forgotSelectedMethod := forgotSelectedMethod x; forgotChallengeToken :=
     forgotChallengeToken x; forgotDestinationMasked := forgotDestinationMasked x; forgotCode :=
     forgotCode x; forgotNewPassword := forgotNewPassword x; forgotConfirmPassword :=
     forgotConfirmPassword x; forgotBusy := forgotBusy x; forgotError := v; forgotMailboxId :=
     forgotMailboxId x; forgotOldWrappedSk := forgotOldWrappedSk x; forgotRecoveryPhrase :=
     forgotRecoveryPhrase x |}.
Definition set_forgotMailboxId (v : jstr) (x : Recovery) : Recovery :=
  {| forgotStep := forgotStep x; forgotEmail := forgotEmail x; forgotMethods := forgotMethods x;
     forgotSelectedMethod := forgotSelectedMethod x; forgotChallengeToken :=
     forgotChallengeToken x; forgotDestinationMasked := forgotDestinationMasked x; forgotCode :=
     forgotCode x; forgotNewPassword := forgotNewPassword x; forgotConfirmPassword :=
     forgotConfirmPassword x; forgotBusy := forgotBusy x; forgotError := forgotError x;
     forgotMailboxId := v; forgotOldWrappedSk := forgotOldWrappedSk x; forgotRecoveryPhrase :=
     forgotRecoveryPhrase x |}.
Definition set_forgotOldWrappedSk (v : jstr) (x : Recovery) : Recovery :=
  {| forgotStep := forgotStep x; forgotEmail := forgotEmail x; forgotMethods := forgotMethods x;
     forgotSelectedMethod := forgotSelectedMethod x; forgotChallengeToken :=
     forgotChallengeToken x; forgotDestinationMasked := forgotDestinationMasked x; forgotCode :=
     forgotCode x; forgotNewPassword := forgotNewPassword x; forgotConfirmPassword :=
     forgotConfirmPassword x; forgotBusy := forgotBusy x; forgotError := forgotError x;
     forgotMailboxId := forgotMailboxId x; forgotOldWrappedSk := v; forgotRecoveryPhrase :=
     forgotRecoveryPhrase x |}.
Definition set_forgotRecoveryPhrase (v : jstr) (x : Recovery) : Recovery :=
  {| forgotStep := forgotStep x; forgotEmail := forgotEmail x; forgotMethods := forgotMethods x;
     forgotSelectedMethod := forgotSelectedMethod x; forgotChallengeToken :=
     forgotChallengeToken x; forgotDestinationMasked := forgotDestinationMasked x; forgotCode :=
     forgotCode x; forgotNewPassword := forgotNewPassword x; forgotConfirmPassword :=
     forgotConfirmPassword x; forgotBusy := forgotBusy x; forgotError := forgotError x;
     forgotMailboxId := forgotMailboxId x; forgotOldWrappedSk := forgotOldWrappedSk x;
     forgotRecoveryPhrase := v |}.

(** The whole component: its signals and the two browser stores. *)
Record App := {
  mail : Mail;
  custody : Custody;
  reading : Reading;
  compose : Compose;
  contactsPane : ContactsPane;
  loginForm : Login;
  prefs : Prefs;
  recovery : Recovery;
  session : gmap jstr jstr;
  local : gmap jstr jstr;
}.

Definition set_mail (v : Mail) (x : App) : App :=
  {| mail := v; custody := custody x; reading := reading x; compose := compose x; contactsPane
     := contactsPane x; loginForm := loginForm x; prefs := prefs x; recovery := recovery x;
     session := session x; local := local x |}.
Definition set_custody (v : Custody) (x : App) : App :=
  {| mail := mail x; custody := v; reading := reading x; compose := compose x; contactsPane :=
     contactsPane x; loginForm := loginForm x; prefs := prefs x; recovery := recovery x; session
     := session x; local := local x |}.
Definition set_reading (v : Reading) (x : App) : App :=
  {| mail := mail x; custody := custody x; reading := v; compose := compose x; contactsPane :=
     contactsPane x; loginForm := loginForm x; prefs := prefs x; recovery := recovery x; session
     := session x; local := local x |}.
Definition set_compose (v : Compose) (x : App) : App :=
  {| mail := mail x; custody := custody x; reading := reading x; compose := v; contactsPane :=
     contactsPane x; loginForm := loginForm x; prefs := prefs x; recovery := recovery x; session
     := session x; local := local x |}.
Definition set_contactsPane (v : ContactsPane) (x : App) : App :=
  {| mail := mail x; custody := custody x; reading := reading x; compose := compose x;
     contactsPane := v; loginForm := loginForm x; prefs := prefs x; recovery := recovery x;
     session := session x; local := local x |}.
Definition set_loginForm (v : Login) (x : App) : App :=
  {| mail := mail x; custody := custody x; reading := reading x; compose := compose x;
     contactsPane := contactsPane x; loginForm := v; prefs := prefs x; recovery := recovery x;
     session := session x; local := local x |}.
Definition set_prefs (v : Prefs) (x : App) : App :=
  {| mail := mail x; custody := custody x; reading := reading x; compose := compose x;
     contactsPane := contactsPane x; loginForm := loginForm x; prefs := v; recovery := recovery
     x; session := session x; local := local x |}.
Definition set_recovery (v : Recovery) (x : App) : App :=
  {| mail := mail x; custody := custody x; reading := reading x; compose := compose x;
     contactsPane := contactsPane x; loginForm := loginForm x; prefs := prefs x; recovery := v;
     session := session x; local := local x |}.
Definition set_session (v : gmap jstr jstr) (x : App) : App :=
  {| mail := mail x; custody := custody x; reading := reading x; compose := compose x;
     contactsPane := contactsPane x; loginForm := loginForm x; prefs := prefs x; recovery :=
     recovery x; session := v; local := local x |}.
Definition set_local (v : gmap jstr jstr) (x : App) : App :=
  {| mail := mail x; custody := custody x; reading := reading x; compose := compose x;
     contactsPane := contactsPane x; loginForm := loginForm x; prefs := prefs x; recovery :=
     recovery x; session := session x; local := v |}.

#[export] Instance Named_eq_dec : EqDecision Named.
Proof. solve_decision. Defined.
#[export] Instance DisplayMessage_eq_dec : EqDecision DisplayMessage.
Proof. solve_decision. Defined.

(** ** Access to the stores *)

Definition session_item (k : jstr) (s : App) : option jstr := session s !! k.
Definition set_item (k v : jstr) (s : App) : App := set_session (<[k := v]> (session s)) s.
Definition remove_item (k : jstr) (s : App) : App := set_session (delete k (session s)) s.
Definition set_local_item (k v : jstr) (s : App) : App := set_local (<[k := v]> (local s)) s.
Definition remove_local_item (k : jstr) (s : App) : App := set_local (delete k (local s)) s.

#[export] Instance App_session : SessionStorage App := {| session_get s k := session s !! k |}.

(** ** Updating one group of signals *)

Definition on_mail (f : Mail -> Mail) (s : App) : App := set_mail (f (mail s)) s.
Definition on_custody (f : Custody -> Custody) (s : App) : App := set_custody (f (custody s)) s.
Definition on_reading (f : Reading -> Reading) (s : App) : App := set_reading (f (reading s)) s.
Definition on_compose (f : Compose -> Compose) (s : App) : App := set_compose (f (compose s)) s.
Definition on_contacts (f : ContactsPane -> ContactsPane) (s : App) : App :=
  set_contactsPane (f (contactsPane s)) s.
Definition on_login (f : Login -> Login) (s : App) : App := set_loginForm (f (loginForm s)) s.
Definition on_prefs (f : Prefs -> Prefs) (s : App) : App := set_prefs (f (prefs s)) s.
Definition on_recovery (f : Recovery -> Recovery) (s : App) : App := set_recovery (f (recovery s)) s.
