(* ===== verification/MailView.v ===== *)
(** * The message list

    The handlers of webmail/src/App.tsx that act on the list of messages (flags,
    folders, labels, selection, batches, undo), and the views derived from it
    (filter, sort, pages, navigation, counters).  Those that only touch the
    message-list signals are functions on [Mail]; those that also tell the server are
    programs. *)

From S2P Require Import Prelude JsString Json Display Wasm MessageCrypto Client Api AppState.

(** ** Shared helpers *)

Definition has_id (i : jstr) (m : DisplayMessage) : bool := jeqb (id m) i.

(** [new Set(ids).has(m.id)] *)
Definition has_id_in (ids : list jstr) (m : DisplayMessage) : bool := bool_decide (id m ∈ ids).

(** [setMessages(prev => prev.map(m => p(m) ? f(m) : m))] *)
Definition map_where (p : DisplayMessage -> bool) (f : DisplayMessage -> DisplayMessage)
    (l : list DisplayMessage) : list DisplayMessage :=
  map (fun m => if p m then f m else m) l.

Definition update_messages (p : DisplayMessage -> bool) (f : DisplayMessage -> DisplayMessage)
    (x : Mail) : Mail := set_messages (map_where p f (messages x)) x.

Definition remove_messages (p : DisplayMessage -> bool) (x : Mail) : Mail :=
  set_messages (List.filter (fun m => negb (p m)) (messages x)) x.

(** [if (selectedMsg() && p(selectedMsg()!)) setSelectedMsg(f(selectedMsg()!))] *)
Definition update_selected (p : DisplayMessage -> bool)
    (f : DisplayMessage -> option DisplayMessage) (x : Mail) : Mail :=
  match selectedMsg x with
  | Some m => if p m then set_selectedMsg (f m) x else x
  | None => x
  end.

Definition close_selected (p : DisplayMessage -> bool) : Mail -> Mail :=
  update_selected p (fun _ => None).

(** A [Set] of ids is the sequence of its elements in insertion order. *)
Definition set_add (i : jstr) (ids : list jstr) : list jstr :=
  if decide (i ∈ ids) then ids else ids ++ [i].
Definition set_delete (i : jstr) (ids : list jstr) : list jstr :=
  List.filter (fun j => negb (jeqb j i)) ids.

Definition showToast (msg : jstr) : Mail -> Mail := set_toastMessage (Some msg).

Definition quote (s : jstr) : jstr := [34] ++ s ++ [34].
Definition conversations (n : Z) : jstr :=
  num n ++ js " " ++ js (if n =? 1 then "conversation" else "conversations").

(** [ids.forEach(id => { p(id).catch(...) })] *)
Fixpoint for_each {S : Type} (ids : list jstr) (p : jstr -> prog S unit) : prog S unit :=
  match ids with
  | [] => skip
  | i :: ids => _ ← forget (p i); for_each ids p
  end.

Definition on_mail_prog (f : Mail -> Mail) : prog App unit := modify (on_mail f).

(** [if (box) ids.forEach(id => call(box.id, id).catch(...))] *)
Definition tell_server {A} (ids : list jstr) (call : jstr -> jstr -> prog App A) : prog App unit :=
  s ← gets (fun s => s);
  match selectedMailbox (custody s) with
  | Some box => for_each ids (fun i => _ ← call (mb_id box) i; mret tt)
  | None => skip
  end.

(** ** Flags of one message *)

Definition toggleMessageStarred (msg : DisplayMessage) (x : Mail) : Mail :=
  let f := set_starred (negb (starred msg)) in
  update_selected (has_id (id msg)) (fun m => Some (f m)) (update_messages (has_id (id msg)) f x).

Definition toggle_read_local (msg : DisplayMessage) (x : Mail) : Mail :=
  let f := set_read (negb (read msg)) in
  update_selected (has_id (id msg)) (fun m => Some (f m)) (update_messages (has_id (id msg)) f x).

Definition toggleMessageRead `{Env} (msg : DisplayMessage) : prog App unit :=
  _ ← on_mail_prog (toggle_read_local msg);
  tell_server [id msg] (fun box i => setMessageRead box i (negb (read msg))).

(** ** Moving one message, with undo *)

Definition clearTimeout (t : nat) (x : Mail) : Mail :=
  set_undoTimers (List.filter (fun t' => negb (t' =? t)%nat) (undoTimers x)) x.

(** [setTimeout(() => setUndoAction(null), 5000)]: a fresh, pending timer. *)
Definition start_undo_timer (x : Mail) : nat * Mail :=
  let t := S (nextTimer x) in
  (t, set_undoTimers (t :: undoTimers x) (set_nextTimer t x)).

Definition offer_undo (messageId previousFolder : jstr) (x : Mail) : Mail :=
  let x := match undoAction x with Some a => clearTimeout (undo_timer a) x | None => x end in
  let '(t, x) := start_undo_timer x in
  set_undoAction (Some {| undo_messageId := messageId; undo_previousFolder := previousFolder;
                          undo_timer := t |}) x.

Definition handleArchiveMessage (msg : DisplayMessage) (x : Mail) : Mail :=
  let x := update_messages (has_id (id msg)) (set_folder (js "archive")) x in
  let x := close_selected (has_id (id msg)) x in
  offer_undo (id msg) (folder msg) x.

Definition handleTrashMessage (msg : DisplayMessage) (x : Mail) : Mail :=
  let x := update_messages (has_id (id msg)) (set_folder (js "trash")) x in
  let x := close_selected (has_id (id msg)) x in
  offer_undo (id msg) (folder msg) x.

Definition handleDeleteForever (msg : DisplayMessage) (x : Mail) : Mail :=
  let x := remove_messages (has_id (id msg)) x in
  let x := close_selected (has_id (id msg)) x in
  let x := set_selectedIds (set_delete (id msg) (selectedIds x)) x in
  showToast (js "Message permanently deleted") x.

Definition handleUndo (x : Mail) : Mail :=
  match undoAction x with
  | None => x
  | Some action =>
      let x := clearTimeout (undo_timer action) x in
      let x := update_messages (has_id (undo_messageId action))
                 (set_folder (undo_previousFolder action)) x in
      set_undoAction None x
  end.

(** The timer's callback; a cleared timer does not fire. *)
Definition undo_timer_fires (t : nat) (x : Mail) : Mail :=
  if bool_decide (t ∈ undoTimers x) then set_undoAction None (clearTimeout t x) else x.

(** ** Views *)

Definition pageSize : Z := 50.

(** [l.slice(a, b)] *)
Definition slice {A} (a b : Z) (l : list A) : list A :=
  let n := Z.of_nat (length l) in
  let clamp i := if i <? 0 then Z.max (n + i) 0 else Z.min i n in
  take (Z.to_nat (clamp b - clamp a)) (drop (Z.to_nat (clamp a)) l).

(** [l.sort(cmp)] is stable; a comparison that is [NaN] counts as equal.  The standard
    fixes the result for consistent comparisons only. *)
Definition compares_le {A} (cmp : A -> A -> option Z) (a b : A) : bool :=
  match cmp a b with Some d => d <=? 0 | None => true end.

Fixpoint sort_insert {A} (cmp : A -> A -> option Z) (a : A) (l : list A) : list A :=
  match l with
  | [] => [a]
  | b :: l' => if compares_le cmp a b then a :: l else b :: sort_insert cmp a l'
  end.

Definition js_sort {A} (cmp : A -> A -> option Z) (l : list A) : list A :=
  foldr (sort_insert cmp) [] l.

(** [a - b], where either may be [NaN] *)
Definition minus (a b : option Z) : option Z :=
  match a, b with Some a, Some b => Some (a - b) | _, _ => None end.

Definition first_index {A} (p : A -> bool) (l : list A) : Z :=
  match list_find p l with Some (i, _) => Z.of_nat i | None => -1 end.

Definition falsy_opt (o : option jstr) : bool := negb (truthy_opt o).

Definition has_label (l : jstr) (m : DisplayMessage) : bool :=
  match labelIds m with Some ls => bool_decide (l ∈ ls) | None => false end.

Definition in_folder_id (f : jstr) (m : DisplayMessage) : bool :=
  match folderId m with Some g => jeqb g f | None => false end.

Section Views.
Context `{Unicode} `{Dates}.

Definition matchFolder (x : Mail) (m : DisplayMessage) : bool :=
  match activeCustomFolder x, activeLabel x with
  | Some customFolder, _ => in_folder_id (n_id customFolder) m && negb (jeqb (folder m) (js "trash"))
  | None, Some label => has_label (n_id label) m && negb (jeqb (folder m) (js "trash"))
  | None, None =>
      let cur := currentFolder x in
      if jeqb cur (js "inbox") then
        falsy_opt (folderId m) && (negb (truthy (folder m)) || jeqb (folder m) (js "inbox"))
      else jeqb (folder m) cur
  end.

Definition matchQuery (x : Mail) (m : DisplayMessage) : bool :=
  let q := trim (toLowerCase (searchQuery x)) in
  let matchedIds := serverMatchedMsgIds x in
  negb (truthy q)
  || (includes (toLowerCase (sender m)) q || includes (toLowerCase (subject m)) q
      || includes (toLowerCase (snippet m)) q)
  || (bool_decide (id m ∈ matchedIds)
      || match messageId m with
         | Some i => truthy i && bool_decide (i ∈ matchedIds)
         | None => false
         end).

Definition filteredMessages (x : Mail) : list DisplayMessage :=
  List.filter (fun m => matchFolder x m && matchQuery x m) (messages x).

Definition newest_first (a b : DisplayMessage) : option Z :=
  minus (date_time (date b)) (date_time (date a)).
Definition oldest_first (a b : DisplayMessage) : option Z :=
  minus (date_time (date a)) (date_time (date b)).
Definition unread_first (a b : DisplayMessage) : option Z :=
  if Bool.eqb (read a) (read b) then newest_first a b
  else if read a then Some 1 else Some (-1).

Definition sortedMessages (x : Mail) : list DisplayMessage :=
  let list := filteredMessages x in
  let order := sortOrder x in
  if jeqb order (js "newest") then js_sort newest_first list
  else if jeqb order (js "oldest") then js_sort oldest_first list
  else if jeqb order (js "unread") then js_sort unread_first list
  else list.

Definition paginatedMessages (x : Mail) : list DisplayMessage :=
  let start := (currentPage x - 1) * pageSize in
  slice start (start + pageSize) (sortedMessages x).

Definition currentMsgIndex (x : Mail) : Z :=
  match selectedMsg x with
  | None => -1
  | Some sel => first_index (has_id (id sel)) (sortedMessages x)
  end.

Definition hasPrevMessage (x : Mail) : bool := 0 <? currentMsgIndex x.
Definition hasNextMessage (x : Mail) : bool :=
  let idx := currentMsgIndex x in
  (0 <=? idx) && (idx <? Z.of_nat (length (sortedMessages x)) - 1).

(** The toolbar's page buttons, which it disables at either end. *)
Definition pageEnd (x : Mail) : Z :=
  Z.min (currentPage x * pageSize) (Z.of_nat (length (sortedMessages x))).
Definition onPrevPage (x : Mail) : Mail :=
  if currentPage x <=? 1 then x else set_currentPage (Z.max 1 (currentPage x - 1)) x.
Definition onNextPage (x : Mail) : Mail :=
  if Z.of_nat (length (sortedMessages x)) <=? pageEnd x then x
  else set_currentPage (currentPage x + 1) x.

(** ** Selection *)

Definition handleToggleCheck (msg : DisplayMessage) (checked : bool) (x : Mail) : Mail :=
  set_selectedIds ((if checked then set_add else set_delete) (id msg) (selectedIds x)) x.

Definition handleSelectFilter (filter : jstr) (x : Mail) : Mail :=
  let visible := paginatedMessages x in
  let select p := set_selectedIds (uniq (map id (List.filter p visible))) x in
  if jeqb filter (js "none") then set_selectedIds [] x
  else if jeqb filter (js "all") then select (fun _ => true)
  else if jeqb filter (js "read") then select read
  else if jeqb filter (js "unread") then select (fun m => negb (read m))
  else if jeqb filter (js "starred") then select starred
  else if jeqb filter (js "unstarred") then select (fun m => negb (starred m))
  else x.

End Views.

(** ** Choosing what the list shows *)

Definition onSelectFolder (f : jstr) (x : Mail) : Mail :=
  set_currentPage 1 (set_selectedIds [] (set_selectedMsg None (set_activeLabel None
    (set_activeCustomFolder None (set_currentFolder f x))))).

Definition handleSelectCustomFolder (folder : Named) (x : Mail) : Mail :=
  set_selectedIds [] (set_selectedMsg None (set_activeLabel None
    (set_activeCustomFolder (Some folder) x))).

Definition handleSelectLabel (label : Named) (x : Mail) : Mail :=
  set_selectedIds [] (set_selectedMsg None (set_activeCustomFolder None
    (set_activeLabel (Some label) x))).

(** ** Counters *)

Definition folder_names : list jstr :=
  [js "inbox"; js "sent"; js "drafts"; js "archive"; js "spam"; js "trash"].

Definition bump (k : jstr) (counts : gmap jstr Z) : gmap jstr Z :=
  <[k := default 0 (counts !! k) + 1]> counts.

Definition count_folder (counts : gmap jstr Z) (m : DisplayMessage) : gmap jstr Z :=
  if jeqb (folder m) (js "trash") then bump (js "trash") counts
  else if jeqb (folder m) (js "inbox") then
    if truthy_opt (folderId m) then counts else bump (js "inbox") counts
  else match counts !! folder m with Some _ => bump (folder m) counts | None => counts end.

Definition folderCounts (x : Mail) : gmap jstr Z :=
  fold_left count_folder (messages x) (list_to_map (map (fun f => (f, 0)) folder_names)).

Definition count_custom (counts : gmap jstr Z) (m : DisplayMessage) : gmap jstr Z :=
  match folderId m with
  | Some f => if negb (jeqb (folder m) (js "trash")) && truthy f then bump f counts else counts
  | None => counts
  end.

Definition customFolderCounts (x : Mail) : gmap jstr Z := fold_left count_custom (messages x) ∅.

Definition count_labels (counts : gmap jstr Z) (m : DisplayMessage) : gmap jstr Z :=
  match labelIds m with
  | Some ls =>
      if negb (jeqb (folder m) (js "trash")) then fold_left (fun c l => bump l c) ls counts
      else counts
  | None => counts
  end.

Definition labelCounts (x : Mail) : gmap jstr Z := fold_left count_labels (messages x) ∅.

(** ** Batch operations on the selection *)

(** What every batch operation shares: nothing for an empty selection; otherwise
    [f] is applied with the selected ids and their number. *)
Definition with_selection (f : list jstr -> Z -> Mail -> Mail) (x : Mail) : Mail :=
  match selectedIds x with
  | [] => x
  | ids => f ids (Z.of_nat (length ids)) x
  end.

Definition batch_move (target : string) (toast : Z -> jstr) : Mail -> Mail :=
  with_selection (fun ids count x =>
    let x := update_messages (has_id_in ids) (set_folder (js target)) x in
    let x := close_selected (has_id_in ids) x in
    set_selectedIds [] (showToast (toast count) x)).

Definition handleBatchArchive : Mail -> Mail :=
  batch_move "archive" (fun count => js "Archived " ++ conversations count).
Definition handleBatchSpam : Mail -> Mail :=
  batch_move "spam" (fun count => js "Moved " ++ conversations count ++ js " to Spam").
Definition handleBatchTrash : Mail -> Mail :=
  batch_move "trash" (fun count => js "Moved " ++ conversations count ++ js " to Trash").

Definition handleBatchDeleteForever : Mail -> Mail :=
  with_selection (fun ids count x =>
    let x := remove_messages (has_id_in ids) x in
    let x := close_selected (has_id_in ids) x in
    showToast (js "Permanently deleted " ++ conversations count) (set_selectedIds [] x)).

Definition in_trash (m : DisplayMessage) : bool := jeqb (folder m) (js "trash").

Definition empty_trash (x : Mail) : Mail :=
  let x := remove_messages in_trash x in
  let x := close_selected in_trash x in
  showToast (js "Bin emptied successfully") (set_selectedIds [] x).

Definition handleEmptyTrash : prog App unit :=
  s ← gets (fun s => s);
  let trashCount := length (List.filter in_trash (messages (mail s))) in
  if (trashCount =? 0)%nat then skip
  else
    ok ← confirm (js "Are you sure you want to empty the bin? This will permanently delete "
                  ++ num (Z.of_nat trashCount) ++ js " message(s).");
    if ok : bool then on_mail_prog empty_trash else skip.

Definition batch_flag (f : DisplayMessage -> DisplayMessage) (toast : Z -> jstr) : Mail -> Mail :=
  with_selection (fun ids count x =>
    let x := update_messages (has_id_in ids) f x in
    let x := update_selected (has_id_in ids) (fun m => Some (f m)) x in
    set_selectedIds [] (showToast (toast count) x)).

Definition batch_read_local (read : bool) : Mail -> Mail :=
  batch_flag (set_read read) (fun count =>
    js "Marked " ++ num count ++ js " as " ++ js (if read then "read" else "unread")).

Definition handleBatchToggleRead `{Env} (read : bool) : prog App unit :=
  ids ← gets (fun s => selectedIds (mail s));
  match ids with
  | [] => skip
  | _ =>
      _ ← on_mail_prog (batch_read_local read);
      tell_server ids (fun box i => setMessageRead box i read)
  end.

Definition handleBatchToggleStarred (starred : bool) : Mail -> Mail :=
  batch_flag (set_starred starred) (fun count =>
    js (if starred then "Starred " else "Unstarred ") ++ num count).

(** ** Moving messages to a folder *)

(** The custom folder of that id, if any. *)
Definition find_named (i : jstr) (l : list Named) : option Named :=
  snd <$> list_find (fun n => jeqb (n_id n) i) l.

Definition move_local (messageIds : list jstr) (targetFolder : jstr) (x : Mail) : Mail :=
  let customFolder := find_named targetFolder (customFolders x) in
  let newFolder := match customFolder with Some _ => js "inbox" | None => targetFolder end in
  let newFolderId := option_map n_id customFolder in
  let x := update_messages (has_id_in messageIds)
             (fun m => set_folderId newFolderId (set_folder newFolder m)) x in
  let x := close_selected (has_id_in messageIds) x in
  set_selectedIds (fold_left (fun ids i => set_delete i ids) messageIds (selectedIds x)) x.

Definition handleMoveMessages `{Env} (messageIds : list jstr) (targetFolder : jstr) : prog App unit :=
  match messageIds with
  | [] => skip
  | _ =>
      customFolder ← gets (fun s => find_named targetFolder (customFolders (mail s)));
      _ ← on_mail_prog (move_local messageIds targetFolder);
      let backendFolder := match customFolder with Some _ => js "custom" | None => targetFolder end in
      _ ← tell_server messageIds (fun box i =>
            updateMessageFolder box i backendFolder (option_map n_id customFolder));
      let folderName := match customFolder with Some f => n_name f | None => targetFolder end in
      on_mail_prog (showToast (js "Moved " ++ conversations (Z.of_nat (length messageIds))
                               ++ js " to " ++ folderName))
  end.

Definition handleBatchMoveTo `{Env} (targetFolder : jstr) : prog App unit :=
  ids ← gets (fun s => selectedIds (mail s));
  match ids with [] => skip | _ => handleMoveMessages ids targetFolder end.

(** ** Labels of messages *)

Definition label_list (m : DisplayMessage) : list jstr := default [] (labelIds m).

Definition add_label (labelId : jstr) (m : DisplayMessage) : DisplayMessage :=
  if decide (labelId ∈ label_list m) then m
  else set_labelIds (Some (label_list m ++ [labelId])) m.

Definition drop_label (labelId : jstr) (m : DisplayMessage) : DisplayMessage :=
  set_labelIds (Some (set_delete labelId (label_list m))) m.

Definition relabel (f : DisplayMessage -> DisplayMessage) (messageIds : list jstr) (x : Mail) : Mail :=
  update_selected (has_id_in messageIds) (fun m => Some (f m))
    (update_messages (has_id_in messageIds) f x).

Definition label_name (labelId : jstr) (x : Mail) : jstr :=
  match find_named labelId (labels x) with Some l => n_name l | None => js "Label" end.

Definition handleAttachLabel `{Env} (messageIds : list jstr) (labelId : jstr) : prog App unit :=
  match messageIds with
  | [] => skip
  | _ =>
      labelName ← gets (fun s => label_name labelId (mail s));
      _ ← on_mail_prog (relabel (add_label labelId) messageIds);
      _ ← tell_server messageIds (fun box i => attachMessageLabel box i labelId);
      on_mail_prog (showToast (js "Applied label " ++ quote labelName ++ js " to "
                               ++ conversations (Z.of_nat (length messageIds))))
  end.

Definition all_have_label (messageIds : list jstr) (labelId : jstr) (x : Mail) : bool :=
  let targetMsgs := List.filter (has_id_in messageIds) (messages x) in
  negb (length targetMsgs =? 0)%nat && forallb (has_label labelId) targetMsgs.

Definition toggleMessageLabel `{Env} (messageIds : list jstr) (labelId : jstr) : prog App unit :=
  match messageIds with
  | [] => skip
  | _ =>
      x ← gets mail;
      let labelName := label_name labelId x in
      if all_have_label messageIds labelId x then
        _ ← on_mail_prog (relabel (drop_label labelId) messageIds);
        _ ← tell_server messageIds (fun box i => detachMessageLabel box i labelId);
        on_mail_prog (showToast (js "Removed label " ++ quote labelName))
      else
        _ ← on_mail_prog (relabel (add_label labelId) messageIds);
        _ ← tell_server messageIds (fun box i => attachMessageLabel box i labelId);
        on_mail_prog (showToast (js "Applied label " ++ quote labelName))
  end.

Definition handleBatchToggleLabel `{Env} (labelId : jstr) : prog App unit :=
  x ← gets mail;
  match selectedIds x, selectedMsg x with
  | [], None => skip
  | [], Some m => toggleMessageLabel [id m] labelId
  | ids, _ => toggleMessageLabel ids labelId
  end.

(** ** The list as an interactive component *)

(** The handlers the list registers. *)
Inductive mail_handler `{Unicode} `{Dates} `{Env} : prog App unit -> Prop :=
| on_star m : mail_handler (on_mail_prog (toggleMessageStarred m))
| on_read m : mail_handler (toggleMessageRead m)
| on_archive m : mail_handler (on_mail_prog (handleArchiveMessage m))
| on_trash m : mail_handler (on_mail_prog (handleTrashMessage m))
| on_delete m : mail_handler (on_mail_prog (handleDeleteForever m))
| on_undo : mail_handler (on_mail_prog handleUndo)
| on_undo_timer t : mail_handler (on_mail_prog (undo_timer_fires t))
| on_check m b : mail_handler (on_mail_prog (handleToggleCheck m b))
| on_select_filter f : mail_handler (on_mail_prog (handleSelectFilter f))
| on_prev_page : mail_handler (on_mail_prog onPrevPage)
| on_next_page : mail_handler (on_mail_prog onNextPage)
| on_select_folder f : mail_handler (on_mail_prog (onSelectFolder f))
| on_select_custom f : mail_handler (on_mail_prog (handleSelectCustomFolder f))
| on_select_label l : mail_handler (on_mail_prog (handleSelectLabel l))
| on_batch_archive : mail_handler (on_mail_prog handleBatchArchive)
| on_batch_spam : mail_handler (on_mail_prog handleBatchSpam)
| on_batch_trash : mail_handler (on_mail_prog handleBatchTrash)
| on_batch_delete : mail_handler (on_mail_prog handleBatchDeleteForever)
| on_empty_trash : mail_handler handleEmptyTrash
| on_batch_read b : mail_handler (handleBatchToggleRead b)
| on_batch_star b : mail_handler (on_mail_prog (handleBatchToggleStarred b))
| on_move ids f : mail_handler (handleMoveMessages ids f)
| on_batch_move f : mail_handler (handleBatchMoveTo f)
| on_attach_label ids l : mail_handler (handleAttachLabel ids l)
| on_toggle_label ids l : mail_handler (toggleMessageLabel ids l)
| on_batch_label l : mail_handler (handleBatchToggleLabel l).

(** The local state changes they are made of. *)
Inductive mail_op `{Unicode} `{Dates} : (Mail -> Mail) -> Prop :=
| op_star m : mail_op (toggleMessageStarred m)
| op_read m : mail_op (toggle_read_local m)
| op_archive m : mail_op (handleArchiveMessage m)
| op_trash m : mail_op (handleTrashMessage m)
| op_delete m : mail_op (handleDeleteForever m)
| op_undo : mail_op handleUndo
| op_undo_timer t : mail_op (undo_timer_fires t)
| op_check m b : mail_op (handleToggleCheck m b)
| op_select_filter f : mail_op (handleSelectFilter f)
| op_prev_page : mail_op onPrevPage
| op_next_page : mail_op onNextPage
| op_select_folder f : mail_op (onSelectFolder f)
| op_select_custom f : mail_op (handleSelectCustomFolder f)
| op_select_label l : mail_op (handleSelectLabel l)
| op_batch_move t toast : mail_op (batch_move t toast)
| op_batch_delete : mail_op handleBatchDeleteForever
| op_empty_trash : mail_op empty_trash
| op_batch_read b : mail_op (batch_read_local b)
| op_batch_star b : mail_op (handleBatchToggleStarred b)
| op_move ids g : mail_op (move_local ids g)
| op_add_label ids l : mail_op (relabel (add_label l) ids)
| op_drop_label ids l : mail_op (relabel (drop_label l) ids)
| op_toast msg : mail_op (showToast msg).

(** What the reading pane shows of a row: its flags. *)
Definition flags (m : DisplayMessage) : bool * bool * option (list jstr) :=
  (read m, starred m, labelIds m).

(** The invariant of the list: ids identify rows, the open message's flags are its
    row's, checked ids are not repeated, and the only pending timer is that of the
    undo on offer. *)
Record Mail_ok (x : Mail) : Prop := {
  ok_ids : NoDup (map id (messages x));
  ok_pane : forall sel m, selectedMsg x = Some sel -> m ∈ messages x -> id m = id sel -> flags m = flags sel;
  ok_checked : NoDup (selectedIds x);
  ok_timer : undoTimers x = match undoAction x with Some a => [undo_timer a] | None => [] end;
  ok_fresh : Forall (fun t => (t <= nextTimer x)%nat) (undoTimers x);
}.

(** Selecting a destination of moves: a custom folder by id, or a standard one. *)
Definition show_place (g : jstr) (x : Mail) : Mail :=
  match find_named g (customFolders x) with
  | Some f => handleSelectCustomFolder f x
  | None => onSelectFolder g x
  end.

(** The request that files one message. *)
Definition move_request `{Env} (s : App) (box folder : jstr) (folderId : option jstr) (i : jstr) : request :=
  api_fetch s (message_path box i "/folder")
    {| i_method := Some (js "PUT"); i_headers := []; i_credentials := None;
       i_body := stringified (JObj [str_member "folder" folder; (js "folder_id", or_null folderId)]) |}.

(** ** Lemmas on the views *)

Lemma bool_app_filter {A} (p : A -> bool) l : List.filter p l ⊆ l.
Proof. intros a. rewrite !list_elem_of_In, filter_In. tauto. Qed.

Section SortLemmas.
Context {A : Type} (cmp : A -> A -> option Z).
Implicit Types (l : list A).

Lemma sort_insert_perm a l : sort_insert cmp a l ≡ₚ a :: l.
Proof.
  induction l as [|b l IH]; simpl; [done|]. destruct (compares_le cmp a b); [done|].
  rewrite IH. apply perm_swap.
Qed.

Lemma js_sort_perm l : js_sort cmp l ≡ₚ l.
Proof. induction l as [|a l IH]; simpl; [done|]. rewrite sort_insert_perm. by f_equiv. Qed.

(** Consistent comparisons sort. *)
Lemma sort_insert_sorted (R : relation A) a l :
  (forall b, b ∈ l -> compares_le cmp a b = true -> R a b) ->
  (forall b, b ∈ l -> compares_le cmp a b = false -> R b a) ->
  Transitive R -> StronglySorted R l -> StronglySorted R (sort_insert cmp a l).
Proof.
  intros Hle Hgt HT Hl. induction Hl as [|b l Hl IH Hb]; simpl; [repeat constructor|].
  destruct (compares_le cmp a b) eqn:E.
  - assert (R a b) by (apply Hle; set_solver). repeat (constructor; auto).
    eapply Forall_impl; [done|]. intros c ?. by etrans.
  - constructor; [apply IH; intros c Hc; [apply Hle|apply Hgt]; set_solver|].
    rewrite sort_insert_perm. constructor; [apply Hgt; set_solver|done].
Qed.

Lemma js_sort_sorted (R : relation A) l :
  (forall a b, a ∈ l -> b ∈ l -> compares_le cmp a b = true -> R a b) ->
  (forall a b, a ∈ l -> b ∈ l -> compares_le cmp a b = false -> R b a) ->
  Transitive R -> StronglySorted R (js_sort cmp l).
Proof.
  intros Hle Hgt HT. induction l as [|a l IH]; simpl; [constructor|].
  apply sort_insert_sorted; [| |done|apply IH; intros; [apply Hle|apply Hgt]; set_solver];
    intros b Hb; rewrite js_sort_perm in Hb; [apply Hle|apply Hgt]; set_solver.
Qed.

(** Elements that compare equal keep their order. *)
Lemma js_sort_stable (p : A -> bool) l :
  (forall a b, p a = true -> p b = true -> compares_le cmp a b = true) ->
  List.filter p (js_sort cmp l) = List.filter p l.
Proof.
  intros Hp. assert (Hi : forall a l, List.filter p (sort_insert cmp a l) = List.filter p (a :: l)).
  { intros a m. induction m as [|b m IH]; [done|]. cbn [sort_insert].
    destruct (compares_le cmp a b) eqn:E; [done|]. cbn [List.filter]. rewrite IH. cbn [List.filter].
    destruct (p a) eqn:Ea, (p b) eqn:Eb; try done. by rewrite Hp in E. }
  induction l as [|a l IH]; [done|]. cbn [js_sort foldr]. rewrite Hi. cbn [List.filter].
  unfold js_sort in IH. by rewrite IH.
Qed.

Lemma js_sort_all_equal l :
  (forall a b, a ∈ l -> b ∈ l -> compares_le cmp a b = true) -> js_sort cmp l = l.
Proof.
  induction l as [|a l IH]; intros Hl; [done|]. cbn [js_sort foldr].
  unfold js_sort in IH. rewrite IH by (intros; apply Hl; set_solver).
  destruct l as [|b l]; [done|]. cbn [sort_insert]. rewrite Hl; set_solver.
Qed.

End SortLemmas.

Lemma slice_inside {A} (a n : nat) (l : list A) :
  slice (Z.of_nat a) (Z.of_nat a + Z.of_nat n) l = take n (drop a l).
Proof.
  unfold slice. set (m := length l).
  destruct (Z.ltb_spec (Z.of_nat a + Z.of_nat n) 0); [lia|]. destruct (Z.ltb_spec (Z.of_nat a) 0); [lia|].
  destruct (decide (a <= m)%nat) as [Ha|Ha].
  - replace (Z.to_nat (Z.min (Z.of_nat a) (Z.of_nat m))) with a by lia.
    destruct (decide (a + n <= m)%nat).
    + f_equal. lia.
    + rewrite !take_ge; [done| |]; rewrite length_drop; lia.
  - rewrite !drop_ge by lia. by rewrite !take_nil.
Qed.

Lemma pages_concat {A} n k (l : list A) :
  (length l <= n * k)%nat ->
  concat (map (fun p => take n (drop (n * p) l)) (seq 0 k)) = l.
Proof.
  revert l. induction k as [|k IH]; intros l Hl; simpl.
  - rewrite Nat.mul_0_r in Hl. by destruct l; simpl in Hl; [|lia].
  - rewrite Nat.mul_0_r, drop_0, <- seq_shift, map_map.
    transitivity (take n l ++ drop n l); [|apply take_drop]. f_equal.
    transitivity (concat (map (fun p => take n (drop (n * p) (drop n l))) (seq 0 k))).
    + f_equal. apply map_ext. intros p. rewrite drop_drop. do 2 f_equal. lia.
    + apply IH. rewrite length_drop. lia.
Qed.

(** ** Filtering, sorting, paging *)

Section ViewTheorems.
Context `{Unicode} `{Dates}.
Implicit Types (x : Mail).

Lemma sorted_same_view x y :
  messages y = messages x -> filteredMessages y = filteredMessages x -> sortOrder y = sortOrder x ->
  sortedMessages y = sortedMessages x.
Proof. unfold sortedMessages. by intros _ -> ->. Qed.

Lemma sorted_perm x : sortedMessages x ≡ₚ filteredMessages x.
Proof. unfold sortedMessages. split_ifs; try done; apply js_sort_perm. Qed.

(** The time of a row, for rows whose date parses. *)
Definition time_of (m : DisplayMessage) : Z := default 0 (date_time (date m)).

Definition newer (a b : DisplayMessage) : Prop := time_of b <= time_of a.
Definition unread_then_newer (a b : DisplayMessage) : Prop :=
  (read a = false /\ read b = true) \/ (read a = read b /\ newer a b).

#[local] Instance newer_trans : Transitive newer.
Proof. unfold newer. intros a b c ? ?. lia. Qed.
#[local] Instance unread_then_newer_trans : Transitive unread_then_newer.
Proof.
  unfold unread_then_newer. intros a b c [[? ?]|[? ?]] [[? ?]|[? ?]]; try (left; split; congruence).
  right. split; [congruence|]. by eapply (newer_trans a b c).
Qed.

Lemma parsed_minus a b :
  date_time (date a) <> None -> date_time (date b) <> None ->
  minus (date_time (date a)) (date_time (date b)) = Some (time_of a - time_of b).
Proof. unfold time_of. by destruct (date_time (date a)), (date_time (date b)). Qed.

Lemma unparsed_minus a b :
  date_time (date a) = None \/ date_time (date b) = None ->
  minus (date_time (date a)) (date_time (date b)) = None.
Proof. intros [->| ->]; [done|]. by destruct (date_time (date a)). Qed.

(** The list shows exactly the rows that match the current place and query, each as
    often as it occurs, whatever the sort order.  Where every date parses, "newest" and
    "oldest" order the rows by time and "unread" puts unread rows first and each part in
    order of time.  Where no date parses (the clock times the client gives today's
    mail), the time orders leave the rows as they came. *)
Theorem sorted_view_spec x :
  sortedMessages x ≡ₚ filteredMessages x /\
  (forall m, m ∈ sortedMessages x <-> m ∈ messages x /\ matchFolder x m = true /\ matchQuery x m = true) /\
  (Forall (fun m => date_time (date m) <> None) (filteredMessages x) ->
     (sortOrder x = js "newest" -> StronglySorted newer (sortedMessages x)) /\
     (sortOrder x = js "oldest" -> StronglySorted (flip newer) (sortedMessages x)) /\
     (sortOrder x = js "unread" -> StronglySorted unread_then_newer (sortedMessages x))) /\
  (Forall (fun m => date_time (date m) = None) (filteredMessages x) ->
     sortOrder x = js "newest" \/ sortOrder x = js "oldest" -> sortedMessages x = filteredMessages x).
Proof.
  split; [apply sorted_perm|]. split.
  { intros m. rewrite sorted_perm. unfold filteredMessages.
    rewrite !list_elem_of_In, filter_In, andb_true_iff. done. }
  split.
  - intros Hd. rewrite Forall_forall in Hd.
    split_and!; intros E; unfold sortedMessages; rewrite E; cbn -[filteredMessages js_sort];
      (apply js_sort_sorted; [| |apply _]); intros a b Ha%Hd Hb%Hd;
      unfold compares_le, newest_first, oldest_first, unread_first, newest_first, unread_then_newer, newer, flip;
      rewrite ?parsed_minus by done; [intros ?; zbool; lia..| |].
    + destruct (read a), (read b); simpl; intros ?; zbool; first [lia|tauto|(right; split; [done|lia])].
    + destruct (read a), (read b); simpl; intros ?; zbool; first [lia|tauto|(right; split; [done|lia])].
  - intros Hd E. rewrite Forall_forall in Hd. unfold sortedMessages.
    destruct E as [-> | ->]; cbn -[filteredMessages js_sort]; apply js_sort_all_equal; intros a b Ha%Hd Hb%Hd;
      unfold compares_le, newest_first, oldest_first; by rewrite unparsed_minus by auto.
Qed.

(** The rows of all pages, from the first to the last that the page buttons reach. *)
Definition lastPage (x : Mail) : Z := Z.max 1 ((Z.of_nat (length (sortedMessages x)) + 49) / 50).

Definition all_pages (x : Mail) : list DisplayMessage :=
  concat (map (fun p => paginatedMessages (set_currentPage (Z.of_nat p) x)) (seq 1 (Z.to_nat (lastPage x)))).

Lemma page_of_view x p :
  (0 < p)%nat -> paginatedMessages (set_currentPage (Z.of_nat p) x) = take 50 (drop (50 * (p - 1)) (sortedMessages x)).
Proof.
  intros Hp. unfold paginatedMessages. change (sortedMessages (set_currentPage _ x)) with (sortedMessages x).
  unfold pageSize. cbn [currentPage set_currentPage].
  replace ((Z.of_nat p - 1) * 50) with (Z.of_nat (50 * (p - 1))) by lia. apply (slice_inside _ 50).
Qed.

Lemma all_pages_sorted x : all_pages x = sortedMessages x.
Proof.
  unfold all_pages, lastPage. rewrite <- seq_shift, map_map.
  set (last := Z.max 1 _).
  transitivity (concat (map (fun p => take 50 (drop (50 * p) (sortedMessages x))) (seq 0 (Z.to_nat last)))).
  - f_equal. apply map_ext. intros p. rewrite page_of_view by lia. do 3 f_equal. lia.
  - apply pages_concat. unfold last. zdm.
Qed.

(** The rows on display: fifty, or what is left for the page. *)
Lemma length_page x :
  1 <= currentPage x ->
  Z.of_nat (length (paginatedMessages x)) =
  Z.max 0 (Z.min 50 (Z.of_nat (length (sortedMessages x)) - 50 * (currentPage x - 1))).
Proof.
  intros Hp. pose proof (page_of_view x (Z.to_nat (currentPage x)) ltac:(lia)) as E.
  rewrite Z2Nat.id in E by lia. change (paginatedMessages (set_currentPage _ x)) with (paginatedMessages x) in E.
  rewrite E, length_take, length_drop. lia.
Qed.

(** C40.  The pages of fifty are a partition of the sorted list: in order they give the
    whole list, none is longer than fifty, and the page buttons never leave the range
    of non-empty pages. *)
Theorem pages_partition x :
  let count := length (sortedMessages x) in
  let last := Z.max 1 ((Z.of_nat count + 49) / 50) in
  concat (map (fun p => paginatedMessages (set_currentPage (Z.of_nat p) x))
            (seq 1 (Z.to_nat last))) = sortedMessages x /\
  (forall p, (length (paginatedMessages (set_currentPage p x)) <= 50)%nat) /\
  (1 <= currentPage x <= last ->
     1 <= currentPage (onNextPage x) <= last /\ 1 <= currentPage (onPrevPage x) <= last /\
     (paginatedMessages x = [] -> sortedMessages x = [])).
Proof.
  intros count last.
  assert (Hs : forall p, sortedMessages (set_currentPage p x) = sortedMessages x) by done.
  split_and!.
  - apply all_pages_sorted.
  - intros p. unfold paginatedMessages, slice, pageSize. rewrite Hs. rewrite length_take.
    set (n := Z.of_nat _). split_ifs; lia.
  - intros Hr. fold count. unfold onNextPage, onPrevPage, pageEnd, pageSize. fold count.
    split_and!.
    1-4: split_ifs; cbn [currentPage set_currentPage]; zbool; unfold last in *; zdm.
    intros He. pose proof (length_page x ltac:(lia)) as Hp. rewrite He in Hp. cbn [length] in Hp.
    fold count in Hp. apply length_zero_iff_nil. fold count. unfold last in *. zdm.
Qed.

End ViewTheorems.

(** ** Counters *)

Lemma bump_spec k counts j :
  default 0 (bump k counts !! j) = default 0 (counts !! j) + (if decide (j = k) then 1 else 0).
Proof.
  unfold bump. destruct (decide (j = k)) as [->|Hn].
  - by rewrite lookup_insert_eq.
  - rewrite lookup_insert_ne by done. lia.
Qed.

Lemma is_Some_bump k counts j : is_Some (counts !! j) -> is_Some (bump k counts !! j).
Proof.
  unfold bump. intros Hj. destruct (decide (j = k)) as [->|Hn].
  - rewrite lookup_insert_eq. eauto.
  - by rewrite lookup_insert_ne.
Qed.

(** Counting with [step], where each row adds one exactly when [p] holds. *)
Lemma fold_count (step : gmap jstr Z -> DisplayMessage -> gmap jstr Z) (P : gmap jstr Z -> Prop) k p l :
  (forall c m, m ∈ l -> P c -> P (step c m)) ->
  (forall c m, m ∈ l -> P c ->
     default 0 (step c m !! k) = default 0 (c !! k) + (if p m : bool then 1 else 0)) ->
  forall c, P c ->
    default 0 (fold_left step l c !! k) =
    default 0 (c !! k) + Z.of_nat (length (List.filter p l)).
Proof.
  intros HP Hs. induction l as [|m l IH]; intros c Hc; simpl; [lia|].
  rewrite IH.
  - rewrite Hs by (first [done|set_solver]). destruct (p m); simpl; lia.
  - intros d n Hn. apply HP. set_solver.
  - intros d n Hn. apply Hs. set_solver.
  - apply HP; [set_solver|done].
Qed.

Lemma jeqb_false a b : jeqb a b = false <-> a <> b.
Proof.
  split.
  - intros E ->. by rewrite (proj2 (jeqb_eq b b) eq_refl) in E.
  - intros Hn. destruct (jeqb a b) eqn:E; [|done]. by apply jeqb_eq in E.
Qed.

Lemma jeqb_decide a b : jeqb a b = bool_decide (a = b).
Proof.
  case_bool_decide as E; [by apply jeqb_eq|by apply jeqb_false].
Qed.

Lemma jeqb_refl a : jeqb a a = true.
Proof. by apply jeqb_eq. Qed.

Section Badges.
Context `{Unicode} `{Dates}.

Lemma empty_query x m : searchQuery x = [] -> matchQuery x m = true.
Proof. intros E. unfold matchQuery. rewrite E, lower_ascii by done. done. Qed.

Lemma view_without_query x l :
  searchQuery x = [] -> messages x = l ->
  filteredMessages x = List.filter (matchFolder x) l.
Proof.
  intros Hq <-. unfold filteredMessages. apply filter_ext. intros m. by rewrite empty_query, andb_true_r.
Qed.

Definition has_folders (c : gmap jstr Z) : Prop := forall f, f ∈ folder_names -> is_Some (c !! f).

Lemma count_folder_spec c m f :
  has_folders c -> folder m ∈ folder_names -> f ∈ folder_names ->
  default 0 (count_folder c m !! f) = default 0 (c !! f)
    + (if (if jeqb f (js "inbox") then
             falsy_opt (folderId m) && (negb (truthy (folder m)) || jeqb (folder m) (js "inbox"))
           else jeqb (folder m) f) then 1 else 0).
Proof.
  intros Hc Hm Hf. unfold count_folder, falsy_opt.
  destruct (Hc _ Hm) as [z Hz].
  assert (truthy (folder m) = true) as ->.
  { destruct (folder m); [|done]. exfalso. revert Hm. by_decide. }
  rewrite !jeqb_decide, Hz. cbn [negb orb].
  destruct (decide (folder m = js "trash")) as [E|E]; [|destruct (decide (folder m = js "inbox")) as [E'|E']].
  - rewrite (bool_decide_eq_true_2 _ E), bump_spec, E.
    destruct (decide (f = js "inbox")) as [->|?]; [by rewrite andb_false_r|].
    rewrite (bool_decide_eq_false_2 (f = js "inbox")) by done.
    by rewrite (bool_decide_ext (js "trash" = f) (f = js "trash")), bool_decide_decide by done;
       case_decide.
  - rewrite (bool_decide_eq_false_2 _ E), (bool_decide_eq_true_2 _ E'), E', andb_true_r.
    destruct (truthy_opt (folderId m)); cbn [negb]; rewrite ?bump_spec;
      repeat case_bool_decide; repeat case_decide; subst; try congruence; lia.
  - rewrite (bool_decide_eq_false_2 _ E), (bool_decide_eq_false_2 _ E'), bump_spec, andb_false_r.
    repeat case_bool_decide; repeat case_decide; subst; try congruence; lia.
Qed.

Lemma count_folder_total c m : has_folders c -> has_folders (count_folder c m).
Proof.
  intros Hc f Hf. unfold count_folder. split_ifs; auto using is_Some_bump.
Qed.

Lemma fold_bump_count ls l c :
  NoDup ls ->
  default 0 (fold_left (fun c k => bump k c) ls c !! l) =
  default 0 (c !! l) + (if bool_decide (l ∈ ls) then 1 else 0).
Proof.
  intros Hn. revert c. induction Hn as [|k ls Hk Hn IH]; intros c; simpl; [lia|].
  rewrite IH, bump_spec.
  repeat case_bool_decide; case_decide; subst; first [done | set_solver | lia].
Qed.

(** The pages of a view together hold [n] rows; page [p], which is on display, as many of
    them as are left for it, and at most fifty. *)
Definition shows_rows (view : Mail) (n p : Z) : Prop :=
  Z.of_nat (length (all_pages view)) = n /\ currentPage view = p /\
  Z.of_nat (length (paginatedMessages view)) = Z.max 0 (Z.min 50 (n - 50 * (p - 1))).

Lemma shows_filtered view n p :
  currentPage view = p -> 1 <= p -> n = Z.of_nat (length (filteredMessages view)) -> shows_rows view n p.
Proof.
  intros <- Hp ->. unfold shows_rows. rewrite all_pages_sorted, length_page by done.
  by rewrite (Permutation_length (sorted_perm view)).
Qed.

(** C35.  The sidebar's counters and the views they stand beside, for a page without a
    query.  Where every row is in one of the six folders, the counter of a folder is the
    number of rows on all the pages of its view, which opens on its first page and shows
    the first fifty.  The counter of a custom folder (of an id that is not empty), and
    that of a label where no row carries a label twice, is the number of rows on all the
    pages of its view; but that opens on the page the list was on, and shows what is left
    for that page, so that a list shorter than the pages before shows no row. *)
Theorem badges_agree_with_views x :
  searchQuery x = [] -> 1 <= currentPage x ->
  (Forall (fun m => folder m ∈ folder_names) (messages x) ->
     forall f, f ∈ folder_names ->
     exists n, folderCounts x !! f = Some n /\ shows_rows (onSelectFolder f x) n 1) /\
  (forall cf, n_id cf <> [] ->
     shows_rows (handleSelectCustomFolder cf x) (default 0 (customFolderCounts x !! n_id cf)) (currentPage x)) /\
  (Forall (fun m => NoDup (label_list m)) (messages x) ->
     forall l, shows_rows (handleSelectLabel l x) (default 0 (labelCounts x !! n_id l)) (currentPage x)).
Proof.
  intros Hq Hp. split_and!.
  - intros Hf f Hin. rewrite Forall_forall in Hf.
    assert (Hz0 : has_folders (list_to_map (map (fun f => (f, 0)) folder_names))).
    { intros g Hg. repeat (apply elem_of_cons in Hg as [->|Hg]; [by vm_compute; eauto|]). set_solver. }
    assert (Ht : has_folders (folderCounts x)).
    { unfold folderCounts. revert Hz0. generalize (messages x). intros ms.
      generalize (list_to_map (M:=gmap jstr Z) (map (fun f => (f, 0)) folder_names)).
      induction ms as [|m ms IH]; intros c Hc; simpl; auto using count_folder_total. }
    destruct (Ht f Hin) as [z Hz]. exists z. split; [done|]. apply shows_filtered; [done..|].
    rewrite (view_without_query _ (messages x)) by done.
    transitivity (default 0 (folderCounts x !! f)); [by rewrite Hz|]. unfold folderCounts.
    rewrite (fold_count _ has_folders f (matchFolder (onSelectFolder f x)));
      [|auto using count_folder_total| |done].
    + assert (E : default 0 ((list_to_map (map (fun f => (f, 0)) folder_names) : gmap jstr Z) !! f) = 0).
      { repeat (apply elem_of_cons in Hin as [->|Hin]; [by vm_compute|]). set_solver. }
      rewrite E. done.
    + intros c m Hm Hc. by apply count_folder_spec; [|apply Hf|].
  - intros cf Hne. apply shows_filtered; [done..|]. rewrite (view_without_query _ (messages x)) by done. unfold customFolderCounts.
    rewrite (fold_count _ (fun _ => True) _ (matchFolder (handleSelectCustomFolder cf x))); [done|done| |done].
    intros c m _ _. unfold count_custom. cbn [matchFolder activeCustomFolder handleSelectCustomFolder
      set_selectedIds set_selectedMsg set_activeLabel set_activeCustomFolder].
    unfold matchFolder, in_folder_id; cbn. rewrite !jeqb_decide. destruct (folderId m) as [f|]; simpl; [|lia].
    destruct (bool_decide (folder m = _)); simpl; [rewrite andb_false_r; lia|].
    rewrite jeqb_decide, andb_true_r. destruct f as [|u f]; cbn [truthy].
    + rewrite bool_decide_eq_false_2 by done. lia.
    + rewrite bump_spec. case_decide; case_bool_decide; first [lia|congruence].
  - intros Hl l. apply shows_filtered; [done..|]. rewrite Forall_forall in Hl. rewrite (view_without_query _ (messages x)) by done. unfold labelCounts.
    rewrite (fold_count _ (fun _ => True) _ (matchFolder (handleSelectLabel l x))); [done|done| |done].
    intros c m Hm _. unfold count_labels, matchFolder, has_label; cbn.
    specialize (Hl m Hm). unfold label_list in Hl. destruct (labelIds m) as [ls|]; simpl; [|lia].
    destruct (jeqb _ _); simpl; [rewrite andb_false_r; lia|].
    by rewrite fold_bump_count, andb_true_r.
Qed.

End Badges.

(** ** Moves, undo, batches *)

Lemma elem_of_set_delete i j ids : j ∈ set_delete i ids <-> j ∈ ids /\ j <> i.
Proof.
  unfold set_delete. by rewrite !list_elem_of_In, filter_In, negb_true_iff, jeqb_false.
Qed.

Lemma has_id_spec i m : has_id i m = true <-> id m = i.
Proof. unfold has_id. apply jeqb_eq. Qed.

Lemma map_where_id p f l : (forall m, m ∈ l -> p m = true -> f m = m) -> map_where p f l = l.
Proof.
  intros Hf. induction l as [|m l IH]; simpl; [done|]. rewrite IH by (intros; apply Hf; set_solver).
  destruct (p m) eqn:E; [|done]. by rewrite Hf by (done || set_solver).
Qed.

Lemma map_where_map_where p q f g l :
  (forall m, p (g m) = p m) ->
  map_where p f (map_where q g l) =
  map (fun m => if p m then f (if q m then g m else m) else if q m then g m else m) l.
Proof.
  intros Hp. unfold map_where. rewrite map_map. apply map_ext. intros m.
  by destruct (q m); rewrite ?Hp.
Qed.

Lemma set_folder_set_folder a b m : set_folder a (set_folder b m) = set_folder a m.
Proof. done. Qed.

Lemma set_folder_same m : set_folder (folder m) m = m.
Proof. by destruct m. Qed.

Lemma NoDup_map_inj {A B} (f : A -> B) l a b :
  NoDup (map f l) -> a ∈ l -> b ∈ l -> f a = f b -> a = b.
Proof.
  induction l as [|c l IH]; simpl; [set_solver|]. intros Hn%NoDup_cons Ha Hb E. destruct Hn as [Hc Hn].
  apply elem_of_cons in Ha as [->|Ha], Hb as [->|Hb]; auto.
  - destruct Hc. rewrite E. by apply list_elem_of_fmap_2.
  - destruct Hc. rewrite <- E. by apply list_elem_of_fmap_2.
Qed.

(** The two moves that can be undone. *)
Definition is_move (move : DisplayMessage -> Mail -> Mail) (target : jstr) : Prop :=
  (move = handleArchiveMessage /\ target = js "archive") \/
  (move = handleTrashMessage /\ target = js "trash").

Lemma messages_offer_undo i f x : messages (offer_undo i f x) = messages x.
Proof. unfold offer_undo. by destruct (undoAction x). Qed.

Lemma messages_update_selected p f x : messages (update_selected p f x) = messages x.
Proof. unfold update_selected. case_match; [|done]. by case_match. Qed.

Lemma messages_moved move target msg x :
  is_move move target ->
  messages (move msg x) = map_where (has_id (id msg)) (set_folder target) (messages x).
Proof.
  intros [[-> ->]|[-> ->]]; unfold handleArchiveMessage, handleTrashMessage, close_selected;
    by rewrite messages_offer_undo, messages_update_selected.
Qed.

Lemma undo_offered i f x :
  exists a, undoAction (offer_undo i f x) = Some a /\ undo_messageId a = i /\ undo_previousFolder a = f /\
    undo_timer a ∈ undoTimers (offer_undo i f x).
Proof. unfold offer_undo. destruct (undoAction x); eexists; (split_and!; [done..|set_solver]). Qed.

Lemma undo_after_move move target msg x :
  is_move move target ->
  exists a, undoAction (move msg x) = Some a /\ undo_messageId a = id msg /\
    undo_previousFolder a = folder msg /\ undo_timer a ∈ undoTimers (move msg x).
Proof. intros [[-> _]|[-> _]]; apply undo_offered. Qed.

Lemma messages_undo a x :
  undoAction x = Some a ->
  messages (handleUndo x) =
  map_where (has_id (undo_messageId a)) (set_folder (undo_previousFolder a)) (messages x).
Proof. intros E. unfold handleUndo. by rewrite E. Qed.

(** Undo: archiving or trashing a row puts it (and no other row) in the target
    folder and closes it; undoing restores the whole list and withdraws the offer; a
    second move withdraws the first one's offer, so that undo then reverts only the
    second; and once the five-second timer has fired, undo changes nothing. *)
Theorem undo_reverts_the_last_move move target msg move2 target2 msg2 x :
  is_move move target -> is_move move2 target2 ->
  NoDup (map id (messages x)) -> msg ∈ messages x ->
  let y := move msg x in
  messages y = map_where (has_id (id msg)) (set_folder target) (messages x) /\
  messages (handleUndo y) = messages x /\
  undoAction (handleUndo y) = None /\
  (msg2 ∈ messages y -> messages (handleUndo (move2 msg2 y)) = messages y) /\
  (forall a, undoAction y = Some a ->
     handleUndo (undo_timer_fires (undo_timer a) y) = undo_timer_fires (undo_timer a) y).
Proof.
  intros Hm Hm2 Hn Hin y.
  destruct (undo_after_move _ _ msg x Hm) as (a & Ea & Eid & Ef & Ht). fold y in Ea, Ht.
  assert (Hr : forall mv tg m z, is_move mv tg -> NoDup (map id (messages z)) -> m ∈ messages z ->
    messages (handleUndo (mv m z)) = messages z).
  { intros mv tg m z Hmv Hnz Hmz. destruct (undo_after_move _ _ m z Hmv) as (b & Eb & Eb1 & Eb2 & _).
    rewrite (messages_undo b), (messages_moved _ tg), map_where_map_where, Eb1, Eb2 by done.
    rewrite <- (map_id (messages z)) at 2. apply map_ext_in. intros n Hnn%list_elem_of_In.
    destruct (has_id (id m) n) eqn:E; [|done]. apply has_id_spec in E.
    rewrite (NoDup_map_inj id (messages z) n m) by done. rewrite set_folder_set_folder. apply set_folder_same. }
  split_and!.
  - by apply messages_moved.
  - by apply (Hr _ target).
  - unfold handleUndo. by rewrite Ea.
  - intros H2. apply (Hr _ target2); try done. unfold y. rewrite (messages_moved _ target) by done.
    unfold map_where. rewrite map_map. erewrite map_ext; [exact Hn|]. intros m. by destruct (has_id _ m).
  - intros b [= <-]%(eq_trans (eq_sym Ea)). unfold undo_timer_fires. rewrite bool_decide_eq_true_2 by done. done.
Qed.


(** What closing rows that satisfy [p] leaves open. *)
Definition still_open (p : DisplayMessage -> bool) (o : option DisplayMessage) : option DisplayMessage :=
  match o with Some m => if p m then None else Some m | None => None end.

Lemma selected_close p x : selectedMsg (close_selected p x) = still_open p (selectedMsg x).
Proof.
  unfold close_selected, update_selected, still_open.
  destruct (selectedMsg x) as [m|] eqn:E; [|done]. by destruct (p m).
Qed.

Lemma has_id_in_cons i ids m : has_id_in (i :: ids) m = has_id i m || has_id_in ids m.
Proof.
  unfold has_id_in, has_id. rewrite jeqb_decide.
  repeat case_bool_decide; simpl; set_solver.
Qed.

(** Iterating an operation that acts on the rows of one id. *)
Lemma iterate_rows (op : DisplayMessage -> Mail -> Mail)
    (act : (DisplayMessage -> bool) -> list DisplayMessage -> list DisplayMessage) ms :
  (forall m x, messages (op m x) = act (has_id (id m)) (messages x)) ->
  (forall m x, selectedMsg (op m x) = still_open (has_id (id m)) (selectedMsg x)) ->
  (forall i q l, act q (act (has_id i) l) = act (fun m => has_id i m || q m) l) ->
  (forall p q l, (forall m, p m = q m) -> act p l = act q l) ->
  (forall l, act (fun _ => false) l = l) ->
  forall x,
  messages (fold_left (fun x m => op m x) ms x) = act (has_id_in (map id ms)) (messages x) /\
  selectedMsg (fold_left (fun x m => op m x) ms x) = still_open (has_id_in (map id ms)) (selectedMsg x).
Proof.
  intros Hm Hs Hc He H0. induction ms as [|m ms IH]; intros x; simpl.
  - split.
    + rewrite (He _ (fun _ => false)); [done|]. intros m. apply bool_decide_eq_false_2. set_solver.
    + destruct (selectedMsg x) as [m|]; [|done]. cbn [still_open].
      unfold has_id_in. rewrite bool_decide_eq_false_2 by set_solver. done.
  - destruct (IH (op m x)) as [-> ->]. rewrite Hm, Hs, Hc. split.
    + apply He. intros n. by rewrite has_id_in_cons.
    + destruct (selectedMsg x) as [n|]; [|done]. cbn [still_open]. rewrite has_id_in_cons.
      by destruct (has_id (id m) n).
Qed.

Lemma selected_moved move target msg x :
  is_move move target -> selectedMsg (move msg x) = still_open (has_id (id msg)) (selectedMsg x).
Proof.
  assert (Hs : forall i f z, selectedMsg (offer_undo i f z) = selectedMsg z)
    by (intros i f z; unfold offer_undo; by destruct (undoAction z)).
  intros [[-> _]|[-> _]]; unfold handleArchiveMessage, handleTrashMessage; by rewrite Hs, selected_close.
Qed.

Lemma iterate_moves move target ms x :
  is_move move target ->
  messages (fold_left (fun x m => move m x) ms x) =
    map_where (has_id_in (map id ms)) (set_folder target) (messages x) /\
  selectedMsg (fold_left (fun x m => move m x) ms x) = still_open (has_id_in (map id ms)) (selectedMsg x).
Proof.
  intros Hm. apply (iterate_rows move (fun p l => map_where p (set_folder target) l)).
  - intros. by apply messages_moved.
  - intros. by apply (selected_moved _ target).
  - intros i q l. unfold map_where. rewrite map_map. apply map_ext. intros m.
    destruct (has_id i m) eqn:E; [|done]. cbn [orb]. by destruct (q _).
  - intros p q l E. unfold map_where. apply map_ext. intros m. by rewrite E.
  - intros l. by apply map_where_id.
Qed.

Lemma messages_batch_move target toast x :
  selectedIds x <> [] ->
  messages (batch_move target toast x) =
    map_where (has_id_in (selectedIds x)) (set_folder (js target)) (messages x) /\
  selectedMsg (batch_move target toast x) = still_open (has_id_in (selectedIds x)) (selectedMsg x).
Proof.
  intros Hne. unfold batch_move, with_selection. destruct (selectedIds x) as [|i ids] eqn:E; [done|].
  rewrite <- E. unfold showToast. split; cbn [messages selectedMsg set_selectedIds set_toastMessage].
  - unfold close_selected. by rewrite messages_update_selected.
  - by rewrite selected_close.
Qed.

Lemma iterate_deletes ms x :
  messages (fold_left (fun x m => handleDeleteForever m x) ms x) =
    List.filter (fun m => negb (has_id_in (map id ms) m)) (messages x) /\
  selectedMsg (fold_left (fun x m => handleDeleteForever m x) ms x) =
    still_open (has_id_in (map id ms)) (selectedMsg x).
Proof.
  apply (iterate_rows handleDeleteForever (fun p l => List.filter (fun m => negb (p m)) l)).
  - intros. unfold handleDeleteForever, close_selected.
    cbn [messages showToast set_toastMessage set_selectedIds]. by rewrite messages_update_selected.
  - intros. unfold handleDeleteForever. cbn [selectedMsg showToast set_toastMessage set_selectedIds].
    by rewrite selected_close.
  - intros i q l. induction l as [|m l IH]; [done|]. cbn [List.filter].
    destruct (has_id i m); cbn [negb orb List.filter]; [done|]. destruct (q m); cbn [negb]; by rewrite IH.
  - intros p q l E. apply filter_ext. intros m. by rewrite E.
  - intros l. induction l as [|m l IH]; [done|]. cbn in *. by rewrite IH.
Qed.

Lemma messages_batch_delete x :
  selectedIds x <> [] ->
  messages (handleBatchDeleteForever x) =
    List.filter (fun m => negb (has_id_in (selectedIds x) m)) (messages x) /\
  selectedMsg (handleBatchDeleteForever x) = still_open (has_id_in (selectedIds x)) (selectedMsg x).
Proof.
  intros Hne. unfold handleBatchDeleteForever, with_selection. destruct (selectedIds x) as [|i ids] eqn:E; [done|].
  rewrite <- E. unfold showToast. split; cbn [messages selectedMsg set_selectedIds set_toastMessage].
  - unfold close_selected. by rewrite messages_update_selected.
  - by rewrite selected_close.
Qed.

(** A batch archive, move to trash or permanent deletion of the checked rows leaves
    the same list and the same open message as applying the single operation to them
    one after the other. *)
Theorem batch_is_iteration ms x :
  map id ms = selectedIds x -> ms <> [] ->
  let all op := fold_left (fun x m => op m x) ms x in
  (messages (handleBatchArchive x) = messages (all handleArchiveMessage) /\
   selectedMsg (handleBatchArchive x) = selectedMsg (all handleArchiveMessage)) /\
  (messages (handleBatchTrash x) = messages (all handleTrashMessage) /\
   selectedMsg (handleBatchTrash x) = selectedMsg (all handleTrashMessage)) /\
  (messages (handleBatchDeleteForever x) = messages (all handleDeleteForever) /\
   selectedMsg (handleBatchDeleteForever x) = selectedMsg (all handleDeleteForever)).
Proof.
  intros Hids Hne all. assert (Hne' : selectedIds x <> []) by (rewrite <- Hids; by destruct ms).
  destruct (iterate_moves handleArchiveMessage (js "archive") ms x) as [A1 A2]; [by left|].
  destruct (iterate_moves handleTrashMessage (js "trash") ms x) as [T1 T2]; [by right|].
  destruct (iterate_deletes ms x) as [D1 D2]. unfold all.
  rewrite A1, A2, T1, T2, D1, D2, Hids.
  split_and!; first [by apply messages_batch_move | by apply messages_batch_delete].
Qed.

(** ** Telling the server *)

Lemma run_for_each {S : Type} ids (p : jstr -> prog S unit) (q : S -> jstr -> request) w s :
  (forall i, sends_one (fun s => q s i) (p i)) ->
  forall t, run w t s (for_each ids p) =
    (Ok tt, s, {| sent := sent t ++ map (q s) ids; asked := asked t |}).
Proof.
  intros Hp. induction ids as [|i ids IH]; intros t; cbn [for_each map].
  - rewrite app_nil_r. by destruct t.
  - rewrite run_bind, run_forget. destruct (Hp i w t s) as [r ->]. cbn [sent asked].
    rewrite IH. cbn [sent asked]. by rewrite <- app_assoc.
Qed.

Lemma talks_for_each {S : Type} ids (p : jstr -> prog S unit) :
  (forall i, talks (p i)) -> talks (for_each ids p).
Proof. intros Hp. induction ids; cbn [for_each]; unfold skip; auto with talks. Qed.

Lemma talks_tell_server {A} ids (call : jstr -> jstr -> prog App A) :
  (forall box i, talks (call box i)) -> talks (tell_server ids call).
Proof.
  intros Hc. unfold tell_server. apply talks_bind; [auto with talks|]. intros s.
  case_match; [|apply talks_done]. apply talks_for_each. auto with talks.
Qed.

Lemma run_tell_server {A} ids (call : jstr -> jstr -> prog App A) (q : jstr -> App -> jstr -> request) w t s :
  (forall box i, sends_one (fun s => q box s i) (call box i)) ->
  run w t s (tell_server ids call) =
  (Ok tt, s, {| sent := sent t ++ match selectedMailbox (custody s) with
                                 | Some box => map (q (mb_id box) s) ids
                                 | None => [] end; asked := asked t |}).
Proof.
  intros Hc. unfold tell_server. rewrite run_bind. cbn [gets run].
  destruct (selectedMailbox (custody s)) as [box|].
  - rewrite (run_for_each ids _ (q (mb_id box))); [done|].
    intros i. apply (sends_one_then (fun s => q (mb_id box) s i)); [apply Hc|intros; apply quiet_ret].
  - rewrite app_nil_r. by destruct t.
Qed.

Lemma run_on_mail f w t s : run w t s (on_mail_prog f) = (Ok tt, on_mail f s, t).
Proof. done. Qed.

#[export] Hint Resolve talks_tell_server : talks.

Lemma find_named_id i l n : find_named i l = Some n -> n_id n = i.
Proof.
  unfold find_named. destruct (list_find _ l) as [[k m]|] eqn:E; [|done]. intros [= <-].
  apply list_find_Some in E as (_ & E & _). by apply jeqb_eq, Is_true_eq_true.
Qed.

Section Filing.
Context `{Unicode} `{Dates} `{Env}.

Lemma api_fetch_on_mail f s path init : api_fetch (on_mail f s) path init = api_fetch s path init.
Proof. done. Qed.

(** Moving rows to a folder: whatever the server answers, every moved row shows at
    once in the view of its destination and in no other folder's view, the other rows
    are untouched, the moved rows are unchecked and closed, and the server is told once
    per id, in order, with the destination's own name or with "custom" and its id. *)
Theorem move_files_messages ids target w t s :
  ids <> [] -> target <> [] ->
  let '(r, s', t') := run w t s (handleMoveMessages ids target) in
  let x := mail s in let y := mail s' in
  r = Ok tt /\
  messages y = map (fun m => if has_id_in ids m then
      set_folderId (option_map n_id (find_named target (customFolders x)))
        (set_folder (match find_named target (customFolders x) with
                     | Some _ => js "inbox" | None => target end) m) else m) (messages x) /\
  (forall m, m ∈ messages y -> id m ∈ ids ->
     matchFolder (show_place target y) m = true /\
     (forall g, g <> target -> matchFolder (show_place g y) m = false)) /\
  selectedMsg y = still_open (has_id_in ids) (selectedMsg x) /\
  (forall i, i ∈ selectedIds y <-> i ∈ selectedIds x /\ i ∉ ids) /\
  sent t' = sent t ++
    match selectedMailbox (custody s) with
    | Some box => map (move_request s (mb_id box)
        (match find_named target (customFolders x) with Some _ => js "custom" | None => target end)
        (option_map n_id (find_named target (customFolders x)))) ids
    | None => []
    end.
Proof.
  intros Hids Ht. unfold handleMoveMessages. destruct ids as [|i0 ids0] eqn:Eids; [done|].
  rewrite <- Eids in *. clear i0 ids0 Eids. set (cf := find_named target (customFolders (mail s))).
  rewrite run_bind. cbn [gets run]. fold cf. rewrite run_bind, run_on_mail, run_bind.
  rewrite (run_tell_server ids _ (fun box s => move_request s box
     (match cf with Some _ => js "custom" | None => target end) (option_map n_id cf)))
    by (intros; apply sends_one_send).
  rewrite run_on_mail. cbn zeta. split; [done|].
  assert (Hm : messages (move_local ids target (mail s)) =
    map_where (has_id_in ids) (fun m => set_folderId (option_map n_id cf)
      (set_folder (match cf with Some _ => js "inbox" | None => target end) m)) (messages (mail s))).
  { unfold move_local. fold cf. cbn [messages set_selectedIds]. unfold close_selected.
    by rewrite messages_update_selected. }
  split_and!.
  - done.
  - intros m Hin Hid. cbn [mail on_mail set_mail showToast messages set_toastMessage] in *.
    change (m ∈ messages (move_local ids target (mail s))) in Hin. rewrite Hm in Hin.
    apply list_elem_of_fmap in Hin as (n & -> & Hn).
    assert (Hni : has_id_in ids n = true).
    { apply bool_decide_eq_true. destruct (has_id_in ids n); exact Hid. }
    rewrite Hni. unfold show_place.
    assert (Ec : customFolders (on_mail (showToast (js "Moved " ++ conversations (Z.of_nat (length ids)) ++
        js " to " ++ match cf with Some f => n_name f | None => target end))
        (on_mail (move_local ids target) s)).(mail) = customFolders (mail s)).
    { cbn. unfold move_local, close_selected, update_selected. cbn. fold cf.
      destruct (selectedMsg (mail s)) as [sm|]; [|done]. by destruct (has_id_in ids sm). }
    cbn [mail on_mail set_mail] in Ec. rewrite Ec. fold cf. split.
    + destruct cf as [f|] eqn:Ecf; unfold matchFolder, in_folder_id; cbn; rewrite ?jeqb_refl; try done.
      rewrite jeqb_decide. case_bool_decide as E; [by rewrite orb_true_r|]. by rewrite ?jeqb_refl.
    + intros g Hg. destruct (find_named g (customFolders (mail s))) as [h|] eqn:Eg.
      * apply find_named_id in Eg. unfold matchFolder, in_folder_id; cbn. destruct cf as [f|] eqn:Ecf; cbn; [|done].
        apply find_named_id in Ecf. rewrite Ecf, Eg.
        by rewrite (proj2 (jeqb_false target g)) by congruence.
      * unfold matchFolder; cbn. destruct cf as [f|] eqn:Ecf; cbn.
        -- apply find_named_id in Ecf. rewrite Ecf. unfold falsy_opt, truthy_opt. destruct target; [done|].
           destruct (jeqb g _) eqn:E; [done|]. apply jeqb_false in E. by apply jeqb_false.
        -- destruct (jeqb g _) eqn:E; [|by apply jeqb_false].
           apply jeqb_eq in E. rewrite <- E. destruct target; [done|]. cbn [truthy negb orb]. by apply jeqb_false.
  - cbn. unfold move_local. cbn. by rewrite selected_close.
  - intros i. cbn. unfold move_local. cbn.
    match goal with |- context [fold_left _ ids ?l] => assert (E : l = selectedIds (mail s)) end.
    { unfold close_selected, update_selected. cbn. destruct (selectedMsg (mail s)) as [sm|]; [|done].
      by destruct (has_id_in ids sm). }
    rewrite E. generalize (selectedIds (mail s)). clear. induction ids as [|j ids IH]; intros l; simpl.
    + set_solver.
    + rewrite IH, elem_of_set_delete, elem_of_cons. tauto.
  - done.
Qed.

End Filing.

(** ** Labels *)

Lemma id_add_label l m : id (add_label l m) = id m.
Proof. unfold add_label. by case_decide. Qed.

Lemma has_label_spec l m : has_label l m = bool_decide (l ∈ label_list m).
Proof.
  unfold has_label, label_list. destruct (labelIds m) as [ls|]; [done|].
  symmetry. apply bool_decide_eq_false_2. set_solver.
Qed.

Lemma has_label_add l k m : has_label k (add_label l m) = bool_decide (k = l) || has_label k m.
Proof.
  rewrite !has_label_spec. unfold add_label. case_decide as E.
  - destruct (decide (k = l)) as [->|Hn].
    + rewrite !bool_decide_eq_true_2 by done. done.
    + by rewrite (bool_decide_eq_false_2 (k = l)) by done.
  - unfold label_list at 1; cbn [labelIds set_labelIds default].
    repeat case_bool_decide; simpl; set_solver.
Qed.

Lemma has_label_drop l k m : has_label k (drop_label l m) = negb (bool_decide (k = l)) && has_label k m.
Proof.
  rewrite !has_label_spec. unfold drop_label. unfold label_list at 1; cbn [labelIds set_labelIds default].
  destruct (decide (k = l)) as [->|Hn].
  - rewrite (bool_decide_eq_true_2 (l = l)) by done. apply bool_decide_eq_false_2.
    cbn. rewrite elem_of_set_delete. tauto.
  - rewrite (bool_decide_eq_false_2 (k = l)) by done. apply bool_decide_ext.
    cbn. rewrite elem_of_set_delete. tauto.
Qed.

Lemma messages_relabel f ids x : messages (relabel f ids x) = map_where (has_id_in ids) f (messages x).
Proof. unfold relabel. by rewrite messages_update_selected. Qed.

Lemma filter_map_where p f l :
  (forall m, p (f m) = p m) -> List.filter p (map_where p f l) = map f (List.filter p l).
Proof.
  intros Hp. unfold map_where. induction l as [|m l IH]; [done|]. cbn [map List.filter].
  destruct (p m) eqn:E; rewrite ?Hp, E; cbn [map]; by rewrite IH.
Qed.

Lemma forallb_constant (p : DisplayMessage -> bool) (f : DisplayMessage -> DisplayMessage) l b :
  l <> [] -> (forall m, p (f m) = b) ->
  negb (length (map f l) =? 0)%nat && forallb p (map f l) = b.
Proof.
  intros Hl Hp. destruct l as [|m l]; [done|]. cbn. rewrite Hp. destruct b; [|done].
  cbn. clear Hl. induction l as [|n l IH]; [done|]. cbn. by rewrite Hp, IH.
Qed.

Section Labelling.
Context `{Env}.

Definition label_request (s : App) (box : jstr) (labelId : jstr) (all : bool) (i : jstr) : request :=
  if all then api_fetch s (message_path box i "/labels/" ++ labelId)
    {| i_method := Some (js "DELETE"); i_headers := []; i_credentials := None; i_body := NoBody |}
  else api_fetch s (message_path box i "/labels")
    {| i_method := Some (js "POST"); i_headers := []; i_credentials := None;
       i_body := stringified (JObj [str_member "label_id" labelId]) |}.

(** Toggling a label: when every targeted row carries it, it is taken off them all,
    otherwise it is put on them all; no other label and no other row changes, the
    targeted rows end up alike, and the server gets one DELETE or one POST per id. *)
Theorem label_toggle_spec ids l w t s :
  ids <> [] ->
  let '(r, s', t') := run w t s (toggleMessageLabel ids l) in
  let all := all_have_label ids l (mail s) in
  r = Ok tt /\
  length (messages (mail s')) = length (messages (mail s)) /\
  (forall n m m', messages (mail s) !! n = Some m -> messages (mail s') !! n = Some m' ->
     id m' = id m /\
     has_label l m' = (if has_id_in ids m then negb all else has_label l m) /\
     (forall k, k <> l -> has_label k m' = has_label k m) /\
     (has_id_in ids m = false -> m' = m)) /\
  ((exists m, m ∈ messages (mail s) /\ id m ∈ ids) -> all_have_label ids l (mail s') = negb all) /\
  sent t' = sent t ++ match selectedMailbox (custody s) with
                      | Some box => map (label_request s (mb_id box) l all) ids
                      | None => []
                      end.
Proof.
  intros Hids. unfold toggleMessageLabel. destruct ids as [|i0 ids0] eqn:Eids; [done|].
  rewrite <- Eids in *. clear i0 ids0 Eids. rewrite run_bind. cbn [gets run].
  set (all := all_have_label ids l (mail s)).
  set (f := if all then drop_label l else add_label l).
  assert (Hf : forall m, id (f m) = id m /\ has_label l (f m) = negb all /\
                    forall k, k <> l -> has_label k (f m) = has_label k m).
  { intros m. unfold f. destruct all; split_and!; intros;
      rewrite ?has_label_drop, ?has_label_add, ?id_add_label, ?bool_decide_eq_true_2, ?bool_decide_eq_false_2 by done; done. }
  match goal with |- context [run w t s ?p] =>
    assert (Hrun : run w t s p = (Ok tt, on_mail (showToast ((if all then js "Removed label " else js "Applied label ")
        ++ quote (label_name l (mail s)))) (on_mail (relabel f ids) s),
      {| sent := sent t ++ match selectedMailbox (custody s) with
                          | Some box => map (label_request s (mb_id box) l all) ids | None => [] end;
         asked := asked t |})) end.
  { unfold f. destruct all; rewrite run_bind, run_on_mail, run_bind.
    - rewrite (run_tell_server ids _ (fun box s => label_request s box l true)); [done|].
      intros box i. apply sends_one_then; [apply sends_one_send|intros; apply quiet_ret].
    - rewrite (run_tell_server ids _ (fun box s => label_request s box l false)); [done|].
      intros box i. apply sends_one_send. }
  rewrite Hrun. cbn zeta. fold all.
  assert (Em : messages (mail (on_mail (showToast ((if all then js "Removed label " else js "Applied label ")
        ++ quote (label_name l (mail s)))) (on_mail (relabel f ids) s))) = map_where (has_id_in ids) f (messages (mail s)))
    by apply messages_relabel.
  split_and!.
  - done.
  - rewrite Em. apply length_map.
  - intros n m m' Hn Hn'. rewrite Em in Hn'. unfold map_where in Hn'.
    apply list_lookup_fmap_Some in Hn' as (m0 & -> & Hn0). rewrite Hn in Hn0. injection Hn0 as <-.
    destruct (Hf m) as (H1 & H2 & H3). destruct (has_id_in ids m); split_and!; first [done | by auto].
  - intros (m & Hm & Hi). unfold all_have_label at 1. rewrite Em, filter_map_where by (intros n; unfold has_id_in; by rewrite (proj1 (Hf n))).
    apply forallb_constant; [|intros n; apply Hf].
    intros E. apply list_elem_of_In in Hm.
    assert (Hin : In m (List.filter (has_id_in ids) (messages (mail s)))).
    { apply filter_In. split; [done|]. by apply bool_decide_eq_true. }
    rewrite E in Hin. done.
  - done.
Qed.

End Labelling.

(** ** The invariant of the list *)

(** Setters that leave what the invariant speaks of alone. *)
Lemma Mail_ok_ext x y :
  messages y = messages x -> selectedMsg y = selectedMsg x -> selectedIds y = selectedIds x ->
  undoTimers y = undoTimers x -> undoAction y = undoAction x -> nextTimer y = nextTimer x ->
  Mail_ok x -> Mail_ok y.
Proof.
  intros E1 E2 E3 E4 E5 E6 [H1 H2 H3 H4 H5]. constructor; rewrite ?E1, ?E2, ?E3, ?E4, ?E5, ?E6; try done.
Qed.

Lemma ok_set_checked ids x : NoDup ids -> Mail_ok x -> Mail_ok (set_selectedIds ids x).
Proof. intros Hn [H1 H2 H3 H4 H5]. by constructor. Qed.

Lemma ok_deselect x : Mail_ok x -> Mail_ok (set_selectedMsg None x).
Proof. intros [H1 H2 H3 H4 H5]. by constructor. Qed.

Lemma ok_close p x : Mail_ok x -> Mail_ok (close_selected p x).
Proof.
  unfold close_selected, update_selected. intros Hx. case_match; [|done]. case_match; [|done].
  by apply ok_deselect.
Qed.

Lemma ok_remove p x : Mail_ok x -> Mail_ok (remove_messages p x).
Proof.
  intros [H1 H2 H3 H4 H5]. constructor; try done.
  - cbn. revert H1. generalize (messages x). intros l. induction l as [|m l IH]; [done|]. cbn.
    intros [Hm Hl]%NoDup_cons. destruct (p m); cbn; [by apply IH|]. constructor; [|by apply IH].
    intros Hin. apply Hm. apply list_elem_of_fmap in Hin as (n & E & Hn). rewrite E.
    apply list_elem_of_fmap_2. by apply bool_app_filter in Hn.
  - intros sel m Hs Hm. apply H2; [done|]. by apply bool_app_filter in Hm.
Qed.

Lemma map_where_ids p f l : (forall m, id (f m) = id m) -> map id (map_where p f l) = map id l.
Proof.
  intros Hf. unfold map_where. rewrite map_map. apply map_ext. intros m. by destruct (p m).
Qed.

(** Rows change, but not their ids or flags. *)
Lemma ok_move p f x :
  (forall m, id (f m) = id m /\ flags (f m) = flags m) -> Mail_ok x -> Mail_ok (update_messages p f x).
Proof.
  intros Hf [H1 H2 H3 H4 H5]. constructor; try done.
  - cbn. by rewrite map_where_ids by apply Hf.
  - intros sel m Hs Hm. cbn in Hm. apply list_elem_of_fmap in Hm as (n & -> & Hn). intros E.
    rewrite <- (H2 sel n); [|done..|]; destruct (p n); try done; [apply Hf|].
    rewrite <- E. symmetry. apply Hf.
Qed.

(** Flags change the same way in the rows and in the open message. *)
Lemma ok_both p f x :
  (forall m, id (f m) = id m) -> (forall m n, flags m = flags n -> flags (f m) = flags (f n)) ->
  (forall m n, id m = id n -> p m = p n) ->
  Mail_ok x -> Mail_ok (update_selected p (fun m => Some (f m)) (update_messages p f x)).
Proof.
  intros Hid Hf Hp [H1 H2 H3 H4 H5].
  assert (Hkey : forall sel m, selectedMsg x = Some sel -> m ∈ map_where p f (messages x) -> id m = id sel ->
            flags m = flags (if p sel then f sel else sel)).
  { intros sel m Hs Hm E. apply list_elem_of_fmap in Hm as (n & -> & Hn).
    assert (En : id n = id sel) by (destruct (p n); rewrite <- E; auto).
    rewrite (Hp n sel En). destruct (p sel); auto. }
  unfold update_selected. cbn [selectedMsg update_messages set_messages].
  destruct (selectedMsg x) as [s|] eqn:Es.
  2:{ constructor; try done; [cbn; by rewrite map_where_ids|cbn; congruence]. }
  specialize (Hkey s). destruct (p s) eqn:Eps.
  - constructor; try done; [cbn; by rewrite map_where_ids|].
    intros sel m [= <-] Hm E. rewrite Hid in E. by rewrite (Hkey m).
  - constructor; try done; [cbn; by rewrite map_where_ids|].
    intros sel m Hs Hm E. cbn in Hs. rewrite Es in Hs. injection Hs as <-. by rewrite (Hkey m).
Qed.

Lemma ok_clear_timer a x :
  undoAction x = Some a -> Mail_ok x -> undoTimers (clearTimeout (undo_timer a) x) = [].
Proof.
  intros E Hx. cbn. rewrite (ok_timer x Hx), E. cbn. by rewrite Nat.eqb_refl.
Qed.

Lemma ok_offer_undo i f x : Mail_ok x -> Mail_ok (offer_undo i f x).
Proof.
  intros Hx. unfold offer_undo.
  assert (Ht : undoTimers (match undoAction x with Some a => clearTimeout (undo_timer a) x | None => x end) = []).
  { destruct (undoAction x) as [a|] eqn:E; [by apply ok_clear_timer|]. by rewrite (ok_timer x Hx), E. }
  destruct Hx as [H1 H2 H3 H4 H5].
  destruct (undoAction x) as [a|]; constructor; cbn -[clearTimeout]; try done;
    cbn in Ht |- *; rewrite Ht; repeat constructor.
Qed.

Lemma ok_withdraw_undo a x :
  undoAction x = Some a -> Mail_ok x -> Mail_ok (set_undoAction None (clearTimeout (undo_timer a) x)).
Proof.
  intros E Hx. pose proof (ok_clear_timer a x E Hx) as Ht. destruct Hx as [H1 H2 H3 H4 H5].
  constructor; try done. cbn in *. by rewrite Ht.
Qed.

Lemma ok_undo x : Mail_ok x -> Mail_ok (handleUndo x).
Proof.
  intros Hx. unfold handleUndo. destruct (undoAction x) as [a|] eqn:E; [|done].
  pose proof (ok_withdraw_undo a x E Hx) as Hw.
  assert (Hm : Mail_ok (update_messages (has_id (undo_messageId a)) (set_folder (undo_previousFolder a))
            (set_undoAction None (clearTimeout (undo_timer a) x)))) by (by apply ok_move).
  exact Hm.
Qed.

Lemma ok_undo_timer t x : Mail_ok x -> Mail_ok (undo_timer_fires t x).
Proof.
  intros Hx. unfold undo_timer_fires. case_bool_decide as Ht; [|done].
  pose proof (ok_timer x Hx) as E. rewrite E in Ht. destruct (undoAction x) as [a|] eqn:Ea; [|set_solver].
  apply list_elem_of_singleton in Ht as ->. by apply ok_withdraw_undo.
Qed.

Lemma NoDup_set_add i ids : NoDup ids -> NoDup (set_add i ids).
Proof.
  intros Hn. unfold set_add. case_decide; [done|]. apply NoDup_app. split_and!; [done|set_solver|].
  apply NoDup_singleton.
Qed.

Lemma NoDup_set_delete i ids : NoDup ids -> NoDup (set_delete i ids).
Proof. intros Hn. by apply NoDup_ListNoDup, List.NoDup_filter, NoDup_ListNoDup. Qed.

Lemma NoDup_deletes js ids : NoDup ids -> NoDup (fold_left (fun l i => set_delete i l) js ids).
Proof. revert ids. induction js as [|i js IH]; intros ids Hn; simpl; auto using NoDup_set_delete. Qed.

Lemma ok_toast msg x : Mail_ok x -> Mail_ok (showToast msg x).
Proof. by apply Mail_ok_ext. Qed.

Create HintDb mail_ok.
#[export] Hint Resolve ok_set_checked ok_deselect ok_close ok_remove ok_offer_undo ok_undo ok_undo_timer
  NoDup_set_add NoDup_set_delete NoDup_deletes ok_toast ok_checked NoDup_nil_2 NoDup_uniq : mail_ok.

Lemma ok_with_selection f x :
  (forall ids n, Mail_ok (f ids n x)) -> Mail_ok x -> Mail_ok (with_selection f x).
Proof. intros Hf Hx. unfold with_selection. by destruct (selectedIds x). Qed.

Section Invariant.
Context `{Unicode} `{Dates} `{Env}.

Lemma ok_set_read b p x : (forall m n, id m = id n -> p m = p n) -> Mail_ok x ->
  Mail_ok (update_selected p (fun m => Some (set_read b m)) (update_messages p (set_read b) x)).
Proof. intros Hp. apply ok_both; [done| |done]. unfold flags; cbn. congruence. Qed.

Lemma ok_set_starred b p x : (forall m n, id m = id n -> p m = p n) -> Mail_ok x ->
  Mail_ok (update_selected p (fun m => Some (set_starred b m)) (update_messages p (set_starred b) x)).
Proof. intros Hp. apply ok_both; [done| |done]. unfold flags; cbn. congruence. Qed.

Lemma flags_labels m n : flags m = flags n -> label_list m = label_list n.
Proof. unfold flags, label_list. congruence. Qed.

Lemma has_id_ext i m n : id m = id n -> has_id i m = has_id i n.
Proof. unfold has_id. by intros ->. Qed.
Lemma has_id_in_ext ids m n : id m = id n -> has_id_in ids m = has_id_in ids n.
Proof. unfold has_id_in. by intros ->. Qed.

Lemma ok_add_label l ids x : Mail_ok x -> Mail_ok (relabel (add_label l) ids x).
Proof.
  apply ok_both; [apply id_add_label| |apply has_id_in_ext].
  intros m n E. unfold add_label. rewrite (flags_labels _ _ E). case_decide; [done|].
  unfold flags in *; cbn in *. congruence.
Qed.

Lemma ok_drop_label l ids x : Mail_ok x -> Mail_ok (relabel (drop_label l) ids x).
Proof.
  apply ok_both; [done| |apply has_id_in_ext].
  intros m n E. unfold drop_label. rewrite (flags_labels _ _ E). unfold flags in *; cbn in *. congruence.
Qed.

Lemma ok_set_folder p g x : Mail_ok x -> Mail_ok (update_messages p (set_folder g) x).
Proof. by apply ok_move. Qed.

Lemma ok_move_local ids g x : Mail_ok x -> Mail_ok (move_local ids g x).
Proof.
  intros Hx. unfold move_local. apply ok_set_checked.
  - apply NoDup_deletes, ok_checked, ok_close. by apply ok_move.
  - apply ok_close. by apply ok_move.
Qed.

#[local] Hint Resolve ok_set_read ok_set_starred ok_add_label ok_drop_label has_id_ext has_id_in_ext
  ok_set_folder ok_move_local : mail_ok.

Lemma mail_op_ok f x : mail_op f -> Mail_ok x -> Mail_ok (f x).
Proof.
  intros Hf Hx. destruct Hf; auto with mail_ok.
  - unfold toggleMessageStarred. eauto with mail_ok.
  - unfold toggle_read_local. eauto with mail_ok.
  - unfold handleArchiveMessage. auto with mail_ok.
  - unfold handleTrashMessage. auto with mail_ok.
  - unfold handleDeleteForever. auto 8 with mail_ok.
  - unfold handleToggleCheck. destruct b; auto with mail_ok.
  - unfold handleSelectFilter. split_ifs; auto with mail_ok.
  - unfold onPrevPage. split_ifs; [done|]. by apply (Mail_ok_ext x).
  - unfold onNextPage. split_ifs; [done|]. by apply (Mail_ok_ext x).
  - apply (Mail_ok_ext (set_selectedIds [] (set_selectedMsg None x))); auto with mail_ok.
  - apply (Mail_ok_ext (set_selectedIds [] (set_selectedMsg None x))); auto with mail_ok.
  - apply (Mail_ok_ext (set_selectedIds [] (set_selectedMsg None x))); auto with mail_ok.
  - apply ok_with_selection; [|done]. intros. eauto 8 with mail_ok.
  - apply ok_with_selection; [|done]. auto 8 with mail_ok.
  - unfold empty_trash. auto 8 with mail_ok.
  - apply ok_with_selection; [|done]. intros. eauto 8 with mail_ok.
  - apply ok_with_selection; [|done]. intros. eauto 8 with mail_ok.
Qed.

(** All the handlers do besides local changes is to talk to the server and to ask the
    user. *)
Definition mail_writes (s s' : App) : Prop := exists f, mail_op f /\ s' = on_mail f s.

Lemma moves_op f s : mail_op f -> moves mail_writes s (on_mail_prog f).
Proof. intros Hf. split; [by exists f|done]. Qed.

Lemma moves_op_tell {A} f ids (call : jstr -> jstr -> prog App A) s :
  mail_op f -> (forall box i, talks (call box i)) ->
  moves mail_writes s (_ ← on_mail_prog f; tell_server ids call).
Proof. intros Hf Hc. apply moves_bind; [by apply moves_op|]. auto with talks. Qed.

Lemma moves_op_tell_op {A} f ids (call : jstr -> jstr -> prog App A) g s :
  mail_op f -> mail_op g -> (forall box i, talks (call box i)) ->
  moves mail_writes s (_ ← on_mail_prog f; _ ← tell_server ids call; on_mail_prog g).
Proof.
  intros Hf Hg Hc. apply moves_bind; [by apply moves_op|]. intros _ s1.
  apply moves_bind; [auto with talks|]. intros _ s2. by apply moves_op.
Qed.

Lemma moves_move_messages ids g s : moves mail_writes s (handleMoveMessages ids g).
Proof.
  unfold handleMoveMessages. destruct ids as [|i ids]; [done|].
  apply moves_bind; [done|]. intros cf s1. apply moves_op_tell_op; [constructor..|].
  intros. unfold updateMessageFolder. auto with talks.
Qed.

Lemma moves_toggle_label ids l s : moves mail_writes s (toggleMessageLabel ids l).
Proof.
  unfold toggleMessageLabel. destruct ids as [|i ids]; [done|].
  apply moves_bind; [done|]. intros x s1. cbv zeta.
  destruct (all_have_label _ _ _); (apply moves_op_tell_op; [constructor..|]);
    intros; unfold attachMessageLabel, detachMessageLabel; auto with talks.
Qed.

Lemma mail_handler_moves h s : mail_handler h -> moves mail_writes s h.
Proof.
  destruct 1; try (apply moves_op; constructor).
  - apply moves_op_tell; [constructor|]. intros. unfold setMessageRead. auto with talks.
  - unfold handleEmptyTrash. apply moves_bind; [done|]. intros s0 s1. cbv zeta.
    destruct (_ =? 0)%nat; [done|].
    apply moves_bind; [done|]. intros [] s2; [|done]. apply moves_op. constructor.
  - unfold handleBatchToggleRead. apply moves_bind; [done|]. intros ids s1. destruct ids; [done|].
    apply moves_op_tell; [constructor|]. intros. unfold setMessageRead. auto with talks.
  - apply moves_move_messages.
  - unfold handleBatchMoveTo. apply moves_bind; [done|]. intros ids s1. destruct ids; [done|].
    apply moves_move_messages.
  - unfold handleAttachLabel. destruct ids as [|i ids]; [done|].
    apply moves_bind; [done|]. intros n s1. apply moves_op_tell_op; [constructor..|].
    intros. unfold attachMessageLabel. auto with talks.
  - apply moves_toggle_label.
  - unfold handleBatchToggleLabel. apply moves_bind; [done|]. intros x s1.
    destruct (selectedIds _); [destruct (selectedMsg _); [|done]|]; apply moves_toggle_label.
Qed.

(** Handlers and spawned requests keep the invariant. *)
Definition keeps (s s' : App) : Prop := Mail_ok (mail s) -> Mail_ok (mail s').

#[local] Instance keeps_preorder : PreOrder keeps.
Proof. split; unfold keeps; [by intros s|intros s1 s2 s3; tauto]. Qed.

(** C32.  However the user's actions, the undo timer and the servers' replies interleave,
    the list keeps its invariant: ids identify rows, the open message shows its row's
    flags and labels, no id is checked twice, and at most one undo timer is pending,
    the one of the undo on offer. *)
Theorem mail_invariant (c c' : config App) :
  tasks c = [] -> Mail_ok (mail (state c)) -> reachable mail_handler c c' -> Mail_ok (mail (state c')).
Proof.
  intros E Hok Hr. edestruct (rely_guarantee keeps mail_handler c c') as [HR _].
  - intros h s Hh. apply (moves_respects mail_writes); [apply _| |by apply mail_handler_moves].
    intros s1 s2 (f & Hf & ->) Hx. by apply mail_op_ok.
  - rewrite E. constructor.
  - done.
  - by apply HR.
Qed.

End Invariant.

(** ** A concrete mailbox *)

Definition row (i f d : string) (fid : option string) (ls : list string) (r : bool) : DisplayMessage :=
  {| id := js i; messageSeq := Some 1; version := Some 1; folder := js f; folderId := js <$> fid;
     labelIds := Some (map js ls); sender := js "Ann"; recipient := js "me"; subject := js "Hello";
     snippet := js "hi"; encryptedBody := []; date := js d; read := r; starred := false;
     isRealApi := true; messageId := None; hasAttachments := false; attachmentCount := 0;
     attachmentTypes := []; trackingToken := None; trackingInfo := None |}.

Definition row1 : DisplayMessage := row "m1" "inbox" "1" None ["work"] false.
Definition row2 : DisplayMessage := row "m2" "inbox" "3" None [] true.
Definition row3 : DisplayMessage := row "m3" "inbox" "2" (Some "cf") ["work"; "home"] false.
Definition row4 : DisplayMessage := row "m4" "trash" "4" None [] true.

Definition project_folder : Named := {| n_id := js "cf"; n_name := js "Projects" |}.
Definition work_label : Named := {| n_id := js "work"; n_name := js "Work" |}.

Definition sample_mail : Mail := {|
  messages := [row1; row2; row3; row4]; selectedMsg := Some row2; selectedIds := [js "m1"; js "m2"];
  searchQuery := []; serverMatchedMsgIds := []; isSearchingTokens := false;
  currentFolder := js "inbox"; customFolders := [project_folder]; labels := [work_label];
  folderToEdit := None; labelToEdit := None; activeCustomFolder := None; activeLabel := None;
  sortOrder := js "newest"; currentPage := 1; undoAction := None; nextTimer := 0; undoTimers := [];
  toastMessage := None |}.

Definition sample_box : Mailbox :=
  {| mb_id := js "b1"; mb_local_part := js "me"; mb_domain_id := js "d1"; mb_mode := js "zero_knowledge";
     mb_wrapped_sk_user := None |}.

Definition sample_app : App := {|
  mail := sample_mail;
  custody := {| selectedMailbox := Some sample_box; mailboxes := [sample_box]; mailboxKey := None;
    searchKey := None; unlockedBoxId := None; currentUser := None; connectedAccounts := [];
    isImpersonating := false; impersonateMailboxId := None; storageErrorBanner := None; isLoading := false |};
  reading := {| isDecrypting := false; decryptedContent := None; editablePlaintext := None;
    messagePlaintext := None; messageAttachments := []; currentDecryptSeq := 0 |};
  compose := {| composeOpen := false; composeTo := []; composeSubject := []; composeBody := [];
    composeBodyHtml := []; scheduledTime := []; composeTrackOpens := false; composeStatus := None;
    errorMessage := None; composeAttachments := []; editingDraft := None |};
  contactsPane := {| contactsOpen := false; contacts := []; contactsLoading := false; contactsError := None;
    editingContact := None; contactName := []; contactEmail := []; contactNotes := [] |};
  loginForm := {| loginEmail := []; loginPassword := []; loginBusy := false; loginError := None;
    recoveryPhraseInput := []; twoFactorChallenge := None; twoFactorCodeInput := []; cachedPassword := [];
    twoFactorBusy := false; twoFactorError := None; selected2FAMethod := js "totp" |};
  prefs := {| density := js "cozy"; layoutMode := js "split"; theme := js "cloud_dancer";
    language := js "en"; timeFormat := js "12h"; weekStart := js "sunday"; signatureText := [];
    signatureSaved := false |};
  recovery := {| forgotStep := 1; forgotEmail := []; forgotMethods := []; forgotSelectedMethod := js "email";
    forgotChallengeToken := []; forgotDestinationMasked := []; forgotCode := []; forgotNewPassword := [];
    forgotConfirmPassword := []; forgotBusy := false; forgotError := None; forgotMailboxId := [];
    forgotOldWrappedSk := []; forgotRecoveryPhrase := [] |};
  session := ∅; local := ∅ |}.

(** Dates that are decimal numbers of one digit, in a calendar of one-digit years. *)
Definition digit_dates : Dates := {|
  date_time s := match s with [u] => if is_digit u then Some (u - 48) else None | _ => None end;
  date_iso s := match s with [u] => if is_digit u then Some s else None | _ => None end;
  now_time := 9; getDate d := d; getMonth _ := 0; getFullYear d := d;
  toLocaleTimeString _ d := js "12:00"; toLocaleDateString _ _ _ d := num d |}.

Definition sample_env : Env := {| apiBase := js "https://api"; origin := None |}.

Definition offline : world :=
  {| respond _ _ := NetworkFailure (JsError (js "offline") None); answer _ _ := true |}.

#[local] Existing Instances ascii_unicode digit_dates sample_env.

Example sample_sorted : map id (sortedMessages sample_mail) = [js "m2"; js "m1"].
Proof. vm_compute. reflexivity. Qed.

(** The second page of a long inbox: choosing a custom folder or a label keeps the page
    number (choosing a standard folder resets it), so that the short list of the
    custom folder is shown as empty. *)
Example custom_folder_keeps_page :
  let x := set_currentPage 2 sample_mail in
  let y := handleSelectCustomFolder project_folder x in
  map id (filteredMessages y) = [js "m3"] /\ paginatedMessages y = [] /\
  currentPage (onSelectFolder (js "inbox") x) = 1.
Proof. vm_compute. split_and!; reflexivity. Qed.

Lemma badges_agree_with_views_witness :
  folderCounts sample_mail !! js "inbox" = Some 2 /\
  shows_rows (onSelectFolder (js "inbox") sample_mail) 2 1 /\
  shows_rows (handleSelectCustomFolder project_folder (set_currentPage 2 sample_mail)) 1 2 /\
  shows_rows (handleSelectLabel work_label sample_mail) 2 1.
Proof.
  destruct (badges_agree_with_views sample_mail eq_refl ltac:(by_decide)) as (H1 & _ & H3).
  destruct (badges_agree_with_views (set_currentPage 2 sample_mail) eq_refl ltac:(by_decide)) as (_ & H2 & _).
  split_and!.
  - vm_compute. reflexivity.
  - destruct (H1 ltac:(by_decide) (js "inbox") ltac:(by_decide)) as (n & E & Hn).
    assert (E' : folderCounts sample_mail !! js "inbox" = Some 2) by (vm_compute; reflexivity).
    rewrite E' in E. injection E as <-. exact Hn.
  - exact (H2 project_folder ltac:(done)).
  - exact (H3 ltac:(by_decide) work_label).
Defined.

Lemma undo_reverts_the_last_move_witness :
  messages (handleUndo (handleArchiveMessage row1 sample_mail)) = messages sample_mail.
Proof.
  destruct (undo_reverts_the_last_move handleArchiveMessage (js "archive") row1
    handleTrashMessage (js "trash") row2 sample_mail) as (_ & E & _); [by left|by right|by_decide|by_decide|].
  exact E.
Defined.

Lemma batch_is_iteration_witness :
  messages (handleBatchTrash sample_mail) =
  messages (handleTrashMessage row2 (handleTrashMessage row1 sample_mail)).
Proof.
  destruct (batch_is_iteration [row1; row2] sample_mail) as (_ & [E _] & _); [reflexivity|done|].
  exact E.
Defined.

Lemma move_files_messages_witness :
  matchFolder (show_place (js "cf")
    (mail (snd (fst (run offline no_trace sample_app (handleMoveMessages [js "m1"] (js "cf")))))))
    (set_folderId (Some (js "cf")) row1) = true.
Proof.
  pose proof (move_files_messages [js "m1"] (js "cf") offline no_trace sample_app ltac:(done) ltac:(done)) as Hm.
  destruct (run offline no_trace sample_app (handleMoveMessages [js "m1"] (js "cf"))) as [[r s'] t'] eqn:E.
  destruct Hm as (_ & Em & Hv & _). apply Hv; [|by_decide].
  rewrite Em. by_decide.
Defined.

Lemma label_toggle_spec_witness :
  all_have_label [js "m1"; js "m2"] (js "work")
    (mail (snd (fst (run offline no_trace sample_app
      (toggleMessageLabel [js "m1"; js "m2"] (js "work")))))) = true.
Proof.
  pose proof (label_toggle_spec [js "m1"; js "m2"] (js "work") offline no_trace sample_app ltac:(done)) as Hm.
  destruct (run offline no_trace sample_app (toggleMessageLabel [js "m1"; js "m2"] (js "work")))
    as [[r s'] t'] eqn:E.
  destruct Hm as (_ & _ & _ & Hu & _). cbn [fst snd]. rewrite Hu; [vm_compute; reflexivity|].
  exists row1. split; by_decide.
Defined.

Lemma mail_invariant_witness :
  exists c', reachable mail_handler {| state := sample_app; tasks := [] |} c' /\ Mail_ok (mail (state c')) /\
    length (tasks c') = 1%nat.
Proof.
  assert (Hstep : exists c', step mail_handler {| state := sample_app; tasks := [] |} c' /\ length (tasks c') = 1%nat).
  { eexists. split; [eapply (step_event _ _ (toggleMessageRead row1) true); [constructor|]|].
    - cbn -[toggle_read_local]. reflexivity.
    - reflexivity. }
  destruct Hstep as (c' & Hs & Hl). exists c'. split; [by apply rtc_once|]. split; [|done].
  apply (mail_invariant {| state := sample_app; tasks := [] |}); [done| |by apply rtc_once].
  constructor; try by_decide. intros sel m [= <-] Hm.
  apply list_elem_of_In in Hm. cbn in Hm. by destruct Hm as [<-|[<-|[<-|[<-|[]]]]].
Defined.
