(* ===== verification/Filing.v ===== *)
(** * The message list as a filing cabinet

    What the list is for, without its rows, views and timers: a finite map from message
    ids to where each message is filed and how it is marked, and the move that can be
    taken back.  Every operation of the list ([MailView.mail_op]) performs one deed on
    it. *)

From stdpp Require Import gmap fin_maps.
From S2P Require Import Prelude JsString Json Display Client Api AppState MailView.

(** ** The abstract cabinet *)

Record Card := {
  filed_in : jstr;
  custom_folder : option jstr;
  is_read : bool;
  is_starred : bool;
  its_labels : gset jstr;
}.

Record Cabinet := { cards : gmap jstr Card; offered : option (jstr * jstr) }.

Inductive change :=
| ToFolder (f : jstr)
| ToPlace (f : jstr) (custom : option jstr)
| MarkRead (b : bool)
| MarkStarred (b : bool)
| Label (l : jstr)
| Unlabel (l : jstr).

Definition apply_change (c : change) (k : Card) : Card :=
  match c with
  | ToFolder f => {| filed_in := f; custom_folder := custom_folder k; is_read := is_read k;
                     is_starred := is_starred k; its_labels := its_labels k |}
  | ToPlace f o => {| filed_in := f; custom_folder := o; is_read := is_read k;
                      is_starred := is_starred k; its_labels := its_labels k |}
  | MarkRead b => {| filed_in := filed_in k; custom_folder := custom_folder k; is_read := b;
                     is_starred := is_starred k; its_labels := its_labels k |}
  | MarkStarred b => {| filed_in := filed_in k; custom_folder := custom_folder k; is_read := is_read k;
                        is_starred := b; its_labels := its_labels k |}
  | Label l => {| filed_in := filed_in k; custom_folder := custom_folder k; is_read := is_read k;
                  is_starred := is_starred k; its_labels := {[l]} ∪ its_labels k |}
  | Unlabel l => {| filed_in := filed_in k; custom_folder := custom_folder k; is_read := is_read k;
                    is_starred := is_starred k; its_labels := its_labels k ∖ {[l]} |}
  end.

(** Change the cards of these messages. *)
Definition change_cards (ids : gset jstr) (c : change) (k : gmap jstr Card) : gmap jstr Card :=
  map_imap (fun i x => Some (if decide (i ∈ ids) then apply_change c x else x)) k.

Inductive deed :=
| Nothing
| Change (ids : gset jstr) (c : change)
| Discard (ids : gset jstr)
| EmptyBin
| PutAway (i target previous : jstr)   (** a move that can be taken back *)
| TakeBack
| Withdraw.                            (** it no longer can *)

Definition perform (d : deed) (x : Cabinet) : Cabinet :=
  match d with
  | Nothing => x
  | Change ids c => {| cards := change_cards ids c (cards x); offered := offered x |}
  | Discard ids => {| cards := filter (fun e => fst e ∉ ids) (cards x); offered := offered x |}
  | EmptyBin => {| cards := filter (fun e => filed_in (snd e) <> js "trash") (cards x); offered := offered x |}
  | PutAway i target previous =>
      {| cards := change_cards {[i]} (ToFolder target) (cards x); offered := Some (i, previous) |}
  | TakeBack =>
      match offered x with
      | Some (i, previous) => {| cards := change_cards {[i]} (ToFolder previous) (cards x); offered := None |}
      | None => x
      end
  | Withdraw => {| cards := cards x; offered := None |}
  end.

(** ** What the list is an implementation of *)

Definition card (m : DisplayMessage) : Card := {|
  filed_in := folder m; custom_folder := folderId m; is_read := read m; is_starred := starred m;
  its_labels := list_to_set (label_list m) |}.

Definition cards_of (l : list DisplayMessage) : gmap jstr Card :=
  foldr (fun m k => <[id m := card m]> k) ∅ l.

Definition cabinet (x : Mail) : Cabinet := {|
  cards := cards_of (messages x);
  offered := option_map (fun a => (undo_messageId a, undo_previousFolder a)) (undoAction x) |}.

(** The deed of each operation, in the state it is applied to. *)
Inductive does `{Unicode} `{Dates} (x : Mail) : (Mail -> Mail) -> deed -> Prop :=
| do_star m : does x (toggleMessageStarred m) (Change {[id m]} (MarkStarred (negb (starred m))))
| do_read m : does x (toggle_read_local m) (Change {[id m]} (MarkRead (negb (read m))))
| do_archive m : does x (handleArchiveMessage m) (PutAway (id m) (js "archive") (folder m))
| do_trash m : does x (handleTrashMessage m) (PutAway (id m) (js "trash") (folder m))
| do_delete m : does x (handleDeleteForever m) (Discard {[id m]})
| do_undo : does x handleUndo TakeBack
| do_timer t : t ∈ undoTimers x -> does x (undo_timer_fires t) Withdraw
| do_stale_timer t : t ∉ undoTimers x -> does x (undo_timer_fires t) Nothing
| do_check m b : does x (handleToggleCheck m b) Nothing
| do_select_filter f : does x (handleSelectFilter f) Nothing
| do_prev_page : does x onPrevPage Nothing
| do_next_page : does x onNextPage Nothing
| do_select_folder f : does x (onSelectFolder f) Nothing
| do_select_custom f : does x (handleSelectCustomFolder f) Nothing
| do_select_label l : does x (handleSelectLabel l) Nothing
| do_batch_move t toast : does x (batch_move t toast) (Change (list_to_set (selectedIds x)) (ToFolder (js t)))
| do_batch_delete : does x handleBatchDeleteForever (Discard (list_to_set (selectedIds x)))
| do_empty_trash : does x empty_trash EmptyBin
| do_batch_read b : does x (batch_read_local b) (Change (list_to_set (selectedIds x)) (MarkRead b))
| do_batch_star b : does x (handleBatchToggleStarred b) (Change (list_to_set (selectedIds x)) (MarkStarred b))
| do_move_custom ids g f : find_named g (customFolders x) = Some f ->
    does x (move_local ids g) (Change (list_to_set ids) (ToPlace (js "inbox") (Some (n_id f))))
| do_move ids g : find_named g (customFolders x) = None ->
    does x (move_local ids g) (Change (list_to_set ids) (ToPlace g None))
| do_add_label ids l : does x (relabel (add_label l) ids) (Change (list_to_set ids) (Label l))
| do_drop_label ids l : does x (relabel (drop_label l) ids) (Change (list_to_set ids) (Unlabel l))
| do_toast msg : does x (showToast msg) Nothing.

(** ** Rows and cards *)

Lemma change_insert ids c i x k :
  change_cards ids c (<[i := x]> k) = <[i := if decide (i ∈ ids) then apply_change c x else x]> (change_cards ids c k).
Proof.
  unfold change_cards. apply map_eq. intros j. rewrite map_lookup_imap. destruct (decide (i = j)) as [->|Hn].
  - by rewrite !lookup_insert_eq.
  - by rewrite !lookup_insert_ne, map_lookup_imap.
Qed.

Lemma change_empty c k : change_cards ∅ c k = k.
Proof.
  apply map_eq. intros i. unfold change_cards. rewrite map_lookup_imap.
  destruct (k !! i); cbn; [|done]. by rewrite decide_False by set_solver.
Qed.

Lemma cards_cons m l : cards_of (m :: l) = <[id m := card m]> (cards_of l).
Proof. done. Qed.

Lemma cards_map_where (p : DisplayMessage -> bool) (f : DisplayMessage -> DisplayMessage) (ids : gset jstr) c l :
  (forall m, p m = true <-> id m ∈ ids) -> (forall m, id (f m) = id m) -> (forall m, card (f m) = apply_change c (card m)) ->
  cards_of (map_where p f l) = change_cards ids c (cards_of l).
Proof.
  intros Hp Hi Hf. induction l as [|m l IH]; unfold map_where in *; cbn [map]; [by apply map_eq|].
  rewrite !cards_cons, change_insert, IH.
  destruct (p m) eqn:E.
  - rewrite decide_True by (by apply Hp). by rewrite Hi, Hf.
  - rewrite decide_False; [done|]. intros Hm. apply Hp in Hm. congruence.
Qed.

Lemma cards_remove (p : DisplayMessage -> bool) (ids : gset jstr) l :
  (forall m, p m = true <-> id m ∈ ids) ->
  cards_of (List.filter (fun m => negb (p m)) l) = filter (fun e => fst e ∉ ids) (cards_of l).
Proof.
  intros Hp. induction l as [|m l IH]; cbn [List.filter]; [by apply map_eq|].
  rewrite cards_cons. destruct (p m) eqn:E; cbn [negb].
  - rewrite map_filter_insert_False; [|cbn; intros Hm; by apply Hm, Hp].
    rewrite IH. apply map_eq. intros i. rewrite !map_lookup_filter. destruct (decide (i = id m)) as [->|Hn].
    + rewrite lookup_delete_eq. destruct (cards_of l !! id m); [|done]. cbn.
      rewrite option_guard_False; [done|]. intros Hm. by apply Hm, Hp.
    + by rewrite lookup_delete_ne.
  - rewrite map_filter_insert_True; [|cbn; intros Hm; apply Hp in Hm; congruence].
    by rewrite cards_cons, IH.
Qed.

Lemma cards_absent l i : i ∉ map id l -> cards_of l !! i = None.
Proof.
  induction l as [|m l IH]; cbn; [done|]. rewrite not_elem_of_cons. intros [Hn Hi].
  rewrite lookup_insert_ne by done. by apply IH.
Qed.

Lemma cards_empty_trash l :
  NoDup (map id l) ->
  cards_of (List.filter (fun m => negb (in_trash m)) l) = filter (fun e => filed_in (snd e) <> js "trash") (cards_of l).
Proof.
  induction l as [|m l IH]; cbn [List.filter map]; [by intros _; apply map_eq|].
  intros [Hm Hl]%NoDup_cons. rewrite cards_cons. unfold in_trash at 1. rewrite jeqb_decide.
  case_bool_decide as E; cbn [negb].
  - rewrite map_filter_insert_False by (cbn; naive_solver). rewrite delete_id; [by apply IH|by apply cards_absent].
  - rewrite map_filter_insert_True by done. by rewrite cards_cons, IH.
Qed.

(** ** One operation, one deed *)

Lemma nobody_changed c k : perform (Change ∅ c) k = k.
Proof. destruct k. cbn. by rewrite change_empty. Qed.

Lemma nobody_discarded k : perform (Discard ∅) k = k.
Proof. destruct k as [m o]. cbn. f_equal. apply map_filter_id. intros i x _. set_solver. Qed.

Lemma changed_rows (p : DisplayMessage -> bool) (f : DisplayMessage -> DisplayMessage) (ids : gset jstr) c x y :
  messages y = map_where p f (messages x) -> undoAction y = undoAction x ->
  (forall m, p m = true <-> id m ∈ ids) -> (forall m, id (f m) = id m) -> (forall m, card (f m) = apply_change c (card m)) ->
  cabinet y = perform (Change ids c) (cabinet x).
Proof. intros E U Hp Hi Hf. unfold cabinet. rewrite E, U. cbn. by rewrite (cards_map_where p f ids c). Qed.

Lemma discarded_rows (p : DisplayMessage -> bool) (ids : gset jstr) x y :
  messages y = List.filter (fun m => negb (p m)) (messages x) -> undoAction y = undoAction x ->
  (forall m, p m = true <-> id m ∈ ids) -> cabinet y = perform (Discard ids) (cabinet x).
Proof. intros E U Hp. unfold cabinet. rewrite E, U. cbn. by rewrite (cards_remove p ids). Qed.

Lemma one_id i m : has_id i m = true <-> id m ∈ ({[i]} : gset jstr).
Proof. rewrite has_id_spec. set_solver. Qed.

Lemma some_ids ids m : has_id_in ids m = true <-> id m ∈ (list_to_set ids : gset jstr).
Proof. unfold has_id_in. by rewrite bool_decide_eq_true, elem_of_list_to_set. Qed.

Lemma undo_update_selected p f x : undoAction (update_selected p f x) = undoAction x.
Proof. unfold update_selected. case_match; [|done]. by case_match. Qed.

Lemma card_add_label l m : card (add_label l m) = apply_change (Label l) (card m).
Proof.
  unfold add_label, card, apply_change. cbn. case_decide as E; cbn; f_equal.
  - set_solver.
  - unfold label_list. cbn. rewrite list_to_set_app_L. set_solver.
Qed.

Lemma card_drop_label l m : card (drop_label l m) = apply_change (Unlabel l) (card m).
Proof.
  unfold drop_label, card, apply_change. cbn. f_equal. apply set_eq. intros j.
  rewrite elem_of_difference, !elem_of_list_to_set. unfold label_list at 1. cbn. rewrite elem_of_set_delete. set_solver.
Qed.

Lemma put_away_rows target m x y :
  messages y = map_where (has_id (id m)) (set_folder target) (messages x) ->
  (exists a, undoAction y = Some a /\ undo_messageId a = id m /\ undo_previousFolder a = folder m) ->
  cabinet y = perform (PutAway (id m) target (folder m)) (cabinet x).
Proof.
  intros E (a & U & E1 & E2). unfold cabinet. rewrite E, U. cbn. rewrite E1, E2. f_equal.
  apply cards_map_where; [intros; apply one_id|done..].
Qed.

Lemma has_id_nobody ids x y : ids = [] -> x = y -> forall c, cabinet y = perform (Change (list_to_set ids) c) (cabinet x).
Proof. intros -> -> c. by rewrite nobody_changed. Qed.

Lemma batch_flag_rows f toast c x :
  (forall m, id (f m) = id m) -> (forall m, card (f m) = apply_change c (card m)) ->
  cabinet (batch_flag f toast x) = perform (Change (list_to_set (selectedIds x)) c) (cabinet x).
Proof.
  intros Hi Hf. unfold batch_flag, with_selection. destruct (selectedIds x) as [|i ids] eqn:E.
  - by rewrite nobody_changed.
  - apply (changed_rows (has_id_in (i :: ids)) f); try done; [| |intros; apply some_ids].
    + cbn [messages set_selectedIds showToast set_toastMessage]. by rewrite messages_update_selected.
    + cbn [undoAction set_selectedIds showToast set_toastMessage]. by rewrite undo_update_selected.
Qed.

Section Refinement.
Context `{Unicode} `{Dates}.

Lemma does_perform f d x : Mail_ok x -> does x f d -> cabinet (f x) = perform d (cabinet x).
Proof.
  intros Hok. destruct 1; try done.
  - apply (changed_rows (has_id (id m)) (set_starred (negb (starred m)))); try done;
      [by etrans; [apply messages_update_selected|]|by etrans; [apply undo_update_selected|]|apply one_id].
  - apply (changed_rows (has_id (id m)) (set_read (negb (read m)))); try done;
      [by etrans; [apply messages_update_selected|]|by etrans; [apply undo_update_selected|]|apply one_id].
  - apply put_away_rows; [apply messages_moved; by left|].
    destruct (undo_after_move handleArchiveMessage (js "archive") m x) as (a & ? & ? & ? & _); [by left|eauto].
  - apply put_away_rows; [apply messages_moved; by right|].
    destruct (undo_after_move handleTrashMessage (js "trash") m x) as (a & ? & ? & ? & _); [by right|eauto].
  - apply (discarded_rows (has_id (id m))); [| |apply one_id]; unfold handleDeleteForever, close_selected;
      cbn [messages undoAction showToast set_toastMessage set_selectedIds];
      by rewrite ?messages_update_selected, ?undo_update_selected.
  - unfold perform, cabinet. cbn [offered]. destruct (undoAction x) as [a|] eqn:E; cbn [option_map].
    + rewrite (messages_undo a) by done. unfold handleUndo. rewrite E. cbn. f_equal.
      apply cards_map_where; [intros; apply one_id|done..].
    + unfold handleUndo. rewrite E. by rewrite E.
  - unfold undo_timer_fires. by rewrite bool_decide_eq_true_2.
  - unfold undo_timer_fires. by rewrite bool_decide_eq_false_2.
  - unfold handleSelectFilter. by repeat case_match.
  - unfold onPrevPage. by case_match.
  - unfold onNextPage. by case_match.
  - destruct (selectedIds x) as [|i ids] eqn:E.
    + unfold batch_move, with_selection. rewrite E. by rewrite nobody_changed.
    + rewrite <- E. apply (changed_rows (has_id_in (selectedIds x)) (set_folder (js t))); try done;
        [apply messages_batch_move; by rewrite E| |intros; apply some_ids].
      unfold batch_move, with_selection. rewrite E. cbn. by etrans; [apply undo_update_selected|].
  - destruct (selectedIds x) as [|i ids] eqn:E.
    + unfold handleBatchDeleteForever, with_selection. rewrite E. by rewrite nobody_discarded.
    + rewrite <- E. apply (discarded_rows (has_id_in (selectedIds x)));
        [apply messages_batch_delete; by rewrite E| |intros; apply some_ids].
      unfold handleBatchDeleteForever, with_selection. rewrite E. cbn. by etrans; [apply undo_update_selected|].
  - unfold empty_trash, cabinet, close_selected. cbn [messages undoAction showToast set_toastMessage set_selectedIds].
    rewrite messages_update_selected, undo_update_selected. cbn. f_equal. by apply cards_empty_trash, ok_ids.
  - by apply batch_flag_rows.
  - by apply batch_flag_rows.
  - apply (changed_rows (has_id_in ids) (fun m => set_folderId (Some (n_id f)) (set_folder (js "inbox") m))); try done;
      [| |intros; apply some_ids]; unfold move_local, close_selected; cbn [messages undoAction set_selectedIds];
      rewrite ?messages_update_selected, ?undo_update_selected; by rewrite ?H1.
  - apply (changed_rows (has_id_in ids) (fun m => set_folderId None (set_folder g m))); try done;
      [| |intros; apply some_ids]; unfold move_local, close_selected; cbn [messages undoAction set_selectedIds];
      rewrite ?messages_update_selected, ?undo_update_selected; by rewrite ?H1.
  - apply (changed_rows (has_id_in ids) (add_label l)); [by etrans; [apply messages_update_selected|]|by etrans; [apply undo_update_selected|]|
      intros; apply some_ids|apply id_add_label|apply card_add_label].
  - apply (changed_rows (has_id_in ids) (drop_label l)); [by etrans; [apply messages_update_selected|]|by etrans; [apply undo_update_selected|]|
      intros; apply some_ids|done|apply card_drop_label].
Qed.

Lemma op_does f x : mail_op f -> exists d, does x f d.
Proof.
  destruct 1; try by eexists; constructor.
  - destruct (decide (t ∈ undoTimers x)); eexists; [by apply do_timer|by apply do_stale_timer].
  - destruct (find_named g (customFolders x)) eqn:E; eexists; [by eapply do_move_custom|by apply do_move].
Qed.

Definition files (s s' : App) : Prop :=
  Mail_ok (mail s) -> Mail_ok (mail s') /\ exists ds, cabinet (mail s') = foldl (fun k d => perform d k) (cabinet (mail s)) ds.

#[local] Instance files_preorder : PreOrder files.
Proof.
  split; unfold files; [intros s Hs; split; [done|by exists []]|].
  intros s1 s2 s3 H12 H23 Hs. destruct (H12 Hs) as [H2 [d1 E1]]. destruct (H23 H2) as [H3 [d2 E2]].
  split; [done|]. exists (d1 ++ d2). by rewrite foldl_app, <- E1.
Qed.

Context `{Env}.

(** C3.  The message list refines a filing cabinet: a finite map from message ids to
    folder, custom folder, flags and labels, with the move that can be taken back.  Each
    operation of the list does the one deed the table [does] gives for it - file, mark,
    label, discard, put away, take back or nothing - and so does every execution of its
    handlers, however they interleave with timers and replies: the cabinet at the end is
    the one at the start after a sequence of deeds. *)
Theorem list_refines_cabinet :
  (forall f x, mail_op f -> Mail_ok x ->
     exists d, does x f d /\ Mail_ok (f x) /\ cabinet (f x) = perform d (cabinet x)) /\
  (forall c c', tasks c = [] -> Mail_ok (mail (state c)) -> reachable mail_handler c c' ->
     exists ds, cabinet (mail (state c')) = foldl (fun k d => perform d k) (cabinet (mail (state c))) ds).
Proof.
  assert (Hop : forall f x, mail_op f -> Mail_ok x ->
     exists d, does x f d /\ Mail_ok (f x) /\ cabinet (f x) = perform d (cabinet x)).
  { intros f x Hf Hx. destruct (op_does f x Hf) as [d Hd]. exists d. split_and!; [done|by apply mail_op_ok|by apply does_perform]. }
  split; [done|]. intros c c' E Hok Hr. edestruct (rely_guarantee files mail_handler c c') as [HR _].
  - intros h s Hh. apply (moves_respects mail_writes); [apply _| |by apply mail_handler_moves].
    intros s1 s2 (f & Hf & ->) Hx. destruct (Hop f (mail s1) Hf Hx) as (d & _ & Hx' & Ed). split; [done|]. by exists [d].
  - rewrite E. constructor.
  - done.
  - by apply HR.
Qed.

End Refinement.

(** ** A concrete mailbox *)

#[local] Existing Instances ascii_unicode digit_dates sample_env.

Lemma list_refines_cabinet_witness :
  exists d, does sample_mail (handleArchiveMessage row1) d /\
    cabinet (handleArchiveMessage row1 sample_mail) = perform d (cabinet sample_mail) /\
    filed_in <$> cards (perform d (cabinet sample_mail)) !! id row1 = Some (js "archive").
Proof.
  destruct (proj1 list_refines_cabinet (handleArchiveMessage row1) sample_mail) as (d & Hd & _ & E).
  - apply op_archive.
  - constructor; try by_decide. intros sel m [= <-] Hm.
    apply list_elem_of_In in Hm. cbn in Hm. by destruct Hm as [<-|[<-|[<-|[<-|[]]]]].
  - exists d. split; [exact Hd|]. split; [exact E|]. rewrite <- E. vm_compute. reflexivity.
Defined.
