(* ===== verification/Reading.v ===== *)
(** * Reading a message

    [openMessage] and what surrounds it in webmail/src/App.tsx: the sequence counter
    that lets only the latest click publish its result, decryption of drafts and
    messages, the preview cache, search-token indexing, token search, navigation,
    attachment downloads, and locking.  Also the list's opening and closing of the
    reading pane. *)

From S2P Require Import Prelude JsString Encoding Json Display Wasm MessageCrypto Client Api AppState MailView.

(** ** Replies of the server

    The client trusts the interfaces it declares for replies; a member that is missing
    is read as the empty string or zero. *)

Definition int_field (v : json) (k : string) : Z :=
  match get v (js k) with
  | Some (JNum l) => if forallb is_digit l then dec_value l else 0
  | _ => 0
  end.

Definition items (v : json) : outcome (list json) :=
  match v with JArr xs => Ok xs | _ => throw "TypeError" end.

Definition attachment_of (a : json) : AttachmentItem := {|
  att_id := str_field a "id";
  att_message_id :=
    match get_str a (js "message_id") with Some i => Some i | None => get_str a (js "messageId") end;
  att_filename := str_field a "filename" |}.

(** ** Previews of a decrypted message *)

(** The match of the multi-line, case-insensitive pattern "Subject:", white space, rest
    of the line: at the first line that starts with the header name; the white space
    skipped after it may include line ends. *)
Definition subject_here (s : jstr) : option jstr :=
  if jeqb (map ascii_lower (take 8 s)) (js "subject:") then
    Some (fst (span (fun u => negb (is_line_terminator u)) (snd (span is_white (drop 8 s)))))
  else None.

Fixpoint match_subject (at_line_start : bool) (s : jstr) : option jstr :=
  match (if at_line_start then subject_here s else None) with
  | Some t => Some t
  | None => match s with [] => None | u :: s' => match_subject (is_line_terminator u) s' end
  end.

(** [plaintext.split(/\r?\n\r?\n/)] *)
Definition line_end (s : jstr) : option jstr :=
  match s with 13 :: 10 :: r => Some r | 10 :: r => Some r | _ => None end.

Definition blank_line (s : jstr) : option jstr := line_end s ≫= line_end.

Fixpoint split_blank_lines (fuel : nat) (part s : jstr) : list jstr :=
  match fuel, s with
  | O, _ | _, [] => [rev part]
  | S fuel, u :: s' =>
      match blank_line s with
      | Some r => rev part :: split_blank_lines fuel [] r
      | None => split_blank_lines fuel (u :: part) s'
      end
  end.

Definition split_body (s : jstr) : list jstr := split_blank_lines (length s) [] s.

(** [s.replace(/\s+/g, " ")] *)
Fixpoint collapse_white (after_white : bool) (s : jstr) : jstr :=
  match s with
  | [] => []
  | u :: s' =>
      if is_white u then
        if after_white then collapse_white true s' else 32 :: collapse_white true s'
      else u :: collapse_white false s'
  end.

Definition extractedSubject (subject plaintext : jstr) : jstr :=
  match match_subject true plaintext with
  | Some t => if truthy t then trim t else subject
  | None => subject
  end.

Definition extractedBody (plaintext : jstr) : jstr :=
  let bodyParts := split_body plaintext in
  if (1 <? length bodyParts)%nat then join [10; 10] (tail bodyParts) else plaintext.

Definition extractedSnippet (body : jstr) : jstr := collapse_white false (take 100 (trim body)).

Definition subject_key (i : jstr) : jstr := js "byos_msg_subject_" ++ i.
Definition snippet_key (i : jstr) : jstr := js "byos_msg_snippet_" ++ i.

(** What the pane shows of a decrypted message. *)
Definition shown_text (plaintext : jstr) : jstr :=
  or_default (trim (extractedBody plaintext)) plaintext.

(** ** Status texts *)

Definition no_mailbox_text : jstr := js "No mailbox selected.".
Definition draft_locked_text : jstr :=
  js "Mailbox is locked. Please sign in with your password to read this draft.".
Definition message_locked_text : jstr :=
  js "Mailbox is locked. Please sign in with your password to decrypt this message.".
Definition storage_banner_text : jstr :=
  js "Mailbox storage is currently disconnected or unreachable. Inbound emails are held safely at the mail transfer agent and will deliver automatically once storage is reconnected.".

(** [err instanceof Error ? err.message : String(err)] *)
Definition error_text (e : js_error) : jstr := match e with JsError m _ => m | JsThrown v => v end.

Definition failed_text (e : js_error) : jstr :=
  js "Failed to open message: "
  ++ match e with JsError m _ => m | JsThrown _ => js "unknown error" end.

Definition storage_error (e : js_error) : bool :=
  let t := error_text e in
  includes t (js "503") || includes t (js "storage_disconnected") || includes t (js "storage disconnected").

Section Reading.
Context `{Crypto} `{Unicode} `{Dates} `{Env}.

Definition is_latest (seq : Z) : prog App bool := gets (fun s => currentDecryptSeq (reading s) =? seq).

(** [if (seq === currentDecryptSeq) { ... }] *)
Definition if_latest (seq : Z) (p : prog App unit) : prog App unit :=
  b ← is_latest seq; if b : bool then p else skip.

Definition show_status (text : jstr) : prog App unit :=
  modify (on_reading (fun r => set_isDecrypting false (set_decryptedContent (Some text) r))).

Definition unlocked_for (box : Mailbox) (s : App) : bool :=
  match unlockedBoxId (custody s) with Some i => jeqb i (mb_id box) | None => false end.

(** ** Opening a draft *)

Definition open_draft (seq : Z) (msg : DisplayMessage) (box : Mailbox) : prog App unit :=
  s ← gets (fun s => s);
  match mailboxKey (custody s), unlocked_for box s with
  | Some key, true =>
      _ ← wait;
      plaintext ← lift (decryptDraftEnvelope key (mb_id box) (encryptedBody msg));
      if_latest seq (modify (on_reading (fun r =>
        set_isDecrypting false (set_editablePlaintext (Some plaintext)
          (set_decryptedContent (Some plaintext) r)))))
  | _, _ => if_latest seq (show_status draft_locked_text)
  end.

(** ** Opening a message *)

Definition body_input (seq : option Z) (body : option json) : outcome MessageDecryptInput :=
  match body with
  | None | Some JNull => throw "TypeError"
  | Some b => Ok {| message_seq := seq; encryption_version := int_field b "encryption_version";
                    encrypted_body := str_field b "encrypted_body";
                    content_key_hpke_wrapped := str_field b "content_key_hpke_wrapped" |}
  end.

Definition index_token (sKey : jstr) (box_id msg_id kw : jstr) : prog App unit :=
  pcatch (_ ← wait; tokenHex ← lift (computeSearchToken sKey kw);
          indexSearchToken box_id msg_id tokenHex)
         (fun _ => skip).

Fixpoint index_tokens (sKey box_id msg_id : jstr) (keywords : list jstr) : prog App unit :=
  match keywords with
  | [] => skip
  | kw :: keywords => _ ← index_token sKey box_id msg_id kw; index_tokens sKey box_id msg_id keywords
  end.

Definition opened_message (msg : DisplayMessage) (plaintext : jstr) : DisplayMessage :=
  set_read true
    (set_snippet (or_default (extractedSnippet (extractedBody plaintext)) (snippet msg))
      (set_subject (extractedSubject (subject msg) plaintext) msg)).

Definition publish (msg : DisplayMessage) (plaintext : jstr) : prog App unit :=
  let updatedMsg := opened_message msg plaintext in
  _ ← modify (on_mail (fun x => update_messages (has_id (id msg)) (fun _ => updatedMsg)
                                  (set_selectedMsg (Some updatedMsg) x)));
  modify (on_reading (fun r =>
    set_isDecrypting false (set_messagePlaintext (Some (shown_text plaintext))
      (set_decryptedContent (Some (shown_text plaintext)) r)))).

Definition own_attachments (msg : DisplayMessage) (all : list json) : list AttachmentItem :=
  let targetId := default (id msg) (messageId msg) in
  List.filter (fun a => match att_message_id a with
                        | Some i => truthy i && jeqb i targetId
                        | None => false
                        end)
    (map attachment_of all).

Definition open_body (seq : Z) (msg : DisplayMessage) (box : Mailbox) : prog App unit :=
  replies ← promise_all
    [fetchMessageBody (mb_id box) (id msg);
     pcatch (v ← fetchAttachments (mb_id box); mret (Some v)) (fun _ => mret (Some (JArr [])))];
  let body := default None (replies !! 0%nat) in
  if_latest seq
    (allAttachments ← lift (items (default (JArr []) (default None (replies !! 1%nat))));
     _ ← if_latest seq (modify (on_reading (set_messageAttachments (own_attachments msg allAttachments))));
     s ← gets (fun s => s);
     match mailboxKey (custody s), unlocked_for box s, messageSeq msg with
     | Some key, true, Some _ =>
         _ ← wait;
         input ← lift (body_input (messageSeq msg) body);
         plaintext ← lift (decryptMessageEnvelope key (mb_id box) input);
         _ ← modify (set_item (subject_key (id msg)) (extractedSubject (subject msg) plaintext));
         _ ← modify (set_item (snippet_key (id msg)) (extractedSnippet (extractedBody plaintext)));
         _ ← if_latest seq (publish msg plaintext);
         sKey ← gets (fun s => searchKey (custody s));
         if truthy_opt sKey then
           spawn (index_tokens (default [] sKey) (mb_id box) (id msg)
                    (extractKeywords (subject msg ++ js " " ++ plaintext)))
         else skip
     | _, _, _ => if_latest seq (show_status message_locked_text)
     end).

Definition open_failed (seq : Z) (e : js_error) : prog App unit :=
  if_latest seq
    (_ ← (if storage_error e then
            modify (on_custody (set_storageErrorBanner (Some storage_banner_text)))
          else skip);
     show_status (failed_text e)).

(** ** The handler *)

Definition begin_open (msg : DisplayMessage) (s : App) : App :=
  on_reading (fun r =>
    {| isDecrypting := true; decryptedContent := None; editablePlaintext := None;
       messagePlaintext := None; messageAttachments := [];
       currentDecryptSeq := currentDecryptSeq r + 1 |})
    (on_mail (set_selectedMsg (Some msg)) s).

Definition openMessage (msg : DisplayMessage) : prog App unit :=
  _ ← modify (begin_open msg);
  seq ← gets (fun s => currentDecryptSeq (reading s));
  _ ← (if read msg then skip
       else
         _ ← on_mail_prog (update_messages (has_id (id msg)) (set_read true));
         tell_server [id msg] (fun box i => setMessageRead box i true));
  box ← gets (fun s => selectedMailbox (custody s));
  match box with
  | None => if_latest seq (show_status no_mailbox_text)
  | Some box =>
      pcatch (if jeqb (folder msg) (js "drafts") then open_draft seq msg box else open_body seq msg box)
             (open_failed seq)
  end.

(** ** Navigation *)

Definition open_at (i : Z) (l : list DisplayMessage) : prog App unit :=
  match l !! Z.to_nat i with Some m => openMessage m | None => skip end.

Definition handlePrevMessage : prog App unit :=
  x ← gets mail;
  let idx := currentMsgIndex x in
  if 0 <? idx then open_at (idx - 1) (sortedMessages x) else skip.

Definition handleNextMessage : prog App unit :=
  x ← gets mail;
  let idx := currentMsgIndex x in
  if (0 <=? idx) && (idx <? Z.of_nat (length (sortedMessages x)) - 1) then
    open_at (idx + 1) (sortedMessages x)
  else skip.

(** Back, and the Escape key. *)
Definition onBack (x : Mail) : Mail := set_selectedMsg None x.

Definition handleKeyDown (key : jstr) (x : Mail) : Mail :=
  if jeqb key (js "Escape") then
    match selectedMsg x, selectedIds x with
    | Some _, _ => set_selectedMsg None x
    | None, _ :: _ => set_selectedIds [] x
    | None, [] => x
    end
  else x.

(** ** Locking *)

Definition lockMailbox (s : App) : App :=
  let s := on_custody (fun c => set_unlockedBoxId None (set_searchKey None (set_mailboxKey None c))) s in
  let s := on_mail (fun x =>
    set_activeLabel None (set_activeCustomFolder None (set_labels [] (set_customFolders []
      (set_selectedMsg None (set_currentPage 1 (set_selectedIds [] (set_serverMatchedMsgIds [] x)))))))) s in
  let s := on_reading (fun r =>
    set_messagePlaintext None (set_editablePlaintext None (set_decryptedContent None r))) s in
  let s := on_compose (set_editingDraft None) s in
  on_contacts (fun c =>
    set_contactsError None (set_contactNotes [] (set_contactEmail [] (set_contactName []
      (set_editingContact None (set_contactsOpen false (set_contacts [] c))))))) s.

(** ** Token search

    The effect that runs when the query, the search key or the mailbox changes.  It
    returns a function meant to cancel it; SolidJS calls no such function (it passes an
    effect's result to the next run), so [cancelled] stays false. *)

Fixpoint search_tokens (sKey box_id : jstr) (keywords matched : list jstr) : prog App (list jstr) :=
  match keywords with
  | [] => mret matched
  | kw :: keywords =>
      _ ← wait;
      tokenHex ← lift (computeSearchToken sKey kw);
      ids ← searchMailboxTokens box_id tokenHex;
      ids ← lift (items ids);
      search_tokens sKey box_id keywords
        (fold_left (fun m v => match v with JStr i => set_add i m | _ => m end) ids matched)
  end.

Definition set_matched (ids : list jstr) : prog App unit := on_mail_prog (set_serverMatchedMsgIds ids).

Definition search_effect : prog App unit :=
  s ← gets (fun s => s);
  let q := trim (searchQuery (mail s)) in
  match selectedMailbox (custody s), searchKey (custody s) with
  | Some box, Some sKey =>
      if negb (truthy q) || negb (truthy sKey) then set_matched []
      else
        let keywords := extractKeywords q in
        if (length keywords =? 0)%nat then set_matched []
        else
          _ ← on_mail_prog (set_isSearchingTokens true);
          spawn (_ ← pcatch (matched ← search_tokens sKey (mb_id box) keywords []; set_matched matched)
                            (fun _ => skip);
                 on_mail_prog (set_isSearchingTokens false))
  | _, _ => set_matched []
  end.

(** ** Downloading an attachment

    The result is the file handed to the browser's download manager. *)

Definition handleDownloadAttachment (att : AttachmentItem) : prog App (option File) :=
  s ← gets (fun s => s);
  match selectedMailbox (custody s) with
  | None => mret None
  | Some box =>
      pcatch
        (match mailboxKey (custody s), unlocked_for box s with
         | Some key, true =>
             decrypted ← downloadAndDecryptAttachment (mb_id box) (att_id att) key;
             mret (Some {| file_name := att_filename att; file_bytes := blob_data decrypted |})
         | _, _ =>
             encryptedBlob ← downloadAttachment (mb_id box) (att_id att);
             _ ← alert (js "Attachment downloaded as encrypted file (" ++ att_filename att
                        ++ js ".encrypted)." ++ [10; 10] ++ js "Sign in again to download decrypted files.");
             mret (Some {| file_name := att_filename att ++ js ".encrypted";
                           file_bytes := blob_data encryptedBlob |})
         end)
        (fun e =>
           _ ← alert (js "Failed to download attachment: "
                      ++ match e with JsError m _ => m | JsThrown _ => js "unknown error" end);
           mret None)
  end.

End Reading.

(** ** What the pane may show *)

(** What identifies an opened message to its decryption. *)
Definition identity (m : DisplayMessage) : jstr * option Z * jstr := (id m, messageSeq m, encryptedBody m).

Section Pane.
Context `{Crypto} `{Unicode} `{Dates} `{Env}.

(** [t] was decrypted from the envelope of the draft [m]. *)
Definition text_of_draft (m : DisplayMessage) (t : jstr) : Prop :=
  exists key box, decryptDraftEnvelope key box (encryptedBody m) = Ok t.

(** [t] is the body of a message that decrypts at the position of [m]. *)
Definition text_of_message (m : DisplayMessage) (t : jstr) : Prop :=
  exists key box input plaintext, message_seq input = messageSeq m /\
    decryptMessageEnvelope key box input = Ok plaintext /\ t = shown_text plaintext.

Definition status_text (t : jstr) : Prop :=
  t = no_mailbox_text \/ t = draft_locked_text \/ t = message_locked_text \/ exists e, t = failed_text e.

(** The pane shows the message [g] or nothing, and only texts that belong to it; the
    texts offered for editing and quoting are decrypted ones. *)
Record Pane_ok (s : App) (g : DisplayMessage) : Prop := {
  pane_selected : forall m, selectedMsg (mail s) = Some m -> identity m = identity g;
  pane_content : forall t, decryptedContent (reading s) = Some t ->
    status_text t \/ text_of_draft g t \/ text_of_message g t;
  pane_editable : forall t, editablePlaintext (reading s) = Some t -> text_of_draft g t;
  pane_quoted : forall t, messagePlaintext (reading s) = Some t -> text_of_message g t;
}.

(** The handlers of the list and of the reading pane. *)
Inductive pane_handler : prog App unit -> Prop :=
| pane_mail h : mail_handler h -> pane_handler h
| pane_open m : pane_handler (openMessage m)
| pane_prev : pane_handler handlePrevMessage
| pane_next : pane_handler handleNextMessage
| pane_back : pane_handler (on_mail_prog onBack)
| pane_key k : pane_handler (on_mail_prog (handleKeyDown k))
| pane_lock : pane_handler (modify lockMailbox)
| pane_search : pane_handler search_effect.

End Pane.

Lemma identity_of_op `{Unicode} `{Dates} f x m' :
  mail_op f -> selectedMsg (f x) = Some m' -> exists m, selectedMsg x = Some m /\ identity m' = identity m.
Proof.
  assert (Hu : forall p h y, (forall m, identity (h m) = identity m) -> selectedMsg y = selectedMsg x ->
    selectedMsg (update_selected p (fun m => Some (h m)) y) = Some m' ->
    exists m, selectedMsg x = Some m /\ identity m' = identity m).
  { intros p h y Hh Hy. unfold update_selected. rewrite Hy. destruct (selectedMsg x) as [m|] eqn:E; [|congruence].
    destruct (p m); [intros [= <-]; eauto|]. rewrite Hy, ?E. intros [= <-]. eauto. }
  assert (Hc : forall p o, still_open p o = Some m' -> o = Some m').
  { intros p [m|]; [|done]. simpl. destruct (p m); [done|congruence]. }
  destruct 1; intros E; try (by exists m').
  - unfold toggleMessageStarred in E. cbv zeta in E. by apply Hu in E.
  - unfold toggle_read_local in E. cbv zeta in E. by apply Hu in E.
  - rewrite (selected_moved _ (js "archive")) in E by (by left). apply Hc in E. eauto.
  - rewrite (selected_moved _ (js "trash")) in E by (by right). apply Hc in E. eauto.
  - unfold handleDeleteForever, showToast in E. cbn in E. rewrite selected_close in E. apply Hc in E. eauto.
  - unfold handleUndo in E. destruct (undoAction x); cbn in E; eauto.
  - unfold undo_timer_fires in E. case_bool_decide; cbn in E; eauto.
  - unfold handleSelectFilter in E. repeat case_match; cbn in E; eauto.
  - unfold onPrevPage in E. case_match; cbn in E; eauto.
  - unfold onNextPage in E. case_match; cbn in E; eauto.
  - unfold batch_move, with_selection in E. destruct (selectedIds x); [eauto|].
    cbn in E. rewrite selected_close in E. apply Hc in E. eauto.
  - unfold handleBatchDeleteForever, with_selection in E. destruct (selectedIds x); [eauto|].
    cbn in E. rewrite selected_close in E. apply Hc in E. eauto.
  - unfold empty_trash in E. cbn in E. rewrite selected_close in E. apply Hc in E. eauto.
  - unfold batch_read_local, batch_flag, with_selection in E. destruct (selectedIds x); [eauto|].
    cbv zeta in E. cbn [selectedMsg set_selectedIds showToast set_toastMessage] in E. by apply Hu in E.
  - unfold handleBatchToggleStarred, batch_flag, with_selection in E. destruct (selectedIds x); [eauto|].
    cbv zeta in E. cbn [selectedMsg set_selectedIds showToast set_toastMessage] in E. by apply Hu in E.
  - unfold move_local in E. cbn in E. rewrite selected_close in E. apply Hc in E. eauto.
  - unfold relabel in E. apply Hu in E; [done| |done]. intros m. unfold add_label. by case_decide.
  - unfold relabel in E. by apply Hu in E.
Qed.

Section PaneProof.
Context `{Crypto} `{Unicode} `{Dates} `{Env}.

Definition seq_of (sg : App * DisplayMessage) : Z := currentDecryptSeq (reading (fst sg)).

(** The state, followed by the message opened last: invariant, counter only grows, and
    the message changes only with the counter. *)
Definition pane_step (a b : App * DisplayMessage) : Prop :=
  (Pane_ok (fst a) (snd a) -> Pane_ok (fst b) (snd b)) /\
  seq_of a <= seq_of b /\ (seq_of a = seq_of b -> snd a = snd b).

#[local] Instance pane_step_preorder : PreOrder pane_step.
Proof.
  split; unfold pane_step.
  - intros a. split_and!; [done|lia|done].
  - intros a b c (I1 & L1 & E1) (I2 & L2 & E2). split_and!; [tauto|lia|].
    intros E. rewrite E1 by lia. apply E2. lia.
Qed.

(** Changes that keep the reading pane's texts and do not open another message. *)
Definition harmless (s s' : App) : Prop :=
  reading s' = reading s /\
  forall m', selectedMsg (mail s') = Some m' ->
    exists m, selectedMsg (mail s) = Some m /\ identity m' = identity m.

Lemma harmless_step s s' g : harmless s s' -> pane_step (s, g) (s', g).
Proof.
  intros [Hr Hs]. unfold pane_step, seq_of; cbn. rewrite Hr. split_and!; [|lia|done].
  intros [P1 P2 P3 P4]. constructor; rewrite ?Hr; try done.
  intros m' Hm. destruct (Hs m' Hm) as (m & Em & ->). by apply P1.
Qed.

Lemma harmless_refl_mail s s' : reading s' = reading s -> selectedMsg (mail s') = selectedMsg (mail s) -> harmless s s'.
Proof. intros Hr Hm. split; [done|]. rewrite Hm. eauto. Qed.

Lemma mail_writes_harmless s s' : mail_writes s s' -> harmless s s'.
Proof. intros (f & Hf & ->). split; [done|]. intros m' Hm. by eapply identity_of_op. Qed.

(** ** A task that opened message [msg] as number [n] *)
Section Task.
Context (n : Z) (msg : DisplayMessage).

(** As long as no other message was opened, [msg] is the last one. *)
Definition mine (sg : App * DisplayMessage) : Prop := n <= seq_of sg /\ (seq_of sg = n -> snd sg = msg).

Lemma mine_later a b : mine a -> pane_step a b -> mine b.
Proof.
  intros [L E] (_ & L2 & E2). split; [lia|]. intros Eb. rewrite <- E2 by lia. apply E. lia.
Qed.

(** A part of the task that respects [pane_step] wherever it runs. *)
Definition safe {A} (p : prog App A) : Prop := forall a b,
  mine b -> pane_step a b -> wp pane_step (fun a b _ => pane_step a b /\ mine b) a b (instrument p).

Lemma safe_bind {A B} (p : prog App A) (f : A -> prog App B) :
  safe p -> (forall x, safe (f x)) -> safe (p ≫= f).
Proof.
  intros Hp Hf a b Hb Hab. apply wp_instrument_bind. eapply wp_mono; [|by apply Hp].
  intros a' b' [x|e] [Hs1 Hs2]; [by apply Hf|done].
Qed.

Lemma safe_catch {A} (p : prog App A) h : safe p -> (forall e, safe (h e)) -> safe (pcatch p h).
Proof.
  intros Hp Hh a b Hb Hab. apply wp_instrument_catch. eapply wp_mono; [|by apply Hp].
  intros a' b' [x|e] [Hs1 Hs2]; [done|by apply Hh].
Qed.

Lemma safe_lift_bind {A B} (r : outcome A) (f : A -> prog App B) :
  (forall x, r = Ok x -> safe (f x)) -> safe (lift r ≫= f).
Proof.
  intros Hf. rewrite bind_lift. destruct r as [x|e]; [by apply Hf|]. by intros a b Hb Hab.
Qed.

Lemma safe_moves {A} W (p : prog App A) :
  (forall s s' g, W s s' -> pane_step (s, g) (s', g)) -> (forall s, moves W s p) -> safe p.
Proof.
  intros HW Hp a [s g] Hb Hab. apply (wp_instrument_moves _ W); auto.
  intros a' b' _ Hs1 Hs2. split; [done|]. by eapply mine_later.
Qed.

Lemma safe_talks {A} (p : prog App A) : talks p -> safe p.
Proof. intros Hp. by apply (safe_moves (fun _ _ => False)). Qed.

Lemma safe_harmless f : (forall s, harmless s (f s)) -> safe (modify f).
Proof.
  intros Hf. apply (safe_moves harmless); [auto using harmless_step|]. by cbn.
Qed.

(** A change made only by the latest click may rely on [msg] being the last one. *)
Lemma safe_if_latest_modify f :
  (forall s, currentDecryptSeq (reading (f s)) = currentDecryptSeq (reading s)) ->
  (forall s, Pane_ok s msg -> Pane_ok (f s) msg) -> safe (if_latest n (modify f)).
Proof.
  intros Hseq Hf a [s g] Hb Hab. cbn [if_latest is_latest gets mbind prog_bind pbind instrument wp fst].
  destruct (_ =? n) eqn:E; [|by cbn]. apply Z.eqb_eq in E. cbn [modify instrument wp fst snd].
  assert (Hs : pane_step (s, g) (f s, g)).
  { unfold pane_step, seq_of; cbn. rewrite Hseq. split_and!; [|lia|done].
    assert (g = msg) as -> by (apply Hb; exact E). apply Hf. }
  split; [by etrans|]. by eapply mine_later.
Qed.

Lemma safe_if_latest p : safe p -> safe (if_latest n p).
Proof. intros Hp. apply safe_bind; [by apply safe_talks|]. intros []; [done|]. by apply safe_talks. Qed.

(** Two changes in a row. *)
Lemma if_latest_modify_twice f g :
  forall a b, wp pane_step (fun a b _ => pane_step a b /\ mine b) a b
                (instrument (if_latest n (modify (fun s => g (f s))))) ->
  wp pane_step (fun a b _ => pane_step a b /\ mine b) a b
    (instrument (if_latest n (_ ← modify f; modify g))).
Proof.
  intros a b. cbn [if_latest is_latest gets mbind prog_bind pbind instrument wp fst].
  destruct (_ =? n); done.
Qed.

Lemma pane_show_status t s :
  status_text t -> Pane_ok s msg ->
  Pane_ok (on_reading (fun r => set_isDecrypting false (set_decryptedContent (Some t) r)) s) msg.
Proof.
  intros Ht [P1 P2 P3 P4]. constructor; try done. intros u [= <-]. by left.
Qed.

Lemma safe_show_status t : status_text t -> safe (if_latest n (show_status t)).
Proof. intros Ht. apply safe_if_latest_modify; [done|]. intros s. by apply pane_show_status. Qed.

Lemma safe_open_failed e : safe (open_failed n e).
Proof.
  unfold open_failed. destruct (storage_error e).
  - intros a b Hb Hab. apply if_latest_modify_twice. apply safe_if_latest_modify; [done| |done|done].
    intros s Hs. apply (pane_show_status (failed_text e)).
    + unfold status_text. eauto.
    + destruct Hs. by constructor.
  - apply safe_show_status. unfold status_text. eauto.
Qed.

Lemma safe_open_draft box : safe (open_draft n msg box).
Proof.
  unfold open_draft. apply safe_bind; [by apply safe_talks|]. intros s.
  destruct (mailboxKey (custody s)) as [key|]; [destruct (unlocked_for box s)|].
  2,3: apply safe_show_status; unfold status_text; tauto.
  apply safe_bind; [by apply safe_talks|]. intros _. apply safe_lift_bind. intros pt Hpt.
  assert (Hd : text_of_draft msg pt) by by exists key, (mb_id box).
  apply safe_if_latest_modify; [done|]. intros s' [P1 P2 P3 P4]. constructor; try done.
  - intros t [= <-]. auto.
  - intros t [= <-]. done.
Qed.

Lemma identity_opened pt : identity (opened_message msg pt) = identity msg.
Proof. done. Qed.

Lemma safe_publish key box input pt :
  message_seq input = messageSeq msg -> decryptMessageEnvelope key box input = Ok pt ->
  safe (if_latest n (publish msg pt)).
Proof.
  intros Hs Hpt a b Hb Hab. unfold publish. cbv zeta. apply if_latest_modify_twice.
  assert (Hd : text_of_message msg (shown_text pt)) by by exists key, box, input, pt.
  apply safe_if_latest_modify; [done| |done|done]. intros s [P1 P2 P3 P4]. constructor.
  - intros m [= <-]. apply identity_opened.
  - intros t [= <-]. auto.
  - done.
  - intros t [= <-]. done.
Qed.

Lemma talks_index_tokens sKey box i kws : talks (index_tokens sKey box i kws).
Proof.
  induction kws as [|kw kws IH]; cbn [index_tokens]; [done|]. apply talks_bind; [|done].
  unfold index_token. apply talks_catch; [|done]. apply talks_bind; [done|]. intros _.
  apply talks_bind; [done|]. intros tok. unfold indexSearchToken. auto with talks.
Qed.

Lemma talks_body_and_attachments box i : talks (promise_all
    [fetchMessageBody box i; pcatch (v ← fetchAttachments box; mret (Some v)) (fun _ => mret (Some (JArr [])))]).
Proof.
  apply talks_promise_all. unfold fetchMessageBody, fetchAttachments.
  repeat (constructor; auto with talks).
Qed.

Lemma safe_open_body box : safe (open_body n msg box).
Proof.
  unfold open_body. apply safe_bind; [apply safe_talks, talks_body_and_attachments|]. intros rs. cbv zeta.
  apply safe_if_latest. apply safe_lift_bind. intros atts _.
  apply safe_bind.
  { apply safe_if_latest_modify; [done|]. intros s [P1 P2 P3 P4]. by constructor. }
  intros _. apply safe_bind; [by apply safe_talks|]. intros s.
  assert (Hl : safe (if_latest n (show_status message_locked_text)))
    by (apply safe_show_status; unfold status_text; tauto).
  destruct (mailboxKey (custody s)) as [key|]; [|done]. destruct (unlocked_for box s); [|done].
  destruct (messageSeq msg) as [sq|] eqn:Esq; [|done].
  apply safe_bind; [by apply safe_talks|]. intros _. apply safe_lift_bind. intros input Hin.
  apply safe_lift_bind. intros pt Hpt.
  apply safe_bind; [apply safe_harmless; intros s1; by apply harmless_refl_mail|]. intros _.
  apply safe_bind; [apply safe_harmless; intros s1; by apply harmless_refl_mail|]. intros _.
  apply safe_bind.
  { apply (safe_publish key (mb_id box) input); [|done]. rewrite Esq. unfold body_input in Hin.
    destruct (default None _) as [[]|]; try done; by injection Hin as <-. }
  intros _. apply safe_bind; [by apply safe_talks|]. intros sKey. apply safe_talks.
  destruct (truthy_opt sKey); [|done]. intros s1. split; [apply talks_index_tokens|done].
Qed.

End Task.

Lemma pane_open_respects msg a :
  respects pane_step a (start (fun _ _ => msg) (openMessage msg)).
Proof.
  destruct a as [s g]. unfold respects. cbn [start wp fst snd].
  unfold openMessage. apply wp_instrument_bind. cbn [modify instrument wp fst snd].
  set (s1 := begin_open msg s). set (n := currentDecryptSeq (reading s1)).
  assert (Hs : pane_step (s, g) (s1, msg)).
  { unfold pane_step, seq_of; cbn. split_and!; [|lia|lia]. intros _. constructor; cbn; try done.
    by intros m [= <-]. }
  assert (Hm : mine n msg (s1, msg)) by (split; cbn; [lia|done]).
  apply wp_instrument_bind. cbn [gets instrument wp fst snd]. fold n.
  eapply wp_mono; [|apply (safe_bind n msg); [| |exact Hm|exact Hs]].
  - intros a b r [Hab _]. exact Hab.
  - destruct (read msg); [by apply safe_talks|].
    apply safe_bind; [|intros; apply safe_talks, talks_tell_server; intros; unfold setMessageRead; auto with talks].
    apply safe_harmless. intros s2. by apply harmless_refl_mail.
  - intros _. apply safe_bind; [by apply safe_talks|]. intros [box|].
    + apply safe_catch; [|apply safe_open_failed].
      destruct (jeqb _ _); [apply safe_open_draft|apply safe_open_body].
    + apply safe_show_status. unfold status_text. tauto.
Qed.

(** The message a handler opens. *)
Definition prev_opened (s : App) (g : DisplayMessage) : DisplayMessage :=
  let idx := currentMsgIndex (mail s) in
  if 0 <? idx then default g (sortedMessages (mail s) !! Z.to_nat (idx - 1)) else g.
Definition next_opened (s : App) (g : DisplayMessage) : DisplayMessage :=
  let idx := currentMsgIndex (mail s) in
  if (0 <=? idx) && (idx <? Z.of_nat (length (sortedMessages (mail s))) - 1) then
    default g (sortedMessages (mail s) !! Z.to_nat (idx + 1))
  else g.

Inductive opens : prog App unit -> (App -> DisplayMessage -> DisplayMessage) -> Prop :=
| opens_msg m : opens (openMessage m) (fun _ _ => m)
| opens_prev : opens handlePrevMessage prev_opened
| opens_next : opens handleNextMessage next_opened
| opens_none h W : (forall s, moves W s h) -> (forall s s' g, W s s' -> pane_step (s, g) (s', g)) ->
    opens h (fun _ g => g).

Lemma opens_respects h f a : opens h f -> respects pane_step a (start f h).
Proof.
  destruct a as [s g]. destruct 1 as [m| | |h W Hh HW].
  - apply pane_open_respects.
  - cbn [respects start wp fst snd]. unfold handlePrevMessage, prev_opened. cbn [gets mbind prog_bind pbind instrument wp fst].
    unfold respects. cbn [start wp fst snd instrument]. cbv zeta.
    destruct (0 <? _); [|by apply (wp_instrument_moves _ (fun _ _ => False))].
    unfold open_at. destruct (sortedMessages (mail s) !! _) as [m|]; cbn [default];
      [apply (pane_open_respects m (s, g))|by apply (wp_instrument_moves _ (fun _ _ => False))].
  - unfold respects, handleNextMessage, next_opened. cbn [gets start mbind prog_bind pbind instrument wp fst snd].
    cbv zeta. destruct (_ && _); [|by apply (wp_instrument_moves _ (fun _ _ => False))].
    unfold open_at. destruct (sortedMessages (mail s) !! _) as [m|]; cbn [default];
      [apply (pane_open_respects m (s, g))|by apply (wp_instrument_moves _ (fun _ _ => False))].
  - unfold respects. cbn [start wp fst snd]. by apply (wp_instrument_moves _ W).
Qed.

Lemma harmless_mail f s :
  (forall m', selectedMsg (f (mail s)) = Some m' -> selectedMsg (mail s) = Some m') -> harmless s (on_mail f s).
Proof. intros Hf. split; [done|]. intros m' Hm. eauto. Qed.

Lemma talks_search_tokens sKey box kws m : talks (search_tokens sKey box kws m).
Proof.
  revert m. induction kws as [|kw kws IH]; intros m; cbn [search_tokens]; [done|].
  repeat (apply talks_bind; [|intros]); auto with talks.
Qed.

Lemma moves_set_matched ids s : moves harmless s (set_matched ids).
Proof. split; [|done]. by apply harmless_mail. Qed.

Lemma moves_search_effect s : moves harmless s search_effect.
Proof.
  unfold search_effect. apply moves_bind; [done|]. intros s0 s1. cbv zeta.
  destruct (selectedMailbox (custody s0)) as [box|]; [|apply moves_set_matched].
  destruct (searchKey (custody s0)) as [sKey|]; [|apply moves_set_matched].
  destruct (_ || _); [apply moves_set_matched|]. destruct (_ =? 0)%nat; [apply moves_set_matched|].
  apply moves_bind; [split; [by apply harmless_mail|done]|]. intros _ s2. split; [|done].
  apply moves_bind; [|intros; split; [by apply harmless_mail|done]].
  apply moves_catch; [|done]. apply moves_bind; [apply talks_moves, talks_search_tokens|].
  intros m s3. apply moves_set_matched.
Qed.

Lemma lock_step s g : pane_step (s, g) (lockMailbox s, g).
Proof. unfold pane_step, seq_of; cbn. split_and!; [|lia|done]. intros _. by constructor. Qed.

Lemma pane_handler_opens h : pane_handler h -> exists f, opens h f.
Proof.
  destruct 1 as [h Hh|m| | | |k| |].
  - exists (fun _ g => g). apply (opens_none _ mail_writes); [intros s; by apply mail_handler_moves|].
    intros s s' g Hw. by apply harmless_step, mail_writes_harmless.
  - eexists. apply opens_msg.
  - eexists. apply opens_prev.
  - eexists. apply opens_next.
  - eexists. apply (opens_none _ harmless); [|intros; by apply harmless_step].
    intros s. split; [by apply harmless_mail|done].
  - eexists. apply (opens_none _ harmless); [|intros; by apply harmless_step].
    intros s. split; [|done]. apply harmless_mail. intros m'. unfold handleKeyDown.
    repeat case_match; cbn; congruence.
  - eexists. apply (opens_none _ (fun s s' => s' = lockMailbox s)); [by cbn|].
    intros s s' g ->. apply lock_step.
  - eexists. apply (opens_none _ harmless); [apply moves_search_effect|intros; by apply harmless_step].
Qed.

(** C2.  However opening, navigation, locking, list actions and server replies interleave:
    the text in the reading pane is the decryption, at the position (mailbox sequence
    number or draft envelope) of the very message shown in its header, or a status
    text; the text offered for editing is that draft's and the text quoted in replies
    is that message's, never a placeholder. *)
Theorem pane_shows_the_selected_message (c c' : config App) m :
  tasks c = [] -> selectedMsg (mail (state c)) = None ->
  decryptedContent (reading (state c)) = None -> editablePlaintext (reading (state c)) = None ->
  messagePlaintext (reading (state c)) = None ->
  reachable pane_handler c c' -> selectedMsg (mail (state c')) = Some m ->
  (forall t, decryptedContent (reading (state c')) = Some t ->
     status_text t \/ text_of_draft m t \/ text_of_message m t) /\
  (forall t, editablePlaintext (reading (state c')) = Some t -> text_of_draft m t) /\
  (forall t, messagePlaintext (reading (state c')) = Some t -> text_of_message m t).
Proof.
  intros E1 E2 E3 E4 E5 Hr Hm.
  destruct (instrumented_reachable pane_handler opens pane_handler_opens c c' m Hr) as [g Hg].
  edestruct (rely_guarantee pane_step) as [[Hok _] _]; [| |exact Hg|].
  - intros h a (h0 & f & _ & Ho & ->). by apply opens_respects.
  - cbn [tasks]. rewrite E1. constructor.
  - cbn [state fst snd] in Hok. destruct Hok as [P1 P2 P3 P4].
    { constructor; rewrite ?E2, ?E3, ?E4, ?E5; done. }
    pose proof (P1 m Hm) as Hid. unfold identity in Hid. injection Hid as Ei Es Ee.
    assert (Hd : forall t, text_of_draft g t -> text_of_draft m t).
    { intros t (key & box & Ht). exists key, box. by rewrite Ee. }
    assert (Hmsg : forall t, text_of_message g t -> text_of_message m t).
    { intros t (key & box & input & pt & Hs & Ht). exists key, box, input, pt. by rewrite Es. }
    split_and!; naive_solver.
Qed.

End PaneProof.

(** ** Concrete runs *)

#[local] Existing Instances toy_crypto toy_laws ascii_unicode digit_dates sample_env.

Definition box_of_id0 : Mailbox :=
  {| mb_id := box0; mb_local_part := js "me"; mb_domain_id := js "d1"; mb_mode := js "zero_knowledge";
     mb_wrapped_sk_user := None |}.

Definition letter : DisplayMessage :=
  {| id := js "m42"; messageSeq := Some 42; version := Some 1; folder := js "inbox"; folderId := None;
     labelIds := None; sender := js "Ann"; recipient := js "me"; subject := js "(Encrypted message)";
     snippet := js "..."; encryptedBody := []; date := js "1"; read := true; starred := false;
     isRealApi := true; messageId := None; hasAttachments := false; attachmentCount := 0;
     attachmentTypes := []; trackingToken := None; trackingInfo := None |}.

(** The sample mailbox, unlocked, with one letter. *)
Definition unlocked_app : App :=
  on_custody (fun c => set_selectedMailbox (Some box_of_id0)
    (set_mailboxKey (Some key0) (set_unlockedBoxId (Some box0) c)))
    (on_mail (fun x => set_selectedMsg None (set_messages [letter] x)) sample_app).

Definition letter_body : json :=
  JObj [(js "encryption_version", JNum (js "1")); (js "encrypted_body", JStr (encrypted_body (message0 42)));
        (js "content_key_hpke_wrapped", JStr (content_key_hpke_wrapped (message0 42)))].

(** The body, then an empty list of attachments. *)
Definition letter_replies (n : nat) : reply :=
  match n with O => json_reply letter_body | _ => json_reply (JObj [(js "attachments", JArr [])]) end.

Definition before_import : config App :=
  wake 0 true letter_replies (fire true (openMessage letter) {| state := unlocked_app; tasks := [] |}).

(** Locking the mailbox while the crypto module loads does not stop the decryption in
    flight: the key is gone, and then the plaintext is published and the message
    reopened. *)
Example lock_does_not_stop_a_decryption :
  exists c, reachable pane_handler {| state := unlocked_app; tasks := [] |} c /\
    mailboxKey (custody (state c)) = None /\ decryptedContent (reading (state c)) = Some (js "Dear Ada") /\
    id <$> selectedMsg (mail (state c)) = Some (js "m42").
Proof.
  exists (wake 0 true letter_replies (fire true (modify lockMailbox) before_import)). split.
  - apply (fire_reachable _ true (openMessage letter)); [apply pane_open|].
    apply (wake_reachable _ 0 true letter_replies). apply (fire_reachable _ true (modify lockMailbox)); [apply pane_lock|].
    apply (wake_reachable _ 0 true letter_replies). apply rtc_refl.
  - split_and!; vm_compute; reflexivity.
Qed.

Lemma pane_shows_the_selected_message_witness :
  text_of_message letter (js "Dear Ada").
Proof.
  set (c0 := {| state := unlocked_app; tasks := [] |} : config App).
  set (c1 := wake 0 true letter_replies before_import).
  assert (Hr : reachable pane_handler c0 c1).
  { apply (fire_reachable _ true (openMessage letter)); [apply pane_open|].
    apply (wake_reachable _ 0 true letter_replies). apply (wake_reachable _ 0 true letter_replies). apply rtc_refl. }
  assert (Hq : messagePlaintext (reading (state c1)) = Some (js "Dear Ada")) by (vm_compute; reflexivity).
  destruct (selectedMsg (mail (state c1))) as [m|] eqn:Em; [|vm_compute in Em; discriminate].
  assert (Hid : identity m = identity letter) by (vm_compute in Em; injection Em as <-; reflexivity).
  destruct (pane_shows_the_selected_message c0 c1 m eq_refl eq_refl eq_refl eq_refl eq_refl Hr Em)
    as (_ & _ & Hm).
  destruct (Hm _ Hq) as (key & box & input & pt & Hs & Hd & Ht). injection Hid as _ Hsq _.
  exists key, box, input, pt. split; [exact (eq_trans Hs Hsq)|]. split; [exact Hd|exact Ht].
Defined.
