(* ===== verification/MailboxData.v ===== *)
(** * Loading a mailbox

    [loadMailboxData] of webmail/src/App.tsx: the five concurrent requests, the rows
    built from their replies, draft previews, the background decryption of previews,
    the stored settings and the read receipts. *)

From S2P Require Import Prelude JsString Encoding Json Display Wasm MessageCrypto Client Api AppState.
From S2P Require Import MailView Reading.

(** ** Folders and labels *)

Definition named_of (v : json) : Named := {| n_id := str_field v "id"; n_name := str_field v "name" |}.

Definition name_key `{Unicode} (n : Named) : jstr := toLowerCase (trim (n_name n)).

Fixpoint dedup_from `{Unicode} (seen : list jstr) (l : list Named) : list Named :=
  match l with
  | [] => []
  | n :: l =>
      if decide (name_key n ∈ seen) then dedup_from seen l
      else n :: dedup_from (name_key n :: seen) l
  end.

Definition deduplicateByName `{Unicode} (l : list Named) : list Named := dedup_from [] l.

(** ** Rows from metadata *)

Definition int_opt (v : json) (k : string) : option Z :=
  match get v (js k) with
  | Some (JNum l) => if truthy l && forallb is_digit l then Some (dec_value l) else None
  | _ => None
  end.

Definition bool_field (v : json) (k : string) : bool :=
  match get v (js k) with Some x => json_truthy x | None => false end.

Definition strings_field (v : json) (k : string) : list jstr :=
  match get v (js k) with
  | Some (JArr xs) => omap (fun x => match x with JStr s => Some s | _ => None end) xs
  | _ => []
  end.

(** [a || null] *)
Definition or_none (s : jstr) : option jstr := if truthy s then Some s else None.

Definition attachments_of (atts : list json) (i : jstr) : list AttachmentItem :=
  map attachment_of
    (List.filter (fun a => let m := str_field a "message_id" in truthy m && jeqb m i) atts).

Section Load.
Context `{Crypto} `{Unicode} `{Dates} `{Env}.

Definition shown_date (s : App) (d : jstr) : jstr :=
  formatMessageDate d (timeFormat (prefs s)) (language (prefs s)).

Definition real_message (s : App) (atts : list json) (m : json) : DisplayMessage :=
  let i := str_field m "id" in
  let msgAtts := attachments_of atts i in
  let has := bool_field m "has_attachments" in
  let folder := str_field m "folder" in
  {| id := i;
     messageId := Some i;
     messageSeq := int_opt m "message_seq";
     version := None;
     folder := or_default (if jeqb folder (js "custom") then js "inbox" else folder)
                 (if jeqb (str_field m "direction") (js "sent") then js "sent" else js "inbox");
     folderId := or_none (str_field m "folder_id");
     labelIds := Some (strings_field m "label_ids");
     sender := str_field m "sender";
     recipient := join (js ", ") (strings_field m "recipients");
     subject := or_default (default [] (session_item (subject_key i) s)) (js "(Encrypted message)");
     snippet := or_default (default [] (session_item (snippet_key i) s))
                  (js "Encrypted payload " ++ [8226; 32] ++ str_field m "storage_object_id");
     encryptedBody := str_field m "storage_object_id";
     date := shown_date s (or_default (str_field m "sent_at") (str_field m "received_at"));
     read := bool_field m "is_read";
     starred := false;
     isRealApi := true;
     hasAttachments := has || negb (length msgAtts =? 0)%nat;
     attachmentCount := if (0 <? length msgAtts)%nat then Z.of_nat (length msgAtts)
                        else if has then 1 else 0;
     attachmentTypes := uniq (List.filter truthy (map (fun a => getAttachmentExt (att_filename a)) msgAtts));
     trackingToken := None;
     trackingInfo := None |}.

(** ** Drafts *)

Definition ellipsis (text : jstr) : jstr :=
  take 80 text ++ (if (80 <? length text)%nat then [8230] else []).

Definition draft_locked_snippet : jstr :=
  js "Encrypted draft " ++ [8212] ++ js " unlock mailbox to preview.".

(** [key] is the mailbox key when this mailbox is unlocked. *)
Definition draft_snippet (key : option bytes) (mailboxId envelope : jstr) : jstr :=
  match key with
  | Some key =>
      if truthy envelope then
        match decryptDraftEnvelope key mailboxId envelope with
        | Ok text => ellipsis text
        | Throw _ => js "Encrypted draft (decryption failed)."
        end
      else js "Draft payload" ++ [8230]
  | None => if truthy envelope then draft_locked_snippet else js "Draft payload" ++ [8230]
  end.

Definition user_email (s : App) : jstr :=
  or_default (match currentUser (custody s) with Some u => u_email u | None => [] end) (js "me@byos.local").

Definition draft_message (s : App) (key : option bytes) (mailboxId : jstr) (d : json) : DisplayMessage :=
  let envelope := str_field d "encrypted_envelope" in
  {| id := str_field d "id"; messageId := None; messageSeq := None; version := int_opt d "version";
     folder := js "drafts"; folderId := None; labelIds := None;
     sender := user_email s;
     recipient := or_default (str_field d "recipient") (js "(no recipient)");
     subject := or_default (str_field d "subject") (js "(no subject)");
     snippet := draft_snippet key mailboxId envelope;
     encryptedBody := or_default envelope (js "Encrypted draft envelope");
     date := shown_date s (str_field d "created_at");
     read := true; starred := false; isRealApi := true;
     hasAttachments := false; attachmentCount := 0; attachmentTypes := [];
     trackingToken := None; trackingInfo := None |}.

(** ** Background previews *)

Definition preview (mailboxId : jstr) (key : bytes) (m : DisplayMessage) : prog App unit :=
  cached ← gets (session_item (subject_key (id m)));
  if truthy_opt cached then skip
  else
    pcatch
      (body ← fetchMessageBody mailboxId (id m);
       input ← lift (body_input (messageSeq m) body);
       plaintext ← lift (decryptMessageEnvelope key mailboxId input);
       let sub := extractedSubject (subject m) plaintext in
       let snip := extractedSnippet (extractedBody plaintext) in
       _ ← modify (set_item (subject_key (id m)) sub);
       _ ← modify (set_item (snippet_key (id m)) snip);
       on_mail_prog (update_messages (has_id (id m)) (fun msg => set_snippet snip (set_subject sub msg))))
      (fun _ => skip).

Fixpoint previews (mailboxId : jstr) (key : bytes) (ms : list DisplayMessage) : prog App unit :=
  match ms with
  | [] => skip
  | m :: ms => _ ← preview mailboxId key m; previews mailboxId key ms
  end.

(** ** Settings *)

Definition pref (k : string) (s : json) (item : string) (f : jstr -> Prefs -> Prefs) : App -> App :=
  fun a => let v := str_field s k in
           if truthy v then set_local_item (js item) v (on_prefs (f v) a) else a.

Definition apply_settings (s : json) (a : App) : App :=
  let a := pref "density" s "byos_density" set_density a in
  let a := pref "layout_mode" s "byos_layout" set_layoutMode a in
  let a := pref "theme" s "byos_theme" set_theme a in
  let a := pref "language" s "byos_language" set_language a in
  let a := pref "time_format" s "byos_time_format" set_timeFormat a in
  pref "week_start" s "byos_week_start" set_weekStart a.

Definition load_settings (mailboxId : jstr) : prog App unit :=
  s ← fetchMailboxSettings mailboxId;
  match s with
  | None | Some JNull => pthrow "TypeError"
  | Some s => modify (apply_settings s)
  end.

(** ** Read receipts *)

Definition track_key (subject recipient : jstr) : jstr :=
  toLowerCase (trim subject) ++ js ":::" ++ toLowerCase (trim recipient).

(** Later items replace earlier ones. *)
Definition track_maps (l : list json) : gmap jstr json * gmap jstr json :=
  fold_left (fun '(byToken, byKey) item =>
    let token := str_field item "tracking_token" in
    (if truthy token then <[token := item]> byToken else byToken,
     <[track_key (str_field item "subject") (str_field item "recipient") := item]> byKey)) l (∅, ∅).

Definition receipt (maps : gmap jstr json * gmap jstr json) (m : DisplayMessage) : DisplayMessage :=
  let '(byToken, byKey) := maps in
  let by_token :=
    match trackingToken m with Some t => if truthy t then byToken !! t else None | None => None end in
  let matched :=
    match by_token with Some i => Some i | None => byKey !! track_key (subject m) (recipient m) end in
  match matched with
  | Some item =>
      set_trackingInfo (Some (int_field item "open_count", get_str item (js "first_opened_at"),
                              get_str item (js "last_opened_at")))
        (set_trackingToken (Some (str_field item "tracking_token")) m)
  | None => m
  end.

Definition load_tracking (mailboxId : jstr) : prog App unit :=
  trackList ← fetchTrackingList mailboxId;
  match trackList with
  | None => skip
  | Some v =>
      if json_truthy v then
        l ← lift (items v);
        if (length l =? 0)%nat then skip
        else on_mail_prog (fun x => set_messages (map (receipt (track_maps l)) (messages x)) x)
      else skip
  end.

(** ** Everything *)

Definition load_body (mailboxId : jstr) : prog App unit :=
  _ ← modify (on_custody (set_storageErrorBanner None));
  replies ← promise_all
    [fetchDrafts mailboxId; fetchMessages mailboxId; fetchFolders mailboxId; fetchLabels mailboxId;
     pcatch (fetchAttachments mailboxId) (fun _ => mret (JArr []))];
  let nth (n : nat) := lift (items (default (JArr []) (replies !! n))) in
  draftsList ← nth 0%nat; messageList ← nth 1%nat; folderList ← nth 2%nat; labelList ← nth 3%nat;
  attachmentList ← nth 4%nat;
  _ ← on_mail_prog (fun x => set_labels (deduplicateByName (map named_of labelList))
                              (set_customFolders (deduplicateByName (map named_of folderList)) x));
  s ← gets (fun s => s);
  let realMessages := map (real_message s attachmentList) messageList in
  let key := match unlockedBoxId (custody s) with
             | Some b => if jeqb b mailboxId then mailboxKey (custody s) else None
             | None => None
             end in
  _ ← (match key with Some _ => wait | None => skip end);
  s ← gets (fun s => s);
  let draftMessages := map (draft_message s key mailboxId) draftsList in
  _ ← on_mail_prog (set_messages (realMessages ++ draftMessages));
  _ ← (match key with Some key => spawn (previews mailboxId key realMessages) | None => skip end);
  _ ← forget (load_settings mailboxId);
  forget (load_tracking mailboxId).

Definition loadMailboxData (mailboxId : jstr) : prog App unit :=
  pcatch (load_body mailboxId) (fun e =>
    if storage_error e then modify (on_custody (set_storageErrorBanner (Some storage_banner_text)))
    else skip).

End Load.

(** ** Names are deduplicated *)

Lemma dedup_from_spec `{Unicode} seen l :
  NoDup (map name_key (dedup_from seen l)) /\
  (forall k, k ∈ map name_key (dedup_from seen l) <-> k ∈ map name_key l /\ k ∉ seen) /\
  dedup_from seen l `sublist_of` l.
Proof.
  revert seen. induction l as [|n l IH]; intros seen; cbn [dedup_from map].
  - split_and!; [constructor|set_solver|done].
  - case_decide as Hn.
    + destruct (IH seen) as (I1 & I2 & I3). split_and!; [done| |by constructor].
      intros k. rewrite I2, elem_of_cons. split; [tauto|]. intros [[->|?] ?]; [done|tauto].
    + destruct (IH (name_key n :: seen)) as (I1 & I2 & I3). cbn [map]. split_and!; [|intros k|by constructor].
      * constructor; [|done]. rewrite I2. set_solver.
      * rewrite !elem_of_cons, I2, elem_of_cons. destruct (decide (k = name_key n)) as [->|]; tauto.
Qed.

Lemma dedup_from_id `{Unicode} seen l :
  NoDup (map name_key l) -> (forall k, k ∈ map name_key l -> k ∉ seen) -> dedup_from seen l = l.
Proof.
  revert seen. induction l as [|n l IH]; intros seen Hn Hs; [done|]. cbn [dedup_from map] in *.
  apply NoDup_cons in Hn as [Hn Hl]. rewrite decide_False by (apply Hs; set_solver).
  f_equal. apply IH; [done|]. intros k Hk. rewrite elem_of_cons. intros [->|Hin]; [done|].
  by apply (Hs k); [set_solver|].
Qed.

(** Folder and label lists keep, in order, one entry of every name (up to case and
    surrounding white space), all of them entries of the server's list; and an already
    unambiguous list is kept as it is. *)
Theorem names_are_deduplicated `{Unicode} l :
  NoDup (map name_key (deduplicateByName l)) /\
  (forall n, n ∈ l -> name_key n ∈ map name_key (deduplicateByName l)) /\
  deduplicateByName l `sublist_of` l /\
  (NoDup (map name_key l) -> deduplicateByName l = l).
Proof.
  destruct (dedup_from_spec [] l) as (I1 & I2 & I3). unfold deduplicateByName. split_and!; [done| |done|].
  - intros n Hn. apply I2. split; [by apply list_elem_of_fmap_2|set_solver].
  - intros Hn. apply dedup_from_id; [done|set_solver].
Qed.

(** ** A locked mailbox stays unread *)

Section Locked.
Context `{Crypto} `{Unicode} `{Dates} `{Env}.

(** What a row may show without a key: what this session cached for it, or a
    placeholder made of the server's metadata. *)
Definition undecrypted (s : App) (m : DisplayMessage) : Prop :=
  (subject m = js "(Encrypted message)" \/ session_item (subject_key (id m)) s = Some (subject m)
   \/ folder m = js "drafts") /\
  (session_item (snippet_key (id m)) s = Some (snippet m) \/ snippet m = draft_locked_snippet
   \/ snippet m = js "Draft payload" ++ [8230]
   \/ exists object, snippet m = js "Encrypted payload " ++ [8226; 32] ++ object).

(** Later steps of a load without a key: rows only gain receipts, the cache is
    untouched. *)
Definition keeps_text (s s' : App) : Prop :=
  session s' = session s /\
  Forall2 (fun m m' => id m' = id m /\ folder m' = folder m /\ subject m' = subject m /\ snippet m' = snippet m)
    (messages (mail s)) (messages (mail s')).

#[local] Instance keeps_text_preorder : PreOrder keeps_text.
Proof.
  split.
  - intros s. split; [done|]. apply Forall_Forall2_diag, Forall_forall. done.
  - intros s1 s2 s3 [E1 F1] [E2 F2]. split; [congruence|].
    eapply Forall2_trans; [|exact F1|exact F2]. intros m1 m2 m3 (?&?&?&?) (?&?&?&?).
    split_and!; congruence.
Qed.

Lemma keeps_text_same s s' : session s' = session s -> messages (mail s') = messages (mail s) -> keeps_text s s'.
Proof. intros E1 E2. split; [done|]. rewrite E2. apply Forall_Forall2_diag, Forall_forall. done. Qed.

Lemma undecrypted_later s s' :
  keeps_text s s' -> Forall (undecrypted s) (messages (mail s)) -> Forall (undecrypted s') (messages (mail s')).
Proof.
  intros [Es HF] Hu. revert Hu.
  induction HF as [|m m' l l' (E1 & E2 & E3 & E4) _ IH]; intros Hu; [constructor|].
  inversion_clear Hu as [|? ? Hm Hl]. constructor; [|by apply IH].
  unfold undecrypted, session_item in *. by rewrite E1, E2, E3, E4, Es.
Qed.

Lemma receipt_text maps m :
  id (receipt maps m) = id m /\ folder (receipt maps m) = folder m /\
  subject (receipt maps m) = subject m /\ snippet (receipt maps m) = snippet m.
Proof. unfold receipt. destruct maps as [a b]. by destruct (match _ with Some i => Some i | None => _ end). Qed.

Lemma moves_load_tracking box s : moves keeps_text s (load_tracking box).
Proof.
  unfold load_tracking. apply moves_bind; [unfold fetchTrackingList; auto with talks|]. intros [v|] s1; [|done].
  destruct (json_truthy v); [|done]. rewrite bind_lift. destruct (items v) as [l|e]; [|done].
  destruct (_ =? 0)%nat; [done|]. split; [|done]. split; [done|]. cbn.
  rewrite Forall2_fmap_r. apply Forall_Forall2_diag, Forall_forall. intros m _. apply receipt_text.
Qed.

Lemma keeps_text_pref k v item f a : keeps_text a (pref k v item f a).
Proof. unfold pref. destruct (truthy _); by apply keeps_text_same. Qed.

Lemma moves_load_settings box s : moves keeps_text s (load_settings box).
Proof.
  unfold load_settings. apply moves_bind; [unfold fetchMailboxSettings; auto with talks|].
  intros [[]|] s1; try done; (split; [|done]); unfold apply_settings;
    repeat (etrans; [|apply keeps_text_pref]); done.
Qed.

Lemma real_undecrypted s s' atts m :
  session s' = session s -> undecrypted s' (real_message s atts m).
Proof.
  intros Es. unfold undecrypted. cbn [subject snippet id folder real_message]. unfold session_item. rewrite Es.
  split.
  - destruct (session s !! subject_key (str_field m "id")) as [[|u x]|]; cbn; auto.
  - destruct (session s !! snippet_key (str_field m "id")) as [[|u x]|]; cbn; eauto.
Qed.

Lemma draft_undecrypted s s' box d : undecrypted s' (draft_message s None box d).
Proof.
  unfold undecrypted. cbn [subject snippet id folder draft_message]. split; [auto|].
  unfold draft_snippet. destruct (truthy _); auto.
Qed.

Definition unlocked_with_key (box : jstr) (s : App) : bool :=
  match mailboxKey (custody s), unlockedBoxId (custody s) with
  | Some _, Some b => jeqb b box
  | _, _ => false
  end.

Lemma talks_load_replies box : talks (promise_all
    [fetchDrafts box; fetchMessages box; fetchFolders box; fetchLabels box;
     pcatch (fetchAttachments box) (fun _ => mret (JArr []))]).
Proof.
  apply talks_promise_all. unfold fetchDrafts, fetchMessages, fetchFolders, fetchLabels, fetchAttachments.
  repeat (constructor; auto with talks).
Qed.

(** The part of a load after the five replies, without a key. *)
Lemma run_locked_tail w t s box msgs :
  Forall (undecrypted s) msgs ->
  exists s' t', run w t s (_ ← on_mail_prog (set_messages msgs); _ ← skip;
     _ ← forget (load_settings box); forget (load_tracking box)) = (Ok tt, s', t') /\
    session s' = session s /\ Forall (undecrypted s') (messages (mail s')).
Proof.
  intros Hu. rewrite run_bind, run_on_mail, run_bind. cbn [skip run]. rewrite run_bind, run_forget.
  set (s0 := on_mail (set_messages msgs) s).
  pose proof (run_moves _ w t s0 _ (moves_load_settings box s0)) as Hs.
  destruct (run w t s0 (load_settings box)) as [[r1 s1] t1]. rewrite run_forget.
  pose proof (run_moves _ w t1 s1 _ (moves_load_tracking box s1)) as Ht.
  destruct (run w t1 s1 (load_tracking box)) as [[r2 s2] t2]. cbn [fst snd] in *.
  apply rtc_preorder in Hs, Ht; [|apply _..].
  assert (Hk : keeps_text s0 s2) by by etrans.
  exists s2, t2. split_and!; [done|by apply Hk|]. by apply (undecrypted_later s0).
Qed.

Lemma run_load_failed w t s e :
  exists s' t', run w t s (if storage_error e
    then modify (on_custody (set_storageErrorBanner (Some storage_banner_text))) else skip)
    = (Ok tt, s', t') /\ session s' = session s /\ messages (mail s') = messages (mail s).
Proof. destruct (storage_error e); by eexists _, _. Qed.

(** Loading a mailbox never fails, and without the mailbox's key it decrypts nothing:
    whatever the server replies, the preview cache is unchanged and every row shows
    what this session had already decrypted or a placeholder. *)
Theorem locked_load_reveals_nothing box w t s :
  unlocked_with_key box s = false -> Forall (undecrypted s) (messages (mail s)) ->
  let '(r, s', _) := run w t s (loadMailboxData box) in
  r = Ok tt /\ session s' = session s /\ Forall (undecrypted s') (messages (mail s')).
Proof.
  intros Hlock Hu. unfold loadMailboxData. rewrite run_catch.
  assert (Hbody : exists r s' t', run w t s (load_body box) = (r, s', t') /\
    session s' = session s /\ (forall e, r = Throw e -> messages (mail s') = messages (mail s)) /\
    (r = Ok tt -> Forall (undecrypted s') (messages (mail s')))).
  { unfold load_body. rewrite run_bind. cbn [modify run]. set (s1 := on_custody (set_storageErrorBanner None) s).
    rewrite run_bind.
    pose proof (run_talks w t s1 _ (talks_load_replies box)) as Hp.
    destruct (run w t s1 (promise_all _)) as [[[rs|e] s2] t2]; cbn [fst snd] in Hp; subst s2;
      [|by eexists _, _, _].
    cbv zeta. rewrite !bind_lift.
    destruct (items _) as [drafts|e]; [|by eexists _, _, _]. rewrite bind_lift.
    destruct (items _) as [metas|e]; [|by eexists _, _, _]. rewrite bind_lift.
    destruct (items _) as [folders|e]; [|by eexists _, _, _]. rewrite bind_lift.
    destruct (items _) as [labs|e]; [|by eexists _, _, _]. rewrite bind_lift.
    destruct (items _) as [atts|e]; [|by eexists _, _, _].
    rewrite run_bind, run_on_mail, run_bind. cbn [gets run].
    match goal with |- context [on_mail ?f s1] => set (s2 := on_mail f s1) end.
    assert (Hkey : match unlockedBoxId (custody s2) with
                   | Some b => if jeqb b box then mailboxKey (custody s2) else None
                   | None => None end = None).
    { change (custody s2) with (custody s1). unfold unlocked_with_key in Hlock. cbn.
      destruct (unlockedBoxId (custody s)) as [b|]; [|done]. destruct (mailboxKey (custody s)); [by rewrite Hlock|].
      by destruct (jeqb b box). }
    rewrite Hkey, run_bind. cbn [skip run]. rewrite run_bind. cbn [gets run].
    destruct (run_locked_tail w t2 s2 box
      (map (real_message s2 atts) metas ++ map (draft_message s2 None box) drafts)) as (s' & t' & E & Es & Hm).
    - apply Forall_app. split; apply Forall_fmap, Forall_forall; intros m _; cbn;
        [by apply real_undecrypted|by apply (draft_undecrypted s2)].
    - exists (Ok tt), s', t'. split; [exact E|]. split_and!; [done|done|done]. }
  destruct Hbody as (r & s' & t' & -> & Es & Ht & Hok).
  destruct r as [[]|e]; [by auto|].
  destruct (run_load_failed w t' s' e) as (s2 & t2 & -> & Es2 & Em2).
  split_and!; [done|congruence|]. rewrite Em2, (Ht e eq_refl).
  eapply Forall_impl; [exact Hu|]. intros m Hm. unfold undecrypted, session_item in *. by rewrite Es2, Es.
Qed.

End Locked.

(** ** What a load may change *)

Section LoadWrites.
Context `{Crypto} `{Unicode} `{Dates} `{Env}.

Definition is_preview_item (k : jstr) : bool := starts_with (js "byos_msg_") k.

Definition pref_items : list jstr :=
  map js ["byos_density"; "byos_layout"; "byos_theme"; "byos_language"; "byos_time_format"; "byos_week_start"]%string.

(** A load keeps the account, its key and every form; of the message list it changes the
    rows, folders and labels only; of the stores, the previews and the preferences. *)
Record load_writes (s s' : App) : Prop := {
  lw_custody : set_storageErrorBanner None (custody s') = set_storageErrorBanner None (custody s);
  lw_view : set_messages [] (set_customFolders [] (set_labels [] (mail s'))) =
            set_messages [] (set_customFolders [] (set_labels [] (mail s)));
  lw_reading : reading s' = reading s;
  lw_compose : compose s' = compose s;
  lw_contacts : contactsPane s' = contactsPane s;
  lw_login : loginForm s' = loginForm s;
  lw_recovery : recovery s' = recovery s;
  lw_signature : signatureText (prefs s') = signatureText (prefs s);
  lw_session k : is_preview_item k = false -> session s' !! k = session s !! k;
  lw_local k : k ∉ pref_items -> local s' !! k = local s !! k;
}.

#[export] Instance load_writes_preorder : PreOrder load_writes.
Proof.
  split; [intros s; by constructor|]. intros s1 s2 s3 [? ? ? ? ? ? ? ? S1 L1] [? ? ? ? ? ? ? ? S2 L2].
  constructor; try congruence; intros k Hk; [rewrite S2, S1|rewrite L2, L1]; done.
Qed.

Lemma load_writes_pref k v item f a :
  js item ∈ pref_items -> (forall x y, signatureText (f x y) = signatureText y) -> load_writes a (pref k v item f a).
Proof.
  intros Hi Hf. unfold pref. destruct (truthy _); [|done]. constructor; try done; cbn; [apply Hf|].
  intros k' Hk. rewrite lookup_insert_ne; [done|]. by intros <-.
Qed.

Lemma load_writes_settings v a : load_writes a (apply_settings v a).
Proof.
  unfold apply_settings. do 6 (etrans; [|apply load_writes_pref; [by_decide|done]]). done.
Qed.

Lemma load_writes_mail s x :
  set_messages [] (set_customFolders [] (set_labels [] x)) =
  set_messages [] (set_customFolders [] (set_labels [] (mail s))) -> load_writes s (set_mail x s).
Proof. intros E. by constructor. Qed.

Lemma moves_preview box key m s : moves load_writes s (preview box key m).
Proof.
  unfold preview. apply moves_bind; [done|]. intros cached s1. destruct (truthy_opt cached); [done|].
  apply moves_catch; [|done]. apply moves_bind; [unfold fetchMessageBody; auto with talks|]. intros body s2.
  rewrite bind_lift. destruct (body_input _ _) as [input|e]; [|done].
  rewrite bind_lift. destruct (decryptMessageEnvelope _ _ _) as [plaintext|e]; [|done]. cbv zeta.
  assert (Hitem : forall k v s, is_preview_item k = true -> load_writes s (set_item k v s)).
  { intros k v s' Hk. constructor; try done. intros k' Hk'. cbn. rewrite lookup_insert_ne; [done|]. congruence. }
  apply moves_bind; [split; [by apply Hitem|done]|]. intros _ s3.
  apply moves_bind; [split; [by apply Hitem|done]|]. intros _ s4. split; [|done]. by apply load_writes_mail.
Qed.

Lemma moves_previews box key ms s : moves load_writes s (previews box key ms).
Proof.
  revert s. induction ms as [|m ms IH]; intros s; cbn [previews]; [done|].
  apply moves_bind; [apply moves_preview|]. intros. apply IH.
Qed.

Lemma moves_loadMailboxData box s : moves load_writes s (loadMailboxData box).
Proof.
  unfold loadMailboxData. apply moves_catch; [|intros e s'; destruct (storage_error e); [|done]; by split].
  unfold load_body. apply moves_bind; [by split|]. intros _ s1.
  apply moves_bind; [apply talks_moves, talks_load_replies|]. intros rs s2. cbv zeta.
  rewrite bind_lift. destruct (items _) as [drafts|e]; [|done]. rewrite bind_lift.
  destruct (items _) as [metas|e]; [|done]. rewrite bind_lift.
  destruct (items _) as [folders|e]; [|done]. rewrite bind_lift.
  destruct (items _) as [labs|e]; [|done]. rewrite bind_lift.
  destruct (items _) as [atts|e]; [|done].
  apply moves_bind; [split; [by apply load_writes_mail|done]|]. intros _ s3.
  apply moves_bind; [done|]. intros s4 s5.
  generalize (match unlockedBoxId (custody s4) with
    | Some b => if jeqb b box then mailboxKey (custody s4) else None | None => None end). intros key.
  apply moves_bind; [by destruct key|]. intros _ s6. apply moves_bind; [done|]. intros s7 s8.
  apply moves_bind; [split; [by apply load_writes_mail|done]|]. intros _ s9.
  apply moves_bind; [destruct key; [split; [apply moves_previews|done]|done]|]. intros _ s10.
  apply moves_bind; [apply moves_forget|intros _ s11; apply moves_forget].
  - unfold load_settings. apply moves_bind; [unfold fetchMailboxSettings; auto with talks|].
    intros [[]|] s12; try done; (split; [apply load_writes_settings|done]).
  - unfold load_tracking. apply moves_bind; [unfold fetchTrackingList; auto with talks|]. intros [v|] s12; [|done].
    destruct (json_truthy v); [|done]. rewrite bind_lift. destruct (items v) as [l|e]; [|done].
    destruct (_ =? 0)%nat; [done|]. split; [by apply load_writes_mail|done].
Qed.

(** Run alone, it ends normally in a state it may reach. *)
Lemma run_loadMailboxData box w t s :
  exists s' t', run w t s (loadMailboxData box) = (Ok tt, s', t') /\ load_writes s s'.
Proof.
  pose proof (run_moves _ w t s _ (moves_loadMailboxData box s)) as Hm.
  assert (Hr : fst (fst (run w t s (loadMailboxData box))) = Ok tt).
  { unfold loadMailboxData. rewrite run_catch. destruct (run w t s (load_body box)) as [[[[]|e] s1] t1]; [done|].
    by destruct (storage_error e). }
  destruct (run w t s (loadMailboxData box)) as [[r s'] t']. cbn [fst snd] in *. subst r.
  exists s', t'. split; [done|]. by apply rtc_preorder in Hm; [|apply _].
Qed.

End LoadWrites.

(** ** Concrete runs *)

#[local] Existing Instances toy_crypto toy_laws ascii_unicode digit_dates sample_env.

Definition metadata (i : string) : json :=
  JObj [str_member "id" (js i); (js "message_seq", JNum (js "7")); str_member "direction" (js "received");
        str_member "sender" (js "Ann"); (js "recipients", JArr [JStr (js "me")]);
        str_member "storage_object_id" (js "o1"); str_member "received_at" (js "1");
        str_member "folder" (js "inbox")].

(** A reply with one message, good for every list. *)
Definition one_message (i : string) : reply :=
  json_reply (JObj [(js "messages", JArr [metadata i]); (js "drafts", JArr []); (js "folders", JArr []);
                    (js "labels", JArr []); (js "attachments", JArr [])]).

Definition empty_app : App := on_mail (set_messages []) sample_app.

(** Loads carry no sequence number.  When the mailbox is switched while a load is in
    flight, the late replies of the old mailbox replace the rows of the new one. *)
Example stale_load_replaces_rows :
  let load i := fire true (loadMailboxData (js i)) in
  let c := wake 0 true (fun _ => one_message "of-A")
             (wake 1 true (fun _ => one_message "of-B")
               (load "B" (load "A" {| state := empty_app; tasks := [] |}))) in
  map id (messages (mail (state (wake 1 true (fun _ => one_message "of-B")
     (load "B" (load "A" {| state := empty_app; tasks := [] |})))))) = [js "of-B"] /\
  map id (messages (mail (state c))) = [js "of-A"].
Proof. vm_compute. split; reflexivity. Qed.

Lemma locked_load_reveals_nothing_witness :
  let w := {| respond _ _ := one_message "m1"; answer _ _ := true |} in
  let s' := snd (fst (run w no_trace empty_app (loadMailboxData (js "b1")))) in
  Forall (undecrypted s') (messages (mail s')) /\ map id (messages (mail s')) = [js "m1"].
Proof.
  pose proof (locked_load_reveals_nothing (js "b1") {| respond _ _ := one_message "m1"; answer _ _ := true |}
    no_trace empty_app eq_refl (Forall_nil_2 _)) as Hm.
  cbv zeta. destruct (run _ no_trace empty_app (loadMailboxData (js "b1"))) as [[r s'] t'] eqn:E.
  destruct Hm as (_ & _ & Hu). split; [exact Hu|].
  change s' with (snd (fst (r, s', t'))). rewrite <- E. vm_compute. reflexivity.
Defined.
