(* ===== verification/Settling.v ===== *)
(** * Opening a message comes to an end

    While a message is being opened the pane shows a progress indicator
    ([isDecrypting]).  The indicator is a debt in the sense of [Progress]: the task that
    turned it on turns it off again, unless a later opening has taken it over. *)

From S2P Require Import Prelude JsString Encoding Json Display Wasm MessageCrypto Client Progress Api AppState.
From S2P Require Import MailView Reading MailboxData.

Section Settling.
Context `{Crypto} `{Unicode} `{Dates} `{Env}.

Definition pane_seq (s : App) : Z := currentDecryptSeq (reading s).

(** The opening that the indicator is on for. *)
Definition indicator (s : App) : option Z := if isDecrypting (reading s) then Some (pane_seq s) else None.

Lemma indicator_off s : indicator s = None -> isDecrypting (reading s) = false.
Proof. unfold indicator. by destruct (isDecrypting _). Qed.

Definition started (n : Z) (s : App) : Prop := n <= pane_seq s.
Definition settled (n : Z) (s : App) : Prop := n <= pane_seq s /\ (pane_seq s = n -> isDecrypting (reading s) = false).

(** Writes that open no message. *)
Definition calm (s s' : App) : Prop :=
  pane_seq s' = pane_seq s /\ (isDecrypting (reading s') = true -> isDecrypting (reading s) = true).

#[local] Instance calm_preorder : PreOrder calm.
Proof. split; unfold calm; [intros s|intros s1 s2 s3]; intuition congruence. Qed.

Lemma calm_indicator k s s' : calm s s' -> indicator s' = Some k -> indicator s = Some k.
Proof.
  unfold calm, indicator. intros [E D]. destruct (isDecrypting (reading s')); [|done]. by rewrite (D eq_refl), E.
Qed.

Lemma calm_started k s s' : calm s s' -> started k s -> started k s'.
Proof. unfold started. by intros [-> _]. Qed.

Lemma settled_started k s : settled k s -> started k s.
Proof. by intros [? _]. Qed.

Lemma settled_indicator k s : settled k s -> indicator s <> Some k.
Proof. unfold settled, indicator. intros [_ Hs]. destruct (isDecrypting (reading s)); [|done]. intros [= E]. by specialize (Hs E). Qed.

Notation kept n := (retains started settled n).

#[local] Instance kept_preorder n : PreOrder (kept n).
Proof. split; unfold retains; [intros s|intros s1 s2 s3]; tauto. Qed.

Lemma calm_kept n s s' : calm s s' -> kept n s s'.
Proof.
  intros [E D]. unfold retains, started, settled. rewrite E. split; [done|]. intros [Hn Hs]. split; [done|].
  intros En. specialize (Hs En). destruct (isDecrypting (reading s')); [by rewrite D in Hs|done].
Qed.

(** ** Tasks that pay

    [pays_ok n p]: when [p] ends normally, opening [n] is settled; [pays_always] also when it
    throws. *)
Definition pays_post {A} (n : Z) (P : outcome A -> Prop) (s0 s : App) (r : outcome A) : Prop :=
  kept n s0 s /\ started n s /\ (P r -> settled n s).

Definition pays_when {A} (n : Z) (P : outcome A -> Prop) (p : prog App A) : Prop :=
  forall s0 s, started n s -> kept n s0 s -> wp (kept n) (pays_post n P) s0 s p.

Definition pays_ok {A} (n : Z) (p : prog App A) : Prop := pays_when n (fun r => is_ok r = true) p.
Definition pays_always {A} (n : Z) (p : prog App A) : Prop := pays_when n (fun _ => True) p.

Lemma always_ok {A} n (p : prog App A) : pays_always n p -> pays_ok n p.
Proof. intros Hp s0 s Hs Hk. eapply wp_mono; [|by apply Hp]. intros a b r (? & ? & ?). split_and!; auto. Qed.

(** A calm step before a paying rest; a calm rest after a paying step. *)
Lemma calm_then {A B} n (p : prog App A) (f : A -> prog App B) :
  (forall s, moves calm s p) -> (forall a, pays_ok n (f a)) -> pays_ok n (p ≫= f).
Proof.
  intros Hp Hf s0 s Hs Hk. apply wp_bind. eapply (wp_moves calm (kept n)); [apply calm_kept|by apply Hp|exact Hk|].
  intros a b [x|e] Hb Ha; (assert (started n b) by exact (proj1 Hb Hs)).
  - by apply Hf.
  - by split_and!.
Qed.

Lemma then_calm {A B} n (p : prog App A) (f : A -> prog App B) :
  pays_ok n p -> (forall a s, moves calm s (f a)) -> pays_ok n (p ≫= f).
Proof.
  intros Hp Hf s0 s Hs Hk. apply wp_bind. eapply wp_mono; [|by apply Hp].
  intros a b [x|e] (Ha & Hb & Hd); [|by split_and!].
  eapply (wp_moves calm (kept n)); [apply calm_kept|by apply Hf|exact Ha|].
  intros a' b' r Hb' Ha'. split_and!; [done|exact (proj1 Hb' Hb)|]. intros _. exact (proj2 Hb' (Hd eq_refl)).
Qed.

Lemma lift_then {A B} n (r : outcome A) (f : A -> prog App B) : (forall a, pays_ok n (f a)) -> pays_ok n (lift r ≫= f).
Proof. intros Hf. by apply calm_then. Qed.

Lemma pays_catch {A} n (p : prog App A) h :
  pays_ok n p -> (forall e, pays_always n (h e)) -> pays_always n (pcatch p h).
Proof.
  intros Hp Hh s0 s Hs Hk. apply wp_catch. eapply wp_mono; [|by apply Hp].
  intros a b [x|e] (Ha & Hb & Hd); [|by apply Hh]. split_and!; auto.
Qed.

(** [if (seq === currentDecryptSeq)]: when it is not, a later opening is responsible. *)
Lemma pays_if_latest P n p : pays_when n P p -> pays_when n P (if_latest n p).
Proof.
  intros Hp s0 s Hs Hk. unfold if_latest, is_latest. cbn [gets mbind prog_bind pbind wp].
  fold (pane_seq s). destruct (pane_seq s =? n) eqn:E; [by apply Hp|]. zbool. split_and!; [done..|].
  intros _. split; [done|]. intros En. by destruct E.
Qed.

Lemma settled_off n s : started n s -> isDecrypting (reading s) = false -> settled n s.
Proof. by split. Qed.

Lemma pays_off n f :
  (forall s, calm s (f s)) -> (forall s, isDecrypting (reading (f s)) = false) -> pays_always n (modify f).
Proof.
  intros Hc Hf s0 s Hs Hk. cbn [modify wp]. assert (Hk' : kept n s (f s)) by (by apply calm_kept).
  split_and!; [by etrans|exact (proj1 Hk' Hs)|]. intros _. apply settled_off; [exact (proj1 Hk' Hs)|done].
Qed.

Lemma pays_show_status n t : pays_always n (show_status t).
Proof. by apply pays_off. Qed.

Lemma pays_open_failed n e : pays_always n (open_failed n e).
Proof.
  apply pays_if_latest. intros s0 s Hs Hk. destruct (storage_error e); cbn [modify skip mbind prog_bind pbind wp].
  - apply (pays_show_status n _ s0 (on_custody _ s)); [done|]. etrans; [exact Hk|]. by apply calm_kept.
  - by apply (pays_show_status n).
Qed.

Lemma pays_open_draft n msg box : pays_ok n (open_draft n msg box).
Proof.
  unfold open_draft. apply calm_then; [done|]. intros s.
  assert (Hl : pays_ok n (if_latest n (show_status draft_locked_text)))
    by (apply pays_if_latest, always_ok, pays_show_status).
  destruct (mailboxKey (custody s)); [|done]. destruct (unlocked_for box s); [|done].
  apply calm_then; [done|]. intros _. apply lift_then. intros pt.
  apply pays_if_latest, always_ok. by apply pays_off.
Qed.

Lemma pays_publish n msg pt : pays_ok n (if_latest n (publish msg pt)).
Proof.
  apply pays_if_latest. unfold publish. apply calm_then; [by intros s; split|]. intros _.
  apply always_ok. by apply pays_off.
Qed.

Lemma calm_modify f s : reading (f s) = reading s -> moves calm s (modify f).
Proof. intros E. split; [|done]. unfold calm, pane_seq. by rewrite E. Qed.

Lemma pays_open_body n msg box : pays_ok n (open_body n msg box).
Proof.
  unfold open_body. apply calm_then; [intros s; apply talks_moves, talks_body_and_attachments|].
  intros rs. cbv zeta. apply pays_if_latest. apply lift_then. intros atts. apply calm_then.
  { intros s. unfold if_latest, is_latest. cbn [gets mbind prog_bind pbind moves].
    destruct (_ =? _); by cbn. }
  intros _. apply calm_then; [done|]. intros s.
  assert (Hl : pays_ok n (if_latest n (show_status message_locked_text)))
    by (apply pays_if_latest, always_ok, pays_show_status).
  destruct (mailboxKey (custody s)) as [key|]; [|done]. destruct (unlocked_for box s); [|done].
  destruct (messageSeq msg) as [sq|]; [|done].
  apply calm_then; [done|]. intros _. apply lift_then. intros input. apply lift_then. intros pt.
  apply calm_then; [intros; by apply calm_modify|]. intros _.
  apply calm_then; [intros; by apply calm_modify|]. intros _.
  apply then_calm; [apply pays_publish|]. intros _ s1. apply moves_bind; [done|]. intros sKey s2.
  destruct (truthy_opt sKey); [|done]. split; [apply talks_moves, talks_index_tokens|done].
Qed.

(** ** The handlers *)

(** [openMessage] after its first write. *)
Definition opening_rest (seq : Z) (msg : DisplayMessage) : prog App unit :=
  _ ← (if read msg then skip
       else
         _ ← on_mail_prog (update_messages (has_id (id msg)) (set_read true));
         tell_server [id msg] (fun box i => setMessageRead box i true));
  box ← gets (fun s => selectedMailbox (custody s));
  match box with
  | None => if_latest seq (show_status no_mailbox_text)
  | Some box =>
      pcatch (if jeqb (folder msg) (js "drafts") then open_draft seq msg box else open_body seq msg box)
             (open_failed seq)
  end.

Definition opening (msg : DisplayMessage) : prog App unit :=
  seq ← gets (fun s => currentDecryptSeq (reading s)); opening_rest seq msg.

Lemma calm_if_latest n p s : moves calm s p -> moves calm s (if_latest n p).
Proof. intros Hp. unfold if_latest, is_latest. cbn [gets mbind prog_bind pbind moves]. by destruct (_ =? _). Qed.

Lemma calm_show_status t s : moves calm s (show_status t).
Proof. by split. Qed.

Lemma calm_lift_bind {A B} (r : outcome A) (f : A -> prog App B) s :
  (forall a, moves calm s (f a)) -> moves calm s (lift r ≫= f).
Proof. intros Hf. rewrite bind_lift. by destruct r. Qed.

Lemma calm_open_draft n msg box s : moves calm s (open_draft n msg box).
Proof.
  unfold open_draft. apply moves_bind; [done|]. intros s0 s1.
  destruct (mailboxKey _); [|apply calm_if_latest, calm_show_status].
  destruct (unlocked_for _ _); [|apply calm_if_latest, calm_show_status].
  apply moves_bind; [done|]. intros _ s2. apply calm_lift_bind. intros pt. apply calm_if_latest. by split.
Qed.

Lemma calm_open_body n msg box s : moves calm s (open_body n msg box).
Proof.
  unfold open_body. apply moves_bind; [apply talks_moves, talks_body_and_attachments|]. intros rs s1. cbv zeta.
  apply calm_if_latest, calm_lift_bind. intros atts.
  apply moves_bind; [by apply calm_if_latest; split|]. intros _ s2. apply moves_bind; [done|]. intros s3 s4.
  assert (Hl : moves calm s4 (if_latest n (show_status message_locked_text)))
    by apply calm_if_latest, calm_show_status.
  destruct (mailboxKey _); [|done]. destruct (unlocked_for _ _); [|done]. destruct (messageSeq msg); [|done].
  apply moves_bind; [done|]. intros _ s5. apply calm_lift_bind. intros input. apply calm_lift_bind. intros pt.
  do 2 (apply moves_bind; [by apply calm_modify|intros]).
  apply moves_bind; [|intros; apply moves_bind; [done|intros]].
  - apply calm_if_latest. unfold publish. apply moves_bind; [by split|]. intros. by split.
  - destruct (truthy_opt _); [|done]. split; [apply talks_moves, talks_index_tokens|done].
Qed.

Lemma calm_opening msg s : moves calm s (opening msg).
Proof.
  unfold opening, opening_rest. apply moves_bind; [done|]. intros n s1. apply moves_bind.
  { destruct (read msg); [done|]. apply moves_bind; [by apply calm_modify|]. intros _ s2.
    apply talks_moves, talks_tell_server. intros. unfold setMessageRead. auto with talks. }
  intros _ s2. apply moves_bind; [done|]. intros [box|] s3; [|apply calm_if_latest, calm_show_status].
  apply moves_catch.
  - destruct (jeqb _ _); [apply calm_open_draft|apply calm_open_body].
  - intros e s4. apply calm_if_latest. apply moves_bind; [|intros; apply calm_show_status].
    destruct (storage_error e); [by apply calm_modify|done].
Qed.

(** A calm prefix that does not throw. *)
Definition smooth {A} (n : Z) (p : prog App A) : Prop :=
  forall s0 s, started n s -> kept n s0 s ->
  wp (kept n) (fun s0 s r => kept n s0 s /\ started n s /\ is_ok r = true) s0 s p.

Lemma smooth_then {A B} n P (p : prog App A) (f : A -> prog App B) :
  smooth n p -> (forall a, pays_when n P (f a)) -> pays_when n P (p ≫= f).
Proof.
  intros Hp Hf s0 s Hs Hk. apply wp_bind. eapply wp_mono; [|by apply Hp].
  intros a b [x|e] (Ha & Hb & E); [by apply Hf|done].
Qed.

Lemma smooth_bind {A B} n (p : prog App A) (f : A -> prog App B) :
  smooth n p -> (forall a, smooth n (f a)) -> smooth n (p ≫= f).
Proof.
  intros Hp Hf s0 s Hs Hk. apply wp_bind. eapply wp_mono; [|by apply Hp].
  intros a b [x|e] (Ha & Hb & E); [by apply Hf|done].
Qed.

Lemma smooth_ret {A} n (a : A) : smooth n (mret a).
Proof. intros s0 s Hs Hk. by split_and!. Qed.

Lemma smooth_gets {A} n (f : App -> A) : smooth n (gets f).
Proof. intros s0 s Hs Hk. by split_and!. Qed.

Lemma smooth_modify n f : (forall s, reading (f s) = reading s) -> smooth n (modify f).
Proof.
  intros E s0 s Hs Hk. assert (Hk' : kept n s (f s)) by (apply calm_kept; unfold calm, pane_seq; by rewrite E).
  cbn [modify wp]. split_and!; [by etrans|exact (proj1 Hk' Hs)|done].
Qed.

Lemma smooth_forget {A} n (p : prog App A) : talks p -> smooth n (forget p).
Proof.
  intros Hp s0 s Hs Hk. unfold forget, spawn. cbn [wp]. split_and!; [done| |].
  - apply (talks_wp (kept n)); [auto with talks|done|]. intros a b r _ Hb. exact Hb.
  - intros s' Hs'. split_and!; [done|exact (proj1 Hs' Hs)|done].
Qed.

Lemma smooth_for_each n ids (p : jstr -> prog App unit) : (forall i, talks (p i)) -> smooth n (for_each ids p).
Proof.
  intros Hp. induction ids as [|i ids IH]; cbn [for_each]; [apply smooth_ret|].
  apply smooth_bind; [by apply smooth_forget|done].
Qed.

Lemma opening_pays msg s : paying started settled (pane_seq s) s (opening msg).
Proof.
  set (n := pane_seq s). unfold paying, opening. cbn [gets mbind prog_bind pbind wp]. fold (pane_seq s) n.
  eapply (wp_mono _ (pays_post n (fun _ => True))); [intros a b r (_ & _ & Hb); auto|].
  enough (Hp : pays_always n (opening_rest n msg)) by (apply Hp; [unfold started; lia|done]).
  unfold opening_rest. apply smooth_then.
  { destruct (read msg); [apply smooth_ret|]. apply smooth_bind; [by apply smooth_modify|]. intros _.
    unfold tell_server. apply smooth_bind; [apply smooth_gets|]. intros s1.
    destruct (selectedMailbox _); [|apply smooth_ret]. apply smooth_for_each. intros i.
    unfold setMessageRead. auto with talks. }
  intros _. apply smooth_then; [apply smooth_gets|]. intros [box|].
  - apply pays_catch; [|apply pays_open_failed]. destruct (jeqb _ _); [apply pays_open_draft|apply pays_open_body].
  - apply pays_if_latest, pays_show_status.
Qed.

Lemma open_solvent msg s : solvent indicator started settled calm s (openMessage msg).
Proof.
  apply (solvent_opens _ _ _ _ _ _ (begin_open msg s) (pane_seq (begin_open msg s)) (opening msg)).
  - done.
  - done.
  - unfold started. lia.
  - apply calm_opening.
  - apply opening_pays.
Qed.

(** The handlers of the list and the reading pane, and loading a mailbox. *)
Inductive desk_handler : prog App unit -> Prop :=
| desk_pane h : pane_handler h -> desk_handler h
| desk_load box : desk_handler (loadMailboxData box).

(** A navigation handler opens a message or does nothing. *)
Lemma navigation_solvent s h (go : bool) i :
  (forall ok, advance ok s h = advance ok s (if go then open_at i (sortedMessages (mail s)) else skip)) ->
  (moves calm s (if go then open_at i (sortedMessages (mail s)) else skip) -> moves calm s h) ->
  solvent indicator started settled calm s h.
Proof.
  intros Ha Hm. destruct go; [|by apply solvent_ordinary, Hm].
  unfold open_at in *. destruct (sortedMessages (mail s) !! _) as [m|]; [|by apply solvent_ordinary, Hm].
  destruct (open_solvent m s) as [Ho|s1 k p Ep Ek Hr Ho Hp]; [by apply solvent_ordinary, Hm|].
  apply (solvent_opens _ _ _ _ _ _ s1 k p); try done. intros ok. by rewrite Ha.
Qed.

Lemma calm_reading s s' : reading s' = reading s -> calm s s'.
Proof. intros E. unfold calm, pane_seq. by rewrite E. Qed.

Lemma desk_solvent h s : desk_handler h -> solvent indicator started settled calm s h.
Proof.
  assert (Hord : forall W h, moves W s h -> (forall s s', W s s' -> reading s' = reading s) ->
    solvent indicator started settled calm s h).
  { intros W h0 Hm HW. apply solvent_ordinary. eapply moves_mono; [|exact Hm]. intros. by apply calm_reading, HW. }
  destruct 1 as [h [h' Hh|m| | | |k| |]|box].
  - eapply Hord; [by apply mail_handler_moves|]. by intros s1 s2 (f & _ & ->).
  - apply open_solvent.
  - apply (navigation_solvent _ _ (0 <? currentMsgIndex (mail s)) (currentMsgIndex (mail s) - 1)); done.
  - apply (navigation_solvent _ _ ((0 <=? currentMsgIndex (mail s)) &&
      (currentMsgIndex (mail s) <? Z.of_nat (length (sortedMessages (mail s))) - 1)) (currentMsgIndex (mail s) + 1)); done.
  - apply solvent_ordinary. by apply calm_modify.
  - apply solvent_ordinary. by apply calm_modify.
  - apply solvent_ordinary. split; [|done]. by split.
  - eapply Hord; [apply moves_search_effect|]. by intros s1 s2 [E _].
  - eapply Hord; [apply moves_loadMailboxData|]. intros s1 s2 Hl. apply Hl.
Qed.

Lemma desk_ledger c c' :
  tasks c = [] -> isDecrypting (reading (state c)) = false -> reachable desk_handler c c' ->
  ledger indicator started settled calm c' /\ (tasks c' = [] -> indicator (state c') = None).
Proof.
  intros E D Hr. apply (debts_paid indicator started settled calm) with (handlers := desk_handler) (c := c);
    eauto using calm_indicator, calm_started, settled_started, settled_indicator, desk_solvent.
  split; rewrite ?E; [done|]. unfold indicator. by rewrite D.
Qed.

(** C6.  Opening a message comes to an end: in every execution of the list, the reading
    pane, locking, search and loading, however they interleave, once no task is pending
    the progress indicator is off - whatever the server answered, whichever decryptions
    failed, and however many other messages were opened meanwhile. *)
Theorem opening_settles c c' :
  tasks c = [] -> isDecrypting (reading (state c)) = false -> reachable desk_handler c c' -> tasks c' = [] ->
  isDecrypting (reading (state c')) = false.
Proof.
  intros E D Hr Ht. destruct (desk_ledger c c' E D Hr) as [_ Hd]. by apply indicator_off, Hd.
Qed.

(** That nothing is pending does come about: handlers are finite trees, so every
    sequence of resumptions ends, and one that goes on until nothing is pending leaves the
    indicator off. *)
Theorem pending_work_ends c c' :
  tasks c = [] -> isDecrypting (reading (state c)) = false -> reachable desk_handler c c' ->
  Acc resumption c' /\
  exists c'', rtc (flip resumption) c' c'' /\ tasks c'' = [] /\ isDecrypting (reading (state c'')) = false.
Proof.
  intros E D Hr. split; [apply resumption_wf|]. destruct (comes_to_rest c') as (c'' & Hc & Ht).
  exists c''. split_and!; [done|done|]. assert (Hr' : reachable desk_handler c c'')
    by (etrans; [exact Hr|by apply resumption_reachable]).
  destruct (desk_ledger c c'' E D Hr') as [_ Hd]. by apply indicator_off, Hd.
Qed.

End Settling.

(** ** Concrete runs *)

#[local] Existing Instances toy_crypto toy_laws ascii_unicode digit_dates sample_env.

(** A letter is opened while another is still being opened. *)
Definition two_openings : config App :=
  wake 0 true letter_replies
    (fire true (openMessage letter) (fire true (openMessage letter) {| state := unlocked_app; tasks := [] |})).

Lemma opening_settles_witness :
  let c := wake 0 true letter_replies (wake 0 true letter_replies two_openings) in
  tasks c = [] /\ isDecrypting (reading (state c)) = false.
Proof.
  split; [vm_compute; reflexivity|].
  apply (opening_settles {| state := unlocked_app; tasks := [] |}).
  - reflexivity.
  - reflexivity.
  - do 2 (eapply fire_reachable; [apply desk_pane, pane_open|]).
    do 3 eapply wake_reachable. apply rtc_refl.
  - vm_compute. reflexivity.
Defined.

Lemma pending_work_ends_witness :
  Acc resumption two_openings /\ (length (tasks two_openings) = 1)%nat.
Proof.
  split; [|vm_compute; reflexivity].
  apply (pending_work_ends {| state := unlocked_app; tasks := [] |}); [reflexivity|reflexivity|].
  do 2 (eapply fire_reachable; [apply desk_pane, pane_open|]). eapply wake_reachable. apply rtc_refl.
Defined.
