(* ===== verification/Shield.v ===== *)
(** * The reading pane

    webmail/src/components/ReadingPane.tsx: how the pane shows the sender and the size and
    kind of an attachment, when it lets a message be answered, and the shield that takes the
    remote images of trackers out of a message before it is displayed. *)

From S2P Require Import Prelude JsString Regexp RegExec Display AppState Reading.

Definition lt_ : Z := 60.
Definition gt_ : Z := 62.
Definition not_gt (u : Z) : bool := negb (u =? gt_).
Definition quote (u : Z) : bool := (u =? 34) || (u =? 39).

(** ** The sender *)

Section Sender.
Context `{Unicode}.

(** [sender.replace(/<.*?>/g, '')] *)
Definition bracketed : rx :=
  RSeq (RChr (Z.eqb lt_)) (RSeq (RMany false (fun u => negb (is_line_terminator u))) (RChr (Z.eqb gt_))).

(** A unit that is not in [[\s._-]]. *)
Definition initial_unit (u : Z) : bool := negb (is_white u || (u =? 46) || (u =? 95) || (u =? 45)).

Definition getSenderInitials (sender : jstr) : jstr :=
  if negb (truthy sender) then js "?"
  else
    let clean := trim (replace_all bracketed (fun _ _ => []) sender) in
    match runs initial_unit clean with
    | p :: q :: _ => toUpperCase (take 1 p ++ take 1 q)
    | _ => or_default (toUpperCase (take 2 clean)) (js "?")
    end.

End Sender.

(** [/<([^>]+)>/] *)
Definition address_regex : rx :=
  RSeq (RChr (Z.eqb lt_)) (RSeq (RGroup (RPlus not_gt)) (RChr (Z.eqb gt_))).

Definition senderEmail (sender : jstr) : jstr := default sender (first_group address_regex sender).

(** [/^([^<]+)/] *)
Definition name_regex : rx := RGroup (RPlus (fun u => negb (u =? lt_))).

Definition senderDisplayName (sender : jstr) : jstr :=
  match exec name_regex sender with
  | Some (_, c) => trim (default [] c)
  | None => sender
  end.

Definition canReply (m : DisplayMessage) (isDecrypting : bool) (decryptedContent : option jstr) : bool :=
  negb (jeqb (folder m) (js "drafts")) && negb isDecrypting
  && match decryptedContent with
     | Some t => negb (starts_with (js "Failed to open") t) && negb (starts_with (js "Mailbox is locked") t)
     | None => false
     end.

(** ** Attachments *)

(** [(bytes / 2 ^ k).toFixed(1)]: the quotient is exact in binary64, and the larger of two
    nearest tenths is taken. *)
Definition tenths (k bytes : Z) : Z := (20 * bytes + 2 ^ k) / 2 ^ (k + 1).

Definition fixed1 (k bytes : Z) : jstr := num (tenths k bytes / 10) ++ js "." ++ num (tenths k bytes mod 10).

Definition formatFileSize (bytes : Z) : jstr :=
  if bytes <? 1024 then num bytes ++ js " B"
  else if bytes <? 1024 * 1024 then fixed1 10 bytes ++ js " KB"
  else fixed1 20 bytes ++ js " MB".

Section Attachments.
Context `{Unicode}.

(** The label; style and icon follow it. *)
Definition getAttachmentTypeInfo (filename contentType : jstr) : jstr :=
  let ext := toLowerCase (extension filename) in
  let ct := toLowerCase contentType in
  let is_in exts := bool_decide (ext ∈ map js exts) in
  let has s := includes ct (js s) in
  if jeqb ext (js "pdf") || has "pdf"%string then js "PDF"
  else if is_in ["png"; "jpg"; "jpeg"; "gif"; "webp"; "svg"; "bmp"; "ico"]%string || starts_with (js "image/") ct
  then js "IMG"
  else if is_in ["xlsx"; "xls"; "csv"; "tsv"; "ods"]%string || has "spreadsheet"%string || has "csv"%string
          || has "excel"%string
  then js "SHEET"
  else if is_in ["doc"; "docx"; "txt"; "rtf"; "odt"; "md"]%string || has "word"%string || starts_with (js "text/") ct
  then js "DOC"
  else if is_in ["zip"; "tar"; "gz"; "7z"; "rar"; "bz2"; "xz"]%string || has "zip"%string || has "tar"%string
          || has "compressed"%string || has "archive"%string
  then js "ZIP"
  else if truthy ext then take 4 (toUpperCase ext) else js "FILE".

End Attachments.

(** ** The shield *)

(** A unit of a source: no quotation mark, white space or closing bracket. *)
Definition src_unit (u : Z) : bool := negb (quote u || is_white u || (u =? gt_)).

Definition img_head : rx :=
  RSeq (rlit "<img") (RSeq (RPlus is_white) (RSeq (RMany false not_gt) (RSeq (rlit "src=") (ROpt (RChr quote))))).
Definition img_src : rx :=
  RSeq (rlit "http") (RSeq (ROpt (rlit "s")) (RSeq (rlit "://") (RPlus src_unit))).
Definition img_tail : rx := RSeq (ROpt (RChr quote)) (RSeq (RMany false not_gt) (RChr (Z.eqb gt_))).

Definition imgRegex : rx := RSeq img_head (RSeq (RGroup img_src) img_tail).

Definition side_regex (side : string) : rx :=
  RSeq (rlit side) (RSeq (ROpt (RChr quote)) (RSeq (ROneOf [rlit "0"; rlit "1"]) (ROpt (RChr quote)))).

Definition isTiny (m : jstr) : bool := test (side_regex "width=") m && test (side_regex "height=") m.

Definition isHidden (m : jstr) : bool :=
  test (RSeq (rlit "display:") (RSeq (RMany true is_white) (rlit "none"))) m
  || test (RSeq (rlit "visibility:") (RSeq (RMany true is_white) (rlit "hidden"))) m
  || test (RSeq (rlit "width:") (RSeq (RMany true is_white) (RSeq (ROneOf [rlit "0"; rlit "1"]) (rlit "px")))) m.

Definition tracker_words : list string :=
  ["track"; "pixel"; "open"; "beacon"; "wf/open"; "mandrillapp"; "mailfoogae"; "sidekick"; "hubspot"; "sendgrid";
   "convertkit"; "/v1/track"]%string.

Definition isTrackerUrl (src : jstr) : bool := test (ROneOf (map rlit tracker_words)) src.

Definition is_tracker (m src : jstr) : bool := isTiny m || isHidden m || isTrackerUrl src.

Definition blocked (src : jstr) : jstr := js "<!-- [BYOS Shield: Blocked Tracker: " ++ src ++ js "] -->".

Record TrackerInfo := { ti_count : Z; ti_urls : list jstr; ti_sanitized : jstr }.

(** One call of the replacer, on the variables it closes over, and the text put in place. *)
Definition replacer (allowRemoteImages : bool) (acc : TrackerInfo) (p : piece) : TrackerInfo :=
  match p with
  | Plain u => {| ti_count := ti_count acc; ti_urls := ti_urls acc; ti_sanitized := ti_sanitized acc ++ [u] |}
  | Hit m c =>
      let src := default [] c in
      let put t := {| ti_count := ti_count acc; ti_urls := ti_urls acc; ti_sanitized := ti_sanitized acc ++ t |} in
      if is_tracker m src then
        {| ti_count := ti_count acc + 1;
           ti_urls := if bool_decide (src ∈ ti_urls acc) then ti_urls acc else ti_urls acc ++ [src];
           ti_sanitized := ti_sanitized acc ++ (if allowRemoteImages then m else blocked src) |}
      else put m
  end.

Definition trackerInfo (allowRemoteImages : bool) (decryptedContent : option jstr) : TrackerInfo :=
  let text := default [] decryptedContent in
  let none := {| ti_count := 0; ti_urls := []; ti_sanitized := [] |} in
  if negb (truthy text) then none
  else fold_left (replacer allowRemoteImages) (scan imgRegex text) none.

(** [/<[a-z][\s\S]*>/i.test(text)]: the message is shown as HTML. *)
Definition shown_as_html (text : jstr) : bool :=
  test (RSeq (RChr (Z.eqb lt_)) (RSeq (RChr (fun u => (97 <=? ascii_lower u) && (ascii_lower u <=? 122)))
         (RSeq (RMany true (fun _ => true)) (RChr (Z.eqb gt_))))) text.

(** ** The pane

    It is mounted while a message is selected ([<Show when={selectedMsg()}>]): going from one
    message to the next keeps it, and its signals with it. *)

Record Pane := {
  detailsOpen : bool;
  moveMenuOpen : bool;
  labelMenuOpen : bool;
  moreMenuOpen : bool;
  allowRemoteImages : bool;
  showTrackerDetails : bool;
}.

Definition mounted : Pane :=
  {| detailsOpen := false; moveMenuOpen := false; labelMenuOpen := false; moreMenuOpen := false;
     allowRemoteImages := false; showTrackerDetails := false |}.

Definition handleClickOutside (x : Pane) : Pane :=
  {| detailsOpen := detailsOpen x; moveMenuOpen := false; labelMenuOpen := false; moreMenuOpen := false;
     allowRemoteImages := allowRemoteImages x; showTrackerDetails := showTrackerDetails x |}.

Definition toggle_details (x : Pane) : Pane :=
  {| detailsOpen := detailsOpen x; moveMenuOpen := moveMenuOpen x; labelMenuOpen := labelMenuOpen x;
     moreMenuOpen := moreMenuOpen x; allowRemoteImages := allowRemoteImages x;
     showTrackerDetails := negb (showTrackerDetails x) |}.

Definition allow_images (x : Pane) : Pane :=
  {| detailsOpen := detailsOpen x; moveMenuOpen := moveMenuOpen x; labelMenuOpen := labelMenuOpen x;
     moreMenuOpen := moreMenuOpen x; allowRemoteImages := true; showTrackerDetails := showTrackerDetails x |}.

(** [setSelectedMsg], as far as the pane sees it. *)
Definition select {A} (selected : option A) (x : option Pane) : option Pane :=
  match selected with None => None | Some _ => Some (default mounted x) end.

Inductive Shown := AsHtml (s : jstr) | AsText (s : jstr) | Nothing.

(** What stands in the pane; [sanitize] is DOMPurify's. *)
Definition body (sanitize : jstr -> jstr) (x : Pane) (isDecrypting : bool) (decryptedContent : option jstr) : Shown :=
  let text := default [] decryptedContent in
  if negb isDecrypting && truthy text then
    if shown_as_html text
    then AsHtml (sanitize (ti_sanitized (trackerInfo (allowRemoteImages x) decryptedContent)))
    else AsText text
  else Nothing.

(** ** The shape of what the expression matches *)

Definition img_body : rx :=
  RSeq img_head (RSeq (RGroup img_src) (RSeq (ROpt (RChr quote)) (RMany false not_gt))).

Lemma exec_body s : exec imgRegex s = exec (RSeq img_body (RChr (Z.eqb gt_))) s.
Proof. reflexivity. Qed.

Lemma body_within : within not_gt img_body.
Proof.
  assert (Hw : forall u, is_white u = true -> not_gt u = true) by (intros u; unfold not_gt; by destruct (Z.eqb_spec u gt_) as [->|]).
  assert (Hq : forall u, quote u = true -> not_gt u = true) by (intros u; unfold not_gt; by destruct (Z.eqb_spec u gt_) as [->|]).
  assert (Hs : forall u, src_unit u = true -> not_gt u = true) by (intros u; unfold not_gt; by destruct (Z.eqb_spec u gt_) as [->|]).
  unfold img_body, img_head, img_src. cbn [within ROpt RPlus].
  split_and!; try done; try (apply word_within; reflexivity).
Qed.

Lemma src_within : within src_unit img_src.
Proof.
  unfold img_src. cbn [within ROpt RPlus]. split_and!; try done; try (apply word_within; reflexivity).
Qed.

(** All that matches is the body and the closing bracket. *)
Lemma lang_img_end a y z :
  lang (re_of img_head) a -> lang (re_of img_src) y -> lang (re_of img_tail) z ->
  exists m, a ++ y ++ z = m ++ [gt_] /\ forallb not_gt m = true.
Proof.
  intros Ha Hy Hz. unfold img_tail in Hz. cbn [re_of] in Hz. apply lang_seq_iff in Hz as (q & z' & -> & Hq & Hz).
  apply lang_seq_iff in Hz as (b & e & -> & Hb & He). apply lang_chr_iff in He as (u & -> & Hu). apply Z.eqb_eq in Hu as <-.
  exists (a ++ y ++ q ++ b). split; [by rewrite <- !app_assoc|]. apply (within_lang _ _ _ body_within).
  unfold img_body. cbn [re_of]. constructor; [done|]. constructor; [done|]. by constructor.
Qed.

(** A hit ends at the first closing bracket, and its source is made of source units. *)
Lemma exec_hit s rest c :
  exec imgRegex s = Some (rest, c) ->
  exists m y, s = (m ++ [gt_]) ++ rest /\ forallb not_gt m = true /\ c = Some y /\ forallb src_unit y = true
              /\ lang (re_of imgRegex) (m ++ [gt_]).
Proof.
  intros E. destruct (exec_group img_head img_src img_tail s rest c eq_refl eq_refl eq_refl E) as (x & y & z & Es & -> & Hx & Hy & Hz).
  destruct (lang_img_end _ _ _ Hx Hy Hz) as (m & Em & Hm). exists m, y.
  split_and!; [by rewrite <- Em, Es, <- !app_assoc|done|done|by apply (within_lang _ _ _ src_within)|].
  rewrite <- Em. unfold imgRegex. cbn [re_of]. constructor; [done|]. by constructor.
Qed.

Lemma exec_moves s rest c : exec imgRegex s = Some (rest, c) -> rest <> s.
Proof. intros (m & y & -> & _)%exec_hit Er. apply (f_equal length) in Er. rewrite !length_app in Er. cbn in Er. lia. Qed.

(** The hit does not depend on what follows it. *)
Lemma hit_local m rest c t :
  forallb not_gt m = true -> exec imgRegex ((m ++ [gt_]) ++ rest) = Some (rest, c) ->
  exec imgRegex ((m ++ [gt_]) ++ t) = Some (t, c).
Proof.
  rewrite !exec_body, <- !app_assoc. intros Hm. apply exec_local; [exact body_within|exact Hm].
Qed.

(** What matches begins with the name of the element and white space. *)
Definition opens (i : jstr) (w : Z) : Prop := map ascii_lower i = js "<img" /\ is_white w = true.

Lemma lang_img_head x :
  lang (re_of imgRegex) x -> exists i w z, opens i w /\ x = i ++ w :: z /\ exists y, z = y ++ [gt_] /\ forallb not_gt y = true.
Proof.
  intros Hx. assert (He : exists m, x = m ++ [gt_] /\ forallb not_gt m = true).
  { unfold imgRegex in Hx. cbn [re_of] in Hx. apply lang_seq_iff in Hx as (a & b & -> & Ha & Hb).
    apply lang_seq_iff in Hb as (y & z & -> & Hy & Hz). by apply lang_img_end. }
  destruct He as (m & -> & Hm). unfold imgRegex, img_head in Hx. cbn [re_of RPlus] in Hx.
  apply lang_seq_iff in Hx as (a & b & Ex & Ha & _). apply lang_seq_iff in Ha as (i & a' & -> & Hi & Ha).
  apply lang_seq_iff in Ha as (ws & a'' & -> & Hws & _). apply lang_seq_iff in Hws as (w1 & w2 & -> & Hw & _).
  apply lang_chr_iff in Hw as (w & -> & Hw). apply word_lang in Hi.
  exists i, w, (w2 ++ a'' ++ b). split; [by split|]. rewrite <- !app_assoc in Ex. cbn [app] in Ex. split; [done|].
  destruct (exists_last (l := w2 ++ a'' ++ b)) as (y & u & Ey).
  { intros E0. rewrite E0 in Ex. apply app_inj_tail in Ex as [_ <-]. done. }
  rewrite Ey in *. exists y. change (w :: y ++ [u]) with ((w :: y) ++ [u]) in Ex. rewrite app_assoc in Ex.
  apply app_inj_tail in Ex as [-> <-]. split; [done|]. rewrite forallb_app in Hm. cbn [forallb] in Hm.
  by apply andb_true_iff in Hm as [_ [_ Hm]%andb_true_iff].
Qed.

(** Attributes may precede what matches. *)
Lemma lang_img_extend i w z m :
  opens i w -> forallb not_gt z = true -> lang (re_of imgRegex) m -> lang (re_of imgRegex) (i ++ w :: z ++ m).
Proof.
  intros [Hi Hw] Hz Hm. unfold imgRegex, img_head in *. cbn [re_of RPlus] in *.
  apply lang_seq_iff in Hm as (h & tl & -> & Hh & Htl). apply lang_seq_iff in Hh as (a & h' & -> & Ha & Hh).
  apply lang_seq_iff in Hh as (b & h'' & -> & Hb & Hh). apply lang_seq_iff in Hh as (s & q & -> & Hs & Hq).
  replace (i ++ w :: z ++ (a ++ b ++ s ++ q) ++ tl) with ((i ++ [w] ++ (z ++ a ++ b ++ s) ++ q) ++ tl)
    by (rewrite <- !app_assoc; done).
  constructor; [|done]. constructor; [by apply word_lang|]. constructor.
  { rewrite <- (app_nil_r [w]). constructor; [by constructor|by apply lang_star_chr]. }
  constructor; [|done]. apply lang_star_chr. apply lang_star_chr in Hs. rewrite !forallb_app, Hz, Hs, !andb_true_r. cbn [andb].
  apply andb_true_iff. split.
  - eapply (within_lang not_gt (RWord (js "<img"))); [apply word_within; reflexivity|exact Ha].
  - eapply (within_lang not_gt (RPlus is_white)); [|exact Hb].
    cbn [within RPlus]. split; intros u; unfold not_gt; by destruct (Z.eqb_spec u gt_) as [->|].
Qed.

(** ** What the shield puts in place *)

Lemma js_img_units i : map ascii_lower i = js "<img" -> exists a b c d, i = [a; b; c; d] /\
  ascii_lower a = 60 /\ ascii_lower b = 105 /\ ascii_lower c = 109 /\ ascii_lower d = 103.
Proof.
  destruct i as [|a [|b [|c [|d [|e i]]]]]; try done. cbn [map]. intros E. apply (f_equal (fun l => l)) in E.
  injection E as Ha Hb Hc Hd. by exists a, b, c, d.
Qed.

(** Where the text does not go on as an image does, there is no hit. *)
Lemma no_hit s :
  (forall a b c d w t, s = a :: b :: c :: d :: w :: t -> ascii_lower a = 60 -> ascii_lower b = 105 ->
     ascii_lower c = 109 -> ascii_lower d = 103 -> is_white w = true -> False) ->
  exec imgRegex s = None.
Proof.
  intros Hno. destruct (exec imgRegex s) as [[rest c]|] eqn:E; [exfalso|done].
  apply exec_hit in E as (m & y & -> & _ & _ & _ & Hl). apply lang_img_head in Hl as (i & w & z & [Hi Hw] & Em & _).
  apply js_img_units in Hi as (a & b & c' & d & -> & Ha & Hb & Hc & Hd).
  eapply (Hno a b c' d w (z ++ rest)); try done. by rewrite Em.
Qed.

Lemma src_no_hit v t : forallb src_unit v = true -> exec imgRegex (v ++ js "] -->" ++ t) = None.
Proof.
  intros Hv. apply no_hit. intros a b c d w t' E Ha Hb Hc Hd Hw.
  assert (Hsrc : forall u, src_unit u = true -> is_white u = false).
  { intros u. unfold src_unit. destruct (is_white u); [by rewrite orb_true_r|done]. }
  destruct v as [|a' [|b' [|c' [|d' [|w' v]]]]]; cbn [app js] in E; injection E; intros; subst; try done.
  cbn [forallb] in Hv. rewrite !andb_true_iff in Hv. destruct Hv as (_ & _ & _ & _ & Hw' & _).
  apply Hsrc in Hw'. congruence.
Qed.

Definition banner : jstr := js "<!-- [BYOS Shield: Blocked Tracker: ".

Lemma plain_no_hit v t : v <> [] -> forallb (fun u => negb (u =? lt_)) v = true -> exec imgRegex (v ++ t) = None.
Proof.
  destruct v as [|u v]; [done|]. intros _ [Hu _]%andb_true_iff. apply no_hit. intros a b c d w t' [= -> _] Ha. exfalso.
  revert Ha Hu. unfold ascii_lower, lt_. split_ifs; zbool; lia.
Qed.

Lemma forallb_suffix {A} (p : A -> bool) a b l : l = a ++ b -> forallb p l = true -> forallb p b = true.
Proof. intros ->. rewrite forallb_app. by intros [_ Hb]%andb_true_iff. Qed.

Lemma blocked_no_hit src v1 v2 t :
  forallb src_unit src = true -> blocked src = v1 ++ v2 -> v2 <> [] -> exec imgRegex (v2 ++ t) = None.
Proof.
  intros Hs E Hne. change (blocked src) with (banner ++ src ++ js "] -->") in E.
  apply app_eq_inv in E as [(k & Ek & ->)|(k & -> & Ek)].
  - destruct k as [|u k]; [by rewrite app_nil_l, <- app_assoc; apply src_no_hit|].
    destruct v1 as [|u0 v1]; [cbn [app] in Ek; rewrite <- Ek; apply no_hit; intros a b c d w t' [= _ <-]; done|].
    rewrite <- app_assoc. apply plain_no_hit; [done|]. apply (forallb_suffix _ v1 _ (tail banner)); [by rewrite Ek|reflexivity].
  - apply app_eq_inv in Ek as [(k' & -> & ->)|(k' & -> & Ek)].
    + rewrite <- app_assoc. apply src_no_hit. by apply (forallb_suffix _ k _ _ eq_refl).
    + apply plain_no_hit; [done|]. by apply (forallb_suffix _ k' _ (js "] -->")); [|reflexivity].
Qed.

(** ** The sanitized text *)

Definition put (allow : bool) (p : piece) : jstr :=
  match p with
  | Plain u => [u]
  | Hit m c => if is_tracker m (default [] c) then if allow then m else blocked (default [] c) else m
  end.

Definition tracker_piece (p : piece) : bool :=
  match p with Plain _ => false | Hit m c => is_tracker m (default [] c) end.

Definition san (s : jstr) : jstr := concat (map (put false) (scan imgRegex s)).

Lemma san_plain u s : exec imgRegex (u :: s) = None -> san (u :: s) = u :: san s.
Proof. intros E. unfold san. by rewrite scan_plain. Qed.

Lemma san_hit m rest c :
  exec imgRegex ((m ++ [gt_]) ++ rest) = Some (rest, c) ->
  san ((m ++ [gt_]) ++ rest) = put false (Hit (m ++ [gt_]) c) ++ san rest.
Proof. intros E. unfold san. rewrite (scan_hit _ _ _ _ (m ++ [gt_]) E); [done|done|by destruct m]. Qed.

Lemma text_ind (P : jstr -> Prop) :
  P [] ->
  (forall u s, exec imgRegex (u :: s) = None -> P s -> P (u :: s)) ->
  (forall m rest y, forallb not_gt m = true -> forallb src_unit y = true -> lang (re_of imgRegex) (m ++ [gt_]) ->
     exec imgRegex ((m ++ [gt_]) ++ rest) = Some (rest, Some y) -> P rest -> P ((m ++ [gt_]) ++ rest)) ->
  forall s, P s.
Proof.
  intros H0 Hu Hm. apply (scan_ind imgRegex); [done|done| |apply exec_moves].
  intros m rest c _ E IH. destruct (exec_hit _ _ _ E) as (m' & y & Es & Hm' & -> & Hy & Hl).
  rewrite Es in *. by apply (Hm m' rest y).
Qed.

Lemma first_gt m m' s t :
  forallb not_gt m = true -> forallb not_gt m' = true -> m ++ gt_ :: s = m' ++ gt_ :: t -> m = m' /\ s = t.
Proof.
  revert m'. induction m as [|u m IH]; intros [|u' m']; cbn [app forallb]; intros Hm Hm' E.
  - by injection E.
  - injection E as <- _. done.
  - injection E as -> _. done.
  - injection E as -> E. apply andb_true_iff in Hm as [_ Hm], Hm' as [_ Hm'].
    destruct (IH m' Hm Hm' E) as [-> ->]. done.
Qed.

(** Up to its first closing bracket the sanitized text is the original one, or a
    tracker has been blocked before that bracket. *)
Lemma san_front s : forall y t,
  san s = y ++ gt_ :: t -> forallb not_gt y = true ->
  (exists t', s = y ++ gt_ :: t') \/
  (exists y1 y2 m rest, s = y1 ++ m ++ rest /\ lang (re_of imgRegex) m /\ y ++ gt_ :: t = y1 ++ 60 :: 33 :: y2
                        /\ forallb not_gt y1 = true).
Proof.
  induction s as [|u s E IH|m rest src Hm Hsrc Hl E IH] using text_ind; intros y t Hs Hy.
  - by destruct y.
  - rewrite san_plain in Hs by done. destruct y as [|v y]; cbn [app] in Hs; injection Hs as -> Hs.
    + left. by exists s.
    + cbn [forallb] in Hy. apply andb_true_iff in Hy as [Hv Hy].
      destruct (IH y t Hs Hy) as [[t' ->]|(y1 & y2 & m & rest & -> & Hl & Ey & Hy1)]; [left; by exists t'|].
      right. exists (v :: y1), y2, m, rest. cbn [app forallb]. by rewrite Ey, Hv.
  - rewrite (san_hit _ _ _ E) in Hs. cbn [put default] in Hs. destruct (is_tracker _ _).
    + right. exists [], (drop 2 (blocked src) ++ san rest), (m ++ [gt_]), rest. split_and!; [done|done| |done].
      by rewrite <- Hs.
    + left. rewrite <- app_assoc in Hs. cbn [app] in Hs. apply first_gt in Hs as [-> _]; [|done|done].
      exists rest. by rewrite <- app_assoc.
Qed.

(** Where the text has no hit, neither has the sanitized one. *)
Lemma san_no_hit u s : exec imgRegex (u :: s) = None -> exec imgRegex (u :: san s) = None.
Proof.
  intros E. destruct (exec imgRegex (u :: san s)) as [[rest c]|] eqn:E'; [exfalso|done].
  apply exec_hit in E' as (x & src & Ex & _ & _ & _ & Hl).
  assert (Hno : forall x rest, u :: s = x ++ rest -> lang (re_of imgRegex) x -> False).
  { intros x' r Er Hx. destruct (proj2 (exec_lang imgRegex (u :: s))) as [v Ev]; [by exists x', r|]. congruence. }
  destruct (lang_img_head _ Hl) as (i & w & z & [Hi Hw] & Em & y & -> & Hy).
  pose proof Hi as Hi'. apply js_img_units in Hi' as (a & b & c' & d & -> & Ha & Hb & Hc & Hd).
  rewrite Em in *. cbn [app] in Ex. rewrite <- app_assoc in Ex. injection Ex as -> Ex. cbn [app] in Ex.
  destruct (san_front s (b :: c' :: d :: w :: y) rest) as [[t' ->]|(y1 & y2 & m & r & -> & Hm & Ey & Hy1)].
  - exact Ex.
  - cbn [forallb]. rewrite Hy, andb_true_r. unfold not_gt, gt_.
    rewrite !andb_true_iff, !negb_true_iff. split_and!; apply Z.eqb_neq; intros ->; done.
  - apply (Hno (a :: b :: c' :: d :: w :: y ++ [gt_]) t'); [|exact Hl]. cbn [app]. by rewrite <- app_assoc.
  - cbn [app] in Ey. destruct y1 as [|b1 [|c1 [|d1 [|w1 y1]]]]; cbn [app] in Ey; injection Ey; intros; subst; try done.
    cbn [forallb] in Hy1. rewrite !andb_true_iff in Hy1. destruct Hy1 as (_ & _ & _ & _ & Hy1).
    apply (Hno ([a; b1; c1; d1] ++ w1 :: y1 ++ m) r); [cbn [app]; by rewrite <- app_assoc|]. apply lang_img_extend; [done|done|done].
Qed.

Lemma san_clean s : forallb (fun p => negb (tracker_piece p)) (scan imgRegex (san s)) = true.
Proof.
  induction s as [|u s E IH|m rest src Hm Hsrc Hl E IH] using text_ind; [done| |].
  - rewrite san_plain, scan_plain by (try done; by apply san_no_hit). done.
  - rewrite (san_hit _ _ _ E). cbn [put default]. destruct (is_tracker _ _) eqn:Et.
    + rewrite scan_plains, forallb_app, IH, andb_true_r.
      * rewrite forallb_forall. by intros p (v & <- & _)%in_map_iff.
      * intros v1 v2 Ev. by apply (blocked_no_hit src v1).
    + rewrite (scan_hit _ _ (san rest) (Some src) (m ++ [gt_])); [|by apply (hit_local m rest)|done|by destruct m].
      cbn [forallb tracker_piece default]. by rewrite Et, IH.
Qed.

Lemma clean_put ps : forallb (fun p => negb (tracker_piece p)) ps = true -> forall allow, map (put allow) ps = map piece_text ps.
Proof.
  intros Hps allow. apply map_ext_in. intros p Hp. eapply forallb_forall in Hp; [|exact Hps]. destruct p as [u|m c]; [done|].
  cbn in *. by destruct (is_tracker _ _).
Qed.

Lemma scan_text s : concat (map piece_text (scan imgRegex s)) = s.
Proof.
  induction s as [|u s E IH|m rest src Hm Hsrc Hl E IH] using text_ind; [done| |].
  - rewrite scan_plain by done. cbn. by rewrite IH.
  - rewrite (scan_hit _ _ _ _ (m ++ [gt_]) E) by (try done; by destruct m). cbn [map concat piece_text]. by rewrite IH.
Qed.

(** ** The loop over the hits *)

Definition sources (ps : list piece) : list jstr :=
  uniq (omap (fun p => match p with Plain _ => None | Hit m c => if is_tracker m (default [] c) then c else None end) ps).

Lemma fold_replacer allow ps acc :
  fold_left (replacer allow) ps acc =
    {| ti_count := ti_count acc + Z.of_nat (length (List.filter tracker_piece ps));
       ti_urls := ti_urls (fold_left (replacer allow) ps acc);
       ti_sanitized := ti_sanitized acc ++ concat (map (put allow) ps) |}.
Proof.
  revert acc. induction ps as [|p ps IH]; intros acc; cbn [fold_left List.filter map concat].
  - destruct acc; cbn. by rewrite Z.add_0_r, app_nil_r.
  - rewrite IH. destruct p as [u|m c]; cbn [replacer tracker_piece put]; [|destruct (is_tracker _ _)];
      cbn [ti_count ti_urls ti_sanitized]; rewrite <- !app_assoc; f_equal; cbn [length]; lia.
Qed.

Lemma replacer_clean allow ps acc :
  forallb (fun p => negb (tracker_piece p)) ps = true -> ti_urls (fold_left (replacer allow) ps acc) = ti_urls acc.
Proof.
  revert acc. induction ps as [|p ps IH]; intros acc; cbn [forallb fold_left]; [done|].
  intros [Hp Hps]%andb_true_iff. rewrite IH by done. destruct p as [u|m c]; [done|]. cbn [replacer tracker_piece] in *.
  by destruct (is_tracker _ _).
Qed.

Lemma replacer_NoDup allow ps acc : NoDup (ti_urls acc) -> NoDup (ti_urls (fold_left (replacer allow) ps acc)).
Proof.
  revert acc. induction ps as [|p ps IH]; intros acc Hacc; cbn [fold_left]; [done|]. apply IH.
  destruct p as [u|m c]; [done|]. cbn [replacer]. destruct (is_tracker _ _); [|done]. cbn [ti_urls].
  case_bool_decide; [done|]. apply NoDup_app. split_and!; [done|set_solver|apply NoDup_singleton].
Qed.

Lemma trackerInfo_spec allow content :
  ti_sanitized (trackerInfo allow content) = concat (map (put allow) (scan imgRegex (default [] content))) /\
  ti_count (trackerInfo allow content) = Z.of_nat (length (List.filter tracker_piece (scan imgRegex (default [] content)))).
Proof.
  unfold trackerInfo. destruct (default [] content) as [|u s]; [done|]. cbn [truthy negb]. rewrite fold_replacer. done.
Qed.

Lemma nil_filter {A} (p : A -> bool) l : List.filter p l = [] <-> forallb (fun x => negb (p x)) l = true.
Proof. induction l as [|x l IH]; cbn; [done|]. destruct (p x); cbn; [done|exact IH]. Qed.

Lemma allowed_text content : ti_sanitized (trackerInfo true (Some content)) = content.
Proof.
  rewrite (proj1 (trackerInfo_spec _ _)). cbn [default]. rewrite <- (scan_text content) at 2. f_equal. apply map_ext.
  intros [u|m c]; cbn; [done|]. by destruct (is_tracker _ _).
Qed.

(** ** Theorems *)

(** C5. The tracker shield reaches a fixed point: in the text it puts on display no image
    is recognised as a tracker any more, whatever the message is, so scanning it again
    blocks nothing and changes nothing; each address is reported once; a message without
    a recognised tracker is displayed as it came, and so is every message once its reader
    has allowed remote images, with the same number of trackers reported. *)
Theorem shield_leaves_no_tracker (content : jstr) :
  let info := trackerInfo false (Some content) in
  trackerInfo false (Some (ti_sanitized info)) = {| ti_count := 0; ti_urls := []; ti_sanitized := ti_sanitized info |} /\
  NoDup (ti_urls info) /\
  (ti_count info = 0 -> ti_sanitized info = content) /\
  ti_sanitized (trackerInfo true (Some content)) = content /\
  ti_count (trackerInfo true (Some content)) = ti_count info.
Proof.
  intros info. assert (Ei : ti_sanitized info = san content) by apply trackerInfo_spec. split_and!.
  - rewrite Ei. unfold trackerInfo. cbn [default]. pose proof (san_clean content) as Hc.
    pose proof (scan_text (san content)) as Ht. destruct (san content) as [|u s] eqn:Es; [done|]. cbn [truthy negb].
    rewrite <- Es in *. rewrite fold_replacer, replacer_clean by done. cbn [ti_count ti_urls ti_sanitized].
    unfold Datatypes.id. rewrite (proj2 (nil_filter tracker_piece _) Hc), clean_put, Ht by done. by rewrite Es.
  - unfold info, trackerInfo. destruct (negb _); [apply NoDup_nil_2|]. apply replacer_NoDup, NoDup_nil_2.
  - unfold info. rewrite (proj2 (trackerInfo_spec _ _)), (proj1 (trackerInfo_spec _ _)). cbn [default]. intros Hc.
    rewrite clean_put; [apply scan_text|]. apply nil_filter. apply nil_length_inv. lia.
  - apply allowed_text.
  - unfold info. by rewrite !(proj2 (trackerInfo_spec _ _)).
Qed.

Definition tracked : jstr :=
  js "<p>Hi</p><IMG width=600 src='https://cdn.example/logo.png'><img src=https://t.example/open?u=7 width=1>".

Lemma shield_leaves_no_tracker_witness :
  ti_count (trackerInfo false (Some tracked)) = 1 /\
  ti_sanitized (trackerInfo true (Some tracked)) = tracked /\
  ti_sanitized (trackerInfo false (Some (js "<img src=https://cdn.example/a.png>"))) = js "<img src=https://cdn.example/a.png>".
Proof.
  split_and!; [reflexivity|apply (shield_leaves_no_tracker tracked)|].
  destruct (shield_leaves_no_tracker (js "<img src=https://cdn.example/a.png>")) as (_ & _ & Hplain & _).
  apply Hplain. reflexivity.
Defined.

(** The expression asks for white space after the name of the element and none around the
    equals sign: browsers load both of these images, and the shield sees neither. *)
Example shield_evaded :
  ti_count (trackerInfo false (Some (js "<img/src='https://t.example/pixel'>"))) = 0 /\
  ti_count (trackerInfo false (Some (js "<img width=1 height=1 src = 'https://t.example/pixel'>"))) = 0.
Proof. split; reflexivity. Qed.

(** The permission to load remote images is the pane's, not the message's: given for one
    message, it holds for the next ones too, until the pane is closed. *)
Theorem permission_carries_over (sanitize : jstr -> jstr) (x : Pane) (next : DisplayMessage) (content : jstr) :
  shown_as_html content = true ->
  (exists y, select (Some next) (Some (allow_images x)) = Some y /\
     body sanitize y false (Some content) = AsHtml (sanitize content)) /\
  select (Some next) (select (A := DisplayMessage) None (Some (allow_images x))) = Some mounted.
Proof.
  intros Hh. split; [|done]. exists (allow_images x). split; [done|]. unfold body. destruct content as [|u s]; [done|].
  cbn [default truthy negb andb allowRemoteImages allow_images].
  unfold Datatypes.id. cbn [truthy negb andb]. by rewrite Hh, allowed_text.
Qed.

(** ** The sender, and answering *)

Lemma no_address s : forallb (fun u => negb (u =? lt_)) s = true -> forall t, first_group address_regex (s ++ t) = first_group address_regex t.
Proof.
  intros Hs t. induction s as [|u s IH]; [done|]. cbn [forallb] in Hs. apply andb_true_iff in Hs as [Hu Hs].
  cbn [app first_group]. unfold address_regex at 1, exec. cbn [step]. rewrite Z.eqb_sym. apply negb_true_iff in Hu as ->. by apply IH.
Qed.

Lemma an_address a : a <> [] -> forallb not_gt a = true -> first_group address_regex ([lt_] ++ a ++ [gt_]) = Some a.
Proof.
  intros Ha Hg. destruct a as [|u a]; [done|]. cbn [forallb] in Hg. apply andb_true_iff in Hg as [Hu Hg].
  cbn [app first_group]. unfold address_regex at 1, exec, RPlus. cbn [step]. rewrite Z.eqb_refl, Hu.
  rewrite (greedy_all _ _ a [gt_] ([], Some (u :: a))); [done|done|done|]. cbn [app length].
  replace (S (length (a ++ [gt_])) - 1)%nat with (S (length a)) by (rewrite length_app; cbn; lia).
  cbn [take]. by rewrite take_app_length.
Qed.

Lemma a_name n t :
  n <> [] -> forallb (fun u => negb (u =? lt_)) n = true -> match t with [] => True | u :: _ => u = lt_ end ->
  exec name_regex (n ++ t) = Some (t, Some n).
Proof.
  intros Hn Hp Ht. destruct n as [|u n]; [done|]. cbn [forallb] in Hp. apply andb_true_iff in Hp as [Hu Hp].
  unfold name_regex, exec, RPlus. cbn [step app]. rewrite Hu.
  apply greedy_all; [done|destruct t as [|v t]; [done|by rewrite Ht]|]. do 2 f_equal. f_equal. cbn [length]. rewrite length_app.
  replace (S _ - _)%nat with (S (length n)) by lia. cbn [take]. by rewrite take_app_length.
Qed.

(** A sender written as a name and an address in angle brackets is taken apart as it was
    put together: the pane shows the trimmed name and the bare address.  A sender without
    brackets is both. *)
Theorem sender_taken_apart (name address : jstr) :
  name <> [] -> forallb (fun u => negb (u =? lt_)) name = true ->
  address <> [] -> forallb not_gt address = true ->
  let sender := name ++ [lt_] ++ address ++ [gt_] in
  senderEmail sender = address /\ senderDisplayName sender = trim name /\
  senderEmail name = name /\ senderDisplayName name = trim name.
Proof.
  intros Hn Hp Ha Hg sender. unfold sender, senderEmail, senderDisplayName. split_and!.
  - by rewrite no_address, an_address.
  - by rewrite a_name.
  - rewrite <- (app_nil_r name) at 2. by rewrite no_address.
  - rewrite <- (app_nil_r name) at 1. by rewrite a_name.
Qed.

Lemma sender_taken_apart_witness :
  senderEmail (js "Ann Lee <ann@x.example>") = js "ann@x.example" /\ senderDisplayName (js "Ann Lee <ann@x.example>") = js "Ann Lee".
Proof.
  destruct (sender_taken_apart (js "Ann Lee ") (js "ann@x.example")) as (He & Hn & _); [done|done|done|done|].
  split; [exact He|exact Hn].
Defined.

(** A text that stands for a message which could not be shown is not answered, with one
    exception: the text for a missing mailbox is taken for a message. *)
Theorem failures_are_not_answered (m : DisplayMessage) (decrypting : bool) (e : js_error) :
  canReply m decrypting (Some (failed_text e)) = false /\
  canReply m decrypting (Some draft_locked_text) = false /\
  canReply m decrypting (Some message_locked_text) = false /\
  canReply m decrypting None = false /\
  canReply m decrypting (Some no_mailbox_text) = negb (jeqb (folder m) (js "drafts")) && negb decrypting.
Proof.
  assert (Hf : forall t, starts_with (js "Failed to open") t = true \/ starts_with (js "Mailbox is locked") t = true ->
    canReply m decrypting (Some t) = false).
  { intros t Ht. unfold canReply. destruct Ht as [-> | ->]; by rewrite ?andb_false_r. }
  split_and!; [apply Hf..|unfold canReply; by rewrite andb_false_r|unfold canReply; by rewrite andb_true_r].
  - left. unfold failed_text. change (js "Failed to open message: ") with (js "Failed to open" ++ js " message: ").
    rewrite <- app_assoc. apply starts_with_app.
  - by right.
  - by right.
Qed.

(** ** Sizes and kinds *)

(** Just below the next unit the number shown is that of the next unit. *)
Example size_at_the_boundary :
  formatFileSize 1023 = js "1023 B" /\ formatFileSize 1024 = js "1.0 KB" /\ formatFileSize 1536 = js "1.5 KB" /\
  formatFileSize (1024 * 1024 - 1) = js "1024.0 KB" /\ formatFileSize (5 * 1024 * 1024 + 52429) = js "5.1 MB".
Proof. repeat split; reflexivity. Qed.

(** The pane's table of extensions lacks some of the message list's: one attachment, two kinds. *)
Example badges_disagree :
  getAttachmentTypeInfo (H := ascii_unicode) (js "scan.tiff") [] = js "TIFF" /\
  label (getFileTypeInfo (H := ascii_unicode) (Some (js "scan.tiff")) None) = js "IMG".
Proof. split; reflexivity. Qed.

Example initials_of_senders :
  let initials s := getSenderInitials (H := ascii_unicode) (js s) in
  initials "Ann Lee <ann@x.example>" = js "AL" /\ initials "ann.lee@x.example" = js "AL" /\
  initials "bob" = js "BO" /\ initials "<bob@x.example>" = js "?".
Proof. repeat split; reflexivity. Qed.

