(* ===== verification/Outbound.v ===== *)
(** * Outbound messages

    The text of an outgoing message as [handleSend] of webmail/src/App.tsx assembles
    it, replies and forwards, and the outbound envelope of packages/crypto-core/src/lib.rs
    ([encrypt_outbound], [decrypt_outbound] and their exports). *)

From S2P Require Import Prelude JsString Encoding Json Display Wasm MessageCrypto Client Api AppState.
From S2P Require Import MailView Reading.

(** ** The outbound envelope *)

(** [BASE64.decode] of the base64 crate: canonical, padded encodings only (the text of
    its errors is not modelled). *)
Definition BASE64_decode (s : jstr) : outcome bytes :=
  match base64ToBytes s with
  | Ok bs => if jeqb (b64_encode bs) s then Ok bs else reject "invalid base64"
  | Throw _ => reject "invalid base64"
  end.

Section Envelope.
Context `{Crypto}.

(** [content_key], [nonce] and [rnd] are the crypto core's randomness. *)
Definition encrypt_outbound (content_key nonce rnd outbound_delivery_pk mailbox_id : bytes)
    (message_seq : Z) (plaintext : bytes) : outcome (bytes * bytes * bytes * bytes * bytes) :=
  let aad := canonical_aad mailbox_id message_seq ENCRYPTION_VERSION in
  let encrypted := aes_gcm_encrypt content_key nonce plaintext aad in
  let iv := take 12 (drop 1 encrypted) in
  match hpke_seal outbound_delivery_pk rnd content_key aad with
  | Some send_token_wrapped => Ok (encrypted, send_token_wrapped, iv, aad, content_key)
  | None => reject "invalid HPKE operation"
  end.

Definition decrypt_outbound (outbound_delivery_sk send_token_wrapped mailbox_id : bytes)
    (message_seq : Z) (ciphertext : bytes) : outcome bytes :=
  let aad := canonical_aad mailbox_id message_seq ENCRYPTION_VERSION in
  match hpke_open outbound_delivery_sk send_token_wrapped aad with
  | None => reject "invalid HPKE operation"
  | Some content_key =>
      if decide (length content_key = 32%nat) then aes_gcm_decrypt content_key ciphertext aad
      else reject "invalid format"
  end.

Definition b64_str (bs : bytes) : json := JStr (b64_encode bs).

Definition wasm_encrypt_outbound (content_key nonce rnd : bytes)
    (outbound_delivery_pk_b64 mailbox_id_hex : jstr) (message_seq : Z) (plaintext_b64 : jstr) : outcome jstr :=
  pk ← BASE64_decode outbound_delivery_pk_b64 ≫= exactly 32 "public key must be 32 bytes";
  mailbox_id ← decode_mailbox_id mailbox_id_hex;
  plaintext ← BASE64_decode plaintext_b64;
  '(ciphertext, send_token_wrapped, iv, aad, content_key) ←
    encrypt_outbound content_key nonce rnd pk mailbox_id (message_seq mod 2 ^ 64) plaintext;
  Ok (JSON_stringify (JObj
    [(js "aad", b64_str aad); (js "ciphertext", b64_str ciphertext);
     (js "content_key", b64_str content_key); (js "iv", b64_str iv);
     (js "send_token_wrapped", b64_str send_token_wrapped)])).

Definition wasm_decrypt_outbound (outbound_delivery_sk_b64 send_token_wrapped_b64 mailbox_id_hex : jstr)
    (message_seq : Z) (ciphertext_b64 : jstr) : outcome jstr :=
  sk ← BASE64_decode outbound_delivery_sk_b64 ≫= exactly 32 "private key must be 32 bytes";
  wrapped ← BASE64_decode send_token_wrapped_b64;
  mailbox_id ← decode_mailbox_id mailbox_id_hex;
  ciphertext ← BASE64_decode ciphertext_b64;
  plaintext ← decrypt_outbound sk wrapped mailbox_id (message_seq mod 2 ^ 64) ciphertext;
  Ok (b64_encode plaintext).

End Envelope.

(** ** The text of a message *)

Definition CRLF : jstr := [13; 10].

Definition to_header (to : jstr) : jstr := js "To: " ++ to.
Definition subject_header (subject : jstr) : jstr := js "Subject: " ++ subject.

Definition plain_message (to subject signedBody : jstr) : jstr :=
  join CRLF [to_header to; subject_header subject; js "Content-Type: text/plain; charset=utf-8";
             js "MIME-Version: 1.0"; []; signedBody].

Definition multipart_message (boundary to subject signedBody html : jstr) : jstr :=
  join CRLF [to_header to; subject_header subject; js "MIME-Version: 1.0";
    js "Content-Type: multipart/alternative; boundary=" ++ quote boundary; [];
    js "--" ++ boundary; js "Content-Type: text/plain; charset=utf-8"; []; signedBody;
    js "--" ++ boundary; js "Content-Type: text/html; charset=utf-8"; []; html;
    js "--" ++ boundary ++ js "--"].

Definition tracking_pixel (url : jstr) : jstr :=
  js "<img src=" ++ quote url ++ js " alt=" ++ quote [] ++ js " width=" ++ quote (js "1")
  ++ js " height=" ++ quote (js "1") ++ js " style="
  ++ quote (js "display:none !important; width:1px; height:1px; border:0;") ++ js " />".

Definition auto_html (signedBody pixel : jstr) : jstr :=
  js "<div style="
  ++ quote (js "font-family: sans-serif; font-size: 14px; color: #1a1a1a; white-space: pre-wrap;")
  ++ js ">" ++ signedBody ++ js "</div>" ++ CRLF ++ pixel.

(** [pixel] is empty when opens are not tracked. *)
Definition mime_message (boundary to subject body htmlBody signedBody pixel : jstr) : jstr :=
  if truthy htmlBody && truthy (trim htmlBody) && negb (jeqb htmlBody body) then
    multipart_message boundary to subject signedBody
      (if truthy pixel then htmlBody ++ CRLF ++ pixel else htmlBody)
  else if truthy pixel then
    multipart_message boundary to subject signedBody (auto_html signedBody pixel)
  else plain_message to subject signedBody.

(** ** Replies and forwards *)

(** [new RegExp(`^${prefix}\s`, "i").test(s)] *)
Definition has_prefix (prefix s : jstr) : bool :=
  jeqb (map ascii_lower (take (length prefix) s)) (map ascii_lower prefix)
  && match drop (length prefix) s with u :: _ => is_white u | [] => false end.

Definition withSubjectPrefix (subject prefix : jstr) : jstr :=
  let clean := if jeqb subject (js "(Encrypted message)") then [] else subject in
  if has_prefix prefix clean then clean
  else if truthy clean then prefix ++ js " " ++ clean else prefix.

Definition quoteOriginal (msg : DisplayMessage) (plaintext : jstr) : jstr :=
  let quoted := join [10] (map (fun line => js "> " ++ line) (split_on 10 plaintext)) in
  [10; 10] ++ js "--- On " ++ date msg ++ js ", " ++ sender msg ++ js " wrote: ---" ++ [10] ++ quoted.

Definition forwarded (msg : DisplayMessage) (attachments : nat) (plaintext : jstr) : jstr :=
  (if (0 <? attachments)%nat then
     [10] ++ js "[Note: " ++ num (Z.of_nat attachments)
     ++ js " original attachment(s) not carried by forwarding in V1.]" ++ [10]
   else [])
  ++ [10] ++ js "--- Forwarded message from " ++ sender msg ++ js " (" ++ date msg ++ js ") ---"
  ++ [10] ++ plaintext.

(** ** Theorems: the envelope *)

Lemma BASE64_decode_encode bs : Forall is_byte bs -> BASE64_decode (b64_encode bs) = Ok bs.
Proof.
  intros Hb. unfold BASE64_decode. pose proof (base64_round_trip bs Hb) as E.
  rewrite bytesToBase64_unchunked in E by done. cbn in E. rewrite E.
  by rewrite (proj2 (jeqb_eq _ _) eq_refl).
Qed.

Lemma BASE64_decode_exactly n err bs :
  Forall is_byte bs -> length bs = n -> (BASE64_decode (b64_encode bs) ≫= exactly n err) = Ok bs.
Proof. intros Hb Hl. rewrite BASE64_decode_encode by done. by apply exactly_ok. Qed.

Lemma BASE64_decode_canonical s bs : BASE64_decode s = Ok bs -> s = b64_encode bs.
Proof.
  unfold BASE64_decode. destruct (base64ToBytes s); [|done]. destruct (jeqb _ _) eqn:E; [|done].
  apply jeqb_eq in E. by intros [= <-].
Qed.

Lemma b64_units bs : Forall is_byte bs -> Forall is_unit (b64_encode bs).
Proof.
  intros Hb. apply Forall_forall. intros u Hu.
  assert (Hall : forallb (fun u => (0 <=? u) && (u <? 65536)) (b64_encode bs) = true).
  { apply b64_encode_forallb; [done| |done]. intros v ?%is_b64_range. lia. }
  rewrite forallb_forall in Hall. apply list_elem_of_In in Hu. specialize (Hall u Hu).
  unfold is_unit. zbool. lia.
Qed.

(** C26.  What the browser seals, the delivery worker opens: an outbound message sealed to
    the worker's public key decrypts, with the worker's private key, the reservation's
    sequence number and the mailbox's id, to the very bytes the client encoded; for
    another sequence number or mailbox it does not open. *)
Theorem outbound_round_trip `{CryptoLaws} (sk ck nonce rnd id id' : bytes) (seq seq' : Z)
    (idHex idHex' : jstr) (text : bytes) :
  length (x25519_pk sk) = 32%nat -> Forall is_byte (x25519_pk sk) ->
  length sk = 32%nat -> Forall is_byte sk -> key_ok ck -> nonce_ok nonce -> Forall is_byte text ->
  decode_mailbox_id idHex = Ok id -> decode_mailbox_id idHex' = Ok id' ->
  0 <= seq < 2 ^ 64 -> 0 <= seq' < 2 ^ 64 ->
  (hpke_seal (x25519_pk sk) rnd ck (canonical_aad id seq ENCRYPTION_VERSION) <> None) ->
  exists envelope ct token,
    wasm_encrypt_outbound ck nonce rnd (b64_encode (x25519_pk sk)) idHex seq (b64_encode text) = Ok envelope /\
    (exists v, JSON_parse envelope = Ok v /\ get_str v (js "ciphertext") = Some ct /\
       get_str v (js "send_token_wrapped") = Some token /\ get_str v (js "iv") = Some (b64_encode nonce)) /\
    wasm_decrypt_outbound (b64_encode sk) token idHex seq ct = Ok (b64_encode text) /\
    (id <> id' \/ seq <> seq' ->
     wasm_decrypt_outbound (b64_encode sk) token idHex' seq' ct = reject "invalid HPKE operation").
Proof.
  intros Hpkl Hpk Hskl Hsk [Hckl Hck] [Hnl Hn] Ht Hid Hid' Hs Hs' Hseal.
  assert (Hidb : forall h i, decode_mailbox_id h = Ok i -> length i = 16%nat /\ Forall is_byte i).
  { intros h i E. unfold decode_mailbox_id in E. destruct (hex_decode h) as [b|] eqn:Eh; [|done].
    cbn in E. unfold exactly in E. case_decide; [|done]. injection E as <-. split; [done|].
    by eapply hex_decode_bytes. }
  destruct (Hidb _ _ Hid) as [Hl Hb]. destruct (Hidb _ _ Hid') as [Hl' Hb'].
  set (aad := canonical_aad id seq ENCRYPTION_VERSION) in *.
  destruct (hpke_seal (x25519_pk sk) rnd ck aad) as [token|] eqn:Eseal; [|done].
  assert (Haad : Forall is_byte aad).
  { unfold aad, canonical_aad. rewrite !Forall_app. split_and!; auto using be_bytes_bytes.
    repeat constructor; unfold is_byte, AAD_VERSION; lia. }
  set (ct := aes_gcm_encrypt ck nonce text aad).
  assert (Hct : Forall is_byte ct) by by apply envelope_bytes.
  assert (Htok : Forall is_byte token) by by eapply hpke_seal_bytes.
  assert (Hiv : take 12 (drop 1 ct) = nonce).
  { unfold ct, aes_gcm_encrypt. cbn [drop]. rewrite <- Hnl. apply take_app_length. }
  eexists _, (b64_encode ct), (b64_encode token). split_and!.
  - unfold wasm_encrypt_outbound. rewrite BASE64_decode_exactly by done. cbn [mbind outcome_bind].
    rewrite Hid. cbn [mbind outcome_bind].
    rewrite BASE64_decode_encode by done. cbn [mbind outcome_bind]. rewrite Z.mod_small by done.
    unfold encrypt_outbound. fold aad. rewrite Eseal. fold ct. cbn [mbind outcome_bind]. rewrite Hiv. reflexivity.
  - eexists. split; [apply json_round_trip|split_and!; reflexivity].
    cbn [wf forallb fst snd b64_str]. rewrite !bool_decide_eq_true_2 by (auto using b64_units; by_decide). done.
  - unfold wasm_decrypt_outbound. rewrite BASE64_decode_exactly, !BASE64_decode_encode by done.
    cbn [mbind outcome_bind]. rewrite Hid. cbn [mbind outcome_bind].
    rewrite Z.mod_small by done. unfold decrypt_outbound. fold aad.
    rewrite (hpke_correct sk rnd ck aad token) by done. rewrite decide_True by done. unfold ct.
    by rewrite aes_gcm_round_trip.
  - intros Hne. unfold wasm_decrypt_outbound. rewrite BASE64_decode_exactly, !BASE64_decode_encode by done.
    cbn [mbind outcome_bind]. rewrite Hid'. cbn [mbind outcome_bind].
    rewrite Z.mod_small by done. unfold decrypt_outbound.
    rewrite (hpke_binds_aad sk rnd ck aad _ token); [done| |done].
    intros E. apply canonical_aad_inj in E; [|unfold ENCRYPTION_VERSION in *; try done; try lia..].
    destruct E as (? & ? & _). tauto.
Qed.

(** ** Theorems: the text survives the round trip *)

Definition one_line (s : jstr) : bool := forallb (fun u => negb (is_line_terminator u)) s.

Lemma span_line (p : Z -> bool) a b :
  forallb p a = true -> match b with u :: _ => p u = false | [] => True end -> Json.span p (a ++ b) = (a, b).
Proof.
  induction a as [|u a IH]; cbn [forallb app Json.span]; intros Ha Hb.
  - destruct b as [|u b]; [done|]. cbn [Json.span]. by rewrite Hb.
  - apply andb_true_iff in Ha as [Hu Ha]. by rewrite Hu, IH.
Qed.

Lemma match_subject_line l s : one_line l = true -> match_subject false (l ++ s) = match_subject false s.
Proof.
  induction l as [|u l IH]; [done|]. unfold one_line. cbn [forallb app match_subject]. intros [Hu Hl]%andb_true_iff.
  apply negb_true_iff in Hu. rewrite Hu. by apply IH.
Qed.

Lemma match_subject_crlf s : match_subject false (CRLF ++ s) = match_subject true s.
Proof. reflexivity. Qed.

Lemma match_subject_here s t : subject_here s = Some t -> match_subject true s = Some t.
Proof. intros E. destruct s; cbn [match_subject]; by rewrite E. Qed.

Lemma match_subject_found subject s :
  one_line subject = true -> trim subject = subject -> subject <> [] ->
  match_subject true (subject_header subject ++ CRLF ++ s) = Some subject.
Proof.
  intros Hl Ht Hne. destruct subject as [|u rest]; [done|].
  assert (Hu : is_white u = false).
  { destruct (is_white u) eqn:E; [|done]. exfalso. unfold trim in Ht. cbn [trim_start] in Ht. rewrite E in Ht.
    assert (Hlen : (length (trim_end (trim_start rest)) <= length rest)%nat).
    { assert (Hts : forall x, (length (trim_start x) <= length x)%nat).
      { induction x as [|v x IH]; [done|]. cbn [trim_start]. destruct (is_white v); cbn [length]; lia. }
      unfold trim_end. rewrite length_reverse. etrans; [apply Hts|]. rewrite length_reverse. apply Hts. }
    rewrite Ht in Hlen. cbn [length] in Hlen. lia. }
  set (t := (u :: rest) ++ CRLF ++ s).
  assert (Es : subject_header (u :: rest) ++ CRLF ++ s = js "Subject:" ++ [32] ++ t)
    by (unfold subject_header; by rewrite <- app_assoc).
  assert (Eh : subject_here (js "Subject:" ++ [32] ++ t) =
    Some (fst (Json.span (fun u => negb (is_line_terminator u)) (snd (Json.span is_white ([32] ++ t))))))
    by reflexivity.
  rewrite (span_line is_white [32] t) in Eh by (done || exact Hu). cbn [snd] in Eh.
  unfold t in Eh at 2. rewrite span_line in Eh by done. cbn [fst] in Eh.
  rewrite Es. by apply match_subject_here.
Qed.

Lemma extracted_subject fallback to subject rest :
  one_line to = true -> one_line subject = true -> trim subject = subject -> subject <> [] ->
  extractedSubject fallback (to_header to ++ CRLF ++ subject_header subject ++ CRLF ++ rest) = subject.
Proof.
  intros Hto Hs Ht Hne. unfold extractedSubject.
  assert (E : match_subject true (to_header to ++ CRLF ++ subject_header subject ++ CRLF ++ rest) = Some subject).
  { unfold to_header. rewrite <- app_assoc. change (js "To: " ++ to ++ ?x) with (84 :: (js "o: " ++ to) ++ x).
    cbn [match_subject]. replace (subject_here (84 :: _)) with (@None jstr).
    - change (is_line_terminator 84) with false. rewrite match_subject_line.
      + rewrite match_subject_crlf. by apply match_subject_found.
      + unfold one_line in *. by rewrite forallb_app, Hto.
    - symmetry. unfold subject_here. destruct (jeqb _ _) eqn:E; [|done]. apply jeqb_eq in E.
      cbn [take map] in E. discriminate. }
  rewrite E. destruct subject; [done|]. exact Ht.
Qed.

(** *** Splitting off the header *)

Definition line_char (u : Z) : bool := negb ((u =? 13) || (u =? 10)).

Lemma line_end_char u s : line_char u = true -> line_end (u :: s) = None.
Proof.
  unfold line_char, line_end. intros Hu.
  destruct (Z.eqb_spec u 13) as [->|]; [done|]. destruct (Z.eqb_spec u 10) as [->|]; [done|].
  repeat case_match; simplify_eq; congruence.
Qed.

Lemma one_line_chars s : one_line s = true -> forallb line_char s = true.
Proof. unfold one_line. apply forallb_impl. intros u. unfold line_char, is_line_terminator. lia. Qed.

Lemma split_line fuel part l s :
  forallb line_char l = true ->
  split_blank_lines (length l + fuel) part (l ++ s) = split_blank_lines fuel (rev l ++ part) s.
Proof.
  revert part. induction l as [|u l IH]; intros part; [done|]. cbn [forallb length Nat.add app split_blank_lines rev].
  intros [Hu Hl]%andb_true_iff. unfold blank_line. rewrite line_end_char by done. cbn [mbind option_bind].
  rewrite IH by done. by rewrite <- app_assoc.
Qed.

Lemma split_blank fuel part body :
  split_blank_lines (S fuel) part (CRLF ++ CRLF ++ body) = rev part :: split_blank_lines fuel [] body.
Proof. reflexivity. Qed.

Lemma split_crlf fuel part u s :
  line_char u = true ->
  split_blank_lines (S (S fuel)) part (CRLF ++ u :: s) = split_blank_lines fuel (10 :: 13 :: part) (u :: s).
Proof.
  intros Hu. cbn [CRLF app split_blank_lines].
  assert (E1 : blank_line (13 :: 10 :: u :: s) = None) by exact (line_end_char u s Hu).
  assert (E2 : blank_line (10 :: u :: s) = None) by exact (line_end_char u s Hu).
  by rewrite E1, E2.
Qed.

Lemma line_end_shorter s r : line_end s = Some r -> (length r < length s)%nat.
Proof.
  unfold line_end. intros E. repeat (case_match; simplify_eq; try done); cbn [length]; lia.
Qed.

Lemma blank_line_shorter s r : blank_line s = Some r -> (length r < length s)%nat.
Proof.
  unfold blank_line. destruct (line_end s) as [r1|] eqn:E1; [|done]. cbn. intros E2.
  apply line_end_shorter in E1, E2. lia.
Qed.

(** Enough fuel is the length of the text. *)
Lemma split_fuel f part s :
  (length s <= f)%nat -> split_blank_lines f part s = split_blank_lines (length s) part s.
Proof.
  enough (forall n f f' part s, (length s <= n)%nat -> (length s <= f)%nat -> (length s <= f')%nat ->
    split_blank_lines f part s = split_blank_lines f' part s) by eauto.
  clear. induction n as [|n IH]; intros f f' part s Hn Hf Hf'.
  - destruct s; [|simpl in Hn; lia]. by destruct f, f'.
  - destruct s as [|u s]; [by destruct f, f'|]. destruct f as [|f], f' as [|f']; cbn [length] in *; try lia.
    cbn [split_blank_lines]. destruct (blank_line (u :: s)) as [r|] eqn:E.
    + apply blank_line_shorter in E. cbn [length] in E. f_equal. apply IH; lia.
    + apply IH; lia.
Qed.

Lemma split_nonempty f part s : split_blank_lines f part s <> [].
Proof.
  revert part s. induction f as [|f IH]; intros part s; [done|]. destruct s as [|u s]; [done|].
  cbn [split_blank_lines]. by destruct (blank_line (u :: s)).
Qed.

(** Four header lines and an empty one are the first part. *)
Lemma split_header l1 l2 l3 l4 body :
  Forall (fun l => forallb line_char l = true /\ l <> []) [l1; l2; l3; l4] ->
  exists header, split_body (join CRLF [l1; l2; l3; l4; []; body]) = header :: split_body body.
Proof.
  intros Hl. repeat match goal with H : Forall _ (_ :: _) |- _ => inversion_clear H as [|? ? [? ?] ?] end.
  assert (Hn : forall fuel part l r, forallb line_char l = true -> l <> [] ->
    split_blank_lines (S (S fuel)) part (CRLF ++ l ++ r) = split_blank_lines fuel (10 :: 13 :: part) (l ++ r)).
  { intros fuel part [|u l] r Hc Hne; [done|]. cbn [app]. apply andb_true_iff in Hc as [Hu _].
    by apply split_crlf. }
  set (body' := CRLF ++ CRLF ++ body).
  assert (Ej : join CRLF [l1; l2; l3; l4; []; body] = l1 ++ CRLF ++ l2 ++ CRLF ++ l3 ++ CRLF ++ l4 ++ body')
    by by rewrite !join_cons2.
  rewrite Ej. unfold split_body.
  set (f := length body').
  rewrite <- (split_fuel (length l1 + S (S (length l2 + S (S (length l3 + S (S (length l4 + f))))))))
    by (unfold f; rewrite !length_app; cbn [length CRLF]; lia).
  rewrite split_line, Hn, split_line, Hn, split_line, Hn, split_line by done.
  change f with (S (3 + length body)). unfold body'. rewrite split_blank.
  eexists. f_equal. apply split_fuel. lia.
Qed.

Lemma join_split_no_cr f part s :
  (length s <= f)%nat -> forallb (fun u => negb (u =? 13)) s = true ->
  join [10; 10] (split_blank_lines f part s) = rev part ++ s.
Proof.
  revert part s. induction f as [|f IH]; intros part s Hf Hs.
  - destruct s; [|simpl in Hf; lia]. cbn. by rewrite app_nil_r.
  - destruct s as [|u s]; [cbn; by rewrite app_nil_r|]. cbn [length] in Hf.
    cbn [split_blank_lines]. destruct (blank_line (u :: s)) as [r|] eqn:E.
    + assert (Er : u :: s = 10 :: 10 :: r).
      { unfold blank_line, line_end in E. cbn [forallb] in Hs.
        destruct u as [|p|p]; try done. repeat (case_match; simplify_eq/=; try done). }
      injection Er as -> ->. cbn [length forallb] in *.
      destruct (split_blank_lines f [] r) as [|x l] eqn:Ex; [by apply split_nonempty in Ex|].
      rewrite join_cons2, <- Ex, IH by (done || lia). done.
    + apply andb_true_iff in Hs as [_ Hs]. rewrite IH by (done || lia). cbn [rev]. by rewrite <- app_assoc.
Qed.

Lemma header_chars h s : forallb line_char (js h) = true -> one_line s = true -> forallb line_char (js h ++ s) = true.
Proof. intros Hh Hs. by rewrite forallb_app, Hh, one_line_chars. Qed.

(** What is written is what is read: the reading pane recovers the subject of a
    plain outgoing message exactly, whatever its body contains, and its body up to the
    line ends of blank lines; a body without carriage returns comes back unchanged. *)
Theorem compose_open_round_trip fallback to subject body :
  one_line to = true -> one_line subject = true -> trim subject = subject -> subject <> [] ->
  let mime := plain_message to subject body in
  extractedSubject fallback mime = subject /\
  extractedBody mime = join [10; 10] (split_body body) /\
  (forallb (fun u => negb (u =? 13)) body = true -> extractedBody mime = body).
Proof.
  intros Hto Hs Ht Hne mime.
  assert (Eb : extractedBody mime = join [10; 10] (split_body body)).
  { unfold extractedBody. destruct (split_header (to_header to) (subject_header subject)
      (js "Content-Type: text/plain; charset=utf-8") (js "MIME-Version: 1.0") body) as [header E].
    - forall_split; (split; [first [reflexivity|by apply header_chars]|done]).
    - unfold mime, plain_message. rewrite E. cbn [length tail].
      destruct (split_body body) eqn:Ebody; [by apply split_nonempty in Ebody|]. done. }
  split_and!; [|done|].
  - unfold mime, plain_message. rewrite !join_cons2. by apply extracted_subject.
  - intros Hcr. rewrite Eb. unfold split_body. by rewrite join_split_no_cr.
Qed.

Lemma has_prefix_app p s : has_prefix p (p ++ 32 :: s) = true.
Proof. unfold has_prefix. rewrite take_app_length, drop_app_length, (proj2 (jeqb_eq _ _) eq_refl). done. Qed.

Lemma elem_of_split_on c s : Forall (fun l => c ∉ l) (split_on c s).
Proof.
  induction s as [|u s IH]; cbn [split_on]; [by repeat constructor; set_solver|].
  destruct (split_on c s) as [|w ws]; [by repeat constructor; set_solver|].
  inversion_clear IH. destruct (Z.eqb_spec u c); repeat constructor; set_solver.
Qed.

(** Replies: the prefix is put before the original subject once and never stacked
    on a subject that already carries it (in any case); the placeholder of an
    undecrypted subject is dropped; and the quotation of the original is its lines, in
    order, each behind the quotation mark. *)
Theorem reply_spec subject msg plaintext prefix :
  prefix = js "Re:" \/ prefix = js "Fwd:" ->
  (withSubjectPrefix subject prefix =
     (if jeqb subject (js "(Encrypted message)") || negb (truthy subject) then prefix
      else if has_prefix prefix subject then subject else prefix ++ js " " ++ subject)) /\
  (has_prefix prefix (withSubjectPrefix subject prefix) = true ->
   withSubjectPrefix (withSubjectPrefix subject prefix) prefix = withSubjectPrefix subject prefix) /\
  (exists intro, quoteOriginal msg plaintext = intro ++ [10] ++
     join [10] (map (fun line => js "> " ++ line) (split_on 10 plaintext))) /\
  split_on 10 (join [10] (map (fun line => js "> " ++ line) (split_on 10 plaintext))) =
    map (fun line => js "> " ++ line) (split_on 10 plaintext).
Proof.
  intros Hp.
  assert (Hencr : has_prefix prefix (js "(Encrypted message)") = false) by by destruct Hp as [-> | ->].
  assert (Hnil : has_prefix prefix [] = false) by by destruct Hp as [-> | ->].
  split_and!.
  - unfold withSubjectPrefix. destruct (jeqb subject _); cbn [orb]; [by rewrite Hnil|].
    destruct subject as [|u s]; cbn [truthy negb]; [by rewrite Hnil|]. done.
  - intros Hr. set (r := withSubjectPrefix subject prefix) in *. unfold withSubjectPrefix.
    destruct (jeqb r _) eqn:E; [apply jeqb_eq in E; rewrite E in Hr; congruence|]. by rewrite Hr.
  - unfold quoteOriginal. eexists. rewrite !app_assoc. reflexivity.
  - apply split_on_join.
    + destruct (split_on_ne 10 plaintext) as (w & ws & ->). done.
    + apply Forall_fmap. eapply Forall_impl; [apply elem_of_split_on|].
      intros l Hl. cbn. rewrite !elem_of_cons. intros [Hq|[Hq|Hq]]; [lia|lia|done].
Qed.

(** ** Concrete runs *)

#[local] Existing Instances toy_crypto toy_laws.

Lemma outbound_round_trip_witness :
  exists envelope ct token,
    wasm_encrypt_outbound key1 nonce0 [] (b64_encode key0) (bytesToHex id0) 7 (b64_encode (js "Hi"))
      = Ok envelope /\
    wasm_decrypt_outbound (b64_encode key0) token (bytesToHex id0) 7 ct = Ok (b64_encode (js "Hi")).
Proof.
  destruct (outbound_round_trip key0 key1 nonce0 [] id0 id1 7 7 (bytesToHex id0) (bytesToHex id1) (js "Hi"))
    as (envelope & ct & token & E & _ & D & _);
    [by vm_compute|by_decide|by vm_compute|by_decide|exact key1_ok|exact nonce0_ok|by_decide
    |by vm_compute|by vm_compute|done|done|by vm_compute|].
  exists envelope, ct, token. exact (conj E D).
Defined.

Lemma compose_open_round_trip_witness :
  extractedSubject [] (plain_message (js "ann@x.org") (js "Lunch") (js "Hi" ++ [10; 10] ++ js "Bye")) = js "Lunch" /\
  extractedBody (plain_message (js "ann@x.org") (js "Lunch") (js "Hi" ++ [10; 10] ++ js "Bye")) =
    js "Hi" ++ [10; 10] ++ js "Bye".
Proof.
  destruct (compose_open_round_trip [] (js "ann@x.org") (js "Lunch") (js "Hi" ++ [10; 10] ++ js "Bye"))
    as (E1 & _ & E2); [reflexivity|reflexivity|reflexivity|done|].
  split; [exact E1|]. apply E2. reflexivity.
Defined.

Lemma reply_spec_witness :
  withSubjectPrefix (js "RE: lunch") (js "Re:") = js "RE: lunch".
Proof.
  destruct (reply_spec (js "RE: lunch") letter (js "x") (js "Re:") (or_introl eq_refl)) as (E & _).
  rewrite E. reflexivity.
Defined.

(** A subject that is only the prefix gets it again. *)
Example bare_prefix_stacks : withSubjectPrefix (js "Re:") (js "Re:") = js "Re: Re:".
Proof. reflexivity. Qed.
