(* ===== verification/ComposeMail.v ===== *)
(** * Composing mail

    The compose form of webmail/src/App.tsx: starting drafts, replies and forwards,
    attachments, sending and scheduling, saving drafts with optimistic versions, and
    deleting messages. *)

From S2P Require Import Prelude JsString Encoding Json Display Wasm MessageCrypto Client Api AppState.
From S2P Require Import MailView Reading MailboxData Outbound.

(** ** The form *)

Definition clearComposeForm (c : Compose) : Compose :=
  set_editingDraft None (set_composeAttachments [] (set_composeTrackOpens false (set_scheduledTime []
    (set_composeBodyHtml [] (set_composeBody [] (set_composeSubject [] (set_composeTo [] c))))))).

(** The sidebar's compose button. *)
Definition onCompose (c : Compose) : Compose :=
  set_composeOpen true (set_editingDraft None (set_composeAttachments [] c)).

Definition startEditDraft (msg : DisplayMessage) (plaintext : jstr) (c : Compose) : Compose :=
  let c := set_composeTo (if jeqb (recipient msg) (js "(no recipient)") then [] else recipient msg) c in
  let c := set_composeSubject (if jeqb (subject msg) (js "(no subject)") then [] else subject msg) c in
  let c := set_scheduledTime [] (set_composeBody plaintext c) in
  let c := set_editingDraft (Some (id msg, default 1 (version msg))) (set_composeAttachments [] c) in
  set_composeOpen true c.

Definition start_with (to subject body : jstr) (c : Compose) : Compose :=
  let c := set_composeBody body (set_composeSubject subject (set_composeTo to c)) in
  set_composeOpen true (set_editingDraft None (set_composeAttachments [] (set_scheduledTime [] c))).

Definition startReply (msg : DisplayMessage) (s : App) : App :=
  match messagePlaintext (reading s) with
  | None => s
  | Some plaintext =>
      on_compose (start_with (sender msg) (withSubjectPrefix (subject msg) (js "Re:"))
                    (quoteOriginal msg plaintext)) s
  end.

Definition startForward (msg : DisplayMessage) (s : App) : App :=
  match messagePlaintext (reading s) with
  | None => s
  | Some plaintext =>
      on_compose (start_with [] (withSubjectPrefix (subject msg) (js "Fwd:"))
                    (forwarded msg (length (messageAttachments (reading s))) plaintext)) s
  end.

(** The text of an [Error]; anything else is not shown. *)
Definition error_message (e : js_error) : jstr :=
  match e with JsError m _ => m | JsThrown _ => js "unknown error" end.

Definition compose_error (text : jstr) : prog App unit :=
  modify (on_compose (set_errorMessage (Some text))).
Definition compose_status (text : option jstr) : prog App unit :=
  modify (on_compose (set_composeStatus text)).

Section Compose.
Context `{Crypto} `{Unicode} `{Dates} `{Env}.

(** ** Attachments *)

(** [file] is the chosen file, if any; [nonce] the crypto core's randomness. *)
Definition handleAttachmentSelected (nonce : bytes) (file : option File) : prog App unit :=
  s ← gets (fun s => s);
  match selectedMailbox (custody s), mailboxKey (custody s) with
  | Some box, Some key =>
      if negb (unlocked_for box s) then
        _ ← compose_error (js "Sign in again to attach files."); compose_status None
      else
        match file with
        | None => skip
        | Some file =>
            if 40 * 1024 * 1024 <? Z.of_nat (length (file_bytes file)) then
              compose_error (js "Attachment exceeds the 40 MB V1 budget.")
            else
              _ ← compose_status (Some (js "Encrypting attachment" ++ [8230]));
              pcatch
                (uploaded ← uploadEncryptedAttachment nonce (mb_id box) file key None;
                 _ ← modify (on_compose (fun c =>
                       set_composeAttachments (composeAttachments c ++ [attachment_of uploaded]) c));
                 compose_status None)
                (fun e =>
                   _ ← compose_error (js "Failed to upload attachment: " ++ error_message e);
                   compose_status None)
        end
  | _, _ => _ ← compose_error (js "Sign in again to attach files."); compose_status None
  end.

Definition detach (i : jstr) : prog App unit :=
  modify (on_compose (fun c =>
    set_composeAttachments (List.filter (fun a => negb (jeqb (att_id a) i)) (composeAttachments c)) c)).

Definition removeComposeAttachment (i : jstr) : prog App unit :=
  s ← gets (fun s => s);
  match selectedMailbox (custody s), List.find (fun a => jeqb (att_id a) i) (composeAttachments (compose s)) with
  | Some box, Some _ =>
      spawn (pcatch (_ ← deleteAttachment (mb_id box) i; detach i)
        (fun e => compose_error (js "Failed to delete attachment (kept attached): " ++ error_message e)))
  | _, _ => detach i
  end.

(** ** Sending *)









(** ** Drafts *)

Definition just_now : jstr := js "Just now".

Definition saved_row (to subject body envelope : jstr) (ver : option Z) (m : DisplayMessage) : DisplayMessage :=
  set_date just_now (set_version ver (set_encryptedBody envelope (set_snippet (ellipsis body)
    (set_subject (or_default subject (js "(no subject)"))
      (set_recipient (or_default to (js "(no recipient)")) m))))).

Definition draft_payload (to subject envelope : jstr) (ver : option Z) : json :=
  JObj ([str_member "recipient" to; str_member "subject" (or_default subject (js "Untitled Draft"));
         str_member "encrypted_envelope" envelope]
        ++ opt_member "version" (option_map (fun v => JNum (num v)) ver)).

Definition conflict_text : jstr :=
  js "This draft changed elsewhere (version conflict). Reload the mailbox to get the latest version, then re-apply your edits.".

Definition is_status (e : js_error) (st : Z) : bool :=
  match status e with Some s => s =? st | None => false end.

Definition reply_version (v : option json) : outcome (option Z) :=
  match v with
  | None | Some JNull => throw "TypeError"
  | Some v => Ok (int_opt v "version")
  end.

Definition update_draft (box : Mailbox) (editing : jstr * Z) (to subject body envelope : jstr) : prog App unit :=
  saved ← pcatch
    (updated ← updateDraft (mb_id box) (fst editing) (draft_payload to subject envelope (Some (snd editing)));
     ver ← lift (reply_version updated);
     _ ← on_mail_prog (update_messages (has_id (fst editing)) (saved_row to subject body envelope ver));
     mret true)
    (fun e =>
       if is_status e 409 then
         _ ← compose_error conflict_text;
         _ ← loadMailboxData (mb_id box);
         _ ← compose_status None;
         mret false
       else lift (Throw e));
  if saved : bool then
    modify (on_compose (fun c => set_composeStatus None (clearComposeForm (set_composeOpen false c))))
  else skip.

Definition new_draft_row (s : App) (to subject body envelope : jstr) (created : json) : DisplayMessage :=
  {| id := str_field created "id"; messageId := None; messageSeq := None; version := int_opt created "version";
     folder := js "drafts"; folderId := None; labelIds := None; sender := user_email s;
     recipient := or_default to (js "(no recipient)"); subject := or_default subject (js "Untitled Draft");
     snippet := ellipsis body; encryptedBody := envelope; date := just_now; read := true; starred := false;
     isRealApi := true; hasAttachments := false; attachmentCount := 0; attachmentTypes := [];
     trackingToken := None; trackingInfo := None |}.

Definition create_draft (box : Mailbox) (to subject body envelope : jstr) : prog App unit :=
  created ← createDraft (mb_id box) (draft_payload to subject envelope None);
  match created with
  | None | Some JNull => pthrow "TypeError"
  | Some created =>
      s ← gets (fun s => s);
      _ ← on_mail_prog (fun x => set_messages (new_draft_row s to subject body envelope created :: messages x) x);
      modify (on_compose (fun c => set_composeStatus None (set_composeOpen false c)))
  end.

Definition save_draft_body (nonce key : bytes) (box : Mailbox) (to subject body : jstr) : prog App unit :=
  _ ← wait;
  envelope ← lift (encryptDraftEnvelope nonce key (mb_id box) body);
  editing ← gets (fun s => editingDraft (compose s));
  match editing with
  | Some editing => update_draft box editing to subject body envelope
  | None => create_draft box to subject body envelope
  end.

Definition handleSaveDraft (nonce : bytes) : prog App unit :=
  s ← gets (fun s => s);
  let to := trim (composeTo (compose s)) in
  let subject := trim (composeSubject (compose s)) in
  let body := composeBody (compose s) in
  match selectedMailbox (custody s) with
  | None => skip
  | Some box =>
      match mailboxKey (custody s), unlocked_for box s with
      | Some key, true =>
          _ ← compose_status (Some (js "Saving draft to mailbox storage" ++ [8230]));
          pcatch (save_draft_body nonce key box to subject body) (fun e =>
            _ ← compose_error (js "Failed to save draft: "
                               ++ match e with JsError m _ => m | JsThrown _ => js "undefined" end);
            compose_status None)
      | _, _ => _ ← compose_error (js "Sign in again to save drafts."); compose_status None
      end
  end.

(** ** Deleting *)

Definition handleDeleteMessage (msg : DisplayMessage) : prog App unit :=
  box ← gets (fun s => selectedMailbox (custody s));
  _ ← (match box with
       | Some box =>
           if isRealApi msg && jeqb (folder msg) (js "drafts") then
             _ ← pcatch (deleteDraft (mb_id box) (id msg)) (fun _ => skip);
             modify (on_compose (fun c =>
               match editingDraft c with
               | Some (i, _) => if jeqb i (id msg) then clearComposeForm (set_composeOpen false c) else c
               | None => c
               end))
           else skip
       | None => skip
       end);
  on_mail_prog (fun x => set_selectedMsg None (update_messages (has_id (id msg)) (set_folder (js "trash")) x)).

End Compose.

(** ** Sending does not lose the message *)

Section SendTheorems.
Context `{Crypto} `{Unicode} `{Dates} `{Env}.

(** What the user has typed and attached. *)
Definition form (c : Compose) :=
  (composeTo c, composeSubject c, composeBody c, composeBodyHtml c, scheduledTime c,
   composeTrackOpens c, composeAttachments c, editingDraft c, composeOpen c).



















(** ** Nothing leaves a locked mailbox *)

(** With no mailbox unlocked, neither drafts nor attachments are encrypted or sent:
    no request is made, the user is told to sign in, and what was typed stays. *)
Theorem locked_compose_sends_nothing nonce file w t s box :
  selectedMailbox (custody s) = Some box ->
  mailboxKey (custody s) = None \/ unlocked_for box s = false ->
  let '(r, s', t') := run w t s (handleSaveDraft nonce) in
  let '(r2, s2, t2) := run w t s (handleAttachmentSelected nonce file) in
  r = Ok tt /\ t' = t /\ form (compose s') = form (compose s) /\
  errorMessage (compose s') = Some (js "Sign in again to save drafts.") /\
  r2 = Ok tt /\ t2 = t /\ form (compose s2) = form (compose s) /\
  errorMessage (compose s2) = Some (js "Sign in again to attach files.").
Proof.
  intros Hb Hl. unfold handleSaveDraft, handleAttachmentSelected. rewrite !run_bind. cbn [gets run]. cbv zeta.
  rewrite Hb. destruct (mailboxKey (custody s)) as [key|]; [|by cbn].
  destruct Hl as [?| ->]; [done|]. by cbn.
Qed.

End SendTheorems.

Section DraftTheorems.
Context `{CryptoLaws} `{Unicode} `{Dates} `{Env}.

Lemma run_create_draft w t s box to subject body envelope created :
  created <> JNull ->
  let q := api_fetch s (mailbox_path (mb_id box) "/drafts")
    {| i_method := Some (js "POST"); i_headers := []; i_credentials := None;
       i_body := stringified (draft_payload to subject envelope None) |} in
  api_reply (respond w t q) = Ok (Some created) ->
  run w t s (create_draft box to subject body envelope) =
  (Ok tt, on_compose (fun c => set_composeStatus None (set_composeOpen false c))
            (on_mail (fun x => set_messages (new_draft_row s to subject body envelope created :: messages x) x) s),
   ask q t).
Proof.
  intros Hc q Hr. unfold create_draft, createDraft, send. rewrite run_bind, run_apiRequest.
  cbv zeta. fold q. rewrite Hr. by destruct created.
Qed.

Lemma run_save_new_draft nonce w t s box key envelope created :
  selectedMailbox (custody s) = Some box -> mailboxKey (custody s) = Some key -> unlocked_for box s = true ->
  editingDraft (compose s) = None ->
  encryptDraftEnvelope nonce key (mb_id box) (composeBody (compose s)) = Ok envelope ->
  created <> JNull -> (forall t q, api_reply (respond w t q) = Ok (Some created)) ->
  let saving := on_compose (set_composeStatus (Some (js "Saving draft to mailbox storage" ++ [8230]))) s in
  let to := trim (composeTo (compose s)) in
  let subject := trim (composeSubject (compose s)) in
  run w t s (handleSaveDraft nonce) =
  (Ok tt, on_compose (fun c => set_composeStatus None (set_composeOpen false c))
            (on_mail (fun x => set_messages
               (new_draft_row saving to subject (composeBody (compose s)) envelope created :: messages x) x) saving),
   ask (api_fetch saving (mailbox_path (mb_id box) "/drafts")
     {| i_method := Some (js "POST"); i_headers := []; i_credentials := None;
        i_body := stringified (draft_payload to subject envelope None) |}) t).
Proof.
  intros Hb Hkey Hun Hed E Hc Hr saving to subject.
  unfold handleSaveDraft. rewrite run_bind. cbn [gets run]. cbv zeta. rewrite Hb, Hkey, Hun, run_bind.
  cbn [compose_status modify run]. fold saving to subject. rewrite run_catch. unfold save_draft_body.
  rewrite run_bind. cbn [wait run]. rewrite E, bind_lift, run_bind. cbn [gets run].
  replace (editingDraft (compose saving)) with (@None (jstr * Z)) by (symmetry; exact Hed).
  by rewrite (run_create_draft _ _ _ _ _ _ _ _ created Hc (Hr _ _)).
Qed.

Lemma run_open_draft w t s m box key text :
  read m = true -> folder m = js "drafts" ->
  selectedMailbox (custody s) = Some box -> mailboxKey (custody s) = Some key -> unlocked_for box s = true ->
  decryptDraftEnvelope key (mb_id box) (encryptedBody m) = Ok text ->
  exists s', run w t s (openMessage m) = (Ok tt, s', t) /\
  decryptedContent (reading s') = Some text /\ editablePlaintext (reading s') = Some text /\
  isDecrypting (reading s') = false.
Proof.
  intros Hr Hf Hb Hkey Hun D. unfold openMessage. rewrite run_bind. cbn [modify run].
  set (s1 := begin_open m s). rewrite run_bind. cbn [gets run]. rewrite Hr, run_bind. cbn [skip run].
  rewrite run_bind. cbn [gets run].
  replace (selectedMailbox (custody s1)) with (Some box) by (symmetry; exact Hb).
  rewrite run_catch, Hf. replace (jeqb (js "drafts") (js "drafts")) with true by done.
  unfold open_draft. rewrite run_bind. cbn [gets run].
  replace (mailboxKey (custody s1)) with (Some key) by (symmetry; exact Hkey).
  replace (unlocked_for box s1) with true by (symmetry; exact Hun).
  rewrite run_bind. cbn [wait run]. rewrite D, bind_lift. unfold if_latest, is_latest. rewrite run_bind.
  cbn [gets run]. rewrite Z.eqb_refl. eexists. split; [reflexivity|done].
Qed.

(** C27.  A saved draft can be taken up again: saving a new draft of an unlocked mailbox
    sends one request, carrying the ciphertext only, and puts the draft on top of the
    list; opening that row decrypts to exactly the text that was typed, ready for
    editing. *)
Theorem save_then_open_draft nonce key boxid w w' t t2 s box created :
  key_ok key -> nonce_ok nonce -> box_id (mb_id box) boxid ->
  selectedMailbox (custody s) = Some box -> mailboxKey (custody s) = Some key -> unlocked_for box s = true ->
  editingDraft (compose s) = None ->
  Forall is_unit (composeBody (compose s)) -> well_formed (composeBody (compose s)) = true ->
  no_bom (composeBody (compose s)) = true ->
  created <> JNull -> (forall t q, api_reply (respond w t q) = Ok (Some created)) ->
  exists envelope row s' t',
    run w t s (handleSaveDraft nonce) = (Ok tt, s', t') /\
  encryptDraftEnvelope nonce key (mb_id box) (composeBody (compose s)) = Ok envelope /\
  sent t' = sent t ++ [api_fetch s (mailbox_path (mb_id box) "/drafts")
      {| i_method := Some (js "POST"); i_headers := []; i_credentials := None;
         i_body := stringified (draft_payload (trim (composeTo (compose s)))
           (trim (composeSubject (compose s))) envelope None) |}] /\
  messages (mail s') = row :: messages (mail s) /\ folder row = js "drafts" /\ id row = str_field created "id" /\
  exists s2, run w' t2 s' (openMessage row) = (Ok tt, s2, t2) /\
  decryptedContent (reading s2) = Some (composeBody (compose s)) /\
  editablePlaintext (reading s2) = Some (composeBody (compose s)).
Proof.
  intros Hk Hn Hid Hb Hkey Hun Hed Hu Hw Hbom Hc Hresp.
  destruct (draft_opens key nonce boxid (mb_id box) (composeBody (compose s)) Hk Hn Hid Hu) as (env & E & _ & D).
  specialize (D Hw Hbom).
  eexists env, _, _, _.
  split; [exact (run_save_new_draft nonce w t s box key env created Hb Hkey Hun Hed E Hc Hresp)|].
  do 2 (split; [reflexivity || exact E|]). split; [reflexivity|]. do 2 (split; [reflexivity|]).
  edestruct (run_open_draft w' t2) as (s2 & R & Hd & He & _); [..|eexists; split; [exact R|done]]; try done.
Qed.

End DraftTheorems.

(** ** Concrete runs *)

#[local] Existing Instances toy_crypto toy_laws ascii_unicode digit_dates sample_env.

Definition typed_app : App :=
  on_compose (fun c => set_composeOpen true (set_composeBody (js "See you at noon")
    (set_composeSubject (js "Lunch") (set_composeTo (js "ann@x.org") c)))) unlocked_app.

Definition created_reply : json := JObj [(js "id", JStr (js "d7")); (js "version", JNum (js "1"))].

Definition always (v : json) : world := {| respond _ _ := json_reply v; answer _ _ := true |}.

Lemma always_replies v t q : api_reply (respond (always v) t q) = api_reply (json_reply v).
Proof. done. Qed.

Lemma save_then_open_draft_witness :
  exists row s' t' s2,
    run (always created_reply) no_trace typed_app (handleSaveDraft nonce0) = (Ok tt, s', t') /\
  messages (mail s') = [row; letter] /\
  run offline no_trace s' (openMessage row) = (Ok tt, s2, no_trace) /\
  decryptedContent (reading s2) = Some (js "See you at noon").
Proof.
  destruct (save_then_open_draft nonce0 key0 id0 (always created_reply) offline no_trace no_trace typed_app
    box_of_id0 created_reply) as (env & row & s' & t' & R & _ & _ & M & _ & _ & s2 & R2 & D & _).
  - exact key0_ok.
  - exact nonce0_ok.
  - exact box0_ok.
  - reflexivity.
  - reflexivity.
  - vm_compute; reflexivity.
  - reflexivity.
  - by_decide.
  - vm_compute; reflexivity.
  - vm_compute; reflexivity.
  - discriminate.
  - intros t q. rewrite always_replies. vm_compute. reflexivity.
  - exists row, s', t', s2. split; [exact R|]. split; [rewrite M; reflexivity|]. split; [exact R2|exact D].
Defined.

Definition locked_app : App := on_custody (set_mailboxKey None) typed_app.

Lemma locked_compose_sends_nothing_witness :
  errorMessage (compose (snd (fst (run offline no_trace locked_app (handleSaveDraft nonce0))))) =
    Some (js "Sign in again to save drafts.").
Proof.
  pose proof (locked_compose_sends_nothing nonce0 None
    offline no_trace locked_app box_of_id0 eq_refl (or_introl eq_refl)) as L.
  destruct (run offline no_trace locked_app (handleSaveDraft nonce0)) as [[r s'] t'].
  destruct (run offline no_trace locked_app (handleAttachmentSelected _ _)) as [[r2 s2] t2].
  cbn. tauto.
Defined.
