(* ===== verification/Contacts.v ===== *)
(** * Contacts

    The contacts pane of webmail/src/App.tsx: opening it, editing, saving (with
    optimistic versions) and deleting contacts, which are stored as envelopes only the
    mailbox key opens. *)

From S2P Require Import Prelude JsString Encoding Json Display Wasm MessageCrypto Client Api AppState.
From S2P Require Import MailView Reading MailboxData Outbound ComposeMail.

Definition contacts_locked_text : jstr := js "Please sign in with your password to view contacts.".

Definition contacts_error (text : option jstr) : prog App unit :=
  modify (on_contacts (set_contactsError text)).

Section Contacts.
Context `{Crypto} `{Unicode} `{Dates} `{Env}.

(** An unreadable envelope is left out. *)
Definition shown_contact (key : bytes) (mailboxId : jstr) (c : json) : option DisplayContact :=
  match c with
  | JNull => None
  | _ =>
      match decryptContactEnvelope key mailboxId (str_field c "encrypted_envelope") with
      | Ok pt => Some {| c_id := str_field c "id"; c_version := int_field c "version"; c_fields := pt |}
      | Throw _ => None
      end
  end.

Definition open_contacts_body (key : bytes) (box : Mailbox) : prog App unit :=
  _ ← wait;
  v ← fetchContacts (mb_id box);
  l ← lift (items v);
  modify (on_contacts (set_contacts (omap (shown_contact key (mb_id box)) l))).

Definition openContacts : prog App unit :=
  s ← gets (fun s => s);
  match selectedMailbox (custody s), mailboxKey (custody s) with
  | Some box, Some key =>
      if unlocked_for box s then
        _ ← modify (on_contacts (fun c =>
              set_contactsError None (set_contactsLoading true (set_contactsOpen true c))));
        _ ← pcatch (open_contacts_body key box) (fun e =>
              modify (on_contacts (fun c =>
                set_contacts [] (set_contactsError (Some (js "Failed to load contacts: " ++ error_message e)) c))));
        modify (on_contacts (set_contactsLoading false))
      else modify (on_contacts (fun c =>
             set_contactsOpen true (set_contacts [] (set_contactsError (Some contacts_locked_text) c))))
  | _, _ => modify (on_contacts (fun c =>
              set_contactsOpen true (set_contacts [] (set_contactsError (Some contacts_locked_text) c))))
  end.

Definition startEditContact (c : option DisplayContact) (x : ContactsPane) : ContactsPane :=
  let field (f : ContactPlaintext -> jstr) := match c with Some c => f (c_fields c) | None => [] end in
  set_contactsError None (set_contactNotes (field notes) (set_contactEmail (field email)
    (set_contactName (field name) (set_editingContact c x)))).

Definition edited_contact (i : jstr) (fields : ContactPlaintext) (ver : Z) (c : DisplayContact) : DisplayContact :=
  if jeqb (c_id c) i then {| c_id := c_id c; c_version := ver; c_fields := fields |} else c.

(** [updated.version] *)
Definition version_of (v : option json) : outcome Z :=
  match v with None | Some JNull => throw "TypeError" | Some v => Ok (int_field v "version") end.

Definition contact_conflict_text : jstr :=
  js "This contact changed elsewhere. Reload to get the latest version.".

(** Whether the contact was saved; a conflict reloads instead. *)
Definition update_contact (box : Mailbox) (editing : DisplayContact) (fields : ContactPlaintext)
    (envelope : jstr) : prog App bool :=
  pcatch
    (updated ← updateContact (mb_id box) (c_id editing)
       (JObj [str_member "encrypted_envelope" envelope; (js "version", JNum (num (c_version editing)))]);
     ver ← lift (version_of updated);
     _ ← modify (on_contacts (fun x => set_contacts (map (edited_contact (c_id editing) fields ver) (contacts x)) x));
     mret true)
    (fun e =>
       if is_status e 409 then
         _ ← contacts_error (Some contact_conflict_text);
         _ ← openContacts;
         mret false
       else lift (Throw e)).

Definition create_contact (box : Mailbox) (fields : ContactPlaintext) (envelope : jstr) : prog App bool :=
  created ← createContact (mb_id box) (JObj [str_member "encrypted_envelope" envelope]);
  match created with
  | None | Some JNull => pthrow "TypeError"
  | Some v =>
      _ ← modify (on_contacts (fun x => set_contacts
            ({| c_id := str_field v "id"; c_version := int_field v "version"; c_fields := fields |} :: contacts x) x));
      mret true
  end.

Definition save_contact_body (nonce key : bytes) (box : Mailbox) (fields : ContactPlaintext) : prog App unit :=
  _ ← wait;
  envelope ← lift (encryptContactEnvelope nonce key (mb_id box) fields);
  editing ← gets (fun s => editingContact (contactsPane s));
  saved ← (match editing with
           | Some c => update_contact box c fields envelope
           | None => create_contact box fields envelope
           end);
  if saved : bool then modify (on_contacts (startEditContact None)) else skip.

Definition typed_contact (x : ContactsPane) : ContactPlaintext :=
  {| name := trim (contactName x); email := trim (contactEmail x); notes := trim (contactNotes x) |}.

Definition handleSaveContact (nonce : bytes) : prog App unit :=
  s ← gets (fun s => s);
  match selectedMailbox (custody s), mailboxKey (custody s) with
  | Some box, Some key =>
      if unlocked_for box s then
        let fields := typed_contact (contactsPane s) in
        if negb (truthy (name fields)) then contacts_error (Some (js "Contact name is required."))
        else if negb (includes (email fields) (js "@")) then
          contacts_error (Some (js "Contact email must contain @."))
        else
          _ ← contacts_error None;
          pcatch (save_contact_body nonce key box fields) (fun e =>
            contacts_error (Some (js "Failed to save contact: " ++ error_message e)))
      else contacts_error (Some contacts_locked_text)
  | _, _ => contacts_error (Some contacts_locked_text)
  end.

Definition handleDeleteContact (i : jstr) : prog App unit :=
  box ← gets (fun s => selectedMailbox (custody s));
  match box with
  | None => skip
  | Some box =>
      yes ← confirm (js "Delete this contact? This cannot be undone.");
      if negb yes then skip
      else
        pcatch
          (_ ← deleteContact (mb_id box) i;
           modify (on_contacts (fun x =>
             let x := set_contacts (List.filter (fun c => negb (jeqb (c_id c) i)) (contacts x)) x in
             match editingContact x with
             | Some c => if jeqb (c_id c) i then startEditContact None x else x
             | None => x
             end)))
          (fun e => contacts_error (Some (js "Failed to delete contact: " ++ error_message e)))
  end.

End Contacts.

(** ** What the pane shows *)

Section ContactTheorems.
Context `{Crypto} `{Unicode} `{Dates} `{Env}.

(** The mailbox and its key, when the selected mailbox is the unlocked one. *)
Definition unlocked_key (s : App) : option (Mailbox * bytes) :=
  match selectedMailbox (custody s), mailboxKey (custody s) with
  | Some box, Some key => if unlocked_for box s then Some (box, key) else None
  | _, _ => None
  end.

Lemma unlocked_key_some s box key :
  unlocked_key s = Some (box, key) ->
  selectedMailbox (custody s) = Some box /\ mailboxKey (custody s) = Some key /\ unlocked_for box s = true.
Proof.
  unfold unlocked_key. intros E. repeat (case_match; simplify_eq). done.
Qed.

Lemma run_fetch_list path p w t (s : App) :
  exists v, run w t s (fetch_list path p) = (Ok v, s, ask (api_fetch s path no_init) t).
Proof.
  unfold fetch_list, get_json. rewrite run_catch, run_bind, run_apiRequest.
  destruct (api_reply _) as [v|e]; [|by eexists].
  unfold lift. cbn [run]. destruct (list_member v p); by eexists.
Qed.

Definition contacts_request (s : App) (box : Mailbox) : request :=
  api_fetch s (mailbox_path (mb_id box) "/contacts") no_init.

Definition shown_list (box : Mailbox) (key : bytes) (r : outcome (list json)) (c : ContactsPane) : ContactsPane :=
  let c := set_contactsError None (set_contactsLoading true (set_contactsOpen true c)) in
  set_contactsLoading false
    match r with
    | Ok l => set_contacts (omap (shown_contact key (mb_id box)) l) c
    | Throw e => set_contacts [] (set_contactsError (Some (js "Failed to load contacts: " ++ error_message e)) c)
    end.

Lemma run_open_contacts w t s box key :
  unlocked_key s = Some (box, key) ->
  exists r, run w t s openContacts =
    (Ok tt, on_contacts (shown_list box key r) s, ask (contacts_request s box) t).
Proof.
  intros Hu. destruct (unlocked_key_some _ _ _ Hu) as (Hb & Hkey & Hun).
  unfold openContacts. rewrite run_bind. cbn [gets run]. rewrite Hb, Hkey, Hun, run_bind.
  cbn [modify run]. set (s1 := on_contacts _ s). rewrite run_bind, run_catch.
  unfold open_contacts_body. rewrite run_bind. cbn [wait run]. rewrite run_bind.
  destruct (run_fetch_list (mailbox_path (mb_id box) "/contacts") "contacts" w t s1) as [v Ev].
  unfold fetchContacts. rewrite Ev, bind_lift. exists (items v). by destruct (items v).
Qed.

Lemma run_open_locked w t s :
  unlocked_key s = None ->
  run w t s openContacts =
  (Ok tt, on_contacts (fun c => set_contactsOpen true (set_contacts []
     (set_contactsError (Some contacts_locked_text) c))) s, t).
Proof.
  unfold openContacts, unlocked_key. intros Hu. rewrite run_bind. cbn [gets run].
  repeat (case_match; simplify_eq; try done).
Qed.

(** Opening the contacts of a locked mailbox sends nothing, empties the pane and
    says why; of an unlocked one it sends one request and, whatever the reply, stops
    loading: it shows, in the server's order, exactly the contacts whose envelope the
    key opens, or an error and no contact. *)
Theorem open_contacts_spec w t s :
  let '(r, s', t') := run w t s openContacts in
  r = Ok tt /\ contactsOpen (contactsPane s') = true /\
  match unlocked_key s with
  | None => t' = t /\ contacts (contactsPane s') = [] /\
            contactsError (contactsPane s') = Some contacts_locked_text
  | Some (box, key) =>
      t' = ask (contacts_request s box) t /\ contactsLoading (contactsPane s') = false /\
      ((exists l, contacts (contactsPane s') = omap (shown_contact key (mb_id box)) l /\
                  contactsError (contactsPane s') = None) \/
       (contacts (contactsPane s') = [] /\ contactsError (contactsPane s') <> None))
  end.
Proof.
  destruct (unlocked_key s) as [[box key]|] eqn:Hu; [|by rewrite run_open_locked].
  destruct (run_open_contacts w t s box key Hu) as [[l|e] ->]; split_and!; try done; eauto.
Qed.

(** ** Saving *)

Lemma run_save_contact nonce w t s box key :
  unlocked_key s = Some (box, key) ->
  let fields := typed_contact (contactsPane s) in
  name fields <> [] -> includes (email fields) (js "@") = true ->
  run w t s (handleSaveContact nonce) =
  run w t (on_contacts (set_contactsError None) s)
    (pcatch (save_contact_body nonce key box fields) (fun e =>
       contacts_error (Some (js "Failed to save contact: " ++ error_message e)))).
Proof.
  intros Hu fields Hn He. destruct (unlocked_key_some _ _ _ Hu) as (Hb & Hkey & Hun).
  unfold handleSaveContact. rewrite run_bind. cbn [gets run]. rewrite Hb, Hkey, Hun. cbv zeta. fold fields.
  rewrite He. destruct (name fields) as [|u l]; [done|]. reflexivity.
Qed.

(** A conflicting change loses its explanation: whatever the server answers, after
    saving an edited contact the conflict text is not what the pane shows, since the
    reload it triggers clears it at once. *)
Theorem contact_conflict_text_is_lost nonce w t s box key c :
  unlocked_key s = Some (box, key) -> editingContact (contactsPane s) = Some c ->
  let fields := typed_contact (contactsPane s) in
  name fields <> [] -> includes (email fields) (js "@") = true ->
  contactsError (contactsPane (snd (fst (run w t s (handleSaveContact nonce))))) <> Some contact_conflict_text.
Proof.
  intros Hu Hed fields Hname Hemail.
  assert (Herr : forall p m, p <> [] -> take 4 p <> js "This" -> (4 <= length p)%nat -> p ++ m <> contact_conflict_text).
  { intros p m _ Hp Hl E. apply (f_equal (take 4)) in E. rewrite take_app_le in E by done. done. }
  rewrite (run_save_contact nonce w t s box key Hu Hname Hemail). fold fields.
  set (s1 := on_contacts _ s).
  rewrite run_catch. unfold save_contact_body. rewrite run_bind. cbn [wait run]. rewrite run_bind.
  destruct (encryptContactEnvelope _ _ _ _) as [env|e]; [|by intros [= E]; revert E; apply Herr; simpl; lia || done].
  cbn [lift run]. rewrite run_bind.
  cbn [gets run]. replace (editingContact (contactsPane s1)) with (Some c) by (symmetry; exact Hed).
  rewrite run_bind. unfold update_contact. rewrite run_catch, run_bind.
  unfold updateContact, send. rewrite run_apiRequest. cbv zeta.
  destruct (api_reply _) as [v|e]; [rewrite bind_lift; destruct (version_of v) as [ver|e] eqn:Ev; [done|]|].
  all: cbn [run]; destruct (is_status e 409);
    [|cbn; by intros [= E]; revert E; apply Herr; simpl; lia || done].
  all: rewrite run_bind; cbn [contacts_error modify run]; rewrite run_bind;
    match goal with |- context [run ?w ?t' ?s' openContacts] =>
      destruct (run_open_contacts w t' s' box key Hu) as [[l|e'] ->] end;
    cbn; [done|intros [= E]; revert E; apply Herr; simpl; lia || done].
Qed.

End ContactTheorems.

Section ContactRoundTrip.
Context `{CryptoLaws} `{Unicode} `{Dates} `{Env}.

(** A contact survives the round trip through the server: saving a new contact puts
    it on top of the pane and sends its ciphertext; and wherever the server returns that
    envelope with the new contact's id and version, opening the contacts shows the same
    contact, field for field. *)
Theorem save_then_open_contact nonce key id w t s box created :
  key_ok key -> nonce_ok nonce -> box_id (mb_id box) id ->
  unlocked_key s = Some (box, key) -> editingContact (contactsPane s) = None ->
  let fields := typed_contact (contactsPane s) in
  Forall is_unit (name fields) -> Forall is_unit (email fields) -> Forall is_unit (notes fields) ->
  name fields <> [] -> includes (email fields) (js "@") = true ->
  created <> JNull -> (forall t q, api_reply (respond w t q) = Ok (Some created)) ->
  exists envelope row s',
    run w t s (handleSaveContact nonce) = (Ok tt, s',
      ask (api_fetch s (mailbox_path (mb_id box) "/contacts")
        {| i_method := Some (js "POST"); i_headers := []; i_credentials := None;
           i_body := stringified (JObj [str_member "encrypted_envelope" envelope]) |}) t) /\
    encryptContactEnvelope nonce key (mb_id box) fields = Ok envelope /\
    contacts (contactsPane s') = row :: contacts (contactsPane s) /\ c_fields row = fields /\
    forall item, item <> JNull -> str_field item "encrypted_envelope" = envelope ->
      str_field item "id" = str_field created "id" -> int_field item "version" = int_field created "version" ->
      shown_contact key (mb_id box) item = Some row.
Proof.
  intros Hk Hn Hid Hu Hed fields Hf1 Hf2 Hf3 Hname Hemail Hc Hr.
  destruct (contact_opens key nonce id (mb_id box) fields Hk Hn Hid Hf1 Hf2 Hf3) as (env & E & D).
  rewrite (run_save_contact nonce w t s box key Hu Hname Hemail). fold fields.
  set (s1 := on_contacts _ s).
  rewrite run_catch. unfold save_contact_body. rewrite run_bind. cbn [wait run]. rewrite E, bind_lift, run_bind.
  cbn [gets run]. replace (editingContact (contactsPane s1)) with (@None DisplayContact) by (symmetry; exact Hed).
  rewrite run_bind. unfold create_contact, createContact, send. rewrite run_bind, run_apiRequest. cbv zeta.
  rewrite Hr.
  set (row := {| c_id := str_field created "id"; c_version := int_field created "version"; c_fields := fields |}).
  exists env, row, (on_contacts (startEditContact None)
                      (on_contacts (fun x => set_contacts (row :: contacts x) x) s1)).
  split; [by destruct created|]. split_and!; try done.
  intros item Hi Ee Ei Ev. unfold shown_contact. rewrite Ee, D, Ei, Ev. by destruct item.
Qed.

End ContactRoundTrip.

(** ** Concrete runs *)

#[local] Existing Instances toy_crypto toy_laws ascii_unicode digit_dates sample_env.

Definition typed_contact_app : App :=
  on_contacts (fun x => set_contactName (js " Ada ") (set_contactEmail (js "ada@x.org") x)) unlocked_app.

Lemma save_then_open_contact_witness :
  exists row s' t',
    run (always created_reply) no_trace typed_contact_app (handleSaveContact nonce0) = (Ok tt, s', t') /\
    contacts (contactsPane s') = [row] /\ name (c_fields row) = js "Ada".
Proof.
  destruct (save_then_open_contact nonce0 key0 id0 (always created_reply) no_trace typed_contact_app box_of_id0
    created_reply) as (env & row & s' & R & _ & C & F & _).
  - exact key0_ok.
  - exact nonce0_ok.
  - exact box0_ok.
  - vm_compute; reflexivity.
  - reflexivity.
  - by_decide.
  - by_decide.
  - by_decide.
  - vm_compute; discriminate.
  - vm_compute; reflexivity.
  - discriminate.
  - intros t q. rewrite always_replies. vm_compute. reflexivity.
  - eexists row, s', _. split; [exact R|]. split; [rewrite C; reflexivity|]. rewrite F. vm_compute. reflexivity.
Defined.

Definition editing_contact_app : App :=
  on_contacts (set_editingContact (Some {| c_id := js "c1"; c_version := 3; c_fields := contact0 |}))
    typed_contact_app.

Definition conflict : world :=
  {| respond t q := if jeqb (req_method q) (js "PUT") then Response 409 (js "application/json") (Some [])
                    else json_reply (JObj [(js "contacts", JArr [])]);
     answer _ _ := true |}.

Lemma contact_conflict_text_is_lost_witness :
  contactsError (contactsPane (snd (fst (run conflict no_trace editing_contact_app (handleSaveContact nonce0)))))
    <> Some contact_conflict_text.
Proof.
  eapply (contact_conflict_text_is_lost nonce0 conflict no_trace editing_contact_app box_of_id0 key0).
  - vm_compute; reflexivity.
  - reflexivity.
  - vm_compute; discriminate.
  - vm_compute; reflexivity.
Defined.

(** The conflict branch is the one taken here: nothing is reported at all. *)
Example contact_conflict_is_silent :
  contactsError (contactsPane (snd (fst (run conflict no_trace editing_contact_app (handleSaveContact nonce0)))))
    = None.
Proof. vm_compute. reflexivity. Qed.

Definition sealed_contact : json :=
  JObj [(js "id", JStr (js "c1")); (js "version", JNum (js "1"));
        (js "encrypted_envelope", JStr (match encryptContactEnvelope nonce0 key0 box0 contact0 with
                                        | Ok e => e | Throw _ => [] end))].

(** Locking while contacts load does not stop them: the key is gone and the decrypted
    contacts are shown. *)
Example lock_does_not_stop_contacts :
  let start := fire true openContacts {| state := unlocked_app; tasks := [] |} in
  let c := wake 0 true (fun _ => json_reply (JObj [(js "contacts", JArr [sealed_contact])]))
             (fire true (modify lockMailbox) (wake 0 true (fun _ => json_reply JNull) start)) in
  mailboxKey (custody (state c)) = None /\ map c_fields (contacts (contactsPane (state c))) = [contact0].
Proof. vm_compute. split; reflexivity. Qed.
