(* ===== verification/Organize.v ===== *)
(** * Folders and labels

    Creating, renaming and deleting custom folders and labels in webmail/src/App.tsx.
    The folder and the label handlers are the same code over different signals and
    endpoints; [Kind] is that difference. *)

From S2P Require Import Prelude JsString Encoding Json Display Wasm MessageCrypto Client Api AppState.
From S2P Require Import MailView Reading MailboxData.

(** [a.localeCompare(b)] orders names by the browser's locale. *)
Class Collation := { localeCompare : jstr -> jstr -> Z }.

(** What ECMAScript requires of it: a consistent comparison (ECMA-262 22.1.3.12). *)
Class CollationLaws `{Collation} := {
  compare_total : forall a b, localeCompare a b <= 0 \/ localeCompare b a <= 0;
  compare_trans : forall a b c, localeCompare a b <= 0 -> localeCompare b c <= 0 -> localeCompare a c <= 0;
}.

(** The signals and endpoints of folders or of labels. *)
Record Kind := {
  k_title : string;
  k_items : Mail -> list Named;
  k_set_items : list Named -> Mail -> Mail;
  k_editing : Mail -> option Named;
  k_set_editing : option Named -> Mail -> Mail;
  k_active : Mail -> option Named;
  k_set_active : option Named -> Mail -> Mail;
  k_failed_save : jstr;
  k_failed_delete : jstr;
}.

Definition Folders : Kind := {|
  k_title := "Folder"; k_items := customFolders; k_set_items := set_customFolders;
  k_editing := folderToEdit; k_set_editing := set_folderToEdit;
  k_active := activeCustomFolder; k_set_active := set_activeCustomFolder;
  k_failed_save := js "Failed to save folder"; k_failed_delete := js "Failed to delete folder: " |}.

Definition Labels : Kind := {|
  k_title := "Label"; k_items := labels; k_set_items := set_labels;
  k_editing := labelToEdit; k_set_editing := set_labelToEdit;
  k_active := activeLabel; k_set_active := set_activeLabel;
  k_failed_save := js "Failed to save label"; k_failed_delete := js "Failed to delete label: " |}.

Definition same_named (i : jstr) (o : option Named) : bool :=
  match o with Some n => jeqb (n_id n) i | None => false end.

Section Organize.
Context `{Unicode} `{Env} `{Collation}.

Definition by_name (a b : Named) : option Z := Some (localeCompare (n_name a) (n_name b)).

(** [f.name.trim().toLowerCase() === cleanName.toLowerCase()] *)
Definition same_name (cleanName : jstr) (n : Named) : bool := jeqb (name_key n) (toLowerCase cleanName).

Definition duplicate_name (cleanName : jstr) (editing : option Named) (l : list Named) : bool :=
  existsb (fun n => same_name cleanName n && negb (same_named (n_id n) editing)) l.

(** The entry a reply describes; reading a property of a missing one throws. *)
Definition named_reply (v : option json) : outcome Named :=
  match v with None | Some JNull => throw "TypeError" | Some v => Ok (named_of v) end.

Definition toast_name (K : Kind) (cleanName : jstr) (what : string) : Mail -> Mail :=
  showToast (js (k_title K) ++ js " " ++ quote cleanName ++ js what).

Definition commit_update (K : Kind) (editing updated : Named) (cleanName : jstr) (x : Mail) : Mail :=
  let x := k_set_items K (js_sort by_name
             (map (fun n => if jeqb (n_id n) (n_id editing) then updated else n) (k_items K x))) x in
  let x := if same_named (n_id editing) (k_active K x) then k_set_active K (Some updated) x else x in
  toast_name K cleanName " updated" (k_set_editing K None x).

Definition commit_create (K : Kind) (created : Named) (cleanName : jstr) (x : Mail) : Mail :=
  let prev := k_items K x in
  let exists_ := existsb (fun n => jeqb (n_id n) (n_id created) || same_name cleanName n) prev in
  toast_name K cleanName " created"
    (if exists_ then x else k_set_items K (js_sort by_name (prev ++ [created])) x).

Definition save_named (K : Kind) (create : jstr -> json -> prog App (option json))
    (update : jstr -> jstr -> json -> prog App (option json)) (name : jstr) (extra : list (jstr * json))
    : prog App unit :=
  s ← gets (fun s => s);
  match selectedMailbox (custody s) with
  | None => skip
  | Some box =>
      let editing := k_editing K (mail s) in
      let cleanName := trim name in
      let payload := JObj (str_member "name" cleanName :: extra) in
      if negb (truthy cleanName) then skip
      else if duplicate_name cleanName editing (k_items K (mail s)) then
        on_mail_prog (toast_name K cleanName " already exists")
      else
        pcatch
          (match editing with
           | Some editing =>
               v ← update (mb_id box) (n_id editing) payload;
               updated ← lift (named_reply v);
               on_mail_prog (commit_update K editing updated cleanName)
           | None =>
               v ← create (mb_id box) payload;
               created ← lift (named_reply v);
               on_mail_prog (commit_create K created cleanName)
           end)
          (fun e => on_mail_prog (showToast (or_default (message e) (k_failed_save K))))
  end.

Definition handleSaveFolder (name : jstr) (parentId : option json) (notify : option bool) : prog App unit :=
  save_named Folders createFolder updateFolder name
    (opt_member "parent_id" parentId ++ opt_member "notify" (option_map JBool notify)).

Definition handleSaveLabel (name color colorName : jstr) : prog App unit :=
  save_named Labels createLabel updateLabel name [str_member "color" color; str_member "color_name" colorName].

Definition handleOpenEditFolder (folder : Named) : Mail -> Mail := set_folderToEdit (Some folder).
Definition handleOpenEditLabel (label : Named) : Mail -> Mail := set_labelToEdit (Some label).

(** ** Deleting *)

Definition delete_named (K : Kind) (delete : jstr -> jstr -> prog App unit) (n : Named) (question : jstr)
    (commit : Mail -> Mail) : prog App unit :=
  box ← gets (fun s => selectedMailbox (custody s));
  match box with
  | None => skip
  | Some box =>
      yes ← confirm question;
      if negb yes then skip
      else
        pcatch
          (_ ← delete (mb_id box) (n_id n);
           on_mail_prog (fun x => toast_name K (n_name n) " deleted" (commit x)))
          (fun e => alert (k_failed_delete K ++ or_default (message e) (js "unknown error")))
  end.

Definition drop_named (K : Kind) (i : jstr) (x : Mail) : Mail :=
  k_set_items K (List.filter (fun n => negb (jeqb (n_id n) i)) (k_items K x)) x.

(** Contained messages move to the inbox. *)
Definition commit_delete_folder (i : jstr) (x : Mail) : Mail :=
  let x := drop_named Folders i x in
  let x := if same_named i (activeCustomFolder x)
           then set_currentFolder (js "inbox") (set_activeCustomFolder None x) else x in
  update_messages (in_folder_id i) (fun m => set_folder (js "inbox") (set_folderId None m)) x.

Definition drop_label_id (i : jstr) (m : DisplayMessage) : DisplayMessage :=
  match labelIds m with
  | Some ls => set_labelIds (Some (List.filter (fun l => negb (jeqb l i)) ls)) m
  | None => m
  end.

Definition commit_delete_label (i : jstr) (x : Mail) : Mail :=
  let x := drop_named Labels i x in
  let x := if same_named i (activeLabel x) then set_activeLabel None x else x in
  set_messages (map (drop_label_id i) (messages x)) x.

Definition handleDeleteFolder (folder : Named) : prog App unit :=
  delete_named Folders deleteFolder folder
    (js "Delete folder " ++ quote (n_name folder) ++ js "? Contained messages will return to your Inbox.")
    (commit_delete_folder (n_id folder)).

Definition handleDeleteLabel (label : Named) : prog App unit :=
  delete_named Labels deleteLabel label (js "Delete label " ++ quote (n_name label) ++ js "?")
    (commit_delete_label (n_id label)).

End Organize.

(** ** Saving keeps ids and names distinct and the list sorted *)

Section OrganizeTheorems.
Context `{Unicode} `{Env} `{CollationLaws}.

Record KindLaws (K : Kind) : Prop := {
  k_items_set x l : k_items K (k_set_items K l x) = l;
  k_items_active x a : k_items K (k_set_active K a x) = k_items K x;
  k_items_editing x a : k_items K (k_set_editing K a x) = k_items K x;
  k_items_toast x t : k_items K (showToast t x) = k_items K x;
  k_messages_set x l : messages (k_set_items K l x) = messages x;
  k_messages_active x a : messages (k_set_active K a x) = messages x;
  k_messages_editing x a : messages (k_set_editing K a x) = messages x;
}.

Lemma folders_laws : KindLaws Folders. Proof. done. Qed.
Lemma labels_laws : KindLaws Labels. Proof. done. Qed.

Definition distinct (l : list Named) : Prop := NoDup (map n_id l) /\ NoDup (map name_key l).

Definition in_order (l : list Named) : Prop :=
  StronglySorted (fun a b => localeCompare (n_name a) (n_name b) <= 0) l.

Lemma distinct_perm l l' : l ≡ₚ l' -> distinct l -> distinct l'.
Proof. intros E [Hi Hn]. split; [rewrite <- (Permutation_map n_id E)|rewrite <- (Permutation_map name_key E)]; done. Qed.

Lemma sorted_by_name l : in_order (js_sort by_name l).
Proof.
  apply js_sort_sorted.
  - intros a b _ _ E. apply Z.leb_le. exact E.
  - intros a b _ _ E. apply Z.leb_gt in E. destruct (compare_total (n_name a) (n_name b)); lia.
  - intros a b c. apply compare_trans.
Qed.

Lemma same_named_iff i o : same_named i o = true <-> exists n, o = Some n /\ n_id n = i.
Proof.
  destruct o as [n|]; cbn; [rewrite jeqb_eq|]; split; [by eauto|by intros (? & [= ->] & ?)|done|by intros (? & ? & ?)].
Qed.

Lemma no_duplicate cleanName editing l n :
  duplicate_name cleanName editing l = false -> n ∈ l ->
  name_key n = toLowerCase cleanName -> exists e, editing = Some e /\ n_id e = n_id n.
Proof.
  unfold duplicate_name. intros E Hn Hk. apply same_named_iff. apply not_false_iff_true. intros Hs.
  apply not_true_iff_false in E. apply E, existsb_exists. exists n. rewrite <- list_elem_of_In. split; [done|].
  unfold same_name. rewrite Hk, (proj2 (jeqb_eq _ _) eq_refl), Hs. done.
Qed.

Lemma map_replace {A} (f : Named -> A) (e u : Named) l :
  f u = f e -> map f (map (fun n => if jeqb (n_id n) (n_id e) then u else n) l) =
               map (fun n => if jeqb (n_id n) (n_id e) then f e else f n) l.
Proof. intros E. rewrite map_map. apply map_ext. intros n. by destruct (jeqb _ _). Qed.

Lemma distinct_replace e u l :
  n_id u = n_id e -> (forall n, n ∈ l -> name_key n = name_key u -> n_id n = n_id e) ->
  distinct l -> distinct (map (fun n => if jeqb (n_id n) (n_id e) then u else n) l).
Proof.
  intros Hid Hname [Hi Hn]. split.
  - rewrite map_replace by done. erewrite map_ext; [exact Hi|]. intros n. cbv beta.
    destruct (jeqb (n_id n) (n_id e)) eqn:E; [by apply jeqb_eq in E|done].
  - clear Hid. induction l as [|n l IH]; [constructor|]. cbn [map] in *.
    apply NoDup_cons in Hi as [Hi1 Hi2]. apply NoDup_cons in Hn as [Hn1 Hn2].
    apply NoDup_cons. split; [|apply IH; auto; intros m Hm; apply Hname; set_solver].
    intros Hin. apply list_elem_of_fmap in Hin as (m' & Em & Hm'). apply list_elem_of_fmap in Hm' as (m & -> & Hm).
    destruct (jeqb (n_id m) (n_id e)) eqn:E1; [apply jeqb_eq in E1|];
      (destruct (jeqb (n_id n) (n_id e)) eqn:E2; [apply jeqb_eq in E2|]).
    + apply Hi1. rewrite E2, <- E1. by apply list_elem_of_fmap_2.
    + assert (n_id n = n_id e) by (apply Hname; [set_solver|done]). apply jeqb_false in E2. done.
    + assert (n_id m = n_id e) by (apply Hname; [set_solver|done]). apply jeqb_false in E1. done.
    + apply Hn1. rewrite Em. by apply list_elem_of_fmap_2.
Qed.

Lemma distinct_add c cleanName l :
  name_key c = toLowerCase cleanName ->
  existsb (fun n => jeqb (n_id n) (n_id c) || same_name cleanName n) l = false ->
  distinct l -> distinct (l ++ [c]).
Proof.
  intros Hc E [Hi Hn]. apply not_true_iff_false in E.
  assert (Hnew : forall n, n ∈ l -> n_id n <> n_id c /\ name_key n <> name_key c).
  { intros n Hin. split; intros Heq; apply E, existsb_exists; exists n; (split; [by apply list_elem_of_In|]);
      apply orb_true_iff; [left; by apply jeqb_eq|right]. unfold same_name. by rewrite jeqb_eq, Heq. }
  split; rewrite map_app; cbn [map]; apply NoDup_app; split_and!; try done; try apply NoDup_singleton;
    intros k Hk; apply list_elem_of_fmap in Hk as (n & -> & Hin); destruct (Hnew n Hin); set_solver.
Qed.

(** What a save may do to the list, given the entry the server returned. *)
Definition saved_list (K : Kind) (cleanName : jstr) (x y : Mail) : Prop :=
  k_items K y = k_items K x \/
  (in_order (k_items K y) /\ exists u, name_key u = toLowerCase cleanName /\
   match k_editing K x with
   | Some e => k_items K y ≡ₚ map (fun n => if jeqb (n_id n) (n_id e) then u else n) (k_items K x)
   | None => k_items K y ≡ₚ k_items K x ++ [u]
   end).

(** The entry of a reply is the one asked for. *)
Definition echoes (w : world) (cleanName : jstr) (editing : option Named) : Prop :=
  forall t q v u, api_reply (respond w t q) = Ok v -> named_reply v = Ok u ->
    name_key u = toLowerCase cleanName /\
    match editing with Some e => n_id u = n_id e | None => True end.

Definition save_post (K : Kind) (cleanName : jstr) (s : App) (t : trace) (out : outcome unit * App * trace) : Prop :=
  let '(r, s', t') := out in
  r = Ok tt /\ messages (mail s') = messages (mail s) /\ distinct (k_items K (mail s')) /\
  saved_list K cleanName (mail s) (mail s') /\ (length (sent t') <= S (length (sent t)))%nat /\
  (duplicate_name cleanName (k_editing K (mail s)) (k_items K (mail s)) = true -> t' = t).

Lemma commit_update_spec K e u cleanName x :
  KindLaws K -> distinct (k_items K x) ->
  name_key u = toLowerCase cleanName -> n_id u = n_id e ->
  duplicate_name cleanName (Some e) (k_items K x) = false ->
  let y := commit_update K e u cleanName x in
  let l := map (fun n => if jeqb (n_id n) (n_id e) then u else n) (k_items K x) in
  messages y = messages x /\ k_items K y = js_sort by_name l /\ distinct (k_items K y).
Proof.
  intros L Hd Hu Hid Hdup y l.
  assert (Ey : k_items K y = js_sort by_name l).
  { unfold y, commit_update, toast_name. destruct (same_named _ _);
      by rewrite (k_items_toast K L), (k_items_editing K L), ?(k_items_active K L), (k_items_set K L). }
  split_and!; [|done|].
  - unfold y, commit_update, toast_name. cbn [showToast messages set_toastMessage].
    destruct (same_named _ _); by rewrite (k_messages_editing K L), ?(k_messages_active K L), (k_messages_set K L).
  - rewrite Ey. eapply distinct_perm; [symmetry; apply js_sort_perm|]. apply distinct_replace; [done| |done].
    intros n Hn Hk. destruct (no_duplicate cleanName (Some e) (k_items K x) n) as (e' & [= <-] & ?); congruence.
Qed.

Lemma commit_create_spec K u cleanName x :
  KindLaws K -> distinct (k_items K x) -> name_key u = toLowerCase cleanName ->
  let y := commit_create K u cleanName x in
  messages y = messages x /\ distinct (k_items K y) /\
  (k_items K y = k_items K x \/ k_items K y = js_sort by_name (k_items K x ++ [u])).
Proof.
  intros L Hd Hu y. unfold y, commit_create, toast_name. rewrite (k_items_toast K L).
  cbn [showToast messages set_toastMessage].
  destruct (existsb _ _) eqn:E; [by auto|]. rewrite (k_items_set K L), (k_messages_set K L).
  split_and!; [done| |by right]. eapply distinct_perm; [symmetry; apply js_sort_perm|]. by eapply distinct_add.
Qed.

Lemma save_named_spec K create update name extra w t s :
  KindLaws K ->
  (forall box body, exists path m, create box body = send m path (stringified body)) ->
  (forall box i body, exists path m, update box i body = send m path (stringified body)) ->
  distinct (k_items K (mail s)) -> echoes w (trim name) (k_editing K (mail s)) ->
  save_post K (trim name) s t (run w t s (save_named K create update name extra)).
Proof.
  intros L Hcreate Hupdate Hd He.
  assert (Hsame : forall s', messages (mail s') = messages (mail s) -> k_items K (mail s') = k_items K (mail s) ->
    forall t', (length (sent t') <= S (length (sent t)))%nat ->
    (duplicate_name (trim name) (k_editing K (mail s)) (k_items K (mail s)) = true -> t' = t) ->
    save_post K (trim name) s t (Ok tt, s', t')).
  { intros s' Hm Hi t' Ht Hdup. split_and!; try done; [by rewrite Hi|by left]. }
  unfold save_named. rewrite run_bind. cbn [gets run]. destruct (selectedMailbox (custody s)) as [box|];
    [|by apply Hsame; auto].
  cbv zeta. destruct (negb (truthy (trim name))); [by apply Hsame; auto|].
  destruct (duplicate_name _ _ _) eqn:Edup.
  { rewrite run_on_mail. apply Hsame; [done| |by auto|done]. apply (k_items_toast K L). }
  assert (Hfail : forall e t', (length (sent t') <= S (length (sent t)))%nat ->
    save_post K (trim name) s t (run w t' s (on_mail_prog (showToast (or_default (message e) (k_failed_save K)))))).
  { intros e t' Ht. rewrite run_on_mail. apply Hsame; [done|apply (k_items_toast K L)|done|congruence]. }
  assert (Hask : forall q, (length (sent (ask q t)) <= S (length (sent t)))%nat)
    by (intros; cbn; rewrite length_app; simpl; lia).
  rewrite run_catch. destruct (k_editing K (mail s)) as [e|] eqn:Ee; rewrite run_bind.
  - destruct (Hupdate (mb_id box) (n_id e) (JObj (str_member "name" (trim name) :: extra))) as (path & m & ->).
    unfold send. rewrite run_apiRequest. cbv zeta. match goal with |- context [api_reply (respond w t ?q)] => set (q0 := q) end.
    destruct (api_reply (respond w t q0)) as [v|er] eqn:Er; [|apply Hfail, Hask].
    rewrite bind_lift. destruct (named_reply v) as [u|er] eqn:Eu; [|apply Hfail, Hask].
    destruct (He _ _ _ _ Er Eu) as [Hk Hid]. rewrite run_on_mail.
    destruct (commit_update_spec K e u (trim name) (mail s)) as (C1 & C2 & C3); [done..|].
    split_and!; [done|exact C1|exact C3| |apply Hask|congruence].
    right. rewrite Ee. cbn [mail on_mail set_mail]. rewrite C2. split; [apply sorted_by_name|]. exists u. split; [done|].
    apply js_sort_perm.
  - destruct (Hcreate (mb_id box) (JObj (str_member "name" (trim name) :: extra))) as (path & m & ->).
    unfold send. rewrite run_apiRequest. cbv zeta. match goal with |- context [api_reply (respond w t ?q)] => set (q0 := q) end.
    destruct (api_reply (respond w t q0)) as [v|er] eqn:Er; [|apply Hfail, Hask].
    rewrite bind_lift. destruct (named_reply v) as [u|er] eqn:Eu; [|apply Hfail, Hask].
    destruct (He _ _ _ _ Er Eu) as [Hk _]. rewrite run_on_mail.
    destruct (commit_create_spec K u (trim name) (mail s)) as (C1 & C2 & C3); [done..|].
    split_and!; [done|exact C1|exact C2| |apply Hask|congruence].
    destruct C3 as [C3|C3]; [by left|right]. rewrite Ee. cbn [mail on_mail set_mail]. rewrite C3.
    split; [apply sorted_by_name|]. exists u. split; [done|]. apply js_sort_perm.
Qed.

(** Saving a folder or a label keeps the ids and the names (up to case and
    surrounding white space) of the list distinct and changes no message; a duplicate
    name is refused without a request; otherwise at most one request is sent, and the
    list is unchanged or sorted by name with the entry added or replaced - provided that
    the server answers with the entry it was sent. *)
Theorem save_keeps_names_distinct w t s name parentId notify color colorName :
  (distinct (customFolders (mail s)) -> echoes w (trim name) (folderToEdit (mail s)) ->
   save_post Folders (trim name) s t (run w t s (handleSaveFolder name parentId notify))) /\
  (distinct (labels (mail s)) -> echoes w (trim name) (labelToEdit (mail s)) ->
   save_post Labels (trim name) s t (run w t s (handleSaveLabel name color colorName))).
Proof.
  split; intros Hd He; apply save_named_spec; try done; intros;
    unfold createFolder, updateFolder, createLabel, updateLabel; eauto.
Qed.

(** ** Deleting loses no message *)

Lemma run_delete_named K delete n question commit w t s :
  (forall box i, exists path, delete box i = void (send "DELETE" path NoBody)) ->
  let '(r, s', t') := run w t s (delete_named K delete n question commit) in
  r = Ok tt /\
  (s' = s \/
   (selectedMailbox (custody s) <> None /\ answer w t question = true /\
    s' = on_mail (fun x => toast_name K (n_name n) " deleted" (commit x)) s)) /\
  (answer w t question = false -> sent t' = sent t).
Proof.
  intros Hdel. unfold delete_named. rewrite run_bind. cbn [gets run].
  destruct (selectedMailbox (custody s)) as [box|]; [|by cbn; auto].
  rewrite run_bind. cbn [confirm run]. destruct (answer w t question) eqn:Ea; cbn [negb]; [|by cbn; auto].
  destruct (Hdel (mb_id box) (n_id n)) as [path ->]. rewrite run_catch, run_bind. unfold void, send.
  rewrite run_bind, run_apiRequest. destruct (api_reply _) as [v|e]; cbn; split_and!; auto; done.
Qed.

Definition in_inbox_view (x : Mail) (m : DisplayMessage) : Prop := matchFolder (onSelectFolder (js "inbox") x) m = true.

Lemma in_folder_reset i m :
  in_folder_id i (if in_folder_id i m then set_folder (js "inbox") (set_folderId None m) else m) = false.
Proof. destruct (in_folder_id i m) eqn:E; [done|exact E]. Qed.

Lemma label_dropped i m : has_label i (drop_label_id i m) = false.
Proof.
  unfold has_label, drop_label_id. destruct (labelIds m) as [ls|] eqn:E; [|by rewrite E].
  cbn [labelIds set_labelIds]. apply bool_decide_eq_false. rewrite list_elem_of_In, filter_In, jeqb_refl. by intros [_ ?].
Qed.

Lemma not_listed K i x :
  KindLaws K -> Forall (fun n => n_id n <> i) (k_items K (drop_named K i x)).
Proof.
  intros L. unfold drop_named. rewrite (k_items_set K L). apply List.Forall_forall. intros n Hn.
  apply filter_In in Hn as [_ Hn]. apply negb_true_iff in Hn. by apply jeqb_false in Hn.
Qed.

(** Deleting a folder or a label deletes no message: without the user's consent
    nothing is sent; unless the server confirms, nothing changes; and then the entry is
    gone and no longer selected, every message is still there - those of the folder in
    the inbox view, those with the label without it - and all others are untouched. *)
Theorem delete_keeps_messages w t s n :
  (let '(r, s', t') := run w t s (handleDeleteFolder n) in
   let i := n_id n in
   r = Ok tt /\
   (s' = s \/
    (Forall (fun f => n_id f <> i) (customFolders (mail s')) /\ same_named i (activeCustomFolder (mail s')) = false /\
     messages (mail s') = map (fun m => if in_folder_id i m then set_folder (js "inbox") (set_folderId None m) else m)
                            (messages (mail s)) /\
     Forall (fun m => in_folder_id i m = false) (messages (mail s')) /\
     (forall m, m ∈ messages (mail s) -> in_folder_id i m = true ->
        exists m', m' ∈ messages (mail s') /\ id m' = id m /\ in_inbox_view (mail s') m')))) /\
  (let '(r, s', t') := run w t s (handleDeleteLabel n) in
   let i := n_id n in
   r = Ok tt /\
   (s' = s \/
    (Forall (fun l => n_id l <> i) (labels (mail s')) /\ same_named i (activeLabel (mail s')) = false /\
     messages (mail s') = map (drop_label_id i) (messages (mail s)) /\
     Forall (fun m => has_label i m = false) (messages (mail s'))))).
Proof.
  split.
  - pose proof (run_delete_named Folders deleteFolder n
      (js "Delete folder " ++ quote (n_name n) ++ js "? Contained messages will return to your Inbox.")
      (commit_delete_folder (n_id n)) w t s) as R.
    unfold handleDeleteFolder. destruct (run w t s _) as [[r s'] t']. cbv zeta.
    destruct R as (-> & [->|(_ & _ & ->)] & _); [intros; unfold deleteFolder; eauto|by auto|].
    split; [done|]. right.
    assert (Ef : customFolders (commit_delete_folder (n_id n) (mail s)) = k_items Folders (drop_named Folders (n_id n) (mail s)))
      by (unfold commit_delete_folder; by destruct (same_named _ _)).
    assert (Em : messages (commit_delete_folder (n_id n) (mail s)) =
      map_where (in_folder_id (n_id n)) (fun m => set_folder (js "inbox") (set_folderId None m)) (messages (mail s)))
      by (unfold commit_delete_folder; by destruct (same_named _ _)).
    assert (Ea : same_named (n_id n) (activeCustomFolder (commit_delete_folder (n_id n) (mail s))) = false).
    { unfold commit_delete_folder. cbv zeta.
      destruct (same_named _ (activeCustomFolder (drop_named _ _ _))) eqn:E; [done|exact E]. }
    cbn [mail on_mail set_mail toast_name showToast customFolders activeCustomFolder messages set_toastMessage].
    rewrite Ef, Em. split_and!; [apply not_listed, folders_laws|exact Ea|done| |].
    + apply Forall_fmap, Forall_true. intros m. apply in_folder_reset.
    + intros m Hm Hin. exists (set_folder (js "inbox") (set_folderId None m)). split_and!; try done.
      apply list_elem_of_fmap. exists m. by rewrite Hin.
  - pose proof (run_delete_named Labels deleteLabel n (js "Delete label " ++ quote (n_name n) ++ js "?")
      (commit_delete_label (n_id n)) w t s) as R.
    unfold handleDeleteLabel. destruct (run w t s _) as [[r s'] t']. cbv zeta.
    destruct R as (-> & [->|(_ & _ & ->)] & _); [intros; unfold deleteLabel; eauto|by auto|].
    split; [done|]. right.
    cbn [mail on_mail set_mail toast_name showToast labels activeLabel messages set_toastMessage].
    assert (El : labels (commit_delete_label (n_id n) (mail s)) = k_items Labels (drop_named Labels (n_id n) (mail s)))
      by (unfold commit_delete_label; by destruct (same_named _ _)).
    assert (Em : messages (commit_delete_label (n_id n) (mail s)) = map (drop_label_id (n_id n)) (messages (mail s)))
      by (unfold commit_delete_label; by destruct (same_named _ _)).
    assert (Ea : same_named (n_id n) (activeLabel (commit_delete_label (n_id n) (mail s))) = false).
    { unfold commit_delete_label. cbv zeta.
      destruct (same_named _ (activeLabel (drop_named _ _ _))) eqn:E; [done|exact E]. }
    rewrite El, Em. split_and!; [apply not_listed, labels_laws|exact Ea|done|].
    apply Forall_fmap, Forall_true. intros m. apply label_dropped.
Qed.

End OrganizeTheorems.

(** ** Concrete runs *)

#[local] Existing Instances ascii_unicode sample_env.

(** Unit-by-unit comparison. *)
Fixpoint unit_compare (a b : jstr) : Z :=
  match a, b with
  | [], [] => 0
  | [], _ :: _ => -1
  | _ :: _, [] => 1
  | u :: a, v :: b => if u <? v then -1 else if v <? u then 1 else unit_compare a b
  end.

Definition unit_order : Collation := {| localeCompare := unit_compare |}.

Lemma unit_order_laws : @CollationLaws unit_order.
Proof.
  split; cbn.
  - induction a as [|u a IH]; intros [|v b]; cbn; try lia.
    destruct (Z.ltb_spec u v), (Z.ltb_spec v u); try lia. apply IH.
  - induction a as [|u a IH]; intros [|v b] [|x c]; cbn; try lia.
    destruct (Z.ltb_spec u v), (Z.ltb_spec v u), (Z.ltb_spec v x), (Z.ltb_spec x v), (Z.ltb_spec u x),
      (Z.ltb_spec x u); try lia. apply IH.
Qed.

#[local] Existing Instances unit_order unit_order_laws digit_dates.

(** A message moved to the trash out of a folder keeps its folder; deleting the folder
    takes it out of the trash again, into the inbox. *)
Example deleting_a_folder_restores_its_trash :
  let x := handleTrashMessage row3 sample_mail in
  let y := commit_delete_folder (js "cf") x in
  map id (filteredMessages (onSelectFolder (js "trash") x)) = [js "m3"; js "m4"] /\
  map id (filteredMessages (onSelectFolder (js "inbox") y)) = [js "m1"; js "m2"; js "m3"].
Proof. vm_compute. split; reflexivity. Qed.

Definition echo_folder : world :=
  {| respond _ _ := json_reply (JObj [(js "id", JStr (js "n1")); (js "name", JStr (js "Bills"))]);
     answer _ _ := true |}.

Lemma save_keeps_names_distinct_witness :
  let s' := snd (fst (run echo_folder no_trace sample_app (handleSaveFolder (js " Bills ") None None))) in
  distinct (customFolders (mail s')) /\ map n_name (customFolders (mail s')) = [js "Bills"; js "Projects"].
Proof.
  destruct (save_keeps_names_distinct echo_folder no_trace sample_app (js " Bills ") None None [] []) as [F _].
  unfold save_post in F. destruct (run echo_folder no_trace sample_app _) as [[r s'] t'] eqn:E.
  destruct F as (_ & _ & D & _).
  - split; by_decide.
  - intros t q v u Er Eu.
    assert (Ev : api_reply (respond echo_folder t q) =
      Ok (Some (JObj [(js "id", JStr (js "n1")); (js "name", JStr (js "Bills"))]))) by (vm_compute; reflexivity).
    rewrite Ev in Er. injection Er as <-. injection Eu as <-. split; [vm_compute; reflexivity|done].
  - split; [exact D|]. apply (f_equal (fun x => customFolders (mail (snd (fst x))))) in E. cbn [fst snd] in *.
    rewrite <- E. vm_compute. reflexivity.
Defined.
