(* ===== verification/Session.v ===== *)
(** * The session

    Accounts, keys and the browser stores in webmail/src/App.tsx: starting a session
    ([bootstrapSession]), restoring it when the page loads, switching between connected
    accounts, other tabs, and signing out.

    The list of accounts is stored as JSON; it is read back entry by entry as the
    component writes it, a missing field being read as the empty string. *)

From S2P Require Import Prelude JsString Encoding Json Display Wasm MessageCrypto Client Api AppState.
From S2P Require Import MailView Reading MailboxData Outbound ComposeMail.

Definition sk_item (i : jstr) : jstr := js "byos_mailbox_sk_" ++ i.
Definition skey_item (i : jstr) : jstr := js "byos_mailbox_skey_" ++ i.
Definition token_item : jstr := js "byos_active_session_token".
Definition impersonation_item : jstr := js "byos_impersonation_token".
Definition accounts_item : jstr := js "byos_connected_accounts".

(** ** Connected accounts *)

Definition account_json (a : ConnectedAccount) : json :=
  JObj [str_member "id" (acc_id a); str_member "email" (acc_email a); str_member "displayName" (displayName a);
        str_member "role" (acc_role a); str_member "privacyMode" (privacyMode a);
        str_member "sessionToken" (sessionToken a); str_member "mailboxSkHex" (mailboxSkHex a);
        str_member "searchKeyHex" (searchKeyHex a)].

Definition account_of (v : json) : ConnectedAccount := {|
  acc_id := str_field v "id"; acc_email := str_field v "email"; displayName := str_field v "displayName";
  acc_role := str_field v "role"; privacyMode := str_field v "privacyMode";
  sessionToken := str_field v "sessionToken"; mailboxSkHex := str_field v "mailboxSkHex";
  searchKeyHex := str_field v "searchKeyHex" |}.

Definition accounts_text (l : list ConnectedAccount) : jstr := JSON_stringify (JArr (map account_json l)).

(** [JSON.parse] of the stored text; anything but an array is no list. *)
Definition accounts_of (text : jstr) : list ConnectedAccount :=
  match JSON_parse text with Ok (JArr xs) => map account_of xs | _ => [] end.

(** [{ ...a, mailboxSkHex: "", searchKeyHex: "" }] *)
Definition without_keys (a : ConnectedAccount) : ConnectedAccount := {|
  acc_id := acc_id a; acc_email := acc_email a; displayName := displayName a; acc_role := acc_role a;
  privacyMode := privacyMode a; sessionToken := sessionToken a; mailboxSkHex := []; searchKeyHex := [] |}.

(** [sessionStorage.getItem(k) || localStorage.getItem(k)] *)
Definition saved_accounts (s : App) : jstr :=
  or_default (default [] (session s !! accounts_item)) (default [] (local s !! accounts_item)).

(** The tab keeps the keys, the durable copy does not. *)
Definition save_accounts (l : list ConnectedAccount) (s : App) : App :=
  on_custody (set_connectedAccounts l)
    (set_local_item accounts_item (accounts_text (map without_keys l))
      (set_item accounts_item (accounts_text l) s)).

Section Session.
Context `{Crypto} `{Unicode} `{Dates} `{Env}.

Definition same_account (a b : ConnectedAccount) : bool :=
  jeqb (acc_id a) (acc_id b) || jeqb (toLowerCase (acc_email a)) (toLowerCase (acc_email b)).

(** The account in front, and no other entry for it. *)
Definition merge_account (a : ConnectedAccount) (l : list ConnectedAccount) : list ConnectedAccount :=
  a :: List.filter (fun b => negb (same_account b a)) l.

(** ** Signatures in the settings *)

Definition refreshSignature (boxId : option jstr) (s : App) : App :=
  on_prefs (fun p => set_signatureSaved false (set_signatureText
    (match boxId with Some i => loadSignature i (local s) | None => [] end) p)) s.

(** The timer that clears [signatureSaved] again is left out. *)
Definition handleSaveSignature (s : App) : App :=
  match selectedMailbox (custody s) with
  | None => s
  | Some box =>
      let s := set_local (saveSignature (mb_id box) (signatureText (prefs s)) (local s)) s in
      on_prefs (fun p => set_signatureSaved true (set_signatureText (loadSignature (mb_id box) (local s)) p)) s
  end.

(** ** Starting a session *)

Definition box_of (v : json) : Mailbox := {|
  mb_id := str_field v "id"; mb_local_part := str_field v "local_part"; mb_domain_id := str_field v "domain_id";
  mb_mode := str_field v "mode"; mb_wrapped_sk_user := get_str v (js "wrapped_sk_user") |}.

Definition user_of (v : json) : UserMe := {|
  u_id := get_str v (js "id"); u_user_id := str_field v "user_id"; u_email := str_field v "email";
  u_org_id := str_field v "org_id"; u_role := str_field v "role"; u_display_name := get_str v (js "display_name");
  u_mailbox_id := get_str v (js "mailbox_id"); u_mailbox_local_part := get_str v (js "mailbox_local_part");
  u_mailbox_mode := get_str v (js "mailbox_mode"); u_wrapped_sk_user := get_str v (js "wrapped_sk_user") |}.

(** [a || b] of two optional strings. *)
Definition or_opt (a b : option jstr) : option jstr := if truthy_opt a then a else b.

Definition find_box (i : jstr) (boxes : list Mailbox) : option Mailbox :=
  List.find (fun b => jeqb (mb_id b) i) boxes.

(** The user's own mailbox, the impersonated one, or the first. *)
Definition target_box (user : UserMe) (boxes : list Mailbox) (c : Custody) : option Mailbox :=
  let bound :=
    match u_mailbox_id user with
    | Some i =>
        if truthy i then
          match find_box i boxes with
          | Some b => Some b
          | None =>
              if truthy_opt (u_mailbox_local_part user) then
                Some {| mb_id := i; mb_local_part := default [] (u_mailbox_local_part user); mb_domain_id := [];
                        mb_mode := or_default (default [] (u_mailbox_mode user)) (js "org_managed");
                        mb_wrapped_sk_user := None |}
              else None
          end
        else None
    | None => None
    end in
  let bound :=
    match bound with
    | Some b => Some b
    | None =>
        if isImpersonating c && truthy_opt (impersonateMailboxId c)
        then find_box (default [] (impersonateMailboxId c)) boxes else None
    end in
  match bound with Some b => Some b | None => head boxes end.

Definition select_box (box : Mailbox) (s : App) : App :=
  refreshSignature (Some (mb_id box))
    (on_custody (fun c => set_selectedMailbox (Some box) (set_mailboxes [box] c)) s).

(** The key in memory and in the tab's store. *)
Definition install_key (i : jstr) (sk : bytes) (skHex sKey : jstr) (s : App) : App :=
  set_item (skey_item i) sKey (set_item (sk_item i) skHex
    (on_custody (fun c => set_unlockedBoxId (Some i) (set_searchKey (Some sKey) (set_mailboxKey (Some sk) c))) s)).

(** The key's hex form and the search key, as far as the unwrapping came. *)
Definition unwrap_on_login (box : Mailbox) (password wrappedSk : jstr) : prog App (jstr * jstr) :=
  unwrapped ← pcatch (_ ← wait; sk ← lift (autoUnwrapMailboxKey password wrappedSk); mret (Some sk))
                     (fun _ => mret None);
  match unwrapped with
  | None => mret ([], [])
  | Some sk =>
      let skHex := cp_bytesToHex sk in
      pcatch (sKey ← lift (wasm_derive_search_key skHex);
              _ ← modify (install_key (mb_id box) sk skHex sKey);
              mret (skHex, sKey))
             (fun _ => mret (skHex, []))
  end.

(** After a reload of the page: the key the tab's store holds. *)
Definition restore_key (box : Mailbox) : prog App (jstr * jstr) :=
  s ← gets (fun s => s);
  let i := mb_id box in
  let savedSk := default [] (session s !! sk_item i) in
  let savedSKey := default [] (session s !! skey_item i) in
  if truthy savedSk then
    match inline_hexToBytes savedSk with
    | Ok bytes =>
        _ ← modify (on_custody (fun c =>
              let c := set_mailboxKey (Some bytes) c in
              let c := if truthy savedSKey then set_searchKey (Some savedSKey) c else c in
              set_unlockedBoxId (Some i) c));
        mret (savedSk, savedSKey)
    | Throw _ =>
        _ ← modify (fun s => remove_item (skey_item i) (remove_item (sk_item i) s));
        mret ([], [])
    end
  else mret ([], []).

Definition local_part_of (email : jstr) : jstr := default [] (head (split_on 64 email)).

Definition active_account (user : UserMe) (box : Mailbox) (keys : jstr * jstr) (token : jstr) : ConnectedAccount := {|
  acc_id := mb_id box; acc_email := u_email user;
  displayName := or_default (default [] (u_display_name user))
                   (or_default (mb_local_part box) (local_part_of (u_email user)));
  acc_role := or_default (u_role user) (js "member");
  privacyMode := or_default (mb_mode box) (js "org_managed");
  sessionToken := token; mailboxSkHex := fst keys; searchKeyHex := snd keys |}.

Definition register_account (user : UserMe) (box : Mailbox) (keys : jstr * jstr) (token : option jstr)
    (s : App) : App :=
  let tokenToSave := or_default (default [] token) (default [] (session s !! token_item)) in
  let s := if truthy tokenToSave then set_item token_item tokenToSave s else s in
  save_accounts (merge_account (active_account user box keys tokenToSave) (accounts_of (saved_accounts s))) s.

Definition bootstrapSession (user : UserMe) (password token : option jstr) : prog App unit :=
  _ ← modify (on_custody (set_currentUser (Some user)));
  v ← fetchMailboxes (u_org_id user);
  l ← lift (items v);
  c ← gets custody;
  match target_box user (map box_of l) c with
  | None => modify (on_custody (fun c => set_selectedMailbox None (set_mailboxes [] c)))
  | Some box =>
      _ ← modify (select_box box);
      let wrappedSk := or_opt (u_wrapped_sk_user user) (mb_wrapped_sk_user box) in
      keys ← (if truthy_opt password then
                if truthy_opt wrappedSk then unwrap_on_login box (default [] password) (default [] wrappedSk)
                else mret ([], [])
              else restore_key box);
      _ ← modify (register_account user box keys token);
      loadMailboxData (mb_id box)
  end.

(** ** Several accounts *)

Definition switched_user (a : ConnectedAccount) (c : Custody) : UserMe := {|
  u_id := Some (acc_id a); u_user_id := acc_id a; u_email := acc_email a;
  u_org_id := match currentUser c with Some u => u_org_id u | None => [] end;
  u_role := acc_role a; u_display_name := None; u_mailbox_id := Some (acc_id a);
  u_mailbox_local_part := None; u_mailbox_mode := Some (privacyMode a); u_wrapped_sk_user := None |}.

Definition switch_key (a : ConnectedAccount) (s : App) : App :=
  if truthy (mailboxSkHex a) then
    match inline_hexToBytes (mailboxSkHex a) with
    | Ok bytes => install_key (acc_id a) bytes (mailboxSkHex a) (searchKeyHex a) s
    | Throw _ => s
    end
  else on_custody (fun c => set_unlockedBoxId None (set_searchKey None (set_mailboxKey None c))) s.

Definition account_box (a : ConnectedAccount) : Mailbox :=
  {| mb_id := acc_id a; mb_local_part := local_part_of (acc_email a); mb_domain_id := [];
     mb_mode := privacyMode a; mb_wrapped_sk_user := None |}.

Definition switch_local (a : ConnectedAccount) (s : App) : App :=
  let s := if truthy (sessionToken a) then set_item token_item (sessionToken a) s else s in
  let s := switch_key a s in
  let s := on_custody (fun c =>
    let c := set_mailboxes [account_box a] (set_selectedMailbox (Some (account_box a)) c) in
    set_currentUser (Some (switched_user a c)) c) s in
  save_accounts (merge_account a (connectedAccounts (custody s))) s.

Definition handleSwitchAccount (a : ConnectedAccount) : prog App unit :=
  _ ← modify (on_custody (set_isLoading true));
  _ ← pcatch
        (_ ← modify (switch_local a);
         _ ← loadMailboxData (acc_id a);
         modify (refreshSignature (Some (acc_id a))))
        (fun _ => skip);
  modify (on_custody (set_isLoading false)).

Definition handleAccountAdded (a : ConnectedAccount) : prog App unit :=
  _ ← modify (fun s => save_accounts (merge_account a (connectedAccounts (custody s))) s);
  _ ← spawn (handleSwitchAccount a);
  on_mail_prog (showToast (js "Connected " ++ acc_email a ++ js " successfully")).

(** Leaves the page; the navigation is not part of the model. *)
Definition handleExitImpersonation : prog App unit :=
  _ ← modify (remove_item impersonation_item);
  pcatch logout (fun _ => skip).

(** Another tab changed the durable store. *)
Definition handleStorageChange (key newValue : jstr) (s : App) : App :=
  if jeqb key accounts_item && truthy newValue then
    match JSON_parse newValue with
    | Ok (JArr xs) => set_item accounts_item newValue (on_custody (set_connectedAccounts (map account_of xs)) s)
    | _ => s
    end
  else s.

(** ** Loading the page *)

(** What the address says: whether it is a set-up link, and the impersonated mailbox
    and session. *)
Record Launch := { l_setup : bool; l_impersonate : bool; l_mailbox_id : option jstr; l_session_token : option jstr }.

Definition start_impersonation (q : Launch) (s : App) : App :=
  if l_impersonate q then
    let s := on_custody (fun c => set_impersonateMailboxId (l_mailbox_id q) (set_isImpersonating true c)) s in
    match l_session_token q with
    | Some token => if truthy token then set_item impersonation_item token s else s
    | None => s
    end
  else s.

Definition restore_accounts (s : App) : App :=
  match JSON_parse (saved_accounts s) with
  | Ok (JArr (v :: vs)) =>
      let s := on_custody (set_connectedAccounts (map account_of (v :: vs))) s in
      let s := set_item accounts_item (JSON_stringify (JArr (v :: vs))) s in
      if negb (truthy (default [] (session s !! token_item))) && truthy (str_field v "sessionToken")
      then set_item token_item (str_field v "sessionToken") s else s
  | _ => s
  end.

Definition onMount (q : Launch) : prog App unit :=
  if l_setup q then modify (on_custody (set_isLoading false))
  else
    _ ← modify (fun s => restore_accounts (start_impersonation q s));
    _ ← modify (on_custody (set_isLoading true));
    _ ← pcatch
          (user ← fetchCurrentUser;
           match user with
           | Some v => if json_truthy v then bootstrapSession (user_of v) None None else skip
           | None => skip
           end)
          (fun _ => skip);
    modify (on_custody (set_isLoading false)).

(** ** Signing out *)

Definition is_key_item (k : jstr) : bool :=
  starts_with (js "byos_mailbox_sk_") k || starts_with (js "byos_mailbox_skey_") k.

Definition forget_session (s : App) : App :=
  let s := remove_item accounts_item (remove_item token_item (remove_item impersonation_item s)) in
  let s := on_custody (set_connectedAccounts []) (remove_local_item accounts_item s) in
  let s := set_session (filter (fun kv => is_key_item (fst kv) = false) (session s)) s in
  on_custody (set_isImpersonating false) s.

Definition close_session (s : App) : App :=
  let s := on_compose (fun c => clearComposeForm (set_composeOpen false c)) (lockMailbox s) in
  let s := on_custody (fun c => set_selectedMailbox None (set_mailboxes [] (set_currentUser None c))) s in
  let s := refreshSignature None (on_mail (set_messages []) s) in
  on_login (fun l => set_loginError None (set_loginPassword [] l)) s.

(** [apiRequest("/v1/auth/logout", ...)] with the account's own token. *)
Definition revoke_session (token : jstr) : prog App unit :=
  void (apiRequest (js "/v1/auth/logout")
    {| i_method := Some (js "POST"); i_headers := [(js "Authorization", bearer token)]; i_credentials := None;
       i_body := NoBody |}).

Definition handleLogout (accountIdToLogout : option jstr) (logOutAll : bool) : prog App unit :=
  s ← gets (fun s => s);
  let accounts := connectedAccounts (custody s) in
  let currentBoxId :=
    or_opt (mb_id <$> selectedMailbox (custody s)) (currentUser (custody s) ≫= u_id) in
  let targetId := match accountIdToLogout with Some i => Some i | None => currentBoxId end in
  if logOutAll || negb (truthy_opt targetId) || (length accounts <=? 1)%nat then
    _ ← modify forget_session;
    _ ← pcatch logout (fun _ => skip);
    modify close_session
  else
    let i := default [] targetId in
    let target := List.find (fun a => jeqb (acc_id a) i) accounts in
    let targetEmail := or_default (match target with Some a => acc_email a | None => [] end) (js "Account") in
    _ ← modify (fun s => remove_item (skey_item i) (remove_item (sk_item i) s));
    _ ← (match target with
         | Some a => if truthy (sessionToken a) then pcatch (revoke_session (sessionToken a)) (fun _ => skip) else skip
         | None => skip
         end);
    let remaining := List.filter (fun a => negb (jeqb (acc_id a) i)) accounts in
    _ ← modify (fun s => on_custody (set_connectedAccounts remaining)
          (set_local_item accounts_item (accounts_text remaining)
            (set_item accounts_item (accounts_text remaining) s)));
    match remaining with
    | a :: _ =>
        if bool_decide (targetId = currentBoxId) then
          _ ← handleSwitchAccount a;
          on_mail_prog (showToast (js "Signed out of " ++ targetEmail ++ js ". Switched to " ++ acc_email a ++ js "."))
        else on_mail_prog (showToast (js "Signed out of " ++ targetEmail ++ js "."))
    | [] => on_mail_prog (showToast (js "Signed out of " ++ targetEmail ++ js "."))
    end.

End Session.
