(* ===== verification/ListPane.v ===== *)
(** * The list, its toolbar and the sidebar

    webmail/src/components/InboxToolbar.tsx, MessageList.tsx, MessageRow.tsx, Sidebar.tsx and
    AccountSwitcher.tsx: the signals these components keep, and what their buttons, menus and
    drag and drop do to the application. *)

From S2P Require Import Prelude JsString Encoding Json Display Wasm MessageCrypto Client Page Api AppState.
From S2P Require Import MailView Reading MailboxData Organize Session.

(** ** The toolbar *)

Inductive menu := SelectMenu | SortMenu | MoveMenu | LabelMenu.

#[global] Instance menu_eq_dec : EqDecision menu.
Proof. solve_decision. Defined.

Record Toolbar := {
  selectMenuOpen : bool;
  sortMenuOpen : bool;
  moveMenuOpen : bool;
  labelMenuOpen : bool;
  isSpinning : bool }.

Definition set_selectMenuOpen (v : bool) (x : Toolbar) : Toolbar := {|
  selectMenuOpen := v; sortMenuOpen := sortMenuOpen x; moveMenuOpen := moveMenuOpen x; labelMenuOpen :=
    labelMenuOpen x; isSpinning := isSpinning x |}.
Definition set_sortMenuOpen (v : bool) (x : Toolbar) : Toolbar := {|
  selectMenuOpen := selectMenuOpen x; sortMenuOpen := v; moveMenuOpen := moveMenuOpen x; labelMenuOpen :=
    labelMenuOpen x; isSpinning := isSpinning x |}.
Definition set_moveMenuOpen (v : bool) (x : Toolbar) : Toolbar := {|
  selectMenuOpen := selectMenuOpen x; sortMenuOpen := sortMenuOpen x; moveMenuOpen := v; labelMenuOpen :=
    labelMenuOpen x; isSpinning := isSpinning x |}.
Definition set_labelMenuOpen (v : bool) (x : Toolbar) : Toolbar := {|
  selectMenuOpen := selectMenuOpen x; sortMenuOpen := sortMenuOpen x; moveMenuOpen := moveMenuOpen x;
    labelMenuOpen := v; isSpinning := isSpinning x |}.
Definition set_isSpinning (v : bool) (x : Toolbar) : Toolbar := {|
  selectMenuOpen := selectMenuOpen x; sortMenuOpen := sortMenuOpen x; moveMenuOpen := moveMenuOpen x;
    labelMenuOpen := labelMenuOpen x; isSpinning := v |}.

Definition menu_open (m : menu) (b : Toolbar) : bool :=
  match m with
  | SelectMenu => selectMenuOpen b | SortMenu => sortMenuOpen b
  | MoveMenu => moveMenuOpen b | LabelMenu => labelMenuOpen b
  end.

Definition openOnlyMenu (m : option menu) (b : Toolbar) : Toolbar :=
  let only k := bool_decide (m = Some k) in
  set_labelMenuOpen (only LabelMenu) (set_moveMenuOpen (only MoveMenu)
    (set_sortMenuOpen (only SortMenu) (set_selectMenuOpen (only SelectMenu) b))).

Definition toggleMenu (m : option menu) (b : Toolbar) : Toolbar :=
  match m with
  | None => openOnlyMenu None b
  | Some k => openOnlyMenu (if menu_open k b then None else Some k) b
  end.

(** [inside]: whether the toolbar contains the target of the click. *)
Definition toolbar_handleClickOutside (inside : bool) (b : Toolbar) : Toolbar :=
  if inside then b else toggleMenu None b.

Section ToolbarActions.
Context `{Unicode} `{Dates} `{Env}.

Definition selectedCount (x : Mail) : Z := Z.of_nat (length (selectedIds x)).
Definition totalVisibleCount (x : Mail) : Z := Z.of_nat (length (paginatedMessages x)).
Definition totalCount (x : Mail) : Z := Z.of_nat (length (sortedMessages x)).

Definition isPartiallySelected (x : Mail) : bool :=
  (0 <? selectedCount x) && (selectedCount x <? totalVisibleCount x).

Definition isAllSelected (x : Mail) : bool :=
  (0 <? totalVisibleCount x) && (totalVisibleCount x <=? selectedCount x).

Definition pageStart (x : Mail) : Z := if totalCount x =? 0 then 0 else (currentPage x - 1) * pageSize + 1.

(** The banner that offers to select what is on other pages; its button has no handler. *)
Definition offers_all_conversations (x : Mail) : bool := isAllSelected x && (totalVisibleCount x <? totalCount x).

Definition renderMasterCheckbox (x : Mail) : Mail :=
  if 0 <? selectedCount x then set_selectedIds [] x else handleSelectFilter (js "all") x.

(** [isAllSelectedRead] of MessageList.tsx. *)
Definition isAllSelectedRead (x : Mail) : bool :=
  match selectedIds x with
  | [] => false
  | ids =>
      let selected := List.filter (has_id_in ids) (paginatedMessages x) in
      (0 <? Z.of_nat (length selected)) && forallb read selected
  end.

(** Entries of the menus: the handler of the application starts, the menu closes. *)
Definition menu_entry (p : prog App unit) : prog (App * Toolbar) unit :=
  _ ← spawn (below p); on_page (toggleMenu None).

Definition choose_filter (f : jstr) : prog (App * Toolbar) unit := menu_entry (on_mail_prog (handleSelectFilter f)).
Definition choose_sort (order : jstr) : prog (App * Toolbar) unit := menu_entry (on_mail_prog (set_sortOrder order)).
Definition choose_move (target : jstr) : prog (App * Toolbar) unit := menu_entry (handleBatchMoveTo target).
Definition choose_label (labelId : jstr) : prog (App * Toolbar) unit := menu_entry (handleBatchToggleLabel labelId).

Definition toggle_read_button : prog App unit :=
  x ← gets mail; handleBatchToggleRead (negb (isAllSelectedRead x)).

Definition star_button : Mail -> Mail := handleBatchToggleStarred true.

Definition trash_button (x : Mail) : Mail :=
  if jeqb (currentFolder x) (js "trash") then handleBatchDeleteForever x else handleBatchTrash x.

End ToolbarActions.

Section Refresh.
Context `{Crypto} `{Unicode} `{Dates} `{Env}.

Definition onRefresh : prog App unit :=
  s ← gets (fun s => s);
  match selectedMailbox (custody s) with
  | Some box => _ ← spawn (loadMailboxData (mb_id box)); on_mail_prog (showToast (js "Mailbox refreshed"))
  | None => skip
  end.

(** The wait is the timer that stops the icon. *)
Definition refresh_button : prog (App * Toolbar) unit :=
  _ ← on_page (set_isSpinning true);
  _ ← below onRefresh;
  spawn (_ ← wait; on_page (set_isSpinning false)).

End Refresh.

(** ** Rows *)

(** [formatSmartDate]; [short_time] and [short_day] are the locale's texts. *)
Section SmartDate.
Context `{Dates} (short_time : jstr -> bool -> Z -> jstr) (short_day : jstr -> bool -> Z -> jstr).

Definition formatSmartDate (timeFormat locale dateStr : jstr) (s : App) : jstr :=
  let tf := or_default timeFormat (or_default (default [] (local s !! js "byos_time_format")) (js "12h")) in
  let lang := or_default locale (or_default (default [] (local s !! js "byos_language")) (js "en")) in
  match date_time dateStr with
  | None => dateStr
  | Some d =>
      if isToday d then short_time lang (jeqb tf (js "12h")) d
      else short_day lang (negb (getFullYear d =? getFullYear now_time)) d
  end.

End SmartDate.

Definition isChecked (x : Mail) (m : DisplayMessage) : bool := bool_decide (id m ∈ selectedIds x).

Definition check_row (m : DisplayMessage) (x : Mail) : Mail := handleToggleCheck m (negb (isChecked x m)) x.

Definition trash_row (m : DisplayMessage) : Mail -> Mail :=
  if jeqb (folder m) (js "trash") then handleDeleteForever m else handleTrashMessage m.

(** The names of the labels a row shows; an id without label shows none. *)
Definition row_labels (x : Mail) (m : DisplayMessage) : list jstr :=
  omap (fun i => n_name <$> find_named i (labels x)) (label_list m).

(** What a drag of the row carries. *)
Definition dragged_ids (x : Mail) (m : DisplayMessage) : list jstr :=
  if isChecked x m && (0 <? Z.of_nat (length (selectedIds x))) then selectedIds x else [id m].

Definition drag_data (ids : list jstr) : jstr := JSON_stringify (JObj [(js "messageIds", JArr (map JStr ids))]).

Definition ghost_text (ids : list jstr) : jstr := js "Move " ++ conversations (Z.of_nat (length ids)).

(** ** The sidebar *)

Record Sidebar := {
  dragOverTarget : option jstr;
  openFolderMenuId : option jstr;
  openLabelMenuId : option jstr }.

Definition set_dragOverTarget (v : option jstr) (x : Sidebar) : Sidebar := {|
  dragOverTarget := v; openFolderMenuId := openFolderMenuId x; openLabelMenuId := openLabelMenuId x |}.
Definition set_openFolderMenuId (v : option jstr) (x : Sidebar) : Sidebar := {|
  dragOverTarget := dragOverTarget x; openFolderMenuId := v; openLabelMenuId := openLabelMenuId x |}.
Definition set_openLabelMenuId (v : option jstr) (x : Sidebar) : Sidebar := {|
  dragOverTarget := dragOverTarget x; openFolderMenuId := openFolderMenuId x; openLabelMenuId := v |}.

Definition drag_over (target : jstr) : Sidebar -> Sidebar := set_dragOverTarget (Some target).

Definition drag_leave (target : jstr) (b : Sidebar) : Sidebar :=
  if bool_decide (dragOverTarget b = Some target) then set_dragOverTarget None b else b.

Definition handleGlobalClick (b : Sidebar) : Sidebar := set_openLabelMenuId None (set_openFolderMenuId None b).

Definition folder_menu_click (i : jstr) (b : Sidebar) : Sidebar :=
  set_openLabelMenuId None (set_openFolderMenuId (if bool_decide (openFolderMenuId b = Some i) then None else Some i) b).

Definition label_menu_click (i : jstr) (b : Sidebar) : Sidebar :=
  set_openFolderMenuId None (set_openLabelMenuId (if bool_decide (openLabelMenuId b = Some i) then None else Some i) b).

(** The ids in dropped data; ids that are not texts, which no row of this page drags, are
    not modelled. *)
Definition dropped_ids (v : json) : option (list jstr) :=
  match get v (js "messageIds") with
  | Some (JArr xs) => mapM (fun x => match x with JStr i => Some i | _ => None end) xs
  | _ => None
  end.

Section SidebarActions.
Context `{Unicode} `{Env}.

(** [raw] is the data of the drop for application/json. *)
Definition handleDrop (raw targetId : jstr) (isLabel : bool) : prog (App * Sidebar) unit :=
  _ ← on_page (set_dragOverTarget None);
  if negb (truthy raw) then skip
  else match JSON_parse raw with
       | Throw _ => skip
       | Ok parsed =>
           match dropped_ids parsed with
           | Some (i :: ids) =>
               spawn (below (if isLabel then handleAttachLabel (i :: ids) targetId
                             else handleMoveMessages (i :: ids) targetId))
           | _ => skip
           end
       end.

Definition edit_folder (f : Named) : prog (App * Sidebar) unit :=
  _ ← on_page (set_openFolderMenuId None); below (on_mail_prog (handleOpenEditFolder f)).
Definition edit_label (l : Named) : prog (App * Sidebar) unit :=
  _ ← on_page (set_openLabelMenuId None); below (on_mail_prog (handleOpenEditLabel l)).
Definition delete_folder (f : Named) : prog (App * Sidebar) unit :=
  _ ← on_page (set_openFolderMenuId None); spawn (below (handleDeleteFolder f)).
Definition delete_label (l : Named) : prog (App * Sidebar) unit :=
  _ ← on_page (set_openLabelMenuId None); spawn (below (handleDeleteLabel l)).

(** [email.split("@")[1]], when there is one that is not empty. *)
Definition user_domain (email : jstr) : option jstr :=
  match split_on 64 email with _ :: d :: _ => if truthy d then Some d else None | _ => None end.

(** [boxEmail] and [boxDomain]: members of the server's mailbox the client's type does not declare. *)
Definition mailboxEmail (boxEmail boxDomain : option jstr) (s : App) : jstr :=
  let user := u_email <$> currentUser (custody s) in
  match selectedMailbox (custody s) with
  | None => or_default (default [] user) (js "byos.email")
  | Some box =>
      if truthy_opt boxEmail then default [] boxEmail
      else if truthy_opt boxDomain then mb_local_part box ++ js "@" ++ default [] boxDomain
      else mb_local_part box ++ js "@" ++ default (js "byos.email") (user ≫= user_domain)
  end.

Definition isPrivate (s : App) : bool :=
  match selectedMailbox (custody s) with Some box => jeqb (mb_mode box) (js "private") | None => false end.

End SidebarActions.

(** ** The account switcher *)

Definition hasMultipleAccounts (s : App) : bool := (1 <? length (connectedAccounts (custody s)))%nat.

Definition isActive (currentEmail : jstr) (s : App) (a : ConnectedAccount) : bool :=
  jeqb (acc_id a) (match selectedMailbox (custody s) with Some box => mb_id box | None => [] end)
  || jeqb (acc_email a) currentEmail.

Section Switcher.
Context `{Crypto} `{Unicode} `{Dates} `{Env}.

(** The page's signal is whether the list is open. *)
Definition choose_account (currentEmail : jstr) (a : ConnectedAccount) : prog (App * bool) unit :=
  _ ← on_page (fun _ => false);
  s ← gets fst;
  if isActive currentEmail s a then skip else spawn (below (handleSwitchAccount a)).

Definition sign_out_of (accountId : option jstr) (logOutAll : bool) : prog (App * bool) unit :=
  _ ← on_page (fun _ => false);
  spawn (below (handleLogout accountId logOutAll)).

End Switcher.

(** ** The toolbar's invariant and its checkbox *)

(** At most one menu is open, whatever is clicked. *)
Definition one_menu (b : Toolbar) : Prop := forall k l, menu_open k b = true -> menu_open l b = true -> k = l.

Lemma only_one m b : one_menu (openOnlyMenu m b).
Proof. destruct m as [[]|]; intros [] []; by cbn. Qed.

Lemma one_menu_kept m inside b :
  one_menu b -> one_menu (toggleMenu m b) /\ one_menu (toolbar_handleClickOutside inside b) /\
  (forall k, menu_open k b = true -> menu_open k (toggleMenu (Some k) b) = false).
Proof.
  intros Hb. split_and!.
  - destruct m; apply only_one.
  - destruct inside; [done|apply only_one].
  - intros k E. unfold toggleMenu. rewrite E. by destruct k.
Qed.

Lemma slice_ids {A B} (f : A -> B) a b l : NoDup (map f l) -> NoDup (map f (slice a b l)).
Proof.
  intros Hn. unfold slice. set (n := Z.to_nat _). set (k := Z.to_nat _).
  rewrite <- (take_drop k l), map_app in Hn. apply NoDup_app in Hn as (_ & _ & Hn).
  rewrite <- (take_drop n (drop k l)), map_app in Hn. by apply NoDup_app in Hn as (Hn & _).
Qed.

Lemma filter_ids {A B} (f : A -> B) p l : NoDup (map f l) -> NoDup (map f (List.filter p l)).
Proof.
  induction l as [|a l IH]; [done|]. cbn [map List.filter]. intros [Ha Hl]%NoDup_cons.
  destruct (p a); [|by apply IH]. cbn [map]. constructor; [|by apply IH].
  intros (b & E & Hb)%list_elem_of_fmap. apply list_elem_of_In, filter_In in Hb as [Hb _].
  apply Ha, list_elem_of_fmap. exists b. split; [done|by apply list_elem_of_In].
Qed.

Section ListTheorems.
Context `{Unicode} `{Dates} `{Env}.

Lemma page_ids x : NoDup (map id (messages x)) -> NoDup (map id (paginatedMessages x)).
Proof.
  intros Hn. apply slice_ids. rewrite sorted_perm. by apply filter_ids.
Qed.

Lemma uniq_all {A} `{EqDecision A} (l : list A) : NoDup l -> uniq l = l.
Proof.
  unfold uniq. enough (forall seen, (forall a, a ∈ l -> a ∉ seen) -> NoDup l -> uniq_from seen l = l) as E
    by (apply E; set_solver).
  induction l as [|a l IH]; intros seen Hs; [done|]. intros [Ha Hl]%NoDup_cons. cbn [uniq_from].
  rewrite decide_False by set_solver. f_equal. apply IH; [|done]. set_solver.
Qed.

(** The checkbox of the toolbar: with nothing checked it checks the rows of the page and
    shows as checked unless the page is empty; otherwise it clears the selection. *)
Theorem master_checkbox x :
  NoDup (map id (messages x)) ->
  (selectedIds x = [] ->
     let y := renderMasterCheckbox x in
     selectedIds y = map id (paginatedMessages x) /\ paginatedMessages y = paginatedMessages x /\
     isPartiallySelected y = false /\
     (paginatedMessages x <> [] -> isAllSelected y = true /\ selectedIds (renderMasterCheckbox y) = [])) /\
  (selectedIds x <> [] -> selectedIds (renderMasterCheckbox x) = []).
Proof.
  intros Hn. pose proof (page_ids x Hn) as Hp.
  assert (Hclear : forall z, selectedIds z <> [] -> selectedIds (renderMasterCheckbox z) = []).
  { intros z Hz. unfold renderMasterCheckbox, selectedCount. by destruct (selectedIds z). }
  split; [|apply Hclear]. intros E y.
  assert (Ey : y = set_selectedIds (map id (paginatedMessages x)) x).
  { unfold y, renderMasterCheckbox, selectedCount. rewrite E. cbn [length Z.of_nat Z.ltb Z.compare].
    transitivity (set_selectedIds (uniq (map id (List.filter (fun _ => true) (paginatedMessages x)))) x); [done|].
    replace (List.filter (fun _ => true) (paginatedMessages x)) with (paginatedMessages x).
    - by rewrite (uniq_all _ Hp).
    - generalize (paginatedMessages x) as l. intros l. induction l as [|a l IH]; [done|]. cbn. by rewrite <- IH. }
  assert (Ep : paginatedMessages y = paginatedMessages x) by by rewrite Ey.
  assert (Es : selectedCount y = totalVisibleCount y).
  { unfold selectedCount, totalVisibleCount. rewrite Ep, Ey. cbn [selectedIds set_selectedIds]. by rewrite length_map. }
  split_and!; [by rewrite Ey|done| |].
  - unfold isPartiallySelected. rewrite Es, Z.ltb_irrefl. apply andb_false_r.
  - intros Hne. assert (0 < totalVisibleCount y).
    { unfold totalVisibleCount. rewrite Ep. destruct (paginatedMessages x); [done|]. cbn [length]. lia. }
    split.
    + unfold isAllSelected. rewrite Es, Z.leb_refl, andb_true_r. lia.
    + apply Hclear. rewrite Ey. cbn [selectedIds set_selectedIds]. by destruct (paginatedMessages x).
Qed.

(** The one button for both directions: it marks every checked row of the mailbox as read,
    unless all those on the page are read, and then as unread. *)
Theorem smart_toggle w t s m :
  m ∈ messages (mail (snd (fst (run w t s toggle_read_button)))) -> id m ∈ selectedIds (mail s) ->
  read m = negb (isAllSelectedRead (mail s)).
Proof.
  unfold toggle_read_button. rewrite run_bind. cbn [gets run]. unfold handleBatchToggleRead.
  set (b := negb _). rewrite run_bind. cbn [gets run]. intros Hin Hid.
  destruct (selectedIds (mail s)) as [|i ids] eqn:E; [set_solver|]. rewrite run_bind, run_on_mail in Hin.
  rewrite run_talks in Hin by (apply talks_tell_server; intros; unfold setMessageRead; auto with talks).
  cbn [on_mail mail set_mail] in Hin. unfold batch_read_local, batch_flag, with_selection in Hin.
  rewrite E in Hin. cbn [messages set_selectedIds showToast set_toastMessage] in Hin.
  rewrite messages_update_selected in Hin. cbn [messages set_messages update_messages] in Hin.
  apply list_elem_of_fmap in Hin as (n & -> & Hn). unfold has_id_in in *. case_bool_decide as Hb; [done|].
  by destruct Hb.
Qed.

(** ** Drag and drop *)

Lemma dragged_row x m :
  id m ∈ dragged_ids x m /\ (id m ∈ selectedIds x -> dragged_ids x m = selectedIds x) /\
  (id m ∉ selectedIds x -> dragged_ids x m = [id m]).
Proof.
  unfold dragged_ids, isChecked. case_bool_decide as E; cbn [andb].
  - assert (0 <? Z.of_nat (length (selectedIds x)) = true) as ->.
    { apply Z.ltb_lt. destruct (selectedIds x); [set_solver|]. cbn [length]. lia. }
    split_and!; [done|done|by intros []].
  - split_and!; [set_solver|by intros|done].
Qed.

Lemma dropped_drag ids :
  Forall (Forall is_unit) ids -> JSON_parse (drag_data ids) ≫= (fun v => Ok (dropped_ids v)) = Ok (Some ids).
Proof.
  intros Hu. unfold drag_data. rewrite json_round_trip.
  - cbn [mbind outcome_bind]. unfold dropped_ids. change (get _ _) with (Some (JArr (map JStr ids))).
    f_equal. apply mapM_Some, Forall2_fmap_l, Forall2_same_length_lookup_2; [done|]. intros k i j E1 E2. congruence.
  - cbn. rewrite andb_true_r. apply forallb_forall. intros v (i & <- & Hi)%in_map_iff.
    cbn. apply bool_decide_eq_true. rewrite Forall_forall in Hu. by apply Hu, list_elem_of_In.
Qed.

(** What a drop of a row's data runs. *)
Lemma run_drop w t s b x m target (isLabel : bool) :
  Forall (Forall is_unit) (dragged_ids x m) ->
  let p := (if isLabel then handleAttachLabel else handleMoveMessages) (dragged_ids x m) target in
  let '(_, s', t') := run w t s p in
  run w t (s, b) (handleDrop (drag_data (dragged_ids x m)) target isLabel) =
    (Ok tt, (s', set_dragOverTarget None b), t').
Proof.
  intros Hu p. pose proof (dropped_drag _ Hu) as Ed. pose proof (dragged_row x m) as (Hm & _).
  unfold handleDrop. destruct (run w t s p) as [[r s'] t'] eqn:Er. rewrite run_bind, run_on_page.
  replace (truthy (drag_data _)) with true by done. cbn [negb].
  destruct (JSON_parse _) as [v|]; [|done]. cbn [mbind outcome_bind] in Ed. injection Ed as ->.
  unfold p in Er. destruct (dragged_ids x m) as [|i ids]; [set_solver|].
  unfold spawn. cbn [run]. by destruct isLabel; rewrite run_below, Er.
Qed.

Lemma labelled_rows w t s b m target :
  Forall (Forall is_unit) (dragged_ids (mail s) m) ->
  messages (mail (fst (snd (fst (run w t (s, b) (handleDrop (drag_data (dragged_ids (mail s) m)) target true)))))) =
  map_where (has_id_in (dragged_ids (mail s) m)) (add_label target) (messages (mail s)).
Proof.
  intros Hu. pose proof (run_drop w t s b (mail s) m target true Hu) as E. cbn zeta in E.
  pose proof (dragged_row (mail s) m) as (Hm & _). set (ids := dragged_ids (mail s) m) in *.
  destruct (run w t s _) as [[r s'] t'] eqn:Er. rewrite E. cbn [fst snd]. clear E.
  unfold handleAttachLabel in Er. destruct ids as [|i l] eqn:Eids; [set_solver|]. rewrite <- Eids in *.
  rewrite run_bind in Er. cbn [gets run] in Er. rewrite run_bind, run_on_mail, run_bind in Er.
  rewrite (run_tell_server ids _ (fun box s => label_request s box target false)) in Er
    by (intros; apply sends_one_send).
  rewrite run_on_mail in Er. injection Er as <- <- <-. apply messages_relabel.
Qed.

(** C4. Dragging a row onto a folder files the checked rows, if the row is one of them, and
    the row alone otherwise: whatever the server answers, each of these messages then shows
    in the folder and in no other one, and every other message is untouched.  Dropped on a
    label, they all carry the label. *)
Theorem drag_files_rows m target w t s b :
  target <> [] -> Forall (Forall is_unit) (dragged_ids (mail s) m) ->
  let ids := dragged_ids (mail s) m in
  let after (isLabel : bool) := snd (fst (run w t (s, b) (handleDrop (drag_data ids) target isLabel))) in
  let filed := mail (fst (after false)) in
  let labelled := mail (fst (after true)) in
  (id m ∈ ids /\ (id m ∈ selectedIds (mail s) -> ids = selectedIds (mail s)) /\
     (id m ∉ selectedIds (mail s) -> ids = [id m])) /\
  (forall n, n ∈ messages filed -> id n ∈ ids ->
     matchFolder (show_place target filed) n = true /\
     (forall g, g <> target -> matchFolder (show_place g filed) n = false)) /\
  (forall n, n ∈ messages (mail s) -> id n ∉ ids -> n ∈ messages filed) /\
  map id (messages filed) = map id (messages (mail s)) /\
  (forall n, n ∈ messages labelled -> id n ∈ ids -> has_label target n = true) /\
  map id (messages labelled) = map id (messages (mail s)) /\
  dragOverTarget (snd (after false)) = None.
Proof.
  intros Ht Hu ids after filed labelled. pose proof (dragged_row (mail s) m) as Hd. fold ids in Hd.
  assert (Hne : ids <> []) by (destruct Hd as [Hd _]; destruct ids; [set_solver|done]).
  pose proof (run_drop w t s b (mail s) m target false Hu) as Ef. cbv zeta iota in Ef. fold ids in Ef.
  pose proof (move_files_messages ids target w t s Hne Ht) as Hf.
  destruct (run w t s (handleMoveMessages ids target)) as [[r s'] t'].
  assert (E1 : filed = mail s') by (unfold filed, after; by rewrite Ef).
  destruct Hf as (_ & Hrows & Hplace & _).
  assert (E2 : messages labelled = map_where (has_id_in ids) (add_label target) (messages (mail s)))
    by (unfold labelled, after; by apply labelled_rows).
  split; [done|]. rewrite E1. split; [done|]. split_and!.
  - intros n Hn Hi. rewrite Hrows. apply list_elem_of_fmap. exists n. split; [|done].
    unfold has_id_in. by rewrite bool_decide_eq_false_2.
  - rewrite Hrows, map_map. apply map_ext. intros n. by destruct (has_id_in ids n).
  - rewrite E2. intros n Hn Hi. apply list_elem_of_fmap in Hn as (o & -> & Ho). unfold has_id_in in *.
    destruct (bool_decide (id o ∈ ids)) eqn:Ei; [|by apply bool_decide_eq_false in Ei].
    rewrite has_label_add. by rewrite bool_decide_eq_true_2.
  - rewrite E2. unfold map_where. rewrite map_map. apply map_ext. intros n.
    destruct (has_id_in ids n); [apply id_add_label|done].
  - unfold after. by rewrite Ef.
Qed.

End ListTheorems.

(** ** The account switcher *)

Section SwitcherTheorems.
Context `{Crypto} `{Unicode} `{Dates} `{Env}.

(** Choosing the account in use only closes the list. *)
Lemma active_account_stays w t s open e a :
  isActive e s a = true -> run w t (s, open) (choose_account e a) = (Ok tt, (s, false), t).
Proof.
  intros Ha. unfold choose_account. rewrite run_bind, run_on_page, run_bind. cbn [gets run fst]. by rewrite Ha.
Qed.

End SwitcherTheorems.

(** ** Concrete lists *)

#[local] Existing Instances ascii_unicode digit_dates sample_env.

Lemma master_checkbox_witness :
  isAllSelected (renderMasterCheckbox (set_selectedIds [] sample_mail)) = true.
Proof.
  destruct (master_checkbox (set_selectedIds [] sample_mail)) as [M _]; [by_decide|].
  destruct (M eq_refl) as (_ & _ & _ & E). apply E. by vm_compute.
Defined.

Lemma smart_toggle_witness :
  id row1 ∈ selectedIds sample_mail /\ true = negb (isAllSelectedRead sample_mail).
Proof.
  split; [by_decide|]. apply (smart_toggle offline no_trace sample_app (set_read true row1)); by_decide.
Defined.

Definition no_menus : Sidebar := {| dragOverTarget := None; openFolderMenuId := None; openLabelMenuId := None |}.

(** Rows one and two are checked: dragging the first onto the folder moves both. *)
Lemma drag_files_rows_witness :
  let filed := mail (fst (snd (fst (run offline no_trace (sample_app, no_menus)
    (handleDrop (drag_data (dragged_ids sample_mail row1)) (js "cf") false))))) in
  dragged_ids sample_mail row1 = [js "m1"; js "m2"] /\
  (forall n, n ∈ messages filed -> id n ∈ [js "m1"; js "m2"] ->
     matchFolder (show_place (js "cf") filed) n = true).
Proof.
  split; [reflexivity|]. intros n Hn Hi.
  destruct (drag_files_rows row1 (js "cf") offline no_trace sample_app no_menus) as (_ & F & _); [done|by_decide|].
  by apply (F n Hn Hi).
Defined.

(** The checkbox counts: a row checked before a search narrowed the list to another one
    makes the page look completely checked, and the buttons act on the row out of sight. *)
Example checkbox_counts_only :
  let x := set_searchQuery (js "nobody") (set_selectedIds [js "m1"] sample_mail) in
  let y := set_messages [set_subject (js "nobody") row2; row1] x in
  map id (paginatedMessages y) = [js "m2"] /\ isAllSelected y = true /\
  map folder (messages (handleBatchTrash y)) = [js "inbox"; js "trash"].
Proof. vm_compute. split_and!; reflexivity. Qed.
