(* ===== verification/Editor.v ===== *)
(** * The editor and the compose drawer

    webmail/src/components/RichTextEditor.tsx and ComposeDrawer.tsx: the editor's commands and
    dialogs over the document the browser edits, and the drawer that mounts it over the
    compose form of the application. *)

From S2P Require Import Prelude JsString Encoding Json Regexp RegExec Display Wasm MessageCrypto Client Page Api.
From S2P Require Import AppState MailView Reading MailboxData Outbound ComposeMail.

(** What the browser and DOMPurify do: the edited document is the HTML it serializes to. *)
Class Browser := {
  Range : Type;
  collapsed : Range -> bool;
  sanitize : jstr -> jstr;                 (** [DOMPurify.sanitize(html)] *)
  sanitize_document : jstr -> jstr;        (** the same with styles and heads allowed *)
  serialized : jstr -> jstr;               (** [innerHTML], after it was set *)
  inner_text : jstr -> jstr;               (** [innerText || textContent] of this [innerHTML] *)
  execCommand : jstr -> option jstr -> option Range -> jstr -> jstr;  (** the document after a command *)
  anchor_html : jstr -> jstr -> jstr;      (** [outerHTML] of the styled anchor of a link and its text *)
  image_html : jstr -> jstr -> Z -> jstr;  (** of the image with source, text and width *)
  href_of : jstr -> jstr;                  (** [a.href], after it was set *)
}.

(** ** Links and images *)

Definition web_regex : rx := RSeq (rlit "http") (RSeq (ROpt (rlit "s")) (rlit "://")).
Definition mail_regex : rx := rlit "mailto:".

(** Both expressions are anchored. *)
Definition begins (r : rx) (s : jstr) : bool := match exec r s with Some _ => true | None => false end.

(** The address of a link, unless it is blank. *)
Definition link_address (typed : jstr) : option jstr :=
  let url := trim typed in
  if negb (truthy url) then None
  else Some (if negb (begins web_regex url) && negb (begins mail_regex url) then js "https://" ++ url else url).

Definition image_address (typed : jstr) : option jstr :=
  let url := trim typed in if truthy url && begins web_regex url then Some url else None.

(** [parseInt(width, 10) || 200] *)
Definition image_width (typed : jstr) : Z :=
  match parseInt10 typed with Some 0 | None => 200 | Some n => n end.

Section RichText.
Context `{Browser}.

Record Editor := {
  ed_dom : jstr;
  ed_currentHtml : jstr;
  isHtmlMode : bool;
  showLinkModal : bool;
  linkUrl : jstr;
  linkText : jstr;
  showImageModal : bool;
  imageUrl : jstr;
  imageAlt : jstr;
  imageWidth : jstr;
  savedRange : option Range }.

Definition set_ed_dom (v : jstr) (x : Editor) : Editor := {|
  ed_dom := v; ed_currentHtml := ed_currentHtml x; isHtmlMode := isHtmlMode x; showLinkModal := showLinkModal x;
    linkUrl := linkUrl x; linkText := linkText x; showImageModal := showImageModal x; imageUrl := imageUrl x;
    imageAlt := imageAlt x; imageWidth := imageWidth x; savedRange := savedRange x |}.
Definition set_ed_currentHtml (v : jstr) (x : Editor) : Editor := {|
  ed_dom := ed_dom x; ed_currentHtml := v; isHtmlMode := isHtmlMode x; showLinkModal := showLinkModal x; linkUrl
    := linkUrl x; linkText := linkText x; showImageModal := showImageModal x; imageUrl := imageUrl x; imageAlt
    := imageAlt x; imageWidth := imageWidth x; savedRange := savedRange x |}.
Definition set_isHtmlMode (v : bool) (x : Editor) : Editor := {|
  ed_dom := ed_dom x; ed_currentHtml := ed_currentHtml x; isHtmlMode := v; showLinkModal := showLinkModal x;
    linkUrl := linkUrl x; linkText := linkText x; showImageModal := showImageModal x; imageUrl := imageUrl x;
    imageAlt := imageAlt x; imageWidth := imageWidth x; savedRange := savedRange x |}.
Definition set_showLinkModal (v : bool) (x : Editor) : Editor := {|
  ed_dom := ed_dom x; ed_currentHtml := ed_currentHtml x; isHtmlMode := isHtmlMode x; showLinkModal := v;
    linkUrl := linkUrl x; linkText := linkText x; showImageModal := showImageModal x; imageUrl := imageUrl x;
    imageAlt := imageAlt x; imageWidth := imageWidth x; savedRange := savedRange x |}.
Definition set_linkUrl (v : jstr) (x : Editor) : Editor := {|
  ed_dom := ed_dom x; ed_currentHtml := ed_currentHtml x; isHtmlMode := isHtmlMode x; showLinkModal :=
    showLinkModal x; linkUrl := v; linkText := linkText x; showImageModal := showImageModal x; imageUrl :=
    imageUrl x; imageAlt := imageAlt x; imageWidth := imageWidth x; savedRange := savedRange x |}.
Definition set_linkText (v : jstr) (x : Editor) : Editor := {|
  ed_dom := ed_dom x; ed_currentHtml := ed_currentHtml x; isHtmlMode := isHtmlMode x; showLinkModal :=
    showLinkModal x; linkUrl := linkUrl x; linkText := v; showImageModal := showImageModal x; imageUrl :=
    imageUrl x; imageAlt := imageAlt x; imageWidth := imageWidth x; savedRange := savedRange x |}.
Definition set_showImageModal (v : bool) (x : Editor) : Editor := {|
  ed_dom := ed_dom x; ed_currentHtml := ed_currentHtml x; isHtmlMode := isHtmlMode x; showLinkModal :=
    showLinkModal x; linkUrl := linkUrl x; linkText := linkText x; showImageModal := v; imageUrl := imageUrl x;
    imageAlt := imageAlt x; imageWidth := imageWidth x; savedRange := savedRange x |}.
Definition set_imageUrl (v : jstr) (x : Editor) : Editor := {|
  ed_dom := ed_dom x; ed_currentHtml := ed_currentHtml x; isHtmlMode := isHtmlMode x; showLinkModal :=
    showLinkModal x; linkUrl := linkUrl x; linkText := linkText x; showImageModal := showImageModal x; imageUrl
    := v; imageAlt := imageAlt x; imageWidth := imageWidth x; savedRange := savedRange x |}.
Definition set_imageAlt (v : jstr) (x : Editor) : Editor := {|
  ed_dom := ed_dom x; ed_currentHtml := ed_currentHtml x; isHtmlMode := isHtmlMode x; showLinkModal :=
    showLinkModal x; linkUrl := linkUrl x; linkText := linkText x; showImageModal := showImageModal x; imageUrl
    := imageUrl x; imageAlt := v; imageWidth := imageWidth x; savedRange := savedRange x |}.
Definition set_imageWidth (v : jstr) (x : Editor) : Editor := {|
  ed_dom := ed_dom x; ed_currentHtml := ed_currentHtml x; isHtmlMode := isHtmlMode x; showLinkModal :=
    showLinkModal x; linkUrl := linkUrl x; linkText := linkText x; showImageModal := showImageModal x; imageUrl
    := imageUrl x; imageAlt := imageAlt x; imageWidth := v; savedRange := savedRange x |}.
Definition set_savedRange (v : option Range) (x : Editor) : Editor := {|
  ed_dom := ed_dom x; ed_currentHtml := ed_currentHtml x; isHtmlMode := isHtmlMode x; showLinkModal :=
    showLinkModal x; linkUrl := linkUrl x; linkText := linkText x; showImageModal := showImageModal x; imageUrl
    := imageUrl x; imageAlt := imageAlt x; imageWidth := imageWidth x; savedRange := v |}.

(** What [onChange] is told. *)
Record Change := { ch_html : jstr; ch_text : jstr }.

Definition syncContent (e : Editor) : Editor * option Change :=
  let rawHtml := ed_dom e in
  let html := sanitize rawHtml in
  let dom := if jeqb rawHtml html then rawHtml else serialized html in
  (set_ed_currentHtml html (set_ed_dom dom e), Some {| ch_html := html; ch_text := inner_text dom |}).

(** The user has typed: the document is [dom]. *)
Definition editor_input (dom : jstr) (e : Editor) : Editor * option Change := syncContent (set_ed_dom dom e).

Definition command (name : string) (value : option jstr) (sel : option Range) (e : Editor) : Editor :=
  set_ed_dom (execCommand (js name) value sel (ed_dom e)) e.

(** [sel] is what is selected when the button is pressed. *)
Definition handleFormat (sel : option Range) (name : string) (value : option jstr) (e : Editor)
    : Editor * option Change := syncContent (command name value sel e).

Definition divider_html : jstr :=
  js "<hr style=" ++ MailView.quote (js "border: 0; border-top: 1px solid #E2DFD8; margin: 12px 0;") ++ js " />".

Definition insertDivider (sel : option Range) (e : Editor) : Editor * option Change :=
  syncContent (command "insertHTML" (Some divider_html) sel e).

Definition saveSelection (sel : option Range) (e : Editor) : Editor :=
  match sel with Some r => set_savedRange (Some r) e | None => e end.

(** What is selected once the saved range is restored. *)
Definition restored (sel : option Range) (e : Editor) : option Range :=
  match savedRange e with Some r => Some r | None => sel end.

Definition openLinkModal (sel : option Range) (selectedText : jstr) (e : Editor) : Editor :=
  set_showLinkModal true (set_linkUrl (js "https://") (set_linkText selectedText (saveSelection sel e))).

Definition nothing_selected (e : Editor) : bool :=
  match savedRange e with Some r => collapsed r | None => true end.

Definition applyLink (sel : option Range) (e : Editor) : Editor * option Change :=
  match link_address (linkUrl e) with
  | None => (set_showLinkModal false e, None)
  | Some url =>
      let text := trim (linkText e) in
      let edited :=
        if truthy text && nothing_selected e
        then command "insertHTML" (Some (sanitize (anchor_html url text))) (restored sel e) e
        else command "createLink" (Some (href_of url)) (restored sel e) e in
      let '(e, change) := syncContent edited in (set_showLinkModal false e, change)
  end.

Definition openImageModal (sel : option Range) (e : Editor) : Editor :=
  set_showImageModal true (set_imageWidth (js "200") (set_imageAlt [] (set_imageUrl [] (saveSelection sel e)))).

Definition applyImage (sel : option Range) (e : Editor) : Editor * option Change :=
  match image_address (imageUrl e) with
  | None => (set_showImageModal false e, None)
  | Some url =>
      let alt := or_default (trim (imageAlt e)) (js "Embedded Image") in
      let clean := sanitize (image_html url alt (image_width (imageWidth e))) in
      let '(e, change) := syncContent (command "insertHTML" (Some clean) (restored sel e) e) in
      (set_showImageModal false e, change)
  end.

Definition handleHtmlTextareaInput (val : jstr) (e : Editor) : Editor * option Change :=
  let cleanHtml := sanitize val in
  (set_ed_dom (serialized cleanHtml) (set_ed_currentHtml val e),
   Some {| ch_html := cleanHtml; ch_text := inner_text (serialized cleanHtml) |}).

(** Leaving the source view mounts a new document. *)
Definition toggle_html (e : Editor) : Editor :=
  let next := negb (isHtmlMode e) in
  let e := set_isHtmlMode next e in
  if next then e else set_ed_dom (serialized (sanitize_document (ed_currentHtml e))) e.

(** The editor as it is mounted with [props.value]. *)
Definition mount_editor (value : jstr) : Editor := {|
  ed_dom := if truthy value then serialized (sanitize_document value) else []; ed_currentHtml := value;
  isHtmlMode := false; showLinkModal := false; linkUrl := js "https://"; linkText := []; showImageModal := false;
  imageUrl := []; imageAlt := []; imageWidth := js "200"; savedRange := None |}.

(** Its buttons, dialogs and input. *)
Inductive editor_event : (Editor -> Editor * option Change) -> Prop :=
| ev_input dom : editor_event (editor_input dom)
| ev_format sel name value : editor_event (handleFormat sel name value)
| ev_divider sel : editor_event (insertDivider sel)
| ev_open_link sel text : editor_event (fun e => (openLinkModal sel text e, None))
| ev_link_text v : editor_event (fun e => (set_linkText v e, None))
| ev_link_url v : editor_event (fun e => (set_linkUrl v e, None))
| ev_apply_link sel : editor_event (applyLink sel)
| ev_open_image sel : editor_event (fun e => (openImageModal sel e, None))
| ev_image_url v : editor_event (fun e => (set_imageUrl v e, None))
| ev_image_alt v : editor_event (fun e => (set_imageAlt v e, None))
| ev_image_width v : editor_event (fun e => (set_imageWidth v e, None))
| ev_apply_image sel : editor_event (applyImage sel)
| ev_close_link : editor_event (fun e => (set_showLinkModal false e, None))
| ev_close_image : editor_event (fun e => (set_showImageModal false e, None))
| ev_source val : editor_event (handleHtmlTextareaInput val)
| ev_toggle : editor_event (fun e => (toggle_html e, None)).

(** ** The drawer *)

Inductive DrawerMode := minimized | docked | maximized.

#[global] Instance DrawerMode_eq_dec : EqDecision DrawerMode.
Proof. solve_decision. Defined.

Record Drawer := {
  drawerMode : DrawerMode;
  showScheduleInput : bool;
  editor : option Editor }.

Definition set_drawerMode (v : DrawerMode) (x : Drawer) : Drawer := {|
  drawerMode := v; showScheduleInput := showScheduleInput x; editor := editor x |}.
Definition set_showScheduleInput (v : bool) (x : Drawer) : Drawer := {|
  drawerMode := drawerMode x; showScheduleInput := v; editor := editor x |}.
Definition set_editor (v : option Editor) (x : Drawer) : Drawer := {|
  drawerMode := drawerMode x; showScheduleInput := showScheduleInput x; editor := v |}.

Definition toggleMinimize (d : Drawer) : Drawer :=
  set_drawerMode (if decide (drawerMode d = minimized) then docked else minimized) d.
Definition toggleMaximize (d : Drawer) : Drawer :=
  set_drawerMode (if decide (drawerMode d = maximized) then docked else maximized) d.
Definition title_click (d : Drawer) : Drawer :=
  if decide (drawerMode d = minimized) then set_drawerMode docked d else d.

(** [onClose] of the application. *)
Definition onClose (c : Compose) : Compose := set_composeStatus None (clearComposeForm (set_composeOpen false c)).

Definition drawer_handleClose (s : App) (d : Drawer) : App * Drawer :=
  (on_compose onClose s, set_drawerMode docked d).

Definition clear_schedule (s : App) (d : Drawer) : App * Drawer :=
  (on_compose (set_scheduledTime []) s, set_showScheduleInput false d).

(** [onChange] of the editor: the text and the HTML of the form. *)
Definition receive (change : option Change) (s : App) : App :=
  match change with
  | Some ch => on_compose (fun c => set_composeBodyHtml (ch_html ch) (set_composeBody (ch_text ch) c)) s
  | None => s
  end.

(** The editor is mounted while the drawer is open and not minimized, with the form's HTML or
    else its text; it does not follow them afterwards. *)
Definition mounts_editor (s : App) (d : Drawer) : bool :=
  composeOpen (compose s) && negb (bool_decide (drawerMode d = minimized)).

Definition sync_drawer (s : App) (d : Drawer) : Drawer :=
  if mounts_editor s d then
    match editor d with
    | Some _ => d
    | None => set_editor (Some (mount_editor (or_default (composeBodyHtml (compose s)) (composeBody (compose s))))) d
    end
  else set_editor None d.

Definition edit (ev : Editor -> Editor * option Change) (s : App) (d : Drawer) : App * Drawer :=
  match editor d with
  | Some e => let '(e, change) := ev e in (receive change s, set_editor (Some e) d)
  | None => (s, d)
  end.

(** What the drawer's controls do, and what the application does under it with the form. *)
Inductive drawer_step : App * Drawer -> App * Drawer -> Prop :=
| st_edit ev s d : editor_event ev -> drawer_step (s, d) (edit ev s d)
| st_mode f s d : f ∈ [toggleMinimize; toggleMaximize; title_click; set_drawerMode docked] ->
    drawer_step (s, d) (s, sync_drawer s (f d))
| st_schedule s d : drawer_step (s, d) (s, set_showScheduleInput (negb (showScheduleInput d)) d)
| st_time v s d : drawer_step (s, d) (on_compose (set_scheduledTime v) s, d)
| st_clear s d : drawer_step (s, d) (clear_schedule s d)
| st_to v s d : drawer_step (s, d) (on_compose (set_composeTo v) s, d)
| st_subject v s d : drawer_step (s, d) (on_compose (set_composeSubject v) s, d)
| st_track s d : drawer_step (s, d) (on_compose (fun c => set_composeTrackOpens (negb (composeTrackOpens c)) c) s, d)
| st_close s d : let '(s', d') := drawer_handleClose s d in drawer_step (s, d) (s', sync_drawer s' d')
| st_compose s d : let s' := on_compose onCompose s in drawer_step (s, d) (s', sync_drawer s' d)
| st_reply m s d : let s' := startReply m s in drawer_step (s, d) (s', sync_drawer s' d)
| st_forward m s d : let s' := startForward m s in drawer_step (s, d) (s', sync_drawer s' d)
| st_draft m text s d :
    let s' := on_compose (startEditDraft m text) s in drawer_step (s, d) (s', sync_drawer s' d).

End RichText.

(** ** Theorems: links *)

(** An address that opens a web page or a mail program. *)
Definition web_link (url : jstr) : Prop :=
  exists scheme rest, url = scheme ++ rest /\ map ascii_lower scheme ∈ map js ["http://"; "https://"; "mailto:"]%string.

Lemma begins_lang r s : begins r s = true <-> exists x rest, s = x ++ rest /\ lang (re_of r) x.
Proof.
  rewrite <- exec_lang. unfold begins. split.
  - destruct (exec r s) as [v|]; [by exists v|done].
  - by intros [v ->].
Qed.

Lemma web_regex_lang x : lang (re_of web_regex) x <-> map ascii_lower x ∈ map js ["http://"; "https://"]%string.
Proof.
  unfold web_regex, rlit, ROpt. cbn [re_of]. split.
  - intros (a & y & -> & Ha%word_lang & (b & c & -> & Hb & Hc%word_lang)%lang_seq_iff)%lang_seq_iff.
    rewrite !map_app, Ha, Hc. apply lang_alt_iff in Hb as [Hb%word_lang|Hb%lang_eps_iff].
    + rewrite Hb. set_solver.
    + subst b. set_solver.
  - intros E. assert (Ex : map ascii_lower x = js "http://" \/ map ascii_lower x = js "https://") by set_solver.
    apply lang_seq_iff. exists (take 4 x), (drop 4 x). split; [by rewrite take_drop|].
    split; [apply word_lang; rewrite <- firstn_map; by destruct Ex as [->| ->]|]. apply lang_seq_iff.
    destruct Ex as [Ex|Ex]; apply (f_equal (drop 4)) in Ex.
    + exists [], (drop 4 x). split; [done|]. split; [apply lang_alt_iff; right; by apply lang_eps_iff|].
      apply word_lang. by rewrite <- skipn_map, Ex.
    + exists (take 1 (drop 4 x)), (drop 1 (drop 4 x)). split; [by rewrite take_drop|].
      split; [apply lang_alt_iff; left|]; apply word_lang; rewrite <- ?firstn_map, <- ?skipn_map, Ex; done.
Qed.

Lemma begins_web s : begins web_regex s = true -> web_link s.
Proof.
  intros (x & rest & -> & Hx%web_regex_lang)%begins_lang. exists x, rest. split; [done|]. set_solver.
Qed.

(** Whatever is typed, a link is to a web page or a mail address: a script's address
    becomes the address of a web page.  An address with one of the schemes is kept. *)
Lemma link_address_spec typed :
  match link_address typed with
  | None => trim typed = []
  | Some url => web_link url /\ (begins web_regex (trim typed) = true -> url = trim typed)
  end.
Proof.
  unfold link_address. destruct (trim typed) as [|u s] eqn:E; cbn [truthy negb]; [done|]. rewrite <- E. clear E u s.
  destruct (begins web_regex (trim typed)) eqn:Ew; cbn [negb andb]; [split; [by apply begins_web|done]|].
  destruct (begins mail_regex (trim typed)) eqn:Em; cbn [negb]; (split; [|done]).
  - apply begins_lang in Em as (x & rest & -> & Hx%word_lang). exists x, rest. split; [done|].
    rewrite Hx. set_solver.
  - exists (js "https://"), (trim typed). split; [done|]. set_solver.
Qed.

Lemma image_address_spec typed url : image_address typed = Some url -> url = trim typed /\ web_link url.
Proof.
  unfold image_address. destruct (truthy _ && begins _ _) eqn:E; [|done]. intros [= <-].
  apply andb_true_iff in E as [_ E]. split; [done|by apply begins_web].
Qed.

(** ** Theorems: what the composer receives *)

Lemma includes_spec s p : includes s p = true <-> exists a b, s = a ++ p ++ b.
Proof.
  split.
  - induction s as [|u s IH]; cbn [includes]; rewrite orb_true_iff; intros [E|E]; try done.
    + apply starts_with_spec in E as [b E]. by exists [], b.
    + apply starts_with_spec in E as [b E]. by exists [], b.
    + destruct (IH E) as (a & b & ->). by exists (u :: a), b.
  - intros (a & b & ->). induction a as [|u a IH]; cbn [app].
    + pose proof (starts_with_app p b) as E. destruct (p ++ b); cbn [includes]; by rewrite E.
    + cbn [includes]. rewrite IH. apply orb_true_r.
Qed.

Lemma includes_join sep xs x p : x ∈ xs -> includes x p = true -> includes (join sep xs) p = true.
Proof.
  rewrite !includes_spec. intros Hx (a & b & ->). induction xs as [|y xs IH]; [set_solver|].
  apply elem_of_cons in Hx as [<-|Hx].
  - destruct xs as [|z xs]; [by exists a, b|]. change (join sep (_ :: z :: xs)) with ((a ++ p ++ b) ++ sep ++ join sep (z :: xs)).
    exists a, (b ++ sep ++ join sep (z :: xs)). by rewrite <- !app_assoc.
  - destruct (IH Hx) as (a' & b' & E). destruct xs as [|z xs]; [set_solver|].
    change (join sep (y :: z :: xs)) with (y ++ sep ++ join sep (z :: xs)). rewrite E.
    exists (y ++ sep ++ a'), b'. by rewrite <- !app_assoc.
Qed.

Section EditorTheorems.
Context `{Browser}.

Definition clean (html : jstr) : Prop := html = [] \/ exists raw, html = sanitize raw.

(** A document the editor may hold between events. *)
Definition clean_document (dom : jstr) : Prop :=
  clean dom \/ exists raw, dom = serialized (sanitize raw) \/ dom = serialized (sanitize_document raw).

Lemma sync_clean e :
  let '(e', change) := syncContent e in
  clean_document (ed_dom e') /\ exists ch, change = Some ch /\ ch_html ch = sanitize (ed_dom e) /\
    ch_text ch = inner_text (ed_dom e') /\ ed_currentHtml e' = ch_html ch.
Proof.
  unfold syncContent. split; [|by eexists]. cbn [ed_dom set_ed_currentHtml set_ed_dom].
  destruct (jeqb _ _) eqn:E.
  - apply jeqb_eq in E. left. right. by exists (ed_dom e).
  - right. exists (ed_dom e). by left.
Qed.

(** A dialog applies nothing, or one command with an address it has checked. *)
Theorem links_are_web_links sel e :
  let '(e', change) := applyLink sel e in
  showLinkModal e' = false /\
  ((trim (linkUrl e) = [] /\ change = None /\ ed_dom e' = ed_dom e) \/
   exists url name value, web_link url /\
     value ∈ [sanitize (anchor_html url (trim (linkText e))); href_of url] /\
     change = snd (syncContent (command name (Some value) (restored sel e) e)) /\
     ed_dom e' = ed_dom (fst (syncContent (command name (Some value) (restored sel e) e)))).
Proof.
  unfold applyLink. pose proof (link_address_spec (linkUrl e)) as L.
  destruct (link_address (linkUrl e)) as [url|]; [|by split; [|left]]. destruct L as [L _].
  destruct (truthy _ && nothing_selected e); (split; [done|]); right; eexists url, _, _;
    (split; [done|]); (split; [|done]); set_solver.
Qed.

Lemma event_clean ev e :
  editor_event ev -> clean_document (ed_dom e) ->
  clean_document (ed_dom (fst (ev e))) /\ (forall ch, snd (ev e) = Some ch -> clean (ch_html ch)).
Proof.
  assert (Hsync : forall x (f : Editor -> Editor), (forall y, ed_dom (f y) = ed_dom y) ->
    let '(y, change) := syncContent x in
    clean_document (ed_dom (f y)) /\ (forall ch, change = Some ch -> clean (ch_html ch))).
  { intros x f Hf. pose proof (sync_clean x) as S. destruct (syncContent x) as [y change].
    destruct S as (S & ch & -> & Eh & _). rewrite Hf. split; [done|]. intros ch' [= <-]. right. by exists (ed_dom x). }
  intros Hev Hd. destruct Hev; cbn [fst snd]; try (split; [exact Hd|done]).
  - apply (Hsync (set_ed_dom dom e) (fun y => y)). done.
  - apply (Hsync (command name value sel e) (fun y => y)). done.
  - apply (Hsync (command "insertHTML" (Some divider_html) sel e) (fun y => y)). done.
  - split; [by destruct sel|done].
  - unfold applyLink. destruct (link_address _) as [url|]; [|by split].
    destruct (truthy _ && nothing_selected e); by apply (Hsync _ (set_showLinkModal false)).
  - split; [by destruct sel|done].
  - unfold applyImage. destruct (image_address _) as [url|]; [|by split].
    by apply (Hsync _ (set_showImageModal false)).
  - cbn. split; [right; exists val; by left|]. intros ch [= <-]. right. by exists val.
  - split; [|done]. unfold toggle_html. destruct (negb (isHtmlMode e)); [done|].
    right. eexists. by right.
Qed.

(** The HTML of the form and the document of the editor have been through the sanitizer. *)
Definition Composer_ok (x : App * Drawer) : Prop :=
  clean (composeBodyHtml (compose (fst x))) /\
  (forall e, editor (snd x) = Some e -> clean_document (ed_dom e)).

Lemma mount_clean value : clean_document (ed_dom (mount_editor value)).
Proof. cbn. destruct (truthy value); [|by left; left]. right. eexists. by right. Qed.

Lemma sync_ok s d :
  clean (composeBodyHtml (compose s)) -> (forall e, editor d = Some e -> clean_document (ed_dom e)) ->
  Composer_ok (s, sync_drawer s d).
Proof.
  intros Hs Hd. split; [done|]. cbn [snd]. unfold sync_drawer. destruct (mounts_editor s d); [|done].
  destruct (editor d) as [e|] eqn:E; cbn [editor set_editor]; [by rewrite E|]. intros e [= <-]. apply mount_clean.
Qed.

Lemma composer_step x y : drawer_step x y -> Composer_ok x -> Composer_ok y.
Proof.
  intros Hst. destruct Hst; intros [Hs Hd]; cbn [fst snd] in *;
    try (split; [exact Hs|exact Hd]); try (apply sync_ok; [exact Hs|exact Hd]).
  - unfold edit. destruct (editor d) as [e|] eqn:Ee; [|by split; [|rewrite <- Ee in Hd]].
    destruct (event_clean ev e H0 (Hd e eq_refl)) as [E1 E2].
    destruct (ev e) as [e' [ch|]]; (split; cbn [fst snd receive editor set_editor]);
      [by apply E2|by intros ? [= <-]|done|by intros ? [= <-]].
  - apply sync_ok; [done|]. intros e He. apply Hd. rewrite <- He.
    repeat (apply elem_of_cons in H0 as [->|H0]); [by unfold toggleMinimize|by unfold toggleMaximize| |done|set_solver].
    unfold title_click. by case_decide.
  - apply sync_ok; [by left|exact Hd].
  - apply sync_ok; [|exact Hd]. unfold s', startReply. by destruct (messagePlaintext (reading s)).
  - apply sync_ok; [|exact Hd]. unfold s', startForward. by destruct (messagePlaintext (reading s)).
Qed.

(** Whatever is typed, pasted, inserted or written in the source view, and however the
    drawer is used meanwhile, the HTML handed to the form and the document on display
    come out of the sanitizer. *)
Theorem composer_receives_clean_html x y : rtc drawer_step x y -> Composer_ok x -> Composer_ok y.
Proof. induction 1; [done|]. intros Hx. apply IHrtc. by apply (composer_step x). Qed.

(** ** Theorems: closing and replying *)

(** The button whose title promises to save the draft empties the form. *)
Lemma closing_loses_the_text s d :
  let '(s', d') := drawer_handleClose s d in
  composeOpen (compose s') = false /\ composeBody (compose s') = [] /\ composeBodyHtml (compose s') = [] /\
  editor (sync_drawer s' d') = None.
Proof. done. Qed.

(** C25. Answering a message while the drawer holds a text: the recipient, the subject and
    the plain text become those of the answer, but the editor keeps showing the old text, and
    its HTML is what the answer carries as the alternative most programs display. *)
Theorem reply_carries_the_open_text m s d plaintext boundary to subject signedBody pixel :
  messagePlaintext (reading s) = Some plaintext ->
  let html := composeBodyHtml (compose s) in
  let s' := startReply m s in
  truthy (trim html) = true -> html <> quoteOriginal m plaintext ->
  composeTo (compose s') = sender m /\ composeBody (compose s') = quoteOriginal m plaintext /\
  composeBodyHtml (compose s') = html /\
  (is_Some (editor d) -> drawerMode d <> minimized -> sync_drawer s' d = d) /\
  includes (mime_message boundary to subject (composeBody (compose s')) (composeBodyHtml (compose s')) signedBody pixel)
    html = true.
Proof.
  intros Hp html s' Ht Hne.
  assert (Es : s' = on_compose (start_with (sender m) (withSubjectPrefix (AppState.subject m) (js "Re:"))
     (quoteOriginal m plaintext)) s) by (unfold s', startReply; by rewrite Hp).
  rewrite Es. split; [done|]. split; [done|]. split; [done|]. split.
  - intros [e He] Hm. unfold sync_drawer, mounts_editor. cbn [compose on_compose set_compose composeOpen start_with set_composeOpen].
    by rewrite bool_decide_eq_false_2, He.
  - cbn [compose on_compose set_compose]. change (composeBodyHtml _) with html. change (composeBody _) with (quoteOriginal m plaintext).
    unfold mime_message. destruct html as [|u h] eqn:E; [done|]. rewrite <- E in *.
    replace (truthy html) with true by by rewrite E. rewrite Ht. cbn [andb].
    replace (jeqb html _) with false by (symmetry; by apply bool_decide_eq_false_2). cbn [negb].
    unfold multipart_message. eapply includes_join.
    + do 12 apply list_elem_of_further. apply list_elem_of_here.
    + apply includes_spec. exists []. destruct (truthy pixel); [by exists (CRLF ++ pixel)|]. exists []. by rewrite app_nil_r.
Qed.

End EditorTheorems.

(** ** A concrete browser *)

(** A browser of plain text: the sanitizer drops angle brackets, a command appends its value. *)
Definition text_browser : Browser := {|
  Range := unit; collapsed _ := true;
  sanitize := List.filter (fun u => negb ((u =? 60) || (u =? 62)));
  sanitize_document := List.filter (fun u => negb ((u =? 60) || (u =? 62)));
  serialized s := s; inner_text s := s;
  execCommand _ v _ s := s ++ default [] v;
  anchor_html url text := js "[" ++ text ++ js "](" ++ url ++ js ")";
  image_html url alt width := js "![" ++ alt ++ js "](" ++ url ++ js ")";
  href_of s := s |}.

#[local] Existing Instance text_browser.

Definition empty_drawer : Drawer := {| drawerMode := docked; showScheduleInput := false; editor := None |}.

Definition composing (html : string) : App :=
  on_compose (fun c => set_composeBodyHtml (js html) (set_composeBody (js html) (onCompose c)))
    (on_reading (set_messagePlaintext (Some (js "Hello"))) sample_app).

Lemma composer_receives_clean_html_witness :
  let s := composing "x" in
  Composer_ok (edit (editor_input (js "a<script>b")) s (sync_drawer s empty_drawer)).
Proof.
  apply (composer_receives_clean_html (composing "x", sync_drawer (composing "x") empty_drawer)).
  - apply rtc_once, st_edit, ev_input.
  - split; [right; by exists (js "x")|]. intros e [= <-]. apply mount_clean.
Defined.

Lemma reply_carries_the_open_text_witness :
  let s := startReply row1 (composing "for somebody else") in
  composeTo (compose s) = js "Ann" /\
  includes (mime_message (js "b") (js "Ann") (js "Re: Hello") (composeBody (compose s)) (composeBodyHtml (compose s))
    (js "Hi") []) (js "for somebody else") = true.
Proof.
  destruct (reply_carries_the_open_text row1 (composing "for somebody else") empty_drawer (js "Hello")
    (js "b") (js "Ann") (js "Re: Hello") (js "Hi") []) as (E & _ & _ & _ & I); [reflexivity|reflexivity|by vm_compute|].
  split; [exact E|exact I].
Defined.

(** A script is not a link's address, nor is a relative one an image's. *)
Example scripts_are_not_links :
  link_address (js " javascript:alert(1) ") = Some (js "https://javascript:alert(1)") /\
  link_address (js "MAILTO:ann@x.org") = Some (js "MAILTO:ann@x.org") /\
  link_address (js "  ") = None /\ image_address (js "javascript:alert(1)") = None.
Proof. vm_compute. split_and!; reflexivity. Qed.

(** A typed text reaches the form in both its shapes. *)
Example typed_text_reaches_the_form :
  let x := edit (editor_input (js "a<b>")) sample_app (set_editor (Some (mount_editor [])) empty_drawer) in
  composeBodyHtml (compose (fst x)) = js "ab" /\ composeBody (compose (fst x)) = js "ab".
Proof. vm_compute. split; reflexivity. Qed.
