(* ===== verification/SignIn.v ===== *)
(** * Signing in

    The sign-in form of webmail/src/App.tsx: password, second factor, passkey, unlocking
    the mailbox of a running session (by password or recovery phrase).  [loginRes] and the other replies are read field by field, a
    missing string being the empty string; a missing reply throws. *)

From S2P Require Import Prelude JsString Encoding Json Display Wasm MessageCrypto Client Api AppState.
From S2P Require Import MailView Reading MailboxData Outbound ComposeMail Session.

(** Reading a property of the reply. *)
Definition reply_object (v : option json) : outcome json :=
  match v with None | Some JNull => throw "TypeError" | Some v => Ok v end.

(** [v.methods || ["email"]] *)
Definition login_methods (v : json) : list jstr :=
  match get v (js "methods") with
  | Some m => if json_truthy m then strings_field v "methods" else [js "email"]
  | None => [js "email"]
  end.

Definition login_error (text : jstr) : prog App unit := modify (on_login (set_loginError (Some text))).

Definition begin_login (l : Login) : Login := set_loginError None (set_loginBusy true l).

(** The reply asks for a second factor. *)
Definition two_factor (v : json) (password : jstr) (l : Login) : Login :=
  let preferred := or_default (str_field v "preferred_method") (js "email") in
  let l := set_twoFactorChallenge (Some (str_field v "challenge_token", login_methods v, preferred,
                                         str_field v "destination_masked")) l in
  let l := set_cachedPassword password (set_selected2FAMethod preferred l) in
  set_loginBusy false (set_twoFactorError None (set_twoFactorCodeInput [] l)).

Definition store_token (v : json) (s : App) : App :=
  let token := str_field v "token" in if truthy token then set_item token_item token s else s.

Section SignIn.
Context `{Crypto} `{Unicode} `{Dates} `{Env}.

(** The user with the reply's key material where it has none of its own. *)
Definition with_login_key (v : json) (user : UserMe) : UserMe :=
  if truthy (str_field v "wrapped_sk_user") && negb (truthy_opt (u_wrapped_sk_user user))
  then set_u_wrapped_sk_user (Some (str_field v "wrapped_sk_user")) user else user.

Definition login_token (v : json) : option jstr := or_none (str_field v "token").

(** ** Password *)

Definition login_body (email password : jstr) : prog App unit :=
  loginRes ← login email password;
  v ← lift (reply_object loginRes);
  if bool_field v "two_factor_required" then modify (on_login (two_factor v password))
  else
    _ ← modify (fun s => store_token v (on_custody (set_isLoading true) s));
    me ← fetchCurrentUser;
    match me with
    | Some u => if json_truthy u
                then bootstrapSession (with_login_key v (user_of u)) (Some password) (login_token v)
                else pthrow "Session was not established."
    | None => pthrow "Session was not established."
    end.

Definition end_login (s : App) : App :=
  on_custody (set_isLoading false) (on_login (fun l => set_loginBusy false (set_loginPassword [] l)) s).

Definition handleLogin : prog App unit :=
  l ← gets loginForm;
  let email := trim (loginEmail l) in
  let password := loginPassword l in
  if negb (truthy email) || negb (truthy password) then login_error (js "Enter your email and password.")
  else
    _ ← modify (on_login begin_login);
    _ ← pcatch (login_body email password) (fun _ => login_error (js "Invalid email or password."));
    modify end_login.

(** ** The second factor *)

Definition two_factor_error (text : jstr) : prog App unit :=
  modify (on_login (set_twoFactorError (Some text))).

Definition user_of_login (v : json) : UserMe := {|
  u_id := Some (str_field v "id"); u_user_id := str_field v "id"; u_email := str_field v "email";
  u_org_id := or_default (str_field v "org_id") (str_field v "organization_id");
  u_role := or_default (str_field v "role") (js "member"); u_display_name := None;
  u_mailbox_id := get_str v (js "mailbox_id"); u_mailbox_local_part := get_str v (js "mailbox_local_part");
  u_mailbox_mode := get_str v (js "mailbox_mode"); u_wrapped_sk_user := None |}.

Definition verify_body (token code : jstr) : prog App unit :=
  loginRes ← verifyLogin2FA token code;
  _ ← modify (on_custody (set_isLoading true));
  v ← lift (reply_object loginRes);
  _ ← modify (store_token v);
  s ← gets (fun s => s);
  let user := match currentUser (custody s) with Some u => u | None => user_of_login v end in
  _ ← bootstrapSession (with_login_key v user) (Some (cachedPassword (loginForm s))) (login_token v);
  modify (on_login (fun l => set_twoFactorCodeInput [] (set_cachedPassword [] (set_twoFactorChallenge None l)))).

Definition handleVerifyLogin2FA : prog App unit :=
  l ← gets loginForm;
  let code := trim (twoFactorCodeInput l) in
  match twoFactorChallenge l with
  | Some (token, _, _, _) =>
      if negb (truthy code) then two_factor_error (js "Please enter your 6-digit verification code.")
      else
        _ ← modify (on_login (fun l => set_twoFactorError None (set_twoFactorBusy true l)));
        _ ← pcatch (verify_body token code)
              (fun e => two_factor_error (or_default (message e) (js "Invalid or expired verification code.")));
        modify (fun s => on_custody (set_isLoading false) (on_login (set_twoFactorBusy false) s))
  | None => two_factor_error (js "Please enter your 6-digit verification code.")
  end.

Definition switch_method (method masked : jstr) (l : Login) : Login :=
  set_twoFactorChallenge
    (option_map (fun '(token, methods, _, _) => (token, methods, method, masked)) (twoFactorChallenge l))
    (set_selected2FAMethod method l).

Definition handleSwitchLogin2FAMethod (method : jstr) : prog App unit :=
  l ← gets loginForm;
  match twoFactorChallenge l with
  | None => skip
  | Some (token, _, _, _) =>
      _ ← modify (on_login (fun l => set_twoFactorError None (set_twoFactorBusy true l)));
      _ ← pcatch
            (res ← sendLogin2FACode token method;
             v ← lift (reply_object res);
             if bool_field v "success" then modify (on_login (switch_method method (str_field v "destination_masked")))
             else skip)
            (fun e => two_factor_error (or_default (message e) (js "Failed to send verification code.")));
      modify (on_login (set_twoFactorBusy false))
  end.

Definition handleCancelLogin2FA (l : Login) : Login :=
  set_twoFactorError None (set_twoFactorCodeInput [] (set_cachedPassword [] (set_twoFactorChallenge None l))).

(** ** Passkeys *)

Definition vault_item (credId : jstr) : jstr := js "byos_passkey_vault_" ++ credId.

(** The key the device keeps for this passkey, when there is one. *)
Definition open_vault (credId : jstr) (s : App) : App :=
  match JSON_parse (default [] (local s !! vault_item credId)) with
  | Ok v =>
      match get v (js "mailbox_sk_hex") with
      | Some (JStr skHex) =>
          if truthy skHex then
            match inline_hexToBytes skHex with
            | Ok bytes =>
                let i := str_field v "mailbox_id" in
                let sKey := str_field v "search_key_hex" in
                let s := on_custody (fun c =>
                  let c := set_mailboxKey (Some bytes) c in
                  let c := if truthy sKey then set_searchKey (Some sKey) c else c in
                  set_unlockedBoxId (Some i) c) s in
                let s := set_item (sk_item i) skHex s in
                if truthy sKey then set_item (skey_item i) sKey s else s
            | Throw _ => s
            end
          else s
      | _ => s
      end
  | Throw _ => s
  end.

Definition string_of (v : option json) : outcome jstr :=
  match v with Some (JStr s) => Ok s | _ => throw "TypeError" end.

(** [opts.allowCredentials?.map(c => base64URLToBuffer(c.id))], nothing when it is empty. *)
Definition allowed_credentials (v : json) : outcome (option (list bytes)) :=
  match get v (js "allowCredentials") with
  | None | Some JNull => Ok None
  | Some l =>
      cs ← items l;
      ids ← mapM (fun c => c ← reply_object (Some c); i ← string_of (get c (js "id")); base64URLToBuffer i) cs;
      Ok (match ids with [] => None | _ => Some ids end)
  end.

Definition passkey_body (authenticate : Authenticator) (email : option jstr) : prog App unit :=
  opts ← fetchPasskeyLoginOptions email;
  v ← lift (reply_object opts);
  allowCreds ← lift (allowed_credentials v);
  challengeText ← lift (string_of (get v (js "challenge")));
  challenge ← lift (base64URLToBuffer challengeText);
  _ ← wait;
  assertion ← lift (authenticate challenge allowCreds);
  match assertion with
  | None => pthrow "Passkey login was cancelled."
  | Some a =>
      credId ← lift (bufferToBase64URL (a_raw_id a));
      clientDataB64 ← lift (bufferToBase64URL (a_client_data a));
      loginRes ← loginWithPasskey (JObj [str_member "credential_id" credId;
        str_member "challenge_token" challengeText; str_member "signature" (cp_bytesToHex (a_signature a));
        str_member "client_data_json" clientDataB64]);
      _ ← modify (on_custody (set_isLoading true));
      r ← lift (reply_object loginRes);
      _ ← modify (fun s => open_vault credId (store_token r s));
      me ← fetchCurrentUser;
      match me with
      | Some u => if json_truthy u then bootstrapSession (user_of u) None (login_token r)
                  else pthrow "Session was not established."
      | None => pthrow "Session was not established."
      end
  end.

(** [supported] is whether the browser has passkeys. *)
Definition handlePasskeyLogin (supported : bool) (authenticate : Authenticator) : prog App unit :=
  if negb supported then login_error (js "Passkeys are not supported in this browser.")
  else
    _ ← modify (on_login begin_login);
    email ← gets (fun s => or_none (trim (loginEmail (loginForm s))));
    _ ← pcatch (passkey_body authenticate email)
          (fun e => login_error (or_default (message e) (js "Passkey login failed.")));
    modify (fun s => on_custody (set_isLoading false) (on_login (set_loginBusy false) s)).

(** ** Unlocking the mailbox of a running session *)

(** A fresh key pair, a salt and a nonce for wrapping. *)
Record FreshKey := { f_sk : bytes; f_salt : bytes; f_nonce : bytes }.

(** A new pair wrapped under the password: the public key and the wrapped secret. *)
Definition fresh_key (f : FreshKey) (password : jstr) : outcome (jstr * jstr) :=
  kp ← JSON_parse (wasm_generate_keypair (f_sk f));
  let saltHex := cp_bytesToHex (f_salt f) in
  envelope ← wasm_passphrase_wrap_key (f_nonce f) password saltHex (str_field kp "secret_key");
  Ok (str_field kp "public_key", JSON_stringify (JObj [str_member "salt" saltHex; str_member "envelope" envelope])).

(** An account without key material gets some. *)
Definition self_heal (f : FreshKey) (mailboxId password : jstr) : prog App jstr :=
  pcatch
    (_ ← wait;
     '(pk, wrapped) ← lift (fresh_key f password);
     _ ← reactivateHistoricalKeys mailboxId wrapped (Some pk);
     mret wrapped)
    (fun _ => mret []).

Definition unlock_failed_text : string :=
  "Unable to unlock mailbox with this password. If your mailbox was created with a recovery phrase, use your recovery phrase below.".

Definition unlock_body (f : FreshKey) (user : UserMe) (password : jstr) : prog App unit :=
  loginRes ← login (u_email user) password;
  v ← lift (reply_object loginRes);
  if bool_field v "two_factor_required" then modify (on_login (two_factor v password))
  else
    _ ← modify (fun s => store_token v (on_custody (set_isLoading true) s));
    let target := or_default (str_field v "wrapped_sk_user") (default [] (u_wrapped_sk_user user)) in
    target ← (if negb (truthy target) && truthy (str_field v "mailbox_id")
              then self_heal f (str_field v "mailbox_id") password else mret target);
    _ ← bootstrapSession (set_u_wrapped_sk_user (Some target) user) (Some password) (login_token v);
    key ← gets (fun s => mailboxKey (custody s));
    match key with None => pthrow unlock_failed_text | Some _ => skip end.

Definition handleUnlock (f : FreshKey) : prog App unit :=
  s ← gets (fun s => s);
  let password := loginPassword (loginForm s) in
  match currentUser (custody s) with
  | Some user =>
      if negb (truthy password) then login_error (js "Enter your password.")
      else
        _ ← modify (on_login begin_login);
        _ ← pcatch (unlock_body f user password)
              (fun e => login_error (or_default (message e) (js "Invalid password.")));
        modify end_login
  | None => login_error (js "Enter your password.")
  end.

Definition unlock_with_phrase (user : UserMe) (phrase : jstr) : prog App unit :=
  _ ← wait;
  c ← gets custody;
  match (match selectedMailbox c with Some b => Some b | None => head (mailboxes c) end) with
  | None => pthrow "No mailbox found."
  | Some box =>
      let wrappedSk := default [] (or_opt (u_wrapped_sk_user user) (mb_wrapped_sk_user box)) in
      if negb (truthy wrappedSk) then pthrow "No encrypted key found for this mailbox."
      else
        sk ← lift (unwrapMailboxKeyWithRecoveryPhrase phrase (mb_id box) wrappedSk);
        let skHex := cp_bytesToHex sk in
        sKey ← lift (wasm_derive_search_key skHex);
        _ ← modify (install_key (mb_id box) sk skHex sKey);
        loadMailboxData (mb_id box)
  end.

Definition handleUnlockWithRecovery : prog App unit :=
  s ← gets (fun s => s);
  let phrase := trim (recoveryPhraseInput (loginForm s)) in
  match currentUser (custody s) with
  | Some user =>
      if negb (truthy phrase) then login_error (js "Enter your 24-word recovery phrase.")
      else
        _ ← modify (on_login begin_login);
        _ ← pcatch (unlock_with_phrase user phrase)
              (fun e => login_error
                 (or_default (message e) (js "Invalid recovery phrase or failed to unlock mailbox keys.")));
        modify (on_login (fun l => set_loginBusy false (set_recoveryPhraseInput [] l)))
  | None => login_error (js "Enter your 24-word recovery phrase.")
  end.

End SignIn.
