(* ===== verification/MailSettings.v ===== *)
(** * Appearance, signatures and the bridge

    Three tabs of the mail client's settings: routes/settings/AppearanceTab.tsx with the
    handlers of App.tsx it is given, SignaturesTab.tsx and BridgeTab.tsx.  A tab's signals
    stand beside the application's state; the scaling of an uploaded picture is the
    browser's, and its result a parameter. *)

From S2P Require Import Prelude JsString Json Display Client Page Api AppState MailView Reading MailboxData SignIn.

(** [email.split("@")[1] || "byos.local"] *)
Definition email_domain (user : option UserMe) : jstr :=
  match user with
  | Some u => or_default (default [] (split_on 64 (u_email u) !! 1%nat)) (js "byos.local")
  | None => js "byos.local"
  end.

Definition tab_address (localPart : jstr) (user : option UserMe) : jstr := localPart ++ [64] ++ email_domain user.

(** ** AppearanceTab.tsx *)

Record AppearanceTab := {
  at_loading : bool;
  at_saving : bool;
  at_saved : bool;
  at_error : option jstr;
  at_density : jstr;
  at_layout : jstr;
  at_theme : jstr;
  at_language : jstr;
  at_time : jstr;
  at_week : jstr }.

Definition set_at_loading (v : bool) (x : AppearanceTab) : AppearanceTab := {|
  at_loading := v; at_saving := at_saving x; at_saved := at_saved x; at_error := at_error x; at_density :=
    at_density x; at_layout := at_layout x; at_theme := at_theme x; at_language := at_language x; at_time :=
    at_time x; at_week := at_week x |}.
Definition set_at_saving (v : bool) (x : AppearanceTab) : AppearanceTab := {|
  at_loading := at_loading x; at_saving := v; at_saved := at_saved x; at_error := at_error x; at_density :=
    at_density x; at_layout := at_layout x; at_theme := at_theme x; at_language := at_language x; at_time :=
    at_time x; at_week := at_week x |}.
Definition set_at_saved (v : bool) (x : AppearanceTab) : AppearanceTab := {|
  at_loading := at_loading x; at_saving := at_saving x; at_saved := v; at_error := at_error x; at_density :=
    at_density x; at_layout := at_layout x; at_theme := at_theme x; at_language := at_language x; at_time :=
    at_time x; at_week := at_week x |}.
Definition set_at_error (v : option jstr) (x : AppearanceTab) : AppearanceTab := {|
  at_loading := at_loading x; at_saving := at_saving x; at_saved := at_saved x; at_error := v; at_density :=
    at_density x; at_layout := at_layout x; at_theme := at_theme x; at_language := at_language x; at_time :=
    at_time x; at_week := at_week x |}.
Definition set_at_density (v : jstr) (x : AppearanceTab) : AppearanceTab := {|
  at_loading := at_loading x; at_saving := at_saving x; at_saved := at_saved x; at_error := at_error x;
    at_density := v; at_layout := at_layout x; at_theme := at_theme x; at_language := at_language x; at_time :=
    at_time x; at_week := at_week x |}.
Definition set_at_layout (v : jstr) (x : AppearanceTab) : AppearanceTab := {|
  at_loading := at_loading x; at_saving := at_saving x; at_saved := at_saved x; at_error := at_error x;
    at_density := at_density x; at_layout := v; at_theme := at_theme x; at_language := at_language x; at_time :=
    at_time x; at_week := at_week x |}.
Definition set_at_theme (v : jstr) (x : AppearanceTab) : AppearanceTab := {|
  at_loading := at_loading x; at_saving := at_saving x; at_saved := at_saved x; at_error := at_error x;
    at_density := at_density x; at_layout := at_layout x; at_theme := v; at_language := at_language x; at_time
    := at_time x; at_week := at_week x |}.
Definition set_at_language (v : jstr) (x : AppearanceTab) : AppearanceTab := {|
  at_loading := at_loading x; at_saving := at_saving x; at_saved := at_saved x; at_error := at_error x;
    at_density := at_density x; at_layout := at_layout x; at_theme := at_theme x; at_language := v; at_time :=
    at_time x; at_week := at_week x |}.
Definition set_at_time (v : jstr) (x : AppearanceTab) : AppearanceTab := {|
  at_loading := at_loading x; at_saving := at_saving x; at_saved := at_saved x; at_error := at_error x;
    at_density := at_density x; at_layout := at_layout x; at_theme := at_theme x; at_language := at_language x;
    at_time := v; at_week := at_week x |}.
Definition set_at_week (v : jstr) (x : AppearanceTab) : AppearanceTab := {|
  at_loading := at_loading x; at_saving := at_saving x; at_saved := at_saved x; at_error := at_error x;
    at_density := at_density x; at_layout := at_layout x; at_theme := at_theme x; at_language := at_language x;
    at_time := at_time x; at_week := v |}.

(** The handlers of App.tsx: the signal and the device's copy.  With [persistToBackend] the
    mailbox is told, without waiting. *)
Definition set_preference (item : string) (f : jstr -> Prefs -> Prefs) (v : jstr) (s : App) : App :=
  set_local_item (js item) v (on_prefs (f v) s).

Section Appearance.
Context `{Env}.

Definition persist (member : string) (v : jstr) : prog App unit :=
  box ← gets (fun s => selectedMailbox (custody s));
  match box with
  | Some b => forget (updateMailboxSettings (mb_id b) (JObj [str_member member v]))
  | None => skip
  end.

Definition handleSetTheme (v : jstr) (persistToBackend : bool) : prog App unit :=
  _ ← modify (set_preference "byos_theme" set_theme v);
  if persistToBackend then persist "theme" v else skip.

Definition handleSetDensity (v : jstr) (persistToBackend : bool) : prog App unit :=
  _ ← modify (set_preference "byos_density" set_density v);
  if persistToBackend then persist "density" v else skip.

Definition handleSetLayoutMode (v : jstr) (persistToBackend : bool) : prog App unit :=
  _ ← modify (set_preference "byos_layout" set_layoutMode v);
  if persistToBackend then persist "layout_mode" v else skip.

Definition onTimeFormatChange : jstr -> App -> App := set_preference "byos_time_format" set_timeFormat.
Definition onLanguageChange : jstr -> App -> App := set_preference "byos_language" set_language.
Definition onWeekStartChange : jstr -> App -> App := set_preference "byos_week_start" set_weekStart.

Variable mailbox : jstr.

(** [if (s.k) { set(s.k); props.onChange(s.k) }] *)
Definition show_setting (v : json) (k : string) (f : jstr -> AppearanceTab -> AppearanceTab) (g : jstr -> App -> App)
    : prog (App * AppearanceTab) unit :=
  let x := str_field v k in
  if truthy x then _ ← on_page (f x); below (modify (g x)) else skip.

Definition appearance_onMount : prog (App * AppearanceTab) unit :=
  finally
    (pcatch
       (_ ← on_page (set_at_loading true);
        res ← below (fetchMailboxSettings mailbox);
        v ← lift (reply_object res);
        _ ← show_setting v "density" set_at_density (set_preference "byos_density" set_density);
        _ ← show_setting v "layout_mode" set_at_layout (set_preference "byos_layout" set_layoutMode);
        _ ← show_setting v "theme" set_at_theme (set_preference "byos_theme" set_theme);
        _ ← show_setting v "language" set_at_language onLanguageChange;
        _ ← show_setting v "time_format" set_at_time onTimeFormatChange;
        show_setting v "week_start" set_at_week onWeekStartChange)
       (fun _ => skip))
    (on_page (set_at_loading false)).

(** The six values of [handleApply], those of the form where an argument is left out. *)
Record Look := { lk_density : jstr; lk_layout : jstr; lk_theme : jstr; lk_language : jstr; lk_time : jstr; lk_week : jstr }.

Definition look_of (p : AppearanceTab) : Look :=
  {| lk_density := at_density p; lk_layout := at_layout p; lk_theme := at_theme p; lk_language := at_language p;
     lk_time := at_time p; lk_week := at_week p |}.

Definition show_look (l : Look) (p : AppearanceTab) : AppearanceTab :=
  set_at_week (lk_week l) (set_at_time (lk_time l) (set_at_language (lk_language l)
    (set_at_theme (lk_theme l) (set_at_layout (lk_layout l) (set_at_density (lk_density l) p))))).

(** The effects that follow the parent's signals. *)
Definition sync_props (f : Prefs) (p : AppearanceTab) : AppearanceTab :=
  show_look {| lk_density := or_default (density f) (at_density p); lk_layout := or_default (layoutMode f) (at_layout p);
               lk_theme := or_default (theme f) (at_theme p); lk_language := or_default (language f) (at_language p);
               lk_time := or_default (timeFormat f) (at_time p); lk_week := or_default (weekStart f) (at_week p) |} p.

(** The device's copies, and the parent's signals: the tab writes the former too. *)
Definition adopt_look (l : Look) (s : App) : App :=
  onWeekStartChange (lk_week l) (onTimeFormatChange (lk_time l) (onLanguageChange (lk_language l)
    (set_preference "byos_theme" set_theme (lk_theme l)
      (set_preference "byos_layout" set_layoutMode (lk_layout l)
        (set_preference "byos_density" set_density (lk_density l) s))))).

Definition look_json (l : Look) : json := JObj [
  str_member "density" (lk_density l); str_member "layout_mode" (lk_layout l); str_member "theme" (lk_theme l);
  str_member "language" (lk_language l); str_member "time_format" (lk_time l); str_member "week_start" (lk_week l) ].

Definition handleApply (l : Look) : prog (App * AppearanceTab) unit :=
  _ ← on_page (fun p => set_at_error None (set_at_saving true p));
  finally
    (pcatch
       (_ ← on_page (show_look l);
        _ ← below (modify (adopt_look l));
        _ ← below (updateMailboxSettings mailbox (look_json l));
        _ ← on_page (set_at_saved true);
        spawn (_ ← wait; on_page (set_at_saved false)))
       (fun e => on_page (set_at_error (Some (or_default (message e) (js "Failed to update appearance preferences."))))))
    (on_page (set_at_saving false)).

End Appearance.

(** ** SignaturesTab.tsx *)

Record SignaturesTab := {
  st_loading : bool;
  st_saving : bool;
  st_saved : bool;
  st_error : option jstr;
  st_name : jstr;
  st_avatar : jstr;
  st_avatar_input : jstr;
  st_plain : jstr;
  st_html : jstr;
  st_on_reply : bool;
  st_aliases : json;
  st_identity : jstr }.

Definition set_st_loading (v : bool) (x : SignaturesTab) : SignaturesTab := {|
  st_loading := v; st_saving := st_saving x; st_saved := st_saved x; st_error := st_error x; st_name := st_name
    x; st_avatar := st_avatar x; st_avatar_input := st_avatar_input x; st_plain := st_plain x; st_html :=
    st_html x; st_on_reply := st_on_reply x; st_aliases := st_aliases x; st_identity := st_identity x |}.
Definition set_st_saving (v : bool) (x : SignaturesTab) : SignaturesTab := {|
  st_loading := st_loading x; st_saving := v; st_saved := st_saved x; st_error := st_error x; st_name := st_name
    x; st_avatar := st_avatar x; st_avatar_input := st_avatar_input x; st_plain := st_plain x; st_html :=
    st_html x; st_on_reply := st_on_reply x; st_aliases := st_aliases x; st_identity := st_identity x |}.
Definition set_st_saved (v : bool) (x : SignaturesTab) : SignaturesTab := {|
  st_loading := st_loading x; st_saving := st_saving x; st_saved := v; st_error := st_error x; st_name :=
    st_name x; st_avatar := st_avatar x; st_avatar_input := st_avatar_input x; st_plain := st_plain x; st_html
    := st_html x; st_on_reply := st_on_reply x; st_aliases := st_aliases x; st_identity := st_identity x |}.
Definition set_st_error (v : option jstr) (x : SignaturesTab) : SignaturesTab := {|
  st_loading := st_loading x; st_saving := st_saving x; st_saved := st_saved x; st_error := v; st_name :=
    st_name x; st_avatar := st_avatar x; st_avatar_input := st_avatar_input x; st_plain := st_plain x; st_html
    := st_html x; st_on_reply := st_on_reply x; st_aliases := st_aliases x; st_identity := st_identity x |}.
Definition set_st_name (v : jstr) (x : SignaturesTab) : SignaturesTab := {|
  st_loading := st_loading x; st_saving := st_saving x; st_saved := st_saved x; st_error := st_error x; st_name
    := v; st_avatar := st_avatar x; st_avatar_input := st_avatar_input x; st_plain := st_plain x; st_html :=
    st_html x; st_on_reply := st_on_reply x; st_aliases := st_aliases x; st_identity := st_identity x |}.
Definition set_st_avatar (v : jstr) (x : SignaturesTab) : SignaturesTab := {|
  st_loading := st_loading x; st_saving := st_saving x; st_saved := st_saved x; st_error := st_error x; st_name
    := st_name x; st_avatar := v; st_avatar_input := st_avatar_input x; st_plain := st_plain x; st_html :=
    st_html x; st_on_reply := st_on_reply x; st_aliases := st_aliases x; st_identity := st_identity x |}.
Definition set_st_avatar_input (v : jstr) (x : SignaturesTab) : SignaturesTab := {|
  st_loading := st_loading x; st_saving := st_saving x; st_saved := st_saved x; st_error := st_error x; st_name
    := st_name x; st_avatar := st_avatar x; st_avatar_input := v; st_plain := st_plain x; st_html := st_html x;
    st_on_reply := st_on_reply x; st_aliases := st_aliases x; st_identity := st_identity x |}.
Definition set_st_plain (v : jstr) (x : SignaturesTab) : SignaturesTab := {|
  st_loading := st_loading x; st_saving := st_saving x; st_saved := st_saved x; st_error := st_error x; st_name
    := st_name x; st_avatar := st_avatar x; st_avatar_input := st_avatar_input x; st_plain := v; st_html :=
    st_html x; st_on_reply := st_on_reply x; st_aliases := st_aliases x; st_identity := st_identity x |}.
Definition set_st_html (v : jstr) (x : SignaturesTab) : SignaturesTab := {|
  st_loading := st_loading x; st_saving := st_saving x; st_saved := st_saved x; st_error := st_error x; st_name
    := st_name x; st_avatar := st_avatar x; st_avatar_input := st_avatar_input x; st_plain := st_plain x;
    st_html := v; st_on_reply := st_on_reply x; st_aliases := st_aliases x; st_identity := st_identity x |}.
Definition set_st_on_reply (v : bool) (x : SignaturesTab) : SignaturesTab := {|
  st_loading := st_loading x; st_saving := st_saving x; st_saved := st_saved x; st_error := st_error x; st_name
    := st_name x; st_avatar := st_avatar x; st_avatar_input := st_avatar_input x; st_plain := st_plain x;
    st_html := st_html x; st_on_reply := v; st_aliases := st_aliases x; st_identity := st_identity x |}.
Definition set_st_aliases (v : json) (x : SignaturesTab) : SignaturesTab := {|
  st_loading := st_loading x; st_saving := st_saving x; st_saved := st_saved x; st_error := st_error x; st_name
    := st_name x; st_avatar := st_avatar x; st_avatar_input := st_avatar_input x; st_plain := st_plain x;
    st_html := st_html x; st_on_reply := st_on_reply x; st_aliases := v; st_identity := st_identity x |}.
Definition set_st_identity (v : jstr) (x : SignaturesTab) : SignaturesTab := {|
  st_loading := st_loading x; st_saving := st_saving x; st_saved := st_saved x; st_error := st_error x; st_name
    := st_name x; st_avatar := st_avatar x; st_avatar_input := st_avatar_input x; st_plain := st_plain x;
    st_html := st_html x; st_on_reply := st_on_reply x; st_aliases := st_aliases x; st_identity := v |}.

Section Signatures.
Context `{Env} `{Unicode}.
(** DOMPurify, as it is called on loading and on saving. *)
Variable sanitize_loaded sanitize_saved : jstr -> jstr.
Variable mailbox localPart : jstr.
Variable currentUser : option UserMe.

Definition primaryEmail : jstr := tab_address localPart currentUser.
Definition avatar_item (key : jstr) : jstr := js "byos_avatar_" ++ key.

Definition saveAvatarLocally (url : jstr) (s : App) : App :=
  let email := trim (toLowerCase primaryEmail) in
  if truthy url then set_local_item (avatar_item mailbox) url (set_local_item (avatar_item email) url s)
  else set_local (delete (avatar_item mailbox) (delete (avatar_item email) (local s))) s.

(** [downscaled] is the picture the canvas gives. *)
Definition avatar_scaled (downscaled : jstr) : prog (App * SignaturesTab) unit :=
  _ ← on_page (fun p => set_st_avatar_input (if starts_with (js "data:") downscaled then [] else downscaled)
                          (set_st_avatar downscaled p));
  below (modify (saveAvatarLocally downscaled)).

Definition handleAvatarUrlChange (url : jstr) : prog (App * SignaturesTab) unit :=
  let trimmed := trim url in
  _ ← on_page (fun p => set_st_avatar trimmed (set_st_avatar_input trimmed p));
  below (modify (saveAvatarLocally trimmed)).

Definition removeAvatar : prog (App * SignaturesTab) unit :=
  _ ← on_page (fun p => set_st_avatar_input [] (set_st_avatar [] p));
  below (modify (saveAvatarLocally [])).

(** [text.replace(/\n/g, "<br/>")] *)
Definition with_breaks (text : jstr) : jstr := concat (map (fun u => if u =? 10 then js "<br/>" else [u]) text).

Definition show_signature (v aliasList : json) (p : SignaturesTab) : SignaturesTab :=
  let plain := str_field v "signature_plain" in
  set_st_identity primaryEmail (set_st_aliases aliasList (set_st_on_reply (bool_field v "insert_signature_on_reply")
    (set_st_html (sanitize_loaded (or_default (str_field v "signature_html") (with_breaks plain)))
      (set_st_plain plain (set_st_name (str_field v "display_name") p))))).

(** The picture of the settings, else the device's, by address and by mailbox. *)
Definition stored_avatar (v : json) (s : App) : jstr :=
  or_default (str_field v "avatar_url")
    (or_default (default [] (local s !! avatar_item (trim (toLowerCase primaryEmail))))
      (default [] (local s !! avatar_item mailbox))).

Definition show_avatar (url : jstr) (p : SignaturesTab) : SignaturesTab :=
  if truthy url then
    let p := set_st_avatar url p in
    if starts_with (js "data:") url then p else set_st_avatar_input url p
  else p.

Definition signatures_onMount : prog (App * SignaturesTab) unit :=
  finally
    (pcatch
       (_ ← on_page (set_st_loading true);
        rs ← below (promise_all [fetchMailboxSettings mailbox; (a ← fetchMailboxAliases mailbox; mret (Some a))]);
        match rs with
        | [settings; aliasList] =>
            v ← lift (reply_object settings);
            _ ← on_page (show_signature v (default JNull aliasList));
            s ← below (gets (fun s => s));
            on_page (show_avatar (stored_avatar v s))
        | _ => skip
        end)
       (fun e => on_page (set_st_error (Some (or_default (message e) (js "Failed to load mailbox settings."))))))
    (on_page (set_st_loading false)).

Definition signature_json (p : SignaturesTab) : json := JObj [
  str_member "display_name" (trim (st_name p)); str_member "signature_plain" (st_plain p);
  str_member "signature_html" (sanitize_saved (st_html p)); (js "insert_signature_on_reply", JBool (st_on_reply p));
  str_member "avatar_url" (st_avatar p) ].

Definition signatures_handleSave : prog (App * SignaturesTab) unit :=
  _ ← on_page (fun p => set_st_error None (set_st_saving true p));
  finally
    (pcatch
       (p ← page (G:=SignaturesTab);
        _ ← below (modify (saveAvatarLocally (st_avatar p)));
        _ ← below (updateMailboxSettings mailbox (signature_json p));
        p ← page (G:=SignaturesTab);
        _ ← below (modify (fun s => set_local (saveSignature mailbox (st_plain p) (local s)) s));
        _ ← on_page (set_st_saved true);
        spawn (_ ← wait; on_page (set_st_saved false)))
       (fun e => on_page (set_st_error (Some (or_default (message e) (js "Failed to save signature settings."))))))
    (on_page (set_st_saving false)).

End Signatures.

(** ** BridgeTab.tsx *)

Record BridgeTab := {
  br_loading : bool;
  br_list : json;
  br_error : option jstr;
  br_revoking : option jstr;
  br_modal : bool;
  br_label : jstr;
  br_creating : bool;
  br_token : option jstr;
  br_copied : bool;
  br_clipboard : option jstr }.

Definition set_br_loading (v : bool) (x : BridgeTab) : BridgeTab := {|
  br_loading := v; br_list := br_list x; br_error := br_error x; br_revoking := br_revoking x; br_modal :=
    br_modal x; br_label := br_label x; br_creating := br_creating x; br_token := br_token x; br_copied :=
    br_copied x; br_clipboard := br_clipboard x |}.
Definition set_br_list (v : json) (x : BridgeTab) : BridgeTab := {|
  br_loading := br_loading x; br_list := v; br_error := br_error x; br_revoking := br_revoking x; br_modal :=
    br_modal x; br_label := br_label x; br_creating := br_creating x; br_token := br_token x; br_copied :=
    br_copied x; br_clipboard := br_clipboard x |}.
Definition set_br_error (v : option jstr) (x : BridgeTab) : BridgeTab := {|
  br_loading := br_loading x; br_list := br_list x; br_error := v; br_revoking := br_revoking x; br_modal :=
    br_modal x; br_label := br_label x; br_creating := br_creating x; br_token := br_token x; br_copied :=
    br_copied x; br_clipboard := br_clipboard x |}.
Definition set_br_revoking (v : option jstr) (x : BridgeTab) : BridgeTab := {|
  br_loading := br_loading x; br_list := br_list x; br_error := br_error x; br_revoking := v; br_modal :=
    br_modal x; br_label := br_label x; br_creating := br_creating x; br_token := br_token x; br_copied :=
    br_copied x; br_clipboard := br_clipboard x |}.
Definition set_br_modal (v : bool) (x : BridgeTab) : BridgeTab := {|
  br_loading := br_loading x; br_list := br_list x; br_error := br_error x; br_revoking := br_revoking x;
    br_modal := v; br_label := br_label x; br_creating := br_creating x; br_token := br_token x; br_copied :=
    br_copied x; br_clipboard := br_clipboard x |}.
Definition set_br_label (v : jstr) (x : BridgeTab) : BridgeTab := {|
  br_loading := br_loading x; br_list := br_list x; br_error := br_error x; br_revoking := br_revoking x;
    br_modal := br_modal x; br_label := v; br_creating := br_creating x; br_token := br_token x; br_copied :=
    br_copied x; br_clipboard := br_clipboard x |}.
Definition set_br_creating (v : bool) (x : BridgeTab) : BridgeTab := {|
  br_loading := br_loading x; br_list := br_list x; br_error := br_error x; br_revoking := br_revoking x;
    br_modal := br_modal x; br_label := br_label x; br_creating := v; br_token := br_token x; br_copied :=
    br_copied x; br_clipboard := br_clipboard x |}.
Definition set_br_token (v : option jstr) (x : BridgeTab) : BridgeTab := {|
  br_loading := br_loading x; br_list := br_list x; br_error := br_error x; br_revoking := br_revoking x;
    br_modal := br_modal x; br_label := br_label x; br_creating := br_creating x; br_token := v; br_copied :=
    br_copied x; br_clipboard := br_clipboard x |}.
Definition set_br_copied (v : bool) (x : BridgeTab) : BridgeTab := {|
  br_loading := br_loading x; br_list := br_list x; br_error := br_error x; br_revoking := br_revoking x;
    br_modal := br_modal x; br_label := br_label x; br_creating := br_creating x; br_token := br_token x;
    br_copied := v; br_clipboard := br_clipboard x |}.
Definition set_br_clipboard (v : option jstr) (x : BridgeTab) : BridgeTab := {|
  br_loading := br_loading x; br_list := br_list x; br_error := br_error x; br_revoking := br_revoking x;
    br_modal := br_modal x; br_label := br_label x; br_creating := br_creating x; br_token := br_token x;
    br_copied := br_copied x; br_clipboard := v |}.

Section Bridge.
Context `{Env}.
Variable mailbox : jstr.

Definition loadCredentials : prog (App * BridgeTab) unit :=
  finally
    (pcatch
       (_ ← on_page (set_br_loading true);
        l ← below (listBridgeCredentials mailbox);
        on_page (set_br_list l))
       (fun e => on_page (set_br_error (Some (or_default (message e) (js "Failed to load bridge credentials."))))))
    (on_page (set_br_loading false)).

(** The button that opens the dialog. *)
Definition open_generate (p : BridgeTab) : BridgeTab := set_br_modal true (set_br_token None p).

Definition handleCreateToken : prog (App * BridgeTab) unit :=
  p ← page (G:=BridgeTab);
  if negb (truthy (trim (br_label p))) then skip
  else
    _ ← on_page (fun p => set_br_error None (set_br_creating true p));
    finally
      (pcatch
         (res ← below (createBridgeCredential mailbox (trim (br_label p)));
          cred ← lift (reply_object res);
          _ ← on_page (fun p => set_br_label [] (set_br_token (Some (or_default (str_field cred "token") (js "token-generated"))) p));
          loadCredentials)
         (fun e => on_page (set_br_error (Some (or_default (message e) (js "Failed to generate bridge credential."))))))
      (on_page (set_br_creating false)).

Definition without_credential (i : jstr) (v : json) : outcome json :=
  l ← items v; Ok (JArr (List.filter (fun c => negb (jeqb (str_field c "id") i)) l)).

Definition handleRevoke (i : jstr) : prog (App * BridgeTab) unit :=
  ok ← confirm (js "Are you sure you want to revoke this bridge credential? External clients using this password will be disconnected.");
  if negb ok then skip
  else
    _ ← on_page (set_br_revoking (Some i));
    finally
      (pcatch
         (_ ← below (revokeBridgeCredential mailbox i);
          p ← page (G:=BridgeTab);
          l ← lift (without_credential i (br_list p));
          on_page (set_br_list l))
         (fun e => on_page (set_br_error (Some (or_default (message e) (js "Failed to revoke credential."))))))
      (on_page (set_br_revoking None)).

Definition handleCopyToken (p : BridgeTab) : BridgeTab :=
  match br_token p with
  | Some t => if truthy t then set_br_copied true (set_br_clipboard (Some t) p) else p
  | None => p
  end.

End Bridge.

(** ** Theorems *)

Section SettingsRuns.
Context `{HU : Unicode} `{HE : Env}.
Variable mailbox : jstr.

Definition settings_request (v : json) (s : App) : request :=
  api_fetch s (mailbox_path mailbox "/settings")
    {| i_method := Some (js "PUT"); i_headers := []; i_credentials := None; i_body := stringified v |}.

Definition read_settings_request (s : App) : request := api_fetch s (mailbox_path mailbox "/settings") no_init.

Lemma run_updateMailboxSettings w t (s : App) v :
  run w t s (updateMailboxSettings mailbox v) =
  (api_reply (respond w t (settings_request v s)), s, ask (settings_request v s) t).
Proof. reflexivity. Qed.

Lemma run_fetchMailboxSettings w t (s : App) :
  run w t s (fetchMailboxSettings mailbox) =
  (api_reply (respond w t (read_settings_request s)), s, ask (read_settings_request s) t).
Proof. reflexivity. Qed.

Definition prefs_look (s : App) : Look :=
  {| lk_density := density (prefs s); lk_layout := layoutMode (prefs s); lk_theme := theme (prefs s);
     lk_language := language (prefs s); lk_time := timeFormat (prefs s); lk_week := weekStart (prefs s) |}.

Definition complete (l : Look) : Prop :=
  Forall (fun v => truthy v = true) [lk_density l; lk_layout l; lk_theme l; lk_language l; lk_time l; lk_week l].

Lemma synced l s p : look_of p = l -> sync_props (prefs (adopt_look l s)) p = p.
Proof.
  assert (Ho : forall a : jstr, or_default a a = a) by (by intros [|]). intros <-. unfold sync_props.
  change (prefs (adopt_look (look_of p) s)) with (prefs (adopt_look (look_of p) s)). destruct p. cbn. by rewrite !Ho.
Qed.

Lemma run_show_setting w t s p v k f g x :
  str_field v k = x -> truthy x = true -> run w t (s, p) (show_setting v k f g) = (Ok tt, (g x s, f x p), t).
Proof. intros Hx Ht. unfold show_setting. rewrite Hx, Ht. by rewrite run_bind, run_on_page. Qed.

(** A look belongs to the mailbox.  Applying one sends one request and changes the
    form, the application and the device at once; what the server answers decides only
    whether an error is shown: a refused look stays until the next load.  And where the
    server keeps what was posted, the tab of any other session that opens on this mailbox
    comes to that very look, in the form, in the application and on its device. *)
Theorem look_follows_the_mailbox w t s p w2 t2 s2 p2 l :
  complete l -> api_reply (respond w2 t2 (read_settings_request s2)) = Ok (Some (look_json l)) ->
  (exists p', run w t (s, p) (handleApply mailbox l) = (Ok tt, (adopt_look l s, p'), ask (settings_request (look_json l) (adopt_look l s)) t) /\
     look_of p' = l /\ prefs_look (adopt_look l s) = l /\ at_saving p' = false /\ sync_props (prefs (adopt_look l s)) p' = p' /\
     (at_error p' = None <-> is_Some (match api_reply (respond w t (settings_request (look_json l) (adopt_look l s))) with Ok v => Some v | Throw _ => None end))) /\
  (exists p2', run w2 t2 (s2, p2) (appearance_onMount mailbox) = (Ok tt, (adopt_look l s2, p2'), ask (read_settings_request s2) t2) /\
     look_of p2' = l /\ prefs_look (adopt_look l s2) = l /\ at_loading p2' = false).
Proof.
  intros Hl Hr. split.
  - unfold handleApply. rewrite run_bind, run_on_page, run_finally, run_catch, run_bind, run_on_page, run_bind, run_below.
    cbn [modify run]. rewrite run_bind, run_below, run_updateMailboxSettings. clear Hr.
    set (q := settings_request _ _). destruct (api_reply (respond w t q)) as [v|e].
    + eexists. split; [reflexivity|]. split_and!; [by destruct l|by destruct l|done|apply synced; by destruct l|]. cbn. split; [by eexists|done].
    + eexists. split; [reflexivity|]. split_and!; [by destruct l|by destruct l|done|apply synced; by destruct l|]. cbn. split; [done|by intros []].
  - unfold appearance_onMount. rewrite run_finally, run_catch, run_bind, run_on_page, run_bind, run_below, run_fetchMailboxSettings, Hr.
    change (reply_object (Some (look_json l))) with (Ok (look_json l)). rewrite bind_lift. unfold complete in Hl. rewrite !Forall_cons in Hl. destruct Hl as (H1 & H2 & H3 & H4 & H5 & H6 & _).
    do 5 (rewrite run_bind, (run_show_setting _ _ _ _ _ _ _ _ _ eq_refl) by done).
    rewrite (run_show_setting _ _ _ _ _ _ _ _ _ eq_refl) by done. eexists. split; [reflexivity|]. by destruct l.
Qed.

Variable sanitize_saved : jstr -> jstr.
Variable localPart : jstr.
Variable currentUser : option UserMe.

(** A saved signature signs.  Saving sends one request; once it is accepted the device
    holds the text - cut to 2000 units, none if it is blank - and the next message of this
    mailbox is signed with it, whether it is a reply or not.  When it is refused the device
    keeps its old signature, though it has the new picture already. *)
Theorem saved_signature_signs w t s p body :
  truthy mailbox = true ->
  let s1 := saveAvatarLocally mailbox localPart currentUser (st_avatar p) s in
  let q := settings_request (signature_json sanitize_saved p) s1 in
  let plain := take 2000 (st_plain p) in
  exists s' p', run w t (s, p) (signatures_handleSave sanitize_saved mailbox localPart currentUser) = (Ok tt, (s', p'), ask q t) /\
    st_saving p' = false /\
    match api_reply (respond w t q) with
    | Ok _ => st_error p' = None /\ loadSignature mailbox (local s') = (if truthy (trim plain) then plain else []) /\
              applySignature body (loadSignature mailbox (local s')) =
                (if truthy (trim plain) then body ++ [10; 10] ++ js "-- " ++ [10] ++ trim plain else body)
    | Throw _ => s' = s1 /\ exists e, st_error p' = Some e /\ e <> []
    end.
Proof.
  intros Hm s1 q plain. unfold signatures_handleSave. rewrite run_bind, run_on_page, run_finally, run_catch, run_page, run_bind, run_below.
  cbn [modify run]. rewrite run_bind, run_below, run_updateMailboxSettings.
  change (settings_request _ _) with q. destruct (api_reply (respond w t q)) as [v|e].
  - rewrite run_page, run_bind, run_below. cbn [modify run]. do 2 eexists. split; [reflexivity|]. split; [done|]. split; [done|].
    change (loadSignature mailbox (local _)) with (loadSignature mailbox (saveSignature mailbox (st_plain p) (local s1))).
    rewrite (proj1 (signature_round_trip mailbox [] (st_plain p) [] (local s1) Hm)). fold plain. split; [done|].
    destruct (truthy (trim plain)) eqn:E; [|done]. unfold applySignature. by rewrite E.
  - do 2 eexists. split; [reflexivity|]. split; [done|]. split; [done|]. eexists. split; [reflexivity|].
    unfold or_default. by destruct (message e).
Qed.

Definition token_request (label : jstr) (s : App) : request :=
  api_fetch s (mailbox_path mailbox "/bridge/credentials")
    {| i_method := Some (js "POST"); i_headers := []; i_credentials := None; i_body := stringified (JObj [str_member "label" label]) |}.

Lemma run_loadCredentials w t s p :
  exists p', run w t (s, p) (loadCredentials mailbox) =
    (Ok tt, (s, p'), ask (api_fetch s (mailbox_path mailbox "/bridge/credentials") no_init) t) /\
    br_token p' = br_token p /\ br_label p' = br_label p.
Proof.
  unfold loadCredentials. rewrite run_finally, run_catch, run_bind, run_on_page, run_bind, run_below.
  unfold listBridgeCredentials, get_json. rewrite run_bind, run_apiRequest. cbv zeta.
  destruct (api_reply _) as [res|e]; [|by eexists]. cbn [lift run]. destruct (list_member _ _) as [v|e]; by eexists.
Qed.

(** A pass for an external client: a label is needed, and asking for the pass is one request,
    followed by one for the list when it is granted.  The pass is on display only then, and
    closing the dialog does not take it away: opening it anew does. *)
Theorem bridge_token_shown w t s p :
  exists p' t', run w t (s, p) (handleCreateToken mailbox) = (Ok tt, (s, p'), t') /\
    br_token (open_generate p') = None /\
    if truthy (trim (br_label p)) then
      br_creating p' = false /\
      match api_reply (respond w t (token_request (trim (br_label p)) s)) with
      | Ok (Some v) => v <> JNull -> br_token p' = Some (or_default (str_field v "token") (js "token-generated")) /\ br_label p' = [] /\
          sent t' = sent t ++ [token_request (trim (br_label p)) s; api_fetch s (mailbox_path mailbox "/bridge/credentials") no_init]
      | _ => br_token p' = br_token p /\ br_label p' = br_label p /\ sent t' = sent t ++ [token_request (trim (br_label p)) s]
      end
    else p' = p /\ t' = t.
Proof.
  unfold handleCreateToken. rewrite run_page. destruct (truthy (trim (br_label p))); cbn [negb]; [|by do 2 eexists].
  rewrite run_bind, run_on_page, run_finally, run_catch, run_bind, run_below.
  unfold createBridgeCredential, send. rewrite run_apiRequest. cbv zeta.
  fold (token_request (trim (br_label p)) s). set (q := token_request _ s).
  destruct (api_reply (respond w t q)) as [[v|]|e]; [|by do 2 eexists..].
  destruct v; cbn [reply_object]; rewrite bind_lift; [by do 2 eexists|..];
    rewrite run_bind, run_on_page;
    match goal with |- context [run w ?t1 (s, ?p1) (loadCredentials mailbox)] =>
      destruct (run_loadCredentials w t1 s p1) as (p2 & -> & Etok & Elab) end;
    do 2 eexists; (split; [reflexivity|]); (split; [done|]); (split; [done|]); intros _;
    (split_and!; [exact Etok|exact Elab|cbn [ask sent]; by rewrite <- app_assoc]).
Qed.

End SettingsRuns.
