(* ===== verification/ImportEmails.v ===== *)
(** * Importing mail

    webmail/src/components/modals/ImportEmailsModal.tsx: reading .eml and .mbox files into a
    list of messages, and posting them one after the other.  The dialog's signals stand
    beside the application's state; a file is its name and what reading its bytes gives, and
    the random ids of the rows are drawn from a function of the row's number. *)

From S2P Require Import Prelude JsString Encoding Json Display Wasm MessageCrypto Client Api AppState MailView.
From S2P Require Import Reading MailboxData Outbound SignIn Page.

Inductive ImportStatus := Waiting | Importing | Imported | Duplicate | Failed (msg : jstr).

Record EmailItem := {
  ei_id : jstr;
  ei_file : jstr;
  ei_subject : jstr;
  ei_sender : jstr;
  ei_date : jstr;
  ei_size : Z;
  ei_raw : jstr;
  ei_status : ImportStatus }.

Definition set_ei_status (v : ImportStatus) (x : EmailItem) : EmailItem := {|
  ei_id := ei_id x; ei_file := ei_file x; ei_subject := ei_subject x; ei_sender := ei_sender x; ei_date := ei_date x;
  ei_size := ei_size x; ei_raw := ei_raw x; ei_status := v |}.

Record ImportModal := {
  im_items : list EmailItem;
  im_folder : jstr;
  im_read : bool;
  im_processing : bool;
  im_importing : bool;
  im_progress : Z * Z;
  im_summary : option (Z * Z * Z);
  im_error : option jstr }.

Definition set_im_items (v : list EmailItem) (x : ImportModal) : ImportModal := {|
  im_items := v; im_folder := im_folder x; im_read := im_read x; im_processing := im_processing x; im_importing
    := im_importing x; im_progress := im_progress x; im_summary := im_summary x; im_error := im_error x |}.
Definition set_im_folder (v : jstr) (x : ImportModal) : ImportModal := {|
  im_items := im_items x; im_folder := v; im_read := im_read x; im_processing := im_processing x; im_importing
    := im_importing x; im_progress := im_progress x; im_summary := im_summary x; im_error := im_error x |}.
Definition set_im_read (v : bool) (x : ImportModal) : ImportModal := {|
  im_items := im_items x; im_folder := im_folder x; im_read := v; im_processing := im_processing x; im_importing
    := im_importing x; im_progress := im_progress x; im_summary := im_summary x; im_error := im_error x |}.
Definition set_im_processing (v : bool) (x : ImportModal) : ImportModal := {|
  im_items := im_items x; im_folder := im_folder x; im_read := im_read x; im_processing := v; im_importing :=
    im_importing x; im_progress := im_progress x; im_summary := im_summary x; im_error := im_error x |}.
Definition set_im_importing (v : bool) (x : ImportModal) : ImportModal := {|
  im_items := im_items x; im_folder := im_folder x; im_read := im_read x; im_processing := im_processing x;
    im_importing := v; im_progress := im_progress x; im_summary := im_summary x; im_error := im_error x |}.
Definition set_im_progress (v : Z * Z) (x : ImportModal) : ImportModal := {|
  im_items := im_items x; im_folder := im_folder x; im_read := im_read x; im_processing := im_processing x;
    im_importing := im_importing x; im_progress := v; im_summary := im_summary x; im_error := im_error x |}.
Definition set_im_summary (v : option (Z * Z * Z)) (x : ImportModal) : ImportModal := {|
  im_items := im_items x; im_folder := im_folder x; im_read := im_read x; im_processing := im_processing x;
    im_importing := im_importing x; im_progress := im_progress x; im_summary := v; im_error := im_error x |}.
Definition set_im_error (v : option jstr) (x : ImportModal) : ImportModal := {|
  im_items := im_items x; im_folder := im_folder x; im_read := im_read x; im_processing := im_processing x;
    im_importing := im_importing x; im_progress := im_progress x; im_summary := im_summary x; im_error := v |}.

(** Opening the dialog resets it. *)
Definition opened_import : ImportModal := {|
  im_items := []; im_folder := js "inbox"; im_read := true; im_processing := false; im_importing := false;
  im_progress := (0, 0); im_summary := None; im_error := None |}.

(** ** Parsing *)

(** A line that starts with the name, in whatever case, and a colon: what follows the white
    space after it, to the end of the line.  The pattern is multi-line, and the white space
    may reach over the end of the line. *)
Definition header_here (name : string) (s : jstr) : option jstr :=
  let n := js name ++ [58] in
  if jeqb (map ascii_lower (take (length n) s)) (map ascii_lower n)
  then Some (fst (Json.span (fun u => negb (is_line_terminator u)) (snd (Json.span is_white (drop (length n) s)))))
  else None.

Fixpoint match_header (name : string) (at_line_start : bool) (s : jstr) : option jstr :=
  match (if at_line_start then header_here name s else None) with
  | Some t => Some t
  | None => match s with [] => None | u :: s' => match_header name (is_line_terminator u) s' end
  end.

Definition extractHeader (headersText : jstr) (headerName : string) : jstr :=
  match match_header headerName true headersText with Some m => trim m | None => [] end.

(** [/\r?\n/] at the start of the text: what follows it. *)
Definition line_break (s : jstr) : option jstr :=
  match s with
  | 10 :: r => Some r
  | 13 :: 10 :: r => Some r
  | _ => None
  end.

(** The text before the first [/\r?\n\r?\n/], or all of it. *)
Fixpoint before_blank (s : jstr) : jstr :=
  match line_break s ≫= line_break with
  | Some _ => []
  | None => match s with [] => [] | u :: s' => u :: before_blank s' end
  end.

Definition parseRFC822 (i rawText : jstr) (rawBytes : bytes) (fileName : jstr) : outcome EmailItem :=
  let headers := before_blank rawText in
  b64 ← bytesToBase64 rawBytes;
  Ok {| ei_id := i; ei_file := fileName;
        ei_subject := or_default (extractHeader headers "Subject") (js "(No Subject)");
        ei_sender := or_default (extractHeader headers "From") (js "Unknown Sender");
        ei_date := or_default (extractHeader headers "Date") (js "Unknown Date");
        ei_size := Z.of_nat (length rawBytes); ei_raw := b64; ei_status := Waiting |}.

(** [text.split(/\r?\n/)] *)
Fixpoint split_lines (s : jstr) : list jstr :=
  match s with
  | [] => [[]]
  | u :: s' =>
      match s' with
      | v :: s'' =>
          if (u =? 13) && (v =? 10) then [] :: split_lines s''
          else if u =? 10 then [] :: split_lines s'
          else match split_lines s' with l :: ls => (u :: l) :: ls | [] => [[u]] end
      | [] => if u =? 10 then [[]; []] else [[u]]
      end
  end.

Definition is_separator (line : jstr) : bool := starts_with (js "From ") line.

Definition unescaped (line : jstr) : jstr := if starts_with (js ">From ") line then drop 1 line else line.

(** The loop over the lines: what is done, and the lines of the current message. *)
Fixpoint mbox_loop (current : list jstr) (lines : list jstr) : list jstr :=
  match lines with
  | [] =>
      if existsb (fun l => truthy (trim l)) current then [join CRLF current] else []
  | line :: lines =>
      if is_separator line && negb (length current =? 0)%nat then join CRLF current :: mbox_loop [] lines
      else mbox_loop (current ++ [unescaped line]) lines
  end.

Definition splitMbox (mboxText : jstr) : list jstr := mbox_loop [] (split_lines mboxText).

Section Dialog.
Context `{Crypto} `{Unicode} `{Dates} `{Env}.

Notation import_page := (prog (App * ImportModal)).

(** [s.endsWith(t)] *)
Definition ends_with (t s : jstr) : bool := jeqb (drop (length s - length t) s) t.

(** The messages of an archive, numbered; empty ones are passed over.  [n] counts the rows
    made so far. *)
Fixpoint parse_mbox (draw : nat -> jstr) (n : nat) (name : jstr) (m : Z) (msgs : list jstr) : outcome (list EmailItem) :=
  match msgs with
  | [] => Ok []
  | msgText :: msgs =>
      if truthy (trim msgText) then
        item ← parseRFC822 (draw n) msgText (TextEncoder_encode msgText) (name ++ js " #" ++ num (m + 1));
        rest ← parse_mbox draw (S n) name (m + 1) msgs;
        Ok (item :: rest)
      else parse_mbox draw n name (m + 1) msgs
  end.

(** The rows of one file. *)
Definition parse_file (draw : nat -> jstr) (n : nat) (name : jstr) (data : bytes) : outcome (list EmailItem) :=
  let text := TextDecoder_decode data in
  if ends_with (js ".mbox") (toLowerCase name) then parse_mbox draw n name 0 (splitMbox text)
  else item ← parseRFC822 (draw n) text data name; Ok [item].

Fixpoint parse_files (draw : nat -> jstr) (acc : list EmailItem) (files : list (jstr * outcome bytes)) : import_page (list EmailItem) :=
  match files with
  | [] => mret acc
  | (name, content) :: files =>
      _ ← wait;
      data ← lift content;
      rows ← lift (parse_file draw (length acc) name data);
      parse_files draw (acc ++ rows) files
  end.

(** [err?.message || String(err)] *)
Definition thrown_text (e : js_error) : jstr :=
  match e with JsError m _ => or_default m (js "Error") | JsThrown v => v end.

Definition handleFiles (draw : nat -> jstr) (files : list (jstr * outcome bytes)) : import_page unit :=
  match files with
  | [] => skip
  | _ =>
      _ ← on_page (fun p => set_im_error None (set_im_processing true p));
      finally
        (pcatch
           (newItems ← parse_files draw [] files;
            on_page (fun p => set_im_items (im_items p ++ newItems) p))
           (fun e => on_page (set_im_error (Some (js "Failed to parse some email files: " ++ thrown_text e)))))
        (on_page (set_im_processing false))
  end.

Definition removeItem (i : jstr) (p : ImportModal) : ImportModal :=
  if im_importing p then p else set_im_items (List.filter (fun item => negb (jeqb (ei_id item) i)) (im_items p)) p.

Definition clearAll (p : ImportModal) : ImportModal :=
  if im_importing p then p else set_im_error None (set_im_summary None (set_im_items [] p)).

(** ** Importing *)

Definition mark (i : jstr) (st : ImportStatus) (p : ImportModal) : ImportModal :=
  set_im_items (map (fun it => if jeqb (ei_id it) i then set_ei_status st it else it) (im_items p)) p.

Record Tally := { imported : Z; duplicates : Z; failed : Z }.

(** [selectedMailbox()?.id || ""] *)
Definition selected_id (s : App) : jstr := match selectedMailbox (custody s) with Some b => mb_id b | None => [] end.

(** The property of the dialog is read for each message. *)
Definition import_one (folder : jstr) (read : bool) (item : EmailItem) (k : Tally) : import_page Tally :=
  pcatch
    (mailboxId ← below (gets selected_id);
     res ← below (importEmail mailboxId (ei_raw item) (Some folder) (Some read));
     v ← lift (reply_object res);
     if jeqb (str_field v "status") (js "already_imported") then
       _ ← on_page (mark (ei_id item) Duplicate);
       mret {| imported := imported k; duplicates := duplicates k + 1; failed := failed k |}
     else
       _ ← on_page (mark (ei_id item) Imported);
       mret {| imported := imported k + 1; duplicates := duplicates k; failed := failed k |})
    (fun e =>
       _ ← on_page (mark (ei_id item) (Failed (or_default (message e) (js "Import failed"))));
       mret {| imported := imported k; duplicates := duplicates k; failed := failed k + 1 |}).

Fixpoint import_loop (folder : jstr) (read : bool) (total i : Z) (list : list EmailItem) (k : Tally) : import_page Tally :=
  match list with
  | [] => mret k
  | item :: list =>
      _ ← on_page (fun p => mark (ei_id item) Importing (set_im_progress (i + 1, total) p));
      k ← import_one folder read item k;
      import_loop folder read total (i + 1) list k
  end.

(** The application's part when something was imported: the mailbox is loaded again. *)
Definition import_done : prog App unit :=
  box ← gets (fun s => selectedMailbox (custody s));
  match box with
  | Some box =>
      _ ← spawn (loadMailboxData (mb_id box));
      modify (on_mail (showToast (js "Emails successfully imported")))
  | None => skip
  end.

Definition startImport : import_page unit :=
  p ← page (G:=ImportModal);
  let list := im_items p in
  if (length list =? 0)%nat || im_importing p then skip
  else
    let total := Z.of_nat (length list) in
    _ ← on_page (fun p => set_im_progress (0, total) (set_im_summary None (set_im_error None (set_im_importing true p))));
    k ← import_loop (im_folder p) (im_read p) total 0 list {| imported := 0; duplicates := 0; failed := 0 |};
    _ ← on_page (fun p => set_im_summary (Some (imported k, duplicates k, failed k)) (set_im_importing false p));
    if 0 <? imported k then below import_done else skip.

End Dialog.

(** ** Reading archives back *)

(** A line without line ends. *)
Definition plain (l : jstr) : Prop := Forall (fun u => u <> 10 /\ u <> 13) l.

Lemma split_at_break l r eol :
  eol = [10] \/ eol = CRLF -> plain l -> split_lines (l ++ eol ++ r) = l :: split_lines r.
Proof.
  intros He Hl. induction Hl as [|u l [H1 H2] Hl IH].
  - destruct He as [-> | ->]; [by destruct r|done].
  - cbn [app split_lines]. rewrite IH. destruct (l ++ eol ++ r) as [|v s] eqn:E.
    { destruct l, He as [-> | ->]; discriminate. }
    by rewrite (proj2 (Z.eqb_neq u 13) H2), (proj2 (Z.eqb_neq u 10) H1).
Qed.

Lemma split_no_break l : plain l -> split_lines l = [l].
Proof.
  intros Hl. induction Hl as [|u l [H1 H2] Hl IH]; [done|]. cbn [split_lines]. rewrite IH.
  rewrite (proj2 (Z.eqb_neq u 13) H2), (proj2 (Z.eqb_neq u 10) H1). by destruct l.
Qed.

Lemma split_join eol ls : eol = [10] \/ eol = CRLF -> Forall plain ls -> ls <> [] -> split_lines (join eol ls) = ls.
Proof.
  intros He Hls Hne. induction Hls as [|l ls Hl Hls IH]; [done|]. destruct ls as [|l' ls].
  - cbn [join]. by apply split_no_break.
  - by rewrite join_cons2, split_at_break, IH.
Qed.

(** An archive: for each message a line with "From " and an envelope, then its lines, where
    those that begin like such a line are escaped. *)
Definition escaped (line : jstr) : jstr := if is_separator line then 62 :: line else line.

Definition entry_lines (e : jstr * list jstr) : list jstr := (js "From " ++ fst e) :: map escaped (snd e).

Definition write_mbox (eol : jstr) (entries : list (jstr * list jstr)) : jstr :=
  join eol (concat (map entry_lines entries)).

(** A message an archive can hold: it is not blank, and no line of it looks escaped. *)
Definition archivable (e : jstr * list jstr) : Prop :=
  plain (fst e) /\ Forall (fun l => plain l /\ starts_with (js ">From ") l = false) (snd e) /\
  existsb (fun l => truthy (trim l)) (snd e) = true.

Lemma escaped_plain l : plain l -> plain (escaped l).
Proof. intros Hl. unfold escaped. destruct (is_separator l); [|done]. by constructor. Qed.

Lemma entry_plain e : archivable e -> Forall plain (entry_lines e).
Proof.
  intros (He & Hl & _). constructor.
  - apply Forall_app. split; [|done]. repeat constructor; done.
  - apply Forall_map, (Forall_impl _ _ _ Hl). intros l [Hp _]. by apply escaped_plain.
Qed.

Lemma unescaped_escaped l : starts_with (js ">From ") l = false -> unescaped (escaped l) = l.
Proof.
  intros Hl. unfold escaped. destruct (is_separator l) eqn:E; [|unfold unescaped; by rewrite Hl].
  apply starts_with_spec in E as [t ->]. reflexivity.
Qed.

Lemma escaped_not_separator l : is_separator (escaped l) = false.
Proof. unfold escaped. destruct (is_separator l) eqn:E; [done|exact E]. Qed.

Lemma loop_content current c lines :
  Forall (fun l => plain l /\ starts_with (js ">From ") l = false) c ->
  mbox_loop current (map escaped c ++ lines) = mbox_loop (current ++ c) lines.
Proof.
  intros Hc. revert current. induction Hc as [|l c [_ Hl] Hc IH]; intros current; [by rewrite app_nil_r|].
  cbn [map app mbox_loop]. rewrite escaped_not_separator, unescaped_escaped by done. cbn [andb].
  by rewrite IH, <- app_assoc.
Qed.

Lemma loop_entries current entries :
  existsb (fun l => truthy (trim l)) current = true -> Forall archivable entries ->
  mbox_loop current (concat (map entry_lines entries)) = join CRLF current :: map (fun e => join CRLF (snd e)) entries.
Proof.
  intros Hcur He. revert current Hcur. induction He as [|[env c] entries (_ & Hc & Hn) He IH]; intros current Hcur.
  - cbn [map concat mbox_loop]. by rewrite Hcur.
  - cbn [map concat entry_lines fst snd app mbox_loop]. cbn [fst snd] in Hc, Hn.
    assert (Es : is_separator (js "From " ++ env) = true) by apply starts_with_app.
    destruct current as [|l current]; [done|]. rewrite Es. cbn [length Nat.eqb negb andb].
    f_equal. rewrite loop_content by done. cbn [app]. by apply IH.
Qed.

(** C21.  Archives read back, but for the first line.  Of an archive of messages, written with
    either line end, every message comes back line by line, those that begin with "From "
    included, and in order - except that the first keeps the archive's separator line at
    its head. *)
Theorem archive_reads_back eol env c entries :
  eol = [10] \/ eol = CRLF -> archivable (env, c) -> Forall archivable entries ->
  splitMbox (write_mbox eol ((env, c) :: entries)) =
  join CRLF ((js "From " ++ env) :: c) :: map (fun e => join CRLF (snd e)) entries.
Proof.
  intros Heol He Hes. unfold splitMbox, write_mbox. rewrite split_join; [|done| |done].
  2:{ apply Forall_concat, Forall_map. constructor; [by apply entry_plain|].
      apply (Forall_impl _ _ _ Hes). apply entry_plain. }
  destruct He as (_ & Hc & Hn). cbn [map concat entry_lines fst snd app mbox_loop] in *.
  assert (Es : is_separator (js "From " ++ env) = true) by apply starts_with_app. rewrite Es. cbn [length Nat.eqb negb andb].
  change (unescaped (js "From " ++ env)) with (js "From " ++ env). rewrite loop_content by done. cbn [app].
  apply loop_entries; [|done]. cbn [existsb]. rewrite Hn. apply orb_true_r.
Qed.

(** An empty header takes the next line for its value. *)
Example empty_subject_reads_the_next_line :
  extractHeader (join CRLF [js "Subject:"; js "From: ada@byos.email"]) "Subject" = js "From: ada@byos.email".
Proof. vm_compute. reflexivity. Qed.

(** ** Importing *)

Section Runs.
Context `{HC : Crypto} `{HU : Unicode} `{HD : Dates} `{HE : Env}.

Definition import_request (mailboxId folder : jstr) (read : bool) (item : EmailItem) (s : App) : request :=
  api_fetch s (mailbox_path mailboxId "/messages/import") {| i_method := Some (js "POST"); i_headers := [];
    i_credentials := None; i_body := stringified (JObj [str_member "raw_eml" (ei_raw item);
      str_member "folder" (or_default folder (js "inbox")); (js "is_read", JBool read)]) |}.

Definition settled (st : ImportStatus) : bool := match st with Imported | Duplicate | Failed _ => true | _ => false end.

Definition tally (k : Tally) (st : ImportStatus) : Tally :=
  match st with
  | Imported => {| imported := imported k + 1; duplicates := duplicates k; failed := failed k |}
  | Duplicate => {| imported := imported k; duplicates := duplicates k + 1; failed := failed k |}
  | Failed _ => {| imported := imported k; duplicates := duplicates k; failed := failed k + 1 |}
  | _ => k
  end.

(** The summary of a list of rows. *)
Definition tally_of (l : list EmailItem) : Tally :=
  fold_left tally (map ei_status l) {| imported := 0; duplicates := 0; failed := 0 |}.

Lemma tally_total l k :
  forallb (fun x => settled (ei_status x)) l = true ->
  let k' := fold_left tally (map ei_status l) k in
  imported k' + duplicates k' + failed k' = imported k + duplicates k + failed k + Z.of_nat (length l).
Proof.
  revert k. induction l as [|x l IH]; intros k; [cbn; lia|]. cbn [forallb map fold_left length].
  intros [Hx Hl]%andb_true_iff. rewrite IH by done. destruct (ei_status x); cbn in *; lia || done.
Qed.

Lemma run_import_one w t s p folder read item k :
  exists st, settled st = true /\
    run w t (s, p) (import_one folder read item k) =
    (Ok (tally k st), (s, mark (ei_id item) st p), ask (import_request (selected_id s) folder read item s) t).
Proof.
  unfold import_one. rewrite run_catch, run_bind, run_below. cbn [gets run]. rewrite run_bind, run_below.
  assert (R : forall i, run w t s (importEmail i (ei_raw item) (Some folder) (Some read)) =
    (api_reply (respond w t (import_request i folder read item s)), s, ask (import_request i folder read item s) t))
    by reflexivity.
  rewrite R. destruct (api_reply _) as [res|e]; [|eexists (Failed _); split; reflexivity].
  destruct (reply_object res) as [v|e]; rewrite bind_lift; [|eexists (Failed _); split; reflexivity].
  destruct (jeqb _ _); [exists Duplicate|exists Imported]; split; reflexivity.
Qed.

Lemma mark_row st p a item l :
  im_items p = a ++ item :: l -> NoDup (map ei_id (a ++ item :: l)) ->
  im_items (mark (ei_id item) st p) = a ++ set_ei_status st item :: l.
Proof.
  intros E Hn. unfold mark. cbn [im_items set_im_items]. rewrite E, map_app. cbn [map].
  rewrite map_app in Hn. cbn [map] in Hn. apply NoDup_app in Hn as (_ & Ha & [Hl _]%NoDup_cons).
  assert (Hsame : forall b, ei_id item ∉ map ei_id b ->
    map (fun it => if jeqb (ei_id it) (ei_id item) then set_ei_status st it else it) b = b).
  { intros b Hb. rewrite <- (map_id b) at 2. apply map_ext_in. intros x Hx. destruct (jeqb _ _) eqn:Ex; [|done].
    apply jeqb_eq in Ex. exfalso. apply Hb. rewrite <- Ex. apply list_elem_of_In, in_map, Hx. }
  rewrite (Hsame l) by done. rewrite (Hsame a) by (intros Hin; apply (Ha _ Hin); left).
  by rewrite (proj2 (jeqb_eq _ _) eq_refl).
Qed.

(** The rows, with their new states. *)
Definition same_rows (l l' : list EmailItem) : Prop := map (set_ei_status Waiting) l' = map (set_ei_status Waiting) l.

Lemma same_rows_ids l l' : same_rows l l' -> map ei_id l' = map ei_id l.
Proof.
  intros E. apply (f_equal (map ei_id)) in E. rewrite !map_map in E. exact E.
Qed.

Lemma run_import_loop w s folder read total : forall l i a p t k,
  im_items p = a ++ l -> NoDup (map ei_id (a ++ l)) ->
  exists p' l', run w t (s, p) (import_loop folder read total i l k) =
      (Ok (fold_left tally (map ei_status l') k), (s, p'),
       {| sent := sent t ++ map (fun x => import_request (selected_id s) folder read x s) l; asked := asked t |}) /\
    im_items p' = a ++ l' /\ same_rows l l' /\ forallb (fun x => settled (ei_status x)) l' = true.
Proof.
  induction l as [|item l IH]; intros i a p t k E Hn.
  - exists p, []. rewrite app_nil_r. by destruct t.
  - cbn [import_loop]. rewrite run_bind, run_on_page, run_bind.
    set (p1 := mark (ei_id item) Importing (set_im_progress (i + 1, total) p)).
    destruct (run_import_one w t s p1 folder read item k) as (st & Hst & ->).
    set (x := set_ei_status st item).
    assert (E1 : im_items p1 = a ++ set_ei_status Importing item :: l) by (by apply mark_row).
    assert (E2 : im_items (mark (ei_id item) st p1) = a ++ x :: l).
    { change (ei_id item) with (ei_id (set_ei_status Importing item)). rewrite (mark_row st p1 a _ l E1); [done|].
      by rewrite map_app in *. }
    destruct (IH (i + 1) (a ++ [x]) (mark (ei_id item) st p1) (ask (import_request (selected_id s) folder read item s) t)
      (tally k st)) as (p' & l' & R & E' & Hr & Hs).
    { by rewrite <- app_assoc. }
    { rewrite <- app_assoc. by rewrite map_app in *. }
    exists p', (x :: l'). rewrite R. cbn [map fold_left ask sent asked]. rewrite <- !app_assoc. split_and!; try done.
    + by rewrite E', <- app_assoc.
    + unfold same_rows in *. cbn [map]. by rewrite Hr.
    + cbn [forallb]. by rewrite Hs, andb_true_r.
Qed.

(** C22.  An import accounts for every message.  It posts each row's message once, in their
    order, into the chosen folder of the mailbox; it ends with every row imported,
    recognized as a duplicate or failed, whatever the server answers; the summary counts
    the rows by these outcomes and adds up to their number; and only when something was
    imported is anything else requested. *)
Theorem import_accounts_for_all w t s p :
  im_items p <> [] -> NoDup (map ei_id (im_items p)) -> im_importing p = false ->
  exists s' p' t' rest, run w t (s, p) startImport = (Ok tt, (s', p'), t') /\
    sent t' = sent t ++ map (fun x => import_request (selected_id s) (im_folder p) (im_read p) x s) (im_items p) ++ rest /\
    same_rows (im_items p) (im_items p') /\ forallb (fun x => settled (ei_status x)) (im_items p') = true /\
    im_importing p' = false /\
    let k := tally_of (im_items p') in
    im_summary p' = Some (imported k, duplicates k, failed k) /\
    imported k + duplicates k + failed k = Z.of_nat (length (im_items p)) /\
    (imported k <= 0 -> rest = [] /\ s' = s).
Proof.
  intros Hne Hn Hi. unfold startImport. rewrite run_page, Hi.
  destruct (im_items p) as [|x0 l0] eqn:El; [done|]. rewrite <- El in *. replace (length (im_items p) =? 0)%nat with false by by rewrite El.
  cbn [orb]. rewrite run_bind, run_on_page, run_bind.
  match goal with |- context [run w t (s, ?q) _] => destruct (run_import_loop w s (im_folder p) (im_read p) (Z.of_nat (length (im_items p)))
    (im_items p) 0 [] q t {| imported := 0; duplicates := 0; failed := 0 |}) as (p' & l' & R & E & Hr & Hs); [done|done|] end.
  rewrite R, run_bind, run_on_page. cbn [app] in E. subst l'. fold (tally_of (im_items p')).
  pose proof (tally_total (im_items p') {| imported := 0; duplicates := 0; failed := 0 |} Hs) as Ht. fold (tally_of (im_items p')) in Ht.
  cbn [imported duplicates failed] in Ht.
  assert (Elen : length (im_items p') = length (im_items p)).
  { apply (f_equal length) in Hr. by rewrite !length_map in Hr. }
  set (k := tally_of (im_items p')) in *. set (p2 := set_im_summary _ _). set (t1 := {| sent := _; asked := _ |}).
  destruct (0 <? imported k) eqn:Ek; zbool.
  - rewrite run_below. destruct (run_extends w t1 s import_done) as [rest Erest].
    destruct (run w t1 s import_done) as [[r s'] t'] eqn:Ed.
    assert (Hr' : r = Ok tt).
    { unfold import_done in Ed. rewrite run_bind in Ed. cbn [gets run] in Ed. destruct (selectedMailbox _); [|by injection Ed].
      rewrite run_bind in Ed. cbn [spawn run] in Ed. destruct (run w t1 s (loadMailboxData _)) as [[? ?] ?].
      cbn in Ed. by injection Ed. }
    subst r. exists s', p2, t', rest. cbn [snd] in Erest. split; [done|]. split; [rewrite Erest; unfold t1; cbn [sent]; by rewrite <- app_assoc|].
    split_and!; try done; intros; change (tally_of (im_items p2)) with k in *; lia.
  - exists s, p2, t1, []. rewrite app_nil_r. split_and!; try done; intros; change (tally_of (im_items p2)) with k in *; lia.
Qed.

End Runs.

(** ** Concrete runs *)

#[local] Existing Instances toy_crypto toy_laws ascii_unicode digit_dates sample_env.

Definition archive : jstr := write_mbox [10] [(js "ada Mon", [js "Subject: one"; []; js "From here"; []]);
                                              (js "bob Tue", [js "Subject: two"; []; js "hello"; []])].

Lemma archive_reads_back_witness :
  splitMbox archive = [join CRLF [js "From ada Mon"; js "Subject: one"; []; js "From here"; []];
                       join CRLF [js "Subject: two"; []; js "hello"; []]].
Proof.
  apply (archive_reads_back [10] (js "ada Mon") [js "Subject: one"; []; js "From here"; []]
    [(js "bob Tue", [js "Subject: two"; []; js "hello"; []])]).
  - by left.
  - unfold archivable, plain. split_and!; [by_decide|by_decide|reflexivity].
  - constructor; [|constructor]. unfold archivable, plain. split_and!; [by_decide|by_decide|reflexivity].
Defined.

Definition row (i raw : string) : EmailItem := {|
  ei_id := js i; ei_file := js "mail.mbox"; ei_subject := js i; ei_sender := js "ada"; ei_date := js "Mon"; ei_size := 3;
  ei_raw := js raw; ei_status := Waiting |}.

Definition two_rows : ImportModal := set_im_items [row "r1" "Zm9v"; row "r2" "YmFy"] opened_import.

Lemma import_accounts_for_all_witness :
  exists s' p' t', run offline no_trace (sample_app, two_rows) startImport = (Ok tt, (s', p'), t') /\
    im_summary p' = Some (0, 0, 2) /\ length (sent t') = 2%nat.
Proof.
  destruct (import_accounts_for_all offline no_trace sample_app two_rows) as (s' & p' & t' & rest & R & Es & _ & _ & _ & Em & _ & Hr).
  - discriminate.
  - by_decide.
  - reflexivity.
  - assert (V : im_summary (snd (snd (fst (run offline no_trace (sample_app, two_rows) startImport)))) = Some (0, 0, 2))
      by (vm_compute; reflexivity).
    rewrite R in V. cbn [fst snd] in V. rewrite V in Em. injection Em as E1 E2 E3.
    destruct Hr as [-> _]; [rewrite <- E1; discriminate|].
    exists s', p', t'. split; [exact R|]. split; [exact V|]. rewrite Es. reflexivity.
Defined.

(** When the mailbox is switched while an import runs, the messages that are left are posted
    to the new mailbox. *)
Example import_follows_the_switch :
  let c := fire true startImport {| state := (sample_app, two_rows); tasks := [] |} in
  let c := fire true (below (modify (on_custody (set_selectedMailbox (Some {| mb_id := js "other"; mb_local_part := [];
             mb_domain_id := []; mb_mode := []; mb_wrapped_sk_user := None |}))))) c in
  let c := wake 0 true (fun _ => json_reply (JObj [str_member "status" (js "imported")])) c in
  (q ← head (tasks c); option_map (req_url ∘ fst) (first_request (state c) q)) =
  Some (apiBase ++ js "/v1/mailboxes/other/messages/import").
Proof. vm_compute. reflexivity. Qed.
