(* ===== verification/Recover.v ===== *)
(** * Forgotten passwords

    The account recovery dialog of webmail/src/App.tsx: finding the recovery methods,
    requesting a code, and setting a new password, which re-wraps the mailbox key under
    the recovery phrase or replaces it. *)

From S2P Require Import Prelude JsString Encoding Json Display Wasm MessageCrypto Client Api AppState.
From S2P Require Import MailView Reading MailboxData Outbound ComposeMail Session SignIn.

Definition forgot_error (text : jstr) : prog App unit := modify (on_recovery (set_forgotError (Some text))).
Definition begin_forgot (r : Recovery) : Recovery := set_forgotError None (set_forgotBusy true r).
Definition end_forgot : prog App unit := modify (on_recovery (set_forgotBusy false)).

Definition handleOpenForgotPassword (s : App) : App :=
  on_recovery (fun _ =>
    {| forgotStep := 1; forgotEmail := trim (loginEmail (loginForm s)); forgotMethods := [];
       forgotSelectedMethod := js "email"; forgotChallengeToken := []; forgotDestinationMasked := [];
       forgotCode := []; forgotNewPassword := []; forgotConfirmPassword := [];
       forgotBusy := forgotBusy (recovery s); forgotError := None; forgotMailboxId := [];
       forgotOldWrappedSk := []; forgotRecoveryPhrase := [] |}) s.

Section Recover.
Context `{Crypto} `{Unicode} `{Dates} `{Env}.

Definition forgot_email (s : App) : jstr := toLowerCase (trim (forgotEmail (recovery s))).

(** Each method is kept by its type. *)
Definition recovery_methods (v : json) : outcome (list jstr) :=
  match get v (js "methods") with
  | Some m => if json_truthy m then l ← items m; Ok (map (fun x => str_field x "type") l) else Ok []
  | None => Ok []
  end.

Definition handleFindRecoveryMethods : prog App unit :=
  s ← gets (fun s => s);
  let email := forgot_email s in
  if negb (truthy email) || negb (includes email (js "@")) then
    forgot_error (js "Please enter a valid email address.")
  else
    _ ← modify (on_recovery begin_forgot);
    _ ← pcatch
          (res ← fetchRecoveryOptions email;
           v ← lift (reply_object res);
           m ← lift (recovery_methods v);
           modify (on_recovery (fun r =>
             let r := set_forgotMethods m r in
             match m with t :: _ => set_forgotSelectedMethod t r | [] => r end)))
          (fun e => forgot_error (or_default (message e) (js "Failed to find recovery options.")));
    end_forgot.

Definition note_challenge (v : json) (r : Recovery) : Recovery :=
  let r := set_forgotDestinationMasked (str_field v "destination_masked")
             (set_forgotChallengeToken (str_field v "challenge_token") r) in
  let r := if truthy (str_field v "mailbox_id") then set_forgotMailboxId (str_field v "mailbox_id") r else r in
  let r := if truthy (str_field v "wrapped_sk_user") then set_forgotOldWrappedSk (str_field v "wrapped_sk_user") r
           else r in
  set_forgotStep 2 r.

Definition handleRequestRecoveryCode : prog App unit :=
  s ← gets (fun s => s);
  let email := forgot_email s in
  let method := or_default (forgotSelectedMethod (recovery s)) (js "email") in
  if negb (truthy email) then skip
  else
    _ ← modify (on_recovery begin_forgot);
    _ ← pcatch
          (res ← requestRecoveryChallenge email method;
           v ← lift (reply_object res);
           modify (on_recovery (note_challenge v)))
          (fun e => forgot_error (or_default (message e) (js "Failed to request recovery code.")));
    end_forgot.

(** ** A new password *)

(** The old key, unwrapped by the phrase and wrapped again under the new password and
    under the phrase; [nonce] is the randomness of the second wrapping. *)
Definition rewrap_old_key (f : FreshKey) (nonce : bytes) (phrase boxId oldWrapped newPass : jstr) : outcome jstr :=
  sk ← unwrapMailboxKeyWithRecoveryPhrase phrase boxId oldWrapped;
  let skHex := cp_bytesToHex sk in
  let saltHex := cp_bytesToHex (f_salt f) in
  envelope ← wasm_passphrase_wrap_key (f_nonce f) newPass saltHex skHex;
  rootHex ← wasm_recover_root_secret phrase;
  let boxIdClean := remove_units (Z.eqb 45) boxId in
  let boxIdHex := cp_bytesToHex (TextEncoder_encode boxIdClean) in
  rootWrappedHex ← wasm_wrap_mailbox_key nonce rootHex skHex boxIdHex;
  Ok (JSON_stringify (JObj [str_member "salt" saltHex; str_member "envelope" envelope;
                            str_member "root_wrapped" rootWrappedHex])).

(** The public key to register, empty to keep the old one, and the wrapped secret. *)
Definition new_key_material (f : FreshKey) (nonce : bytes) (r : Recovery) : outcome (jstr * jstr) :=
  let phrase := trim (forgotRecoveryPhrase r) in
  let kept :=
    if (length (words phrase) =? 24)%nat && truthy (forgotOldWrappedSk r) && truthy (forgotMailboxId r) then
      match rewrap_old_key f nonce phrase (forgotMailboxId r) (forgotOldWrappedSk r) (forgotNewPassword r) with
      | Ok wrapped => wrapped
      | Throw _ => []
      end
    else [] in
  if truthy kept then Ok ([], kept) else fresh_key f (forgotNewPassword r).

Definition reset_body (f : FreshKey) (nonce : bytes) (token code newPass : jstr) : prog App unit :=
  _ ← wait;
  r ← gets recovery;
  '(pk, wrapped) ← lift (new_key_material f nonce (set_forgotNewPassword newPass r));
  _ ← resetPasswordWithRecovery token code newPass (Some pk) (Some wrapped);
  modify (fun s =>
    let s := on_recovery (set_forgotStep 3) s in
    on_login (fun l => set_loginPassword newPass (set_loginEmail (trim (forgotEmail (recovery s))) l)) s).

Definition handleResetPasswordWithRecovery (f : FreshKey) (nonce : bytes) : prog App unit :=
  r ← gets recovery;
  let token := forgotChallengeToken r in
  let code := trim (forgotCode r) in
  let newPass := forgotNewPassword r in
  if negb (length code =? 6)%nat then forgot_error (js "Please enter the 6-digit verification code.")
  else if (length newPass <? 12)%nat then forgot_error (js "New password must be at least 12 characters.")
  else if negb (jeqb newPass (forgotConfirmPassword r)) then forgot_error (js "Passwords do not match.")
  else
    _ ← modify (on_recovery begin_forgot);
    _ ← pcatch (reset_body f nonce token code newPass)
          (fun e => forgot_error (or_default (message e)
             (js "Failed to reset password. Please verify your code and try again.")));
    end_forgot.

End Recover.

(** ** What a reset does to the mailbox key *)

Section RecoverTheorems.
Context `{CryptoLaws} `{Unicode} `{Dates} `{Env}.

(** A mailbox id as the server makes them: thirty-two ASCII characters and dashes. *)
Definition is_uuid (i : jstr) : Prop :=
  let clean := remove_units (Z.eqb 45) i in forallb is_ascii clean = true /\ length clean = 32%nat.

Lemma wrap_wrong_id nonce rootHex skHex idHex wrapped :
  wasm_wrap_mailbox_key nonce rootHex skHex idHex = Ok wrapped ->
  exists id, hex_decode idHex = Ok id /\ length id = 16%nat.
Proof.
  unfold wasm_wrap_mailbox_key, decode_mailbox_id, exactly. intros E.
  destruct (hex_decode_32 rootHex) as [root|]; [|done]. cbn [mbind outcome_bind] in E.
  destruct (hex_decode_32 skHex) as [sk|]; [|done]. cbn [mbind outcome_bind] in E.
  destruct (hex_decode idHex) as [id|]; [|done]. cbn [mbind outcome_bind] in E.
  case_decide; [by exists id|done].
Qed.

(** The id is encoded twice, so the key is never wrapped under the phrase again. *)
Lemma rewrap_fails f nonce phrase boxId oldWrapped newPass :
  is_uuid boxId -> exists e, rewrap_old_key f nonce phrase boxId oldWrapped newPass = Throw e.
Proof.
  intros [Ha Hl]. unfold rewrap_old_key.
  destruct (unwrapMailboxKeyWithRecoveryPhrase _ _ _) as [sk|]; [|by eexists]. ok_bind.
  destruct (wasm_passphrase_wrap_key _ _ _ _) as [envelope|]; [|by eexists]. ok_bind.
  destruct (wasm_recover_root_secret _) as [rootHex|]; [|by eexists]. ok_bind.
  destruct (wasm_wrap_mailbox_key _ _ _ _) as [wrapped|] eqn:E; [|by eexists].
  apply wrap_wrong_id in E as (id & Eid & Hid). rewrite cp_bytesToHex_eq in Eid.
  rewrite TextEncoder_ascii in Eid by done.
  assert (Hb : Forall is_byte (remove_units (Z.eqb 45) boxId)).
  { apply List.Forall_forall. intros u Hu. rewrite forallb_forall in Ha. specialize (Ha u Hu).
    unfold is_ascii, is_byte in *. lia. }
  rewrite hex_decode_encode in Eid by done. injection Eid as <-. lia.
Qed.

Lemma new_key_is_fresh f nonce r :
  forgotMailboxId r = [] \/ is_uuid (forgotMailboxId r) ->
  new_key_material f nonce r = fresh_key f (forgotNewPassword r).
Proof.
  intros Hid. unfold new_key_material.
  destruct (_ && _) eqn:E; [|done]. apply andb_true_iff in E as [_ Ht].
  destruct Hid as [Hid|Hid]; [by rewrite Hid in Ht|].
  by destruct (rewrap_fails f nonce (trim (forgotRecoveryPhrase r)) (forgotMailboxId r) (forgotOldWrappedSk r)
    (forgotNewPassword r) Hid) as [e ->].
Qed.

Definition fresh_ok (f : FreshKey) : Prop :=
  key_ok (f_sk f) /\ Forall is_byte (f_salt f) /\ length (f_salt f) = 16%nat /\ nonce_ok (f_nonce f).

Lemma fresh_key_opens f pw k :
  fresh_ok f -> 8 <= Z.of_nat (length (TextEncoder_encode pw)) ->
  argon2id (TextEncoder_encode pw) (f_salt f) = Some k ->
  exists wrapped, fresh_key f pw = Ok (bytesToHex (x25519_pk (f_sk f)), wrapped) /\
    autoUnwrapMailboxKey pw wrapped = Ok (f_sk f).
Proof.
  intros ([Hskl Hsk] & Hs & Hl & [Hnl Hn]) Hpw Ek.
  pose proof (derive_key_ok pw (f_salt f) k Hpw Ek) as Hd.
  destruct (argon2id_key _ _ _ Ek) as [Hk Hkb].
  set (env := aes_gcm_encrypt k (f_nonce f) (f_sk f) RECOVERY_PRINCIPAL_AAD).
  assert (Henv : Forall is_byte env) by (apply envelope_bytes; [done|done|done|by_decide]).
  exists (JSON_stringify (wrapped_json (f_salt f) env)). split.
  - unfold fresh_key. destruct (keypair_fields (f_sk f) Hsk) as (kp & Ep & Es & Epk).
    rewrite Ep. ok_bind. rewrite cp_bytesToHex_eq, Es, Epk. by rewrite (passphrase_wrap_ok pw (f_salt f) _ _ k).
  - rewrite (auto_unwrap_json _ _ _ k); [|done..| |done].
    2:{ intros E. apply (f_equal length) in E. unfold env, aes_gcm_encrypt in E. done. }
    unfold env. rewrite aes_gcm_round_trip by done. ok_bind. by rewrite Hskl.
Qed.

Definition reset_input_ok (r : Recovery) : Prop :=
  length (trim (forgotCode r)) = 6%nat /\ (12 <= length (forgotNewPassword r))%nat /\
  forgotConfirmPassword r = forgotNewPassword r.

Definition reset_request (s : App) (r : Recovery) (pk wrapped : jstr) : request :=
  api_fetch s (js "/v1/auth/recovery/reset-password")
    {| i_method := Some (js "POST"); i_headers := []; i_credentials := None;
       i_body := stringified (JObj [str_member "challenge_token" (forgotChallengeToken r);
         str_member "code" (trim (forgotCode r)); str_member "new_password" (forgotNewPassword r);
         str_member "new_mailbox_pk" pk; str_member "new_wrapped_sk_user" wrapped]) |}.

(** C33.  Resetting a forgotten password replaces the mailbox key, whatever recovery
    phrase was entered: the one request it makes registers a new public key, with a
    secret that the new password opens; then the sign-in form is filled in for it. *)
Theorem reset_replaces_the_mailbox_key f nonce w t s v k :
  fresh_ok f -> forgotMailboxId (recovery s) = [] \/ is_uuid (forgotMailboxId (recovery s)) ->
  reset_input_ok (recovery s) ->
  argon2id (TextEncoder_encode (forgotNewPassword (recovery s))) (f_salt f) = Some k ->
  x25519_pk (f_sk f) <> [] -> (forall t q, api_reply (respond w t q) = Ok v) ->
  exists wrapped s',
    run w t s (handleResetPasswordWithRecovery f nonce) =
      (Ok tt, s', ask (reset_request s (recovery s) (bytesToHex (x25519_pk (f_sk f))) wrapped) t) /\
    autoUnwrapMailboxKey (forgotNewPassword (recovery s)) wrapped = Ok (f_sk f) /\
    forgotStep (recovery s') = 3 /\ forgotBusy (recovery s') = false /\
    loginEmail (loginForm s') = trim (forgotEmail (recovery s)) /\
    loginPassword (loginForm s') = forgotNewPassword (recovery s).
Proof.
  intros Hf Hid (Hc & Hp & Hq) Ek Hne Hr. set (pw := forgotNewPassword (recovery s)) in *.
  pose proof (length_TextEncoder pw) as Hlen.
  destruct (fresh_key_opens f pw k Hf ltac:(lia) Ek) as (wrapped & Efresh & Eopen).
  unfold handleResetPasswordWithRecovery. rewrite run_bind. cbn [gets run]. cbv zeta. fold pw.
  rewrite Hc, Hq, jeqb_refl, (proj2 (Nat.ltb_ge _ _) Hp). cbn [Nat.eqb negb].
  rewrite run_bind. cbn [modify run]. set (s1 := on_recovery begin_forgot s). rewrite run_bind, run_catch.
  unfold reset_body. rewrite run_bind. cbn [wait run]. rewrite run_bind. cbn [gets run].
  rewrite new_key_is_fresh by exact Hid.
  change (forgotNewPassword (set_forgotNewPassword pw (recovery s1))) with pw.
  rewrite Efresh, bind_lift, run_bind. unfold resetPasswordWithRecovery, send.
  assert (Hpk : truthy (bytesToHex (x25519_pk (f_sk f))) = true).
  { destruct Hf as ([_ Hsk] & _). pose proof (length_bytesToHex _ (x25519_pk_bytes _ Hsk)) as Hl.
    destruct (bytesToHex _); [|done]. destruct (x25519_pk (f_sk f)); done. }
  assert (Hw : truthy wrapped = true) by by destruct wrapped.
  unfold or_undefined. rewrite Hpk, Hw, run_apiRequest. cbv zeta. rewrite Hr.
  exists wrapped. eexists. split; [reflexivity|]. by split_and!.
Qed.

End RecoverTheorems.

(** ** Concrete runs *)

#[local] Existing Instances toy_crypto toy_laws ascii_unicode digit_dates sample_env.

Definition fresh0 : FreshKey := {| f_sk := key1; f_salt := salt0; f_nonce := nonce0 |}.

(** The old key, wrapped under the recovery phrase the user types below. *)
Definition old_wrapped : jstr :=
  JSON_stringify (JObj [(js "root_wrapped", JStr (bytesToHex
    (wrap_mailbox_key (hkdf_root (toy_entropy phrase0)) nonce0 key0 id0)))]).

Definition forgetful_app : App :=
  on_recovery (fun r =>
    set_forgotCode (js "123456") (set_forgotNewPassword (js "battery staple")
      (set_forgotConfirmPassword (js "battery staple") (set_forgotMailboxId box0
        (set_forgotOldWrappedSk old_wrapped (set_forgotRecoveryPhrase phrase0 r)))))) sample_app.

Example phrase_opens_the_old_key :
  unwrapMailboxKeyWithRecoveryPhrase phrase0 box0 old_wrapped = Ok key0.
Proof. vm_compute. reflexivity. Qed.

Definition accepts : world := {| respond _ _ := json_reply (JObj []); answer _ _ := true |}.

Lemma reset_replaces_the_mailbox_key_witness :
  exists wrapped s' t',
    run accepts no_trace forgetful_app (handleResetPasswordWithRecovery fresh0 nonce0) = (Ok tt, s', t') /\
    autoUnwrapMailboxKey (js "battery staple") wrapped = Ok key1.
Proof.
  destruct (reset_replaces_the_mailbox_key fresh0 nonce0 accepts no_trace forgetful_app (Some (JObj []))
    (toy_key (js "battery staple" ++ salt0))) as (wrapped & s' & R & O & _).
  - split; [exact key1_ok|]. split; [by_decide|]. split; [reflexivity|exact nonce0_ok].
  - right. split; vm_compute; reflexivity.
  - split; [vm_compute; reflexivity|]. split; [vm_compute; lia|reflexivity].
  - reflexivity.
  - discriminate.
  - intros t q. vm_compute. reflexivity.
  - eexists wrapped, s', _. split; [exact R|exact O].
Defined.
