(* ===== verification/SetupAccount.v ===== *)
(** * Setting up an invited account

    The page of an invitation link (webmail/src/routes/setup-account.tsx): verifying the
    invitation, the password, the keys - fresh ones for a private mailbox, the provisional
    ones of the invitation for a managed mailbox - with the recovery phrase, the second
    factor, and claiming the account.  The state is the application's ([App]), of which the
    page uses the two browser stores, with the page's own signals ([Setup]).  The members of
    the invitation are read as everywhere: a missing string is the empty string. *)

From S2P Require Import Prelude JsString Encoding Json Display Wasm MessageCrypto Totp Client Page Api AppState.
From S2P Require Import MailView Reading MailboxData Outbound ComposeMail Session SignIn.

(** The page's signals; [su_location] is where it sends the browser. *)
Record Setup := {
  su_loading : bool;
  su_error : option jstr;
  su_invite : option json;
  su_token : jstr;
  su_step : Z;
  su_password : jstr;
  su_confirm : jstr;
  su_mnemonic : jstr;
  su_copied : bool;
  su_saved : bool;
  su_busy : bool;
  su_submit_error : option jstr;
  su_method : jstr;
  su_secret : jstr;
  su_code : jstr;
  su_verified : bool;
  su_verifying : bool;
  su_totp_error : option jstr;
  su_secret_copied : bool;
  su_phone : jstr;
  su_mail : jstr;
  su_pk : jstr;
  su_wrapped : jstr;
  su_sk : jstr;
  su_location : option jstr }.

Definition set_su_loading (v : bool) (x : Setup) : Setup := {|
  su_loading := v; su_error := su_error x; su_invite := su_invite x; su_token := su_token x; su_step := su_step
    x; su_password := su_password x; su_confirm := su_confirm x; su_mnemonic := su_mnemonic x; su_copied :=
    su_copied x; su_saved := su_saved x; su_busy := su_busy x; su_submit_error := su_submit_error x; su_method
    := su_method x; su_secret := su_secret x; su_code := su_code x; su_verified := su_verified x; su_verifying
    := su_verifying x; su_totp_error := su_totp_error x; su_secret_copied := su_secret_copied x; su_phone :=
    su_phone x; su_mail := su_mail x; su_pk := su_pk x; su_wrapped := su_wrapped x; su_sk := su_sk x;
    su_location := su_location x |}.
Definition set_su_error (v : option jstr) (x : Setup) : Setup := {|
  su_loading := su_loading x; su_error := v; su_invite := su_invite x; su_token := su_token x; su_step :=
    su_step x; su_password := su_password x; su_confirm := su_confirm x; su_mnemonic := su_mnemonic x; su_copied
    := su_copied x; su_saved := su_saved x; su_busy := su_busy x; su_submit_error := su_submit_error x;
    su_method := su_method x; su_secret := su_secret x; su_code := su_code x; su_verified := su_verified x;
    su_verifying := su_verifying x; su_totp_error := su_totp_error x; su_secret_copied := su_secret_copied x;
    su_phone := su_phone x; su_mail := su_mail x; su_pk := su_pk x; su_wrapped := su_wrapped x; su_sk := su_sk
    x; su_location := su_location x |}.
Definition set_su_invite (v : option json) (x : Setup) : Setup := {|
  su_loading := su_loading x; su_error := su_error x; su_invite := v; su_token := su_token x; su_step := su_step
    x; su_password := su_password x; su_confirm := su_confirm x; su_mnemonic := su_mnemonic x; su_copied :=
    su_copied x; su_saved := su_saved x; su_busy := su_busy x; su_submit_error := su_submit_error x; su_method
    := su_method x; su_secret := su_secret x; su_code := su_code x; su_verified := su_verified x; su_verifying
    := su_verifying x; su_totp_error := su_totp_error x; su_secret_copied := su_secret_copied x; su_phone :=
    su_phone x; su_mail := su_mail x; su_pk := su_pk x; su_wrapped := su_wrapped x; su_sk := su_sk x;
    su_location := su_location x |}.
Definition set_su_token (v : jstr) (x : Setup) : Setup := {|
  su_loading := su_loading x; su_error := su_error x; su_invite := su_invite x; su_token := v; su_step :=
    su_step x; su_password := su_password x; su_confirm := su_confirm x; su_mnemonic := su_mnemonic x; su_copied
    := su_copied x; su_saved := su_saved x; su_busy := su_busy x; su_submit_error := su_submit_error x;
    su_method := su_method x; su_secret := su_secret x; su_code := su_code x; su_verified := su_verified x;
    su_verifying := su_verifying x; su_totp_error := su_totp_error x; su_secret_copied := su_secret_copied x;
    su_phone := su_phone x; su_mail := su_mail x; su_pk := su_pk x; su_wrapped := su_wrapped x; su_sk := su_sk
    x; su_location := su_location x |}.
Definition set_su_step (v : Z) (x : Setup) : Setup := {|
  su_loading := su_loading x; su_error := su_error x; su_invite := su_invite x; su_token := su_token x; su_step
    := v; su_password := su_password x; su_confirm := su_confirm x; su_mnemonic := su_mnemonic x; su_copied :=
    su_copied x; su_saved := su_saved x; su_busy := su_busy x; su_submit_error := su_submit_error x; su_method
    := su_method x; su_secret := su_secret x; su_code := su_code x; su_verified := su_verified x; su_verifying
    := su_verifying x; su_totp_error := su_totp_error x; su_secret_copied := su_secret_copied x; su_phone :=
    su_phone x; su_mail := su_mail x; su_pk := su_pk x; su_wrapped := su_wrapped x; su_sk := su_sk x;
    su_location := su_location x |}.
Definition set_su_password (v : jstr) (x : Setup) : Setup := {|
  su_loading := su_loading x; su_error := su_error x; su_invite := su_invite x; su_token := su_token x; su_step
    := su_step x; su_password := v; su_confirm := su_confirm x; su_mnemonic := su_mnemonic x; su_copied :=
    su_copied x; su_saved := su_saved x; su_busy := su_busy x; su_submit_error := su_submit_error x; su_method
    := su_method x; su_secret := su_secret x; su_code := su_code x; su_verified := su_verified x; su_verifying
    := su_verifying x; su_totp_error := su_totp_error x; su_secret_copied := su_secret_copied x; su_phone :=
    su_phone x; su_mail := su_mail x; su_pk := su_pk x; su_wrapped := su_wrapped x; su_sk := su_sk x;
    su_location := su_location x |}.
Definition set_su_confirm (v : jstr) (x : Setup) : Setup := {|
  su_loading := su_loading x; su_error := su_error x; su_invite := su_invite x; su_token := su_token x; su_step
    := su_step x; su_password := su_password x; su_confirm := v; su_mnemonic := su_mnemonic x; su_copied :=
    su_copied x; su_saved := su_saved x; su_busy := su_busy x; su_submit_error := su_submit_error x; su_method
    := su_method x; su_secret := su_secret x; su_code := su_code x; su_verified := su_verified x; su_verifying
    := su_verifying x; su_totp_error := su_totp_error x; su_secret_copied := su_secret_copied x; su_phone :=
    su_phone x; su_mail := su_mail x; su_pk := su_pk x; su_wrapped := su_wrapped x; su_sk := su_sk x;
    su_location := su_location x |}.
Definition set_su_mnemonic (v : jstr) (x : Setup) : Setup := {|
  su_loading := su_loading x; su_error := su_error x; su_invite := su_invite x; su_token := su_token x; su_step
    := su_step x; su_password := su_password x; su_confirm := su_confirm x; su_mnemonic := v; su_copied :=
    su_copied x; su_saved := su_saved x; su_busy := su_busy x; su_submit_error := su_submit_error x; su_method
    := su_method x; su_secret := su_secret x; su_code := su_code x; su_verified := su_verified x; su_verifying
    := su_verifying x; su_totp_error := su_totp_error x; su_secret_copied := su_secret_copied x; su_phone :=
    su_phone x; su_mail := su_mail x; su_pk := su_pk x; su_wrapped := su_wrapped x; su_sk := su_sk x;
    su_location := su_location x |}.
Definition set_su_copied (v : bool) (x : Setup) : Setup := {|
  su_loading := su_loading x; su_error := su_error x; su_invite := su_invite x; su_token := su_token x; su_step
    := su_step x; su_password := su_password x; su_confirm := su_confirm x; su_mnemonic := su_mnemonic x;
    su_copied := v; su_saved := su_saved x; su_busy := su_busy x; su_submit_error := su_submit_error x;
    su_method := su_method x; su_secret := su_secret x; su_code := su_code x; su_verified := su_verified x;
    su_verifying := su_verifying x; su_totp_error := su_totp_error x; su_secret_copied := su_secret_copied x;
    su_phone := su_phone x; su_mail := su_mail x; su_pk := su_pk x; su_wrapped := su_wrapped x; su_sk := su_sk
    x; su_location := su_location x |}.
Definition set_su_saved (v : bool) (x : Setup) : Setup := {|
  su_loading := su_loading x; su_error := su_error x; su_invite := su_invite x; su_token := su_token x; su_step
    := su_step x; su_password := su_password x; su_confirm := su_confirm x; su_mnemonic := su_mnemonic x;
    su_copied := su_copied x; su_saved := v; su_busy := su_busy x; su_submit_error := su_submit_error x;
    su_method := su_method x; su_secret := su_secret x; su_code := su_code x; su_verified := su_verified x;
    su_verifying := su_verifying x; su_totp_error := su_totp_error x; su_secret_copied := su_secret_copied x;
    su_phone := su_phone x; su_mail := su_mail x; su_pk := su_pk x; su_wrapped := su_wrapped x; su_sk := su_sk
    x; su_location := su_location x |}.
Definition set_su_busy (v : bool) (x : Setup) : Setup := {|
  su_loading := su_loading x; su_error := su_error x; su_invite := su_invite x; su_token := su_token x; su_step
    := su_step x; su_password := su_password x; su_confirm := su_confirm x; su_mnemonic := su_mnemonic x;
    su_copied := su_copied x; su_saved := su_saved x; su_busy := v; su_submit_error := su_submit_error x;
    su_method := su_method x; su_secret := su_secret x; su_code := su_code x; su_verified := su_verified x;
    su_verifying := su_verifying x; su_totp_error := su_totp_error x; su_secret_copied := su_secret_copied x;
    su_phone := su_phone x; su_mail := su_mail x; su_pk := su_pk x; su_wrapped := su_wrapped x; su_sk := su_sk
    x; su_location := su_location x |}.
Definition set_su_submit_error (v : option jstr) (x : Setup) : Setup := {|
  su_loading := su_loading x; su_error := su_error x; su_invite := su_invite x; su_token := su_token x; su_step
    := su_step x; su_password := su_password x; su_confirm := su_confirm x; su_mnemonic := su_mnemonic x;
    su_copied := su_copied x; su_saved := su_saved x; su_busy := su_busy x; su_submit_error := v; su_method :=
    su_method x; su_secret := su_secret x; su_code := su_code x; su_verified := su_verified x; su_verifying :=
    su_verifying x; su_totp_error := su_totp_error x; su_secret_copied := su_secret_copied x; su_phone :=
    su_phone x; su_mail := su_mail x; su_pk := su_pk x; su_wrapped := su_wrapped x; su_sk := su_sk x;
    su_location := su_location x |}.
Definition set_su_method (v : jstr) (x : Setup) : Setup := {|
  su_loading := su_loading x; su_error := su_error x; su_invite := su_invite x; su_token := su_token x; su_step
    := su_step x; su_password := su_password x; su_confirm := su_confirm x; su_mnemonic := su_mnemonic x;
    su_copied := su_copied x; su_saved := su_saved x; su_busy := su_busy x; su_submit_error := su_submit_error
    x; su_method := v; su_secret := su_secret x; su_code := su_code x; su_verified := su_verified x;
    su_verifying := su_verifying x; su_totp_error := su_totp_error x; su_secret_copied := su_secret_copied x;
    su_phone := su_phone x; su_mail := su_mail x; su_pk := su_pk x; su_wrapped := su_wrapped x; su_sk := su_sk
    x; su_location := su_location x |}.
Definition set_su_secret (v : jstr) (x : Setup) : Setup := {|
  su_loading := su_loading x; su_error := su_error x; su_invite := su_invite x; su_token := su_token x; su_step
    := su_step x; su_password := su_password x; su_confirm := su_confirm x; su_mnemonic := su_mnemonic x;
    su_copied := su_copied x; su_saved := su_saved x; su_busy := su_busy x; su_submit_error := su_submit_error
    x; su_method := su_method x; su_secret := v; su_code := su_code x; su_verified := su_verified x;
    su_verifying := su_verifying x; su_totp_error := su_totp_error x; su_secret_copied := su_secret_copied x;
    su_phone := su_phone x; su_mail := su_mail x; su_pk := su_pk x; su_wrapped := su_wrapped x; su_sk := su_sk
    x; su_location := su_location x |}.
Definition set_su_code (v : jstr) (x : Setup) : Setup := {|
  su_loading := su_loading x; su_error := su_error x; su_invite := su_invite x; su_token := su_token x; su_step
    := su_step x; su_password := su_password x; su_confirm := su_confirm x; su_mnemonic := su_mnemonic x;
    su_copied := su_copied x; su_saved := su_saved x; su_busy := su_busy x; su_submit_error := su_submit_error
    x; su_method := su_method x; su_secret := su_secret x; su_code := v; su_verified := su_verified x;
    su_verifying := su_verifying x; su_totp_error := su_totp_error x; su_secret_copied := su_secret_copied x;
    su_phone := su_phone x; su_mail := su_mail x; su_pk := su_pk x; su_wrapped := su_wrapped x; su_sk := su_sk
    x; su_location := su_location x |}.
Definition set_su_verified (v : bool) (x : Setup) : Setup := {|
  su_loading := su_loading x; su_error := su_error x; su_invite := su_invite x; su_token := su_token x; su_step
    := su_step x; su_password := su_password x; su_confirm := su_confirm x; su_mnemonic := su_mnemonic x;
    su_copied := su_copied x; su_saved := su_saved x; su_busy := su_busy x; su_submit_error := su_submit_error
    x; su_method := su_method x; su_secret := su_secret x; su_code := su_code x; su_verified := v; su_verifying
    := su_verifying x; su_totp_error := su_totp_error x; su_secret_copied := su_secret_copied x; su_phone :=
    su_phone x; su_mail := su_mail x; su_pk := su_pk x; su_wrapped := su_wrapped x; su_sk := su_sk x;
    su_location := su_location x |}.
Definition set_su_verifying (v : bool) (x : Setup) : Setup := {|
  su_loading := su_loading x; su_error := su_error x; su_invite := su_invite x; su_token := su_token x; su_step
    := su_step x; su_password := su_password x; su_confirm := su_confirm x; su_mnemonic := su_mnemonic x;
    su_copied := su_copied x; su_saved := su_saved x; su_busy := su_busy x; su_submit_error := su_submit_error
    x; su_method := su_method x; su_secret := su_secret x; su_code := su_code x; su_verified := su_verified x;
    su_verifying := v; su_totp_error := su_totp_error x; su_secret_copied := su_secret_copied x; su_phone :=
    su_phone x; su_mail := su_mail x; su_pk := su_pk x; su_wrapped := su_wrapped x; su_sk := su_sk x;
    su_location := su_location x |}.
Definition set_su_totp_error (v : option jstr) (x : Setup) : Setup := {|
  su_loading := su_loading x; su_error := su_error x; su_invite := su_invite x; su_token := su_token x; su_step
    := su_step x; su_password := su_password x; su_confirm := su_confirm x; su_mnemonic := su_mnemonic x;
    su_copied := su_copied x; su_saved := su_saved x; su_busy := su_busy x; su_submit_error := su_submit_error
    x; su_method := su_method x; su_secret := su_secret x; su_code := su_code x; su_verified := su_verified x;
    su_verifying := su_verifying x; su_totp_error := v; su_secret_copied := su_secret_copied x; su_phone :=
    su_phone x; su_mail := su_mail x; su_pk := su_pk x; su_wrapped := su_wrapped x; su_sk := su_sk x;
    su_location := su_location x |}.
Definition set_su_secret_copied (v : bool) (x : Setup) : Setup := {|
  su_loading := su_loading x; su_error := su_error x; su_invite := su_invite x; su_token := su_token x; su_step
    := su_step x; su_password := su_password x; su_confirm := su_confirm x; su_mnemonic := su_mnemonic x;
    su_copied := su_copied x; su_saved := su_saved x; su_busy := su_busy x; su_submit_error := su_submit_error
    x; su_method := su_method x; su_secret := su_secret x; su_code := su_code x; su_verified := su_verified x;
    su_verifying := su_verifying x; su_totp_error := su_totp_error x; su_secret_copied := v; su_phone :=
    su_phone x; su_mail := su_mail x; su_pk := su_pk x; su_wrapped := su_wrapped x; su_sk := su_sk x;
    su_location := su_location x |}.
Definition set_su_phone (v : jstr) (x : Setup) : Setup := {|
  su_loading := su_loading x; su_error := su_error x; su_invite := su_invite x; su_token := su_token x; su_step
    := su_step x; su_password := su_password x; su_confirm := su_confirm x; su_mnemonic := su_mnemonic x;
    su_copied := su_copied x; su_saved := su_saved x; su_busy := su_busy x; su_submit_error := su_submit_error
    x; su_method := su_method x; su_secret := su_secret x; su_code := su_code x; su_verified := su_verified x;
    su_verifying := su_verifying x; su_totp_error := su_totp_error x; su_secret_copied := su_secret_copied x;
    su_phone := v; su_mail := su_mail x; su_pk := su_pk x; su_wrapped := su_wrapped x; su_sk := su_sk x;
    su_location := su_location x |}.
Definition set_su_mail (v : jstr) (x : Setup) : Setup := {|
  su_loading := su_loading x; su_error := su_error x; su_invite := su_invite x; su_token := su_token x; su_step
    := su_step x; su_password := su_password x; su_confirm := su_confirm x; su_mnemonic := su_mnemonic x;
    su_copied := su_copied x; su_saved := su_saved x; su_busy := su_busy x; su_submit_error := su_submit_error
    x; su_method := su_method x; su_secret := su_secret x; su_code := su_code x; su_verified := su_verified x;
    su_verifying := su_verifying x; su_totp_error := su_totp_error x; su_secret_copied := su_secret_copied x;
    su_phone := su_phone x; su_mail := v; su_pk := su_pk x; su_wrapped := su_wrapped x; su_sk := su_sk x;
    su_location := su_location x |}.
Definition set_su_pk (v : jstr) (x : Setup) : Setup := {|
  su_loading := su_loading x; su_error := su_error x; su_invite := su_invite x; su_token := su_token x; su_step
    := su_step x; su_password := su_password x; su_confirm := su_confirm x; su_mnemonic := su_mnemonic x;
    su_copied := su_copied x; su_saved := su_saved x; su_busy := su_busy x; su_submit_error := su_submit_error
    x; su_method := su_method x; su_secret := su_secret x; su_code := su_code x; su_verified := su_verified x;
    su_verifying := su_verifying x; su_totp_error := su_totp_error x; su_secret_copied := su_secret_copied x;
    su_phone := su_phone x; su_mail := su_mail x; su_pk := v; su_wrapped := su_wrapped x; su_sk := su_sk x;
    su_location := su_location x |}.
Definition set_su_wrapped (v : jstr) (x : Setup) : Setup := {|
  su_loading := su_loading x; su_error := su_error x; su_invite := su_invite x; su_token := su_token x; su_step
    := su_step x; su_password := su_password x; su_confirm := su_confirm x; su_mnemonic := su_mnemonic x;
    su_copied := su_copied x; su_saved := su_saved x; su_busy := su_busy x; su_submit_error := su_submit_error
    x; su_method := su_method x; su_secret := su_secret x; su_code := su_code x; su_verified := su_verified x;
    su_verifying := su_verifying x; su_totp_error := su_totp_error x; su_secret_copied := su_secret_copied x;
    su_phone := su_phone x; su_mail := su_mail x; su_pk := su_pk x; su_wrapped := v; su_sk := su_sk x;
    su_location := su_location x |}.
Definition set_su_sk (v : jstr) (x : Setup) : Setup := {|
  su_loading := su_loading x; su_error := su_error x; su_invite := su_invite x; su_token := su_token x; su_step
    := su_step x; su_password := su_password x; su_confirm := su_confirm x; su_mnemonic := su_mnemonic x;
    su_copied := su_copied x; su_saved := su_saved x; su_busy := su_busy x; su_submit_error := su_submit_error
    x; su_method := su_method x; su_secret := su_secret x; su_code := su_code x; su_verified := su_verified x;
    su_verifying := su_verifying x; su_totp_error := su_totp_error x; su_secret_copied := su_secret_copied x;
    su_phone := su_phone x; su_mail := su_mail x; su_pk := su_pk x; su_wrapped := su_wrapped x; su_sk := v;
    su_location := su_location x |}.
Definition set_su_location (v : option jstr) (x : Setup) : Setup := {|
  su_loading := su_loading x; su_error := su_error x; su_invite := su_invite x; su_token := su_token x; su_step
    := su_step x; su_password := su_password x; su_confirm := su_confirm x; su_mnemonic := su_mnemonic x;
    su_copied := su_copied x; su_saved := su_saved x; su_busy := su_busy x; su_submit_error := su_submit_error
    x; su_method := su_method x; su_secret := su_secret x; su_code := su_code x; su_verified := su_verified x;
    su_verifying := su_verifying x; su_totp_error := su_totp_error x; su_secret_copied := su_secret_copied x;
    su_phone := su_phone x; su_mail := su_mail x; su_pk := su_pk x; su_wrapped := su_wrapped x; su_sk := su_sk
    x; su_location := v |}.

(** What a submission draws: the entropy of the phrase, a key, the nonce of the wrapping
    under the phrase, the salt and the nonce of the wrapping under the password. *)
Record SetupRandom := {
  st_entropy : bytes; st_sk : bytes; st_root_nonce : bytes; st_salt : bytes; st_nonce : bytes }.

(** What claiming draws. *)
Record ClaimRandom := { cl_salt : bytes; cl_nonce : bytes }.

Section SetupPage.
Context `{Crypto} `{Unicode} `{Env}.

(** ** The link *)

(** [params.get("token")?.trim() || ""] of the page's address. *)
Definition setup_onMount (token_param : option jstr) : prog (App * Setup) unit :=
  let token := trim (default [] token_param) in
  if negb (truthy token) then
    on_page (fun p => set_su_loading false (set_su_error (Some
      (js "No invitation token found in the setup link. Please check your invitation URL.")) p))
  else
    _ ← on_page (set_su_token token);
    finally
      (pcatch
         (res ← below (verifyInvitation token);
          resp ← lift (reply_object res);
          if negb (bool_field resp "valid") then
            on_page (fun p => set_su_loading false (set_su_error (Some (or_default (str_field resp "error")
              (js "This invitation link is invalid, expired, or has already been used."))) p))
          else on_page (set_su_invite (Some resp)))
         (fun e => on_page (set_su_error (Some (or_default (message e)
            (js "Failed to verify invitation token. Please check your connection and try again."))))))
      (on_page (set_su_loading false)).

(** ** The password *)

(** The score and its label; the colours are left out. *)
Definition passwordStrength (pw : jstr) : Z * jstr :=
  if negb (truthy pw) then (0, js "Empty")
  else
    let n := Z.of_nat (length pw) in
    let has p := existsb p pw in
    let lower u := (97 <=? u) && (u <=? 122) in
    let upper u := (65 <=? u) && (u <=? 90) in
    let point (b : bool) : Z := if b then 1 else 0 in
    let score := point (12 <=? n) + point (16 <=? n) + point (has lower && has upper) + point (has is_digit)
                 + point (has (fun u => negb (ascii_alnum u))) in
    (score, if score <=? 2 then js "Weak" else if score =? 3 then js "Fair"
            else if score =? 4 then js "Good" else js "Strong").

Definition isPasswordValid (p : Setup) : bool :=
  (12 <=? length (su_password p))%nat && jeqb (su_password p) (su_confirm p).

(** ** The keys *)

(** The public key and the secret key, as hex: fresh ones for a private mailbox, those of
    the invitation opened with its token for a managed one. *)
Definition setup_keys (r : SetupRandom) (token : jstr) (data : json) : outcome (jstr * jstr) :=
  if jeqb (str_field data "privacy_mode") (js "private") then
    kp ← JSON_parse (wasm_generate_keypair (st_sk r));
    Ok (str_field kp "public_key", str_field kp "secret_key")
  else if negb (truthy (str_field data "temp_wrapped_sk")) then
    throw "Missing provisional wrapped key from invitation"
  else
    skHex ← wasm_aes_gcm_decrypt token (str_field data "temp_wrapped_sk") [];
    if negb (truthy skHex) || negb (length skHex =? 64)%nat then
      throw "Failed to decrypt provisional mailbox key with activation token"
    else Ok (str_field data "mailbox_pk", skHex).

(** The key wrapped under the password and under the phrase. *)
Definition wrapped_payload (r : SetupRandom) (password rootHex skHex boxIdHex : jstr) : outcome jstr :=
  rootWrappedHex ← wasm_wrap_mailbox_key (st_root_nonce r) rootHex skHex boxIdHex;
  let saltHex := cp_bytesToHex (st_salt r) in
  envelope ← wasm_passphrase_wrap_key (st_nonce r) password saltHex skHex;
  Ok (JSON_stringify (JObj [str_member "salt" saltHex; str_member "envelope" envelope;
                            str_member "root_wrapped" rootWrappedHex])).

Definition make_keys (r : SetupRandom) (data : json) : prog (App * Setup) unit :=
  boxIdHex ← lift (mailboxIdHex (str_field data "mailbox_id"));
  phrase ← lift (wasm_generate_mnemonic (st_entropy r));
  _ ← on_page (set_su_mnemonic phrase);
  rootHex ← lift (wasm_recover_root_secret phrase);
  p ← page (G:=Setup);
  '(pk, skHex) ← lift (setup_keys r (su_token p) data);
  _ ← on_page (set_su_pk pk);
  wrapped ← lift (wrapped_payload r (su_password p) rootHex skHex boxIdHex);
  on_page (fun p => set_su_step 2 (set_su_sk skHex (set_su_wrapped wrapped p))).

Definition handleProceedToKeys (r : SetupRandom) : prog (App * Setup) unit :=
  p ← page (G:=Setup);
  if negb (isPasswordValid p) then skip
  else
    _ ← on_page (fun p => set_su_busy true (set_su_submit_error None p));
    finally
      (pcatch
         (p ← page (G:=Setup);
          match su_invite p with
          | None => pthrow "Missing invitation data"
          | Some data => _ ← wait; make_keys r data
          end)
         (fun e => on_page (set_su_submit_error (Some (or_default (message e)
            (js "Failed to initialize cryptographic material."))))))
      (on_page (set_su_busy false)).

(** ** The recovery phrase *)

Definition setup_handleCopyMnemonic : prog (App * Setup) unit :=
  p ← page (G:=Setup);
  if negb (truthy (su_mnemonic p)) then skip
  else _ ← on_page (set_su_copied true); spawn (_ ← wait; on_page (set_su_copied false)).

(** The file of the download, its name and its text; [now] is the clock's. *)
Definition handleDownloadMnemonic (now : jstr) (p : Setup) : option (jstr * jstr) :=
  let words := su_mnemonic p in
  if negb (truthy words) then None
  else
    let email := or_default (match su_invite p with Some d => str_field d "email" | None => [] end) (js "mailbox") in
    let rule := replicate 54 45 in
    Some (js "byos-recovery-" ++ map (fun u => if ascii_alnum u then u else 95) email ++ js ".txt",
          join [10] [
            js "BYOS Zero-Knowledge Mailbox Recovery Backup"; replicate 54 61;
            js "Email Account: " ++ email; js "Generated Date: " ++ now; [];
            js "IMPORTANT SECURITY NOTICE:";
            js "- Keep this recovery phrase in an offline vault or secure password manager.";
            js "- Do not upload this phrase to unencrypted cloud notes or email.";
            js "- Anyone with these 24 words can decrypt your entire mailbox archive."; [];
            js "24-Word Recovery Phrase:"; rule; words; rule; [];
            js "If you ever lose your account password, you can use these";
            js "24 words in the BYOS Webmail recovery ceremony to regain";
            js "access and unwrap your end-to-end encryption keys."]).

(** ** The second factor *)

(** [bs] is the randomness of a new authenticator secret. *)
Definition handleProceedTo2FA (bs : bytes) : prog (App * Setup) unit :=
  p ← page (G:=Setup);
  if negb (su_saved p) then skip
  else
    _ ← (if negb (truthy (su_secret p)) then on_page (set_su_secret (generateTOTPSecret bs)) else skip);
    on_page (set_su_step 3).

(** [now] is the clock when the code is checked. *)
Definition setup_handleVerifyTOTP (now : Z) : prog (App * Setup) unit :=
  p ← page (G:=Setup);
  let code := trim (su_code p) in
  if negb (length code =? 6)%nat then on_page (set_su_totp_error (Some (js "Please enter a 6-digit code.")))
  else
    _ ← on_page (fun p => set_su_totp_error None (set_su_verifying true p));
    _ ← wait;
    _ ← (if verifyTOTPClient (su_secret p) code now then on_page (set_su_verified true)
         else on_page (set_su_totp_error (Some
                (js "Invalid 6-digit code. Check your device clock or try the next code."))));
    on_page (set_su_verifying false).

Definition setup_handleCopyTOTPSecret : prog (App * Setup) unit :=
  p ← page (G:=Setup);
  if negb (truthy (su_secret p)) then skip
  else _ ← on_page (set_su_secret_copied true); spawn (_ ← wait; on_page (set_su_secret_copied false)).

Definition is2FAValid (p : Setup) : bool :=
  let method := su_method p in
  if jeqb method (js "totp") then su_verified p || (length (trim (su_code p)) =? 6)%nat
  else if jeqb method (js "phone") then (7 <=? length (trim (su_phone p)))%nat
  else if jeqb method (js "email") then includes (trim (su_mail p)) (js "@")
  else false.
(** ** Claiming the account *)

(** What is posted; [undefined] members are omitted. *)
Definition claim_body (p : Setup) (pk : jstr) : json :=
  let only method v := if jeqb (su_method p) (js method) then Some (JStr v) else None in
  JObj ([str_member "token" (su_token p); str_member "password" (su_password p); str_member "mailbox_pk" pk;
         str_member "wrapped_sk_user" (su_wrapped p); str_member "two_factor_method" (su_method p)]
        ++ opt_member "totp_secret" (only "totp" (su_secret p))
        ++ opt_member "recovery_phone" (only "phone" (trim (su_phone p)))
        ++ opt_member "recovery_email" (only "email" (trim (su_mail p)))).

(** [derivedMailboxPk() || data.mailbox_pk] *)
Definition claimed_pk (p : Setup) (data : json) : jstr := or_default (su_pk p) (str_field data "mailbox_pk").

Definition new_account (data : json) (token skHex sKeyHex : jstr) : ConnectedAccount := {|
  acc_id := str_field data "mailbox_id"; acc_email := str_field data "email";
  displayName := if truthy (str_field data "email") then local_part_of (str_field data "email") else js "User";
  acc_role := js "member"; privacyMode := or_default (str_field data "privacy_mode") (js "private");
  sessionToken := token; mailboxSkHex := skHex; searchKeyHex := sKeyHex |}.

(** The account in front of the list a store holds; an entry for it is replaced. *)
Definition put_account (a : ConnectedAccount) (stored : option jstr) : jstr :=
  accounts_text (merge_account a (match stored with Some t => accounts_of t | None => [] end)).

(** The tab's store keeps the keys, the durable one the account without them. *)
Definition store_account (a : ConnectedAccount) (s : App) : App :=
  let s := set_item accounts_item (put_account a (session s !! accounts_item)) s in
  set_local_item accounts_item (put_account (without_keys a) (local s !! accounts_item)) s.

(** The recovery phrase, as bytes, wrapped under the password for the settings. *)
Definition seal_phrase (r : ClaimRandom) (mailboxId : jstr) : prog (App * Setup) unit :=
  _ ← wait;
  p ← page (G:=Setup);
  let saltHex := cp_bytesToHex (cl_salt r) in
  let mnemonicHex := cp_bytesToHex (TextEncoder_encode (su_mnemonic p)) in
  wrappedPhraseHex ← lift (wasm_passphrase_wrap_key (cl_nonce r) (su_password p) saltHex mnemonicHex);
  _ ← below (updateMailboxSettings mailboxId
        (JObj [str_member "recovery_phrase_wrapped" wrappedPhraseHex; str_member "recovery_phrase_salt" saltHex]));
  skip.

(** The keys in the tab's store; the search key that goes with them. *)
Definition store_keys (mailboxId mailboxSk : jstr) : prog (App * Setup) jstr :=
  if truthy mailboxSk then
    _ ← wait;
    sKeyHex ← lift (wasm_derive_search_key mailboxSk);
    _ ← below (modify (fun s => set_item (skey_item mailboxId) sKeyHex (set_item (sk_item mailboxId) mailboxSk s)));
    mret sKeyHex
  else mret [].

Definition claim (r : ClaimRandom) (data : json) : prog (App * Setup) unit :=
  p ← page (G:=Setup);
  let pk := claimed_pk p data in
  if negb (truthy pk) || negb (truthy (su_wrapped p)) then
    pthrow "Cryptographic keys missing. Please return to step 1."
  else
    res ← below (claimInvitation (claim_body p pk));
    p ← page (G:=Setup);
    let boxId := str_field data "mailbox_id" in
    let mailboxSk := su_sk p in
    sKeyHex ← store_keys boxId mailboxSk;
    claimRes ← lift (reply_object res);
    let token := str_field claimRes "token" in
    _ ← below (modify (fun s => if truthy token then set_item token_item token s else s));
    _ ← below (modify (store_account (new_account data token mailboxSk sKeyHex)));
    _ ← pcatch (seal_phrase r boxId) (fun _ => skip);
    on_page (set_su_location (Some (js "/"))).

Definition handleFinalizeActivation (r : ClaimRandom) : prog (App * Setup) unit :=
  p ← page (G:=Setup);
  if negb (su_saved p) then skip
  else if negb (is2FAValid p) then
    on_page (set_su_submit_error (Some
      (js "Please complete the required 2-Step Verification step before finalizing.")))
  else
    _ ← on_page (fun p => set_su_submit_error None (set_su_busy true p));
    pcatch
      (match su_invite p with None => pthrow "Missing invitation data" | Some data => claim r data end)
      (fun e => on_page (fun p => set_su_busy false (set_su_submit_error (Some (or_default (message e)
         (js "Failed to complete account activation."))) p))).

End SetupPage.

(** ** What the page offers

    The inputs and buttons of a step are there while the step is shown; a disabled button
    does nothing. *)
Section Events.
Context `{Crypto} `{Unicode} `{Env}.

Definition offered (shown : Setup -> bool) (h : prog (App * Setup) unit) : prog (App * Setup) unit :=
  p ← page (G:=Setup); if shown p then h else skip.

Definition at_step (n : Z) (p : Setup) : bool := su_step p =? n.
Definition at_rest (n : Z) (p : Setup) : bool := at_step n p && negb (su_busy p).

Inductive setup_handler (good : SetupRandom -> Prop) : prog (App * Setup) unit -> Prop :=
| on_setup_mount token : setup_handler good (setup_onMount token)
| on_setup_password v : setup_handler good (offered (at_step 1) (on_page (set_su_password v)))
| on_setup_confirm v : setup_handler good (offered (at_step 1) (on_page (set_su_confirm v)))
| on_proceed r : good r ->
    setup_handler good (offered (fun p => at_rest 1 p && isPasswordValid p) (handleProceedToKeys r))
| on_copy_phrase : setup_handler good (offered (at_step 2) setup_handleCopyMnemonic)
| on_saved b : setup_handler good (offered (at_step 2) (on_page (set_su_saved b)))
| on_back_to_password : setup_handler good (offered (at_rest 2) (on_page (set_su_step 1)))
| on_to_2fa bs : setup_handler good (offered (fun p => at_rest 2 p && su_saved p) (handleProceedTo2FA bs))
| on_method m : setup_handler good (offered (at_step 3) (on_page (set_su_method m)))
| on_code v : setup_handler good (offered (at_step 3) (on_page (set_su_code (List.filter is_digit v))))
| on_verify_code now : setup_handler good (offered (at_step 3) (setup_handleVerifyTOTP now))
| on_copy_secret : setup_handler good (offered (at_step 3) setup_handleCopyTOTPSecret)
| on_phone v : setup_handler good (offered (at_step 3) (on_page (set_su_phone v)))
| on_mail v : setup_handler good (offered (at_step 3) (on_page (set_su_mail v)))
| on_back_to_phrase : setup_handler good (offered (at_rest 3) (on_page (set_su_step 2)))
| on_claim r : setup_handler good (offered (fun p => at_rest 3 p && is2FAValid p) (handleFinalizeActivation r)).

End Events.

(** ** What the wrapped key opens under *)

Section Wrapped.
Context `{CryptoLaws} `{Unicode} `{Env}.

Record setup_ok (r : SetupRandom) : Prop := {
  so_entropy : length (st_entropy r) = 32%nat /\ Forall is_byte (st_entropy r);
  so_sk : key_ok (st_sk r);
  so_root_nonce : nonce_ok (st_root_nonce r);
  so_salt : length (st_salt r) = 16%nat /\ Forall is_byte (st_salt r);
  so_nonce : nonce_ok (st_nonce r) }.

Definition payload (salt env root_wrapped : bytes) : list (jstr * json) :=
  [str_member "salt" (bytesToHex salt); str_member "envelope" (bytesToHex env);
   str_member "root_wrapped" (bytesToHex root_wrapped)].

Lemma payload_wf salt env rw :
  Forall is_byte salt -> Forall is_byte env -> Forall is_byte rw -> wf (JObj (payload salt env rw)) = true.
Proof.
  intros. cbn [wf forallb fst snd payload str_member].
  rewrite !bool_decide_eq_true_2 by (auto using hex_units || by_decide). done.
Qed.

Lemma hex_decode_32_key s k : hex_decode_32 s = Ok k -> key_ok k.
Proof.
  unfold hex_decode_32, exactly. destruct (hex_decode s) as [bs|] eqn:E; ok_bind; [|done].
  case_decide; [|done]. intros [= <-]. split; [done|]. by eapply hex_decode_bytes.
Qed.

Lemma wrap_out n rootHex skHex idHex out :
  nonce_ok n -> wasm_wrap_mailbox_key n rootHex skHex idHex = Ok out ->
  exists rw, out = bytesToHex rw /\ Forall is_byte rw /\ rw <> [].
Proof.
  intros [_ Hn]. unfold wasm_wrap_mailbox_key.
  destruct (hex_decode_32 rootHex) as [root|] eqn:Er; ok_bind; [|done].
  destruct (hex_decode_32 skHex) as [sk|] eqn:Es; ok_bind; [|done].
  destruct (decode_mailbox_id idHex) as [id|] eqn:Ei; ok_bind; [|done]. intros [= <-].
  eexists. split; [done|]. split; [|done]. apply hex_decode_32_key in Er as [_ ?], Es as [_ ?].
  apply envelope_bytes; [done..|]. unfold mailbox_key_aad. apply Forall_app. split; [|by_decide].
  unfold decode_mailbox_id in Ei. destruct (hex_decode idHex) as [bs|] eqn:Eh; [|done].
  cbn [mbind outcome_bind] in Ei. unfold exactly in Ei. case_decide; [|done]. injection Ei as <-.
  by eapply hex_decode_bytes.
Qed.

Lemma passphrase_out n pw salt sk out :
  Forall is_byte salt -> length salt = 16%nat -> Forall is_byte sk ->
  wasm_passphrase_wrap_key n pw (bytesToHex salt) (bytesToHex sk) = Ok out ->
  exists k, derive_recovery_principal_key pw salt = Ok k /\ key_ok k /\
    out = bytesToHex (aes_gcm_encrypt k n sk RECOVERY_PRINCIPAL_AAD).
Proof.
  intros Hs Hl Hsk. unfold wasm_passphrase_wrap_key. rewrite !hex_decode_encode by done. ok_bind.
  rewrite exactly_ok by done. ok_bind.
  destruct (derive_recovery_principal_key pw salt) as [k|] eqn:Ek; ok_bind; [|done]. intros [= <-].
  exists k. split; [done|]. split; [|done]. unfold derive_recovery_principal_key in Ek.
  destruct (_ <? _); [done|]. destruct (argon2id _ _) as [k'|] eqn:Ea; [|done]. injection Ek as <-.
  by eapply argon2id_key.
Qed.

(** Whatever was wrapped opens under the password it was wrapped with. *)
Lemma payload_opens r pw rootHex sk idHex w :
  setup_ok r -> key_ok sk -> wrapped_payload r pw rootHex (bytesToHex sk) idHex = Ok w ->
  autoUnwrapMailboxKey pw w = Ok sk.
Proof.
  intros Hr [Hskl Hsk] E. unfold wrapped_payload in E. rewrite cp_bytesToHex_eq in E.
  destruct (wasm_wrap_mailbox_key _ _ _ _) as [rwh|] eqn:Erw; [|done]. cbn [mbind outcome_bind] in E.
  destruct (wasm_passphrase_wrap_key _ _ _ _) as [envh|] eqn:Ee; [|done]. cbn [mbind outcome_bind] in E.
  injection E as <-.
  destruct (so_salt r Hr) as [Hl Hs], (so_nonce r Hr) as [Hnl Hn].
  apply wrap_out in Erw as (rw & -> & Hrw & _); [|apply Hr].
  apply passphrase_out in Ee as (k & Ek & [_ Hk] & ->); [|done..].
  set (env := aes_gcm_encrypt k (st_nonce r) sk RECOVERY_PRINCIPAL_AAD).
  assert (Henv : Forall is_byte env) by (apply envelope_bytes; [done..|by_decide]).
  destruct (hex_cons (st_salt r)) as (u1 & l1 & E1); [done|by destruct (st_salt r)|].
  destruct (hex_cons env) as (u2 & l2 & E2); [done..|].
  rewrite (auto_unwrap_object (payload (st_salt r) env rw) (st_salt r) pw env k);
    [|by apply payload_wf|unfold payload; by rewrite E1|unfold payload; by rewrite E2|done..].
  unfold env. rewrite aes_gcm_round_trip by done. ok_bind. by rewrite Hskl.
Qed.

(** And under the phrase, for the mailbox it was wrapped for. *)
Lemma payload_phrase_opens r pw mnemonic e sk box id w :
  setup_ok r -> key_ok sk -> box_id box id -> bip39_entropy (trim mnemonic) = Some e -> length e = 32%nat ->
  wrapped_payload r pw (bytesToHex (hkdf_root e)) (bytesToHex sk) (bytesToHex id) = Ok w ->
  unwrapMailboxKeyWithRecoveryPhrase mnemonic box w = Ok sk.
Proof.
  intros Hr Hsk Hid He Hel E. unfold wrapped_payload in E. rewrite cp_bytesToHex_eq in E.
  destruct (recover_root_ok _ e He Hel) as [Hroot Hkey]. pose proof Hid as (Hbox & Hidl & Hidb).
  pose proof Hsk as [Hskl Hskb]. pose proof Hkey as [Hkl Hkb].
  assert (Ew : wasm_wrap_mailbox_key (st_root_nonce r) (bytesToHex (hkdf_root e)) (bytesToHex sk) (bytesToHex id) =
    Ok (bytesToHex (wrap_mailbox_key (hkdf_root e) (st_root_nonce r) sk id))).
  { unfold wasm_wrap_mailbox_key. rewrite !hex_decode_32_encode by done. ok_bind. by rewrite decode_mailbox_id_encode. }
  rewrite Ew in E. cbn [mbind outcome_bind] in E.
  destruct (wasm_passphrase_wrap_key _ _ _ _) as [envh|] eqn:Ee; [|done]. cbn [mbind outcome_bind] in E.
  destruct (so_salt r Hr) as [Hl Hs].
  apply passphrase_out in Ee as (k & _ & [_ Hk] & ->); [|done..].
  set (rw := wrap_mailbox_key (hkdf_root e) (st_root_nonce r) sk id) in *.
  set (env := aes_gcm_encrypt k (st_nonce r) sk RECOVERY_PRINCIPAL_AAD) in *.
  assert (Hrw : Forall is_byte rw) by (apply wrap_key_bytes; [done|apply Hr|done..]).
  assert (Henv : Forall is_byte env) by (apply envelope_bytes; [done|apply Hr|done|by_decide]).
  set (v := JObj (payload (st_salt r) env rw)).
  assert (Hw : w = JSON_stringify v) by (injection E as <-; reflexivity). subst w. clear E.
  assert (Hwf : wf v = true) by by apply payload_wf.
  assert (Ev : JSON_stringify v =
    123 :: join [44] (map (fun m => Json.quote (fst m) ++ [58] ++ stringify (snd m)) (payload (st_salt r) env rw)) ++ [125])
    by done.
  unfold unwrapMailboxKeyWithRecoveryPhrase.
  replace (trim (JSON_stringify v)) with (JSON_stringify v) by (rewrite Ev; symmetry; by apply trim_ends).
  replace (truthy (JSON_stringify v)) with true by by rewrite Ev. cbn [negb].
  rewrite Hroot. ok_bind. rewrite Hbox. ok_bind.
  replace (starts_with (js "{") (JSON_stringify v)) with true by by rewrite Ev.
  rewrite json_round_trip by done.
  destruct (hex_cons rw) as (u & l & E1); [done..|].
  replace (get v (js "root_wrapped")) with (Some (JStr (bytesToHex rw))) by done.
  replace (json_truthy (JStr (bytesToHex rw))) with true by by rewrite E1. cbn [wasm_arg]. ok_bind.
  rewrite (wasm_unwrap_ok _ _ box) by done. ok_bind. unfold rw.
  rewrite unwrap_mailbox_key_ok by (done || apply Hr). rewrite decide_True by done. ok_bind.
  rewrite hex_round_trip by done. ok_bind. by rewrite Hskl.
Qed.

(** The key that is wrapped is 32 bytes, wherever it comes from. *)
Lemma setup_keys_key r token data pk skHex :
  setup_ok r -> setup_keys r token data = Ok (pk, skHex) -> exists sk, key_ok sk /\ skHex = bytesToHex sk.
Proof.
  intros Hr. unfold setup_keys. case_match.
  - destruct (so_sk r Hr) as [Hl Hb]. destruct (keypair_fields (st_sk r) Hb) as (kp & -> & Es & _). ok_bind.
    intros [= _ <-]. exists (st_sk r). rewrite Es. done.
  - case_match; [done|]. unfold wasm_aes_gcm_decrypt.
    destruct (hex_decode_32 token) as [key|]; ok_bind; [|done].
    destruct (hex_decode (str_field _ _)) as [env|]; ok_bind; [|done]. destruct (hex_decode []) as [aad|]; ok_bind; [|done].
    destruct (aes_gcm_decrypt key env aad) as [sk|] eqn:Ed; ok_bind; [|done].
    pose proof (aes_gcm_decrypt_bytes _ _ _ _ Ed) as Hb. unfold hex_encode.
    destruct (_ || _) eqn:El; [done|]. intros [= _ <-]. exists sk. split; [|done]. split; [|done].
    apply orb_false_iff in El as [_ El%negb_false_iff%Nat.eqb_eq]. rewrite length_bytesToHex in El by done. lia.
Qed.

End Wrapped.

(** ** Claimed keys, however the handlers interleave *)

Section Sealed.
Context `{HC : Crypto} `{!CryptoLaws} `{HU : Unicode} `{HE : Env}.

(** The page holds a mailbox key, and its wrapping opens to it under the password. *)
Definition sealed_keys (p : Setup) : Prop :=
  exists sk, key_ok sk /\ su_sk p = bytesToHex sk /\ autoUnwrapMailboxKey (su_password p) (su_wrapped p) = Ok sk.

Definition keys_ready (x : App * Setup) : Prop := 2 <= su_step (snd x) -> sealed_keys (snd x).

Definition keeps_ready (x y : App * Setup) : Prop := keys_ready x -> keys_ready y.

#[local] Instance keeps_ready_preorder : PreOrder keeps_ready.
Proof. unfold keeps_ready. split; [by intros x|]. intros x y z; auto. Qed.

(** Writes of anything but the step, the password and the keys. *)
Definition keys_alone (x y : App * Setup) : Prop :=
  su_step (snd y) = su_step (snd x) /\ su_password (snd y) = su_password (snd x) /\
  su_sk (snd y) = su_sk (snd x) /\ su_wrapped (snd y) = su_wrapped (snd x).

Lemma keys_alone_keeps x y : keys_alone x y -> keeps_ready x y.
Proof.
  intros (E1 & E2 & E3 & E4). unfold keeps_ready, keys_ready, sealed_keys. by rewrite E1, E2, E3, E4.
Qed.

Lemma moves_shared {A} x (p : prog App A) : moves keys_alone x (below p).
Proof. by apply moves_below. Qed.

(** Walk a program that leaves the keys alone. *)
Ltac alone :=
  repeat match goal with
  | |- moves _ _ (finally _ _) => apply moves_finally; [|intros ?]
  | |- moves _ _ (_ ≫= _) => apply moves_bind; [|intros ? ?]
  | |- moves _ _ (pcatch _ _) => apply moves_catch; [|intros ? ?]
  | |- moves _ _ (below _) => apply moves_shared
  | |- moves _ _ (on_page _) => by apply moves_on_page
  | |- moves _ _ (if _ then _ else _) => case_match
  | |- moves _ _ (match _ with _ => _ end) => case_match
  | |- moves _ _ (spawn _) => split; [|done]
  | |- _ => done
  end.

Lemma keeps_alone x (p : prog (App * Setup) unit) : moves keys_alone x p -> respects keeps_ready x p.
Proof. apply moves_respects; [apply _|apply keys_alone_keeps]. Qed.

Lemma keeps_skip x : respects keeps_ready x skip.
Proof. by intros Hx. Qed.

Lemma keeps_offered x shown h :
  (shown (snd x) = true -> respects keeps_ready x h) -> respects keeps_ready x (offered shown h).
Proof.
  intros Hh. unfold respects, offered. apply wp_bind. cbn [wp page gets].
  destruct (shown (snd x)); [by apply Hh|apply keeps_skip].
Qed.

(** A write that does not leave the page at a later step. *)
Lemma keeps_back x f : su_step (f (snd x)) < 2 -> respects keeps_ready x (on_page f).
Proof. intros Hs. unfold respects, on_page. cbn [wp modify]. intros _ Hr. unfold keys_ready in Hr. cbn [snd] in Hr. lia. Qed.

Lemma guards_alone {A} s0 x (p : prog (App * Setup) A) :
  moves keys_alone x p -> keeps_ready s0 x -> guards keeps_ready s0 x p.
Proof. apply guards_moves; [apply _|apply keys_alone_keeps]. Qed.

Lemma make_keys_seals r data s0 x :
  setup_ok r -> keeps_ready s0 x -> guards keeps_ready s0 x (make_keys r data).
Proof.
  intros Hr H0. unfold make_keys. apply guards_lift; [done|]. intros boxIdHex _.
  apply guards_lift; [done|]. intros phrase _. apply guards_bind; [by apply guards_alone; [alone|]|].
  clear s0 x H0. intros s0 x _ H0. apply guards_lift; [done|]. intros rootHex _. apply guards_page.
  apply guards_lift; [done|]. intros [pk skHex] Ek.
  destruct (setup_keys_key _ _ _ _ _ Hr Ek) as (sk & Hsk & ->). apply wp_bind. cbn [wp on_page modify].
  rewrite bind_lift. destruct (wrapped_payload _ _ _ _ _) as [w|e] eqn:Ew.
  - cbn [wp on_page modify]. intros _ _. exists sk. split; [done|]. split; [done|].
    cbn [snd su_password su_wrapped set_su_step set_su_sk set_su_wrapped set_su_pk]. by eapply payload_opens.
  - cbn [wp]. etrans; [done|by apply keys_alone_keeps].
Qed.

Lemma proceed_keeps r x : setup_ok r -> respects keeps_ready x (handleProceedToKeys r).
Proof.
  intros Hr. apply guards_respects. unfold handleProceedToKeys. apply guards_page.
  destruct (negb _); [apply keeps_skip|]. apply guards_bind; [apply guards_alone; [alone|by intros ?]|].
  intros s0 y _ H0. apply guards_finally; [|intros; apply guards_alone; [alone|done]].
  apply guards_catch; [|intros; apply guards_alone; [alone|done]].
  apply guards_page. destruct (su_invite _) as [data|]; [|exact H0].
  apply guards_wait; [done|]. intros z _. apply make_keys_seals; [done|by intros ?].
Qed.

(** Moving among the later steps. *)
Lemma keeps_on x f :
  2 <= su_step (snd x) -> keys_alone x (fst x, set_su_step (su_step (snd x)) (f (snd x))) ->
  respects keeps_ready x (on_page f).
Proof.
  intros Hs (_ & E2 & E3 & E4). unfold respects, on_page. cbn [wp modify]. intros Hr _.
  unfold keys_ready, sealed_keys in *. cbn in E2, E3, E4. cbn [snd]. rewrite E2, E3, E4. by apply Hr.
Qed.

Lemma to_2fa_keeps bs x : 2 <= su_step (snd x) -> respects keeps_ready x (handleProceedTo2FA bs).
Proof.
  intros Hs. unfold respects, handleProceedTo2FA. apply wp_bind. cbn [wp page gets].
  destruct (negb (su_saved _)); [apply keeps_skip|]. apply wp_bind.
  destruct (negb (truthy _)); cbn [wp on_page modify skip]; intros Hr _; by apply Hr.
Qed.

Lemma setup_keeps h x : setup_handler setup_ok h -> respects keeps_ready x h.
Proof.
  intros []; try (apply keeps_offered; intros Hs).
  all: try (unfold at_rest, at_step in Hs; repeat (apply andb_true_iff in Hs as [Hs ?]); apply Z.eqb_eq in Hs).
  all: first [by apply keeps_back; cbn; lia | by apply proceed_keeps | by apply to_2fa_keeps; lia
             | by apply keeps_on; [lia|] | apply keeps_alone].
  all: unfold setup_onMount, setup_handleCopyMnemonic, setup_handleVerifyTOTP, setup_handleCopyTOTPSecret,
      handleFinalizeActivation, claim, store_keys, seal_phrase; alone.
Qed.

Lemma claim_body_fields p pk :
  str_field (claim_body p pk) "password" = su_password p /\
  str_field (claim_body p pk) "wrapped_sk_user" = su_wrapped p.
Proof. unfold claim_body. by destruct (jeqb _ (js "totp")), (jeqb _ (js "phone")), (jeqb _ (js "email")). Qed.

(** C13.  From a fresh set-up page, however its handlers interleave with each other and with
    the replies, what the page would post to claim the account at any moment after the
    first step opens: the password it carries unwraps the mailbox key it carries, which is
    the key the page will keep. *)
Theorem claimed_key_opens c c' data :
  tasks c = [] -> su_step (snd (state c)) < 2 -> reachable (setup_handler setup_ok) c c' ->
  2 <= su_step (snd (state c')) ->
  let p := snd (state c') in
  let body := claim_body p (claimed_pk p data) in
  exists sk, key_ok sk /\ su_sk p = bytesToHex sk /\
    autoUnwrapMailboxKey (str_field body "password") (str_field body "wrapped_sk_user") = Ok sk.
Proof.
  intros E H0 Hr H2 p body.
  destruct (rely_guarantee keeps_ready (setup_handler setup_ok) c c') as [HR _]; [| |exact Hr|].
  - intros h x. apply setup_keeps.
  - by rewrite E.
  - destruct (HR ltac:(intros Hc; lia) H2) as (sk & Hk & Hs & Ho). exists sk. split; [done|]. split; [done|].
    subst body. destruct (claim_body_fields p (claimed_pk p data)) as [-> ->]. exact Ho.
Qed.

End Sealed.

(** ** Setting up, step by step *)

Section Completes.
Context `{HC : Crypto} `{!CryptoLaws} `{HU : Unicode} `{HE : Env}.

(** What the first step leaves in the page. *)
Definition keys_made (r : SetupRandom) (pk skHex w : jstr) (p : Setup) : Setup :=
  set_su_busy false (set_su_step 2 (set_su_sk skHex (set_su_wrapped w (set_su_pk pk
    (set_su_mnemonic (bip39_phrase (st_entropy r)) (set_su_busy true (set_su_submit_error None p))))))).

Lemma phrase_root r :
  setup_ok r -> bip39_entropy (bip39_phrase (st_entropy r)) = Some (st_entropy r) /\
    wasm_recover_root_secret (bip39_phrase (st_entropy r)) = Ok (bytesToHex (hkdf_root (st_entropy r))).
Proof.
  intros Hr. destruct (so_entropy r Hr) as [Hl Hb]. split; [by apply bip39_correct|]. by apply phrase_gives_root.
Qed.

Lemma wrapped_payload_ok r pw root sk id k :
  setup_ok r -> key_ok root -> key_ok sk -> length id = 16%nat -> Forall is_byte id ->
  derive_recovery_principal_key pw (st_salt r) = Ok k ->
  exists w, wrapped_payload r pw (bytesToHex root) (bytesToHex sk) (bytesToHex id) = Ok w.
Proof.
  intros Hr [Hrl Hrb] [Hsl Hsb] Hil Hib Ek. destruct (so_salt r Hr) as [Hl Hs]. unfold wrapped_payload.
  unfold wasm_wrap_mailbox_key. rewrite !hex_decode_32_encode by done. ok_bind.
  rewrite decode_mailbox_id_encode by done. ok_bind. rewrite cp_bytesToHex_eq.
  rewrite (passphrase_wrap_ok pw (st_salt r) _ sk k) by done. ok_bind. by eexists.
Qed.

(** The password is long enough for the crypto core. *)
Lemma valid_password p k salt :
  isPasswordValid p = true -> argon2id (TextEncoder_encode (su_password p)) salt = Some k ->
  derive_recovery_principal_key (su_password p) salt = Ok k.
Proof.
  intros [Hl _]%andb_true_iff. apply Nat.leb_le in Hl. pose proof (length_TextEncoder (su_password p)).
  apply derive_key_ok. lia.
Qed.

(** The first step: no request, the page moves on, and what it wrapped opens under the
    password and under the recovery phrase. *)
Lemma run_proceed r w t s p data id pk sk k :
  setup_ok r -> isPasswordValid p = true -> su_invite p = Some data ->
  box_id (str_field data "mailbox_id") id ->
  setup_keys r (su_token p) data = Ok (pk, bytesToHex sk) -> key_ok sk ->
  argon2id (TextEncoder_encode (su_password p)) (st_salt r) = Some k ->
  exists wrapped,
    run w t (s, p) (handleProceedToKeys r) = (Ok tt, (s, keys_made r pk (bytesToHex sk) wrapped p), t) /\
    autoUnwrapMailboxKey (su_password p) wrapped = Ok sk /\
    unwrapMailboxKeyWithRecoveryPhrase (bip39_phrase (st_entropy r)) (str_field data "mailbox_id") wrapped = Ok sk.
Proof.
  intros Hr Hv Hi Hid Ek Hsk Ea. pose proof Hid as (Hbox & Hil & Hib).
  destruct (phrase_root r Hr) as [He Hroot]. destruct (so_entropy r Hr) as [Hel Heb].
  pose proof (valid_password p k _ Hv Ea) as Hd.
  destruct (wrapped_payload_ok r (su_password p) (hkdf_root (st_entropy r)) sk id k) as [wr Ew]; try done;
    [apply hkdf_root_key|].
  exists wr. split; [|split; [by eapply payload_opens|]].
  - unfold handleProceedToKeys. rewrite run_page, Hv. cbn [negb]. rewrite run_bind, run_on_page, run_finally, run_catch.
    rewrite run_page. change (su_invite _) with (su_invite p). rewrite Hi, run_bind. cbn [wait run].
    unfold make_keys. rewrite Hbox, !bind_lift. cbn [wasm_generate_mnemonic]. rewrite run_bind, run_on_page.
    rewrite Hroot, bind_lift, run_page. set (p1 := set_su_mnemonic _ _).
    change (su_token p1) with (su_token p). change (su_password p1) with (su_password p).
    rewrite Ek, bind_lift, run_bind, run_on_page. by rewrite Ew, bind_lift.
  - eapply payload_phrase_opens; try done.
    by rewrite (proj1 (phrase_text _ (conj Hel Heb))).
Qed.

(** *** Claiming *)

Definition claim_request (s : App) (body : json) : request :=
  api_fetch s (js "/v1/auth/invitations/claim")
    {| i_method := Some (js "POST"); i_headers := []; i_credentials := None; i_body := stringified body |}.

Definition settings_request (s : App) (boxId : jstr) (settings : json) : request :=
  api_fetch s (mailbox_path boxId "/settings")
    {| i_method := Some (js "PUT"); i_headers := []; i_credentials := None; i_body := stringified settings |}.

(** The stores once the account is claimed. *)
Definition claimed_app (data : json) (token skHex sKeyHex : jstr) (s : App) : App :=
  let i := str_field data "mailbox_id" in
  let s := set_item (skey_item i) sKeyHex (set_item (sk_item i) skHex s) in
  let s := if truthy token then set_item token_item token s else s in
  store_account (new_account data token skHex sKeyHex) s.

Definition sealed_settings (wrapped saltHex : jstr) : json :=
  JObj [str_member "recovery_phrase_wrapped" wrapped; str_member "recovery_phrase_salt" saltHex].

Lemma search_key_ok sk : key_ok sk -> wasm_derive_search_key (bytesToHex sk) = Ok (bytesToHex (hkdf_search sk)).
Proof. intros [Hl Hb]. unfold wasm_derive_search_key. by rewrite hex_decode_32_encode. Qed.

(** Claiming with a page whose keys are made. *)
Lemma run_claim r w t s p data pk sk k v :
  su_invite p = Some data -> su_saved p = true -> is2FAValid p = true ->
  su_sk p = bytesToHex sk -> key_ok sk -> claimed_pk p data = pk -> truthy pk = true ->
  truthy (su_wrapped p) = true -> isPasswordValid p = true ->
  Forall is_byte (cl_salt r) -> length (cl_salt r) = 16%nat ->
  argon2id (TextEncoder_encode (su_password p)) (cl_salt r) = Some k ->
  Forall is_unit (su_mnemonic p) ->
  api_reply (respond w t (claim_request s (claim_body p pk))) = Ok (Some v) -> v <> JNull ->
  let phrase := TextEncoder_encode (su_mnemonic p) in
  let s' := claimed_app data (str_field v "token") (bytesToHex sk) (bytesToHex (hkdf_search sk)) s in
  exists p',
    run w t (s, p) (handleFinalizeActivation r) = (Ok tt, (s', p'),
      ask (settings_request s' (str_field data "mailbox_id")
             (sealed_settings (bytesToHex (aes_gcm_encrypt k (cl_nonce r) phrase RECOVERY_PRINCIPAL_AAD))
                (bytesToHex (cl_salt r))))
        (ask (claim_request s (claim_body p pk)) t)) /\
    su_location p' = Some (js "/").
Proof.
  intros Hi Hsv H2 Hsk Hk Hpk Htp Htw Hv Hsb Hsl Ea Hu Er Hn phrase s'.
  pose proof (valid_password p k _ Hv Ea) as Hd.
  destruct (hex_cons sk) as (c & l & Ec); [apply Hk|destruct Hk, sk; done|].
  unfold handleFinalizeActivation. rewrite run_page, Hsv, H2. cbn [negb]. rewrite run_bind, run_on_page, run_catch, Hi.
  unfold claim. rewrite run_page. set (p1 := set_su_submit_error None _).
  change (claimed_pk p1 data) with (claimed_pk p data). change (claim_body p1) with (claim_body p).
  change (su_wrapped p1) with (su_wrapped p). rewrite Hpk, Htp, Htw. cbn [negb orb].
  rewrite run_bind, run_below. unfold claimInvitation, send. rewrite run_apiRequest. cbv zeta.
  fold (claim_request s (claim_body p pk)). rewrite Er, run_page. change (su_sk p1) with (su_sk p). rewrite Hsk.
  unfold store_keys. replace (truthy (bytesToHex sk)) with true by by rewrite Ec.
  rewrite run_bind, run_bind. cbn [wait run]. rewrite search_key_ok, bind_lift, run_bind, run_below by done.
  cbn [modify run mret prog_ret].
  replace (reply_object (Some v)) with (Ok v) by by destruct v. rewrite bind_lift, run_bind, run_below.
  cbn [modify run]. rewrite run_bind, run_below. cbn [modify run]. fold s'. rewrite run_bind, run_catch.
  unfold seal_phrase. rewrite run_bind. cbn [wait run]. rewrite run_page.
  change (su_mnemonic p1) with (su_mnemonic p). change (su_password p1) with (su_password p). cbv zeta.
  rewrite !cp_bytesToHex_eq. fold phrase.
  rewrite (passphrase_wrap_ok (su_password p) (cl_salt r) (cl_nonce r) phrase k) by (done || by apply TextEncoder_bytes).
  rewrite bind_lift, run_bind, run_below. unfold updateMailboxSettings, send. rewrite run_apiRequest. cbv zeta.
  clear Er. destruct (api_reply _); eexists; (split; [reflexivity|reflexivity]).
Qed.

End Completes.

(** ** Concrete runs *)

#[local] Existing Instances toy_crypto toy_laws ascii_unicode sample_env.

Definition setup_draws : SetupRandom := {|
  st_entropy := key1; st_sk := key0; st_root_nonce := nonce0; st_salt := salt0; st_nonce := nonce0 |}.

Lemma setup_draws_ok : setup_ok setup_draws.
Proof. split; first [exact key0_ok | exact nonce0_ok | by split; [|by_decide]]. Defined.

Definition claim_draws : ClaimRandom := {| cl_salt := salt0; cl_nonce := nonce0 |}.

Definition private_invite : json := JObj [(js "valid", JBool true); str_member "email" (js "ada@b.org");
  str_member "mailbox_id" box0; str_member "privacy_mode" (js "private")].

Definition setup0 : Setup := {|
  su_loading := false; su_error := None; su_invite := Some private_invite; su_token := js "t0"; su_step := 1;
  su_password := js "correct horse battery"; su_confirm := js "correct horse battery"; su_mnemonic := [];
  su_copied := false; su_saved := false; su_busy := false; su_submit_error := None; su_method := js "totp";
  su_secret := []; su_code := []; su_verified := false; su_verifying := false; su_totp_error := None;
  su_secret_copied := false; su_phone := []; su_mail := []; su_pk := []; su_wrapped := []; su_sk := [];
  su_location := None |}.

Definition filled : config (App * Setup) := {| state := (sample_app, setup0); tasks := [] |}.

Definition proceed : prog (App * Setup) unit :=
  offered (fun p => at_rest 1 p && isPasswordValid p) (handleProceedToKeys setup_draws).

Definition clicked : config (App * Setup) := fire true proceed filled.

Definition stored : reply := json_reply JNull.

Lemma claimed_key_opens_witness :
  exists c' : config (App * Setup), 2 <= su_step (snd (state c')) /\
    let p := snd (state c') in
    let body := claim_body p (claimed_pk p private_invite) in
    exists sk, key_ok sk /\ su_sk p = bytesToHex sk /\
      autoUnwrapMailboxKey (str_field body "password") (str_field body "wrapped_sk_user") = Ok sk.
Proof.
  exists (wake 0 true (fun _ => stored) clicked). split; [vm_compute; discriminate|].
  apply (claimed_key_opens filled _ private_invite); [reflexivity|reflexivity| |vm_compute; discriminate].
  apply (fire_reachable _ true proceed filled); [apply on_proceed, setup_draws_ok|].
  apply (wake_reachable _ 0 true (fun _ => stored)), rtc_refl.
Defined.

(** The whole page: the phrase is confirmed, six digits typed but never verified. *)
Definition claims : world := {| respond _ _ := json_reply (JObj [str_member "token" (js "s1")]); answer _ _ := true |}.

(** Any six digits finish the set-up: the account is claimed with an authenticator secret
    the user was never shown to have. *)
Definition hurried : Setup * trace :=
  let '(_, s1, t1) := run claims no_trace (sample_app, setup0) (handleProceedToKeys setup_draws) in
  let '(_, s2, t2) := run claims t1 (fst s1, set_su_saved true (snd s1)) (handleProceedTo2FA key0) in
  let '(_, s3, t3) := run claims t2 (fst s2, set_su_code (js "000000") (snd s2)) (handleFinalizeActivation claim_draws) in
  (snd s3, t3).

Example unverified_code_is_enough :
  (su_verified (fst hurried), su_location (fst hurried), length (sent (snd hurried))) =
  (false, Some (js "/"), 2%nat).
Proof. vm_compute. reflexivity. Qed.
