(* ===== verification/AutoReply.v ===== *)
(** * The automatic reply

    routes/settings/AutoReplyTab.tsx: the form of the vacation responder, its texts, its
    lists of senders and its window of time.  The tab's signals stand beside the
    application's state; [mailbox] is the id of [props.mailbox]. *)

From S2P Require Import Prelude JsString Json Calendar Client Page Api AppState MailView Reading MailboxData SignIn.

Record AutoReply := {
  ar_loading : bool;
  ar_saving : bool;
  ar_saved : bool;
  ar_error : option jstr;
  ar_active : bool;
  ar_subject : jstr;
  ar_body : jstr;
  ar_reply_all : bool;
  ar_start : jstr;
  ar_end : jstr;
  ar_allowed : list jstr;
  ar_allowed_input : jstr;
  ar_blocked : list jstr;
  ar_blocked_input : jstr }.

Definition set_ar_loading (v : bool) (x : AutoReply) : AutoReply := {|
  ar_loading := v; ar_saving := ar_saving x; ar_saved := ar_saved x; ar_error := ar_error x; ar_active :=
    ar_active x; ar_subject := ar_subject x; ar_body := ar_body x; ar_reply_all := ar_reply_all x; ar_start :=
    ar_start x; ar_end := ar_end x; ar_allowed := ar_allowed x; ar_allowed_input := ar_allowed_input x;
    ar_blocked := ar_blocked x; ar_blocked_input := ar_blocked_input x |}.
Definition set_ar_saving (v : bool) (x : AutoReply) : AutoReply := {|
  ar_loading := ar_loading x; ar_saving := v; ar_saved := ar_saved x; ar_error := ar_error x; ar_active :=
    ar_active x; ar_subject := ar_subject x; ar_body := ar_body x; ar_reply_all := ar_reply_all x; ar_start :=
    ar_start x; ar_end := ar_end x; ar_allowed := ar_allowed x; ar_allowed_input := ar_allowed_input x;
    ar_blocked := ar_blocked x; ar_blocked_input := ar_blocked_input x |}.
Definition set_ar_saved (v : bool) (x : AutoReply) : AutoReply := {|
  ar_loading := ar_loading x; ar_saving := ar_saving x; ar_saved := v; ar_error := ar_error x; ar_active :=
    ar_active x; ar_subject := ar_subject x; ar_body := ar_body x; ar_reply_all := ar_reply_all x; ar_start :=
    ar_start x; ar_end := ar_end x; ar_allowed := ar_allowed x; ar_allowed_input := ar_allowed_input x;
    ar_blocked := ar_blocked x; ar_blocked_input := ar_blocked_input x |}.
Definition set_ar_error (v : option jstr) (x : AutoReply) : AutoReply := {|
  ar_loading := ar_loading x; ar_saving := ar_saving x; ar_saved := ar_saved x; ar_error := v; ar_active :=
    ar_active x; ar_subject := ar_subject x; ar_body := ar_body x; ar_reply_all := ar_reply_all x; ar_start :=
    ar_start x; ar_end := ar_end x; ar_allowed := ar_allowed x; ar_allowed_input := ar_allowed_input x;
    ar_blocked := ar_blocked x; ar_blocked_input := ar_blocked_input x |}.
Definition set_ar_active (v : bool) (x : AutoReply) : AutoReply := {|
  ar_loading := ar_loading x; ar_saving := ar_saving x; ar_saved := ar_saved x; ar_error := ar_error x;
    ar_active := v; ar_subject := ar_subject x; ar_body := ar_body x; ar_reply_all := ar_reply_all x; ar_start
    := ar_start x; ar_end := ar_end x; ar_allowed := ar_allowed x; ar_allowed_input := ar_allowed_input x;
    ar_blocked := ar_blocked x; ar_blocked_input := ar_blocked_input x |}.
Definition set_ar_subject (v : jstr) (x : AutoReply) : AutoReply := {|
  ar_loading := ar_loading x; ar_saving := ar_saving x; ar_saved := ar_saved x; ar_error := ar_error x;
    ar_active := ar_active x; ar_subject := v; ar_body := ar_body x; ar_reply_all := ar_reply_all x; ar_start :=
    ar_start x; ar_end := ar_end x; ar_allowed := ar_allowed x; ar_allowed_input := ar_allowed_input x;
    ar_blocked := ar_blocked x; ar_blocked_input := ar_blocked_input x |}.
Definition set_ar_body (v : jstr) (x : AutoReply) : AutoReply := {|
  ar_loading := ar_loading x; ar_saving := ar_saving x; ar_saved := ar_saved x; ar_error := ar_error x;
    ar_active := ar_active x; ar_subject := ar_subject x; ar_body := v; ar_reply_all := ar_reply_all x; ar_start
    := ar_start x; ar_end := ar_end x; ar_allowed := ar_allowed x; ar_allowed_input := ar_allowed_input x;
    ar_blocked := ar_blocked x; ar_blocked_input := ar_blocked_input x |}.
Definition set_ar_reply_all (v : bool) (x : AutoReply) : AutoReply := {|
  ar_loading := ar_loading x; ar_saving := ar_saving x; ar_saved := ar_saved x; ar_error := ar_error x;
    ar_active := ar_active x; ar_subject := ar_subject x; ar_body := ar_body x; ar_reply_all := v; ar_start :=
    ar_start x; ar_end := ar_end x; ar_allowed := ar_allowed x; ar_allowed_input := ar_allowed_input x;
    ar_blocked := ar_blocked x; ar_blocked_input := ar_blocked_input x |}.
Definition set_ar_start (v : jstr) (x : AutoReply) : AutoReply := {|
  ar_loading := ar_loading x; ar_saving := ar_saving x; ar_saved := ar_saved x; ar_error := ar_error x;
    ar_active := ar_active x; ar_subject := ar_subject x; ar_body := ar_body x; ar_reply_all := ar_reply_all x;
    ar_start := v; ar_end := ar_end x; ar_allowed := ar_allowed x; ar_allowed_input := ar_allowed_input x;
    ar_blocked := ar_blocked x; ar_blocked_input := ar_blocked_input x |}.
Definition set_ar_end (v : jstr) (x : AutoReply) : AutoReply := {|
  ar_loading := ar_loading x; ar_saving := ar_saving x; ar_saved := ar_saved x; ar_error := ar_error x;
    ar_active := ar_active x; ar_subject := ar_subject x; ar_body := ar_body x; ar_reply_all := ar_reply_all x;
    ar_start := ar_start x; ar_end := v; ar_allowed := ar_allowed x; ar_allowed_input := ar_allowed_input x;
    ar_blocked := ar_blocked x; ar_blocked_input := ar_blocked_input x |}.
Definition set_ar_allowed (v : list jstr) (x : AutoReply) : AutoReply := {|
  ar_loading := ar_loading x; ar_saving := ar_saving x; ar_saved := ar_saved x; ar_error := ar_error x;
    ar_active := ar_active x; ar_subject := ar_subject x; ar_body := ar_body x; ar_reply_all := ar_reply_all x;
    ar_start := ar_start x; ar_end := ar_end x; ar_allowed := v; ar_allowed_input := ar_allowed_input x;
    ar_blocked := ar_blocked x; ar_blocked_input := ar_blocked_input x |}.
Definition set_ar_allowed_input (v : jstr) (x : AutoReply) : AutoReply := {|
  ar_loading := ar_loading x; ar_saving := ar_saving x; ar_saved := ar_saved x; ar_error := ar_error x;
    ar_active := ar_active x; ar_subject := ar_subject x; ar_body := ar_body x; ar_reply_all := ar_reply_all x;
    ar_start := ar_start x; ar_end := ar_end x; ar_allowed := ar_allowed x; ar_allowed_input := v; ar_blocked :=
    ar_blocked x; ar_blocked_input := ar_blocked_input x |}.
Definition set_ar_blocked (v : list jstr) (x : AutoReply) : AutoReply := {|
  ar_loading := ar_loading x; ar_saving := ar_saving x; ar_saved := ar_saved x; ar_error := ar_error x;
    ar_active := ar_active x; ar_subject := ar_subject x; ar_body := ar_body x; ar_reply_all := ar_reply_all x;
    ar_start := ar_start x; ar_end := ar_end x; ar_allowed := ar_allowed x; ar_allowed_input := ar_allowed_input
    x; ar_blocked := v; ar_blocked_input := ar_blocked_input x |}.
Definition set_ar_blocked_input (v : jstr) (x : AutoReply) : AutoReply := {|
  ar_loading := ar_loading x; ar_saving := ar_saving x; ar_saved := ar_saved x; ar_error := ar_error x;
    ar_active := ar_active x; ar_subject := ar_subject x; ar_body := ar_body x; ar_reply_all := ar_reply_all x;
    ar_start := ar_start x; ar_end := ar_end x; ar_allowed := ar_allowed x; ar_allowed_input := ar_allowed_input
    x; ar_blocked := ar_blocked x; ar_blocked_input := v |}.

Definition default_body : jstr :=
  js "Hello," ++ [10; 10] ++
  js "Thank you for reaching out. I am currently away and have limited access to email. I will respond to your message upon my return."
  ++ [10; 10] ++ js "Best regards".

Definition new_auto_reply : AutoReply := {|
  ar_loading := true; ar_saving := false; ar_saved := false; ar_error := None; ar_active := false;
  ar_subject := js "Out of Office: {subject}"; ar_body := default_body; ar_reply_all := false; ar_start := [];
  ar_end := []; ar_allowed := []; ar_allowed_input := []; ar_blocked := []; ar_blocked_input := [] |}.

Section Tab.
Context `{Zone} `{Env}.
Variable mailbox : jstr.

(** ** Loading *)

Definition show_rule (v : json) (p : AutoReply) : AutoReply :=
  let p := set_ar_active (bool_field v "is_active") p in
  let p := if truthy (str_field v "subject_template") then set_ar_subject (str_field v "subject_template") p else p in
  let p := if truthy (str_field v "body_template") then set_ar_body (str_field v "body_template") p else p in
  set_ar_blocked (strings_field v "blocked_senders")
    (set_ar_allowed (strings_field v "allowed_senders") (set_ar_reply_all (bool_field v "reply_all") p)).

Lemma show_rule_loading b v p : show_rule v (set_ar_loading b p) = set_ar_loading b (show_rule v p).
Proof. unfold show_rule. by do 2 destruct (truthy _). Qed.

(** A time of the rule, in the form of its field: the first sixteen characters of the UTC text. *)
Definition show_time (text : jstr) (setField : jstr -> AutoReply -> AutoReply) : prog (App * AutoReply) unit :=
  if truthy text then
    t ← lift (toISOString text);
    on_page (setField (take 16 t))
  else skip.

Definition auto_reply_onMount : prog (App * AutoReply) unit :=
  finally
    (pcatch
       (_ ← on_page (set_ar_loading true);
        res ← below (fetchAutoReplyRule mailbox);
        rule ← lift (reply_object res);
        _ ← on_page (show_rule rule);
        _ ← show_time (str_field rule "start_time") set_ar_start;
        show_time (str_field rule "end_time") set_ar_end)
       (fun _ => skip))
    (on_page (set_ar_loading false)).

(** ** The lists of senders *)

Definition add_sender (val : jstr) (l : list jstr) : list jstr := l ++ [val].
Definition without_sender (sender : jstr) (l : list jstr) : list jstr := List.filter (fun s => negb (jeqb s sender)) l.
Definition is_new (val : jstr) (l : list jstr) : bool := truthy val && negb (existsb (jeqb val) l).

Definition addAllowedSender (p : AutoReply) : AutoReply :=
  let val := trim (ar_allowed_input p) in
  if is_new val (ar_allowed p) then set_ar_allowed_input [] (set_ar_allowed (add_sender val (ar_allowed p)) p) else p.

Definition removeAllowedSender (sender : jstr) (p : AutoReply) : AutoReply :=
  set_ar_allowed (without_sender sender (ar_allowed p)) p.

Definition addBlockedSender (p : AutoReply) : AutoReply :=
  let val := trim (ar_blocked_input p) in
  if is_new val (ar_blocked p) then set_ar_blocked_input [] (set_ar_blocked (add_sender val (ar_blocked p)) p) else p.

Definition removeBlockedSender (sender : jstr) (p : AutoReply) : AutoReply :=
  set_ar_blocked (without_sender sender (ar_blocked p)) p.

(** ** Saving *)

(** A field's time as it is posted: the text is read as a local time. *)
Definition posted_time (field : jstr) : outcome (option jstr) :=
  if truthy field then Some <$> toISOString field else Ok None.

Definition time_member (k : string) (t : option jstr) : list (jstr * json) :=
  match t with Some t => [str_member k t] | None => [] end.

Definition rule_payload (p : AutoReply) (start finish : option jstr) : json :=
  JObj ([(js "is_active", JBool (ar_active p)); str_member "subject_template" (trim (ar_subject p));
         str_member "body_template" (trim (ar_body p)); (js "reply_all", JBool (ar_reply_all p));
         (js "allowed_senders", JArr (map JStr (ar_allowed p))); (js "blocked_senders", JArr (map JStr (ar_blocked p)))]
        ++ time_member "start_time" start ++ time_member "end_time" finish).

Definition auto_reply_save : prog (App * AutoReply) unit :=
  _ ← on_page (fun p => set_ar_error None (set_ar_saving true p));
  finally
    (pcatch
       (p ← page (G:=AutoReply);
        start ← lift (posted_time (ar_start p));
        finish ← lift (posted_time (ar_end p));
        _ ← below (updateAutoReplyRule mailbox (rule_payload p start finish));
        _ ← on_page (set_ar_saved true);
        spawn (_ ← wait; on_page (set_ar_saved false)))
       (fun e => on_page (set_ar_error (Some (or_default (message e) (js "Failed to save auto-reply settings."))))))
    (on_page (set_ar_saving false)).

End Tab.

(** ** What saving posts *)

Section Window.
Context `{HZ : Zone} `{HE : Env}.
Variable mailbox : jstr.

Definition rule_request (s : App) : request := api_fetch s (mailbox_path mailbox "/auto-reply") no_init.

Definition save_request (rule : json) (s : App) : request :=
  api_fetch s (mailbox_path mailbox "/auto-reply")
    {| i_method := Some (js "PUT"); i_headers := []; i_credentials := None; i_body := stringified rule |}.

(** A rule whose times, where it has them, are whole minutes of a year of four digits,
    also as local times. *)
Definition time_ok (t : Z) : Prop :=
  four_digit t /\ t mod 60000 = 0 /\ four_digit (from_local t) /\ time_clip (from_local t) = Some (from_local t).

Definition times_ok (v : json) (k : string) (t : option Z) : Prop :=
  match t with
  | Some t => truthy (str_field v k) = true /\ new_date (str_field v k) = Some t /\ time_ok t
  | None => truthy (str_field v k) = false
  end.

(** The field holds the UTC text of the time. *)
Definition field_of (t : option Z) : jstr := match t with Some t => minute_text t | None => [] end.

(** ... which is posted as if it were local. *)
Definition moved (t : option Z) : option jstr := (fun t => iso_text (from_local t)) <$> t.

Lemma minute_text_truthy t : four_digit t -> truthy (minute_text t) = true.
Proof.
  intros Hy. rewrite <- (first_sixteen t Hy). destruct (take 16 (iso_text t)) eqn:E; [|done].
  pose proof (parse_iso_text t Hy) as P. by destruct (iso_text t) eqn:E2.
Qed.

Lemma posted_field t :
  match t with Some t => time_ok t | None => True end -> posted_time (field_of t) = Ok (moved t).
Proof.
  destruct t as [t|]; [|done]. intros (Hy & Hm & _ & Hc). unfold posted_time, toISOString, new_date. cbn [field_of].
  by rewrite minute_text_truthy, parse_minute_text, Hm, Z.sub_0_r, Hc by done.
Qed.

Lemma run_show_time w tr (s : App) p v k t setField :
  times_ok v k t ->
  run w tr (s, p) (show_time (str_field v k) setField) = (Ok tt, (s, match t with Some _ => setField (field_of t) p | None => p end), tr).
Proof.
  unfold show_time. destruct t as [t|]; cbn [times_ok field_of].
  - intros (Ht & Ed & Hy & _). rewrite Ht. unfold toISOString. rewrite Ed, bind_lift, run_on_page.
    by rewrite first_sixteen.
  - intros Ht. by rewrite Ht.
Qed.

(** The server reads a posted time as the moved one. *)
Definition reads_as (posted : option jstr) (t : option Z) : Prop := posted ≫= new_date = from_local <$> t.

Lemma moved_reads t : match t with Some t => time_ok t | None => True end -> reads_as (moved t) t.
Proof.
  destruct t as [t|]; [|done]. intros (_ & _ & Hy & Hc). unfold reads_as, moved, new_date. cbn [fmap option_fmap option_map mbind option_bind].
  by rewrite parse_iso_text.
Qed.

Lemma times_time_ok v k t : times_ok v k t -> match t with Some t => time_ok t | None => True end.
Proof. destruct t; [by intros (_ & _ & ?)|done]. Qed.

(** What saving an unchanged form should post of the rule [v]: its switches, its senders,
    its texts trimmed - the tab's own where the rule has none - and its window moved. *)
Definition saved_rule (v : json) (start finish : option Z) : json :=
  JObj ([(js "is_active", JBool (bool_field v "is_active"));
         (js "subject_template",
          JStr (trim (if truthy (str_field v "subject_template") then str_field v "subject_template"
                      else js "Out of Office: {subject}")));
         (js "body_template",
          JStr (trim (if truthy (str_field v "body_template") then str_field v "body_template" else default_body)));
         (js "reply_all", JBool (bool_field v "reply_all"));
         (js "allowed_senders", JArr (map JStr (strings_field v "allowed_senders")));
         (js "blocked_senders", JArr (map JStr (strings_field v "blocked_senders")))] ++
        match moved start with Some text => [(js "start_time", JStr text)] | None => [] end ++
        match moved finish with Some text => [(js "end_time", JStr text)] | None => [] end).

Lemma payload_of_shown v start finish :
  rule_payload (show_rule v new_auto_reply) (moved start) (moved finish) = saved_rule v start finish.
Proof.
  unfold rule_payload, saved_rule, show_rule.
  destruct (truthy (str_field v "subject_template")), (truthy (str_field v "body_template")); reflexivity.
Qed.

(** C23.  Opening the automatic reply and saving it unchanged.  The tab makes two
    requests, reading the rule and writing it back: the switches and the two lists of
    senders are posted as they were, the texts trimmed, the tab's default in the place of an
    empty one; but the start and the end of the window, shown by their UTC digits and read
    back as local times, are posted as other moments wherever the zone has an offset. *)
Theorem window_moves_with_the_zone w tr s v start finish :
  api_reply (respond w tr (rule_request s)) = Ok (Some v) -> v <> JNull ->
  times_ok v "start_time" start -> times_ok v "end_time" finish ->
  let rule := saved_rule v start finish in
  let t1 := ask (rule_request s) tr in
  is_ok (api_reply (respond w t1 (save_request rule s))) = true ->
  (exists p, run w tr (s, new_auto_reply) (_ ← auto_reply_onMount mailbox; auto_reply_save mailbox) =
     (Ok tt, (s, p), ask (save_request rule s) t1) /\ ar_error p = None) /\
  reads_as (moved start) start /\ reads_as (moved finish) finish.
Proof.
  intros Er Hv Hs Hf rule t1 Hok.
  pose proof (times_time_ok _ _ _ Hs) as Hs'. pose proof (times_time_ok _ _ _ Hf) as Hf'.
  split; [|by split; apply moved_reads]. set (p0 := show_rule v (set_ar_loading true new_auto_reply)).
  set (p1 := set_ar_end (field_of finish) (set_ar_start (field_of start) p0)).
  assert (R : run w tr (s, new_auto_reply) (auto_reply_onMount mailbox) = (Ok tt, (s, set_ar_loading false p1), t1)).
  { unfold auto_reply_onMount. rewrite run_finally, run_catch, run_bind, run_on_page, run_bind, run_below.
    unfold fetchAutoReplyRule, get_json. rewrite run_apiRequest. cbv zeta. fold (rule_request s). rewrite Er.
    replace (reply_object (Some v)) with (Ok v) by by destruct v. rewrite bind_lift, run_bind, run_on_page, run_bind.
    fold p0. rewrite (run_show_time w t1 s p0 v _ start) by done.
    rewrite (run_show_time w t1 s _ v _ finish), run_on_page by done. unfold p1, p0.
    destruct start, finish; unfold show_rule; do 2 destruct (truthy _); reflexivity. }
  assert (Erule : rule_payload p1 (moved start) (moved finish) = rule)
    by (unfold p1, p0, rule; rewrite show_rule_loading, <- payload_of_shown; reflexivity).
  rewrite run_bind, R. unfold auto_reply_save. rewrite run_bind, run_on_page, run_finally, run_catch, run_page.
  change (ar_start _) with (field_of start). change (ar_end _) with (field_of finish).
  rewrite !posted_field, !bind_lift, run_bind, run_below by done. unfold updateAutoReplyRule, send. rewrite run_apiRequest.
  cbv zeta. change (rule_payload _ _ _) with (rule_payload p1 (moved start) (moved finish)). rewrite Erule.
  change (api_fetch s _ _) with (save_request rule s).
  destruct (api_reply (respond w t1 _)); [|done]. rewrite run_bind, run_on_page. eexists. split; reflexivity.
Qed.

End Window.

(** ** A concrete rule *)

#[local] Existing Instance sample_env.

(** Two hours east of UTC. *)
Definition cairo : Zone := {| from_local l := l - 7200000; other_date _ := None |}.

Definition away : json := JObj [(js "is_active", JBool true); str_member "subject_template" (js " Away "); (js "allowed_senders", JArr [JStr (js "ada@byos.email")]);
  str_member "start_time" (js "2025-01-01T10:00:00Z")].

Definition serves_away : world := {| respond _ _ := json_reply away; answer _ _ := true |}.

(** A window that starts at ten is saved as one that starts at eight. *)
Lemma window_moves_with_the_zone_witness :
  exists p t', run serves_away no_trace (sample_app, new_auto_reply)
      (_ ← @auto_reply_onMount cairo sample_env (js "b1"); @auto_reply_save cairo sample_env (js "b1")) =
      (Ok tt, (sample_app, p), t') /\
    length (sent t') = 2%nat /\ @moved cairo (Some 1735725600000) = Some (js "2025-01-01T08:00:00.000Z").
Proof.
  destruct (@window_moves_with_the_zone cairo sample_env (js "b1") serves_away no_trace sample_app away
    (Some 1735725600000) None) as ((p & R & _) & _).
  - vm_compute. reflexivity.
  - discriminate.
  - split; [reflexivity|]. split; [vm_compute; reflexivity|].
    split; [vm_compute; split; discriminate|]. split; [reflexivity|].
    split; [vm_compute; split; discriminate|vm_compute; reflexivity].
  - vm_compute. reflexivity.
  - vm_compute. reflexivity.
  - exists p. eexists. split; [exact R|]. split; [reflexivity|]. vm_compute. reflexivity.
Defined.
