(* ===== verification/FiltersTab.v ===== *)
(** * Filters and address rules

    routes/settings/FiltersTab.tsx: the list of filters, the builder of custom filters, the
    editor of Sieve scripts, and the lists of addresses.  The tab's signals stand beside
    the application's state; [mailbox] is the id of [props.mailbox].  Rows are read by the
    interfaces the client declares; a list that is none is read as empty. *)

From S2P Require Import Prelude JsString Json Client Page Api AppState MailView Reading MailboxData SignIn.

Record FilterCondition := { fc_field : jstr; fc_comparator : jstr; fc_value : jstr }.

Inductive ConditionKey := KeyField | KeyComparator | KeyValue.

(** [rules_json] as it came. *)
Record FilterItem := {
  fi_id : jstr; fi_name : jstr; fi_type : jstr; fi_rules : option json; fi_script : jstr; fi_active : bool }.

Record AddressRule := { rule_id : jstr; rule_list : jstr; rule_value : jstr }.

Record Filters := {
  fl_loading : bool;
  fl_error : option jstr;
  fl_success : option jstr;
  fl_filters : list FilterItem;
  fl_custom_open : bool;
  fl_sieve_open : bool;
  fl_saving : bool;
  fl_editing : option jstr;
  fl_name : jstr;
  fl_match : jstr;
  fl_conditions : list FilterCondition;
  fl_folder : jstr;
  fl_apply_move : bool;
  fl_mark_read : bool;
  fl_star : bool;
  fl_sieve_name : jstr;
  fl_script : jstr;
  fl_rule_tab : jstr;
  fl_rules : list AddressRule;
  fl_add_open : bool;
  fl_new_type : jstr;
  fl_new_value : jstr;
  fl_saving_rule : bool }.

Definition set_fl_loading (v : bool) (x : Filters) : Filters := {|
  fl_loading := v; fl_error := fl_error x; fl_success := fl_success x; fl_filters := fl_filters x;
    fl_custom_open := fl_custom_open x; fl_sieve_open := fl_sieve_open x; fl_saving := fl_saving x; fl_editing
    := fl_editing x; fl_name := fl_name x; fl_match := fl_match x; fl_conditions := fl_conditions x; fl_folder
    := fl_folder x; fl_apply_move := fl_apply_move x; fl_mark_read := fl_mark_read x; fl_star := fl_star x;
    fl_sieve_name := fl_sieve_name x; fl_script := fl_script x; fl_rule_tab := fl_rule_tab x; fl_rules :=
    fl_rules x; fl_add_open := fl_add_open x; fl_new_type := fl_new_type x; fl_new_value := fl_new_value x;
    fl_saving_rule := fl_saving_rule x |}.
Definition set_fl_error (v : option jstr) (x : Filters) : Filters := {|
  fl_loading := fl_loading x; fl_error := v; fl_success := fl_success x; fl_filters := fl_filters x;
    fl_custom_open := fl_custom_open x; fl_sieve_open := fl_sieve_open x; fl_saving := fl_saving x; fl_editing
    := fl_editing x; fl_name := fl_name x; fl_match := fl_match x; fl_conditions := fl_conditions x; fl_folder
    := fl_folder x; fl_apply_move := fl_apply_move x; fl_mark_read := fl_mark_read x; fl_star := fl_star x;
    fl_sieve_name := fl_sieve_name x; fl_script := fl_script x; fl_rule_tab := fl_rule_tab x; fl_rules :=
    fl_rules x; fl_add_open := fl_add_open x; fl_new_type := fl_new_type x; fl_new_value := fl_new_value x;
    fl_saving_rule := fl_saving_rule x |}.
Definition set_fl_success (v : option jstr) (x : Filters) : Filters := {|
  fl_loading := fl_loading x; fl_error := fl_error x; fl_success := v; fl_filters := fl_filters x;
    fl_custom_open := fl_custom_open x; fl_sieve_open := fl_sieve_open x; fl_saving := fl_saving x; fl_editing
    := fl_editing x; fl_name := fl_name x; fl_match := fl_match x; fl_conditions := fl_conditions x; fl_folder
    := fl_folder x; fl_apply_move := fl_apply_move x; fl_mark_read := fl_mark_read x; fl_star := fl_star x;
    fl_sieve_name := fl_sieve_name x; fl_script := fl_script x; fl_rule_tab := fl_rule_tab x; fl_rules :=
    fl_rules x; fl_add_open := fl_add_open x; fl_new_type := fl_new_type x; fl_new_value := fl_new_value x;
    fl_saving_rule := fl_saving_rule x |}.
Definition set_fl_filters (v : list FilterItem) (x : Filters) : Filters := {|
  fl_loading := fl_loading x; fl_error := fl_error x; fl_success := fl_success x; fl_filters := v;
    fl_custom_open := fl_custom_open x; fl_sieve_open := fl_sieve_open x; fl_saving := fl_saving x; fl_editing
    := fl_editing x; fl_name := fl_name x; fl_match := fl_match x; fl_conditions := fl_conditions x; fl_folder
    := fl_folder x; fl_apply_move := fl_apply_move x; fl_mark_read := fl_mark_read x; fl_star := fl_star x;
    fl_sieve_name := fl_sieve_name x; fl_script := fl_script x; fl_rule_tab := fl_rule_tab x; fl_rules :=
    fl_rules x; fl_add_open := fl_add_open x; fl_new_type := fl_new_type x; fl_new_value := fl_new_value x;
    fl_saving_rule := fl_saving_rule x |}.
Definition set_fl_custom_open (v : bool) (x : Filters) : Filters := {|
  fl_loading := fl_loading x; fl_error := fl_error x; fl_success := fl_success x; fl_filters := fl_filters x;
    fl_custom_open := v; fl_sieve_open := fl_sieve_open x; fl_saving := fl_saving x; fl_editing := fl_editing x;
    fl_name := fl_name x; fl_match := fl_match x; fl_conditions := fl_conditions x; fl_folder := fl_folder x;
    fl_apply_move := fl_apply_move x; fl_mark_read := fl_mark_read x; fl_star := fl_star x; fl_sieve_name :=
    fl_sieve_name x; fl_script := fl_script x; fl_rule_tab := fl_rule_tab x; fl_rules := fl_rules x; fl_add_open
    := fl_add_open x; fl_new_type := fl_new_type x; fl_new_value := fl_new_value x; fl_saving_rule :=
    fl_saving_rule x |}.
Definition set_fl_sieve_open (v : bool) (x : Filters) : Filters := {|
  fl_loading := fl_loading x; fl_error := fl_error x; fl_success := fl_success x; fl_filters := fl_filters x;
    fl_custom_open := fl_custom_open x; fl_sieve_open := v; fl_saving := fl_saving x; fl_editing := fl_editing
    x; fl_name := fl_name x; fl_match := fl_match x; fl_conditions := fl_conditions x; fl_folder := fl_folder x;
    fl_apply_move := fl_apply_move x; fl_mark_read := fl_mark_read x; fl_star := fl_star x; fl_sieve_name :=
    fl_sieve_name x; fl_script := fl_script x; fl_rule_tab := fl_rule_tab x; fl_rules := fl_rules x; fl_add_open
    := fl_add_open x; fl_new_type := fl_new_type x; fl_new_value := fl_new_value x; fl_saving_rule :=
    fl_saving_rule x |}.
Definition set_fl_saving (v : bool) (x : Filters) : Filters := {|
  fl_loading := fl_loading x; fl_error := fl_error x; fl_success := fl_success x; fl_filters := fl_filters x;
    fl_custom_open := fl_custom_open x; fl_sieve_open := fl_sieve_open x; fl_saving := v; fl_editing :=
    fl_editing x; fl_name := fl_name x; fl_match := fl_match x; fl_conditions := fl_conditions x; fl_folder :=
    fl_folder x; fl_apply_move := fl_apply_move x; fl_mark_read := fl_mark_read x; fl_star := fl_star x;
    fl_sieve_name := fl_sieve_name x; fl_script := fl_script x; fl_rule_tab := fl_rule_tab x; fl_rules :=
    fl_rules x; fl_add_open := fl_add_open x; fl_new_type := fl_new_type x; fl_new_value := fl_new_value x;
    fl_saving_rule := fl_saving_rule x |}.
Definition set_fl_editing (v : option jstr) (x : Filters) : Filters := {|
  fl_loading := fl_loading x; fl_error := fl_error x; fl_success := fl_success x; fl_filters := fl_filters x;
    fl_custom_open := fl_custom_open x; fl_sieve_open := fl_sieve_open x; fl_saving := fl_saving x; fl_editing
    := v; fl_name := fl_name x; fl_match := fl_match x; fl_conditions := fl_conditions x; fl_folder := fl_folder
    x; fl_apply_move := fl_apply_move x; fl_mark_read := fl_mark_read x; fl_star := fl_star x; fl_sieve_name :=
    fl_sieve_name x; fl_script := fl_script x; fl_rule_tab := fl_rule_tab x; fl_rules := fl_rules x; fl_add_open
    := fl_add_open x; fl_new_type := fl_new_type x; fl_new_value := fl_new_value x; fl_saving_rule :=
    fl_saving_rule x |}.
Definition set_fl_name (v : jstr) (x : Filters) : Filters := {|
  fl_loading := fl_loading x; fl_error := fl_error x; fl_success := fl_success x; fl_filters := fl_filters x;
    fl_custom_open := fl_custom_open x; fl_sieve_open := fl_sieve_open x; fl_saving := fl_saving x; fl_editing
    := fl_editing x; fl_name := v; fl_match := fl_match x; fl_conditions := fl_conditions x; fl_folder :=
    fl_folder x; fl_apply_move := fl_apply_move x; fl_mark_read := fl_mark_read x; fl_star := fl_star x;
    fl_sieve_name := fl_sieve_name x; fl_script := fl_script x; fl_rule_tab := fl_rule_tab x; fl_rules :=
    fl_rules x; fl_add_open := fl_add_open x; fl_new_type := fl_new_type x; fl_new_value := fl_new_value x;
    fl_saving_rule := fl_saving_rule x |}.
Definition set_fl_match (v : jstr) (x : Filters) : Filters := {|
  fl_loading := fl_loading x; fl_error := fl_error x; fl_success := fl_success x; fl_filters := fl_filters x;
    fl_custom_open := fl_custom_open x; fl_sieve_open := fl_sieve_open x; fl_saving := fl_saving x; fl_editing
    := fl_editing x; fl_name := fl_name x; fl_match := v; fl_conditions := fl_conditions x; fl_folder :=
    fl_folder x; fl_apply_move := fl_apply_move x; fl_mark_read := fl_mark_read x; fl_star := fl_star x;
    fl_sieve_name := fl_sieve_name x; fl_script := fl_script x; fl_rule_tab := fl_rule_tab x; fl_rules :=
    fl_rules x; fl_add_open := fl_add_open x; fl_new_type := fl_new_type x; fl_new_value := fl_new_value x;
    fl_saving_rule := fl_saving_rule x |}.
Definition set_fl_conditions (v : list FilterCondition) (x : Filters) : Filters := {|
  fl_loading := fl_loading x; fl_error := fl_error x; fl_success := fl_success x; fl_filters := fl_filters x;
    fl_custom_open := fl_custom_open x; fl_sieve_open := fl_sieve_open x; fl_saving := fl_saving x; fl_editing
    := fl_editing x; fl_name := fl_name x; fl_match := fl_match x; fl_conditions := v; fl_folder := fl_folder x;
    fl_apply_move := fl_apply_move x; fl_mark_read := fl_mark_read x; fl_star := fl_star x; fl_sieve_name :=
    fl_sieve_name x; fl_script := fl_script x; fl_rule_tab := fl_rule_tab x; fl_rules := fl_rules x; fl_add_open
    := fl_add_open x; fl_new_type := fl_new_type x; fl_new_value := fl_new_value x; fl_saving_rule :=
    fl_saving_rule x |}.
Definition set_fl_folder (v : jstr) (x : Filters) : Filters := {|
  fl_loading := fl_loading x; fl_error := fl_error x; fl_success := fl_success x; fl_filters := fl_filters x;
    fl_custom_open := fl_custom_open x; fl_sieve_open := fl_sieve_open x; fl_saving := fl_saving x; fl_editing
    := fl_editing x; fl_name := fl_name x; fl_match := fl_match x; fl_conditions := fl_conditions x; fl_folder
    := v; fl_apply_move := fl_apply_move x; fl_mark_read := fl_mark_read x; fl_star := fl_star x; fl_sieve_name
    := fl_sieve_name x; fl_script := fl_script x; fl_rule_tab := fl_rule_tab x; fl_rules := fl_rules x;
    fl_add_open := fl_add_open x; fl_new_type := fl_new_type x; fl_new_value := fl_new_value x; fl_saving_rule
    := fl_saving_rule x |}.
Definition set_fl_apply_move (v : bool) (x : Filters) : Filters := {|
  fl_loading := fl_loading x; fl_error := fl_error x; fl_success := fl_success x; fl_filters := fl_filters x;
    fl_custom_open := fl_custom_open x; fl_sieve_open := fl_sieve_open x; fl_saving := fl_saving x; fl_editing
    := fl_editing x; fl_name := fl_name x; fl_match := fl_match x; fl_conditions := fl_conditions x; fl_folder
    := fl_folder x; fl_apply_move := v; fl_mark_read := fl_mark_read x; fl_star := fl_star x; fl_sieve_name :=
    fl_sieve_name x; fl_script := fl_script x; fl_rule_tab := fl_rule_tab x; fl_rules := fl_rules x; fl_add_open
    := fl_add_open x; fl_new_type := fl_new_type x; fl_new_value := fl_new_value x; fl_saving_rule :=
    fl_saving_rule x |}.
Definition set_fl_mark_read (v : bool) (x : Filters) : Filters := {|
  fl_loading := fl_loading x; fl_error := fl_error x; fl_success := fl_success x; fl_filters := fl_filters x;
    fl_custom_open := fl_custom_open x; fl_sieve_open := fl_sieve_open x; fl_saving := fl_saving x; fl_editing
    := fl_editing x; fl_name := fl_name x; fl_match := fl_match x; fl_conditions := fl_conditions x; fl_folder
    := fl_folder x; fl_apply_move := fl_apply_move x; fl_mark_read := v; fl_star := fl_star x; fl_sieve_name :=
    fl_sieve_name x; fl_script := fl_script x; fl_rule_tab := fl_rule_tab x; fl_rules := fl_rules x; fl_add_open
    := fl_add_open x; fl_new_type := fl_new_type x; fl_new_value := fl_new_value x; fl_saving_rule :=
    fl_saving_rule x |}.
Definition set_fl_star (v : bool) (x : Filters) : Filters := {|
  fl_loading := fl_loading x; fl_error := fl_error x; fl_success := fl_success x; fl_filters := fl_filters x;
    fl_custom_open := fl_custom_open x; fl_sieve_open := fl_sieve_open x; fl_saving := fl_saving x; fl_editing
    := fl_editing x; fl_name := fl_name x; fl_match := fl_match x; fl_conditions := fl_conditions x; fl_folder
    := fl_folder x; fl_apply_move := fl_apply_move x; fl_mark_read := fl_mark_read x; fl_star := v;
    fl_sieve_name := fl_sieve_name x; fl_script := fl_script x; fl_rule_tab := fl_rule_tab x; fl_rules :=
    fl_rules x; fl_add_open := fl_add_open x; fl_new_type := fl_new_type x; fl_new_value := fl_new_value x;
    fl_saving_rule := fl_saving_rule x |}.
Definition set_fl_sieve_name (v : jstr) (x : Filters) : Filters := {|
  fl_loading := fl_loading x; fl_error := fl_error x; fl_success := fl_success x; fl_filters := fl_filters x;
    fl_custom_open := fl_custom_open x; fl_sieve_open := fl_sieve_open x; fl_saving := fl_saving x; fl_editing
    := fl_editing x; fl_name := fl_name x; fl_match := fl_match x; fl_conditions := fl_conditions x; fl_folder
    := fl_folder x; fl_apply_move := fl_apply_move x; fl_mark_read := fl_mark_read x; fl_star := fl_star x;
    fl_sieve_name := v; fl_script := fl_script x; fl_rule_tab := fl_rule_tab x; fl_rules := fl_rules x;
    fl_add_open := fl_add_open x; fl_new_type := fl_new_type x; fl_new_value := fl_new_value x; fl_saving_rule
    := fl_saving_rule x |}.
Definition set_fl_script (v : jstr) (x : Filters) : Filters := {|
  fl_loading := fl_loading x; fl_error := fl_error x; fl_success := fl_success x; fl_filters := fl_filters x;
    fl_custom_open := fl_custom_open x; fl_sieve_open := fl_sieve_open x; fl_saving := fl_saving x; fl_editing
    := fl_editing x; fl_name := fl_name x; fl_match := fl_match x; fl_conditions := fl_conditions x; fl_folder
    := fl_folder x; fl_apply_move := fl_apply_move x; fl_mark_read := fl_mark_read x; fl_star := fl_star x;
    fl_sieve_name := fl_sieve_name x; fl_script := v; fl_rule_tab := fl_rule_tab x; fl_rules := fl_rules x;
    fl_add_open := fl_add_open x; fl_new_type := fl_new_type x; fl_new_value := fl_new_value x; fl_saving_rule
    := fl_saving_rule x |}.
Definition set_fl_rule_tab (v : jstr) (x : Filters) : Filters := {|
  fl_loading := fl_loading x; fl_error := fl_error x; fl_success := fl_success x; fl_filters := fl_filters x;
    fl_custom_open := fl_custom_open x; fl_sieve_open := fl_sieve_open x; fl_saving := fl_saving x; fl_editing
    := fl_editing x; fl_name := fl_name x; fl_match := fl_match x; fl_conditions := fl_conditions x; fl_folder
    := fl_folder x; fl_apply_move := fl_apply_move x; fl_mark_read := fl_mark_read x; fl_star := fl_star x;
    fl_sieve_name := fl_sieve_name x; fl_script := fl_script x; fl_rule_tab := v; fl_rules := fl_rules x;
    fl_add_open := fl_add_open x; fl_new_type := fl_new_type x; fl_new_value := fl_new_value x; fl_saving_rule
    := fl_saving_rule x |}.
Definition set_fl_rules (v : list AddressRule) (x : Filters) : Filters := {|
  fl_loading := fl_loading x; fl_error := fl_error x; fl_success := fl_success x; fl_filters := fl_filters x;
    fl_custom_open := fl_custom_open x; fl_sieve_open := fl_sieve_open x; fl_saving := fl_saving x; fl_editing
    := fl_editing x; fl_name := fl_name x; fl_match := fl_match x; fl_conditions := fl_conditions x; fl_folder
    := fl_folder x; fl_apply_move := fl_apply_move x; fl_mark_read := fl_mark_read x; fl_star := fl_star x;
    fl_sieve_name := fl_sieve_name x; fl_script := fl_script x; fl_rule_tab := fl_rule_tab x; fl_rules := v;
    fl_add_open := fl_add_open x; fl_new_type := fl_new_type x; fl_new_value := fl_new_value x; fl_saving_rule
    := fl_saving_rule x |}.
Definition set_fl_add_open (v : bool) (x : Filters) : Filters := {|
  fl_loading := fl_loading x; fl_error := fl_error x; fl_success := fl_success x; fl_filters := fl_filters x;
    fl_custom_open := fl_custom_open x; fl_sieve_open := fl_sieve_open x; fl_saving := fl_saving x; fl_editing
    := fl_editing x; fl_name := fl_name x; fl_match := fl_match x; fl_conditions := fl_conditions x; fl_folder
    := fl_folder x; fl_apply_move := fl_apply_move x; fl_mark_read := fl_mark_read x; fl_star := fl_star x;
    fl_sieve_name := fl_sieve_name x; fl_script := fl_script x; fl_rule_tab := fl_rule_tab x; fl_rules :=
    fl_rules x; fl_add_open := v; fl_new_type := fl_new_type x; fl_new_value := fl_new_value x; fl_saving_rule
    := fl_saving_rule x |}.
Definition set_fl_new_type (v : jstr) (x : Filters) : Filters := {|
  fl_loading := fl_loading x; fl_error := fl_error x; fl_success := fl_success x; fl_filters := fl_filters x;
    fl_custom_open := fl_custom_open x; fl_sieve_open := fl_sieve_open x; fl_saving := fl_saving x; fl_editing
    := fl_editing x; fl_name := fl_name x; fl_match := fl_match x; fl_conditions := fl_conditions x; fl_folder
    := fl_folder x; fl_apply_move := fl_apply_move x; fl_mark_read := fl_mark_read x; fl_star := fl_star x;
    fl_sieve_name := fl_sieve_name x; fl_script := fl_script x; fl_rule_tab := fl_rule_tab x; fl_rules :=
    fl_rules x; fl_add_open := fl_add_open x; fl_new_type := v; fl_new_value := fl_new_value x; fl_saving_rule
    := fl_saving_rule x |}.
Definition set_fl_new_value (v : jstr) (x : Filters) : Filters := {|
  fl_loading := fl_loading x; fl_error := fl_error x; fl_success := fl_success x; fl_filters := fl_filters x;
    fl_custom_open := fl_custom_open x; fl_sieve_open := fl_sieve_open x; fl_saving := fl_saving x; fl_editing
    := fl_editing x; fl_name := fl_name x; fl_match := fl_match x; fl_conditions := fl_conditions x; fl_folder
    := fl_folder x; fl_apply_move := fl_apply_move x; fl_mark_read := fl_mark_read x; fl_star := fl_star x;
    fl_sieve_name := fl_sieve_name x; fl_script := fl_script x; fl_rule_tab := fl_rule_tab x; fl_rules :=
    fl_rules x; fl_add_open := fl_add_open x; fl_new_type := fl_new_type x; fl_new_value := v; fl_saving_rule :=
    fl_saving_rule x |}.
Definition set_fl_saving_rule (v : bool) (x : Filters) : Filters := {|
  fl_loading := fl_loading x; fl_error := fl_error x; fl_success := fl_success x; fl_filters := fl_filters x;
    fl_custom_open := fl_custom_open x; fl_sieve_open := fl_sieve_open x; fl_saving := fl_saving x; fl_editing
    := fl_editing x; fl_name := fl_name x; fl_match := fl_match x; fl_conditions := fl_conditions x; fl_folder
    := fl_folder x; fl_apply_move := fl_apply_move x; fl_mark_read := fl_mark_read x; fl_star := fl_star x;
    fl_sieve_name := fl_sieve_name x; fl_script := fl_script x; fl_rule_tab := fl_rule_tab x; fl_rules :=
    fl_rules x; fl_add_open := fl_add_open x; fl_new_type := fl_new_type x; fl_new_value := fl_new_value x;
    fl_saving_rule := v |}.

Definition empty_condition : FilterCondition :=
  {| fc_field := js "from"; fc_comparator := js "contains"; fc_value := [] |}.

(** The script the editor starts with. *)
Definition sample_script : jstr :=
  js "require [" ++ [34] ++ js "fileinto" ++ [34] ++ js ", " ++ [34] ++ js "imap4flags" ++ [34] ++ js "];" ++ [10; 10] ++
  js "if header :contains " ++ [34] ++ js "subject" ++ [34; 32; 34] ++ js "receipt" ++ [34] ++ js " {" ++ [10] ++
  js "    fileinto " ++ [34] ++ js "Receipts" ++ [34] ++ js ";" ++ [10] ++
  js "    setflag " ++ [34; 92; 92] ++ js "Seen" ++ [34] ++ js ";" ++ [10] ++ js "}".

Definition new_filters : Filters := {|
  fl_loading := true; fl_error := None; fl_success := None; fl_filters := []; fl_custom_open := false;
  fl_sieve_open := false; fl_saving := false; fl_editing := None; fl_name := []; fl_match := js "all";
  fl_conditions := [empty_condition]; fl_folder := js "archive"; fl_apply_move := false; fl_mark_read := false;
  fl_star := false; fl_sieve_name := []; fl_script := sample_script; fl_rule_tab := js "spam"; fl_rules := [];
  fl_add_open := false; fl_new_type := js "spam"; fl_new_value := []; fl_saving_rule := false |}.

(** ** Rows *)

Definition condition_of (v : json) : FilterCondition :=
  {| fc_field := str_field v "field"; fc_comparator := str_field v "comparator"; fc_value := str_field v "value" |}.

Definition condition_json (c : FilterCondition) : json :=
  JObj [str_member "field" (fc_field c); str_member "comparator" (fc_comparator c); str_member "value" (fc_value c)].

Definition filter_of (v : json) : FilterItem := {|
  fi_id := str_field v "id"; fi_name := str_field v "name"; fi_type := str_field v "filter_type";
  fi_rules := get v (js "rules_json"); fi_script := str_field v "sieve_script"; fi_active := bool_field v "is_active" |}.

Definition rule_of (v : json) : AddressRule :=
  {| rule_id := str_field v "id"; rule_list := str_field v "list_type"; rule_value := str_field v "value" |}.

Definition rows {A} (f : json -> A) (res : option json) : list A :=
  match res with Some (JArr l) => map f l | _ => [] end.

Definition member_list (v : json) (k : string) : list json :=
  match get v (js k) with Some (JArr l) => l | _ => [] end.

Definition sub_object (v : json) (k : string) : json := default JNull (get v (js k)).

Definition quoted (t : jstr) : jstr := [34] ++ t ++ [34].

Section Tab.
Context `{Env}.
Variable mailbox : jstr.

Definition fl_fail (d : string) (e : js_error) : prog (App * Filters) unit :=
  on_page (set_fl_error (Some (or_default (message e) (js d)))).

Definition fl_showSuccess (msg : jstr) : prog (App * Filters) unit :=
  _ ← on_page (set_fl_success (Some msg));
  spawn (_ ← wait; on_page (set_fl_success None)).

Definition filters_loadData : prog (App * Filters) unit :=
  finally
    (pcatch
       (_ ← on_page (set_fl_loading true);
        res ← below (promise_all [fetchFilters mailbox; fetchAddressRules mailbox None]);
        match res with
        | [fList; rList] => on_page (fun p => set_fl_rules (rows rule_of rList) (set_fl_filters (rows filter_of fList) p))
        | _ => skip
        end)
       (fl_fail "Failed to load filters and rules."))
    (on_page (set_fl_loading false)).

Definition filters_onMount : prog (App * Filters) unit := spawn filters_loadData.

(** ** The builder *)

Definition handleAddCondition (p : Filters) : Filters := set_fl_conditions (fl_conditions p ++ [empty_condition]) p.

Definition handleRemoveCondition (index : nat) (p : Filters) : Filters :=
  set_fl_conditions (delete index (fl_conditions p)) p.

Definition with_key (key : ConditionKey) (val : jstr) (c : FilterCondition) : FilterCondition :=
  match key with
  | KeyField => {| fc_field := val; fc_comparator := fc_comparator c; fc_value := fc_value c |}
  | KeyComparator => {| fc_field := fc_field c; fc_comparator := val; fc_value := fc_value c |}
  | KeyValue => {| fc_field := fc_field c; fc_comparator := fc_comparator c; fc_value := val |}
  end.

Definition handleUpdateCondition (index : nat) (key : ConditionKey) (val : jstr) (p : Filters) : Filters :=
  set_fl_conditions (alter (with_key key val) index (fl_conditions p)) p.

Definition openCreateCustomFilter (p : Filters) : Filters :=
  set_fl_custom_open true (set_fl_star false (set_fl_mark_read false (set_fl_folder (js "archive")
    (set_fl_apply_move false (set_fl_conditions [empty_condition] (set_fl_match (js "all")
      (set_fl_name [] (set_fl_editing None p)))))))).

(** [Boolean(item.rules_json.actions?.mark_read)] and the like. *)
Definition show_rules (r : json) (p : Filters) : Filters :=
  let actions := sub_object r "actions" in
  let conditions := member_list r "conditions" in
  let p := set_fl_match (or_default (str_field r "match") (js "all")) p in
  let p := set_fl_conditions (match conditions with [] => [empty_condition] | _ => map condition_of conditions end) p in
  let p := if truthy (str_field actions "folder")
           then set_fl_folder (str_field actions "folder") (set_fl_apply_move true p) else set_fl_apply_move false p in
  set_fl_star (bool_field actions "star") (set_fl_mark_read (bool_field actions "mark_read") p).

Definition openEditCustomFilter (item : FilterItem) (p : Filters) : Filters :=
  let p := set_fl_name (fi_name item) (set_fl_editing (Some (fi_id item)) p) in
  let p := match fi_rules item with Some r => if json_truthy r then show_rules r p else p | None => p end in
  set_fl_custom_open true p.

(** The rules a form stands for; what is [undefined] is not written. *)
Definition rules_value (matching : jstr) (conditions : list FilterCondition) (folder : option jstr) (read star : bool) : json :=
  JObj [str_member "match" matching;
        (js "conditions", JArr (map condition_json (List.filter (fun c => truthy (trim (fc_value c))) conditions)));
        (js "actions", JObj (opt_member "folder" (JStr <$> folder)
           ++ (if read then [(js "mark_read", JBool true)] else []) ++ (if star then [(js "star", JBool true)] else [])))].

Definition form_rules (p : Filters) : json :=
  rules_value (fl_match p) (fl_conditions p) (if fl_apply_move p then Some (fl_folder p) else None) (fl_mark_read p) (fl_star p).

Definition custom_payload (p : Filters) : json :=
  JObj [str_member "name" (trim (fl_name p)); str_member "filter_type" (js "custom"); (js "rules_json", form_rules p)].

Definition replace_filter (updated : FilterItem) (p : Filters) : Filters :=
  set_fl_filters (map (fun f => if jeqb (fi_id f) (fi_id updated) then updated else f) (fl_filters p)) p.

Definition save_custom (p : Filters) : prog (App * Filters) unit :=
  if truthy_opt (fl_editing p) then
    res ← below (updateFilter mailbox (default [] (fl_editing p)) (custom_payload p));
    v ← lift (reply_object res);
    _ ← on_page (replace_filter (filter_of v));
    fl_showSuccess (js "Filter " ++ quoted (str_field v "name") ++ js " updated.")
  else
    res ← below (createFilter mailbox (custom_payload p));
    v ← lift (reply_object res);
    _ ← on_page (fun p => set_fl_filters (fl_filters p ++ [filter_of v]) p);
    fl_showSuccess (js "Filter " ++ quoted (str_field v "name") ++ js " created.").

Definition handleSaveCustomFilter : prog (App * Filters) unit :=
  p ← page (G:=Filters);
  if negb (truthy (trim (fl_name p))) then skip
  else
    _ ← on_page (fun p => set_fl_error None (set_fl_saving true p));
    finally
      (pcatch (_ ← save_custom p; on_page (set_fl_custom_open false)) (fl_fail "Failed to save filter."))
      (on_page (set_fl_saving false)).

(** ** Sieve scripts *)

Definition openCreateSieveFilter (p : Filters) : Filters := set_fl_sieve_open true (set_fl_sieve_name [] p).

Definition handleSaveSieveFilter : prog (App * Filters) unit :=
  p ← page (G:=Filters);
  if negb (truthy (trim (fl_sieve_name p))) || negb (truthy (trim (fl_script p))) then skip
  else
    _ ← on_page (fun p => set_fl_error None (set_fl_saving true p));
    finally
      (pcatch
         (res ← below (createFilter mailbox (JObj [str_member "name" (trim (fl_sieve_name p));
            str_member "filter_type" (js "sieve"); str_member "sieve_script" (fl_script p)]));
          _ ← on_page (fun p => set_fl_filters (fl_filters p ++ [filter_of (default JNull res)]) p);
          _ ← on_page (set_fl_sieve_open false);
          v ← lift (reply_object res);
          fl_showSuccess (js "Sieve filter " ++ quoted (str_field v "name") ++ js " saved."))
         (fl_fail "Failed to save Sieve filter."))
      (on_page (set_fl_saving false)).

(** ** The list *)

Definition handleToggleFilterActive (filter : FilterItem) : prog (App * Filters) unit :=
  pcatch
    (res ← below (updateFilter mailbox (fi_id filter) (JObj [(js "is_active", JBool (negb (fi_active filter)))]));
     v ← lift (reply_object res);
     on_page (replace_filter (filter_of v)))
    (fl_fail "Failed to toggle filter status.").

Definition handleDeleteFilter (filter : FilterItem) : prog (App * Filters) unit :=
  yes ← confirm (js "Delete filter " ++ quoted (fi_name filter) ++ js "?");
  if negb yes then skip
  else pcatch
    (_ ← below (deleteFilter mailbox (fi_id filter));
     _ ← on_page (fun p => set_fl_filters (List.filter (fun f => negb (jeqb (fi_id f) (fi_id filter))) (fl_filters p)) p);
     fl_showSuccess (js "Filter " ++ quoted (fi_name filter) ++ js " deleted."))
    (fl_fail "Failed to delete filter.").

(** ** Address rules *)

Definition currentTabRules (p : Filters) : list AddressRule :=
  List.filter (fun r => jeqb (rule_list r) (fl_rule_tab p)) (fl_rules p).

Definition open_add_rule (p : Filters) : Filters :=
  set_fl_add_open true (set_fl_new_value [] (set_fl_new_type (fl_rule_tab p) p)).

Definition handleAddAddressRule : prog (App * Filters) unit :=
  p ← page (G:=Filters);
  let val := trim (fl_new_value p) in
  if negb (truthy val) then skip
  else
    _ ← on_page (fun p => set_fl_error None (set_fl_saving_rule true p));
    finally
      (pcatch
         (res ← below (createAddressRule mailbox (JObj [str_member "list_type" (fl_new_type p); str_member "value" val]));
          _ ← on_page (fun p => set_fl_rules (rule_of (default JNull res) :: fl_rules p) p);
          _ ← on_page (fun p => set_fl_new_value [] (set_fl_add_open false p));
          p ← page (G:=Filters);
          fl_showSuccess (js "Added " ++ quoted val ++ js " to " ++ fl_new_type p ++ js " list."))
         (fl_fail "Failed to add address rule."))
      (on_page (set_fl_saving_rule false)).

Definition handleDeleteAddressRule (rule : AddressRule) : prog (App * Filters) unit :=
  pcatch
    (_ ← below (deleteAddressRule mailbox (rule_id rule));
     _ ← on_page (fun p => set_fl_rules (List.filter (fun r => negb (jeqb (rule_id r) (rule_id rule))) (fl_rules p)) p);
     fl_showSuccess (js "Removed " ++ quoted (rule_value rule) ++ js "."))
    (fl_fail "Failed to delete address rule.").

End Tab.

(** ** What the builder saves *)

Section Builder.
Context `{HE : Env}.
Variable mailbox : jstr.

Lemma condition_read_back c : condition_of (condition_json c) = c.
Proof. by destruct c. Qed.

Lemma filter_twice {A} (P : A -> bool) l : List.filter P (List.filter P l) = List.filter P l.
Proof. induction l as [|a l IH]; [done|]. cbn. destruct (P a) eqn:E; cbn; rewrite ?E, IH; done. Qed.

Definition has_value (c : FilterCondition) : bool := truthy (trim (fc_value c)).

Lemma conditions_shown cs :
  List.filter has_value (match map condition_json (List.filter has_value cs) with
    | [] => [empty_condition]
    | l => map condition_of l
    end) = List.filter has_value cs.
Proof.
  pose proof (filter_twice has_value cs) as E. revert E. generalize (List.filter has_value cs). intros l E.
  destruct l as [|c l]; [done|]. rewrite <- E at 2. f_equal. cbn [map]. rewrite condition_read_back, map_map. f_equal.
  rewrite <- (map_id l) at 2. apply map_ext, condition_read_back.
Qed.

(** The form that a filter of these rules opens. *)
Lemma show_rules_value m cs folder rd st q :
  truthy m = true -> match folder with Some f => truthy f = true | None => True end ->
  form_rules (show_rules (rules_value m cs folder rd st) q) = rules_value m cs folder rd st.
Proof.
  intros Hm Hf. unfold form_rules. set (p := show_rules _ q).
  assert (E1 : fl_match p = m).
  { unfold p, show_rules. cbv zeta. change (str_field (rules_value _ _ _ _ _) "match") with m.
    unfold or_default. rewrite Hm. by repeat case_match. }
  assert (E2 : List.filter has_value (fl_conditions p) = List.filter has_value cs).
  { rewrite <- (conditions_shown cs). unfold p, show_rules. cbv zeta.
    change (member_list (rules_value _ _ _ _ _) "conditions") with (map condition_json (List.filter has_value cs)).
    by destruct (map condition_json _), (truthy (str_field (sub_object _ _) _)). }
  assert (E3 : (if fl_apply_move p then Some (fl_folder p) else None) = folder /\ fl_mark_read p = rd /\ fl_star p = st).
  { unfold p, show_rules. cbv zeta. destruct folder as [f|], rd, st;
      match goal with |- context [truthy ?x] => first [change x with f; rewrite Hf | change (truthy x) with false] end;
      split_and!; reflexivity. }
  destruct E3 as (-> & -> & ->). rewrite E1. unfold rules_value. change (fun c => truthy (trim (fc_value c))) with has_value.
  by rewrite E2.
Qed.

(** The builder's payload for a filter that is edited. *)
Lemma builder_keeps p q :
  truthy (fl_match p) = true -> (fl_apply_move p = true -> truthy (fl_folder p) = true) ->
  form_rules (show_rules (form_rules p) q) = form_rules p.
Proof.
  intros Hm Hf. apply (show_rules_value (fl_match p)); [done|].
  destruct (fl_apply_move p); [by apply Hf|done].
Qed.

Definition create_request (body : json) (s : App) : request :=
  api_fetch s (mailbox_path mailbox "/filters")
    {| i_method := Some (js "POST"); i_headers := []; i_credentials := None; i_body := stringified body |}.

Definition update_request (i : jstr) (body : json) (s : App) : request :=
  api_fetch s (item_path mailbox "/filters/" i)
    {| i_method := Some (js "PUT"); i_headers := []; i_credentials := None; i_body := stringified body |}.

Lemma run_fl_success w t (s : App) p msg :
  run w t (s, p) (fl_showSuccess msg) = (Ok tt, (s, set_fl_success None (set_fl_success (Some msg) p)), t).
Proof. done. Qed.

(** Saving an edited filter: one request, and the row of the reply takes its place. *)
Lemma run_save_edited w t s p i v :
  truthy (trim (fl_name p)) = true -> fl_editing p = Some i -> truthy i = true ->
  let q := update_request i (custom_payload p) s in
  api_reply (respond w t q) = Ok (Some v) -> v <> JNull ->
  exists p', run w t (s, p) (handleSaveCustomFilter mailbox) = (Ok tt, (s, p'), ask q t) /\
    fl_filters p' = map (fun f => if jeqb (fi_id f) (fi_id (filter_of v)) then filter_of v else f) (fl_filters p) /\
    fl_custom_open p' = false.
Proof.
  intros Hn He Hi q Er Hv. unfold handleSaveCustomFilter. rewrite run_page, Hn. cbn [negb].
  rewrite run_bind, run_on_page, run_finally, run_catch, run_bind. unfold save_custom. rewrite He. cbn [truthy_opt].
  rewrite Hi, run_bind, run_below. change (default [] (Some i)) with i. unfold updateFilter, send. rewrite run_apiRequest.
  cbv zeta. change (api_fetch s _ _) with q. rewrite Er. replace (reply_object (Some v)) with (Ok v) by by destruct v.
  rewrite bind_lift, run_bind, run_on_page, run_fl_success, run_on_page, run_on_page. eexists.
  split; [reflexivity|]. by split.
Qed.

Lemma run_save_new w t s p v :
  truthy (trim (fl_name p)) = true -> fl_editing p = None ->
  let q := create_request (custom_payload p) s in
  api_reply (respond w t q) = Ok (Some v) -> v <> JNull ->
  exists p', run w t (s, p) (handleSaveCustomFilter mailbox) = (Ok tt, (s, p'), ask q t) /\
    fl_filters p' = fl_filters p ++ [filter_of v] /\ fl_custom_open p' = false.
Proof.
  intros Hn He q Er Hv. unfold handleSaveCustomFilter. rewrite run_page, Hn. cbn [negb].
  rewrite run_bind, run_on_page, run_finally, run_catch, run_bind. unfold save_custom. rewrite He. cbn [truthy_opt].
  rewrite run_bind, run_below. unfold createFilter, send. rewrite run_apiRequest.
  cbv zeta. change (api_fetch s _ _) with q. rewrite Er. replace (reply_object (Some v)) with (Ok v) by by destruct v.
  rewrite bind_lift, run_bind, run_on_page, run_fl_success, run_on_page, run_on_page. eexists.
  split; [reflexivity|]. by split.
Qed.

(** A filter that is built, saved, opened again and saved.  Building posts its
    rules and puts the server's row at the end of the list; opening that row, in whatever
    state the form has got to meanwhile, and saving it unchanged posts the very same body. *)
Theorem filter_reopens_as_saved w t s p v w' t' s' p' v' :
  truthy (trim (fl_name p)) = true -> fl_editing p = None ->
  truthy (fl_match p) = true -> (fl_apply_move p = true -> truthy (fl_folder p) = true) ->
  api_reply (respond w t (create_request (custom_payload p) s)) = Ok (Some v) ->
  get v (js "rules_json") = Some (form_rules p) -> str_field v "name" = trim (fl_name p) ->
  truthy (str_field v "id") = true ->
  let q := update_request (str_field v "id") (custom_payload p) s' in
  api_reply (respond w' t' q) = Ok (Some v') -> v' <> JNull ->
  (exists p1, run w t (s, p) (handleSaveCustomFilter mailbox) = (Ok tt, (s, p1), ask (create_request (custom_payload p) s) t) /\
     fl_filters p1 = fl_filters p ++ [filter_of v] /\ fl_custom_open p1 = false) /\
  (exists p2, run w' t' (s', openEditCustomFilter (filter_of v) p') (handleSaveCustomFilter mailbox) = (Ok tt, (s', p2), ask q t') /\
     fl_custom_open p2 = false).
Proof.
  intros Hn He Hm Hf Er Ej En Hi q Er' Hv'.
  split; [apply run_save_new; try done; by intros ->|].
  set (p1 := openEditCustomFilter (filter_of v) p').
  assert (E : custom_payload p1 = custom_payload p /\ fl_name p1 = trim (fl_name p) /\ fl_editing p1 = Some (str_field v "id")).
  { unfold p1, openEditCustomFilter. cbn [fi_rules filter_of]. rewrite Ej. change (json_truthy (form_rules p)) with true.
    cbv iota zeta. set (p0 := set_fl_name _ _).
    assert (Ek : fl_name (show_rules (form_rules p) p0) = trim (fl_name p) /\
                 fl_editing (show_rules (form_rules p) p0) = Some (str_field v "id")).
    { rewrite <- En. unfold show_rules. by destruct (truthy (str_field (sub_object _ _) _)). }
    destruct Ek as [Ek Ei]. split_and!; [|exact Ek|exact Ei]. unfold custom_payload. cbn [fl_name set_fl_custom_open].
    change (form_rules (set_fl_custom_open true ?x)) with (form_rules x).
    rewrite Ek, trim_trim. by rewrite (builder_keeps p p0 Hm Hf). }
  destruct E as (Ep & Ename & Eid).
  destruct (run_save_edited w' t' s' p1 (str_field v "id") v') as (p2 & R & _ & Ho); try done.
  - by rewrite Ename, trim_trim.
  - by rewrite Ep.
  - exists p2. split; [by rewrite R, Ep|exact Ho].
Qed.

End Builder.

(** ** Concrete filters *)

#[local] Existing Instance sample_env.

Definition news_builder : Filters :=
  set_fl_name (js " News ") (set_fl_apply_move true (set_fl_mark_read true
    (set_fl_conditions [{| fc_field := js "subject"; fc_comparator := js "contains"; fc_value := js "digest" |}; empty_condition]
      new_filters))).

Definition news_reply : json :=
  JObj [str_member "id" (js "f1"); str_member "name" (js "News"); str_member "filter_type" (js "custom");
        (js "rules_json", form_rules news_builder); (js "is_active", JBool true)].

Definition serves_news : world := {| respond _ _ := json_reply news_reply; answer _ _ := true |}.

Lemma filter_reopens_as_saved_witness :
  exists p1 p2 t1 t2,
    run serves_news no_trace (sample_app, news_builder) (handleSaveCustomFilter (js "b1")) = (Ok tt, (sample_app, p1), t1) /\
    run serves_news no_trace (sample_app, openEditCustomFilter (filter_of news_reply) new_filters)
      (handleSaveCustomFilter (js "b1")) = (Ok tt, (sample_app, p2), t2) /\
    map req_body (sent t1) = map req_body (sent t2).
Proof.
  destruct (filter_reopens_as_saved (js "b1") serves_news no_trace sample_app news_builder news_reply serves_news no_trace
    sample_app new_filters news_reply) as ((p1 & R1 & _) & (p2 & R2 & _)).
  - reflexivity.
  - reflexivity.
  - reflexivity.
  - intros _. reflexivity.
  - vm_compute. reflexivity.
  - reflexivity.
  - vm_compute. reflexivity.
  - reflexivity.
  - vm_compute. reflexivity.
  - discriminate.
  - exists p1, p2. do 2 eexists. split; [exact R1|]. split; [exact R2|reflexivity].
Defined.

(** Labels of a rule's actions, which the client's interface declares, are not part of
    the form: saving the opened filter drops them. *)
Definition labelled_rules : json :=
  JObj [str_member "match" (js "all"); (js "conditions", JArr [condition_json {| fc_field := js "from"; fc_comparator := js "is";
          fc_value := js "a@b" |}]);
        (js "actions", JObj [(js "label_ids", JArr [JStr (js "l1")]); (js "star", JBool true)])].

Example editing_drops_labels :
  sub_object (form_rules (show_rules labelled_rules new_filters)) "actions" = JObj [(js "star", JBool true)].
Proof. vm_compute. reflexivity. Qed.
