(* ===== verification/Custody.v ===== *)
(** * Keys and accounts over a session

    What holds of the mailbox key, the connected accounts and the browser stores under
    the handlers of the session ([Session], [SignIn]), however they interleave. *)

From S2P Require Import Prelude JsString Encoding Json Display Wasm MessageCrypto Client Api AppState.
From S2P Require Import MailView Reading MailboxData Outbound ComposeMail Session SignIn.

(** ** The stored list of accounts *)

Definition account_units (a : ConnectedAccount) : Prop :=
  Forall is_unit (acc_id a) /\ Forall is_unit (acc_email a) /\ Forall is_unit (displayName a) /\
  Forall is_unit (acc_role a) /\ Forall is_unit (privacyMode a) /\ Forall is_unit (sessionToken a) /\
  Forall is_unit (mailboxSkHex a) /\ Forall is_unit (searchKeyHex a).

Lemma wf_account a : account_units a -> wf (account_json a) = true.
Proof.
  intros (?&?&?&?&?&?&?&?). unfold account_json, str_member. cbn [wf forallb fst snd].
  rewrite !bool_decide_eq_true_2 by (done || by_decide). done.
Qed.

Lemma account_of_json a : account_of (account_json a) = a.
Proof. by destruct a. Qed.

Lemma accounts_read_back l : Forall account_units l -> accounts_of (accounts_text l) = l.
Proof.
  intros Hl. unfold accounts_of, accounts_text. rewrite json_round_trip.
  - rewrite map_map. erewrite map_ext; [apply map_id|]. apply account_of_json.
  - cbn [wf]. apply forallb_forall. intros v (a & <- & Ha)%in_map_iff. apply wf_account.
    rewrite List.Forall_forall in Hl. auto.
Qed.

(** ** The writes of the session handlers *)

Section Writes.
Context `{Crypto} `{Unicode} `{Dates} `{Env}.

(** Neither the key nor the durable store changes. *)
Definition unrelated (s s' : App) : Prop :=
  mailboxKey (custody s') = mailboxKey (custody s) /\
  unlockedBoxId (custody s') = unlockedBoxId (custody s) /\ local s' = local s.

Context (W : App -> App -> Prop).
Hypothesis W_trans : forall a b c, W a b -> W b c -> W a c.
Hypothesis W_unrelated : forall s s', unrelated s s' -> W s s'.
Hypothesis W_load : forall s s', load_writes s s' -> W s s'.
Hypothesis W_key : forall s s' k i, Forall is_byte k ->
  mailboxKey (custody s') = Some k -> unlockedBoxId (custody s') = Some i -> local s' = local s -> W s s'.
Hypothesis W_lock : forall s s',
  mailboxKey (custody s') = None -> unlockedBoxId (custody s') = None -> local s' = local s -> W s s'.
Hypothesis W_accounts : forall l s s', unrelated s s' -> W s (save_accounts l s').

Lemma moves_unrelated f s : (forall s, unrelated s (f s)) -> moves W s (modify f).
Proof. intros Hf. split; [by apply W_unrelated|done]. Qed.

Lemma moves_load box s : moves W s (loadMailboxData box).
Proof. eapply moves_mono; [|apply moves_loadMailboxData]. exact W_load. Qed.

Lemma moves_lift_bind {A B} (r : outcome A) (f : A -> prog App B) s :
  (forall a, r = Ok a -> moves W s (f a)) -> moves W s (lift r ≫= f).
Proof. intros Hf. rewrite bind_lift. destruct r; [by apply Hf|done]. Qed.

(** Walk through a program whose single steps are known. *)
Ltac unrelated_write :=
  apply moves_unrelated; intros ?; unfold store_token; cbv zeta; repeat case_match; by split_and!.
Ltac walk_step :=
  lazymatch goal with
  | |- moves _ _ (lift _ ≫= _) => apply moves_lift_bind; intros ? ?
  | |- moves _ _ (_ ≫= _) => apply moves_bind; [|intros ? ?]
  | |- moves _ _ (pcatch _ _) => apply moves_catch; [|intros ? ?]
  | |- moves _ _ (lift _) => exact I
  | |- moves _ _ (mret _) => exact I
  | |- moves _ _ (pthrow _) => exact I
  | |- moves _ _ skip => exact I
  | |- moves _ _ (gets _) => exact I
  | |- moves _ _ wait => intros ?; exact I
  | |- moves _ _ (loadMailboxData _) => apply moves_load
  | |- moves _ _ (modify _) => unrelated_write
  | |- moves _ _ (match ?x with _ => _ end) => destruct x eqn:?
  | |- moves _ _ _ => progress cbv zeta
  end.
Ltac walk := repeat walk_step.

Lemma moves_install i sk skHex sKey s : Forall is_byte sk -> moves W s (modify (install_key i sk skHex sKey)).
Proof. intros Hb. split; [|done]. by eapply W_key. Qed.

Lemma moves_unwrap box password wrapped s : moves W s (unwrap_on_login box password wrapped).
Proof.
  unfold unwrap_on_login. cbn [wait mbind prog_bind pbind pcatch].
  intros s1. destruct (autoUnwrapMailboxKey password wrapped) as [sk|e] eqn:E; [|done].
  apply auto_unwrap_key in E as [_ E]. cbn [lift pbind pcatch mret prog_ret]. apply moves_catch; [|done].
  walk. by apply moves_install.
Qed.

Lemma moves_restore box s : moves W s (restore_key box).
Proof.
  unfold restore_key. apply moves_bind; [done|]. intros s0 s1. cbv zeta. destruct (truthy _); [|done].
  destruct (inline_hexToBytes _) as [bytes|e] eqn:E; walk.
  split; [|done]. apply inline_hex_bytes in E. eapply W_key; try done; by destruct (truthy _).
Qed.

Lemma moves_register user box keys token s : moves W s (modify (register_account user box keys token)).
Proof.
  split; [|done]. unfold register_account. cbv zeta. apply W_accounts. by destruct (truthy _).
Qed.

Lemma moves_bootstrap user password token s : moves W s (bootstrapSession user password token).
Proof.
  unfold bootstrapSession. apply moves_bind; [unrelated_write|]. intros _ s1.
  apply moves_bind; [apply talks_moves; unfold fetchMailboxes; auto with talks|]. intros v s2.
  walk; auto using moves_unwrap, moves_restore, moves_register.
Qed.

Lemma moves_fetch_user s : moves W s (fetchCurrentUser (S:=App)).
Proof. apply talks_moves. unfold fetchCurrentUser. auto with talks. Qed.

Lemma switch_key_write a s : W s (switch_key a s).
Proof.
  unfold switch_key. destruct (truthy _); [|by apply W_lock].
  destruct (inline_hexToBytes _) as [bytes|e] eqn:E; [|by apply W_unrelated].
  apply inline_hex_bytes in E. by eapply W_key.
Qed.

Lemma moves_switch a s : moves W s (handleSwitchAccount a).
Proof.
  unfold handleSwitchAccount. apply moves_bind; [unrelated_write|]. intros _ s1.
  apply moves_bind; [|intros; unrelated_write]. apply moves_catch; [|done].
  apply moves_bind; [|intros; apply moves_bind; [apply moves_load|intros; unrelated_write]].
  split; [|done]. unfold switch_local. cbv zeta.
  eapply W_trans; [apply W_unrelated|eapply W_trans; [apply (switch_key_write a)|]].
  - instantiate (1 := if truthy (sessionToken a) then set_item token_item (sessionToken a) s1 else s1).
    by destruct (truthy _).
  - by apply W_accounts.
Qed.

Lemma moves_added a s : moves W s (handleAccountAdded a).
Proof.
  unfold handleAccountAdded. apply moves_bind; [split; [by apply W_accounts|done]|]. intros _ s1.
  apply moves_bind; [split; [apply moves_switch|done]|]. intros. unrelated_write.
Qed.

Lemma restore_accounts_unrelated s : unrelated s (restore_accounts s).
Proof. unfold restore_accounts. repeat (case_match; try done). Qed.

Lemma impersonation_unrelated q s : unrelated s (start_impersonation q s).
Proof. unfold start_impersonation. repeat (case_match; try done). Qed.

Lemma moves_mount q s : moves W s (onMount q).
Proof.
  unfold onMount. destruct (l_setup q); [unrelated_write|].
  apply moves_bind; [split; [|done]|].
  - eapply W_trans; apply W_unrelated; [apply impersonation_unrelated|apply restore_accounts_unrelated].
  - intros _ s1. walk; auto using moves_fetch_user, moves_bootstrap.
Qed.

Lemma moves_login s : moves W s handleLogin.
Proof.
  unfold handleLogin, login_body, login_error. walk; auto using moves_fetch_user, moves_bootstrap.
  apply talks_moves. unfold login. auto with talks.
Qed.

Lemma moves_verify s : moves W s handleVerifyLogin2FA.
Proof.
  unfold handleVerifyLogin2FA, verify_body, two_factor_error. walk; auto using moves_bootstrap.
  apply talks_moves. unfold verifyLogin2FA. auto with talks.
Qed.

Lemma moves_switch_method m s : moves W s (handleSwitchLogin2FAMethod m).
Proof.
  unfold handleSwitchLogin2FAMethod, two_factor_error. walk.
  apply talks_moves. unfold sendLogin2FACode. auto with talks.
Qed.

Lemma open_vault_write c s : W s (open_vault c s).
Proof.
  unfold open_vault. repeat (case_match; try by apply W_unrelated).
  all: match goal with E : inline_hexToBytes _ = Ok _ |- _ => apply inline_hex_bytes in E end.
  all: by eapply W_key.
Qed.

Lemma moves_passkey b auth s : moves W s (handlePasskeyLogin b auth).
Proof.
  unfold handlePasskeyLogin, passkey_body, login_error. walk; auto using moves_fetch_user, moves_bootstrap.
  1: by apply talks_moves; unfold fetchPasskeyLoginOptions; destruct (truthy_opt _); auto with talks.
  1: by apply talks_moves; unfold loginWithPasskey; auto with talks.
  all: split; [|done]; eapply W_trans; [apply W_unrelated|apply open_vault_write];
    unfold store_token; cbv zeta; by destruct (truthy _).
Qed.

Lemma moves_self_heal f i pw s : moves W s (self_heal f i pw).
Proof.
  unfold self_heal. walk. apply talks_moves. unfold reactivateHistoricalKeys. auto with talks.
Qed.

Lemma moves_unlock f s : moves W s (handleUnlock f).
Proof.
  unfold handleUnlock, unlock_body, login_error. walk; auto using moves_bootstrap, moves_self_heal.
  apply talks_moves. unfold login. auto with talks.
Qed.

Lemma moves_unlock_recovery s : moves W s handleUnlockWithRecovery.
Proof.
  unfold handleUnlockWithRecovery, unlock_with_phrase, login_error. walk;
    (apply moves_install; eapply recovery_unwrap_key; eassumption).
Qed.

Hypothesis W_forget : forall s s', mailboxKey (custody s') = mailboxKey (custody s) ->
  unlockedBoxId (custody s') = unlockedBoxId (custody s) -> local s' = delete accounts_item (local s) -> W s s'.

Lemma moves_full_logout i s : moves W s (handleLogout i true).
Proof.
  unfold handleLogout. apply moves_bind; [done|]. intros s0 s1. cbv zeta. cbn [orb].
  apply moves_bind; [split; [by apply W_forget|done]|]. intros _ s2. apply moves_bind.
  - apply moves_catch; [|done]. apply talks_moves. unfold logout. auto with talks.
  - intros _ s3. split; [|done]. by apply W_lock.
Qed.

Hypothesis W_remaining : forall l s, W s
  (on_custody (set_connectedAccounts l) (set_local_item accounts_item (accounts_text l)
    (set_item accounts_item (accounts_text l) s))).

Lemma moves_revoke token s : moves W s (revoke_session token).
Proof. apply talks_moves. unfold revoke_session. auto with talks. Qed.

Lemma moves_logout i all s : moves W s (handleLogout i all).
Proof.
  pose proof (moves_full_logout i s) as Hf. unfold handleLogout in *.
  apply moves_bind; [done|]. intros s0 s1. cbv zeta.
  destruct (_ || _).
  - apply moves_bind; [split; [by apply W_forget|done]|]. intros _ s2. apply moves_bind.
    + apply moves_catch; [|done]. apply talks_moves. unfold logout. auto with talks.
    + intros _ s3. split; [|done]. by apply W_lock.
  - walk; auto using moves_switch, moves_revoke.
    all: first [split; [apply W_remaining|done] | unrelated_write].
Qed.

End Writes.

(** ** Every execution *)

Section Executions.
Context `{Crypto} `{Unicode} `{Dates} `{Env}.

(** The handlers of the session other than signing out. *)
Inductive session_handler : prog App unit -> Prop :=
| on_mount q : session_handler (onMount q)
| on_login_form : session_handler handleLogin
| on_verify : session_handler handleVerifyLogin2FA
| on_method m : session_handler (handleSwitchLogin2FAMethod m)
| on_cancel : session_handler (modify (on_login handleCancelLogin2FA))
| on_passkey b auth : session_handler (handlePasskeyLogin b auth)
| on_unlock f : session_handler (handleUnlock f)
| on_unlock_phrase : session_handler handleUnlockWithRecovery
| on_switch a : session_handler (handleSwitchAccount a)
| on_added a : session_handler (handleAccountAdded a)
| on_other_tab k v : session_handler (modify (handleStorageChange k v))
| on_exit : session_handler handleExitImpersonation
| on_load box : session_handler (loadMailboxData box)
| on_lock : session_handler (modify lockMailbox)
| on_sign_out i : session_handler (handleLogout i true).

(** ... and signing out of one of several accounts. *)
Inductive any_session_handler : prog App unit -> Prop :=
| any_of h : session_handler h -> any_session_handler h
| on_leave i all : any_session_handler (handleLogout i all).

Section Moves.
Context (W : App -> App -> Prop) `{!PreOrder W}.
Context (W_unrelated : forall s s', unrelated s s' -> W s s')
  (W_load : forall s s', load_writes s s' -> W s s')
  (W_key : forall s s' k i, Forall is_byte k ->
    mailboxKey (custody s') = Some k -> unlockedBoxId (custody s') = Some i -> local s' = local s -> W s s')
  (W_lock : forall s s',
    mailboxKey (custody s') = None -> unlockedBoxId (custody s') = None -> local s' = local s -> W s s')
  (W_accounts : forall l s s', unrelated s s' -> W s (save_accounts l s'))
  (W_forget : forall s s', mailboxKey (custody s') = mailboxKey (custody s) ->
    unlockedBoxId (custody s') = unlockedBoxId (custody s) -> local s' = delete accounts_item (local s) -> W s s').

Lemma session_moves h s : session_handler h -> moves W s h.
Proof.
  assert (Wt : forall a b c, W a b -> W b c -> W a c) by (intros a b c; apply transitivity).
  destruct 1; eauto using moves_mount, moves_login, moves_verify, moves_switch_method, moves_passkey, moves_unlock,
    moves_unlock_recovery, moves_switch, moves_added, moves_load, moves_full_logout.
  - split; [by apply W_unrelated|done].
  - split; [apply W_unrelated|done]. unfold handleStorageChange. by repeat case_match.
  - unfold handleExitImpersonation. apply moves_bind; [split; [by apply W_unrelated|done]|].
    intros _ s1. apply moves_catch; [|done]. apply talks_moves. unfold logout. auto with talks.
  - split; [by apply W_lock|done].
Qed.

End Moves.

(** *** The key and the mailbox it belongs to *)

(** The key in memory is a string of bytes, and there is one exactly when a mailbox is
    marked as unlocked. *)
Definition Custody_ok (c : Custody) : Prop :=
  (mailboxKey c = None <-> unlockedBoxId c = None) /\
  forall k, mailboxKey c = Some k -> Forall is_byte k.

Definition keeps_custody (s s' : App) : Prop := Custody_ok (custody s) -> Custody_ok (custody s').

#[local] Instance keeps_custody_preorder : PreOrder keeps_custody.
Proof. split; unfold keeps_custody; [intros s|intros s1 s2 s3]; tauto. Qed.

Lemma same_custody s s' :
  mailboxKey (custody s') = mailboxKey (custody s) -> unlockedBoxId (custody s') = unlockedBoxId (custody s) ->
  keeps_custody s s'.
Proof. intros E1 E2. unfold keeps_custody, Custody_ok. by rewrite E1, E2. Qed.

Lemma load_custody s s' : load_writes s s' ->
  mailboxKey (custody s') = mailboxKey (custody s) /\ unlockedBoxId (custody s') = unlockedBoxId (custody s) /\
  searchKey (custody s') = searchKey (custody s).
Proof.
  intros [E]. split_and!;
    [apply (f_equal mailboxKey) in E|apply (f_equal unlockedBoxId) in E|apply (f_equal searchKey) in E]; exact E.
Qed.

Lemma any_session_moves h s : any_session_handler h -> moves keeps_custody s h.
Proof.
  assert (Hu : forall s s', unrelated s s' -> keeps_custody s s') by (intros s1 s2 (E1 & E2 & _); by apply same_custody).
  assert (Hl : forall s s', load_writes s s' -> keeps_custody s s')
    by (intros s1 s2 (E1 & E2 & _)%load_custody; by apply same_custody).
  assert (Hk : forall s s' k i, Forall is_byte k -> mailboxKey (custody s') = Some k ->
    unlockedBoxId (custody s') = Some i -> local s' = local s -> keeps_custody s s').
  { intros s1 s2 k i Hb E1 E2 _ _. unfold Custody_ok. rewrite E1, E2. split; [done|by intros ? [= <-]]. }
  assert (Hn : forall s s', mailboxKey (custody s') = None -> unlockedBoxId (custody s') = None ->
    local s' = local s -> keeps_custody s s') by (intros s1 s2 E1 E2 _ _; unfold Custody_ok; by rewrite E1, E2).
  assert (Ha : forall l s s', unrelated s s' -> keeps_custody s (save_accounts l s'))
    by (intros l s1 s2 (E1 & E2 & _); by apply same_custody).
  assert (Hf : forall s s', mailboxKey (custody s') = mailboxKey (custody s) ->
    unlockedBoxId (custody s') = unlockedBoxId (custody s) -> local s' = delete accounts_item (local s) ->
    keeps_custody s s') by (intros; by apply same_custody).
  destruct 1 as [h Hh|i all]; [apply session_moves; auto; apply _|].
  assert (Wt : forall a b c, keeps_custody a b -> keeps_custody b c -> keeps_custody a c)
    by (intros a b c; apply transitivity).
  apply moves_logout; auto. intros l s0. by apply same_custody.
Qed.

(** C7.  A type for the key: in every execution of the session's handlers - loading,
    signing in by any method, unlocking, switching, signing out, locking - however they
    interleave, the mailbox key is a string of bytes, and it is there exactly when some
    mailbox is marked as unlocked. *)
Theorem key_is_typed c c' :
  tasks c = [] -> Custody_ok (custody (state c)) -> reachable any_session_handler c c' ->
  Custody_ok (custody (state c')).
Proof.
  intros E Hok Hr. edestruct (rely_guarantee keeps_custody any_session_handler c c') as [HR _]; [|..].
  - intros h s Hh. apply (moves_respects keeps_custody); [apply _|done|by apply any_session_moves].
  - rewrite E. constructor.
  - done.
  - by apply HR.
Qed.

(** *** The durable store holds no keys *)

Definition keyless (s : App) : Prop :=
  forall text, local s !! accounts_item = Some text ->
  exists l, text = accounts_text (map without_keys l).

Definition keeps_keyless (s s' : App) : Prop := keyless s -> keyless s'.

#[local] Instance keeps_keyless_preorder : PreOrder keeps_keyless.
Proof. split; unfold keeps_keyless; [intros s|intros s1 s2 s3]; tauto. Qed.

Lemma same_accounts_item s s' : local s' !! accounts_item = local s !! accounts_item -> keeps_keyless s s'.
Proof. intros E. unfold keeps_keyless, keyless. by rewrite E. Qed.

(** C8.  Keys stay in the tab: in every execution of the session's handlers except
    signing out of one of several accounts, the accounts list in the durable store
    carries neither mailbox keys nor search keys. *)
Theorem durable_store_has_no_keys c c' :
  tasks c = [] -> keyless (state c) -> reachable session_handler c c' -> keyless (state c').
Proof.
  intros E Hok Hr. edestruct (rely_guarantee keeps_keyless session_handler c c') as [HR _]; [|..].
  - intros h s Hh. apply (moves_respects keeps_keyless); [apply _|done|]. apply session_moves; [apply _| | | | | | |done].
    + intros s1 s2 (_ & _ & El). apply same_accounts_item. by rewrite El.
    + intros s1 s2 Hl. apply same_accounts_item. apply (lw_local _ _ Hl). by_decide.
    + intros s1 s2 k i _ _ _ El. apply same_accounts_item. by rewrite El.
    + intros s1 s2 _ _ El. apply same_accounts_item. by rewrite El.
    + intros l s1 s2 _ _ text. cbn. rewrite lookup_insert_eq. intros [= <-]. by exists l.
    + intros s1 s2 _ _ El _ text. by rewrite El, lookup_delete_eq.
  - rewrite E. constructor.
  - done.
  - by apply HR.
Qed.

End Executions.

(** ** Concrete runs *)

#[local] Existing Instances toy_crypto toy_laws ascii_unicode digit_dates sample_env.

(** A page that starts, is locked and then signed out, offline. *)
Definition quiet_page : config App := {| state := sample_app; tasks := [] |}.

Lemma key_is_typed_witness :
  Custody_ok (custody (state (fire true (handleLogout None true) (fire true (modify lockMailbox) quiet_page)))).
Proof.
  apply (key_is_typed quiet_page); [reflexivity|split; [done|intros k E; discriminate E]|].
  eapply fire_reachable; [apply any_of, on_lock|]. eapply fire_reachable; [apply (on_leave None true)|]. apply rtc_refl.
Defined.

Lemma durable_store_has_no_keys_witness :
  keyless (state (wake 0 true (fun _ => NetworkFailure (JsError [] None)) (fire true (handleLogout None true) quiet_page))).
Proof.
  apply (durable_store_has_no_keys quiet_page); [reflexivity|intros text E; discriminate E|].
  eapply fire_reachable; [apply on_sign_out|]. eapply wake_reachable. apply rtc_refl.
Defined.
