(* ===== verification/Accounts.v ===== *)
(** * Accounts over a page's life

    What the handlers of [Session] achieve when they run: signing out, keeping the key
    over a reload of the page and behind a passkey, and changing between connected
    accounts. *)

From S2P Require Import Prelude JsString Encoding Json Display Wasm MessageCrypto Client Page Api AppState.
From S2P Require Import MailView Reading MailboxData Outbound ComposeMail Session SignIn Security Custody.

(** ** Signing out *)

Section SignOut.
Context `{Crypto} `{Unicode} `{Dates} `{Env}.

Definition logout_request (s : App) : request :=
  api_fetch s (js "/v1/auth/logout")
    {| i_method := Some (js "POST"); i_headers := []; i_credentials := None; i_body := NoBody |}.

(** What signing out empties: the session's user, mailbox and keys, the accounts, the
    tokens and the stored key items, the mail on display, the contacts and the form of a
    message. *)
Record signed_out (s : App) : Prop := {
  so_user : currentUser (custody s) = None /\ selectedMailbox (custody s) = None /\ mailboxes (custody s) = [] /\
            isImpersonating (custody s) = false;
  so_keys : mailboxKey (custody s) = None /\ searchKey (custody s) = None /\ unlockedBoxId (custody s) = None;
  so_accounts : connectedAccounts (custody s) = [] /\ session s !! accounts_item = None /\
                local s !! accounts_item = None;
  so_tokens : session s !! token_item = None /\ session s !! impersonation_item = None;
  so_items k : is_key_item k = true -> session s !! k = None;
  so_mail : messages (mail s) = [] /\ selectedMsg (mail s) = None /\ customFolders (mail s) = [] /\
            labels (mail s) = [];
  so_reading : decryptedContent (reading s) = None /\ messagePlaintext (reading s) = None /\
               editablePlaintext (reading s) = None;
  so_contacts : contacts (contactsPane s) = [] /\ contactName (contactsPane s) = [] /\
                contactEmail (contactsPane s) = [] /\ contactNotes (contactsPane s) = [];
  so_compose : composeOpen (compose s) = false /\ composeTo (compose s) = [] /\ composeSubject (compose s) = [] /\
               composeBody (compose s) = [] /\ composeBodyHtml (compose s) = [] /\
               composeAttachments (compose s) = [] /\ editingDraft (compose s) = None;
  so_password : loginPassword (loginForm s) = [];
}.

(** What signing out does not touch: the password kept for the second factor, the
    attachments decrypted last, every other item of the tab's store - the decrypted
    subjects and snippets among them - and of the durable one. *)
Record outlives_sign_out (s s' : App) : Prop := {
  ol_password : cachedPassword (loginForm s') = cachedPassword (loginForm s);
  ol_attachments : messageAttachments (reading s') = messageAttachments (reading s);
  ol_session k : k <> accounts_item -> k <> token_item -> k <> impersonation_item -> is_key_item k = false ->
    session s' !! k = session s !! k;
  ol_previews i : session s' !! subject_key i = session s !! subject_key i /\
                  session s' !! snippet_key i = session s !! snippet_key i;
  ol_local k : k <> accounts_item -> local s' !! k = local s !! k;
}.

Lemma forget_session_lookup s k :
  session (forget_session s) !! k =
  if bool_decide (k = accounts_item \/ k = token_item \/ k = impersonation_item) || is_key_item k
  then None else session s !! k.
Proof.
  unfold forget_session. cbn [session set_session on_custody set_custody remove_local_item set_local remove_item].
  rewrite map_lookup_filter.
  case_bool_decide as Hk.
  - cbn [orb]. destruct Hk as [->|[->| ->]]; rewrite ?lookup_delete_eq; [done|..];
      rewrite lookup_delete_ne by (vm_compute; congruence); rewrite ?lookup_delete_eq; [done|].
    rewrite lookup_delete_ne by (vm_compute; congruence). by rewrite lookup_delete_eq.
  - cbn [orb]. rewrite !lookup_delete_ne by naive_solver.
    destruct (session s !! k); cbn; destruct (is_key_item k); done.
Qed.

Lemma forget_session_keeps s k :
  k <> accounts_item -> k <> token_item -> k <> impersonation_item -> is_key_item k = false ->
  session (forget_session s) !! k = session s !! k.
Proof.
  intros Ha Ht Hi Hk. rewrite forget_session_lookup, Hk, orb_false_r. case_bool_decide; [naive_solver|done].
Qed.

Lemma forget_session_drops s k :
  k = accounts_item \/ k = token_item \/ k = impersonation_item \/ is_key_item k = true ->
  session (forget_session s) !! k = None.
Proof.
  intros Hk. rewrite forget_session_lookup.
  destruct (_ || _) eqn:E; [done|]. apply orb_false_iff in E as [E1 E2]. apply bool_decide_eq_false in E1.
  rewrite E2 in Hk. naive_solver.
Qed.

Lemma session_is_closed s : signed_out (close_session (forget_session s)).
Proof.
  constructor; try done; try (intros; apply (forget_session_drops s); tauto);
    split_and!; try done; try (apply (forget_session_drops s); tauto). apply lookup_delete_eq.
Qed.

Lemma session_outlived s : outlives_sign_out s (close_session (forget_session s)).
Proof.
  constructor; try done.
  - intros k. apply (forget_session_keeps s).
  - intros i. split; apply (forget_session_keeps s); done.
  - intros k Hk. by apply lookup_delete_ne.
Qed.

Lemma run_sign_out i w t s :
  run w t s (handleLogout i true) =
  (Ok tt, close_session (forget_session s), ask (logout_request (forget_session s)) t).
Proof.
  unfold handleLogout. rewrite run_bind. cbn [gets run]. cbv zeta. cbn [orb].
  rewrite run_bind. cbn [modify run]. set (s1 := forget_session s).
  rewrite run_bind, run_catch. unfold logout, void, send. rewrite run_bind, run_apiRequest. cbv zeta.
  change (api_fetch s1 _ _) with (logout_request s1).
  by destruct (api_reply _).
Qed.


End SignOut.

(** ** Reloading the page *)

Section Reload.
Context `{CryptoLaws} `{Unicode} `{Dates} `{Env}.

(** A page that starts over with the browser's stores. *)
Definition reload (blank s : App) : App := set_local (local s) (set_session (session s) blank).

(** What the server answers for an organization's mailboxes. *)
Definition boxes_reply (w : world) (org : jstr) (boxes : list Mailbox) : Prop :=
  forall t s, exists v l t', run w t s (fetchMailboxes (S:=App) org) = (Ok v, s, t') /\
    items v = Ok l /\ map box_of l = boxes.

(** The part of [bootstrapSession] that looks for the key. *)
Definition find_key (user : UserMe) (box : Mailbox) (password : option jstr) : prog App (jstr * jstr) :=
  let wrappedSk := or_opt (u_wrapped_sk_user user) (mb_wrapped_sk_user box) in
  if truthy_opt password then
    if truthy_opt wrappedSk then unwrap_on_login box (default [] password) (default [] wrappedSk) else mret ([], [])
  else restore_key box.

Lemma run_bootstrap w t s user password token boxes box keys s2 :
  boxes_reply w (u_org_id user) boxes -> target_box user boxes (custody s) = Some box ->
  (forall t, exists t', run w t (select_box box (on_custody (set_currentUser (Some user)) s))
     (find_key user box password) = (Ok keys, s2, t')) ->
  exists s' t', run w t s (bootstrapSession user password token) = (Ok tt, s', t') /\
    load_writes (register_account user box keys token s2) s'.
Proof.
  intros Hb Ht Hk. unfold bootstrapSession. rewrite run_bind. cbn [modify run].
  set (s1 := on_custody _ s). destruct (Hb t s1) as (v & l & t1 & E & Ei & Em).
  rewrite run_bind, E. cbv beta iota. rewrite Ei, bind_lift, run_bind. cbn [gets run].
  change (target_box user (map box_of l) (custody s1)) with (target_box user (map box_of l) (custody s)).
  rewrite Em, Ht, run_bind. cbn [modify run]. cbv zeta. fold (find_key user box password).
  destruct (Hk t1) as [t2 E2]. fold s1 in E2. rewrite run_bind, E2. cbv beta iota.
  rewrite run_bind. cbn [modify run]. apply run_loadMailboxData.
Qed.

Lemma register_account_lookup user box keys token s k :
  k <> accounts_item -> k <> token_item -> session (register_account user box keys token s) !! k = session s !! k.
Proof.
  intros Ha Ht. unfold register_account, save_accounts. cbv zeta.
  destruct (truthy _); cbn [session on_custody set_custody set_local_item set_local set_item set_session];
    by rewrite ?lookup_insert_ne by congruence.
Qed.

Lemma register_account_custody user box keys token s :
  exists l, custody (register_account user box keys token s) = set_connectedAccounts l (custody s).
Proof. unfold register_account, save_accounts. cbv zeta. destruct (truthy _); by eexists. Qed.

Lemma key_items_apart i :
  (sk_item i <> accounts_item /\ sk_item i <> token_item /\ is_preview_item (sk_item i) = false) /\
  (skey_item i <> accounts_item /\ skey_item i <> token_item /\ is_preview_item (skey_item i) = false) /\
  sk_item i <> skey_item i.
Proof. split_and!; (discriminate || reflexivity). Qed.

(** What is known of a page after its key was found. *)
Lemma after_load user box keys token s s' k sKey :
  load_writes (register_account user box keys token s) s' ->
  mailboxKey (custody s) = Some k -> searchKey (custody s) = Some sKey -> unlockedBoxId (custody s) = Some (mb_id box) ->
  session s !! sk_item (mb_id box) = Some (bytesToHex k) -> session s !! skey_item (mb_id box) = Some sKey ->
  mailboxKey (custody s') = Some k /\ searchKey (custody s') = Some sKey /\
  unlockedBoxId (custody s') = Some (mb_id box) /\
  session s' !! sk_item (mb_id box) = Some (bytesToHex k) /\ session s' !! skey_item (mb_id box) = Some sKey.
Proof.
  intros Hl Ek Es Ei E1 E2. pose proof (load_custody _ _ Hl) as (L1 & L2 & L3).
  destruct (register_account_custody user box keys token s) as [l El].
  rewrite El in L1, L2, L3. cbn in L1, L2, L3.
  destruct (key_items_apart (mb_id box)) as ((A1 & A2 & A3) & (B1 & B2 & B3) & _).
  rewrite L1, L2, L3, (lw_session _ _ Hl _ A3), (lw_session _ _ Hl _ B3), !register_account_lookup by done.
  done.
Qed.

Lemma run_unwrap box password wrapped sk sKey w t s :
  autoUnwrapMailboxKey password wrapped = Ok sk -> wasm_derive_search_key (cp_bytesToHex sk) = Ok sKey ->
  run w t s (unwrap_on_login box password wrapped) =
  (Ok (cp_bytesToHex sk, sKey), install_key (mb_id box) sk (cp_bytesToHex sk) sKey s, t).
Proof.
  intros E1 E2. unfold unwrap_on_login. rewrite run_bind, run_catch, run_bind. cbn [wait run].
  rewrite E1, bind_lift. cbn [run mret prog_ret]. rewrite E2, run_catch, bind_lift, run_bind. done.
Qed.

Lemma run_restore box k sKey w t s :
  Forall is_byte k -> k <> [] -> sKey <> [] ->
  session s !! sk_item (mb_id box) = Some (bytesToHex k) -> session s !! skey_item (mb_id box) = Some sKey ->
  run w t s (restore_key box) =
  (Ok (bytesToHex k, sKey),
   on_custody (fun c => set_unlockedBoxId (Some (mb_id box)) (set_searchKey (Some sKey) (set_mailboxKey (Some k) c))) s, t).
Proof.
  intros Hb Hn Hs E1 E2. unfold restore_key. rewrite run_bind. cbn [gets run]. cbv zeta. rewrite E1, E2.
  change (default [] (Some (bytesToHex k))) with (bytesToHex k). change (default [] (Some sKey)) with sKey.
  assert (Ht : truthy (bytesToHex k) = true).
  { pose proof (hex_not_empty k Hb Hn). by destruct (bytesToHex k). }
  assert (Hs' : truthy sKey = true) by by destruct sKey.
  rewrite Ht, Hs', inline_hex_round_trip, run_bind by done. done.
Qed.

(** C10.  The key survives a reload of the page, and only through the tab's own store:
    after a sign-in whose password opens the wrapped key, a new page that starts from
    the stores the first one left, and signs in without a password, holds the same
    mailbox key and search key for the same mailbox. *)
Theorem reload_restores_the_key w t s user password token boxes box sk blank w' t' user' token' boxes' box' :
  boxes_reply w (u_org_id user) boxes -> target_box user boxes (custody s) = Some box ->
  password <> [] -> truthy_opt (or_opt (u_wrapped_sk_user user) (mb_wrapped_sk_user box)) = true ->
  autoUnwrapMailboxKey password (default [] (or_opt (u_wrapped_sk_user user) (mb_wrapped_sk_user box))) = Ok sk ->
  boxes_reply w' (u_org_id user') boxes' -> target_box user' boxes' (custody blank) = Some box' ->
  mb_id box' = mb_id box ->
  exists s1 t1 s2 t2 sKey,
    run w t s (bootstrapSession user (Some password) token) = (Ok tt, s1, t1) /\
    run w' t' (reload blank s1) (bootstrapSession user' None token') = (Ok tt, s2, t2) /\
    mailboxKey (custody s1) = Some sk /\ searchKey (custody s1) = Some sKey /\
    mailboxKey (custody s2) = Some sk /\ searchKey (custody s2) = Some sKey /\
    unlockedBoxId (custody s2) = Some (mb_id box).
Proof.
  intros Hb Ht Hp Hw Ek Hb' Ht' Hi. pose proof (auto_unwrap_key _ _ _ Ek) as [Hlen Hbytes].
  assert (Es : wasm_derive_search_key (cp_bytesToHex sk) = Ok (bytesToHex (hkdf_search sk))).
  { unfold wasm_derive_search_key, hex_decode_32. rewrite cp_bytesToHex_eq, hex_decode_encode by done. ok_bind.
    by rewrite exactly_ok. }
  set (sKey := bytesToHex (hkdf_search sk)) in *.
  assert (Hs : sKey <> []).
  { destruct (hkdf_search_key sk) as [Hl Hb2]. apply hex_not_empty; [done|]. by destruct (hkdf_search sk). }
  destruct (run_bootstrap w t s user (Some password) token boxes box (cp_bytesToHex sk, sKey)
    (install_key (mb_id box) sk (cp_bytesToHex sk) sKey (select_box box (on_custody (set_currentUser (Some user)) s))))
    as (s1 & t1 & R1 & L1); [done|done| |].
  { intros t0. exists t0. unfold find_key. cbv zeta. rewrite Hw.
    replace (truthy_opt (Some password)) with true by by destruct password. by apply run_unwrap. }
  destruct (key_items_apart (mb_id box)) as (_ & _ & Hne).
  destruct (after_load _ _ _ _ _ _ sk sKey L1) as (K1 & S1 & _ & I1 & J1); try done.
  { unfold install_key. cbn [session set_item set_session]. rewrite lookup_insert_ne by done.
    rewrite lookup_insert_eq. by rewrite cp_bytesToHex_eq. }
  { unfold install_key. cbn [session set_item set_session]. by rewrite lookup_insert_eq. }
  destruct (run_bootstrap w' t' (reload blank s1) user' None token' boxes' box' (bytesToHex sk, sKey)
    (on_custody (fun c => set_unlockedBoxId (Some (mb_id box')) (set_searchKey (Some sKey) (set_mailboxKey (Some sk) c)))
      (select_box box' (on_custody (set_currentUser (Some user')) (reload blank s1))))) as (s2 & t2 & R2 & L2); [done|done| |].
  { intros t0. exists t0. unfold find_key. cbv zeta. cbn [truthy_opt]. apply run_restore; try done; try by rewrite Hi.
    by intros ->. }
  destruct (after_load _ _ _ _ _ _ sk sKey L2) as (K2 & S2 & U2 & _); try done; [by rewrite Hi..|].
  exists s1, t1, s2, t2, sKey. rewrite Hi in U2. done.
Qed.

End Reload.

(** ** The key behind a passkey *)

Section Passkey.
Context `{CryptoLaws} `{Unicode} `{Dates} `{Env}.
Variable props : SecurityProps.

(** The address the form asks the server's options for. *)
Definition typed_email (s : App) : option jstr := or_none (trim (loginEmail (loginForm s))).

(** A server that offers options on which the browser answers with the assertion [a],
    accepts the credential [credId], and then knows the user and the mailboxes. *)
Record lets_in (w : world) (email : option jstr) (authenticate : Authenticator) (a : Assertion) (credId : jstr)
    (user : UserMe) (boxes : list Mailbox) : Prop := {
  li_options t s : exists v creds challengeText challenge t',
    run w t s (fetchPasskeyLoginOptions (S:=App) email) = (Ok (Some v), s, t') /\
    v <> JNull /\ allowed_credentials v = Ok creds /\ get v (js "challenge") = Some (JStr challengeText) /\
    base64URLToBuffer challengeText = Ok challenge /\ authenticate challenge creds = Ok (Some a);
  li_login t s body : str_field body "credential_id" = credId -> exists r t',
    run w t s (loginWithPasskey (S:=App) body) = (Ok (Some r), s, t') /\ r <> JNull;
  li_user t s : exists u t',
    run w t s (fetchCurrentUser (S:=App)) = (Ok (Some u), s, t') /\ json_truthy u = true /\ user_of u = user;
  li_boxes : boxes_reply w (u_org_id user) boxes }.

Lemma not_null v : v <> JNull -> reply_object (Some v) = Ok v.
Proof. by destruct v. Qed.

Lemma run_restore_key box k s :
  Forall is_byte k -> k <> [] -> session s !! sk_item (mb_id box) = Some (bytesToHex k) ->
  exists keys s', (forall w t, run w t s (restore_key box) = (Ok keys, s', t)) /\
    mailboxKey (custody s') = Some k /\ unlockedBoxId (custody s') = Some (mb_id box).
Proof.
  intros Hb Hn E.
  assert (Ht : truthy (bytesToHex k) = true).
  { pose proof (hex_not_empty k Hb Hn). by destruct (bytesToHex k). }
  exists (bytesToHex k, default [] (session s !! skey_item (mb_id box))). eexists. split.
  { intros w t. unfold restore_key. rewrite run_bind. cbn [gets run]. cbv zeta. rewrite E.
    change (default [] (Some (bytesToHex k))) with (bytesToHex k).
    rewrite Ht, inline_hex_round_trip, run_bind by done. reflexivity. }
  cbn [custody on_custody set_custody]. by destruct (truthy (default [] (session s !! skey_item (mb_id box)))).
Qed.

(** A session that starts without a password, in a tab whose store holds the key. *)
Lemma bootstrap_restores w t s user token boxes box k :
  boxes_reply w (u_org_id user) boxes -> target_box user boxes (custody s) = Some box ->
  Forall is_byte k -> k <> [] -> session s !! sk_item (mb_id box) = Some (bytesToHex k) ->
  exists s' t', run w t s (bootstrapSession user None token) = (Ok tt, s', t') /\
    mailboxKey (custody s') = Some k /\ unlockedBoxId (custody s') = Some (mb_id box).
Proof.
  intros Hb Ht Hk Hn E.
  destruct (run_restore_key box k (select_box box (on_custody (set_currentUser (Some user)) s)) Hk Hn E)
    as (keys & s2 & R2 & K2 & U2).
  destruct (run_bootstrap w t s user None token boxes box keys s2) as (s' & t' & R & L); [done|done| |].
  { intros t0. exists t0. unfold find_key. cbv zeta. cbn [truthy_opt]. apply R2. }
  exists s', t'. split; [done|]. pose proof (load_custody _ _ L) as (L1 & L2 & L3).
  destruct (register_account_custody user box keys token s2) as [l El]. rewrite El in L1, L2, L3. cbn in L1, L2, L3.
  by rewrite L1, L2.
Qed.

Lemma open_vault_mode credId s :
  isImpersonating (custody (open_vault credId s)) = isImpersonating (custody s) /\
  impersonateMailboxId (custody (open_vault credId s)) = impersonateMailboxId (custody s).
Proof.
  unfold open_vault. destruct (JSON_parse _) as [v|]; [|done]. destruct (get v _) as [[]|]; try done.
  destruct (truthy _); [|done]. destruct (inline_hexToBytes _); [|done]. cbv zeta. by destruct (truthy _).
Qed.

Lemma store_token_mode r s :
  isImpersonating (custody (store_token r s)) = isImpersonating (custody s) /\
  impersonateMailboxId (custody (store_token r s)) = impersonateMailboxId (custody s).
Proof. unfold store_token. cbv zeta. by destruct (truthy _). Qed.

(** Signing in with a passkey whose vault opens. *)
Lemma run_passkey_login w t s authenticate a credId user boxes box v sk :
  lets_in w (typed_email s) authenticate a credId user boxes ->
  bufferToBase64URL (a_raw_id a) = Ok credId -> is_ok (bufferToBase64URL (a_client_data a)) = true ->
  target_box user boxes (custody s) = Some box -> key_ok sk ->
  JSON_parse (default [] (local s !! vault_item credId)) = Ok v ->
  get v (js "mailbox_sk_hex") = Some (JStr (bytesToHex sk)) -> str_field v "mailbox_id" = mb_id box ->
  exists s' t', run w t s (handlePasskeyLogin true authenticate) = (Ok tt, s', t') /\
    mailboxKey (custody s') = Some sk /\ unlockedBoxId (custody s') = Some (mb_id box).
Proof.
  intros [Ho Hl Hu Hb] Eraw Hcd Htb Hsk Ep Es Eb.
  destruct (bufferToBase64URL (a_client_data a)) as [cd|] eqn:Ecd; [clear Hcd|done].
  unfold handlePasskeyLogin. cbn [negb]. rewrite run_bind. cbn [modify run]. set (s1 := on_login begin_login s).
  rewrite run_bind. cbn [gets run]. rewrite run_bind, run_catch. unfold passkey_body.
  change (or_none _) with (typed_email s).
  destruct (Ho t s1) as (vo & creds & ct & ch & t1 & R1 & Hvo & Ec & Ech & Ebu & Ea).
  rewrite run_bind, R1. cbv beta iota. rewrite not_null, bind_lift, Ec, bind_lift, Ech by done.
  cbn [string_of]. rewrite bind_lift, Ebu, bind_lift, run_bind. cbn [wait run].
  rewrite Ea, bind_lift, Eraw, bind_lift, Ecd, bind_lift.
  match goal with |- context [loginWithPasskey ?b] =>
    destruct (Hl t1 s1 b eq_refl) as (r & t2 & R2 & Hr) end.
  rewrite run_bind, R2. cbv beta iota. rewrite run_bind. cbn [modify run].
  set (s2 := on_custody (set_isLoading true) s1). rewrite not_null, bind_lift, run_bind by done. cbn [modify run].
  set (s3 := open_vault credId (store_token r s2)).
  assert (E3 : local (store_token r s2) = local s) by (unfold store_token; cbv zeta; by destruct (truthy _)).
  destruct (open_vault_installs credId (store_token r s2) v sk (mb_id box) Hsk) as (_ & _ & K3);
    [by rewrite E3|done|done|].
  assert (T3 : target_box user boxes (custody s3) = Some box).
  { rewrite <- Htb. unfold target_box, s3.
    destruct (open_vault_mode credId (store_token r s2)) as [-> ->]. by destruct (store_token_mode r s2) as [-> ->]. }
  destruct (Hu t2 s3) as (u & t3 & R3 & Ht & Eu). rewrite run_bind, R3. cbv beta iota. rewrite Ht, Eu.
  destruct Hsk as [Hlen Hbytes].
  destruct (bootstrap_restores w t3 s3 user (login_token r) boxes box sk) as (s4 & t4 & R4 & K4 & U4);
    try done; [by intros ->|].
  rewrite R4. cbv beta iota. eexists _, _. split; [reflexivity|]. done.
Qed.

(** C17.  The key behind a passkey.  After a successful enrolment the device keeps the
    mailbox key of the tab.  Signing out of every account takes the key from memory and
    from the tab's store, but leaves it on the device, whatever the server answers; and
    any page of the device that signs in with the credential, no password asked, ends with
    that key installed for that mailbox. *)
Theorem passkey_keeps_the_key w t s p v challengeText a rawId sk :
  options_ok props v challengeText a -> api_reply (respond w t (options_request s)) = Ok (Some v) ->
  bufferToBase64URL (at_raw_id a) = Ok rawId ->
  is_ok (api_reply (respond w (ask (options_request s) t) (registration p rawId challengeText a s))) = true ->
  key_ok sk -> Forall is_unit (or_default (pr_box props) (pr_user_box props)) ->
  let box := or_default (pr_box props) (pr_user_box props) in
  truthy box = true -> session s !! sk_item box = Some (bytesToHex sk) ->
  Forall is_unit (default [] (session s !! skey_item box)) ->
  exists r s' p' t', run w t (s, p) (handleEnrollPasskey props true) = (r, (s', p'), t') /\
    forall i w1 t1, exists s1 t1', run w1 t1 s' (handleLogout i true) = (Ok tt, s1, t1') /\
      mailboxKey (custody s1) = None /\ session s1 !! sk_item box = None /\
      local s1 !! vault_item rawId = local s' !! vault_item rawId /\
      forall s2 w2 t2 authenticate a2 user boxes bx,
        local s2 !! vault_item rawId = local s1 !! vault_item rawId ->
        lets_in w2 (typed_email s2) authenticate a2 rawId user boxes ->
        a_raw_id a2 = at_raw_id a -> is_ok (bufferToBase64URL (a_client_data a2)) = true ->
        target_box user boxes (custody s2) = Some bx -> mb_id bx = box ->
        exists s3 t3, run w2 t2 s2 (handlePasskeyLogin true authenticate) = (Ok tt, s3, t3) /\
          mailboxKey (custody s3) = Some sk /\ unlockedBoxId (custody s3) = Some box.
Proof.
  intros Ho Er Eraw Hq Hsk Hu box Ht Es Hk.
  destruct (run_enroll props w t s p v challengeText a rawId Ho Er Eraw Hq) as (r & p' & t' & R).
  destruct (store_vault_item props rawId s sk Hsk Hu Ht Es Hk) as (vv & Ep & Esk & Eb).
  exists r, (store_vault props rawId s), p', t'. split; [exact R|].
  intros i w1 t1. do 2 eexists. split; [apply run_sign_out|].
  set (s' := store_vault props rawId s) in *.
  pose proof (session_is_closed s') as Hc.
  assert (El : local (close_session (forget_session s')) !! vault_item rawId = local s' !! vault_item rawId)
    by (apply (ol_local _ _ (session_outlived s')); discriminate).
  split; [apply (so_keys _ Hc)|]. split; [by apply (so_items _ Hc)|]. split; [exact El|].
  intros s2 w2 t2 authenticate a2 user boxes bx E2 Hli Ea2 Hcd Htb Hbx. rewrite <- Hbx.
  eapply run_passkey_login; try done; [by rewrite Ea2|by rewrite E2, El|by rewrite Hbx].
Qed.

End Passkey.

(** ** Changing accounts *)

Section Switch.
Context `{Crypto} `{Unicode} `{Dates} `{Env}.

(** The key, search key and unlocked mailbox of a page that has switched to [a]: the
    account's own key, none when the tab has none for it, the old ones when it cannot be
    read. *)
Definition switched_keys (a : ConnectedAccount) (c : Custody) : option bytes * option jstr * option jstr :=
  if truthy (mailboxSkHex a) then
    match inline_hexToBytes (mailboxSkHex a) with
    | Ok k => (Some k, Some (searchKeyHex a), Some (acc_id a))
    | Throw _ => (mailboxKey c, searchKey c, unlockedBoxId c)
    end
  else (None, None, None).

Record switched (a : ConnectedAccount) (s s' : App) : Prop := {
  sw_keys : (mailboxKey (custody s'), searchKey (custody s'), unlockedBoxId (custody s')) = switched_keys a (custody s);
  sw_box : selectedMailbox (custody s') = Some (account_box a) /\ mailboxes (custody s') = [account_box a];
  sw_user : currentUser (custody s') = Some (switched_user a (custody s));
  sw_accounts : connectedAccounts (custody s') = merge_account a (connectedAccounts (custody s));
  sw_stored : session s' !! accounts_item = Some (accounts_text (connectedAccounts (custody s'))) /\
              local s' !! accounts_item = Some (accounts_text (map without_keys (connectedAccounts (custody s'))));
  sw_token : session s' !! token_item =
             if truthy (sessionToken a) then Some (sessionToken a) else session s !! token_item;
  sw_signature : signatureText (prefs s') = loadSignature (acc_id a) (local s');
  sw_ready : isLoading (custody s') = false;
  sw_pane : selectedMsg (mail s') = selectedMsg (mail s) /\ reading s' = reading s /\
            contactsPane s' = contactsPane s /\ compose s' = compose s;
}.

Lemma items_distinct i :
  token_item <> accounts_item /\ sk_item i <> token_item /\ skey_item i <> token_item.
Proof. split_and!; discriminate. Qed.

Lemma items_survive_load :
  is_preview_item accounts_item = false /\ accounts_item ∉ pref_items /\ is_preview_item token_item = false.
Proof. split_and!; [reflexivity|by_decide|reflexivity]. Qed.

#[local] Opaque token_item accounts_item sk_item skey_item.

Lemma switch_key_keeps a s k :
  k <> sk_item (acc_id a) -> k <> skey_item (acc_id a) -> session (switch_key a s) !! k = session s !! k.
Proof.
  intros N1 N2. unfold switch_key. destruct (truthy _); [|done]. destruct (inline_hexToBytes _); [|done].
  cbn. by rewrite !lookup_insert_ne.
Qed.

Lemma switch_key_keys a s :
  exists c, switched_keys a (custody s) = (mailboxKey c, searchKey c, unlockedBoxId c) /\
    switch_key a s = set_session (session (switch_key a s)) (set_custody c s) /\
    currentUser c = currentUser (custody s) /\ connectedAccounts c = connectedAccounts (custody s).
Proof.
  unfold switch_key, switched_keys. destruct (truthy _); [destruct (inline_hexToBytes _)|].
  - eexists. split; [|split; [reflexivity|done]]; done.
  - exists (custody s). destruct s; done.
  - exists (set_unlockedBoxId None (set_searchKey None (set_mailboxKey None (custody s)))). by destruct s.
Qed.

Definition settle (a : ConnectedAccount) (s : App) : App :=
  on_custody (set_isLoading false) (refreshSignature (Some (acc_id a)) s).

Lemma switch_local_spec a s : switched a s (settle a (switch_local a (on_custody (set_isLoading true) s))).
Proof.
  unfold settle, switch_local. cbv zeta. set (s0 := on_custody _ s).
  set (s1 := if truthy (sessionToken a) then _ else _).
  assert (E1 : s1 = set_session (session s1) s0) by (unfold s1; destruct (truthy _); destruct s; done).
  destruct (items_distinct (acc_id a)) as (D1 & D2 & D3).
  assert (Et : session (switch_key a s1) !! token_item =
    if truthy (sessionToken a) then Some (sessionToken a) else session s !! token_item).
  { rewrite switch_key_keeps by congruence. unfold s1. destruct (truthy _); cbn; [apply lookup_insert_eq|done]. }
  destruct (switch_key_keys a s1) as (c & K & E & U & C). rewrite E. clear E.
  generalize dependent (session (switch_key a s1)). intros m Et. rewrite E1 in K, U, C |- *.
  change (connectedAccounts c = connectedAccounts (custody s)) in C.
  change (currentUser c = currentUser (custody s)) in U.
  set (s2 := set_session m (set_custody c (set_session (session s1) s0))). set (l := merge_account a (connectedAccounts (custody s2))).
  assert (El : l = merge_account a (connectedAccounts (custody s))) by (unfold l; change (custody s2) with c; by rewrite C).
  constructor.
  - exact (eq_sym K).
  - split; reflexivity.
  - change (Some (switched_user a c) = Some (switched_user a (custody s))). unfold switched_user. by rewrite U.
  - exact El.
  - split; apply lookup_insert_eq.
  - rewrite <- Et. apply lookup_insert_ne. congruence.
  - reflexivity.
  - reflexivity.
  - split_and!; reflexivity.
Qed.
Lemma switched_load a s s1 s2 :
  switched a s (settle a s1) -> load_writes s1 s2 -> switched a s (settle a s2).
Proof.
  intros [K [B1 B2] U A [S1 S2] T _ _ (P1 & P2 & P3 & P4)] Hl.
  destruct items_survive_load as (V1 & V2 & V3).
  pose proof (load_custody _ _ Hl) as (L1 & L2 & L3).
  assert (Hc : forall B (f : Custody -> B), (forall b c, f (set_storageErrorBanner b c) = f c) ->
    f (custody s2) = f (custody s1)).
  { intros B f Hf. rewrite <- (Hf None (custody s2)), <- (Hf None (custody s1)). f_equal. apply (lw_custody _ _ Hl). }
  assert (Hsel : selectedMsg (mail s2) = selectedMsg (mail s1)) by exact (f_equal selectedMsg (lw_view _ _ Hl)).
  change (connectedAccounts (custody (settle a s1))) with (connectedAccounts (custody s1)) in *.
  constructor.
  - rewrite <- K. change (mailboxKey (custody (settle a s2))) with (mailboxKey (custody s2)).
    change (searchKey (custody (settle a s2))) with (searchKey (custody s2)).
    change (unlockedBoxId (custody (settle a s2))) with (unlockedBoxId (custody s2)). by rewrite L1, L2, L3.
  - rewrite <- B1, <- B2. split; [apply (Hc _ selectedMailbox)|apply (Hc _ mailboxes)]; done.
  - rewrite <- U. by apply (Hc _ currentUser).
  - rewrite <- A. by apply (Hc _ connectedAccounts).
  - change (connectedAccounts (custody (settle a s2))) with (connectedAccounts (custody s2)).
    rewrite (Hc _ connectedAccounts) by done. rewrite <- S1, <- S2. split.
    + by apply (lw_session _ _ Hl).
    + by apply (lw_local _ _ Hl).
  - rewrite <- T. by apply (lw_session _ _ Hl).
  - reflexivity.
  - reflexivity.
  - rewrite <- P1, <- P2, <- P3, <- P4. split_and!; apply Hl || exact Hsel.
Qed.

(** Switching to a connected account always ends, whatever the server answers,
    with the page signed in to it: its mailbox, its user, its token when it has one, its
    own key (or none), the account merged to the front of the list, both stores holding
    that list, the durable one without keys.  The open message, the decrypted
    text, the contacts and the composed message stay those of the previous account. *)
Theorem switch_account_spec w t s a :
  exists s' t', run w t s (handleSwitchAccount a) = (Ok tt, s', t') /\ switched a s s'.
Proof.
  unfold handleSwitchAccount. rewrite run_bind. cbn [modify run]. rewrite run_bind, run_catch, run_bind. cbn [modify run].
  rewrite run_bind. set (s1 := switch_local a _).
  destruct (run_loadMailboxData (acc_id a) w t s1) as (s2 & t2 & -> & Hl). cbn [modify run].
  exists (settle a s2), t2. split; [reflexivity|].
  apply (switched_load a s s1); [apply switch_local_spec|done].
Qed.

End Switch.

(** ** Concrete runs *)

#[local] Existing Instances toy_crypto toy_laws ascii_unicode digit_dates sample_env.

Definition account (i : string) (skHex : jstr) : ConnectedAccount := {|
  acc_id := js i; acc_email := js i ++ js "@byos.email"; displayName := js i; acc_role := js "member";
  privacyMode := js "zero_knowledge"; sessionToken := js "token-" ++ js i; mailboxSkHex := skHex;
  searchKeyHex := js "beef" |}.

Definition two_accounts : App :=
  on_custody (set_connectedAccounts [account "b1" (bytesToHex key0); account "b2" (bytesToHex key1)]) sample_app.

(** Signing out of a connected account other than the one in use writes the keys of the others to the durable
    store. *)
Example leaving_an_account_stores_keys :
  let s' := snd (fst (run offline no_trace two_accounts (handleLogout (Some (js "b2")) false))) in
  map mailboxSkHex (accounts_of (default [] (local s' !! accounts_item))) = [bytesToHex key0].
Proof. vm_compute. reflexivity. Qed.

(** Another tab's change of the durable store replaces this tab's accounts, keys included,
    by the copies without keys. *)
Example other_tab_drops_the_keys :
  let l := connectedAccounts (custody two_accounts) in
  map mailboxSkHex (connectedAccounts (custody
    (handleStorageChange accounts_item (accounts_text (map without_keys l)) two_accounts))) = [[]; []].
Proof. vm_compute. reflexivity. Qed.

(** Every request is answered with one user of organization [o1] and the mailbox [b1]. *)
Definition one_box : world :=
  {| respond _ _ := json_reply (JObj [(js "mailboxes", JArr [JObj [str_member "id" (js "b1")]])]);
     answer _ _ := true |}.

Definition wrapped_key0 : jstr := JSON_stringify (wrapped_json salt0
  (aes_gcm_encrypt (toy_key (js "correct horse" ++ salt0)) nonce0 key0 RECOVERY_PRINCIPAL_AAD)).

Definition user0 (wrapped : option jstr) : UserMe := {|
  u_id := Some (js "u1"); u_user_id := js "u1"; u_email := js "me@byos.email"; u_org_id := js "o1";
  u_role := js "member"; u_display_name := None; u_mailbox_id := Some (js "b1"); u_mailbox_local_part := None;
  u_mailbox_mode := None; u_wrapped_sk_user := wrapped |}.

Definition box_b1 : Mailbox :=
  {| mb_id := js "b1"; mb_local_part := []; mb_domain_id := []; mb_mode := []; mb_wrapped_sk_user := None |}.

Lemma one_box_reply : boxes_reply one_box (js "o1") [box_b1].
Proof. intros t s. eexists _, _, _. split; [|split]; vm_compute; reflexivity. Defined.

Lemma reload_restores_the_key_witness :
  exists s1 t1 s2 t2,
    run one_box no_trace sample_app (bootstrapSession (user0 (Some wrapped_key0)) (Some (js "correct horse")) None) =
      (Ok tt, s1, t1) /\
    run one_box no_trace (reload sample_app s1) (bootstrapSession (user0 None) None None) = (Ok tt, s2, t2) /\
    mailboxKey (custody s2) = Some key0.
Proof.
  destruct (reload_restores_the_key one_box no_trace sample_app (user0 (Some wrapped_key0)) (js "correct horse") None
    [box_b1] box_b1 key0 sample_app one_box no_trace (user0 None) None [box_b1] box_b1)
    as (s1 & t1 & s2 & t2 & sKey & R1 & R2 & _ & _ & K & _).
  - exact one_box_reply.
  - vm_compute. reflexivity.
  - discriminate.
  - vm_compute. reflexivity.
  - vm_compute. reflexivity.
  - exact one_box_reply.
  - vm_compute. reflexivity.
  - reflexivity.
  - exists s1, t1, s2, t2. split; [exact R1|]. split; [exact R2|exact K].
Defined.

(** A server that accepts one passkey, and whose user has the mailbox [box0]. *)
Definition passkey_reply : json := JObj [str_member "challenge" (js "AQID"); str_member "org_id" (js "o1");
  str_member "mailbox_id" box0; (js "mailboxes", JArr [JObj [str_member "id" box0]])].

Definition passkey_server : world := {| respond _ _ := json_reply passkey_reply; answer _ _ := true |}.

Definition assertion0 : Assertion := {| a_raw_id := [1; 2; 3]; a_signature := [7]; a_client_data := [9] |}.

Definition answers_passkey : Authenticator := fun _ _ => Ok (Some assertion0).

Definition box_0 : Mailbox :=
  {| mb_id := box0; mb_local_part := []; mb_domain_id := []; mb_mode := []; mb_wrapped_sk_user := None |}.

Lemma passkey_reply_reads : api_reply (json_reply passkey_reply) = Ok (Some passkey_reply).
Proof. vm_compute. reflexivity. Defined.

Lemma passkey_server_lets_in :
  lets_in passkey_server None answers_passkey assertion0 (js "AQID") (user_of passkey_reply) [box_0].
Proof.
  split.
  - intros t s. exists passkey_reply. do 4 eexists. split.
    + unfold fetchPasskeyLoginOptions, get_json. cbn [truthy_opt]. rewrite run_apiRequest. cbn [respond passkey_server].
      rewrite passkey_reply_reads. reflexivity.
    + split_and!; [discriminate|vm_compute; reflexivity..].
  - intros t s body _. exists passkey_reply. eexists. split; [|discriminate].
    unfold loginWithPasskey, send. rewrite run_apiRequest. cbn [respond passkey_server].
    rewrite passkey_reply_reads. reflexivity.
  - intros t s. exists passkey_reply. eexists. split; [|split; reflexivity].
    unfold fetchCurrentUser, get_json. rewrite run_catch, run_apiRequest. cbn [respond passkey_server].
    rewrite passkey_reply_reads. reflexivity.
  - intros t s. eexists _, _, _. split; [|split]; vm_compute; reflexivity.
Defined.

Lemma passkey_keeps_the_key_witness :
  exists r s' p' t' s1 t1 s3 t3,
    run registers no_trace (unlocked, tab0) (handleEnrollPasskey props0 true) = (r, (s', p'), t') /\
    run offline no_trace s' (handleLogout None true) = (Ok tt, s1, t1) /\ mailboxKey (custody s1) = None /\
    run passkey_server no_trace (set_local (local s1) sample_app) (handlePasskeyLogin true answers_passkey) = (Ok tt, s3, t3) /\
    mailboxKey (custody s3) = Some key0.
Proof.
  destruct (passkey_keeps_the_key props0 registers no_trace unlocked
    tab0 options0 (js "AQID") credential0 (js "AQID") key0) as (r & s' & p' & t' & R & H).
  - split; [reflexivity|]. exists [1; 2; 3]. do 3 eexists. split_and!; vm_compute; reflexivity.
  - vm_compute. reflexivity.
  - vm_compute. reflexivity.
  - vm_compute. reflexivity.
  - exact key0_ok.
  - by_decide.
  - reflexivity.
  - vm_compute. reflexivity.
  - by_decide.
  - destruct (H None offline no_trace) as (s1 & t1 & R1 & K1 & _ & El & H1).
    destruct (H1 (set_local (local s1) sample_app) passkey_server no_trace answers_passkey assertion0 (user_of passkey_reply) [box_0] box_0)
      as (s3 & t3 & R3 & K3 & _); [reflexivity|exact passkey_server_lets_in|reflexivity|vm_compute; reflexivity|
        | reflexivity|].
    + reflexivity.
    + exists r, s', p', t', s1, t1, s3, t3. split_and!; [exact R|exact R1|exact K1|exact R3|exact K3].
Defined.
