(* ===== verification/AddMailbox.v ===== *)
(** * Connecting another mailbox

    components/AddMailboxModal.tsx: signing in to a further account from within the
    application, with its second factor, the unwrapping of its key - or the registration of
    a fresh one - and the lists of connected accounts.  The dialog's signals stand beside
    the application's state; [onSuccess] is [handleAccountAdded]. *)

From S2P Require Import Prelude JsString Encoding Json Display Wasm MessageCrypto Client Page Api AppState.
From S2P Require Import MailView Reading MailboxData Outbound ComposeMail Session SignIn Recover Custody Accounts.

Inductive Step := Credentials | SecondFactor.

Record LoginChallenge := {
  lc_token : jstr; lc_methods : list jstr; lc_preferred : jstr; lc_masked : jstr; lc_debug : option jstr }.

(** The signals; [am_mail] and [am_pass] are the cached address and password. *)
Record AddMailbox := {
  am_step : Step;
  am_email : jstr;
  am_password : jstr;
  am_loading : bool;
  am_error : option jstr;
  am_mail : jstr;
  am_pass : jstr;
  am_challenge : option LoginChallenge;
  am_code : jstr;
  am_busy : bool }.

Definition set_am_step (v : Step) (x : AddMailbox) : AddMailbox := {|
  am_step := v; am_email := am_email x; am_password := am_password x; am_loading := am_loading x; am_error :=
    am_error x; am_mail := am_mail x; am_pass := am_pass x; am_challenge := am_challenge x; am_code := am_code
    x; am_busy := am_busy x |}.
Definition set_am_email (v : jstr) (x : AddMailbox) : AddMailbox := {|
  am_step := am_step x; am_email := v; am_password := am_password x; am_loading := am_loading x; am_error :=
    am_error x; am_mail := am_mail x; am_pass := am_pass x; am_challenge := am_challenge x; am_code := am_code
    x; am_busy := am_busy x |}.
Definition set_am_password (v : jstr) (x : AddMailbox) : AddMailbox := {|
  am_step := am_step x; am_email := am_email x; am_password := v; am_loading := am_loading x; am_error :=
    am_error x; am_mail := am_mail x; am_pass := am_pass x; am_challenge := am_challenge x; am_code := am_code
    x; am_busy := am_busy x |}.
Definition set_am_loading (v : bool) (x : AddMailbox) : AddMailbox := {|
  am_step := am_step x; am_email := am_email x; am_password := am_password x; am_loading := v; am_error :=
    am_error x; am_mail := am_mail x; am_pass := am_pass x; am_challenge := am_challenge x; am_code := am_code
    x; am_busy := am_busy x |}.
Definition set_am_error (v : option jstr) (x : AddMailbox) : AddMailbox := {|
  am_step := am_step x; am_email := am_email x; am_password := am_password x; am_loading := am_loading x;
    am_error := v; am_mail := am_mail x; am_pass := am_pass x; am_challenge := am_challenge x; am_code :=
    am_code x; am_busy := am_busy x |}.
Definition set_am_mail (v : jstr) (x : AddMailbox) : AddMailbox := {|
  am_step := am_step x; am_email := am_email x; am_password := am_password x; am_loading := am_loading x;
    am_error := am_error x; am_mail := v; am_pass := am_pass x; am_challenge := am_challenge x; am_code :=
    am_code x; am_busy := am_busy x |}.
Definition set_am_pass (v : jstr) (x : AddMailbox) : AddMailbox := {|
  am_step := am_step x; am_email := am_email x; am_password := am_password x; am_loading := am_loading x;
    am_error := am_error x; am_mail := am_mail x; am_pass := v; am_challenge := am_challenge x; am_code :=
    am_code x; am_busy := am_busy x |}.
Definition set_am_challenge (v : option LoginChallenge) (x : AddMailbox) : AddMailbox := {|
  am_step := am_step x; am_email := am_email x; am_password := am_password x; am_loading := am_loading x;
    am_error := am_error x; am_mail := am_mail x; am_pass := am_pass x; am_challenge := v; am_code := am_code x;
    am_busy := am_busy x |}.
Definition set_am_code (v : jstr) (x : AddMailbox) : AddMailbox := {|
  am_step := am_step x; am_email := am_email x; am_password := am_password x; am_loading := am_loading x;
    am_error := am_error x; am_mail := am_mail x; am_pass := am_pass x; am_challenge := am_challenge x; am_code
    := v; am_busy := am_busy x |}.
Definition set_am_busy (v : bool) (x : AddMailbox) : AddMailbox := {|
  am_step := am_step x; am_email := am_email x; am_password := am_password x; am_loading := am_loading x;
    am_error := am_error x; am_mail := am_mail x; am_pass := am_pass x; am_challenge := am_challenge x; am_code
    := am_code x; am_busy := v |}.

(** What the repair of an account draws is a [FreshKey]. *)
Section Dialog.
Context `{Crypto} `{Unicode} `{Dates} `{Env}.

Definition resetForm (m : AddMailbox) : AddMailbox := {|
  am_step := Credentials; am_email := []; am_password := []; am_loading := false; am_error := None; am_mail := [];
  am_pass := []; am_challenge := None; am_code := []; am_busy := false |}.

(** [onClose] only closes the dialog. *)
Definition handleClose : prog (App * AddMailbox) unit := on_page resetForm.

Definition backToCredentials : prog (App * AddMailbox) unit :=
  on_page (fun m => set_am_error None (set_am_step Credentials m)).

(** The key the password opens and its search key, both as hex; what fails is left empty. *)
Definition opened_keys (pass wrapped : jstr) : prog (App * AddMailbox) (jstr * jstr) :=
  pcatch
    (_ ← wait;
     sk ← lift (autoUnwrapMailboxKey pass wrapped);
     let skHex := cp_bytesToHex sk in
     pcatch (searchKeyHex ← lift (wasm_derive_search_key skHex); mret (skHex, searchKeyHex)) (fun _ => mret (skHex, [])))
    (fun _ => mret ([], [])).

(** A fresh pair: public key, secret key, and the secret wrapped under the password. *)
Definition healing_key (f : FreshKey) (pass : jstr) : outcome (jstr * jstr * jstr) :=
  kp ← JSON_parse (wasm_generate_keypair (f_sk f));
  let saltHex := cp_bytesToHex (f_salt f) in
  passphraseEnvelope ← wasm_passphrase_wrap_key (f_nonce f) pass saltHex (str_field kp "secret_key");
  Ok (str_field kp "public_key", str_field kp "secret_key",
      JSON_stringify (JObj [str_member "salt" saltHex; str_member "envelope" passphraseEnvelope])).

(** The request is made by hand, with the token of the reply or else the tab's; without
    either the header reads [Bearer null]. *)
Definition repair_request (mailboxId token wrapped pk : jstr) (s : App) : request := {|
  req_method := js "POST"; req_url := apiBase ++ mailbox_path mailboxId "/reactivate-keys";
  req_headers := [(js "Content-Type", js "application/json"); (js "X-BYOS-Client", js "webmail");
    (js "Authorization", js "Bearer " ++
       (if truthy token then token else match session s !! token_item with Some t => t | None => js "null" end))];
  req_credentials := js "same-origin";
  req_body := stringified (JObj [str_member "wrapped_sk_user" wrapped; str_member "mailbox_pk" pk]) |}.

Definition repaired (r : reply) : outcome unit :=
  match r with
  | NetworkFailure e => Throw e
  | Response st _ _ => if response_ok st then Ok tt else throw "Failed to repair mailbox"
  end.

Definition heal_keys (f : FreshKey) (v : json) (pass : jstr) : prog (App * AddMailbox) (jstr * jstr) :=
  pcatch
    (_ ← wait;
     '(pk, sk, healWrapped) ← lift (healing_key f pass);
     r ← below (s ← gets (fun s => s);
                fetch (repair_request (str_field v "mailbox_id") (str_field v "token") healWrapped pk s));
     _ ← lift (repaired r);
     searchKeyHex ← lift (wasm_derive_search_key sk);
     mret (sk, searchKeyHex))
    (fun _ => pthrow "Failed to initialize cryptographic keys for the newly connected mailbox.").

Definition login_keys (f : FreshKey) (v : json) (pass : jstr) : prog (App * AddMailbox) (jstr * jstr) :=
  if truthy (str_field v "wrapped_sk_user") then opened_keys pass (str_field v "wrapped_sk_user")
  else if truthy (str_field v "mailbox_id") then heal_keys f v pass
  else mret ([], []).

Definition connected_account (v : json) (mail : jstr) (keys : jstr * jstr) : ConnectedAccount := {|
  acc_id := or_default (str_field v "mailbox_id") (str_field v "id");
  acc_email := or_default (str_field v "email") mail;
  displayName := or_default (str_field v "mailbox_local_part")
    (local_part_of (if truthy (str_field v "email") then str_field v "email" else mail));
  acc_role := or_default (str_field v "role") (js "member");
  privacyMode := or_default (str_field v "mailbox_mode") (js "org_managed");
  sessionToken := str_field v "token"; mailboxSkHex := fst keys; searchKeyHex := snd keys |}.

(** The stored list with the account at its end, and no other entry for it. *)
Definition append_account (a : ConnectedAccount) (stored : option jstr) : jstr :=
  accounts_text (List.filter (fun b => negb (same_account b a)) (match stored with Some t => accounts_of t | None => [] end) ++ [a]).

Definition persist_account (a : ConnectedAccount) (s : App) : App :=
  let s := set_item accounts_item (append_account a (session s !! accounts_item)) s in
  let s := set_local_item accounts_item (append_account (without_keys a) (local s !! accounts_item)) s in
  let s := if truthy (acc_id a) && truthy (mailboxSkHex a)
           then set_item (skey_item (acc_id a)) (searchKeyHex a) (set_item (sk_item (acc_id a)) (mailboxSkHex a) s) else s in
  if truthy (sessionToken a) then set_item token_item (sessionToken a) s else s.

Definition processAccountLogin (f : FreshKey) (v : json) (mail pass : jstr) : prog (App * AddMailbox) unit :=
  keys ← login_keys f v pass;
  let newAccount := connected_account v mail keys in
  _ ← below (modify (persist_account newAccount));
  _ ← on_page resetForm;
  below (handleAccountAdded newAccount).

(** ** The forms *)

(** [res.methods || ["totp"]] *)
Definition challenge_methods (v : json) : list jstr :=
  match get v (js "methods") with
  | Some m => if json_truthy m then strings_field v "methods" else [js "totp"]
  | None => [js "totp"]
  end.

Definition ask_code (v : json) (mail pass : jstr) (m : AddMailbox) : AddMailbox :=
  set_am_step SecondFactor (set_am_code []
    (set_am_challenge (Some {| lc_token := str_field v "challenge_token"; lc_methods := challenge_methods v;
       lc_preferred := or_default (str_field v "preferred_method") (js "totp");
       lc_masked := str_field v "destination_masked"; lc_debug := get_str v (js "debug_code") |})
      (set_am_pass pass (set_am_mail mail m)))).

Definition modal_error (text : jstr) : prog (App * AddMailbox) unit := on_page (set_am_error (Some text)).

Definition submit_body (f : FreshKey) (mail pass : jstr) : prog (App * AddMailbox) unit :=
  res ← below (login mail pass);
  v ← lift (reply_object res);
  if bool_field v "two_factor_required" then on_page (ask_code v mail pass) else processAccountLogin f v mail pass.

Definition modal_handleSubmit (f : FreshKey) : prog (App * AddMailbox) unit :=
  m ← page (G:=AddMailbox);
  let mail := trim (am_email m) in
  let pass := am_password m in
  if negb (truthy mail) || negb (truthy pass) then modal_error (js "Please enter both email and password.")
  else
    _ ← on_page (fun m => set_am_error None (set_am_loading true m));
    finally
      (pcatch (submit_body f mail pass)
         (fun e => modal_error (or_default (message e) (js "Invalid credentials or failed to connect mailbox."))))
      (on_page (fun m => set_am_password [] (set_am_loading false m))).

Definition modal_handleVerify2FA (f : FreshKey) : prog (App * AddMailbox) unit :=
  m ← page (G:=AddMailbox);
  let code := trim (am_code m) in
  match am_challenge m with
  | Some c =>
      if negb (truthy code) then modal_error (js "Please enter your 6-digit verification code.")
      else
        _ ← on_page (fun m => set_am_error None (set_am_busy true m));
        finally
          (pcatch
             (res ← below (verifyLogin2FA (lc_token c) code);
              m ← page (G:=AddMailbox);
              v ← lift (reply_object res);
              processAccountLogin f v (am_mail m) (am_pass m))
             (fun e => modal_error (or_default (message e) (js "Invalid or expired verification code."))))
          (on_page (set_am_busy false))
  | None => modal_error (js "Please enter your 6-digit verification code.")
  end.

Definition modal_handleSwitch2FAMethod (method : jstr) : prog (App * AddMailbox) unit :=
  m ← page (G:=AddMailbox);
  match am_challenge m with
  | None => skip
  | Some c =>
      _ ← on_page (fun m => set_am_error None (set_am_busy true m));
      finally
        (pcatch
           (res ← below (sendLogin2FACode (lc_token c) method);
            v ← lift (reply_object res);
            if bool_field v "success" then
              on_page (fun m => set_am_challenge (option_map (fun c => {| lc_token := lc_token c; lc_methods := lc_methods c;
                lc_preferred := method; lc_masked := str_field v "destination_masked"; lc_debug := lc_debug c |})
                (am_challenge m)) m)
            else skip)
           (fun e => modal_error (or_default (message e) (js "Failed to send code."))))
        (on_page (set_am_busy false))
  end.

End Dialog.

(** ** What connecting leaves *)

Section Connected.
Context `{HC : Crypto} `{!CryptoLaws} `{HU : Unicode} `{HD : Dates} `{HE : Env}.

(** The keys that go with a password and a wrapped key. *)
Definition keys_of (r : outcome bytes) : jstr * jstr :=
  match r with Ok sk => (bytesToHex sk, bytesToHex (hkdf_search sk)) | Throw _ => ([], []) end.

Lemma run_opened_keys w t (x : App * AddMailbox) pass wrapped :
  run w t x (opened_keys pass wrapped) = (Ok (keys_of (autoUnwrapMailboxKey pass wrapped)), x, t).
Proof.
  unfold opened_keys. rewrite run_catch, run_bind. cbn [wait run].
  destruct (autoUnwrapMailboxKey pass wrapped) as [sk|e] eqn:E; rewrite bind_lift; [|done].
  destruct (auto_unwrap_key _ _ _ E) as [Hl Hb]. cbv zeta. rewrite cp_bytesToHex_eq, run_catch.
  unfold wasm_derive_search_key. rewrite hex_decode_32_encode by done. ok_bind. by rewrite bind_lift.
Qed.

(** The application after [onSuccess]. *)
Lemma run_account_added w t s a :
  exists s' t', run w t s (handleAccountAdded a) = (Ok tt, on_mail (showToast (js "Connected " ++ acc_email a ++ js " successfully")) s', t') /\
    switched a (save_accounts (merge_account a (connectedAccounts (custody s))) s) s'.
Proof.
  unfold handleAccountAdded. rewrite run_bind. cbn [modify run].
  destruct (switch_account_spec w t (save_accounts (merge_account a (connectedAccounts (custody s))) s) a) as (s' & t' & R & Hs).
  exists s', t'. split; [|exact Hs]. rewrite run_bind. unfold spawn. cbn [run]. by rewrite R.
Qed.

(** The page has switched to the account of the reply, with these keys, and the durable
    list carries none. *)
Definition account_in (v : json) (mail : jstr) (keys : jstr * jstr) (s s' : App) : Prop :=
  let a := connected_account v mail keys in
  (mailboxKey (custody s'), searchKey (custody s'), unlockedBoxId (custody s')) = switched_keys a (custody s) /\
  selectedMailbox (custody s') = Some (account_box a) /\ head (connectedAccounts (custody s')) = Some a /\
  local s' !! accounts_item = Some (accounts_text (map without_keys (connectedAccounts (custody s')))).

Lemma persist_custody a s : custody (persist_account a s) = custody s.
Proof. unfold persist_account. cbv zeta. by destruct (_ && _), (truthy _). Qed.

Lemma run_process f v mail pass keys w t t1 s m :
  run w t (s, m) (login_keys f v pass) = (Ok keys, (s, m), t1) ->
  exists s' t', run w t (s, m) (processAccountLogin f v mail pass) = (Ok tt, (s', resetForm m), t') /\
    account_in v mail keys s s' /\ exists l, sent t' = sent t1 ++ l.
Proof.
  intros E. unfold processAccountLogin. rewrite run_bind, E, run_bind, run_below.
  cbn [modify run]. rewrite run_bind, run_on_page, run_below. set (a := connected_account _ _ _).
  destruct (run_account_added w t1 (persist_account a s) a) as (s' & t' & R & [K [B _] _ C [_ L] _ _ _ _]).
  destruct (run_extends w t1 (persist_account a s) (handleAccountAdded a)) as [l El]. rewrite R in El |- *.
  do 2 eexists. split; [reflexivity|]. split; [|by exists l]. unfold account_in. cbv zeta. fold a.
  cbn [custody local on_mail set_mail]. split_and!; [|done| |done].
  - rewrite K. unfold switched_keys, save_accounts. cbn [custody on_custody set_custody set_local_item set_local set_item set_session].
    rewrite persist_custody. by repeat case_match.
  - by rewrite C.
Qed.

Definition login_request (mail pass : jstr) (s : App) : request :=
  api_fetch s (js "/v1/auth/login")
    {| i_method := Some (js "POST"); i_headers := []; i_credentials := None;
       i_body := stringified (JObj [str_member "email" mail; str_member "password" pass]) |}.

(** A form filled in, and a reply that is a session. *)
Definition signs_in (w : world) (t : trace) (s : App) (m : AddMailbox) (v : json) : Prop :=
  truthy (trim (am_email m)) = true /\ truthy (am_password m) = true /\
  api_reply (respond w t (login_request (trim (am_email m)) (am_password m) s)) = Ok (Some v) /\
  v <> JNull /\ bool_field v "two_factor_required" = false.

Lemma run_submit f w t s m v r s' m' t' :
  signs_in w t s m v ->
  run w (ask (login_request (trim (am_email m)) (am_password m) s) t) (s, set_am_error None (set_am_loading true m))
    (processAccountLogin f v (trim (am_email m)) (am_password m)) = (r, (s', m'), t') ->
  run w t (s, m) (modal_handleSubmit f) = (Ok tt, (s', set_am_password [] (set_am_loading false
    match r with
    | Ok _ => m'
    | Throw e => set_am_error (Some (or_default (message e) (js "Invalid credentials or failed to connect mailbox."))) m'
    end)), t').
Proof.
  intros (Hm & Hp & Er & Hv' & H2) R. unfold modal_handleSubmit. rewrite run_page, Hm, Hp. cbn [negb orb].
  rewrite run_bind, run_on_page, run_finally, run_catch. unfold submit_body. rewrite run_bind, run_below.
  unfold login, send. rewrite run_apiRequest. cbv zeta.
  change (api_fetch s _ _) with (login_request (trim (am_email m)) (am_password m) s). rewrite Er.
  assert (Hv : reply_object (Some v) = Ok v) by by destruct v.
  rewrite Hv, bind_lift, H2. cbv iota. unfold ask in R. rewrite R.
  destruct r as [[]|e]; [|unfold modal_error; rewrite run_on_page]; by rewrite run_on_page.
Qed.

(** The pair made for a repair is that of [fresh_key]. *)
Lemma healing_key_fresh f pass pk wrapped :
  Forall is_byte (f_sk f) -> fresh_key f pass = Ok (pk, wrapped) ->
  healing_key f pass = Ok (pk, bytesToHex (f_sk f), wrapped).
Proof.
  intros Hsk. unfold fresh_key, healing_key. destruct (keypair_fields (f_sk f) Hsk) as (kp & Ep & Es & Epk).
  rewrite Ep. ok_bind. rewrite Es, Epk. destruct (wasm_passphrase_wrap_key _ _ _ _); [|done]. ok_bind. congruence.
Qed.

Lemma run_heal f v pass pk wrapped w t s (m : AddMailbox) :
  key_ok (f_sk f) -> fresh_key f pass = Ok (pk, wrapped) ->
  let q := repair_request (str_field v "mailbox_id") (str_field v "token") wrapped pk s in
  run w t (s, m) (heal_keys f v pass) =
  (match repaired (respond w t q) with
   | Ok _ => Ok (bytesToHex (f_sk f), bytesToHex (hkdf_search (f_sk f)))
   | Throw _ => throw "Failed to initialize cryptographic keys for the newly connected mailbox."
   end, (s, m), ask q t).
Proof.
  intros [Hl Hb] Ef q. unfold heal_keys. rewrite run_catch, run_bind. cbn [wait run].
  rewrite (healing_key_fresh f pass pk wrapped) by done. rewrite bind_lift, run_bind, run_below, run_bind.
  cbn [gets run fetch]. fold q. destruct (repaired (respond w t q)); rewrite bind_lift; [|done].
  unfold wasm_derive_search_key. rewrite hex_decode_32_encode by done. ok_bind. by rewrite bind_lift.
Qed.

(** C20.  Connecting a mailbox with a password.  When the reply is a session with a wrapped
    key, the dialog always ends without an error, emptied, and the page has switched to
    the account: with the mailbox key and search key the password opens, or - when it
    opens nothing - with no key at all; the stored list carries none. *)
Theorem connected_mailbox_opens f w t s m v :
  signs_in w t s m v -> truthy (str_field v "wrapped_sk_user") = true ->
  let opened := autoUnwrapMailboxKey (am_password m) (str_field v "wrapped_sk_user") in
  exists s' t', run w t (s, m) (modal_handleSubmit f) = (Ok tt, (s', resetForm m), t') /\
    account_in v (trim (am_email m)) (keys_of opened) s s' /\
    match opened with
    | Ok sk => mailboxKey (custody s') = Some sk /\ searchKey (custody s') = Some (bytesToHex (hkdf_search sk)) /\
               unlockedBoxId (custody s') = Some (acc_id (connected_account v [] ([], [])))
    | Throw _ => mailboxKey (custody s') = None /\ searchKey (custody s') = None /\ unlockedBoxId (custody s') = None
    end.
Proof.
  intros Hs Hw opened. set (m1 := set_am_error None (set_am_loading true m)).
  set (t1 := ask (login_request (trim (am_email m)) (am_password m) s) t).
  destruct (run_process f v (trim (am_email m)) (am_password m) (keys_of opened) w t1 t1 s m1) as (s' & t' & R & A & _).
  { unfold login_keys. rewrite Hw. apply run_opened_keys. }
  exists s', t'. split; [by rewrite (run_submit f w t s m v _ _ _ _ Hs R)|]. split; [exact A|].
  destruct A as [K _]. destruct opened as [sk|e] eqn:E; unfold switched_keys in K; cbn in K; [|naive_solver].
  destruct (auto_unwrap_key _ _ _ E) as [Hl Hb]. destruct (hex_cons sk) as (c & l & Ec); [done|by destruct sk|].
  rewrite inline_hex_round_trip in K by (done || by destruct sk). rewrite Ec in K. cbn in K. naive_solver.
Qed.

(** Connecting a mailbox that has no key.  When the reply is a session without a
    wrapped key, the dialog draws a key pair and posts it, wrapped so that the password
    opens it to the very key.  Where the server takes it, the page has switched to the
    account and holds that key; where it refuses, no account is connected, nothing of the
    application changes and the dialog says that the keys failed. *)
Theorem keyless_mailbox_gets_a_key f w t s m v k :
  signs_in w t s m v -> truthy (str_field v "wrapped_sk_user") = false -> truthy (str_field v "mailbox_id") = true ->
  fresh_ok f -> 8 <= Z.of_nat (length (TextEncoder_encode (am_password m))) ->
  argon2id (TextEncoder_encode (am_password m)) (f_salt f) = Some k ->
  exists wrapped, autoUnwrapMailboxKey (am_password m) wrapped = Ok (f_sk f) /\
    let first := login_request (trim (am_email m)) (am_password m) s in
    let q := repair_request (str_field v "mailbox_id") (str_field v "token") wrapped (bytesToHex (x25519_pk (f_sk f))) s in
    match repaired (respond w (ask first t) q) with
    | Ok _ => exists s' t', run w t (s, m) (modal_handleSubmit f) = (Ok tt, (s', resetForm m), t') /\
        account_in v (trim (am_email m)) (keys_of (Ok (f_sk f))) s s' /\ mailboxKey (custody s') = Some (f_sk f) /\
        exists l, sent t' = sent t ++ [first; q] ++ l
    | Throw _ => exists m', run w t (s, m) (modal_handleSubmit f) = (Ok tt, (s, m'), ask q (ask first t)) /\
        am_error m' = Some (js "Failed to initialize cryptographic keys for the newly connected mailbox.") /\
        am_email m' = am_email m /\ am_password m' = []
    end.
Proof.
  intros Hs Hw Hid Hf Hlen Ea. destruct (fresh_key_opens f (am_password m) k Hf Hlen Ea) as (wrapped & Ef & Eo).
  exists wrapped. split; [exact Eo|]. intros first q. set (m1 := set_am_error None (set_am_loading true m)).
  pose proof Hf as (Hk & _). pose proof (run_heal f v (am_password m) _ wrapped w (ask first t) s m1 Hk Ef) as Rh.
  cbv zeta in Rh. fold q in Rh.
  assert (El : login_keys f v (am_password m) = heal_keys f v (am_password m)) by (unfold login_keys; by rewrite Hw, Hid).
  destruct (repaired _) as [[]|e]; [|eexists; split_and!].
  - rewrite <- El in Rh. eapply run_process in Rh as (s' & t' & R & A & l & Et).
    exists s', t'. split; [by rewrite (run_submit f w t s m v _ _ _ _ Hs R)|]. split; [exact A|]. split.
    + destruct A as [K _], Hk as [Hl Hb]. unfold switched_keys in K. cbn in K.
      destruct (hex_cons (f_sk f)) as (c & r & Ec); [done|by destruct (f_sk f)|].
      rewrite inline_hex_round_trip in K by (done || by destruct (f_sk f)). rewrite Ec in K. cbn in K. congruence.
    + exists l. rewrite Et. cbn [ask sent]. by rewrite <- !app_assoc.
  - refine (run_submit f w t s m v _ _ _ _ Hs _). unfold processAccountLogin. rewrite El, run_bind. fold m1 first.
    by rewrite Rh.
  - reflexivity.
  - reflexivity.
  - reflexivity.
Qed.

End Connected.

(** ** Concrete runs *)

#[local] Existing Instances toy_crypto toy_laws ascii_unicode digit_dates sample_env.

Definition filled_in : AddMailbox := {|
  am_step := Credentials; am_email := js " ada@byos.email "; am_password := js "correct horse"; am_loading := false;
  am_error := None; am_mail := []; am_pass := []; am_challenge := None; am_code := []; am_busy := false |}.

Definition session_reply (wrapped : list (jstr * json)) : json :=
  JObj (str_member "mailbox_id" (js "b7") :: str_member "email" (js "ada@byos.email") :: wrapped).

Definition replies_with (v : json) : world := {| respond _ _ := json_reply v; answer _ _ := true |}.

Lemma connected_mailbox_opens_witness :
  exists s' t', run (replies_with (session_reply [str_member "wrapped_sk_user" wrapped_key0])) no_trace
      (sample_app, filled_in) (modal_handleSubmit fresh0) = (Ok tt, (s', resetForm filled_in), t') /\
    mailboxKey (custody s') = Some key0.
Proof.
  destruct (connected_mailbox_opens fresh0 (replies_with (session_reply [str_member "wrapped_sk_user" wrapped_key0]))
    no_trace sample_app filled_in (session_reply [str_member "wrapped_sk_user" wrapped_key0])) as (s' & t' & R & _ & K).
  - split_and!; [reflexivity|reflexivity|vm_compute; reflexivity|discriminate|reflexivity].
  - vm_compute. reflexivity.
  - exists s', t'. split; [exact R|].
    assert (E : autoUnwrapMailboxKey (am_password filled_in)
      (str_field (session_reply [str_member "wrapped_sk_user" wrapped_key0]) "wrapped_sk_user") = Ok key0)
      by (vm_compute; reflexivity).
    rewrite E in K. exact (proj1 K).
Defined.

Lemma keyless_mailbox_gets_a_key_witness :
  exists wrapped s' t', autoUnwrapMailboxKey (js "correct horse") wrapped = Ok key1 /\
    run (replies_with (session_reply [])) no_trace (sample_app, filled_in) (modal_handleSubmit fresh0) =
      (Ok tt, (s', resetForm filled_in), t') /\
    mailboxKey (custody s') = Some key1.
Proof.
  destruct (keyless_mailbox_gets_a_key fresh0 (replies_with (session_reply [])) no_trace sample_app filled_in
    (session_reply []) (toy_key (js "correct horse" ++ salt0))) as (wrapped & Eo & H).
  - split_and!; [reflexivity|reflexivity|vm_compute; reflexivity|discriminate|reflexivity].
  - reflexivity.
  - reflexivity.
  - split; [exact key1_ok|]. split; [by_decide|]. split; [reflexivity|exact nonce0_ok].
  - vm_compute. discriminate.
  - reflexivity.
  - destruct H as (s' & t' & R & _ & K & _). exists wrapped, s', t'. split; [exact Eo|]. split; [exact R|exact K].
Defined.
