(* ===== verification/ControlApi.v ===== *)
(** * The control plane's API client

    control-plane/src/lib/api: the header helpers of client.ts, the three request
    functions the files share, and every endpoint function of auth.ts, attachments.ts,
    billing.ts, bridge.ts, devices.ts, domains.ts, mailboxes.ts (those without
    cryptography), members.ts, principals.ts, recovery.ts and storage.ts.  Functions of
    the same name in the web client's api.ts have the prefix [cp_] here. *)

From S2P Require Import Prelude JsString Encoding Json Wasm MessageCrypto Client Api.

(** The page: its durable store, and the user id other code leaves on [window]. *)
Record Panel := { cp_store : gmap jstr jstr; byos_user_id : jstr }.

Definition cp_token_item : jstr := js "byos_cp_session_token".

Definition set_store (m : gmap jstr jstr) (s : Panel) : Panel := {| cp_store := m; byos_user_id := byos_user_id s |}.

(** [res.text().catch(() => "")] *)
Definition text_or_empty (data : option bytes) : jstr :=
  match response_text data with Ok t => t | Throw _ => [] end.

Section Control.
Context `{Env}.

(** ** Headers *)

Definition getCpHeaders (extra : list (jstr * jstr)) (s : Panel) : list (jstr * jstr) :=
  let headers := spread [(js "X-BYOS-Client", js "control-plane")] extra in
  match cp_store s !! cp_token_item with
  | Some token => if truthy token then set_key (js "Authorization") (bearer token) headers else headers
  | None => headers
  end.

Definition json_type : list (jstr * jstr) := [(js "Content-Type", js "application/json")].

Definition getAuthHeader (s : Panel) : list (jstr * jstr) :=
  if truthy (byos_user_id s) then [(js "X-User-Id", byos_user_id s)] else [].

(** ** Replies *)

(** [throw new Error(text || `${label}${status}`)] with the status attached. *)
Definition request_error (label : string) (st : Z) (data : option bytes) : js_error :=
  JsError (or_default (text_or_empty data) (js label ++ num st)) (Some st).

Definition expect_ok (label : string) (r : reply) : outcome (jstr * option bytes) :=
  match r with
  | NetworkFailure e => Throw e
  | Response st ct data => if response_ok st then Ok (ct, data) else Throw (request_error label st data)
  end.

(** ... a 204 is accepted by name too. *)
Definition expect_done (label : string) (r : reply) : outcome unit :=
  match r with
  | NetworkFailure e => Throw e
  | Response st _ data =>
      if negb (response_ok st) && negb (st =? 204) then Throw (request_error label st data) else Ok tt
  end.

Definition cp_request (m : string) (path : jstr) (headers : list (jstr * jstr)) (creds : jstr) (body : payload) : request := {|
  req_method := js m; req_url := apiBase ++ path; req_headers := headers; req_credentials := creds; req_body := body |}.

(** ** The plain calls

    Most files call [fetch] themselves: with [getCpHeaders] ([cp_call]) or with bare
    headers ([bare_call]). *)

Definition cp_call (label m : string) (path : jstr) (extra : list (jstr * jstr)) (body : payload) : prog Panel (jstr * option bytes) :=
  s ← gets (fun s => s);
  r ← fetch (cp_request m path (getCpHeaders extra s) (js "include") body);
  lift (expect_ok label r).

Definition cp_json (label m : string) (path : jstr) (extra : list (jstr * jstr)) (body : payload) : prog Panel json :=
  res ← cp_call label m path extra body; lift (response_json (snd res)).

Definition bare_json (label m : string) (path : jstr) (headers : list (jstr * jstr)) (body : payload) : prog Panel json :=
  r ← fetch (cp_request m path headers (js "include") body);
  res ← lift (expect_ok label r); lift (response_json (snd res)).

Definition bare_done (label m : string) (path : jstr) (headers : list (jstr * jstr)) (body : payload) : prog Panel unit :=
  r ← fetch (cp_request m path headers (js "include") body); lift (expect_done label r).

(** The client trusts the interfaces it declares for replies: a member declared a string
    that holds something else is read as the empty one. *)

(** [data.p] of a parsed reply. *)
Definition field (p : string) (v : json) : outcome (option json) := member (Some v) p.

Definition str (o : option json) : jstr := match o with Some (JStr s) => s | _ => [] end.

(** ** auth.ts *)

Definition checkEmailAvailability `{Unicode} (email : jstr) : prog Panel json :=
  cp_json "Check email failed " "POST" (js "/v1/auth/check-email") json_type
    (stringified (JObj [str_member "email" (trim email)])).

Definition register (email passwordVerifier orgRecoveryPk : jstr) (wrappedOrgRecoverySk recoverySalt : option jstr)
    : prog Panel json :=
  cp_json "Register failed " "POST" (js "/v1/auth/register") json_type
    (stringified (JObj ([str_member "email" (trim email); str_member "password" passwordVerifier;
                         str_member "org_recovery_pk" orgRecoveryPk]
                        ++ opt_member "wrapped_org_recovery_sk" (or_undefined wrappedOrgRecoverySk)
                        ++ opt_member "recovery_salt" (or_undefined recoverySalt)))).

(** [if (data.token) localStorage.setItem(...)] *)
Definition keep_token (v : json) : prog Panel json :=
  token ← lift (field "token" v);
  _ ← (match token with
       | Some (JStr t) => if truthy t then modify (fun s => set_store (<[cp_token_item := t]> (cp_store s)) s) else skip
       | _ => skip
       end);
  mret v.

Definition cp_login (email password : jstr) : prog Panel json :=
  v ← cp_json "Login failed " "POST" (js "/v1/auth/login") json_type
        (stringified (JObj [str_member "email" email; str_member "password" password;
                            str_member "client" (js "control-plane")]));
  keep_token v.

(** The [error] of a JSON reply, else its text. *)
Definition verify_error (st : Z) (data : option bytes) : js_error :=
  let text := text_or_empty data in
  let errorMsg := or_default text (js "Verification failed " ++ num st) in
  JsError (match (v ← JSON_parse text; field "error" v) with
           | Ok (Some (JStr e)) => if truthy e then e else errorMsg
           | _ => errorMsg
           end) (Some st).

Definition cp_verifyLogin2FA (challengeToken code : jstr) : prog Panel json :=
  s ← gets (fun s => s);
  r ← fetch (cp_request "POST" (js "/v1/auth/2fa/verify-login") (getCpHeaders json_type s) (js "include")
        (stringified (JObj [str_member "challenge_token" challengeToken; str_member "code" code])));
  data ← lift (match r with
               | NetworkFailure e => Throw e
               | Response st _ data => if response_ok st then Ok data else Throw (verify_error st data)
               end);
  v ← lift (response_json data);
  keep_token v.

Definition cp_sendLogin2FACode (challengeToken method : jstr) : prog Panel json :=
  cp_json "Failed to send code: status " "POST" (js "/v1/auth/2fa/send-code") json_type
    (stringified (JObj [str_member "challenge_token" challengeToken; str_member "method" method])).

Definition cp_logout : prog Panel unit :=
  _ ← modify (fun s => set_store (delete cp_token_item (cp_store s)) s);
  s ← gets (fun s => s);
  r ← fetch (cp_request "POST" (js "/v1/auth/logout") (getCpHeaders [] s) (js "include") NoBody);
  lift (expect_done "Logout failed " r).

Definition me : prog Panel json := cp_json "Not authenticated " "GET" (js "/v1/auth/me") [] NoBody.

Definition cp_fetchPasskeyLoginOptions (email : option jstr) : prog Panel json :=
  path ← lift (match email with
               | Some e => if truthy e
                           then q ← encodeURIComponent e; Ok (js "/v1/auth/passkeys/login-options?email=" ++ q)
                           else Ok (js "/v1/auth/passkeys/login-options")
               | None => Ok (js "/v1/auth/passkeys/login-options")
               end);
  cp_json "Failed to fetch passkey options: " "GET" path [] NoBody.

Definition cp_loginWithPasskey (data : json) : prog Panel json :=
  v ← cp_json "Passkey login failed: " "POST" (js "/v1/auth/passkeys/login") json_type (stringified data);
  keep_token v.

Definition cp_fetchPasskeyRegisterOptions : prog Panel json :=
  cp_json "Failed to fetch passkey registration options: " "GET" (js "/v1/auth/passkeys/register-options") [] NoBody.

Definition cp_registerPasskey (data : json) : prog Panel json :=
  cp_json "Failed to register passkey: " "POST" (js "/v1/auth/passkeys/register") json_type (stringified data).

Definition cp_listPasskeys : prog Panel json :=
  s ← gets (fun s => s);
  r ← fetch (cp_request "GET" (js "/v1/auth/passkeys") (getCpHeaders [] s) (js "include") NoBody);
  match r with
  | NetworkFailure e => lift (Throw e)
  | Response st _ data => if negb (response_ok st) then mret (JArr []) else lift (response_json data)
  end.

Definition cp_deletePasskey (i : jstr) : prog Panel unit :=
  s ← gets (fun s => s);
  r ← fetch (cp_request "DELETE" (js "/v1/auth/passkeys/" ++ i) (getCpHeaders [] s) (js "include") NoBody);
  lift (expect_done "Failed to delete passkey: " r).

(** ** attachments.ts *)

Definition getAttachments (mailboxId : jstr) (messageId : option jstr) : prog Panel (option json) :=
  query ← lift (match messageId with
                | Some m => if truthy m then q ← encodeURIComponent m; Ok (js "?message_id=" ++ q) else Ok []
                | None => Ok []
                end);
  v ← bare_json "Failed to fetch attachments " "GET" (mailbox_path mailboxId "/attachments" ++ query) [] NoBody;
  lift (field "attachments" v).

Definition createAttachmentMetadata (mailboxId filename : jstr) (sizeBytes : Z) (contentType messageId : option jstr)
    : prog Panel json :=
  bare_json "Failed to create attachment " "POST" (mailbox_path mailboxId "/attachments") json_type
    (stringified (JObj ([str_member "filename" filename; (js "size_bytes", JNum (num sizeBytes));
                         str_member "content_type" (default (js "application/octet-stream") contentType)]
                        ++ opt_member "message_id" (JStr <$> messageId)))).

Definition cp_deleteAttachment (mailboxId attachmentId : jstr) : prog Panel unit :=
  bare_done "Failed to delete attachment " "DELETE" (item_path mailboxId "/attachments/" attachmentId) [] NoBody.

(** ** billing.ts *)

Definition org_path (orgId : jstr) (rest : string) : jstr := js "/v1/organizations/" ++ orgId ++ js rest.

Definition getBillingInfo (orgId : jstr) : prog Panel json :=
  bare_json "Failed to fetch billing " "GET" (org_path orgId "/billing") [] NoBody.

Definition updatePlan (orgId plan : jstr) : prog Panel json :=
  bare_json "Failed to update plan " "POST" (org_path orgId "/billing/plan") json_type
    (stringified (JObj [str_member "plan" plan])).

Definition updateCapacity (orgId : jstr) (seatCount : Z) (billingCycle : option jstr) : prog Panel json :=
  bare_json "Failed to update capacity " "POST" (org_path orgId "/billing/capacity") json_type
    (stringified (JObj [(js "seat_count", JNum (num seatCount));
                        str_member "billing_cycle" (default (js "annual") billingCycle)])).

(** ** bridge.ts *)

Definition getBridgeCredentials (mailboxId : jstr) : prog Panel (option json) :=
  v ← bare_json "Failed to fetch bridge credentials " "GET" (mailbox_path mailboxId "/bridge/credentials") [] NoBody;
  lift (field "credentials" v).

Definition cp_createBridgeCredential (mailboxId label : jstr) : prog Panel json :=
  bare_json "Failed to create bridge credential " "POST" (mailbox_path mailboxId "/bridge/credentials") json_type
    (stringified (JObj [str_member "label" label])).

Definition cp_revokeBridgeCredential (mailboxId credentialId : jstr) : prog Panel unit :=
  bare_done "Failed to revoke bridge credential " "DELETE"
    (item_path mailboxId "/bridge/credentials/" credentialId) [] NoBody.

(** ** devices.ts *)

Definition enrollDevice (params : json) : prog Panel json :=
  bare_json "Device enroll failed " "POST" (js "/v1/auth/device-enroll") json_type (stringified params).

Definition revokeDevice (deviceId : jstr) : prog Panel unit :=
  bare_done "Device revoke failed " "POST" (js "/v1/auth/device-revoke") json_type
    (stringified (JObj [str_member "device_id" deviceId])).

(** ** members.ts *)

Definition getMembers : prog Panel (option json) :=
  v ← cp_json "List members failed " "GET" (js "/v1/auth/organization-members") [] NoBody;
  lift (field "members" v).

Definition inviteMember (req : json) : prog Panel json :=
  cp_json "Invite member failed " "POST" (js "/v1/auth/organization-members") json_type (stringified req).

Definition changeMemberRole (targetUserId newRole : jstr) : prog Panel unit :=
  _ ← cp_call "Change role failed " "PATCH" (js "/v1/auth/change-member-role") json_type
        (stringified (JObj [str_member "target_user_id" targetUserId; str_member "new_role" newRole]));
  mret tt.

Definition terminateUser (targetUserId reason : jstr) : prog Panel unit :=
  _ ← cp_call "Terminate user failed " "DELETE" (js "/v1/auth/terminate-user") json_type
        (stringified (JObj [str_member "target_user_id" targetUserId; str_member "reason" reason]));
  mret tt.

(** ** recovery.ts *)

Definition enrollRecovery (recoveryAuthPk : jstr) : prog Panel json :=
  bare_json "Enroll failed " "POST" (js "/v1/auth/recovery-enroll") json_type
    (stringified (JObj [str_member "recovery_auth_pk" recoveryAuthPk])).

(** Before signing in: no credentials are asked for, so [fetch] uses its own default. *)
Definition getRecoveryChallenge (email : jstr) : prog Panel json :=
  r ← fetch (cp_request "POST" (js "/v1/auth/recovery-challenge") json_type (js "same-origin")
        (stringified (JObj [str_member "email" email])));
  res ← lift (expect_ok "Challenge failed " r); lift (response_json (snd res)).

Definition verifyRecovery (challengeId signature : jstr) : prog Panel json :=
  bare_json "Recovery failed " "POST" (js "/v1/auth/recovery-verify") json_type
    (stringified (JObj [str_member "challenge_id" challengeId; str_member "signature" signature])).

Definition changePassword (newPassword : jstr) : prog Panel unit :=
  r ← fetch (cp_request "POST" (js "/v1/auth/change-password") json_type (js "include")
        (stringified (JObj [str_member "new_password" newPassword])));
  _ ← lift (expect_ok "Password change failed " r); mret tt.

(** ** The request functions of domains.ts, mailboxes.ts, storage.ts and principals.ts *)

(** The headers the first three have in common; none passes headers of its own. *)
Definition panel_headers (s : Panel) : list (jstr * jstr) :=
  spread (spread json_type (getCpHeaders [] s)) (getAuthHeader s).

Definition domain_request (m : string) (path : jstr) (body : payload) : prog Panel json :=
  s ← gets (fun s => s);
  r ← fetch (cp_request m path (panel_headers s) (js "include") body);
  res ← lift (expect_ok "Request failed " r); lift (response_json (snd res)).

(** Replies that are not JSON are empty objects. *)
Definition mailbox_request (m : string) (path : jstr) (body : payload) : prog Panel json :=
  s ← gets (fun s => s);
  r ← fetch (cp_request m path (panel_headers s) (js "include") body);
  res ← lift (expect_ok "Request failed " r);
  if includes (fst res) (js "application/json") then lift (response_json (snd res)) else mret (JObj []).

(** Errors of storage requests carry no status. *)
Definition without_status (e : js_error) : js_error :=
  match e with JsError m _ => JsError m None | JsThrown v => JsThrown v end.

Definition storage_reply (r : reply) : outcome (option bytes) :=
  match r with
  | NetworkFailure e => Throw e
  | Response st _ data =>
      if response_ok st then Ok data else Throw (without_status (request_error "Request failed " st data))
  end.

Definition storage_request (base : jstr) (m : string) (path : jstr) (body : payload) : prog Panel json :=
  s ← gets (fun s => s);
  r ← fetch {| req_method := js m; req_url := base ++ path; req_headers := panel_headers s;
               req_credentials := js "include"; req_body := body |};
  data ← lift (storage_reply r); lift (response_json data).

Definition principal_request (m : string) (path : jstr) (body : payload) : prog Panel (option json) :=
  r ← fetch (cp_request m path json_type (js "include") body);
  match r with
  | NetworkFailure e => lift (Throw e)
  | Response st _ data =>
      if negb (response_ok st) then lift (Throw (request_error "Request failed " st data))
      else if st =? 204 then mret None else lift (Some <$> response_json data)
  end.

(** ** domains.ts *)

Definition domain_bool (d : json) : json :=
  match get d (js "is_verified") with
  | None | Some JNull => match get d (js "verified") with None | Some JNull => JBool false | Some v => v end
  | Some v => v
  end.

(** A listed domain, with both spellings of its verification. *)
Definition domain_of (d : json) : json :=
  JObj (opt_member "id" (get d (js "id")) ++ opt_member "name" (get d (js "name"))
        ++ [(js "is_verified", domain_bool d); (js "verified", domain_bool d)]
        ++ opt_member "verification_token" (get d (js "verification_token"))
        ++ opt_member "dkim_selector" (get d (js "dkim_selector"))
        ++ opt_member "dkim_public_key" (get d (js "dkim_public_key"))
        ++ opt_member "dns_records" (get d (js "dns_records"))).

(** [xs.map(f)]; [f] reads properties, so that [null] throws. *)
Definition map_items (v : json) (f : json -> json) : outcome (list json) :=
  match v with
  | JArr xs => mapM (fun x => match x with JNull => throw "TypeError" | _ => Ok (f x) end) xs
  | _ => throw "TypeError"
  end.

Definition listDomains (orgId : jstr) : prog Panel (list json) :=
  body ← domain_request "GET" (org_path orgId "/domains") NoBody;
  l ← lift (list_member (Some body) "domains");
  lift (map_items l domain_of).

Definition createDomain (orgId domain : jstr) : prog Panel json :=
  domain_request "POST" (org_path orgId "/domains") (stringified (JObj [str_member "domain" domain])).

Definition verifyDomain (orgId domainId : jstr) : prog Panel json :=
  domain_request "POST" (org_path orgId "/domains/" ++ domainId ++ js "/verify") NoBody.

(** ** mailboxes.ts, without the cryptography *)

Definition listMailboxes (orgId : jstr) : prog Panel json :=
  body ← mailbox_request "GET" (org_path orgId "/mailboxes") NoBody;
  lift (list_member (Some body) "mailboxes").

Definition getMailbox (mailboxId : jstr) : prog Panel json :=
  mailbox_request "GET" (mailbox_path mailboxId "") NoBody.

Definition deleteMailbox (orgId mailboxId : jstr) : prog Panel json :=
  mailbox_request "DELETE" (org_path orgId "/mailboxes/" ++ mailboxId) NoBody.

Definition impersonateMailbox (orgId mailboxId : jstr) : prog Panel json :=
  mailbox_request "POST" (org_path orgId "/mailboxes/" ++ mailboxId ++ js "/impersonate") NoBody.

Definition rotateRoot (orgId mailboxId : jstr) (rootSecretWrappedHex : option jstr) : prog Panel json :=
  mailbox_request "POST" (org_path orgId "/mailboxes/" ++ mailboxId ++ js "/rotate-root")
    (stringified (JObj (opt_member "root_secret_wrapped" (or_undefined rootSecretWrappedHex)))).

Definition createAlias (mailboxId localPartOrFullAlias : jstr) (domainId : option jstr) : prog Panel json :=
  mailbox_request "POST" (mailbox_path mailboxId "/aliases")
    (stringified (JObj (if truthy_opt domainId
                        then [str_member "local_part" localPartOrFullAlias; str_member "domain_id" (default [] domainId)]
                        else [str_member "alias" localPartOrFullAlias]))).

Definition deleteAlias (mailboxId aliasId : jstr) : prog Panel unit :=
  _ ← mailbox_request "DELETE" (item_path mailboxId "/aliases/" aliasId) NoBody; mret tt.

Definition listAliases (mailboxId : jstr) : prog Panel json :=
  body ← mailbox_request "GET" (mailbox_path mailboxId "/aliases") NoBody;
  lift (list_member (Some body) "aliases").

Definition listOrgAliases (orgId : jstr) : prog Panel json :=
  body ← mailbox_request "GET" (org_path orgId "/aliases") NoBody;
  lift (list_member (Some body) "aliases").

(** ** principals.ts *)

Definition enrollPrincipal (orgId : jstr) (payload : json) : prog Panel (option json) :=
  principal_request "POST" (org_path orgId "/recovery-principals") (stringified payload).

Definition listPrincipals (orgId : jstr) : prog Panel json :=
  res ← principal_request "GET" (org_path orgId "/recovery-principals") NoBody;
  lift (list_member res "principals").

Definition getPrincipal (orgId principalId : jstr) : prog Panel (option json) :=
  principal_request "GET" (org_path orgId "/recovery-principals/" ++ principalId) NoBody.

Definition revokePrincipal (orgId principalId : jstr) : prog Panel (option json) :=
  principal_request "POST" (org_path orgId "/recovery-principals/" ++ principalId ++ js "/revoke") (stringified (JObj [])).

(** ** storage.ts; [base] is its own [apiBase], which falls back to a local server. *)

Definition storageBase : jstr := or_default apiBase (js "http://127.0.0.1:8080").

Definition getStorageConnection (orgId : jstr) : prog Panel json :=
  storage_request storageBase "GET" (org_path orgId "/storage/connection") NoBody.

Definition createStorageConnection (orgId : jstr) (payload : json) : prog Panel json :=
  storage_request storageBase "POST" (org_path orgId "/storage/connection") (stringified payload).

Definition updateStorageConnection (orgId : jstr) (payload : json) : prog Panel json :=
  storage_request storageBase "PUT" (org_path orgId "/storage/connection") (stringified payload).

(** What a storage test resolves to or throws; [now] is [new Date().toISOString()], and a
    thrown error's [code] is left out. *)
Definition parsed_str (parsed : option json) (p : string) : jstr :=
  match parsed with Some v => str (get v (js p)) | None => [] end.

Definition test_result (now : jstr) (st : Z) (data : option bytes) : outcome json :=
  let body := text_or_empty data in
  let parsed := if truthy body then match JSON_parse body with Ok v => Some v | Throw _ => None end else None in
  let code := parsed_str parsed "code" in
  let message := parsed_str parsed "message" in
  if response_ok st then
    let verified := JObj [str_member "status" (js "ok"); str_member "code" (js "verified"); str_member "last_checked" now] in
    Ok (match parsed with
        | Some v => match get v (js "code") with Some c => if json_truthy c then v else verified | None => verified end
        | None => verified
        end)
  else if (st =? 409) && jeqb code (js "configuration_changed") then
    Throw (JsError (or_default message
      (js "Storage configuration changed while the test was running. Please test again.")) (Some 409))
  else if st =? 403 then throw "You don't have permission to test this storage connection."
  else if st =? 404 then throw "No storage connection found."
  else Throw (JsError (or_default message (or_default code (js "Request failed " ++ num st))) None).

Definition plain_headers (s : Panel) : list (jstr * jstr) := spread json_type (getAuthHeader s).

Definition testStorageConnection (now orgId : jstr) : prog Panel json :=
  s ← gets (fun s => s);
  r ← fetch {| req_method := js "POST"; req_url := storageBase ++ org_path orgId "/storage/connection/test";
               req_headers := plain_headers s; req_credentials := js "include"; req_body := NoBody |};
  match r with
  | NetworkFailure e => lift (Throw e)
  | Response st _ data => lift (test_result now st data)
  end.

Definition deleteStorageConnection (orgId : jstr) : prog Panel unit :=
  s ← gets (fun s => s);
  r ← fetch {| req_method := js "DELETE"; req_url := storageBase ++ org_path orgId "/storage/connection";
               req_headers := plain_headers s; req_credentials := js "include"; req_body := NoBody |};
  match r with
  | NetworkFailure e => lift (Throw e)
  | Response st _ data =>
      if response_ok st then skip
      else if st =? 404 then pthrow "No active storage connection for this organization"
      else if st =? 403 then pthrow "You don't have permission to disconnect storage"
      else lift (Throw (without_status (request_error "Request failed " st data)))
  end.

Definition authorizeGoogleDrive (orgId : jstr) : prog Panel json :=
  storage_request storageBase "GET" (org_path orgId "/storage/google-drive/authorize") NoBody.

Definition getStorageMigrationStatus (orgId migrationId : jstr) : prog Panel json :=
  storage_request storageBase "GET" (org_path orgId "/storage/migration/" ++ migrationId) NoBody.

Definition retryStorageMigration (orgId migrationId : jstr) : prog Panel json :=
  storage_request storageBase "POST" (org_path orgId "/storage/migration/" ++ migrationId ++ js "/retry")
    (TextBody (js "{}")).

(** ** Who sends the session token *)

(** What is sent of the stored token. *)
Definition panel_token (s : Panel) : option jstr :=
  match cp_store s !! cp_token_item with Some t => if truthy t then Some (bearer t) else None | None => None end.

(** The request carries the panel's token, if there is one. *)
Definition carries_token (s : Panel) (q : request) : Prop :=
  lookup_key (js "Authorization") (req_headers q) = panel_token s.

Definition carries_none (s : Panel) (q : request) : Prop := lookup_key (js "Authorization") (req_headers q) = None.

Definition token_endpoints `{Unicode} (a b c : jstr) (o o' : option jstr) (v : json) : list (prog Panel unit) :=
  [ ignore (checkEmailAvailability a); ignore (register a b c o o'); ignore (cp_login a b);
    ignore (cp_verifyLogin2FA a b); ignore (cp_sendLogin2FACode a b); ignore me;
    ignore (cp_fetchPasskeyLoginOptions o); ignore (cp_loginWithPasskey v);
    ignore cp_fetchPasskeyRegisterOptions; ignore (cp_registerPasskey v); ignore cp_listPasskeys;
    cp_deletePasskey a; ignore getMembers; ignore (inviteMember v); changeMemberRole a b; terminateUser a b;
    ignore (listDomains a); ignore (createDomain a b); ignore (verifyDomain a b); ignore (listMailboxes a);
    ignore (getMailbox a); ignore (deleteMailbox a b); ignore (impersonateMailbox a b);
    ignore (rotateRoot a b o); ignore (createAlias a b o); deleteAlias a b; ignore (listAliases a);
    ignore (listOrgAliases a); ignore (getStorageConnection a); ignore (createStorageConnection a v);
    ignore (updateStorageConnection a v); ignore (authorizeGoogleDrive a);
    ignore (getStorageMigrationStatus a b); ignore (retryStorageMigration a b) ].

Definition cookie_endpoints (a b : jstr) (n : Z) (o o' : option jstr) (v : json) : list (prog Panel unit) :=
  [ cp_logout; ignore (getAttachments a o); ignore (createAttachmentMetadata a b n o o'); cp_deleteAttachment a b;
    ignore (getBillingInfo a); ignore (updatePlan a b); ignore (updateCapacity a n o);
    ignore (getBridgeCredentials a); ignore (cp_createBridgeCredential a b); cp_revokeBridgeCredential a b;
    ignore (enrollDevice v); revokeDevice a; ignore (enrollRecovery a); ignore (getRecoveryChallenge a);
    ignore (verifyRecovery a b); changePassword a; ignore (enrollPrincipal a v); ignore (listPrincipals a);
    ignore (getPrincipal a b); ignore (revokePrincipal a b); ignore (testStorageConnection a b);
    deleteStorageConnection a ].

Create HintDb panel.
#[local] Hint Unfold checkEmailAvailability register cp_login cp_verifyLogin2FA cp_sendLogin2FACode cp_logout
  me cp_fetchPasskeyLoginOptions cp_loginWithPasskey cp_fetchPasskeyRegisterOptions cp_registerPasskey
  cp_listPasskeys cp_deletePasskey getAttachments createAttachmentMetadata cp_deleteAttachment getBillingInfo
  updatePlan updateCapacity getBridgeCredentials cp_createBridgeCredential cp_revokeBridgeCredential
  enrollDevice revokeDevice getMembers inviteMember changeMemberRole terminateUser enrollRecovery
  getRecoveryChallenge verifyRecovery changePassword domain_request mailbox_request storage_request
  principal_request listDomains createDomain verifyDomain listMailboxes getMailbox deleteMailbox
  impersonateMailbox rotateRoot createAlias deleteAlias listAliases listOrgAliases enrollPrincipal
  listPrincipals getPrincipal revokePrincipal getStorageConnection createStorageConnection
  updateStorageConnection testStorageConnection deleteStorageConnection authorizeGoogleDrive
  getStorageMigrationStatus retryStorageMigration : panel.

Lemma cp_headers_token extra s :
  extra = [] \/ extra = json_type -> lookup_key (js "Authorization") (getCpHeaders extra s) = panel_token s.
Proof.
  unfold getCpHeaders, panel_token. intros [-> | ->]; (destruct (cp_store s !! cp_token_item) as [t|]; [|done]);
    (destruct (truthy t); [|done]); by rewrite lookup_set_key.
Qed.

Lemma panel_headers_token s : lookup_key (js "Authorization") (panel_headers s) = panel_token s.
Proof.
  unfold panel_headers. rewrite lookup_spread.
  assert (lookup_key (js "Authorization") (reverse (getAuthHeader s)) = None) as ->
    by (unfold getAuthHeader; by destruct (truthy _)).
  unfold getCpHeaders, panel_token. destruct (cp_store s !! cp_token_item) as [t|]; [|done].
  by destruct (truthy t).
Qed.

Lemma plain_headers_token s : lookup_key (js "Authorization") (plain_headers s) = None.
Proof. unfold plain_headers, getAuthHeader. by destruct (truthy _). Qed.

Lemma issues_keep_token P s v : issues P s (keep_token v).
Proof.
  unfold keep_token. apply issues_lift_bind. intros token. apply issues_bind; [|done].
  destruct token as [[]|]; try done. by destruct (truthy _).
Qed.

(** Walk to the request an endpoint makes. *)
Ltac issue_step :=
  lazymatch goal with
  | |- issues _ _ (ignore _) => unfold ignore
  | |- issues _ _ (lift _ ≫= _) => apply issues_lift_bind; intros ?
  | |- issues _ _ (gets _ ≫= _) => apply issues_gets_bind
  | |- issues _ _ (modify _ ≫= _) => apply issues_modify_bind
  | |- issues _ _ (fetch _ ≫= _) => apply issues_fetch_bind; [|intros ? ?]
  | |- issues _ _ (keep_token _) => apply issues_keep_token
  | |- issues _ _ (_ ≫= _) => apply issues_bind; [|intros ? ?]
  | |- issues _ _ (lift _) => exact I
  | |- issues _ _ (mret _) => exact I
  | |- issues _ _ skip => exact I
  | |- issues _ _ (pthrow _) => exact I
  | |- issues _ _ (cp_json _ _ _ _ _) => unfold cp_json
  | |- issues _ _ (cp_call _ _ _ _ _) => unfold cp_call
  | |- issues _ _ (bare_json _ _ _ _ _) => unfold bare_json
  | |- issues _ _ (bare_done _ _ _ _ _) => unfold bare_done
  | |- issues _ _ (match ?x with _ => _ end) => destruct x
  end.

(** The panel's session token goes where the code means it to: signing in stores
    exactly the token of the reply; every endpoint of the files that use [getCpHeaders]
    sends what is stored, as a bearer token, in whatever state it runs; signing out
    forgets the token first, so that its own request, and those of the endpoints that
    build their headers themselves, carry none. *)
Theorem panel_token_spec `{Unicode} a b c n o o' v :
  (forall w t s email password token,
     (forall q, exists ct data, respond w t q = Response 200 ct data /\
        response_json data = Ok (JObj [str_member "token" token])) -> truthy token = true ->
     exists t', run w t s (cp_login email password) =
       (Ok (JObj [str_member "token" token]), set_store (<[cp_token_item := token]> (cp_store s)) s, t') /\
       panel_token (set_store (<[cp_token_item := token]> (cp_store s)) s) = Some (bearer token)) /\
  Forall (fun p => forall s, issues carries_token s p) (token_endpoints a b c o o' v) /\
  Forall (fun p => forall s, issues carries_none s p) (cookie_endpoints a b n o o' v).
Proof.
  split; [|split].
  - intros w t s email password token Hr Ht. unfold cp_login. rewrite run_bind. unfold cp_json.
    rewrite run_bind. unfold cp_call. rewrite run_bind. cbn [gets run]. rewrite run_bind. cbn [fetch run].
    edestruct Hr as (ct & data & E & Ej). rewrite E. cbn [expect_ok response_ok lift run snd].
    change (response_ok 200) with true. cbv beta iota. cbn [run lift snd]. rewrite Ej. cbv beta iota.
    unfold keep_token. rewrite run_bind. cbn [lift run].
    change (field "token" (JObj [str_member "token" token])) with (Ok (Some (JStr token))). cbv beta iota.
    rewrite Ht. eexists. split; [reflexivity|]. unfold panel_token. cbn [cp_store set_store].
    by rewrite lookup_insert_eq, Ht.
  - unfold token_endpoints. repeat (apply Forall_cons; split); [..|done]; intros s; autounfold with panel;
      repeat issue_step; first [apply cp_headers_token; tauto | apply panel_headers_token].
  - unfold cookie_endpoints. repeat (apply Forall_cons; split); [..|done]; intros s; autounfold with panel;
      repeat issue_step; try reflexivity; try apply plain_headers_token.
    unfold carries_none. trans (panel_token (set_store (delete cp_token_item (cp_store s)) s));
      [apply cp_headers_token; tauto|]. unfold panel_token. cbn [cp_store set_store]. by rewrite lookup_delete_eq.
Qed.

End Control.
