(* ===== verification/ControlKeys.v ===== *)
(** * The control plane's cryptography

    control-plane/src/lib/crypto/client_crypto.ts, the functions of lib/api/mailboxes.ts
    that make, invite and recover mailboxes, and lib/validation/storage.ts.  Random
    values are arguments; [await import(...)] of the crypto core is a suspension. *)

From S2P Require Import Prelude JsString Encoding Json Wasm MessageCrypto Client Api ControlApi.

(** ** client_crypto.ts *)

Record CeremonyResult := {
  publicKey : jstr; wrappedPrivateKey : jstr; recoverySalt : jstr; passwordVerifier : jstr;
  recoveryPhrase : jstr; recoveryWords : list jstr }.

(** What the ceremony draws: the secret key, the mnemonic's entropy, the salt and the
    wrapping nonce. *)
Record CeremonyRandom := { cr_sk : bytes; cr_entropy : bytes; cr_salt : bytes; cr_nonce : bytes }.

Record extracted := { phrase : jstr; phrase_words : list jstr }.

Definition extract12WordMnemonic (mnemonicString : jstr) : outcome extracted :=
  let ws := take 12 (words (trim mnemonicString)) in
  if (length ws <? 12)%nat then
    Throw (JsError (js "Insufficient mnemonic words generated: expected 12, got "
                    ++ num (Z.of_nat (length ws))) None)
  else Ok {| phrase := join [32] ws; phrase_words := ws |}.

Section Ceremony.
Context `{Crypto} `{Unicode}.

Definition PBKDF2_ITERATIONS : Z := 100000.

Definition deriveClientPasswordVerifier (password email : jstr) : jstr :=
  let canonicalEmail := toLowerCase (trim email) in
  let salt := TextEncoder_encode (js "byos-auth-v1:" ++ canonicalEmail) in
  cp_bytesToHex (pbkdf2_sha256 (TextEncoder_encode password) salt PBKDF2_ITERATIONS).

(** Timers and WebCrypto promises are suspensions. *)
Definition performCryptographicCeremony {S} (r : CeremonyRandom) (email password : jstr)
    (onProgress : jstr -> Z -> prog S unit) : prog S CeremonyResult :=
  _ ← onProgress (js "Loading WASM Cryptographic Core" ++ [8230]) 15; _ ← wait;
  _ ← wait;
  _ ← onProgress (js "Generating Sovereign Asymmetric Keypair" ++ [8230]) 35; _ ← wait;
  keypair ← lift (JSON_parse (wasm_generate_keypair (cr_sk r)));
  _ ← onProgress (js "Synthesizing 12-Word Master Recovery Phrase" ++ [8230]) 55; _ ← wait;
  rawMnemonic ← lift (wasm_generate_mnemonic (cr_entropy r));
  ext ← lift (extract12WordMnemonic rawMnemonic);
  _ ← onProgress (js "Deriving Argon2id Key & Encrypting Private Key" ++ [8230]) 75; _ ← wait;
  let saltHex := cp_bytesToHex (cr_salt r) in
  wrapped ← lift (wasm_passphrase_wrap_key (cr_nonce r) password saltHex (str_field keypair "secret_key"));
  _ ← onProgress (js "Computing Zero-Knowledge Password Verifier" ++ [8230]) 92; _ ← wait;
  _ ← wait;
  let verifier := deriveClientPasswordVerifier password email in
  _ ← onProgress (js "Cryptographic Material Verified & Sealed.") 100; _ ← wait;
  mret {| publicKey := str_field keypair "public_key"; wrappedPrivateKey := wrapped; recoverySalt := saltHex;
          passwordVerifier := verifier; recoveryPhrase := phrase ext; recoveryWords := phrase_words ext |}.

End Ceremony.

Inductive StrengthLabel := Weak | Fair | Good | Strong.

Record PasswordStrength := {
  score : Z; label : StrengthLabel;
  hasLength : bool; hasLower : bool; hasUpper : bool; hasNumber : bool; hasSpecial : bool;
  isCompliant : bool }.

Definition is_upper (u : Z) : bool := (65 <=? u) && (u <=? 90).
Definition is_lower (u : Z) : bool := (97 <=? u) && (u <=? 122).
Definition is_num (u : Z) : bool := (48 <=? u) && (u <=? 57).
Definition is_special (u : Z) : bool := negb (is_upper u || is_lower u || is_num u).

Definition evaluatePasswordStrength (password : jstr) : PasswordStrength :=
  let len := Z.of_nat (length password) in
  let hasLength := 10 <=? len in
  let hasLower := existsb is_lower password in
  let hasUpper := existsb is_upper password in
  let hasNumber := existsb is_num password in
  let hasSpecial := existsb is_special password in
  let criteriaMet := Z.b2z hasLength + Z.b2z hasLower + Z.b2z hasUpper + Z.b2z hasNumber + Z.b2z hasSpecial in
  let '(score, label) :=
    if (5 <=? criteriaMet) && (12 <=? len) then (4, Strong)
    else if (4 <=? criteriaMet) && (10 <=? len) then (3, Good)
    else if 3 <=? criteriaMet then (2, Fair)
    else (1, Weak) in
  {| score := score; label := label; hasLength := hasLength; hasLower := hasLower; hasUpper := hasUpper;
     hasNumber := hasNumber; hasSpecial := hasSpecial; isCompliant := (4 <=? criteriaMet) && hasLength |}.

(** ** validation/storage.ts

    A configuration is an object: its members in order, with distinct names. *)

Inductive ValidationResult := valid | invalid (at_field message : jstr).

(** The first check that fails returns. *)
Fixpoint first_failure (checks : list (option (jstr * jstr))) : ValidationResult :=
  match checks with
  | [] => valid
  | Some (f, m) :: _ => invalid f m
  | None :: checks => first_failure checks
  end.

Definition is_JStr (v : json) : bool := match v with JStr _ => true | _ => false end.
Definition is_JBool (v : json) : bool := match v with JBool _ => true | _ => false end.

(** [typeof v !== "string" || v.trim() === ""] *)
Definition blank (v : option json) : bool :=
  match v with Some (JStr s) => negb (truthy (trim s)) | _ => true end.

Definition storage_config := list (jstr * json).

Definition known (allowed : list jstr) (c : storage_config) : list (option (jstr * jstr)) :=
  map (fun '(k, _) => if bool_decide (k ∈ allowed) then None else Some (k, js "Unknown field: " ++ k)) c.

(** [k in config && typeof config[k] !== t] *)
Definition typed (is_type : json -> bool) (k : string) (msg : jstr) (c : storage_config) : option (jstr * jstr) :=
  match lookup_key (js k) c with
  | Some v => if is_type v then None else Some (js k, msg)
  | None => None
  end.

Definition validateS3Config (c : storage_config) : ValidationResult :=
  first_failure
    (map (fun k => if blank (lookup_key (js k) c)
                   then Some (js k, js "Field " ++ js k ++ js " must be non-empty string") else None)
         ["endpoint"; "bucket"; "access_key"; "secret_key"]%string
     ++ known (map js ["endpoint"; "bucket"; "access_key"; "secret_key"; "region"; "path_style"]%string) c
     ++ [typed is_JStr "region" (js "Field region must be string") c;
         typed is_JBool "path_style" (js "Field path_style must be boolean") c]
     ++ map (fun k => typed is_JStr k (js "Field " ++ js k ++ js " must be string") c)
         ["endpoint"; "bucket"; "access_key"; "secret_key"; "region"]%string).

Definition validateMockConfig (c : storage_config) : ValidationResult :=
  first_failure (known [js "root"] c ++ [typed is_JStr "root" (js "Field root must be string") c]).

Definition validateGoogleDriveConfig (c : storage_config) : ValidationResult :=
  first_failure
    ([if blank (lookup_key (js "access_token") c)
      then Some (js "access_token", js "Access token must be non-empty") else None]
     ++ known (map js ["access_token"; "refresh_token"; "folder_id"]%string) c
     ++ map (fun k => typed is_JStr k (js k ++ js " must be a string") c) ["refresh_token"; "folder_id"]%string).

Definition validateStorageConfig (provider : jstr) (c : storage_config) : ValidationResult :=
  if jeqb provider (js "s3") || jeqb provider (js "minio") || jeqb provider (js "s3_compatible") then validateS3Config c
  else if jeqb provider (js "google_drive_mock") then validateMockConfig c
  else if jeqb provider (js "google_drive") then validateGoogleDriveConfig c
  else invalid (js "provider") (js "Invalid provider").

(** ** mailboxes.ts: making, inviting and recovering *)

(** [String(v)], the conversion of an argument of [atob]; a number is printed as the
    server wrote it. *)
Fixpoint js_text (v : json) : jstr :=
  match v with
  | JNull => js "null"
  | JBool b => js (if b then "true" else "false")
  | JNum l => l
  | JStr s => s
  | JArr xs => join [44] (map (fun x => match x with JNull => [] | _ => js_text x end) xs)
  | JObj _ => js "[object Object]"
  end.

Definition atob_of (v : option json) : outcome jstr :=
  atob (match v with Some v => js_text v | None => js "undefined" end).

(** [Array.from(bin, (c) => c.charCodeAt(0).toString(16).padStart(2, "0")).join("")] *)
Definition binary_hex (bin : jstr) : jstr := cp_bytesToHex bin.

(** [mailboxId.replace(/-/g, "")] *)
Definition undashed (mailboxId : jstr) : jstr := remove_units (Z.eqb 45) mailboxId.

(** The organization's recovery key of a reply; a key that is not a string is not one. *)
Definition org_recovery_pk_b64 (orgData : json) : outcome jstr :=
  pk ← field "org_recovery_pk" orgData;
  if truthy (str pk) && (10 <=? Z.of_nat (length (str pk))) then Ok (str pk)
  else throw "organization recovery key not available".

Definition hex_of_b64 (b64 : jstr) : outcome jstr := bin ← atob b64; Ok (binary_hex bin).

Definition exactly_64 (hex : jstr) : outcome jstr :=
  if (length hex =? 64)%nat then Ok hex else throw "invalid org recovery pk".

(** What a new mailbox draws: its id, the root's entropy, its key, the seal's randomness
    and the wrapping nonce. *)
Record MailboxRandom := { mr_uuid : jstr; mr_entropy : bytes; mr_sk : bytes; mr_seal : bytes; mr_nonce : bytes }.

(** What an invitation draws: the key, the seal's randomness, the token and a nonce. *)
Record InviteRandom := { iv_sk : bytes; iv_seal : bytes; iv_token : bytes; iv_nonce : bytes }.

Record InviteMailboxRequest := { address : jstr; invite_name : option jstr; privacy_mode : jstr }.

Section Mailboxes.
Context `{Env} `{Crypto}.

Definition org_data (orgId : jstr) : prog Panel json := mailbox_request "GET" (org_path orgId "") NoBody.

Definition fetchOrgRecoveryPkHex (orgId : jstr) : prog Panel jstr :=
  orgData ← org_data orgId;
  lift (b64 ← org_recovery_pk_b64 orgData; hex ← hex_of_b64 b64; exactly_64 hex).

Definition recoverMailboxSecret (orgId mailboxId recoverySkHex : jstr) : prog Panel jstr :=
  material ← mailbox_request "GET" (org_path orgId "/mailboxes/" ++ mailboxId ++ js "/recovery-material") NoBody;
  mailbox ← getMailbox mailboxId;
  _ ← wait;
  wrapped ← lift (field "root_secret_wrapped" material);
  wrappedRoot ← lift (atob_of wrapped);
  rootSecretHex ← lift (wasm_hpke_open (trim recoverySkHex) (binary_hex wrappedRoot) []);
  key ← lift (field "mailbox_sk_wrapped" mailbox);
  match key with
  | Some v =>
      if json_truthy v then
        wrappedMailboxKey ← lift (atob_of key);
        lift (wasm_unwrap_mailbox_key rootSecretHex (binary_hex wrappedMailboxKey) (undashed mailboxId))
      else pthrow "mailbox wrapped key unavailable"
  | None => pthrow "mailbox wrapped key unavailable"
  end.

Definition createMailbox (r : MailboxRandom) (orgId localPart domainId mode : jstr) : prog Panel json :=
  let mailboxId := mr_uuid r in
  let idHex := undashed mailboxId in
  let entropyHex := cp_bytesToHex (mr_entropy r) in
  _ ← wait;
  rootSecretHex ← lift (wasm_derive_root_secret entropyHex);
  kp ← lift (JSON_parse (wasm_generate_keypair (mr_sk r)));
  let mailboxPkHex := str_field kp "public_key" in
  let mailboxSkHex := str_field kp "secret_key" in
  if jeqb mode (js "org_managed") then
    orgData ← org_data orgId;
    orgRecoveryPkHex ← lift (b64 ← org_recovery_pk_b64 orgData; hex ← hex_of_b64 b64; exactly_64 hex);
    rootSecretWrappedHex ← lift (wasm_hpke_seal (mr_seal r) orgRecoveryPkHex rootSecretHex []);
    mailboxSkWrappedHex ← lift (wasm_wrap_mailbox_key (mr_nonce r) rootSecretHex mailboxSkHex idHex);
    mailbox_request "POST" (org_path orgId "/mailboxes")
      (stringified (JObj [str_member "id" mailboxId; str_member "local_part" localPart;
                          str_member "domain_id" domainId; str_member "mode" (js "org_managed");
                          str_member "root_secret_wrapped" rootSecretWrappedHex;
                          str_member "mailbox_sk_wrapped" mailboxSkWrappedHex;
                          str_member "mailbox_pk" mailboxPkHex]))
  else
    mailboxSkWrappedHex ← lift (wasm_wrap_mailbox_key (mr_nonce r) rootSecretHex mailboxSkHex idHex);
    mailbox_request "POST" (org_path orgId "/mailboxes")
      (stringified (JObj [str_member "id" mailboxId; str_member "local_part" localPart;
                          str_member "domain_id" domainId; str_member "mode" (js "private");
                          str_member "mailbox_sk_wrapped" mailboxSkWrappedHex;
                          str_member "mailbox_pk" mailboxPkHex])).

(** [req.name || req.address.split("@")[0]] *)
Definition invited_name (req : InviteMailboxRequest) : jstr :=
  or_default (default [] (invite_name req)) (default [] (head (split_on 64 (address req)))).

Definition inviteMailbox (r : InviteRandom) (orgId : jstr) (req : InviteMailboxRequest) : prog Panel json :=
  _ ← wait;
  if jeqb (privacy_mode req) (js "organization_managed") || jeqb (privacy_mode req) (js "org_managed") then
    kp ← lift (JSON_parse (wasm_generate_keypair (iv_sk r)));
    orgData ← org_data orgId;
    orgRecoveryPkHex ← lift (b64 ← org_recovery_pk_b64 orgData; hex_of_b64 b64);
    wrappedSkOrgHex ← lift (wasm_hpke_seal (iv_seal r) orgRecoveryPkHex (str_field kp "secret_key") []);
    let tokenHex := cp_bytesToHex (iv_token r) in
    tempWrappedSkHex ← lift (wasm_aes_gcm_encrypt (iv_nonce r) tokenHex (str_field kp "secret_key") []);
    mailbox_request "POST" (org_path orgId "/mailboxes/invite")
      (stringified (JObj [str_member "address" (address req); str_member "name" (invited_name req);
                          str_member "privacy_mode" (js "organization_managed"); str_member "token" tokenHex;
                          str_member "mailbox_pk" (str_field kp "public_key");
                          str_member "wrapped_sk_org" wrappedSkOrgHex;
                          str_member "temp_wrapped_sk" tempWrappedSkHex]))
  else
    mailbox_request "POST" (org_path orgId "/mailboxes/invite")
      (stringified (JObj [str_member "address" (address req); str_member "name" (invited_name req);
                          str_member "privacy_mode" (js "private")])).

End Mailboxes.

(** ** Replies of the server *)

(** A JSON reply with this content. *)
Definition gives (r : reply) (v : json) : Prop :=
  exists st ct data, r = Response st ct data /\ response_ok st = true /\
    includes ct (js "application/json") = true /\ response_json data = Ok v.

Section Requests.
Context `{HE : Env}.

Definition panel_request (m : string) (path : jstr) (body : payload) (s : Panel) : request :=
  cp_request m path (panel_headers s) (js "include") body.

Definition org_request (orgId : jstr) : Panel -> request := panel_request "GET" (org_path orgId "") NoBody.
Definition material_request (orgId mailboxId : jstr) : Panel -> request :=
  panel_request "GET" (org_path orgId "/mailboxes/" ++ mailboxId ++ js "/recovery-material") NoBody.
Definition detail_request (mailboxId : jstr) : Panel -> request :=
  panel_request "GET" (mailbox_path mailboxId "") NoBody.

Lemma run_mailbox_request m path body w t s v :
  gives (respond w t (panel_request m path body s)) v ->
  run w t s (mailbox_request m path body) = (Ok v, s, ask (panel_request m path body s) t).
Proof.
  intros (st & ct & data & E & Hst & Hct & Ej). unfold mailbox_request. rewrite run_bind. cbn [gets run].
  rewrite run_bind. cbn [fetch run]. unfold panel_request in E. rewrite E. cbn [expect_ok]. rewrite Hst.
  rewrite run_bind. cbn [lift run fst snd]. rewrite Hct. by rewrite Ej.
Qed.

(** Whatever the reply, one request. *)
Lemma sends_mailbox_request m path body w t s :
  exists r, run w t s (mailbox_request m path body) = (r, s, ask (panel_request m path body s) t).
Proof.
  unfold mailbox_request. rewrite run_bind. cbn [gets run]. rewrite run_bind. cbn [fetch run].
  rewrite run_bind. destruct (expect_ok _ _) as [[ct data]|e]; cbn [lift run fst snd]; [|by eexists].
  destruct (includes _ _); [|by eexists]. cbn [lift run]. by eexists.
Qed.

End Requests.

Section Laws.
Context `{HE : Env} `{HC : Crypto} `{!CryptoLaws}.

(** The organization's reply holds the public key of [org_sk]. *)
Definition org_key_reply (orgv : json) (org_sk : bytes) : Prop :=
  get orgv (js "org_recovery_pk") = Some (JStr (b64_encode (x25519_pk org_sk))).

Lemma field_get p v x : get v (js p) = Some x -> field p v = Ok (Some x).
Proof. intros E. unfold field, member. by destruct v; [discriminate| | | | |]; rewrite E. Qed.

Lemma length_b64_encode_32 bs : length bs = 32%nat -> length (b64_encode bs) = 44%nat.
Proof. intros Hl. do 32 (destruct bs as [|? bs]; [done|]). by destruct bs. Qed.

Lemma recovery_pk_reply orgv org_sk :
  key_ok org_sk -> org_key_reply orgv org_sk ->
  (b64 ← org_recovery_pk_b64 orgv; hex_of_b64 b64) = Ok (bytesToHex (x25519_pk org_sk)) /\
  exactly_64 (bytesToHex (x25519_pk org_sk)) = Ok (bytesToHex (x25519_pk org_sk)).
Proof.
  intros [Hl Hb] E. pose proof (x25519_pk_bytes _ Hb) as Hpb. pose proof (x25519_pk_size _ Hl) as Hpl. split.
  - unfold org_recovery_pk_b64. rewrite (field_get _ _ _ E). ok_bind. cbn [str].
    pose proof (length_b64_encode_32 _ Hpl) as H44. rewrite H44. destruct (b64_encode _) eqn:Eb; [done|].
    cbn [truthy andb Z.leb]. change (10 <=? Z.of_nat 44) with true. ok_bind. rewrite <- Eb.
    unfold hex_of_b64. rewrite atob_b64_encode by done. ok_bind. unfold binary_hex. by rewrite cp_bytesToHex_eq.
  - unfold exactly_64. rewrite length_bytesToHex by done. by rewrite Hpl.
Qed.

Lemma run_fetch_pk w t s org orgv org_sk :
  key_ok org_sk -> gives (respond w t (org_request org s)) orgv -> org_key_reply orgv org_sk ->
  run w t s (fetchOrgRecoveryPkHex org) = (Ok (bytesToHex (x25519_pk org_sk)), s, ask (org_request org s) t).
Proof.
  intros Ho Hg Hk. unfold fetchOrgRecoveryPkHex, org_data. rewrite run_bind, (run_mailbox_request _ _ _ _ _ _ orgv) by done.
  destruct (recovery_pk_reply orgv org_sk Ho Hk) as [E1 E2]. cbn [lift run fst snd]. f_equal. f_equal.
  revert E1. destruct (org_recovery_pk_b64 orgv); ok_bind; [|done]. intros ->. ok_bind. exact E2.
Qed.

End Laws.

(** ** Mailboxes the organization manages *)

Section Managed.
Context `{HE : Env} `{HC : Crypto} `{!CryptoLaws}.

Record mailbox_ok (r : MailboxRandom) (id : bytes) : Prop := {
  m_uuid : undashed (mr_uuid r) = bytesToHex id;
  m_id : length id = 16%nat;
  m_id_bytes : Forall is_byte id;
  m_entropy : key_ok (mr_entropy r);
  m_sk : key_ok (mr_sk r);
  m_nonce : nonce_ok (mr_nonce r) }.

Definition root_of (r : MailboxRandom) : bytes := hkdf_root (mr_entropy r).
Definition wrapped_key (r : MailboxRandom) (id : bytes) : bytes :=
  wrap_mailbox_key (root_of r) (mr_nonce r) (mr_sk r) id.

(** The body of the request that makes a managed mailbox. *)
Definition managed_body (r : MailboxRandom) (localPart domainId : jstr) (sealed wrapped : bytes) : payload :=
  stringified (JObj [str_member "id" (mr_uuid r); str_member "local_part" localPart;
    str_member "domain_id" domainId; str_member "mode" (js "org_managed");
    str_member "root_secret_wrapped" (bytesToHex sealed); str_member "mailbox_sk_wrapped" (bytesToHex wrapped);
    str_member "mailbox_pk" (bytesToHex (x25519_pk (mr_sk r)))]).

Lemma derive_root_ok r id :
  mailbox_ok r id -> wasm_derive_root_secret (cp_bytesToHex (mr_entropy r)) = Ok (bytesToHex (root_of r)).
Proof.
  intros [_ _ _ [Hl Hb] _ _]. unfold wasm_derive_root_secret. rewrite cp_bytesToHex_eq, hex_decode_encode by done.
  ok_bind. by rewrite exactly_ok.
Qed.

Lemma wrap_ok r id :
  mailbox_ok r id ->
  wasm_wrap_mailbox_key (mr_nonce r) (bytesToHex (root_of r)) (bytesToHex (mr_sk r)) (undashed (mr_uuid r)) =
  Ok (bytesToHex (wrapped_key r id)).
Proof.
  intros [-> Hl Hb _ [Hkl Hk] _]. destruct (hkdf_root_key (mr_entropy r)). unfold wasm_wrap_mailbox_key.
  rewrite !hex_decode_32_encode by done. ok_bind. by rewrite decode_mailbox_id_encode.
Qed.

Lemma hpke_seal_ok org_sk rnd pt w :
  key_ok org_sk -> Forall is_byte pt -> hpke_seal (x25519_pk org_sk) rnd pt [] = Some w ->
  wasm_hpke_seal rnd (bytesToHex (x25519_pk org_sk)) (bytesToHex pt) [] = Ok (bytesToHex w).
Proof.
  intros [Hl Hb] Hp E. unfold wasm_hpke_seal.
  rewrite hex_decode_32_encode by auto using x25519_pk_bytes, x25519_pk_size. ok_bind.
  rewrite hex_decode_encode by done. ok_bind. change (hex_decode []) with (Ok ([] : bytes)). ok_bind. by rewrite E.
Qed.

Lemma run_create w t s orgv org_sk r org lp dom sealed id :
  key_ok org_sk -> mailbox_ok r id -> gives (respond w t (org_request org s)) orgv -> org_key_reply orgv org_sk ->
  hpke_seal (x25519_pk org_sk) (mr_seal r) (root_of r) [] = Some sealed ->
  run w t s (createMailbox r org lp dom (js "org_managed")) =
  run w (ask (org_request org s) t) s
    (mailbox_request "POST" (org_path org "/mailboxes") (managed_body r lp dom sealed (wrapped_key r id))).
Proof.
  intros Ho Hr Hg Hk Hs. unfold createMailbox. cbv zeta. rewrite run_bind. cbn [wait run].
  rewrite (derive_root_ok r id Hr). rewrite bind_lift.
  destruct (keypair_fields (mr_sk r) (proj2 (m_sk r id Hr))) as (kp & Ep & Es & Epk).
  rewrite Ep, bind_lift. cbv zeta. rewrite Es, Epk.
  change (jeqb (js "org_managed") (js "org_managed")) with true. cbv iota.
  rewrite run_bind. unfold org_data. rewrite (run_mailbox_request _ _ _ _ _ _ orgv) by done. cbn [fst snd].
  destruct (recovery_pk_reply orgv org_sk Ho Hk) as [E1 E2].
  assert (E : (b64 ← org_recovery_pk_b64 orgv; hex ← hex_of_b64 b64; exactly_64 hex)
    = Ok (bytesToHex (x25519_pk org_sk))).
  { revert E1. destruct (org_recovery_pk_b64 orgv); ok_bind; [|done]. by intros ->. }
  rewrite E, bind_lift, (hpke_seal_ok org_sk _ _ sealed) by (done || apply hkdf_root_key).
  rewrite bind_lift, (wrap_ok r id Hr), bind_lift. done.
Qed.

Lemma atob_of_bytes bs : Forall is_byte bs -> atob_of (Some (JStr (b64_encode bs))) = Ok bs.
Proof. apply atob_b64_encode. Qed.

Lemma binary_hex_eq bs : binary_hex bs = bytesToHex bs.
Proof. apply cp_bytesToHex_eq. Qed.

Lemma run_recover w t s org box org_sk material detail sealed wrapped root id :
  key_ok org_sk -> key_ok root -> Forall is_byte sealed -> Forall is_byte wrapped -> wrapped <> [] ->
  undashed box = bytesToHex id -> length id = 16%nat -> Forall is_byte id ->
  gives (respond w t (material_request org box s)) material ->
  get material (js "root_secret_wrapped") = Some (JStr (b64_encode sealed)) ->
  gives (respond w (ask (material_request org box s) t) (detail_request box s)) detail ->
  get detail (js "mailbox_sk_wrapped") = Some (JStr (b64_encode wrapped)) ->
  hpke_open org_sk sealed [] = Some root ->
  run w t s (recoverMailboxSecret org box (bytesToHex org_sk)) =
  (k ← unwrap_mailbox_key root wrapped id; Ok (bytesToHex k), s,
   ask (detail_request box s) (ask (material_request org box s) t)).
Proof.
  intros [Hol Ho] [Hrl Hr] Hs Hw Hne Hbox Hidl Hid Hg1 E1 Hg2 E2 Hop. unfold recoverMailboxSecret.
  rewrite run_bind, (run_mailbox_request _ _ _ _ _ _ material) by done. cbn [fst snd].
  rewrite run_bind. unfold getMailbox. rewrite (run_mailbox_request _ _ _ _ _ _ detail) by done. cbn [fst snd].
  rewrite run_bind. cbn [wait run]. rewrite (field_get _ _ _ E1), bind_lift, atob_of_bytes, bind_lift by done.
  rewrite binary_hex_eq, trim_lower_hex by by apply bytesToHex_lower. unfold wasm_hpke_open.
  rewrite hex_decode_32_encode by done. ok_bind. rewrite hex_decode_encode by done. ok_bind.
  change (hex_decode []) with (Ok ([] : bytes)). ok_bind. rewrite Hop. unfold hex_encode. rewrite bind_lift.
  rewrite (field_get _ _ _ E2), bind_lift. cbn [json_truthy].
  assert (truthy (b64_encode wrapped) = true) as ->.
  { destruct wrapped as [|a [|b [|c r]]]; done. }
  rewrite atob_of_bytes, bind_lift by done. rewrite binary_hex_eq, Hbox. unfold wasm_unwrap_mailbox_key. cbn [lift run].
  rewrite hex_decode_32_encode by done. ok_bind. rewrite hex_decode_encode by done. ok_bind.
  by rewrite decode_mailbox_id_encode.
Qed.

End Managed.

(** C11.  A mailbox the organization manages can be recovered by the holder of the
    organization's recovery key, and only the sealed root, the wrapped key and the public
    key leave the browser: making one sends two requests, of which the second carries
    these; and when the server later gives them back (in base64), recovery returns the
    secret key that was drawn. *)
Theorem managed_mailbox_round_trip `{Env} `{CryptoLaws} w t s orgv org_sk r org lp dom sealed id
    w' t' s' material detail :
  key_ok org_sk -> mailbox_ok r id ->
  gives (respond w t (org_request org s)) orgv -> org_key_reply orgv org_sk ->
  hpke_seal (x25519_pk org_sk) (mr_seal r) (root_of r) [] = Some sealed ->
  gives (respond w' t' (material_request org (mr_uuid r) s')) material ->
  get material (js "root_secret_wrapped") = Some (JStr (b64_encode sealed)) ->
  gives (respond w' (ask (material_request org (mr_uuid r) s') t') (detail_request (mr_uuid r) s')) detail ->
  get detail (js "mailbox_sk_wrapped") = Some (JStr (b64_encode (wrapped_key r id))) ->
  sent (snd (run w t s (createMailbox r org lp dom (js "org_managed")))) =
    sent t ++ [org_request org s;
               panel_request "POST" (org_path org "/mailboxes") (managed_body r lp dom sealed (wrapped_key r id)) s] /\
  fst (fst (run w' t' s' (recoverMailboxSecret org (mr_uuid r) (bytesToHex org_sk)))) = Ok (bytesToHex (mr_sk r)).
Proof.
  intros Ho Hr Hg Hk Hs Hg1 E1 Hg2 E2. split.
  - rewrite (run_create w t s orgv org_sk r org lp dom sealed id) by done.
    destruct (sends_mailbox_request "POST" (org_path org "/mailboxes") (managed_body r lp dom sealed (wrapped_key r id))
      w (ask (org_request org s) t) s) as [x ->]. cbn [snd ask sent]. by rewrite <- app_assoc.
  - destruct (hkdf_root_key (mr_entropy r)) as [Hrl Hrb].
    assert (Hw : Forall is_byte (wrapped_key r id)) by (apply wrap_key_bytes; [by split|apply Hr..]).
    rewrite (run_recover w' t' s' org (mr_uuid r) org_sk material detail sealed (wrapped_key r id) (root_of r) id);
      [|try done; try apply Hr; eauto using hpke_seal_bytes, hpke_correct..].
    cbn [fst]. unfold wrapped_key. rewrite unwrap_mailbox_key_ok by apply Hr. by rewrite decide_True.
Qed.

(** ** Invitations *)

(** The two kinds of invitation. *)
Definition managed (req : InviteMailboxRequest) : bool :=
  jeqb (privacy_mode req) (js "organization_managed") || jeqb (privacy_mode req) (js "org_managed").

(** What is posted for a managed mailbox. *)
Definition invite_body `{Crypto} (r : InviteRandom) (req : InviteMailboxRequest) (sealed : bytes) : json :=
  JObj [str_member "address" (address req); str_member "name" (invited_name req);
        str_member "privacy_mode" (js "organization_managed"); str_member "token" (bytesToHex (iv_token r));
        str_member "mailbox_pk" (bytesToHex (x25519_pk (iv_sk r))); str_member "wrapped_sk_org" (bytesToHex sealed);
        str_member "temp_wrapped_sk" (bytesToHex (aes_gcm_encrypt (iv_token r) (iv_nonce r) (iv_sk r) []))].

Lemma sent_invite `{Env} `{CryptoLaws} r org req w t s orgv org_sk sealed :
  managed req = true -> key_ok (iv_sk r) -> key_ok (iv_token r) -> key_ok org_sk -> org_key_reply orgv org_sk ->
  gives (respond w t (org_request org s)) orgv ->
  hpke_seal (x25519_pk org_sk) (iv_seal r) (iv_sk r) [] = Some sealed ->
  sent (snd (run w t s (inviteMailbox r org req))) = sent t ++
    [org_request org s;
     panel_request "POST" (org_path org "/mailboxes/invite") (stringified (invite_body r req sealed)) s].
Proof.
  intros Hm [Hkl Hk] [Htl Ht] Ho Hr Hg Hs. unfold inviteMailbox. fold (managed req). rewrite Hm.
  rewrite run_bind. cbn [wait run].
  destruct (keypair_fields (iv_sk r) Hk) as (kp & Ep & Es & Epk). rewrite Ep, bind_lift, Es, Epk.
  rewrite run_bind. unfold org_data. rewrite (run_mailbox_request _ _ _ _ _ _ orgv) by done. cbn [fst snd].
  destruct (recovery_pk_reply orgv org_sk Ho Hr) as [-> _].
  rewrite bind_lift, (hpke_seal_ok org_sk _ _ sealed), bind_lift by done. cbv zeta.
  rewrite cp_bytesToHex_eq. unfold wasm_aes_gcm_encrypt. rewrite hex_decode_32_encode by done. ok_bind.
  rewrite hex_decode_encode by done. ok_bind. change (hex_decode []) with (Ok ([] : bytes)). ok_bind. rewrite bind_lift.
  destruct (sends_mailbox_request "POST" (org_path org "/mailboxes/invite") (stringified (invite_body r req sealed))
    w (ask (panel_request "GET" (org_path org "") NoBody s) t) s) as [x E].
  match goal with |- context [run w ?t1 s ?p] => change (run w t1 s p) with
    (run w (ask (panel_request "GET" (org_path org "") NoBody s) t) s
       (mailbox_request "POST" (org_path org "/mailboxes/invite") (stringified (invite_body r req sealed)))) end.
  rewrite E. cbn [snd ask sent]. by rewrite <- app_assoc.
Qed.

(** The provisional key of an invitation opens under its token. *)
Lemma provisional_opens `{CryptoLaws} r :
  key_ok (iv_sk r) -> key_ok (iv_token r) -> nonce_ok (iv_nonce r) ->
  wasm_aes_gcm_decrypt (bytesToHex (iv_token r)) (bytesToHex (aes_gcm_encrypt (iv_token r) (iv_nonce r) (iv_sk r) [])) [] =
    Ok (bytesToHex (iv_sk r)).
Proof.
  intros [_ Hk] [Htl Ht] [Hnl Hn].
  unfold wasm_aes_gcm_decrypt. rewrite hex_decode_32_encode by done. ok_bind.
  rewrite hex_decode_encode by (by apply envelope_bytes). ok_bind. change (hex_decode []) with (Ok ([] : bytes)). ok_bind.
  by rewrite aes_gcm_round_trip.
Qed.

(** C28.  What an administrator's browser posts for an invitation.  For a private mailbox
    nothing of it depends on key material: the outcome and the requests are the same
    whatever was drawn.  For a managed mailbox the posted body holds the activation token
    together with the key sealed under it, so that whoever reads the body, the server
    included, can open the mailbox's secret key. *)
Theorem invitation_exposes_the_key `{Env} `{CryptoLaws} r org req :
  (managed req = false ->
   forall r' w t s, run w t s (inviteMailbox r org req) = run w t s (inviteMailbox r' org req)) /\
  (managed req = true -> key_ok (iv_sk r) -> key_ok (iv_token r) -> nonce_ok (iv_nonce r) ->
   forall w t s orgv org_sk sealed, key_ok org_sk -> org_key_reply orgv org_sk ->
   gives (respond w t (org_request org s)) orgv ->
   hpke_seal (x25519_pk org_sk) (iv_seal r) (iv_sk r) [] = Some sealed ->
   exists body, sent (snd (run w t s (inviteMailbox r org req))) =
     sent t ++ [org_request org s; panel_request "POST" (org_path org "/mailboxes/invite") (stringified body) s] /\
     wasm_aes_gcm_decrypt (str_field body "token") (str_field body "temp_wrapped_sk") [] =
       Ok (bytesToHex (iv_sk r))).
Proof.
  split; [by intros Hm *; unfold inviteMailbox; fold (managed req); rewrite Hm|].
  intros Hm Hk Ht Hn w t s orgv org_sk sealed Ho Hr Hg Hs. exists (invite_body r req sealed).
  split; [by apply (sent_invite r org req w t s orgv org_sk sealed)|by apply provisional_opens].
Qed.

(** ** The registration ceremony *)

Section CeremonyLaws.
Context `{HC : Crypto} `{!CryptoLaws} `{HU : Unicode}.

Record ceremony_ok (r : CeremonyRandom) : Prop := {
  c_sk : key_ok (cr_sk r);
  c_entropy : key_ok (cr_entropy r);
  c_salt : Forall is_byte (cr_salt r) /\ length (cr_salt r) = 16%nat;
  c_nonce : nonce_ok (cr_nonce r) }.

Lemma extract_words ws :
  (12 <= length ws)%nat -> Forall (fun w => w <> [] /\ forallb is_letter w = true) ws ->
  extract12WordMnemonic (join [32] ws) = Ok {| phrase := join [32] (take 12 ws); phrase_words := take 12 ws |}.
Proof.
  intros Hl Hw. unfold extract12WordMnemonic. rewrite words_trim, words_join by by apply word_nonwhite.
  by rewrite length_take, Nat.min_l by lia.
Qed.

(** Twelve words carry sixteen bytes, and the crypto core recovers only from 32. *)
Lemma twelve_words_do_not_recover ws :
  length ws = 12%nat -> Forall (fun w => w <> [] /\ forallb is_letter w = true) ws ->
  exists e, wasm_recover_root_secret (join [32] ws) = Throw e.
Proof.
  intros Hl Hw. unfold wasm_recover_root_secret. destruct (bip39_entropy _) as [e|] eqn:E; [|by eexists].
  apply bip39_size in E; [|by apply join_letters]. rewrite words_join, Hl in E by by apply word_nonwhite.
  rewrite decide_False by lia. by eexists.
Qed.

(** Running the ceremony when progress is only reported. *)
Lemma run_ceremony {S} w t (s : S) r email password k report :
  ceremony_ok r -> (forall msg n t, run w t s (report msg n) = (Ok tt, s, t)) ->
  derive_recovery_principal_key password (cr_salt r) = Ok k ->
  exists ws, wasm_generate_mnemonic (cr_entropy r) = Ok (join [32] ws) /\ length ws = 24%nat /\
    Forall (fun w => w <> [] /\ forallb is_letter w = true) ws /\
    run w t s (performCryptographicCeremony r email password report) =
    (Ok {| publicKey := bytesToHex (x25519_pk (cr_sk r));
           wrappedPrivateKey := bytesToHex (aes_gcm_encrypt k (cr_nonce r) (cr_sk r) RECOVERY_PRINCIPAL_AAD);
           recoverySalt := bytesToHex (cr_salt r); passwordVerifier := deriveClientPasswordVerifier password email;
           recoveryPhrase := join [32] (take 12 ws); recoveryWords := take 12 ws |}, s, t).
Proof.
  intros [[Hkl Hk] He [Hs Hsl] Hn] Hp Hd. destruct (mnemonic_words _ He) as (ws & Em & Hl & Hw).
  exists ws. split_and!; [done..|]. unfold performCryptographicCeremony.
  destruct (keypair_fields (cr_sk r) Hk) as (kp & Ep & Es & Epk).
  assert (Hstep : forall msg n {B} (f : unit -> prog S B), run w t s (report msg n ≫= f) = run w t s (f tt)).
  { intros. rewrite run_bind. by rewrite Hp. }
  assert (Hwait : forall {B} (f : unit -> prog S B), run w t s (wait ≫= f) = run w t s (f tt)).
  { intros. rewrite run_bind. done. }
  do 2 first [rewrite Hstep | rewrite Hwait]. rewrite Hwait, Hstep, Hwait, Ep, bind_lift, Hstep, Hwait, Em, bind_lift.
  rewrite extract_words, bind_lift by (done || lia). rewrite Hstep, Hwait, Es. cbv zeta. rewrite cp_bytesToHex_eq.
  rewrite (passphrase_wrap_ok password _ _ _ k), bind_lift by done. by rewrite Hstep, Hwait, Hwait, Hstep, Hwait, Epk.
Qed.

(** The key a password wraps is opened by it. *)
Lemma password_opens password r k :
  ceremony_ok r -> derive_recovery_principal_key password (cr_salt r) = Ok k ->
  wasm_passphrase_unwrap_key password (bytesToHex (cr_salt r))
    (bytesToHex (aes_gcm_encrypt k (cr_nonce r) (cr_sk r) RECOVERY_PRINCIPAL_AAD)) = Ok (bytesToHex (cr_sk r)).
Proof.
  intros [[Hkl Hk] _ [Hs Hsl] [Hnl Hn]] Hd.
  unfold wasm_passphrase_unwrap_key. rewrite (hex_decode_encode (cr_salt r)) by done. ok_bind. rewrite exactly_ok by done. ok_bind.
  assert (length k = 32%nat /\ Forall is_byte k) as [? ?].
  { revert Hd. unfold derive_recovery_principal_key. destruct (_ <? _); [done|].
    destruct (argon2id _ _) eqn:Ea; [|done]. intros [= <-]. by eapply argon2id_key. }
  rewrite hex_decode_encode by (apply envelope_bytes; done || by_decide). ok_bind. rewrite Hd. ok_bind.
  by rewrite aes_gcm_round_trip.
Qed.

End CeremonyLaws.

(** What registration gives.  The wrapped key it returns is opened by the password and
    gives the secret of the public key.  The twelve words it shows, called the means of
    recovery, do not: they are the first half of a phrase drawn for nothing else, the same
    whatever the key is, and the crypto core recovers no root from them. *)
Theorem ceremony_key_and_phrase `{CryptoLaws} `{Unicode} {S} w t (s : S) r r' email password k k' report :
  ceremony_ok r -> ceremony_ok r' -> cr_entropy r' = cr_entropy r ->
  (forall msg n t, run w t s (report msg n) = (Ok tt, s, t)) ->
  derive_recovery_principal_key password (cr_salt r) = Ok k ->
  derive_recovery_principal_key password (cr_salt r') = Ok k' ->
  exists c c', run w t s (performCryptographicCeremony r email password report) = (Ok c, s, t) /\
    run w t s (performCryptographicCeremony r' email password report) = (Ok c', s, t) /\
    publicKey c = bytesToHex (x25519_pk (cr_sk r)) /\
    wasm_passphrase_unwrap_key password (recoverySalt c) (wrappedPrivateKey c) = Ok (bytesToHex (cr_sk r)) /\
    length (recoveryWords c) = 12%nat /\ recoveryPhrase c = join [32] (recoveryWords c) /\
    recoveryPhrase c' = recoveryPhrase c /\
    exists e, wasm_recover_root_secret (recoveryPhrase c) = Throw e.
Proof.
  intros Hr Hr' He Hp Hd Hd'.
  destruct (run_ceremony w t s r email password k report Hr Hp Hd) as (ws & Em & Hl & Hw & ->).
  destruct (run_ceremony w t s r' email password k' report Hr' Hp Hd') as (ws' & Em' & Hl' & Hw' & ->).
  assert (ws' = ws) as ->.
  { rewrite He, Em in Em'. injection Em' as E.
    rewrite <- (words_join ws), <- (words_join ws') by by apply word_nonwhite. by rewrite E. }
  do 2 eexists. split_and!; [done|done|done| |cbn [recoveryWords]; by rewrite length_take, Hl|done|done|].
  - by apply password_opens.
  - apply twelve_words_do_not_recover; [by rewrite length_take, Hl|by apply Forall_take].
Qed.

(** ** Password strength *)

Definition classes (password : jstr) : Z :=
  Z.b2z (existsb is_lower password) + Z.b2z (existsb is_upper password) + Z.b2z (existsb is_num password)
  + Z.b2z (existsb is_special password).

(** A password is accepted exactly when it has ten code units or more and three of the
    four classes of characters; the score is that of the label and no accepted password is
    scored below [Good]; only twelve units of all four classes are [Strong]. *)
Theorem password_strength_spec password :
  let p := evaluatePasswordStrength password in
  let len := Z.of_nat (length password) in
  isCompliant p = (10 <=? len) && (3 <=? classes password) /\
  score p = match label p with Weak => 1 | Fair => 2 | Good => 3 | Strong => 4 end /\
  (isCompliant p = true <-> 3 <= score p) /\
  (label p = Strong <-> 12 <= len /\ classes password = 4).
Proof.
  unfold evaluatePasswordStrength, classes. cbv zeta. set (len := Z.of_nat _).
  destruct (existsb is_lower password), (existsb is_upper password), (existsb is_num password),
    (existsb is_special password), (10 <=? len) eqn:E10; cbn [Z.b2z Z.add Pos.add Pos.succ Z.leb Z.compare Pos.compare
      Pos.compare_cont andb negb]; destruct (12 <=? len) eqn:E12; zbool; cbn; split_and!; try done; lia || (split; lia || done).
Qed.

(** ** Storage configurations *)

(** What a provider requires: members that must be non-blank strings, those that may be
    strings, and those that may be booleans. *)
Record schema := { required : list string; strings : list string; booleans : list string }.

Definition schema_of (provider : jstr) : option schema :=
  if existsb (jeqb provider) (map js ["s3"; "minio"; "s3_compatible"]%string) then
    Some {| required := ["endpoint"; "bucket"; "access_key"; "secret_key"]%string;
            strings := ["region"]%string; booleans := ["path_style"]%string |}
  else if jeqb provider (js "google_drive_mock") then
    Some {| required := []; strings := ["root"]%string; booleans := [] |}
  else if jeqb provider (js "google_drive") then
    Some {| required := ["access_token"]%string; strings := ["refresh_token"; "folder_id"]%string; booleans := [] |}
  else None.

(** The configuration follows the schema. *)
Definition conforms (sc : schema) (c : storage_config) : Prop :=
  Forall (fun k => exists v, lookup_key (js k) c = Some (JStr v) /\ trim v <> []) (required sc) /\
  Forall (fun k => forall v, lookup_key (js k) c = Some v -> exists x, v = JStr x) (strings sc) /\
  Forall (fun k => forall v, lookup_key (js k) c = Some v -> exists b, v = JBool b) (booleans sc) /\
  Forall (fun m => fst m ∈ map js (required sc ++ strings sc ++ booleans sc)) c.

Lemma first_failure_valid cs : first_failure cs = valid <-> Forall (fun x => x = None) cs.
Proof.
  induction cs as [|[[f m]|] cs IH]; cbn [first_failure]; [done| |].
  - split; [done|]. by intros [? _]%Forall_cons.
  - rewrite IH, Forall_cons. tauto.
Qed.

Lemma known_ok allowed c : Forall (fun x => x = None) (known allowed c) <-> Forall (fun m => fst m ∈ allowed) c.
Proof.
  unfold known. rewrite Forall_map. apply Forall_iff. intros [k v]. cbn [fst].
  case_bool_decide; split; done.
Qed.

Lemma typed_ok {A} (K : A -> json) is_type k msg c :
  (forall v, is_type v = true <-> exists x, v = K x) ->
  typed is_type k msg c = None <-> forall v, lookup_key (js k) c = Some v -> exists x, v = K x.
Proof.
  intros Ht. unfold typed. destruct (lookup_key _ _) as [v|]; [|naive_solver].
  specialize (Ht v). destruct (is_type v); naive_solver.
Qed.

Lemma is_JStr_ok v : is_JStr v = true <-> exists x, v = JStr x.
Proof. destruct v; naive_solver. Qed.
Lemma is_JBool_ok v : is_JBool v = true <-> exists x, v = JBool x.
Proof. destruct v; naive_solver. Qed.

Lemma blank_ok v : blank v = false <-> exists s, v = Some (JStr s) /\ trim s <> [].
Proof.
  destruct v as [[| | |s| |]|]; cbn [blank]; try by (split; [|intros (? & ? & ?)]).
  destruct (trim s) eqn:E; cbn; split; try done; [|intros _; exists s; by rewrite E].
  intros (x & [= <-] & Hx). congruence.
Qed.

Lemma required_ok (c : storage_config) ks (msg : string -> jstr) :
  Forall (fun x => x = None) (map (fun k => if blank (lookup_key (js k) c) then Some (js k, msg k) else None) ks) <->
  Forall (fun k => exists v, lookup_key (js k) c = Some (JStr v) /\ trim v <> []) ks.
Proof.
  rewrite Forall_map. apply Forall_iff. intros k. rewrite <- blank_ok. by destruct (blank _).
Qed.

Lemma strings_ok (c : storage_config) ks (msg : string -> jstr) :
  Forall (fun x => x = None) (map (fun k => typed is_JStr k (msg k) c) ks) <->
  Forall (fun k => forall v, lookup_key (js k) c = Some v -> exists x, v = JStr x) ks.
Proof. rewrite Forall_map. apply Forall_iff. intros k. apply typed_ok, is_JStr_ok. Qed.

Lemma exists_known (x : schema) (P : schema -> Prop) : (exists sc, Some x = Some sc /\ P sc) <-> P x.
Proof. split; [by intros (? & [= <-] & ?)|eauto]. Qed.

(** The panel accepts a storage configuration exactly when its provider is one it knows
    and the configuration has the members the provider requires, non-blank, optional
    members of their types, and no others. *)
Theorem storage_config_accepted provider c :
  validateStorageConfig provider c = valid <-> exists sc, schema_of provider = Some sc /\ conforms sc c.
Proof.
  unfold validateStorageConfig, schema_of, conforms. cbn [existsb map]. rewrite orb_false_r, orb_assoc.
  destruct (_ || _ || _); [|destruct (jeqb provider (js "google_drive_mock")); [|destruct (jeqb _ _)]].
  - etrans; [|symmetry; apply exists_known]. cbn [required strings booleans app].
    unfold validateS3Config. rewrite first_failure_valid, !Forall_app, required_ok, known_ok, strings_ok.
    rewrite !Forall_cons, !Forall_nil, (typed_ok JStr _ _ _ _ is_JStr_ok), (typed_ok JBool _ _ _ _ is_JBool_ok).
    split; [tauto|]. intros (Hr & Hs & Hb & Hk). split_and!; try tauto; intros v Hv.
    + destruct Hr as ((x & E & _) & _). rewrite E in Hv. injection Hv as <-. by exists x.
    + destruct Hr as (_ & (x & E & _) & _). rewrite E in Hv. injection Hv as <-. by exists x.
    + destruct Hr as (_ & _ & (x & E & _) & _). rewrite E in Hv. injection Hv as <-. by exists x.
    + destruct Hr as (_ & _ & _ & (x & E & _) & _). rewrite E in Hv. injection Hv as <-. by exists x.
  - etrans; [|symmetry; apply exists_known]. cbn [required strings booleans app].
    unfold validateMockConfig. rewrite first_failure_valid, !Forall_app, known_ok, !Forall_cons, !Forall_nil.
    rewrite (typed_ok JStr _ _ _ _ is_JStr_ok). cbn [map]. tauto.
  - etrans; [|symmetry; apply exists_known]. cbn [required strings booleans app].
    unfold validateGoogleDriveConfig. rewrite first_failure_valid, !Forall_app, known_ok, strings_ok.
    rewrite <- (required_ok c ["access_token"]%string (fun _ => js "Access token must be non-empty")).
    rewrite Forall_nil. cbn [map]. tauto.
  - split; [done|]. by intros (? & ? & _).
Qed.

(** ** Concrete runs *)

#[local] Existing Instances toy_crypto toy_laws ascii_unicode.

Definition panel_env : Env := {| apiBase := js "https://api"; origin := None |}.
#[local] Existing Instance panel_env.

Definition panel0 : Panel := {| cp_store := ∅; byos_user_id := js "u1" |}.

Definition random0 : MailboxRandom := {|
  mr_uuid := js "00112233-4455-6677-8899-aabbccddeeff"; mr_entropy := key1; mr_sk := key0;
  mr_seal := []; mr_nonce := nonce0 |}.

Lemma random0_ok : mailbox_ok random0 id0.
Proof. split; first [exact key1_ok | exact key0_ok | exact nonce0_ok | by_decide | reflexivity]. Defined.

Definition sealed0 : bytes := toy_seal key1 [] [] (root_of random0).

(** The organization's page, then the mailbox's material, its details, and the rest. *)
Definition organization : world := {|
  respond t q := json_reply
    (if jeqb (req_url q) (js "https://api/v1/organizations/o1") then
       JObj [str_member "org_recovery_pk" (b64_encode key1)]
     else if includes (req_url q) (js "/recovery-material") then
       JObj [str_member "root_secret_wrapped" (b64_encode sealed0)]
     else JObj [str_member "mailbox_sk_wrapped" (b64_encode (wrapped_key random0 id0))]);
  answer _ _ := true |}.

Ltac reply :=
  lazymatch goal with
  | |- gives _ ?v =>
      exists 200, (js "application/json"), (Some (TextEncoder_encode (JSON_stringify v)));
      split_and!; vm_compute; reflexivity
  end.

Lemma managed_mailbox_round_trip_witness :
  fst (fst (run organization no_trace panel0 (recoverMailboxSecret (js "o1") (mr_uuid random0) (bytesToHex key1)))) =
    Ok (bytesToHex key0).
Proof.
  destruct (@managed_mailbox_round_trip panel_env toy_crypto toy_laws organization no_trace panel0
    (JObj [str_member "org_recovery_pk" (b64_encode key1)]) key1 random0 (js "o1") (js "ada") (js "d1") sealed0 id0
    organization no_trace panel0 (JObj [str_member "root_secret_wrapped" (b64_encode sealed0)])
    (JObj [str_member "mailbox_sk_wrapped" (b64_encode (wrapped_key random0 id0))])
    key1_ok random0_ok) as [_ E]; [reply|vm_compute; reflexivity|vm_compute; reflexivity|reply|vm_compute; reflexivity|
    reply|vm_compute; reflexivity|exact E].
Defined.

Definition invite0 : InviteRandom := {| iv_sk := key0; iv_seal := []; iv_token := key1; iv_nonce := nonce0 |}.

Definition guest0 : InviteMailboxRequest := {|
  address := js "ada@b.org"; invite_name := None; privacy_mode := js "org_managed" |}.

Lemma invitation_exposes_the_key_witness :
  exists body, sent (snd (run organization no_trace panel0 (inviteMailbox invite0 (js "o1") guest0))) =
      [org_request (js "o1") panel0;
       panel_request "POST" (org_path (js "o1") "/mailboxes/invite") (stringified body) panel0] /\
    wasm_aes_gcm_decrypt (str_field body "token") (str_field body "temp_wrapped_sk") [] = Ok (bytesToHex key0).
Proof.
  refine (proj2 (@invitation_exposes_the_key panel_env toy_crypto toy_laws invite0 (js "o1") guest0) _ key0_ok key1_ok
    nonce0_ok organization no_trace panel0 (JObj [str_member "org_recovery_pk" (b64_encode key1)]) key1
    (toy_seal key1 [] [] key0) key1_ok _ _ _); first [reply | vm_compute; reflexivity].
Defined.

Definition draws (sk : bytes) : CeremonyRandom := {|
  cr_sk := sk; cr_entropy := key1; cr_salt := salt0; cr_nonce := nonce0 |}.

Lemma draws_ok sk : key_ok sk -> ceremony_ok (draws sk).
Proof. split; first [done | exact key1_ok | exact nonce0_ok | split; [by_decide|reflexivity]]. Defined.

Lemma ceremony_key_and_phrase_witness :
  exists c e, run organization no_trace panel0
      (performCryptographicCeremony (draws key0) (js "ada@b.org") (js "correct horse") (fun _ _ => skip)) =
      (Ok c, panel0, no_trace) /\
    wasm_passphrase_unwrap_key (js "correct horse") (recoverySalt c) (wrappedPrivateKey c) = Ok (bytesToHex key0) /\
    wasm_recover_root_secret (recoveryPhrase c) = Throw e.
Proof.
  destruct (@ceremony_key_and_phrase toy_crypto toy_laws ascii_unicode Panel organization no_trace panel0 (draws key0) (draws key1) (js "ada@b.org")
    (js "correct horse") (toy_key (js "correct horse" ++ salt0)) (toy_key (js "correct horse" ++ salt0)) (fun _ _ => skip)
    (draws_ok key0 key0_ok) (draws_ok key1 key1_ok) eq_refl (fun _ _ _ => eq_refl) ltac:(vm_compute; reflexivity) ltac:(vm_compute; reflexivity))
    as (c & c' & E & _ & _ & Hu & _ & _ & _ & e & He).
  exists c, e. split; [exact E|]. split; [exact Hu|exact He].
Defined.

(** A password the panel accepts without a special character. *)
Example accepted_without_special :
  let p := evaluatePasswordStrength (js "Password12") in isCompliant p = true /\ hasSpecial p = false /\ label p = Good.
Proof. by vm_compute. Qed.
