(* ===== verification/ControlPages.v ===== *)
(** * The control plane's entrance

    The registration page and the sign-in page of control-plane/src/routes (register.tsx,
    login.tsx): their signals, handlers and effects.  The state is the panel's (its durable
    store) with the page's. *)

From S2P Require Import Prelude JsString Encoding Json Wasm MessageCrypto Client Page Api ControlApi ControlKeys.

(** ** What both pages share *)

(** [new URLSearchParams(window.location.search).get(k)]: the parameters are parsed. *)
Definition param (search : list (jstr * jstr)) (k : string) : jstr := default [] (lookup_key (js k) search).

(** [params.get("billing_cycle") || params.get("cycle")] *)
Definition cycle_param (search : list (jstr * jstr)) : jstr := or_default (param search "billing_cycle") (param search "cycle").

(** The serializer of [URLSearchParams.toString]. *)
Definition form_unit (b : Z) : jstr :=
  if ascii_alnum b || bool_decide (b ∈ [42; 45; 46; 95]) then [b] else if b =? 32 then [43] else percent b.

Definition form_encode (ps : list (jstr * jstr)) : jstr :=
  let enc s := concat (map form_unit (TextEncoder_encode s)) in
  join [38] (map (fun '(k, v) => enc k ++ [61] ++ enc v) ps).

(** [String(v)] of a member that may be missing. *)
Definition js_text_opt (v : option json) : jstr := match v with Some v => js_text v | None => js "undefined" end.

Definition truthy_field (p : string) (v : json) : outcome bool :=
  x ← field p v; Ok (match x with Some x => json_truthy x | None => false end).

(** A program of the panel, on a page. *)
Definition onPanel {G A} (p : prog Panel A) : prog (Panel * G) A := below p.

(** ** register.tsx *)

Record Signup := {
  sg_email : jstr;
  sg_password : jstr;
  sg_confirm : jstr;
  sg_step : Z;
  sg_progress : Z;
  sg_status : jstr;
  sg_ceremony : option CeremonyResult;
  sg_confirmed : bool;
  sg_copied : bool;
  sg_error : option jstr;
  sg_busy : bool;
  sg_session : option (jstr * jstr);
  sg_replaced : option jstr;
  sg_search : list (jstr * jstr) }.

Definition set_sg_email (v : jstr) (x : Signup) : Signup := {|
  sg_email := v; sg_password := sg_password x; sg_confirm := sg_confirm x; sg_step := sg_step x; sg_progress :=
    sg_progress x; sg_status := sg_status x; sg_ceremony := sg_ceremony x; sg_confirmed := sg_confirmed x;
    sg_copied := sg_copied x; sg_error := sg_error x; sg_busy := sg_busy x; sg_session := sg_session x;
    sg_replaced := sg_replaced x; sg_search := sg_search x |}.
Definition set_sg_password (v : jstr) (x : Signup) : Signup := {|
  sg_email := sg_email x; sg_password := v; sg_confirm := sg_confirm x; sg_step := sg_step x; sg_progress :=
    sg_progress x; sg_status := sg_status x; sg_ceremony := sg_ceremony x; sg_confirmed := sg_confirmed x;
    sg_copied := sg_copied x; sg_error := sg_error x; sg_busy := sg_busy x; sg_session := sg_session x;
    sg_replaced := sg_replaced x; sg_search := sg_search x |}.
Definition set_sg_confirm (v : jstr) (x : Signup) : Signup := {|
  sg_email := sg_email x; sg_password := sg_password x; sg_confirm := v; sg_step := sg_step x; sg_progress :=
    sg_progress x; sg_status := sg_status x; sg_ceremony := sg_ceremony x; sg_confirmed := sg_confirmed x;
    sg_copied := sg_copied x; sg_error := sg_error x; sg_busy := sg_busy x; sg_session := sg_session x;
    sg_replaced := sg_replaced x; sg_search := sg_search x |}.
Definition set_sg_step (v : Z) (x : Signup) : Signup := {|
  sg_email := sg_email x; sg_password := sg_password x; sg_confirm := sg_confirm x; sg_step := v; sg_progress :=
    sg_progress x; sg_status := sg_status x; sg_ceremony := sg_ceremony x; sg_confirmed := sg_confirmed x;
    sg_copied := sg_copied x; sg_error := sg_error x; sg_busy := sg_busy x; sg_session := sg_session x;
    sg_replaced := sg_replaced x; sg_search := sg_search x |}.
Definition set_sg_progress (v : Z) (x : Signup) : Signup := {|
  sg_email := sg_email x; sg_password := sg_password x; sg_confirm := sg_confirm x; sg_step := sg_step x;
    sg_progress := v; sg_status := sg_status x; sg_ceremony := sg_ceremony x; sg_confirmed := sg_confirmed x;
    sg_copied := sg_copied x; sg_error := sg_error x; sg_busy := sg_busy x; sg_session := sg_session x;
    sg_replaced := sg_replaced x; sg_search := sg_search x |}.
Definition set_sg_status (v : jstr) (x : Signup) : Signup := {|
  sg_email := sg_email x; sg_password := sg_password x; sg_confirm := sg_confirm x; sg_step := sg_step x;
    sg_progress := sg_progress x; sg_status := v; sg_ceremony := sg_ceremony x; sg_confirmed := sg_confirmed x;
    sg_copied := sg_copied x; sg_error := sg_error x; sg_busy := sg_busy x; sg_session := sg_session x;
    sg_replaced := sg_replaced x; sg_search := sg_search x |}.
Definition set_sg_ceremony (v : option CeremonyResult) (x : Signup) : Signup := {|
  sg_email := sg_email x; sg_password := sg_password x; sg_confirm := sg_confirm x; sg_step := sg_step x;
    sg_progress := sg_progress x; sg_status := sg_status x; sg_ceremony := v; sg_confirmed := sg_confirmed x;
    sg_copied := sg_copied x; sg_error := sg_error x; sg_busy := sg_busy x; sg_session := sg_session x;
    sg_replaced := sg_replaced x; sg_search := sg_search x |}.
Definition set_sg_confirmed (v : bool) (x : Signup) : Signup := {|
  sg_email := sg_email x; sg_password := sg_password x; sg_confirm := sg_confirm x; sg_step := sg_step x;
    sg_progress := sg_progress x; sg_status := sg_status x; sg_ceremony := sg_ceremony x; sg_confirmed := v;
    sg_copied := sg_copied x; sg_error := sg_error x; sg_busy := sg_busy x; sg_session := sg_session x;
    sg_replaced := sg_replaced x; sg_search := sg_search x |}.
Definition set_sg_copied (v : bool) (x : Signup) : Signup := {|
  sg_email := sg_email x; sg_password := sg_password x; sg_confirm := sg_confirm x; sg_step := sg_step x;
    sg_progress := sg_progress x; sg_status := sg_status x; sg_ceremony := sg_ceremony x; sg_confirmed :=
    sg_confirmed x; sg_copied := v; sg_error := sg_error x; sg_busy := sg_busy x; sg_session := sg_session x;
    sg_replaced := sg_replaced x; sg_search := sg_search x |}.
Definition set_sg_error (v : option jstr) (x : Signup) : Signup := {|
  sg_email := sg_email x; sg_password := sg_password x; sg_confirm := sg_confirm x; sg_step := sg_step x;
    sg_progress := sg_progress x; sg_status := sg_status x; sg_ceremony := sg_ceremony x; sg_confirmed :=
    sg_confirmed x; sg_copied := sg_copied x; sg_error := v; sg_busy := sg_busy x; sg_session := sg_session x;
    sg_replaced := sg_replaced x; sg_search := sg_search x |}.
Definition set_sg_busy (v : bool) (x : Signup) : Signup := {|
  sg_email := sg_email x; sg_password := sg_password x; sg_confirm := sg_confirm x; sg_step := sg_step x;
    sg_progress := sg_progress x; sg_status := sg_status x; sg_ceremony := sg_ceremony x; sg_confirmed :=
    sg_confirmed x; sg_copied := sg_copied x; sg_error := sg_error x; sg_busy := v; sg_session := sg_session x;
    sg_replaced := sg_replaced x; sg_search := sg_search x |}.
Definition set_sg_session (v : option (jstr * jstr)) (x : Signup) : Signup := {|
  sg_email := sg_email x; sg_password := sg_password x; sg_confirm := sg_confirm x; sg_step := sg_step x;
    sg_progress := sg_progress x; sg_status := sg_status x; sg_ceremony := sg_ceremony x; sg_confirmed :=
    sg_confirmed x; sg_copied := sg_copied x; sg_error := sg_error x; sg_busy := sg_busy x; sg_session := v;
    sg_replaced := sg_replaced x; sg_search := sg_search x |}.
Definition set_sg_replaced (v : option jstr) (x : Signup) : Signup := {|
  sg_email := sg_email x; sg_password := sg_password x; sg_confirm := sg_confirm x; sg_step := sg_step x;
    sg_progress := sg_progress x; sg_status := sg_status x; sg_ceremony := sg_ceremony x; sg_confirmed :=
    sg_confirmed x; sg_copied := sg_copied x; sg_error := sg_error x; sg_busy := sg_busy x; sg_session :=
    sg_session x; sg_replaced := v; sg_search := sg_search x |}.
Definition set_sg_search (v : list (jstr * jstr)) (x : Signup) : Signup := {|
  sg_email := sg_email x; sg_password := sg_password x; sg_confirm := sg_confirm x; sg_step := sg_step x;
    sg_progress := sg_progress x; sg_status := sg_status x; sg_ceremony := sg_ceremony x; sg_confirmed :=
    sg_confirmed x; sg_copied := sg_copied x; sg_error := sg_error x; sg_busy := sg_busy x; sg_session :=
    sg_session x; sg_replaced := sg_replaced x; sg_search := v |}.

Section Register.
Context `{Env} `{Crypto} `{Unicode}.

(** [email().trim().toLowerCase()] *)
Definition canonical (email : jstr) : jstr := toLowerCase (trim email).

Definition signup_error (text : jstr) : prog (Panel * Signup) unit := on_page (set_sg_error (Some text)).

Definition signup_onMount : prog (Panel * Signup) unit :=
  pcatch
    (session ← onPanel (G:=Signup) me;
     i ← lift (truthy_field "id" session);
     e ← lift (truthy_field "email" session);
     if i && e then on_page (set_sg_session (Some (str_field session "email", str_field session "id"))) else skip)
    (fun _ => skip).

(** The check of the address; whether to go on. *)
Definition check_email (em : jstr) : prog (Panel * Signup) bool :=
  go ← pcatch
    (check ← onPanel (G:=Signup) (checkEmailAvailability em);
     already ← lift (truthy_field "already_logged_in" check);
     if already : bool then
       _ ← signup_error (js "The email " ++ [34] ++ em ++ [34] ++ js " is already logged in on this browser. Please access your Control Panel or log out first.");
       _ ← on_page (set_sg_busy false); mret false
     else
       exist ← lift (truthy_field "exists" check);
       if exist : bool then
         _ ← signup_error (js "The email " ++ [34] ++ em ++ [34] ++ js " is already registered. Please sign in instead.");
         _ ← on_page (set_sg_busy false); mret false
       else mret true)
    (fun e =>
       if bool_decide (status e = Some 400) then
         _ ← signup_error (js "Please enter a valid work or organization email address.");
         _ ← on_page (set_sg_busy false); mret false
       else mret true);
  _ ← on_page (set_sg_busy false);
  mret go.

Definition run_the_ceremony (r : CeremonyRandom) (em : jstr) : prog (Panel * Signup) unit :=
  _ ← on_page (fun p => set_sg_status (js "Initializing WebAssembly Crypto Core" ++ [8230])
                         (set_sg_progress 10 (set_sg_step 2 p)));
  pcatch
    (p ← page (G:=Signup);
     result ← performCryptographicCeremony r em (sg_password p)
                (fun st pc => on_page (fun p => set_sg_progress pc (set_sg_status st p)));
     _ ← on_page (set_sg_ceremony (Some result));
     _ ← wait;
     on_page (set_sg_step 3))
    (fun e => _ ← signup_error (error_text e "Cryptographic generation failed."); on_page (set_sg_step 1)).

Definition handleBeginCeremony (r : CeremonyRandom) : prog (Panel * Signup) unit :=
  _ ← on_page (set_sg_error None);
  p ← page (G:=Signup);
  let em := canonical (sg_email p) in
  if negb (truthy em) || negb (includes em (js "@")) then
    signup_error (js "Please enter a valid work or organization email address.")
  else if negb (isCompliant (evaluatePasswordStrength (sg_password p))) then
    signup_error (js "Password must meet the minimum security strength criteria (at least 10 characters with mixed character classes).")
  else if negb (jeqb (sg_password p) (sg_confirm p)) then
    signup_error (js "Passwords do not match. Please re-enter your password.")
  else
    _ ← on_page (set_sg_busy true);
    go ← check_email em;
    if go : bool then run_the_ceremony r em else skip.

(** [copy] is the clipboard. *)
Definition handleCopyPhrase (copy : jstr -> outcome unit) : prog (Panel * Signup) unit :=
  p ← page (G:=Signup);
  match sg_ceremony p with
  | None => skip
  | Some data =>
      pcatch
        (_ ← wait;
         _ ← lift (copy (recoveryPhrase data));
         _ ← on_page (set_sg_copied true);
         spawn (_ ← wait; on_page (set_sg_copied false)))
        (fun _ => signup_error (js "Clipboard access denied. Please write down the 12 words manually."))
  end.

(** The file of the download, its name and its text; the dates are the clock's. *)
Definition handleDownloadBackup (today utc : jstr) (p : Signup) : option (jstr * jstr) :=
  data ← sg_ceremony p;
  let em := trim (sg_email p) in
  let rule := replicate 60 61 in
  let content := join [10] [
    js "BYOS Self-Sovereign Email " ++ [8212] ++ js " Zero-Knowledge Recovery Phrase"; rule;
    js "Account: " ++ em; js "Created: " ++ utc; js "Public Identity Key: " ++ publicKey data; [];
    js "CRITICAL SECURITY NOTICE:";
    js "BYOS servers never hold your private key or password. These 12 words";
    js "are the sole mathematical verifier capable of reconstituting your root";
    js "cryptographic credentials. Store this file in an offline vault."; [];
    js "12-Word Recovery Phrase:"; recoveryPhrase data; rule] in
  Some (js "byos-recovery-phrase-" ++ map (fun u => if ascii_alnum u then u else 95) em ++ js "-" ++ today ++ js ".txt",
        content).

Definition registered (res : json) (p : Signup) : outcome jstr :=
  org ← field "org_id" res;
  let seats := param (sg_search p) "seats" in
  let cycle := cycle_param (sg_search p) in
  Ok (js "/onboarding/pricing?" ++ form_encode
        ((js "org_id", js_text_opt org) :: (if truthy seats then [(js "seats", seats)] else [])
         ++ (if truthy cycle then [(js "billing_cycle", cycle)] else []))).

Definition register_error (e : js_error) : jstr :=
  match status e with
  | Some 409 => js "This email address is already registered. Please sign in instead."
  | Some 400 => js "Invalid cryptographic parameters or malformed verifier."
  | _ => or_default (message e) (js "Registration failed. Please check network connection.")
  end.

Definition handleFinalizeRegistration : prog (Panel * Signup) unit :=
  p ← page (G:=Signup);
  match sg_ceremony p with
  | Some data =>
      if sg_confirmed p then
        _ ← on_page (fun p => set_sg_busy true (set_sg_step 4 (set_sg_error None p)));
        pcatch
          (p ← page (G:=Signup);
           res ← onPanel (register (canonical (sg_email p)) (passwordVerifier data) (publicKey data)
                            (Some (wrappedPrivateKey data)) (Some (recoverySalt data)));
           p ← page (G:=Signup);
           url ← lift (registered res p);
           on_page (set_sg_replaced (Some url)))
          (fun e => _ ← signup_error (register_error e); on_page (fun p => set_sg_step 3 (set_sg_busy false p)))
      else skip
  | None => skip
  end.

(** The inputs and buttons of the page. *)
Definition signup_input (f : Signup -> Signup) : prog (Panel * Signup) unit := on_page f.

Definition signup_signOut : prog (Panel * Signup) unit :=
  _ ← onPanel cp_logout; on_page (set_sg_session None).

End Register.

(** ** login.tsx *)

Record Challenge := {
  ch_token : jstr; ch_methods : list jstr; ch_preferred : jstr; ch_masked : jstr; ch_debug : option jstr }.

Record Signin := {
  lg_email : jstr;
  lg_password : jstr;
  lg_error : option jstr;
  lg_loading : bool;
  lg_passkey : bool;
  lg_checking : bool;
  lg_challenge : option Challenge;
  lg_code : jstr;
  lg_busy : bool;
  lg_method : jstr;
  lg_replaced : option jstr;
  lg_search : list (jstr * jstr) }.

Definition set_lg_email (v : jstr) (x : Signin) : Signin := {|
  lg_email := v; lg_password := lg_password x; lg_error := lg_error x; lg_loading := lg_loading x; lg_passkey :=
    lg_passkey x; lg_checking := lg_checking x; lg_challenge := lg_challenge x; lg_code := lg_code x; lg_busy :=
    lg_busy x; lg_method := lg_method x; lg_replaced := lg_replaced x; lg_search := lg_search x |}.
Definition set_lg_password (v : jstr) (x : Signin) : Signin := {|
  lg_email := lg_email x; lg_password := v; lg_error := lg_error x; lg_loading := lg_loading x; lg_passkey :=
    lg_passkey x; lg_checking := lg_checking x; lg_challenge := lg_challenge x; lg_code := lg_code x; lg_busy :=
    lg_busy x; lg_method := lg_method x; lg_replaced := lg_replaced x; lg_search := lg_search x |}.
Definition set_lg_error (v : option jstr) (x : Signin) : Signin := {|
  lg_email := lg_email x; lg_password := lg_password x; lg_error := v; lg_loading := lg_loading x; lg_passkey :=
    lg_passkey x; lg_checking := lg_checking x; lg_challenge := lg_challenge x; lg_code := lg_code x; lg_busy :=
    lg_busy x; lg_method := lg_method x; lg_replaced := lg_replaced x; lg_search := lg_search x |}.
Definition set_lg_loading (v : bool) (x : Signin) : Signin := {|
  lg_email := lg_email x; lg_password := lg_password x; lg_error := lg_error x; lg_loading := v; lg_passkey :=
    lg_passkey x; lg_checking := lg_checking x; lg_challenge := lg_challenge x; lg_code := lg_code x; lg_busy :=
    lg_busy x; lg_method := lg_method x; lg_replaced := lg_replaced x; lg_search := lg_search x |}.
Definition set_lg_passkey (v : bool) (x : Signin) : Signin := {|
  lg_email := lg_email x; lg_password := lg_password x; lg_error := lg_error x; lg_loading := lg_loading x;
    lg_passkey := v; lg_checking := lg_checking x; lg_challenge := lg_challenge x; lg_code := lg_code x; lg_busy
    := lg_busy x; lg_method := lg_method x; lg_replaced := lg_replaced x; lg_search := lg_search x |}.
Definition set_lg_checking (v : bool) (x : Signin) : Signin := {|
  lg_email := lg_email x; lg_password := lg_password x; lg_error := lg_error x; lg_loading := lg_loading x;
    lg_passkey := lg_passkey x; lg_checking := v; lg_challenge := lg_challenge x; lg_code := lg_code x; lg_busy :=
    lg_busy x; lg_method := lg_method x; lg_replaced := lg_replaced x; lg_search := lg_search x |}.
Definition set_lg_challenge (v : option Challenge) (x : Signin) : Signin := {|
  lg_email := lg_email x; lg_password := lg_password x; lg_error := lg_error x; lg_loading := lg_loading x;
    lg_passkey := lg_passkey x; lg_checking := lg_checking x; lg_challenge := v; lg_code := lg_code x; lg_busy :=
    lg_busy x; lg_method := lg_method x; lg_replaced := lg_replaced x; lg_search := lg_search x |}.
Definition set_lg_code (v : jstr) (x : Signin) : Signin := {|
  lg_email := lg_email x; lg_password := lg_password x; lg_error := lg_error x; lg_loading := lg_loading x;
    lg_passkey := lg_passkey x; lg_checking := lg_checking x; lg_challenge := lg_challenge x; lg_code := v;
    lg_busy := lg_busy x; lg_method := lg_method x; lg_replaced := lg_replaced x; lg_search := lg_search x |}.
Definition set_lg_busy (v : bool) (x : Signin) : Signin := {|
  lg_email := lg_email x; lg_password := lg_password x; lg_error := lg_error x; lg_loading := lg_loading x;
    lg_passkey := lg_passkey x; lg_checking := lg_checking x; lg_challenge := lg_challenge x; lg_code := lg_code
    x; lg_busy := v; lg_method := lg_method x; lg_replaced := lg_replaced x; lg_search := lg_search x |}.
Definition set_lg_method (v : jstr) (x : Signin) : Signin := {|
  lg_email := lg_email x; lg_password := lg_password x; lg_error := lg_error x; lg_loading := lg_loading x;
    lg_passkey := lg_passkey x; lg_checking := lg_checking x; lg_challenge := lg_challenge x; lg_code := lg_code
    x; lg_busy := lg_busy x; lg_method := v; lg_replaced := lg_replaced x; lg_search := lg_search x |}.
Definition set_lg_replaced (v : option jstr) (x : Signin) : Signin := {|
  lg_email := lg_email x; lg_password := lg_password x; lg_error := lg_error x; lg_loading := lg_loading x;
    lg_passkey := lg_passkey x; lg_checking := lg_checking x; lg_challenge := lg_challenge x; lg_code := lg_code
    x; lg_busy := lg_busy x; lg_method := lg_method x; lg_replaced := v; lg_search := lg_search x |}.
Definition set_lg_search (v : list (jstr * jstr)) (x : Signin) : Signin := {|
  lg_email := lg_email x; lg_password := lg_password x; lg_error := lg_error x; lg_loading := lg_loading x;
    lg_passkey := lg_passkey x; lg_checking := lg_checking x; lg_challenge := lg_challenge x; lg_code := lg_code
    x; lg_busy := lg_busy x; lg_method := lg_method x; lg_replaced := lg_replaced x; lg_search := v |}.

Section Login.
Context `{Env} `{Crypto} `{Unicode}.

(** [VITE_WEBMAIL_URL], or the local server. *)
Variable webmailUrl : jstr.

Definition signin_error (text : jstr) : prog (Panel * Signin) unit := on_page (set_lg_error (Some text)).

Definition replace_location (url : jstr) : prog (Panel * Signin) unit := on_page (set_lg_replaced (Some url)).

Definition pricing_url (seats cycle : jstr) : jstr :=
  js "/onboarding/pricing?seats=" ++ seats ++ (if truthy cycle then js "&billing_cycle=" ++ cycle else []).

Definition getSuccessfulRedirect (p : Signin) : jstr :=
  let seats := param (lg_search p) "seats" in
  let cycle := cycle_param (lg_search p) in
  let redirect := param (lg_search p) "redirect" in
  if truthy redirect then redirect else if truthy seats then pricing_url seats cycle else js "/dashboard".

(** Where the page of a running session sends the user. *)
Definition mount_redirect (p : Signin) : jstr :=
  let seats := param (lg_search p) "seats" in
  let cycle := cycle_param (lg_search p) in
  let redirect := param (lg_search p) "redirect" in
  if negb (truthy redirect) && truthy seats then pricing_url seats cycle
  else if negb (truthy redirect) then js "/dashboard" else redirect.

Definition is_member (v : json) : prog (Panel * Signin) bool :=
  lift (role ← field "role" v; Ok (jeqb (str role) (js "member"))).

Definition signin_onMount : prog (Panel * Signin) unit :=
  finally
    (pcatch
       (session ← onPanel (G:=Signin) me;
        i ← lift (truthy_field "id" session);
        if i : bool then
          member ← is_member session;
          if member : bool then replace_location webmailUrl
          else p ← page (G:=Signin); replace_location (mount_redirect p)
        else skip)
       (fun _ => skip))
    (on_page (set_lg_checking false)).

(** A signed-in user goes on: members to the web client, others to where they came from. *)
Definition go_on (res : json) : prog (Panel * Signin) unit :=
  member ← is_member res;
  if member : bool then replace_location webmailUrl
  else p ← page (G:=Signin); replace_location (getSuccessfulRedirect p).

(** [res.methods || ["email"]], and the members of a challenge. *)
Definition text_list (v : json) (k : string) : list jstr :=
  match get v (js k) with
  | Some (JArr xs) => map (fun x => match x with JStr s => s | _ => [] end) xs
  | _ => [js "email"]
  end.

Definition challenge_of (res : json) : Challenge := {|
  ch_token := str_field res "challenge_token"; ch_methods := text_list res "methods";
  ch_preferred := or_default (str_field res "preferred_method") (js "email");
  ch_masked := str_field res "destination_masked"; ch_debug := get_str res (js "debug_code") |}.

Definition ask_second_factor (res : json) (p : Signin) : Signin :=
  set_lg_error None (set_lg_code (str_field res "debug_code")
    (set_lg_method (ch_preferred (challenge_of res)) (set_lg_challenge (Some (challenge_of res)) p))).

(** The password itself first; where that is refused, the verifier derived from it. *)
Definition password_login (em : jstr) : prog (Panel * Signin) json :=
  p ← page (G:=Signin);
  pcatch (onPanel (cp_login em (lg_password p)))
    (fun loginErr =>
       if bool_decide (status loginErr = Some 401) then
         pcatch
           (p ← page (G:=Signin);
            _ ← wait;
            onPanel (cp_login em (deriveClientPasswordVerifier (lg_password p) em)))
           (fun _ => lift (Throw loginErr))
       else lift (Throw loginErr)).

Definition login_failure (e : js_error) : jstr :=
  match status e with
  | Some 429 => js "Too many attempts. Please try again later."
  | Some 401 => js "Invalid email or password."
  | _ => error_text e "Authentication failed"
  end.

Definition handleSubmit : prog (Panel * Signin) unit :=
  _ ← on_page (fun p => set_lg_loading true (set_lg_error None p));
  finally
    (pcatch
       (p ← page (G:=Signin);
        res ← password_login (canonical (lg_email p));
        two ← lift (truthy_field "two_factor_required" res);
        if two : bool then on_page (ask_second_factor res) else go_on res)
       (fun e => signin_error (login_failure e)))
    (on_page (set_lg_loading false)).

Definition handleVerify2FA : prog (Panel * Signin) unit :=
  p ← page (G:=Signin);
  let code := trim (lg_code p) in
  match lg_challenge p with
  | Some challenge =>
      if negb (truthy code) then signin_error (js "Please enter your 6-digit verification code.")
      else
        _ ← on_page (fun p => set_lg_busy true (set_lg_error None p));
        finally
          (pcatch (res ← onPanel (cp_verifyLogin2FA (ch_token challenge) code); go_on res)
             (fun e => signin_error (error_text e "2-Step verification failed")))
          (on_page (set_lg_busy false))
  | None => signin_error (js "Please enter your 6-digit verification code.")
  end.

Definition switch_challenge (method : jstr) (resp : json) (p : Signin) : Signin :=
  set_lg_challenge
    (option_map (fun c => {| ch_token := ch_token c; ch_methods := ch_methods c; ch_preferred := method;
                             ch_masked := str_field resp "destination_masked";
                             ch_debug := get_str resp (js "debug_code") |}) (lg_challenge p))
    (set_lg_method method p).

Definition handleSwitch2FAMethod (method : jstr) : prog (Panel * Signin) unit :=
  p ← page (G:=Signin);
  match lg_challenge p with
  | None => skip
  | Some challenge =>
      _ ← on_page (fun p => set_lg_error None (set_lg_busy true p));
      finally
        (pcatch
           (resp ← onPanel (cp_sendLogin2FACode (ch_token challenge) method);
            debug ← lift (truthy_field "debug_code" resp);
            _ ← on_page (switch_challenge method resp);
            if debug : bool then on_page (set_lg_code (str_field resp "debug_code")) else skip)
           (fun e => signin_error (or_default (message e) (js "Failed to switch verification method."))))
        (on_page (set_lg_busy false))
  end.

Definition handleCancel2FA (p : Signin) : Signin := set_lg_error None (set_lg_code [] (set_lg_challenge None p)).

(** [options.allowCredentials || []], decoded; none is [undefined]. *)
Definition allow_credentials (options : json) : outcome (option (list bytes)) :=
  l ← list_member (Some options) "allowCredentials";
  match l with
  | JArr cs =>
      ids ← mapM (fun c => i ← field "id" c; match i with Some (JStr i) => base64URLToBuffer i | _ => throw "TypeError" end) cs;
      Ok (match ids with [] => None | _ => Some ids end)
  | _ => throw "TypeError"
  end.

Definition passkey_login (authenticate : Authenticator) (em : jstr) : prog (Panel * Signin) json :=
  options ← onPanel (cp_fetchPasskeyLoginOptions (if truthy em then Some em else None));
  challenge ← lift (field "challenge" options);
  challengeBuf ← lift (match challenge with Some (JStr c) => base64URLToBuffer c | _ => throw "TypeError" end);
  allowCreds ← lift (allow_credentials options);
  _ ← wait;
  credential ← lift (authenticate challengeBuf allowCreds);
  match credential with
  | None => pthrow "No credential returned from authenticator"
  | Some a =>
      rawIdB64 ← lift (bufferToBase64URL (a_raw_id a));
      clientDataB64 ← lift (bufferToBase64URL (a_client_data a));
      onPanel (cp_loginWithPasskey (JObj [str_member "credential_id" rawIdB64;
        str_member "challenge_token" (str challenge); str_member "signature" (cp_bytesToHex (a_signature a));
        str_member "client_data_json" clientDataB64]))
  end.

Definition cp_handlePasskeyLogin (authenticate : Authenticator) : prog (Panel * Signin) unit :=
  _ ← on_page (fun p => set_lg_passkey true (set_lg_error None p));
  finally
    (pcatch
       (p ← page (G:=Signin);
        loginRes ← passkey_login authenticate (canonical (lg_email p));
        go_on loginRes)
       (fun e => signin_error (error_text e "Passkey authentication failed")))
    (on_page (set_lg_passkey false)).

End Login.

(** ** Running the pages *)

Section Runs.
Context `{HE : Env} `{HC : Crypto} `{HU : Unicode}.

Lemma run_onPanel {G A} w t s (g : G) (p : prog Panel A) :
  run w t (s, g) (onPanel p) = let '(r, s', t') := run w t s p in (r, (s', g), t').
Proof. apply run_instrument. Qed.

(** The request of an endpoint that uses [cp_json], and what it comes to. *)
Lemma run_cp_json label m path extra body w t s :
  run w t s (cp_json label m path extra body) =
  (let q := cp_request m path (getCpHeaders extra s) (js "include") body in
   (res ← expect_ok label (respond w t q); response_json (snd res), s, ask q t)).
Proof.
  unfold cp_json, cp_call. rewrite !run_bind. cbn [gets run]. rewrite run_bind. cbn [fetch run lift].
  by destruct (expect_ok _ _) as [[ct data]|e].
Qed.

(** *** Registration *)

Definition check_request (em : jstr) (s : Panel) : request :=
  cp_request "POST" (js "/v1/auth/check-email") (getCpHeaders json_type s) (js "include")
    (stringified (JObj [str_member "email" (trim em)])).

Definition register_request (em : jstr) (c : CeremonyResult) (s : Panel) : request :=
  cp_request "POST" (js "/v1/auth/register") (getCpHeaders json_type s) (js "include")
    (stringified (JObj ([str_member "email" (trim em); str_member "password" (passwordVerifier c);
                         str_member "org_recovery_pk" (publicKey c)]
                        ++ opt_member "wrapped_org_recovery_sk" (or_undefined (Some (wrappedPrivateKey c)))
                        ++ opt_member "recovery_salt" (or_undefined (Some (recoverySalt c)))))).

Lemma run_check_email w t s p em :
  exists go p', run w t (s, p) (check_email em) = (Ok go, (s, p'), ask (check_request em s) t) /\
    sg_password p' = sg_password p /\ sg_email p' = sg_email p.
Proof.
  unfold check_email. rewrite run_bind, run_catch, run_bind, run_onPanel.
  unfold checkEmailAvailability. rewrite run_cp_json. cbv zeta. fold (check_request em s).
  destruct (_ ≫= _) as [check|e].
  - rewrite bind_lift. destruct (truthy_field "already_logged_in" check) as [[]|e]; [by do 2 eexists| |].
    + rewrite bind_lift. destruct (truthy_field "exists" check) as [[]|e]; [by do 2 eexists..|].
      cbn [run]. case_bool_decide; by do 2 eexists.
    + cbn [run]. case_bool_decide; by do 2 eexists.
  - case_bool_decide; by do 2 eexists.
Qed.

End Runs.

Section RegistrationTheorems.
Context `{HE : Env} `{HC : Crypto} `{HU : Unicode}.

Lemma ceremony_page_only {G} r em password (report : jstr -> Z -> prog (Panel * G) unit) :
  (forall m n, page_only (report m n)) -> page_only (performCryptographicCeremony r em password report).
Proof. intros Hr. unfold performCryptographicCeremony. repeat (apply page_only_bind; [auto with page|intros ?]). auto with page. Qed.

Lemma run_ceremony_page w t s p r em :
  exists p', run w t (s, p) (run_the_ceremony r em) = (Ok tt, (s, p'), t).
Proof.
  unfold run_the_ceremony. rewrite run_bind, run_on_page, run_catch.
  match goal with |- context [run w t (s, ?g) ?q] =>
    assert (Hq : page_only q); [|destruct (Hq w t s g) as ([[]|e] & p' & E)] end.
  - apply page_only_bind; [auto with page|intros q]. apply page_only_bind; [|auto with page].
    apply ceremony_page_only. auto with page.
  - rewrite E. by eexists.
  - rewrite E. by eexists.
Qed.

(** Registration does not send the password: whatever happens, beginning the ceremony
    sends at most the question whether the address is free, and finishing it at most one
    request, which carries the address and what the ceremony made: the derived verifier,
    the public key, the wrapped key and the salt, and only with the backup confirmed. *)
Theorem registration_sends_no_password r w t s p :
  (exists p' l, run w t (s, p) (handleBeginCeremony r) = (Ok tt, (s, p'), {| sent := sent t ++ l; asked := asked t |}) /\
     (l = [] \/ l = [check_request (canonical (sg_email p)) s])) /\
  (exists p' l, run w t (s, p) handleFinalizeRegistration = (Ok tt, (s, p'), {| sent := sent t ++ l; asked := asked t |}) /\
     (l = [] \/ exists c, sg_ceremony p = Some c /\ sg_confirmed p = true /\
                 l = [register_request (canonical (sg_email p)) c s])).
Proof.
  assert (Hnone : t = {| sent := sent t ++ []; asked := asked t |}) by (destruct t; cbn; by rewrite app_nil_r).
  split.
  - unfold handleBeginCeremony. rewrite run_bind, run_on_page, run_page. cbn [sg_email set_sg_error sg_password sg_confirm].
    set (em := canonical (sg_email p)). destruct (_ || _); [by do 2 eexists; split; [rewrite <- Hnone|left]|].
    destruct (negb _); [by do 2 eexists; split; [rewrite <- Hnone|left]|].
    destruct (negb _); [by do 2 eexists; split; [rewrite <- Hnone|left]|].
    rewrite run_bind, run_on_page, run_bind.
    destruct (run_check_email w t s (set_sg_busy true (set_sg_error None p)) em) as (go & p' & -> & _ & _).
    destruct go; [|by do 2 eexists; split; [|right]].
    destruct (run_ceremony_page w (ask (check_request em s) t) s p' r em) as (p'' & ->).
    by do 2 eexists; split; [|right].
  - unfold handleFinalizeRegistration. rewrite run_page. destruct (sg_ceremony p) as [c|] eqn:Ec;
      [|by do 2 eexists; split; [rewrite <- Hnone|left]].
    destruct (sg_confirmed p); [|by do 2 eexists; split; [rewrite <- Hnone|left]].
    rewrite run_bind, run_on_page, run_catch, run_page, run_bind, run_onPanel.
    cbn [sg_email set_sg_busy set_sg_step set_sg_error]. unfold register. rewrite run_cp_json. cbv zeta.
    fold (register_request (canonical (sg_email p)) c s).
    assert (Hl : forall (l : list request), l = [register_request (canonical (sg_email p)) c s] ->
      l = [] \/ exists c', Some c = Some c' /\ true = true /\ l = [register_request (canonical (sg_email p)) c' s])
      by (intros l ->; right; by exists c).
    destruct (_ ≫= _) as [res|e]; [|do 2 eexists; split; [reflexivity|by apply Hl]].
    rewrite run_page. destruct (registered res _) as [url|e]; do 2 eexists; (split; [reflexivity|by apply Hl]).
Qed.

(** *** The steps of registration, however its handlers interleave *)

Inductive signup_handler : prog (Panel * Signup) unit -> Prop :=
| on_mount : signup_handler signup_onMount
| on_email v : signup_handler (signup_input (set_sg_email v))
| on_password v : signup_handler (signup_input (set_sg_password v))
| on_confirm_password v : signup_handler (signup_input (set_sg_confirm v))
| on_begin r : signup_handler (handleBeginCeremony r)
| on_copy copy : signup_handler (handleCopyPhrase copy)
| on_confirmed b : signup_handler (signup_input (set_sg_confirmed b))
| on_back : signup_handler (signup_input (set_sg_step 1))
| on_finalize : signup_handler handleFinalizeRegistration
| on_sign_out : signup_handler signup_signOut.

Definition has_ceremony (x : Panel * Signup) : Prop := is_Some (sg_ceremony (snd x)).

(** The steps after the ceremony have its result. *)
Definition steps_ok (x : Panel * Signup) : Prop := 3 <= sg_step (snd x) -> has_ceremony x.

Definition advances (x y : Panel * Signup) : Prop :=
  (has_ceremony x -> has_ceremony y) /\ (steps_ok x -> steps_ok y).

#[local] Instance advances_preorder : PreOrder advances.
Proof. split; [done|]. intros x y z [H1 H2] [H3 H4]. split; auto. Qed.

(** Writes of anything but the step and the ceremony. *)
Definition in_step (x y : Panel * Signup) : Prop :=
  sg_step (snd y) = sg_step (snd x) /\ sg_ceremony (snd y) = sg_ceremony (snd x).

Lemma in_step_advances x y : in_step x y -> advances x y.
Proof. intros [E1 E2]. unfold advances, steps_ok, has_ceremony. by rewrite E1, E2. Qed.

Lemma moves_panel {A} x (p : prog Panel A) : moves in_step x (onPanel p).
Proof. by apply moves_instrument. Qed.

(** Walk a program that stays in its step. *)
Ltac stay :=
  repeat match goal with
  | |- moves _ _ (_ ≫= _) => apply moves_bind; [|intros ? ?]
  | |- moves _ _ (pcatch _ _) => apply moves_catch; [|intros ? ?]
  | |- moves _ _ (onPanel _) => apply moves_panel
  | |- moves _ _ (on_page _) => by apply moves_on_page
  | |- moves _ _ (signup_error _) => by apply moves_on_page
  | |- moves _ _ (if _ then _ else _) => case_match
  | |- moves _ _ (match _ with _ => _ end) => case_match
  | |- moves _ _ (spawn _) => split; [|done]
  | |- _ => done
  end.

Lemma check_email_stays x em : moves in_step x (check_email em).
Proof. unfold check_email. stay. Qed.

Lemma wp_stays {A} Q s0 x (p : prog (Panel * Signup) A) :
  moves in_step x p -> advances s0 x -> (forall a b r, advances x b -> advances a b -> Q a b r) ->
  wp advances Q s0 x p.
Proof. intros Hp H0 HQ. by apply (wp_moves in_step advances); [apply in_step_advances|..]. Qed.

Lemma ceremony_stays {S} (W : S -> S -> Prop) x r em password report :
  (forall m n x, moves W x (report m n)) -> moves W x (performCryptographicCeremony r em password report).
Proof. intros Hr. unfold performCryptographicCeremony. repeat (apply moves_bind; [first [apply Hr|done]|intros ? ?]). done. Qed.

Lemma advances_back x y : sg_step (snd y) < 3 -> sg_ceremony (snd y) = sg_ceremony (snd x) -> advances x y.
Proof. intros Hs Hc. unfold advances, steps_ok, has_ceremony. rewrite Hc. split; [done|lia]. Qed.

Lemma run_the_ceremony_advances s0 x r em :
  advances s0 x -> wp advances (fun a b _ => advances a b) s0 x (run_the_ceremony r em).
Proof.
  intros H0. unfold run_the_ceremony. apply wp_bind. cbn [wp on_page modify].
  set (x1 := (fst x, _)). assert (H1 : advances s0 x1) by (etrans; [done|]; by apply advances_back).
  clearbody x1. clear H0 x. apply wp_catch, wp_bind. cbn [wp page gets].
  apply wp_bind. eapply wp_stays; [apply ceremony_stays; intros; by apply moves_on_page|done|].
  intros a b [result|e] H2 H3; cbn [wp].
  - apply wp_bind. cbn [wp on_page modify]. apply wp_bind. cbn [wp wait]. split.
    + etrans; [exact H3|]. split; [by eexists|intros _ _; by eexists].
    + intros y Hy. cbn [wp on_page modify]. split; intros _; [|intros _]; apply (proj1 Hy); by eexists.
  - apply wp_bind. cbn [wp signup_error on_page modify]. etrans; [exact H3|]. by apply advances_back.
Qed.

Lemma begin_advances x r : respects advances x (handleBeginCeremony r).
Proof.
  unfold respects, handleBeginCeremony. apply wp_bind. cbn [wp on_page modify].
  set (x1 := (fst x, _)). assert (Hx1 : advances x x1) by by apply in_step_advances.
  clearbody x1. apply wp_bind. cbn [wp page gets].
  assert (Herr : forall text, wp advances (fun s0 s _ => advances s0 s) x x1 (signup_error text)).
  { intros. apply wp_stays; [stay|done|done]. }
  case_match; [done|]. case_match; [done|]. case_match; [done|].
  apply wp_bind. cbn [wp on_page modify]. set (x2 := (fst x1, _)).
  assert (Hx2 : advances x x2) by (etrans; [done|]; by apply in_step_advances).
  clearbody x2. apply wp_bind, wp_stays; [apply check_email_stays|done|].
  intros a b [[]|e] _ Hb; [by apply run_the_ceremony_advances|done..].
Qed.

Lemma finalize_advances x : respects advances x handleFinalizeRegistration.
Proof.
  unfold respects, handleFinalizeRegistration. apply wp_bind. cbn [wp page gets].
  destruct (sg_ceremony (snd x)) as [c|] eqn:Ec; [|done]. case_match; [|done].
  assert (Hc : has_ceremony x) by (by exists c).
  apply wp_bind. cbn [wp on_page modify]. set (x1 := (fst x, _)).
  assert (advances x x1 /\ has_ceremony x1) as [Hx1 Hc1].
  { assert (has_ceremony x1) by (by exists c). split; [|done]. by split; intros _; [|intros _]. }
  clearbody x1. apply wp_catch, wp_stays; [stay|done|]. intros a b [[]|e] Hb Ha; [done|].
  apply wp_bind. cbn [wp signup_error on_page modify].
  destruct Hb as [Hb _]. specialize (Hb Hc1). by split; intros _; [|intros _].
Qed.

Lemma signup_advances h x : signup_handler h -> respects advances x h.
Proof.
  assert (Hstay : forall p : prog (Panel * Signup) unit, moves in_step x p -> respects advances x p).
  { intros p. by apply moves_respects; [apply _|apply in_step_advances]. }
  intros []; unfold signup_onMount, signup_input, handleCopyPhrase, signup_signOut;
    first [apply begin_advances | apply finalize_advances | by apply Hstay; stay | by apply advances_back].
Qed.

(** From a page that starts at the first step, however the handlers of the
    registration page interleave with each other and with the replies, the steps that show
    the recovery phrase and seal the account are reached only with a finished ceremony. *)
Theorem later_steps_have_a_ceremony c c' :
  tasks c = [] -> sg_step (snd (state c)) < 3 -> reachable signup_handler c c' ->
  3 <= sg_step (snd (state c')) -> exists data, sg_ceremony (snd (state c')) = Some data.
Proof.
  intros E H0 Hr. edestruct (rely_guarantee advances signup_handler c c') as [[_ HR] _]; [| |exact Hr|].
  - intros h x. apply signup_advances.
  - by rewrite E.
  - apply HR. intros H3. lia.
Qed.

End RegistrationTheorems.

(** ** Signing in to the panel *)

Section SignInTheorems.
Context `{HE : Env} `{HC : Crypto} `{HU : Unicode}.
Variable webmailUrl : jstr.

Definition login_request (em password : jstr) (s : Panel) : request :=
  cp_request "POST" (js "/v1/auth/login") (getCpHeaders json_type s) (js "include")
    (stringified (JObj [str_member "email" em; str_member "password" password;
                        str_member "client" (js "control-plane")])).

(** The status with which a sign-in request failed. *)
Definition login_status (r : reply) : option Z :=
  match expect_ok "Login failed " r with Throw e => status e | Ok _ => None end.

Lemma parse_error_status data e : response_json data = Throw e -> status e = None.
Proof.
  unfold response_json, response_text. destruct data as [b|]; ok_bind; [|by intros [= <-]].
  unfold JSON_parse. repeat case_match; by intros [= <-].
Qed.

Lemma field_error_status p v e : field p v = Throw e -> status e = None.
Proof. unfold field, member. by destruct v; intros [= <-]. Qed.

(** One request; a failure leaves the panel as it was and has the reply's status. *)
Lemma run_cp_login w t s em password :
  let q := login_request em password s in
  exists r s', run w t s (cp_login em password) = (r, s', ask q t) /\
    match r with
    | Ok _ => login_status (respond w t q) = None
    | Throw e => s' = s /\ status e = login_status (respond w t q)
    end.
Proof.
  intros q. unfold cp_login. rewrite run_bind, run_cp_json. cbv zeta. fold (login_request em password s). fold q.
  unfold login_status. destruct (expect_ok _ _) as [[ct data]|e]; ok_bind; [|by do 2 eexists].
  cbn [snd]. destruct (response_json data) as [v|e] eqn:Ej.
  2:{ do 2 eexists. split; [done|]. split; [done|]. by eapply parse_error_status. }
  unfold keep_token. rewrite bind_lift. destruct (field "token" v) as [token|e] eqn:Ef.
  2:{ do 2 eexists. split; [done|]. split; [done|]. by eapply field_error_status. }
  rewrite run_bind. destruct token as [[| | |tok| |]|]; try destruct (truthy tok); by do 2 eexists.
Qed.

Lemma go_on_page_only res : page_only (go_on webmailUrl res).
Proof.
  unfold go_on, is_member, replace_location. apply page_only_bind; [auto with page|intros []]; auto with page.
Qed.

(** What is sent for a password: the password itself, then, where it is refused as wrong,
    its verifier; a failure leaves the panel as it was, with the first reply's status. *)
Lemma run_password_login w t s p em :
  let q1 := login_request em (lg_password p) s in
  let q2 := login_request em (deriveClientPasswordVerifier (lg_password p) em) s in
  let r1 := login_status (respond w t q1) in
  exists r s', run w t (s, p) (password_login em) =
      (r, (s', p), {| sent := sent t ++ q1 :: (if bool_decide (r1 = Some 401) then [q2] else []); asked := asked t |}) /\
    (forall e, r = Throw e -> status e = r1) /\
    (r1 = Some 401 -> login_status (respond w (ask q1 t) q2) <> None -> exists e, r = Throw e) /\
    (r1 <> Some 401 -> r1 <> None -> exists e, r = Throw e).
Proof.
  intros q1 q2 r1. unfold password_login. rewrite run_page, run_catch, run_onPanel.
  destruct (run_cp_login w t s em (lg_password p)) as ([v|e] & s1 & -> & H1); fold q1 in H1; fold r1 in H1.
  - do 2 eexists. split; [by rewrite bool_decide_eq_false_2 by congruence|]. split_and!; congruence.
  - destruct H1 as [-> H1]. rewrite H1. case_bool_decide as H401; [|do 2 eexists; split; [reflexivity|]].
    + rewrite run_catch, run_page, run_bind. cbn [wait run]. rewrite run_onPanel.
      destruct (run_cp_login w (ask q1 t) s em (deriveClientPasswordVerifier (lg_password p) em)) as ([v|e'] & s2 & E & H2);
        fold q1; fold q2 in E, H2; rewrite E; unfold ask; cbn [sent asked]; rewrite <- app_assoc; do 2 eexists; (split; [reflexivity|]).
      * split_and!; [done|intros _ Hn; by destruct Hn|done].
      * destruct H2 as [-> _]. split_and!; [by intros ? [= <-]|by eexists|done].
    + split_and!; [by intros ? [= <-]|done|by eexists].
Qed.

(** C34.  The sign-in form of the panel sends the password as it was typed; only where the
    server refuses it as wrong (401) does a second request carry the derived verifier.
    Whatever the replies, the handler ends with the form ready again; when both are refused,
    or attempts are limited, the page says so. *)
Theorem signin_sends_the_password w t s p :
  let em := canonical (lg_email p) in
  let q1 := login_request em (lg_password p) s in
  let q2 := login_request em (deriveClientPasswordVerifier (lg_password p) em) s in
  let r1 := login_status (respond w t q1) in
  exists s' p', run w t (s, p) (handleSubmit webmailUrl) =
      (Ok tt, (s', p'), {| sent := sent t ++ q1 :: (if bool_decide (r1 = Some 401) then [q2] else []); asked := asked t |}) /\
    lg_loading p' = false /\
    (r1 = Some 401 -> login_status (respond w (ask q1 t) q2) <> None ->
     lg_error p' = Some (js "Invalid email or password.")) /\
    (r1 = Some 429 -> lg_error p' = Some (js "Too many attempts. Please try again later.")).
Proof.
  intros em q1 q2 r1. unfold handleSubmit. rewrite run_bind, run_on_page, run_finally, run_catch, run_page.
  cbn [lg_email set_lg_loading set_lg_error]. fold em. rewrite run_bind.
  set (p1 := set_lg_loading true (set_lg_error None p)).
  destruct (run_password_login w t s p1 em) as (r & s1 & E & He & H401 & H429).
  change (lg_password p1) with (lg_password p) in *. fold q1 q2 r1 in E, He, H401, H429. rewrite E.
  set (t1 := {| sent := _; asked := _ |}).
  destruct r as [res|e].
  - assert (Hq : page_only (two ← lift (truthy_field "two_factor_required" res);
      if two : bool then on_page (ask_second_factor res) else go_on webmailUrl res)).
    { apply page_only_bind; [auto with page|intros []; [auto with page|apply go_on_page_only]]. }
    destruct (Hq w t1 s1 p1) as ([[]|e] & p2 & ->); do 2 eexists; (split; [reflexivity|]); (split; [reflexivity|]).
    + split; [intros H1 H2; by destruct (H401 H1 H2)|]. intros H1. destruct H429 as [? ?]; [by rewrite H1..|done].
    + split; [intros H1 H2; by destruct (H401 H1 H2)|]. intros H1. destruct H429 as [? ?]; [by rewrite H1..|done].
  - cbn [run]. do 2 eexists. split; [reflexivity|]. split; [reflexivity|]. specialize (He e eq_refl).
    unfold login_failure. cbn. rewrite He. split; [by intros ->|by intros ->].
Qed.

(** The page sends a signed-in user where the address says, whatever that is. *)
Lemma mount_redirect_eq p : mount_redirect p = getSuccessfulRedirect p.
Proof.
  unfold mount_redirect, getSuccessfulRedirect. cbv zeta.
  by destruct (truthy (param (lg_search p) "redirect")), (truthy (param (lg_search p) "seats")).
Qed.

Lemma redirect_unchecked p url :
  lookup_key (js "redirect") (lg_search p) = Some url -> truthy url = true -> getSuccessfulRedirect p = url.
Proof. intros E Ht. unfold getSuccessfulRedirect, param. rewrite E. change (default [] (Some url)) with url. by rewrite Ht. Qed.

End SignInTheorems.

(** ** Concrete runs *)

#[local] Existing Instances toy_crypto toy_laws ascii_unicode panel_env.

Definition signup0 : Signup := {|
  sg_email := js " Ada@B.org"; sg_password := js "Password12"; sg_confirm := js "Password12"; sg_step := 1;
  sg_progress := 0; sg_status := []; sg_ceremony := None; sg_confirmed := true; sg_copied := false;
  sg_error := None; sg_busy := false; sg_session := None; sg_replaced := None;
  sg_search := [(js "seats", js "5")] |}.

(** A free address, and an account made. *)
Definition registrar : world := {|
  respond t q := json_reply (if includes (req_url q) (js "/register") then JObj [str_member "org_id" (js "o 1")]
                             else JObj [(js "exists", JBool false)]);
  answer _ _ := true |}.

(** Registering from end to end: the password is nowhere in what is sent, and the page moves
    on to the prices. *)
Example registering :
  let '(_, s1, t1) := run registrar no_trace (panel0, signup0) (handleBeginCeremony (draws key0)) in
  let '(_, s2, t2) := run registrar t1 s1 handleFinalizeRegistration in
  sg_step (snd s1) = 3 /\ length (sent t2) = 2%nat /\
  existsb (fun q => match req_body q with TextBody b => includes b (js "Password12") | _ => false end) (sent t2) = false /\
  sg_replaced (snd s2) = Some (js "/onboarding/pricing?org_id=o+1&seats=5").
Proof. by vm_compute. Qed.

(** The box that confirms the backup stays checked when the user goes back and a second
    ceremony shows another phrase: that phrase can be sealed without being confirmed. *)
Example confirmation_survives_a_new_phrase :
  let draws2 := {| cr_sk := key1; cr_entropy := key0; cr_salt := salt0; cr_nonce := nonce0 |} in
  let '(_, s1, t1) := run registrar no_trace (panel0, signup0) (handleBeginCeremony (draws key0)) in
  let '(_, s2, t2) := run registrar t1 s1 (signup_input (set_sg_step 1)) in
  let '(_, s3, _) := run registrar t2 s2 (handleBeginCeremony draws2) in
  sg_step (snd s3) = 3 /\ sg_confirmed (snd s3) = true /\
  bool_decide (recoveryPhrase <$> sg_ceremony (snd s1) = recoveryPhrase <$> sg_ceremony (snd s3)) = false.
Proof. by vm_compute. Qed.

Definition started : config (Panel * Signup) :=
  fire true (handleBeginCeremony (draws key0)) {| state := (panel0, signup0); tasks := [] |}.

(** Waking the one task until it is done. *)
Fixpoint wake_all (n : nat) (c : config (Panel * Signup)) : config (Panel * Signup) :=
  match n with O => c | S n => wake_all n (wake 0 true (fun _ => json_reply (JObj [])) c) end.

Lemma wake_all_reachable handlers n c c' : reachable handlers (wake_all n c) c' -> reachable handlers c c'.
Proof. revert c. induction n as [|n IH]; intros c Hr; [done|]. by eapply wake_reachable, IH. Qed.

Lemma later_steps_have_a_ceremony_witness :
  exists data, sg_ceremony (snd (state (wake_all 12 started))) = Some data.
Proof.
  apply (later_steps_have_a_ceremony {| state := (panel0, signup0); tasks := [] |} (wake_all 12 started)).
  - reflexivity.
  - reflexivity.
  - apply (fire_reachable _ true (handleBeginCeremony (draws key0))); [apply on_begin|].
    apply (wake_all_reachable _ 12), rtc_refl.
  - vm_compute. discriminate.
Defined.

Definition signin0 : Signin := {|
  lg_email := js "ada@b.org"; lg_password := js "Password12"; lg_error := None; lg_loading := false; lg_passkey := false;
  lg_checking := false; lg_challenge := None; lg_code := []; lg_busy := false; lg_method := js "email";
  lg_replaced := None; lg_search := [(js "redirect", js "javascript:alert(1)")] |}.

(** The password leaves the browser in clear. *)
Example password_in_clear :
  existsb (fun q => match req_body q with TextBody b => includes b (js "Password12") | _ => false end)
    (sent (snd (run registrar no_trace (panel0, signin0) (handleSubmit [])))) = true.
Proof. by vm_compute. Qed.

(** After signing in, the page replaces itself by any address its query names. *)
Example redirects_anywhere :
  lg_replaced (snd (snd (fst (run registrar no_trace (panel0, signin0) (handleSubmit []))))) =
    Some (js "javascript:alert(1)").
Proof. by vm_compute. Qed.
