(* ===== verification/Checkout.v ===== *)
(** * Choosing a capacity and checking out

    control-plane/src/routes/onboarding (pricing.tsx, checkout.tsx) and
    components/DynamicPricingCalculator.tsx: the calculator, the page it is part of, and the
    checkout, which provisions what was chosen. *)

From S2P Require Import Prelude Floats Pricing.
From S2P Require Import JsString Display Encoding Json Client Page Api ControlApi ControlPages.

(** ** Parameters of the address *)

(** A parameter of the address, as the router gives it. *)
Inductive Param := One (s : jstr) | Many (l : list jstr).

Definition SearchParams := jstr -> option Param.

Definition getSingleParam (val : option Param) (fallback : jstr) : jstr :=
  match val with
  | Some (Many l) => or_default (default [] (head l)) fallback
  | Some (One s) => or_default s fallback
  | None => fallback
  end.

(** [a || b]: an array is truthy. *)
Definition or_param (a b : option Param) : option Param :=
  match a with
  | Some (One []) | None => b
  | _ => a
  end.

Definition cycle_value (q : SearchParams) : option Param := or_param (q (js "billing_cycle")) (q (js "cycle")).

Definition cycle_text (c : BillingCycle) : jstr := match c with monthly => js "monthly" | annual => js "annual" end.

#[global] Instance BillingCycle_eq_dec : EqDecision BillingCycle.
Proof. solve_decision. Defined.

(** ** The calculator *)

Record Calculator := { ca_seats : Z; ca_input : jstr; ca_cycle : BillingCycle }.

(** The page around it. *)
Record PricingPage := {
  pp_calc : Calculator;
  pp_seats : Z;
  pp_cycle : BillingCycle;
  pp_pricing : PricingBreakdown;
  pp_navigated : option jstr }.

Definition set_pp_calc (v : Calculator) (x : PricingPage) : PricingPage :=
  {| pp_calc := v; pp_seats := pp_seats x; pp_cycle := pp_cycle x; pp_pricing := pp_pricing x; pp_navigated := pp_navigated x |}.
Definition set_pp_seats (v : Z) (x : PricingPage) : PricingPage :=
  {| pp_calc := pp_calc x; pp_seats := v; pp_cycle := pp_cycle x; pp_pricing := pp_pricing x; pp_navigated := pp_navigated x |}.
Definition set_pp_cycle (v : BillingCycle) (x : PricingPage) : PricingPage :=
  {| pp_calc := pp_calc x; pp_seats := pp_seats x; pp_cycle := v; pp_pricing := pp_pricing x; pp_navigated := pp_navigated x |}.
Definition set_pp_pricing (v : PricingBreakdown) (x : PricingPage) : PricingPage :=
  {| pp_calc := pp_calc x; pp_seats := pp_seats x; pp_cycle := pp_cycle x; pp_pricing := v; pp_navigated := pp_navigated x |}.
Definition set_pp_navigated (v : option jstr) (x : PricingPage) : PricingPage :=
  {| pp_calc := pp_calc x; pp_seats := pp_seats x; pp_cycle := pp_cycle x; pp_pricing := pp_pricing x; pp_navigated := v |}.

Definition breakdown (c : Calculator) : PricingBreakdown := calculateGraduatedPricing (Some (ca_seats c)) (ca_cycle c).

(** The page passes no limits. *)
Definition minLimit : Z := 1.
Definition maxLimit : Z := 250.

(** The values are integers, or the [NaN] of a failed [parseInt]. *)
Definition normalizeSeats (val : option Z) : Z :=
  match val with None => minLimit | Some v => Z.min (Z.max minLimit v) maxLimit end.

Definition handleSeatsChange (seats : Z) (b : PricingBreakdown) (x : PricingPage) : PricingPage :=
  set_pp_pricing b (set_pp_cycle (billingCycle b) (set_pp_seats seats x)).

(** [onCycleChange] of the page. *)
Definition handleCycleChange (c : BillingCycle) (b : PricingBreakdown) (x : PricingPage) : PricingPage :=
  set_pp_pricing b (set_pp_cycle c x).

(** The signals' setters, with the effects that watch them: an effect runs when the value is
    another one. *)
Definition setSeats (v : Z) (x : PricingPage) : PricingPage :=
  if v =? ca_seats (pp_calc x) then x
  else
    let c := {| ca_seats := v; ca_input := ca_input (pp_calc x); ca_cycle := ca_cycle (pp_calc x) |} in
    handleSeatsChange v (breakdown c) (set_pp_calc c x).

Definition setBillingCycle (v : BillingCycle) (x : PricingPage) : PricingPage :=
  if decide (v = ca_cycle (pp_calc x)) then x
  else
    let c := {| ca_seats := ca_seats (pp_calc x); ca_input := ca_input (pp_calc x); ca_cycle := v |} in
    handleCycleChange v (breakdown c) (set_pp_calc c x).

Definition setInputValue (v : jstr) (x : PricingPage) : PricingPage :=
  set_pp_calc {| ca_seats := ca_seats (pp_calc x); ca_input := v; ca_cycle := ca_cycle (pp_calc x) |} x.

(** The effects on the properties. *)
Definition sync_seats (newInitial : Z) (x : PricingPage) : PricingPage :=
  if (0 <? newInitial) && negb (newInitial =? ca_seats (pp_calc x))
  then setInputValue (num newInitial) (setSeats newInitial x) else x.

Definition sync_cycle (newCycle : BillingCycle) (x : PricingPage) : PricingPage :=
  if decide (newCycle = ca_cycle (pp_calc x)) then x else setBillingCycle newCycle x.

Definition handleSliderChange (val : option Z) (x : PricingPage) : PricingPage :=
  let clamped := normalizeSeats val in setInputValue (num clamped) (setSeats clamped x).

Definition handleInputChange (val : jstr) (x : PricingPage) : PricingPage :=
  let x := setInputValue val x in
  match parseInt10 val with
  | Some parsed => if (minLimit <=? parsed) && (parsed <=? maxLimit) then setSeats parsed x else x
  | None => x
  end.

Definition handleInputBlur (x : PricingPage) : PricingPage :=
  let clamped := normalizeSeats (parseInt10 (ca_input (pp_calc x))) in
  setInputValue (num clamped) (setSeats clamped x).

(** A button with a number of seats. *)
Definition preset (v : Z) (x : PricingPage) : PricingPage := setInputValue (num v) (setSeats v x).

(** ** pricing.tsx *)

Section PricingRoute.
Context `{Unicode}.

Definition initialSeatsParam (q : SearchParams) : Z :=
  match parseInt10 (getSingleParam (q (js "seats")) []) with
  | Some n => if 0 <? n then n else 10
  | None => 10
  end.

Definition initialCycleParam (q : SearchParams) : BillingCycle :=
  if jeqb (toLowerCase (getSingleParam (cycle_value q) [])) (js "monthly") then monthly else annual.

Definition opened_pricing (q : SearchParams) : PricingPage :=
  let n := initialSeatsParam q in
  let c := initialCycleParam q in
  {| pp_calc := {| ca_seats := n; ca_input := num n; ca_cycle := c |};
     pp_seats := n; pp_cycle := c; pp_pricing := calculateGraduatedPricing (Some n) c; pp_navigated := None |}.

Definition continue_params (q : SearchParams) (x : PricingPage) : list (jstr * jstr) :=
  let targetOrg := getSingleParam (q (js "org_id")) [] in
  (if truthy targetOrg then [(js "org_id", targetOrg)] else [])
  ++ [(js "seats", num (pp_seats x)); (js "billing_cycle", cycle_text (pp_cycle x))].

Definition handleContinue (q : SearchParams) (x : PricingPage) : PricingPage :=
  set_pp_navigated (Some (js "/onboarding/checkout?" ++ form_encode (continue_params q x))) x.

Definition start_with_one (q : SearchParams) (x : PricingPage) : PricingPage := handleContinue q (set_pp_seats 1 x).

(** ** checkout.tsx *)

Definition orgId (q : SearchParams) : jstr := getSingleParam (q (js "org_id")) [].

Definition seatsParam (q : SearchParams) : Z :=
  match parseInt10 (getSingleParam (q (js "seats")) (js "10")) with
  | Some parsed => if parsed <? 1 then 10 else parsed
  | None => 10
  end.

Definition cycleParam (q : SearchParams) : BillingCycle :=
  if jeqb (toLowerCase (getSingleParam (cycle_value q) (js "annual"))) (js "monthly") then monthly else annual.

Definition checkout_pricing (q : SearchParams) : PricingBreakdown :=
  calculateGraduatedPricing (Some (seatsParam q)) (cycleParam q).

Record Checkout := {
  ck_processing : bool;
  ck_step : jstr;
  ck_error : option jstr;
  ck_success : bool;
  ck_navigated : option jstr }.

Definition opened_checkout : Checkout :=
  {| ck_processing := false; ck_step := []; ck_error := None; ck_success := false; ck_navigated := None |}.

Definition set_ck_processing (v : bool) (x : Checkout) : Checkout :=
  {| ck_processing := v; ck_step := ck_step x; ck_error := ck_error x; ck_success := ck_success x; ck_navigated := ck_navigated x |}.
Definition set_ck_step (v : jstr) (x : Checkout) : Checkout :=
  {| ck_processing := ck_processing x; ck_step := v; ck_error := ck_error x; ck_success := ck_success x; ck_navigated := ck_navigated x |}.
Definition set_ck_error (v : option jstr) (x : Checkout) : Checkout :=
  {| ck_processing := ck_processing x; ck_step := ck_step x; ck_error := v; ck_success := ck_success x; ck_navigated := ck_navigated x |}.
Definition set_ck_success (v : bool) (x : Checkout) : Checkout :=
  {| ck_processing := ck_processing x; ck_step := ck_step x; ck_error := ck_error x; ck_success := v; ck_navigated := ck_navigated x |}.
Definition set_ck_navigated (v : option jstr) (x : Checkout) : Checkout :=
  {| ck_processing := ck_processing x; ck_step := ck_step x; ck_error := ck_error x; ck_success := ck_success x; ck_navigated := v |}.

Section Payment.
Context `{Env}.

Definition checkout_step (text : jstr) : prog (Panel * Checkout) unit := on_page (set_ck_step text).

(** An organization is given its capacity; a failure is only logged. *)
Definition provision (q : SearchParams) : prog (Panel * Checkout) unit :=
  if truthy (orgId q)
  then pcatch (_ ← below (updateCapacity (orgId q) (seatsParam q) (Some (cycle_text (cycleParam q)))); skip) (fun _ => skip)
  else skip.

(** Timers are suspensions; the fields of the card are nowhere used. *)
Definition handlePaymentSubmit (q : SearchParams) : prog (Panel * Checkout) unit :=
  _ ← on_page (fun x => set_ck_processing true (set_ck_error None x));
  pcatch
    (_ ← checkout_step (js "Connecting to Dodo Payments infrastructure gateway" ++ [8230]); _ ← wait;
     _ ← checkout_step (js "Mapping capacity to Dodo Tiered Product (pdt_tiered_mailbox_v1 / pri_tiered_mailbox_"
            ++ cycle_text (cycleParam q) ++ js "_v1)" ++ [8230]); _ ← wait;
     _ ← checkout_step (js "Provisioning organization mailbox capacity & resource limits in PostgreSQL" ++ [8230]);
     _ ← provision q;
     _ ← wait;
     _ ← checkout_step (js "Provisioning storage worker quotas across sovereign nodes" ++ [8230]); _ ← wait;
     _ ← on_page (fun x => set_ck_step (js "Provisioning Complete! Redirecting to Control Panel" ++ [8230]) (set_ck_success true x));
     _ ← wait;
     on_page (set_ck_navigated (Some (js "/dashboard"))))
    (fun _ =>
       _ ← on_page (fun x => set_ck_step (js "Checkout bypassed (simulated/offline gateway). Redirecting to Control Panel" ++ [8230])
                               (set_ck_success true x));
       _ ← wait;
       on_page (set_ck_navigated (Some (js "/dashboard")))).

End Payment.
End PricingRoute.

(** ** Theorems *)

(** *** Reading an address

    The path and the parameters of an address, as the router gives them to a page: the query
    is read by the rules of [URLSearchParams].  Names that repeat, empty parts and sequences
    that are no percent-encoding do not occur in the addresses read here. *)

Definition plus_to_space (u : Z) : Z := if u =? 43 then 32 else u.

Definition form_text (s : jstr) : jstr :=
  match percent_decode (map plus_to_space s) with
  | Some bs => concat (map units_of (u8decode u8init bs))
  | None => s
  end.

Definition form_pair (part : jstr) : jstr * jstr :=
  let '(k, v) := Json.span (fun u => negb (u =? 61)) part in (form_text k, form_text (drop 1 v)).

Definition form_decode (s : jstr) : list (jstr * jstr) := map form_pair (split_on 38 s).

Definition params_of (l : list (jstr * jstr)) : SearchParams := fun k => One <$> lookup_key k l.

Definition address_path (address : jstr) : jstr := fst (Json.span (fun u => negb (u =? 63)) address).

Definition address_params (address : jstr) : SearchParams :=
  params_of (form_decode (drop 1 (snd (Json.span (fun u => negb (u =? 63)) address)))).

Lemma form_unit_decodes b s bs :
  is_byte b -> percent_decode s = Some bs -> percent_decode (map plus_to_space (form_unit b) ++ s) = Some (b :: bs).
Proof.
  intros Hb E.
  pose proof (byte_check (fun b => match map plus_to_space (form_unit b) with
    | [u] => (u =? b) && negb (u =? 37)
    | [p; x; y] => (p =? 37) && match hex_val x, hex_val y with Some x, Some y => x * 16 + y =? b | _, _ => false end
    | _ => false end) ltac:(vm_compute; reflexivity) b Hb) as Hc. cbv beta in Hc.
  destruct (map plus_to_space (form_unit b)) as [|u [|x [|y [|]]]]; try done.
  - apply andb_true_iff in Hc as [->%Z.eqb_eq Hn%negb_true_iff]. cbn [app percent_decode]. by rewrite Hn, E.
  - apply andb_true_iff in Hc as [->%Z.eqb_eq Hc]. cbn [app percent_decode Z.eqb Pos.eqb].
    destruct (hex_val x), (hex_val y); try done. apply Z.eqb_eq in Hc as ->. by rewrite E.
Qed.

Definition form_safe (u : Z) : bool := negb (u =? 38) && negb (u =? 61).

Lemma form_unit_safe b : is_byte b -> forallb form_safe (form_unit b) = true.
Proof. intros Hb. byte_cases b Hb. Qed.

Definition form_encoded (s : jstr) : jstr := concat (map form_unit (TextEncoder_encode s)).

Lemma form_encoded_spec s :
  clean s -> form_text (form_encoded s) = s /\ forallb form_safe (form_encoded s) = true.
Proof.
  intros [Hu Hw]. pose proof (TextEncoder_bytes s Hu) as Hb. unfold form_encoded, form_text.
  assert (E : percent_decode (map plus_to_space (concat (map form_unit (TextEncoder_encode s)))) =
              Some (TextEncoder_encode s) /\
              forallb form_safe (concat (map form_unit (TextEncoder_encode s))) = true).
  { induction Hb as [|b bs Hb _ [IH1 IH2]]; [done|]. cbn [map concat].
    rewrite map_app, forallb_app, form_unit_safe, IH2 by done. split; [|done]. by apply form_unit_decodes. }
  destruct E as [-> ->]. split; [|done].
  unfold TextEncoder_encode. rewrite u8decode_utf8 by by apply code_points_scalar. by apply to_well_formed_id.
Qed.

(** Reading what was written. *)
Lemma form_decode_encode l :
  l <> [] -> Forall (fun kv => clean (fst kv) /\ clean (snd kv)) l -> form_decode (form_encode l) = l.
Proof.
  intros Hne Hl. unfold form_decode, form_encode.
  change (map _ l) with (map (fun '(k, v) => form_encoded k ++ [61] ++ form_encoded v) l).
  rewrite split_on_join.
  - rewrite map_map. rewrite <- (map_id l) at 2. apply map_ext_in. intros [k v] Hkv.
    rewrite List.Forall_forall in Hl. destruct (Hl _ Hkv) as [Hk Hv]. cbn [fst snd] in *.
    destruct (form_encoded_spec k Hk) as [Ek Sk], (form_encoded_spec v Hv) as [Ev _].
    unfold form_pair. rewrite Json.span_app; [|eapply forallb_impl; [|exact Sk]|reflexivity].
    + change (drop 1 ([61] ++ form_encoded v)) with (form_encoded v). by rewrite Ek, Ev.
    + unfold form_safe. intros u [_ ?]%andb_true_iff. done.
  - by destruct l.
  - apply List.Forall_forall. intros part ([k v] & <- & Hkv)%in_map_iff.
    rewrite List.Forall_forall in Hl. destruct (Hl _ Hkv) as [Hk Hv]. cbn [fst snd] in *.
    destruct (form_encoded_spec k Hk) as [_ Sk], (form_encoded_spec v Hv) as [_ Sv].
    assert (Hs : forall s, forallb form_safe s = true -> 38 ∉ s).
    { intros s Hs Hin%list_elem_of_In. rewrite forallb_forall in Hs. by specialize (Hs 38 Hin). }
    apply Hs in Sk, Sv. rewrite !not_elem_of_app. split_and!; [done| |done]. set_solver.
Qed.

Lemma address_read path l :
  63 ∉ path -> l <> [] -> Forall (fun kv => clean (fst kv) /\ clean (snd kv)) l ->
  address_path (path ++ [63] ++ form_encode l) = path /\
  address_params (path ++ [63] ++ form_encode l) = params_of l.
Proof.
  intros Hp Hne Hl. unfold address_path, address_params.
  rewrite Json.span_app; [|apply forallb_forall; intros u Hu; destruct (Z.eqb_spec u 63) as [->|]; [|done]; destruct Hp; by apply list_elem_of_In|reflexivity].
  cbn [fst snd]. change (drop 1 ([63] ++ form_encode l)) with (form_encode l). by rewrite form_decode_encode.
Qed.

Section Carried.
Context `{Unicode}.

(** What the page can be asked to do before it is left. *)
Inductive pricing_event : (PricingPage -> PricingPage) -> Prop :=
| on_slider v : pricing_event (handleSliderChange v)
| on_input v : pricing_event (handleInputChange v)
| on_blur : pricing_event handleInputBlur
| on_preset v : In v [10; 25; 50; 100; 250] -> pricing_event (preset v)
| on_cycle c : pricing_event (setBillingCycle c)
| on_url_seats v : v <= 2 ^ 53 -> pricing_event (sync_seats v)
| on_url_cycle c : pricing_event (sync_cycle c).

Inductive pricing_run : PricingPage -> PricingPage -> Prop :=
| run_here x : pricing_run x x
| run_event f x y : pricing_event f -> pricing_run (f x) y -> pricing_run x y.

(** The page shows what its calculator holds. *)
Definition in_step (x : PricingPage) : Prop :=
  1 <= ca_seats (pp_calc x) <= 2 ^ 53 /\ pp_seats x = ca_seats (pp_calc x) /\ pp_cycle x = ca_cycle (pp_calc x) /\
  pp_pricing x = breakdown (pp_calc x).

Lemma breakdown_cycle n c : billingCycle (calculateGraduatedPricing n c) = c.
Proof. unfold calculateGraduatedPricing. destruct (waterfall _ _ _ _). by destruct c. Qed.

Lemma setSeats_in_step v x : 1 <= v <= 2 ^ 53 -> in_step x -> in_step (setSeats v x).
Proof.
  intros Hv Hx. unfold setSeats. destruct (v =? _); [done|]. destruct Hx as (Hs & E1 & E2 & E3).
  unfold handleSeatsChange, breakdown. cbn [ca_seats ca_cycle]. rewrite breakdown_cycle. by unfold in_step.
Qed.

Lemma setBillingCycle_in_step c x : in_step x -> in_step (setBillingCycle c x).
Proof.
  intros Hx. unfold setBillingCycle. destruct (decide _); [done|]. destruct Hx as (Hs & E1 & E2 & E3). by unfold in_step.
Qed.

Lemma setInputValue_in_step v x : in_step x -> in_step (setInputValue v x).
Proof. done. Qed.

Lemma normalizeSeats_range v : 1 <= normalizeSeats v <= 250.
Proof. unfold normalizeSeats, minLimit, maxLimit. destruct v; lia. Qed.

Lemma event_in_step f x : pricing_event f -> in_step x -> in_step (f x).
Proof.
  intros [v|v| |v Hv|c|v Hv|c] Hx.
  - pose proof (normalizeSeats_range v). apply setInputValue_in_step, setSeats_in_step; [lia|done].
  - unfold handleInputChange. destruct (parseInt10 v) as [n|]; [|exact Hx].
    destruct (_ && _) eqn:E; [|exact Hx]. unfold minLimit, maxLimit in E. zbool.
    apply setSeats_in_step; [lia|exact Hx].
  - pose proof (normalizeSeats_range (parseInt10 (ca_input (pp_calc x)))).
    apply setInputValue_in_step, setSeats_in_step; [lia|done].
  - apply setInputValue_in_step, setSeats_in_step; [|done]. cbn [In] in Hv. lia.
  - by apply setBillingCycle_in_step.
  - unfold sync_seats. destruct (_ && _) eqn:E; [|done]. zbool. apply setInputValue_in_step, setSeats_in_step; [lia|done].
  - unfold sync_cycle. destruct (decide _); [done|by apply setBillingCycle_in_step].
Qed.

Lemma continue_lookup q x k :
  jeqb (js "org_id") k = false ->
  lookup_key k (continue_params q x) = lookup_key k [(js "seats", num (pp_seats x)); (js "billing_cycle", cycle_text (pp_cycle x))].
Proof. intros Hk. unfold continue_params. destruct (truthy _); [|done]. cbn [app lookup_key]. by rewrite Hk. Qed.

Lemma carried q x :
  1 <= pp_seats x ->
  seatsParam (params_of (continue_params q x)) = pp_seats x /\ cycleParam (params_of (continue_params q x)) = pp_cycle x /\
  orgId (params_of (continue_params q x)) = getSingleParam (q (js "org_id")) [].
Proof.
  intros Hx. split_and!.
  - unfold seatsParam, params_of. rewrite continue_lookup by reflexivity. cbn [lookup_key].
    change (jeqb (js "seats") (js "seats")) with true. cbn [fmap option_fmap option_map getSingleParam].
    destruct (num_spec (pp_seats x)) as (Hne & _); [lia|]. unfold or_default. destruct (num (pp_seats x)) as [|u s] eqn:E; [done|].
    cbn [truthy]. rewrite <- E, parse_num by lia. destruct (Z.ltb_spec (pp_seats x) 1); [lia|done].
  - unfold cycleParam, cycle_value, params_of. rewrite !continue_lookup by reflexivity. cbn [lookup_key].
    change (jeqb (js "seats") (js "billing_cycle")) with false. change (jeqb (js "billing_cycle") (js "billing_cycle")) with true.
    cbn [fmap option_fmap option_map]. destruct (pp_cycle x); cbn [or_param cycle_text];
      (rewrite lower_ascii by reflexivity; reflexivity).
  - unfold orgId, params_of, continue_params. destruct (truthy (getSingleParam (q (js "org_id")) [])) eqn:E.
    + cbn [app lookup_key]. change (jeqb (js "org_id") (js "org_id")) with true. cbn [fmap option_fmap option_map getSingleParam].
      unfold or_default at 1. by rewrite E.
    + destruct (getSingleParam (q (js "org_id")) []); [|done]. reflexivity.
Qed.

Lemma num_clean n : 0 <= n -> clean (num n).
Proof.
  intros Hn. destruct (num_spec n Hn) as (_ & Hd & _). apply clean_ascii.
  eapply forallb_impl; [|exact Hd]. unfold is_digit, is_ascii. intros u. lia.
Qed.

(** Where the button leads, as the next page reads it. *)
Lemma continue_address q x :
  1 <= pp_seats x -> clean (orgId q) ->
  exists address, pp_navigated (handleContinue q x) = Some address /\
    address_path address = js "/onboarding/checkout" /\ address_params address = params_of (continue_params q x).
Proof.
  intros Hx Ho. eexists. split; [reflexivity|].
  apply (address_read (js "/onboarding/checkout") (continue_params q x)).
  - by_decide.
  - unfold continue_params. by destruct (truthy _).
  - assert (Hn : clean (num (pp_seats x))) by (apply num_clean; lia).
    assert (Hc : clean (cycle_text (pp_cycle x))) by (destruct (pp_cycle x); apply clean_ascii; reflexivity).
    unfold continue_params. apply Forall_app. split; [destruct (truthy _); [|by apply Forall_nil]|];
      repeat (apply Forall_cons; split); try (by apply Forall_nil); (split; [apply clean_ascii; reflexivity|done]).
Qed.

(** C38. The price shown is the price charged: from the page as its address opens it, however
    the slider, the field, the buttons and the billing toggle are used, the total under the
    calculator is the one the pricing engine gives for the seats and the cycle on display.
    Continuing leads to the checkout, which reads from the address it is given - decoded
    as the browser decodes it - the same organization, seats and cycle, and shows that very
    breakdown; the button for one mailbox leads to a checkout for one.  (The address asks
    for at most 2^53 seats, and its organization is text without lone surrogates.) *)
Theorem checkout_charges_what_was_shown q x :
  initialSeatsParam q <= 2 ^ 53 -> clean (orgId q) -> pricing_run (opened_pricing q) x ->
  pp_pricing x = calculateGraduatedPricing (Some (pp_seats x)) (pp_cycle x) /\
  (exists address, pp_navigated (handleContinue q x) = Some address /\
     address_path address = js "/onboarding/checkout" /\
     let next := address_params address in
     checkout_pricing next = pp_pricing x /\ seatsParam next = pp_seats x /\ cycleParam next = pp_cycle x /\
     orgId next = orgId q) /\
  (exists address, pp_navigated (start_with_one q x) = Some address /\
     address_path address = js "/onboarding/checkout" /\
     let next := address_params address in
     seatsParam next = 1 /\ cycleParam next = pp_cycle x /\ orgId next = orgId q).
Proof.
  intros Hq Ho Hr. assert (Hx : in_step x).
  { assert (Hopen : in_step (opened_pricing q)).
    { unfold in_step, opened_pricing. cbn. split_and!; [|done|done|done|done]. unfold initialSeatsParam.
      destruct (parseInt10 _) as [n|]; [|lia]. destruct (0 <? n) eqn:E; [zbool|]; lia. }
    clear Hq Ho. induction Hr as [x|f x y Hf _ IH]; [done|]. apply IH. by apply event_in_step. }
  destruct Hx as (Hs & E1 & E2 & E3). assert (Hx : 1 <= pp_seats x) by lia.
  assert (Ep : pp_pricing x = calculateGraduatedPricing (Some (pp_seats x)) (pp_cycle x)) by (by rewrite E1, E2, E3).
  split; [done|]. split.
  - destruct (continue_address q x Hx Ho) as (address & En & Epath & Eparams). exists address. cbv zeta. rewrite Eparams.
    destruct (carried q x Hx) as (C1 & C2 & C3). unfold checkout_pricing. rewrite C1, C2. by rewrite C3.
  - destruct (continue_address q (set_pp_seats 1 x) ltac:(done) Ho) as (address & En & Epath & Eparams).
    exists address. cbv zeta. rewrite Eparams.
    destruct (carried q (set_pp_seats 1 x) ltac:(done)) as (C1 & C2 & C3). by rewrite C1, C2, C3.
Qed.

Context `{Env}.

Definition capacity_request (q : SearchParams) : request :=
  cp_request "POST" (org_path (orgId q) "/billing/capacity") json_type (js "include")
    (stringified (JObj [(js "seat_count", JNum (num (seatsParam q))); str_member "billing_cycle" (cycle_text (cycleParam q))])).

Lemma run_provision w t s x q :
  run w t (s, x) (provision q) = (Ok tt, (s, x), if truthy (orgId q) then ask (capacity_request q) t else t).
Proof.
  unfold provision. destruct (truthy (orgId q)); [|done].
  rewrite run_catch, run_bind, run_below. unfold updateCapacity, bare_json. rewrite run_bind.
  cbn [fetch run]. fold (capacity_request q). rewrite bind_lift. destruct (expect_ok _ _) as [res|e]; [|done].
  by destruct (response_json _).
Qed.

(** C39. Checking out always succeeds: whatever the server answers - a refusal and a broken
    connection included - the page ends activated, without an error and on its way to the
    dashboard.  It sends one request, if there is an organization and none otherwise; that
    request names the seats and the cycle, and neither a price nor anything of the card. *)
Theorem checkout_always_activates w t s x q :
  exists t', run w t (s, x) (handlePaymentSubmit q) =
    (Ok tt, (s, {| ck_processing := true; ck_step := js "Provisioning Complete! Redirecting to Control Panel" ++ [8230];
                   ck_error := None; ck_success := true; ck_navigated := Some (js "/dashboard") |}), t') /\
    sent t' = sent t ++ (if truthy (orgId q) then [capacity_request q] else []) /\ asked t' = asked t.
Proof.
  unfold handlePaymentSubmit, checkout_step. rewrite run_bind, run_on_page, run_catch.
  repeat first [rewrite run_bind, run_on_page | rewrite run_bind, run_provision | rewrite run_bind, run_waits].
  eexists. split; [reflexivity|]. destruct (truthy (orgId q)); by rewrite ?app_nil_r.
Qed.

End Carried.

(** A page opened for 40 seats, moved past the end of the slider, then put to 25 and to
    monthly billing. *)
Definition at_forty : SearchParams := params_of [(js "org_id", js "o1"); (js "seats", js " 40x"); (js "cycle", js "Annual")].

Definition chosen_capacity `{Unicode} : PricingPage :=
  setBillingCycle monthly (handleInputBlur (handleInputChange (js "25") (handleSliderChange (Some 900) (opened_pricing at_forty)))).

Lemma checkout_charges_what_was_shown_witness :
  let x := chosen_capacity (H := ascii_unicode) in
  pp_seats x = 25 /\
  exists address, pp_navigated (handleContinue at_forty x) = Some address /\
    checkout_pricing (H := ascii_unicode) (address_params address) = pp_pricing x /\
    orgId (address_params address) = js "o1".
Proof.
  split; [vm_compute; reflexivity|].
  destruct (checkout_charges_what_was_shown (H := ascii_unicode) at_forty (chosen_capacity (H := ascii_unicode)))
    as (_ & (address & En & _ & Ep & _ & _ & Eo) & _).
  - vm_compute. discriminate.
  - split; [by_decide|reflexivity].
  - exact (run_event _ _ _ (on_slider (Some 900)) (run_event _ _ _ (on_input (js "25")) (run_event _ _ _ on_blur
             (run_event _ _ _ (on_cycle monthly) (run_here _))))).
  - exists address. split; [exact En|]. split; [exact Ep|exact Eo].
Defined.
