(* ===== verification/PasskeysPage.v ===== *)
(** * Passkeys of the control plane

    control-plane/src/routes/dashboard/security.tsx: the passkeys an administrator signs in
    with.  The browser's authenticator is a parameter. *)

From S2P Require Import Prelude JsString Encoding Json Wasm MessageCrypto Client Page Api AppState MailView Reading.
From S2P Require Import MailboxData SignIn Security ControlApi ControlPages.

Record PasskeysPage := {
  ps_list : json;
  ps_loading : bool;
  ps_dialog : bool;
  ps_name : jstr;
  ps_enrolling : bool;
  ps_error : option jstr;
  ps_success : option jstr;
  ps_deleting : option jstr }.

Definition set_ps_list (v : json) (x : PasskeysPage) : PasskeysPage := {|
  ps_list := v; ps_loading := ps_loading x; ps_dialog := ps_dialog x; ps_name := ps_name x; ps_enrolling :=
    ps_enrolling x; ps_error := ps_error x; ps_success := ps_success x; ps_deleting := ps_deleting x |}.
Definition set_ps_loading (v : bool) (x : PasskeysPage) : PasskeysPage := {|
  ps_list := ps_list x; ps_loading := v; ps_dialog := ps_dialog x; ps_name := ps_name x; ps_enrolling :=
    ps_enrolling x; ps_error := ps_error x; ps_success := ps_success x; ps_deleting := ps_deleting x |}.
Definition set_ps_dialog (v : bool) (x : PasskeysPage) : PasskeysPage := {|
  ps_list := ps_list x; ps_loading := ps_loading x; ps_dialog := v; ps_name := ps_name x; ps_enrolling :=
    ps_enrolling x; ps_error := ps_error x; ps_success := ps_success x; ps_deleting := ps_deleting x |}.
Definition set_ps_name (v : jstr) (x : PasskeysPage) : PasskeysPage := {|
  ps_list := ps_list x; ps_loading := ps_loading x; ps_dialog := ps_dialog x; ps_name := v; ps_enrolling :=
    ps_enrolling x; ps_error := ps_error x; ps_success := ps_success x; ps_deleting := ps_deleting x |}.
Definition set_ps_enrolling (v : bool) (x : PasskeysPage) : PasskeysPage := {|
  ps_list := ps_list x; ps_loading := ps_loading x; ps_dialog := ps_dialog x; ps_name := ps_name x; ps_enrolling
    := v; ps_error := ps_error x; ps_success := ps_success x; ps_deleting := ps_deleting x |}.
Definition set_ps_error (v : option jstr) (x : PasskeysPage) : PasskeysPage := {|
  ps_list := ps_list x; ps_loading := ps_loading x; ps_dialog := ps_dialog x; ps_name := ps_name x; ps_enrolling
    := ps_enrolling x; ps_error := v; ps_success := ps_success x; ps_deleting := ps_deleting x |}.
Definition set_ps_success (v : option jstr) (x : PasskeysPage) : PasskeysPage := {|
  ps_list := ps_list x; ps_loading := ps_loading x; ps_dialog := ps_dialog x; ps_name := ps_name x; ps_enrolling
    := ps_enrolling x; ps_error := ps_error x; ps_success := v; ps_deleting := ps_deleting x |}.
Definition set_ps_deleting (v : option jstr) (x : PasskeysPage) : PasskeysPage := {|
  ps_list := ps_list x; ps_loading := ps_loading x; ps_dialog := ps_dialog x; ps_name := ps_name x; ps_enrolling
    := ps_enrolling x; ps_error := ps_error x; ps_success := ps_success x; ps_deleting := v |}.

Definition opened_passkeys : PasskeysPage := {|
  ps_list := JArr []; ps_loading := true; ps_dialog := false; ps_name := []; ps_enrolling := false; ps_error := None;
  ps_success := None; ps_deleting := None |}.

(** The host of the page, the authenticator (from relying party, challenge and user handle),
    and whether an error is the browser's [NotAllowedError]. *)
Record PasskeyEnv := {
  pe_hostname : jstr;
  pe_create : jstr -> bytes -> bytes -> outcome (option Attestation);
  pe_not_allowed : js_error -> bool }.

Section Passkeys.
Context `{Env}.
Variable env : PasskeyEnv.

Definition passkeys_load : prog (Panel * PasskeysPage) unit :=
  _ ← on_page (set_ps_loading true);
  finally
    (pcatch (l ← below cp_listPasskeys; on_page (set_ps_list l)) (fun _ => skip))
    (on_page (set_ps_loading false)).

Definition passkeys_success (msg : jstr) : prog (Panel * PasskeysPage) unit :=
  _ ← on_page (set_ps_success (Some msg));
  spawn (_ ← wait; on_page (set_ps_success None)).

(** [setError(null); setDeviceName(""); setAddModalOpen(true)] *)
Definition open_dialog (p : PasskeysPage) : PasskeysPage := set_ps_dialog true (set_ps_name [] (set_ps_error None p)).

Definition relying_party (v : json) : jstr :=
  let host := pe_hostname env in
  if jeqb host (js "localhost") || jeqb host (js "127.0.0.1") then host
  else or_default (match get v (js "rp") with Some rp => str_field rp "id" | None => [] end) host.

(** The credential the authenticator makes of the options, and the challenge. *)
Definition new_credential (opts : json) : outcome (option Attestation * jstr) :=
  v ← reply_object (Some opts);
  challengeText ← string_of (get v (js "challenge"));
  challenge ← base64URLToBuffer challengeText;
  user ← reply_object (get v (js "user"));
  i ← string_of (get user (js "id"));
  userId ← base64URLToBuffer i;
  cred ← pe_create env (relying_party v) challenge userId;
  Ok (cred, challengeText).

Definition passkey_data (p : PasskeysPage) (rawId challengeText : jstr) (a : Attestation) : json := JObj [
  str_member "credential_id" rawId; str_member "public_key" (cp_bytesToHex (at_object a));
  str_member "device_name" (or_default (trim (ps_name p)) (js "Touch ID / Windows Hello"));
  str_member "challenge_token" challengeText ].

Definition enrol_passkey : prog (Panel * PasskeysPage) unit :=
  opts ← below cp_fetchPasskeyRegisterOptions;
  _ ← wait;
  made ← lift (new_credential opts);
  match fst made with
  | None => pthrow "Passkey registration was cancelled."
  | Some a =>
      rawId ← lift (bufferToBase64URL (at_raw_id a));
      p ← page (G:=PasskeysPage);
      _ ← below (cp_registerPasskey (passkey_data p rawId (snd made) a));
      _ ← on_page (fun p => set_ps_name [] (set_ps_dialog false p));
      _ ← passkeys_success (js "Passkey registered successfully! You can now log into Control Panel with 1-touch biometrics.");
      passkeys_load
  end.

Definition enrol_error (e : js_error) : jstr :=
  if pe_not_allowed env e || includes (message e) (js "cancelled")
  then js "Passkey registration was cancelled or timed out."
  else or_default (message e) (js "Failed to enroll passkey.").

Definition passkeys_handleEnroll (supported : bool) : prog (Panel * PasskeysPage) unit :=
  if negb supported then on_page (set_ps_error (Some (js "WebAuthn / Passkeys are not supported by this browser.")))
  else
    _ ← on_page (fun p => set_ps_error None (set_ps_enrolling true p));
    finally
      (pcatch enrol_passkey (fun e => on_page (set_ps_error (Some (enrol_error e)))))
      (on_page (set_ps_enrolling false)).

Definition passkeys_handleDelete (i : jstr) : prog (Panel * PasskeysPage) unit :=
  ok ← confirm (js "Are you sure you want to revoke this passkey? You will not be able to use this device to sign in.");
  if negb ok then skip
  else
    _ ← on_page (set_ps_deleting (Some i));
    finally
      (pcatch
         (_ ← below (cp_deletePasskey i);
          _ ← passkeys_success (js "Passkey revoked.");
          passkeys_load)
         (fun e => on_page (set_ps_error (Some (or_default (message e) (js "Failed to revoke passkey."))))))
      (on_page (set_ps_deleting None)).

(** ** What the page sends *)

Definition options_of (s : Panel) : request :=
  cp_request "GET" (js "/v1/auth/passkeys/register-options") (getCpHeaders [] s) (js "include") NoBody.
Definition register_of (data : json) (s : Panel) : request :=
  cp_request "POST" (js "/v1/auth/passkeys/register") (getCpHeaders json_type s) (js "include") (stringified data).
Definition revoke_of (i : jstr) (s : Panel) : request :=
  cp_request "DELETE" (js "/v1/auth/passkeys/" ++ i) (getCpHeaders [] s) (js "include") NoBody.
Definition list_of (s : Panel) : request :=
  cp_request "GET" (js "/v1/auth/passkeys") (getCpHeaders [] s) (js "include") NoBody.

(** The list after it has been asked for again. *)
Definition listed (r : reply) (old : json) : json :=
  match r with
  | NetworkFailure _ => old
  | Response st _ data =>
      if negb (response_ok st) then JArr [] else match response_json data with Ok l => l | Throw _ => old end
  end.

Lemma run_passkeys_load w t s p :
  run w t (s, p) passkeys_load =
    (Ok tt, (s, set_ps_loading false (set_ps_list (listed (respond w t (list_of s)) (ps_list p)) (set_ps_loading true p))),
     ask (list_of s) t).
Proof.
  unfold passkeys_load. rewrite run_bind, run_on_page, run_finally, run_catch, run_bind, run_below.
  unfold cp_listPasskeys. rewrite run_bind. cbn [gets run]. rewrite run_bind. cbn [fetch run]. fold (list_of s).
  unfold listed. destruct (respond w t (list_of s)) as [e|st ct data]; [by destruct p|].
  destruct (negb (response_ok st)); [by destruct p|]. cbn [lift run]. destruct (response_json data); by destruct p.
Qed.

Lemma run_passkeys_success w t s p msg : run w t (s, p) (passkeys_success msg) = (Ok tt, (s, set_ps_success None p), t).
Proof. by destruct p. Qed.

Definition refused (r : reply) : bool :=
  match r with Response st _ _ => negb (response_ok st) && negb (st =? 204) | NetworkFailure _ => true end.

(** Revoking a passkey is asked about first.  Declined, nothing is sent and nothing changes;
    confirmed, one request names the passkey.  When it is refused the list stays, with the
    reason; otherwise the list is asked for again.  Either way no row is left marked. *)
Theorem revoking_asks_first w t s p i q :
  q = js "Are you sure you want to revoke this passkey? You will not be able to use this device to sign in." ->
  exists p' t', run w t (s, p) (passkeys_handleDelete i) = (Ok tt, (s, p'), t') /\ asked t' = asked t ++ [q] /\
    if answer w t q then
      let t1 := ask (revoke_of i s) {| sent := sent t; asked := asked t ++ [q] |} in
      ps_deleting p' = None /\
    if refused (respond w {| sent := sent t; asked := asked t ++ [q] |} (revoke_of i s))
      then sent t' = sent t ++ [revoke_of i s] /\ ps_list p' = ps_list p /\ exists e, ps_error p' = Some e /\ e <> []
      else sent t' = sent t ++ [revoke_of i s; list_of s] /\ ps_list p' = listed (respond w t1 (list_of s)) (ps_list p)
    else p' = p /\ sent t' = sent t.
Proof.
  intros ->. set (q := js _). unfold passkeys_handleDelete. rewrite run_bind. cbn [confirm run]. fold q.
  set (t0 := {| sent := sent t; asked := asked t ++ [q] |}). destruct (answer w t q); cbn [negb]; [|by do 2 eexists].
  rewrite run_bind, run_on_page, run_finally, run_catch, run_bind, run_below.
  unfold cp_deletePasskey. rewrite run_bind. cbn [gets run]. rewrite run_bind. cbn [fetch run]. fold (revoke_of i s).
  assert (Hfail : forall e : js_error, or_default (message e) (js "Failed to revoke passkey.") <> []).
  { intros e. unfold or_default. by destruct (message e). }
  cbv zeta. destruct (respond w t0 (revoke_of i s)) as [e|st ct data] eqn:Er; cbn [expect_done lift run refused].
  - do 2 eexists. split; [reflexivity|]. split_and!; try done. eexists. split; [reflexivity|apply Hfail].
  - destruct (negb (response_ok st) && negb (st =? 204)); cbn [lift run].
    + do 2 eexists. split; [reflexivity|]. split_and!; try done. eexists. split; [reflexivity|apply Hfail].
    + rewrite run_bind, run_passkeys_success, run_passkeys_load.
      do 2 eexists. split; [reflexivity|]. split_and!; try done. cbn [ask sent t0]. by rewrite <- app_assoc.
Qed.

(** Enrolling a passkey ends, whatever the server and the authenticator do, with the button
    ready again.  What is sent is a part of three requests in this order: for the options, to
    register a credential made of them, for the list; the dialog closes exactly when all
    three are sent, and otherwise the page says why not. *)
Theorem enrolling_ends w t s p :
  ps_dialog p = true ->
  exists p' t' l, run w t (s, p) (passkeys_handleEnroll true) = (Ok tt, (s, p'), t') /\
    ps_enrolling p' = false /\ sent t' = sent t ++ l /\ asked t' = asked t /\
    ((exists data, l = [options_of s; register_of data s; list_of s] /\ ps_dialog p' = false /\ ps_error p' = None)
     \/ ((l = [options_of s] \/ exists data, l = [options_of s; register_of data s]) /\
    ps_dialog p' = true /\ exists e, ps_error p' = Some e /\ e <> [])).
Proof.
  intros Hd. unfold passkeys_handleEnroll. cbn [negb]. rewrite run_bind, run_on_page, run_finally, run_catch.
  assert (Hfail : forall e, enrol_error e <> []).
  { intros e. unfold enrol_error, or_default. destruct (_ || _); [done|]. by destruct (message e). }
  unfold enrol_passkey. rewrite run_bind, run_below. unfold cp_fetchPasskeyRegisterOptions.
  rewrite run_cp_json. cbv zeta. fold (options_of s). set (p0 := set_ps_error None (set_ps_enrolling true p)).
  destruct (_ ≫= _) as [opts|e].
  2: { do 3 eexists. split; [reflexivity|]. split_and!; [done|reflexivity|done|]. right.
       split_and!; [by left|done|]. eexists. split; [reflexivity|apply Hfail]. }
  rewrite run_bind, run_waits, bind_lift. destruct (new_credential opts) as [[[a|] challengeText]|e].
  2, 3: do 3 eexists; (split; [reflexivity|]); (split_and!; [done|reflexivity|done|]); right;
       (split_and!; [by left|done|]); eexists; (split; [reflexivity|apply Hfail]).
  cbn [fst snd]. rewrite bind_lift. destruct (bufferToBase64URL (at_raw_id a)) as [rawId|e].
  2: { do 3 eexists. split; [reflexivity|]. split_and!; [done|reflexivity|done|]. right.
       split_and!; [by left|done|]. eexists. split; [reflexivity|apply Hfail]. }
  rewrite run_page, run_bind, run_below. unfold cp_registerPasskey. rewrite run_cp_json. cbv zeta.
  set (data := passkey_data p0 rawId challengeText a). fold (register_of data s).
  destruct (_ ≫= _) as [v|e].
  - rewrite run_bind, run_on_page, run_bind, run_passkeys_success, run_passkeys_load.
    do 3 eexists. split; [reflexivity|]. split_and!; [done|cbn [ask sent]; by rewrite <- !app_assoc|done|].
    left. by exists data.
  - do 3 eexists. split; [reflexivity|]. split_and!; [done|cbn [ask sent]; by rewrite <- !app_assoc|done|].
    right. split_and!; [right; by exists data|done|]. eexists. split; [reflexivity|apply Hfail].
Qed.

End Passkeys.
