(* ===== verification/PublicSite.v ===== *)
(** * The public site's sign-up and sign-in

    public-site/src/components: auth/RegisterForm.tsx, auth/LoginForm.tsx and the user menu
    of layout/HeaderUserNav.tsx.  The site keeps no token; its requests go with the session
    cookie.  A download, the clipboard and the address the browser is sent to are recorded;
    the file name of a download is its first component. *)

From S2P Require Import Prelude JsString Encoding Json Wasm MessageCrypto Client Page Api ControlApi ControlKeys ControlPages.

(** ** auth/RegisterForm.tsx *)

Record RegisterForm := {
  rf_org : jstr;
  rf_name : jstr;
  rf_email : jstr;
  rf_password : jstr;
  rf_confirm : jstr;
  rf_show : bool;
  rf_loading : bool;
  rf_error : option jstr;
  rf_modal : bool;
  rf_mnemonic : jstr;
  rf_copied : bool;
  rf_saved : bool;
  rf_pk : jstr;
  rf_wrapped : jstr;
  rf_salt : jstr;
  rf_clipboard : option jstr;
  rf_download : option (jstr * jstr);
  rf_location : option jstr }.

Definition set_rf_org (v : jstr) (x : RegisterForm) : RegisterForm := {|
  rf_org := v; rf_name := rf_name x; rf_email := rf_email x; rf_password := rf_password x; rf_confirm :=
    rf_confirm x; rf_show := rf_show x; rf_loading := rf_loading x; rf_error := rf_error x; rf_modal := rf_modal
    x; rf_mnemonic := rf_mnemonic x; rf_copied := rf_copied x; rf_saved := rf_saved x; rf_pk := rf_pk x;
    rf_wrapped := rf_wrapped x; rf_salt := rf_salt x; rf_clipboard := rf_clipboard x; rf_download := rf_download
    x; rf_location := rf_location x |}.
Definition set_rf_name (v : jstr) (x : RegisterForm) : RegisterForm := {|
  rf_org := rf_org x; rf_name := v; rf_email := rf_email x; rf_password := rf_password x; rf_confirm :=
    rf_confirm x; rf_show := rf_show x; rf_loading := rf_loading x; rf_error := rf_error x; rf_modal := rf_modal
    x; rf_mnemonic := rf_mnemonic x; rf_copied := rf_copied x; rf_saved := rf_saved x; rf_pk := rf_pk x;
    rf_wrapped := rf_wrapped x; rf_salt := rf_salt x; rf_clipboard := rf_clipboard x; rf_download := rf_download
    x; rf_location := rf_location x |}.
Definition set_rf_email (v : jstr) (x : RegisterForm) : RegisterForm := {|
  rf_org := rf_org x; rf_name := rf_name x; rf_email := v; rf_password := rf_password x; rf_confirm :=
    rf_confirm x; rf_show := rf_show x; rf_loading := rf_loading x; rf_error := rf_error x; rf_modal := rf_modal
    x; rf_mnemonic := rf_mnemonic x; rf_copied := rf_copied x; rf_saved := rf_saved x; rf_pk := rf_pk x;
    rf_wrapped := rf_wrapped x; rf_salt := rf_salt x; rf_clipboard := rf_clipboard x; rf_download := rf_download
    x; rf_location := rf_location x |}.
Definition set_rf_password (v : jstr) (x : RegisterForm) : RegisterForm := {|
  rf_org := rf_org x; rf_name := rf_name x; rf_email := rf_email x; rf_password := v; rf_confirm := rf_confirm
    x; rf_show := rf_show x; rf_loading := rf_loading x; rf_error := rf_error x; rf_modal := rf_modal x;
    rf_mnemonic := rf_mnemonic x; rf_copied := rf_copied x; rf_saved := rf_saved x; rf_pk := rf_pk x; rf_wrapped
    := rf_wrapped x; rf_salt := rf_salt x; rf_clipboard := rf_clipboard x; rf_download := rf_download x;
    rf_location := rf_location x |}.
Definition set_rf_confirm (v : jstr) (x : RegisterForm) : RegisterForm := {|
  rf_org := rf_org x; rf_name := rf_name x; rf_email := rf_email x; rf_password := rf_password x; rf_confirm :=
    v; rf_show := rf_show x; rf_loading := rf_loading x; rf_error := rf_error x; rf_modal := rf_modal x;
    rf_mnemonic := rf_mnemonic x; rf_copied := rf_copied x; rf_saved := rf_saved x; rf_pk := rf_pk x; rf_wrapped
    := rf_wrapped x; rf_salt := rf_salt x; rf_clipboard := rf_clipboard x; rf_download := rf_download x;
    rf_location := rf_location x |}.
Definition set_rf_show (v : bool) (x : RegisterForm) : RegisterForm := {|
  rf_org := rf_org x; rf_name := rf_name x; rf_email := rf_email x; rf_password := rf_password x; rf_confirm :=
    rf_confirm x; rf_show := v; rf_loading := rf_loading x; rf_error := rf_error x; rf_modal := rf_modal x;
    rf_mnemonic := rf_mnemonic x; rf_copied := rf_copied x; rf_saved := rf_saved x; rf_pk := rf_pk x; rf_wrapped
    := rf_wrapped x; rf_salt := rf_salt x; rf_clipboard := rf_clipboard x; rf_download := rf_download x;
    rf_location := rf_location x |}.
Definition set_rf_loading (v : bool) (x : RegisterForm) : RegisterForm := {|
  rf_org := rf_org x; rf_name := rf_name x; rf_email := rf_email x; rf_password := rf_password x; rf_confirm :=
    rf_confirm x; rf_show := rf_show x; rf_loading := v; rf_error := rf_error x; rf_modal := rf_modal x;
    rf_mnemonic := rf_mnemonic x; rf_copied := rf_copied x; rf_saved := rf_saved x; rf_pk := rf_pk x; rf_wrapped
    := rf_wrapped x; rf_salt := rf_salt x; rf_clipboard := rf_clipboard x; rf_download := rf_download x;
    rf_location := rf_location x |}.
Definition set_rf_error (v : option jstr) (x : RegisterForm) : RegisterForm := {|
  rf_org := rf_org x; rf_name := rf_name x; rf_email := rf_email x; rf_password := rf_password x; rf_confirm :=
    rf_confirm x; rf_show := rf_show x; rf_loading := rf_loading x; rf_error := v; rf_modal := rf_modal x;
    rf_mnemonic := rf_mnemonic x; rf_copied := rf_copied x; rf_saved := rf_saved x; rf_pk := rf_pk x; rf_wrapped
    := rf_wrapped x; rf_salt := rf_salt x; rf_clipboard := rf_clipboard x; rf_download := rf_download x;
    rf_location := rf_location x |}.
Definition set_rf_modal (v : bool) (x : RegisterForm) : RegisterForm := {|
  rf_org := rf_org x; rf_name := rf_name x; rf_email := rf_email x; rf_password := rf_password x; rf_confirm :=
    rf_confirm x; rf_show := rf_show x; rf_loading := rf_loading x; rf_error := rf_error x; rf_modal := v;
    rf_mnemonic := rf_mnemonic x; rf_copied := rf_copied x; rf_saved := rf_saved x; rf_pk := rf_pk x; rf_wrapped
    := rf_wrapped x; rf_salt := rf_salt x; rf_clipboard := rf_clipboard x; rf_download := rf_download x;
    rf_location := rf_location x |}.
Definition set_rf_mnemonic (v : jstr) (x : RegisterForm) : RegisterForm := {|
  rf_org := rf_org x; rf_name := rf_name x; rf_email := rf_email x; rf_password := rf_password x; rf_confirm :=
    rf_confirm x; rf_show := rf_show x; rf_loading := rf_loading x; rf_error := rf_error x; rf_modal := rf_modal
    x; rf_mnemonic := v; rf_copied := rf_copied x; rf_saved := rf_saved x; rf_pk := rf_pk x; rf_wrapped :=
    rf_wrapped x; rf_salt := rf_salt x; rf_clipboard := rf_clipboard x; rf_download := rf_download x;
    rf_location := rf_location x |}.
Definition set_rf_copied (v : bool) (x : RegisterForm) : RegisterForm := {|
  rf_org := rf_org x; rf_name := rf_name x; rf_email := rf_email x; rf_password := rf_password x; rf_confirm :=
    rf_confirm x; rf_show := rf_show x; rf_loading := rf_loading x; rf_error := rf_error x; rf_modal := rf_modal
    x; rf_mnemonic := rf_mnemonic x; rf_copied := v; rf_saved := rf_saved x; rf_pk := rf_pk x; rf_wrapped :=
    rf_wrapped x; rf_salt := rf_salt x; rf_clipboard := rf_clipboard x; rf_download := rf_download x;
    rf_location := rf_location x |}.
Definition set_rf_saved (v : bool) (x : RegisterForm) : RegisterForm := {|
  rf_org := rf_org x; rf_name := rf_name x; rf_email := rf_email x; rf_password := rf_password x; rf_confirm :=
    rf_confirm x; rf_show := rf_show x; rf_loading := rf_loading x; rf_error := rf_error x; rf_modal := rf_modal
    x; rf_mnemonic := rf_mnemonic x; rf_copied := rf_copied x; rf_saved := v; rf_pk := rf_pk x; rf_wrapped :=
    rf_wrapped x; rf_salt := rf_salt x; rf_clipboard := rf_clipboard x; rf_download := rf_download x;
    rf_location := rf_location x |}.
Definition set_rf_pk (v : jstr) (x : RegisterForm) : RegisterForm := {|
  rf_org := rf_org x; rf_name := rf_name x; rf_email := rf_email x; rf_password := rf_password x; rf_confirm :=
    rf_confirm x; rf_show := rf_show x; rf_loading := rf_loading x; rf_error := rf_error x; rf_modal := rf_modal
    x; rf_mnemonic := rf_mnemonic x; rf_copied := rf_copied x; rf_saved := rf_saved x; rf_pk := v; rf_wrapped :=
    rf_wrapped x; rf_salt := rf_salt x; rf_clipboard := rf_clipboard x; rf_download := rf_download x;
    rf_location := rf_location x |}.
Definition set_rf_wrapped (v : jstr) (x : RegisterForm) : RegisterForm := {|
  rf_org := rf_org x; rf_name := rf_name x; rf_email := rf_email x; rf_password := rf_password x; rf_confirm :=
    rf_confirm x; rf_show := rf_show x; rf_loading := rf_loading x; rf_error := rf_error x; rf_modal := rf_modal
    x; rf_mnemonic := rf_mnemonic x; rf_copied := rf_copied x; rf_saved := rf_saved x; rf_pk := rf_pk x;
    rf_wrapped := v; rf_salt := rf_salt x; rf_clipboard := rf_clipboard x; rf_download := rf_download x;
    rf_location := rf_location x |}.
Definition set_rf_salt (v : jstr) (x : RegisterForm) : RegisterForm := {|
  rf_org := rf_org x; rf_name := rf_name x; rf_email := rf_email x; rf_password := rf_password x; rf_confirm :=
    rf_confirm x; rf_show := rf_show x; rf_loading := rf_loading x; rf_error := rf_error x; rf_modal := rf_modal
    x; rf_mnemonic := rf_mnemonic x; rf_copied := rf_copied x; rf_saved := rf_saved x; rf_pk := rf_pk x;
    rf_wrapped := rf_wrapped x; rf_salt := v; rf_clipboard := rf_clipboard x; rf_download := rf_download x;
    rf_location := rf_location x |}.
Definition set_rf_clipboard (v : option jstr) (x : RegisterForm) : RegisterForm := {|
  rf_org := rf_org x; rf_name := rf_name x; rf_email := rf_email x; rf_password := rf_password x; rf_confirm :=
    rf_confirm x; rf_show := rf_show x; rf_loading := rf_loading x; rf_error := rf_error x; rf_modal := rf_modal
    x; rf_mnemonic := rf_mnemonic x; rf_copied := rf_copied x; rf_saved := rf_saved x; rf_pk := rf_pk x;
    rf_wrapped := rf_wrapped x; rf_salt := rf_salt x; rf_clipboard := v; rf_download := rf_download x;
    rf_location := rf_location x |}.
Definition set_rf_download (v : option (jstr * jstr)) (x : RegisterForm) : RegisterForm := {|
  rf_org := rf_org x; rf_name := rf_name x; rf_email := rf_email x; rf_password := rf_password x; rf_confirm :=
    rf_confirm x; rf_show := rf_show x; rf_loading := rf_loading x; rf_error := rf_error x; rf_modal := rf_modal
    x; rf_mnemonic := rf_mnemonic x; rf_copied := rf_copied x; rf_saved := rf_saved x; rf_pk := rf_pk x;
    rf_wrapped := rf_wrapped x; rf_salt := rf_salt x; rf_clipboard := rf_clipboard x; rf_download := v;
    rf_location := rf_location x |}.
Definition set_rf_location (v : option jstr) (x : RegisterForm) : RegisterForm := {|
  rf_org := rf_org x; rf_name := rf_name x; rf_email := rf_email x; rf_password := rf_password x; rf_confirm :=
    rf_confirm x; rf_show := rf_show x; rf_loading := rf_loading x; rf_error := rf_error x; rf_modal := rf_modal
    x; rf_mnemonic := rf_mnemonic x; rf_copied := rf_copied x; rf_saved := rf_saved x; rf_pk := rf_pk x;
    rf_wrapped := rf_wrapped x; rf_salt := rf_salt x; rf_clipboard := rf_clipboard x; rf_download := rf_download
    x; rf_location := v |}.


Definition opened_register : RegisterForm := {|
  rf_org := []; rf_name := []; rf_email := []; rf_password := []; rf_confirm := []; rf_show := false; rf_loading := false;
  rf_error := None; rf_modal := false; rf_mnemonic := []; rf_copied := false; rf_saved := false; rf_pk := [];
  rf_wrapped := []; rf_salt := []; rf_clipboard := None; rf_download := None; rf_location := None |}.

(** The score and the label. *)
Definition site_passwordStrength (pw : jstr) : Z * jstr :=
  let len := Z.of_nat (length pw) in
  if negb (truthy pw) then (0, js "Empty")
  else
    let score := Z.b2z (12 <=? len) + Z.b2z (16 <=? len) + Z.b2z (existsb is_lower pw && existsb is_upper pw)
                 + Z.b2z (existsb is_digit pw) + Z.b2z (existsb (fun u => negb (ascii_alnum u)) pw) in
    if score <=? 2 then (score, js "Weak (Min. 12 chars required)")
    else if score =? 3 then (score, js "Fair")
    else if score =? 4 then (score, js "Good")
    else (score, js "Strong").

Definition isFormValid (p : RegisterForm) : bool :=
  (2 <=? length (trim (rf_org p)))%nat && (2 <=? length (trim (rf_name p)))%nat && includes (rf_email p) (js "@")
  && (12 <=? length (rf_password p))%nat && jeqb (rf_password p) (rf_confirm p).

(** Where the page is shown. *)
Record Location := { loc_protocol : jstr; loc_hostname : jstr }.

Section Site.
Context `{Env} `{Crypto} `{Unicode}.

(** [if (response.ok) ... else throw]: the body of a refusal is read before its status is
    looked at. *)
Definition register_refused (st : Z) (data : option bytes) : outcome unit :=
  errorText ← response_text data;
  if st =? 409 then throw "This email address is already registered. Please sign in instead."
  else Throw (JsError (or_default errorText (js "Registration failed with status " ++ num st)) None).

Definition site_request (path : string) (body : json) : request := {|
  req_method := js "POST"; req_url := apiBase ++ js path; req_headers := json_type; req_credentials := js "include";
  req_body := stringified body |}.

(** What the form draws is what the panel's ceremony draws. *)
Definition site_initialSubmit (r : CeremonyRandom) : prog RegisterForm unit :=
  p ← gets (fun p => p);
  if negb (isFormValid p) then
    if (length (rf_password p) <? 12)%nat then modify (set_rf_error (Some (js "Password must be at least 12 characters.")))
    else if negb (jeqb (rf_password p) (rf_confirm p)) then modify (set_rf_error (Some (js "Passwords do not match.")))
    else skip
  else
    _ ← modify (fun p => set_rf_loading true (set_rf_error None p));
    finally
      (pcatch
         (_ ← wait;
          phrase ← lift (wasm_generate_mnemonic (cr_entropy r));
          _ ← modify (set_rf_mnemonic phrase);
          keypair ← lift (JSON_parse (wasm_generate_keypair (cr_sk r)));
          let saltHex := cp_bytesToHex (cr_salt r) in
          p ← gets (fun p => p);
          wrappedSk ← lift (wasm_passphrase_wrap_key (cr_nonce r) (rf_password p) saltHex (str_field keypair "secret_key"));
          _ ← modify (fun p => set_rf_salt saltHex (set_rf_wrapped wrappedSk (set_rf_pk (str_field keypair "public_key") p)));
          modify (set_rf_modal true))
         (fun e => modify (set_rf_error (Some (or_default (message e) (js "Failed to initialize cryptographic material."))))))
      (modify (set_rf_loading false)).

Definition site_registration (p : RegisterForm) : json := JObj [
  str_member "org_name" (trim (rf_org p)); str_member "name" (trim (rf_name p));
  str_member "email" (toLowerCase (trim (rf_email p))); str_member "password" (rf_password p);
  str_member "org_recovery_pk" (rf_pk p); str_member "wrapped_org_recovery_sk" (rf_wrapped p);
  str_member "recovery_salt" (rf_salt p) ].

(** [byos-recovery-phrase-${...}.txt] *)
Definition phrase_file (org : jstr) : jstr :=
  js "byos-recovery-phrase-"
  ++ map (fun u => if is_lower u || is_digit u then u else 45) (toLowerCase org) ++ js ".txt".

Definition panel_address (l : Location) (rest : string) : jstr := loc_protocol l ++ js "//" ++ loc_hostname l ++ js rest.

Definition site_finalizeRegistration (l : Location) : prog RegisterForm unit :=
  p ← gets (fun p => p);
  if negb (rf_saved p) then skip
  else
    _ ← modify (fun p => set_rf_error None (set_rf_loading true p));
    finally
      (pcatch
         (p ← gets (fun p => p);
          r ← fetch (site_request "/v1/auth/register" (site_registration p));
          _ ← (match r with
               | NetworkFailure e => lift (Throw e)
               | Response st _ data => if response_ok st then skip else lift (register_refused st data)
               end);
          _ ← modify (fun p => set_rf_download (Some (phrase_file (rf_org p), rf_mnemonic p)) p);
          modify (set_rf_location (Some (panel_address l ":3000/dashboard"))))
         (fun e => modify (fun p =>
            set_rf_error (Some (or_default (message e) (js "Registration request failed. Please check your connection.")))
              (set_rf_modal false p))))
      (modify (set_rf_loading false)).

(** The label fades after a while. *)
Definition site_copyMnemonic (p : RegisterForm) : RegisterForm :=
  if truthy (rf_mnemonic p) then set_rf_copied true (set_rf_clipboard (Some (rf_mnemonic p)) p) else p.

Definition site_phraseWords (p : RegisterForm) : list jstr := split_white (trim (rf_mnemonic p)).

End Site.

(** ** auth/LoginForm.tsx *)

Record LoginForm := {
  lf_email : jstr;
  lf_password : jstr;
  lf_show : bool;
  lf_loading : bool;
  lf_error : option jstr;
  lf_location : option jstr }.

Definition set_lf_email (v : jstr) (x : LoginForm) : LoginForm := {|
  lf_email := v; lf_password := lf_password x; lf_show := lf_show x; lf_loading := lf_loading x; lf_error :=
    lf_error x; lf_location := lf_location x |}.
Definition set_lf_password (v : jstr) (x : LoginForm) : LoginForm := {|
  lf_email := lf_email x; lf_password := v; lf_show := lf_show x; lf_loading := lf_loading x; lf_error :=
    lf_error x; lf_location := lf_location x |}.
Definition set_lf_show (v : bool) (x : LoginForm) : LoginForm := {|
  lf_email := lf_email x; lf_password := lf_password x; lf_show := v; lf_loading := lf_loading x; lf_error :=
    lf_error x; lf_location := lf_location x |}.
Definition set_lf_loading (v : bool) (x : LoginForm) : LoginForm := {|
  lf_email := lf_email x; lf_password := lf_password x; lf_show := lf_show x; lf_loading := v; lf_error :=
    lf_error x; lf_location := lf_location x |}.
Definition set_lf_error (v : option jstr) (x : LoginForm) : LoginForm := {|
  lf_email := lf_email x; lf_password := lf_password x; lf_show := lf_show x; lf_loading := lf_loading x;
    lf_error := v; lf_location := lf_location x |}.
Definition set_lf_location (v : option jstr) (x : LoginForm) : LoginForm := {|
  lf_email := lf_email x; lf_password := lf_password x; lf_show := lf_show x; lf_loading := lf_loading x;
    lf_error := lf_error x; lf_location := v |}.


Section SiteLogin.
Context `{Env} `{Unicode}.

Definition login_refused (st : Z) (data : option bytes) : outcome json :=
  if st =? 401 then throw "Invalid email or password. Please double check your credentials."
  else if st =? 429 then throw "Too many sign-in attempts. Please wait a few minutes before trying again."
  else
    text ← response_text data;
    Throw (JsError (or_default text (js "Authentication failed with status " ++ num st)) None).

(** [(data.role || "member").toLowerCase()] *)
Definition role_of (data : json) : outcome jstr :=
  role ← field "role" data; Ok (toLowerCase (or_default (str role) (js "member"))).

Definition site_login (l : Location) : prog LoginForm unit :=
  p ← gets (fun p => p);
  let mail := toLowerCase (trim (lf_email p)) in
  let pw := lf_password p in
  if negb (truthy mail) || negb (truthy pw) then modify (set_lf_error (Some (js "Please enter both email and password.")))
  else
    _ ← modify (fun p => set_lf_error None (set_lf_loading true p));
    finally
      (pcatch
         (r ← fetch (site_request "/v1/auth/login" (JObj [str_member "email" mail; str_member "password" pw]));
          data ← lift (match r with
                       | NetworkFailure e => Throw e
                       | Response st _ data => if response_ok st then response_json data else login_refused st data
                       end);
          role ← lift (role_of data);
          modify (set_lf_location (Some (panel_address l
            (if jeqb role (js "owner") || jeqb role (js "admin") then ":3000/dashboard" else ":3001/")))))
         (fun e => modify (set_lf_error (Some
            (or_default (message e) (js "Failed to sign in. Please verify your internet connection."))))))
      (modify (set_lf_loading false)).

End SiteLogin.

(** ** layout/HeaderUserNav.tsx *)

Record UserNav := {
  un_user : option json;
  un_loading : bool;
  un_open : bool;
  un_location : option jstr }.

Definition set_un_user (v : option json) (x : UserNav) : UserNav := {|
  un_user := v; un_loading := un_loading x; un_open := un_open x; un_location := un_location x |}.
Definition set_un_loading (v : bool) (x : UserNav) : UserNav := {|
  un_user := un_user x; un_loading := v; un_open := un_open x; un_location := un_location x |}.
Definition set_un_open (v : bool) (x : UserNav) : UserNav := {|
  un_user := un_user x; un_loading := un_loading x; un_open := v; un_location := un_location x |}.
Definition set_un_location (v : option jstr) (x : UserNav) : UserNav := {|
  un_user := un_user x; un_loading := un_loading x; un_open := un_open x; un_location := v |}.


Section Nav.
Context `{Env}.

Definition site_me_request : request := {|
  req_method := js "GET"; req_url := apiBase ++ js "/v1/auth/me"; req_headers := [(js "Accept", js "application/json")];
  req_credentials := js "include"; req_body := NoBody |}.

(** [data && data.id && data.email] *)
Definition session_named (data : json) : bool :=
  json_truthy data
  && match field "id" data, field "email" data with
     | Ok (Some i), Ok (Some e) => json_truthy i && json_truthy e
     | _, _ => false
     end.

Definition checkAuth : prog UserNav unit :=
  finally
    (pcatch
       (r ← fetch site_me_request;
        match r with
        | NetworkFailure e => lift (Throw e)
        | Response st _ data =>
            if response_ok st then
              data ← lift (response_json data);
              modify (set_un_user (if session_named data then Some data else None))
            else modify (set_un_user None)
        end)
       (fun _ => modify (set_un_user None)))
    (modify (set_un_loading false)).

Definition nav_logout : prog UserNav unit :=
  _ ← pcatch
        (r ← fetch {| req_method := js "POST"; req_url := apiBase ++ js "/v1/auth/logout"; req_headers := [];
                      req_credentials := js "include"; req_body := NoBody |};
         match r with NetworkFailure e => lift (Throw e) | Response _ _ _ => skip end)
        (fun _ => skip);
  _ ← modify (fun p => set_un_open false (set_un_user None p));
  modify (set_un_location (Some (js "/"))).

Definition nav_click (inside : bool) (p : UserNav) : UserNav := if inside then p else set_un_open false p.
Definition nav_key (key : jstr) (p : UserNav) : UserNav := if jeqb key (js "Escape") then set_un_open false p else p.

End Nav.

(** ** Theorems *)

(** C14. What the site's sign-up makes.  From a valid form its ceremony always comes to the
    dialog with the phrase, without a request: the wrapped key it keeps for the request
    opens with the password and is the secret of the public key.  The 24 words, shown as the
    organization's root key, have nothing to do with it: the root they give depends on the
    entropy drawn for them alone, and another key drawn with the same entropy leaves them as
    they are.  A box ticked for an earlier phrase stays ticked. *)
Theorem site_phrase_is_not_the_key `{CryptoLaws} `{Unicode} w t p r r' k k' :
  isFormValid p = true -> ceremony_ok r -> ceremony_ok r' -> cr_entropy r' = cr_entropy r ->
  derive_recovery_principal_key (rf_password p) (cr_salt r) = Ok k ->
  derive_recovery_principal_key (rf_password p) (cr_salt r') = Ok k' ->
  exists p1 p2, run w t p (site_initialSubmit r) = (Ok tt, p1, t) /\ run w t p (site_initialSubmit r') = (Ok tt, p2, t) /\
    rf_modal p1 = true /\ rf_error p1 = None /\ rf_loading p1 = false /\ rf_saved p1 = rf_saved p /\
    rf_pk p1 = bytesToHex (x25519_pk (cr_sk r)) /\
    wasm_passphrase_unwrap_key (rf_password p) (rf_salt p1) (rf_wrapped p1) = Ok (bytesToHex (cr_sk r)) /\
    wasm_recover_root_secret (rf_mnemonic p1) = Ok (bytesToHex (hkdf_root (cr_entropy r))) /\
    rf_mnemonic p2 = rf_mnemonic p1 /\ rf_pk p2 = bytesToHex (x25519_pk (cr_sk r')).
Proof.
  assert (Hrun : forall r k, isFormValid p = true -> ceremony_ok r -> derive_recovery_principal_key (rf_password p) (cr_salt r) = Ok k ->
    run w t p (site_initialSubmit r) =
    (Ok tt, set_rf_loading false (set_rf_modal true (set_rf_salt (bytesToHex (cr_salt r))
       (set_rf_wrapped (bytesToHex (aes_gcm_encrypt k (cr_nonce r) (cr_sk r) RECOVERY_PRINCIPAL_AAD))
       (set_rf_pk (bytesToHex (x25519_pk (cr_sk r))) (set_rf_mnemonic (bip39_phrase (cr_entropy r))
       (set_rf_loading true (set_rf_error None p))))))), t)).
  { clear r r' k k'. intros r k Hv [[Hkl Hk] He [Hs Hsl] Hn] Hd. unfold site_initialSubmit. rewrite run_bind. cbn [gets run]. rewrite Hv.
    cbn [negb]. rewrite run_bind. cbn [modify run]. rewrite run_finally, run_catch, run_bind, run_waits.
    unfold wasm_generate_mnemonic. rewrite bind_lift, run_bind. cbn [modify run].
    destruct (keypair_fields (cr_sk r) Hk) as (kp & Ep & Es & Epk). rewrite Ep, bind_lift, run_bind. cbn [gets run]. cbv zeta.
    rewrite cp_bytesToHex_eq, Es, Epk.
    change (rf_password _) with (rf_password p). rewrite (passphrase_wrap_ok (rf_password p) _ _ _ k), bind_lift by done.
    reflexivity. }
  intros Hv Hr Hr' He Hd Hd'. do 2 eexists. split; [by apply (Hrun r k)|]. split; [by apply (Hrun r' k')|].
  cbn [rf_modal rf_error rf_loading rf_saved rf_pk rf_salt rf_wrapped rf_mnemonic set_rf_loading set_rf_modal set_rf_salt
    set_rf_wrapped set_rf_pk set_rf_mnemonic set_rf_error].
  rewrite He. split_and!; try done; [|by apply phrase_gives_root; destruct Hr].
  by apply password_opens.
Qed.

Lemma or_default_filled a b : b <> [] -> or_default a b <> [].
Proof. unfold or_default. by destruct a. Qed.

Section SiteRuns.
Context `{Env} `{Unicode}.

Definition accepts (r : reply) : bool := match r with Response st _ _ => response_ok st | NetworkFailure _ => false end.

(** What the site's sign-up sends: nothing until the phrase is confirmed, then one
    request.  It carries the password as it was typed - the panel's own registration sends a
    value derived from it - beside the public key, the wrapped key and the salt.  When it is
    accepted the phrase is saved and the browser leaves for the dashboard; otherwise nothing
    is saved, the dialog closes and the reason is shown. *)
Theorem site_registration_sends_the_password w t l p :
  exists p' t', run w t p (site_finalizeRegistration l) = (Ok tt, p', t') /\
  if rf_saved p then
    let q := site_request "/v1/auth/register" (site_registration p) in
    t' = ask q t /\ str_field (site_registration p) "password" = rf_password p /\ rf_loading p' = false /\
    if accepts (respond w t q)
    then rf_download p' = Some (phrase_file (rf_org p), rf_mnemonic p) /\ rf_error p' = None /\
         rf_location p' = Some (panel_address l ":3000/dashboard")
    else rf_download p' = rf_download p /\ rf_location p' = rf_location p /\ rf_modal p' = false /\
         exists e, rf_error p' = Some e /\ e <> []
  else p' = p /\ t' = t.
Proof.
  unfold site_finalizeRegistration. rewrite run_bind. cbn [gets run]. destruct (rf_saved p) eqn:Es; cbn [negb]; [|by exists p, t].
  rewrite run_bind. cbn [modify run]. rewrite run_finally, run_catch, run_bind. cbn [gets run]. rewrite run_bind. cbn [fetch run].
  set (q := site_request _ (site_registration p)).
  change (site_request _ (site_registration _)) with q. rewrite run_bind.
  destruct (respond w t q) as [e|st ct data] eqn:Er; cbn [accepts].
  - do 2 eexists. split; [reflexivity|]. split_and!; try done. eexists. split; [reflexivity|by apply or_default_filled].
  - destruct (response_ok st).
    + do 2 eexists. split; [reflexivity|]. by split_and!.
    + unfold register_refused. destruct (response_text data) as [text|e]; ok_bind; [destruct (st =? 409)|];
        (do 2 eexists; split; [reflexivity|]; split_and!; try done; eexists; split; [reflexivity|by apply or_default_filled]).
Qed.

(** The sign-in form of the site: with both fields filled it sends one request, the password
    as typed, and ends either on its way - owners and administrators to the panel, everyone
    else to the mail client - or with an error. *)
Theorem site_login_spec w t l p :
  exists p' t', run w t p (site_login l) = (Ok tt, p', t') /\
  let mail := toLowerCase (trim (lf_email p)) in
  let q := site_request "/v1/auth/login" (JObj [str_member "email" mail; str_member "password" (lf_password p)]) in
  if truthy mail && truthy (lf_password p) then
    t' = ask q t /\ lf_loading p' = false /\
    ((exists role, lf_location p' = Some (panel_address l
        (if jeqb role (js "owner") || jeqb role (js "admin") then ":3000/dashboard" else ":3001/")) /\
        lf_error p' = None /\ accepts (respond w t q) = true)
     \/ (lf_location p' = lf_location p /\ exists e, lf_error p' = Some e /\ e <> []))
  else t' = t /\ lf_location p' = lf_location p /\ lf_error p' = Some (js "Please enter both email and password.").
Proof.
  unfold site_login. rewrite run_bind. cbn [gets run]. cbv zeta. set (mail := toLowerCase (trim (lf_email p))).
  destruct (truthy mail); cbn [negb orb andb]; [|by do 2 eexists].
  destruct (truthy (lf_password p)); cbn [negb]; [|by do 2 eexists].
  rewrite run_bind. cbn [modify run]. rewrite run_finally, run_catch, run_bind. cbn [fetch run].
  set (q := site_request _ _). rewrite bind_lift.
  assert (Hfail : forall e : js_error, or_default (message e) (js "Failed to sign in. Please verify your internet connection.") <> [])
    by (intros; by apply or_default_filled).
  destruct (respond w t q) as [e|st ct data] eqn:Er; cbn [accepts].
  { do 2 eexists. split; [reflexivity|]. split_and!; [done|done|]. right. split; [done|]. eexists. split; [reflexivity|apply Hfail]. }
  match goal with |- context [if response_ok st then ?a else ?b] => destruct (if response_ok st then a else b) as [v|e] eqn:Ev end.
  2: { do 2 eexists. split; [reflexivity|]. split_and!; [done|done|]. right. split; [done|]. eexists. split; [reflexivity|apply Hfail]. }
  assert (Hok : response_ok st = true).
  { destruct (response_ok st); [done|]. revert Ev. unfold login_refused. destruct (st =? 401), (st =? 429); try done.
    by destruct (response_text data). }
  rewrite bind_lift. destruct (role_of v) as [role|e].
  - do 2 eexists. split; [reflexivity|]. split_and!; [done|done|]. left. exists role. by split_and!.
  - do 2 eexists. split; [reflexivity|]. split_and!; [done|done|]. right. split; [done|]. eexists. split; [reflexivity|apply Hfail].
Qed.

(** Leaving through the menu forgets the session on the page whatever the server answers. *)
Theorem nav_logout_forgets w t p :
  exists q, run w t p nav_logout = (Ok tt, set_un_location (Some (js "/")) (set_un_open false (set_un_user None p)), ask q t).
Proof.
  unfold nav_logout. rewrite run_bind, run_catch, run_bind. cbn [fetch run].
  match goal with |- context [respond w t ?q] => exists q; by destruct (respond w t q) end.
Qed.

End SiteRuns.

(** ** Witnesses *)

Definition site_form : RegisterForm :=
  set_rf_saved true (set_rf_confirm (js "correct horse") (set_rf_password (js "correct horse")
    (set_rf_email (js "ada@b.org") (set_rf_name (js "Ada") (set_rf_org (js "Byos Ltd") opened_register))))).

Lemma site_phrase_is_not_the_key_witness :
  exists p1 p2, run organization no_trace site_form (@site_initialSubmit toy_crypto (draws key0)) = (Ok tt, p1, no_trace) /\
    run organization no_trace site_form (@site_initialSubmit toy_crypto (draws key1)) = (Ok tt, p2, no_trace) /\
    rf_mnemonic p2 = rf_mnemonic p1 /\ rf_pk p1 = bytesToHex (x25519_pk (Crypto := toy_crypto) key0).
Proof.
  destruct (@site_phrase_is_not_the_key toy_crypto toy_laws ascii_unicode organization no_trace site_form (draws key0) (draws key1)
    (toy_key (js "correct horse" ++ salt0)) (toy_key (js "correct horse" ++ salt0)) eq_refl
    (draws_ok key0 key0_ok) (draws_ok key1 key1_ok) eq_refl ltac:(vm_compute; reflexivity) ltac:(vm_compute; reflexivity))
    as (p1 & p2 & R1 & R2 & _ & _ & _ & _ & Hpk & _ & _ & Hm & _).
  exists p1, p2. split_and!; [exact R1|exact R2|exact Hm|exact Hpk].
Defined.

Example site_registration_sent :
  let l := {| loc_protocol := js "https:"; loc_hostname := js "byos.email" |} in
  let w := {| respond := fun _ _ => Response 201 [] None; answer := fun _ _ => true |} in
  exists p', run w no_trace site_form (@site_finalizeRegistration panel_env ascii_unicode l) =
      (Ok tt, p', ask (@site_request panel_env "/v1/auth/register" (@site_registration ascii_unicode site_form)) no_trace) /\
    rf_location p' = Some (js "https://byos.email:3000/dashboard").
Proof.
  intros l w. destruct (@site_registration_sends_the_password panel_env ascii_unicode w no_trace l site_form) as (p' & t' & R & Ht & _ & _ & _ & _ & El).
  subst t'. exists p'. split; [exact R|exact El].
Defined.
