(* ===== verification/RecoveryPage.v ===== *)
(** * The recovery page of the control plane

    control-plane/src/routes/dashboard/recovery.tsx: generating and testing a recovery
    phrase, enrolling its verifier, recovering the account with it, rotating the root secret
    of a mailbox, and the recovery principals of the organization.  The state is the panel's
    with a record for each of the page's tabs; [orgId] is read once, when the page is made. *)

From S2P Require Import Prelude JsString Encoding Json Wasm MessageCrypto Client Api MailView Reading MailboxData SignIn Page.
From S2P Require Import ControlApi ControlKeys.

(** Generating a phrase. *)
Record PhraseTab := {
  ph_mnemonic : option jstr;
  ph_verified : bool;
  ph_copied : bool;
  ph_error : option jstr }.

Definition set_ph_mnemonic (v : option jstr) (x : PhraseTab) : PhraseTab := {|
  ph_mnemonic := v; ph_verified := ph_verified x; ph_copied := ph_copied x; ph_error := ph_error x |}.
Definition set_ph_verified (v : bool) (x : PhraseTab) : PhraseTab := {|
  ph_mnemonic := ph_mnemonic x; ph_verified := v; ph_copied := ph_copied x; ph_error := ph_error x |}.
Definition set_ph_copied (v : bool) (x : PhraseTab) : PhraseTab := {|
  ph_mnemonic := ph_mnemonic x; ph_verified := ph_verified x; ph_copied := v; ph_error := ph_error x |}.
Definition set_ph_error (v : option jstr) (x : PhraseTab) : PhraseTab := {|
  ph_mnemonic := ph_mnemonic x; ph_verified := ph_verified x; ph_copied := ph_copied x; ph_error := v |}.

(** Enrolling the verifier of a phrase. *)
Record EnrollTab := {
  en_words : jstr;
  en_busy : bool;
  en_done : bool;
  en_error : option jstr }.

Definition set_en_words (v : jstr) (x : EnrollTab) : EnrollTab := {|
  en_words := v; en_busy := en_busy x; en_done := en_done x; en_error := en_error x |}.
Definition set_en_busy (v : bool) (x : EnrollTab) : EnrollTab := {|
  en_words := en_words x; en_busy := v; en_done := en_done x; en_error := en_error x |}.
Definition set_en_done (v : bool) (x : EnrollTab) : EnrollTab := {|
  en_words := en_words x; en_busy := en_busy x; en_done := v; en_error := en_error x |}.
Definition set_en_error (v : option jstr) (x : EnrollTab) : EnrollTab := {|
  en_words := en_words x; en_busy := en_busy x; en_done := en_done x; en_error := v |}.

(** Recovering the account, and the new password afterwards. *)
Record RecoverTab := {
  rv_email : jstr;
  rv_words : jstr;
  rv_busy : bool;
  rv_error : option jstr;
  rv_done : bool;
  rv_password : jstr;
  rv_pw_busy : bool;
  rv_pw_error : option jstr;
  rv_pw_done : bool }.

Definition set_rv_email (v : jstr) (x : RecoverTab) : RecoverTab := {|
  rv_email := v; rv_words := rv_words x; rv_busy := rv_busy x; rv_error := rv_error x; rv_done := rv_done x;
    rv_password := rv_password x; rv_pw_busy := rv_pw_busy x; rv_pw_error := rv_pw_error x; rv_pw_done :=
    rv_pw_done x |}.
Definition set_rv_words (v : jstr) (x : RecoverTab) : RecoverTab := {|
  rv_email := rv_email x; rv_words := v; rv_busy := rv_busy x; rv_error := rv_error x; rv_done := rv_done x;
    rv_password := rv_password x; rv_pw_busy := rv_pw_busy x; rv_pw_error := rv_pw_error x; rv_pw_done :=
    rv_pw_done x |}.
Definition set_rv_busy (v : bool) (x : RecoverTab) : RecoverTab := {|
  rv_email := rv_email x; rv_words := rv_words x; rv_busy := v; rv_error := rv_error x; rv_done := rv_done x;
    rv_password := rv_password x; rv_pw_busy := rv_pw_busy x; rv_pw_error := rv_pw_error x; rv_pw_done :=
    rv_pw_done x |}.
Definition set_rv_error (v : option jstr) (x : RecoverTab) : RecoverTab := {|
  rv_email := rv_email x; rv_words := rv_words x; rv_busy := rv_busy x; rv_error := v; rv_done := rv_done x;
    rv_password := rv_password x; rv_pw_busy := rv_pw_busy x; rv_pw_error := rv_pw_error x; rv_pw_done :=
    rv_pw_done x |}.
Definition set_rv_done (v : bool) (x : RecoverTab) : RecoverTab := {|
  rv_email := rv_email x; rv_words := rv_words x; rv_busy := rv_busy x; rv_error := rv_error x; rv_done := v;
    rv_password := rv_password x; rv_pw_busy := rv_pw_busy x; rv_pw_error := rv_pw_error x; rv_pw_done :=
    rv_pw_done x |}.
Definition set_rv_password (v : jstr) (x : RecoverTab) : RecoverTab := {|
  rv_email := rv_email x; rv_words := rv_words x; rv_busy := rv_busy x; rv_error := rv_error x; rv_done :=
    rv_done x; rv_password := v; rv_pw_busy := rv_pw_busy x; rv_pw_error := rv_pw_error x; rv_pw_done :=
    rv_pw_done x |}.
Definition set_rv_pw_busy (v : bool) (x : RecoverTab) : RecoverTab := {|
  rv_email := rv_email x; rv_words := rv_words x; rv_busy := rv_busy x; rv_error := rv_error x; rv_done :=
    rv_done x; rv_password := rv_password x; rv_pw_busy := v; rv_pw_error := rv_pw_error x; rv_pw_done :=
    rv_pw_done x |}.
Definition set_rv_pw_error (v : option jstr) (x : RecoverTab) : RecoverTab := {|
  rv_email := rv_email x; rv_words := rv_words x; rv_busy := rv_busy x; rv_error := rv_error x; rv_done :=
    rv_done x; rv_password := rv_password x; rv_pw_busy := rv_pw_busy x; rv_pw_error := v; rv_pw_done :=
    rv_pw_done x |}.
Definition set_rv_pw_done (v : bool) (x : RecoverTab) : RecoverTab := {|
  rv_email := rv_email x; rv_words := rv_words x; rv_busy := rv_busy x; rv_error := rv_error x; rv_done :=
    rv_done x; rv_password := rv_password x; rv_pw_busy := rv_pw_busy x; rv_pw_error := rv_pw_error x;
    rv_pw_done := v |}.

(** Rotating a root.  A chosen file is the text it reads as, or the failure to read it;
    the version is the number the server answers. *)
Record RotateTab := {
  ro_box : jstr;
  ro_mode : option jstr;
  ro_loading : bool;
  ro_words : jstr;
  ro_busy : bool;
  ro_error : option jstr;
  ro_version : option json;
  ro_phrase : option jstr;
  ro_copied : bool;
  ro_file : option (outcome jstr) }.

Definition set_ro_box (v : jstr) (x : RotateTab) : RotateTab := {|
  ro_box := v; ro_mode := ro_mode x; ro_loading := ro_loading x; ro_words := ro_words x; ro_busy := ro_busy x;
    ro_error := ro_error x; ro_version := ro_version x; ro_phrase := ro_phrase x; ro_copied := ro_copied x;
    ro_file := ro_file x |}.
Definition set_ro_mode (v : option jstr) (x : RotateTab) : RotateTab := {|
  ro_box := ro_box x; ro_mode := v; ro_loading := ro_loading x; ro_words := ro_words x; ro_busy := ro_busy x;
    ro_error := ro_error x; ro_version := ro_version x; ro_phrase := ro_phrase x; ro_copied := ro_copied x;
    ro_file := ro_file x |}.
Definition set_ro_loading (v : bool) (x : RotateTab) : RotateTab := {|
  ro_box := ro_box x; ro_mode := ro_mode x; ro_loading := v; ro_words := ro_words x; ro_busy := ro_busy x;
    ro_error := ro_error x; ro_version := ro_version x; ro_phrase := ro_phrase x; ro_copied := ro_copied x;
    ro_file := ro_file x |}.
Definition set_ro_words (v : jstr) (x : RotateTab) : RotateTab := {|
  ro_box := ro_box x; ro_mode := ro_mode x; ro_loading := ro_loading x; ro_words := v; ro_busy := ro_busy x;
    ro_error := ro_error x; ro_version := ro_version x; ro_phrase := ro_phrase x; ro_copied := ro_copied x;
    ro_file := ro_file x |}.
Definition set_ro_busy (v : bool) (x : RotateTab) : RotateTab := {|
  ro_box := ro_box x; ro_mode := ro_mode x; ro_loading := ro_loading x; ro_words := ro_words x; ro_busy := v;
    ro_error := ro_error x; ro_version := ro_version x; ro_phrase := ro_phrase x; ro_copied := ro_copied x;
    ro_file := ro_file x |}.
Definition set_ro_error (v : option jstr) (x : RotateTab) : RotateTab := {|
  ro_box := ro_box x; ro_mode := ro_mode x; ro_loading := ro_loading x; ro_words := ro_words x; ro_busy :=
    ro_busy x; ro_error := v; ro_version := ro_version x; ro_phrase := ro_phrase x; ro_copied := ro_copied x;
    ro_file := ro_file x |}.
Definition set_ro_version (v : option json) (x : RotateTab) : RotateTab := {|
  ro_box := ro_box x; ro_mode := ro_mode x; ro_loading := ro_loading x; ro_words := ro_words x; ro_busy :=
    ro_busy x; ro_error := ro_error x; ro_version := v; ro_phrase := ro_phrase x; ro_copied := ro_copied x;
    ro_file := ro_file x |}.
Definition set_ro_phrase (v : option jstr) (x : RotateTab) : RotateTab := {|
  ro_box := ro_box x; ro_mode := ro_mode x; ro_loading := ro_loading x; ro_words := ro_words x; ro_busy :=
    ro_busy x; ro_error := ro_error x; ro_version := ro_version x; ro_phrase := v; ro_copied := ro_copied x;
    ro_file := ro_file x |}.
Definition set_ro_copied (v : bool) (x : RotateTab) : RotateTab := {|
  ro_box := ro_box x; ro_mode := ro_mode x; ro_loading := ro_loading x; ro_words := ro_words x; ro_busy :=
    ro_busy x; ro_error := ro_error x; ro_version := ro_version x; ro_phrase := ro_phrase x; ro_copied := v;
    ro_file := ro_file x |}.
Definition set_ro_file (v : option (outcome jstr)) (x : RotateTab) : RotateTab := {|
  ro_box := ro_box x; ro_mode := ro_mode x; ro_loading := ro_loading x; ro_words := ro_words x; ro_busy :=
    ro_busy x; ro_error := ro_error x; ro_version := ro_version x; ro_phrase := ro_phrase x; ro_copied :=
    ro_copied x; ro_file := v |}.

(** The recovery principals. *)
Record PrincipalsTab := {
  pn_list : json;
  pn_members : option json;
  pn_loading : bool;
  pn_error : option jstr;
  pn_notice : option jstr;
  pn_user : jstr;
  pn_name : jstr;
  pn_pass : jstr;
  pn_file : option (outcome jstr);
  pn_busy : bool }.

Definition set_pn_list (v : json) (x : PrincipalsTab) : PrincipalsTab := {|
  pn_list := v; pn_members := pn_members x; pn_loading := pn_loading x; pn_error := pn_error x; pn_notice :=
    pn_notice x; pn_user := pn_user x; pn_name := pn_name x; pn_pass := pn_pass x; pn_file := pn_file x; pn_busy
    := pn_busy x |}.
Definition set_pn_members (v : option json) (x : PrincipalsTab) : PrincipalsTab := {|
  pn_list := pn_list x; pn_members := v; pn_loading := pn_loading x; pn_error := pn_error x; pn_notice :=
    pn_notice x; pn_user := pn_user x; pn_name := pn_name x; pn_pass := pn_pass x; pn_file := pn_file x; pn_busy
    := pn_busy x |}.
Definition set_pn_loading (v : bool) (x : PrincipalsTab) : PrincipalsTab := {|
  pn_list := pn_list x; pn_members := pn_members x; pn_loading := v; pn_error := pn_error x; pn_notice :=
    pn_notice x; pn_user := pn_user x; pn_name := pn_name x; pn_pass := pn_pass x; pn_file := pn_file x; pn_busy
    := pn_busy x |}.
Definition set_pn_error (v : option jstr) (x : PrincipalsTab) : PrincipalsTab := {|
  pn_list := pn_list x; pn_members := pn_members x; pn_loading := pn_loading x; pn_error := v; pn_notice :=
    pn_notice x; pn_user := pn_user x; pn_name := pn_name x; pn_pass := pn_pass x; pn_file := pn_file x; pn_busy
    := pn_busy x |}.
Definition set_pn_notice (v : option jstr) (x : PrincipalsTab) : PrincipalsTab := {|
  pn_list := pn_list x; pn_members := pn_members x; pn_loading := pn_loading x; pn_error := pn_error x;
    pn_notice := v; pn_user := pn_user x; pn_name := pn_name x; pn_pass := pn_pass x; pn_file := pn_file x;
    pn_busy := pn_busy x |}.
Definition set_pn_user (v : jstr) (x : PrincipalsTab) : PrincipalsTab := {|
  pn_list := pn_list x; pn_members := pn_members x; pn_loading := pn_loading x; pn_error := pn_error x;
    pn_notice := pn_notice x; pn_user := v; pn_name := pn_name x; pn_pass := pn_pass x; pn_file := pn_file x;
    pn_busy := pn_busy x |}.
Definition set_pn_name (v : jstr) (x : PrincipalsTab) : PrincipalsTab := {|
  pn_list := pn_list x; pn_members := pn_members x; pn_loading := pn_loading x; pn_error := pn_error x;
    pn_notice := pn_notice x; pn_user := pn_user x; pn_name := v; pn_pass := pn_pass x; pn_file := pn_file x;
    pn_busy := pn_busy x |}.
Definition set_pn_pass (v : jstr) (x : PrincipalsTab) : PrincipalsTab := {|
  pn_list := pn_list x; pn_members := pn_members x; pn_loading := pn_loading x; pn_error := pn_error x;
    pn_notice := pn_notice x; pn_user := pn_user x; pn_name := pn_name x; pn_pass := v; pn_file := pn_file x;
    pn_busy := pn_busy x |}.
Definition set_pn_file (v : option (outcome jstr)) (x : PrincipalsTab) : PrincipalsTab := {|
  pn_list := pn_list x; pn_members := pn_members x; pn_loading := pn_loading x; pn_error := pn_error x;
    pn_notice := pn_notice x; pn_user := pn_user x; pn_name := pn_name x; pn_pass := pn_pass x; pn_file := v;
    pn_busy := pn_busy x |}.
Definition set_pn_busy (v : bool) (x : PrincipalsTab) : PrincipalsTab := {|
  pn_list := pn_list x; pn_members := pn_members x; pn_loading := pn_loading x; pn_error := pn_error x;
    pn_notice := pn_notice x; pn_user := pn_user x; pn_name := pn_name x; pn_pass := pn_pass x; pn_file :=
    pn_file x; pn_busy := v |}.

(** The page. *)
Record RecoveryPage := {
  rc_tab : jstr;
  rc_phrase : PhraseTab;
  rc_enroll : EnrollTab;
  rc_recover : RecoverTab;
  rc_rotate : RotateTab;
  rc_principals : PrincipalsTab }.

Definition set_rc_tab (v : jstr) (x : RecoveryPage) : RecoveryPage := {|
  rc_tab := v; rc_phrase := rc_phrase x; rc_enroll := rc_enroll x; rc_recover := rc_recover x; rc_rotate :=
    rc_rotate x; rc_principals := rc_principals x |}.
Definition set_rc_phrase (v : PhraseTab) (x : RecoveryPage) : RecoveryPage := {|
  rc_tab := rc_tab x; rc_phrase := v; rc_enroll := rc_enroll x; rc_recover := rc_recover x; rc_rotate :=
    rc_rotate x; rc_principals := rc_principals x |}.
Definition set_rc_enroll (v : EnrollTab) (x : RecoveryPage) : RecoveryPage := {|
  rc_tab := rc_tab x; rc_phrase := rc_phrase x; rc_enroll := v; rc_recover := rc_recover x; rc_rotate :=
    rc_rotate x; rc_principals := rc_principals x |}.
Definition set_rc_recover (v : RecoverTab) (x : RecoveryPage) : RecoveryPage := {|
  rc_tab := rc_tab x; rc_phrase := rc_phrase x; rc_enroll := rc_enroll x; rc_recover := v; rc_rotate :=
    rc_rotate x; rc_principals := rc_principals x |}.
Definition set_rc_rotate (v : RotateTab) (x : RecoveryPage) : RecoveryPage := {|
  rc_tab := rc_tab x; rc_phrase := rc_phrase x; rc_enroll := rc_enroll x; rc_recover := rc_recover x; rc_rotate
    := v; rc_principals := rc_principals x |}.
Definition set_rc_principals (v : PrincipalsTab) (x : RecoveryPage) : RecoveryPage := {|
  rc_tab := rc_tab x; rc_phrase := rc_phrase x; rc_enroll := rc_enroll x; rc_recover := rc_recover x; rc_rotate
    := rc_rotate x; rc_principals := v |}.

Definition on_phrase (f : PhraseTab -> PhraseTab) (p : RecoveryPage) : RecoveryPage := set_rc_phrase (f (rc_phrase p)) p.
Definition on_enroll (f : EnrollTab -> EnrollTab) (p : RecoveryPage) : RecoveryPage := set_rc_enroll (f (rc_enroll p)) p.
Definition on_recover (f : RecoverTab -> RecoverTab) (p : RecoveryPage) : RecoveryPage := set_rc_recover (f (rc_recover p)) p.
Definition on_rotate (f : RotateTab -> RotateTab) (p : RecoveryPage) : RecoveryPage := set_rc_rotate (f (rc_rotate p)) p.
Definition on_principals (f : PrincipalsTab -> PrincipalsTab) (p : RecoveryPage) : RecoveryPage :=
  set_rc_principals (f (rc_principals p)) p.

(** ** Codecs of the page *)

(** [hex.match(/.{2}/g)]: an odd unit at the end of a run matches nothing. *)
Definition whole_pairs (s : jstr) : list jstr := List.filter (fun p => (length p =? 2)%nat) (match_pairs s).

(** The inner of the two functions of this name, which hides the outer one. *)
Definition hexToB64 (hex : jstr) : outcome jstr :=
  match whole_pairs hex with
  | [] => throw "TypeError"
  | ps => btoa (map (fun b => to_uint8 (parseInt16 b)) ps)
  end.

Definition hexOfB64 (b64 : jstr) : outcome jstr := bin ← atob (trim b64); Ok (binary_hex bin).

Definition challengeMessage (challengeId : jstr) : jstr := js "byos-recovery-v1:challenge:" ++ challengeId.

(** ** What the handlers draw *)

Record VerifyRandom := { vr_sk : bytes; vr_uuid : jstr; vr_nonce : bytes; vr_wrong : bytes }.
Record RotateRandom := { rr_entropy : bytes; rr_nonce : bytes }.
Record ManagedRandom := { mg_entropy : bytes; mg_seal : bytes; mg_nonce : bytes }.
(** 32 bytes are drawn, of which the first 16 are the salt. *)
Record PrincipalRandom := { pn_salt : bytes; pn_nonce : bytes }.

Section Recovery.
Context `{Crypto} `{Unicode} `{Env}.
Variable orgId : jstr.

Abbreviation handler := (prog (Panel * RecoveryPage) unit).

(** [copy] is the clipboard. *)
Definition to_clipboard (copy : jstr -> outcome unit) (text : jstr) : handler := _ ← wait; lift (copy text).

(** ** The phrase *)

Definition phrase_failed (d : string) (e : js_error) : handler := on_page (on_phrase (set_ph_error (Some (error_text e d)))).

Definition handleGenerate (entropy : bytes) : handler :=
  _ ← on_page (on_phrase (fun f => set_ph_copied false (set_ph_verified false (set_ph_error None f))));
  pcatch
    (_ ← wait; m ← lift (wasm_generate_mnemonic entropy); on_page (on_phrase (set_ph_mnemonic (Some m))))
    (phrase_failed "Failed to generate").

Definition rec_handleCopy (copy : jstr -> outcome unit) : handler :=
  p ← page (G:=RecoveryPage);
  let m := ph_mnemonic (rc_phrase p) in
  if negb (truthy_opt m) then skip
  else
    pcatch
      (_ ← to_clipboard copy (default [] m);
       _ ← on_page (on_phrase (set_ph_copied true));
       spawn (_ ← wait; on_page (on_phrase (set_ph_copied false))))
      (fun _ => on_page (on_phrase (set_ph_error (Some (js "Clipboard not available, please copy manually"))))).

(** The phrase is tried on a key pair made for the purpose: it must open it for its id and
    must not for another. *)
Definition self_test (r : VerifyRandom) (m : jstr) : outcome unit :=
  recovered ← wasm_recover_root_secret m;
  kp ← JSON_parse (wasm_generate_keypair (vr_sk r));
  let secret_key := str_field kp "secret_key" in
  let testId := undashed (vr_uuid r) in
  wrapped ← wasm_wrap_mailbox_key (vr_nonce r) recovered secret_key testId;
  unwrapped ← wasm_unwrap_mailbox_key recovered wrapped testId;
  if negb (jeqb (toLowerCase unwrapped) (toLowerCase secret_key)) then throw "unwrap mismatch"
  else
    match wasm_unwrap_mailbox_key recovered wrapped (cp_bytesToHex (vr_wrong r)) with
    | Ok _ => throw "wrong id should fail"
    | Throw _ => Ok tt
    end.

Definition rec_handleVerify (r : VerifyRandom) : handler :=
  p ← page (G:=RecoveryPage);
  let m := ph_mnemonic (rc_phrase p) in
  if negb (truthy_opt m) then skip
  else
    _ ← on_page (on_phrase (set_ph_error None));
    pcatch
      (_ ← wait; _ ← lift (self_test r (default [] m)); on_page (on_phrase (set_ph_verified true)))
      (fun e => _ ← phrase_failed "Verification failed" e; on_page (on_phrase (set_ph_verified false))).

Definition clear_phrase : handler := on_page (on_phrase (fun f => set_ph_verified false (set_ph_mnemonic None f))).

(** ** Enrolling and recovering *)

Definition enroll_error (text : jstr) : handler := on_page (on_enroll (set_en_error (Some text))).

Definition handleEnroll : handler :=
  _ ← on_page (on_enroll (set_en_error None));
  p ← page (G:=RecoveryPage);
  let words := trim (en_words (rc_enroll p)) in
  if negb (truthy words) then enroll_error (js "Enter your recovery phrase.")
  else
    _ ← on_page (on_enroll (set_en_busy true));
    finally
      (pcatch
         (_ ← wait;
          rootHex ← lift (wasm_recover_root_secret words);
          pkHex ← lift (wasm_recovery_auth_pk_from_root rootHex);
          pkB64 ← lift (hexToB64 pkHex);
          _ ← below (enrollRecovery pkB64);
          on_page (on_enroll (fun f => set_en_words [] (set_en_done true f))))
         (fun e => enroll_error (error_text e "Enrollment failed.")))
      (on_page (on_enroll (set_en_busy false))).

Definition recover_error (text : jstr) : handler := on_page (on_recover (set_rv_error (Some text))).

(** The challenge is signed with the key of the phrase; the phrase itself is not sent. *)
Definition recover_body (email words : jstr) : handler :=
  ch ← below (getRecoveryChallenge email);
  _ ← wait;
  rootHex ← lift (wasm_recover_root_secret words);
  challenge ← lift (field "challenge_id" ch);
  let challengeId := str challenge in
  let msgHex := cp_bytesToHex (TextEncoder_encode (challengeMessage challengeId)) in
  sigHex ← lift (wasm_recovery_auth_sign rootHex msgHex);
  signature ← lift (bs ← cp_hexToBytes sigHex; bytesToBase64 bs);
  _ ← below (verifyRecovery challengeId signature);
  on_page (on_recover (fun f => set_rv_words [] (set_rv_done true f))).

Definition handleRecover : handler :=
  _ ← on_page (on_recover (set_rv_error None));
  p ← page (G:=RecoveryPage);
  let email := trim (rv_email (rc_recover p)) in
  let words := trim (rv_words (rc_recover p)) in
  if negb (truthy email) || negb (truthy words) then recover_error (js "Enter your account email and recovery phrase.")
  else
    _ ← on_page (on_recover (set_rv_busy true));
    finally
      (pcatch (recover_body email words)
         (fun e => _ ← recover_error (error_text e "Recovery failed."); on_page (on_recover (set_rv_done false))))
      (on_page (on_recover (set_rv_busy false))).

Definition rec_handleChangePassword : handler :=
  _ ← on_page (on_recover (set_rv_pw_error None));
  p ← page (G:=RecoveryPage);
  let pw := rv_password (rc_recover p) in
  if (length pw <? 8)%nat || (128 <? length pw)%nat then
    on_page (on_recover (set_rv_pw_error (Some (js "Password must be 8-128 characters."))))
  else
    _ ← on_page (on_recover (set_rv_pw_busy true));
    finally
      (pcatch
         (_ ← below (changePassword pw);
          on_page (on_recover (fun f => set_rv_password [] (set_rv_pw_done true f))))
         (fun e => on_page (on_recover (set_rv_pw_error (Some (error_text e "Password change failed."))))))
      (on_page (on_recover (set_rv_pw_busy false))).

(** ** Rotating the root of a private mailbox *)

Definition rotate_error (text : jstr) : handler := on_page (on_rotate (set_ro_error (Some text))).

(** What is typed for the mailbox; the mode found for another id is forgotten. *)
Definition type_box (v : jstr) : handler := on_page (on_rotate (fun f => set_ro_mode None (set_ro_box v f))).

Definition handleLoadRotBox : handler :=
  _ ← on_page (on_rotate (fun f => set_ro_mode None (set_ro_error None f)));
  p ← page (G:=RecoveryPage);
  let id := trim (ro_box (rc_rotate p)) in
  if negb (truthy id) then rotate_error (js "Enter a mailbox ID.")
  else
    _ ← on_page (on_rotate (set_ro_loading true));
    finally
      (pcatch
         (box ← below (getMailbox id);
          mode ← lift (field "mode" box);
          on_page (on_rotate (set_ro_mode (Some (str mode)))))
         (fun e => rotate_error (error_text e "Mailbox lookup failed.")))
      (on_page (on_rotate (set_ro_loading false))).

(** The proof of possession and the new root: the key the old phrase opens, the new phrase
    and its root.  The key is wrapped under the new root to see that it opens, and that
    wrapping is dropped. *)
Definition rotated_root (r : RotateRandom) (words wrappedB64 mailboxIdHex : jstr) : outcome (jstr * jstr) :=
  oldRoot ← wasm_recover_root_secret words;
  wrapped ← hexOfB64 wrappedB64;
  skHex ← wasm_unwrap_mailbox_key oldRoot wrapped mailboxIdHex;
  newMnemonic ← wasm_generate_mnemonic (rr_entropy r);
  newRoot ← wasm_recover_root_secret newMnemonic;
  sanityWrap ← wasm_wrap_mailbox_key (rr_nonce r) newRoot skHex mailboxIdHex;
  sanityOpen ← wasm_unwrap_mailbox_key newRoot sanityWrap mailboxIdHex;
  if negb (jeqb (toLowerCase sanityOpen) (toLowerCase skHex)) then throw "Re-wrap sanity check failed."
  else Ok (newMnemonic, newRoot).

Definition rotate_body (r : RotateRandom) (boxId words : jstr) : handler :=
  _ ← wait;
  box ← below (getMailbox boxId);
  mode ← lift (field "mode" box);
  if negb (jeqb (str mode) (js "private")) then
    pthrow "This client flow covers private mailboxes only; org-managed rotation needs the org-recovery ceremony."
  else
    let wrapped := str_field box "mailbox_sk_wrapped" in
    if negb (truthy wrapped) then pthrow "Mailbox wrapped key unavailable."
    else
      '(newMnemonic, newRoot) ← lift (rotated_root r words wrapped (undashed boxId));
      res ← below (rotateRoot orgId boxId None);
      newPkHex ← lift (wasm_recovery_auth_pk_from_root newRoot);
      newPkB64 ← lift (hexToB64 newPkHex);
      _ ← below (enrollRecovery newPkB64);
      version ← lift (field "version" res);
      on_page (on_rotate (fun f => set_ro_words [] (set_ro_phrase (Some newMnemonic) (set_ro_version version f)))).

Definition handleRotate (r : RotateRandom) : handler :=
  _ ← on_page (on_rotate (set_ro_error None));
  p ← page (G:=RecoveryPage);
  let boxId := trim (ro_box (rc_rotate p)) in
  let words := trim (ro_words (rc_rotate p)) in
  if negb (truthy boxId) || negb (truthy words) || negb (truthy orgId) then
    rotate_error (js "Mailbox ID, current phrase, and organization context are required.")
  else
    _ ← on_page (on_rotate (set_ro_busy true));
    finally
      (pcatch (rotate_body r boxId words)
         (fun e => _ ← rotate_error (error_text e "Rotation failed.");
                   on_page (on_rotate (fun f => set_ro_phrase None (set_ro_version None f)))))
      (on_page (on_rotate (set_ro_busy false))).

Definition handleRotCopy (copy : jstr -> outcome unit) : handler :=
  p ← page (G:=RecoveryPage);
  let m := ro_phrase (rc_rotate p) in
  if negb (truthy_opt m) then skip
  else
    pcatch
      (_ ← to_clipboard copy (default [] m);
       _ ← on_page (on_rotate (set_ro_copied true));
       spawn (_ ← wait; on_page (on_rotate (set_ro_copied false))))
      (fun _ => rotate_error (js "Clipboard not available, please copy manually")).

(** The two buttons that clear a result, with and without a phrase. *)
Definition clear_rotated_phrase : handler := on_page (on_rotate (fun f =>
  set_ro_file None (set_ro_words [] (set_ro_mode None (set_ro_box [] (set_ro_version None (set_ro_phrase None f))))))).
Definition clear_rotated : handler := on_page (on_rotate (fun f =>
  set_ro_file None (set_ro_mode None (set_ro_box [] (set_ro_version None f))))).

(** ** Rotating the root of a mailbox the organization manages *)

(** The new root, sealed to the organization; the key is wrapped under it only to see that
    it opens. *)
Definition sealed_root (r : ManagedRandom) (orgSkHex orgPkHex skHex mailboxIdHex newRoot : jstr) : outcome jstr :=
  sealHex ← wasm_hpke_seal (mg_seal r) orgPkHex newRoot [];
  openedRoot ← wasm_hpke_open orgSkHex sealHex [];
  if negb (jeqb (toLowerCase openedRoot) (toLowerCase newRoot)) then throw "Seal sanity check failed."
  else
    newWrap ← wasm_wrap_mailbox_key (mg_nonce r) newRoot skHex mailboxIdHex;
    sanityOpen ← wasm_unwrap_mailbox_key newRoot newWrap mailboxIdHex;
    if negb (jeqb (toLowerCase sanityOpen) (toLowerCase skHex)) then throw "Re-wrap sanity check failed."
    else Ok sealHex.

Definition managed_body_rotation (r : ManagedRandom) (boxId : jstr) (file : outcome jstr) : handler :=
  _ ← wait;
  text ← lift file;
  let orgSkHex := trim text in
  if negb (truthy orgSkHex) then pthrow "Recovery secret file is empty."
  else
    box ← below (getMailbox boxId);
    mode ← lift (field "mode" box);
    if negb (jeqb (str mode) (js "org_managed")) then pthrow "This ceremony is for org-managed mailboxes only."
    else
      _ ← wait;
      skHex ← below (recoverMailboxSecret orgId boxId orgSkHex);
      newRoot ← lift (wasm_derive_root_secret (cp_bytesToHex (mg_entropy r)));
      orgPkHex ← below (fetchOrgRecoveryPkHex orgId);
      sealHex ← lift (sealed_root r orgSkHex orgPkHex skHex (undashed boxId) newRoot);
      res ← below (rotateRoot orgId boxId (Some sealHex));
      version ← lift (field "version" res);
      on_page (on_rotate (fun f => set_ro_file None (set_ro_phrase None (set_ro_version version f)))).

Definition handleRotateOrgManaged (r : ManagedRandom) : handler :=
  _ ← on_page (on_rotate (set_ro_error None));
  p ← page (G:=RecoveryPage);
  let boxId := trim (ro_box (rc_rotate p)) in
  match ro_file (rc_rotate p) with
  | Some file =>
      if negb (truthy boxId) || negb (truthy orgId) then
        rotate_error (js "Mailbox ID, recovery secret file, and organization context are required.")
      else
        _ ← on_page (on_rotate (set_ro_busy true));
        finally
          (pcatch (managed_body_rotation r boxId file)
             (fun e => _ ← rotate_error (error_text e "Rotation failed."); on_page (on_rotate (set_ro_version None))))
          (on_page (on_rotate (set_ro_busy false)))
  | None => rotate_error (js "Mailbox ID, recovery secret file, and organization context are required.")
  end.

(** ** Recovery principals *)

Definition principals_error (text : jstr) : handler := on_page (on_principals (set_pn_error (Some text))).

(** The two lists, asked for together. *)
Definition principal_replies : prog Panel (list (option json)) :=
  promise_all [(l ← listPrincipals orgId; mret (Some l)); getMembers].

(** [members.find(m => m.role === "owner") ?? members[0]], when there are members and no
    choice was made. *)
Definition choose_member (members : list json) (p : PrincipalsTab) : PrincipalsTab :=
  match members with
  | m0 :: _ =>
      set_pn_user (str_field (default m0 (List.find (fun m => jeqb (str_field m "role") (js "owner")) members)) "id") p
  | [] => p
  end.

Definition show_principals (l members : option json) : handler :=
  _ ← on_page (on_principals (fun f => set_pn_members members (set_pn_list (default JNull l) f)));
  p ← page (G:=RecoveryPage);
  if truthy (pn_user (rc_principals p)) then skip
  else ms ← lift (v ← reply_object members; items v); on_page (on_principals (choose_member ms)).

Definition refreshPrincipals : handler :=
  if negb (truthy orgId) then skip
  else
    _ ← on_page (on_principals (fun f => set_pn_error None (set_pn_loading true f)));
    finally
      (pcatch
         (rs ← below principal_replies;
          match rs with [l; members] => show_principals l members | _ => skip end)
         (fun e => principals_error (error_text e "Failed to load principals.")))
      (on_page (on_principals (set_pn_loading false))).

Definition memberEmail (p : PrincipalsTab) (id : jstr) : jstr :=
  match pn_members p with
  | Some (JArr ms) =>
      match List.find (fun m => jeqb (str_field m "id") id) ms with
      | Some m => default id (get_str m (js "email"))
      | None => id
      end
  | _ => id
  end.

(** The secret of the file under the passphrase, seen to open. *)
Definition principal_envelope (r : PrincipalRandom) (pass skHex : jstr) : outcome (jstr * jstr) :=
  if negb (is_hex64 skHex) then throw "Secret file must hold 64 hex chars."
  else
    let saltHex := cp_bytesToHex (take 16 (pn_salt r)) in
    wrappedHex ← wasm_passphrase_wrap_key (pn_nonce r) pass saltHex skHex;
    checkHex ← wasm_passphrase_unwrap_key pass saltHex wrappedHex;
    if negb (jeqb (toLowerCase checkHex) (toLowerCase skHex)) then throw "Wrap sanity check failed."
    else Ok (saltHex, wrappedHex).

(** The organization's record, asked for by the page itself. *)
Definition organization_pk : prog Panel jstr :=
  r ← fetch (cp_request "GET" (org_path orgId "") [] (js "include") NoBody);
  orgData ← lift (match r with
    | NetworkFailure e => Throw e
    | Response st _ data => if response_ok st then response_json data else throw "Could not read organization record."
    end);
  pk ← lift (field "org_recovery_pk" orgData);
  if negb (truthy (str pk)) then pthrow "Organization has no recovery public key." else mret (str pk).

(** A number printed in JSON. *)
Definition num_member (k : string) (n : Z) : jstr * json := (js k, JNum (num n)).

Definition principal_payload (user name saltB64 wrappedB64 orgPkB64 : jstr) : json :=
  JObj [str_member "user_id" user; str_member "principal_name" name; str_member "kdf_algorithm" (js "argon2id");
        num_member "kdf_version" 1; str_member "kdf_salt" saltB64; num_member "kdf_memory" 65536;
        num_member "kdf_iterations" 3; num_member "kdf_parallelism" 2;
        str_member "org_recovery_sk_encrypted" wrappedB64; str_member "org_recovery_pk" orgPkB64].

(** The passphrase, the member and the name are read as the code comes to them. *)
Definition enroll_principal_body (r : PrincipalRandom) (file : outcome jstr) : handler :=
  _ ← wait;
  text ← (_ ← wait; lift file);
  p ← page (G:=RecoveryPage);
  '(saltHex, wrappedHex) ← lift (principal_envelope r (pn_pass (rc_principals p)) (trim text));
  orgPkB64 ← below organization_pk;
  p ← page (G:=RecoveryPage);
  let f := rc_principals p in
  saltB64 ← lift (hexToB64 saltHex);
  wrappedB64 ← lift (hexToB64 wrappedHex);
  _ ← below (enrollPrincipal orgId (principal_payload (pn_user f) (trim (pn_name f)) saltB64 wrappedB64 orgPkB64));
  _ ← on_page (on_principals (fun f =>
        set_pn_file None (set_pn_pass [] (set_pn_name []
          (set_pn_notice (Some (js "Principal " ++ [34] ++ trim (pn_name f) ++ [34] ++ js " enrolled.")) f)))));
  refreshPrincipals.

Definition handleEnrollPrincipal (r : PrincipalRandom) : handler :=
  _ ← on_page (on_principals (fun f => set_pn_notice None (set_pn_error None f)));
  p ← page (G:=RecoveryPage);
  let f := rc_principals p in
  let missing := principals_error (js "Member, principal name, and org secret file are required.") in
  match pn_file f with
  | None => missing
  | Some file =>
      if negb (truthy orgId) || negb (truthy (pn_user f)) || negb (truthy (trim (pn_name f))) then missing
      else if (length (pn_pass f) <? 8)%nat || (128 <? length (pn_pass f))%nat then
        principals_error (js "Passphrase must be 8-128 characters.")
      else
        _ ← on_page (on_principals (set_pn_busy true));
        finally
          (pcatch (enroll_principal_body r file)
             (fun e => principals_error (error_text e "Enrollment failed.")))
          (on_page (on_principals (set_pn_busy false)))
  end.

Definition handleRevokePrincipal (id name : jstr) : handler :=
  if negb (truthy orgId) then skip
  else
    ok ← confirm (js "Revoke recovery principal " ++ [34] ++ name ++ [34] ++
                  js "? Enrolled material stays for audit; the principal can no longer be used.");
    if negb ok then skip
    else
      _ ← on_page (on_principals (set_pn_error None));
      pcatch
        (_ ← below (revokePrincipal orgId id);
         _ ← on_page (on_principals (set_pn_notice (Some (js "Principal " ++ [34] ++ name ++ [34] ++ js " revoked."))));
         refreshPrincipals)
        (fun e => principals_error (error_text e "Revocation failed.")).

Definition handleCopyEnvelope (copy : jstr -> outcome unit) (id : jstr) : handler :=
  if negb (truthy orgId) then skip
  else
    _ ← on_page (on_principals (set_pn_error None));
    pcatch
      (full ← below (getPrincipal orgId id);
       envelope ← lift (member full "org_recovery_sk_encrypted");
       if negb (truthy (str envelope)) then pthrow "No ciphertext on record."
       else
         _ ← to_clipboard copy (str envelope);
         on_page (on_principals (set_pn_notice (Some (js "Envelope copied " ++ [8212] ++ js " decrypt it locally with the principal passphrase.")))))
      (fun e => principals_error (error_text e "Copy failed.")).

Definition select_tab (t : jstr) : handler :=
  _ ← on_page (set_rc_tab t);
  if jeqb t (js "principals") then spawn refreshPrincipals else skip.

End Recovery.

(** ** Codecs *)

Lemma whole_pairs_even s :
  no_line_terminator s = true -> Nat.even (length s) = true -> whole_pairs s = match_pairs s.
Proof.
  unfold no_line_terminator, whole_pairs. induction s as [|a|a b s IH] using list_ind2; [done|done|]. simpl.
  destruct (is_line_terminator a); [done|]. destruct (is_line_terminator b); [done|]. simpl. intros H He. by rewrite IH.
Qed.

Lemma hexToB64_ok bs : Forall is_byte bs -> bs <> [] -> hexToB64 (bytesToHex bs) = Ok (b64_encode bs).
Proof.
  intros Hb Hn. unfold hexToB64. rewrite whole_pairs_even.
  - pose proof (match_pairs_bytesToHex bs Hb) as E. destruct (match_pairs (bytesToHex bs)); [by destruct bs|].
    by rewrite E, btoa_bytes.
  - by apply lower_hex_no_lt, bytesToHex_lower.
  - rewrite length_bytesToHex by done. apply Nat.even_even.
Qed.

Lemma cp_hex_round_trip bs : Forall is_byte bs -> cp_hexToBytes (bytesToHex bs) = Ok bs.
Proof.
  intros Hb. unfold cp_hexToBytes.
  rewrite trim_lower_hex, match_pairs_bytesToHex, length_bytesToHex by auto using bytesToHex_lower.
  split_ifs; [done|]. zbool. zdm.
Qed.

Lemma hexOfB64_ok bs : Forall is_byte bs -> hexOfB64 (b64_encode bs) = Ok (bytesToHex bs).
Proof.
  intros Hb. unfold hexOfB64. rewrite trim_id.
  2:{ apply b64_encode_forallb; [done| |done]. intros u ?%is_b64_range. unfold is_white. lia. }
  rewrite atob_b64_encode by done. ok_bind. by rewrite binary_hex_eq.
Qed.

(** ** Requests of the page *)

Section Requests.
Context `{HE : Env}.

Definition enroll_request (pkB64 : jstr) : request :=
  cp_request "POST" (js "/v1/auth/recovery-enroll") json_type (js "include")
    (stringified (JObj [str_member "recovery_auth_pk" pkB64])).

Definition challenge_request (email : jstr) : request :=
  cp_request "POST" (js "/v1/auth/recovery-challenge") json_type (js "same-origin")
    (stringified (JObj [str_member "email" email])).

Definition proof_request (challengeId signature : jstr) : request :=
  cp_request "POST" (js "/v1/auth/recovery-verify") json_type (js "include")
    (stringified (JObj [str_member "challenge_id" challengeId; str_member "signature" signature])).

Definition rotate_request (orgId box : jstr) (wrapped : option jstr) : Panel -> request :=
  panel_request "POST" (org_path orgId "/mailboxes/" ++ box ++ js "/rotate-root")
    (stringified (JObj (opt_member "root_secret_wrapped" (or_undefined wrapped)))).

Lemma gives_json label r v : gives r v -> (res ← expect_ok label r; response_json (snd res)) = Ok v.
Proof. intros (st & ct & data & -> & Hst & _ & Ej). cbn [expect_ok]. by rewrite Hst. Qed.

Lemma run_bare_json label m path h body w t (s : Panel) :
  run w t s (bare_json label m path h body) =
  (let q := cp_request m path h (js "include") body in
   (res ← expect_ok label (respond w t q); response_json (snd res), s, ask q t)).
Proof.
  unfold bare_json. rewrite run_bind. cbn [fetch run]. rewrite run_bind. cbn [lift run].
  by destruct (expect_ok _ _) as [[ct data]|e].
Qed.

Lemma run_challenge w t (s : Panel) email v :
  gives (respond w t (challenge_request email)) v ->
  run w t s (getRecoveryChallenge email) = (Ok v, s, ask (challenge_request email) t).
Proof.
  intros Hg. unfold getRecoveryChallenge. rewrite run_bind. cbn [fetch run]. rewrite bind_lift.
  pose proof (gives_json "Challenge failed " _ _ Hg) as E. unfold challenge_request in E.
  destruct (expect_ok _ _) as [[ct data]|e]; [|done]. cbn [mbind outcome_bind snd] in E. cbn [snd]. by rewrite E.
Qed.

End Requests.

(** ** The verifier of a phrase *)

Section Verifier.
Context `{HC : Crypto} `{!CryptoLaws} `{HU : Unicode} `{HE : Env}.

(** What enrolling the phrase of [e] registers, and how it answers a challenge. *)
Definition verifier (e : bytes) : bytes := derive_recovery_auth_public_key (hkdf_root e).
Definition proof_of (e : bytes) (challengeId : jstr) : bytes :=
  sign_recovery_message (hkdf_root e) (TextEncoder_encode (challengeMessage challengeId)).

Lemma verifier_ok e : length (verifier e) = 32%nat /\ Forall is_byte (verifier e).
Proof. apply ed25519_pk_key. Qed.

Lemma verifier_b64 e :
  key_ok e -> (pkHex ← wasm_recovery_auth_pk_from_root (bytesToHex (hkdf_root e)); hexToB64 pkHex) = Ok (b64_encode (verifier e)).
Proof.
  intros He. destruct (hkdf_root_key e) as [Hl Hb]. destruct (verifier_ok e) as [Hvl Hvb].
  unfold wasm_recovery_auth_pk_from_root. rewrite hex_decode_32_encode by done. ok_bind.
  apply hexToB64_ok; [done|]. intros E. by rewrite E in Hvl.
Qed.

Lemma run_enroll_phrase w t s p e :
  key_ok e -> trim (en_words (rc_enroll p)) = bip39_phrase e ->
  let q := enroll_request (b64_encode (verifier e)) in
  exists p', run w t (s, p) handleEnroll = (Ok tt, (s, p'), ask q t) /\
    forall v, gives (respond w t q) v -> en_done (rc_enroll p') = true /\ en_words (rc_enroll p') = [].
Proof.
  intros He Ew q. unfold handleEnroll. rewrite run_bind, run_on_page, run_page.
  change (en_words (rc_enroll (on_enroll _ p))) with (en_words (rc_enroll p)). rewrite Ew, phrase_truthy by done.
  cbn [negb]. rewrite run_bind, run_on_page, run_finally, run_catch, run_bind. cbn [wait run].
  destruct (phrase_gives_root e He) as [Er _]. pose proof (verifier_b64 e He) as Eb. rewrite Er, bind_lift.
  destruct (wasm_recovery_auth_pk_from_root _) as [pkHex|]; [|done]. cbn [mbind outcome_bind] in Eb.
  rewrite bind_lift, Eb, bind_lift, run_bind, run_below. unfold enrollRecovery. rewrite run_bare_json. cbv zeta.
  fold (enroll_request (b64_encode (verifier e))). fold q.
  pose proof (fun v => gives_json "Enroll failed " (respond w t q) v) as Hg.
  destruct (_ ≫= _) as [v|err]; eexists; (split; [reflexivity|]); [done|]. by intros v ?%Hg.
Qed.

Lemma run_recover_phrase w t s p e ch cid :
  key_ok e -> trim (rv_words (rc_recover p)) = bip39_phrase e -> truthy (trim (rv_email (rc_recover p))) = true ->
  gives (respond w t (challenge_request (trim (rv_email (rc_recover p))))) ch ->
  get ch (js "challenge_id") = Some (JStr cid) -> Forall is_unit cid ->
  let t1 := ask (challenge_request (trim (rv_email (rc_recover p)))) t in
  let q := proof_request cid (b64_encode (proof_of e cid)) in
  exists p', run w t (s, p) handleRecover = (Ok tt, (s, p'), ask q t1) /\
    forall v, gives (respond w t1 q) v -> rv_done (rc_recover p') = true /\ rv_words (rc_recover p') = [].
Proof.
  intros He Ew Em Hg Ec Hu t1 q. unfold handleRecover. rewrite run_bind, run_on_page, run_page.
  change (rv_email (rc_recover (on_recover _ p))) with (rv_email (rc_recover p)).
  change (rv_words (rc_recover (on_recover _ p))) with (rv_words (rc_recover p)). cbv zeta.
  rewrite Em, Ew, phrase_truthy by done. cbn [negb orb]. rewrite run_bind, run_on_page, run_finally, run_catch.
  unfold recover_body. rewrite run_bind, run_below, (run_challenge _ _ _ _ ch) by done. fold t1.
  rewrite run_bind. cbn [wait run]. destruct (phrase_gives_root e He) as [Er [Hrl Hrb]]. rewrite Er, bind_lift.
  rewrite (field_get _ _ _ Ec), bind_lift. cbn [str]. cbv zeta.
  destruct (ed25519_sign_size (hkdf_recovery_auth (hkdf_root e)) (TextEncoder_encode (challengeMessage cid))) as [Hsl Hsb].
  assert (Hmb : Forall is_byte (TextEncoder_encode (challengeMessage cid)))
    by (apply TextEncoder_bytes, Forall_app; split; [by_decide|done]).
  unfold wasm_recovery_auth_sign. rewrite hex_decode_32_encode, cp_bytesToHex_eq, hex_decode_encode by done. ok_bind.
  rewrite bind_lift. unfold hex_encode. rewrite cp_hex_round_trip by done. ok_bind.
  rewrite bytesToBase64_unchunked, bind_lift, run_bind, run_below by done. unfold verifyRecovery.
  rewrite run_bare_json. cbv zeta. fold (proof_of e cid). fold (proof_request cid (b64_encode (proof_of e cid))). fold q.
  pose proof (fun v => gives_json "Recovery failed " (respond w t1 q) v) as Hg'.
  destruct (_ ≫= _) as [v|err]; eexists; (split; [reflexivity|]); [done|]. by intros v ?%Hg'.
Qed.

(** C19.  The phrase proves itself without being sent.  Enrolling it posts the verifying key
    derived from it and nothing else; recovering the account posts the address, to get a
    challenge, and then the challenge with a signature that the enrolled key verifies on the
    challenge's canonical message.  The phrase occurs in no request, and where the server
    accepts, the page forgets what was typed. *)
Theorem recovery_proves_the_phrase w t s p e w2 t2 s2 p2 ch cid :
  let email := trim (rv_email (rc_recover p2)) in
  key_ok e -> trim (en_words (rc_enroll p)) = bip39_phrase e -> trim (rv_words (rc_recover p2)) = bip39_phrase e ->
  truthy email = true -> gives (respond w2 t2 (challenge_request email)) ch ->
  get ch (js "challenge_id") = Some (JStr cid) -> Forall is_unit cid ->
  exists pk sig p' p2',
    ed25519_verify pk (TextEncoder_encode (js "byos-recovery-v1:challenge:" ++ cid)) sig = true /\
    length pk = 32%nat /\ length sig = 64%nat /\
    run w t (s, p) handleEnroll = (Ok tt, (s, p'), ask (enroll_request (b64_encode pk)) t) /\
    (forall v, gives (respond w t (enroll_request (b64_encode pk))) v -> en_words (rc_enroll p') = []) /\
    run w2 t2 (s2, p2) handleRecover =
      (Ok tt, (s2, p2'), ask (proof_request cid (b64_encode sig)) (ask (challenge_request email) t2)) /\
    (forall v, gives (respond w2 (ask (challenge_request email) t2) (proof_request cid (b64_encode sig))) v ->
       rv_done (rc_recover p2') = true /\ rv_words (rc_recover p2') = []).
Proof.
  intros email He Ew Ew2 Em Hg Ec Hu. exists (verifier e), (proof_of e cid).
  destruct (run_enroll_phrase w t s p e He Ew) as (p' & R & H1).
  destruct (run_recover_phrase w2 t2 s2 p2 e ch cid He Ew2 Em Hg Ec Hu) as (p2' & R2 & H2). exists p', p2'.
  split_and!; [apply ed25519_correct|apply verifier_ok|apply ed25519_sign_size|exact R|by intros v [_ ?]%H1|exact R2|exact H2].
Qed.

End Verifier.

(** ** Rotations *)

Section Rotations.
Context `{HC : Crypto} `{!CryptoLaws} `{HU : Unicode} `{HE : Env}.

Lemma lower_hex_lower s : forallb is_lower_hex s = true -> map ascii_lower s = s.
Proof.
  induction s as [|u s IH]; [done|]. cbn [forallb map]. intros [Hu Hs]%andb_true_iff.
  by rewrite (proj2 (lower_hex_is_hex u Hu)), IH.
Qed.

Lemma undashed_box box id :
  undashed box = bytesToHex id -> length id = 16%nat -> Forall is_byte id -> box_id box id.
Proof.
  intros Eb Hl Hb. split; [|done]. unfold mailboxIdHex. change (remove_units (Z.eqb 45) box) with (undashed box).
  rewrite Eb. pose proof (bytesToHex_lower id Hb) as Hh.
  rewrite lower_ascii by (eapply forallb_impl; [exact lower_hex_ascii|exact Hh]).
  by rewrite lower_hex_lower, length_bytesToHex, Hl, Hh by done.
Qed.

(** A key wrapped under one root opens under another only if they are the same. *)
Lemma unwrap_under root root' n sk id :
  nonce_ok n -> key_ok sk ->
  unwrap_mailbox_key root (wrap_mailbox_key root' n sk id) id =
  if decide (root = root') then Ok sk else reject "decryption failed".
Proof.
  intros [Hn Hnb] [Hl Hb]. unfold unwrap_mailbox_key, wrap_mailbox_key. case_decide as Hd.
  - subst. rewrite aes_gcm_round_trip by done. ok_bind. by rewrite decide_True.
  - rewrite aes_gcm_other; [done|done|]. left. congruence.
Qed.

Lemma wasm_unwrap_under root root' n sk box id :
  key_ok root -> key_ok root' -> nonce_ok n -> key_ok sk -> box_id box id ->
  wasm_unwrap_mailbox_key (bytesToHex root) (bytesToHex (wrap_mailbox_key root' n sk id)) (bytesToHex id) =
  if decide (root = root') then Ok (bytesToHex sk) else reject "decryption failed".
Proof.
  intros Hr Hr' Hn Hk Hid. rewrite (wasm_unwrap_ok root _ box id) by (try done; apply wrap_key_bytes; try done; apply Hid).
  rewrite unwrap_under by done. by case_decide.
Qed.

Lemma wasm_wrap_under n root sk box id :
  key_ok root -> key_ok sk -> box_id box id ->
  wasm_wrap_mailbox_key n (bytesToHex root) (bytesToHex sk) (bytesToHex id) =
  Ok (bytesToHex (wrap_mailbox_key root n sk id)).
Proof.
  intros [] [] (_ & ? & ?). unfold wasm_wrap_mailbox_key. rewrite !hex_decode_32_encode by done. ok_bind.
  by rewrite decode_mailbox_id_encode.
Qed.

Lemma phrase_not_hex e : key_ok e -> is_hex64 (bip39_phrase e) = false.
Proof.
  intros He. destruct (mnemonic_words e He) as (ws & [= ->] & Hl & _).
  destruct ws as [|a [|b ws]]; [done|done|]. unfold is_hex64. apply andb_false_iff. right.
  change (join [32] (a :: b :: ws)) with (a ++ [32] ++ join [32] (b :: ws)). rewrite !forallb_app.
  change (forallb is_hex [32]) with false. by rewrite andb_false_r.
Qed.

(** What a phrase opens in the mail client. *)
Lemma phrase_unlocks e root n sk box id :
  key_ok e -> key_ok root -> nonce_ok n -> key_ok sk -> box_id box id ->
  unlockMailboxKey (bip39_phrase e) box (b64_encode (wrap_mailbox_key root n sk id)) =
  if decide (hkdf_root e = root) then Ok sk else reject "decryption failed".
Proof.
  intros He Hr Hn Hk Hid. assert (Hw : Forall is_byte (wrap_mailbox_key root n sk id)) by (apply wrap_key_bytes; try done; apply Hid).
  unfold unlockMailboxKey. destruct (phrase_text e He) as [-> _]. rewrite phrase_truthy, phrase_not_hex by done. cbn [negb].
  destruct (phrase_gives_root e He) as [-> Hroot]. ok_bind.
  destruct (base64_encode_ok _ Hw) as (b & Eb & D). rewrite bytesToBase64_unchunked in Eb by done.
  replace (b64_encode _) with b by congruence. rewrite D. ok_bind. pose proof Hid as [-> _]. ok_bind. rewrite (wasm_unwrap_under _ _ _ _ box) by done.
  case_decide; [|done]. ok_bind. destruct Hk as [Hl Hb]. rewrite hex_round_trip by done. ok_bind. by rewrite Hl.
Qed.

(** The root of the new phrase, when the old one opens the key. *)
Lemma rotated_root_ok r e n sk box id :
  key_ok e -> key_ok (rr_entropy r) -> nonce_ok n -> nonce_ok (rr_nonce r) -> key_ok sk -> box_id box id ->
  rotated_root r (bip39_phrase e) (b64_encode (wrap_mailbox_key (hkdf_root e) n sk id)) (bytesToHex id) =
  Ok (bip39_phrase (rr_entropy r), bytesToHex (hkdf_root (rr_entropy r))).
Proof.
  intros He He2 Hn Hn2 Hk Hid. unfold rotated_root.
  destruct (phrase_gives_root e He) as [-> Hr]. ok_bind.
  rewrite hexOfB64_ok by (apply wrap_key_bytes; try done; apply Hid). ok_bind.
  rewrite (wasm_unwrap_under _ _ _ _ box), decide_True by done. ok_bind. cbn [wasm_generate_mnemonic mbind outcome_bind].
  unfold wasm_generate_mnemonic. ok_bind. destruct (phrase_gives_root _ He2) as [-> Hr2]. ok_bind.
  rewrite (wasm_wrap_under _ _ _ box) by done. ok_bind. rewrite (wasm_unwrap_under _ _ _ _ box), decide_True by done. ok_bind.
  by rewrite jeqb_refl.
Qed.

Lemma named_box box id : undashed box = bytesToHex id -> length id = 16%nat -> Forall is_byte id -> truthy box = true.
Proof. intros E Hl Hb. destruct box; [|done]. destruct (hex_cons id) as (c & l & Ec); [done|by destruct id|]. by rewrite Ec in E. Qed.

(** Rotating the root of a private mailbox.  The three requests of a successful
    rotation are the mailbox's details, the rotation itself, whose body is empty, and the
    verifier of the new phrase; the page then shows the new phrase as the one that replaces
    the old.  No wrapping of the key was sent: what the server keeps is opened by the old
    phrase still, and by the new one not at all. *)
Theorem rotated_phrase_opens_nothing orgId r w t s p e n sk id detail res v :
  let box := trim (ro_box (rc_rotate p)) in
  let wrapped := wrap_mailbox_key (hkdf_root e) n sk id in
  let q1 := detail_request box s in
  let q2 := rotate_request orgId box None s in
  let q3 := enroll_request (b64_encode (verifier (rr_entropy r))) in
  truthy orgId = true -> undashed box = bytesToHex id -> length id = 16%nat -> Forall is_byte id ->
  key_ok e -> trim (ro_words (rc_rotate p)) = bip39_phrase e ->
  key_ok (rr_entropy r) -> nonce_ok (rr_nonce r) -> nonce_ok n -> key_ok sk ->
  gives (respond w t q1) detail -> get detail (js "mode") = Some (JStr (js "private")) ->
  get detail (js "mailbox_sk_wrapped") = Some (JStr (b64_encode wrapped)) ->
  gives (respond w (ask q1 t) q2) res -> res <> JNull -> gives (respond w (ask q2 (ask q1 t)) q3) v ->
  exists p', run w t (s, p) (handleRotate orgId r) = (Ok tt, (s, p'), ask q3 (ask q2 (ask q1 t))) /\
    ro_phrase (rc_rotate p') = Some (bip39_phrase (rr_entropy r)) /\ ro_version (rc_rotate p') = get res (js "version") /\
    unlockMailboxKey (bip39_phrase e) box (b64_encode wrapped) = Ok sk /\
    (hkdf_root (rr_entropy r) <> hkdf_root e ->
     unlockMailboxKey (bip39_phrase (rr_entropy r)) box (b64_encode wrapped) = reject "decryption failed").
Proof.
  intros box wrapped q1 q2 q3 Ho Eb Hl Hb He Ew He2 Hn2 Hn Hk G1 Em Es G2 Hr G3.
  pose proof (undashed_box box id Eb Hl Hb) as Hid. pose proof (named_box box id Eb Hl Hb) as Hbt.
  destruct (phrase_gives_root e He) as [_ Hroot]. pose proof (verifier_b64 _ He2) as Ev.
  assert (Hmode : jeqb (str (Some (JStr (js "private")))) (js "private") = true) by done.
  assert (Hwt : str_field detail "mailbox_sk_wrapped" = b64_encode wrapped) by (unfold str_field, get_str; by rewrite Es).
  assert (Htw : truthy (b64_encode wrapped) = true).
  { unfold wrapped, wrap_mailbox_key, aes_gcm_encrypt. destruct n as [|? [|? ?]]; [by destruct Hn|by destruct Hn|done]. }
  pose proof (rotated_root_ok r e n sk box id He He2 Hn Hn2 Hk Hid) as Erot. fold wrapped in Erot.
  assert (Efield : field "version" res = Ok (get res (js "version"))) by by destruct res.
  eexists. split; [|split; [|split; [|split]]].
  - unfold handleRotate. rewrite run_bind, run_on_page, run_page.
    change (ro_box (rc_rotate (on_rotate _ p))) with (ro_box (rc_rotate p)).
    change (ro_words (rc_rotate (on_rotate _ p))) with (ro_words (rc_rotate p)). cbv zeta. fold box.
    rewrite Ew, phrase_truthy, Hbt, Ho by done. cbn [negb orb]. rewrite run_bind, run_on_page, run_finally, run_catch.
    unfold rotate_body. rewrite run_bind. cbn [wait run]. rewrite run_bind, run_below. unfold getMailbox.
    rewrite (run_mailbox_request _ _ _ _ _ _ detail) by exact G1. fold (detail_request box s). fold q1.
    rewrite (field_get _ _ _ Em), bind_lift, Hmode. cbn [negb]. cbv zeta. rewrite Hwt, Htw. cbn [negb].
    rewrite Eb, Erot, bind_lift, run_bind, run_below. unfold rotateRoot.
    rewrite (run_mailbox_request _ _ _ _ _ _ res) by exact G2. fold (rotate_request orgId box None s). fold q2.
    destruct (wasm_recovery_auth_pk_from_root _) as [pkHex|]; [|done]. cbn [mbind outcome_bind] in Ev.
    rewrite bind_lift, Ev, bind_lift, run_bind, run_below. unfold enrollRecovery. rewrite run_bare_json. cbv zeta.
    fold (enroll_request (b64_encode (verifier (rr_entropy r)))). fold q3. rewrite (gives_json _ _ v) by done.
    rewrite Efield, bind_lift. reflexivity.
  - reflexivity.
  - reflexivity.
  - unfold wrapped. rewrite (phrase_unlocks _ _ _ _ _ id) by done. by rewrite decide_True.
  - intros Hd. unfold wrapped. rewrite (phrase_unlocks _ _ _ _ _ id) by done. by rewrite decide_False.
Qed.

(** The seal of the new root passes the checks of the ceremony. *)
Lemma sealed_root_ok r org_sk sk box id sealed :
  key_ok org_sk -> key_ok (mg_entropy r) -> nonce_ok (mg_nonce r) -> key_ok sk -> box_id box id ->
  hpke_seal (x25519_pk org_sk) (mg_seal r) (hkdf_root (mg_entropy r)) [] = Some sealed ->
  sealed_root r (bytesToHex org_sk) (bytesToHex (x25519_pk org_sk)) (bytesToHex sk) (bytesToHex id)
    (bytesToHex (hkdf_root (mg_entropy r))) = Ok (bytesToHex sealed).
Proof.
  intros Ho He Hn Hk Hid Es. pose proof (hkdf_root_key (mg_entropy r)) as Hroot. unfold sealed_root.
  rewrite (hpke_seal_ok org_sk _ _ sealed) by (done || apply Hroot). ok_bind. unfold wasm_hpke_open.
  pose proof Ho as [Hol Hob]. rewrite hex_decode_32_encode by done. ok_bind.
  rewrite hex_decode_encode by by eapply hpke_seal_bytes. ok_bind. change (hex_decode []) with (Ok ([] : bytes)). ok_bind.
  rewrite (hpke_correct org_sk (mg_seal r) (hkdf_root (mg_entropy r))) by (done || apply Hroot). unfold hex_encode. ok_bind.
  rewrite jeqb_refl. cbn [negb]. rewrite (wasm_wrap_under _ _ _ box) by done. ok_bind.
  rewrite (wasm_unwrap_under _ _ _ _ box), decide_True by done. ok_bind. by rewrite jeqb_refl.
Qed.

Lemma derive_new_root e : key_ok e -> wasm_derive_root_secret (cp_bytesToHex e) = Ok (bytesToHex (hkdf_root e)).
Proof.
  intros [Hl Hb]. unfold wasm_derive_root_secret. rewrite cp_bytesToHex_eq, hex_decode_encode by done. ok_bind.
  by rewrite exactly_ok.
Qed.

(** The server's record of a managed mailbox: the root sealed to the organization, and the
    mailbox key wrapped, both in base64. *)
Record keeps_managed (material detail : json) (sealed wrapped : bytes) : Prop := {
  km_mode : get detail (js "mode") = Some (JStr (js "org_managed"));
  km_root : get material (js "root_secret_wrapped") = Some (JStr (b64_encode sealed));
  km_key : get detail (js "mailbox_sk_wrapped") = Some (JStr (b64_encode wrapped)) }.

(** A ceremony that can succeed: the mailbox, its key wrapped under the root that the
    organization's secret opens, the fresh root and its seal. *)
Record ceremony_ok (orgId box : jstr) (r : ManagedRandom) (org_sk root n sk id sealed sealed2 : bytes) : Prop := {
  ce_org : truthy orgId = true /\ key_ok org_sk;
  ce_box : undashed box = bytesToHex id /\ length id = 16%nat /\ Forall is_byte id;
  ce_key : key_ok root /\ nonce_ok n /\ key_ok sk;
  ce_sealed : Forall is_byte sealed /\ hpke_open org_sk sealed [] = Some root;
  ce_draws : key_ok (mg_entropy r) /\ nonce_ok (mg_nonce r);
  ce_fresh : hpke_seal (x25519_pk org_sk) (mg_seal r) (hkdf_root (mg_entropy r)) [] = Some sealed2 }.

Lemma run_managed_rotation orgId r w t s p text org_sk root n sk id sealed sealed2 material detail orgv res :
  let box := trim (ro_box (rc_rotate p)) in
  let q1 := detail_request box s in
  let q2 := material_request orgId box s in
  let q4 := org_request orgId s in
  let q5 := rotate_request orgId box (Some (bytesToHex sealed2)) s in
  let t3 := ask q1 (ask q2 (ask q1 t)) in
  ceremony_ok orgId box r org_sk root n sk id sealed sealed2 ->
  ro_file (rc_rotate p) = Some (Ok text) -> trim text = bytesToHex org_sk ->
  keeps_managed material detail sealed (wrap_mailbox_key root n sk id) -> org_key_reply orgv org_sk -> res <> JNull ->
  gives (respond w t q1) detail -> gives (respond w (ask q1 t) q2) material -> gives (respond w (ask q2 (ask q1 t)) q1) detail ->
  gives (respond w t3 q4) orgv -> gives (respond w (ask q4 t3) q5) res ->
  exists p', run w t (s, p) (handleRotateOrgManaged orgId r) = (Ok tt, (s, p'), ask q5 (ask q4 t3)) /\
    ro_version (rc_rotate p') = get res (js "version").
Proof.
  intros box q1 q2 q4 q5 t3 [[Ho Hok] (Eb & Hl & Hb) (Hr & Hn & Hk) [Hsb Hop] [He Hnr] Hseal] Ef Et [Em Er Es] Hog Hres G1 G2 G3 G4 G5.
  pose proof (undashed_box box id Eb Hl Hb) as Hid. pose proof (named_box box id Eb Hl Hb) as Hbt.
  set (wrapped := wrap_mailbox_key root n sk id) in *. assert (Hwb : Forall is_byte wrapped) by by apply wrap_key_bytes.
  assert (Efield : field "version" res = Ok (get res (js "version"))) by by destruct res.
  assert (Htt : truthy (bytesToHex org_sk) = true).
  { destruct (hex_cons org_sk) as (c & l & Ec); [apply Hok|destruct Hok; by destruct org_sk|]. by rewrite Ec. }
  unfold handleRotateOrgManaged. rewrite run_bind, run_on_page, run_page.
  change (ro_box (rc_rotate (on_rotate _ p))) with (ro_box (rc_rotate p)).
  change (ro_file (rc_rotate (on_rotate _ p))) with (ro_file (rc_rotate p)). cbv zeta. fold box.
  rewrite Ef, Hbt, Ho. cbn [negb orb]. rewrite run_bind, run_on_page, run_finally, run_catch.
  unfold managed_body_rotation. rewrite run_bind. cbn [wait run]. rewrite bind_lift, Et, Htt. cbn [negb].
  rewrite run_bind, run_below. unfold getMailbox. rewrite (run_mailbox_request _ _ _ _ _ _ detail) by exact G1.
  fold (detail_request box s). fold q1. rewrite (field_get _ _ _ Em), bind_lift. cbn [str]. rewrite jeqb_refl. cbn [negb].
  rewrite run_bind. cbn [wait run]. rewrite run_bind, run_below.
  rewrite (run_recover w _ s orgId box org_sk material detail sealed wrapped root id) by done. fold q1 q2 t3.
  unfold wrapped at 1. rewrite unwrap_under, decide_True by done. ok_bind.
  rewrite (derive_new_root (mg_entropy r) He), bind_lift, run_bind, run_below.
  rewrite (run_fetch_pk w t3 s orgId orgv org_sk) by done. fold q4. rewrite Eb.
  rewrite (sealed_root_ok r org_sk sk box id sealed2), bind_lift, run_bind, run_below by done. unfold rotateRoot.
  rewrite (run_mailbox_request _ _ _ _ _ _ res) by exact G5. fold (rotate_request orgId box (Some (bytesToHex sealed2)) s).
  fold q5. rewrite Efield, bind_lift. by eexists.
Qed.

(** C18.  Rotating the root of a managed mailbox locks the organization out.  A ceremony that
    succeeds opens the mailbox key with the organization's secret, seals a fresh root to it
    and posts that root as the last of its requests; the key wrapped under the fresh root
    stays in the browser.  With the root the server then has and the wrapping it had all
    along, the organization's secret recovers nothing. *)
Theorem managed_rotation_locks_out orgId r w t s p text org_sk root n sk id sealed sealed2 material detail orgv res :
  let box := trim (ro_box (rc_rotate p)) in
  let wrapped := wrap_mailbox_key root n sk id in
  let q1 := detail_request box s in
  let q2 := material_request orgId box s in
  let q4 := org_request orgId s in
  let q5 := rotate_request orgId box (Some (bytesToHex sealed2)) s in
  let t3 := ask q1 (ask q2 (ask q1 t)) in
  ceremony_ok orgId box r org_sk root n sk id sealed sealed2 ->
  ro_file (rc_rotate p) = Some (Ok text) -> trim text = bytesToHex org_sk ->
  keeps_managed material detail sealed wrapped -> org_key_reply orgv org_sk -> res <> JNull ->
  gives (respond w t q1) detail -> gives (respond w (ask q1 t) q2) material -> gives (respond w (ask q2 (ask q1 t)) q1) detail ->
  gives (respond w t3 q4) orgv -> gives (respond w (ask q4 t3) q5) res ->
  (exists p', run w t (s, p) (handleRotateOrgManaged orgId r) = (Ok tt, (s, p'), ask q5 (ask q4 t3)) /\
     ro_version (rc_rotate p') = get res (js "version")) /\
  (hkdf_root (mg_entropy r) <> root ->
   forall w' t' s' material' detail', keeps_managed material' detail' sealed2 wrapped ->
     gives (respond w' t' (material_request orgId box s')) material' ->
     gives (respond w' (ask (material_request orgId box s') t') (detail_request box s')) detail' ->
     fst (fst (run w' t' s' (recoverMailboxSecret orgId box (bytesToHex org_sk)))) = reject "decryption failed").
Proof.
  intros box wrapped q1 q2 q4 q5 t3 Hc Ef Et Hm Hog Hres G1 G2 G3 G4 G5. split.
  - by apply (run_managed_rotation orgId r w t s p text org_sk root n sk id sealed sealed2 material detail orgv res).
  - destruct Hc as [[_ Hok] (Eb & Hl & Hb) (Hr & Hn & Hk) _ _ Hseal].
    intros Hd w' t' s' material' detail' [_ E1 E2] G1' G2'. pose proof (hkdf_root_key (mg_entropy r)) as Hroot.
    rewrite (run_recover w' t' s' orgId box org_sk material' detail' sealed2 wrapped (hkdf_root (mg_entropy r)) id)
      by (done || (by apply wrap_key_bytes) || (by eapply hpke_seal_bytes) || (eapply hpke_correct; [apply Hroot|exact Hseal])).
    cbn [fst]. unfold wrapped. by rewrite unwrap_under, decide_False.
Qed.

End Rotations.

(** ** Principals *)

Section Principals.
Context `{HC : Crypto} `{!CryptoLaws} `{HU : Unicode} `{HE : Env}.
Variable orgId : jstr.

Lemma talks_principal m path body : talks (principal_request m path body).
Proof.
  unfold principal_request. apply talks_bind; [apply talks_fetch|]. intros [e|st ct data]; [done|].
  by destruct (negb _); [|destruct (_ =? _)].
Qed.

Lemma run_principal m path body w t s :
  exists r, run w t s (principal_request m path body) = (r, s, ask (cp_request m path json_type (js "include") body) t).
Proof.
  unfold principal_request. rewrite run_bind. cbn [fetch run]. destruct (respond w t _) as [e|st ct data]; [by eexists|].
  destruct (negb _); [by eexists|]. by destruct (_ =? _); eexists.
Qed.

Lemma talks_members : talks getMembers.
Proof.
  unfold getMembers, cp_json, cp_call. apply talks_bind; [|intros; apply talks_lift].
  apply talks_bind; [|intros; apply talks_lift]. apply talks_bind; [apply talks_gets|intros].
  apply talks_bind; [apply talks_fetch|intros; apply talks_lift].
Qed.

Lemma refresh_kept x : moves shared_kept x (refreshPrincipals orgId).
Proof.
  unfold refreshPrincipals. destruct (negb _); [done|]. apply moves_bind; [by apply moves_on_page|intros _ ?].
  apply moves_finally; [|by intros; apply moves_on_page]. apply moves_catch; [|by intros; apply moves_on_page].
  apply moves_bind.
  - apply moves_below_talks, talks_promise_all. repeat (apply Forall_cons; split); [|apply talks_members|done].
    apply talks_bind; [|intros; apply talks_ret]. apply talks_bind; [apply talks_principal|intros; apply talks_lift].
  - intros rs x'. destruct rs as [|l [|ms [|? ?]]]; try done. unfold show_principals.
    apply moves_bind; [by apply moves_on_page|intros _ ?]. apply moves_bind; [done|intros q ?]. destruct (truthy _); [done|].
    apply moves_bind; [done|intros; by apply moves_on_page].
Qed.

Definition organization_request : request := cp_request "GET" (org_path orgId "") [] (js "include") NoBody.
Definition principal_enrollment (payload : json) : request :=
  cp_request "POST" (org_path orgId "/recovery-principals") json_type (js "include") (stringified payload).

(** What is wrapped opens: salt and envelope as the page prints them. *)
Lemma principal_envelope_ok r pass sk k :
  key_ok sk -> Forall is_byte (pn_salt r) -> length (pn_salt r) = 32%nat -> nonce_ok (pn_nonce r) ->
  derive_recovery_principal_key pass (take 16 (pn_salt r)) = Ok k -> key_ok k ->
  let env := aes_gcm_encrypt k (pn_nonce r) sk RECOVERY_PRINCIPAL_AAD in
  principal_envelope r pass (bytesToHex sk) = Ok (bytesToHex (take 16 (pn_salt r)), bytesToHex env) /\
  wasm_passphrase_unwrap_key pass (bytesToHex (take 16 (pn_salt r))) (bytesToHex env) = Ok (bytesToHex sk) /\
  Forall is_byte env.
Proof.
  intros [Hl Hb] Hs Hsl [Hn Hnb] Hd [Hkl Hkb] env.
  assert (Hs16 : Forall is_byte (take 16 (pn_salt r))) by by apply Forall_take.
  assert (Hl16 : length (take 16 (pn_salt r)) = 16%nat) by (rewrite length_take; lia).
  assert (He : Forall is_byte env) by (apply envelope_bytes; done || by_decide).
  assert (Hu : wasm_passphrase_unwrap_key pass (bytesToHex (take 16 (pn_salt r))) (bytesToHex env) = Ok (bytesToHex sk)).
  { unfold wasm_passphrase_unwrap_key. rewrite !hex_decode_encode by done. ok_bind. rewrite exactly_ok by done. ok_bind.
    rewrite Hd. ok_bind. unfold env. rewrite aes_gcm_round_trip by done. by ok_bind. }
  split; [|done]. unfold principal_envelope.
  replace (is_hex64 (bytesToHex sk)) with true.
  - cbn [negb]. cbv zeta. rewrite cp_bytesToHex_eq, (passphrase_wrap_ok pass _ _ _ k) by done. ok_bind. fold env.
    rewrite Hu. ok_bind. by rewrite jeqb_refl.
  - unfold is_hex64. rewrite length_bytesToHex, Hl by done. symmetry. apply andb_true_iff. split; [done|].
    eapply forallb_impl; [|exact (bytesToHex_lower sk Hb)]. intros u Hu'. by apply lower_hex_is_hex.
Qed.

(** The organization's record, whatever key it holds. *)
Definition gives_record (r : reply) (pk : jstr) : Prop :=
  truthy pk = true /\ exists st ct data v, r = Response st ct data /\ response_ok st = true /\
    response_json data = Ok v /\ get v (js "org_recovery_pk") = Some (JStr pk).

Lemma run_organization_pk w t s pk :
  gives_record (respond w t organization_request) pk ->
  run w t s (organization_pk orgId) = (Ok pk, s, ask organization_request t).
Proof.
  intros [Ht (st & ct & data & v & E & Hst & Ej & Eg)]. unfold organization_pk. rewrite run_bind. cbn [fetch run].
  fold organization_request. rewrite E. cbn [fst snd]. rewrite Hst, Ej, bind_lift, (field_get _ _ _ Eg), bind_lift.
  cbn [str]. by rewrite Ht.
Qed.

(** What enrolling a principal uploads opens under the principal's passphrase: the salt
    and the envelope of the second request give the secret of the chosen file back.  The
    first request asks for the organization's public key, without the session's token; the
    key is recorded beside the envelope, and nothing relates it to the secret. *)
Theorem principal_envelope_opens r w t s p text sk k pk :
  let f := rc_principals p in
  let pass := pn_pass f in
  let salt := take 16 (pn_salt r) in
  truthy orgId = true -> truthy (pn_user f) = true -> truthy (trim (pn_name f)) = true ->
  (8 <= length pass <= 128)%nat -> pn_file f = Some (Ok text) -> trim text = bytesToHex sk -> key_ok sk ->
  Forall is_byte (pn_salt r) -> length (pn_salt r) = 32%nat -> nonce_ok (pn_nonce r) ->
  argon2id (TextEncoder_encode pass) salt = Some k -> gives_record (respond w t organization_request) pk ->
  exists env res p' t' l, run w t (s, p) (handleEnrollPrincipal orgId r) = (res, (s, p'), t') /\
    sent t' = sent t ++ organization_request ::
      principal_enrollment (principal_payload (pn_user f) (trim (pn_name f)) (b64_encode salt) (b64_encode env) pk) :: l /\
    wasm_passphrase_unwrap_key pass (bytesToHex salt) (bytesToHex env) = Ok (bytesToHex sk).
Proof.
  intros f pass salt Ho Hu Hn Hp Ef Et Hk Hs Hsl Hnn Ea Hg. pose proof (length_TextEncoder pass).
  assert (Hd : derive_recovery_principal_key pass salt = Ok k) by (apply derive_key_ok; [lia|done]).
  destruct (principal_envelope_ok r pass sk k Hk Hs Hsl Hnn Hd (argon2id_key _ _ _ Ea)) as (Ee & Hopen & Heb).
  set (env := aes_gcm_encrypt k (pn_nonce r) sk RECOVERY_PRINCIPAL_AAD) in *. fold salt in Ee, Hopen.
  assert (Hsb : Forall is_byte salt) by by apply Forall_take.
  assert (Hsn : salt <> []) by (unfold salt; by destruct (pn_salt r)).
  exists env. unfold handleEnrollPrincipal. rewrite run_bind, run_on_page, run_page.
  change (rc_principals (on_principals _ p)) with (set_pn_notice None (set_pn_error None f)).
  cbn [pn_file pn_user pn_name pn_pass set_pn_notice set_pn_error]. rewrite Ef, Ho, Hu, Hn. fold pass.
  rewrite (proj2 (Nat.ltb_ge (length pass) 8)), (proj2 (Nat.ltb_ge 128 (length pass))) by lia. cbn [negb orb].
  rewrite run_bind, run_on_page, run_finally, run_catch. unfold enroll_principal_body.
  rewrite run_bind. cbn [wait run]. rewrite run_bind, run_bind. cbn [wait run lift]. rewrite run_page.
  change (pn_pass (rc_principals (on_principals (set_pn_busy true) _))) with pass.
  rewrite Et, Ee, bind_lift, run_bind, run_below, (run_organization_pk _ _ _ pk), run_page by done. cbv zeta.
  rewrite !hexToB64_ok, !bind_lift by done.
  unfold enrollPrincipal. rewrite run_bind, run_below.
  match goal with |- context [run w ?t1 s (principal_request ?m ?path ?body)] =>
    destruct (run_principal m path body w t1 s) as [[v|err] ->] end.
  - rewrite run_bind, run_on_page.
    match goal with |- context [run w ?t1 (s, ?g) (refreshPrincipals orgId)] =>
      destruct (run_kept_sends w t1 s g (refreshPrincipals orgId) refresh_kept) as ([[]|e] & p1 & t2 & l & -> & El) end;
      do 4 eexists; (split; [reflexivity|]); (split; [|exact Hopen]); cbn [snd fst sent on_page modify run];
      rewrite El; cbn [sent ask]; by rewrite <- !app_assoc.
  - do 4 eexists. split; [reflexivity|]. split; [|exact Hopen]. cbn [sent ask snd fst on_page modify run].
    by rewrite <- !app_assoc.
Qed.

End Principals.

(** ** The self-test of a phrase *)

Section SelfTest.
Context `{HC : Crypto} `{!CryptoLaws} `{HU : Unicode} `{HE : Env}.

(** A generated phrase passes the test that the page offers, whatever key pair and nonce the
    test draws, as long as the second id drawn is not the first. *)
Theorem generated_phrase_verifies w t (s : Panel) p e r id :
  key_ok e -> key_ok (vr_sk r) -> nonce_ok (vr_nonce r) ->
  undashed (vr_uuid r) = bytesToHex id -> length id = 16%nat -> Forall is_byte id ->
  length (vr_wrong r) = 16%nat -> Forall is_byte (vr_wrong r) -> vr_wrong r <> id ->
  let '(_, x1, t1) := run w t (s, p) (handleGenerate e) in
  exists p', run w t1 x1 (rec_handleVerify r) = (Ok tt, (s, p'), t) /\
    ph_mnemonic (rc_phrase p') = Some (bip39_phrase e) /\ ph_verified (rc_phrase p') = true /\
    ph_error (rc_phrase p') = None.
Proof.
  intros He Hk Hn Eid Hl Hb Hwl Hwb Hne. pose proof (undashed_box _ id Eid Hl Hb) as Hid.
  unfold handleGenerate. rewrite run_bind, run_on_page, run_catch, run_bind. cbn [wait run].
  unfold wasm_generate_mnemonic. rewrite bind_lift. rewrite run_on_page.
  assert (E : self_test r (bip39_phrase e) = Ok tt).
  { unfold self_test. destruct (phrase_gives_root e He) as [-> Hr]. ok_bind.
    destruct (keypair_fields (vr_sk r) (proj2 Hk)) as (kp & -> & Es & _). ok_bind. cbv zeta. rewrite Es, Eid.
    rewrite (wasm_wrap_under _ _ _ (vr_uuid r)) by done. ok_bind.
    rewrite (wasm_unwrap_under _ _ _ _ (vr_uuid r)), decide_True by done. ok_bind. rewrite jeqb_refl. cbn [negb].
    rewrite cp_bytesToHex_eq. unfold wasm_unwrap_mailbox_key. destruct Hr as [Hrl Hrb], Hk as [Hkl Hkb].
    rewrite hex_decode_32_encode by done. ok_bind. rewrite hex_decode_encode by by apply wrap_key_bytes. ok_bind.
    rewrite decode_mailbox_id_encode by done. ok_bind. by rewrite unwrap_mailbox_key_ok, decide_False. }
  unfold rec_handleVerify. rewrite run_page.
  match goal with |- context [negb (truthy_opt ?m)] => change m with (Some (bip39_phrase e)) end.
  change (default [] (Some (bip39_phrase e))) with (bip39_phrase e). cbn [truthy_opt]. rewrite phrase_truthy by done. cbn [negb]. rewrite run_bind, run_on_page, run_catch, run_bind.
  cbn [wait run]. rewrite E, bind_lift, run_on_page. eexists. split; [reflexivity|]. by split_and!.
Qed.

End SelfTest.

(** ** Concrete runs *)

#[local] Existing Instances toy_crypto toy_laws ascii_unicode panel_env.

Definition box2 : jstr := mr_uuid random0.
Definition key2 : bytes := replicate 32 4.
Lemma key2_ok : key_ok key2. Proof. split; [done|by_decide]. Defined.

(** A page on which everything has been typed and chosen. *)
Definition page0 : RecoveryPage := {|
  rc_tab := js "rotate";
  rc_phrase := {| ph_mnemonic := None; ph_verified := false; ph_copied := false; ph_error := None |};
  rc_enroll := {| en_words := js " " ++ bip39_phrase key1; en_busy := false; en_done := false; en_error := None |};
  rc_recover := {| rv_email := js "ada@b.org "; rv_words := bip39_phrase key1; rv_busy := false; rv_error := None;
    rv_done := false; rv_password := []; rv_pw_busy := false; rv_pw_error := None; rv_pw_done := false |};
  rc_rotate := {| ro_box := box2; ro_mode := None; ro_loading := false; ro_words := bip39_phrase key1; ro_busy := false;
    ro_error := None; ro_version := None; ro_phrase := None; ro_copied := false;
    ro_file := Some (Ok (bytesToHex key1 ++ [10])) |};
  rc_principals := {| pn_list := JNull; pn_members := None; pn_loading := false; pn_error := None; pn_notice := None;
    pn_user := js "u1"; pn_name := js "laptop"; pn_pass := js "correct horse"; pn_file := Some (Ok (bytesToHex key1));
    pn_busy := false |} |}.

Definition challenges : world := {|
  respond _ _ := json_reply (JObj [str_member "challenge_id" (js "c7")]); answer _ _ := true |}.

Lemma recovery_proves_the_phrase_witness :
  exists pk sig p',
    ed25519_verify pk (TextEncoder_encode (js "byos-recovery-v1:challenge:c7")) sig = true /\
    run challenges no_trace (panel0, page0) handleRecover =
      (Ok tt, (panel0, p'), ask (proof_request (js "c7") (b64_encode sig))
                              (ask (challenge_request (js "ada@b.org")) no_trace)) /\
    rv_done (rc_recover p') = true.
Proof.
  destruct (@recovery_proves_the_phrase toy_crypto toy_laws panel_env challenges no_trace panel0 page0 key1
    challenges no_trace panel0 page0 (JObj [str_member "challenge_id" (js "c7")]) (js "c7"))
    as (pk & sig & p' & p2' & V & _ & _ & _ & _ & R & D);
    [exact key1_ok|vm_compute; reflexivity|vm_compute; reflexivity|vm_compute; reflexivity|reply|reflexivity|by_decide|].
  exists pk, sig, p2'. split; [exact V|]. split; [exact R|].
  refine (proj1 (D (JObj [str_member "challenge_id" (js "c7")]) _)). reply.
Defined.

(** A private mailbox whose key is wrapped under the root of [key1]'s phrase. *)
Definition wrapped1 : bytes := wrap_mailbox_key (hkdf_root key1) nonce0 key2 id0.
Definition private_detail : json :=
  JObj [str_member "mode" (js "private"); str_member "mailbox_sk_wrapped" (b64_encode wrapped1)].
Definition version2 : json := JObj [(js "version", JNum (num 2))].

Definition private_server : world := {|
  respond _ q := json_reply (if includes (req_url q) (js "/v1/mailboxes/") then private_detail else version2);
  answer _ _ := true |}.

Definition rotates : RotateRandom := {| rr_entropy := key0; rr_nonce := nonce0 |}.

Lemma rotated_phrase_opens_nothing_witness :
  exists p' t', run private_server no_trace (panel0, page0) (handleRotate (js "o1") rotates) = (Ok tt, (panel0, p'), t') /\
    ro_phrase (rc_rotate p') = Some (bip39_phrase key0) /\
    unlockMailboxKey (bip39_phrase key0) box2 (b64_encode wrapped1) = reject "decryption failed".
Proof.
  destruct (@rotated_phrase_opens_nothing toy_crypto toy_laws ascii_unicode panel_env (js "o1") rotates private_server
    no_trace panel0 page0 key1 nonce0 key2 id0 private_detail version2 version2) as (p' & R & E & _ & _ & F);
    [reflexivity|reflexivity|reflexivity|by_decide|exact key1_ok|vm_compute; reflexivity|exact key0_ok|exact nonce0_ok|
     exact nonce0_ok|exact key2_ok|reply|reflexivity|reflexivity|reply|discriminate|reply|].
  exists p'. eexists. split; [exact R|]. split; [exact E|]. apply F. vm_compute. discriminate.
Defined.

(** A managed mailbox: the root of [key1] sealed to the organization, whose secret is [key1]
    too, and the server before and after a rotation to the root of [key0]. *)
Definition sealed_old : bytes := toy_seal key1 [] [] key1.
Definition sealed_new : bytes := toy_seal key1 [] [] key0.
Definition managed_detail : json :=
  JObj [str_member "mode" (js "org_managed"); str_member "mailbox_sk_wrapped" (b64_encode wrapped1)].
Definition managed_material (sealed : bytes) : json := JObj [str_member "root_secret_wrapped" (b64_encode sealed)].
Definition org_record : json := JObj [str_member "org_recovery_pk" (b64_encode key1)].

Definition managed_server (sealed : bytes) : world := {|
  respond _ q := json_reply
    (if includes (req_url q) (js "/v1/mailboxes/") then managed_detail
     else if includes (req_url q) (js "/recovery-material") then managed_material sealed
     else if includes (req_url q) (js "/rotate-root") then version2
     else org_record);
  answer _ _ := true |}.

Definition ceremony0 : ManagedRandom := {| mg_entropy := key0; mg_seal := []; mg_nonce := nonce0 |}.

Lemma ceremony0_ok : ceremony_ok (js "o1") box2 ceremony0 key1 key1 nonce0 key2 id0 sealed_old sealed_new.
Proof.
  split.
  - exact (conj eq_refl key1_ok).
  - split; [vm_compute; reflexivity|]. by split; [|by_decide].
  - exact (conj key1_ok (conj nonce0_ok key2_ok)).
  - split; [by_decide|vm_compute; reflexivity].
  - exact (conj key0_ok nonce0_ok).
  - vm_compute. reflexivity.
Defined.

Lemma managed_rotation_locks_out_witness :
  (exists p' t', run (managed_server sealed_old) no_trace (panel0, page0) (handleRotateOrgManaged (js "o1") ceremony0) =
     (Ok tt, (panel0, p'), t')) /\
  fst (fst (run (managed_server sealed_old) no_trace panel0 (recoverMailboxSecret (js "o1") box2 (bytesToHex key1)))) =
    Ok (bytesToHex key2) /\
  fst (fst (run (managed_server sealed_new) no_trace panel0 (recoverMailboxSecret (js "o1") box2 (bytesToHex key1)))) =
    reject "decryption failed".
Proof.
  destruct (@managed_rotation_locks_out toy_crypto toy_laws ascii_unicode panel_env (js "o1") ceremony0 (managed_server sealed_old)
    no_trace panel0 page0 (bytesToHex key1 ++ [10]) key1 key1 nonce0 key2 id0 sealed_old sealed_new
    (managed_material sealed_old) managed_detail org_record version2) as [(p' & R & _) F];
    [exact ceremony0_ok|reflexivity|vm_compute; reflexivity|split; vm_compute; reflexivity|reflexivity|discriminate|
     reply|reply|reply|reply|reply|].
  split; [exists p'; eexists; exact R|]. split; [vm_compute; reflexivity|].
  refine (F _ (managed_server sealed_new) no_trace panel0 (managed_material sealed_new) managed_detail _ _ _);
    [vm_compute; discriminate|split; vm_compute; reflexivity|reply|reply].
Defined.

Definition draws_principal : PrincipalRandom := {| pn_salt := replicate 32 3; pn_nonce := nonce0 |}.

Lemma principal_envelope_opens_witness :
  exists env, wasm_passphrase_unwrap_key (js "correct horse") (bytesToHex salt0) (bytesToHex env) = Ok (bytesToHex key1).
Proof.
  destruct (@principal_envelope_opens toy_crypto toy_laws ascii_unicode panel_env (js "o1") draws_principal
    (managed_server sealed_old) no_trace panel0 page0 (bytesToHex key1) key1 (toy_key (js "correct horse" ++ salt0))
    (b64_encode key1)) as (env & _ & _ & _ & _ & _ & _ & U);
    [reflexivity|reflexivity|reflexivity|vm_compute; split; repeat constructor|reflexivity|vm_compute; reflexivity|exact key1_ok|
     by_decide|reflexivity|exact nonce0_ok|vm_compute; reflexivity| |exists env; exact U].
  split; [vm_compute; reflexivity|]. exists 200, (js "application/json"), (Some (TextEncoder_encode (JSON_stringify org_record))), org_record.
  split_and!; vm_compute; reflexivity.
Defined.
