(* ===== verification/Onboarding.v ===== *)
(** * From an invitation to an unlocked mailbox

    How the two clients and the pages of one client fit together: the key an administrator's
    browser makes for an invitation reaches the invited member; the recovery phrase the
    set-up page seals is the one the security settings reveal. *)

From S2P Require Import Prelude JsString Encoding Json Display Wasm MessageCrypto Client Page Api AppState.
From S2P Require Import MailView Reading MailboxData Outbound ComposeMail Session SignIn SetupAccount Security.
From S2P Require Import ControlApi ControlKeys.

(** ** An invitation to a managed mailbox *)

Section Invited.
Context `{HC : Crypto} `{!CryptoLaws} `{HU : Unicode} `{HE : Env}.

(** What the server answers when the link of an invitation is verified. *)
Record answers_invitation (body data : json) (id : bytes) : Prop := {
  ai_mode : str_field data "privacy_mode" = str_field body "privacy_mode";
  ai_temp : str_field data "temp_wrapped_sk" = str_field body "temp_wrapped_sk";
  ai_pk : str_field data "mailbox_pk" = str_field body "mailbox_pk";
  ai_box : box_id (str_field data "mailbox_id") id }.

Lemma invited_keys ri req sealed rs data id :
  key_ok (iv_sk ri) -> key_ok (iv_token ri) -> nonce_ok (iv_nonce ri) ->
  answers_invitation (invite_body ri req sealed) data id ->
  setup_keys rs (str_field (invite_body ri req sealed) "token") data =
    Ok (bytesToHex (x25519_pk (iv_sk ri)), bytesToHex (iv_sk ri)).
Proof.
  intros Hk Ht Hn [Hm Htemp Hpk _]. unfold setup_keys. rewrite Hm, Htemp, Hpk. pose proof Hk as [Hkl Hkb].
  pose proof Ht as [Htl Htb]. pose proof Hn as [_ Hnb].
  change (str_field (invite_body ri req sealed) "privacy_mode") with (js "organization_managed").
  change (str_field (invite_body ri req sealed) "token") with (bytesToHex (iv_token ri)).
  change (str_field (invite_body ri req sealed) "mailbox_pk") with (bytesToHex (x25519_pk (iv_sk ri))).
  set (env := aes_gcm_encrypt (iv_token ri) (iv_nonce ri) (iv_sk ri) []).
  change (str_field (invite_body ri req sealed) "temp_wrapped_sk") with (bytesToHex env).
  destruct (hex_cons env) as (c & l & Ec); [by apply envelope_bytes|done|].
  replace (truthy (bytesToHex env)) with true by by rewrite Ec.
  unfold env. rewrite provisional_opens by done. ok_bind. rewrite length_bytesToHex, Hkl by done.
  destruct (hex_cons (iv_sk ri)) as (c' & l' & Ec'); [done|by destruct (iv_sk ri)|].
  by replace (truthy (bytesToHex (iv_sk ri))) with true by by rewrite Ec'.
Qed.

(** C15.  A managed invitation ends with one key in three hands.  What the administrator's
    browser posts and the server hands on lets the member's set-up page, with the token of
    the link, come to the very key whose public half was posted; the page wraps that key so
    that the member's new password and new recovery phrase open it, while the copy sealed to
    the organization opens to the same key. *)
Theorem invited_key_reaches_the_member ri org req wa ta sa orgv org_sk sealed rs w t s p data id k :
  managed req = true -> key_ok (iv_sk ri) -> key_ok (iv_token ri) -> nonce_ok (iv_nonce ri) ->
  key_ok org_sk -> org_key_reply orgv org_sk -> gives (respond wa ta (org_request org sa)) orgv ->
  hpke_seal (x25519_pk org_sk) (iv_seal ri) (iv_sk ri) [] = Some sealed ->
  let body := invite_body ri req sealed in
  answers_invitation body data id ->
  setup_ok rs -> su_token p = str_field body "token" -> su_invite p = Some data -> isPasswordValid p = true ->
  argon2id (TextEncoder_encode (su_password p)) (st_salt rs) = Some k ->
  sent (snd (run wa ta sa (inviteMailbox ri org req))) = sent ta ++
    [org_request org sa; panel_request "POST" (org_path org "/mailboxes/invite") (stringified body) sa] /\
  hpke_open org_sk sealed [] = Some (iv_sk ri) /\
  exists p', run w t (s, p) (handleProceedToKeys rs) = (Ok tt, (s, p'), t) /\
    su_step p' = 2 /\ su_sk p' = bytesToHex (iv_sk ri) /\ su_pk p' = bytesToHex (x25519_pk (iv_sk ri)) /\
    autoUnwrapMailboxKey (su_password p') (su_wrapped p') = Ok (iv_sk ri) /\
    unwrapMailboxKeyWithRecoveryPhrase (su_mnemonic p') (str_field data "mailbox_id") (su_wrapped p') = Ok (iv_sk ri).
Proof.
  intros Hm Hk Ht Hn Ho Hr Hg Hs body Ha Hrs Etok Einv Hv Ea.
  split; [by apply (sent_invite ri org req wa ta sa orgv org_sk sealed)|].
  split; [eapply hpke_correct; [apply Hk|exact Hs]|].
  pose proof (invited_keys ri req sealed rs data id Hk Ht Hn Ha) as Hkeys. fold body in Hkeys. rewrite <- Etok in Hkeys.
  destruct (run_proceed rs w t s p data id _ _ k Hrs Hv Einv (ai_box _ _ _ Ha) Hkeys Hk Ea) as (wr & R & H1 & H2).
  eexists. split; [exact R|]. by split_and!.
Qed.

End Invited.

(** ** The recovery phrase, from the set-up page to the settings *)

Section Phrase.
Context `{HC : Crypto} `{!CryptoLaws} `{HU : Unicode} `{HE : Env}.
Variable props : SecurityProps.

Lemma length_words ws :
  Forall (fun w => w <> [] /\ forallb is_letter w = true) ws -> (2 * length ws <= S (length (join [32%Z] ws)))%nat.
Proof.
  induction 1 as [|w ws [Hw _] Hws IH]; [simpl; lia|].
  assert (1 <= length w)%nat by (destruct w; [done|simpl; lia]).
  destruct ws as [|w' ws]; [simpl in *; lia|].
  change (join [32] (w :: w' :: ws)) with (w ++ [32] ++ join [32] (w' :: ws)).
  rewrite !length_app. cbn [length] in *. lia.
Qed.

(** A phrase is longer than a key. *)
Lemma phrase_long e : key_ok e -> (32 < length (TextEncoder_encode (bip39_phrase e)))%nat.
Proof.
  intros He. destruct (mnemonic_words e He) as (ws & [= E] & Hl & Hw). rewrite E.
  pose proof (length_TextEncoder (join [32] ws)). pose proof (length_words ws Hw). lia.
Qed.

(** A set-up page whose keys are made, about to claim the account. *)
Record claimable (p : Setup) (data : json) (pk sk e : bytes) : Prop := {
  ca_data : su_invite p = Some data;
  ca_saved : su_saved p = true;
  ca_factor : is2FAValid p = true;
  ca_password : isPasswordValid p = true;
  ca_key : key_ok sk /\ su_sk p = bytesToHex sk;
  ca_pk : claimed_pk p data = pk /\ truthy pk = true;
  ca_wrapped : truthy (su_wrapped p) = true;
  ca_phrase : key_ok e /\ su_mnemonic p = bip39_phrase e }.

(** Settings as the server may return them: with the wrapped phrase and the salt that were
    posted, whatever else they hold. *)
Definition same_phrase_fields (posted returned : json) : Prop :=
  str_field returned "recovery_phrase_wrapped" = str_field posted "recovery_phrase_wrapped" /\
  str_field returned "recovery_phrase_salt" = str_field posted "recovery_phrase_salt".

(** C16.  The recovery phrase comes back.  Claiming an account seals the phrase under the
    password and posts it to the mailbox's settings; where the server returns settings with
    the two fields posted, the security tab reveals, for that password, exactly the phrase
    of the set-up page.  But in a tab that does not hold the mailbox key the same phrase is
    handed out when the private key is exported: what is exported then is the phrase in
    hexadecimal, which is the hexadecimal form of no mailbox key. *)
Theorem sealed_phrase_comes_back r w t s p data pk sk e k v :
  claimable p data pk sk e -> Forall is_byte (cl_salt r) -> length (cl_salt r) = 16%nat -> nonce_ok (cl_nonce r) ->
  argon2id (TextEncoder_encode (su_password p)) (cl_salt r) = Some k ->
  api_reply (respond w t (claim_request s (claim_body p pk))) = Ok (Some v) -> v <> JNull ->
  exists s' p' settings,
    run w t (s, p) (handleFinalizeActivation r) = (Ok tt, (s', p'),
      ask (settings_request s' (str_field data "mailbox_id") settings) (ask (claim_request s (claim_body p pk)) t)) /\
    forall returned w2 t2 s2 p2, same_phrase_fields settings returned -> sc_settings p2 = Some returned ->
      (rf_password (sc_reveal p2) = su_password p -> says_valid (respond w2 t2 (verify_request (su_password p) s2)) ->
       exists p3, run w2 t2 (s2, p2) handleRevealPhrase =
           (Ok tt, (s2, p3), ask (verify_request (su_password p) s2) t2) /\
         rf_phrase (sc_reveal p3) = Some (su_mnemonic p)) /\
      (ef_password (sc_export p2) = su_password p -> says_valid (respond w2 t2 (verify_request (su_password p) s2)) ->
       session s2 !! sk_item (pr_box props) = None ->
       exists p3 hex, run w2 t2 (s2, p2) (handleExportPrivateKey props) =
           (Ok tt, (s2, p3), ask (verify_request (su_password p) s2) t2) /\
         ef_key (sc_export p3) = Some hex /\ hex = bytesToHex (TextEncoder_encode (su_mnemonic p)) /\
         forall key, key_ok key -> hex <> bytesToHex key).
Proof.
  intros [Hd Hsv H2 Hv [Hk Hsk] [Hpk Htp] Hw [He Hm]] Hsb Hsl Hn Ea Er Hne.
  destruct (phrase_text e He) as [_ Hascii]. pose proof (ascii_units _ Hascii) as Hu.
  destruct (run_claim r w t s p data pk sk k v) as (p' & R & _); try done; [by rewrite Hm|].
  do 3 eexists. split; [exact R|].
  assert (Hpw : truthy (su_password p) = true).
  { unfold isPasswordValid in Hv. apply andb_true_iff in Hv as [Hl _]. by destruct (su_password p). }
  assert (Hne' : su_mnemonic p <> []).
  { intros E. pose proof (phrase_long e He) as Hl. rewrite <- Hm, E in Hl. simpl in Hl. lia. }
  destruct (argon2id_key _ _ _ Ea) as [Hkl Hkb].
  intros returned w2 t2 s2 p2 [Ew' Es'] Es.
  assert (Hseal : sealed_in (sc_settings p2) (su_password p) (su_mnemonic p)).
  { exists (cl_salt r), k, (cl_nonce r). split_and!; try done; [by eapply valid_password|]. rewrite Es.
    unfold wrapped_phrase, sealed_settings in *. cbn [mbind option_bind]. rewrite Ew', Es'.
    match goal with |- context [str_field ?o "recovery_phrase_wrapped"] => set (o' := o) end.
    change (str_field o' "recovery_phrase_salt") with (bytesToHex (cl_salt r)).
    set (env := aes_gcm_encrypt k (cl_nonce r) (TextEncoder_encode (su_mnemonic p)) RECOVERY_PRINCIPAL_AAD).
    change (str_field o' "recovery_phrase_wrapped") with (bytesToHex env).
    destruct (hex_cons env) as (c & l & Ec);
      [apply envelope_bytes; [done|apply Hn|apply TextEncoder_bytes; by rewrite Hm|by_decide]|done|].
    destruct (hex_cons (cl_salt r)) as (c' & l' & Ec'); [done|by destruct (cl_salt r)|].
    by rewrite Ec, Ec'. }
  split.
  - intros Epw Hval. rewrite <- Epw in Hseal, Hpw, Hval |- *.
    destruct (run_reveal w2 t2 s2 p2 (su_mnemonic p)) as (p3 & R3 & Hp & _); try done.
    + by rewrite Hm.
    + rewrite Hm. by apply well_formed_ascii.
    + rewrite Hm. destruct (bip39_phrase e) as [|u l]; [done|]. cbn [forallb] in Hascii.
      apply andb_true_iff in Hascii as [Hu' _]. unfold is_ascii in Hu'. cbn [no_bom]. lia.
    + by exists p3.
  - intros Epw Hval Hnone. rewrite <- Epw in Hseal, Hpw, Hval |- *.
    destruct (run_export props w2 t2 s2 p2 (su_mnemonic p)) as (p3 & R3 & Hp); try done; [by rewrite Hm|].
    rewrite Hnone in Hp. exists p3. eexists. split; [exact R3|]. split; [exact Hp|]. split; [done|].
    intros key [Hl Hb] E. apply (f_equal length) in E. pose proof (phrase_long e He) as Hlong. rewrite <- Hm in Hlong.
    rewrite !length_bytesToHex in E by (done || (apply TextEncoder_bytes; by rewrite Hm)). lia.
Qed.

End Phrase.

(** ** Concrete runs *)

#[local] Existing Instances toy_crypto toy_laws ascii_unicode panel_env.

(** The invitation of the administrator's page, as the link's verification returns it. *)
Definition sealed_key0 : bytes := toy_seal key1 [] [] key0.

Definition handed_on (body : json) : json := JObj [(js "valid", JBool true);
  str_member "privacy_mode" (str_field body "privacy_mode"); str_member "temp_wrapped_sk" (str_field body "temp_wrapped_sk");
  str_member "mailbox_pk" (str_field body "mailbox_pk"); str_member "mailbox_id" box0].

Definition body0 : json := invite_body invite0 guest0 sealed_key0.

Definition invited_page : Setup := set_su_invite (Some (handed_on body0)) (set_su_token (str_field body0 "token") setup0).

Lemma invited_key_reaches_the_member_witness :
  exists p', run claims no_trace (sample_app, invited_page) (handleProceedToKeys setup_draws) =
      (Ok tt, (sample_app, p'), no_trace) /\
    autoUnwrapMailboxKey (su_password p') (su_wrapped p') = Ok key0.
Proof.
  destruct (@invited_key_reaches_the_member toy_crypto toy_laws ascii_unicode panel_env invite0 (js "o1") guest0
    organization no_trace panel0 (JObj [str_member "org_recovery_pk" (b64_encode key1)]) key1 sealed_key0
    setup_draws claims no_trace sample_app invited_page (handed_on body0) id0
    (toy_key (js "correct horse battery" ++ salt0))) as (_ & _ & p' & R & _ & _ & _ & Ho & _);
    [reflexivity|exact key0_ok|exact key1_ok|exact nonce0_ok|exact key1_ok|vm_compute; reflexivity|reply|
     vm_compute; reflexivity| |exact setup_draws_ok|reflexivity|reflexivity|vm_compute; reflexivity|
     vm_compute; reflexivity|].
  - split; [vm_compute; reflexivity..|exact box0_ok].
  - exists p'. split; [exact R|exact Ho].
Defined.

Definition claimable0 : Setup :=
  set_su_wrapped (js "00") (set_su_sk (bytesToHex key0) (set_su_mnemonic (bip39_phrase key1)
    (set_su_code (js "000000") (set_su_saved true (set_su_pk (bytesToHex (x25519_pk key0)) setup0))))).

Lemma claimable0_ok : claimable claimable0 private_invite (bytesToHex (x25519_pk key0)) key0 key1.
Proof. split; first [vm_compute; reflexivity | split; first [exact key0_ok | exact key1_ok | vm_compute; reflexivity]]. Defined.

(** A server that finds every password valid. *)
Definition trusting : world := {| respond _ _ := json_reply (JObj [(js "valid", JBool true)]); answer _ _ := true |}.

(** The settings as the server keeps them, among others. *)
Definition kept_settings (posted : json) : json := JObj [str_member "signature" (js "Best, Ada");
  str_member "recovery_phrase_salt" (str_field posted "recovery_phrase_salt");
  str_member "recovery_phrase_wrapped" (str_field posted "recovery_phrase_wrapped")].

Definition with_settings (settings : json) : Security := set_sc_settings (Some settings) tab0.

Lemma sealed_phrase_comes_back_witness :
  exists settings p3 p4 hex,
    fst (run trusting no_trace (sample_app, with_settings settings) handleRevealPhrase) = (Ok tt, (sample_app, p3)) /\
    rf_phrase (sc_reveal p3) = Some (bip39_phrase key1) /\
    fst (run trusting no_trace (sample_app, with_settings settings) (handleExportPrivateKey props0)) =
      (Ok tt, (sample_app, p4)) /\
    ef_key (sc_export p4) = Some hex /\ hex = bytesToHex (bip39_phrase key1) /\ hex <> bytesToHex key0.
Proof.
  destruct (@sealed_phrase_comes_back toy_crypto toy_laws ascii_unicode panel_env props0 claim_draws claims no_trace
    sample_app claimable0 private_invite (bytesToHex (x25519_pk key0)) key0 key1
    (toy_key (js "correct horse battery" ++ salt0)) (JObj [str_member "token" (js "s1")]))
    as (s' & p' & settings & _ & H);
    [exact claimable0_ok|by_decide|reflexivity|exact nonce0_ok|vm_compute; reflexivity|vm_compute; reflexivity|
     discriminate|].
  assert (V : says_valid (json_reply (JObj [(js "valid", JBool true)])))
    by (exists (JObj [(js "valid", JBool true)]); split_and!; [vm_compute; reflexivity|discriminate|reflexivity]).
  set (kept := kept_settings settings).
  destruct (H kept trusting no_trace sample_app (with_settings kept) (conj eq_refl eq_refl) eq_refl) as [H1 H2].
  destruct (H1 eq_refl V) as (p3 & R3 & E3). destruct (H2 eq_refl V eq_refl) as (p4 & hex & R4 & E4 & Ehex & Hx).
  exists kept, p3, p4, hex. rewrite R3, R4.
  split_and!; [reflexivity|exact E3|reflexivity|exact E4|rewrite Ehex; vm_compute; reflexivity|exact (Hx key0 key0_ok)].
Defined.
