(* ===== verification/OrgContext.v ===== *)
(** * The session of the control plane's pages

    control-plane/src/context/OrgContext.tsx and components/AuthGuard.tsx: who is signed
    in, fetched when the dashboard is made and shared by its pages, and the guard that lets
    administrators in.  With it stand the resources of the pages: the value last fetched
    and the failure of the last fetch, as SolidJS documents them; a reply that a later
    fetch has overtaken is dropped. *)

From S2P Require Import Prelude JsString Json Client Api MailView Reading MailboxData Page ControlApi.

Record UserProfile := { up_id : jstr; up_email : jstr; up_name : jstr }.

Record Org := {
  og_user : option UserProfile;
  og_id : jstr;
  og_role : option jstr;
  og_plan : jstr;
  og_loading : bool }.

Definition set_og_user (v : option UserProfile) (x : Org) : Org := {|
  og_user := v; og_id := og_id x; og_role := og_role x; og_plan := og_plan x; og_loading := og_loading x |}.
Definition set_og_id (v : jstr) (x : Org) : Org := {|
  og_user := og_user x; og_id := v; og_role := og_role x; og_plan := og_plan x; og_loading := og_loading x |}.
Definition set_og_role (v : option jstr) (x : Org) : Org := {|
  og_user := og_user x; og_id := og_id x; og_role := v; og_plan := og_plan x; og_loading := og_loading x |}.
Definition set_og_plan (v : jstr) (x : Org) : Org := {|
  og_user := og_user x; og_id := og_id x; og_role := og_role x; og_plan := v; og_loading := og_loading x |}.
Definition set_og_loading (v : bool) (x : Org) : Org := {|
  og_user := og_user x; og_id := og_id x; og_role := og_role x; og_plan := og_plan x; og_loading := v |}.

Definition new_org : Org :=
  {| og_user := None; og_id := []; og_role := None; og_plan := js "solo"; og_loading := true |}.

Definition is_role (r : string) (o : Org) : bool :=
  match og_role o with Some x => jeqb x (js r) | None => false end.

Definition isOwner (o : Org) : bool := is_role "owner" o.
Definition isAdmin (o : Org) : bool := is_role "admin" o || is_role "owner" o.
Definition isMember (o : Org) : bool := is_role "member" o.
Definition isAuthenticated (o : Org) : bool :=
  match og_user o with Some _ => truthy (og_id o) | None => false end.

Notation session_of := (prog (Panel * Org)).

Section OrgContext.
Context `{Env}.

Definition no_session (o : Org) : Org :=
  set_og_plan (js "solo") (set_og_role None (set_og_id [] (set_og_user None o))).

Definition local_name (email : jstr) : jstr := default [] (head (split_on 64 email)).

Definition show_session (data : json) (o : Org) : Org :=
  let email := str_field data "email" in
  let name := or_default (str_field data "display_name") (or_default (local_name email) (js "User")) in
  set_og_plan (or_default (str_field data "plan") (js "solo"))
    (set_og_role (Some (or_default (str_field data "role") (js "member")))
      (set_og_id (or_default (str_field data "org_id") (str_field data "organization_id"))
        (set_og_user (Some {| up_id := or_default (str_field data "id") (str_field data "user_id");
                              up_email := email; up_name := name |}) o))).

(** [res.ok ? await res.json() : no session]; [null] has no properties to read. *)
Definition session_data (r : reply) : outcome (option json) :=
  match r with
  | NetworkFailure e => Throw e
  | Response st _ data =>
      if response_ok st then
        v ← response_json data;
        match v with JNull => throw "TypeError" | _ => Ok (Some v) end
      else Ok None
  end.

Definition fetchSession : session_of unit :=
  _ ← on_page (set_og_loading true);
  finally
    (pcatch
       (s ← below (gets (fun s => s));
        r ← below (fetch (cp_request "GET" (js "/v1/auth/me") (getCpHeaders json_type s) (js "include") NoBody));
        d ← lift (session_data r);
        on_page (match d with Some data => show_session data | None => no_session end))
       (fun _ => on_page no_session))
    (on_page (set_og_loading false)).

(** The page is then left for the sign-in page. *)
Definition org_logout : session_of unit :=
  _ ← below (modify (fun s => set_store (delete cp_token_item (cp_store s)) s));
  finally
    (pcatch
       (s ← below (gets (fun s => s));
        r ← below (fetch (cp_request "POST" (js "/v1/auth/logout") (getCpHeaders [] s) (js "include") NoBody));
        match r with NetworkFailure e => lift (Throw e) | Response _ _ _ => skip end)
       (fun _ => skip))
    (on_page no_session).

(** ** The guard *)

Inductive Shown := Verifying | SessionRequired | MemberAccount | Dashboard | Nothing.

Definition guard_shows (o : Org) : Shown :=
  if og_loading o then Verifying
  else if negb (isAuthenticated o) then SessionRequired
  else if isMember o then MemberAccount
  else if isAdmin o then Dashboard
  else Nothing.

(** Where the effect sends the browser, if anywhere; [webmail] is the configured address. *)
Definition guard_redirect (path webmail : jstr) (o : Org) : outcome (option jstr) :=
  if og_loading o then Ok None
  else if negb (isAuthenticated o) then
    if truthy path && negb (jeqb path (js "/login"))
    then p ← encodeURIComponent path; Ok (Some (js "/login?redirect=" ++ p)) else Ok (Some (js "/login"))
  else if isMember o then Ok (Some webmail)
  else Ok None.

End OrgContext.

(** ** Resources *)

Record Resource (A : Type) := { rs_value : option A; rs_error : option js_error; rs_seq : nat }.
Arguments rs_value {A}.
Arguments rs_error {A}.
Arguments rs_seq {A}.

Definition new_resource {A} : Resource A := {| rs_value := None; rs_error := None; rs_seq := 0 |}.

(** Reading a resource whose last fetch failed throws. *)
Definition read {A} (r : Resource A) : outcome (option A) :=
  match rs_error r with Some e => Throw e | None => Ok (rs_value r) end.

Definition start_fetch {A} (r : Resource A) : Resource A :=
  {| rs_value := rs_value r; rs_error := rs_error r; rs_seq := S (rs_seq r) |}.

Definition end_fetch {A} (seq : nat) (res : outcome A) (r : Resource A) : Resource A :=
  if (rs_seq r =? seq)%nat then
    match res with
    | Ok a => {| rs_value := Some a; rs_error := None; rs_seq := rs_seq r |}
    | Throw e => {| rs_value := rs_value r; rs_error := Some e; rs_seq := rs_seq r |}
    end
  else r.

Section Resources.
Context {S G A : Type}.
Variables (get : G -> Resource A) (set : Resource A -> G -> G).

(** [refetch()] resolves whatever the fetcher does. *)
Definition refetch (fetcher : prog (S * G) A) : prog (S * G) unit :=
  _ ← on_page (fun p => set (start_fetch (get p)) p);
  p ← page (G:=G);
  let seq := rs_seq (get p) in
  pcatch
    (v ← fetcher; on_page (fun p => set (end_fetch seq (Ok v) (get p)) p))
    (fun e => on_page (fun p => set (end_fetch seq (Throw e) (get p)) p)).

End Resources.

(** ** Pages *)

Record Banner := { good : bool; banner_text : jstr }.

Definition success (t : jstr) : option Banner := Some {| good := true; banner_text := t |}.
Definition failure (t : jstr) : option Banner := Some {| good := false; banner_text := t |}.

(** [parsed as T[]]; the interface declares a list. *)
Definition as_list (v : json) : list json := match v with JArr l => l | _ => [] end.

(** The list a resource holds, [?? []]; reading a failed one throws. *)
Definition listed (r : Resource (list json)) : outcome (list json) := l ← read r; Ok (default [] l).

(** [e instanceof Error ? e.message : ""] *)
Definition thrown_message (e : js_error) : jstr := match e with JsError m _ => m | JsThrown _ => [] end.

(** [d.is_verified || d.verified] *)
Definition is_verified_domain (d : json) : bool := bool_field d "is_verified" || bool_field d "verified".

Section Pages.
Context {G : Type}.

(** A call of the API from a page. *)
Definition api {A} (p : prog Panel A) : prog ((Panel * Org) * G) A := below (below p).

Definition org_id : prog ((Panel * Org) * G) jstr := below (gets (fun s => og_id (snd s))).

(** [setTimeout(() => ..., ...)] *)
Definition later (f : G -> G) : prog ((Panel * Org) * G) unit := spawn (_ ← wait; on_page f).

(** A fetcher that runs with the id of the organization; without one there is nothing to fetch. *)
Definition or_empty {A} (empty : A) (call : jstr -> prog Panel A) (failed : js_error -> outcome A) : prog ((Panel * Org) * G) A :=
  i ← org_id;
  if truthy i then pcatch (api (call i)) (fun e => lift (failed e)) else mret empty.

Lemma run_api {A} w t s o (g : G) (p : prog Panel A) :
  run w t ((s, o), g) (api p) = let '(r, s', t') := run w t s p in (r, ((s', o), g), t').
Proof. unfold api. rewrite !run_below. by destruct (run w t s p) as [[r s'] t']. Qed.

Lemma run_org_id {B} w t s o (g : G) (k : jstr -> prog ((Panel * Org) * G) B) :
  run w t ((s, o), g) (org_id ≫= k) = run w t ((s, o), g) (k (og_id o)).
Proof. unfold org_id. by rewrite run_bind, run_below. Qed.

End Pages.

(** ** Who gets in *)

Section Guard.
Context `{HE : Env}.

Definition me_request (s : Panel) : request :=
  cp_request "GET" (js "/v1/auth/me") (getCpHeaders json_type s) (js "include") NoBody.

(** What a page of the dashboard knows after the session was fetched. *)
Definition session_after (r : outcome (option json)) (o : Org) : Org :=
  match r with Ok (Some data) => show_session data o | _ => no_session o end.

Lemma run_fetchSession w t s o :
  run w t (s, o) fetchSession =
  (Ok tt, (s, set_og_loading false (session_after (session_data (respond w t (me_request s))) (set_og_loading true o))),
   ask (me_request s) t).
Proof.
  unfold fetchSession. rewrite run_bind, run_on_page, run_finally, run_catch, run_bind, run_below. cbn [gets run].
  rewrite run_bind, run_below. cbn [fetch run]. fold (me_request s).
  destruct (session_data (respond w t (me_request s))) as [[d|]|e]; rewrite bind_lift;
    rewrite ?run_on_page; cbv beta iota; by rewrite ?run_on_page.
Qed.

(** What a reply says of the user: an organization or none, and in which role. *)
Definition names_org (data : json) : bool :=
  truthy (or_default (str_field data "org_id") (str_field data "organization_id")).

Definition named_role (data : json) : jstr := or_default (str_field data "role") (js "member").

Definition names_admin (data : json) : bool :=
  names_org data && (jeqb (named_role data) (js "admin") || jeqb (named_role data) (js "owner")).

(** The addresses of the dashboard's pages, and how one is written into a query. *)
Definition path_char (u : Z) : bool := ascii_alnum u || (u =? 45) || (u =? 47).

Definition escaped_path (s : jstr) : jstr := concat (map (fun u => if u =? 47 then js "%2F" else [u]) s).

Lemma path_char_encoded u : path_char u = true -> encode_unit u = (if u =? 47 then js "%2F" else [u]).
Proof.
  unfold path_char, encode_unit, uri_unreserved. intros Hu. destruct (u =? 47) eqn:E.
  - apply Z.eqb_eq in E as ->. reflexivity.
  - rewrite orb_false_r in Hu. apply orb_true_iff in Hu as [-> | ->%Z.eqb_eq]; reflexivity.
Qed.

Lemma encode_path s : forallb path_char s = true -> encodeURIComponent s = Ok (escaped_path s).
Proof.
  intros Hs.
  assert (Ha : forallb is_ascii s = true).
  { apply forallb_forall. intros u Hu. rewrite forallb_forall in Hs. specialize (Hs u Hu).
    unfold path_char, is_ascii, ascii_alnum in *. lia. }
  unfold encodeURIComponent. rewrite well_formed_ascii, TextEncoder_ascii by done.
  unfold escaped_path. do 2 f_equal. apply map_ext_in. intros u Hu.
  apply path_char_encoded. rewrite forallb_forall in Hs. by apply Hs.
Qed.

Lemma guard_without_session path webmail o :
  og_loading o = false -> isAuthenticated o = false ->
  forallb path_char path = true -> truthy path = true -> path <> js "/login" ->
  guard_shows o = SessionRequired /\
  guard_redirect path webmail o = Ok (Some (js "/login?redirect=" ++ escaped_path path)).
Proof.
  intros El Ea Hc Ht Hl. unfold guard_shows, guard_redirect. rewrite El, Ea, Ht, encode_path by done.
  cbn [negb andb]. unfold jeqb. rewrite bool_decide_eq_false_2 by done. done.
Qed.

(** C12.  The guard of the dashboard.  Whatever the server answers and whatever was known
    before, fetching the session asks one question and ends.  A page of the dashboard is
    then shown exactly when the answer is a session of an organization whose role is
    administrator or owner, and the browser stays; a member is sent to the webmail's
    address; without a session, or with one of no organization, the browser is sent to the
    sign-in page with the page it was on, its slashes escaped, as the one to return to. *)
Theorem only_administrators_enter w t s o path webmail :
  let answer := session_data (respond w t (me_request s)) in
  exists o', run w t (s, o) fetchSession = (Ok tt, (s, o'), ask (me_request s) t) /\
    (guard_shows o' = Dashboard <-> exists data, answer = Ok (Some data) /\ names_admin data = true) /\
    (guard_shows o' = Dashboard -> guard_redirect path webmail o' = Ok None) /\
    (forall data, answer = Ok (Some data) -> names_org data = true -> named_role data = js "member" ->
     guard_shows o' = MemberAccount /\ guard_redirect path webmail o' = Ok (Some webmail)) /\
    ((forall data, answer = Ok (Some data) -> names_org data = false) ->
     forall page, path = js "/dashboard" ++ page -> forallb path_char page = true ->
     guard_shows o' = SessionRequired /\
     guard_redirect path webmail o' = Ok (Some (js "/login?redirect=%2Fdashboard" ++ escaped_path page))).
Proof.
  intros answer. eexists. split; [apply run_fetchSession|]. fold answer.
  set (o' := set_og_loading false _).
  assert (Hout : isAuthenticated o' = false -> forall page, path = js "/dashboard" ++ page ->
    forallb path_char page = true -> guard_shows o' = SessionRequired /\
    guard_redirect path webmail o' = Ok (Some (js "/login?redirect=%2Fdashboard" ++ escaped_path page))).
  { intros Ea page -> Hp. change (js "/login?redirect=%2Fdashboard" ++ escaped_path page) with
      (js "/login?redirect=" ++ escaped_path (js "/dashboard" ++ page)).
    apply guard_without_session; try done. }
  destruct answer as [[data|]|e]; cbn [session_after] in o'.
  2,3: split_and!; [split; [done|by intros (d & [=] & _)]|done|done|intros _; by apply Hout].
  assert (Ea : isAuthenticated o' = names_org data) by reflexivity.
  assert (Er : og_role o' = Some (named_role data)) by reflexivity.
  assert (Es : guard_shows o' = if names_org data then
      if jeqb (named_role data) (js "member") then MemberAccount
      else if jeqb (named_role data) (js "admin") || jeqb (named_role data) (js "owner") then Dashboard else Nothing
      else SessionRequired).
  { unfold guard_shows, isMember, isAdmin, is_role. rewrite Ea, Er. by destruct (names_org data). }
  assert (Eg : names_org data = true -> guard_redirect path webmail o' =
      if jeqb (named_role data) (js "member") then Ok (Some webmail) else Ok None).
  { intros En. unfold guard_redirect, isMember, is_role. by rewrite Ea, Er, En. }
  assert (Ex : names_admin data = true -> jeqb (named_role data) (js "member") = false).
  { unfold names_admin, jeqb. intros [_ [H|H]%orb_true_iff]%andb_true_iff; apply bool_decide_eq_true in H;
      rewrite H; reflexivity. }
  unfold names_admin in *. split_and!.
  - rewrite Es. split.
    + intros Hs. exists data. split; [done|]. by destruct (names_org data), (jeqb _ (js "member")), (_ || _).
    + intros (d & [= <-] & Hd). pose proof (Ex Hd) as Em. apply andb_true_iff in Hd as [-> ->]. by rewrite Em.
  - rewrite Es. intros Hs. destruct (names_org data); [|done]. rewrite Eg by done. by destruct (jeqb _ (js "member")).
  - intros d [= <-] En Em. rewrite Es, Eg, En, Em by done. done.
  - intros Hn. specialize (Hn data eq_refl). intros page. apply Hout. by rewrite Ea.
Qed.

(** Leaving takes the token away first, so that the request carries none. *)
Theorem logout_forgets_the_session w t s o :
  exists s' t', run w t (s, o) org_logout = (Ok tt, (s', no_session o), t') /\
    cp_store s' !! cp_token_item = None /\ isAuthenticated (no_session o) = false /\
    sent t' = sent t ++ [cp_request "POST" (js "/v1/auth/logout") [(js "X-BYOS-Client", js "control-plane")] (js "include") NoBody].
Proof.
  set (s' := set_store (delete cp_token_item (cp_store s)) s).
  assert (Hd : cp_store s' !! cp_token_item = None) by apply lookup_delete_eq.
  assert (Eh : getCpHeaders [] s' = [(js "X-BYOS-Client", js "control-plane")]) by (unfold getCpHeaders; by rewrite Hd).
  unfold org_logout. rewrite run_bind, run_below. cbn [modify run]. fold s'.
  rewrite run_finally, run_catch, run_bind, run_below. cbn [gets run]. rewrite run_bind, run_below. cbn [fetch run].
  rewrite Eh. exists s'. destruct (respond _ _ _); eexists; split; try reflexivity; done.
Qed.

End Guard.

(** ** A concrete run *)

#[local] Existing Instance sample_env.

Definition refuses : world := {| respond _ _ := Response 401 [] None; answer _ _ := true |}.

Lemma only_administrators_enter_witness :
  let s := {| cp_store := ∅; byos_user_id := [] |} in
  let o' := snd (snd (fst (run refuses no_trace (s, new_org) fetchSession))) in
  guard_shows o' = SessionRequired /\
  guard_redirect (js "/dashboard/domains") (js "http://127.0.0.1:3001") o' =
    Ok (Some (js "/login?redirect=%2Fdashboard%2Fdomains")).
Proof.
  intros s. destruct (only_administrators_enter refuses no_trace s new_org (js "/dashboard/domains")
    (js "http://127.0.0.1:3001")) as (o' & E & _ & _ & _ & Ho). rewrite E. cbv zeta. cbn [fst snd].
  apply (Ho ltac:(done) (js "/domains")); reflexivity.
Defined.
