(* ===== verification/MailboxesPage.v ===== *)
(** * The mailboxes page of the control plane

    control-plane/src/routes/dashboard/mailboxes.tsx: inviting mailboxes, their aliases, access and
    deletion by administrators, and the recovery of a mailbox's key with the organization's
    key file.  The page's signals and resources stand beside the panel and the session its
    pages share.  What the page does to the browser - windows it opens, files it saves, the
    clipboard - is recorded in the state; a chosen file is the text it reads as. *)

From S2P Require Import Prelude JsString Encoding Json Wasm MessageCrypto Client Api MailView Reading MailboxData SignIn.
From S2P Require Import ControlApi ControlKeys OrgContext Page.

Inductive BoxTab := BoxesTab | AliasesTab.

Record MailboxesPage := {
  mb_tab : BoxTab;
  mb_local : jstr;
  mb_name : jstr;
  mb_domain : jstr;
  mb_new_mode : jstr;
  mb_invite : option json;
  mb_copied : bool;
  mb_accessing : option jstr;
  mb_invites : gmap jstr jstr;
  mb_banner : option Banner;
  mb_creating : bool;
  mb_recover_box : jstr;
  mb_recover_file : option (outcome jstr);
  mb_recovering : bool;
  mb_delete_target : option json;
  mb_deleting : bool;
  mb_alias_local : jstr;
  mb_alias_box : jstr;
  mb_alias_domain : jstr;
  mb_creating_alias : bool;
  mb_deleting_alias : jstr;
  mb_domains : Resource (list json);
  mb_boxes : Resource (list json);
  mb_aliases : Resource (list json);
  mb_billing : Resource json;
  mb_opened : list jstr;
  mb_saved : list (jstr * jstr);
  mb_clipboard : option jstr }.

Definition set_mb_tab (v : BoxTab) (x : MailboxesPage) : MailboxesPage := {|
  mb_tab := v; mb_local := mb_local x; mb_name := mb_name x; mb_domain := mb_domain x; mb_new_mode :=
    mb_new_mode x; mb_invite := mb_invite x; mb_copied := mb_copied x; mb_accessing := mb_accessing x;
    mb_invites := mb_invites x; mb_banner := mb_banner x; mb_creating := mb_creating x; mb_recover_box :=
    mb_recover_box x; mb_recover_file := mb_recover_file x; mb_recovering := mb_recovering x; mb_delete_target
    := mb_delete_target x; mb_deleting := mb_deleting x; mb_alias_local := mb_alias_local x; mb_alias_box :=
    mb_alias_box x; mb_alias_domain := mb_alias_domain x; mb_creating_alias := mb_creating_alias x;
    mb_deleting_alias := mb_deleting_alias x; mb_domains := mb_domains x; mb_boxes := mb_boxes x; mb_aliases :=
    mb_aliases x; mb_billing := mb_billing x; mb_opened := mb_opened x; mb_saved := mb_saved x; mb_clipboard :=
    mb_clipboard x |}.
Definition set_mb_local (v : jstr) (x : MailboxesPage) : MailboxesPage := {|
  mb_tab := mb_tab x; mb_local := v; mb_name := mb_name x; mb_domain := mb_domain x; mb_new_mode := mb_new_mode
    x; mb_invite := mb_invite x; mb_copied := mb_copied x; mb_accessing := mb_accessing x; mb_invites :=
    mb_invites x; mb_banner := mb_banner x; mb_creating := mb_creating x; mb_recover_box := mb_recover_box x;
    mb_recover_file := mb_recover_file x; mb_recovering := mb_recovering x; mb_delete_target := mb_delete_target
    x; mb_deleting := mb_deleting x; mb_alias_local := mb_alias_local x; mb_alias_box := mb_alias_box x;
    mb_alias_domain := mb_alias_domain x; mb_creating_alias := mb_creating_alias x; mb_deleting_alias :=
    mb_deleting_alias x; mb_domains := mb_domains x; mb_boxes := mb_boxes x; mb_aliases := mb_aliases x;
    mb_billing := mb_billing x; mb_opened := mb_opened x; mb_saved := mb_saved x; mb_clipboard := mb_clipboard x
    |}.
Definition set_mb_name (v : jstr) (x : MailboxesPage) : MailboxesPage := {|
  mb_tab := mb_tab x; mb_local := mb_local x; mb_name := v; mb_domain := mb_domain x; mb_new_mode := mb_new_mode
    x; mb_invite := mb_invite x; mb_copied := mb_copied x; mb_accessing := mb_accessing x; mb_invites :=
    mb_invites x; mb_banner := mb_banner x; mb_creating := mb_creating x; mb_recover_box := mb_recover_box x;
    mb_recover_file := mb_recover_file x; mb_recovering := mb_recovering x; mb_delete_target := mb_delete_target
    x; mb_deleting := mb_deleting x; mb_alias_local := mb_alias_local x; mb_alias_box := mb_alias_box x;
    mb_alias_domain := mb_alias_domain x; mb_creating_alias := mb_creating_alias x; mb_deleting_alias :=
    mb_deleting_alias x; mb_domains := mb_domains x; mb_boxes := mb_boxes x; mb_aliases := mb_aliases x;
    mb_billing := mb_billing x; mb_opened := mb_opened x; mb_saved := mb_saved x; mb_clipboard := mb_clipboard x
    |}.
Definition set_mb_domain (v : jstr) (x : MailboxesPage) : MailboxesPage := {|
  mb_tab := mb_tab x; mb_local := mb_local x; mb_name := mb_name x; mb_domain := v; mb_new_mode := mb_new_mode
    x; mb_invite := mb_invite x; mb_copied := mb_copied x; mb_accessing := mb_accessing x; mb_invites :=
    mb_invites x; mb_banner := mb_banner x; mb_creating := mb_creating x; mb_recover_box := mb_recover_box x;
    mb_recover_file := mb_recover_file x; mb_recovering := mb_recovering x; mb_delete_target := mb_delete_target
    x; mb_deleting := mb_deleting x; mb_alias_local := mb_alias_local x; mb_alias_box := mb_alias_box x;
    mb_alias_domain := mb_alias_domain x; mb_creating_alias := mb_creating_alias x; mb_deleting_alias :=
    mb_deleting_alias x; mb_domains := mb_domains x; mb_boxes := mb_boxes x; mb_aliases := mb_aliases x;
    mb_billing := mb_billing x; mb_opened := mb_opened x; mb_saved := mb_saved x; mb_clipboard := mb_clipboard x
    |}.
Definition set_mb_new_mode (v : jstr) (x : MailboxesPage) : MailboxesPage := {|
  mb_tab := mb_tab x; mb_local := mb_local x; mb_name := mb_name x; mb_domain := mb_domain x; mb_new_mode := v;
    mb_invite := mb_invite x; mb_copied := mb_copied x; mb_accessing := mb_accessing x; mb_invites := mb_invites
    x; mb_banner := mb_banner x; mb_creating := mb_creating x; mb_recover_box := mb_recover_box x;
    mb_recover_file := mb_recover_file x; mb_recovering := mb_recovering x; mb_delete_target := mb_delete_target
    x; mb_deleting := mb_deleting x; mb_alias_local := mb_alias_local x; mb_alias_box := mb_alias_box x;
    mb_alias_domain := mb_alias_domain x; mb_creating_alias := mb_creating_alias x; mb_deleting_alias :=
    mb_deleting_alias x; mb_domains := mb_domains x; mb_boxes := mb_boxes x; mb_aliases := mb_aliases x;
    mb_billing := mb_billing x; mb_opened := mb_opened x; mb_saved := mb_saved x; mb_clipboard := mb_clipboard x
    |}.
Definition set_mb_invite (v : option json) (x : MailboxesPage) : MailboxesPage := {|
  mb_tab := mb_tab x; mb_local := mb_local x; mb_name := mb_name x; mb_domain := mb_domain x; mb_new_mode :=
    mb_new_mode x; mb_invite := v; mb_copied := mb_copied x; mb_accessing := mb_accessing x; mb_invites :=
    mb_invites x; mb_banner := mb_banner x; mb_creating := mb_creating x; mb_recover_box := mb_recover_box x;
    mb_recover_file := mb_recover_file x; mb_recovering := mb_recovering x; mb_delete_target := mb_delete_target
    x; mb_deleting := mb_deleting x; mb_alias_local := mb_alias_local x; mb_alias_box := mb_alias_box x;
    mb_alias_domain := mb_alias_domain x; mb_creating_alias := mb_creating_alias x; mb_deleting_alias :=
    mb_deleting_alias x; mb_domains := mb_domains x; mb_boxes := mb_boxes x; mb_aliases := mb_aliases x;
    mb_billing := mb_billing x; mb_opened := mb_opened x; mb_saved := mb_saved x; mb_clipboard := mb_clipboard x
    |}.
Definition set_mb_copied (v : bool) (x : MailboxesPage) : MailboxesPage := {|
  mb_tab := mb_tab x; mb_local := mb_local x; mb_name := mb_name x; mb_domain := mb_domain x; mb_new_mode :=
    mb_new_mode x; mb_invite := mb_invite x; mb_copied := v; mb_accessing := mb_accessing x; mb_invites :=
    mb_invites x; mb_banner := mb_banner x; mb_creating := mb_creating x; mb_recover_box := mb_recover_box x;
    mb_recover_file := mb_recover_file x; mb_recovering := mb_recovering x; mb_delete_target := mb_delete_target
    x; mb_deleting := mb_deleting x; mb_alias_local := mb_alias_local x; mb_alias_box := mb_alias_box x;
    mb_alias_domain := mb_alias_domain x; mb_creating_alias := mb_creating_alias x; mb_deleting_alias :=
    mb_deleting_alias x; mb_domains := mb_domains x; mb_boxes := mb_boxes x; mb_aliases := mb_aliases x;
    mb_billing := mb_billing x; mb_opened := mb_opened x; mb_saved := mb_saved x; mb_clipboard := mb_clipboard x
    |}.
Definition set_mb_accessing (v : option jstr) (x : MailboxesPage) : MailboxesPage := {|
  mb_tab := mb_tab x; mb_local := mb_local x; mb_name := mb_name x; mb_domain := mb_domain x; mb_new_mode :=
    mb_new_mode x; mb_invite := mb_invite x; mb_copied := mb_copied x; mb_accessing := v; mb_invites :=
    mb_invites x; mb_banner := mb_banner x; mb_creating := mb_creating x; mb_recover_box := mb_recover_box x;
    mb_recover_file := mb_recover_file x; mb_recovering := mb_recovering x; mb_delete_target := mb_delete_target
    x; mb_deleting := mb_deleting x; mb_alias_local := mb_alias_local x; mb_alias_box := mb_alias_box x;
    mb_alias_domain := mb_alias_domain x; mb_creating_alias := mb_creating_alias x; mb_deleting_alias :=
    mb_deleting_alias x; mb_domains := mb_domains x; mb_boxes := mb_boxes x; mb_aliases := mb_aliases x;
    mb_billing := mb_billing x; mb_opened := mb_opened x; mb_saved := mb_saved x; mb_clipboard := mb_clipboard x
    |}.
Definition set_mb_invites (v : gmap jstr jstr) (x : MailboxesPage) : MailboxesPage := {|
  mb_tab := mb_tab x; mb_local := mb_local x; mb_name := mb_name x; mb_domain := mb_domain x; mb_new_mode :=
    mb_new_mode x; mb_invite := mb_invite x; mb_copied := mb_copied x; mb_accessing := mb_accessing x;
    mb_invites := v; mb_banner := mb_banner x; mb_creating := mb_creating x; mb_recover_box := mb_recover_box x;
    mb_recover_file := mb_recover_file x; mb_recovering := mb_recovering x; mb_delete_target := mb_delete_target
    x; mb_deleting := mb_deleting x; mb_alias_local := mb_alias_local x; mb_alias_box := mb_alias_box x;
    mb_alias_domain := mb_alias_domain x; mb_creating_alias := mb_creating_alias x; mb_deleting_alias :=
    mb_deleting_alias x; mb_domains := mb_domains x; mb_boxes := mb_boxes x; mb_aliases := mb_aliases x;
    mb_billing := mb_billing x; mb_opened := mb_opened x; mb_saved := mb_saved x; mb_clipboard := mb_clipboard x
    |}.
Definition set_mb_banner (v : option Banner) (x : MailboxesPage) : MailboxesPage := {|
  mb_tab := mb_tab x; mb_local := mb_local x; mb_name := mb_name x; mb_domain := mb_domain x; mb_new_mode :=
    mb_new_mode x; mb_invite := mb_invite x; mb_copied := mb_copied x; mb_accessing := mb_accessing x;
    mb_invites := mb_invites x; mb_banner := v; mb_creating := mb_creating x; mb_recover_box := mb_recover_box
    x; mb_recover_file := mb_recover_file x; mb_recovering := mb_recovering x; mb_delete_target :=
    mb_delete_target x; mb_deleting := mb_deleting x; mb_alias_local := mb_alias_local x; mb_alias_box :=
    mb_alias_box x; mb_alias_domain := mb_alias_domain x; mb_creating_alias := mb_creating_alias x;
    mb_deleting_alias := mb_deleting_alias x; mb_domains := mb_domains x; mb_boxes := mb_boxes x; mb_aliases :=
    mb_aliases x; mb_billing := mb_billing x; mb_opened := mb_opened x; mb_saved := mb_saved x; mb_clipboard :=
    mb_clipboard x |}.
Definition set_mb_creating (v : bool) (x : MailboxesPage) : MailboxesPage := {|
  mb_tab := mb_tab x; mb_local := mb_local x; mb_name := mb_name x; mb_domain := mb_domain x; mb_new_mode :=
    mb_new_mode x; mb_invite := mb_invite x; mb_copied := mb_copied x; mb_accessing := mb_accessing x;
    mb_invites := mb_invites x; mb_banner := mb_banner x; mb_creating := v; mb_recover_box := mb_recover_box x;
    mb_recover_file := mb_recover_file x; mb_recovering := mb_recovering x; mb_delete_target := mb_delete_target
    x; mb_deleting := mb_deleting x; mb_alias_local := mb_alias_local x; mb_alias_box := mb_alias_box x;
    mb_alias_domain := mb_alias_domain x; mb_creating_alias := mb_creating_alias x; mb_deleting_alias :=
    mb_deleting_alias x; mb_domains := mb_domains x; mb_boxes := mb_boxes x; mb_aliases := mb_aliases x;
    mb_billing := mb_billing x; mb_opened := mb_opened x; mb_saved := mb_saved x; mb_clipboard := mb_clipboard x
    |}.
Definition set_mb_recover_box (v : jstr) (x : MailboxesPage) : MailboxesPage := {|
  mb_tab := mb_tab x; mb_local := mb_local x; mb_name := mb_name x; mb_domain := mb_domain x; mb_new_mode :=
    mb_new_mode x; mb_invite := mb_invite x; mb_copied := mb_copied x; mb_accessing := mb_accessing x;
    mb_invites := mb_invites x; mb_banner := mb_banner x; mb_creating := mb_creating x; mb_recover_box := v;
    mb_recover_file := mb_recover_file x; mb_recovering := mb_recovering x; mb_delete_target := mb_delete_target
    x; mb_deleting := mb_deleting x; mb_alias_local := mb_alias_local x; mb_alias_box := mb_alias_box x;
    mb_alias_domain := mb_alias_domain x; mb_creating_alias := mb_creating_alias x; mb_deleting_alias :=
    mb_deleting_alias x; mb_domains := mb_domains x; mb_boxes := mb_boxes x; mb_aliases := mb_aliases x;
    mb_billing := mb_billing x; mb_opened := mb_opened x; mb_saved := mb_saved x; mb_clipboard := mb_clipboard x
    |}.
Definition set_mb_recover_file (v : option (outcome jstr)) (x : MailboxesPage) : MailboxesPage := {|
  mb_tab := mb_tab x; mb_local := mb_local x; mb_name := mb_name x; mb_domain := mb_domain x; mb_new_mode :=
    mb_new_mode x; mb_invite := mb_invite x; mb_copied := mb_copied x; mb_accessing := mb_accessing x;
    mb_invites := mb_invites x; mb_banner := mb_banner x; mb_creating := mb_creating x; mb_recover_box :=
    mb_recover_box x; mb_recover_file := v; mb_recovering := mb_recovering x; mb_delete_target :=
    mb_delete_target x; mb_deleting := mb_deleting x; mb_alias_local := mb_alias_local x; mb_alias_box :=
    mb_alias_box x; mb_alias_domain := mb_alias_domain x; mb_creating_alias := mb_creating_alias x;
    mb_deleting_alias := mb_deleting_alias x; mb_domains := mb_domains x; mb_boxes := mb_boxes x; mb_aliases :=
    mb_aliases x; mb_billing := mb_billing x; mb_opened := mb_opened x; mb_saved := mb_saved x; mb_clipboard :=
    mb_clipboard x |}.
Definition set_mb_recovering (v : bool) (x : MailboxesPage) : MailboxesPage := {|
  mb_tab := mb_tab x; mb_local := mb_local x; mb_name := mb_name x; mb_domain := mb_domain x; mb_new_mode :=
    mb_new_mode x; mb_invite := mb_invite x; mb_copied := mb_copied x; mb_accessing := mb_accessing x;
    mb_invites := mb_invites x; mb_banner := mb_banner x; mb_creating := mb_creating x; mb_recover_box :=
    mb_recover_box x; mb_recover_file := mb_recover_file x; mb_recovering := v; mb_delete_target :=
    mb_delete_target x; mb_deleting := mb_deleting x; mb_alias_local := mb_alias_local x; mb_alias_box :=
    mb_alias_box x; mb_alias_domain := mb_alias_domain x; mb_creating_alias := mb_creating_alias x;
    mb_deleting_alias := mb_deleting_alias x; mb_domains := mb_domains x; mb_boxes := mb_boxes x; mb_aliases :=
    mb_aliases x; mb_billing := mb_billing x; mb_opened := mb_opened x; mb_saved := mb_saved x; mb_clipboard :=
    mb_clipboard x |}.
Definition set_mb_delete_target (v : option json) (x : MailboxesPage) : MailboxesPage := {|
  mb_tab := mb_tab x; mb_local := mb_local x; mb_name := mb_name x; mb_domain := mb_domain x; mb_new_mode :=
    mb_new_mode x; mb_invite := mb_invite x; mb_copied := mb_copied x; mb_accessing := mb_accessing x;
    mb_invites := mb_invites x; mb_banner := mb_banner x; mb_creating := mb_creating x; mb_recover_box :=
    mb_recover_box x; mb_recover_file := mb_recover_file x; mb_recovering := mb_recovering x; mb_delete_target
    := v; mb_deleting := mb_deleting x; mb_alias_local := mb_alias_local x; mb_alias_box := mb_alias_box x;
    mb_alias_domain := mb_alias_domain x; mb_creating_alias := mb_creating_alias x; mb_deleting_alias :=
    mb_deleting_alias x; mb_domains := mb_domains x; mb_boxes := mb_boxes x; mb_aliases := mb_aliases x;
    mb_billing := mb_billing x; mb_opened := mb_opened x; mb_saved := mb_saved x; mb_clipboard := mb_clipboard x
    |}.
Definition set_mb_deleting (v : bool) (x : MailboxesPage) : MailboxesPage := {|
  mb_tab := mb_tab x; mb_local := mb_local x; mb_name := mb_name x; mb_domain := mb_domain x; mb_new_mode :=
    mb_new_mode x; mb_invite := mb_invite x; mb_copied := mb_copied x; mb_accessing := mb_accessing x;
    mb_invites := mb_invites x; mb_banner := mb_banner x; mb_creating := mb_creating x; mb_recover_box :=
    mb_recover_box x; mb_recover_file := mb_recover_file x; mb_recovering := mb_recovering x; mb_delete_target
    := mb_delete_target x; mb_deleting := v; mb_alias_local := mb_alias_local x; mb_alias_box := mb_alias_box x;
    mb_alias_domain := mb_alias_domain x; mb_creating_alias := mb_creating_alias x; mb_deleting_alias :=
    mb_deleting_alias x; mb_domains := mb_domains x; mb_boxes := mb_boxes x; mb_aliases := mb_aliases x;
    mb_billing := mb_billing x; mb_opened := mb_opened x; mb_saved := mb_saved x; mb_clipboard := mb_clipboard x
    |}.
Definition set_mb_alias_local (v : jstr) (x : MailboxesPage) : MailboxesPage := {|
  mb_tab := mb_tab x; mb_local := mb_local x; mb_name := mb_name x; mb_domain := mb_domain x; mb_new_mode :=
    mb_new_mode x; mb_invite := mb_invite x; mb_copied := mb_copied x; mb_accessing := mb_accessing x;
    mb_invites := mb_invites x; mb_banner := mb_banner x; mb_creating := mb_creating x; mb_recover_box :=
    mb_recover_box x; mb_recover_file := mb_recover_file x; mb_recovering := mb_recovering x; mb_delete_target
    := mb_delete_target x; mb_deleting := mb_deleting x; mb_alias_local := v; mb_alias_box := mb_alias_box x;
    mb_alias_domain := mb_alias_domain x; mb_creating_alias := mb_creating_alias x; mb_deleting_alias :=
    mb_deleting_alias x; mb_domains := mb_domains x; mb_boxes := mb_boxes x; mb_aliases := mb_aliases x;
    mb_billing := mb_billing x; mb_opened := mb_opened x; mb_saved := mb_saved x; mb_clipboard := mb_clipboard x
    |}.
Definition set_mb_alias_box (v : jstr) (x : MailboxesPage) : MailboxesPage := {|
  mb_tab := mb_tab x; mb_local := mb_local x; mb_name := mb_name x; mb_domain := mb_domain x; mb_new_mode :=
    mb_new_mode x; mb_invite := mb_invite x; mb_copied := mb_copied x; mb_accessing := mb_accessing x;
    mb_invites := mb_invites x; mb_banner := mb_banner x; mb_creating := mb_creating x; mb_recover_box :=
    mb_recover_box x; mb_recover_file := mb_recover_file x; mb_recovering := mb_recovering x; mb_delete_target
    := mb_delete_target x; mb_deleting := mb_deleting x; mb_alias_local := mb_alias_local x; mb_alias_box := v;
    mb_alias_domain := mb_alias_domain x; mb_creating_alias := mb_creating_alias x; mb_deleting_alias :=
    mb_deleting_alias x; mb_domains := mb_domains x; mb_boxes := mb_boxes x; mb_aliases := mb_aliases x;
    mb_billing := mb_billing x; mb_opened := mb_opened x; mb_saved := mb_saved x; mb_clipboard := mb_clipboard x
    |}.
Definition set_mb_alias_domain (v : jstr) (x : MailboxesPage) : MailboxesPage := {|
  mb_tab := mb_tab x; mb_local := mb_local x; mb_name := mb_name x; mb_domain := mb_domain x; mb_new_mode :=
    mb_new_mode x; mb_invite := mb_invite x; mb_copied := mb_copied x; mb_accessing := mb_accessing x;
    mb_invites := mb_invites x; mb_banner := mb_banner x; mb_creating := mb_creating x; mb_recover_box :=
    mb_recover_box x; mb_recover_file := mb_recover_file x; mb_recovering := mb_recovering x; mb_delete_target
    := mb_delete_target x; mb_deleting := mb_deleting x; mb_alias_local := mb_alias_local x; mb_alias_box :=
    mb_alias_box x; mb_alias_domain := v; mb_creating_alias := mb_creating_alias x; mb_deleting_alias :=
    mb_deleting_alias x; mb_domains := mb_domains x; mb_boxes := mb_boxes x; mb_aliases := mb_aliases x;
    mb_billing := mb_billing x; mb_opened := mb_opened x; mb_saved := mb_saved x; mb_clipboard := mb_clipboard x
    |}.
Definition set_mb_creating_alias (v : bool) (x : MailboxesPage) : MailboxesPage := {|
  mb_tab := mb_tab x; mb_local := mb_local x; mb_name := mb_name x; mb_domain := mb_domain x; mb_new_mode :=
    mb_new_mode x; mb_invite := mb_invite x; mb_copied := mb_copied x; mb_accessing := mb_accessing x;
    mb_invites := mb_invites x; mb_banner := mb_banner x; mb_creating := mb_creating x; mb_recover_box :=
    mb_recover_box x; mb_recover_file := mb_recover_file x; mb_recovering := mb_recovering x; mb_delete_target
    := mb_delete_target x; mb_deleting := mb_deleting x; mb_alias_local := mb_alias_local x; mb_alias_box :=
    mb_alias_box x; mb_alias_domain := mb_alias_domain x; mb_creating_alias := v; mb_deleting_alias :=
    mb_deleting_alias x; mb_domains := mb_domains x; mb_boxes := mb_boxes x; mb_aliases := mb_aliases x;
    mb_billing := mb_billing x; mb_opened := mb_opened x; mb_saved := mb_saved x; mb_clipboard := mb_clipboard x
    |}.
Definition set_mb_deleting_alias (v : jstr) (x : MailboxesPage) : MailboxesPage := {|
  mb_tab := mb_tab x; mb_local := mb_local x; mb_name := mb_name x; mb_domain := mb_domain x; mb_new_mode :=
    mb_new_mode x; mb_invite := mb_invite x; mb_copied := mb_copied x; mb_accessing := mb_accessing x;
    mb_invites := mb_invites x; mb_banner := mb_banner x; mb_creating := mb_creating x; mb_recover_box :=
    mb_recover_box x; mb_recover_file := mb_recover_file x; mb_recovering := mb_recovering x; mb_delete_target
    := mb_delete_target x; mb_deleting := mb_deleting x; mb_alias_local := mb_alias_local x; mb_alias_box :=
    mb_alias_box x; mb_alias_domain := mb_alias_domain x; mb_creating_alias := mb_creating_alias x;
    mb_deleting_alias := v; mb_domains := mb_domains x; mb_boxes := mb_boxes x; mb_aliases := mb_aliases x;
    mb_billing := mb_billing x; mb_opened := mb_opened x; mb_saved := mb_saved x; mb_clipboard := mb_clipboard x
    |}.
Definition set_mb_domains (v : Resource (list json)) (x : MailboxesPage) : MailboxesPage := {|
  mb_tab := mb_tab x; mb_local := mb_local x; mb_name := mb_name x; mb_domain := mb_domain x; mb_new_mode :=
    mb_new_mode x; mb_invite := mb_invite x; mb_copied := mb_copied x; mb_accessing := mb_accessing x;
    mb_invites := mb_invites x; mb_banner := mb_banner x; mb_creating := mb_creating x; mb_recover_box :=
    mb_recover_box x; mb_recover_file := mb_recover_file x; mb_recovering := mb_recovering x; mb_delete_target
    := mb_delete_target x; mb_deleting := mb_deleting x; mb_alias_local := mb_alias_local x; mb_alias_box :=
    mb_alias_box x; mb_alias_domain := mb_alias_domain x; mb_creating_alias := mb_creating_alias x;
    mb_deleting_alias := mb_deleting_alias x; mb_domains := v; mb_boxes := mb_boxes x; mb_aliases := mb_aliases
    x; mb_billing := mb_billing x; mb_opened := mb_opened x; mb_saved := mb_saved x; mb_clipboard :=
    mb_clipboard x |}.
Definition set_mb_boxes (v : Resource (list json)) (x : MailboxesPage) : MailboxesPage := {|
  mb_tab := mb_tab x; mb_local := mb_local x; mb_name := mb_name x; mb_domain := mb_domain x; mb_new_mode :=
    mb_new_mode x; mb_invite := mb_invite x; mb_copied := mb_copied x; mb_accessing := mb_accessing x;
    mb_invites := mb_invites x; mb_banner := mb_banner x; mb_creating := mb_creating x; mb_recover_box :=
    mb_recover_box x; mb_recover_file := mb_recover_file x; mb_recovering := mb_recovering x; mb_delete_target
    := mb_delete_target x; mb_deleting := mb_deleting x; mb_alias_local := mb_alias_local x; mb_alias_box :=
    mb_alias_box x; mb_alias_domain := mb_alias_domain x; mb_creating_alias := mb_creating_alias x;
    mb_deleting_alias := mb_deleting_alias x; mb_domains := mb_domains x; mb_boxes := v; mb_aliases :=
    mb_aliases x; mb_billing := mb_billing x; mb_opened := mb_opened x; mb_saved := mb_saved x; mb_clipboard :=
    mb_clipboard x |}.
Definition set_mb_aliases (v : Resource (list json)) (x : MailboxesPage) : MailboxesPage := {|
  mb_tab := mb_tab x; mb_local := mb_local x; mb_name := mb_name x; mb_domain := mb_domain x; mb_new_mode :=
    mb_new_mode x; mb_invite := mb_invite x; mb_copied := mb_copied x; mb_accessing := mb_accessing x;
    mb_invites := mb_invites x; mb_banner := mb_banner x; mb_creating := mb_creating x; mb_recover_box :=
    mb_recover_box x; mb_recover_file := mb_recover_file x; mb_recovering := mb_recovering x; mb_delete_target
    := mb_delete_target x; mb_deleting := mb_deleting x; mb_alias_local := mb_alias_local x; mb_alias_box :=
    mb_alias_box x; mb_alias_domain := mb_alias_domain x; mb_creating_alias := mb_creating_alias x;
    mb_deleting_alias := mb_deleting_alias x; mb_domains := mb_domains x; mb_boxes := mb_boxes x; mb_aliases :=
    v; mb_billing := mb_billing x; mb_opened := mb_opened x; mb_saved := mb_saved x; mb_clipboard :=
    mb_clipboard x |}.
Definition set_mb_billing (v : Resource json) (x : MailboxesPage) : MailboxesPage := {|
  mb_tab := mb_tab x; mb_local := mb_local x; mb_name := mb_name x; mb_domain := mb_domain x; mb_new_mode :=
    mb_new_mode x; mb_invite := mb_invite x; mb_copied := mb_copied x; mb_accessing := mb_accessing x;
    mb_invites := mb_invites x; mb_banner := mb_banner x; mb_creating := mb_creating x; mb_recover_box :=
    mb_recover_box x; mb_recover_file := mb_recover_file x; mb_recovering := mb_recovering x; mb_delete_target
    := mb_delete_target x; mb_deleting := mb_deleting x; mb_alias_local := mb_alias_local x; mb_alias_box :=
    mb_alias_box x; mb_alias_domain := mb_alias_domain x; mb_creating_alias := mb_creating_alias x;
    mb_deleting_alias := mb_deleting_alias x; mb_domains := mb_domains x; mb_boxes := mb_boxes x; mb_aliases :=
    mb_aliases x; mb_billing := v; mb_opened := mb_opened x; mb_saved := mb_saved x; mb_clipboard :=
    mb_clipboard x |}.
Definition set_mb_opened (v : list jstr) (x : MailboxesPage) : MailboxesPage := {|
  mb_tab := mb_tab x; mb_local := mb_local x; mb_name := mb_name x; mb_domain := mb_domain x; mb_new_mode :=
    mb_new_mode x; mb_invite := mb_invite x; mb_copied := mb_copied x; mb_accessing := mb_accessing x;
    mb_invites := mb_invites x; mb_banner := mb_banner x; mb_creating := mb_creating x; mb_recover_box :=
    mb_recover_box x; mb_recover_file := mb_recover_file x; mb_recovering := mb_recovering x; mb_delete_target
    := mb_delete_target x; mb_deleting := mb_deleting x; mb_alias_local := mb_alias_local x; mb_alias_box :=
    mb_alias_box x; mb_alias_domain := mb_alias_domain x; mb_creating_alias := mb_creating_alias x;
    mb_deleting_alias := mb_deleting_alias x; mb_domains := mb_domains x; mb_boxes := mb_boxes x; mb_aliases :=
    mb_aliases x; mb_billing := mb_billing x; mb_opened := v; mb_saved := mb_saved x; mb_clipboard :=
    mb_clipboard x |}.
Definition set_mb_saved (v : list (jstr * jstr)) (x : MailboxesPage) : MailboxesPage := {|
  mb_tab := mb_tab x; mb_local := mb_local x; mb_name := mb_name x; mb_domain := mb_domain x; mb_new_mode :=
    mb_new_mode x; mb_invite := mb_invite x; mb_copied := mb_copied x; mb_accessing := mb_accessing x;
    mb_invites := mb_invites x; mb_banner := mb_banner x; mb_creating := mb_creating x; mb_recover_box :=
    mb_recover_box x; mb_recover_file := mb_recover_file x; mb_recovering := mb_recovering x; mb_delete_target
    := mb_delete_target x; mb_deleting := mb_deleting x; mb_alias_local := mb_alias_local x; mb_alias_box :=
    mb_alias_box x; mb_alias_domain := mb_alias_domain x; mb_creating_alias := mb_creating_alias x;
    mb_deleting_alias := mb_deleting_alias x; mb_domains := mb_domains x; mb_boxes := mb_boxes x; mb_aliases :=
    mb_aliases x; mb_billing := mb_billing x; mb_opened := mb_opened x; mb_saved := v; mb_clipboard :=
    mb_clipboard x |}.
Definition set_mb_clipboard (v : option jstr) (x : MailboxesPage) : MailboxesPage := {|
  mb_tab := mb_tab x; mb_local := mb_local x; mb_name := mb_name x; mb_domain := mb_domain x; mb_new_mode :=
    mb_new_mode x; mb_invite := mb_invite x; mb_copied := mb_copied x; mb_accessing := mb_accessing x;
    mb_invites := mb_invites x; mb_banner := mb_banner x; mb_creating := mb_creating x; mb_recover_box :=
    mb_recover_box x; mb_recover_file := mb_recover_file x; mb_recovering := mb_recovering x; mb_delete_target
    := mb_delete_target x; mb_deleting := mb_deleting x; mb_alias_local := mb_alias_local x; mb_alias_box :=
    mb_alias_box x; mb_alias_domain := mb_alias_domain x; mb_creating_alias := mb_creating_alias x;
    mb_deleting_alias := mb_deleting_alias x; mb_domains := mb_domains x; mb_boxes := mb_boxes x; mb_aliases :=
    mb_aliases x; mb_billing := mb_billing x; mb_opened := mb_opened x; mb_saved := mb_saved x; mb_clipboard :=
    v |}.

Definition new_mailboxes : MailboxesPage := {|
  mb_tab := BoxesTab; mb_local := []; mb_name := []; mb_domain := []; mb_new_mode := js "private"; mb_invite := None;
  mb_copied := false; mb_accessing := None; mb_invites := ∅; mb_banner := None; mb_creating := false;
  mb_recover_box := []; mb_recover_file := None; mb_recovering := false; mb_delete_target := None; mb_deleting := false;
  mb_alias_local := []; mb_alias_box := []; mb_alias_domain := []; mb_creating_alias := false; mb_deleting_alias := [];
  mb_domains := new_resource; mb_boxes := new_resource; mb_aliases := new_resource; mb_billing := new_resource;
  mb_opened := []; mb_saved := []; mb_clipboard := None |}.

Section Boxes.
Context `{Crypto} `{Env}.

Notation boxes_page := (prog ((Panel * Org) * MailboxesPage)).

Definition show_banner (b : option Banner) : boxes_page unit := on_page (set_mb_banner b).

Definition banner_expires : boxes_page unit := later (set_mb_banner None).

(** ** The resources *)

Definition fetch_domains : boxes_page (list json) := or_empty [] listDomains (fun _ => Ok []).
Definition fetch_boxes : boxes_page (list json) :=
  or_empty [] (fun i => v ← listMailboxes i; mret (as_list v))
    (fun e => if bool_decide (status e = Some 403) then Throw e else Ok []).
Definition fetch_aliases : boxes_page (list json) := or_empty [] (fun i => v ← listOrgAliases i; mret (as_list v)) (fun _ => Ok []).
Definition fetch_billing : boxes_page json := or_empty JNull getBillingInfo (fun _ => Ok JNull).

Definition verifiedDomains (p : MailboxesPage) : outcome (list json) := l ← listed (mb_domains p); Ok (List.filter is_verified_domain l).

(** The effects, which run again when what they read has changed: the first verified
    domain and the first mailbox are preselected. *)
Definition select_domain (p : MailboxesPage) : MailboxesPage :=
  match verifiedDomains p with
  | Ok (d :: _) =>
      let p := if truthy (mb_domain p) then p else set_mb_domain (str_field d "id") p in
      if truthy (mb_alias_domain p) then p else set_mb_alias_domain (str_field d "id") p
  | _ => p
  end.

Definition select_target (p : MailboxesPage) : MailboxesPage :=
  match listed (mb_boxes p) with
  | Ok (b :: _) => if truthy (mb_alias_box p) then p else set_mb_alias_box (str_field b "id") p
  | _ => p
  end.

Definition refetchDomains : boxes_page unit :=
  _ ← refetch mb_domains set_mb_domains fetch_domains; on_page select_domain.
Definition refetchMailboxes : boxes_page unit :=
  _ ← refetch mb_boxes set_mb_boxes fetch_boxes; on_page select_target.
Definition refetchAliases : boxes_page unit := refetch mb_aliases set_mb_aliases fetch_aliases.
Definition refetchBilling : boxes_page unit := refetch mb_billing set_mb_billing fetch_billing.

Definition choose_domain (i : jstr) (p : MailboxesPage) : MailboxesPage := select_domain (set_mb_domain i p).
Definition choose_alias_domain (i : jstr) (p : MailboxesPage) : MailboxesPage := select_domain (set_mb_alias_domain i p).
Definition choose_target (i : jstr) (p : MailboxesPage) : MailboxesPage := select_target (set_mb_alias_box i p).

(** ** Counts *)

Definition mailboxCount (p : MailboxesPage) : outcome Z := l ← listed (mb_boxes p); Ok (Z.of_nat (length l)).
Definition aliasCount (p : MailboxesPage) : outcome Z := l ← listed (mb_aliases p); Ok (Z.of_nat (length l)).

(** A count of the billing record; the interface declares integers. *)
Definition count_field (v : json) (k : string) : Z :=
  match get v (js k) with Some (JNum l) => if forallb is_digit l then dec_value l else 0 | _ => 0 end.

Definition billing_record (p : MailboxesPage) : outcome (option json) :=
  b ← read (mb_billing p); Ok (match b with Some JNull | None => None | Some v => Some v end).

(** [billing()?.mailbox_limit ?? 1] *)
Definition mailboxLimit (p : MailboxesPage) : outcome Z :=
  b ← billing_record p;
  Ok (match b with
      | Some v => match get v (js "mailbox_limit") with Some JNull | None => 1 | _ => count_field v "mailbox_limit" end
      | None => 1
      end).

Definition isQuotaFull (p : MailboxesPage) : outcome bool :=
  b ← billing_record p;
  Ok (match b with Some v => count_field v "mailbox_limit" <=? count_field v "used_mailboxes" | None => false end).

Definition getDomainName (domainId : jstr) (p : MailboxesPage) : outcome jstr :=
  l ← listed (mb_domains p);
  Ok (match List.find (fun d => jeqb (str_field d "id") domainId) l with
      | Some d => str_field d "name"
      | None => take 8 domainId
      end).

Definition limit_text (p : MailboxesPage) (advice : string) : outcome jstr :=
  n ← mailboxCount p; m ← mailboxLimit p;
  Ok (js "Plan mailbox limit reached (" ++ num n ++ js "/" ++ num m ++ js "). " ++ js advice).

(** ** Inviting *)

(** [JSON.parse(msg).error], where the message is JSON with one. *)
Definition error_detail (msg : jstr) : jstr :=
  match JSON_parse msg with Ok v => str_field v "error" | Throw _ => [] end.

Definition mentions (word : string) (e : js_error) : bool :=
  includes (thrown_message e) (js word) || includes (error_detail (thrown_message e)) (js word).

Definition has_status (st : Z) (e : js_error) : bool := bool_decide (status e = Some st).

Definition create_failure (e : js_error) (p : MailboxesPage) : outcome jstr :=
  let msg := thrown_message e in
  let detail := error_detail msg in
  if has_status 402 e || jeqb detail (js "mailbox_limit_reached") || includes msg (js "mailbox_limit_reached") then
    limit_text p "Upgrade to a higher tier in Billing to provision more mailboxes."
  else if has_status 409 e || mentions "already exists" e then
    Ok (js "Mailbox username or email already exists for this organization.")
  else if has_status 403 e then Ok (js "You don't have permission to manage mailboxes for this organization.")
  else if has_status 400 e && mentions "verified" e then
    Ok (js "Domain not verified. Verify the domain in the Domains tab first.")
  else if has_status 503 e || mentions "storage_disconnected" e then
    Ok (js "No active storage connected " ++ [8212] ++ js " please connect storage in the Storage tab first.")
  else if has_status 400 e && mentions "local_part" e then
    Ok (js "Invalid mailbox username (cannot contain spaces, @, or special symbols).")
  else Ok (or_default detail (or_default msg (js "Failed to create mailbox."))).

Definition create_body (r : InviteRandom) (orgId email name mode : jstr) : boxes_page unit :=
  inviteResp ← api (inviteMailbox r orgId {| address := email; invite_name := Some name; privacy_mode := mode |});
  _ ← on_page (set_mb_invite (Some inviteResp));
  v ← lift (reply_object (Some inviteResp));
  _ ← on_page (fun p => set_mb_invites (<[email := str_field v "invite_url"]>
                (<[str_field v "mailbox_id" := str_field v "invite_url"]> (mb_invites p))) p);
  _ ← on_page (fun p => set_mb_name [] (set_mb_local [] p));
  _ ← refetchMailboxes;
  _ ← refetchDomains;
  _ ← refetchBilling;
  show_banner (success (js "Invitation generated for " ++ email ++ js ". Share the setup link below.")).

Definition handleCreate (r : InviteRandom) : boxes_page unit :=
  p ← page (G:=MailboxesPage);
  let lp := trim (mb_local p) in
  let domId := trim (mb_domain p) in
  domName ← lift (getDomainName domId p);
  orgId ← org_id;
  if negb (truthy lp) || negb (truthy domId) || negb (truthy orgId) || negb (truthy domName) then skip
  else
    full ← lift (isQuotaFull p);
    if full : bool then
      text ← lift (limit_text p "Upgrade your subscription in Billing to provision additional mailboxes.");
      show_banner (failure text)
    else
      _ ← on_page (fun p => set_mb_banner None (set_mb_creating true p));
      finally
        (pcatch (create_body r orgId (lp ++ js "@" ++ domName) (or_default (trim (mb_name p)) lp) (mb_new_mode p))
           (fun e =>
              p ← page (G:=MailboxesPage);
              text ← lift (create_failure e p);
              _ ← show_banner (failure text);
              banner_expires))
        (on_page (set_mb_creating false)).

Definition handleCopyInvite (url : jstr) : boxes_page unit :=
  _ ← on_page (fun p => set_mb_copied true (set_mb_clipboard (Some url) p));
  spawn (_ ← wait; on_page (set_mb_copied false)).

(** The link of a mailbox that waits for its owner, known only to the page that made it. *)
Definition pendingInviteUrl (p : MailboxesPage) (mb : json) (emailAddr : jstr) : jstr :=
  or_default (default [] (mb_invites p !! str_field mb "id")) (default [] (mb_invites p !! emailAddr)).

Definition copy_setup_link (mb : json) (emailAddr : jstr) : boxes_page unit :=
  p ← page (G:=MailboxesPage);
  let url := pendingInviteUrl p mb emailAddr in
  if truthy url then handleCopyInvite url
  else show_banner (failure (js "Invitation URL was generated earlier. For security, re-invite or check your records.")).

Definition add_alias_for (mb : json) (p : MailboxesPage) : MailboxesPage :=
  set_mb_tab AliasesTab (choose_target (str_field mb "id") p).

(** ** Access and deletion *)

Definition handleAccessMailbox (mb : json) : boxes_page unit :=
  orgId ← org_id;
  if negb (truthy orgId) then skip
  else if jeqb (str_field mb "mode") (js "private") then
    show_banner (failure (js "Private mailboxes cannot be accessed by administrators."))
  else
    _ ← on_page (set_mb_accessing (Some (str_field mb "id")));
    finally
      (pcatch
         (res ← api (impersonateMailbox orgId (str_field mb "id"));
          v ← lift (reply_object (Some res));
          on_page (fun p => set_mb_opened (mb_opened p ++ [str_field v "webmail_url"]) p))
         (fun e => show_banner (failure (or_default (message e) (js "Failed to access mailbox.")))))
      (on_page (set_mb_accessing None)).

Definition handleDeleteMailbox : boxes_page unit :=
  p ← page (G:=MailboxesPage);
  orgId ← org_id;
  match mb_delete_target p with
  | None => skip
  | Some target =>
      if negb (truthy orgId) then skip
      else
        _ ← on_page (set_mb_deleting true);
        finally
          (pcatch
             (_ ← api (deleteMailbox orgId (str_field target "id"));
              let name := or_default (str_field target "email") (or_default (str_field target "local_part") (js "Mailbox")) in
              _ ← on_page (set_mb_delete_target None);
              _ ← show_banner (success (js "Mailbox " ++ name ++ js " was successfully deleted."));
              _ ← refetchMailboxes;
              _ ← refetchAliases;
              refetchBilling)
             (fun e => show_banner (failure (or_default (message e) (js "Failed to delete mailbox.")))))
          (on_page (set_mb_deleting false))
  end.

(** ** Aliases *)

Definition alias_failure (e : js_error) : jstr :=
  let msg := thrown_message e in
  let detail := error_detail msg in
  if has_status 402 e || jeqb detail (js "alias_limit_reached") || includes msg (js "alias_limit_reached") then
    js "Alias limit reached for this mailbox. Upgrade your plan in Billing to add more aliases."
  else if has_status 409 e || mentions "already exists" e then js "This email alias already exists on this domain."
  else if has_status 400 e && mentions "local_part" e then
    js "Invalid alias username (cannot contain spaces, @, or special symbols)."
  else or_default detail (or_default msg (js "Failed to create alias.")).

Definition handleCreateAlias : boxes_page unit :=
  p ← page (G:=MailboxesPage);
  let mbId := trim (mb_alias_box p) in
  let lp := trim (mb_alias_local p) in
  let domId := trim (mb_alias_domain p) in
  if negb (truthy mbId) || negb (truthy lp) || negb (truthy domId) then skip
  else
    _ ← on_page (fun p => set_mb_banner None (set_mb_creating_alias true p));
    finally
      (pcatch
         (_ ← api (createAlias mbId lp (Some domId));
          _ ← on_page (set_mb_alias_local []);
          _ ← refetchAliases;
          p ← page (G:=MailboxesPage);
          name ← lift (getDomainName domId p);
          _ ← show_banner (success (js "Alias " ++ lp ++ js "@" ++ name ++ js " created successfully."));
          banner_expires)
         (fun e => _ ← show_banner (failure (alias_failure e)); banner_expires))
      (on_page (set_mb_creating_alias false)).

Definition handleDeleteAlias (mailboxId aliasId address : jstr) : boxes_page unit :=
  yes ← confirm (js "Are you sure you want to delete alias " ++ address ++ js "? Incoming emails to this address will bounce.");
  if negb yes then skip
  else
    _ ← on_page (set_mb_deleting_alias aliasId);
    finally
      (pcatch
         (_ ← api (deleteAlias mailboxId aliasId);
          _ ← refetchAliases;
          _ ← show_banner (success (js "Alias " ++ address ++ js " deleted."));
          banner_expires)
         (fun _ => _ ← show_banner (failure (js "Failed to delete alias.")); banner_expires))
      (on_page (set_mb_deleting_alias [])).

(** ** Recovery *)

Definition recovered_name (mailboxId : jstr) : jstr := js "byos-mailbox-" ++ mailboxId ++ js "-recovered-sk.hex".

Definition handleRecovery : boxes_page unit :=
  p ← page (G:=MailboxesPage);
  orgId ← org_id;
  match mb_recover_file p with
  | None => skip
  | Some file =>
      let mailboxId := mb_recover_box p in
      if negb (truthy mailboxId) || negb (truthy orgId) then skip
      else
        _ ← on_page (fun p => set_mb_banner None (set_mb_recovering true p));
        finally
          (pcatch
             (_ ← wait;
              text ← lift file;
              mailboxSkHex ← api (recoverMailboxSecret orgId mailboxId text);
              _ ← on_page (fun p => set_mb_saved (mb_saved p ++ [(recovered_name mailboxId, mailboxSkHex)]) p);
              show_banner (success (js "Mailbox secret key recovered and downloaded successfully.")))
             (fun e => show_banner (failure (if has_status 403 e
                then js "Private mailboxes cannot be recovered by the organization."
                else js "Mailbox recovery failed. Ensure you uploaded the correct organization recovery key."))))
          (on_page (set_mb_recovering false))
  end.

End Boxes.

(** ** What the page can do *)

Section Events.
Context `{HC : Crypto} `{HE : Env}.

(** The handlers of the page, and the resources that fetch when the organization is known. *)
Inductive boxes_handler : prog ((Panel * Org) * MailboxesPage) unit -> Prop :=
| on_domains : boxes_handler refetchDomains
| on_boxes : boxes_handler refetchMailboxes
| on_aliases : boxes_handler refetchAliases
| on_billing : boxes_handler refetchBilling
| on_tab v : boxes_handler (on_page (set_mb_tab v))
| on_name v : boxes_handler (on_page (set_mb_name v))
| on_local v : boxes_handler (on_page (set_mb_local v))
| on_domain v : boxes_handler (on_page (choose_domain v))
| on_create r : boxes_handler (handleCreate r)
| on_create_another : boxes_handler (on_page (set_mb_invite None))
| on_copy url : boxes_handler (handleCopyInvite url)
| on_copy_setup mb addr : boxes_handler (copy_setup_link mb addr)
| on_add_alias mb : boxes_handler (on_page (add_alias_for mb))
| on_access mb : boxes_handler (handleAccessMailbox mb)
| on_delete_target v : boxes_handler (on_page (set_mb_delete_target v))
| on_delete : boxes_handler handleDeleteMailbox
| on_recover_box v : boxes_handler (on_page (set_mb_recover_box v))
| on_recover_file v : boxes_handler (on_page (set_mb_recover_file v))
| on_recover : boxes_handler handleRecovery
| on_alias_local v : boxes_handler (on_page (set_mb_alias_local v))
| on_alias_domain v : boxes_handler (on_page (choose_alias_domain v))
| on_alias_box v : boxes_handler (on_page (choose_target v))
| on_create_alias : boxes_handler handleCreateAlias
| on_delete_alias i a addr : boxes_handler (handleDeleteAlias i a addr)
| on_session : boxes_handler (below fetchSession)
| on_logout : boxes_handler (below org_logout).

(** The kind of the next invitation. *)
Definition same_mode (x y : (Panel * Org) * MailboxesPage) : Prop := mb_new_mode (snd y) = mb_new_mode (snd x).

#[local] Instance same_mode_order : PreOrder same_mode.
Proof. split; [by intros ?|intros x y z Hxy Hyz; unfold same_mode in *; congruence]. Qed.

Lemma select_domain_mode p : mb_new_mode (select_domain p) = mb_new_mode p.
Proof. unfold select_domain. by repeat case_match. Qed.

Lemma select_target_mode p : mb_new_mode (select_target p) = mb_new_mode p.
Proof. unfold select_target. by repeat case_match. Qed.

Lemma stays_on_page x f : mb_new_mode (f (snd x)) = mb_new_mode (snd x) -> moves same_mode x (on_page f).
Proof. intros Hf. by apply moves_on_page. Qed.

Lemma stays_below {A} x (p : prog (Panel * Org) A) : moves same_mode x (below p).
Proof. by apply moves_below. Qed.

Lemma stays_refetch {A} get set (f : prog ((Panel * Org) * MailboxesPage) A) x :
  (forall r p, mb_new_mode (set r p) = mb_new_mode p) -> (forall x, moves same_mode x f) -> moves same_mode x (refetch get set f).
Proof.
  intros Hs Hf. unfold refetch. apply moves_bind; [by apply stays_on_page|intros ? y].
  apply moves_bind; [done|intros p z]. cbv zeta. apply moves_catch; [|by intros; apply stays_on_page].
  apply moves_bind; [apply Hf|]. intros. by apply stays_on_page.
Qed.

Ltac stays :=
  repeat match goal with
  | |- moves _ _ (finally _ _) => apply moves_finally; [|intros ?]
  | |- moves _ _ (_ ≫= _) => apply moves_bind; [|intros ? ?]
  | |- moves _ _ (pcatch _ _) => apply moves_catch; [|intros ? ?]
  | |- moves _ _ (below _) => apply stays_below
  | |- moves _ _ (api _) => apply stays_below
  | |- moves _ _ (refetch _ _ _) => apply stays_refetch; [done|intros ?]
  | |- moves _ _ (on_page _) => by apply stays_on_page; rewrite ?select_domain_mode, ?select_target_mode
  | |- moves _ _ (if _ then _ else _) => case_match
  | |- moves _ _ (match _ with _ => _ end) => case_match
  | |- moves _ _ (spawn _) => split; [|done]
  | |- _ => done
  end.

Lemma stays_resources x :
  moves same_mode x refetchDomains /\ moves same_mode x refetchMailboxes /\ moves same_mode x refetchAliases /\
  moves same_mode x refetchBilling.
Proof.
  unfold refetchDomains, refetchMailboxes, refetchAliases, refetchBilling, fetch_domains, fetch_boxes, fetch_aliases,
    fetch_billing, or_empty, org_id, api. split_and!; stays.
Qed.

Lemma boxes_stay h x : boxes_handler h -> moves same_mode x h.
Proof.
  assert (Hres : forall x, moves same_mode x refetchDomains /\ moves same_mode x refetchMailboxes /\
    moves same_mode x refetchAliases /\ moves same_mode x refetchBilling) by exact stays_resources.
  intros [].
  all: try apply Hres.
  all: try (apply stays_on_page; unfold choose_domain, choose_alias_domain, add_alias_for, choose_target;
            cbn [mb_new_mode set_mb_tab]; by rewrite ?select_domain_mode, ?select_target_mode).
  all: unfold handleCreate, create_body, handleCopyInvite, copy_setup_link, handleAccessMailbox, handleDeleteMailbox,
    handleRecovery, handleCreateAlias, handleDeleteAlias, show_banner, banner_expires, later, org_id; stays; try apply Hres.
  all: unfold handleCopyInvite; stays.
Qed.

(** Whatever key is drawn for it, a private invitation is the same program. *)
Lemma private_invitation r r' orgId email name :
  inviteMailbox r orgId {| address := email; invite_name := name; privacy_mode := js "private" |} =
  inviteMailbox r' orgId {| address := email; invite_name := name; privacy_mode := js "private" |}.
Proof.
  unfold inviteMailbox. cbn [privacy_mode]. change (jeqb (js "private") (js "organization_managed")) with false.
  change (jeqb (js "private") (js "org_managed")) with false. cbn [orb]. cbv iota. reflexivity.
Qed.

Lemma private_create r r' orgId email name :
  create_body r orgId email name (js "private") = create_body r' orgId email name (js "private").
Proof. unfold create_body. by rewrite (private_invitation r r'). Qed.

(** The page only invites to private mailboxes.  From a page as it is made, however
    its handlers interleave with each other and with the replies, the form's kind stays
    private: the key pair, the sealing and the token that an invitation to a managed mailbox
    would draw do not show in anything the page then does or sends. *)
Theorem page_invites_privately c c' r r' w t :
  tasks c = [] -> mb_new_mode (snd (state c)) = js "private" -> reachable boxes_handler c c' ->
  run w t (state c') (handleCreate r) = run w t (state c') (handleCreate r').
Proof.
  intros E Hm Hr. edestruct (rely_guarantee same_mode boxes_handler c c') as [HR _]; [| |exact Hr|].
  - intros h x Hh. apply (moves_respects same_mode); [apply _|done|by apply boxes_stay].
  - by rewrite E.
  - unfold same_mode in HR. rewrite Hm in HR. destruct (state c') as [s p]. cbn [snd] in HR.
    unfold handleCreate. rewrite !run_page, HR. destruct (getDomainName _ p) as [domName|e]; rewrite !bind_lift; [|done].
    destruct s as [s o]. rewrite !run_org_id. destruct (_ || _); [done|].
    destruct (isQuotaFull p) as [[]|e]; rewrite !bind_lift; [done| |done].
    rewrite !run_bind, !run_on_page, !run_finally, !run_catch. by rewrite (private_create r r').
Qed.

End Events.

(** ** Recovering a mailbox *)

Section Recovery.
Context `{HE : Env} `{HC : Crypto} `{!CryptoLaws}.

(** What recovery leaves, by the result of the API's. *)
Definition after_recovery (box : jstr) (res : outcome jstr) (p : MailboxesPage) : MailboxesPage :=
  set_mb_recovering false
    match res with
    | Ok hex => set_mb_banner (success (js "Mailbox secret key recovered and downloaded successfully."))
        (set_mb_saved (mb_saved p ++ [(recovered_name box, hex)]) p)
    | Throw e => set_mb_banner (failure (if has_status 403 e
        then js "Private mailboxes cannot be recovered by the organization."
        else js "Mailbox recovery failed. Ensure you uploaded the correct organization recovery key.")) p
    end.

Lemma run_recovery w t s o p text res s' t' :
  mb_recover_file p = Some (Ok text) -> truthy (mb_recover_box p) = true -> truthy (og_id o) = true ->
  run w t s (recoverMailboxSecret (og_id o) (mb_recover_box p) text) = (res, s', t') ->
  run w t ((s, o), p) handleRecovery =
  (Ok tt, ((s', o), after_recovery (mb_recover_box p) res (set_mb_banner None (set_mb_recovering true p))), t').
Proof.
  intros Hf Hb Ho R. unfold handleRecovery. rewrite run_page, run_org_id.
  rewrite Hf, Hb, Ho. cbn [negb orb]. rewrite run_bind, run_on_page, run_finally, run_catch, run_bind. cbn [wait run].
  rewrite bind_lift, run_bind, run_api, R. destruct res as [hex|e].
  - rewrite run_bind, run_on_page. unfold show_banner. by rewrite run_on_page, run_on_page.
  - unfold show_banner. by rewrite run_on_page, run_on_page.
Qed.

(** Recovering a managed mailbox in the panel.  With the organization's key file
    chosen, and the server giving back what the mailbox's creation posted, the page makes
    two requests and saves one file, which holds the mailbox's secret key. *)
Theorem recovered_file_holds_the_key w t s o p org_sk r sealed id material detail :
  key_ok org_sk -> mailbox_ok r id -> truthy (og_id o) = true -> truthy (mr_uuid r) = true ->
  mb_recover_file p = Some (Ok (bytesToHex org_sk)) -> mb_recover_box p = mr_uuid r ->
  hpke_seal (x25519_pk org_sk) (mr_seal r) (root_of r) [] = Some sealed ->
  gives (respond w t (material_request (og_id o) (mr_uuid r) s)) material ->
  get material (js "root_secret_wrapped") = Some (JStr (b64_encode sealed)) ->
  gives (respond w (ask (material_request (og_id o) (mr_uuid r) s) t) (detail_request (mr_uuid r) s)) detail ->
  get detail (js "mailbox_sk_wrapped") = Some (JStr (b64_encode (wrapped_key r id))) ->
  exists p', run w t ((s, o), p) handleRecovery =
      (Ok tt, ((s, o), p'), ask (detail_request (mr_uuid r) s) (ask (material_request (og_id o) (mr_uuid r) s) t)) /\
    mb_saved p' = mb_saved p ++ [(recovered_name (mr_uuid r), bytesToHex (mr_sk r))] /\ mb_recovering p' = false.
Proof.
  intros Hk Hr Ho Hu Hf Hb Hs Hg1 E1 Hg2 E2. destruct (hkdf_root_key (mr_entropy r)) as [Hrl Hrb].
  assert (Hw : Forall is_byte (wrapped_key r id)) by (apply wrap_key_bytes; [by split|apply Hr..]).
  eexists. split; [|split].
  - eapply run_recovery; [exact Hf|by rewrite Hb|done|]. rewrite Hb.
    rewrite (run_recover w t s (og_id o) (mr_uuid r) org_sk material detail sealed (wrapped_key r id) (root_of r) id);
      [|try done; try apply Hr; eauto using hpke_seal_bytes, hpke_correct..].
    unfold wrapped_key. rewrite unwrap_mailbox_key_ok, decide_True by (done || apply Hr). reflexivity.
  - by rewrite Hb.
  - reflexivity.
Qed.

End Recovery.

(** ** Concrete pages *)

#[local] Existing Instances panel_env toy_crypto toy_laws.

Definition managing : Org := {|
  og_user := Some {| up_id := js "u1"; up_email := js "root@byos.email"; up_name := js "root" |}; og_id := js "o1";
  og_role := Some (js "owner"); og_plan := js "team"; og_loading := false |}.

Definition with_key_file : MailboxesPage :=
  set_mb_recover_file (Some (Ok (bytesToHex key1))) (set_mb_recover_box (mr_uuid random0) new_mailboxes).

Lemma recovered_file_holds_the_key_witness :
  exists p' t', run organization no_trace ((panel0, managing), with_key_file) handleRecovery =
      (Ok tt, ((panel0, managing), p'), t') /\
    mb_saved p' = [(recovered_name (mr_uuid random0), bytesToHex key0)].
Proof.
  destruct (recovered_file_holds_the_key organization no_trace panel0 managing with_key_file key1 random0 sealed0 id0
    (JObj [str_member "root_secret_wrapped" (b64_encode sealed0)])
    (JObj [str_member "mailbox_sk_wrapped" (b64_encode (wrapped_key random0 id0))])) as (p' & R & Es & _).
  - exact key1_ok.
  - exact random0_ok.
  - reflexivity.
  - reflexivity.
  - reflexivity.
  - reflexivity.
  - vm_compute. reflexivity.
  - reply.
  - vm_compute. reflexivity.
  - reply.
  - vm_compute. reflexivity.
  - exists p'. eexists. split; [exact R|exact Es].
Defined.

(** Ada is invited; the page has fetched its lists and drawn two different keys. *)
Definition inviting : config ((Panel * Org) * MailboxesPage) :=
  {| state := ((panel0, managing), set_mb_local (js "ada") (set_mb_domain (js "d1") new_mailboxes)); tasks := [] |}.

Definition other_invite : InviteRandom := {| iv_sk := key1; iv_seal := [1]; iv_token := key0; iv_nonce := nonce0 |}.

Lemma page_invites_privately_witness :
  run organization no_trace (state (fire true refetchDomains inviting)) (handleCreate invite0) =
  run organization no_trace (state (fire true refetchDomains inviting)) (handleCreate other_invite).
Proof.
  apply (page_invites_privately inviting (fire true refetchDomains inviting) invite0 other_invite organization no_trace).
  - reflexivity.
  - reflexivity.
  - eapply fire_reachable; [apply on_domains|apply rtc_refl].
Defined.
