(* ===== verification/MembersPage.v ===== *)
(** * The members and billing pages of the control plane

    control-plane/src/routes/dashboard/members.tsx and billing.tsx: the team, its roles and
    invitations, the tabs of the list with their counters, and the choice of a plan.  The
    pages' signals and resources stand beside the panel and the session they share. *)

From S2P Require Import Prelude JsString Encoding Json Client Api MailView Reading MailboxData SignIn.
From S2P Require Import ControlApi OrgContext Page.

Inductive MemberTab := EveryMember | TeamMembers | MailboxMembers.

Record OrgMember := {
  om_id : jstr; om_email : jstr; om_name : jstr; om_role : jstr; om_active : bool; om_has_mailbox : bool }.

(** A member as the interface declares it. *)
Definition member_of (v : json) : OrgMember := {|
  om_id := str_field v "id"; om_email := str_field v "email"; om_name := str_field v "display_name";
  om_role := str_field v "role"; om_active := bool_field v "is_active"; om_has_mailbox := bool_field v "has_mailbox" |}.

Record MembersPage := {
  me_members : Resource (list OrgMember);
  me_banner : option Banner;
  me_busy : option jstr;
  me_invite_open : bool;
  me_invite_email : jstr;
  me_invite_name : jstr;
  me_invite_role : jstr;
  me_invite_password : jstr;
  me_inviting : bool;
  me_invite_error : option jstr;
  me_created : option json;
  me_copied : bool;
  me_query : jstr;
  me_tab : MemberTab;
  me_clipboard : option jstr }.

Definition set_me_members (v : Resource (list OrgMember)) (x : MembersPage) : MembersPage := {|
  me_members := v; me_banner := me_banner x; me_busy := me_busy x; me_invite_open := me_invite_open x;
    me_invite_email := me_invite_email x; me_invite_name := me_invite_name x; me_invite_role := me_invite_role
    x; me_invite_password := me_invite_password x; me_inviting := me_inviting x; me_invite_error :=
    me_invite_error x; me_created := me_created x; me_copied := me_copied x; me_query := me_query x; me_tab :=
    me_tab x; me_clipboard := me_clipboard x |}.
Definition set_me_banner (v : option Banner) (x : MembersPage) : MembersPage := {|
  me_members := me_members x; me_banner := v; me_busy := me_busy x; me_invite_open := me_invite_open x;
    me_invite_email := me_invite_email x; me_invite_name := me_invite_name x; me_invite_role := me_invite_role
    x; me_invite_password := me_invite_password x; me_inviting := me_inviting x; me_invite_error :=
    me_invite_error x; me_created := me_created x; me_copied := me_copied x; me_query := me_query x; me_tab :=
    me_tab x; me_clipboard := me_clipboard x |}.
Definition set_me_busy (v : option jstr) (x : MembersPage) : MembersPage := {|
  me_members := me_members x; me_banner := me_banner x; me_busy := v; me_invite_open := me_invite_open x;
    me_invite_email := me_invite_email x; me_invite_name := me_invite_name x; me_invite_role := me_invite_role
    x; me_invite_password := me_invite_password x; me_inviting := me_inviting x; me_invite_error :=
    me_invite_error x; me_created := me_created x; me_copied := me_copied x; me_query := me_query x; me_tab :=
    me_tab x; me_clipboard := me_clipboard x |}.
Definition set_me_invite_open (v : bool) (x : MembersPage) : MembersPage := {|
  me_members := me_members x; me_banner := me_banner x; me_busy := me_busy x; me_invite_open := v;
    me_invite_email := me_invite_email x; me_invite_name := me_invite_name x; me_invite_role := me_invite_role
    x; me_invite_password := me_invite_password x; me_inviting := me_inviting x; me_invite_error :=
    me_invite_error x; me_created := me_created x; me_copied := me_copied x; me_query := me_query x; me_tab :=
    me_tab x; me_clipboard := me_clipboard x |}.
Definition set_me_invite_email (v : jstr) (x : MembersPage) : MembersPage := {|
  me_members := me_members x; me_banner := me_banner x; me_busy := me_busy x; me_invite_open := me_invite_open
    x; me_invite_email := v; me_invite_name := me_invite_name x; me_invite_role := me_invite_role x;
    me_invite_password := me_invite_password x; me_inviting := me_inviting x; me_invite_error := me_invite_error
    x; me_created := me_created x; me_copied := me_copied x; me_query := me_query x; me_tab := me_tab x;
    me_clipboard := me_clipboard x |}.
Definition set_me_invite_name (v : jstr) (x : MembersPage) : MembersPage := {|
  me_members := me_members x; me_banner := me_banner x; me_busy := me_busy x; me_invite_open := me_invite_open
    x; me_invite_email := me_invite_email x; me_invite_name := v; me_invite_role := me_invite_role x;
    me_invite_password := me_invite_password x; me_inviting := me_inviting x; me_invite_error := me_invite_error
    x; me_created := me_created x; me_copied := me_copied x; me_query := me_query x; me_tab := me_tab x;
    me_clipboard := me_clipboard x |}.
Definition set_me_invite_role (v : jstr) (x : MembersPage) : MembersPage := {|
  me_members := me_members x; me_banner := me_banner x; me_busy := me_busy x; me_invite_open := me_invite_open
    x; me_invite_email := me_invite_email x; me_invite_name := me_invite_name x; me_invite_role := v;
    me_invite_password := me_invite_password x; me_inviting := me_inviting x; me_invite_error := me_invite_error
    x; me_created := me_created x; me_copied := me_copied x; me_query := me_query x; me_tab := me_tab x;
    me_clipboard := me_clipboard x |}.
Definition set_me_invite_password (v : jstr) (x : MembersPage) : MembersPage := {|
  me_members := me_members x; me_banner := me_banner x; me_busy := me_busy x; me_invite_open := me_invite_open
    x; me_invite_email := me_invite_email x; me_invite_name := me_invite_name x; me_invite_role :=
    me_invite_role x; me_invite_password := v; me_inviting := me_inviting x; me_invite_error := me_invite_error
    x; me_created := me_created x; me_copied := me_copied x; me_query := me_query x; me_tab := me_tab x;
    me_clipboard := me_clipboard x |}.
Definition set_me_inviting (v : bool) (x : MembersPage) : MembersPage := {|
  me_members := me_members x; me_banner := me_banner x; me_busy := me_busy x; me_invite_open := me_invite_open
    x; me_invite_email := me_invite_email x; me_invite_name := me_invite_name x; me_invite_role :=
    me_invite_role x; me_invite_password := me_invite_password x; me_inviting := v; me_invite_error :=
    me_invite_error x; me_created := me_created x; me_copied := me_copied x; me_query := me_query x; me_tab :=
    me_tab x; me_clipboard := me_clipboard x |}.
Definition set_me_invite_error (v : option jstr) (x : MembersPage) : MembersPage := {|
  me_members := me_members x; me_banner := me_banner x; me_busy := me_busy x; me_invite_open := me_invite_open
    x; me_invite_email := me_invite_email x; me_invite_name := me_invite_name x; me_invite_role :=
    me_invite_role x; me_invite_password := me_invite_password x; me_inviting := me_inviting x; me_invite_error
    := v; me_created := me_created x; me_copied := me_copied x; me_query := me_query x; me_tab := me_tab x;
    me_clipboard := me_clipboard x |}.
Definition set_me_created (v : option json) (x : MembersPage) : MembersPage := {|
  me_members := me_members x; me_banner := me_banner x; me_busy := me_busy x; me_invite_open := me_invite_open
    x; me_invite_email := me_invite_email x; me_invite_name := me_invite_name x; me_invite_role :=
    me_invite_role x; me_invite_password := me_invite_password x; me_inviting := me_inviting x; me_invite_error
    := me_invite_error x; me_created := v; me_copied := me_copied x; me_query := me_query x; me_tab := me_tab x;
    me_clipboard := me_clipboard x |}.
Definition set_me_copied (v : bool) (x : MembersPage) : MembersPage := {|
  me_members := me_members x; me_banner := me_banner x; me_busy := me_busy x; me_invite_open := me_invite_open
    x; me_invite_email := me_invite_email x; me_invite_name := me_invite_name x; me_invite_role :=
    me_invite_role x; me_invite_password := me_invite_password x; me_inviting := me_inviting x; me_invite_error
    := me_invite_error x; me_created := me_created x; me_copied := v; me_query := me_query x; me_tab := me_tab
    x; me_clipboard := me_clipboard x |}.
Definition set_me_query (v : jstr) (x : MembersPage) : MembersPage := {|
  me_members := me_members x; me_banner := me_banner x; me_busy := me_busy x; me_invite_open := me_invite_open
    x; me_invite_email := me_invite_email x; me_invite_name := me_invite_name x; me_invite_role :=
    me_invite_role x; me_invite_password := me_invite_password x; me_inviting := me_inviting x; me_invite_error
    := me_invite_error x; me_created := me_created x; me_copied := me_copied x; me_query := v; me_tab := me_tab
    x; me_clipboard := me_clipboard x |}.
Definition set_me_tab (v : MemberTab) (x : MembersPage) : MembersPage := {|
  me_members := me_members x; me_banner := me_banner x; me_busy := me_busy x; me_invite_open := me_invite_open
    x; me_invite_email := me_invite_email x; me_invite_name := me_invite_name x; me_invite_role :=
    me_invite_role x; me_invite_password := me_invite_password x; me_inviting := me_inviting x; me_invite_error
    := me_invite_error x; me_created := me_created x; me_copied := me_copied x; me_query := me_query x; me_tab
    := v; me_clipboard := me_clipboard x |}.
Definition set_me_clipboard (v : option jstr) (x : MembersPage) : MembersPage := {|
  me_members := me_members x; me_banner := me_banner x; me_busy := me_busy x; me_invite_open := me_invite_open
    x; me_invite_email := me_invite_email x; me_invite_name := me_invite_name x; me_invite_role :=
    me_invite_role x; me_invite_password := me_invite_password x; me_inviting := me_inviting x; me_invite_error
    := me_invite_error x; me_created := me_created x; me_copied := me_copied x; me_query := me_query x; me_tab
    := me_tab x; me_clipboard := v |}.

Definition new_members : MembersPage := {|
  me_members := new_resource; me_banner := None; me_busy := None; me_invite_open := false; me_invite_email := [];
  me_invite_name := []; me_invite_role := js "admin"; me_invite_password := []; me_inviting := false;
  me_invite_error := None; me_created := None; me_copied := false; me_query := []; me_tab := TeamMembers;
  me_clipboard := None |}.

Definition ROLE_LABELS (role : jstr) : jstr :=
  if jeqb role (js "owner") then js "Owner" else if jeqb role (js "admin") then js "Admin" else js "Member".

Section Members.
Context `{Unicode} `{Env}.

Notation members_page := (prog ((Panel * Org) * MembersPage)).

(** [members() || []] *)
Definition fetch_members : members_page (list OrgMember) :=
  v ← api getMembers; mret (map member_of (as_list (default JNull v))).

Definition refetchMembers : members_page unit := refetch me_members set_me_members fetch_members.

Definition showBanner (b : option Banner) : members_page unit :=
  _ ← on_page (set_me_banner b); later (set_me_banner None).

Definition handleRoleChange (member : OrgMember) (newRole : jstr) : members_page unit :=
  p ← page (G:=MembersPage);
  if truthy_opt (me_busy p) then skip
  else
    _ ← on_page (set_me_busy (Some (om_id member)));
    finally
      (pcatch
         (_ ← api (changeMemberRole (om_id member) newRole);
          _ ← refetchMembers;
          showBanner (success (om_email member ++ js " is now " ++ ROLE_LABELS newRole ++ js ".")))
         (fun e => showBanner (failure (error_text e "Failed to change role."))))
      (on_page (set_me_busy None)).

(** The role selector calls it for another role only. *)
Definition choose_role (member : OrgMember) (val : jstr) : members_page unit :=
  if truthy val && negb (jeqb val (om_role member)) then handleRoleChange member val else skip.

(** [reason] is the answer to the browser's prompt. *)
Definition handleTerminate (reason : option jstr) (member : OrgMember) : members_page unit :=
  p ← page (G:=MembersPage);
  if truthy_opt (me_busy p) then skip
  else if negb (truthy (trim (default [] reason))) then skip
  else
    _ ← on_page (set_me_busy (Some (om_id member)));
    finally
      (pcatch
         (_ ← api (terminateUser (om_id member) (trim (default [] reason)));
          _ ← refetchMembers;
          showBanner (success (om_email member ++ js " has been terminated.")))
         (fun e => showBanner (failure (error_text e "Failed to terminate user."))))
      (on_page (set_me_busy None)).

Definition open_invite (p : MembersPage) : MembersPage := set_me_invite_open true (set_me_invite_error None p).

Definition member_payload (p : MembersPage) : json :=
  JObj (str_member "email" (trim (me_invite_email p))
        :: opt_member "display_name" (JStr <$> or_none (trim (me_invite_name p)))
        ++ [str_member "role" (me_invite_role p)]
        ++ opt_member "password" (JStr <$> or_none (trim (me_invite_password p)))).

Definition handleInviteSubmit : members_page unit :=
  p ← page (G:=MembersPage);
  let email := trim (me_invite_email p) in
  if negb (truthy email) || negb (includes email (js "@")) then
    on_page (set_me_invite_error (Some (js "Please enter a valid email address.")))
  else
    _ ← on_page (fun p => set_me_invite_error None (set_me_inviting true p));
    finally
      (pcatch
         (resp ← api (inviteMember (member_payload p));
          _ ← on_page (fun p => set_me_created (Some resp) (set_me_invite_password [] (set_me_invite_name []
                (set_me_invite_email [] (set_me_invite_open false p)))));
          _ ← refetchMembers;
          v ← lift (reply_object (Some resp));
          showBanner (success (js "User " ++ str_field v "email" ++ js " successfully created.")))
         (fun e => on_page (set_me_invite_error (Some (error_text e "Failed to invite administrator.")))))
      (on_page (set_me_inviting false)).

(** [site] is the address the panel is served from. *)
Definition credentials_text (site : jstr) (user : json) : jstr :=
  js "BYOS Control Panel Credentials" ++ [10] ++ js "Email: " ++ str_field user "email" ++ [10] ++ js "Role: " ++
  str_field user "role" ++ [10] ++ js "Temporary Password: " ++ str_field user "temp_password" ++ [10] ++
  js "Sign-in URL: " ++ site ++ js "/login".

Definition handleCopyCredentials (site : jstr) : members_page unit :=
  p ← page (G:=MembersPage);
  match me_created p with
  | None => skip
  | Some user =>
      _ ← on_page (fun p => set_me_copied true (set_me_clipboard (Some (credentials_text site user)) p));
      later (set_me_copied false)
  end.

(** ** The list *)

Definition on_team (m : OrgMember) : bool := negb (jeqb (om_role m) (js "member")) || negb (om_has_mailbox m).

Definition in_tab (tab : MemberTab) (m : OrgMember) : bool :=
  match tab with EveryMember => true | TeamMembers => on_team m | MailboxMembers => om_has_mailbox m end.

Definition found (q : jstr) (m : OrgMember) : bool :=
  negb (truthy q) || includes (toLowerCase (om_email m)) q
  || (truthy (om_name m) && includes (toLowerCase (om_name m)) q) || includes (toLowerCase (om_role m)) q.

Definition everyone (p : MembersPage) : outcome (list OrgMember) := l ← read (me_members p); Ok (default [] l).

Definition filteredMembers (p : MembersPage) : outcome (list OrgMember) :=
  l ← everyone p;
  let q := trim (toLowerCase (me_query p)) in
  Ok (List.filter (fun m => in_tab (me_tab p) m && found q m) l).

Definition teamCount (p : MembersPage) : outcome Z := l ← everyone p; Ok (Z.of_nat (length (List.filter on_team l))).
Definition members_mailboxCount (p : MembersPage) : outcome Z :=
  l ← everyone p; Ok (Z.of_nat (length (List.filter om_has_mailbox l))).

End Members.

(** ** Billing *)

Record BillingPage := {
  bi_billing : Resource json;
  bi_updating : option jstr;
  bi_banner : option Banner }.

Definition set_bi_billing (v : Resource json) (x : BillingPage) : BillingPage := {|
  bi_billing := v; bi_updating := bi_updating x; bi_banner := bi_banner x |}.
Definition set_bi_updating (v : option jstr) (x : BillingPage) : BillingPage := {|
  bi_billing := bi_billing x; bi_updating := v; bi_banner := bi_banner x |}.
Definition set_bi_banner (v : option Banner) (x : BillingPage) : BillingPage := {|
  bi_billing := bi_billing x; bi_updating := bi_updating x; bi_banner := v |}.

Section Billing.
Context `{Unicode} `{Env}.

Notation billing_page := (prog ((Panel * Org) * BillingPage)).

(** [null] without an organization. *)
Definition fetch_plan : billing_page json := or_empty JNull getBillingInfo Throw.
Definition refetchPlan : billing_page unit := refetch bi_billing set_bi_billing fetch_plan.

(** The session is fetched again too: it knows the plan. *)
Definition handleSelectPlan (planKey : jstr) : billing_page unit :=
  p ← page (G:=BillingPage);
  orgId ← org_id;
  if negb (truthy orgId) || truthy_opt (bi_updating p) then skip
  else
    _ ← on_page (fun p => set_bi_banner None (set_bi_updating (Some planKey) p));
    finally
      (pcatch
         (_ ← api (updatePlan orgId planKey);
          _ ← refetchPlan;
          _ ← below fetchSession;
          on_page (set_bi_banner (success (js "Organization plan updated to " ++ toUpperCase planKey))))
         (fun e => on_page (set_bi_banner (failure (error_text e "Failed to change plan.")))))
      (on_page (set_bi_updating None)).

End Billing.

(** ** The tabs *)

Section Tabs.
Context `{HU : Unicode}.

Definition shown_in (tab : MemberTab) (l : list OrgMember) : list OrgMember := List.filter (in_tab tab) l.

(** Those who are on the team and have a mailbox. *)
Definition in_both (m : OrgMember) : bool := on_team m && om_has_mailbox m.

Lemma filter_true {A} (l : list A) : List.filter (fun _ => true) l = l.
Proof. induction l as [|a l IH]; [done|]. cbn. by rewrite IH. Qed.

Lemma blank_filter p l tab :
  everyone p = Ok l -> trim (toLowerCase (me_query p)) = [] -> filteredMembers (set_me_tab tab p) = Ok (shown_in tab l).
Proof.
  intros El Eq. unfold filteredMembers. change (everyone (set_me_tab tab p)) with (everyone p).
  change (me_query (set_me_tab tab p)) with (me_query p). rewrite El, Eq. ok_bind. f_equal.
  unfold shown_in. apply filter_ext. intros m. unfold found. cbn. by rewrite andb_true_r.
Qed.

Lemma overlap l :
  (length (List.filter on_team l) + length (List.filter om_has_mailbox l))%nat =
  (length l + length (List.filter in_both l))%nat.
Proof.
  induction l as [|m l IH]; [done|]. cbn [List.filter length].
  assert (E : in_both m = on_team m && om_has_mailbox m) by done. rewrite E.
  destruct (om_has_mailbox m) eqn:Eb, (on_team m) eqn:Et; cbn [andb length]; try lia.
  unfold on_team in Et. rewrite Eb in Et. by destruct (jeqb _ _).
Qed.

(** The tabs of the members page and their counters.  With nothing typed in the
    search, each tab shows as many members as its counter says; together the team and the
    mailbox tab show everyone, and those in both are the administrators and owners who
    have a mailbox. *)
Theorem member_tabs_agree p l :
  everyone p = Ok l -> trim (toLowerCase (me_query p)) = [] ->
  exists team boxes, filteredMembers (set_me_tab TeamMembers p) = Ok team /\
    filteredMembers (set_me_tab MailboxMembers p) = Ok boxes /\ filteredMembers (set_me_tab EveryMember p) = Ok l /\
    teamCount p = Ok (Z.of_nat (length team)) /\ members_mailboxCount p = Ok (Z.of_nat (length boxes)) /\
    (forall m, m ∈ l <-> m ∈ team \/ m ∈ boxes) /\
    (forall m, m ∈ team /\ m ∈ boxes <-> m ∈ l /\ om_has_mailbox m = true /\ om_role m <> js "member") /\
    (length team + length boxes)%nat = (length l + length (List.filter in_both l))%nat.
Proof.
  intros El Eq. exists (shown_in TeamMembers l), (shown_in MailboxMembers l).
  rewrite !(blank_filter p l) by done. unfold teamCount, members_mailboxCount. rewrite El. ok_bind.
  assert (Ein : forall tab m, m ∈ shown_in tab l <-> m ∈ l /\ in_tab tab m = true).
  { intros tab m. unfold shown_in. rewrite !list_elem_of_In, filter_In. done. }
  split_and!; try done.
  - f_equal. apply (filter_true l).
  - intros m. rewrite !Ein. cbn [in_tab]. unfold on_team.
    destruct (om_has_mailbox m), (jeqb (om_role m) (js "member")); cbn; naive_solver.
  - intros m. rewrite !Ein. cbn [in_tab]. unfold on_team, jeqb. case_bool_decide; destruct (om_has_mailbox m); cbn; naive_solver.
  - apply overlap.
Qed.

End Tabs.

#[local] Existing Instance ascii_unicode.

Definition team0 : list OrgMember := [
  {| om_id := js "u1"; om_email := js "root@byos.email"; om_name := js "Root"; om_role := js "owner"; om_active := true;
     om_has_mailbox := true |};
  {| om_id := js "u2"; om_email := js "ada@byos.email"; om_name := js "Ada"; om_role := js "member"; om_active := true;
     om_has_mailbox := true |};
  {| om_id := js "u3"; om_email := js "new@byos.email"; om_name := []; om_role := js "member"; om_active := true;
     om_has_mailbox := false |}].

Definition with_team : MembersPage :=
  set_me_members {| rs_value := Some team0; rs_error := None; rs_seq := 1 |} new_members.

Lemma member_tabs_agree_witness :
  exists team boxes, filteredMembers (set_me_tab TeamMembers with_team) = Ok team /\
    filteredMembers (set_me_tab MailboxMembers with_team) = Ok boxes /\
    (length team + length boxes)%nat = 4%nat.
Proof.
  destruct (member_tabs_agree with_team team0) as (team & boxes & E1 & E2 & _ & _ & _ & _ & _ & E3).
  - reflexivity.
  - reflexivity.
  - exists team, boxes. split; [exact E1|]. split; [exact E2|]. rewrite E3. reflexivity.
Defined.
