(* ===== verification/DomainsPage.v ===== *)
(** * The domains page of the control plane

    control-plane/src/routes/dashboard/domains.tsx and components/domains/DomainWizard.tsx: the list of the
    organization's domains, their verification, and the steps that add one.  The wizard's
    signals are part of the page's; the domain name it accepts is given by a regular
    expression. *)

From S2P Require Import Prelude JsString Encoding Json Regexp Client Api MailView Reading MailboxData SignIn.
From S2P Require Import ControlApi OrgContext Page.

Inductive VerifyStatus := Idle | Verified | Pending | Failed.

Record Wizard := {
  wz_step : Z;
  wz_input : jstr;
  wz_error : option jstr;
  wz_domain : option json;
  wz_submitting : bool;
  wz_verifying : bool;
  wz_status : VerifyStatus;
  wz_message : jstr;
  wz_copied : option jstr;
  wz_clipboard : option jstr }.

Definition set_wz_step (v : Z) (x : Wizard) : Wizard := {|
  wz_step := v; wz_input := wz_input x; wz_error := wz_error x; wz_domain := wz_domain x; wz_submitting :=
    wz_submitting x; wz_verifying := wz_verifying x; wz_status := wz_status x; wz_message := wz_message x;
    wz_copied := wz_copied x; wz_clipboard := wz_clipboard x |}.
Definition set_wz_input (v : jstr) (x : Wizard) : Wizard := {|
  wz_step := wz_step x; wz_input := v; wz_error := wz_error x; wz_domain := wz_domain x; wz_submitting :=
    wz_submitting x; wz_verifying := wz_verifying x; wz_status := wz_status x; wz_message := wz_message x;
    wz_copied := wz_copied x; wz_clipboard := wz_clipboard x |}.
Definition set_wz_error (v : option jstr) (x : Wizard) : Wizard := {|
  wz_step := wz_step x; wz_input := wz_input x; wz_error := v; wz_domain := wz_domain x; wz_submitting :=
    wz_submitting x; wz_verifying := wz_verifying x; wz_status := wz_status x; wz_message := wz_message x;
    wz_copied := wz_copied x; wz_clipboard := wz_clipboard x |}.
Definition set_wz_domain (v : option json) (x : Wizard) : Wizard := {|
  wz_step := wz_step x; wz_input := wz_input x; wz_error := wz_error x; wz_domain := v; wz_submitting :=
    wz_submitting x; wz_verifying := wz_verifying x; wz_status := wz_status x; wz_message := wz_message x;
    wz_copied := wz_copied x; wz_clipboard := wz_clipboard x |}.
Definition set_wz_submitting (v : bool) (x : Wizard) : Wizard := {|
  wz_step := wz_step x; wz_input := wz_input x; wz_error := wz_error x; wz_domain := wz_domain x; wz_submitting
    := v; wz_verifying := wz_verifying x; wz_status := wz_status x; wz_message := wz_message x; wz_copied :=
    wz_copied x; wz_clipboard := wz_clipboard x |}.
Definition set_wz_verifying (v : bool) (x : Wizard) : Wizard := {|
  wz_step := wz_step x; wz_input := wz_input x; wz_error := wz_error x; wz_domain := wz_domain x; wz_submitting
    := wz_submitting x; wz_verifying := v; wz_status := wz_status x; wz_message := wz_message x; wz_copied :=
    wz_copied x; wz_clipboard := wz_clipboard x |}.
Definition set_wz_status (v : VerifyStatus) (x : Wizard) : Wizard := {|
  wz_step := wz_step x; wz_input := wz_input x; wz_error := wz_error x; wz_domain := wz_domain x; wz_submitting
    := wz_submitting x; wz_verifying := wz_verifying x; wz_status := v; wz_message := wz_message x; wz_copied :=
    wz_copied x; wz_clipboard := wz_clipboard x |}.
Definition set_wz_message (v : jstr) (x : Wizard) : Wizard := {|
  wz_step := wz_step x; wz_input := wz_input x; wz_error := wz_error x; wz_domain := wz_domain x; wz_submitting
    := wz_submitting x; wz_verifying := wz_verifying x; wz_status := wz_status x; wz_message := v; wz_copied :=
    wz_copied x; wz_clipboard := wz_clipboard x |}.
Definition set_wz_copied (v : option jstr) (x : Wizard) : Wizard := {|
  wz_step := wz_step x; wz_input := wz_input x; wz_error := wz_error x; wz_domain := wz_domain x; wz_submitting
    := wz_submitting x; wz_verifying := wz_verifying x; wz_status := wz_status x; wz_message := wz_message x;
    wz_copied := v; wz_clipboard := wz_clipboard x |}.
Definition set_wz_clipboard (v : option jstr) (x : Wizard) : Wizard := {|
  wz_step := wz_step x; wz_input := wz_input x; wz_error := wz_error x; wz_domain := wz_domain x; wz_submitting
    := wz_submitting x; wz_verifying := wz_verifying x; wz_status := wz_status x; wz_message := wz_message x;
    wz_copied := wz_copied x; wz_clipboard := v |}.

Record DomainsPage := {
  dm_banner : option Banner;
  dm_verifying : option jstr;
  dm_expanded : option jstr;
  dm_open : bool;
  dm_selected : option json;
  dm_start_step : Z;
  dm_domains : Resource (list json);
  dm_wizard : Wizard }.

Definition set_dm_banner (v : option Banner) (x : DomainsPage) : DomainsPage := {|
  dm_banner := v; dm_verifying := dm_verifying x; dm_expanded := dm_expanded x; dm_open := dm_open x;
    dm_selected := dm_selected x; dm_start_step := dm_start_step x; dm_domains := dm_domains x; dm_wizard :=
    dm_wizard x |}.
Definition set_dm_verifying (v : option jstr) (x : DomainsPage) : DomainsPage := {|
  dm_banner := dm_banner x; dm_verifying := v; dm_expanded := dm_expanded x; dm_open := dm_open x; dm_selected
    := dm_selected x; dm_start_step := dm_start_step x; dm_domains := dm_domains x; dm_wizard := dm_wizard x |}.
Definition set_dm_expanded (v : option jstr) (x : DomainsPage) : DomainsPage := {|
  dm_banner := dm_banner x; dm_verifying := dm_verifying x; dm_expanded := v; dm_open := dm_open x; dm_selected
    := dm_selected x; dm_start_step := dm_start_step x; dm_domains := dm_domains x; dm_wizard := dm_wizard x |}.
Definition set_dm_open (v : bool) (x : DomainsPage) : DomainsPage := {|
  dm_banner := dm_banner x; dm_verifying := dm_verifying x; dm_expanded := dm_expanded x; dm_open := v;
    dm_selected := dm_selected x; dm_start_step := dm_start_step x; dm_domains := dm_domains x; dm_wizard :=
    dm_wizard x |}.
Definition set_dm_selected (v : option json) (x : DomainsPage) : DomainsPage := {|
  dm_banner := dm_banner x; dm_verifying := dm_verifying x; dm_expanded := dm_expanded x; dm_open := dm_open x;
    dm_selected := v; dm_start_step := dm_start_step x; dm_domains := dm_domains x; dm_wizard := dm_wizard x |}.
Definition set_dm_start_step (v : Z) (x : DomainsPage) : DomainsPage := {|
  dm_banner := dm_banner x; dm_verifying := dm_verifying x; dm_expanded := dm_expanded x; dm_open := dm_open x;
    dm_selected := dm_selected x; dm_start_step := v; dm_domains := dm_domains x; dm_wizard := dm_wizard x |}.
Definition set_dm_domains (v : Resource (list json)) (x : DomainsPage) : DomainsPage := {|
  dm_banner := dm_banner x; dm_verifying := dm_verifying x; dm_expanded := dm_expanded x; dm_open := dm_open x;
    dm_selected := dm_selected x; dm_start_step := dm_start_step x; dm_domains := v; dm_wizard := dm_wizard x
    |}.
Definition set_dm_wizard (v : Wizard) (x : DomainsPage) : DomainsPage := {|
  dm_banner := dm_banner x; dm_verifying := dm_verifying x; dm_expanded := dm_expanded x; dm_open := dm_open x;
    dm_selected := dm_selected x; dm_start_step := dm_start_step x; dm_domains := dm_domains x; dm_wizard := v
    |}.

Definition new_wizard : Wizard := {|
  wz_step := 1; wz_input := []; wz_error := None; wz_domain := None; wz_submitting := false; wz_verifying := false;
  wz_status := Idle; wz_message := []; wz_copied := None; wz_clipboard := None |}.

Definition new_domains : DomainsPage := {|
  dm_banner := None; dm_verifying := None; dm_expanded := None; dm_open := false; dm_selected := None; dm_start_step := 1;
  dm_domains := new_resource; dm_wizard := new_wizard |}.

Definition on_wizard (f : Wizard -> Wizard) (p : DomainsPage) : DomainsPage := set_dm_wizard (f (dm_wizard p)) p.

(** ** The name of a domain *)

Definition is_ascii_letter (u : Z) : bool := ((65 <=? u) && (u <=? 90)) || ((97 <=? u) && (u <=? 122)).
Definition is_alnum (u : Z) : bool := is_ascii_letter u || is_digit u.
Definition is_alnum_dash (u : Z) : bool := is_alnum u || (u =? 45).

Definition label_re : re := Seq (Chr is_alnum) (Opt (Seq (Upto 61 (Chr is_alnum_dash)) (Chr is_alnum))).
Definition domainRegex : re := Seq (Plus (Seq label_re (Chr (Z.eqb 46)))) (AtLeast 2 (Chr is_ascii_letter)).

Section Domains.
Context `{Unicode} `{Env}.

Notation domains_page := (prog ((Panel * Org) * DomainsPage)).

(** ** The page *)

Definition fetch_domain_list : domains_page (list json) :=
  or_empty [] listDomains (fun e => if bool_decide (status e = Some 404) then Ok [] else Throw e).

Definition refetchDomainList : domains_page unit := refetch dm_domains set_dm_domains fetch_domain_list.

(** The wizard's effect, when what it is opened with changes. *)
Definition sync_wizard (p : DomainsPage) : DomainsPage :=
  if dm_open p then
    match dm_selected p with
    | Some d =>
        on_wizard (fun z => set_wz_status (if is_verified_domain d then Verified else Idle)
          (set_wz_step (if dm_start_step p =? 0 then 2 else dm_start_step p)
            (set_wz_input (str_field d "name") (set_wz_domain (Some d) z)))) p
    | None =>
        on_wizard (fun z => set_wz_status Idle (set_wz_step 1 (set_wz_error None (set_wz_input [] (set_wz_domain None z))))) p
    end
  else p.

Definition openNewDomainWizard (p : DomainsPage) : DomainsPage :=
  sync_wizard (set_dm_open true (set_dm_start_step 1 (set_dm_selected None p))).

Definition openExistingDomainWizard (domain : json) (step : Z) (p : DomainsPage) : DomainsPage :=
  sync_wizard (set_dm_open true (set_dm_start_step step (set_dm_selected (Some domain) p))).

Definition close_wizard (p : DomainsPage) : DomainsPage := set_dm_open false p.

(** [setTimeout(() => setBanner(null), ...)] *)
Definition domains_banner (b : option Banner) : domains_page unit := on_page (set_dm_banner b).

Definition verify_failure (e : js_error) : jstr :=
  if bool_decide (status e = Some 403) then js "You do not have permission to verify this domain."
  else if bool_decide (status e = Some 404) then js "Domain not found."
  else js "DNS verification failed. TXT record not found yet.".

Definition domains_handleVerify (domainId : jstr) : domains_page unit :=
  orgId ← org_id;
  if negb (truthy orgId) then skip
  else
    _ ← on_page (fun p => set_dm_banner None (set_dm_verifying (Some domainId) p));
    finally
      (pcatch
         (_ ← api (verifyDomain orgId domainId);
          _ ← refetchDomainList;
          _ ← domains_banner (success (js "Domain DNS verified successfully."));
          later (set_dm_banner None))
         (fun e => _ ← domains_banner (failure (verify_failure e)); later (set_dm_banner None)))
      (on_page (set_dm_verifying None)).

Definition toggle_records (i : jstr) (p : DomainsPage) : DomainsPage :=
  set_dm_expanded (if bool_decide (dm_expanded p = Some i) then None else Some i) p.

(** ** The wizard *)

Definition wizard_error (text : jstr) : domains_page unit := on_page (on_wizard (set_wz_error (Some text))).

Definition create_domain_failure (e : js_error) : jstr :=
  if bool_decide (status e = Some 409) || includes (message e) (js "already exists") then
    js "This domain has already been added to an organization."
  else if bool_decide (status e = Some 402) then js "Plan domain limit reached. Please upgrade your subscription."
  else or_default (message e) (js "Failed to create domain. Please try again.").

Definition handleStep1Submit : domains_page unit :=
  _ ← on_page (on_wizard (set_wz_error None));
  p ← page (G:=DomainsPage);
  let raw := toLowerCase (trim (wz_input (dm_wizard p))) in
  if negb (truthy raw) then wizard_error (js "Please enter a domain name.")
  else if negb (matches domainRegex raw) then
    wizard_error (js "Invalid domain format. Example: company.com or mail.example.org")
  else
    orgId ← org_id;
    _ ← on_page (on_wizard (set_wz_submitting true));
    finally
      (pcatch
         (created ← api (createDomain orgId raw);
          on_page (on_wizard (fun z => set_wz_step 2 (set_wz_domain (Some created) z))))
         (fun e => wizard_error (create_domain_failure e)))
      (on_page (on_wizard (set_wz_submitting false))).

(** [{ ...d, is_verified: true, verified: true }]: of equal names the last one counts. *)
Definition marked_verified (d : json) : json :=
  match d with JObj ms => JObj (ms ++ [(js "is_verified", JBool true); (js "verified", JBool true)]) | _ => d end.

Definition handleTriggerVerification : domains_page unit :=
  p ← page (G:=DomainsPage);
  orgId ← org_id;
  match wz_domain (dm_wizard p) with
  | None | Some JNull => skip
  | Some d =>
      if negb (truthy orgId) then skip
      else
        _ ← on_page (on_wizard (fun z => set_wz_message [] (set_wz_verifying true z)));
        finally
          (pcatch
             (_ ← api (verifyDomain orgId (str_field d "id"));
              _ ← on_page (on_wizard (fun z => set_wz_domain (Some (marked_verified d))
                    (set_wz_message (js "Ownership successfully verified! All DNS records detected.") (set_wz_status Verified z))));
              spawn refetchDomainList)
             (fun _ => on_page (on_wizard (fun z => set_wz_message (js "Verification record not detected yet. DNS propagation can take a few minutes. You may continue to the next steps and verify later.")
                (set_wz_status Pending z)))))
          (on_page (on_wizard (set_wz_verifying false)))
  end.

Definition go_to_step (n : Z) : domains_page unit := on_page (on_wizard (set_wz_step n)).

Definition finish_wizard : domains_page unit := _ ← spawn refetchDomainList; on_page close_wizard.

(** [available] tells whether the browser has a clipboard. *)
Definition copyToClipboard (available : bool) (key text : jstr) : domains_page unit :=
  if available then
    _ ← on_page (on_wizard (fun z => set_wz_copied (Some key) (set_wz_clipboard (Some text) z)));
    later (on_wizard (set_wz_copied None))
  else skip.

(** ** The records it shows *)

Definition dns_records (d : json) : list json := match get d (js "dns_records") with Some (JArr l) => l | _ => [] end.

Definition record_value (pick : json -> bool) (d : json) (fallback : string) : jstr :=
  or_default (match List.find pick (dns_records d) with Some r => str_field r "value" | None => [] end) (js fallback).

Definition getTxtToken (z : Wizard) : jstr :=
  match wz_domain z with
  | None => []
  | Some d => or_default (str_field d "verification_token")
      (record_value (fun r => jeqb (str_field r "type") (js "TXT") && starts_with (js "_byos") (str_field r "name")) d
         "byos-verification=pending")
  end.

Definition getDkimKey (z : Wizard) : jstr :=
  match wz_domain z with
  | None => []
  | Some d => or_default (str_field d "dkim_public_key")
      (record_value (fun r => includes (str_field r "name") (js "_domainkey")) d "v=DKIM1; k=rsa; p=...")
  end.

Definition getMxHost (z : Wizard) : jstr :=
  match wz_domain z with
  | None => js "mail.byos.email"
  | Some d => record_value (fun r => jeqb (str_field r "type") (js "MX")) d "mail.byos.email"
  end.

End Domains.

(** ** Which names are accepted *)

Definition label_ok (l : jstr) : Prop :=
  (1 <= length l <= 63)%nat /\ forallb is_alnum_dash l = true /\ head l <> Some 45 /\ last l <> Some 45.

Definition tld_ok (l : jstr) : Prop := (2 <= length l)%nat /\ forallb is_ascii_letter l = true.

(** Labels between dots, and a last one of letters. *)
Definition is_domain_name (s : jstr) : Prop :=
  exists labels tld, s = concat (map (fun l => l ++ [46]) labels) ++ tld /\ labels <> [] /\ Forall label_ok labels /\ tld_ok tld.

Lemma alnum_dash u : is_alnum_dash u = true -> u <> 45 -> is_alnum u = true.
Proof. unfold is_alnum_dash. intros [H|H]%orb_true_iff Hu; [done|]. by apply Z.eqb_eq in H. Qed.

Lemma alnum_not_dash u : is_alnum u = true -> is_alnum_dash u = true /\ u <> 45.
Proof.
  intros H. unfold is_alnum_dash. rewrite H. split; [done|]. intros ->. by vm_compute in H.
Qed.

Lemma label_lang l : lang label_re l <-> label_ok l.
Proof.
  unfold label_re, label_ok. rewrite lang_seq_iff. split.
  - intros (x & y & -> & (c & -> & Hc)%lang_chr_iff & Hy). destruct (alnum_not_dash c Hc) as [Hd Hn].
    unfold Opt in Hy. apply lang_alt_iff in Hy as [Hy| ->%lang_eps_iff].
    + apply lang_seq_iff in Hy as (m & z & -> & [Hl Hm]%lang_upto_chr & (d & -> & Hd')%lang_chr_iff).
      destruct (alnum_not_dash d Hd') as [Hdd Hdn]. change ([c] ++ m ++ [d]) with ((c :: m) ++ [d]).
      rewrite length_app, last_snoc.
      cbn [length app head forallb]. rewrite forallb_app, Hd, Hm. cbn [forallb]. rewrite Hdd.
      split; [lia|]. split; [done|]. split; congruence.
    + cbn. rewrite Hd. split; [lia|]. split; [done|]. split; congruence.
  - intros ([Hl1 Hl2] & Hall & Hh & Ht). destruct l as [|c l]; [cbn in Hl1; lia|]. cbn [forallb] in Hall.
    apply andb_true_iff in Hall as [Hc Hall]. exists [c], l. split; [done|].
    split; [constructor; apply alnum_dash; [done|]; intros ->; by apply Hh|].
    unfold Opt. apply lang_alt_iff. destruct l as [|d m] using rev_ind; [right; constructor|]. clear IHm. left.
    rewrite app_comm_cons, last_snoc in Ht. rewrite forallb_app in Hall. apply andb_true_iff in Hall as [Hm Hd].
    cbn [forallb] in Hd. rewrite andb_true_r in Hd. apply lang_seq_iff. exists m, [d]. split; [done|]. split.
    + apply lang_upto_chr. cbn [length] in Hl2. rewrite length_app in Hl2. cbn [length] in Hl2. split; [lia|done].
    + constructor. apply alnum_dash; [done|]. intros ->. by apply Ht.
Qed.

Lemma dotted_lang s : lang (Seq label_re (Chr (Z.eqb 46))) s <-> exists l, s = l ++ [46] /\ label_ok l.
Proof.
  rewrite lang_seq_iff. split.
  - intros (x & y & -> & Hx%label_lang & (c & -> & Hc)%lang_chr_iff). apply Z.eqb_eq in Hc as <-. by exists x.
  - intros (l & -> & Hl). exists l, [46]. split; [done|]. split; [by apply label_lang|by constructor].
Qed.

Lemma dotted_star s :
  lang (Star (Seq label_re (Chr (Z.eqb 46)))) s <->
  exists labels, s = concat (map (fun l => l ++ [46]) labels) /\ Forall label_ok labels.
Proof.
  split.
  - intros H. remember (Star _) as r eqn:Er. induction H as [| | | | | |a x y Hx _ Hy IH]; try discriminate.
    + by exists [].
    + injection Er as ->. apply dotted_lang in Hx as (l & -> & Hl). destruct (IH eq_refl) as (labels & -> & Hls).
      exists (l :: labels). split; [done|by constructor].
  - intros (labels & -> & Hl). induction Hl as [|l labels Hl _ IH]; [constructor|]. cbn [map concat].
    apply lang_more; [apply dotted_lang; by exists l|done].
Qed.

(** C36.  The names the wizard accepts.  The expression it tests with matches exactly the
    texts of at least two labels between dots, where each label but the last has one to
    sixty-three letters, digits or dashes and neither begins nor ends with a dash, and the
    last has two letters or more. *)
Theorem domain_names_accepted s : matches domainRegex s = true <-> is_domain_name s.
Proof.
  rewrite matches_lang. unfold domainRegex, Plus, is_domain_name, tld_ok. rewrite lang_seq_iff. split.
  - intros (x & y & -> & Hx & Hy%lang_at_least_chr). apply lang_seq_iff in Hx as (u & v & -> & Hu & Hv).
    apply dotted_lang in Hu as (l & -> & Hl). apply dotted_star in Hv as (labels & -> & Hls).
    exists (l :: labels), y. cbn [map concat]. split; [by rewrite <- app_assoc|]. split; [done|]. split; [by constructor|done].
  - intros (labels & tld & -> & Hne & Hls & Ht). destruct Hls as [|l labels Hl Hls]; [done|].
    exists (concat (map (fun l => l ++ [46]) (l :: labels))), tld. split; [done|].
    split; [|by apply lang_at_least_chr]. apply lang_seq_iff. cbn [map concat].
    exists (l ++ [46]), (concat (map (fun l => l ++ [46]) labels)). split; [done|].
    split; [apply dotted_lang; by exists l|apply dotted_star; by exists labels].
Qed.

Example accepts_subdomains : matches domainRegex (js "mail.acme-corp.com") = true.
Proof. vm_compute. reflexivity. Qed.

Example refuses_a_bare_name : matches domainRegex (js "localhost") = false /\ matches domainRegex (js "-a.com") = false.
Proof. split; vm_compute; reflexivity. Qed.
