(* ===== verification/StoragePage.v ===== *)
(** * The storage page of the control plane

    control-plane/src/routes/dashboard/storage.tsx and components/storage/ConnectStorageDialog.tsx: connecting,
    replacing, testing and disconnecting the organization's storage, and its migrations.
    The dialog's signals are part of the page's; what it does to the focus of the browser is
    left out. *)

From S2P Require Import Prelude JsString Encoding Json Client Api MailView Reading MailboxData SignIn.
From S2P Require Import ControlApi ControlKeys OrgContext Page.

Record StorageDialog := {
  sd_provider : jstr;
  sd_endpoint : jstr;
  sd_bucket : jstr;
  sd_access_key : jstr;
  sd_secret_key : jstr;
  sd_region : jstr;
  sd_path_style : bool;
  sd_root : jstr;
  sd_access_token : jstr;
  sd_refresh_token : jstr;
  sd_folder : jstr;
  sd_submitting : bool;
  sd_errors : option (jstr * jstr);
  sd_top_error : jstr;
  sd_location : option jstr }.

Definition set_sd_provider (v : jstr) (x : StorageDialog) : StorageDialog := {|
  sd_provider := v; sd_endpoint := sd_endpoint x; sd_bucket := sd_bucket x; sd_access_key := sd_access_key x;
    sd_secret_key := sd_secret_key x; sd_region := sd_region x; sd_path_style := sd_path_style x; sd_root :=
    sd_root x; sd_access_token := sd_access_token x; sd_refresh_token := sd_refresh_token x; sd_folder :=
    sd_folder x; sd_submitting := sd_submitting x; sd_errors := sd_errors x; sd_top_error := sd_top_error x;
    sd_location := sd_location x |}.
Definition set_sd_endpoint (v : jstr) (x : StorageDialog) : StorageDialog := {|
  sd_provider := sd_provider x; sd_endpoint := v; sd_bucket := sd_bucket x; sd_access_key := sd_access_key x;
    sd_secret_key := sd_secret_key x; sd_region := sd_region x; sd_path_style := sd_path_style x; sd_root :=
    sd_root x; sd_access_token := sd_access_token x; sd_refresh_token := sd_refresh_token x; sd_folder :=
    sd_folder x; sd_submitting := sd_submitting x; sd_errors := sd_errors x; sd_top_error := sd_top_error x;
    sd_location := sd_location x |}.
Definition set_sd_bucket (v : jstr) (x : StorageDialog) : StorageDialog := {|
  sd_provider := sd_provider x; sd_endpoint := sd_endpoint x; sd_bucket := v; sd_access_key := sd_access_key x;
    sd_secret_key := sd_secret_key x; sd_region := sd_region x; sd_path_style := sd_path_style x; sd_root :=
    sd_root x; sd_access_token := sd_access_token x; sd_refresh_token := sd_refresh_token x; sd_folder :=
    sd_folder x; sd_submitting := sd_submitting x; sd_errors := sd_errors x; sd_top_error := sd_top_error x;
    sd_location := sd_location x |}.
Definition set_sd_access_key (v : jstr) (x : StorageDialog) : StorageDialog := {|
  sd_provider := sd_provider x; sd_endpoint := sd_endpoint x; sd_bucket := sd_bucket x; sd_access_key := v;
    sd_secret_key := sd_secret_key x; sd_region := sd_region x; sd_path_style := sd_path_style x; sd_root :=
    sd_root x; sd_access_token := sd_access_token x; sd_refresh_token := sd_refresh_token x; sd_folder :=
    sd_folder x; sd_submitting := sd_submitting x; sd_errors := sd_errors x; sd_top_error := sd_top_error x;
    sd_location := sd_location x |}.
Definition set_sd_secret_key (v : jstr) (x : StorageDialog) : StorageDialog := {|
  sd_provider := sd_provider x; sd_endpoint := sd_endpoint x; sd_bucket := sd_bucket x; sd_access_key :=
    sd_access_key x; sd_secret_key := v; sd_region := sd_region x; sd_path_style := sd_path_style x; sd_root :=
    sd_root x; sd_access_token := sd_access_token x; sd_refresh_token := sd_refresh_token x; sd_folder :=
    sd_folder x; sd_submitting := sd_submitting x; sd_errors := sd_errors x; sd_top_error := sd_top_error x;
    sd_location := sd_location x |}.
Definition set_sd_region (v : jstr) (x : StorageDialog) : StorageDialog := {|
  sd_provider := sd_provider x; sd_endpoint := sd_endpoint x; sd_bucket := sd_bucket x; sd_access_key :=
    sd_access_key x; sd_secret_key := sd_secret_key x; sd_region := v; sd_path_style := sd_path_style x; sd_root
    := sd_root x; sd_access_token := sd_access_token x; sd_refresh_token := sd_refresh_token x; sd_folder :=
    sd_folder x; sd_submitting := sd_submitting x; sd_errors := sd_errors x; sd_top_error := sd_top_error x;
    sd_location := sd_location x |}.
Definition set_sd_path_style (v : bool) (x : StorageDialog) : StorageDialog := {|
  sd_provider := sd_provider x; sd_endpoint := sd_endpoint x; sd_bucket := sd_bucket x; sd_access_key :=
    sd_access_key x; sd_secret_key := sd_secret_key x; sd_region := sd_region x; sd_path_style := v; sd_root :=
    sd_root x; sd_access_token := sd_access_token x; sd_refresh_token := sd_refresh_token x; sd_folder :=
    sd_folder x; sd_submitting := sd_submitting x; sd_errors := sd_errors x; sd_top_error := sd_top_error x;
    sd_location := sd_location x |}.
Definition set_sd_root (v : jstr) (x : StorageDialog) : StorageDialog := {|
  sd_provider := sd_provider x; sd_endpoint := sd_endpoint x; sd_bucket := sd_bucket x; sd_access_key :=
    sd_access_key x; sd_secret_key := sd_secret_key x; sd_region := sd_region x; sd_path_style := sd_path_style
    x; sd_root := v; sd_access_token := sd_access_token x; sd_refresh_token := sd_refresh_token x; sd_folder :=
    sd_folder x; sd_submitting := sd_submitting x; sd_errors := sd_errors x; sd_top_error := sd_top_error x;
    sd_location := sd_location x |}.
Definition set_sd_access_token (v : jstr) (x : StorageDialog) : StorageDialog := {|
  sd_provider := sd_provider x; sd_endpoint := sd_endpoint x; sd_bucket := sd_bucket x; sd_access_key :=
    sd_access_key x; sd_secret_key := sd_secret_key x; sd_region := sd_region x; sd_path_style := sd_path_style
    x; sd_root := sd_root x; sd_access_token := v; sd_refresh_token := sd_refresh_token x; sd_folder :=
    sd_folder x; sd_submitting := sd_submitting x; sd_errors := sd_errors x; sd_top_error := sd_top_error x;
    sd_location := sd_location x |}.
Definition set_sd_refresh_token (v : jstr) (x : StorageDialog) : StorageDialog := {|
  sd_provider := sd_provider x; sd_endpoint := sd_endpoint x; sd_bucket := sd_bucket x; sd_access_key :=
    sd_access_key x; sd_secret_key := sd_secret_key x; sd_region := sd_region x; sd_path_style := sd_path_style
    x; sd_root := sd_root x; sd_access_token := sd_access_token x; sd_refresh_token := v; sd_folder := sd_folder
    x; sd_submitting := sd_submitting x; sd_errors := sd_errors x; sd_top_error := sd_top_error x; sd_location
    := sd_location x |}.
Definition set_sd_folder (v : jstr) (x : StorageDialog) : StorageDialog := {|
  sd_provider := sd_provider x; sd_endpoint := sd_endpoint x; sd_bucket := sd_bucket x; sd_access_key :=
    sd_access_key x; sd_secret_key := sd_secret_key x; sd_region := sd_region x; sd_path_style := sd_path_style
    x; sd_root := sd_root x; sd_access_token := sd_access_token x; sd_refresh_token := sd_refresh_token x;
    sd_folder := v; sd_submitting := sd_submitting x; sd_errors := sd_errors x; sd_top_error := sd_top_error x;
    sd_location := sd_location x |}.
Definition set_sd_submitting (v : bool) (x : StorageDialog) : StorageDialog := {|
  sd_provider := sd_provider x; sd_endpoint := sd_endpoint x; sd_bucket := sd_bucket x; sd_access_key :=
    sd_access_key x; sd_secret_key := sd_secret_key x; sd_region := sd_region x; sd_path_style := sd_path_style
    x; sd_root := sd_root x; sd_access_token := sd_access_token x; sd_refresh_token := sd_refresh_token x;
    sd_folder := sd_folder x; sd_submitting := v; sd_errors := sd_errors x; sd_top_error := sd_top_error x;
    sd_location := sd_location x |}.
Definition set_sd_errors (v : option (jstr * jstr)) (x : StorageDialog) : StorageDialog := {|
  sd_provider := sd_provider x; sd_endpoint := sd_endpoint x; sd_bucket := sd_bucket x; sd_access_key :=
    sd_access_key x; sd_secret_key := sd_secret_key x; sd_region := sd_region x; sd_path_style := sd_path_style
    x; sd_root := sd_root x; sd_access_token := sd_access_token x; sd_refresh_token := sd_refresh_token x;
    sd_folder := sd_folder x; sd_submitting := sd_submitting x; sd_errors := v; sd_top_error := sd_top_error x;
    sd_location := sd_location x |}.
Definition set_sd_top_error (v : jstr) (x : StorageDialog) : StorageDialog := {|
  sd_provider := sd_provider x; sd_endpoint := sd_endpoint x; sd_bucket := sd_bucket x; sd_access_key :=
    sd_access_key x; sd_secret_key := sd_secret_key x; sd_region := sd_region x; sd_path_style := sd_path_style
    x; sd_root := sd_root x; sd_access_token := sd_access_token x; sd_refresh_token := sd_refresh_token x;
    sd_folder := sd_folder x; sd_submitting := sd_submitting x; sd_errors := sd_errors x; sd_top_error := v;
    sd_location := sd_location x |}.
Definition set_sd_location (v : option jstr) (x : StorageDialog) : StorageDialog := {|
  sd_provider := sd_provider x; sd_endpoint := sd_endpoint x; sd_bucket := sd_bucket x; sd_access_key :=
    sd_access_key x; sd_secret_key := sd_secret_key x; sd_region := sd_region x; sd_path_style := sd_path_style
    x; sd_root := sd_root x; sd_access_token := sd_access_token x; sd_refresh_token := sd_refresh_token x;
    sd_folder := sd_folder x; sd_submitting := sd_submitting x; sd_errors := sd_errors x; sd_top_error :=
    sd_top_error x; sd_location := v |}.

Record StoragePage := {
  sp_open : bool;
  sp_replacing : bool;
  sp_banner : option Banner;
  sp_testing : bool;
  sp_disconnecting : bool;
  sp_migration_id : jstr;
  sp_migration : option json;
  sp_migration_busy : bool;
  sp_connection : Resource json;
  sp_dialog : StorageDialog }.

Definition set_sp_open (v : bool) (x : StoragePage) : StoragePage := {|
  sp_open := v; sp_replacing := sp_replacing x; sp_banner := sp_banner x; sp_testing := sp_testing x;
    sp_disconnecting := sp_disconnecting x; sp_migration_id := sp_migration_id x; sp_migration := sp_migration
    x; sp_migration_busy := sp_migration_busy x; sp_connection := sp_connection x; sp_dialog := sp_dialog x |}.
Definition set_sp_replacing (v : bool) (x : StoragePage) : StoragePage := {|
  sp_open := sp_open x; sp_replacing := v; sp_banner := sp_banner x; sp_testing := sp_testing x;
    sp_disconnecting := sp_disconnecting x; sp_migration_id := sp_migration_id x; sp_migration := sp_migration
    x; sp_migration_busy := sp_migration_busy x; sp_connection := sp_connection x; sp_dialog := sp_dialog x |}.
Definition set_sp_banner (v : option Banner) (x : StoragePage) : StoragePage := {|
  sp_open := sp_open x; sp_replacing := sp_replacing x; sp_banner := v; sp_testing := sp_testing x;
    sp_disconnecting := sp_disconnecting x; sp_migration_id := sp_migration_id x; sp_migration := sp_migration
    x; sp_migration_busy := sp_migration_busy x; sp_connection := sp_connection x; sp_dialog := sp_dialog x |}.
Definition set_sp_testing (v : bool) (x : StoragePage) : StoragePage := {|
  sp_open := sp_open x; sp_replacing := sp_replacing x; sp_banner := sp_banner x; sp_testing := v;
    sp_disconnecting := sp_disconnecting x; sp_migration_id := sp_migration_id x; sp_migration := sp_migration
    x; sp_migration_busy := sp_migration_busy x; sp_connection := sp_connection x; sp_dialog := sp_dialog x |}.
Definition set_sp_disconnecting (v : bool) (x : StoragePage) : StoragePage := {|
  sp_open := sp_open x; sp_replacing := sp_replacing x; sp_banner := sp_banner x; sp_testing := sp_testing x;
    sp_disconnecting := v; sp_migration_id := sp_migration_id x; sp_migration := sp_migration x;
    sp_migration_busy := sp_migration_busy x; sp_connection := sp_connection x; sp_dialog := sp_dialog x |}.
Definition set_sp_migration_id (v : jstr) (x : StoragePage) : StoragePage := {|
  sp_open := sp_open x; sp_replacing := sp_replacing x; sp_banner := sp_banner x; sp_testing := sp_testing x;
    sp_disconnecting := sp_disconnecting x; sp_migration_id := v; sp_migration := sp_migration x;
    sp_migration_busy := sp_migration_busy x; sp_connection := sp_connection x; sp_dialog := sp_dialog x |}.
Definition set_sp_migration (v : option json) (x : StoragePage) : StoragePage := {|
  sp_open := sp_open x; sp_replacing := sp_replacing x; sp_banner := sp_banner x; sp_testing := sp_testing x;
    sp_disconnecting := sp_disconnecting x; sp_migration_id := sp_migration_id x; sp_migration := v;
    sp_migration_busy := sp_migration_busy x; sp_connection := sp_connection x; sp_dialog := sp_dialog x |}.
Definition set_sp_migration_busy (v : bool) (x : StoragePage) : StoragePage := {|
  sp_open := sp_open x; sp_replacing := sp_replacing x; sp_banner := sp_banner x; sp_testing := sp_testing x;
    sp_disconnecting := sp_disconnecting x; sp_migration_id := sp_migration_id x; sp_migration := sp_migration
    x; sp_migration_busy := v; sp_connection := sp_connection x; sp_dialog := sp_dialog x |}.
Definition set_sp_connection (v : Resource json) (x : StoragePage) : StoragePage := {|
  sp_open := sp_open x; sp_replacing := sp_replacing x; sp_banner := sp_banner x; sp_testing := sp_testing x;
    sp_disconnecting := sp_disconnecting x; sp_migration_id := sp_migration_id x; sp_migration := sp_migration
    x; sp_migration_busy := sp_migration_busy x; sp_connection := v; sp_dialog := sp_dialog x |}.
Definition set_sp_dialog (v : StorageDialog) (x : StoragePage) : StoragePage := {|
  sp_open := sp_open x; sp_replacing := sp_replacing x; sp_banner := sp_banner x; sp_testing := sp_testing x;
    sp_disconnecting := sp_disconnecting x; sp_migration_id := sp_migration_id x; sp_migration := sp_migration
    x; sp_migration_busy := sp_migration_busy x; sp_connection := sp_connection x; sp_dialog := v |}.

Definition new_dialog : StorageDialog := {|
  sd_provider := js "s3"; sd_endpoint := []; sd_bucket := []; sd_access_key := []; sd_secret_key := []; sd_region := [];
  sd_path_style := true; sd_root := []; sd_access_token := []; sd_refresh_token := []; sd_folder := [];
  sd_submitting := false; sd_errors := None; sd_top_error := []; sd_location := None |}.

Definition new_storage_page : StoragePage := {|
  sp_open := false; sp_replacing := false; sp_banner := None; sp_testing := false; sp_disconnecting := false;
  sp_migration_id := []; sp_migration := None; sp_migration_busy := false; sp_connection := new_resource;
  sp_dialog := new_dialog |}.

Definition on_dialog (f : StorageDialog -> StorageDialog) (p : StoragePage) : StoragePage :=
  set_sp_dialog (f (sp_dialog p)) p.

(** The content of the page's [meta] element [org-id]. *)
Definition meta_org_id : jstr := [].

Section StorageRoute.
Context `{Env}.

Notation storage_page := (prog ((Panel * Org) * StoragePage)).

Definition storage_banner (b : option Banner) : storage_page unit := on_page (set_sp_banner b).
Definition banner_goes : storage_page unit := later (set_sp_banner None).

(** A failure whose message has 404 in it means that there is no connection. *)
Definition fetch_connection : storage_page json :=
  or_empty JNull getStorageConnection (fun e => if includes (thrown_message e) (js "404") then Ok JNull else Throw e).

Definition refetchConnection : storage_page unit := refetch sp_connection set_sp_connection fetch_connection.

Definition openCreate (p : StoragePage) : StoragePage := set_sp_open true (set_sp_replacing false p).
Definition openReplace (p : StoragePage) : StoragePage := set_sp_open true (set_sp_replacing true p).

Definition connection_payload (provider : jstr) (config : storage_config) : json :=
  JObj [str_member "provider" provider; (js "config", JObj config)].

Definition storage_handleSubmit (provider : jstr) (config : storage_config) : storage_page unit :=
  orgId ← org_id;
  if negb (truthy orgId) then pthrow "Missing organization"
  else
    p ← page (G:=StoragePage);
    _ ← (if sp_replacing p then
           _ ← api (updateStorageConnection orgId (connection_payload provider config));
           storage_banner (success (js "Storage configuration updated and re-encrypted."))
         else
           _ ← api (createStorageConnection orgId (connection_payload provider config));
           storage_banner (success (js "Storage configuration saved and encrypted.")));
    _ ← refetchConnection;
    banner_goes.

Definition test_banner (code : jstr) : option Banner :=
  if jeqb code (js "verified") then success (js "Storage connection verified successfully.")
  else if jeqb code (js "authentication_failed") then
    failure (js "Authentication failed " ++ [8211] ++ js " check access key and secret key.")
  else if jeqb code (js "provider_unavailable") then
    failure (js "Provider unavailable " ++ [8211] ++ js " check endpoint and bucket name.")
  else if jeqb code (js "configuration_error") then
    failure (js "Configuration error " ++ [8211] ++ js " check provider settings.")
  else failure (js "Storage service temporarily unavailable.").

Definition test_failure (e : js_error) : jstr :=
  let msg := thrown_message e in
  if includes msg (js "configuration_changed") || bool_decide (status e = Some 409) then
    js "Storage configuration changed while the test was running. Please test again."
  else if includes msg (js "403") then js "You don't have permission to test this storage connection."
  else if includes msg (js "404") then js "No storage connection found."
  else js "Storage service temporarily unavailable.".

Definition handleTest (now : jstr) : storage_page unit :=
  orgId ← org_id;
  if negb (truthy orgId) then skip
  else
    _ ← on_page (fun p => set_sp_banner None (set_sp_testing true p));
    finally
      (pcatch
         (result ← api (testStorageConnection now orgId);
          _ ← refetchConnection;
          v ← lift (reply_object (Some result));
          _ ← storage_banner (test_banner (str_field v "code"));
          banner_goes)
         (fun e => _ ← storage_banner (failure (test_failure e)); _ ← refetchConnection; banner_goes))
      (on_page (set_sp_testing false)).

Definition disconnect_failure (e : js_error) : jstr :=
  let msg := thrown_message e in
  if includes msg (js "403") then js "You don't have permission to disconnect storage."
  else if includes msg (js "404") then js "No active storage connection."
  else js "Failed to disconnect storage.".

Definition handleDisconnect : storage_page unit :=
  orgId ← org_id;
  if negb (truthy orgId) then skip
  else
    _ ← on_page (set_sp_disconnecting true);
    finally
      (pcatch
         (_ ← api (deleteStorageConnection orgId);
          _ ← refetchConnection;
          storage_banner (success (js "Storage disconnected.")))
         (fun e => storage_banner (failure (disconnect_failure e))))
      (on_page (set_sp_disconnecting false)).

Definition handleMigrationStatus : storage_page unit :=
  orgId ← org_id;
  p ← page (G:=StoragePage);
  let i := trim (sp_migration_id p) in
  if negb (truthy orgId) || negb (truthy i) then skip
  else
    _ ← on_page (set_sp_migration_busy true);
    finally
      (pcatch
         (v ← api (getStorageMigrationStatus orgId i);
          on_page (fun p => set_sp_banner None (set_sp_migration (Some v) p)))
         (fun _ => on_page (fun p => set_sp_banner (failure (js "Unable to load migration status.")) (set_sp_migration None p))))
      (on_page (set_sp_migration_busy false)).

Definition handleMigrationRetry : storage_page unit :=
  orgId ← org_id;
  p ← page (G:=StoragePage);
  let i := trim (sp_migration_id p) in
  if negb (truthy orgId) || negb (truthy i) then skip
  else
    _ ← on_page (set_sp_migration_busy true);
    finally
      (pcatch
         (v ← api (retryStorageMigration orgId i);
          on_page (fun p => set_sp_banner (success (js "Migration retry started.")) (set_sp_migration (Some v) p)))
         (fun _ => storage_banner (failure (js "Migration could not be retried. It may already be running or completed."))))
      (on_page (set_sp_migration_busy false)).

(** ** The dialog *)

Definition clearSensitive (d : StorageDialog) : StorageDialog :=
  set_sd_refresh_token [] (set_sd_access_token [] (set_sd_secret_key [] (set_sd_access_key [] d))).

Definition dialog_handleClose (p : StoragePage) : StoragePage :=
  set_sp_open false (on_dialog (fun d => set_sd_top_error [] (set_sd_errors None (clearSensitive d))) p).

(** The dialog asks for the organization of the [meta] element. *)
Definition startGoogleAuthorization : storage_page unit :=
  _ ← on_page (on_dialog (fun d => set_sd_submitting true (set_sd_top_error [] d)));
  pcatch
    (_ ← (if truthy meta_org_id then skip else pthrow "Organization ID is unavailable.");
     result ← api (authorizeGoogleDrive meta_org_id);
     v ← lift (reply_object (Some result));
     on_page (on_dialog (set_sd_location (Some (str_field v "authorization_url")))))
    (fun _ => on_page (on_dialog (fun d => set_sd_submitting false
       (set_sd_top_error (js "Google Drive authorization is unavailable. Check OAuth configuration.") d)))).

Definition optional (k : string) (v : jstr) : storage_config := if truthy (trim v) then [str_member k (trim v)] else [].

Definition dialog_config (d : StorageDialog) : storage_config :=
  if jeqb (sd_provider d) (js "google_drive_mock") then optional "root" (sd_root d)
  else if jeqb (sd_provider d) (js "google_drive") then
    str_member "access_token" (sd_access_token d) :: optional "refresh_token" (sd_refresh_token d)
      ++ optional "folder_id" (sd_folder d)
  else
    [str_member "endpoint" (trim (sd_endpoint d)); str_member "bucket" (trim (sd_bucket d));
     str_member "access_key" (sd_access_key d); str_member "secret_key" (sd_secret_key d)]
      ++ optional "region" (sd_region d) ++ [(js "path_style", JBool (sd_path_style d))].

Definition submit_failure (e : js_error) : jstr :=
  let msg := error_text e "Storage service temporarily unavailable." in
  if includes msg (js "409") then
    js "An active storage configuration already exists for this organization. Use Replace to rotate credentials."
  else if includes msg (js "403") then js "You don't have permission to manage storage for this organization."
  else if includes msg (js "400") then msg
  else js "Storage service temporarily unavailable.".

Definition emptied (d : StorageDialog) : StorageDialog :=
  set_sd_root [] (set_sd_region [] (set_sd_bucket [] (set_sd_endpoint [] (clearSensitive d)))).

Definition dialog_handleSubmit : storage_page unit :=
  _ ← on_page (on_dialog (fun d => set_sd_errors None (set_sd_top_error [] d)));
  p ← page (G:=StoragePage);
  let d := sp_dialog p in
  match validateStorageConfig (sd_provider d) (dialog_config d) with
  | invalid f m => on_page (on_dialog (set_sd_errors (Some (f, m))))
  | valid =>
      _ ← on_page (on_dialog (set_sd_submitting true));
      finally
        (pcatch
           (_ ← storage_handleSubmit (sd_provider d) (dialog_config d);
            on_page (fun p => set_sp_open false (on_dialog emptied p)))
           (fun e => on_page (on_dialog (fun d => clearSensitive (set_sd_top_error (submit_failure e) d)))))
        (on_page (on_dialog (set_sd_submitting false)))
  end.

End StorageRoute.

(** ** Running the page *)

Section StorageRuns.
Context `{HE : Env}.

(** Fetching again touches the panel and the resource only. *)
Lemma run_refetchConnection w t s o p :
  exists s' r t', run w t ((s, o), p) refetchConnection = (Ok tt, ((s', o), set_sp_connection r p), t').
Proof.
  unfold refetchConnection, refetch. rewrite run_bind, run_on_page, run_page, run_catch, run_bind.
  unfold fetch_connection, or_empty. rewrite run_org_id. destruct (truthy (og_id o)).
  - rewrite run_catch, run_api. destruct (run w t s (getStorageConnection (og_id o))) as [[[v|e] s1] t1].
    + rewrite run_on_page. by do 3 eexists.
    + destruct (includes _ _); cbn [lift run]; rewrite run_on_page; by do 3 eexists.
  - cbn [mret prog_ret run]. rewrite run_on_page. by do 3 eexists.
Qed.

(** The dialog is as it was. *)
Definition same_dialog (p p' : StoragePage) : Prop := sp_dialog p' = sp_dialog p /\ sp_open p' = sp_open p.

Lemma run_tail w t s o p :
  exists s' p' t' l, run w t ((s, o), p) (_ ← refetchConnection; banner_goes) = (Ok tt, ((s', o), p'), t') /\
    same_dialog p p' /\ sent t' = sent t ++ l.
Proof.
  destruct (run_refetchConnection w t s o p) as (s' & r & t' & R).
  destruct (run_extends w t ((s, o), p) refetchConnection) as [l El]. rewrite R in El. cbn [snd] in El.
  rewrite run_bind, R. by do 3 eexists; exists l.
Qed.

Definition no_credentials (d : StorageDialog) : Prop :=
  sd_access_key d = [] /\ sd_secret_key d = [] /\ sd_access_token d = [] /\ sd_refresh_token d = [].

(** The request that stores a configuration. *)
Definition store_request (replacing : bool) (orgId provider : jstr) (config : storage_config) (s : Panel) : request := {|
  req_method := if replacing then js "PUT" else js "POST"; req_url := storageBase ++ org_path orgId "/storage/connection";
  req_headers := panel_headers s; req_credentials := js "include";
  req_body := stringified (connection_payload provider config) |}.

Lemma run_store w t s o p provider config :
  truthy (og_id o) = true ->
  let q := store_request (sp_replacing p) (og_id o) provider config s in
  exists r s' p' t' l, run w t ((s, o), p) (storage_handleSubmit provider config) = (r, ((s', o), p'), t') /\
    same_dialog p p' /\ sent t' = sent t ++ q :: l /\
    is_ok r = is_ok (data ← storage_reply (respond w t q); response_json data).
Proof.
  intros Ho q. unfold storage_handleSubmit. rewrite run_org_id, Ho. cbn [negb]. rewrite run_page, run_bind.
  assert (Hreq : forall A (b : bool) (f : json -> prog ((Panel * Org) * StoragePage) A),
    sp_replacing p = b ->
    run w t ((s, o), p) (api (if b then updateStorageConnection (og_id o) (connection_payload provider config)
                              else createStorageConnection (og_id o) (connection_payload provider config)) ≫= f) =
    match (data ← storage_reply (respond w t q); response_json data) with
    | Ok v => run w (ask q t) ((s, o), p) (f v)
    | Throw e => (Throw e, ((s, o), p), ask q t)
    end).
  { intros A b f Eb. rewrite run_bind, run_api. unfold q, store_request. rewrite Eb.
    destruct b; unfold updateStorageConnection, createStorageConnection, storage_request; rewrite run_bind; cbn [gets run];
      rewrite run_bind; cbn [fetch run]; (destruct (storage_reply _) as [data|e]; rewrite bind_lift; [|done]); ok_bind;
      by destruct (response_json data). }
  assert (Hthen : forall b, sp_replacing p = b ->
    run w t ((s, o), p) (if b
       then _ ← api (updateStorageConnection (og_id o) (connection_payload provider config));
            storage_banner (success (js "Storage configuration updated and re-encrypted."))
       else _ ← api (createStorageConnection (og_id o) (connection_payload provider config));
            storage_banner (success (js "Storage configuration saved and encrypted."))) =
    match (data ← storage_reply (respond w t q); response_json data) with
    | Ok v => (Ok tt, ((s, o), set_sp_banner (success (if b then js "Storage configuration updated and re-encrypted."
                 else js "Storage configuration saved and encrypted.")) p), ask q t)
    | Throw e => (Throw e, ((s, o), p), ask q t)
    end).
  { intros b Eb. pose proof (Hreq unit b) as H. destruct b; rewrite H by done;
      (destruct (_ ≫= _); [|done]; unfold storage_banner; by rewrite run_on_page). }
  rewrite (Hthen _ eq_refl). destruct (storage_reply (respond w t q)) as [data|e]; ok_bind.
  2:{ eexists _, _, _, _, []. split; [reflexivity|]. done. }
  destruct (response_json data) as [v|e].
  2:{ eexists _, _, _, _, []. split; [reflexivity|]. done. }
  match goal with |- context [run w ?t1 (_, ?p1) _] => destruct (run_tail w t1 s o p1) as (s' & p' & t' & l & R & Ed & El) end.
  rewrite R. exists (Ok tt), s', p', t', l. split; [reflexivity|]. split; [exact Ed|]. split; [|done].
  rewrite El. cbn [ask sent]. by rewrite <- app_assoc.
Qed.

(** C29.  What becomes of the credentials.  A configuration that is not well formed sends
    nothing.  One that is goes out in one request, to make or to replace the connection -
    and then, whatever the server answers, the dialog holds no access key, secret key or
    token any more; it closes exactly when the connection was stored. *)
Theorem dialog_drops_the_credentials w t s o p :
  truthy (og_id o) = true -> sp_open p = true ->
  let d := sp_dialog p in
  let config := dialog_config d in
  exists s' p' t', run w t ((s, o), p) dialog_handleSubmit = (Ok tt, ((s', o), p'), t') /\
    match validateStorageConfig (sd_provider d) config with
    | invalid f m => t' = t /\ s' = s /\ sd_errors (sp_dialog p') = Some (f, m) /\ dialog_config (sp_dialog p') = config
    | valid => no_credentials (sp_dialog p') /\ sd_submitting (sp_dialog p') = false /\
        let q := store_request (sp_replacing p) (og_id o) (sd_provider d) config s in
        (exists l, sent t' = sent t ++ q :: l) /\
        (is_ok (data ← storage_reply (respond w t q); response_json data) = true <-> sp_open p' = false)
    end.
Proof.
  intros Ho Hopen d config. unfold dialog_handleSubmit. rewrite run_bind, run_on_page, run_page.
  set (p1 := on_dialog _ p). change (sd_provider (sp_dialog p1)) with (sd_provider d).
  change (dialog_config (sp_dialog p1)) with config.
  destruct (validateStorageConfig _ _) as [|f m]; [|rewrite run_on_page; do 3 eexists; split; [reflexivity|by split_and!]].
  rewrite run_bind, run_on_page, run_finally, run_catch, run_bind. set (p2 := on_dialog (set_sd_submitting true) p1).
  destruct (run_store w t s o p2 (sd_provider d) config Ho) as (r & s' & p3 & t' & l & R & [Ed Eo] & El & Er).
  change (sp_replacing p2) with (sp_replacing p) in El, Er. rewrite R. destruct r as [[]|e]; rewrite !run_on_page;
    do 3 eexists; (split; [reflexivity|]); cbv zeta; rewrite <- Er; cbn [is_ok].
  - split; [done|]. split; [done|]. split; [by exists l|]. done.
  - split; [done|]. split; [done|]. split; [by exists l|]. split; [done|].
    change (sp_open p3 = false -> false = true). rewrite Eo. change (sp_open p2) with (sp_open p). by rewrite Hopen.
Qed.

(** *** Refusals *)

(** Running a handler symbolically, texts and tests of texts aside. *)
Ltac handler_cbn := cbn -[js storageBase org_path includes truthy test_result test_failure disconnect_failure jeqb].

(** The page when the first reply to a handler's request has come. *)
Definition after_reply (h : prog ((Panel * Org) * StoragePage) unit) (r : reply) (s : (Panel * Org) * StoragePage) : config ((Panel * Org) * StoragePage) :=
  wake 0 true (fun _ => r) (fire true h {| state := s; tasks := [] |}).

(** A server that refuses, or does not know the connection. *)
Definition refused (r : reply) : Prop := exists st ct data, r = Response st ct data /\ (st = 403 \/ st = 404).

(** Refusals are not explained.  The page looks for the numbers 403 and 404 in the
    messages of the errors, but the functions it calls put texts without numbers there: when
    the server refuses to disconnect or to test the storage, or knows none, the page
    never says so, only that it failed or that the service is unavailable.  A refused
    disconnection ends there; after a refused test the connection is fetched again. *)
Theorem refusals_are_not_explained now s o p r :
  truthy (og_id o) = true -> refused r ->
  (let c := after_reply handleDisconnect r ((s, o), p) in
   tasks c = [] /\ state c = ((s, o), set_sp_banner (failure (js "Failed to disconnect storage.")) (set_sp_disconnecting false p))) /\
  (let c := after_reply (handleTest now) r ((s, o), p) in
   sp_banner (snd (state c)) = failure (js "Storage service temporarily unavailable.") /\
   exists h, tasks c = [h] /\ option_map (req_url ∘ fst) (first_request (state c) h) =
     Some (storageBase ++ org_path (og_id o) "/storage/connection")).
Proof.
  intros Ho (st & ct & data & -> & Hst).
  assert (forall data, exists e, test_result now st data = Throw e /\
      test_failure e = js "Storage service temporarily unavailable.") as Et
    by (intros; destruct Hst as [-> | ->]; eexists; (split; [reflexivity|vm_compute; reflexivity])).
  destruct (Et data) as (e & Ee & Ef). split.
  - unfold after_reply, handleDisconnect, org_id, fire, wake. handler_cbn. rewrite Ho. handler_cbn.
    destruct Hst as [-> | ->]; handler_cbn; (split; reflexivity).
  - unfold after_reply, handleTest, org_id, fire, wake. handler_cbn. rewrite Ho. handler_cbn. rewrite Ee. handler_cbn.
    rewrite Ef. handler_cbn. unfold refetchConnection, refetch, fetch_connection, or_empty, org_id. handler_cbn.
    rewrite Ho. handler_cbn. split; [reflexivity|]. eexists. split; [reflexivity|]. reflexivity.
Qed.

(** The dialog's organization id is the empty content of the page's [meta] element: the
    authorization of Google Drive is never requested. *)
Theorem google_is_never_asked w t s o p :
  exists p', run w t ((s, o), p) startGoogleAuthorization = (Ok tt, ((s, o), p'), t) /\
    sd_top_error (sp_dialog p') = js "Google Drive authorization is unavailable. Check OAuth configuration.".
Proof.
  unfold startGoogleAuthorization. rewrite run_bind, run_on_page, run_catch, run_bind. cbn [truthy meta_org_id pthrow lift run].
  eexists. split; reflexivity.
Qed.

End StorageRuns.

(** ** Concrete runs *)

#[local] Existing Instance panel_env.

Definition storing : Org := {|
  og_user := Some {| up_id := js "u1"; up_email := js "root@byos.email"; up_name := js "root" |}; og_id := js "o1";
  og_role := Some (js "owner"); og_plan := js "team"; og_loading := false |}.

(** A dialog with the credentials of a bucket. *)
Definition with_bucket : StoragePage :=
  openCreate (on_dialog (fun d => set_sd_secret_key (js "shhh") (set_sd_access_key (js "AKIA")
    (set_sd_bucket (js "mail") (set_sd_endpoint (js " https://s3.example.org ") d)))) new_storage_page).

(** A server that refuses everything. *)
Definition refusing : world := {| respond _ _ := Response 403 [] None; answer _ _ := true |}.

Lemma dialog_drops_the_credentials_witness :
  exists s' p' t', run refusing no_trace ((panel0, storing), with_bucket) dialog_handleSubmit =
      (Ok tt, ((s', storing), p'), t') /\
    no_credentials (sp_dialog p') /\ sd_submitting (sp_dialog p') = false.
Proof.
  destruct (dialog_drops_the_credentials refusing no_trace panel0 storing with_bucket eq_refl eq_refl)
    as (s' & p' & t' & R & E).
  assert (V : validateStorageConfig (sd_provider (sp_dialog with_bucket)) (dialog_config (sp_dialog with_bucket)) = valid)
    by (vm_compute; reflexivity).
  rewrite V in E. exists s', p', t'. split; [exact R|]. exact (conj (proj1 E) (proj1 (proj2 E))).
Defined.

Lemma refusals_are_not_explained_witness :
  sp_banner (snd (state (after_reply handleDisconnect (Response 403 [] None) ((panel0, storing), with_bucket)))) =
    failure (js "Failed to disconnect storage.").
Proof.
  assert (refused (Response 403 [] None)) as Hr by (exists 403, [], None; split; [reflexivity|left; reflexivity]).
  destruct (refusals_are_not_explained [] panel0 storing with_bucket _ eq_refl Hr) as [[_ E] _].
  rewrite E. reflexivity.
Defined.
