(* ===== verification/SupportCrm.v ===== *)
(** * The support console

    apps/support-crm/src: lib/api.ts, the client of the administrative API, and App.tsx, the
    console: organizations with optimistic updates, lookups of mailboxes, the telemetry
    window, interventions, and the export of the table.  The state is the browser's durable
    store with the console's signals and resources; saved files and the clipboard are
    recorded in it.  Tickets are sample data that nothing but the hardware key's dialog acts on. *)

From S2P Require Import Prelude JsString Json Regexp Client Api MailView Reading MailboxData SignIn OrgContext Page.

(** ** lib/api.ts *)

Record Organization := {
  co_id : jstr;
  co_name : jstr;
  co_plan : jstr;
  co_seats : Z;
  co_status : jstr;
  co_created : jstr;
  co_mailboxes : Z;
  co_used : Z;
  co_quota : Z }.

Definition set_co_status (v : jstr) (o : Organization) : Organization := {|
  co_id := co_id o; co_name := co_name o; co_plan := co_plan o; co_seats := co_seats o; co_status := v;
  co_created := co_created o; co_mailboxes := co_mailboxes o; co_used := co_used o; co_quota := co_quota o |}.
Definition set_co_seats (v : Z) (o : Organization) : Organization := {|
  co_id := co_id o; co_name := co_name o; co_plan := co_plan o; co_seats := v; co_status := co_status o;
  co_created := co_created o; co_mailboxes := co_mailboxes o; co_used := co_used o; co_quota := co_quota o |}.

(** [n || 10] *)
Definition or_ten (n : Z) : Z := if n =? 0 then 10 else n.

(** The members the console reads; the interface declares integers. *)
Definition organization_of (v : json) : Organization := {|
  co_id := str_field v "id"; co_name := str_field v "name"; co_plan := str_field v "plan";
  co_seats := or_ten (default 0 (int_opt v "seat_count")); co_status := str_field v "status";
  co_created := str_field v "created_at"; co_mailboxes := default 0 (int_opt v "mailbox_count");
  co_used := default 0 (int_opt v "storage_used"); co_quota := default 0 (int_opt v "storage_quota") |}.

Definition Store := gmap jstr jstr.

Definition getAdminToken (s : Store) : jstr :=
  or_default (default [] (s !! js "byos_support_admin_token")) (js "mock-support-agent").

(** [new Headers], with the token, and the type of a body. *)
Definition admin_headers (s : Store) (body : payload) : list (jstr * jstr) :=
  (js "Authorization", bearer (getAdminToken s))
    :: match body with NoBody => [] | _ => [(js "Content-Type", js "application/json")] end.

Definition admin_request (m : string) (endpoint : jstr) (body : payload) (s : Store) : request := {|
  req_method := js m; req_url := endpoint; req_headers := admin_headers s body; req_credentials := js "same-origin";
  req_body := body |}.

Definition admin_reply (r : reply) : outcome json :=
  match r with
  | NetworkFailure e => Throw e
  | Response st _ data =>
      if response_ok st then response_json data
      else
        let errText := match response_text data with Ok t => t | Throw _ => [] end in
        Throw (JsError (or_default errText (js "Request failed: HTTP " ++ num st)) None)
  end.

Definition adminFetch (m : string) (endpoint : jstr) (body : payload) : prog Store json :=
  s ← gets (fun s => s); r ← fetch (admin_request m endpoint body s); lift (admin_reply r).

(** [raw.map]; only a list has it. *)
Definition mapped {A} (f : json -> A) (raw : json) : outcome (list A) :=
  match raw with JArr l => Ok (map f l) | _ => throw "TypeError" end.

Definition getOrganizations : prog Store (list Organization) :=
  raw ← adminFetch "GET" (js "/admin/v1/organizations") NoBody; lift (mapped organization_of raw).

Definition org_endpoint (uuid : jstr) (action : string) : jstr := js "/admin/v1/organizations/" ++ uuid ++ js action.

Definition suspendOrganization (uuid status reason : jstr) : prog Store json :=
  adminFetch "POST" (org_endpoint uuid "/suspend")
    (stringified (JObj [str_member "status" status;
       str_member "reason" (or_default reason (js "Admin intervention status set to " ++ status))])).

Definition crm_updatePlan (uuid tier reason : jstr) : prog Store json :=
  adminFetch "POST" (org_endpoint uuid "/plan")
    (stringified (JObj [str_member "plan" tier;
       str_member "reason" (or_default reason (js "Admin plan adjustment to " ++ tier))])).

Definition updateCapacity (uuid : jstr) (seatCount : Z) (reason : jstr) : prog Store json :=
  adminFetch "POST" (org_endpoint uuid "/capacity")
    (stringified (JObj [(js "seat_count", JNum (num seatCount));
       str_member "reason" (or_default reason (js "Admin capacity adjustment to " ++ num seatCount ++ js " mailboxes"))])).

Definition triggerStateReset (uuid reason : jstr) : prog Store json :=
  adminFetch "POST" (org_endpoint uuid "/state-reset")
    (stringified (JObj [str_member "reason"
       (or_default reason (js "Admin triggered zero-knowledge offline verifier recovery flow"))])).

(** The entry with its two members under the names of the interface. *)
Definition audit_entry (v : json) : json :=
  let pick a b d := or_default (str_field v a) (or_default (str_field v b) (js d)) in
  match v with
  | JObj ms => JObj (spread ms [str_member "admin_uuid" (pick "admin_uuid" "actor_uuid" "admin_system");
                                str_member "action" (pick "action" "action_type" "UNKNOWN")])
  | _ => v
  end.

Definition getAuditLogs : prog Store (list json) :=
  raw ← adminFetch "GET" (js "/admin/v1/audit-logs") NoBody; lift (mapped audit_entry raw).

Definition getMailboxHealth (uuid : jstr) : prog Store json :=
  adminFetch "GET" (js "/admin/v1/mailboxes/" ++ uuid ++ js "/health") NoBody.

Definition executeIntervention (action targetMailboxUuid reason : jstr) : prog Store json :=
  adminFetch "POST" (js "/admin/v1/interventions/execute")
    (stringified (JObj [str_member "action" action; str_member "target_mailbox_uuid" targetMailboxUuid;
       str_member "reason" (or_default reason (js "Intervention " ++ action ++ js " dispatched"))])).

(** ** The console *)

Inductive Level := INFO | WARN | ERR.

Record TelemetryLog := {
  tl_id : jstr;
  tl_timestamp : jstr;
  tl_level : Level;
  tl_source : jstr;
  tl_message : jstr;
  tl_identifier : option jstr }.

Inductive TxStatus := Stalled | Processing | Resolved.

Record StalledTx := {
  st_id : jstr;
  st_mailbox : jstr;
  st_sanitized : jstr;
  st_reason : jstr;
  st_retries : Z;
  st_ago : jstr;
  st_status : TxStatus;
  st_audit : option jstr }.

Definition set_st_status (v : TxStatus) (x : StalledTx) : StalledTx := {|
  st_id := st_id x; st_mailbox := st_mailbox x; st_sanitized := st_sanitized x; st_reason := st_reason x;
  st_retries := st_retries x; st_ago := st_ago x; st_status := v; st_audit := st_audit x |}.
Definition set_st_audit (v : option jstr) (x : StalledTx) : StalledTx := {|
  st_id := st_id x; st_mailbox := st_mailbox x; st_sanitized := st_sanitized x; st_reason := st_reason x;
  st_retries := st_retries x; st_ago := st_ago x; st_status := st_status x; st_audit := v |}.

Record Notice := { nt_good : bool; nt_text : jstr; nt_audit : option jstr }.

Definition INITIAL_LOGS : list TelemetryLog := [
  {| tl_id := js "log-1"; tl_timestamp := js "13:42:01.041"; tl_level := INFO; tl_source := js "mail-router";
     tl_message := js "Outbound envelope verified with ed25519 signature";
     tl_identifier := Some (js "tx_901c4a8f") |};
  {| tl_id := js "log-2"; tl_timestamp := js "13:42:04.812"; tl_level := INFO; tl_source := js "crypto-worker";
     tl_message := js "Ephemeral ML-KEM-768 ciphertext decrypted into session key";
     tl_identifier := Some (js "mailbox_4a8f231b") |};
  {| tl_id := js "log-3"; tl_timestamp := js "13:42:15.220"; tl_level := WARN; tl_source := js "storage-worker";
     tl_message := js "High latency on S3 replica sync chunk_88. Retrying tier-2 write";
     tl_identifier := Some (js "blob_e3f19a02") |};
  {| tl_id := js "log-4"; tl_timestamp := js "13:42:28.910"; tl_level := INFO; tl_source := js "auth-gateway";
     tl_message := js "WebAuthn passkey assertion passed via FIDO2 authenticator";
     tl_identifier := Some (js "user_77c8b10e") |};
  {| tl_id := js "log-5"; tl_timestamp := js "13:42:44.119"; tl_level := ERR; tl_source := js "outbound-worker";
     tl_message := js "DKIM signature canonicalization rejected by remote MTA (554)";
     tl_identifier := Some (js "tx_3b81109a") |};
  {| tl_id := js "log-6"; tl_timestamp := js "13:43:02.404"; tl_level := INFO; tl_source := js "storage-worker";
     tl_message := js "Chunk deduplication pass completed. 1.4 GB reclaimed";
     tl_identifier := Some (js "pool_primary_s3") |} ].

Definition MOCK_STALLED_TXS : list StalledTx := [
  {| st_id := js "tx-1"; st_mailbox := js "4a8f231b-8e29-4d11-b921-26798031d200"; st_sanitized := js "mailbox_4a8f...d200";
     st_reason := js "S3 chunk #3 upload timeout during zero-knowledge blob stream"; st_retries := 3;
     st_ago := js "4m ago"; st_status := Stalled; st_audit := None |};
  {| st_id := js "tx-2"; st_mailbox := js "b821901a-63fc-4b55-891d-0081e28919a4"; st_sanitized := js "mailbox_b821...19a4";
     st_reason := js "Hardware WebAuthn session token expired during handshake"; st_retries := 2;
     st_ago := js "11m ago"; st_status := Stalled; st_audit := None |};
  {| st_id := js "tx-3"; st_mailbox := js "9c01f342-990a-4281-a3f8-6d2b451120e7"; st_sanitized := js "mailbox_9c01...20e7";
     st_reason := js "Outbound relay rate-limit threshold hit on upstream peer"; st_retries := 5;
     st_ago := js "19m ago"; st_status := Stalled; st_audit := None |} ].

Definition SIMULATED_POOL : list (Level * jstr * jstr * jstr) := [
  (INFO, js "mail-router",
   js "Inbound DMARC validation passed for incoming relay message", js "tx_1a49f012");
  (INFO, js "storage-worker",
   js "Encrypted blob chunk replicated across 3 multi-region nodes", js "blob_98c11a00");
  (WARN, js "auth-gateway",
   js "Rate-limiting burst window active for subnet 192.168.1.0/24", js "gw_limiter_edge");
  (INFO, js "crypto-worker",
   js "HKDF key derivation cycle executed for ephemeral outbound payload", js "sec_key_eph");
  (ERR, js "outbound-worker",
   js "Peer connection dropped abruptly during STARTTLS negotiation", js "mta_peer_6b") ].

Record Desk := {
  dk_orgs : Resource (list Organization);
  dk_audit : Resource (list json);
  dk_search : jstr;
  dk_plan : jstr;
  dk_state : jstr;
  dk_menu : option jstr;
  dk_capacity_for : option Organization;
  dk_seats : Z;
  dk_recovery_for : option Organization;
  dk_lookup_error : jstr;
  dk_health : option json;
  dk_loading : bool;
  dk_lookup : option jstr;
  dk_logs : list TelemetryLog;
  dk_stalled : list StalledTx;
  dk_streaming : bool;
  dk_notice : option Notice;
  dk_saved : list (jstr * jstr);
  dk_clipboard : option jstr }.

Definition set_dk_orgs (v : Resource (list Organization)) (x : Desk) : Desk := {|
  dk_orgs := v; dk_audit := dk_audit x; dk_search := dk_search x; dk_plan := dk_plan x; dk_state := dk_state x;
    dk_menu := dk_menu x; dk_capacity_for := dk_capacity_for x; dk_seats := dk_seats x; dk_recovery_for :=
    dk_recovery_for x; dk_lookup_error := dk_lookup_error x; dk_health := dk_health x; dk_loading := dk_loading
    x; dk_lookup := dk_lookup x; dk_logs := dk_logs x; dk_stalled := dk_stalled x; dk_streaming := dk_streaming
    x; dk_notice := dk_notice x; dk_saved := dk_saved x; dk_clipboard := dk_clipboard x |}.
Definition set_dk_audit (v : Resource (list json)) (x : Desk) : Desk := {|
  dk_orgs := dk_orgs x; dk_audit := v; dk_search := dk_search x; dk_plan := dk_plan x; dk_state := dk_state x;
    dk_menu := dk_menu x; dk_capacity_for := dk_capacity_for x; dk_seats := dk_seats x; dk_recovery_for :=
    dk_recovery_for x; dk_lookup_error := dk_lookup_error x; dk_health := dk_health x; dk_loading := dk_loading
    x; dk_lookup := dk_lookup x; dk_logs := dk_logs x; dk_stalled := dk_stalled x; dk_streaming := dk_streaming
    x; dk_notice := dk_notice x; dk_saved := dk_saved x; dk_clipboard := dk_clipboard x |}.
Definition set_dk_search (v : jstr) (x : Desk) : Desk := {|
  dk_orgs := dk_orgs x; dk_audit := dk_audit x; dk_search := v; dk_plan := dk_plan x; dk_state := dk_state x;
    dk_menu := dk_menu x; dk_capacity_for := dk_capacity_for x; dk_seats := dk_seats x; dk_recovery_for :=
    dk_recovery_for x; dk_lookup_error := dk_lookup_error x; dk_health := dk_health x; dk_loading := dk_loading
    x; dk_lookup := dk_lookup x; dk_logs := dk_logs x; dk_stalled := dk_stalled x; dk_streaming := dk_streaming
    x; dk_notice := dk_notice x; dk_saved := dk_saved x; dk_clipboard := dk_clipboard x |}.
Definition set_dk_plan (v : jstr) (x : Desk) : Desk := {|
  dk_orgs := dk_orgs x; dk_audit := dk_audit x; dk_search := dk_search x; dk_plan := v; dk_state := dk_state x;
    dk_menu := dk_menu x; dk_capacity_for := dk_capacity_for x; dk_seats := dk_seats x; dk_recovery_for :=
    dk_recovery_for x; dk_lookup_error := dk_lookup_error x; dk_health := dk_health x; dk_loading := dk_loading
    x; dk_lookup := dk_lookup x; dk_logs := dk_logs x; dk_stalled := dk_stalled x; dk_streaming := dk_streaming
    x; dk_notice := dk_notice x; dk_saved := dk_saved x; dk_clipboard := dk_clipboard x |}.
Definition set_dk_state (v : jstr) (x : Desk) : Desk := {|
  dk_orgs := dk_orgs x; dk_audit := dk_audit x; dk_search := dk_search x; dk_plan := dk_plan x; dk_state := v;
    dk_menu := dk_menu x; dk_capacity_for := dk_capacity_for x; dk_seats := dk_seats x; dk_recovery_for :=
    dk_recovery_for x; dk_lookup_error := dk_lookup_error x; dk_health := dk_health x; dk_loading := dk_loading
    x; dk_lookup := dk_lookup x; dk_logs := dk_logs x; dk_stalled := dk_stalled x; dk_streaming := dk_streaming
    x; dk_notice := dk_notice x; dk_saved := dk_saved x; dk_clipboard := dk_clipboard x |}.
Definition set_dk_menu (v : option jstr) (x : Desk) : Desk := {|
  dk_orgs := dk_orgs x; dk_audit := dk_audit x; dk_search := dk_search x; dk_plan := dk_plan x; dk_state :=
    dk_state x; dk_menu := v; dk_capacity_for := dk_capacity_for x; dk_seats := dk_seats x; dk_recovery_for :=
    dk_recovery_for x; dk_lookup_error := dk_lookup_error x; dk_health := dk_health x; dk_loading := dk_loading
    x; dk_lookup := dk_lookup x; dk_logs := dk_logs x; dk_stalled := dk_stalled x; dk_streaming := dk_streaming
    x; dk_notice := dk_notice x; dk_saved := dk_saved x; dk_clipboard := dk_clipboard x |}.
Definition set_dk_capacity_for (v : option Organization) (x : Desk) : Desk := {|
  dk_orgs := dk_orgs x; dk_audit := dk_audit x; dk_search := dk_search x; dk_plan := dk_plan x; dk_state :=
    dk_state x; dk_menu := dk_menu x; dk_capacity_for := v; dk_seats := dk_seats x; dk_recovery_for :=
    dk_recovery_for x; dk_lookup_error := dk_lookup_error x; dk_health := dk_health x; dk_loading := dk_loading
    x; dk_lookup := dk_lookup x; dk_logs := dk_logs x; dk_stalled := dk_stalled x; dk_streaming := dk_streaming
    x; dk_notice := dk_notice x; dk_saved := dk_saved x; dk_clipboard := dk_clipboard x |}.
Definition set_dk_seats (v : Z) (x : Desk) : Desk := {|
  dk_orgs := dk_orgs x; dk_audit := dk_audit x; dk_search := dk_search x; dk_plan := dk_plan x; dk_state :=
    dk_state x; dk_menu := dk_menu x; dk_capacity_for := dk_capacity_for x; dk_seats := v; dk_recovery_for :=
    dk_recovery_for x; dk_lookup_error := dk_lookup_error x; dk_health := dk_health x; dk_loading := dk_loading
    x; dk_lookup := dk_lookup x; dk_logs := dk_logs x; dk_stalled := dk_stalled x; dk_streaming := dk_streaming
    x; dk_notice := dk_notice x; dk_saved := dk_saved x; dk_clipboard := dk_clipboard x |}.
Definition set_dk_recovery_for (v : option Organization) (x : Desk) : Desk := {|
  dk_orgs := dk_orgs x; dk_audit := dk_audit x; dk_search := dk_search x; dk_plan := dk_plan x; dk_state :=
    dk_state x; dk_menu := dk_menu x; dk_capacity_for := dk_capacity_for x; dk_seats := dk_seats x;
    dk_recovery_for := v; dk_lookup_error := dk_lookup_error x; dk_health := dk_health x; dk_loading :=
    dk_loading x; dk_lookup := dk_lookup x; dk_logs := dk_logs x; dk_stalled := dk_stalled x; dk_streaming :=
    dk_streaming x; dk_notice := dk_notice x; dk_saved := dk_saved x; dk_clipboard := dk_clipboard x |}.
Definition set_dk_lookup_error (v : jstr) (x : Desk) : Desk := {|
  dk_orgs := dk_orgs x; dk_audit := dk_audit x; dk_search := dk_search x; dk_plan := dk_plan x; dk_state :=
    dk_state x; dk_menu := dk_menu x; dk_capacity_for := dk_capacity_for x; dk_seats := dk_seats x;
    dk_recovery_for := dk_recovery_for x; dk_lookup_error := v; dk_health := dk_health x; dk_loading :=
    dk_loading x; dk_lookup := dk_lookup x; dk_logs := dk_logs x; dk_stalled := dk_stalled x; dk_streaming :=
    dk_streaming x; dk_notice := dk_notice x; dk_saved := dk_saved x; dk_clipboard := dk_clipboard x |}.
Definition set_dk_health (v : option json) (x : Desk) : Desk := {|
  dk_orgs := dk_orgs x; dk_audit := dk_audit x; dk_search := dk_search x; dk_plan := dk_plan x; dk_state :=
    dk_state x; dk_menu := dk_menu x; dk_capacity_for := dk_capacity_for x; dk_seats := dk_seats x;
    dk_recovery_for := dk_recovery_for x; dk_lookup_error := dk_lookup_error x; dk_health := v; dk_loading :=
    dk_loading x; dk_lookup := dk_lookup x; dk_logs := dk_logs x; dk_stalled := dk_stalled x; dk_streaming :=
    dk_streaming x; dk_notice := dk_notice x; dk_saved := dk_saved x; dk_clipboard := dk_clipboard x |}.
Definition set_dk_loading (v : bool) (x : Desk) : Desk := {|
  dk_orgs := dk_orgs x; dk_audit := dk_audit x; dk_search := dk_search x; dk_plan := dk_plan x; dk_state :=
    dk_state x; dk_menu := dk_menu x; dk_capacity_for := dk_capacity_for x; dk_seats := dk_seats x;
    dk_recovery_for := dk_recovery_for x; dk_lookup_error := dk_lookup_error x; dk_health := dk_health x;
    dk_loading := v; dk_lookup := dk_lookup x; dk_logs := dk_logs x; dk_stalled := dk_stalled x; dk_streaming :=
    dk_streaming x; dk_notice := dk_notice x; dk_saved := dk_saved x; dk_clipboard := dk_clipboard x |}.
Definition set_dk_lookup (v : option jstr) (x : Desk) : Desk := {|
  dk_orgs := dk_orgs x; dk_audit := dk_audit x; dk_search := dk_search x; dk_plan := dk_plan x; dk_state :=
    dk_state x; dk_menu := dk_menu x; dk_capacity_for := dk_capacity_for x; dk_seats := dk_seats x;
    dk_recovery_for := dk_recovery_for x; dk_lookup_error := dk_lookup_error x; dk_health := dk_health x;
    dk_loading := dk_loading x; dk_lookup := v; dk_logs := dk_logs x; dk_stalled := dk_stalled x; dk_streaming
    := dk_streaming x; dk_notice := dk_notice x; dk_saved := dk_saved x; dk_clipboard := dk_clipboard x |}.
Definition set_dk_logs (v : list TelemetryLog) (x : Desk) : Desk := {|
  dk_orgs := dk_orgs x; dk_audit := dk_audit x; dk_search := dk_search x; dk_plan := dk_plan x; dk_state :=
    dk_state x; dk_menu := dk_menu x; dk_capacity_for := dk_capacity_for x; dk_seats := dk_seats x;
    dk_recovery_for := dk_recovery_for x; dk_lookup_error := dk_lookup_error x; dk_health := dk_health x;
    dk_loading := dk_loading x; dk_lookup := dk_lookup x; dk_logs := v; dk_stalled := dk_stalled x; dk_streaming
    := dk_streaming x; dk_notice := dk_notice x; dk_saved := dk_saved x; dk_clipboard := dk_clipboard x |}.
Definition set_dk_stalled (v : list StalledTx) (x : Desk) : Desk := {|
  dk_orgs := dk_orgs x; dk_audit := dk_audit x; dk_search := dk_search x; dk_plan := dk_plan x; dk_state :=
    dk_state x; dk_menu := dk_menu x; dk_capacity_for := dk_capacity_for x; dk_seats := dk_seats x;
    dk_recovery_for := dk_recovery_for x; dk_lookup_error := dk_lookup_error x; dk_health := dk_health x;
    dk_loading := dk_loading x; dk_lookup := dk_lookup x; dk_logs := dk_logs x; dk_stalled := v; dk_streaming :=
    dk_streaming x; dk_notice := dk_notice x; dk_saved := dk_saved x; dk_clipboard := dk_clipboard x |}.
Definition set_dk_streaming (v : bool) (x : Desk) : Desk := {|
  dk_orgs := dk_orgs x; dk_audit := dk_audit x; dk_search := dk_search x; dk_plan := dk_plan x; dk_state :=
    dk_state x; dk_menu := dk_menu x; dk_capacity_for := dk_capacity_for x; dk_seats := dk_seats x;
    dk_recovery_for := dk_recovery_for x; dk_lookup_error := dk_lookup_error x; dk_health := dk_health x;
    dk_loading := dk_loading x; dk_lookup := dk_lookup x; dk_logs := dk_logs x; dk_stalled := dk_stalled x;
    dk_streaming := v; dk_notice := dk_notice x; dk_saved := dk_saved x; dk_clipboard := dk_clipboard x |}.
Definition set_dk_notice (v : option Notice) (x : Desk) : Desk := {|
  dk_orgs := dk_orgs x; dk_audit := dk_audit x; dk_search := dk_search x; dk_plan := dk_plan x; dk_state :=
    dk_state x; dk_menu := dk_menu x; dk_capacity_for := dk_capacity_for x; dk_seats := dk_seats x;
    dk_recovery_for := dk_recovery_for x; dk_lookup_error := dk_lookup_error x; dk_health := dk_health x;
    dk_loading := dk_loading x; dk_lookup := dk_lookup x; dk_logs := dk_logs x; dk_stalled := dk_stalled x;
    dk_streaming := dk_streaming x; dk_notice := v; dk_saved := dk_saved x; dk_clipboard := dk_clipboard x |}.
Definition set_dk_saved (v : list (jstr * jstr)) (x : Desk) : Desk := {|
  dk_orgs := dk_orgs x; dk_audit := dk_audit x; dk_search := dk_search x; dk_plan := dk_plan x; dk_state :=
    dk_state x; dk_menu := dk_menu x; dk_capacity_for := dk_capacity_for x; dk_seats := dk_seats x;
    dk_recovery_for := dk_recovery_for x; dk_lookup_error := dk_lookup_error x; dk_health := dk_health x;
    dk_loading := dk_loading x; dk_lookup := dk_lookup x; dk_logs := dk_logs x; dk_stalled := dk_stalled x;
    dk_streaming := dk_streaming x; dk_notice := dk_notice x; dk_saved := v; dk_clipboard := dk_clipboard x |}.
Definition set_dk_clipboard (v : option jstr) (x : Desk) : Desk := {|
  dk_orgs := dk_orgs x; dk_audit := dk_audit x; dk_search := dk_search x; dk_plan := dk_plan x; dk_state :=
    dk_state x; dk_menu := dk_menu x; dk_capacity_for := dk_capacity_for x; dk_seats := dk_seats x;
    dk_recovery_for := dk_recovery_for x; dk_lookup_error := dk_lookup_error x; dk_health := dk_health x;
    dk_loading := dk_loading x; dk_lookup := dk_lookup x; dk_logs := dk_logs x; dk_stalled := dk_stalled x;
    dk_streaming := dk_streaming x; dk_notice := dk_notice x; dk_saved := dk_saved x; dk_clipboard := v |}.

Definition new_desk : Desk := {|
  dk_orgs := new_resource; dk_audit := new_resource; dk_search := []; dk_plan := js "all"; dk_state := js "all";
  dk_menu := None; dk_capacity_for := None; dk_seats := 10; dk_recovery_for := None; dk_lookup_error := [];
  dk_health := None; dk_loading := false; dk_lookup := None; dk_logs := INITIAL_LOGS; dk_stalled := MOCK_STALLED_TXS;
  dk_streaming := true; dk_notice := None; dk_saved := []; dk_clipboard := None |}.

(** [mutate(f)] of a resource. *)
Definition mutate {A} (f : A -> A) (r : Resource A) : Resource A :=
  {| rs_value := f <$> rs_value r; rs_error := rs_error r; rs_seq := rs_seq r |}.

(** [prev.map((x) => x.id === i ? f(x) : x)] *)
Definition update_where {A} (key : A -> jstr) (i : jstr) (f : A -> A) (l : list A) : list A :=
  map (fun x => if jeqb (key x) i then f x else x) l.

Definition on_org (i : jstr) (f : Organization -> Organization) (p : Desk) : Desk :=
  set_dk_orgs (mutate (update_where co_id i f) (dk_orgs p)) p.

Definition on_tx (i : jstr) (f : StalledTx -> StalledTx) (p : Desk) : Desk :=
  set_dk_stalled (update_where st_id i f (dk_stalled p)) p.

(** A random row of the pool is added while the stream is on; [now] is the clock's text
    and [stamp] its milliseconds. *)
Definition telemetry_tick (pick : nat) (now stamp : jstr) (p : Desk) : Desk :=
  match SIMULATED_POOL !! pick with
  | Some (level, source, message, identifier) =>
      if dk_streaming p then
        let next := dk_logs p ++ [{| tl_id := js "log-" ++ stamp; tl_timestamp := now; tl_level := level;
          tl_source := source; tl_message := message; tl_identifier := Some identifier |}] in
        set_dk_logs (if (50 <? length next)%nat then drop (length next - 50) next else next) p
      else p
  | None => p
  end.

(** ** Text fields of comma-separated values *)

(** Every quotation mark of the text is doubled. *)
Definition double_quotes (s : jstr) : jstr := concat (map (fun u => if u =? 34 then [34; 34] else [u]) s).

Definition in_quotes (s : jstr) : jstr := [34] ++ s ++ [34].

(** [x.toFixed(f)] of [x = bytes / 2 ^ 30], which is exact in binary64 for every safe
    integer: the digits of the nearest multiple of [10 ^ -f], the larger one of two. *)
Definition gb_units (f : nat) (b : Z) : Z := (2 * b * 10 ^ Z.of_nat f + 2 ^ 30) / 2 ^ 31.

Definition gb_fixed (f : nat) (b : Z) : jstr :=
  let m := pad_start (S f) 48 (num (gb_units f b)) in
  match f with
  | O => num (gb_units 0 b)
  | _ => take (length m - f) m ++ [46] ++ drop (length m - f) m
  end.

Definition csv_headers : list jstr := [
  js "Org UUID"; js "Organization Name"; js "Plan Tier"; js "Status"; js "Storage Used (GB)"; js "Storage Quota (GB)";
  js "Mailboxes Count"; js "Created At" ].

Definition csv_row (o : Organization) : list jstr := [
  in_quotes (co_id o); in_quotes (double_quotes (co_name o)); in_quotes (co_plan o); in_quotes (co_status o);
  gb_fixed 2 (co_used o); gb_fixed 0 (co_quota o); num (co_mailboxes o); in_quotes (co_created o) ].

Definition csvContent (l : list Organization) : jstr :=
  join [10] (join [44] csv_headers :: map (fun o => join [44] (csv_row o)) l).

(** [/^[0-9a-f]{8}-[0-9a-f]{4}-[0-9a-f]{4}-[0-9a-f]{4}-[0-9a-f]{12}$/i] *)
Definition uuidRegex : re :=
  let hex n := Times n (Chr is_hex) in
  let dash := Chr (Z.eqb 45) in
  Seq (hex 8%nat) (Seq dash (Seq (hex 4%nat) (Seq dash (Seq (hex 4%nat) (Seq dash (Seq (hex 4%nat) (Seq dash (hex 12%nat)))))))).

Section Console.
Context `{Unicode}.

Notation console := (prog (Store * Desk)).

Definition refetchOrgs : console unit := refetch dk_orgs set_dk_orgs (below getOrganizations).
Definition refetchAuditLogs : console unit := refetch dk_audit set_dk_audit (below getAuditLogs).

Definition notify (n : Notice) : console unit :=
  _ ← on_page (set_dk_notice (Some n)); spawn (_ ← wait; on_page (set_dk_notice None)).
Definition notify_success (text : jstr) (audit : option jstr) : console unit :=
  notify {| nt_good := true; nt_text := text; nt_audit := audit |}.
Definition notify_error (e : js_error) (d : string) : console unit :=
  notify {| nt_good := false; nt_text := or_default (message e) (js d); nt_audit := None |}.

Definition matches_filters (p : Desk) (o : Organization) : bool :=
  let q := trim (toLowerCase (dk_search p)) in
  let chosen f v := jeqb f (js "all") || jeqb (toLowerCase v) (toLowerCase f) in
  (negb (truthy q) || includes (toLowerCase (co_name o)) q || includes (toLowerCase (co_id o)) q)
  && chosen (dk_plan p) (co_plan o) && chosen (dk_state p) (co_status o).

Definition filteredOrganizations (p : Desk) : outcome (list Organization) :=
  l ← read (dk_orgs p); Ok (List.filter (matches_filters p) (default [] l)).

Definition reset_filters (p : Desk) : Desk := set_dk_state (js "all") (set_dk_plan (js "all") (set_dk_search [] p)).

Definition handleExportCSV : console unit :=
  p ← page (G:=Desk);
  l ← lift (filteredOrganizations p);
  _ ← on_page (fun p => set_dk_saved (dk_saved p ++ [(js "byos_organizations_export.csv", csvContent l)]) p);
  notify_success (js "Exported " ++ num (Z.of_nat (length l)) ++ js " organizations to byos_organizations_export.csv") None.

Definition triggerGlobalSearch (uuidToSearch : jstr) : console unit :=
  let trimmed := trim uuidToSearch in
  if negb (matches uuidRegex trimmed) then
    on_page (fun p => set_dk_lookup None (set_dk_health None (set_dk_lookup_error
      (js "Security Policy: Enter a valid 36-character UUID or transaction hash.") p)))
  else
    _ ← on_page (fun p => set_dk_lookup (Some trimmed) (set_dk_loading true (set_dk_lookup_error [] p)));
    finally
      (pcatch
         (data ← below (getMailboxHealth trimmed); on_page (set_dk_health (Some data)))
         (fun e => on_page (fun p => set_dk_health None (set_dk_lookup_error
            (or_default (message e) (js "Failed to reach Admin API")) p))))
      (on_page (set_dk_loading false)).

Definition toggled (status : jstr) : jstr := if jeqb status (js "suspended") then js "active" else js "suspended".

(** The row's organization is the one the menu was opened on. *)
Definition handleToggleSuspend (org : Organization) : console unit :=
  let targetStatus := toggled (co_status org) in
  _ ← on_page (fun p => on_org (co_id org) (set_co_status targetStatus) (set_dk_menu None p));
  pcatch
    (res ← below (suspendOrganization (co_id org) targetStatus (js "Admin operator toggled status to " ++ targetStatus));
     _ ← spawn refetchAuditLogs;
     v ← lift (reply_object (Some res));
     let audit := str_field v "audit_id" in
     notify_success (js "Organization " ++ co_name org ++ js " set to " ++ targetStatus ++ js ". Immutable Audit ID: " ++ audit)
       (Some audit))
    (fun e =>
       _ ← on_page (on_org (co_id org) (set_co_status (co_status org)));
       notify_error e "Failed to update organization status").

Definition open_capacity (org : Organization) (p : Desk) : Desk :=
  set_dk_menu None (set_dk_seats (or_ten (co_seats org)) (set_dk_capacity_for (Some org) p)).

Definition handleConfirmCapacityUpdate (org : Organization) (newSeats : Z) : console unit :=
  _ ← on_page (fun p => on_org (co_id org) (set_co_seats newSeats) (set_dk_capacity_for None p));
  pcatch
    (res ← below (updateCapacity (co_id org) newSeats
              (js "Admin operator adjusted capacity to " ++ num newSeats ++ js " mailboxes"));
     _ ← spawn refetchAuditLogs;
     v ← lift (reply_object (Some res));
     let audit := str_field v "audit_id" in
     notify_success (js "Capacity adjusted to " ++ num newSeats ++ js " mailboxes for " ++ co_name org
       ++ js ". Immutable Audit ID: " ++ audit) (Some audit))
    (fun e =>
       _ ← on_page (on_org (co_id org) (set_co_seats (or_ten (co_seats org))));
       notify_error e "Failed to adjust organization capacity").

Definition handleConfirmStateReset (org : Organization) : console unit :=
  _ ← on_page (set_dk_recovery_for None);
  pcatch
    (res ← below (triggerStateReset (co_id org) (js "Offline verifier challenge issued for " ++ co_name org));
     _ ← spawn refetchAuditLogs;
     v ← lift (reply_object (Some res));
     let audit := str_field v "audit_id" in
     notify_success (js "Offline verifier challenge issued for " ++ co_name org ++ js ". Ledger Audit ID: " ++ audit)
       (Some audit))
    (fun e => notify_error e "Failed to trigger state reset").

(** [s.slice(-4)] *)
Definition last_four (s : jstr) : jstr := drop (length s - 4) s.

(** [now] and [stamp] are the clock's when the reply has come. *)
Definition intervention_log (action auditId mailboxUuid now stamp : jstr) : TelemetryLog := {|
  tl_id := js "audit-" ++ stamp; tl_timestamp := now; tl_level := INFO; tl_source := js "admin-intervention";
  tl_message := js "Intervention " ++ toUpperCase action ++ js " committed to ledger [" ++ auditId ++ js "]";
  tl_identifier := Some (js "mailbox_" ++ take 4 mailboxUuid ++ js "..." ++ last_four mailboxUuid) |}.

Definition handleExecuteIntervention (now stamp txId mailboxUuid action : jstr) : console unit :=
  _ ← on_page (on_tx txId (set_st_status Processing));
  pcatch
    (res ← below (executeIntervention action mailboxUuid
              (js "Admin intervention initiated via Support Console (" ++ action ++ js ")"));
     v ← lift (reply_object (Some res));
     let auditId := or_default (str_field v "audit_id") (js "aud_verified") in
     _ ← on_page (on_tx txId (fun x => set_st_audit (Some auditId) (set_st_status Resolved x)));
     _ ← spawn refetchAuditLogs;
     _ ← on_page (fun p => set_dk_logs (dk_logs p ++ [intervention_log action auditId mailboxUuid now stamp]) p);
     notify_success (js "Action '" ++ action ++ js "' executed successfully. Audit signature: " ++ auditId) (Some auditId))
    (fun e =>
       _ ← on_page (on_tx txId (set_st_status Stalled));
       notify_error e "Failed to dispatch intervention.").

(** [supported] is whether the browser has WebAuthn, [assertion] what the hardware key
    answers to a fresh challenge. *)
Definition handleDecryptTicket (supported : bool) (assertion : outcome bool) (ticketId : jstr) : console unit :=
  if supported then
    pcatch
      (_ ← wait;
       found ← lift assertion;
       _ ← (if found : bool then skip else pthrow "No credential returned from hardware key.");
       notify_success (js "Hardware Key Assertion verified. Ticket " ++ ticketId
         ++ js " payload decrypted into secure memory enclave.") None)
      (fun e => notify {| nt_good := false; nt_audit := None;
         nt_text := js "Hardware key assertion failed: " ++ or_default (message e) (js "Operation cancelled or rejected.") |})
  else notify {| nt_good := false; nt_audit := None;
         nt_text := js "WebAuthn / Hardware Key authentication is not supported in this environment." |}.

Definition copy_uuid (org : Organization) : console unit :=
  _ ← on_page (set_dk_clipboard (Some (co_id org)));
  notify_success (js "Copied Org UUID " ++ co_id org ++ js " to clipboard") None.

End Console.

(** ** Reading the exported table *)

(** A reader of comma-separated values (RFC 4180, with bare line feeds): the records of a
    text; a field is quoted or bare, and in a quoted one a doubled quotation mark is one. *)
Inductive csv_mode := FieldStart | Bare | Inside | Closing.

Fixpoint csv_read (m : csv_mode) (field : jstr) (row : list jstr) (s : jstr) : list (list jstr) :=
  match s with
  | [] => [row ++ [field]]
  | u :: s =>
      match m with
      | Inside => if u =? 34 then csv_read Closing field row s else csv_read Inside (field ++ [u]) row s
      | _ =>
          if u =? 44 then csv_read FieldStart [] (row ++ [field]) s
          else if u =? 10 then (row ++ [field]) :: csv_read FieldStart [] [] s
          else match m with
               | Closing => if u =? 34 then csv_read Inside (field ++ [34]) row s else csv_read Bare (field ++ [u]) row s
               | FieldStart => if u =? 34 then csv_read Inside field row s else csv_read Bare (field ++ [u]) row s
               | _ => csv_read Bare (field ++ [u]) row s
               end
      end
  end.

Definition csv_records (s : jstr) : list (list jstr) := csv_read FieldStart [] [] s.

(** Where a field ends. *)
Definition ends (r : jstr) : Prop := match r with [] => True | u :: _ => u = 44 \/ u = 10 end.

Definition after_field (v : jstr) (row : list jstr) (r : jstr) : list (list jstr) :=
  match r with
  | [] => [row ++ [v]]
  | u :: r => if u =? 44 then csv_read FieldStart [] (row ++ [v]) r else (row ++ [v]) :: csv_read FieldStart [] [] r
  end.

(** The text [t] is a field that holds [v]. *)
Definition holds (t v : jstr) : Prop :=
  forall row r, ends r -> csv_read FieldStart [] row (t ++ r) = after_field v row r.

Lemma field_ends m v row r : m <> Inside -> ends r -> csv_read m v row r = after_field v row r.
Proof. intros Hm Hr. destruct r as [|u r]; [done|]. by destruct m, Hr as [-> | ->]. Qed.

Lemma inside_quotes s f row r :
  ends r -> csv_read Inside f row (double_quotes s ++ 34 :: r) = after_field (f ++ s) row r.
Proof.
  intros Hr. revert f. induction s as [|u s IH]; intros f.
  { rewrite app_nil_r. by apply (field_ends Closing). }
  unfold double_quotes. cbn [map concat]. fold (double_quotes s). destruct (u =? 34) eqn:E; zbool.
  - subst u. change (csv_read Inside (f ++ [34]) row (double_quotes s ++ 34 :: r) = after_field (f ++ 34 :: s) row r).
    by rewrite IH, <- app_assoc.
  - cbn [app csv_read]. rewrite (proj2 (Z.eqb_neq u 34) E), IH, <- app_assoc. done.
Qed.

Lemma holds_quoted s : holds (in_quotes (double_quotes s)) s.
Proof.
  intros row r Hr. unfold in_quotes. rewrite <- !app_assoc. cbn [app csv_read]. by apply inside_quotes.
Qed.

Lemma double_quotes_none s : forallb (fun u => negb (u =? 34)) s = true -> double_quotes s = s.
Proof.
  unfold double_quotes. induction s as [|u s IH]; [done|]. cbn [forallb map concat].
  intros [Hu%negb_true_iff Hs]%andb_true_iff. rewrite Hu, IH by done. done.
Qed.

Definition unquoted (s : jstr) : bool := forallb (fun u => negb (u =? 34)) s.

Lemma holds_plain s : unquoted s = true -> holds (in_quotes s) s.
Proof. intros Hs. rewrite <- (double_quotes_none s Hs) at 1. apply holds_quoted. Qed.

(** Digits, letters, spaces and full stops may stand bare. *)
Definition is_bare (u : Z) : bool := negb (u =? 34) && negb (u =? 44) && negb (u =? 10).

Lemma holds_bare s : forallb is_bare s = true -> holds s s.
Proof.
  intros Hs row r Hr.
  assert (Hb : forall f, csv_read Bare f row (s ++ r) = after_field (f ++ s) row r).
  { revert Hs. induction s as [|u s IH]; intros Hs f; [rewrite app_nil_r; by apply field_ends|].
    cbn [forallb] in Hs. apply andb_true_iff in Hs as [Hu Hs]. unfold is_bare in Hu.
    apply andb_true_iff in Hu as [[_ H1%negb_true_iff]%andb_true_iff H2%negb_true_iff].
    cbn [app csv_read]. rewrite H1, H2, IH, <- app_assoc by done. done. }
  destruct s as [|u s]; [by apply field_ends|]. pose proof (Hb []) as H0. cbn [forallb] in Hs.
  apply andb_true_iff in Hs as [Hu _]. unfold is_bare in Hu.
  apply andb_true_iff in Hu as [[H3%negb_true_iff H1%negb_true_iff]%andb_true_iff H2%negb_true_iff].
  cbn [app csv_read] in *. rewrite H1, H2, H3 in *. exact H0.
Qed.

Lemma digits_bare s : forallb is_digit s = true -> forallb is_bare s = true.
Proof.
  rewrite !forallb_forall. intros H u Hu. specialize (H u Hu). unfold is_digit in H. unfold is_bare. zbool.
  by rewrite (proj2 (Z.eqb_neq u 34)), (proj2 (Z.eqb_neq u 44)), (proj2 (Z.eqb_neq u 10)) by lia.
Qed.

Lemma num_bare n : 0 <= n -> forallb is_bare (num n) = true.
Proof. intros Hn. apply digits_bare. by destruct (num_spec n Hn) as (_ & ? & _). Qed.

Lemma gb_units_nonneg f b : 0 <= b -> 0 <= gb_units f b.
Proof. intros Hb. unfold gb_units. apply Z.div_pos; lia. Qed.

Lemma pad_bare n c s : is_bare c = true -> forallb is_bare s = true -> forallb is_bare (pad_start n c s) = true.
Proof.
  intros Hc Hs. unfold pad_start. rewrite forallb_app, Hs, andb_true_r.
  induction (n - length s)%nat; [done|]. cbn. by rewrite Hc.
Qed.

Lemma gb_bare f b : 0 <= b -> forallb is_bare (gb_fixed f b) = true.
Proof.
  intros Hb. pose proof (num_bare _ (gb_units_nonneg f b Hb)) as Hn. destruct f as [|f]; [exact Hn|].
  unfold gb_fixed. cbv zeta. pose proof (pad_bare (S (S f)) 48 _ eq_refl Hn) as Hp.
  set (m := pad_start _ _ _) in *. rewrite !forallb_app. change (forallb is_bare [46]) with true.
  rewrite <- (take_drop (length m - S f) m), forallb_app in Hp. apply andb_true_iff in Hp as [-> ->]. done.
Qed.

(** The figure is the nearest one with so many decimals. *)
Lemma gb_units_nearest f b : 0 <= b ->
  2 * Z.abs (b * 10 ^ Z.of_nat f - gb_units f b * 2 ^ 30) <= 2 ^ 30.
Proof. intros Hb. unfold gb_units. change (2 ^ 31) with (2 * 2 ^ 30). set (x := b * _). replace (2 * b * _) with (2 * x) by lia. zdm. Qed.

(** A record. *)
Lemma read_row ts vs row r :
  Forall2 holds ts vs -> ts <> [] -> match r with [] => True | u :: _ => u = 10 end ->
  csv_read FieldStart [] row (join [44] ts ++ r) =
  match r with [] => [row ++ vs] | _ :: r => (row ++ vs) :: csv_read FieldStart [] [] r end.
Proof.
  intros Ht Hne Hr. revert row. induction Ht as [|t v ts vs Hv Hts IH]; intros row; [done|].
  destruct Hts as [|t' v' ts vs Hv' Hts].
  - cbn [join]. rewrite Hv by (destruct r; [done|subst; by right]). destruct r as [|u r]; [done|]. by subst u.
  - rewrite join_cons2, <- !app_assoc, Hv by (by left). cbn [after_field app]. change (44 =? 44) with true. cbv iota.
    rewrite IH by done. destruct r; by rewrite <- !app_assoc.
Qed.

Lemma read_records rows :
  Forall (fun '(ts, vs) => Forall2 holds ts vs /\ ts <> []) rows -> rows <> [] ->
  csv_records (join [10] (map (fun x => join [44] (fst x)) rows)) = map snd rows.
Proof.
  unfold csv_records. intros Hr Hne. induction Hr as [|[ts vs] rows [H1 H2] Hr IH]; [done|].
  destruct rows as [|row rows].
  - cbn [map join]. rewrite <- (app_nil_r (join [44] _)). by rewrite (read_row ts vs).
  - cbn [map fst snd] in *. rewrite join_cons2, (read_row ts vs) by done. cbn [app]. by rewrite IH.
Qed.

(** What a record of the export says. *)
Definition row_values (o : Organization) : list jstr := [
  co_id o; co_name o; co_plan o; co_status o; gb_fixed 2 (co_used o); gb_fixed 0 (co_quota o); num (co_mailboxes o);
  co_created o ].

(** The texts the export does not escape have no quotation mark; counts are natural. *)
Definition exportable (o : Organization) : Prop :=
  unquoted (co_id o) = true /\ unquoted (co_plan o) = true /\ unquoted (co_status o) = true /\
  unquoted (co_created o) = true /\ 0 <= co_used o /\ 0 <= co_quota o /\ 0 <= co_mailboxes o.

Lemma csv_row_holds o : exportable o -> Forall2 holds (csv_row o) (row_values o).
Proof.
  intros (H1 & H2 & H3 & H4 & H5 & H6 & H7). unfold csv_row, row_values.
  repeat constructor; auto using holds_quoted, holds_plain, holds_bare, gb_bare, num_bare.
Qed.

Lemma headers_hold : Forall2 holds csv_headers csv_headers.
Proof. unfold csv_headers. repeat constructor; by apply holds_bare. Qed.

Lemma csv_round_trip l : Forall exportable l -> csv_records (csvContent l) = csv_headers :: map row_values l.
Proof.
  intros Hl. unfold csvContent.
  pose proof (read_records ((csv_headers, csv_headers) :: map (fun o => (csv_row o, row_values o)) l)) as H.
  cbn [map fst snd] in H. rewrite !map_map in H. apply H; [|done].
  constructor; [by split; [apply headers_hold|]|]. apply Forall_map, (Forall_impl _ _ _ Hl). intros o Ho.
  split; [by apply csv_row_holds|done].
Qed.

(** ** Running the console *)

Section ConsoleRuns.
Context `{HU : Unicode}.

Lemma run_adminFetch {G} w t st (g : G) m ep body :
  run w t (st, g) (below (adminFetch m ep body)) =
  (admin_reply (respond w t (admin_request m ep body st)), (st, g), ask (admin_request m ep body st) t).
Proof. rewrite run_below. reflexivity. Qed.

(** C31.  The export reads back.  What the console saves is, to a reader of comma-separated
    values, the heading and one record for each organization that passes the filters, in
    their order, whatever quotation marks, commas and line breaks are in its name; the
    columns it does not escape must have no quotation mark. *)
Theorem export_reads_back w t st p l :
  filteredOrganizations p = Ok l -> Forall exportable l ->
  exists p' file, run w t (st, p) handleExportCSV = (Ok tt, (st, p'), t) /\
    dk_saved p' = dk_saved p ++ [(js "byos_organizations_export.csv", file)] /\
    csv_records file = csv_headers :: map row_values l.
Proof.
  intros El Hl. exists (set_dk_notice None (set_dk_notice (Some {| nt_good := true;
    nt_text := js "Exported " ++ num (Z.of_nat (length l)) ++ js " organizations to byos_organizations_export.csv"; nt_audit := None |})
    (set_dk_saved (dk_saved p ++ [(js "byos_organizations_export.csv", csvContent l)]) p))), (csvContent l).
  split; [|split; [done|by apply csv_round_trip]].
  unfold handleExportCSV. rewrite run_page, El, bind_lift, run_bind, run_on_page. reflexivity.
Qed.

(** What is looked up.  A text the operator searches for reaches the administrative API
    only as the 36 hexadecimal digits and dashes of a UUID, in the path of one request;
    any other sends nothing and clears what was shown. *)
Theorem lookups_are_uuids w t st p text :
  exists p' t', run w t (st, p) (triggerGlobalSearch text) = (Ok tt, (st, p'), t') /\
    ((t' = t /\ dk_lookup p' = None /\ dk_health p' = None) \/
     (exists u, trim text = u /\ length u = 36%nat /\ Forall (fun c => is_hex c = true \/ c = 45) u /\
        dk_lookup p' = Some u /\ dk_loading p' = false /\
        t' = ask (admin_request "GET" (js "/admin/v1/mailboxes/" ++ u ++ js "/health") NoBody st) t)).
Proof.
  unfold triggerGlobalSearch. destruct (matches uuidRegex (trim text)) eqn:E.
  2:{ do 2 eexists. split; [reflexivity|]. by left. }
  apply matches_lang in E. cbn [negb]. rewrite run_bind, run_on_page, run_finally, run_catch, run_bind.
  unfold getMailboxHealth. rewrite run_adminFetch.
  assert (Hu : length (trim text) = 36%nat /\ Forall (fun c => is_hex c = true \/ c = 45) (trim text)).
  { unfold uuidRegex in E.
    repeat match goal with
    | H : lang (Seq _ _) _ |- _ => apply lang_seq_iff in H as (? & ? & ? & ? & ?)
    | H : lang (Times _ (Chr is_hex)) _ |- _ => apply lang_times_chr in H as [? ?]
    | H : lang (Chr _) _ |- _ => apply lang_chr_iff in H as (? & ? & ?)
    end.
    assert (Hh : forall s, forallb is_hex s = true -> Forall (fun c => is_hex c = true \/ c = 45) s).
    { intros s Hs. rewrite forallb_forall in Hs. apply Forall_forall. intros c Hc. left. apply Hs. by apply list_elem_of_In. }
    zbool. subst. repeat match goal with H : trim text = _ |- _ => rewrite H | H : _ = _ ++ _ |- _ => rewrite H end.
    subst. rewrite !length_app. split; [cbn [length]; lia|].
    rewrite !Forall_app. split_and!; auto; (constructor; [by right|constructor]). }
  destruct (admin_reply _) as [v|e]; rewrite !run_on_page; do 2 eexists; (split; [reflexivity|]); right; exists (trim text);
    (split; [done|]); destruct Hu as [Hl Hf]; by split_and!.
Qed.

(** *** Optimistic updates *)

Lemma update_where_id {A} (key : A -> jstr) i (f g : A -> A) l :
  (forall x, key (f x) = key x) -> update_where key i g (update_where key i f l) = update_where key i (g ∘ f) l.
Proof.
  intros Hk. unfold update_where. rewrite map_map. apply map_ext. intros x.
  destruct (jeqb (key x) i) eqn:E; [by rewrite Hk, E|by rewrite E].
Qed.

Lemma update_where_same {A} (key : A -> jstr) (x : A) (f : A -> A) l :
  NoDup (map key l) -> x ∈ l -> f x = x -> update_where key (key x) f l = l.
Proof.
  intros Hn Hx Hf. unfold update_where. rewrite <- (map_id l) at 2. apply map_ext_in. intros y Hy.
  destruct (jeqb (key y) (key x)) eqn:E; [|done]. apply jeqb_eq in E.
  apply list_elem_of_In in Hy. apply list_elem_of_lookup in Hy as [i Hi]. apply list_elem_of_lookup in Hx as [j Hj].
  assert (i = j); [|by simplify_eq].
  eapply (NoDup_lookup _ _ _ (key x)); [exact Hn| |]; rewrite list_lookup_fmap_alt || rewrite list_lookup_fmap.
  - by rewrite Hi, <- E.
  - by rewrite Hj.
Qed.

Lemma resource_eta {A} (r : Resource A) v :
  rs_value r = Some v -> r = {| rs_value := Some v; rs_error := rs_error r; rs_seq := rs_seq r |}.
Proof. destruct r. cbn. by intros ->. Qed.

(** An update and its way back leave the list as it was. *)
Lemma roll_back p l org (f g : Organization -> Organization) :
  rs_value (dk_orgs p) = Some l -> org ∈ l -> NoDup (map co_id l) ->
  (forall x, co_id (f x) = co_id x) -> g (f org) = org ->
  mutate (update_where co_id (co_id org) g) (mutate (update_where co_id (co_id org) f) (dk_orgs p)) = dk_orgs p.
Proof.
  intros El Ho Hn Hf Hg. rewrite (resource_eta (dk_orgs p) l El). unfold mutate. cbn [rs_value rs_error rs_seq fmap option_fmap option_map].
  rewrite update_where_id by done. by rewrite (update_where_same co_id org (g ∘ f)).
Qed.

(** Fetching the audit log again touches its resource only. *)
Lemma run_refetchAudit w t st p :
  exists r, run w t (st, p) refetchAuditLogs =
    (Ok tt, (st, set_dk_audit r p), ask (admin_request "GET" (js "/admin/v1/audit-logs") NoBody st) t).
Proof.
  unfold refetchAuditLogs, refetch. rewrite run_bind, run_on_page, run_page, run_catch, run_bind.
  unfold getAuditLogs. rewrite run_below, run_bind.
  change (run w t st (adminFetch "GET" (js "/admin/v1/audit-logs") NoBody)) with
    (admin_reply (respond w t (admin_request "GET" (js "/admin/v1/audit-logs") NoBody st)), st,
     ask (admin_request "GET" (js "/admin/v1/audit-logs") NoBody st) t).
  destruct (admin_reply _) as [raw|e]; [destruct (mapped _ raw)|]; cbn [lift run]; rewrite run_on_page; by eexists.
Qed.

Definition suspend_request (org : Organization) (st : Store) : request :=
  let target := toggled (co_status org) in
  admin_request "POST" (org_endpoint (co_id org) "/suspend")
    (stringified (JObj [str_member "status" target; str_member "reason" (js "Admin operator toggled status to " ++ target)])) st.

Definition capacity_request (org : Organization) (seats : Z) (st : Store) : request :=
  admin_request "POST" (org_endpoint (co_id org) "/capacity")
    (stringified (JObj [(js "seat_count", JNum (num seats));
       str_member "reason" (js "Admin operator adjusted capacity to " ++ num seats ++ js " mailboxes")])) st.

(** What the console makes of a reply to an action. *)
Definition accepted (r : reply) : bool := is_ok (v ← admin_reply r; reply_object (Some v)).

(** The actions have one shape: the request, then the audit log and a notice, or the way
    back and a notice. *)
Lemma run_action w t st p m ep body (note : jstr -> prog (Store * Desk) unit) i g d :
  (forall a w t st p, exists p', run w t (st, p) (note a) = (Ok tt, (st, p'), t) /\ dk_orgs p' = dk_orgs p) ->
  let q := admin_request m ep body st in
  exists p' l, run w t (st, p)
    (pcatch
      (res ← below (adminFetch m ep body);
       _ ← spawn refetchAuditLogs;
       v ← lift (reply_object (Some res));
       note (str_field v "audit_id"))
      (fun e => _ ← on_page (on_org i g); notify_error e d)) = (Ok tt, (st, p'), {| sent := sent t ++ q :: l; asked := asked t |}) /\
    dk_orgs p' = if accepted (respond w t q) then dk_orgs p
               else mutate (update_where co_id i g) (dk_orgs p).
Proof.
  intros Hnote q. rewrite run_catch, run_bind, run_adminFetch. fold q. unfold accepted.
  destruct (admin_reply (respond w t q)) as [res|e]; ok_bind.
  - destruct (run_refetchAudit w (ask q t) st p) as [r R].
    rewrite run_bind. cbn [spawn run]. rewrite R. cbv iota beta.
    destruct (reply_object (Some res)) as [v|e]; rewrite bind_lift.
    + destruct (Hnote (str_field v "audit_id") w (ask (admin_request "GET" (js "/admin/v1/audit-logs") NoBody st) (ask q t)) st
        (set_dk_audit r p)) as (p' & R' & Ep). rewrite R'. cbv iota beta. exists p'. eexists. split; [|exact Ep].
      unfold ask. cbn [sent asked]. by rewrite <- app_assoc.
    + cbn [run]. rewrite run_bind, run_on_page. unfold ask. cbn [sent asked]. rewrite <- app_assoc.
      eexists _, _. split; reflexivity.
  - cbn [run]. rewrite run_bind, run_on_page. eexists _, []. split; reflexivity.
Qed.

Lemma note_success a b w t st p :
  exists p', run w t (st, p) (notify_success a b) = (Ok tt, (st, p'), t) /\ dk_orgs p' = dk_orgs p.
Proof. eexists. split; reflexivity. Qed.

(** An action on the row [i] that sends [q]: the row shows [ask_for] when the request goes
    out, before any reply.  Whatever the table has become by the time the reply comes
    ([p2]), an accepted action leaves it, a refused one applies [way_back] to the row. *)
Definition optimistic (action : prog (Store * Desk) unit) (q : request) (i : jstr)
    (ask_for way_back : Organization -> Organization) (st : Store) (p : Desk) : Prop :=
  exists p1 k,
    (forall ok, advance ok (st, p) action = ((st, p1), Some (Fetch q k), [])) /\
    dk_orgs p1 = mutate (update_where co_id i ask_for) (dk_orgs p) /\
    (forall w t, run w t (st, p) action = run w (ask q t) (st, p1) (k (respond w t q))) /\
    forall w t p2, exists p' qs,
      run w (ask q t) (st, p2) (k (respond w t q)) =
        (Ok tt, (st, p'), {| sent := sent t ++ q :: qs; asked := asked t |}) /\
      dk_orgs p' = if accepted (respond w t q) then dk_orgs p2 else mutate (update_where co_id i way_back) (dk_orgs p2).

(** An optimistic action running alone, whose way back undoes what it asked for. *)
Definition all_or_nothing (action : prog (Store * Desk) unit) (q : request) (i : jstr)
    (ask_for : Organization -> Organization) (st : Store) (p : Desk) : Prop :=
  forall w t, exists p' qs, run w t (st, p) action =
      (Ok tt, (st, p'), {| sent := sent t ++ q :: qs; asked := asked t |}) /\
    dk_orgs p' = if accepted (respond w t q) then mutate (update_where co_id i ask_for) (dk_orgs p) else dk_orgs p.

Lemma optimistic_alone action q org f g st p l :
  optimistic action q (co_id org) f g st p -> rs_value (dk_orgs p) = Some l -> org ∈ l -> NoDup (map co_id l) ->
  (forall x, co_id (f x) = co_id x) -> g (f org) = org -> all_or_nothing action q (co_id org) f st p.
Proof.
  intros (p1 & k & _ & E1 & R & Hk) El Ho Hn Hf Hg w t. destruct (Hk w t p1) as (p' & qs & Rk & E).
  exists p', qs. rewrite R. split; [exact Rk|]. rewrite E, E1. destruct (accepted _); [done|]. by apply (roll_back p l).
Qed.

Lemma toggle_optimistic st p org :
  optimistic (handleToggleSuspend org) (suspend_request org st) (co_id org)
    (set_co_status (toggled (co_status org))) (set_co_status (co_status org)) st p.
Proof.
  eexists _, _. split; [intros ok; reflexivity|]. split; [reflexivity|]. split; [reflexivity|]. intros w t p2.
  exact (run_action w t st p2 "POST" (org_endpoint (co_id org) "/suspend")
    (stringified (JObj [str_member "status" (toggled (co_status org));
       str_member "reason" (js "Admin operator toggled status to " ++ toggled (co_status org))]))
    (fun audit => notify_success (js "Organization " ++ co_name org ++ js " set to " ++ toggled (co_status org)
       ++ js ". Immutable Audit ID: " ++ audit) (Some audit))
    (co_id org) (set_co_status (co_status org)) "Failed to update organization status"
    ltac:(intros; apply note_success)).
Qed.

Lemma capacity_optimistic st p org seats :
  optimistic (handleConfirmCapacityUpdate org seats) (capacity_request org seats st) (co_id org)
    (set_co_seats seats) (set_co_seats (if co_seats org =? 0 then 10 else co_seats org)) st p.
Proof.
  eexists _, _. split; [intros ok; reflexivity|]. split; [reflexivity|]. split; [reflexivity|]. intros w t p2.
  exact (run_action w t st p2 "POST" (org_endpoint (co_id org) "/capacity")
    (stringified (JObj [(js "seat_count", JNum (num seats));
       str_member "reason" (js "Admin operator adjusted capacity to " ++ num seats ++ js " mailboxes")]))
    (fun audit => notify_success (js "Capacity adjusted to " ++ num seats ++ js " mailboxes for " ++ co_name org
       ++ js ". Immutable Audit ID: " ++ audit) (Some audit))
    (co_id org) (set_co_seats (or_ten (co_seats org))) "Failed to adjust organization capacity"
    ltac:(intros; apply note_success)).
Qed.

(** C30.  Optimistic updates and their way back.  Suspending an organization, or changing its
    seats, shows what was asked for when its one request goes out, before any reply.  When
    the reply comes, an accepted action leaves the table as it then is; a refused one, or
    one that did not reach the server, sets that row's status, or its seats, back to what
    they were when the action began - 10 seats where there were 0 - whatever others have
    changed meanwhile.  So an action that runs alone, in a table whose ids are distinct and,
    for the seats, on a row that has some, changes exactly its row when it is accepted and
    leaves the table exactly as it was when it is refused. *)
Theorem optimistic_updates_roll_back st p org seats :
  optimistic (handleToggleSuspend org) (suspend_request org st) (co_id org)
    (set_co_status (toggled (co_status org))) (set_co_status (co_status org)) st p /\
  optimistic (handleConfirmCapacityUpdate org seats) (capacity_request org seats st) (co_id org)
    (set_co_seats seats) (set_co_seats (if co_seats org =? 0 then 10 else co_seats org)) st p /\
  forall l, rs_value (dk_orgs p) = Some l -> org ∈ l -> NoDup (map co_id l) ->
    all_or_nothing (handleToggleSuspend org) (suspend_request org st) (co_id org)
      (set_co_status (toggled (co_status org))) st p /\
    (co_seats org <> 0 ->
     all_or_nothing (handleConfirmCapacityUpdate org seats) (capacity_request org seats st) (co_id org)
       (set_co_seats seats) st p).
Proof.
  pose proof (toggle_optimistic st p org) as Ht. pose proof (capacity_optimistic st p org seats) as Hc.
  split_and!; [done..|]. intros l El Ho Hn. split.
  - eapply optimistic_alone; [exact Ht|done..|]. by destruct org.
  - intros Hs. eapply optimistic_alone; [exact Hc|done..|].
    destruct (co_seats org =? 0) eqn:E0; zbool; [lia|]. by destruct org.
Qed.

End ConsoleRuns.

(** ** Concrete runs *)

#[local] Existing Instance ascii_unicode.

Definition acme : Organization := {|
  co_id := js "o1"; co_name := js "Acme, " ++ in_quotes (js "the") ++ js " Company"; co_plan := js "team"; co_seats := 10;
  co_status := js "active"; co_created := js "2026-01-01"; co_mailboxes := 3; co_used := 1610612736; co_quota := 10737418240 |}.

Definition desk_of (l : list Organization) : Desk :=
  set_dk_orgs {| rs_value := Some l; rs_error := None; rs_seq := 1 |} new_desk.

Definition out_of_order : world := {| respond _ _ := Response 500 [] None; answer _ _ := true |}.

Lemma export_reads_back_witness :
  exists p' file, run out_of_order no_trace (∅, desk_of [acme]) handleExportCSV = (Ok tt, (∅, p'), no_trace) /\
    csv_records file = [csv_headers; [js "o1"; co_name acme; js "team"; js "active"; js "1.50"; js "10"; js "3"; js "2026-01-01"]] /\
    dk_saved p' = [(js "byos_organizations_export.csv", file)].
Proof.
  destruct (export_reads_back out_of_order no_trace ∅ (desk_of [acme]) [acme]) as (p' & file & R & Es & Ef).
  - vm_compute. reflexivity.
  - constructor; [|constructor]. unfold exportable. split_and!; first [reflexivity | cbn; lia].
  - exists p', file. split; [exact R|]. split; [exact Ef|exact Es].
Defined.

Lemma optimistic_updates_roll_back_witness :
  exists p' qs, run out_of_order no_trace (∅, desk_of [acme]) (handleToggleSuspend acme) =
      (Ok tt, (∅, p'), {| sent := suspend_request acme ∅ :: qs; asked := [] |}) /\
    rs_value (dk_orgs p') = Some [acme].
Proof.
  destruct (optimistic_updates_roll_back ∅ (desk_of [acme]) acme 20) as (_ & _ & H).
  destruct (H [acme]) as [Ht _]; [reflexivity|left|apply NoDup_singleton|].
  destruct (Ht out_of_order no_trace) as (p' & qs & R & E).
  exists p', qs. split; [exact R|]. rewrite E. reflexivity.
Defined.

(** Two actions that overlap: the second starts from what the first has only asked for, and
    its way back restores that.  Suspended, then reactivated, both refused: the server still
    has the organization active, the table shows it suspended. *)
Definition refused_reply : nat -> reply := fun _ => Response 500 [] None.

Example overlapping_rollbacks :
  let c := {| state := (∅, desk_of [acme]); tasks := [] |} in
  let c := fire true (handleToggleSuspend acme) c in
  let c := fire true (handleToggleSuspend (set_co_status (js "suspended") acme)) c in
  let c := wake 1 true refused_reply (wake 0 true refused_reply c) in
  map co_status <$> rs_value (dk_orgs (snd (state c))) = Some [js "suspended"].
Proof. vm_compute. reflexivity. Qed.

(** A ticket is declared decrypted when the hardware key has answered; nothing is decrypted. *)
Theorem decryption_is_announced_only w t st p i :
  exists p', run w t (st, p) (handleDecryptTicket true (Ok true) i) = (Ok tt, (st, p'), t) /\
    p' = set_dk_notice None p.
Proof. eexists. split; reflexivity. Qed.
